(* ===== verification/_CoqProject ===== *)
-Q . S2P
Prelude.v
GoStrings.v
GoUrl.v
Codec.v
Utf8.v
Json.v
JsonEnc.v
GoAny.v
Jcs.v
JsonRound.v
UserKeys.v
Secrets.v
Placeholders.v
UnitPolicy.v
RootHelper.v
JsonDec.v
ReadinessConfig.v
Materialize.v
MaterializeProps.v
SystemSpec.v
ManagedUnit.v
Store.v
StoreInv.v
StoreProps.v
SignedMut.v
AuditLog.v
Trust.v
BasicAuth.v
Dispatch.v
DispatchProps.v
Host.v
Container.v
Compose.v
WorkQueue.v
Observed.v
Prober.v
Caddyfile.v
Ingress.v
IngressProps.v
ComposeRun.v
ComposeProps.v
SystemParse.v
Reconciler.v
ReconcilerProps.v
Ipc.v
IpcProps.v
Fs.v
Files.v
FilesProps.v
Logs.v
Linux.v
LinuxProps.v
HookRunner.v
HookProps.v
Darwin.v
DarwinProps.v
Services.v
Flags.v
Ctl.v
CtlProps.v
ClientServer.v
Frames.v
WsUrl.v
WsClient.v
Channel.v
Agent.v
AgentProps.v
Compat.v
CompatProps.v
Pull.v
Register.v
Telemetry.v
Loops.v
Start.v
Diskcheck.v
Migrate.v
TelemetryMac.v
Device.v
Stubs.v
