(* ===== verification/Prelude.v ===== *)
(** * A verification library for obacht-agent (root file)

    obacht-agent is the daemon of a self-hosted device (a Raspberry Pi, a Linux
    box or a Mac).  It keeps the instances, domains and secrets the owner wants
    in one SQLite file, runs them as containers, compose bundles or system
    services, publishes them through a Caddy proxy, and talks to a backend that
    it does not trust: the backend sees a snapshot and may relay mutations, but
    a mutation counts only when a key the owner pinned on the device signed it.

    ** The parts, and the files that model them

    Names below are paths in the repository; a file of this library models the
    code its own header names, one Definition per function, with the source's
    names where Rocq allows them.

    The language and its library: GoStrings.v (package strings), GoUrl.v
    (path/filepath, the validating half of net/url), Codec.v (hex, base64),
    Utf8.v, Json.v / JsonEnc.v / JsonDec.v / JsonRound.v (encoding/json),
    GoAny.v (any trees), Flags.v (package flag), Fs.v (package os over a file
    system with links), Host.v (programs over a host that can fail).

    Trust: Trust.v (internal/trust, internal/selfupdate, manifest.Verify),
    UserKeys.v and SignedMut.v with Jcs.v (internal/signedmut: pinned keys,
    envelopes, canonical JSON), Dispatch.v (internal/sync/signed_mutation.go),
    AuditLog.v (internal/audit), BasicAuth.v (internal/basicauth), Secrets.v
    (internal/redact, internal/manifest/secrets.go).

    State: Store.v (internal/store: every statement over a record of tables
    with the constraints of the schema), StoreInv.v, StoreProps.v, Migrate.v
    (its opening and its migration files).

    Templates: Placeholders.v, Materialize.v (internal/manifest), SystemSpec.v,
    SystemParse.v, ManagedUnit.v (internal/runtime/system: specs and the
    generated unit), UnitPolicy.v (internal/unitpolicy) and RootHelper.v
    (cmd/obacht-power-toggle), the only code that runs as root.

    Runtimes: Container.v and Pull.v (internal/runtime/container), Compose.v
    and ComposeRun.v (internal/runtime/compose), Linux.v, Darwin.v,
    HookRunner.v, Services.v (internal/runtime/system), Caddyfile.v and
    Ingress.v (internal/ingress), ReadinessConfig.v and Prober.v
    (internal/readiness).

    The loop: WorkQueue.v, Reconciler.v (internal/reconciler/loop.go) and
    Loops.v (its goroutines' wake-ups, with those of internal/sync).

    The doors: Ipc.v (internal/ipc, the local API), Ctl.v (cmd/obachtctl),
    Frames.v, WsUrl.v, WsClient.v (internal/api/wsclient.go), Observed.v
    (internal/sync/syncer.go), Files.v (internal/files), Logs.v
    (internal/logs), Channel.v (the wiring of cmd/obacht-agent/main.go),
    Agent.v (internal/config, internal/bootstrap, internal/enckey, the key
    import and release check of cmd/obacht-agent), Start.v (the order in which
    main wires and starts the parts), Compat.v (internal/compat), Register.v
    (sendRegister, internal/inventory), Telemetry.v and TelemetryMac.v
    (internal/telemetry), Diskcheck.v (internal/diskcheck).  A file FooProps.v holds the theorems about
    Foo.v; ClientServer.v puts Ctl.v on top of Ipc.v, and Device.v puts the
    channel, the loops and the local API on one database.  Stubs.v has the
    platforms without drivers.

    ** How they interact

    The state that parts share is the database: a [Store.DB] in the state of
    the component.  Handlers are functions from it (and from what else they
    touch) to a result and the next state; [Ipc.serve] and [Dispatch] write it,
    [Reconciler] reads desired and writes observed state, [Observed] and
    [Caddyfile] read it.  Where goroutines share state under a mutex the model
    is a list of critical sections, and a theorem about it holds for every
    interleaving (WorkQueue, Loops, Prober, HookRunner, WsClient).  What is outside the
    repository is a class of answers or a section variable: Ed25519, SHA-256,
    bcrypt, minisign, X25519 and X.509 parsing, the YAML decoder, the docker
    engine ([Container.Engine]), the docker command line and the workspace
    ([ComposeRun.ComposeHost]), the proxy's container ([Ingress.CaddyHost]),
    sudo, systemd and the network ([RootHelper.host], [Linux.Agent],
    [Services.Systemd]), launchd ([Darwin.Mac]), probes ([Prober.world]), the
    backend's replies, the files and interfaces of the host and the disk
    ([Compat.machine], [Telemetry.Host], [Fs.Disk]).  Of the language's own
    tables, letters above Latin-1 are [Compat.Tables] and texts of float64
    quotients [Telemetry.Floats].  A theorem either holds for all
    their answers or names the law it needs (as [Container.EngineLaws] and
    [Ingress.CaddyLaws] do), and its witness instantiates it.

    ** What the theorems show

    What the backend can do: a frame changes instances, domains and routes only
    as a mutation signed by a pinned key, and files only inside a webroot that
    no link leads out of (Channel.v, from SignedMut.v, Observed.v and FilesProps.v); an accepted
    envelope is authentic and is accepted once; an install needs the registry's
    signature (DispatchProps.v); the websocket client sends the token to the
    configured host only (WsClient.v); neither the snapshot nor the registration shows secrets or
    tokens (Observed.v, Register.v, CompatProps.v).

    What the device wants and runs: in every interleaving of backend frames,
    loops and templates' requests, a row changes only by a mutation that the
    user signed about it, what it asks for comes from a manifest the registry
    signed, and a container that is reported as installed runs for such a row,
    made with the image, command and environment of its specification
    (Device.v, Container.v).

    What a local caller can do: a template reaches and learns its own instance
    only, an admin's changes are audited when the database takes the row
    (IpcProps.v); the command line client
    does what direct mode does (ClientServer.v).

    What runs as root: the helper changes fixed files and policy-conforming
    units only (RootHelper.v), the policy decides its declarative form
    (UnitPolicy.v), the generator always satisfies it (ManagedUnit.v), and the
    drivers stay within their files with pinned binaries (LinuxProps.v,
    DarwinProps.v).

    What the loop does: the user's wishes are never edited, removed instances
    leave what a failed statement keeps and nothing else, installed means running
    (ReconcilerProps.v); a request for a pass waits, is read, or meets a turn
    that could not read, and the next one that can reads everything (Loops.v);
    a starting phase ends in time, with a verdict unless it was cancelled
    (Prober.v); the queue, the prober and the hook runner
    keep their invariants in every interleaving (WorkQueue.v, Prober.v,
    HookProps.v); drivers converge (Container.v, IngressProps.v, LinuxProps.v).
    A start that fails anywhere in the migrations is made up for by the next
    one (Migrate.v), and main wires every part before it starts the goroutine
    that relies on it (Start.v).

    What texts mean: the Caddyfile, property lists, compose scalars and JSON
    read back as what was put in, whatever it is (Caddyfile.v, DarwinProps.v,
    ComposeProps.v, JsonRound.v, Frames.v).

    Examples named in the findings of the manifest show by computation where
    the code does something else than its comments say.

    ** Bounds and fuel

    Recursion that is not structural takes fuel that is shown to be enough or
    is a bound of the code itself: a starting phase has 362 probes (the largest
    timeout over the interval, [Prober.starting_decides]), placeholders are
    substituted in 5 passes as in the code, a path follows at most 40 links as
    the kernel does, a download at most 10 addresses as net/http does, the wait
    for a port 122 attempts ([HookProps.waitTCP_terminates]), the reader of
    property lists one step per tag, the splitters of arrays and of pull
    streams one step per value, which the number of bytes bounds, an IPv6 text
    one step per group, the inventory's number printer as many as the number
    ([Register.inv_itoa_pretty]).
    JSON is nested at most 10000 deep as in encoding/json.  Integers whose
    width matters are [Z] with [wrap64] written out.

    ** Not modelled

    What the SQL of a migration does; the constraints it installs are part of
    Store.v.  Failures of the database (I/O, a busy file, a cancelled context)
    are modelled where the code throws their error away and goes on: the
    insertion of an audit row ([AuditLog.log_io]) and the three statements of a
    teardown ([Reconciler.statement]); reads that fail are turns that read
    nothing in Loops.v; elsewhere a statement fails only by the constraints of
    the schema, and so it is for the secrets that the compose driver drops.
    What useradd writes when the root helper makes the kiosk user, and the
    directories it makes for its record.  The directories that the macOS driver
    makes inside its directory of binaries.  Logging, usage texts and the
    periods of timers.  Copying bytes between the two connections of a
    forwarder.  The test helper of the s4 script and the developer tool
    cmd/mattest. *)

From Stdlib Require Export ZArith Lia Ascii.
From stdpp Require Export base tactics numbers gmap strings list sorting pretty.

(** ** Results of fallible Go functions

    A Go function with an [error] result is a function into [res E A]: the
    error values of a component are the constructors of its own type [E]. *)
Inductive res (E A : Type) : Type :=
| Ok (a : A)
| Err (e : E).
Arguments Ok {E A} a.
Arguments Err {E A} e.

Declare Scope res_scope.
Delimit Scope res_scope with res.

Definition rbind {E A B} (x : res E A) (f : A -> res E B) : res E B :=
  match x with Ok a => f a | Err e => Err e end.

Definition rmap {E A B} (f : A -> B) (x : res E A) : res E B :=
  match x with Ok a => Ok (f a) | Err e => Err e end.

Notation "'let!' x ':=' e 'in' k" := (rbind e (fun x => k))
  (at level 10, x name, e at level 100, k at level 200) : res_scope.
Notation "e ;;! k" := (rbind e (fun _ => k))
  (at level 100, k at level 200, right associativity) : res_scope.
Open Scope res_scope.

(** [guard_err b e] is Go's [if b { return e }]. *)
Definition guard_err {E} (b : bool) (e : E) : res E unit := if b then Err e else Ok tt.

Definition is_ok {E A} (x : res E A) : bool := match x with Ok _ => true | Err _ => false end.

Lemma rbind_Ok {E A B} (x : res E A) (f : A -> res E B) b :
  rbind x f = Ok b <-> exists a, x = Ok a /\ f a = Ok b.
Proof.
  destruct x; simpl; split; [eauto| |done|]; intros (a' & Ha & ?); congruence.
Qed.

Lemma guard_err_Ok {E} (b : bool) (e : E) u : guard_err b e = Ok u <-> b = false.
Proof. by destruct b, u. Qed.

(** [for_each f l] runs [f] on the elements in order and stops at the first error. *)
Fixpoint for_each {E A} (f : A -> res E unit) (l : list A) : res E unit :=
  match l with
  | [] => Ok tt
  | x :: l' => f x ;;! for_each f l'
  end.

Lemma for_each_Ok {E A} (f : A -> res E unit) (l : list A) :
  for_each f l = Ok tt <-> Forall (fun x => f x = Ok tt) l.
Proof.
  induction l as [|x l IH]; simpl; [by split|].
  rewrite rbind_Ok, Forall_cons. setoid_rewrite IH.
  split; [intros ([] & ? & ?) | intros [? ?]]; eauto.
Qed.

(** Sequencing a checker: no value is passed on. *)
Lemma seq_Ok {E B} (x : res E unit) (k : res E B) b :
  (x ;;! k) = Ok b <-> x = Ok tt /\ k = Ok b.
Proof. destruct x as [[]|]; simpl; naive_solver. Qed.

Lemma guard_seq_Ok {E B} (c : bool) (e : E) (k : res E B) b :
  (guard_err c e ;;! k) = Ok b <-> c = false /\ k = Ok b.
Proof. by rewrite seq_Ok, guard_err_Ok. Qed.

Lemma for_each_seq_Ok {E A B} (f : A -> res E unit) l (k : res E B) b :
  (for_each f l ;;! k) = Ok b <-> Forall (fun x => f x = Ok tt) l /\ k = Ok b.
Proof. by rewrite seq_Ok, for_each_Ok. Qed.

(** [for_each] reports the error of the first failing element. *)
Lemma for_each_Err {E A} (f : A -> res E unit) (l : list A) e :
  for_each f l = Err e <->
  exists l1 x l2, l = l1 ++ x :: l2 /\ Forall (fun y => f y = Ok tt) l1 /\ f x = Err e.
Proof.
  induction l as [|x l IH]; simpl.
  - split; [done|]. intros (l1 & ? & ? & ? & _). by destruct l1.
  - destruct (f x) as [[]|e'] eqn:Hx; simpl.
    + rewrite IH. split.
      * intros (l1 & y & l2 & -> & Hl1 & Hy). exists (x :: l1), y, l2. eauto using Forall_cons_2.
      * intros ([|z l1] & y & l2 & Heq & Hl1 & Hy); simplify_eq/=; [congruence|].
        inversion Hl1; subst. eauto 10.
    + split; [intros [= ->]; exists [], x, l; eauto|].
      intros ([|z l1] & y & l2 & Heq & Hl1 & Hy); simplify_eq/=; [by rewrite Hy in Hx|].
      inversion Hl1; congruence.
Qed.

Create Rewrite HintDb agent.
Create HintDb agent.
#[export] Hint Rewrite @guard_seq_Ok @for_each_seq_Ok @guard_err_Ok @for_each_Ok @orb_false_iff @andb_true_iff
  @orb_true_iff @andb_false_iff @negb_true_iff @negb_false_iff : agent.

(** Take apart a successful run of a checker: every bind becomes its two
    parts, every guard becomes the boolean it tests. *)
Ltac deex :=
  repeat match goal with
  | H : exists (x : _), _ |- _ => let y := fresh x in destruct H as [y H]
  end.

Ltac run_ok H :=
  repeat first
    [ progress autorewrite with agent in H
    | match type of H with
      | _ /\ _ => let H1 := fresh H in destruct H as [H1 H]; run_ok H1
      | exists x, _ => let y := fresh x in destruct H as [y H]
      end ].
