(* ===== verification/GoStrings.v ===== *)
(** * Go strings

    A Go string is a sequence of bytes; it is a [string] (a sequence of
    [ascii] bytes) here.  This file gives the functions of the Go package
    [strings] the agent uses, with the lemmas its components share. *)

From S2P Require Import Prelude.

Abbreviation slen := Stdlib.Strings.String.length.

(** Unlike stdpp, let [cbn] and [simpl] unfold concatenation on a constructor. *)
#[global] Arguments Stdlib.Strings.String.append : simpl nomatch.

Definition code (c : ascii) : N := N_of_ascii c.

Definition between (lo hi c : ascii) : bool :=
  ((code lo <=? code c)%N && (code c <=? code hi)%N).

Definition is_digit : ascii -> bool := between "0" "9".
Definition is_lower : ascii -> bool := between "a" "z".
Definition is_upper : ascii -> bool := between "A" "Z".
Definition is_alpha (c : ascii) : bool := is_lower c || is_upper c.
Definition is_alnum (c : ascii) : bool := is_alpha c || is_digit c.

(** Control bytes that Go string literals write with a backslash. *)
Definition NUL : ascii := "000".
Definition TAB : ascii := "009".
Definition LF : ascii := "010".
Definition CR : ascii := "013".
Definition str1 (c : ascii) : string := String c "".

Fixpoint mem_byte (c : ascii) (s : string) : bool :=
  match s with
  | "" => false
  | String a s' => Ascii.eqb a c || mem_byte c s'
  end.

(** Every / some byte satisfies a test. *)
Fixpoint str_all (p : ascii -> bool) (s : string) : bool :=
  match s with
  | "" => true
  | String a s' => p a && str_all p s'
  end.

Fixpoint str_any (p : ascii -> bool) (s : string) : bool :=
  match s with
  | "" => false
  | String a s' => p a || str_any p s'
  end.

(** [strings.ContainsAny(s, chars)] for an ASCII [chars]. *)
Definition contains_any (s chars : string) : bool := str_any (fun c => mem_byte c chars) s.

(** [strings.HasPrefix], [strings.TrimPrefix]. *)
Fixpoint has_prefix (s p : string) : bool :=
  match p, s with
  | "", _ => true
  | String b p', String a s' => Ascii.eqb a b && has_prefix s' p'
  | _, _ => false
  end.

Fixpoint sdrop (n : nat) (s : string) : string :=
  match n, s with
  | S n', String _ s' => sdrop n' s'
  | _, _ => s
  end.

Fixpoint stake (n : nat) (s : string) : string :=
  match n, s with
  | S n', String a s' => String a (stake n' s')
  | _, _ => ""
  end.

Definition trim_prefix (s p : string) : string :=
  if has_prefix s p then sdrop (slen p) s else s.

(** [strings.HasSuffix], [strings.TrimSuffix], [strings.TrimRight] of one byte. *)
Fixpoint has_suffix (s suf : string) : bool :=
  bool_decide (s = suf) || match s with "" => false | String _ s' => has_suffix s' suf end.

Definition trim_suffix (s suf : string) : string :=
  if has_suffix s suf then stake (slen s - slen suf) s else s.

Fixpoint trim_right (c : ascii) (s : string) : string :=
  match s with
  | "" => ""
  | String a s' =>
      let t := trim_right c s' in
      if Ascii.eqb a c && bool_decide (t = "") then "" else String a t
  end.

Definition strip_prefix (s p : string) : option string :=
  if has_prefix s p then Some (sdrop (slen p) s) else None.
Definition strip_suffix (s q : string) : option string :=
  if has_suffix s q then Some (stake (slen s - slen q) s) else None.

(** [strings.Cut] at the first [c]. *)
Fixpoint cut (s : string) (c : ascii) : option (string * string) :=
  match s with
  | "" => None
  | String a s' =>
      if Ascii.eqb a c then Some ("", s')
      else '(x, y) ← cut s' c; Some (String a x, y)
  end.

(** [strings.Contains]. *)
Fixpoint contains (s sub : string) : bool :=
  has_prefix s sub || match s with "" => false | String _ s' => contains s' sub end.

(** [strings.IndexByte] ([None] is -1). *)
Fixpoint index_byte (s : string) (c : ascii) : option nat :=
  match s with
  | "" => None
  | String a s' => if Ascii.eqb a c then Some 0 else S <$> index_byte s' c
  end.

(** [strings.Split] with a one-byte separator; never empty. *)
Fixpoint split_on (c : ascii) (s : string) : list string :=
  match s with
  | "" => [""]
  | String a s' =>
      if Ascii.eqb a c then "" :: split_on c s'
      else match split_on c s' with
           | w :: ws => String a w :: ws
           | [] => [str1 a]
           end
  end.

(** [strings.Join]. *)
Fixpoint join (sep : string) (l : list string) : string :=
  match l with
  | [] => ""
  | [x] => x
  | x :: l' => x +:+ sep +:+ join sep l'
  end.

(** [strings.ReplaceAll] with a non-empty [old]; [skip] counts the bytes of a
    match still to be consumed. *)
Fixpoint replace_go (skip : nat) (s old new : string) : string :=
  match s with
  | "" => ""
  | String a s' =>
      match skip with
      | S k => replace_go k s' old new
      | 0 => if has_prefix s old then new +:+ replace_go (slen old - 1) s' old new
             else String a (replace_go 0 s' old new)
      end
  end.
Definition replace_all (s old new : string) : string := replace_go 0 s old new.

(** ** White space

    [space_len s] is the width in bytes of the Unicode white-space rune [s]
    starts with ([unicode.IsSpace]), 0 when it starts with none. *)
Definition space_len (s : string) : nat :=
  match s with
  | String a s1 =>
      if between "009" "013" a || Ascii.eqb a " " then 1
      else match code a, s1 with
      | 194%N, String b _ => if (code b =? 133)%N || (code b =? 160)%N then 2 else 0
      | 225%N, String b (String c _) => if (code b =? 154)%N && (code c =? 128)%N then 3 else 0
      | 226%N, String b (String c _) =>
          if ((code b =? 128)%N && (((128 <=? code c)%N && (code c <=? 138)%N)
                || (code c =? 168)%N || (code c =? 169)%N || (code c =? 175)%N))
             || ((code b =? 129)%N && (code c =? 159)%N)
          then 3 else 0
      | 227%N, String b (String c _) => if (code b =? 128)%N && (code c =? 128)%N then 3 else 0
      | _, _ => 0
      end
  | "" => 0
  end.

(** Every byte with a flag: does it belong to a white-space rune? *)
Fixpoint mark (skip : nat) (s : string) : list (bool * ascii) :=
  match s with
  | "" => []
  | String a s' =>
      match skip with
      | S k => (true, a) :: mark k s'
      | 0 => match space_len s with
             | 0 => (false, a) :: mark 0 s'
             | S k => (true, a) :: mark k s'
             end
      end
  end.

(** The first word (possibly empty) and the other, non-empty words. *)
Definition push_word (w : string) (ws : list string) : list string :=
  if bool_decide (w = "") then ws else w :: ws.

Fixpoint words_of (l : list (bool * ascii)) : string * list string :=
  match l with
  | [] => ("", [])
  | (true, _) :: l' => let '(w, ws) := words_of l' in ("", push_word w ws)
  | (false, a) :: l' => let '(w, ws) := words_of l' in (String a w, ws)
  end.

(** [strings.Fields]. *)
Definition fields (s : string) : list string :=
  let '(w, ws) := words_of (mark 0 s) in push_word w ws.

Fixpoint strip_l (l : list (bool * ascii)) : list (bool * ascii) :=
  match l with
  | (true, _) :: l' => strip_l l'
  | _ => l
  end.

Fixpoint strip_r (l : list (bool * ascii)) : list (bool * ascii) :=
  match l with
  | [] => []
  | (b, a) :: l' => match strip_r l' with
                    | [] => if b then [] else [(b, a)]
                    | r => (b, a) :: r
                    end
  end.

Fixpoint of_marked (l : list (bool * ascii)) : string :=
  match l with
  | [] => ""
  | (_, a) :: l' => String a (of_marked l')
  end.

(** [strings.TrimSpace]. *)
Definition trim_space (s : string) : string := of_marked (strip_r (strip_l (mark 0 s))).

(** [strings.TrimLeft(s, " \t")]. *)
Fixpoint trim_left_blank (s : string) : string :=
  match s with
  | String a s' => if Ascii.eqb a " " || Ascii.eqb a TAB then trim_left_blank s' else s
  | "" => ""
  end.

(** ** Case

    [strings.ToUpper]: exact on ASCII and on the two non-ASCII runes whose
    upper case is ASCII (U+0131 to I, U+017F to S); other non-ASCII runes keep
    a non-ASCII upper case and are left as they are. *)
Definition upper_byte (c : ascii) : ascii :=
  if is_lower c then ascii_of_N (code c - 32) else c.
Definition lower_byte (c : ascii) : ascii :=
  if is_upper c then ascii_of_N (code c + 32) else c.

Fixpoint to_upper (s : string) : string :=
  match s with
  | String "196" (String "177" s') => String "I" (to_upper s')
  | String "197" (String "191" s') => String "S" (to_upper s')
  | String a s' => String (upper_byte a) (to_upper s')
  | "" => ""
  end.

(** [sort.Strings]: byte order. *)
Definition sort_strings : list string -> list string := merge_sort String.le.

(** Decimal rendering ([%d]). *)
Definition itoa (z : Z) : string := pretty z.

(** ** Lemmas *)

Lemma sapp_nil_r s : s +:+ "" = s.
Proof. induction s as [|a s IH]; [done|]. cbn. by rewrite IH. Qed.

Lemma sapp_assoc s t u : (s +:+ t) +:+ u = s +:+ t +:+ u.
Proof. induction s as [|a s IH]; [done|]. cbn. by rewrite IH. Qed.

Lemma sapp_cons a s t : String a s +:+ t = String a (s +:+ t).
Proof. done. Qed.

Lemma sapp_nil_l t : "" +:+ t = t.
Proof. done. Qed.

Lemma slen_app s t : slen (s +:+ t) = slen s + slen t.
Proof. induction s as [|a s IH]; [done|]. cbn. by rewrite IH. Qed.

Lemma sapp_eq_nil s t : s +:+ t = "" <-> s = "" /\ t = "".
Proof. destruct s; cbn; [|split; [done|by intros [? _]]]. split; [done|by intros [_ ?]]. Qed.

Lemma slen_nil s : slen s = 0 <-> s = "".
Proof. by destruct s. Qed.

Lemma ascii_eqb_refl a : Ascii.eqb a a = true.
Proof. apply Ascii.eqb_refl. Qed.

Create Rewrite HintDb gostr.
#[export] Hint Rewrite sapp_nil_r sapp_assoc sapp_cons sapp_nil_l slen_app ascii_eqb_refl : gostr.

Lemma str_all_app p s t : str_all p (s +:+ t) = str_all p s && str_all p t.
Proof. induction s as [|a s IH]; [done|]. cbn. by rewrite IH, andb_assoc. Qed.

Lemma str_any_app p s t : str_any p (s +:+ t) = str_any p s || str_any p t.
Proof. induction s as [|a s IH]; [done|]. cbn. by rewrite IH, orb_assoc. Qed.

Lemma str_any_all p s : str_any p s = negb (str_all (fun c => negb (p c)) s).
Proof. induction s as [|a s IH]; [done|]. cbn. rewrite IH. by destruct (p a). Qed.

Lemma str_all_impl (p q : ascii -> bool) s :
  (forall c, p c = true -> q c = true) -> str_all p s = true -> str_all q s = true.
Proof.
  intros Hpq. induction s as [|a s IH]; [done|]. cbn.
  rewrite !andb_true_iff. intros [??]; eauto.
Qed.

Lemma mem_byte_any c s : mem_byte c s = str_any (fun a => Ascii.eqb a c) s.
Proof. induction s as [|a s IH]; [done|]. cbn. by rewrite IH. Qed.

Lemma mem_byte_app c s t : mem_byte c (s +:+ t) = mem_byte c s || mem_byte c t.
Proof. rewrite !mem_byte_any. apply str_any_app. Qed.

(** A byte test that fails on [c] shows that [c] does not occur. *)
Lemma str_all_not_mem (p : ascii -> bool) c s :
  p c = false -> str_all p s = true -> mem_byte c s = false.
Proof.
  intros Hc. induction s as [|a s IH]; [done|]. cbn.
  rewrite andb_true_iff, orb_false_iff. intros [Ha Hs]. split; [|eauto].
  destruct (Ascii.eqb_spec a c); congruence.
Qed.

#[export] Hint Rewrite str_all_app str_any_app mem_byte_app : gostr.

Lemma has_prefix_spec s p : has_prefix s p = true <-> exists t, s = p +:+ t.
Proof.
  revert s. induction p as [|b p IH]; intros [|a s]; cbn.
  - split; eauto.
  - split; [|done]. intros _. by exists (String a s).
  - split; [done|]. intros [t Ht]. done.
  - rewrite andb_true_iff, IH. split.
    + intros [Hab [t ->]]. apply Ascii.eqb_eq in Hab as ->. by exists t.
    + intros [t Ht]. injection Ht as -> ->. split; [apply Ascii.eqb_refl|eauto].
Qed.

Lemma has_prefix_app p t : has_prefix (p +:+ t) p = true.
Proof. apply has_prefix_spec. eauto. Qed.

Lemma sdrop_app p t : sdrop (slen p) (p +:+ t) = t.
Proof. induction p as [|a p IH]; [by destruct t|done]. Qed.

Lemma sdrop_all n s : slen s <= n -> sdrop n s = "".
Proof. revert s. induction n as [|n IH]; intros [|a s]; cbn; auto with lia. Qed.

Lemma trim_prefix_app p t : trim_prefix (p +:+ t) p = t.
Proof. unfold trim_prefix. by rewrite has_prefix_app, sdrop_app. Qed.

Lemma has_suffix_spec s q : has_suffix s q = true <-> exists t, s = t +:+ q.
Proof.
  induction s as [|a s IH]; cbn.
  - rewrite orb_false_r, bool_decide_eq_true. split; [intros <-; by exists ""|].
    intros [t Ht]. symmetry in Ht. by apply sapp_eq_nil in Ht as [_ ->].
  - rewrite orb_true_iff, bool_decide_eq_true, IH. split.
    + intros [<-|[t ->]]; [by exists ""|by exists (String a t)].
    + intros [[|b t] Ht]; cbn in Ht; [by left|].
      injection Ht as <- ->. right. eauto.
Qed.

Lemma contains_spec s sub : contains s sub = true <-> exists x y, s = x +:+ sub +:+ y.
Proof.
  induction s as [|a s IH]; cbn [contains].
  - rewrite orb_false_r, has_prefix_spec. split.
    + intros [t Ht]. exists "", t. done.
    + intros (x & y & Ht). symmetry in Ht. apply sapp_eq_nil in Ht as [-> Ht].
      exists y. done.
  - rewrite orb_true_iff, has_prefix_spec, IH. split.
    + intros [[t ->]|(x & y & ->)]; [by exists "", t|by exists (String a x), y].
    + intros ([|b x] & y & Ht); cbn in Ht; [left; by exists y|].
      injection Ht as <- ->. right. eauto.
Qed.

Lemma index_byte_None s c : index_byte s c = None <-> mem_byte c s = false.
Proof.
  induction s as [|a s IH]; cbn; [done|].
  destruct (Ascii.eqb a c); cbn; [done|].
  rewrite <- IH. by destruct (index_byte s c).
Qed.

Lemma index_byte_Some s c i :
  index_byte s c = Some i <->
  exists x y, s = x +:+ String c y /\ slen x = i /\ mem_byte c x = false.
Proof.
  revert i. induction s as [|a s IH]; intros i; cbn.
  - split; [done|]. intros ([|??] & y & ? & _); done.
  - destruct (Ascii.eqb_spec a c) as [->|Hne].
    + split; [intros [= <-]; by exists "", s|].
      intros ([|b x] & y & Heq & <- & Hm); [done|].
      injection Heq as <- ->. cbn in Hm. by rewrite Ascii.eqb_refl in Hm.
    + rewrite fmap_Some. split.
      * intros (j & (x & y & -> & <- & Hm)%IH & ->). exists (String a x), y.
        cbn. rewrite Hm. by destruct (Ascii.eqb_spec a c).
      * intros ([|b x] & y & Heq & <- & Hm); [by injection Heq as ->|].
        injection Heq as <- ->. cbn in Hm. apply orb_false_iff in Hm as [_ Hm].
        exists (slen x). split; [|done]. apply IH. eauto.
Qed.

Lemma stake_app p t : stake (slen p) (p +:+ t) = p.
Proof. induction p as [|a p IH]; [by destruct t|]. cbn. by rewrite IH. Qed.

Lemma strip_prefix_Some s p r : strip_prefix s p = Some r <-> s = p +:+ r.
Proof.
  unfold strip_prefix. destruct (has_prefix s p) eqn:H.
  - apply has_prefix_spec in H as [t ->]. rewrite sdrop_app.
    split; [by intros [= ->]|]. intros Heq. f_equal.
    rewrite <- (sdrop_app p t), <- (sdrop_app p r). by f_equal.
  - split; [done|]. intros ->. by rewrite has_prefix_app in H.
Qed.

Lemma strip_suffix_Some s q r : strip_suffix s q = Some r <-> s = r +:+ q.
Proof.
  unfold strip_suffix. destruct (has_suffix s q) eqn:H.
  - apply has_suffix_spec in H as [t ->]. rewrite slen_app, Nat.add_sub, stake_app.
    split; [by intros [= ->]|]. intros Heq. f_equal.
    rewrite <- (stake_app t q), <- (stake_app r q).
    assert (slen t = slen r) as -> by (apply (f_equal slen) in Heq; rewrite !slen_app in Heq; lia).
    by f_equal.
  - split; [done|]. intros ->. exfalso.
    assert (has_suffix (r +:+ q) q = true) by (apply has_suffix_spec; eauto). congruence.
Qed.

Lemma cut_Some s c x y : cut s c = Some (x, y) <-> s = x +:+ String c y /\ mem_byte c x = false.
Proof.
  revert x y. induction s as [|a s IH]; intros x y; cbn.
  - split; [done|]. by intros [?%(f_equal slen) _]; rewrite slen_app in *; cbn in *; lia.
  - destruct (Ascii.eqb_spec a c) as [->|Hne].
    + split; [by intros [= <- <-]|].
      destruct x as [|b x]; cbn; [by intros [[= ->] _]|].
      rewrite orb_false_iff. intros [[= <- _] [Hc _]]. by rewrite Ascii.eqb_refl in Hc.
    + rewrite bind_Some. split.
      * intros ([x' y'] & [-> Hm]%IH & [= <- <-]). cbn. rewrite Hm.
        by destruct (Ascii.eqb_spec a c).
      * destruct x as [|b x]; cbn; [by intros [[= -> _] _]|].
        rewrite orb_false_iff. intros [[= <- ->] [_ Hm]]. exists (x, y). split; [|done].
        by apply IH.
Qed.

(** ** Splitting *)

Lemma split_on_nonempty c s : split_on c s <> [].
Proof. destruct s as [|a s]; cbn; [done|]. destruct (Ascii.eqb a c); [done|]. by destruct (split_on c s). Qed.

Lemma split_on_no_sep c s : mem_byte c s = false -> split_on c s = [s].
Proof.
  induction s as [|a s IH]; [done|]. cbn. rewrite orb_false_iff.
  intros [-> Hs]. by rewrite IH.
Qed.

Lemma split_on_cons c x y :
  mem_byte c x = false -> split_on c (x +:+ String c y) = x :: split_on c y.
Proof.
  induction x as [|a x IH]; cbn; [by rewrite Ascii.eqb_refl|].
  rewrite orb_false_iff. intros [-> Hs]. by rewrite IH.
Qed.

(** Splitting undoes joining. *)
Lemma split_on_join c l :
  l <> [] -> Forall (fun x => mem_byte c x = false) l -> split_on c (join (str1 c) l) = l.
Proof.
  intros Hne. induction 1 as [|x l Hx Hl IH]; [done|].
  destruct l as [|y l]; [by apply split_on_no_sep|].
  change (split_on c (x +:+ String c (join (str1 c) (y :: l))) = x :: y :: l).
  rewrite split_on_cons by done. by rewrite IH.
Qed.

(** Joining undoes splitting. *)
Lemma join_split_on c s : join (str1 c) (split_on c s) = s.
Proof.
  induction s as [|a s IH]; [done|]. cbn.
  pose proof (split_on_nonempty c s) as Hne.
  destruct (Ascii.eqb_spec a c) as [->|].
  - destruct (split_on c s); [done|]. cbn. by rewrite <- IH.
  - destruct (split_on c s) as [|w [|w' ws]]; [done|..]; cbn in *; by rewrite IH.
Qed.

Lemma split_on_parts c s : Forall (fun x => mem_byte c x = false) (split_on c s).
Proof.
  induction s as [|a s IH]; cbn; [by repeat constructor|].
  destruct (Ascii.eqb a c) eqn:Hac; [by constructor|].
  destruct IH as [|w ws Hw Hws]; constructor; cbn; by rewrite ?Hac.
Qed.

(** ** Words *)

(** A byte that is no white space and starts no multi-byte rune. *)
Definition solid (c : ascii) : bool :=
  negb (between "009" "013" c || Ascii.eqb c " ") && (code c <? 128)%N.

Lemma space_len_solid a s : solid a = true -> space_len (String a s) = 0.
Proof.
  unfold solid. rewrite andb_true_iff, negb_true_iff. intros [Hs Hlt]. cbn. rewrite Hs.
  apply N.ltb_lt in Hlt.
  destruct (code a) as [|p] eqn:Hp; [done|].
  repeat (destruct p as [p|p|]; try done; try lia).
Qed.

Lemma words_of_solid t l :
  str_all solid t = true ->
  words_of (mark 0 t ++ l) = let '(w, ws) := words_of l in (t +:+ w, ws).
Proof.
  induction t as [|a t IH]; cbn [str_all].
  - intros _. cbn. by destruct (words_of l).
  - rewrite andb_true_iff. intros [Ha Ht]. cbn [mark].
    rewrite space_len_solid by done. cbn. rewrite IH by done. by destruct (words_of l).
Qed.

Lemma mark_solid_app t s : str_all solid t = true -> mark 0 (t +:+ s) = mark 0 t ++ mark 0 s.
Proof.
  induction t as [|a t IH]; cbn [str_all]; [done|].
  rewrite andb_true_iff. intros [Ha Ht]. rewrite sapp_cons. cbn [mark].
  rewrite !space_len_solid by done. cbn. by rewrite IH.
Qed.

Lemma push_word_ne w ws : w <> "" -> push_word w ws = w :: ws.
Proof. intros. unfold push_word. by rewrite bool_decide_eq_false_2. Qed.

Lemma fields_solid t : str_all solid t = true -> t <> "" -> fields t = [t].
Proof.
  intros Ht Hne. unfold fields.
  pose proof (words_of_solid t [] Ht) as Hw. rewrite app_nil_r in Hw. rewrite Hw. cbn.
  by rewrite sapp_nil_r, push_word_ne.
Qed.

Lemma fields_cons t s :
  str_all solid t = true -> t <> "" -> fields (t +:+ String " " s) = t :: fields s.
Proof.
  intros Ht Hne. unfold fields. rewrite mark_solid_app by done.
  rewrite words_of_solid by done.
  change (mark 0 (String " " s)) with ((true, " "%char) :: mark 0 s). cbn [words_of].
  destruct (words_of (mark 0 s)) as [w ws]. rewrite sapp_nil_r. by apply push_word_ne.
Qed.

(** The words of a blank-separated list of tokens are the tokens. *)
Lemma fields_join l :
  Forall (fun t => str_all solid t = true /\ t <> "") l -> fields (join " " l) = l.
Proof.
  induction 1 as [|t l [Ht Hne] Hl IH]; [done|].
  destruct l as [|u l]; [by apply fields_solid|].
  change (fields (t +:+ String " " (join " " (u :: l))) = t :: u :: l).
  rewrite fields_cons by done. by rewrite IH.
Qed.

Lemma words_of_ne l : Forall (fun w => w <> "") (words_of l).2.
Proof.
  induction l as [|[[] a] l IH]; cbn; [done|..]; destruct (words_of l) as [w ws]; cbn in *; [|done].
  unfold push_word. case_bool_decide; [done|]. by constructor.
Qed.

(** [strings.Fields] never yields an empty word. *)
Lemma fields_ne s : Forall (fun w => w <> "") (fields s).
Proof.
  unfold fields. pose proof (words_of_ne (mark 0 s)) as H.
  destruct (words_of (mark 0 s)) as [w ws]. cbn in H.
  unfold push_word. case_bool_decide; [done|]. by constructor.
Qed.

Lemma sort_strings_perm l : sort_strings l ≡ₚ l.
Proof. apply merge_sort_Permutation. Qed.

Lemma elem_of_sort_strings x l : x ∈ sort_strings l <-> x ∈ l.
Proof. by rewrite sort_strings_perm. Qed.

(** Sorting forgets the order it was given. *)
Lemma sort_strings_unique l1 l2 : l1 ≡ₚ l2 -> sort_strings l1 = sort_strings l2.
Proof.
  intros Hp. apply (StronglySorted_unique String.le).
  - apply StronglySorted_merge_sort; apply _.
  - apply StronglySorted_merge_sort; apply _.
  - by rewrite !sort_strings_perm.
Qed.

(** ** Decimal numbers *)

Definition int_byte (c : ascii) : bool := is_digit c || Ascii.eqb c "-".

Lemma pretty_N_go_bytes x s : str_all is_digit s = true -> str_all is_digit (pretty_N_go x s) = true.
Proof.
  revert s. induction (N.lt_wf_0 x) as [x _ IH]. intros s Hs.
  destruct (decide (x = 0%N)) as [->|Hx]; [by rewrite pretty_N_go_0|].
  rewrite pretty_N_go_step by lia. apply IH; [apply N.div_lt; lia|]. cbn. rewrite Hs, andb_true_r.
  unfold pretty_N_char. by repeat case_match.
Qed.

Lemma pretty_N_bytes (x : N) : str_all is_digit (pretty x : string) = true.
Proof. unfold pretty, pretty_N. case_decide; [done|]. by apply pretty_N_go_bytes. Qed.

Lemma pretty_N_ne (x : N) : (pretty x : string) <> "".
Proof.
  unfold pretty, pretty_N. case_decide as Hx; [done|].
  assert (forall y s, s <> "" -> pretty_N_go y s <> "") as Hgo.
  { intros y. induction (N.lt_wf_0 y) as [y _ IH]. intros s Hs.
    destruct (decide (y = 0%N)) as [->|]; [by rewrite pretty_N_go_0|].
    rewrite pretty_N_go_step by lia. by apply IH; [apply N.div_lt; lia|]. }
  rewrite pretty_N_go_step by lia. by apply Hgo.
Qed.

Lemma itoa_bytes z : str_all int_byte (itoa z) = true /\ itoa z <> "".
Proof.
  assert (forall x : N, str_all int_byte (pretty x : string) = true) as Hp.
  { intros x. eapply str_all_impl; [|apply pretty_N_bytes]. intros c Hc. unfold int_byte. by rewrite Hc. }
  unfold itoa. destruct z as [|p|p].
  - done.
  - change (pretty (Z.pos p)) with (pretty (N.pos p) : string). split; [apply Hp|apply pretty_N_ne].
  - change (pretty (Z.neg p)) with ("-" +:+ (pretty (N.pos p) : string)). split; [|done]. cbn. apply Hp.
Qed.

Lemma itoa_inj z1 z2 : itoa z1 = itoa z2 -> z1 = z2.
Proof. unfold itoa. intros H. by apply (inj (pretty : Z -> string)) in H. Qed.

(** A maximal block of bytes of an alphabet is determined by the text. *)
Lemma block_unique (p : ascii -> bool) x1 x2 r1 r2 :
  str_all p x1 = true -> str_all p x2 = true ->
  (forall c r, r1 = String c r -> p c = false) -> (forall c r, r2 = String c r -> p c = false) ->
  x1 +:+ r1 = x2 +:+ r2 -> x1 = x2 /\ r1 = r2.
Proof.
  revert x2. induction x1 as [|a x1 IH]; intros [|b x2] H1 H2 Hr1 Hr2 Heq; cbn in *.
  - done.
  - exfalso. apply andb_true_iff in H2 as [Hb _]. specialize (Hr1 _ _ Heq). congruence.
  - exfalso. apply andb_true_iff in H1 as [Ha _]. specialize (Hr2 _ _ (eq_sym Heq)). congruence.
  - injection Heq as -> Heq. apply andb_true_iff in H1 as [_ H1]. apply andb_true_iff in H2 as [_ H2].
    destruct (IH x2 H1 H2 Hr1 Hr2 Heq) as [-> ->]. done.
Qed.

(** ** White space at the ends *)

Definition words_list (l : list (bool * ascii)) : list string :=
  let '(w, ws) := words_of l in push_word w ws.

Lemma fields_marks s : fields s = words_list (mark 0 s).
Proof. done. Qed.

Lemma words_list_strip_l l : words_list (strip_l l) = words_list l.
Proof.
  induction l as [|[[] a] l IH]; cbn [strip_l]; [done| |done]. rewrite IH. unfold words_list. cbn.
  destruct (words_of l) as [w ws]. unfold push_word at 2. by rewrite bool_decide_eq_true_2.
Qed.

Lemma words_of_strip_r l : words_of (strip_r l) = words_of l.
Proof.
  induction l as [|[b a] l IH]; [done|]. cbn [strip_r words_of]. rewrite <- IH.
  destruct (strip_r l) as [|x r]; [|done]. by destruct b.
Qed.

Lemma space_len_stable w x y : space_len (w +:+ x) = slen w -> w <> "" -> space_len (w +:+ y) = slen w.
Proof.
  destruct w as [|a [|b [|c [|d w]]]]; intros H Hne; [done|..]; cbn [String.append slen] in *;
    unfold space_len in *.
  - destruct (between _ _ a || _); [done|]. exfalso. repeat case_match; lia.
  - destruct (between _ _ a || _); [done|]. repeat case_match; simplify_eq; try lia; try done; congruence.
  - destruct (between _ _ a || _); [done|]. repeat case_match; simplify_eq; try lia; try done; congruence.
  - exfalso. destruct (between _ _ a || _); [done|]. repeat case_match; simplify_eq; lia.
Qed.

Lemma space_len_le s : space_len s <= slen s.
Proof. destruct s as [|a [|b [|c s]]]; unfold space_len; cbn [slen]; repeat case_match; lia. Qed.

Lemma stake_sdrop n s : stake n s +:+ sdrop n s = s.
Proof. revert s. induction n as [|n IH]; intros [|a s]; cbn; try done. by rewrite IH. Qed.

Lemma slen_stake_le n s : n <= slen s -> slen (stake n s) = n.
Proof. revert s. induction n as [|n IH]; intros [|a s] H; cbn in *; try lia. rewrite IH; lia. Qed.

Fixpoint trues (w : string) : list (bool * ascii) :=
  match w with "" => [] | String a w' => (true, a) :: trues w' end.

Lemma mark_trues w r : mark (slen w) (w +:+ r) = trues w ++ mark 0 r.
Proof. induction w as [|a w IH]; [done|]. cbn. by rewrite IH. Qed.

(** The first rune of a text: white space, marked as a block, or one byte. *)
Lemma mark_cases a s :
  (space_len (String a s) = 0 /\ mark 0 (String a s) = (false, a) :: mark 0 s) \/
  (exists w r, w <> "" /\ String a s = w +:+ r /\ space_len (w +:+ r) = slen w /\
               mark 0 (String a s) = trues w ++ mark 0 r).
Proof.
  destruct (space_len (String a s)) as [|k] eqn:Hk; [left; split; [done|]; cbn [mark]; by rewrite Hk|right].
  pose proof (space_len_le (String a s)) as Hle. rewrite Hk in Hle.
  exists (stake (S k) (String a s)), (sdrop (S k) (String a s)).
  rewrite stake_sdrop. rewrite (slen_stake_le (S k)) by done. split_and!; [done..|].
  rewrite <- mark_trues, (slen_stake_le (S k)) by done. rewrite stake_sdrop. cbn [mark]. by rewrite Hk.
Qed.

Lemma of_marked_app l1 l2 : of_marked (l1 ++ l2) = of_marked l1 +:+ of_marked l2.
Proof. induction l1 as [|[b a] l1 IH]; [done|]. cbn. by rewrite IH. Qed.

Lemma of_marked_trues w : of_marked (trues w) = w.
Proof. induction w as [|a w IH]; [done|]. cbn. by rewrite IH. Qed.

Lemma of_marked_mark k s : of_marked (mark k s) = s.
Proof.
  revert k. induction s as [|a s IH]; intros k; [done|]. cbn [mark].
  destruct k; [destruct (space_len (String a s))|]; cbn; by rewrite IH.
Qed.

Lemma strip_r_app l1 l2 : strip_r l2 <> [] -> strip_r (l1 ++ l2) = l1 ++ strip_r l2.
Proof.
  intros Hne. induction l1 as [|[b a] l1 IH]; [done|]. cbn. rewrite IH. by destruct l1, (strip_r l2).
Qed.

Lemma strip_r_prefix l : exists t, of_marked l = of_marked (strip_r l) +:+ t.
Proof.
  induction l as [|[b a] l [t IH]]; [by exists ""|]. cbn.
  destruct (strip_r l) as [|x r] eqn:Hr.
  - destruct b; cbn; [by exists (String a (of_marked l))|]. cbn in IH. exists t. by rewrite IH.
  - exists t. cbn in *. by rewrite IH.
Qed.

Lemma trues_strip w l : strip_r l = [] -> strip_r (trues w ++ l) = [].
Proof. intros Hl. induction w as [|a w IH]; [done|]. cbn. by rewrite IH. Qed.

(** Marking a text without its trailing white space gives the same marks. *)
Lemma mark_strip_r s : mark 0 (of_marked (strip_r (mark 0 s))) = strip_r (mark 0 s).
Proof.
  remember (slen s) as n eqn:Hn. revert s Hn. induction n as [n IH] using lt_wf_ind. intros [|a s] Hn; [done|].
  destruct (mark_cases a s) as [[Hsp Hm]|(w & r & Hw & Heq & Hlen & Hm)]; rewrite Hm.
  - assert (strip_r ((false, a) :: mark 0 s) = (false, a) :: strip_r (mark 0 s)) as Hs
      by (cbn; by destruct (strip_r (mark 0 s))).
    rewrite Hs. specialize (IH (slen s) ltac:(cbn in Hn; lia) s eq_refl). cbn [of_marked].
    set (u := of_marked (strip_r (mark 0 s))) in *.
    destruct (mark_cases a u) as [[_ Hm']|(w & r & Hw & Heq & Hlen & _)]; [by rewrite Hm', IH|]. exfalso.
    destruct (strip_r_prefix (mark 0 s)) as [t Ht]. rewrite of_marked_mark in Ht. fold u in Ht.
    assert (space_len (String a s) = slen w) as Hc.
    { rewrite Ht. change (String a (u +:+ t)) with (String a u +:+ t). rewrite Heq, sapp_assoc.
      by eapply space_len_stable. }
    rewrite Hsp in Hc. by destruct w.
  - assert (slen r < n) as Hr by (rewrite Hn, Heq, slen_app; destruct w; [done|cbn; lia]).
    specialize (IH _ Hr r eq_refl). destruct (decide (strip_r (mark 0 r) = [])) as [Hz|Hz].
    + by rewrite trues_strip.
    + rewrite strip_r_app by done. rewrite of_marked_app, of_marked_trues.
      set (u := of_marked (strip_r (mark 0 r))) in *.
      assert (space_len (w +:+ u) = slen w) as Hc by (by eapply space_len_stable).
      destruct w as [|b w]; [done|]. rewrite sapp_cons. cbn [mark]. rewrite <- sapp_cons, Hc. cbn [slen].
      rewrite mark_trues, IH. done.
Qed.

Lemma strip_l_mark s : exists s', strip_l (mark 0 s) = mark 0 s'.
Proof.
  remember (slen s) as n eqn:Hn. revert s Hn. induction n as [n IH] using lt_wf_ind. intros [|a s] Hn; [by exists ""|].
  destruct (mark_cases a s) as [[_ Hm]|(w & r & Hw & Heq & _ & Hm)]; rewrite Hm.
  - exists (String a s). by rewrite Hm.
  - assert (strip_l (trues w ++ mark 0 r) = strip_l (mark 0 r)) as -> by (clear; by induction w).
    apply (IH (slen r)); [|done]. rewrite Hn, Heq, slen_app. destruct w; [done|cbn; lia].
Qed.

(** Trimming does not change the words. *)
Lemma fields_trim_space s : fields (trim_space s) = fields s.
Proof.
  unfold trim_space. rewrite !fields_marks. destruct (strip_l_mark s) as [s' Hs'].
  rewrite Hs', mark_strip_r. unfold words_list at 1. rewrite words_of_strip_r. rewrite <- Hs'.
  apply words_list_strip_l.
Qed.

(** A trailing line feed neither. *)
Lemma mark_lf k s : k <= slen s -> mark k (s +:+ str1 LF) = mark k s ++ [(true, LF)].
Proof.
  revert k. induction s as [|a s IH]; intros k Hk.
  { destruct k; [done|cbn in Hk; lia]. }
  cbn [String.append mark]. destruct k as [|k]; [|rewrite IH by (cbn in Hk; lia); done].
  assert (space_len (String a (s +:+ str1 LF)) = space_len (String a s)) as ->.
  { destruct s as [|b [|c s]]; cbn [String.append]; unfold space_len; [| |done].
    - destruct (between _ _ a || _); [done|]. destruct (code a) as [|p]; [done|].
      repeat (destruct p as [p|p|]; try done).
    - destruct (between _ _ a || _); [done|]. destruct (code a) as [|p]; [done|].
      repeat (destruct p as [p|p|]; try done);
        repeat (match goal with |- context [(code b =? ?k)%N] => destruct (code b =? k)%N end; try done). }
  destruct (space_len (String a s)) as [|j] eqn:Hj; rewrite IH; try done; [lia|].
  pose proof (space_len_le (String a s)). cbn in *. lia.
Qed.

Lemma words_of_snoc_true l a : words_of (l ++ [(true, a)]) = words_of l.
Proof. induction l as [|[[] b] l IH]; [done|..]; cbn; by rewrite IH. Qed.

Lemma fields_lf s : fields (s +:+ str1 LF) = fields s.
Proof. rewrite !fields_marks, mark_lf by lia. unfold words_list. by rewrite words_of_snoc_true. Qed.

(** ** Replacing one byte *)
Lemma has_prefix_str1 c a s : has_prefix (String a s) (str1 c) = Ascii.eqb a c.
Proof. cbn. by destruct (Ascii.eqb a c), s. Qed.

Lemma replace_all_char c new a s :
  replace_all (String a s) (str1 c) new = (if Ascii.eqb a c then new else str1 a) +:+ replace_all s (str1 c) new.
Proof.
  unfold replace_all. cbn [replace_go]. rewrite has_prefix_str1. by destruct (Ascii.eqb a c).
Qed.

Lemma replace_all_app c new s t :
  replace_all (s +:+ t) (str1 c) new = replace_all s (str1 c) new +:+ replace_all t (str1 c) new.
Proof.
  induction s as [|a s IH]; [done|]. rewrite sapp_cons, !replace_all_char, IH. by rewrite sapp_assoc.
Qed.

Lemma replace_all_none c new s : mem_byte c s = false -> replace_all s (str1 c) new = s.
Proof.
  induction s as [|a s IH]; [done|]. cbn [mem_byte]. rewrite orb_false_iff. intros [Hc Hs].
  by rewrite replace_all_char, Hc, IH.
Qed.
