(* ===== verification/GoUrl.v ===== *)
(** * The part of Go's path/filepath and net/url the agent's validators use *)

From S2P Require Import Prelude GoStrings.

(** ** [filepath.Clean] on Unix, on the segments of the path *)
Definition push_seg (rooted : bool) (stack : list string) (seg : string) : list string :=
  if bool_decide (seg = "") || bool_decide (seg = ".") then stack
  else if bool_decide (seg = "..") then
    match stack with
    | top :: rest => if bool_decide (top = "..") then seg :: stack else rest
    | [] => if rooted then [] else [seg]
    end
  else seg :: stack.

Definition clean_segs (rooted : bool) (segs : list string) : list string :=
  rev (fold_left (push_seg rooted) segs []).

Definition Clean (p : string) : string :=
  let rooted := has_prefix p "/" in
  let out := (if rooted then "/" else "") +:+ join "/" (clean_segs rooted (split_on "/" p)) in
  if bool_decide (out = "") then "." else out.

Definition IsAbs (p : string) : bool := has_prefix p "/".

(** [filepath.Base] *)
Definition Base (p : string) : string :=
  if bool_decide (p = "") then "." else
  let q := trim_right "/" p in
  if bool_decide (q = "") then "/" else List.last (split_on "/" q) "".

(** [filepath.Dir] *)
Fixpoint dir_part (s : string) : string :=
  match s with "" => "" | String a s' => if mem_byte "/" s then String a (dir_part s') else "" end.
Definition Dir (p : string) : string := Clean (dir_part p).

(** [filepath.Join] of two elements. *)
Definition Join2 (a b : string) : string :=
  match a, b with
  | "", "" => ""
  | "", _ => Clean b
  | _, "" => Clean a
  | _, _ => Clean (a +:+ "/" +:+ b)
  end.

(** ** [url.Parse], as far as the scheme and the host go

    [url_scheme_host s] is the scheme and host of the URL [s], [None] when
    [url.Parse] fails.  Percent encodings in a host stand for non-ASCII bytes
    only, so a host with one is represented by its raw text; it never equals
    an ASCII name. *)
Definition hexByte (c : ascii) : bool := is_digit c || between "a" "f" c || between "A" "F" c.

(** Every percent sign is followed by two hexadecimal digits. *)
Fixpoint pct_ok (s : string) : bool :=
  match s with
  | "" => true
  | String "%" s1 => match s1 with
                     | String a (String b s2) => hexByte a && hexByte b && pct_ok s2
                     | _ => false
                     end
  | String _ s' => pct_ok s'
  end.

Definition schemeByte (c : ascii) : bool := is_alnum c || mem_byte c "+-.".

(** [getScheme]: [None] is the "missing protocol scheme" error; an invalid
    byte before the first colon means there is no scheme. *)
Definition get_scheme (s : string) : option (string * string) :=
  match cut s ":" with
  | Some ("", _) => None
  | Some (String a t as sch, rest) =>
      if is_alpha a && str_all schemeByte t then Some (sch, rest) else Some ("", s)
  | None => Some ("", s)
  end.

Fixpoint lower_all (s : string) : string :=
  match s with "" => "" | String a s' => String (lower_byte a) (lower_all s') end.

(** The text after the last [c], and the text before it if there is one. *)
Definition cut_last (s : string) (c : ascii) : option string * string :=
  let parts := split_on c s in
  (if bool_decide (length parts = 1) then None else Some (join (str1 c) (removelast parts)),
   List.last parts "").

Definition userinfoByte (c : ascii) : bool := is_alnum c || mem_byte c "-._:~!$&'()*+,;=%@".

(** [validOptionalPort] *)
Definition port_ok (p : string) : bool :=
  match p with
  | "" => true
  | String ":" t => str_all is_digit t
  | _ => false
  end.

(** ASCII bytes [unescape] accepts in a host. *)
Definition hostByte (c : ascii) : bool :=
  is_alnum c || mem_byte c "-_.~!$&'()*+,;=:[]<>%" || Ascii.eqb c "034" || (128 <=? code c)%N.

(** No percent encoding of an ASCII byte. *)
Fixpoint host_pct_ok (s : string) : bool :=
  match s with
  | "" => true
  | String "%" s1 => match s1 with
                     | String a (String b s2) =>
                         hexByte a && hexByte b && negb (between "0" "7" a) && host_pct_ok s2
                     | _ => false
                     end
  | String _ s' => host_pct_ok s'
  end.

Definition parse_authority (auth : string) : option string :=
  let '(user, host) := cut_last auth "@" in
  let host_fine :=
    if has_prefix host "[" then
      match cut_last host "]" with
      | (Some _, port) => port_ok port
      | (None, _) => false
      end
    else str_all hostByte host && host_pct_ok host &&
         match cut_last host ":" with
         | (Some _, port) => port_ok (String ":" port)
         | (None, _) => true
         end in
  let user_fine := match user with
                   | Some u => str_all userinfoByte u && pct_ok u
                   | None => true
                   end in
  if host_fine && user_fine then Some host else None.

Definition ctlByte (c : ascii) : bool := (code c <? 32)%N || (code c =? 127)%N.

Definition url_scheme_host (raw : string) : option (string * string) :=
  let '(u, frag) := match cut raw "#" with Some (u, f) => (u, f) | None => (raw, "") end in
  if str_any ctlByte u || negb (pct_ok frag) then None else
  if bool_decide (u = "*") then Some ("", "") else
  '(sch, rest0) ← get_scheme u;
  let scheme := lower_all sch in
  let rest := match cut rest0 "?" with Some (r, _) => r | None => rest0 end in
  if negb (has_prefix rest "/") then
    if negb (bool_decide (scheme = "")) then Some (scheme, "")
    else match cut (match cut rest "/" with Some (seg, _) => seg | None => rest end) ":" with
         | Some _ => None
         | None => if pct_ok rest then Some ("", "") else None
         end
  else if has_prefix rest "//" && (negb (bool_decide (scheme = "")) || negb (has_prefix rest "///")) then
    let r := sdrop 2 rest in
    let '(auth, pth) := match cut r "/" with Some (a, p) => (a, p) | None => (r, "") end in
    if negb (pct_ok pth) then None else
    host ← parse_authority auth; Some (scheme, host)
  else if pct_ok rest then Some (scheme, "") else None.

Example url_ex1 : url_scheme_host "https://github.com/x/y.tgz?z=1#f" = Some ("https", "github.com").
Proof. reflexivity. Qed.
Example url_ex2 : url_scheme_host "HTTPS://u:p@github.com:443/x" = Some ("https", "github.com:443").
Proof. reflexivity. Qed.
Example url_ex3 : url_scheme_host "https://evil.com\@github.com/x" = None.
Proof. reflexivity. Qed.
Example clean_ex1 : Clean "/etc/obacht/../x//y/./z/" = "/etc/x/y/z".
Proof. reflexivity. Qed.
Example clean_ex2 : Clean "../a/../../b" = "../../b".
Proof. reflexivity. Qed.

(** ** Lemmas on [Clean] *)

Definition plain_seg (s : string) : Prop := s <> "" /\ s <> "." /\ s <> ".." /\ mem_byte "/" s = false.

Lemma push_seg_rooted_ok stack seg :
  Forall plain_seg stack -> mem_byte "/" seg = false -> Forall plain_seg (push_seg true stack seg).
Proof.
  intros Hst Hseg. unfold push_seg.
  destruct (decide (seg = "")) as [->|H1]; [done|]. destruct (decide (seg = ".")) as [->|H2]; [done|].
  rewrite (bool_decide_eq_false_2 (seg = "")), (bool_decide_eq_false_2 (seg = ".")) by done. cbn [orb].
  destruct (decide (seg = "..")) as [->|H3].
  - rewrite bool_decide_eq_true_2 by done. destruct Hst as [|top rest Ht Hr]; [done|].
    rewrite bool_decide_eq_false_2; [done|]. by destruct Ht as (_ & _ & ? & _).
  - rewrite bool_decide_eq_false_2 by done. by constructor.
Qed.

Lemma clean_segs_plain segs :
  Forall (fun s => mem_byte "/" s = false) segs -> Forall plain_seg (clean_segs true segs).
Proof.
  unfold clean_segs. intros Hs. apply Forall_rev.
  assert (Forall plain_seg []) as Hst by done. revert Hst. generalize (@nil string).
  induction Hs as [|s segs Hs Hss IH]; intros st Hst; cbn; [done|].
  apply IH. by apply push_seg_rooted_ok.
Qed.

(** A canonical absolute path is its root and plain segments. *)
Lemma Clean_fixed p :
  IsAbs p = true -> Clean p = p ->
  exists segs, p = "/" +:+ join "/" segs /\ Forall plain_seg segs.
Proof.
  unfold IsAbs, Clean. intros Habs. rewrite Habs. rewrite bool_decide_eq_false_2 by done.
  intros Hp. exists (clean_segs true (split_on "/" p)). split; [by symmetry|].
  apply clean_segs_plain, split_on_parts.
Qed.

(** Cleaning changes nothing in a rooted path of plain segments. *)
Lemma clean_segs_fixed segs : Forall plain_seg segs -> clean_segs true ("" :: segs) = segs.
Proof.
  intros Hs. unfold clean_segs. cbn [fold_left].
  change (push_seg true [] "") with (@nil string).
  assert (forall st, fold_left (push_seg true) segs st = rev segs ++ st) as Hf.
  { induction Hs as [|s segs (H1 & H2 & H3 & _) Hs IH]; intros st; [done|]. cbn.
    unfold push_seg at 2. rewrite !bool_decide_eq_false_2 by done. cbn.
    by rewrite IH, <- app_assoc. }
  by rewrite Hf, app_nil_r, rev_involutive.
Qed.

Lemma split_on_rooted segs :
  Forall plain_seg segs -> segs <> [] -> split_on "/" ("/" +:+ join "/" segs) = "" :: segs.
Proof.
  intros Hs Hne. cbn. f_equal. apply (split_on_join "/"); [done|].
  eapply Forall_impl; [exact Hs|]. by intros s (_ & _ & _ & ?).
Qed.

Lemma Clean_rooted segs :
  Forall plain_seg segs -> segs <> [] -> Clean ("/" +:+ join "/" segs) = "/" +:+ join "/" segs.
Proof.
  intros Hs Hne. unfold Clean. rewrite has_prefix_app. cbv iota.
  rewrite split_on_rooted, clean_segs_fixed by done. by rewrite bool_decide_eq_false_2.
Qed.

Lemma split_on_app c x y : split_on c (x +:+ String c y) = split_on c x ++ split_on c y.
Proof.
  induction x as [|a x IH]; cbn; [by rewrite Ascii.eqb_refl|].
  rewrite IH. destruct (Ascii.eqb a c); [done|].
  destruct (split_on c x) as [|w ws] eqn:Hs; [by apply split_on_nonempty in Hs|done].
Qed.

Lemma Clean_abs p : IsAbs p = true -> exists xs, Clean p = "/" +:+ join "/" xs /\ Forall plain_seg xs.
Proof.
  unfold IsAbs, Clean. intros ->. rewrite bool_decide_eq_false_2 by done. eexists. split; [reflexivity|]. apply clean_segs_plain, split_on_parts.
Qed.

Lemma dir_part_app x z : mem_byte "/" z = false -> dir_part (x +:+ "/" +:+ z) = x +:+ "/".
Proof.
  intros Hz. induction x as [|a x IH]; cbn -[mem_byte].
  - replace (dir_part z) with ""; [|destruct z; cbn -[mem_byte]; [done|by rewrite Hz]]. done.
  - rewrite <- sapp_cons, mem_byte_app. replace (mem_byte "/" (String "/" z)) with true by done. rewrite orb_true_r.
    change (String "/" z) with ("/" +:+ z). by rewrite IH.
Qed.

Lemma join_snoc xs z : xs <> [] -> join "/" (xs ++ [z]) = join "/" xs +:+ "/" +:+ z.
Proof.
  induction xs as [|x xs IH]; [done|]. intros _. destruct xs as [|y xs]; [done|].
  change (join "/" ((x :: y :: xs) ++ [z])) with (x +:+ "/" +:+ join "/" ((y :: xs) ++ [z])).
  change (join "/" (x :: y :: xs)) with (x +:+ "/" +:+ join "/" (y :: xs)). rewrite IH by done. by rewrite !sapp_assoc.
Qed.

Lemma clean_segs_trailing xs : clean_segs true (xs ++ [""]) = clean_segs true xs.
Proof. unfold clean_segs. rewrite fold_left_app. cbn. unfold push_seg at 1. by rewrite bool_decide_eq_true_2. Qed.

Lemma Join2_abs p q : IsAbs p = true -> exists xs, Join2 p q = "/" +:+ join "/" xs /\ Forall plain_seg xs.
Proof.
  intros Hp. destruct p as [|c p]; [done|]. destruct q as [|d q]; cbn [Join2]; apply Clean_abs; [done|].
  unfold IsAbs in *. apply has_prefix_spec in Hp as [t ->]. by rewrite sapp_assoc, has_prefix_app.
Qed.

(** The directory of a cleaned absolute path. *)
Lemma Dir_rooted xs : Forall plain_seg xs -> Dir ("/" +:+ join "/" xs) = "/" +:+ join "/" (removelast xs).
Proof.
  intros Hx. destruct xs as [|z ys _] using rev_ind; [done|].
  rewrite removelast_last. apply Forall_app in Hx as [Hy Hz]. apply Forall_inv in Hz as (Hz1 & _ & _ & Hz).
  unfold Dir. destruct ys as [|y ys].
  - change ("/" +:+ join "/" ([] ++ [z])) with ("" +:+ "/" +:+ z). by rewrite (dir_part_app "" z Hz).
  - rewrite join_snoc, <- sapp_assoc by done. rewrite dir_part_app by done. set (ys' := y :: ys) in *.
    unfold Clean. rewrite sapp_assoc, has_prefix_app. rewrite <- sapp_assoc. rewrite (split_on_app "/" ("/" +:+ join "/" ys') "").
    change (split_on "/" "") with [""]. rewrite clean_segs_trailing, split_on_rooted, clean_segs_fixed by done. by rewrite bool_decide_eq_false_2.
Qed.

(** Joining a plain segment to a cleaned absolute path. *)
Lemma Join2_seg xs s : Forall plain_seg xs -> xs <> [] -> plain_seg s ->
  Join2 ("/" +:+ join "/" xs) s = "/" +:+ join "/" xs +:+ "/" +:+ s.
Proof.
  intros Hx Hne Hs. destruct s as [|c s]; [by destruct Hs|].
  transitivity (Clean (("/" +:+ join "/" xs) +:+ "/" +:+ String c s)); [done|].
  rewrite sapp_assoc, <- join_snoc by done. apply Clean_rooted; [|by destruct xs]. apply Forall_app. split; [done|by constructor].
Qed.

(** Splitting a joined rooted path gives its segments back. *)
Lemma rooted_inj segs1 segs2 :
  Forall plain_seg segs1 -> Forall plain_seg segs2 -> segs1 <> [] -> segs2 <> [] ->
  "/" +:+ join "/" segs1 = "/" +:+ join "/" segs2 -> segs1 = segs2.
Proof.
  intros H1 H2 N1 N2 Heq. apply (f_equal (split_on "/")) in Heq.
  rewrite !split_on_rooted in Heq by done. by injection Heq.
Qed.
