(* ===== verification/Codec.v ===== *)
(** * Byte codecs of the Go standard library

    Hexadecimal, base64 (standard alphabet) and big-endian 32-bit lengths, as
    [encoding/hex], [encoding/base64] and [encoding/binary] define them. *)

From S2P Require Import Prelude GoStrings.

Definition hex_digit (n : N) : ascii :=
  if (n <? 10)%N then ascii_of_N (48 + n) else ascii_of_N (87 + n).

(** [hex.EncodeToString] *)
Fixpoint hex_encode (s : string) : string :=
  match s with
  | "" => ""
  | String a s' => String (hex_digit (code a / 16)) (String (hex_digit (code a mod 16)) (hex_encode s'))
  end.

Definition b64_alphabet : string := "ABCDEFGHIJKLMNOPQRSTUVWXYZabcdefghijklmnopqrstuvwxyz0123456789+/".

(** The character of a 6-bit group. *)
Definition b64_char (n : N) : ascii :=
  if (n <? 26)%N then ascii_of_N (65 + n)
  else if (n <? 52)%N then ascii_of_N (71 + n)
  else if (n <? 62)%N then ascii_of_N (n - 4)
  else if (n =? 62)%N then "+"%char else "/"%char.

(** [base64.StdEncoding.EncodeToString], [base64.RawStdEncoding.EncodeToString]. *)
Fixpoint b64_encode (pad : bool) (s : string) : string :=
  match s with
  | "" => ""
  | String a "" =>
      let n := (code a)%N in
      String (b64_char (n / 4)) (String (b64_char ((n mod 4) * 16)) (if pad then "==" else ""))
  | String a (String b "") =>
      let n := (code a * 256 + code b)%N in
      String (b64_char (n / 1024)) (String (b64_char (n / 16 mod 64))
        (String (b64_char ((n mod 16) * 4)) (if pad then "=" else "")))
  | String a (String b (String c s')) =>
      let n := (code a * 65536 + code b * 256 + code c)%N in
      String (b64_char (n / 262144)) (String (b64_char (n / 4096 mod 64))
        (String (b64_char (n / 64 mod 64)) (String (b64_char (n mod 64)) (b64_encode pad s'))))
  end.

Definition b64_value (c : ascii) : option N :=
  if is_upper c then Some (code c - 65)%N
  else if is_lower c then Some (code c - 71)%N
  else if is_digit c then Some (code c + 4)%N
  else if Ascii.eqb c "+" then Some 62%N else if Ascii.eqb c "/" then Some 63%N else None.

(** The decoder skips line breaks before it reads groups. *)
Fixpoint drop_breaks (s : string) : string :=
  match s with
  | "" => ""
  | String a s' => if Ascii.eqb a LF || Ascii.eqb a CR then drop_breaks s' else String a (drop_breaks s')
  end.

Fixpoint b64_groups (s : string) : option string :=
  match s with
  | "" => Some ""
  | String a (String b (String c (String d s'))) =>
      x ← b64_value a; y ← b64_value b;
      match b64_value c, b64_value d with
      | Some z, Some w =>
          let n := (x * 262144 + y * 4096 + z * 64 + w)%N in
          rest ← b64_groups s';
          Some (String (ascii_of_N (n / 65536)) (String (ascii_of_N (n / 256 mod 256))
                 (String (ascii_of_N (n mod 256)) rest)))
      | Some z, None =>
          if Ascii.eqb d "=" && bool_decide (s' = "")
          then let n := (x * 4096 + y * 64 + z)%N in
               Some (String (ascii_of_N (n / 1024)) (str1 (ascii_of_N (n / 4 mod 256))))
          else None
      | None, _ =>
          if Ascii.eqb c "=" && Ascii.eqb d "=" && bool_decide (s' = "")
          then Some (str1 (ascii_of_N ((x * 64 + y) / 16)))
          else None
      end
  | _ => None
  end.

(** [base64.StdEncoding.DecodeString]; [None] is a decoding error. *)
Definition b64_decode (s : string) : option string := b64_groups (drop_breaks s).

(** Big-endian 32-bit lengths. *)
Definition be32 (n : N) : string :=
  String (ascii_of_N (n / 16777216 mod 256)) (String (ascii_of_N (n / 65536 mod 256))
    (String (ascii_of_N (n / 256 mod 256)) (str1 (ascii_of_N (n mod 256))))).
Definition be32_value (a b c d : ascii) : N :=
  (code a * 16777216 + code b * 65536 + code c * 256 + code d)%N.

Example hex_ex : hex_encode "Az" = "417a". Proof. reflexivity. Qed.
Example b64_ex1 : b64_encode true "Man!" = "TWFuIQ==". Proof. reflexivity. Qed.
Example b64_ex2 : b64_encode false "Ma" = "TWE". Proof. reflexivity. Qed.
Example b64_ex3 : b64_decode "TWFuIQ==" = Some "Man!". Proof. reflexivity. Qed.

(** ** Lengths and alphabets *)

Lemma hex_encode_slen s : slen (hex_encode s) = 2 * slen s.
Proof. induction s as [|a s IH]; [done|]. cbn. rewrite IH. lia. Qed.

Lemma code_lt c : (code c < 256)%N.
Proof. apply N_ascii_bounded. Qed.

Lemma hex_digit_inj n m : (n < 16)%N -> (m < 16)%N -> hex_digit n = hex_digit m -> n = m.
Proof.
  intros Hn Hm He. set (all := [0;1;2;3;4;5;6;7;8;9;10;11;12;13;14;15]%N).
  assert (Hall : forall n m, n ∈ all -> m ∈ all -> hex_digit n = hex_digit m -> n = m).
  { intros x y Hx Hy Hxy. assert (Hc : forallb (fun x => forallb (fun y => negb (Ascii.eqb (hex_digit x) (hex_digit y)) || (x =? y)%N) all) all = true) by reflexivity.
    rewrite forallb_forall in Hc. specialize (Hc x (proj1 (list_elem_of_In _ _) Hx)). rewrite forallb_forall in Hc. specialize (Hc y (proj1 (list_elem_of_In _ _) Hy)).
    rewrite Hxy, Ascii.eqb_refl in Hc. by apply N.eqb_eq. }
  apply Hall; [| |done]; unfold all; rewrite !elem_of_cons; lia.
Qed.
Lemma hex_encode_inj s t : hex_encode s = hex_encode t -> s = t.
Proof.
  revert t. induction s as [|a s IH]; intros [|b t]; cbn; try done. intros [= H1 H2 H3].
  apply hex_digit_inj in H1; [|pose proof (code_lt a); apply N.Div0.div_lt_upper_bound; lia|pose proof (code_lt b); apply N.Div0.div_lt_upper_bound; lia].
  apply hex_digit_inj in H2; [|by apply N.mod_lt|by apply N.mod_lt]. f_equal; [|auto].
  assert (Hc : code a = code b) by (rewrite (N.div_mod (code a) 16), (N.div_mod (code b) 16) by done; congruence).
  rewrite <- (ascii_N_embedding a), <- (ascii_N_embedding b). unfold code in Hc. by rewrite Hc.
Qed.

Definition hexLower (c : ascii) : bool := is_digit c || between "a" "f" c.

Lemma hex_digit_lower n : (n < 16)%N -> hexLower (hex_digit n) = true.
Proof.
  intros Hn. assert (n ∈ [0;1;2;3;4;5;6;7;8;9;10;11;12;13;14;15]%N) as Hin.
  { rewrite !elem_of_cons. lia. }
  repeat (apply elem_of_cons in Hin as [->|Hin]; [reflexivity|]). by apply elem_of_nil in Hin.
Qed.

Lemma hex_encode_lower s : str_all hexLower (hex_encode s) = true.
Proof.
  induction s as [|a s IH]; [done|]. cbn [hex_encode str_all]. rewrite IH, !hex_digit_lower; [done|..].
  - apply N.mod_lt. lia.
  - apply N.Div0.div_lt_upper_bound. pose proof (code_lt a). lia.
Qed.

(** Induction by groups of three bytes. *)
Lemma string_ind3 (P : string -> Prop) :
  P "" -> (forall a, P (str1 a)) -> (forall a b, P (String a (str1 b))) ->
  (forall a b c s, P s -> P (String a (String b (String c s)))) -> forall s, P s.
Proof.
  intros H0 H1 H2 H3. fix IH 1. intros [|a [|b [|c s]]]; [exact H0|apply H1|apply H2|apply H3, IH].
Qed.

Lemma below_64 (P : N -> bool) : forallb P (map N.of_nat (List.seq 0 64)) = true -> forall n, (n < 64)%N -> P n = true.
Proof.
  intros H n Hn. rewrite forallb_forall in H. apply H. apply in_map_iff. exists (N.to_nat n).
  rewrite N2Nat.id. split; [done|]. apply in_seq. lia.
Qed.

Lemma b64_char_ok n : (n < 64)%N -> mem_byte (b64_char n) b64_alphabet = true.
Proof. apply (below_64 (fun n => mem_byte (b64_char n) b64_alphabet)). vm_compute. reflexivity. Qed.

Ltac codes := repeat match goal with |- context [code ?c] =>
  lazymatch goal with H : (code c < 256)%N |- _ => fail | _ => pose proof (code_lt c) end end.
Ltac div_bounds := codes; zify; Z.to_euclidean_division_equations; lia.

Lemma b64_encode_raw_alphabet s : str_all (fun c => mem_byte c b64_alphabet) (b64_encode false s) = true.
Proof.
  induction s as [|a|a b|a b c s IH] using string_ind3; [done|..];
    cbn [b64_encode str1 str_all]; rewrite ?IH, !b64_char_ok; try done; div_bounds.
Qed.

Lemma b64_encode_raw_slen s : slen s <= slen (b64_encode false s).
Proof. induction s as [|a|a b|a b c s IH] using string_ind3; cbn in *; lia. Qed.

(** ** Decoding undoes encoding *)

Lemma b64_value_char n : (n < 64)%N -> b64_value (b64_char n) = Some n.
Proof.
  intros Hn. pose proof (below_64 (fun n => bool_decide (b64_value (b64_char n) = Some n))) as H.
  eapply bool_decide_eq_true, H; [vm_compute; reflexivity|done].
Qed.

Lemma code_of_N n : (n < 256)%N -> code (ascii_of_N n) = n.
Proof. apply N_ascii_embedding. Qed.

Lemma N_of_code c : ascii_of_N (code c) = c.
Proof. apply ascii_N_embedding. Qed.

(** The digits of a number in a base. *)
Lemma split_base n b : (0 < b)%N -> (n / b * b + n mod b = n)%N.
Proof. intros Hb. rewrite (N.div_mod n b) at 3 by lia. lia. Qed.

Lemma b64_group n :
  (n / 262144 * 262144 + n / 4096 mod 64 * 4096 + n / 64 mod 64 * 64 + n mod 64 = n)%N.
Proof.
  assert (n / 4096 = n / 64 / 64)%N as H1 by (by rewrite N.Div0.div_div).
  assert (n / 262144 = n / 64 / 64 / 64)%N as H2 by (by rewrite !N.Div0.div_div).
  rewrite H1, H2. pose proof (split_base n 64). pose proof (split_base (n / 64) 64).
  pose proof (split_base (n / 64 / 64) 64). lia.
Qed.

Lemma b64_group2 n : (n / 1024 * 4096 + n / 16 mod 64 * 64 + n mod 16 * 4 = 4 * n)%N.
Proof.
  assert (n / 1024 = n / 16 / 64)%N as H1 by (by rewrite N.Div0.div_div).
  rewrite H1. pose proof (split_base n 16). pose proof (split_base (n / 16) 64). lia.
Qed.

Lemma bytes2 a b : (b < 256 ->
  4 * (a * 256 + b) / 1024 = a /\ 4 * (a * 256 + b) / 4 mod 256 = b)%N.
Proof.
  intros Hb. assert (4 * (a * 256 + b) / 4 = a * 256 + b)%N as H1 by (rewrite N.mul_comm, N.div_mul; lia).
  split.
  - change 1024%N with (4 * 256)%N. rewrite <- N.Div0.div_div, H1, N.add_comm.
    rewrite N.div_add by lia. rewrite N.div_small by lia. lia.
  - rewrite H1, N.add_comm, N.Div0.mod_add. by apply N.mod_small.
Qed.

Lemma bytes3 a b c : (b < 256 -> c < 256 ->
  (a * 65536 + b * 256 + c) / 65536 = a /\ (a * 65536 + b * 256 + c) / 256 mod 256 = b /\
  (a * 65536 + b * 256 + c) mod 256 = c)%N.
Proof.
  intros Hb Hc. replace (a * 65536 + b * 256 + c)%N with (c + (a * 256 + b) * 256)%N by lia.
  assert ((c + (a * 256 + b) * 256) / 256 = a * 256 + b)%N as H1
    by (rewrite N.div_add by lia; rewrite N.div_small by lia; lia).
  split_and!.
  - change 65536%N with (256 * 256)%N. rewrite <- N.Div0.div_div, H1, N.add_comm.
    rewrite N.div_add by lia. rewrite N.div_small by lia. lia.
  - rewrite H1, N.add_comm, N.Div0.mod_add. by apply N.mod_small.
  - rewrite N.Div0.mod_add. by apply N.mod_small.
Qed.

Lemma b64_roundtrip_groups s : b64_groups (b64_encode true s) = Some s.
Proof.
  induction s as [|a|a b|a b c s IH] using string_ind3; [done|..]; cbn [b64_encode str1]; cbv zeta.
  - cbn [b64_groups]. pose proof (code_lt a).
    rewrite !b64_value_char by (zify; Z.to_euclidean_division_equations; lia).
    cbn [mbind option_bind b64_value]. cbn. unfold str1. do 2 f_equal. rewrite <- (N_of_code a) at 3. f_equal.
    zify; Z.to_euclidean_division_equations; lia.
  - cbn [b64_groups]. pose proof (code_lt a). pose proof (code_lt b).
    rewrite !b64_value_char by (zify; Z.to_euclidean_division_equations; lia).
    cbn [mbind option_bind]. rewrite b64_group2. cbn.
    destruct (bytes2 (code a) (code b)) as [H3 H4]; [done|]. by rewrite H3, H4, !N_of_code.
  - cbn [b64_groups]. pose proof (code_lt a). pose proof (code_lt b). pose proof (code_lt c).
    rewrite !b64_value_char by (zify; Z.to_euclidean_division_equations; lia).
    cbn [mbind option_bind]. rewrite b64_group, IH. cbn [mbind option_bind].
    destruct (bytes3 (code a) (code b) (code c)) as (H3 & H4 & H5); [done..|].
    by rewrite H3, H4, H5, !N_of_code.
Qed.

Definition b64_byte (c : ascii) : bool := is_alnum c || mem_byte c "+/=".

Lemma b64_char_byte n : b64_byte (b64_char n) = true.
Proof.
  destruct (N.ltb_spec n 64) as [H|H].
  - revert n H. apply (below_64 (fun n => b64_byte (b64_char n))). vm_compute. reflexivity.
  - unfold b64_char. rewrite (proj2 (N.ltb_ge n 26)), (proj2 (N.ltb_ge n 52)), (proj2 (N.ltb_ge n 62)) by lia.
    by destruct (n =? 62)%N.
Qed.

Lemma b64_encode_bytes pad s : str_all b64_byte (b64_encode pad s) = true.
Proof.
  induction s as [|a|a b|a b c s IH] using string_ind3; [done|..]; cbn [b64_encode str1]; cbv zeta;
    cbn [str_all]; rewrite ?IH, !b64_char_byte; by destruct pad.
Qed.

Lemma drop_breaks_id s : str_all b64_byte s = true -> drop_breaks s = s.
Proof.
  induction s as [|a s IH]; [done|]. cbn. rewrite andb_true_iff. intros [Ha Hs].
  destruct (Ascii.eqb_spec a LF) as [->|]; [done|]. destruct (Ascii.eqb_spec a CR) as [->|]; [done|].
  cbn. by rewrite IH.
Qed.

(** Standard base64 round-trips. *)
Lemma b64_roundtrip s : b64_decode (b64_encode true s) = Some s.
Proof. unfold b64_decode. rewrite drop_breaks_id by apply b64_encode_bytes. apply b64_roundtrip_groups. Qed.

Lemma be32_roundtrip n : (n < 2 ^ 32)%N ->
  match be32 n with
  | String a (String b (String c (String d _))) => be32_value a b c d = n
  | _ => False
  end.
Proof.
  intros Hn. unfold be32, be32_value. cbn [str1].
  rewrite !code_of_N by (apply N.mod_lt; lia).
  assert (n / 65536 = n / 256 / 256)%N as H1 by (by rewrite N.Div0.div_div).
  assert (n / 16777216 = n / 256 / 256 / 256)%N as H2 by (by rewrite !N.Div0.div_div).
  rewrite H1, H2. pose proof (split_base n 256). pose proof (split_base (n / 256) 256).
  pose proof (split_base (n / 256 / 256) 256).
  assert (n / 256 / 256 / 256 mod 256 = n / 256 / 256 / 256)%N.
  { apply N.mod_small. rewrite !N.Div0.div_div. apply N.Div0.div_lt_upper_bound. change (256 * 256 * 256 * 256)%N with (2^32)%N. done. }
  lia.
Qed.
