(* ===== verification/Utf8.v ===== *)
(** * UTF-8 and UTF-16, as unicode/utf8 and unicode/utf16 define them

    Decoding yields [None] where Go yields [RuneError] with width 1. *)

From S2P Require Import Prelude GoStrings Codec.

Definition RuneError : N := 65533.

Definition cont (c : ascii) : bool := (128 <=? code c)%N && (code c <? 192)%N.
Definition cbits (c : ascii) : N := (code c - 128)%N.

(** A Unicode scalar value. *)
Definition scalar (r : N) : bool := ((r <? 55296) || ((57344 <=? r) && (r <=? 1114111)))%N.

(** [utf8.DecodeRuneInString] on a valid sequence: the rune and its width. *)
Definition decode_rune (s : string) : option (N * nat) :=
  match s with
  | "" => None
  | String a s1 =>
      let x := code a in
      if (x <? 128)%N then Some (x, 1)
      else if (x <? 192)%N then None
      else if (x <? 224)%N then
        match s1 with
        | String b _ =>
            let r := ((x - 192) * 64 + cbits b)%N in
            if cont b && (128 <=? r)%N then Some (r, 2) else None
        | _ => None
        end
      else if (x <? 240)%N then
        match s1 with
        | String b (String c _) =>
            let r := ((x - 224) * 4096 + cbits b * 64 + cbits c)%N in
            if cont b && cont c && (2048 <=? r)%N && scalar r then Some (r, 3) else None
        | _ => None
        end
      else if (x <? 248)%N then
        match s1 with
        | String b (String c (String d _)) =>
            let r := ((x - 240) * 262144 + cbits b * 4096 + cbits c * 64 + cbits d)%N in
            if cont b && cont c && cont d && (65536 <=? r)%N && (r <=? 1114111)%N then Some (r, 4) else None
        | _ => None
        end
      else None
  end.

(** [utf8.AppendRune]: a value that is no scalar is written as [RuneError]. *)
Definition encode_rune (r0 : N) : string :=
  let r := if scalar r0 then r0 else RuneError in
  if (r <? 128)%N then str1 (ascii_of_N r)
  else if (r <? 2048)%N then
    String (ascii_of_N (192 + r / 64)) (str1 (ascii_of_N (128 + r mod 64)))
  else if (r <? 65536)%N then
    String (ascii_of_N (224 + r / 4096)) (String (ascii_of_N (128 + r / 64 mod 64))
      (str1 (ascii_of_N (128 + r mod 64))))
  else
    String (ascii_of_N (240 + r / 262144)) (String (ascii_of_N (128 + r / 4096 mod 64))
      (String (ascii_of_N (128 + r / 64 mod 64)) (str1 (ascii_of_N (128 + r mod 64))))).

(** The runes of a string ([range s]); [skip] counts bytes already decoded. *)
Fixpoint runes_go (skip : nat) (s : string) : list N :=
  match s with
  | "" => []
  | String _ s' =>
      match skip with
      | S k => runes_go k s'
      | 0 => match decode_rune s with
             | Some (r, w) => r :: runes_go (w - 1) s'
             | None => RuneError :: runes_go 0 s'
             end
      end
  end.
Definition runes : string -> list N := runes_go 0.

(** [utf8.ValidString] *)
Fixpoint valid_go (skip : nat) (s : string) : bool :=
  match s with
  | "" => true
  | String _ s' =>
      match skip with
      | S k => valid_go k s'
      | 0 => match decode_rune s with
             | Some (_, w) => valid_go (w - 1) s'
             | None => false
             end
      end
  end.
Definition valid_utf8 : string -> bool := valid_go 0.

Fixpoint encode_runes (l : list N) : string :=
  match l with [] => "" | r :: l' => encode_rune r +:+ encode_runes l' end.

(** [utf16.Encode] *)
Fixpoint utf16_encode (l : list N) : list N :=
  match l with
  | [] => []
  | r0 :: l' =>
      let r := if scalar r0 then r0 else RuneError in
      if (r <? 65536)%N then r :: utf16_encode l'
      else (55296 + (r - 65536) / 1024)%N :: (56320 + (r - 65536) mod 1024)%N :: utf16_encode l'
  end.

Example runes_ex : runes (encode_runes [72; 233; 8364; 128512]%N) = [72; 233; 8364; 128512]%N.
Proof. reflexivity. Qed.
Example utf16_ex : utf16_encode [128512%N] = [55357; 56832]%N.
Proof. reflexivity. Qed.

(** ** Decoding and encoding are inverse *)

Lemma ascii_code c : ascii_of_N (code c) = c.
Proof. apply ascii_N_embedding. Qed.

Lemma ascii_code_eq c n : n = code c -> ascii_of_N n = c.
Proof. intros ->. apply ascii_code. Qed.

Ltac split_tests := repeat match goal with
  | H : andb _ _ = true |- _ => apply andb_true_iff in H as [? ?]
  | H : orb _ _ = true |- _ => apply orb_true_iff in H
  | H : cont _ = true |- _ => unfold cont in H
  | H : (_ <=? _)%N = true |- _ => apply N.leb_le in H
  | H : (_ <? _)%N = true |- _ => apply N.ltb_lt in H
  | H : (_ <=? _)%N = false |- _ => apply N.leb_gt in H
  | H : (_ <? _)%N = false |- _ => apply N.ltb_ge in H
  end.

Lemma scalar_small r : (r < 55296)%N -> scalar r = true.
Proof. intros H. unfold scalar. apply orb_true_iff. left. by apply N.ltb_lt. Qed.

Lemma div_exact x a b : (b < x)%N -> ((a * x + b) / x = a /\ (a * x + b) mod x = b)%N.
Proof.
  intros H. rewrite N.add_comm. split.
  - rewrite N.div_add by lia. rewrite N.div_small by lia. lia.
  - rewrite N.Div0.mod_add. by apply N.mod_small.
Qed.

Lemma decode_rune_spec s r w :
  decode_rune s = Some (r, w) ->
  s = encode_rune r +:+ sdrop w s /\ scalar r = true /\ 1 <= w <= slen s.
Proof.
  unfold decode_rune. destruct s as [|a s1]; [done|]. cbv zeta.
  pose proof (code_lt a) as Ha.
  destruct (code a <? 128)%N eqn:E1.
  { intros [= <- <-]. split_tests. rewrite scalar_small by lia. cbn [slen sdrop]. split_and!; [|done|lia|cbn; lia].
    unfold encode_rune. rewrite scalar_small by lia. cbv zeta. rewrite (proj2 (N.ltb_lt _ _) E1). cbn.
    by rewrite ascii_code. }
  destruct (code a <? 192)%N eqn:E2; [done|]. destruct (code a <? 224)%N eqn:E3.
  { destruct s1 as [|b s2]; [done|]. destruct (_ && _) eqn:Ec; [|done]. intros [= <- <-]. split_tests.
    unfold cbits in *. set (q := (code a - 192)%N) in *. set (m := (code b - 128)%N) in *.
    assert (m < 64)%N by (unfold m; lia). destruct (div_exact 64 q m) as [Hd Hm]; [done|].
    rewrite scalar_small by (unfold q, m in *; lia). split_and!; [|done|lia|cbn; lia].
    unfold encode_rune. rewrite scalar_small by (unfold q, m in *; lia). cbv zeta.
    rewrite (proj2 (N.ltb_ge _ _)) by (unfold q, m in *; lia).
    rewrite (proj2 (N.ltb_lt _ _)) by (unfold q, m in *; lia). rewrite Hd, Hm. cbn.
    rewrite (ascii_code_eq a), (ascii_code_eq b) by (unfold q, m; lia). done. }
  destruct (code a <? 240)%N eqn:E4.
  { destruct s1 as [|b [|c s2]]; [done..|]. destruct (_ && _) eqn:Ec; [|done]. intros [= <- <-].
    apply andb_true_iff in Ec as [Ec Hsc]. split_tests.
    revert Hsc. unfold cbits in *. set (q := (code a - 224)%N) in *. set (m := (code b - 128)%N) in *.
    set (n := (code c - 128)%N) in *. intros Hsc.
    assert (m < 64 /\ n < 64)%N as [Hm Hn] by (unfold m, n; lia).
    replace (q * 4096 + m * 64 + n)%N with ((q * 64 + m) * 64 + n)%N in * by lia.
    destruct (div_exact 64 (q * 64 + m) n Hn) as [D1 M1]. destruct (div_exact 64 q m Hm) as [D2 M2].
    assert (((q * 64 + m) * 64 + n) / 4096 = q)%N as D3.
    { change 4096%N with (64 * 64)%N. by rewrite <- N.Div0.div_div, D1, D2. }
    split_and!; [|done|lia|cbn; lia]. unfold encode_rune. rewrite Hsc. cbv zeta.
    rewrite (proj2 (N.ltb_ge _ _)), (proj2 (N.ltb_ge _ _)), (proj2 (N.ltb_lt _ _)) by (unfold q in *; lia).
    rewrite D1, D3, M1, M2. cbn.
    rewrite (ascii_code_eq a), (ascii_code_eq b), (ascii_code_eq c) by (unfold q, m, n; lia). done. }
  destruct (code a <? 248)%N eqn:E5; [|done].
  destruct s1 as [|b [|c [|d s2]]]; [done..|]. destruct (_ && _) eqn:Ec; [|done]. intros [= <- <-].
  split_tests. unfold cbits in *. set (q := (code a - 240)%N) in *. set (m := (code b - 128)%N) in *.
  set (n := (code c - 128)%N) in *. set (p := (code d - 128)%N) in *.
  assert (m < 64 /\ n < 64 /\ p < 64)%N as (Hm & Hn & Hp) by (unfold m, n, p; lia).
  replace (q * 262144 + m * 4096 + n * 64 + p)%N with (((q * 64 + m) * 64 + n) * 64 + p)%N in * by lia.
  destruct (div_exact 64 ((q * 64 + m) * 64 + n) p Hp) as [D1 M1].
  destruct (div_exact 64 (q * 64 + m) n Hn) as [D2 M2]. destruct (div_exact 64 q m Hm) as [D3 M3].
  assert ((((q * 64 + m) * 64 + n) * 64 + p) / 4096 = q * 64 + m)%N as D4.
  { change 4096%N with (64 * 64)%N. by rewrite <- N.Div0.div_div, D1, D2. }
  assert ((((q * 64 + m) * 64 + n) * 64 + p) / 262144 = q)%N as D5.
  { change 262144%N with (4096 * 64)%N. by rewrite <- N.Div0.div_div, D4, D3. }
  assert (scalar (((q * 64 + m) * 64 + n) * 64 + p) = true) as Hsc.
  { unfold scalar. apply orb_true_iff. right. apply andb_true_iff. split; apply N.leb_le; lia. }
  split_and!; [|done|lia|cbn; lia]. unfold encode_rune. rewrite Hsc. cbv zeta.
  rewrite !(proj2 (N.ltb_ge _ _)) by (unfold q in *; lia).
  rewrite D1, D4, D5, M1, M2, M3. cbn.
  rewrite (ascii_code_eq a), (ascii_code_eq b), (ascii_code_eq c), (ascii_code_eq d) by (unfold q, m, n, p; lia).
  done.
Qed.

Lemma runes_skip k s : runes_go k s = runes (sdrop k s).
Proof. revert s. induction k as [|k IH]; intros [|a s]; try done. apply IH. Qed.

Lemma valid_skip k s : valid_go k s = valid_utf8 (sdrop k s).
Proof. revert s. induction k as [|k IH]; intros [|a s]; try done. apply IH. Qed.

Lemma runes_cons a s r w : decode_rune (String a s) = Some (r, w) -> runes (String a s) = r :: runes (sdrop (w - 1) s).
Proof. intros H. unfold runes at 1. cbn [runes_go]. by rewrite H, runes_skip. Qed.

Lemma valid_cons a s :
  valid_utf8 (String a s) = match decode_rune (String a s) with
                            | Some (_, w) => valid_utf8 (sdrop (w - 1) s)
                            | None => false
                            end.
Proof.
  unfold valid_utf8 at 1. cbn [valid_go]. destruct (decode_rune (String a s)) as [[r w]|]; [|done].
  apply valid_skip.
Qed.

Lemma slen_sdrop n s : slen (sdrop n s) = slen s - n.
Proof. revert s. induction n as [|n IH]; intros [|a s]; cbn; auto. Qed.

(** Induction over the runes of a valid string. *)
Lemma valid_ind (P : string -> Prop) :
  P "" ->
  (forall s r w, decode_rune s = Some (r, w) -> valid_utf8 (sdrop w s) = true -> P (sdrop w s) -> P s) ->
  forall s, valid_utf8 s = true -> P s.
Proof.
  intros H0 Hs s. remember (slen s) as n eqn:Hn. revert s Hn.
  induction n as [n IH] using lt_wf_ind. intros [|a s] Hn Hv; [done|].
  rewrite valid_cons in Hv. destruct (decode_rune (String a s)) as [[r w]|] eqn:Hd; [|done].
  destruct (decode_rune_spec _ _ _ Hd) as (_ & _ & Hw). destruct w as [|w]; [lia|].
  change (sdrop (S w - 1) s) with (sdrop (w - 0) s) in Hv. rewrite Nat.sub_0_r in Hv.
  apply (Hs _ r (S w) Hd); [done|]. apply (IH (slen (sdrop (S w) (String a s)))); [|done|done].
  rewrite slen_sdrop. cbn in *. lia.
Qed.

Lemma runes_decode s r w : decode_rune s = Some (r, w) -> runes s = r :: runes (sdrop w s).
Proof.
  intros Hd. destruct s as [|a s]; [done|]. destruct (decode_rune_spec _ _ _ Hd) as (_ & _ & Hw).
  destruct w as [|w]; [lia|]. rewrite (runes_cons _ _ _ _ Hd). cbn [sdrop]. by rewrite Nat.sub_succ, Nat.sub_0_r.
Qed.

(** A valid string is its runes, written back. *)
Lemma encode_runes_valid s : valid_utf8 s = true -> encode_runes (runes s) = s /\ Forall (fun r => scalar r = true) (runes s).
Proof.
  revert s. apply valid_ind; [done|]. intros s r w Hd _ [IH1 IH2].
  destruct (decode_rune_spec _ _ _ Hd) as (Hs & Hr & _). rewrite (runes_decode _ _ _ Hd). split.
  - cbn. rewrite IH1. by symmetry.
  - by constructor.
Qed.

(** The first half of a surrogate pair is no scalar value. *)
Lemma scalar_not_surrogate x y :
  scalar x = true -> scalar y = true -> (65536 <= y)%N -> x = (55296 + (y - 65536) / 1024)%N -> False.
Proof.
  unfold scalar. rewrite !orb_true_iff, !andb_true_iff, !N.ltb_lt, !N.leb_le. intros Hx Hy Hle ->.
  assert ((y - 65536) / 1024 < 1024)%N as Hd by (apply N.Div0.div_lt_upper_bound; lia).
  revert Hx Hd. generalize ((y - 65536) / 1024)%N. intros d. clear. lia.
Qed.

Lemma utf16_encode_inj l1 l2 :
  Forall (fun r => scalar r = true) l1 -> Forall (fun r => scalar r = true) l2 ->
  utf16_encode l1 = utf16_encode l2 -> l1 = l2.
Proof.
  intros H1. revert l2. induction H1 as [|x l1 Hx H1 IH]; intros l2 H2.
  - destruct H2 as [|y l2 Hy _]; [done|]. cbn. rewrite Hy. by destruct (y <? 65536)%N.
  - destruct H2 as [|y l2 Hy H2]; cbn [utf16_encode]; rewrite Hx; cbv zeta; [by destruct (x <? 65536)%N|].
    rewrite Hy. destruct (N.ltb_spec x 65536), (N.ltb_spec y 65536); intros Heq; injection Heq; intros.
    + f_equal; auto.
    + exfalso. by apply (scalar_not_surrogate x y).
    + exfalso. by apply (scalar_not_surrogate y x).
    + f_equal; [|auto].
      assert ((x - 65536) = (y - 65536))%N; [|lia].
      rewrite (N.div_mod (x - 65536) 1024), (N.div_mod (y - 65536) 1024) by lia.
      f_equal; [f_equal|]; lia.
Qed.

(** The key on which object members are ordered determines the member name. *)
Definition utf16_key (s : string) : list N := utf16_encode (runes s).

Lemma utf16_key_inj s t :
  valid_utf8 s = true -> valid_utf8 t = true -> utf16_key s = utf16_key t -> s = t.
Proof.
  intros Hs Ht Heq. destruct (encode_runes_valid s Hs) as [Es Ss]. destruct (encode_runes_valid t Ht) as [Et St].
  rewrite <- Es, <- Et. f_equal. by apply utf16_encode_inj.
Qed.

(** Runes beyond ASCII are written in high bytes. *)
Lemma encode_rune_high r : (128 <= r)%N -> str_all (fun c => (128 <=? code c)%N) (encode_rune r) = true.
Proof.
  intros Hr. unfold encode_rune. cbv zeta.
  assert (128 <= (if scalar r then r else RuneError) <= 1114111)%N as Hb.
  { unfold scalar, RuneError. destruct (_ || _)%N eqn:E; [|lia].
    apply orb_true_iff in E as [E|E]; [apply N.ltb_lt in E; lia|].
    apply andb_true_iff in E as [_ E]. apply N.leb_le in E. lia. }
  revert Hb. generalize (if scalar r then r else RuneError). clear r Hr. intros r Hb.
  rewrite (proj2 (N.ltb_ge r 128)) by lia.
  destruct (N.ltb_spec r 2048) as [H|H]; [|destruct (N.ltb_spec r 65536) as [H'|H']]; cbn [str_all str1];
    rewrite !code_of_N by (zify; Z.to_euclidean_division_equations; lia);
    repeat (apply andb_true_iff; split); try apply N.leb_le; try done; zify; Z.to_euclidean_division_equations; lia.
Qed.

(** ** Strings *)
Lemma below_128 (P : N -> bool) : forallb P (map N.of_nat (List.seq 0 128)) = true -> forall n, (n < 128)%N -> P n = true.
Proof.
  intros H n Hn. rewrite forallb_forall in H. apply H. apply in_map_iff. exists (N.to_nat n).
  split; [lia|]. apply in_seq. lia.
Qed.
