(* ===== verification/Json.v ===== *)
(** * JSON, as encoding/json reads it

    The scanner is a pushdown automaton over the bytes of the text, like Go's
    own; the members of an object are kept in the order of the text, with
    duplicates, because the two ways the agent reads an object (into a map and
    into a struct) resolve duplicates differently. *)

From S2P Require Import Prelude GoStrings Codec Utf8.

Inductive json : Type :=
| JNull
| JBool (b : bool)
| JNum (text : string)
| JStr (s : string)
| JArr (l : list json)
| JObj (ms : list (string * json)).

Definition srev_app : string -> string -> string :=
  fix go s acc := match s with "" => acc | String a s' => go s' (String a acc) end.
Definition srev (s : string) : string := srev_app s "".

(** ** String literals ([unquote]) *)

Definition hex_value (c : ascii) : option N :=
  if is_digit c then Some (code c - 48)%N
  else if between "a" "f" c then Some (code c - 87)%N
  else if between "A" "F" c then Some (code c - 55)%N else None.

Definition hex4 (a b c d : ascii) : option N :=
  w ← hex_value a; x ← hex_value b; y ← hex_value c; z ← hex_value d;
  Some (w * 4096 + x * 256 + y * 16 + z)%N.

Definition is_surrogate (r : N) : bool := (55296 <=? r)%N && (r <? 57344)%N.

(** [utf16.DecodeRune]; [None] is the replacement character. *)
Definition surrogate_pair (r1 r2 : N) : option N :=
  if ((55296 <=? r1) && (r1 <? 56320) && (56320 <=? r2) && (r2 <? 57344))%N
  then Some ((r1 - 55296) * 1024 + (r2 - 56320) + 65536)%N else None.

(** The body of a literal the scanner accepted; [skip] copies the rest of a
    multi-byte rune. *)
Fixpoint unquote (skip : nat) (s : string) : string :=
  match s with
  | "" => ""
  | String a s' =>
      match skip with
      | S k => String a (unquote k s')
      | 0 =>
          if Ascii.eqb a "\" then
            match s' with
            | String "u" (String h1 (String h2 (String h3 (String h4 s1)))) =>
                match hex4 h1 h2 h3 h4 with
                | Some r =>
                    if is_surrogate r then
                      match s1 with
                      | String "\" (String "u" (String g1 (String g2 (String g3 (String g4 s2))))) =>
                          match r2 ← hex4 g1 g2 g3 g4; surrogate_pair r r2 with
                          | Some p => encode_rune p +:+ unquote 0 s2
                          | None => encode_rune RuneError +:+ unquote 0 s1
                          end
                      | _ => encode_rune RuneError +:+ unquote 0 s1
                      end
                    else encode_rune r +:+ unquote 0 s1
                | None => ""
                end
            | String "b" s1 => String "008" (unquote 0 s1)
            | String "f" s1 => String "012" (unquote 0 s1)
            | String "n" s1 => String LF (unquote 0 s1)
            | String "r" s1 => String CR (unquote 0 s1)
            | String "t" s1 => String TAB (unquote 0 s1)
            | String e s1 => String e (unquote 0 s1)
            | "" => ""
            end
          else if (code a <? 128)%N then String a (unquote 0 s')
          else match decode_rune s with
               | Some (_, w) => String a (unquote (w - 1) s')
               | None => encode_rune RuneError +:+ unquote 0 s'
               end
      end
  end.

(** ** The scanner *)

Inductive numstate := NNeg | NZero | NInt | NDot | NFrac | NE | NESign | NExp.

Inductive frame :=
| FArr (elems : list json)                             (* newest first *)
| FKey (members : list (string * json))                (* a member name is next, or the end *)
| FObj (members : list (string * json)) (key : string). (* the value of [key] is next *)

Inductive mode :=
| MValue | MValueOrClose | MKeyOrClose | MKey | MColon | MEnd
| MStr (raw : string) | MEsc (raw : string) | MHex (n : nat) (raw : string)
| MNum (st : numstate) (raw : string)
| MLit (rest : string) (v : json)
| MDone (v : json).

Definition is_ws (c : ascii) : bool := Ascii.eqb c " " || Ascii.eqb c TAB || Ascii.eqb c LF || Ascii.eqb c CR.

Definition maxNestingDepth : nat := Z.to_nat 10000.

Definition finish (v : json) (st : list frame) : list frame * mode :=
  match st with
  | [] => ([], MDone v)
  | FArr es :: st' => (FArr (v :: es) :: st', MEnd)
  | FObj ms k :: st' => (FKey ((k, v) :: ms) :: st', MEnd)
  | FKey ms :: st' => match v with
                      | JStr k => (FObj ms k :: st', MColon)
                      | _ => (st, MEnd)
                      end
  end.

(** After a value: a comma or the end of the container. *)
Definition step_end (st : list frame) (c : ascii) : option (list frame * mode) :=
  if is_ws c then Some (st, MEnd) else
  match st with
  | FArr es :: st' =>
      if Ascii.eqb c "," then Some (st, MValue)
      else if Ascii.eqb c "]" then Some (finish (JArr (rev es)) st') else None
  | FKey ms :: st' =>
      if Ascii.eqb c "," then Some (st, MKey)
      else if Ascii.eqb c "}" then Some (finish (JObj (rev ms)) st') else None
  | _ => None
  end.

Definition push (f : frame) (m : mode) (st : list frame) : option (list frame * mode) :=
  if (length st <? maxNestingDepth)%nat then Some (f :: st, m) else None.

Definition step_value (st : list frame) (c : ascii) : option (list frame * mode) :=
  if is_ws c then Some (st, MValue)
  else if Ascii.eqb c "{" then push (FKey []) MKeyOrClose st
  else if Ascii.eqb c "[" then push (FArr []) MValueOrClose st
  else if Ascii.eqb c "034" then Some (st, MStr "")
  else if Ascii.eqb c "-" then Some (st, MNum NNeg (str1 c))
  else if Ascii.eqb c "0" then Some (st, MNum NZero (str1 c))
  else if is_digit c then Some (st, MNum NInt (str1 c))
  else if Ascii.eqb c "t" then Some (st, MLit "rue" (JBool true))
  else if Ascii.eqb c "f" then Some (st, MLit "alse" (JBool false))
  else if Ascii.eqb c "n" then Some (st, MLit "ull" JNull)
  else None.

(** The next state of a number, [None] when the byte does not continue it. *)
Definition step_num (ns : numstate) (c : ascii) : option numstate :=
  match ns with
  | NNeg => if Ascii.eqb c "0" then Some NZero else if is_digit c then Some NInt else None
  | NInt => if is_digit c then Some NInt else if Ascii.eqb c "." then Some NDot
            else if Ascii.eqb c "e" || Ascii.eqb c "E" then Some NE else None
  | NZero => if Ascii.eqb c "." then Some NDot else if Ascii.eqb c "e" || Ascii.eqb c "E" then Some NE else None
  | NDot => if is_digit c then Some NFrac else None
  | NFrac => if is_digit c then Some NFrac else if Ascii.eqb c "e" || Ascii.eqb c "E" then Some NE else None
  | NE => if Ascii.eqb c "+" || Ascii.eqb c "-" then Some NESign else if is_digit c then Some NExp else None
  | NESign | NExp => if is_digit c then Some NExp else None
  end.
Definition num_complete (ns : numstate) : bool :=
  match ns with NZero | NInt | NFrac | NExp => true | _ => false end.

Definition step_done (v : json) (c : ascii) : option (list frame * mode) :=
  if is_ws c then Some ([], MDone v) else None.

Definition step (st : list frame) (m : mode) (c : ascii) : option (list frame * mode) :=
  match m with
  | MValue => step_value st c
  | MValueOrClose =>
      if is_ws c then Some (st, MValueOrClose)
      else if Ascii.eqb c "]" then match st with FArr _ :: st' => Some (finish (JArr []) st') | _ => None end
      else step_value st c
  | MKeyOrClose =>
      if is_ws c then Some (st, MKeyOrClose)
      else if Ascii.eqb c "}" then match st with FKey _ :: st' => Some (finish (JObj []) st') | _ => None end
      else if Ascii.eqb c "034" then Some (st, MStr "") else None
  | MKey => if is_ws c then Some (st, MKey) else if Ascii.eqb c "034" then Some (st, MStr "") else None
  | MColon => if is_ws c then Some (st, MColon) else if Ascii.eqb c ":" then Some (st, MValue) else None
  | MEnd => step_end st c
  | MStr raw =>
      if Ascii.eqb c "034" then Some (finish (JStr (unquote 0 (srev raw))) st)
      else if Ascii.eqb c "\" then Some (st, MEsc (String c raw))
      else if (code c <? 32)%N then None else Some (st, MStr (String c raw))
  | MEsc raw =>
      if mem_byte c (String "034" "bfnrt\/") then Some (st, MStr (String c raw))
      else if Ascii.eqb c "u" then Some (st, MHex 3 (String c raw)) else None
  | MHex n raw =>
      match hex_value c with
      | Some _ => Some (st, match n with 0 => MStr (String c raw) | S k => MHex k (String c raw) end)
      | None => None
      end
  | MNum ns raw =>
      match step_num ns c with
      | Some ns' => Some (st, MNum ns' (String c raw))
      | None =>
          if num_complete ns then
            let '(st', m') := finish (JNum (srev raw)) st in
            match m' with MDone v => step_done v c | _ => step_end st' c end
          else None
      end
  | MLit rest v =>
      match rest with
      | String r "" => if Ascii.eqb c r then Some (finish v st) else None
      | String r rest' => if Ascii.eqb c r then Some (st, MLit rest' v) else None
      | "" => None
      end
  | MDone v => step_done v c
  end.

Fixpoint scan (st : list frame) (m : mode) (s : string) : option (list frame * mode) :=
  match s with
  | "" => Some (st, m)
  | String c s' => '(st', m') ← step st m c; scan st' m' s'
  end.

(** The value of a JSON text, [None] on a syntax error. *)
Definition json_parse (s : string) : option json :=
  '(st, m) ← scan [] MValue s;
  match st, m with
  | [], MDone v => Some v
  | [], MNum ns raw => if num_complete ns then Some (JNum (srev raw)) else None
  | _, _ => None
  end.

(** ** Reading an object into a struct

    A member name selects the field whose name it equals up to case folding
    (the Kelvin sign folds to k and the long s to s); a [null] leaves a scalar
    field as it is; a value of the wrong type is an error, but decoding goes
    on.  Later members overwrite earlier ones. *)
Fixpoint fold_key (s : string) : string :=
  match s with
  | String "226" (String "132" (String "170" s')) => String "K" (fold_key s')
  | String "197" (String "191" s') => String "S" (fold_key s')
  | String a s' => String (upper_byte a) (fold_key s')
  | "" => ""
  end.

Definition names_field (name k : string) : bool := bool_decide (fold_key k = fold_key name).

(** [strconv.ParseInt(t, 10, 64)] on a JSON number. *)
Definition digits_value (s : string) : option Z :=
  (fix go (s : string) (acc : Z) : option Z :=
     match s with
     | "" => Some acc
     | String a s' => if is_digit a then go s' (acc * 10 + Z.of_N (code a - 48))%Z else None
     end) s 0%Z.
Definition int64_ok (z : Z) : bool := ((- 2 ^ 63 <=? z) && (z <? 2 ^ 63))%Z.
Definition parse_int64 (t : string) : option Z :=
  z ← match t with
      | "" => None
      | String "-" "" => None
      | String "-" d => Z.opp <$> digits_value d
      | d => digits_value d
      end;
  if int64_ok z then Some z else None.

(** [strconv.Atoi]: a sign and digits within 64 bits. *)
Definition Atoi (s : string) : option Z :=
  z ← match s with
      | String "-" d => if bool_decide (d = "") then None else Z.opp <$> digits_value d
      | String "+" d => if bool_decide (d = "") then None else digits_value d
      | "" => None
      | d => digits_value d
      end;
  if int64_ok z then Some z else None.

(** One decoding step: the new field value and whether an error was met. *)
Definition dec_string (j : json) (cur : string) : string * bool :=
  match j with JStr s => (s, false) | JNull => (cur, false) | _ => (cur, true) end.
Definition dec_bool (j : json) (cur : bool) : bool * bool :=
  match j with JBool b => (b, false) | JNull => (cur, false) | _ => (cur, true) end.
Definition dec_int (j : json) (cur : Z) : Z * bool :=
  match j with
  | JNum t => match parse_int64 t with Some z => (z, false) | None => (cur, true) end
  | JNull => (cur, false)
  | _ => (cur, true)
  end.
(** [json.RawMessage] keeps any value. *)
Definition dec_raw (j : json) (_ : option json) : option json * bool := (Some j, false).

(** Fold a field decoder over the members that name the field. *)
Definition dec_field {A} (dec : json -> A -> A * bool) (name : string) (ms : list (string * json)) (zero : A)
    : A * bool :=
  fold_left (fun '(cur, e) '(k, j) =>
    if names_field name k then let '(v, e') := dec j cur in (v, e || e') else (cur, e)) ms (zero, false).

(** The members of a value decoded into a struct: [null] decodes into the zero
    struct, any other non-object is an error. *)
Definition struct_members (j : json) : list (string * json) * bool :=
  match j with JObj ms => (ms, false) | JNull => ([], false) | _ => ([], true) end.

(** Assigning a Go map entry: the name keeps its place, the last value wins. *)
Fixpoint assoc_set {A} (k : string) (v : A) (l : list (string * A)) : list (string * A) :=
  match l with
  | [] => [(k, v)]
  | (k', v') :: l' => if bool_decide (k' = k) then (k, v) :: l' else (k', v') :: assoc_set k v l'
  end.
Fixpoint assoc {A} (k : string) (l : list (string * A)) : option A :=
  match l with
  | [] => None
  | (k', v) :: l' => if bool_decide (k' = k) then Some v else assoc k l'
  end.

(** A [map[string]any] field: an object is merged into the map that is already
    there, [null] resets it. *)
Definition dec_map (j : json) (cur : list (string * json)) : list (string * json) * bool :=
  match j with
  | JObj ms => (fold_left (fun m '(k, v) => assoc_set k v m) ms cur, false)
  | JNull => ([], false)
  | _ => (cur, true)
  end.

(** The text of a JSON example, with quotes written as backquotes. *)
Fixpoint bq (s : string) : string :=
  match s with "" => "" | String a s' => String (if Ascii.eqb a "`" then "034"%char else a) (bq s') end.

Example parse_ex1 :
  json_parse (bq " {`a`:[1,-2.5e3,true,null],`b`:{`c`:`x\ny\u20ac`}, `a`:0} ")
  = Some (JObj [("a", JArr [JNum "1"; JNum "-2.5e3"; JBool true; JNull]);
                ("b", JObj [("c", JStr ("x" +:+ String LF "y" +:+ encode_rune 8364))]); ("a", JNum "0")]).
Proof. reflexivity. Qed.
Example parse_ex2 : json_parse (bq "{`a`:1,}") = None. Proof. reflexivity. Qed.
Example parse_ex3 : json_parse "01" = None. Proof. reflexivity. Qed.
Example parse_ex4 : json_parse "[] x" = None. Proof. reflexivity. Qed.
Example parse_ex5 : json_parse (bq "`\ud83d\ude00\ud83d`") = Some (JStr (encode_rune 128512 +:+ encode_rune 65533)).
Proof. reflexivity. Qed.
Example parse_ex6 : parse_int64 "-0" = Some 0%Z /\ parse_int64 "1.0" = None /\
  parse_int64 "9223372036854775807" = Some 9223372036854775807%Z /\ parse_int64 "9223372036854775808" = None.
Proof. repeat split. Qed.

(** ** Lemmas *)

Lemma assoc_set_eq {A} k (v : A) l : assoc k (assoc_set k v l) = Some v.
Proof.
  induction l as [|[k' v'] l IH]; cbn; [by rewrite bool_decide_eq_true_2|].
  case_bool_decide as Hk; cbn; [by rewrite bool_decide_eq_true_2|]. by rewrite bool_decide_eq_false_2.
Qed.

Lemma assoc_set_ne {A} k k' (v : A) l : k <> k' -> assoc k' (assoc_set k v l) = assoc k' l.
Proof.
  intros Hne. induction l as [|[k1 v1] l IH]; cbn; [by rewrite bool_decide_eq_false_2|].
  destruct (decide (k1 = k)) as [->|].
  - rewrite bool_decide_eq_true_2 by done. cbn. by rewrite bool_decide_eq_false_2.
  - rewrite bool_decide_eq_false_2 by done. cbn. by rewrite IH.
Qed.

Lemma assoc_set_keys {A} k (v : A) l : NoDup (map fst l) -> NoDup (map fst (assoc_set k v l)).
Proof.
  induction l as [|[k' v'] l IH]; cbn; [intros; constructor; [set_solver|done]|].
  rewrite !NoDup_cons. intros [Hn Hd]. case_bool_decide as Hk; cbn; rewrite NoDup_cons; [by subst|].
  split; [|by apply IH]. clear IH Hd.
  induction l as [|[k1 v1] l IH]; cbn in *; [set_solver|]. case_bool_decide; cbn; set_solver.
Qed.
