(* ===== verification/JsonEnc.v ===== *)
(** * JSON, as encoding/json writes it

    [json.Marshal] of a tree of [map[string]any], [[]any], strings, booleans
    and numbers: member names in byte order, strings with the HTML-safe
    escapes.  A number is carried as the text Go prints for it. *)

From S2P Require Import Prelude GoStrings Codec Utf8 Json.

Definition u_escape (r : N) : string := "\u00" +:+ String (hex_digit (r / 16)) (str1 (hex_digit (r mod 16))).

(** One rune of [appendString]. *)
Definition html_rune (r : N) : string :=
  if (r =? 34)%N || (r =? 92)%N then String "\" (str1 (ascii_of_N r))
  else if (r =? 8)%N then "\b"
  else if (r =? 12)%N then "\f"
  else if (r =? 10)%N then "\n"
  else if (r =? 13)%N then "\r"
  else if (r =? 9)%N then "\t"
  else if (r <? 32)%N || (r =? 60)%N || (r =? 62)%N || (r =? 38)%N then u_escape r
  else if (r =? 8232)%N then "\u2028"
  else if (r =? 8233)%N then "\u2029"
  else encode_rune r.

Fixpoint html_go (skip : nat) (s : string) : string :=
  match s with
  | "" => ""
  | String _ s' =>
      match skip with
      | S k => html_go k s'
      | 0 => match decode_rune s with
             | Some (r, w) => html_rune r +:+ html_go (w - 1) s'
             | None => "\ufffd" +:+ html_go 0 s'
             end
      end
  end.

Definition marshal_string (s : string) : string := String "034" (html_go 0 s +:+ str1 "034").

(** The members of a map, in byte order of the names. *)
Definition by_name {A} (ms : list (string * A)) : list (string * A) :=
  omap (fun k => pair k <$> assoc k ms) (sort_strings (map fst ms)).

(** A value with its members in the given order, the order of struct fields. *)
Fixpoint render (j : json) : string :=
  match j with
  | JNull => "null"
  | JBool b => if b then "true" else "false"
  | JNum t => t
  | JStr s => marshal_string s
  | JArr l => "[" +:+ join "," (map render l) +:+ "]"
  | JObj ms => "{" +:+ join "," (map (fun p => marshal_string p.1 +:+ ":" +:+ render p.2) ms) +:+ "}"
  end.

(** The members of every map in byte order. *)
Fixpoint sort_json (j : json) : json :=
  match j with
  | JArr l => JArr (map sort_json l)
  | JObj ms => JObj (by_name (map (fun p => (p.1, sort_json p.2)) ms))
  | _ => j
  end.

Definition marshal (j : json) : string := render (sort_json j).

Example marshal_ex :
  marshal (JObj [("b", JArr [JNum "1"; JNull]); ("a", JStr (bq "<`>" +:+ str1 "255"))])
  = bq "{`a`:`\u003c\" +:+ bq "`\u003e\ufffd`,`b`:[1,null]}".
Proof. reflexivity. Qed.

(** ** Two values that differ only in the order of members

    Go maps have no order: values are the same when arrays agree item by item
    and objects agree name by name. *)
Inductive jsim : json -> json -> Prop :=
| jsim_refl j : jsim j j
| jsim_arr l1 l2 : length l1 = length l2 ->
    (forall i v1 v2, l1 !! i = Some v1 -> l2 !! i = Some v2 -> jsim v1 v2) -> jsim (JArr l1) (JArr l2)
| jsim_obj ms1 ms2 : map fst ms1 ≡ₚ map fst ms2 ->
    (forall k v1 v2, assoc k ms1 = Some v1 -> assoc k ms2 = Some v2 -> jsim v1 v2) -> jsim (JObj ms1) (JObj ms2).

Lemma assoc_None {A} k (ms : list (string * A)) : assoc k ms = None <-> k ∉ map fst ms.
Proof.
  induction ms as [|[k' v] ms IH]; cbn; [set_solver|]. destruct (decide (k' = k)) as [->|].
  - rewrite bool_decide_eq_true_2 by done. set_solver.
  - rewrite bool_decide_eq_false_2 by done. rewrite IH, not_elem_of_cons. naive_solver.
Qed.

Lemma assoc_map_snd {A B} (f : A -> B) k (ms : list (string * A)) :
  assoc k (map (fun p => (p.1, f p.2)) ms) = f <$> assoc k ms.
Proof. induction ms as [|[k' v] ms IH]; cbn; [done|]. by case_bool_decide. Qed.

Lemma map_fst_snd {A B} (f : A -> B) (ms : list (string * A)) : map fst (map (fun p => (p.1, f p.2)) ms) = map fst ms.
Proof. rewrite map_map. by apply map_ext. Qed.

Lemma omap_ext_in {A B} (f g : A -> option B) (l : list A) : (forall x, x ∈ l -> f x = g x) -> omap f l = omap g l.
Proof.
  induction l as [|x l IH]; intros H; [done|]. cbn. rewrite (H x) by set_solver.
  rewrite IH; [done|]. intros y Hy. apply H. set_solver.
Qed.

Lemma assoc_omap {A} (f : string -> option A) k (l : list string) :
  assoc k (omap (fun k' => pair k' <$> f k') l) = if bool_decide (k ∈ l) then f k else None.
Proof.
  induction l as [|x l IH]; [done|]. cbn. destruct (decide (x = k)) as [->|Hne].
  - rewrite bool_decide_eq_true_2 by set_solver. destruct (f k) as [v|] eqn:Hf; cbn; [by rewrite bool_decide_eq_true_2|].
    rewrite IH. by case_bool_decide; rewrite ?Hf.
  - replace (bool_decide (k ∈ x :: l)) with (bool_decide (k ∈ l)) by (apply bool_decide_ext; set_solver).
    destruct (f x); cbn; [by rewrite bool_decide_eq_false_2|done].
Qed.

(** Ordering the members does not change what a name means. *)
Lemma assoc_by_name {A} k (ms : list (string * A)) : assoc k (by_name ms) = assoc k ms.
Proof.
  unfold by_name. rewrite assoc_omap. case_bool_decide as Hk; [done|]. symmetry. apply assoc_None.
  by rewrite elem_of_sort_strings in Hk.
Qed.

Lemma by_name_keys {A} (ms : list (string * A)) : map fst (by_name ms) = sort_strings (map fst ms).
Proof.
  unfold by_name. assert (H : forall k, k ∈ sort_strings (map fst ms) -> is_Some (assoc k ms)).
  { intros k Hk. rewrite elem_of_sort_strings in Hk. destruct (assoc k ms) eqn:Ha; [done|]. by apply assoc_None in Ha. }
  induction (sort_strings (map fst ms)) as [|k l IH]; [done|]. cbn. destruct (H k ltac:(set_solver)) as [v ->].
  cbn. rewrite IH; [done|]. intros k' Hk'. apply H. set_solver.
Qed.

Lemma assoc_app {A} k (m1 m2 : list (string * A)) : assoc k (m1 ++ m2) = match assoc k m1 with Some v => Some v | None => assoc k m2 end.
Proof. induction m1 as [|[k' v] m1 IH]; [done|]. cbn. by case_bool_decide. Qed.

(** A function of the values that respects [jsim] gives the same members in name order. *)
Lemma by_name_sim {B} (f : json -> B) ms1 ms2 :
  map fst ms1 ≡ₚ map fst ms2 ->
  (forall k v1 v2, assoc k ms1 = Some v1 -> assoc k ms2 = Some v2 -> f v1 = f v2) ->
  by_name (map (fun p => (p.1, f p.2)) ms1) = by_name (map (fun p => (p.1, f p.2)) ms2).
Proof.
  intros Hp Hv. unfold by_name. rewrite !map_fst_snd, (sort_strings_unique _ _ Hp).
  apply omap_ext_in. intros k _. rewrite !assoc_map_snd.
  destruct (assoc k ms1) as [v1|] eqn:H1, (assoc k ms2) as [v2|] eqn:H2; cbn; [| | |done].
  - by rewrite (Hv k v1 v2).
  - apply assoc_None in H2. rewrite <- Hp in H2. apply assoc_None in H2. congruence.
  - apply assoc_None in H1. rewrite Hp in H1. apply assoc_None in H1. congruence.
Qed.

Lemma map_sim {B} (f : json -> B) l1 l2 : length l1 = length l2 ->
  (forall i v1 v2, l1 !! i = Some v1 -> l2 !! i = Some v2 -> f v1 = f v2) -> map f l1 = map f l2.
Proof.
  intros Hl Hv. apply list_eq. intros i. rewrite !list_lookup_fmap.
  destruct (l1 !! i) as [v1|] eqn:H1, (l2 !! i) as [v2|] eqn:H2; cbn; [| | |done].
  - by rewrite (Hv i v1 v2).
  - apply lookup_lt_Some in H1. apply lookup_ge_None in H2. lia.
  - apply lookup_lt_Some in H2. apply lookup_ge_None in H1. lia.
Qed.

Lemma sort_json_sim j1 j2 : jsim j1 j2 -> sort_json j1 = sort_json j2.
Proof.
  induction 1 as [|l1 l2 Hl _ IH|ms1 ms2 Hp _ IH]; [done| |]; cbn.
  - by rewrite (map_sim sort_json l1 l2).
  - by rewrite (by_name_sim sort_json ms1 ms2).
Qed.

Lemma marshal_sim j1 j2 : jsim j1 j2 -> marshal j1 = marshal j2.
Proof. intros H. unfold marshal. by rewrite (sort_json_sim j1 j2). Qed.
