(* ===== verification/GoAny.v ===== *)
(** * Dynamic values: the [any] trees of YAML and JSON documents

    The manifest and the user configuration are read into [map[string]any].  A
    float64 is carried by what the code can see of it: its conversion to an
    integer, whether that conversion is exact, and the texts fmt and
    encoding/json print for it (encoding/json refuses infinities).  Maps are
    lists of entries with distinct names. *)

From S2P Require Import Prelude GoStrings Codec Utf8 Json JsonEnc.

Record gofloat := MkFloat { f_int : Z; f_whole : bool; f_shown : string; f_json : option string }.

Inductive any : Type :=
| ANull
| ABool (b : bool)
| AInt (z : Z)
| AFloat (f : gofloat)
| AStr (s : string)
| AList (l : list any)
| AMap (ms : list (string * any))
| AOther (shown : string) (encoded : string).  (* another scalar: how fmt and encoding/json print it *)

(** [fmt.Sprintf("%v", v)]; maps are printed in name order. *)
Fixpoint fmt_v (v : any) : string :=
  match v with
  | ANull => "<nil>"
  | ABool b => if b then "true" else "false"
  | AInt z => itoa z
  | AFloat f => f_shown f
  | AStr s => s
  | AList l => "[" +:+ join " " (map fmt_v l) +:+ "]"
  | AMap ms => "map[" +:+ join " " (map (fun p => p.1 +:+ ":" +:+ p.2) (by_name (map (fun p => (p.1, fmt_v p.2)) ms))) +:+ "]"
  | AOther shown _ => shown
  end.

Definition toString (v : any) : string :=
  match v with
  | ANull => ""
  | AFloat f => if f_whole f then itoa (f_int f) else f_shown f
  | _ => fmt_v v
  end.

(** The longest prefix of digits. *)
Fixpoint digit_run (s : string) : string :=
  match s with String a s' => if is_digit a then String a (digit_run s') else "" | "" => "" end.

(** [fmt.Sscanf(t, "%d", &n)] into a zero [n]: white space, a sign, digits;
    a line break before the number, no digit or an overflow leave 0. *)
Fixpoint sscan_int (skip : nat) (s : string) : Z :=
  match s with
  | "" => 0
  | String a s' =>
      match skip with
      | S k => sscan_int k s'
      | 0 => if Ascii.eqb a LF then 0%Z else
             match space_len s with
             | S k => sscan_int k s'
             | 0 =>
                 let '(neg, d) := if Ascii.eqb a "-" then (true, s') else if Ascii.eqb a "+" then (false, s') else (false, s) in
                 match digit_run d with
                 | "" => 0%Z
                 | ds => match digits_value ds with
                         | Some z => let z := if (neg : bool) then (- z)%Z else z in if int64_ok z then z else 0%Z
                         | None => 0%Z
                         end
                 end
             end
      end
  end.

Definition toInt (v : any) : Z :=
  match v with
  | AInt z => z
  | AFloat f => f_int f
  | AStr s => sscan_int 0 s
  | _ => 0
  end.

(** [strings.EqualFold(t, "true")]: no non-ASCII rune folds to these letters. *)
Definition toBool (v : any) : bool :=
  match v with
  | ABool b => b
  | AStr s => bool_decide (to_upper s = "TRUE")
  | _ => false
  end.

Notation amap := (list (string * any)).
Definition get (k : string) (m : amap) : any := default ANull (assoc k m).
Definition as_map (v : any) : option amap := match v with AMap m => Some m | _ => None end.
Definition as_list (v : any) : option (list any) := match v with AList l => Some l | _ => None end.
Definition as_str (v : any) : option string := match v with AStr s => Some s | _ => None end.
(** The maps among the items of a list; other items are skipped. *)
Definition maps_of (v : any) : list amap := omap as_map (default [] (as_list v)).

(** ** To and from JSON *)
Fixpoint seq_opt {A} (l : list (option A)) : option (list A) :=
  match l with
  | [] => Some []
  | x :: l' => a ← x; r ← seq_opt l'; Some (a :: r)
  end.

(** What [json.Marshal] is given; [None] is its error. *)
Fixpoint any_json (v : any) : option json :=
  match v with
  | ANull => Some JNull
  | ABool b => Some (JBool b)
  | AInt z => Some (JNum (itoa z))
  | AFloat f => JNum <$> f_json f
  | AStr s => Some (JStr s)
  | AList l => JArr <$> seq_opt (map any_json l)
  | AMap ms => JObj <$> seq_opt (map (fun p => pair p.1 <$> any_json p.2) ms)
  | AOther _ encoded => Some (JNum encoded)
  end.

Section from_json.
(** [strconv.ParseFloat] of a JSON number; [None] when it is out of range. *)
Context (parse_float : string -> option gofloat).

(** [json.Unmarshal] into an empty interface: the last of equal names wins; a
    number out of range is an error and decodes to nil. *)
Fixpoint json_any (j : json) : any * bool :=
  match j with
  | JNull => (ANull, false)
  | JBool b => (ABool b, false)
  | JNum t => match parse_float t with Some f => (AFloat f, false) | None => (ANull, true) end
  | JStr s => (AStr s, false)
  | JArr l => (AList (map fst (map json_any l)), existsb snd (map json_any l))
  | JObj ms => let vs := map (fun p => (p.1, json_any p.2)) ms in
               (AMap (fold_left (fun m p => assoc_set p.1 (fst p.2) m) vs []), existsb (fun p => snd p.2) vs)
  end.

(** A [map[string]any] struct field: an object is merged into the map already
    there, [null] resets it. *)
Definition dec_amap (j : json) (cur : amap) : amap * bool :=
  match j with
  | JObj ms => (fold_left (fun m p => assoc_set p.1 (fst (json_any p.2)) m) ms cur, existsb (fun p => snd (json_any p.2)) ms)
  | JNull => ([], false)
  | _ => (cur, true)
  end.
End from_json.
