(* ===== verification/Jcs.v ===== *)
(** * Canonical JSON: internal/signedmut/jcs.go and decodeJSON of envelope.go

    A mutation is signed over its canonical form (the integer subset of RFC
    8785).  The form is shown to be a perfect stand-in for the value: two
    trees have the same canonical bytes exactly when they are equal up to the
    order of object members. *)

From S2P Require Import Prelude GoStrings Codec Utf8 Json.

(** A decoded value; the members of an object are a Go map: distinct names,
    no order. *)
Inductive tree : Type :=
| TNull
| TBool (b : bool)
| TInt (z : Z)
| TStr (s : string)
| TArr (l : list tree)
| TObj (ms : list (string * tree)).

Inductive jcs_error : Type :=
| NotInteger
| IntRange (z : Z)
| BadUTF8.

(** Go's decoding into a map: the last value of a name wins. *)
Definition last_wins {A} (ms : list (string * A)) : list (string * A) :=
  fold_left (fun m '(k, v) => assoc_set k v m) ms [].

Fixpoint seq_list {E A} (l : list (res E A)) : res E (list A) :=
  match l with
  | [] => Ok []
  | x :: l' => let! a := x in let! r := seq_list l' in Ok (a :: r)
  end.

Definition with_key {E A} (p : string * res E A) : res E (string * A) := rmap (pair p.1) p.2.

(** [normalize]: every number becomes an [int64]. *)
Fixpoint normalize (j : json) : res jcs_error tree :=
  match j with
  | JNull => Ok TNull
  | JBool b => Ok (TBool b)
  | JNum t => match parse_int64 t with Some z => Ok (TInt z) | None => Err NotInteger end
  | JStr s => Ok (TStr s)
  | JArr l => rmap TArr (seq_list (map normalize l))
  | JObj ms => rmap TObj (seq_list (map with_key (last_wins (map (fun p => (p.1, normalize p.2)) ms))))
  end.

Definition maxSafeInteger : Z := 2 ^ 53 - 1.

(** *** [sortUTF16] *)
Fixpoint lex_leb (a b : list N) : bool :=
  match a, b with
  | [], _ => true
  | _ :: _, [] => false
  | x :: a', y :: b' => if (x =? y)%N then lex_leb a' b' else (x <? y)%N
  end.
Definition key_leb (a b : string) : bool := lex_leb (utf16_key a) (utf16_key b).

Fixpoint key_insert {A} (x : string * A) (l : list (string * A)) : list (string * A) :=
  match l with
  | [] => [x]
  | y :: l' => if key_leb x.1 y.1 then x :: l else y :: key_insert x l'
  end.
Fixpoint sortUTF16 {A} (l : list (string * A)) : list (string * A) :=
  match l with [] => [] | x :: l' => key_insert x (sortUTF16 l') end.

(** *** [writeJCSString] *)
Definition esc2 (c : ascii) : string := String "\" (str1 c).
Definition QUOTE : ascii := "034".

Definition esc_rune (r : N) : string :=
  if (r =? 34)%N then esc2 QUOTE
  else if (r =? 92)%N then esc2 "\"
  else if (r =? 8)%N then esc2 "b"
  else if (r =? 9)%N then esc2 "t"
  else if (r =? 10)%N then esc2 "n"
  else if (r =? 12)%N then esc2 "f"
  else if (r =? 13)%N then esc2 "r"
  else if (r <? 32)%N then "\u00" +:+ String (hex_digit (r / 16)) (str1 (hex_digit (r mod 16)))
  else encode_rune r.

Definition writeJCSString (s : string) : string :=
  String QUOTE (fold_right (fun r acc => esc_rune r +:+ acc) (str1 QUOTE) (runes s)).

Definition validateUTF8 (s : string) : res jcs_error unit := guard_err (negb (valid_utf8 s)) BadUTF8.

(** *** [writeCanonical] *)
Definition member_text (p : string * res jcs_error string) : res jcs_error string :=
  validateUTF8 p.1 ;;! rmap (fun v => writeJCSString p.1 +:+ ":" +:+ v) p.2.

Fixpoint writeCanonical (t : tree) : res jcs_error string :=
  match t with
  | TNull => Ok "null"
  | TBool b => Ok (if b then "true" else "false")
  | TInt z => if ((maxSafeInteger <? z) || (z <? - maxSafeInteger))%Z then Err (IntRange z) else Ok (itoa z)
  | TStr s => validateUTF8 s ;;! Ok (writeJCSString s)
  | TArr l => rmap (fun ps => "[" +:+ join "," ps +:+ "]") (seq_list (map writeCanonical l))
  | TObj ms =>
      rmap (fun ps => "{" +:+ join "," ps +:+ "}")
        (seq_list (map member_text (sortUTF16 (map (fun p => (p.1, writeCanonical p.2)) ms))))
  end.

Definition canonicalize : tree -> res jcs_error string := writeCanonical.

(** [decodeJSON] on a text that is one JSON value. *)
Definition decodeJSON (raw : json) : res jcs_error tree := normalize raw.

Example canon_ex :
  (t ← json_parse (bq "{`b`:[1,true],`a`:`x\ty`,`b`:null}");
   match normalize t with Ok t' => match canonicalize t' with Ok s => Some s | Err _ => None end | Err _ => None end)
  = Some (bq "{`a`:`x\ty`,`b`:null}").
Proof. reflexivity. Qed.

(** Decoding an object with distinct names keeps it. *)
Lemma last_wins_id {A} (ms : list (string * A)) : NoDup (map fst ms) -> last_wins ms = ms.
Proof.
  unfold last_wins. intros Hnd.
  assert (forall acc, NoDup (map fst (acc ++ ms)) ->
            fold_left (fun m '(k, v) => assoc_set k v m) ms acc = acc ++ ms) as H.
  { clear Hnd. induction ms as [|[k v] ms IH]; intros acc Hnd; [by rewrite app_nil_r|]. cbn [fold_left].
    assert (assoc_set k v acc = acc ++ [(k, v)]) as ->.
    { rewrite map_app in Hnd. apply NoDup_app in Hnd as (_ & Hd & _).
      assert (k ∉ map fst acc) as Hk by (intros Hin; apply (Hd k Hin); cbn; set_solver).
      clear -Hk. induction acc as [|[k' v'] acc IH]; [done|]. cbn in *.
      rewrite bool_decide_eq_false_2 by set_solver. rewrite IH by set_solver. done. }
    rewrite IH by (by rewrite <- app_assoc). by rewrite <- app_assoc. }
  by rewrite (H [] Hnd).
Qed.

(** ** Induction on trees *)
Section tree_rect.
Variable P : tree -> Prop.
Hypothesis HNull : P TNull.
Hypothesis HBool : forall b, P (TBool b).
Hypothesis HInt : forall z, P (TInt z).
Hypothesis HStr : forall s, P (TStr s).
Hypothesis HArr : forall l, Forall P l -> P (TArr l).
Hypothesis HObj : forall ms, Forall (fun p => P p.2) ms -> P (TObj ms).
Lemma tree_nested_ind t : P t.
Proof.
  revert t. fix IH 1. intros [ |b|z|s|l|ms]; [apply HNull|apply HBool|apply HInt|apply HStr|apply HArr|apply HObj].
  - induction l as [|x l IHl]; constructor; [apply IH|exact IHl].
  - induction ms as [|[k x] ms IHm]; constructor; [apply IH|exact IHm].
Qed.
End tree_rect.

(** ** Equality up to the order of members *)
Fixpoint sorted_tree (t : tree) : tree :=
  match t with
  | TArr l => TArr (map sorted_tree l)
  | TObj ms => TObj (sortUTF16 (map (fun p => (p.1, sorted_tree p.2)) ms))
  | _ => t
  end.

(** *** Sorting by key *)
Lemma lex_leb_total a b : lex_leb a b = true \/ lex_leb b a = true.
Proof.
  revert b. induction a as [|x a IH]; intros [|y b]; cbn; auto.
  destruct (N.eqb_spec x y) as [->|]; [rewrite N.eqb_refl; auto|].
  destruct (N.eqb_spec y x); [congruence|]. rewrite !N.ltb_lt. lia.
Qed.

Lemma lex_leb_antisym a b : lex_leb a b = true -> lex_leb b a = true -> a = b.
Proof.
  revert b. induction a as [|x a IH]; intros [|y b]; cbn; try done.
  destruct (N.eqb_spec x y) as [->|].
  - rewrite N.eqb_refl. intros. f_equal. auto.
  - destruct (N.eqb_spec y x); [congruence|]. rewrite !N.ltb_lt. lia.
Qed.

Lemma lex_leb_trans a b c : lex_leb a b = true -> lex_leb b c = true -> lex_leb a c = true.
Proof.
  revert b c. induction a as [|x a IH]; intros [|y b] [|z c]; cbn; try done.
  destruct (N.eqb_spec x y) as [->|].
  - destruct (N.eqb_spec y z) as [->|]; [apply IH|done].
  - destruct (N.eqb_spec y z) as [->|].
    + destruct (N.eqb_spec x z); [congruence|done].
    + destruct (N.eqb_spec x z) as [->|]; rewrite !N.ltb_lt; lia.
Qed.

Definition entry_le {A} (x y : string * A) : Prop := key_leb x.1 y.1 = true.

Lemma key_insert_perm {A} (x : string * A) l : key_insert x l ≡ₚ x :: l.
Proof.
  induction l as [|y l IH]; cbn; [done|]. destruct (key_leb x.1 y.1); [done|].
  rewrite IH. apply perm_swap.
Qed.

Lemma sortUTF16_perm {A} (l : list (string * A)) : sortUTF16 l ≡ₚ l.
Proof. induction l as [|x l IH]; cbn; [done|]. by rewrite key_insert_perm, IH. Qed.

Lemma key_insert_sorted {A} (x : string * A) l :
  StronglySorted entry_le l -> StronglySorted entry_le (key_insert x l).
Proof.
  induction 1 as [|y l Hs IH Hy]; cbn; [by repeat constructor|].
  destruct (key_leb x.1 y.1) eqn:Hxy.
  - constructor; [by constructor|]. constructor; [done|]. eapply Forall_impl; [exact Hy|].
    intros z Hz. unfold entry_le in *. by eapply lex_leb_trans.
  - constructor; [done|]. rewrite key_insert_perm. constructor; [|done].
    unfold entry_le. destruct (lex_leb_total (utf16_key x.1) (utf16_key y.1)) as [H|H]; [|done].
    unfold key_leb in Hxy. congruence.
Qed.

Lemma sortUTF16_sorted {A} (l : list (string * A)) : StronglySorted entry_le (sortUTF16 l).
Proof. induction l as [|x l IH]; cbn; [constructor|]. by apply key_insert_sorted. Qed.

Lemma sortUTF16_id {A} (l : list (string * A)) : StronglySorted entry_le l -> sortUTF16 l = l.
Proof.
  induction 1 as [|x l Hs IH Hx]; [done|]. cbn. rewrite IH. destruct Hx as [|y l Hxy _]; [done|].
  cbn. unfold entry_le in Hxy. by rewrite Hxy.
Qed.

Definition on_snd {A B} (f : A -> B) (p : string * A) : string * B := (p.1, f p.2).

Lemma sortUTF16_map {A B} (f : A -> B) l : sortUTF16 (map (on_snd f) l) = map (on_snd f) (sortUTF16 l).
Proof.
  assert (forall x l, key_insert (on_snd f x) (map (on_snd f) l) = map (on_snd f) (key_insert x l)) as Hi.
  { intros x l'. induction l' as [|y l' IH]; [done|].
    cbn [map key_insert]. change (key_leb (on_snd f x).1 (on_snd f y).1) with (key_leb x.1 y.1).
    destruct (key_leb x.1 y.1); [done|]. cbn [map]. by rewrite IH. }
  induction l as [|x l IH]; [done|]. cbn [map sortUTF16]. by rewrite IH, Hi.
Qed.

(** With distinct valid names the sorted order is the only one. *)
Definition names_ok {A} (ms : list (string * A)) : Prop :=
  NoDup (map fst ms) /\ Forall (fun p => valid_utf8 p.1 = true) ms.

Lemma sortUTF16_unique {A} (l1 l2 : list (string * A)) : names_ok l1 -> l1 ≡ₚ l2 -> sortUTF16 l1 = sortUTF16 l2.
Proof.
  intros [Hnd Hv] Hp.
  apply (StronglySorted_unique_strong entry_le); [|apply sortUTF16_sorted..|by rewrite !sortUTF16_perm].
  intros x y Hx Hy Hxy Hyx. rewrite sortUTF16_perm in Hx, Hy. rewrite <- Hp in Hy.
  rewrite Forall_forall in Hv.
  assert (x.1 = y.1) as Hk.
  { apply utf16_key_inj; [by apply Hv..|]. by apply lex_leb_antisym. }
  apply list_elem_of_lookup in Hx as [i Hi]. apply list_elem_of_lookup in Hy as [j Hj].
  assert (map fst l1 !! i = Some x.1) as Hi' by (by rewrite list_lookup_fmap, Hi).
  assert (map fst l1 !! j = Some y.1) as Hj' by (by rewrite list_lookup_fmap, Hj).
  rewrite Hk in Hi'. assert (i = j) as -> by (eapply NoDup_lookup; done). congruence.
Qed.

(** ** The writer ignores the order of members *)
Lemma writeCanonical_sorted t : writeCanonical (sorted_tree t) = writeCanonical t.
Proof.
  induction t as [ |b|z|s|l IH|ms IH] using tree_nested_ind; try done; cbn [sorted_tree writeCanonical].
  - f_equal. f_equal. rewrite map_map. by apply map_ext_Forall.
  - f_equal. f_equal. f_equal.
    change (fun p : string * tree => (p.1, sorted_tree p.2)) with (on_snd sorted_tree).
    change (fun p : string * tree => (p.1, writeCanonical p.2)) with (on_snd writeCanonical).
    rewrite <- sortUTF16_map, sortUTF16_id by apply sortUTF16_sorted. f_equal. rewrite map_map.
    apply map_ext_Forall. eapply Forall_impl; [exact IH|]. intros [k x] Hx. unfold on_snd. cbn in *. by rewrite Hx.
Qed.

(** ** Strings are escaped byte by byte *)
Definition esc_byte (c : ascii) : string :=
  if (code c <? 128)%N then esc_rune (code c) else str1 c.
Fixpoint esc_bytes (s : string) : string :=
  match s with "" => "" | String a s' => esc_byte a +:+ esc_bytes s' end.

Lemma esc_bytes_app s t : esc_bytes (s +:+ t) = esc_bytes s +:+ esc_bytes t.
Proof. induction s as [|a s IH]; [done|]. cbn. by rewrite IH, sapp_assoc. Qed.

Lemma esc_bytes_high s : str_all (fun c => (128 <=? code c)%N) s = true -> esc_bytes s = s.
Proof.
  induction s as [|a s IH]; [done|]. cbn. rewrite andb_true_iff, N.leb_le. intros [Ha Hs].
  unfold esc_byte. rewrite (proj2 (N.ltb_ge _ _)) by done. cbn. by rewrite IH.
Qed.

Lemma esc_rune_bytes r : scalar r = true -> esc_rune r = esc_bytes (encode_rune r).
Proof.
  intros Hs. destruct (N.ltb_spec r 128) as [Hr|Hr].
  - unfold encode_rune. rewrite Hs. cbv zeta. rewrite (proj2 (N.ltb_lt _ _)) by done. cbn [esc_bytes str1].
    unfold esc_byte. rewrite code_of_N by lia. rewrite (proj2 (N.ltb_lt _ _)) by done.
    cbn [esc_bytes]. by rewrite sapp_nil_r.
  - rewrite esc_bytes_high by (by apply encode_rune_high). unfold esc_rune.
    repeat match goal with |- context [(r =? ?k)%N] => destruct (N.eqb_spec r k); [lia|] end.
    by rewrite (proj2 (N.ltb_ge r 32)) by lia.
Qed.

Lemma writeJCSString_bytes s :
  valid_utf8 s = true -> writeJCSString s = String QUOTE (esc_bytes s +:+ str1 QUOTE).
Proof.
  intros Hv. unfold writeJCSString. f_equal. destruct (encode_runes_valid s Hv) as [He Hs].
  rewrite <- He at 2. clear He. induction Hs as [|r l Hr Hl IH]; [done|]. cbn [fold_right encode_runes].
  by rewrite IH, esc_bytes_app, esc_rune_bytes, sapp_assoc.
Qed.

(** Reading one escaped byte back. *)
Definition unhex (c : ascii) : N := default 0%N (hex_value c).
Definition unesc (s : string) : option (ascii * string) :=
  match s with
  | String "\" (String "u" (String _ (String _ (String a (String b r))))) =>
      Some (ascii_of_N (unhex a * 16 + unhex b), r)
  | String "\" (String "b" r) => Some (ascii_of_N 8, r)
  | String "\" (String "t" r) => Some (ascii_of_N 9, r)
  | String "\" (String "n" r) => Some (ascii_of_N 10, r)
  | String "\" (String "f" r) => Some (ascii_of_N 12, r)
  | String "\" (String "r" r) => Some (ascii_of_N 13, r)
  | String "\" (String c r) => Some (c, r)
  | String "034" _ => None
  | String c r => Some (c, r)
  | "" => None
  end.

Lemma unesc_esc a r : unesc (esc_byte a +:+ r) = Some (a, r).
Proof. destruct a as [[] [] [] [] [] [] [] []]; reflexivity. Qed.

Lemma esc_bytes_inj s1 s2 r1 r2 :
  esc_bytes s1 +:+ String QUOTE r1 = esc_bytes s2 +:+ String QUOTE r2 -> s1 = s2 /\ r1 = r2.
Proof.
  revert s2. induction s1 as [|a s1 IH]; intros [|b s2]; cbn [esc_bytes].
  - by intros [= ->].
  - intros Heq. exfalso. apply (f_equal unesc) in Heq. by rewrite sapp_assoc, unesc_esc in Heq.
  - intros Heq. exfalso. apply (f_equal unesc) in Heq. by rewrite sapp_assoc, unesc_esc in Heq.
  - rewrite !sapp_assoc. intros Heq. pose proof (f_equal unesc Heq) as Hu. rewrite !unesc_esc in Hu.
    injection Hu as -> Hr. destruct (IH s2 Hr) as [-> ->]. done.
Qed.

Lemma jcs_string_inj s1 s2 r1 r2 :
  valid_utf8 s1 = true -> valid_utf8 s2 = true ->
  writeJCSString s1 +:+ r1 = writeJCSString s2 +:+ r2 -> s1 = s2 /\ r1 = r2.
Proof.
  intros H1 H2. rewrite !writeJCSString_bytes by done. rewrite !sapp_cons, !sapp_assoc. intros [= Heq].
  by apply esc_bytes_inj.
Qed.

(** ** Unique decodability of the canonical form *)

(** What may follow a value inside a canonical text. *)
Definition delim (r : string) : Prop := r = "" \/ exists c t, r = String c t /\ c ∈ [","; "]"; "}"]%char.

(** The kind of value a canonical text starts with. *)
Definition kind_of_text (s : string) : nat :=
  match s with
  | "" => 0
  | String c _ =>
      if Ascii.eqb c "n" then 1 else if Ascii.eqb c "t" || Ascii.eqb c "f" then 2
      else if int_byte c then 3 else if Ascii.eqb c QUOTE then 4
      else if Ascii.eqb c "[" then 5 else if Ascii.eqb c "{" then 6 else 0
  end.
Definition kind_of_tree (t : tree) : nat :=
  match t with TNull => 1 | TBool _ => 2 | TInt _ => 3 | TStr _ => 4 | TArr _ => 5 | TObj _ => 6 end.

Lemma rmap_Ok {E A B} (f : A -> B) (x : res E A) b : rmap f x = Ok b -> exists a, x = Ok a /\ b = f a.
Proof. destruct x; cbn; [intros [= <-]; eauto|done]. Qed.

Lemma int_kind c : int_byte c = true -> kind_of_text (str1 c) = 3.
Proof. destruct c as [[] [] [] [] [] [] [] []]; vm_compute; congruence. Qed.

Lemma writeCanonical_kind t s r : writeCanonical t = Ok s -> kind_of_text (s +:+ r) = kind_of_tree t.
Proof.
  destruct t as [ |b|z|x|l|ms]; cbn [writeCanonical kind_of_tree].
  - by intros [= <-].
  - intros [= <-]. by destruct b.
  - destruct (_ || _)%Z; [done|]. intros [= <-]. destruct (itoa_bytes z) as [Hb Hne].
    destruct (itoa z) as [|c d]; [done|]. cbn in Hb. apply andb_true_iff in Hb as [Hc _]. cbn.
    exact (int_kind c Hc).
  - unfold validateUTF8. rewrite guard_seq_Ok. intros [_ [= <-]]. done.
  - intros (ps & _ & ->)%rmap_Ok. done.
  - intros (ps & _ & ->)%rmap_Ok. done.
Qed.

Fixpoint comma_tail (ps : list string) : string :=
  match ps with [] => "" | p :: ps' => String "," (p +:+ comma_tail ps') end.
Lemma join_comma p ps : join "," (p :: ps) = p +:+ comma_tail ps.
Proof.
  revert p. induction ps as [|q ps IH]; intros p; [by rewrite sapp_nil_r|].
  change (join "," (p :: q :: ps)) with (p +:+ String "," (join "," (q :: ps))). by rewrite IH.
Qed.

Lemma delim_tail ps c r : c ∈ ["]"; "}"]%char -> delim (comma_tail ps +:+ String c r).
Proof.
  intros Hc. right. destruct ps as [|p ps]; cbn; eexists _, _; (split; [reflexivity|]); set_solver.
Qed.

Lemma seq_list_cons {E A} (x : res E A) l ps :
  seq_list (x :: l) = Ok ps -> exists a r, x = Ok a /\ seq_list l = Ok r /\ ps = a :: r.
Proof.
  cbn. intros (a & Ha & H)%rbind_Ok. apply rbind_Ok in H as (r & Hr & [= <-]). eauto.
Qed.

Section items.
Context {A B : Type} (rend : A -> res jcs_error string) (norm : A -> B) (close : ascii).
Hypothesis close_ok : close ∈ ["]"; "}"]%char.
Hypothesis head_ok : forall x s r, rend x = Ok s -> exists c t, s +:+ r = String c t /\ c <> close.

(** An item can be read back from the front of a text. *)
Definition readable (x : A) : Prop :=
  forall y s1 s2 r1 r2, rend x = Ok s1 -> rend y = Ok s2 -> s1 +:+ r1 = s2 +:+ r2 ->
    delim r1 -> delim r2 -> norm x = norm y /\ r1 = r2.

Lemma tail_inj l1 l2 ps1 ps2 r1 r2 :
  Forall readable l1 -> seq_list (map rend l1) = Ok ps1 -> seq_list (map rend l2) = Ok ps2 ->
  comma_tail ps1 +:+ String close r1 = comma_tail ps2 +:+ String close r2 ->
  map norm l1 = map norm l2 /\ r1 = r2.
Proof.
  intros Hl. revert l2 ps1 ps2. induction Hl as [|x l1 Hx Hl IH]; intros l2 ps1 ps2 H1 H2 Heq.
  - injection H1 as <-. destruct l2 as [|y l2]; [injection H2 as <-; by injection Heq|].
    apply seq_list_cons in H2 as (a & r & _ & _ & ->). cbn in Heq. injection Heq as Hc _. set_solver.
  - apply seq_list_cons in H1 as (a & q1 & Ha & Hq1 & ->). destruct l2 as [|y l2].
    + injection H2 as <-. cbn in Heq. injection Heq as Hc _. set_solver.
    + apply seq_list_cons in H2 as (b & q2 & Hb & Hq2 & ->). cbn in Heq. injection Heq as Heq.
      rewrite !sapp_assoc in Heq.
      destruct (Hx y a b _ _ Ha Hb Heq) as [Hn Heq']; [by apply delim_tail..|].
      destruct (IH l2 q1 q2 Hq1 Hq2 Heq') as [Hm ->]. cbn. by rewrite Hn, Hm.
Qed.

Lemma items_inj l1 l2 ps1 ps2 r1 r2 :
  Forall readable l1 -> seq_list (map rend l1) = Ok ps1 -> seq_list (map rend l2) = Ok ps2 ->
  join "," ps1 +:+ String close r1 = join "," ps2 +:+ String close r2 ->
  map norm l1 = map norm l2 /\ r1 = r2.
Proof.
  intros Hl H1 H2 Heq. destruct l1 as [|x l1], l2 as [|y l2].
  - injection H1 as <-. injection H2 as <-. cbn in Heq. by injection Heq.
  - injection H1 as <-. apply seq_list_cons in H2 as (b & q2 & Hb & _ & ->). rewrite join_comma in Heq.
    rewrite sapp_assoc in Heq. cbn in Heq.
    destruct (head_ok y b (comma_tail q2 +:+ String close r2) Hb) as (c & t & Ht & Hc). rewrite Ht in Heq.
    injection Heq as <- _. done.
  - injection H2 as <-. apply seq_list_cons in H1 as (b & q2 & Hb & _ & ->). rewrite join_comma in Heq.
    rewrite sapp_assoc in Heq. cbn in Heq.
    destruct (head_ok x b (comma_tail q2 +:+ String close r1) Hb) as (c & t & Ht & Hc). rewrite Ht in Heq.
    injection Heq as -> _. done.
  - apply (tail_inj _ _ _ _ _ _ Hl H1 H2).
    apply seq_list_cons in H1 as (a & q1 & _ & _ & ->). apply seq_list_cons in H2 as (b & q2 & _ & _ & ->).
    rewrite !join_comma in Heq. cbn. by rewrite Heq.
Qed.
End items.

Lemma kind_head s r k :
  kind_of_text (s +:+ r) = S k -> exists c t, s +:+ r = String c t /\ c <> "]"%char /\ c <> "}"%char.
Proof.
  destruct (s +:+ r) as [|c t]; [done|]. intros Hk. exists c, t. split; [done|].
  split; intros ->; by vm_compute in Hk.
Qed.

Definition member_rend (p : string * tree) : res jcs_error string := member_text (on_snd writeCanonical p).

Lemma writeCanonical_readable t : readable writeCanonical sorted_tree t.
Proof.
  induction t as [ |b|z|s|l IH|ms IH] using tree_nested_ind;
    intros u s1 s2 r1 r2 H1 H2 Heq D1 D2;
    (assert (kind_of_tree u = kind_of_text (s1 +:+ r1)) as Hk
       by (rewrite Heq; symmetry; by apply writeCanonical_kind));
    rewrite (writeCanonical_kind _ _ r1 H1) in Hk; destruct u as [ |b'|z'|s'|l'|ms']; try discriminate Hk; clear Hk;
    cbn [writeCanonical] in H1, H2.
  - injection H1 as <-. injection H2 as <-. by injection Heq.
  - injection H1 as <-. injection H2 as <-. destruct b, b'; cbn in Heq; try discriminate Heq; by injection Heq.
  - destruct (_ || _)%Z in H1; [done|]. destruct (_ || _)%Z in H2; [done|].
    injection H1 as <-. injection H2 as <-.
    assert (forall r, delim r -> forall c t, r = String c t -> int_byte c = false) as Hd.
    { intros r [->|(c0 & t0 & -> & Hc)] c t; [done|]. intros [= <- <-].
      repeat (apply elem_of_cons in Hc as [->|Hc]; [done|]). by apply elem_of_nil in Hc. }
    destruct (block_unique int_byte (itoa z) (itoa z') r1 r2 (proj1 (itoa_bytes z)) (proj1 (itoa_bytes z'))
                (Hd r1 D1) (Hd r2 D2) Heq) as [Hz ->]. by apply itoa_inj in Hz as ->.
  - unfold validateUTF8 in *. rewrite guard_seq_Ok, negb_false_iff in H1, H2.
    destruct H1 as [V1 [= <-]], H2 as [V2 [= <-]]. destruct (jcs_string_inj _ _ _ _ V1 V2 Heq) as [-> ->]. done.
  - apply rmap_Ok in H1 as (ps1 & H1 & ->). apply rmap_Ok in H2 as (ps2 & H2 & ->).
    rewrite !sapp_cons, !sapp_assoc in Heq. injection Heq as Heq.
    cbn [sorted_tree]. destruct (items_inj writeCanonical sorted_tree "]" ltac:(set_solver)) with (l1 := l) (l2 := l')
      (ps1 := ps1) (ps2 := ps2) (r1 := r1) (r2 := r2) as [Hm ->]; [|done..|by rewrite Hm].
    intros x sx r Hx. pose proof (writeCanonical_kind x sx r Hx) as Hk.
    destruct x; apply kind_head in Hk as (c & t & ? & ? & ?); eauto.
  - apply rmap_Ok in H1 as (ps1 & H1 & ->). apply rmap_Ok in H2 as (ps2 & H2 & ->).
    rewrite !sapp_cons, !sapp_assoc in Heq. injection Heq as Heq. cbn [sorted_tree].
    change (fun p : string * tree => (p.1, sorted_tree p.2)) with (on_snd sorted_tree).
    change (fun p : string * tree => (p.1, writeCanonical p.2)) with (on_snd writeCanonical) in H1, H2.
    rewrite sortUTF16_map, map_map in H1, H2. rewrite !sortUTF16_map.
    destruct (items_inj member_rend (on_snd sorted_tree) "}" ltac:(set_solver)) with (l1 := sortUTF16 ms)
      (l2 := sortUTF16 ms') (ps1 := ps1) (ps2 := ps2) (r1 := r1) (r2 := r2) as [Hm ->]; [| |done..|by rewrite Hm].
    + intros [k x] sx r. unfold member_rend, member_text, validateUTF8. rewrite guard_seq_Ok.
      intros [_ (v & _ & ->)%rmap_Ok]. eexists _, _. cbn. split; [reflexivity|]. done.
    + rewrite sortUTF16_perm. eapply Forall_impl; [exact IH|]. intros [k x] Hx [k' x'] a1 a2 q1 q2.
      unfold member_rend, member_text, validateUTF8. cbn [on_snd fst snd].
      rewrite !guard_seq_Ok, !negb_false_iff. intros [V1 (v1 & Hv1 & ->)%rmap_Ok] [V2 (v2 & Hv2 & ->)%rmap_Ok] Heq' Q1 Q2.
      rewrite !sapp_assoc in Heq'. destruct (jcs_string_inj _ _ _ _ V1 V2 Heq') as [-> Heq2].
      cbn in Heq2. injection Heq2 as Heq2.
      destruct (Hx x' v1 v2 q1 q2 Hv1 Hv2 Heq2 Q1 Q2) as [Hs ->]. split; [|done]. unfold on_snd. cbn. f_equal. exact Hs.
Qed.

(** C22: the canonical bytes stand for exactly one value: two trees that
    canonicalize have the same canonical form if and only if they are equal up
    to the order of object members (at any depth), so a signature over the
    canonical form binds every name, string, integer and nesting. *)
Theorem canonicalize_faithful t1 t2 s1 s2 :
  canonicalize t1 = Ok s1 -> canonicalize t2 = Ok s2 -> (s1 = s2 <-> sorted_tree t1 = sorted_tree t2).
Proof.
  unfold canonicalize. intros H1 H2. split.
  - intros <-. apply (writeCanonical_readable t1 t2 s1 s1 "" ""); [done..|by left|by left].
  - intros Hs. rewrite <- writeCanonical_sorted, Hs, writeCanonical_sorted, H2 in H1. by injection H1.
Qed.

Lemma canonicalize_faithful_witness :
  (bq "{`a`:1,`b`:[true]}" = bq "{`a`:1,`b`:[true]}" <->
   sorted_tree (TObj [("a", TInt 1); ("b", TArr [TBool true])])
   = sorted_tree (TObj [("b", TArr [TBool true]); ("a", TInt 1)])).
Proof.
  apply (canonicalize_faithful (TObj [("a", TInt 1); ("b", TArr [TBool true])])
           (TObj [("b", TArr [TBool true]); ("a", TInt 1)])); vm_compute; reflexivity.
Defined.
