(* ===== verification/JsonRound.v ===== *)
(** * Writing and reading JSON are inverse

    What [render] prints, the scanner of encoding/json reads back, for every
    value whose strings are valid UTF-8, whose numbers are JSON numbers and
    that is not nested too deeply. *)

From S2P Require Import Prelude GoStrings Codec Utf8 Json JsonEnc Jcs.

(** A number text: the automaton of the scanner accepts it. *)
Definition num_start (c : ascii) : option numstate :=
  if Ascii.eqb c "-" then Some NNeg else if Ascii.eqb c "0" then Some NZero else if is_digit c then Some NInt else None.
Fixpoint num_run (ns : numstate) (s : string) : option numstate :=
  match s with "" => Some ns | String c s' => ns' ← step_num ns c; num_run ns' s' end.
Definition num_text (t : string) : bool :=
  match t with
  | "" => false
  | String c s => match ns ← num_start c; num_run ns s with Some ns => num_complete ns | None => false end
  end.

Fixpoint printable (j : json) : bool :=
  match j with
  | JNum t => num_text t
  | JStr s => valid_utf8 s
  | JArr l => forallb printable l
  | JObj ms => forallb (fun p => valid_utf8 p.1 && printable p.2) ms
  | _ => true
  end.

Fixpoint depth (j : json) : nat :=
  match j with
  | JArr l => S (list_max (map depth l))
  | JObj ms => S (list_max (map (fun p => depth p.2) ms))
  | _ => 0
  end.

Section json_induction.
Context (P : json -> Prop).
Hypothesis (Pnull : P JNull) (Pbool : forall b, P (JBool b)) (Pnum : forall t, P (JNum t)) (Pstr : forall s, P (JStr s)).
Hypothesis (Parr : forall l, Forall P l -> P (JArr l)).
Hypothesis (Pobj : forall ms, Forall (fun p => P p.2) ms -> P (JObj ms)).

Lemma json_nested_ind j : P j.
Proof.
  revert j. fix IH 1. intros [ |b|t|s|l|ms]; [done|apply Pbool|apply Pnum|apply Pstr|apply Parr|apply Pobj].
  - induction l as [|x l IHl]; constructor; [apply IH|exact IHl].
  - induction ms as [|[k x] ms IHm]; constructor; [apply IH|exact IHm].
Qed.
End json_induction.

Lemma scan_app st m s t : scan st m (s +:+ t) = ('(st', m') ← scan st m s; scan st' m' t).
Proof.
  revert st m. induction s as [|c s IH]; intros st m; [done|]. rewrite sapp_cons. cbn [scan].
  destruct (step st m c) as [[st' m']|]; [|done]. cbn. apply IH.
Qed.

(** Bytes of a literal that are neither a quote, a backslash nor a control byte. *)
Definition plain_byte (c : ascii) : bool :=
  negb (Ascii.eqb c "034") && negb (Ascii.eqb c "\") && negb (code c <? 32)%N.

Lemma scan_plain st raw s : str_all plain_byte s = true -> scan st (MStr raw) s = Some (st, MStr (srev_app s raw)).
Proof.
  revert raw. induction s as [|c s IH]; intros raw H; [done|]. cbn in H. apply andb_true_iff in H as [Hc Hs].
  unfold plain_byte in Hc. rewrite !andb_true_iff, !negb_true_iff in Hc. destruct Hc as [[H1 H2] H3].
  cbn [scan step]. rewrite H1, H2, H3. cbn. by apply IH.
Qed.

(** A property of the ASCII runes, checked one by one. *)
Ltac each_ascii r Hr :=
  let Hin := fresh in
  assert (Hin : In r (map N.of_nat (List.seq 0 128)))
    by (apply in_map_iff; exists (N.to_nat r); split; [lia|apply in_seq; lia]);
  cbn in Hin; clear Hr; repeat destruct Hin as [<-|Hin]; [..|done].

Lemma html_rune_high r : (128 <= r)%N -> r <> 8232%N -> r <> 8233%N -> html_rune r = encode_rune r.
Proof.
  intros H H1 H2. unfold html_rune.
  repeat match goal with |- context [(r =? ?n)%N] => rewrite (proj2 (N.eqb_neq r n)) by lia end.
  rewrite (proj2 (N.ltb_ge r 32)) by lia. done.
Qed.

Lemma plain_high s : str_all (fun c => (128 <=? code c)%N) s = true -> str_all plain_byte s = true.
Proof.
  apply str_all_impl. intros c. rewrite N.leb_le. intros H. unfold plain_byte.
  rewrite !andb_true_iff, !negb_true_iff. repeat split.
  - destruct (Ascii.eqb_spec c "034") as [->|]; [|done]. by vm_compute in H.
  - destruct (Ascii.eqb_spec c "\") as [->|]; [|done]. by vm_compute in H.
  - apply N.ltb_ge. lia.
Qed.

Lemma scan_rune st raw r : scan st (MStr raw) (html_rune r) = Some (st, MStr (srev_app (html_rune r) raw)).
Proof.
  destruct (N.lt_ge_cases r 128) as [Hr|Hr]; [each_ascii r Hr; reflexivity|].
  destruct (decide (r = 8232%N)) as [->|]; [reflexivity|]. destruct (decide (r = 8233%N)) as [->|]; [reflexivity|].
  rewrite html_rune_high by done. apply scan_plain, plain_high, encode_rune_high. lia.
Qed.

(** Decoding what [encode_rune] wrote. *)
Lemma decode_encode r t : scalar r = true -> decode_rune (encode_rune r +:+ t) = Some (r, slen (encode_rune r)).
Proof.
  intros Hs. unfold encode_rune. rewrite Hs.
  assert (Hmax : (r <= 1114111)%N) by (unfold scalar in Hs; rewrite orb_true_iff, andb_true_iff, N.ltb_lt, !N.leb_le in Hs; lia).
  destruct (N.ltb_spec r 128) as [H1|H1].
  { cbn. rewrite code_of_N by lia. by rewrite (proj2 (N.ltb_lt _ _) H1). }
  pose proof (N.mod_lt r 64 ltac:(lia)) as Hm. pose proof (N.div_mod r 64 ltac:(lia)) as Hd.
  set (q := (r / 64)%N) in *. set (m := (r mod 64)%N) in *.
  destruct (N.ltb_spec r 2048) as [H2|H2].
  { assert (q < 32)%N by lia. unfold str1. rewrite !sapp_cons. cbn [decode_rune]. unfold cont, cbits.
    rewrite !code_of_N by lia.
    rewrite (proj2 (N.ltb_ge _ _)), (proj2 (N.ltb_ge _ _)), (proj2 (N.ltb_lt _ _)) by lia.
    replace ((192 + q - 192) * 64 + (128 + m - 128))%N with r by lia.
    rewrite !(proj2 (N.leb_le _ _)), (proj2 (N.ltb_lt _ _)) by lia. done. }
  replace (r / 4096)%N with (q / 64)%N by (unfold q; rewrite N.Div0.div_div; done).
  pose proof (N.mod_lt q 64 ltac:(lia)) as Hm2. pose proof (N.div_mod q 64 ltac:(lia)) as Hd2.
  set (q2 := (q / 64)%N) in *. set (m2 := (q mod 64)%N) in *.
  destruct (N.ltb_spec r 65536) as [H3|H3].
  { assert (q2 < 16)%N by lia. unfold str1. rewrite !sapp_cons. cbn [decode_rune]. unfold cont, cbits.
    rewrite !code_of_N by lia.
    rewrite (proj2 (N.ltb_ge _ 128)), (proj2 (N.ltb_ge _ 192)), (proj2 (N.ltb_ge _ 224)), (proj2 (N.ltb_lt _ 240)) by lia.
    replace ((224 + q2 - 224) * 4096 + (128 + m2 - 128) * 64 + (128 + m - 128))%N with r by lia.
    rewrite Hs, !(proj2 (N.leb_le _ _)), !(proj2 (N.ltb_lt _ _)) by lia. done. }
  replace (r / 262144)%N with (q2 / 64)%N by (unfold q2, q; rewrite !N.Div0.div_div; done).
  pose proof (N.mod_lt q2 64 ltac:(lia)) as Hm3. pose proof (N.div_mod q2 64 ltac:(lia)) as Hd3.
  set (q3 := (q2 / 64)%N) in *. set (m3 := (q2 mod 64)%N) in *.
  assert (q3 < 8)%N by lia. unfold str1. rewrite !sapp_cons. cbn [decode_rune]. unfold cont, cbits.
  rewrite !code_of_N by lia.
  rewrite (proj2 (N.ltb_ge _ 128)), (proj2 (N.ltb_ge _ 192)), (proj2 (N.ltb_ge _ 224)), (proj2 (N.ltb_ge _ 240)),
    (proj2 (N.ltb_lt _ 248)) by lia.
  replace ((240 + q3 - 240) * 262144 + (128 + m3 - 128) * 4096 + (128 + m2 - 128) * 64 + (128 + m - 128))%N with r by lia.
  rewrite !(proj2 (N.leb_le _ _)), !(proj2 (N.ltb_lt _ _)) by lia. done.
Qed.

Lemma unquote_copy x t : unquote (slen x) (x +:+ t) = x +:+ unquote 0 t.
Proof. induction x as [|a x IH]; [done|]. rewrite sapp_cons. cbn. by rewrite IH. Qed.

Lemma unquote_rune r t : scalar r = true -> unquote 0 (html_rune r +:+ t) = encode_rune r +:+ unquote 0 t.
Proof.
  intros Hs. destruct (N.lt_ge_cases r 128) as [Hr|Hr]; [clear Hs; each_ascii r Hr; reflexivity|].
  destruct (decide (r = 8232%N)) as [->|]; [reflexivity|]. destruct (decide (r = 8233%N)) as [->|]; [reflexivity|].
  rewrite html_rune_high by done. pose proof (decode_encode r t Hs) as Hd.
  pose proof (encode_rune_high r ltac:(lia)) as Hh.
  destruct (encode_rune r) as [|a x] eqn:He; [done|]. cbn in Hh. apply andb_true_iff in Hh as [Ha _].
  apply N.leb_le in Ha. rewrite sapp_cons in *. cbn [unquote].
  destruct (Ascii.eqb_spec a "\") as [->|]; [by vm_compute in Ha|].
  rewrite (proj2 (N.ltb_ge _ _)), Hd by lia. cbn [slen]. rewrite Nat.sub_succ, Nat.sub_0_r.
  by rewrite unquote_copy.
Qed.

Lemma srev_app_app x raw acc : srev_app (srev_app x raw) acc = srev_app raw (x +:+ acc).
Proof. revert raw. induction x as [|a x IH]; intros raw; [done|]. rewrite sapp_cons. cbn [srev_app]. by rewrite IH. Qed.

Lemma srev_srev x : srev (srev_app x "") = x.
Proof. unfold srev. rewrite srev_app_app. cbn. apply sapp_nil_r. Qed.

Lemma srev_app_cat x y raw : srev_app (x +:+ y) raw = srev_app y (srev_app x raw).
Proof. revert raw. induction x as [|a x IH]; intros raw; [done|]. rewrite sapp_cons. cbn [srev_app]. apply IH. Qed.

Lemma html_skip k s : html_go k s = html_go 0 (sdrop k s).
Proof. revert s. induction k as [|k IH]; intros [|a s]; try done. apply IH. Qed.

Lemma html_decode s r w : decode_rune s = Some (r, w) -> html_go 0 s = html_rune r +:+ html_go 0 (sdrop w s).
Proof.
  intros Hd. destruct s as [|a s]; [done|]. destruct (decode_rune_spec _ _ _ Hd) as (_ & _ & Hw).
  destruct w as [|w]; [lia|]. cbn [html_go]. rewrite Hd, html_skip. cbn [sdrop]. by rewrite Nat.sub_succ, Nat.sub_0_r.
Qed.

Lemma scan_body s : valid_utf8 s = true -> forall st raw,
  scan st (MStr raw) (html_go 0 s) = Some (st, MStr (srev_app (html_go 0 s) raw)).
Proof.
  revert s. apply (valid_ind (fun s => forall st raw, _)); [done|]. intros s r w Hd _ IH st raw.
  by rewrite (html_decode _ _ _ Hd), scan_app, scan_rune, srev_app_cat; cbn; rewrite IH.
Qed.

Lemma unquote_body s : valid_utf8 s = true -> unquote 0 (html_go 0 s) = s.
Proof.
  revert s. apply valid_ind; [done|]. intros s r w Hd _ IH.
  destruct (decode_rune_spec _ _ _ Hd) as (Hs & Hsc & _).
  rewrite (html_decode _ _ _ Hd), unquote_rune, IH by done. by symmetry.
Qed.

Lemma scan_string st s : valid_utf8 s = true ->
  scan st (MStr "") (html_go 0 s +:+ str1 "034") = Some (finish (JStr s) st).
Proof.
  intros Hv. rewrite scan_app, scan_body by done. cbn [mbind option_bind scan step str1].
  rewrite ascii_eqb_refl. cbn [mbind option_bind]. by rewrite srev_srev, unquote_body by done; destruct (finish _ _).
Qed.

(** ** Values *)

(** Where the scanner is after the text of [v]: past it, or still inside a
    number that could go on. *)
Definition lands (v : json) (st0 : list frame) (p : list frame * mode) : Prop :=
  p = finish v st0 \/ exists ns raw, p = (st0, MNum ns raw) /\ num_complete ns = true /\ v = JNum (srev raw).

Definition readable (v : json) : Prop := forall st, length st + depth v <= maxNestingDepth ->
  exists p, scan st MValue (render v) = Some p /\ lands v st p.

(** The frame a value is read into, once it is read. *)
Definition fill (v : json) (f : frame) : frame :=
  match f with FArr es => FArr (v :: es) | FObj ms k => FKey ((k, v) :: ms) | FKey ms => FKey ms end.
Definition value_frame (f : frame) : bool := match f with FKey _ => false | _ => true end.

Definition closer (c : ascii) : bool := Ascii.eqb c "," || Ascii.eqb c "]" || Ascii.eqb c "}".

Lemma closer_not_num ns c : closer c = true -> step_num ns c = None.
Proof.
  unfold closer. rewrite !orb_true_iff. intros [[H|H]|H]; apply Ascii.eqb_eq in H as ->; by destruct ns.
Qed.

Lemma lands_step v f st0 p c : value_frame f = true -> closer c = true -> lands v (f :: st0) p ->
  step p.1 p.2 c = step_end (fill v f :: st0) c.
Proof.
  intros Hf Hc [->|(ns & raw & -> & Hn & ->)]; [by destruct f|].
  cbn [fst snd step]. rewrite closer_not_num, Hn by done. by destruct f.
Qed.

Lemma num_start_value st c ns : num_start c = Some ns ->
  step_value st c = Some (st, MNum ns (str1 c)) /\ is_ws c = false /\ Ascii.eqb c "]" = false.
Proof. by destruct c as [[] [] [] [] [] [] [] []]; intros [= <-]. Qed.

Lemma scan_num st ns ns' s raw : num_run ns s = Some ns' -> scan st (MNum ns raw) s = Some (st, MNum ns' (srev_app s raw)).
Proof.
  revert ns raw. induction s as [|c s IH]; intros ns raw; cbn; [by intros [= ->]|].
  destruct (step_num ns c) as [ns1|]; [|done]. cbn. apply IH.
Qed.

Lemma readable_num t : num_text t = true -> readable (JNum t).
Proof.
  intros Ht st _. destruct t as [|c s]; [done|]. cbn in Ht.
  destruct (num_start c) as [ns|] eqn:Hc; [|done]. cbn in Ht. destruct (num_run ns s) as [ns'|] eqn:Hr; [|done].
  destruct (num_start_value st c ns Hc) as (Hv & _ & _).
  eexists. split; [cbn [render scan step]; rewrite Hv; cbn; by apply scan_num|].
  right. exists ns', (srev_app s (str1 c)). split; [done|]. split; [done|].
  f_equal. unfold srev. by rewrite srev_app_app, sapp_nil_r.
Qed.

Lemma first_char v : printable v = true ->
  exists c s, render v = String c s /\ is_ws c = false /\ Ascii.eqb c "]" = false.
Proof.
  destruct v as [|[]|t|s|l|ms]; cbn; try by (eexists _, _). intros Ht. destruct t as [|c t]; [done|].
  cbn in Ht. destruct (num_start c) as [ns|] eqn:Hc; [|done].
  destruct (num_start_value [] c ns Hc) as (_ & ? & ?). by eexists _, _.
Qed.

(** The items of an array up to its end. *)
Lemma scan_items st l : l <> [] -> Forall (fun v => printable v = true -> readable v) l ->
  forallb printable l = true -> S (length st) + list_max (map depth l) <= maxNestingDepth -> forall es,
  scan (FArr es :: st) MValue (join "," (map render l) +:+ "]") = Some (finish (JArr (rev es ++ l)) st).
Proof.
  induction l as [|x l IH]; intros Hne Hr Hp Hd es; [done|]. clear Hne.
  apply Forall_cons in Hr as [Hx Hr]. cbn in Hp. apply andb_true_iff in Hp as [Hpx Hp]. 
  change (list_max (map depth (x :: l))) with (Nat.max (depth x) (list_max (map depth l))) in Hd.
  destruct (Hx Hpx (FArr es :: st)) as (p & Hscan & Hland); [cbn [length]; lia|].
  destruct l as [|y l].
  - cbn [map join]. rewrite scan_app, Hscan. cbn [mbind option_bind]. destruct p as [st1 m1].
    cbn [scan str1]. pose proof (lands_step x (FArr es) st (st1, m1) "]" eq_refl eq_refl Hland) as Hs.
    cbn [fst snd] in Hs. rewrite Hs. cbn. by destruct (finish _ _).
  - change (join "," (map render (x :: y :: l))) with (render x +:+ "," +:+ join "," (map render (y :: l))).
    rewrite !sapp_assoc, scan_app, Hscan. cbn [mbind option_bind]. destruct p as [st1 m1].
    pose proof (lands_step x (FArr es) st (st1, m1) "," eq_refl eq_refl Hland) as Hs. cbn [fst snd] in Hs.
    change ("," +:+ ?z) with (String "," z). cbn [scan]. rewrite Hs.
    cbn [step_end is_ws fill mbind option_bind]. cbn -[join map]. rewrite (IH ltac:(done) Hr Hp); [|lia].
    cbn [rev]. by rewrite <- app_assoc.
Qed.

Definition member (p : string * json) : string := marshal_string p.1 +:+ ":" +:+ render p.2.

Lemma scan_name ms st k r : valid_utf8 k = true ->
  scan (FKey ms :: st) MKey (marshal_string k +:+ ":" +:+ r) = scan (FObj ms k :: st) MValue r.
Proof.
  intros Hv. unfold marshal_string. rewrite sapp_cons. cbn [scan step].
  change (if is_ws "034" then _ else _) with (Some (FKey ms :: st, MStr "")). cbn [mbind option_bind].
  rewrite scan_app, scan_string by done. done.
Qed.

(** The members of an object up to its end. *)
Lemma scan_members st l : l <> [] -> Forall (fun p => printable p.2 = true -> readable p.2) l ->
  forallb (fun p => valid_utf8 p.1 && printable p.2) l = true ->
  S (length st) + list_max (map (fun p => depth p.2) l) <= maxNestingDepth -> forall ms,
  scan (FKey ms :: st) MKey (join "," (map member l) +:+ "}") = Some (finish (JObj (rev ms ++ l)) st).
Proof.
  induction l as [|[k x] l IH]; intros Hne Hr Hp Hd ms; [done|]. clear Hne.
  apply Forall_cons in Hr as [Hx Hr]. cbn in Hp. apply andb_true_iff in Hp as [Hpx Hp].
  apply andb_true_iff in Hpx as [Hk Hpx]. cbn [snd] in Hx.
  change (list_max (map _ ((k, x) :: l))) with (Nat.max (depth x) (list_max (map (fun p => depth p.2) l))) in Hd.
  destruct (Hx Hpx (FObj ms k :: st)) as ([st1 m1] & Hscan & Hland); [cbn [length]; lia|].
  destruct l as [|y l].
  - cbn [map join]. unfold member. cbn [fst snd]. rewrite !sapp_assoc, scan_name, scan_app, Hscan by done.
    cbn [mbind option_bind scan str1].
    pose proof (lands_step x (FObj ms k) st (st1, m1) "}" eq_refl eq_refl Hland) as Hs.
    cbn [fst snd] in Hs. rewrite Hs. cbn. by destruct (finish _ _).
  - change (join "," (map member ((k, x) :: y :: l)))
      with ((marshal_string k +:+ ":" +:+ render x) +:+ "," +:+ join "," (map member (y :: l))).
    rewrite !sapp_assoc, scan_name, scan_app, Hscan by done. cbn [mbind option_bind].
    pose proof (lands_step x (FObj ms k) st (st1, m1) "," eq_refl eq_refl Hland) as Hs. cbn [fst snd] in Hs.
    change ("," +:+ ?z) with (String "," z). cbn [scan]. rewrite Hs.
    cbn -[join map]. rewrite (IH ltac:(done) Hr Hp); [|lia]. cbn [rev]. by rewrite <- app_assoc.
Qed.

Lemma push_ok f m st n : length st + S n <= maxNestingDepth -> push f m st = Some (f :: st, m).
Proof. intros H. unfold push. by rewrite (proj2 (Nat.ltb_lt _ _)) by lia. Qed.

Lemma scan_open_arr st x s : printable x = true ->
  scan st MValueOrClose (render x +:+ s) = scan st MValue (render x +:+ s).
Proof.
  intros Hp. destruct (first_char x Hp) as (c & s' & -> & Hw & Hc). rewrite sapp_cons. cbn [scan step]. by rewrite Hw, Hc.
Qed.

Lemma scan_open_obj st k s : scan st MKeyOrClose (marshal_string k +:+ s) = scan st MKey (marshal_string k +:+ s).
Proof. reflexivity. Qed.

Lemma join_head (x : string) l : exists r, join "," (x :: l) = x +:+ r.
Proof. destruct l as [|y l]; [exists ""; by rewrite sapp_nil_r|by eexists]. Qed.

Lemma printable_readable v : printable v = true -> readable v.
Proof.
  induction v as [ |b|t|s|l IH|ms IH] using json_nested_ind; intros Hp.
  - intros st _. exists (finish JNull st). split; [|by left]. by destruct st as [|[] st].
  - intros st _. exists (finish (JBool b) st). split; [|by left]. by destruct b, st as [|[] st].
  - by apply readable_num.
  - intros st _. eexists. split; [|by left]. cbn [render]. unfold marshal_string. cbn [scan step].
    change (step_value st "034") with (Some (st, MStr "")). cbn [mbind option_bind]. by apply scan_string.
  - intros st Hd. cbn in Hp. cbn [depth] in Hd. exists (finish (JArr l) st). split; [|by left]. cbn [render].
    change ("[" +:+ ?z) with (String "[" z). cbn [scan step].
    change (step_value st "[") with (push (FArr []) MValueOrClose st). rewrite (push_ok _ _ _ _ Hd). cbn [mbind option_bind].
    destruct l as [|x l]; [by destruct st as [|[] st]|]. 
    rewrite <- (scan_items st (x :: l) ltac:(done) IH Hp ltac:(lia) [] : _ = Some (finish (JArr (x :: l)) st)).
    cbn [map]. destruct (join_head (render x) (map render l)) as [r ->]. rewrite sapp_assoc.
    apply scan_open_arr. cbn in Hp. by apply andb_true_iff in Hp as [? _].
  - intros st Hd. cbn in Hp. cbn [depth] in Hd. exists (finish (JObj ms) st). split; [|by left]. cbn [render].
    change ("{" +:+ ?z) with (String "{" z). cbn [scan step].
    change (step_value st "{") with (push (FKey []) MKeyOrClose st). rewrite (push_ok _ _ _ _ Hd). cbn [mbind option_bind].
    destruct ms as [|x l]; [by destruct st as [|[] st]|].
    rewrite <- (scan_members st (x :: l) ltac:(done) IH Hp ltac:(lia) [] : _ = Some (finish (JObj (x :: l)) st)).
    fold member. cbn [map]. destruct (join_head (member x) (map member l)) as [r Hr].
    change (map (fun p => marshal_string p.1 +:+ ":" +:+ render p.2) l) with (map member l).
    change (marshal_string x.1 +:+ ":" +:+ render x.2) with (member x). rewrite Hr.
    unfold member. rewrite !sapp_assoc. apply scan_open_obj.
Qed.

(** Reading back what was written. *)
Lemma parse_render j : printable j = true -> depth j <= maxNestingDepth -> json_parse (render j) = Some j.
Proof.
  intros Hp Hd. destruct (printable_readable j Hp []) as (p & Hs & Hl); [done|].
  unfold json_parse. rewrite Hs. cbn [mbind option_bind].
  destruct Hl as [->|(ns & raw & -> & Hn & ->)]; [done|]. by rewrite Hn.
Qed.
