(* ===== verification/UserKeys.v ===== *)
(** * Pinned user keys: internal/signedmut/userkeys.go and pinning.go

    The trust store of the signed-mutation path is a directory of OpenSSH
    public-key files: a map from file name to entry ([None] is a missing
    directory).  Reads and writes of the directory do not fail here; SHA-256
    is a parameter. *)

From S2P Require Import Prelude GoStrings Codec.

Record UserKey := MkUserKey { Label : string; Pub : string }.
#[export] Instance UserKey_eq_dec : EqDecision UserKey.
Proof. solve_decision. Defined.

Inductive key_error : Type :=
| ExpectedFields | UnsupportedType (t : string) | BadBase64
| ShortPrefix | PrefixTooLong | WireAlgo | TrailingBytes | KeySize (n : nat)
| EmptyKey | KeyTooLong | NotSingleLine | FingerprintRequired.

Definition PublicKeySize : nat := 32.

Definition readSSHString (b : string) : res key_error (string * string) :=
  match b with
  | String b0 (String b1 (String b2 (String b3 rest))) =>
      let n := be32_value b0 b1 b2 b3 in
      if (N.of_nat (slen rest) mod 2 ^ 32 <? n)%N then Err PrefixTooLong
      else Ok (stake (N.to_nat n) rest, sdrop (N.to_nat n) rest)
  | _ => Err ShortPrefix
  end.

Definition ssh_algo : string := "ssh-ed25519".

Definition marshalSSHEd25519 (pub : string) : string :=
  be32 (N.of_nat (slen ssh_algo)) +:+ ssh_algo +:+ be32 (N.of_nat (slen pub)) +:+ pub.

Definition ParseOpenSSHEd25519 (line : string) : res key_error string :=
  match fields (trim_space line) with
  | kind :: b64 :: _ =>
      guard_err (negb (bool_decide (kind = ssh_algo))) (UnsupportedType kind) ;;!
      match b64_decode b64 with
      | None => Err BadBase64
      | Some wire =>
          let! p := readSSHString wire in
          guard_err (negb (bool_decide (p.1 = ssh_algo))) WireAlgo ;;!
          let! q := readSSHString p.2 in
          guard_err (negb (bool_decide (q.2 = ""))) TrailingBytes ;;!
          guard_err (negb (slen q.1 =? PublicKeySize)%nat) (KeySize (slen q.1)) ;;!
          Ok q.1
      end
  | _ => Err ExpectedFields
  end.

Inductive dir_entry := DFile (content : string) | DDir.
Notation keys_dir := (option (gmap string dir_entry)).

(** [os.ReadDir]: the entries sorted by file name. *)
Definition entries (d : gmap string dir_entry) : list (string * dir_entry) :=
  omap (fun n => pair n <$> d !! n) (sort_strings (map fst (map_to_list d))).

(** One directory entry: the key it pins, if it is a key file that parses. *)
Definition load_entry (p : string * dir_entry) : option UserKey :=
  match p.2 with
  | DDir => None
  | DFile data =>
      if negb (has_suffix p.1 ".pub") then None
      else match ParseOpenSSHEd25519 data with
           | Ok pub => Some (MkUserKey p.1 pub)
           | Err _ => None
           end
  end.

(** The keys; the list of problems only feeds the log. *)
Definition LoadUserKeys (dir : keys_dir) : list UserKey :=
  match dir with None => [] | Some d => omap load_entry (entries d) end.

Definition maxPubKeyLine : Z := 1024.

Section pinning.
Context (sha256 : string -> string).

Definition Fingerprint (k : UserKey) : string :=
  "SHA256:" +:+ b64_encode false (sha256 (marshalSSHEd25519 (Pub k))).

Definition pinFileName (pub : string) : string :=
  hex_encode (stake 8 (sha256 (marshalSSHEd25519 pub))) +:+ ".pub".

(** The result, whether a file was written, and the directory after it. *)
Definition PinUserKey (dir : keys_dir) (line : string) : res key_error (UserKey * bool) * keys_dir :=
  let line := trim_space line in
  if bool_decide (line = "") then (Err EmptyKey, dir) else
  if (Z.of_nat (slen line) >? maxPubKeyLine)%Z then (Err KeyTooLong, dir) else
  if contains_any line (String LF (str1 CR)) then (Err NotSingleLine, dir) else
  match ParseOpenSSHEd25519 line with
  | Err e => (Err e, dir)
  | Ok pub =>
      match find (fun k => bool_decide (Pub k = pub)) (LoadUserKeys dir) with
      | Some k => (Ok (k, false), dir)
      | None =>
          let name := pinFileName pub in
          (Ok (MkUserKey name pub, true), Some (<[name := DFile (line +:+ str1 LF)]> (default ∅ dir)))
      end
  end.

Definition remove_file (name : string) (dir : keys_dir) : keys_dir := delete name <$> dir.

Definition UnpinUserKey (dir : keys_dir) (fingerprint : string) : res key_error nat * keys_dir :=
  let fingerprint := trim_space fingerprint in
  if bool_decide (fingerprint = "") then (Err FingerprintRequired, dir) else
  let victims := filter (fun k => Fingerprint k = fingerprint) (LoadUserKeys dir) in
  (Ok (length victims), fold_left (fun d k => remove_file (Label k) d) victims dir).

(** One line of an [authorized_keys] file. *)
Definition import_line (acc : list UserKey * nat * keys_dir) (raw : string) : list UserKey * nat * keys_dir :=
  let '(pinned, skipped, dir) := acc in
  let line := trim_space raw in
  if bool_decide (line = "") || has_prefix line "#" then acc else
  match PinUserKey dir line with
  | (Err _, dir') => (pinned, S skipped, dir')
  | (Ok (k, created), dir') => (if created then pinned ++ [k] else pinned, skipped, dir')
  end.

Definition ImportAuthorizedKeys (dir : keys_dir) (data : string) : list UserKey * nat * keys_dir :=
  fold_left import_line (split_on LF data) ([], 0, dir).
End pinning.

(** ** The wire format *)

Lemma readSSHString_marshal x rest :
  (N.of_nat (slen x) < 2 ^ 32)%N -> (N.of_nat (slen (x +:+ rest)) < 2 ^ 32)%N ->
  readSSHString (be32 (N.of_nat (slen x)) +:+ x +:+ rest) = Ok (x, rest).
Proof.
  intros Hx Hr. pose proof (be32_roundtrip (N.of_nat (slen x)) Hx) as Hb.
  unfold be32 in *. cbn [str1 String.append readSSHString] in *. cbv zeta. rewrite Hb.
  rewrite N.mod_small by done.
  assert (N.of_nat (slen (x +:+ rest)) <? N.of_nat (slen x) = false)%N as ->
    by (apply N.ltb_ge; rewrite slen_app; lia).
  by rewrite Nat2N.id, stake_app, sdrop_app.
Qed.

Lemma b64_byte_solid c : b64_byte c = true -> solid c = true.
Proof. destruct c as [[] [] [] [] [] [] [] []]; vm_compute; congruence. Qed.

Lemma b64_solid pad s : str_all solid (b64_encode pad s) = true.
Proof. eapply str_all_impl; [apply b64_byte_solid|apply b64_encode_bytes]. Qed.

Lemma b64_encode_ne pad s : s <> "" -> b64_encode pad s <> "".
Proof. by destruct s as [|a [|b [|c s]]]. Qed.

(** Every key the agent can render is read back: parsing the OpenSSH line
    of a 32-byte key, with or without a comment, yields exactly that key. *)
Theorem ParseOpenSSHEd25519_roundtrip pub comment :
  slen pub = PublicKeySize ->
  let line := ssh_algo +:+ " " +:+ b64_encode true (marshalSSHEd25519 pub) in
  ParseOpenSSHEd25519 line = Ok pub /\ ParseOpenSSHEd25519 (line +:+ " " +:+ comment) = Ok pub.
Proof.
  intros Hpub line. set (b := b64_encode true (marshalSSHEd25519 pub)).
  assert (fields line = [ssh_algo; b] /\ fields (line +:+ " " +:+ comment) = ssh_algo :: b :: fields comment)
    as [F1 F2].
  { unfold line. rewrite !sapp_assoc. split.
    - change (fields (ssh_algo +:+ String " " b) = [ssh_algo; b]).
      rewrite fields_cons by done. f_equal. apply fields_solid; [apply b64_solid|]. by apply b64_encode_ne.
    - change (fields (ssh_algo +:+ String " " (b +:+ String " " comment)) = ssh_algo :: b :: fields comment).
      rewrite !fields_cons; [done|apply b64_solid|by apply b64_encode_ne|done..]. }
  assert (readSSHString (marshalSSHEd25519 pub)
          = Ok (ssh_algo, be32 (N.of_nat (slen pub)) +:+ pub +:+ "")) as R1.
  { unfold marshalSSHEd25519. rewrite sapp_nil_r. apply readSSHString_marshal; [done|].
    rewrite !slen_app, Hpub. done. }
  assert (readSSHString (be32 (N.of_nat (slen pub)) +:+ pub +:+ "") = Ok (pub, "")) as R2.
  { apply readSSHString_marshal; rewrite ?slen_app, Hpub; done. }
  unfold ParseOpenSSHEd25519. rewrite !fields_trim_space, F1, F2.
  rewrite bool_decide_eq_true_2 by done. cbn [negb guard_err rbind]. unfold b.
  rewrite b64_roundtrip, R1. cbn [rbind fst snd]. rewrite bool_decide_eq_true_2 by done.
  cbn [negb guard_err rbind]. rewrite R2. cbn [rbind fst snd]. by rewrite Hpub.
Qed.

Fixpoint zeros (n : nat) : string := match n with 0 => "" | S k => String "A" (zeros k) end.
Definition sample_pub : string := zeros 32.
Definition sample_line : string := ssh_algo +:+ " " +:+ b64_encode true (marshalSSHEd25519 sample_pub) +:+ " me".

Lemma ParseOpenSSHEd25519_roundtrip_witness :
  let line := ssh_algo +:+ " " +:+ b64_encode true (marshalSSHEd25519 sample_pub) in
  ParseOpenSSHEd25519 line = Ok sample_pub /\ ParseOpenSSHEd25519 (line +:+ " " +:+ "me") = Ok sample_pub.
Proof. apply (ParseOpenSSHEd25519_roundtrip sample_pub "me"). reflexivity. Defined.

(** Parsing only looks at the words of a line. *)
Lemma Parse_lf line : ParseOpenSSHEd25519 (line +:+ str1 LF) = ParseOpenSSHEd25519 line.
Proof. unfold ParseOpenSSHEd25519. by rewrite !fields_trim_space, fields_lf. Qed.

(** ** The trust store *)

Definition pinned_by (d : gmap string dir_entry) (k : UserKey) : Prop :=
  has_suffix (Label k) ".pub" = true /\
  exists data, d !! Label k = Some (DFile data) /\ ParseOpenSSHEd25519 data = Ok (Pub k).

Lemma elem_of_LoadUserKeys d k : k ∈ LoadUserKeys (Some d) <-> pinned_by d k.
Proof.
  unfold LoadUserKeys, entries. rewrite list_elem_of_omap. setoid_rewrite list_elem_of_omap. split.
  - intros ([n e] & (m & _ & Hm) & Hl). apply fmap_Some in Hm as (e' & He & [= -> ->]).
    unfold load_entry in Hl. cbn in Hl. destruct e' as [data|]; [|done].
    destruct (negb (has_suffix m ".pub")) eqn:Hs; [done|]. apply negb_false_iff in Hs.
    destruct (ParseOpenSSHEd25519 data) as [pub|] eqn:Hp; [|done]. injection Hl as <-. split; [done|]. eauto.
  - intros (Hs & data & Hd & Hp). exists (Label k, DFile data). split.
    + exists (Label k). split; [|by rewrite Hd]. apply elem_of_sort_strings, list_elem_of_fmap.
      exists (Label k, DFile data). split; [done|]. by apply elem_of_map_to_list.
    + unfold load_entry. cbn. rewrite Hs, Hp. by destruct k.
Qed.

Section pinning_spec.
Context (sha256 : string -> string).

(** Pinning a key that parses leaves it among the loaded keys; a key that
    is already pinned (under any file name and comment) is not written again;
    otherwise one file is added, every key under another file name stays, and
    pinning the same key once more changes nothing.  A refused line changes
    nothing either. *)
Theorem PinUserKey_spec dir line :
  match PinUserKey sha256 dir line with
  | (Err _, dir') => dir' = dir
  | (Ok (k, created), dir') =>
      ParseOpenSSHEd25519 line = Ok (Pub k) /\ k ∈ LoadUserKeys dir' /\
      (created = false -> dir' = dir) /\
      (created = true -> (forall k', k' ∈ LoadUserKeys dir -> Pub k' <> Pub k) /\
         forall k', k' ∈ LoadUserKeys dir -> Label k' <> pinFileName sha256 (Pub k) -> k' ∈ LoadUserKeys dir') /\
      (forall line2 k2 c2 dir2, PinUserKey sha256 dir' line2 = (Ok (k2, c2), dir2) -> Pub k2 = Pub k ->
         c2 = false /\ dir2 = dir')
  end.
Proof.
  unfold PinUserKey at 1. cbv zeta. set (tl := trim_space line).
  destruct (bool_decide (tl = "")); [done|]. destruct (_ >? _)%Z; [done|].
  destruct (contains_any tl _); [done|].
  assert (ParseOpenSSHEd25519 tl = ParseOpenSSHEd25519 line) as Ht.
  { unfold ParseOpenSSHEd25519, tl. by rewrite !fields_trim_space. }
  destruct (ParseOpenSSHEd25519 tl) as [pub|e] eqn:Hp; [|done]. symmetry in Ht.
  (* a key that is loaded is found by any later pin *)
  assert (forall d k, k ∈ LoadUserKeys d -> forall line2 k2 c2 dir2,
    PinUserKey sha256 d line2 = (Ok (k2, c2), dir2) -> Pub k2 = Pub k -> c2 = false /\ dir2 = d) as Hagain.
  { intros d k Hk line2 k2 c2 dir2. unfold PinUserKey. cbv zeta.
    destruct (bool_decide _); [done|]. destruct (_ >? _)%Z; [done|]. destruct (contains_any _ _); [done|].
    destruct (ParseOpenSSHEd25519 (trim_space line2)) as [pub2|]; [|done].
    destruct (find _ (LoadUserKeys d)) as [k'|] eqn:Hf; [by intros [= <- <- <-]|].
    intros [= <- <- <-] Hpub. cbn in Hpub. exfalso.
    assert (bool_decide (Pub k = pub2) = false) as Hn.
    { apply (find_none _ _ Hf). by apply list_elem_of_In. }
    apply bool_decide_eq_false in Hn. congruence. }
  destruct (find _ (LoadUserKeys dir)) as [k|] eqn:Hf.
  - apply find_some in Hf as [Hin Hk]. apply list_elem_of_In in Hin. apply bool_decide_eq_true in Hk as <-.
    split_and!; [done|done|done|done|]. intros. by eapply Hagain.
  - set (name := pinFileName sha256 pub).
    assert (MkUserKey name pub ∈ LoadUserKeys
              (Some (<[name := DFile (tl +:+ str1 LF)]> (default ∅ dir)))) as Hin.
    { apply elem_of_LoadUserKeys. split.
      - apply has_suffix_spec. unfold name, pinFileName. eauto.
      - exists (tl +:+ str1 LF). cbn. rewrite lookup_insert_eq, Parse_lf. done. }
    cbn [Pub]. split_and!; [done|done|done| |intros; by eapply (Hagain _ (MkUserKey name pub))].
    intros _. split.
    + intros k' Hk' Hpub. assert (bool_decide (Pub k' = pub) = false) as Hn.
      { apply (find_none _ _ Hf). by apply list_elem_of_In. }
      by apply bool_decide_eq_false in Hn.
    + intros k' Hk' Hl. destruct dir as [d|]; [|by apply elem_of_nil in Hk'].
      apply elem_of_LoadUserKeys in Hk' as (Hs & data & Hd & Hpk). apply elem_of_LoadUserKeys.
      split; [done|]. exists data. cbn [default]. by rewrite lookup_insert_ne.
Qed.

Lemma fold_remove (ks : list UserKey) d :
  fold_left (fun d k => remove_file (Label k) d) ks (Some d)
  = Some (fold_left (fun d k => delete (Label k) d) ks d).
Proof. revert d. induction ks as [|k ks IH]; intros d; [done|]. cbn. by rewrite IH. Qed.

Lemma lookup_fold_delete (ks : list UserKey) (d : gmap string dir_entry) n :
  fold_left (fun d k => delete (Label k) d) ks d !! n = if decide (n ∈ map Label ks) then None else d !! n.
Proof.
  revert d. induction ks as [|k ks IH]; intros d; cbn [fold_left map].
  - rewrite decide_False; [done|]. apply not_elem_of_nil.
  - rewrite IH. destruct (decide (n ∈ map Label ks)) as [Hn|Hn].
    + rewrite decide_True; [done|]. by apply elem_of_cons; right.
    + destruct (decide (n = Label k)) as [->|Hne].
      * rewrite lookup_delete_eq, decide_True; [done|]. by apply elem_of_cons; left.
      * rewrite lookup_delete_ne by done. rewrite decide_False; [done|]. by intros [?|?]%elem_of_cons.
Qed.

(** Unpinning a fingerprint removes exactly the keys with that
    fingerprint: none of them is loaded afterwards, every other key is, and
    the count returned is the number of keys removed. *)
Theorem UnpinUserKey_spec dir fp :
  trim_space fp <> "" ->
  exists n dir', UnpinUserKey sha256 dir fp = (Ok n, dir') /\
    n = length (filter (fun k => Fingerprint sha256 k = trim_space fp) (LoadUserKeys dir)) /\
    forall k, k ∈ LoadUserKeys dir' <-> k ∈ LoadUserKeys dir /\ Fingerprint sha256 k <> trim_space fp.
Proof.
  intros Hne. unfold UnpinUserKey. cbv zeta. rewrite bool_decide_eq_false_2 by done.
  eexists _, _. split; [reflexivity|]. split; [done|]. intros k.
  destruct dir as [d|]; [|cbn; set_solver].
  rewrite fold_remove, !elem_of_LoadUserKeys. unfold pinned_by. setoid_rewrite lookup_fold_delete.
  set (vs := filter _ _).
  assert (Label k ∈ map Label vs <-> exists k', pinned_by d k' /\ Fingerprint sha256 k' = trim_space fp /\ Label k = Label k')
    as Hvs.
  { rewrite list_elem_of_fmap. unfold vs. setoid_rewrite list_elem_of_filter. setoid_rewrite elem_of_LoadUserKeys.
    naive_solver. }
  split.
  - intros (Hs & data & Hd & Hp). case_decide as Hin; [done|]. split; [eauto|]. intros Hf. apply Hin, Hvs.
    exists k. split_and!; [split; eauto|done|done].
  - intros ((Hs & data & Hd & Hp) & Hf). split; [done|]. exists data. rewrite decide_False; [done|].
    intros (k' & (_ & data' & Hd' & Hp') & Hf' & Hl)%Hvs. apply Hf. rewrite <- Hf'.
    rewrite Hl in Hd. rewrite Hd in Hd'. injection Hd' as <-.
    unfold Fingerprint. by replace (Pub k) with (Pub k') by congruence.
Qed.
End pinning_spec.

Lemma UnpinUserKey_spec_witness :
  let sha := fun _ : string => zeros 32 in
  let dir := Some {["a.pub" := DFile sample_line]} in
  exists n dir', UnpinUserKey sha dir "SHA256:x" = (Ok n, dir') /\
    n = length (filter (fun k => Fingerprint sha k = trim_space "SHA256:x") (LoadUserKeys dir)) /\
    forall k, k ∈ LoadUserKeys dir' <-> k ∈ LoadUserKeys dir /\ Fingerprint sha k <> trim_space "SHA256:x".
Proof. intros sha dir. apply (UnpinUserKey_spec sha dir "SHA256:x"). vm_compute. discriminate. Defined.
