(* ===== verification/Secrets.v ===== *)
(** * Secret values on their way off the device

    internal/redact/redact.go and internal/manifest/secrets.go: which keys are
    secret, how values are masked in environments and in the observed-state
    echo, and how the keep-sentinel comes back.  A [map[string]any] is an
    association list with distinct keys; its values are JSON values. *)

From S2P Require Import Prelude GoStrings Codec Utf8 Json Jcs.

(** ** redact.go *)
Definition Placeholder : string := "<redacted>".

Definition patterns : list string :=
  ["PASSWORD"; "PASSWD"; "TOKEN"; "SECRET"; "PRIVATE"; "APIKEY"; "API_KEY"].

Definition IsSecretKey (key : string) : bool :=
  let up := to_upper key in
  existsb (contains up) patterns || has_suffix up "_KEY" || bool_decide (up = "KEY").

Definition masked (extra : list string) (k : string) : bool := bool_decide (k ∈ extra) || IsSecretKey k.

Definition EnvMap (env : gmap string string) (extra : list string) : gmap string string :=
  map_imap (fun k v => Some (if masked extra k then Placeholder else v)) env.

Definition env_entry (extra : list string) (e : string) : string :=
  match index_byte e "=" with
  | None => e
  | Some 0 => e
  | Some eq => let k := stake eq e in if masked extra k then k +:+ "=" +:+ Placeholder else e
  end.
Definition EnvSlice (envs extra : list string) : list string := map (env_entry extra) envs.

(** ** secrets.go *)
Definition SecretKeepSentinel : string := "__OBACHT_SECRET_KEEP__".
Definition SecretKeysMarker : string := "__secret_keys".

(** Decoding into an empty interface drops duplicate names at every depth. *)
Fixpoint to_any (j : json) : json :=
  match j with
  | JArr l => JArr (map to_any l)
  | JObj ms => JObj (last_wins (map (fun p => (p.1, to_any p.2)) ms))
  | _ => j
  end.

(** [json.Unmarshal] of a text into a nil [map[string]any]. *)
Definition parse_map (text : string) : option (list (string * json)) :=
  match json_parse text with
  | Some j => match to_any j with JObj ms => Some ms | JNull => Some [] | _ => None end
  | None => None
  end.

Definition is_sentinel (v : json) : bool :=
  match v with JStr s => bool_decide (s = SecretKeepSentinel) | _ => false end.

Definition HasSecretSentinel (userConfig : list (string * json)) : bool :=
  existsb (fun p => is_sentinel p.2) userConfig.

(** One value of [ResolveSecretSentinelsInput]. *)
Definition resolve_value (storedInput : list (string * json)) (p : string * json) : string * json :=
  if negb (is_sentinel p.2) then p
  else match assoc p.1 storedInput with
       | Some sv => if is_sentinel sv then (p.1, JStr "") else (p.1, sv)
       | None => (p.1, JStr "")
       end.

Definition ResolveSecretSentinelsInput (userConfig storedInput : list (string * json)) : list (string * json) :=
  if negb (HasSecretSentinel userConfig) then userConfig else map (resolve_value storedInput) userConfig.

Definition input_of (cfg : list (string * json)) : list (string * json) :=
  match assoc "__input" cfg with Some (JObj ms) => ms | _ => [] end.

Definition ResolveSecretSentinels (userConfig : list (string * json)) (storedConfigJSON : string)
    : list (string * json) :=
  if negb (HasSecretSentinel userConfig) then userConfig
  else ResolveSecretSentinelsInput userConfig
         (if bool_decide (storedConfigJSON = "") then []
          else match parse_map storedConfigJSON with Some cfg => input_of cfg | None => [] end).

(** The strings of the marker list. *)
Definition marker_keys (l : list json) : list string :=
  omap (fun j => match j with JStr s => Some s | _ => None end) l.

Definition secret_test (cfg : list (string * json)) (k : string) : bool :=
  match assoc SecretKeysMarker cfg with
  | Some (JArr l) => bool_decide (k ∈ marker_keys l)
  | _ => IsSecretKey k
  end.

Definition echo_value (isSecret : string -> bool) (p : string * json) : string * json :=
  if negb (isSecret p.1) then p
  else match p.2 with
       | JStr "" => (p.1, JStr "")
       | _ => (p.1, JStr SecretKeepSentinel)
       end.

Definition RedactedInputEcho (configJSON : string) : option (list (string * json)) :=
  if bool_decide (configJSON = "") then None else
  match parse_map configJSON with
  | None => None
  | Some cfg =>
      match input_of cfg with
      | [] => None
      | input => Some (map (echo_value (secret_test cfg)) input)
      end
  end.

(** ** Environments *)

(** Masking an environment list keeps its length and every name, replaces
    the value of every secret or manifest-declared name by the placeholder, and
    leaves all other entries alone. *)
Theorem EnvSlice_spec envs extra i e :
  envs !! i = Some e ->
  exists e', EnvSlice envs extra !! i = Some e' /\ length (EnvSlice envs extra) = length envs /\
  forall k v, e = k +:+ String "=" v -> mem_byte "=" k = false -> k <> "" ->
    e' = k +:+ String "=" (if masked extra k then Placeholder else v).
Proof.
  intros Hi. exists (env_entry extra e). unfold EnvSlice. rewrite length_map, list_lookup_fmap, Hi.
  split; [done|]. split; [done|]. intros k v -> Hk Hne. unfold env_entry.
  assert (index_byte (k +:+ String "=" v) "=" = Some (slen k)) as ->.
  { apply index_byte_Some. exists k, v. done. }
  destruct (slen k) as [|n] eqn:Hl; [by apply slen_nil in Hl|]. cbv zeta. rewrite <- Hl, stake_app.
  by destruct (masked extra k).
Qed.

Lemma EnvSlice_spec_witness :
  exists e', EnvSlice ["DB_PASSWORD=hunter2"; "PORT=80"] [] !! 0 = Some e' /\
    length (EnvSlice ["DB_PASSWORD=hunter2"; "PORT=80"] []) = length ["DB_PASSWORD=hunter2"; "PORT=80"] /\
  forall k v, "DB_PASSWORD=hunter2" = k +:+ String "=" v -> mem_byte "=" k = false -> k <> "" ->
    e' = k +:+ String "=" (if masked [] k then Placeholder else v).
Proof. apply EnvSlice_spec. reflexivity. Defined.

Example secret_key_ex :
  map IsSecretKey ["dbPassword"; "API_TOKEN"; "ApiKey"; "ssh_key"; "monkey"; "encryptionKey"]
  = [true; true; true; true; false; false].
Proof. reflexivity. Qed.

(** ** The observed-state echo *)

Lemma assoc_map {A B} (f : string * A -> string * B) l k :
  (forall p, (f p).1 = p.1) ->
  assoc k (map f l) = (fun v => (f (k, v)).2) <$> assoc k l.
Proof.
  intros Hf. induction l as [|[k' v] l IH]; [done|]. cbn.
  destruct (f (k', v)) as [k'' w] eqn:Hfk. pose proof (Hf (k', v)) as H. rewrite Hfk in H. cbn in H. subst k''.
  destruct (decide (k' = k)) as [->|Hne].
  - rewrite !bool_decide_eq_true_2 by done. cbn. by rewrite Hfk.
  - rewrite !bool_decide_eq_false_2 by done. done.
Qed.

Lemma echo_value_key isSecret p : (echo_value isSecret p).1 = p.1.
Proof. unfold echo_value. destruct (negb _); [done|]. repeat case_match; done. Qed.

(** The echo of a stored configuration that leaves the device has the same
    keys as the stored input; under every key the manifest typed as secret it
    carries the sentinel or the empty string, never the stored value; every
    other value is unchanged. *)
Theorem RedactedInputEcho_masks configJSON out :
  RedactedInputEcho configJSON = Some out ->
  exists cfg, parse_map configJSON = Some cfg /\ map fst out = map fst (input_of cfg) /\
  forall k v, assoc k out = Some v ->
    (secret_test cfg k = true -> v = JStr SecretKeepSentinel \/ v = JStr "") /\
    (secret_test cfg k = false -> assoc k (input_of cfg) = Some v).
Proof.
  unfold RedactedInputEcho. destruct (bool_decide _); [done|].
  destruct (parse_map configJSON) as [cfg|]; [|done]. intros H. exists cfg. split; [done|].
  assert (out = map (echo_value (secret_test cfg)) (input_of cfg)) as ->.
  { destruct (input_of cfg); [done|]. by injection H. }
  clear H. split.
  - rewrite map_map. apply map_ext. intros p. apply echo_value_key.
  - intros k v. rewrite assoc_map by apply echo_value_key. intros (u & Hu & ->)%fmap_Some.
    unfold echo_value. cbn. destruct (secret_test cfg k); cbn.
    + split; [|done]. intros _. destruct u as [ | | |[|]| |]; cbn; auto.
    + split; [done|]. by intros _.
Qed.

Definition sample_config : string :=
  bq "{`image`:`x`,`__input`:{`dbPass`:`hunter2`,`port`:80,`tok`:``},`__secret_keys`:[`dbPass`,`tok`]}".

Lemma RedactedInputEcho_masks_witness :
  exists cfg, parse_map sample_config = Some cfg /\
    map fst [("dbPass", JStr SecretKeepSentinel); ("port", JNum "80"); ("tok", JStr "")] = map fst (input_of cfg) /\
  forall k v, assoc k [("dbPass", JStr SecretKeepSentinel); ("port", JNum "80"); ("tok", JStr "")] = Some v ->
    (secret_test cfg k = true -> v = JStr SecretKeepSentinel \/ v = JStr "") /\
    (secret_test cfg k = false -> assoc k (input_of cfg) = Some v).
Proof. apply (RedactedInputEcho_masks sample_config). vm_compute. reflexivity. Defined.

Lemma existsb_false_forall {A} (f : A -> bool) l : existsb f l = false <-> Forall (fun x => f x = false) l.
Proof.
  induction l as [|x l IH]; cbn; [by split|]. rewrite orb_false_iff, IH, Forall_cons. done.
Qed.

(** Decoded maps have distinct keys at every depth. *)
Lemma last_wins_keys {A} (ms : list (string * A)) : NoDup (map fst (last_wins ms)).
Proof.
  unfold last_wins. assert (forall acc, NoDup (map fst acc) ->
    NoDup (map fst (fold_left (fun m '(k, v) => assoc_set k v m) ms acc))) as H; [|apply H; constructor].
  induction ms as [|[k v] ms IH]; intros acc Hacc; [done|]. cbn. apply IH. by apply assoc_set_keys.
Qed.

Lemma assoc_set_Forall {A} (P : A -> Prop) k v l :
  P v -> Forall (fun p => P p.2) l -> Forall (fun p => P p.2) (assoc_set k v l).
Proof.
  intros Hv. induction 1 as [|[k' v'] l Hp Hl IH]; cbn; [by repeat constructor|].
  case_bool_decide; by constructor.
Qed.

Lemma last_wins_Forall {A} (P : A -> Prop) (ms : list (string * A)) :
  Forall (fun p => P p.2) ms -> Forall (fun p => P p.2) (last_wins ms).
Proof.
  unfold last_wins. intros Hms. assert (forall acc, Forall (fun p : string * A => P p.2) acc ->
    Forall (fun p : string * A => P p.2) (fold_left (fun m '(k, v) => assoc_set k v m) ms acc)) as H; [|by apply H].
  induction Hms as [|[k v] ms Hv Hms IH]; intros acc Hacc; [done|]. cbn. apply IH. by apply assoc_set_Forall.
Qed.

Lemma assoc_Forall {A} (P : A -> Prop) k l v : Forall (fun p => P p.2) l -> assoc k l = Some v -> P v.
Proof. induction 1 as [|[k' v'] l Hp Hl IH]; cbn; [done|]. case_bool_decide; [by intros [= <-]|done]. Qed.

Lemma parse_map_input text cfg : parse_map text = Some cfg -> NoDup (map fst (input_of cfg)).
Proof.
  unfold parse_map, input_of. destruct (json_parse text) as [j|]; [|done].
  assert (forall ms, to_any j = JObj ms -> Forall (fun p => exists j0, p.2 = to_any j0) ms) as Hval.
  { destruct j as [ |b|t|s|l|ms0]; try done. intros ms [= <-]. 
    apply (last_wins_Forall (fun v => exists j0, v = to_any j0)). apply Forall_map, Forall_forall.
    intros [k v] _. by exists v. }
  destruct (to_any j) as [ |b|t|s|l|ms]; try done; intros [= <-]; [constructor|].
  destruct (assoc "__input" ms) as [v|] eqn:Ha; [|constructor].
  apply (assoc_Forall (fun v => exists j0, v = to_any j0)) in Ha as [j0 ->]; [|by apply Hval].
  destruct j0; cbn; try constructor. apply last_wins_keys.
Qed.

(** What leaves the device as an echo and comes back in a reconfiguration
    resolves to the stored values: redaction and sentinel resolution are
    inverse on every stored input, secret or not, that does not itself contain
    the sentinel. *)
Theorem echo_resolves configJSON out cfg :
  RedactedInputEcho configJSON = Some out -> parse_map configJSON = Some cfg ->
  HasSecretSentinel (input_of cfg) = false ->
  ResolveSecretSentinels out configJSON = input_of cfg.
Proof.
  unfold RedactedInputEcho, ResolveSecretSentinels. destruct (bool_decide (configJSON = "")); [done|].
  intros Hr Hp Hs. pose proof (parse_map_input _ _ Hp) as Hnd. rewrite Hp in *.
  assert (out = map (echo_value (secret_test cfg)) (input_of cfg)) as ->.
  { destruct (input_of cfg); [done|]. by injection Hr. }
  clear Hr. set (input := input_of cfg) in *. set (st := secret_test cfg).
  unfold HasSecretSentinel in Hs. apply existsb_false_forall in Hs.
  unfold ResolveSecretSentinelsInput. destruct (HasSecretSentinel (map (echo_value st) input)) eqn:Hh; cbn [negb].
  - rewrite map_map. transitivity (map (fun x => x) input); [|apply map_id]. apply map_ext_Forall. apply Forall_forall. intros [k v] Hin.
    assert (assoc k input = Some v) as Ha.
    { clear -Hnd Hin. induction input as [|[k' v'] l IH]; [by apply elem_of_nil in Hin|].
      cbn in *. apply NoDup_cons in Hnd as [Hn Hnd]. apply elem_of_cons in Hin as [[= <- <-]|Hin].
      - by rewrite bool_decide_eq_true_2.
      - rewrite bool_decide_eq_false_2; [by apply IH|]. intros ->. apply Hn. apply list_elem_of_fmap. by exists (k, v). }
    rewrite Forall_forall in Hs. specialize (Hs _ Hin). cbn in Hs. unfold echo_value. cbn.
    destruct (st k); cbn; [|unfold resolve_value; cbn; by rewrite Hs].
    assert (resolve_value input (k, JStr SecretKeepSentinel) = (k, v)) as Hres.
    { unfold resolve_value. cbn [snd fst]. change (is_sentinel (JStr SecretKeepSentinel)) with true. cbn [negb].
      by rewrite Ha, Hs. }
    destruct v as [ | | |[|]| |]; done.
  - unfold HasSecretSentinel in Hh. apply existsb_false_forall in Hh. rewrite Forall_map in Hh.
    transitivity (map (fun x => x) input); [|apply map_id]. apply map_ext_Forall. eapply Forall_impl; [exact Hh|]. intros [k v]. unfold compose, echo_value. cbn.
    destruct (st k); cbn; [|done]. destruct v as [ | | |[|]| |]; done.
Qed.

Lemma echo_resolves_witness :
  ResolveSecretSentinels [("dbPass", JStr SecretKeepSentinel); ("port", JNum "80"); ("tok", JStr "")] sample_config
  = [("dbPass", JStr "hunter2"); ("port", JNum "80"); ("tok", JStr "")].
Proof.
  pose (cfg := [("image", JStr "x"); ("__input", JObj [("dbPass", JStr "hunter2"); ("port", JNum "80"); ("tok", JStr "")]);
                ("__secret_keys", JArr [JStr "dbPass"; JStr "tok"])]).
  apply (echo_resolves sample_config _ cfg); vm_compute; reflexivity.
Defined.

(** No sentinel survives resolution as a value, whatever the request and
    the stored configuration contain, and no key is added or lost. *)
Theorem ResolveSecretSentinels_clears userConfig stored :
  HasSecretSentinel (ResolveSecretSentinels userConfig stored) = false /\
  map fst (ResolveSecretSentinels userConfig stored) = map fst userConfig.
Proof.
  unfold ResolveSecretSentinels. destruct (HasSecretSentinel userConfig) eqn:Hs; cbn [negb]; [|done].
  set (input := if bool_decide _ then _ else _). unfold ResolveSecretSentinelsInput. rewrite Hs. cbn [negb]. split.
  - unfold HasSecretSentinel. apply existsb_false_forall. apply Forall_map, Forall_forall. intros [k v] _.
    unfold compose, resolve_value. cbn. destruct (is_sentinel v) eqn:Hv; cbn; [|done].
    destruct (assoc k input) as [sv|]; [|done]. destruct (is_sentinel sv) eqn:Hsv; done.
  - rewrite map_map. apply map_ext. intros [k v]. unfold resolve_value. cbn. by repeat case_match.
Qed.
