(* ===== verification/Placeholders.v ===== *)
(** * Placeholder substitution: the substituter of internal/manifest/materialize.go *)

From S2P Require Import Prelude GoStrings Codec Utf8 Json JsonEnc GoAny.

(** The bytes of a placeholder name, [a-zA-Z0-9_.-]. *)
Definition key_byte (c : ascii) : bool :=
  is_lower c || is_upper c || is_digit c || Ascii.eqb c "_" || Ascii.eqb c "." || Ascii.eqb c "-".

Fixpoint span (p : ascii -> bool) (s : string) : string * string :=
  match s with
  | String a s' => if p a then let '(x, y) := span p s' in (String a x, y) else ("", s)
  | "" => ("", "")
  end.

(** A match of [placeholderRe] at the start of [s]: its name. *)
Definition placeholder_at (s : string) : option string :=
  match s with
  | String "$" (String "{" r) =>
      match span key_byte r with
      | ("", _) => None
      | (k, String "}" _) => Some k
      | _ => None
      end
  | _ => None
  end.

Definition placeholder (k : string) : string := "${" +:+ k +:+ "}".

(** [placeholderRe.ReplaceAllStringFunc]: a name without a value stays. *)
Fixpoint pass (look : string -> option string) (skip : nat) (s : string) : string :=
  match s with
  | "" => ""
  | String a s' =>
      match skip with
      | S k => pass look k s'
      | 0 => match placeholder_at s with
             | Some key => default (placeholder key) (look key) +:+ pass look (slen key + 2) s'
             | None => String a (pass look 0 s')
             end
      end
  end.

(** [placeholderRe.FindAllStringSubmatch]: the names, in order. *)
Fixpoint find_all (skip : nat) (s : string) : list string :=
  match s with
  | "" => []
  | String a s' =>
      match skip with
      | S k => find_all k s'
      | 0 => match placeholder_at s with
             | Some key => key :: find_all (slen key + 2) s'
             | None => find_all 0 s'
             end
      end
  end.

(** Passes until nothing changes, at most [n] of them. *)
Fixpoint passes (look : string -> option string) (n : nat) (cur : string) : string :=
  match n with
  | 0 => cur
  | S n' => let next := pass look 0 cur in if bool_decide (next = cur) then cur else passes look n' next
  end.

Record substituter := MkSubst { s_cfg : amap; s_instanceID : string; s_templateID : string }.

Section substituter.
Context (environ : string -> option string).

Definition lookup (s : substituter) (key : string) : option string :=
  if bool_decide (key = "instance.id") then Some (s_instanceID s)
  else if bool_decide (key = "template.id") then Some (s_templateID s)
  else if has_prefix key "cfg." then toString <$> assoc (trim_prefix key "cfg.") (s_cfg s)
  else if has_prefix key "env." then environ (trim_prefix key "env.")
  else None.

Definition subst_string (s : substituter) (i : string) : string := if bool_decide (i = "") then i else passes (lookup s) 5 i.

Definition substWithoutCfgSecret (s : substituter) (i : string) : string :=
  passes (fun key => if has_prefix key "cfg." || has_prefix key "secret." then None else lookup s key) 4 i.
End substituter.

Definition resolveCfgPlaceholders (i : string) (cfg : list (string * string)) : string :=
  if bool_decide (i = "") then i
  else pass (fun key => if has_prefix key "cfg." then assoc (trim_prefix key "cfg.") cfg else None) 0 i.

(** The names in a text, each once, in the order of their first use. *)
Definition FindUnresolvedPlaceholders (text : string) : list string :=
  fold_left (fun acc k => if bool_decide (k ∈ acc) then acc else acc ++ [k]) (find_all 0 text) [].

Example subst_ex :
  subst_string (fun _ => None) (MkSubst [("dir", AStr "/data/${instance.id}"); ("n", AInt 3)] "web" "t")
    "${cfg.dir}:${cfg.n}:${secret.x}:$${template.id}" = "/data/web:3:${secret.x}:$t".
Proof. reflexivity. Qed.

(** ** Placeholders in a text *)
Definition key_text (k : string) : Prop := k <> "" /\ str_all key_byte k = true.

Lemma span_spec p s x y : span p s = (x, y) <->
  s = x +:+ y /\ str_all p x = true /\ match y with String b _ => p b = false | "" => True end.
Proof.
  revert x y. induction s as [|a s IH]; intros x y; cbn.
  - split; [by intros [= <- <-]|]. intros (H & _ & _). destruct x, y; by try discriminate.
  - destruct (p a) eqn:Ha.
    + destruct (span p s) as [x' y'] eqn:Hs. split.
      * intros [= <- <-]. destruct (proj1 (IH x' y') eq_refl) as (-> & Hx & Hy). cbn. by rewrite Ha.
      * intros (H & Hx & Hy). destruct x as [|b x]; [cbn in H; subst y; congruence|].
        rewrite sapp_cons in H. injection H as <- ->. cbn in Hx. rewrite Ha in Hx.
        assert ((x', y') = (x, y)) as [= -> ->]; [|done]. apply IH. done.
    + split; [intros [= <- <-]; by rewrite Ha|]. intros (H & Hx & Hy).
      destruct x as [|b x]; [cbn in H; by subst|]. rewrite sapp_cons in H. injection H as <- ->.
      cbn in Hx. by rewrite Ha in Hx.
Qed.

Lemma placeholder_at_spec s k : placeholder_at s = Some k <-> key_text k /\ exists r, s = placeholder k +:+ r.
Proof.
  unfold placeholder. split.
  - unfold placeholder_at. destruct s as [|a s]; [done|]. destruct (decide (a = "$"%char)) as [->|Ha];
      [|by destruct a as [[] [] [] [] [] [] [] []]].
    destruct s as [|b s]; [done|]. destruct (decide (b = "{"%char)) as [->|Hb];
      [|by destruct b as [[] [] [] [] [] [] [] []]].
    destruct (span key_byte s) as [x y] eqn:Hs. apply span_spec in Hs as (-> & Hx & Hy).
    destruct x as [|c x]; [done|]. destruct y as [|d y]; [done|].
    destruct (decide (d = "}"%char)) as [->|Hd]; [|by destruct d as [[] [] [] [] [] [] [] []]].
    intros [= <-]. split; [done|]. exists y. cbn. by rewrite sapp_assoc.
  - intros [[Hne Hk] [r ->]]. rewrite !sapp_assoc. change ("${" +:+ ?z) with (String "$" (String "{" z)).
    cbn [placeholder_at]. replace (span key_byte _) with (k, "}" +:+ r); [by destruct k|].
    symmetry. by apply span_spec.
Qed.

Lemma placeholder_no_dollar k : str_all key_byte k = true -> mem_byte "$" ("{" +:+ k +:+ "}") = false.
Proof.
  intros Hk. rewrite !mem_byte_app. rewrite (str_all_not_mem key_byte "$" k) by done. done.
Qed.

Lemma find_all_skip n s : find_all n s = find_all 0 (sdrop n s).
Proof. revert s. induction n as [|n IH]; intros [|a s]; try done. apply IH. Qed.
Lemma pass_skip look n s : pass look n s = pass look 0 (sdrop n s).
Proof. revert s. induction n as [|n IH]; intros [|a s]; try done. apply IH. Qed.

(** One step of the scan at a placeholder, and at any other byte. *)
Lemma placeholder_cons k r : placeholder k +:+ r = String "$" ("{" +:+ k +:+ "}" +:+ r).
Proof. unfold placeholder. by rewrite !sapp_assoc. Qed.

Lemma drop_placeholder k r : sdrop (slen k + 2) ("{" +:+ k +:+ "}" +:+ r) = r.
Proof.
  replace ("{" +:+ k +:+ "}" +:+ r) with (("{" +:+ k +:+ "}") +:+ r) by (by rewrite !sapp_assoc).
  replace (slen k + 2) with (slen ("{" +:+ k +:+ "}")) by (rewrite !slen_app; cbn; lia). apply sdrop_app.
Qed.

Lemma find_all_hit k r : key_text k -> find_all 0 (placeholder k +:+ r) = k :: find_all 0 r.
Proof.
  intros Hk. rewrite placeholder_cons. cbn [find_all]. rewrite (proj2 (placeholder_at_spec _ k)).
  - by rewrite find_all_skip, drop_placeholder.
  - split; [done|]. exists r. by rewrite placeholder_cons.
Qed.
Lemma pass_hit look k r : key_text k -> pass look 0 (placeholder k +:+ r) = default (placeholder k) (look k) +:+ pass look 0 r.
Proof.
  intros Hk. rewrite placeholder_cons. cbn [pass]. rewrite (proj2 (placeholder_at_spec _ k)).
  - by rewrite pass_skip, drop_placeholder.
  - split; [done|]. exists r. by rewrite placeholder_cons.
Qed.

(** Induction along the scan. *)
Lemma scan_ind (P : string -> Prop) :
  P "" -> (forall k r, key_text k -> P r -> P (placeholder k +:+ r)) ->
  (forall a s, placeholder_at (String a s) = None -> P s -> P (String a s)) -> forall s, P s.
Proof.
  intros H0 Hk Ha s. remember (slen s) as n eqn:Hn. revert s Hn. induction n as [n IH] using lt_wf_ind.
  intros [|a s] Hn; [done|]. destruct (placeholder_at (String a s)) as [k|] eqn:Hp.
  - apply placeholder_at_spec in Hp as [Hkt [r Hr]]. rewrite Hr in *. apply Hk; [done|].
    apply (IH (slen r)); [|done]. subst n. rewrite placeholder_cons. cbn. rewrite !slen_app. cbn. lia.
  - apply Ha; [done|]. apply (IH (slen s)); [|done]. subst n. cbn. lia.
Qed.

Lemma find_all_miss a s : placeholder_at (String a s) = None -> find_all 0 (String a s) = find_all 0 s.
Proof. intros H. cbn [find_all]. by rewrite H. Qed.
Lemma pass_miss look a s : placeholder_at (String a s) = None -> pass look 0 (String a s) = String a (pass look 0 s).
Proof. intros H. cbn [pass]. by rewrite H. Qed.

Lemma dollar_split b r x z : mem_byte "$" b = false -> b +:+ r = x +:+ String "$" z ->
  exists x', x = b +:+ x' /\ r = x' +:+ String "$" z.
Proof.
  revert x. induction b as [|c b IH]; intros x Hb Heq; [by exists x|].
  cbn in Hb. apply orb_false_iff in Hb as [Hc Hb]. rewrite sapp_cons in Heq.
  destruct x as [|d x]; [cbn in Heq; injection Heq as -> _; done|].
  rewrite sapp_cons in Heq. injection Heq as <- Heq. destruct (IH x Hb Heq) as (x' & -> & ->). by exists x'.
Qed.

(** The scan finds exactly the placeholders that occur in the text. *)
Lemma find_all_spec s k : k ∈ find_all 0 s <-> key_text k /\ exists x y, s = x +:+ placeholder k +:+ y.
Proof.
  split.
  - revert s. apply (scan_ind (fun s => k ∈ find_all 0 s -> _)); [intros H; by apply elem_of_nil in H| |].
    + intros k' r Hk IH Hin. rewrite find_all_hit in Hin by done. apply elem_of_cons in Hin as [->|Hin].
      * split; [done|]. by exists "", r.
      * destruct (IH Hin) as (? & x & y & ->). split; [done|]. exists (placeholder k' +:+ x), y. by rewrite !sapp_assoc.
    + intros a s Hp IH Hin. rewrite find_all_miss in Hin by done. destruct (IH Hin) as (? & x & y & ->).
      split; [done|]. by exists (String a x), y.
  - intros [Hk (x & y & Heq)]. revert x Heq. revert s. apply (scan_ind (fun s => forall x, s = _ -> _)).
    + intros x H. symmetry in H. rewrite placeholder_cons in H. by apply sapp_eq_nil in H as [_ [=]].
    + intros k' r Hk' IH x Heq. rewrite find_all_hit by done. destruct x as [|a x].
      * rewrite sapp_nil_l in Heq. assert (Some k' = Some k) as [= ->]; [|set_solver].
        transitivity (placeholder_at (placeholder k' +:+ r)); [symmetry|rewrite Heq]; apply placeholder_at_spec; eauto.
      * rewrite !placeholder_cons, sapp_cons in Heq. injection Heq as <- Heq.
        assert (Heq' : ("{" +:+ k' +:+ "}") +:+ r = x +:+ String "$" ("{" +:+ k +:+ "}" +:+ y))
          by (rewrite !sapp_assoc; exact Heq).
        apply dollar_split in Heq' as (x' & -> & ->); [|by apply placeholder_no_dollar, Hk'].
        apply elem_of_cons. right. apply (IH x'). by rewrite placeholder_cons.
    + intros a s Hp IH x Heq. rewrite find_all_miss by done. destruct x as [|b x].
      * rewrite sapp_nil_l in Heq. rewrite Heq in Hp. rewrite (proj2 (placeholder_at_spec _ k)) in Hp; [done|eauto].
      * rewrite sapp_cons in Heq. injection Heq as <- Heq. by apply (IH x).
Qed.

Lemma unique_fold (l acc : list string) k :
  k ∈ fold_left (fun acc k => if bool_decide (k ∈ acc) then acc else acc ++ [k]) l acc <-> k ∈ acc \/ k ∈ l.
Proof.
  revert acc. induction l as [|x l IH]; intros acc; cbn; [set_solver|]. rewrite IH.
  destruct (decide (x ∈ acc)); [rewrite bool_decide_eq_true_2 by done|rewrite bool_decide_eq_false_2 by done]; set_solver.
Qed.

Lemma FindUnresolvedPlaceholders_occur t k :
  k ∈ FindUnresolvedPlaceholders t <-> key_text k /\ exists x y, t = x +:+ placeholder k +:+ y.
Proof. unfold FindUnresolvedPlaceholders. rewrite unique_fold, find_all_spec. set_solver. Qed.

(** ** Substitution as template filling *)
Inductive piece := Lit (s : string) | Ph (k : string).
Definition piece_ok (p : piece) : Prop := match p with Lit s => mem_byte "$" s = false | Ph k => key_text k end.
Definition piece_text (p : piece) : string := match p with Lit s => s | Ph k => placeholder k end.
Definition text (ps : list piece) : string := fold_right (fun p r => piece_text p +:+ r) "" ps.
(** The reference: each known name is replaced by its value. *)
Definition fill (look : string -> option string) (p : piece) : piece :=
  match p with Lit s => Lit s | Ph k => match look k with Some v => Lit v | None => Ph k end end.

Lemma pass_lit look l r : mem_byte "$" l = false -> pass look 0 (l +:+ r) = l +:+ pass look 0 r.
Proof.
  induction l as [|a l IH]; intros H; [done|]. cbn in H. apply orb_false_iff in H as [Ha Hl].
  rewrite sapp_cons, pass_miss, IH by (try done; by destruct a as [[] [] [] [] [] [] [] []]). done.
Qed.

Lemma pass_text look ps : Forall piece_ok ps -> pass look 0 (text ps) = text (map (fill look) ps).
Proof.
  induction 1 as [|p ps Hp _ IH]; [done|]. cbn [text fold_right map]. fold (text ps). destruct p as [l|k]; cbn [piece_text].
  - by rewrite pass_lit, IH.
  - rewrite pass_hit, IH by done. cbn. by destruct (look k).
Qed.

Definition plain_values (look : string -> option string) : Prop := forall k v, look k = Some v -> mem_byte "$" v = false.

Lemma fill_ok look p : plain_values look -> piece_ok p -> piece_ok (fill look p).
Proof. intros Hv Hp. destruct p as [l|k]; [done|]. cbn. destruct (look k) eqn:Hk; [by eapply Hv|done]. Qed.

Lemma fill_idem look p : fill look (fill look p) = fill look p.
Proof. destruct p as [l|k]; [done|]. cbn. destruct (look k) eqn:Hk; [done|]. cbn. by rewrite Hk. Qed.

Lemma passes_text look n ps : plain_values look -> Forall piece_ok ps ->
  passes look (S (S n)) (text ps) = text (map (fill look) ps).
Proof.
  intros Hv Hps. cbn [passes]. rewrite pass_text by done. case_bool_decide as H1; [by symmetry|].
  rewrite pass_text by (apply Forall_map; eapply Forall_impl; [exact Hps|]; intros p; by apply fill_ok).
  rewrite map_map. rewrite (map_ext _ (fill look)) by apply fill_idem. by rewrite bool_decide_eq_true_2.
Qed.

(** Substitution fills a template: when the values of the known names carry
    no dollar sign, the iterated replacement puts exactly each known name's
    value in its place, leaves unknown placeholders as they are, and touches
    nothing else. *)
Theorem subst_string_fills environ s ps :
  Forall piece_ok ps -> plain_values (lookup environ s) ->
  subst_string environ s (text ps) = text (map (fill (lookup environ s)) ps).
Proof.
  intros Hps Hv. unfold subst_string. case_bool_decide as He; [|by apply passes_text].
  rewrite <- (pass_text _ _ Hps), He. done.
Qed.

Lemma subst_string_fills_witness :
  subst_string (fun _ => None) (MkSubst [("n", AInt 3)] "web" "t") (text [Lit "a:"; Ph "cfg.n"; Ph "secret.x"; Ph "instance.id"])
  = "a:3${secret.x}web".
Proof.
  rewrite subst_string_fills; [reflexivity| |].
  - repeat (apply Forall_cons; split; [first [reflexivity | split; [done|reflexivity]]|]). by apply Forall_nil.
  - intros k v. unfold lookup. cbn [s_instanceID s_templateID s_cfg assoc]. repeat case_match; cbn; try done; by intros [= <-].
Defined.

(** ** Bytes a substitution cannot add *)
Fixpoint count_byte (c : ascii) (s : string) : nat :=
  match s with "" => 0 | String a s' => (if Ascii.eqb a c then 1 else 0) + count_byte c s' end.

Lemma count_byte_app c s t : count_byte c (s +:+ t) = count_byte c s + count_byte c t.
Proof. induction s as [|a s IH]; [done|]. rewrite sapp_cons. cbn. rewrite IH. lia. Qed.

Lemma count_byte_none c s : mem_byte c s = false -> count_byte c s = 0.
Proof.
  induction s as [|a s IH]; [done|]. cbn. intros H. apply orb_false_iff in H as [Ha Hs]. by rewrite Ha, IH.
Qed.

Lemma placeholder_count c k : key_byte c = false -> c ∉ ["$"; "{"; "}"]%char -> key_text k -> count_byte c (placeholder k) = 0.
Proof.
  intros Hc Hn [_ Hk]. apply count_byte_none. unfold placeholder. rewrite !mem_byte_app, (str_all_not_mem key_byte c k) by done.
  assert (Heq : forall x, x ∈ ["$"; "{"; "}"]%char -> Ascii.eqb x c = false).
  { intros x Hx. apply Ascii.eqb_neq. intros ->. done. }
  cbn [mem_byte]. by rewrite !Heq by set_solver.
Qed.

Lemma pass_count look c s : key_byte c = false -> c ∉ ["$"; "{"; "}"]%char ->
  (forall k v, look k = Some v -> mem_byte c v = false) -> count_byte c (pass look 0 s) = count_byte c s.
Proof.
  intros Hc Hn Hv. revert s. apply scan_ind; [done| |].
  - intros k r Hk IH. rewrite pass_hit, !count_byte_app, IH, (placeholder_count c k) by done.
    destruct (look k) as [v|] eqn:Hl;
      [change (default (placeholder k) (Some v)) with v; by rewrite (count_byte_none c v) by eauto|change (default (placeholder k) None) with (placeholder k); by rewrite placeholder_count].
  - intros a s Hp IH. rewrite pass_miss by done. cbn. by rewrite IH.
Qed.

Lemma passes_count look c n s : key_byte c = false -> c ∉ ["$"; "{"; "}"]%char ->
  (forall k v, look k = Some v -> mem_byte c v = false) -> count_byte c (passes look n s) = count_byte c s.
Proof.
  intros Hc Hn Hv. revert s. induction n as [|n IH]; intros s; [done|]. cbn [passes].
  case_bool_decide; [done|]. by rewrite IH, pass_count.
Qed.

Lemma subst_string_count environ s c i : key_byte c = false -> c ∉ ["$"; "{"; "}"]%char ->
  (forall k v, lookup environ s k = Some v -> mem_byte c v = false) ->
  count_byte c (subst_string environ s i) = count_byte c i.
Proof. intros. unfold subst_string. case_bool_decide; [done|]. by apply passes_count. Qed.
