(* ===== verification/UnitPolicy.v ===== *)
(** * Unit policy: internal/unitpolicy/policy.go

    The content policy the root helper enforces on a staged systemd unit, the
    policy spelled out directive by directive, without any of the code's tables
    or checks ([unit_policy]), and the proof that [Validate] decides it. *)

From S2P Require Import Prelude GoStrings.

Definition UnitPrefix : string := "obacht-svc-".
Definition StagingDir : string := "/var/lib/obacht/system/staging".
Definition UnitDir : string := "/etc/systemd/system".
Definition BinRoot : string := "/opt/obacht/system/bin".
Definition EtcRoot : string := "/etc/obacht/svc".
Definition VarRoot : string := "/opt/obacht/svc".
Definition MaxUnitSize : Z := 16 * 1024.

(** [[a-z0-9][a-z0-9-]{0,63}] *)
Definition idByte (c : ascii) : bool := is_lower c || is_digit c || Ascii.eqb c "-".
Definition idToken (s : string) : bool :=
  match s with
  | String a t => (is_lower a || is_digit a) && str_all idByte t && (slen t <=? 63)%nat
  | "" => false
  end.

(** [UnitNameRe] *)
Definition UnitNameRe (name : string) : bool :=
  match strip_prefix name UnitPrefix with
  | Some r => match strip_suffix r ".service" with Some m => idToken m | None => false end
  | None => false
  end.

Inductive kv_error : Type :=
| InvalidValue (key : string)
| KeyNotAllowed (section key : string)
| ExecEmpty
| ExecOutsideBinRoot
| ExecTraversal
| ExecToken (tok : string).

Inductive policy_error : Type :=
| BadName
| EmptyContent
| TooBig
| NulByte
| LeadingSpace (ln : nat)
| Continuation (ln : nat)
| CommentLine (ln : nat)
| NotKeyValue (ln : nat)
| OutsideSection (ln : nat)
| DuplicateKey (ln : nat) (id : string)
| BadDirective (ln : nat) (e : kv_error)
| MissingRequired
| ExecStartRequired
| WantedByRequired
| DescriptionRequired.

Definition ValidateName (name : string) : res policy_error unit :=
  guard_err (negb (UnitNameRe name)) BadName.

Definition requiredExact : list (string * string) :=
  [("DynamicUser", "yes"); ("NoNewPrivileges", "yes"); ("ProtectSystem", "strict");
   ("ProtectHome", "yes"); ("PrivateTmp", "yes"); ("DevicePolicy", "closed");
   ("RestrictSUIDSGID", "yes")].

Definition AllowedDeviceAllow : list string :=
  ["char-video4linux rw"; "char-media rw"; "char-drm rw"; "char-dma_heap rw"].

Definition AllowedGroups : list string := ["video"; "render"; "input"].

Definition repeatableKeys : list string := ["DeviceAllow"; "Environment"].

Definition inb (x : string) (l : list string) : bool := bool_decide (x ∈ l).

(** The regular expressions of lines 109 to 121. *)
Definition sectionRe (line : string) : option string :=
  if inb line ["[Unit]"; "[Service]"; "[Install]"]
  then Some (stake (slen line - 2) (sdrop 1 line)) else None.

Definition kvRe (line : string) : option (string * string) :=
  match cut line "=" with
  | Some (k, v) => if str_all is_alpha k && negb (bool_decide (k = "")) then Some (k, v) else None
  | None => None
  end.

Definition digitsRe (s : string) : bool :=
  str_all is_digit s && (1 <=? slen s)%nat && (slen s <=? 5)%nat.

Definition unitByte (c : ascii) : bool := is_alnum c || mem_byte c "@._-".
Definition unitTokenRe (s : string) : bool :=
  existsb (fun suf => match strip_suffix s suf with
                      | Some r => negb (bool_decide (r = "")) && str_all unitByte r
                      | None => false
                      end) [".target"; ".service"; ".socket"].

Definition stateDirRe (s : string) : bool :=
  match strip_prefix s "obacht-svc/" with Some m => idToken m | None => false end.

(** The excluded bytes of an environment value: double quote, quote,
    backslash, dollar, backquote and the C0 controls. *)
Definition envByte (c : ascii) : bool :=
  negb (Ascii.eqb c "034" || mem_byte c "'\$`" || (code c <? 32)%N).
Definition envName (s : string) : bool :=
  match s with
  | String a t => (is_alpha a || Ascii.eqb a "_") && str_all (fun c => is_alnum c || Ascii.eqb c "_") t
  | "" => false
  end.
Definition envRe (s : string) : bool :=
  match cut s "=" with
  | Some (k, v) => envName k && str_all envByte v
  | None => false
  end.

Definition execByte (c : ascii) : bool := is_alnum c || mem_byte c "/._:=+,@-".
Definition execTokenRe (s : string) : bool := negb (bool_decide (s = "")) && str_all execByte s.

Definition umaskRe (s : string) : bool :=
  match s with
  | String "0" t => (slen t =? 3)%nat && str_all (between "0" "7") t
  | _ => false
  end.

(** [validateExecStart] *)
Definition validateExecStart (val : string) : res kv_error unit :=
  match fields val with
  | [] => Err ExecEmpty
  | (bin :: _) as tokens =>
      guard_err (negb (has_prefix bin (BinRoot +:+ "/"))) ExecOutsideBinRoot ;;!
      guard_err (contains bin "..") ExecTraversal ;;!
      for_each (fun tok =>
        guard_err (negb (execTokenRe tok)) (ExecToken tok) ;;!
        guard_err (contains tok "..") ExecTraversal) tokens
  end.

(** [validateKV] *)
Definition validateKV (section key val : string) : res kv_error unit :=
  let bad b := guard_err b (InvalidValue key) in
  let not_allowed := Err (KeyNotAllowed section key) in
  if bool_decide (section = "Unit") then
    if bool_decide (key = "Description") then
      bad (bool_decide (val = "") || contains_any val (str1 NUL))
    else if inb key ["After"; "Wants"] then
      for_each (fun tok => bad (negb (unitTokenRe tok))) (fields val)
    else not_allowed
  else if bool_decide (section = "Service") then
    match list_find (fun p => p.1 = key) requiredExact with
    | Some (_, (_, want)) => bad (negb (bool_decide (val = want)))
    | None =>
      if bool_decide (key = "Type") then bad (negb (inb val ["simple"; "exec"]))
      else if bool_decide (key = "ExecStart") then validateExecStart val
      else if bool_decide (key = "SupplementaryGroups") then
        match fields val with
        | [] => Err (InvalidValue key)
        | groups => for_each (fun g => bad (negb (inb g AllowedGroups))) groups
        end
      else if bool_decide (key = "DeviceAllow") then bad (negb (inb val AllowedDeviceAllow))
      else if bool_decide (key = "StateDirectory") then bad (negb (stateDirRe val))
      else if bool_decide (key = "Environment") then bad (negb (envRe val))
      else if bool_decide (key = "Restart") then bad (negb (inb val ["always"; "on-failure"; "no"]))
      else if inb key ["RestartSec"; "TimeoutStopSec"] then bad (negb (digitsRe val))
      else if bool_decide (key = "UMask") then bad (negb (umaskRe val))
      else if bool_decide (key = "RestrictAddressFamilies") then
        for_each (fun f => bad (negb (inb f ["AF_UNIX"; "AF_INET"; "AF_INET6"]))) (fields val)
      else not_allowed
    end
  else if bool_decide (section = "Install") then
    if bool_decide (key = "WantedBy") then bad (negb (bool_decide (val = "multi-user.target")))
    else not_allowed
  else not_allowed.

(** State of the line loop of [Validate]. *)
Record vstate := VState {
  v_section : string;
  v_seen : gmap string nat;
  v_exec : string
}.

Definition seen_count (st : vstate) (id : string) : nat := default 0 (v_seen st !! id).

Definition id_of (section key : string) : string := section +:+ "/" +:+ key.

(** One iteration of the loop: line [ln] (from 1), raw text [raw]. *)
Definition step_line (ln : nat) (raw : string) (st : vstate) : res policy_error vstate :=
  let line := trim_right CR raw in
  if bool_decide (trim_space line = "") then Ok st else
  guard_err (negb (bool_decide (line = trim_left_blank line))) (LeadingSpace ln) ;;!
  guard_err (has_suffix line "\") (Continuation ln) ;;!
  guard_err (has_prefix line "#" || has_prefix line ";") (CommentLine ln) ;;!
  match sectionRe line with
  | Some s => Ok (VState s (v_seen st) (v_exec st))
  | None =>
    match kvRe line with
    | None => Err (NotKeyValue ln)
    | Some (key, val) =>
      guard_err (bool_decide (v_section st = "")) (OutsideSection ln) ;;!
      let id := id_of (v_section st) key in
      let n := S (seen_count st id) in
      guard_err ((1 <? n)%nat && negb (inb key repeatableKeys)) (DuplicateKey ln id) ;;!
      match validateKV (v_section st) key val with
      | Err e => Err (BadDirective ln e)
      | Ok _ => Ok (VState (v_section st) (<[id := n]> (v_seen st))
                      (if bool_decide (id = "Service/ExecStart") then val else v_exec st))
      end
    end
  end.

Fixpoint step_lines (ln : nat) (raws : list string) (st : vstate) : res policy_error vstate :=
  match raws with
  | [] => Ok st
  | raw :: raws' => let! st' := step_line ln raw st in step_lines (S ln) raws' st'
  end.

(** The presence checks after the loop. *)
Definition presence (st : vstate) : res policy_error unit :=
  guard_err (existsb (fun p => (seen_count st (id_of "Service" p.1) =? 0)%nat) requiredExact)
    MissingRequired ;;!
  guard_err (negb (seen_count st "Service/ExecStart" =? 1)%nat || bool_decide (v_exec st = ""))
    ExecStartRequired ;;!
  guard_err (negb (seen_count st "Install/WantedBy" =? 1)%nat) WantedByRequired ;;!
  guard_err (negb (seen_count st "Unit/Description" =? 1)%nat) DescriptionRequired.

Definition vstate0 : vstate := VState "" ∅ "".

(** [Validate] *)
Definition Validate (name content : string) : res policy_error unit :=
  ValidateName name ;;!
  guard_err (bool_decide (content = "")) EmptyContent ;;!
  guard_err (Z.of_nat (slen content) >? MaxUnitSize)%Z TooBig ;;!
  guard_err (mem_byte NUL content) NulByte ;;!
  let! st := step_lines 1 (split_on LF content) vstate0 in
  presence st.

(** ** What the loop decides

    [directives] reads a unit file as a list of directives; [loop_policy] says
    what the loop accepts without its counters and early returns, in terms of
    the check of one directive. *)
Record directive := Dir { d_section : string; d_key : string; d_val : string }.

Definition d_id (d : directive) : string := id_of (d_section d) (d_key d).
#[global] Arguments id_of : simpl never.
#[global] Arguments d_id : simpl never.

Definition blank_line (raw : string) : bool := bool_decide (trim_space (trim_right CR raw) = "").

Fixpoint directives_of (sec : string) (raws : list string) : list directive :=
  match raws with
  | [] => []
  | raw :: raws' =>
      let line := trim_right CR raw in
      if blank_line raw then directives_of sec raws'
      else match sectionRe line with
           | Some s => directives_of s raws'
           | None => match kvRe line with
                     | Some (k, v) => Dir sec k v :: directives_of sec raws'
                     | None => directives_of sec raws'
                     end
           end
  end.

Definition directives (content : string) : list directive := directives_of "" (split_on LF content).

Definition line_ok (raw : string) : Prop :=
  let line := trim_right CR raw in
  blank_line raw = true \/
  (line = trim_left_blank line /\ has_suffix line "\" = false /\
   has_prefix line "#" = false /\ has_prefix line ";" = false /\
   (is_Some (sectionRe line) \/ is_Some (kvRe line))).

Definition dir_ok (d : directive) : Prop :=
  d_section d <> "" /\ validateKV (d_section d) (d_key d) (d_val d) = Ok tt.

Definition occurs (id : string) (ds : list directive) : nat :=
  length (filter (fun d => d_id d = id) ds).
#[global] Arguments occurs : simpl never.

Record loop_policy (name content : string) : Prop := {
  lp_name : UnitNameRe name = true;
  lp_nonempty : content <> "";
  lp_size : (Z.of_nat (slen content) <= MaxUnitSize)%Z;
  lp_nul : mem_byte NUL content = false;
  lp_lines : Forall line_ok (split_on LF content);
  lp_dirs : Forall dir_ok (directives content);
  lp_single : forall d, d ∈ directives content -> d_key d ∉ repeatableKeys ->
                        occurs (d_id d) (directives content) = 1;
  lp_required : forall k w, (k, w) ∈ requiredExact -> occurs (id_of "Service" k) (directives content) <> 0;
  lp_exec : occurs "Service/ExecStart" (directives content) = 1;
  lp_wanted : occurs "Install/WantedBy" (directives content) = 1;
  lp_descr : occurs "Unit/Description" (directives content) = 1
}.

(** No key is repeated, given how often each id occurred before. *)
Fixpoint no_repeat (cnt : string -> nat) (ds : list directive) : Prop :=
  match ds with
  | [] => True
  | d :: ds' =>
      (cnt (d_id d) = 0 \/ d_key d ∈ repeatableKeys) /\
      no_repeat (fun id => if decide (id = d_id d) then S (cnt id) else cnt id) ds'
  end.

Fixpoint last_exec (cur : string) (ds : list directive) : string :=
  match ds with
  | [] => cur
  | d :: ds' => last_exec (if bool_decide (d_id d = "Service/ExecStart") then d_val d else cur) ds'
  end.

Lemma occurs_nil id : occurs id [] = 0.
Proof. done. Qed.

Lemma occurs_cons id d ds :
  occurs id (d :: ds) = (if decide (d_id d = id) then 1 else 0) + occurs id ds.
Proof. unfold occurs. rewrite filter_cons. by case_decide. Qed.

Lemma seen_count_insert st id n s e id' :
  seen_count (VState s (<[id := n]> (v_seen st)) e) id'
  = if decide (id' = id) then n else seen_count st id'.
Proof.
  unfold seen_count. cbn. case_decide; subst; [by rewrite lookup_insert_eq|].
  by rewrite lookup_insert_ne by done.
Qed.

Lemma no_repeat_ext f g ds : (forall id, f id = g id) -> no_repeat f ds <-> no_repeat g ds.
Proof.
  revert f g. induction ds as [|d ds IH]; intros f g Hfg; [done|]. cbn.
  rewrite (Hfg (d_id d)). f_equiv. apply IH. intros id. by rewrite Hfg.
Qed.

(** Effect of the loop on its state. *)
Definition advances (st st' : vstate) (ds : list directive) : Prop :=
  (forall id, seen_count st' id = seen_count st id + occurs id ds) /\
  v_exec st' = last_exec (v_exec st) ds.

Lemma advances_nil st : advances st st [].
Proof. split; [|done]. intros id. apply plus_n_O. Qed.

(** Close a branch in which the line is rejected. *)
Ltac refute_line :=
  let H := fresh in
  intros ? [H _]; destruct H as [H|(? & ? & ? & ? & H)]; [congruence|];
  destruct H as [[? ?]|[? ?]]; congruence.

(** The directives one line contributes, and the section after it. *)
Lemma step_line_spec ln raw st :
  match step_line ln raw st with
  | Ok st' =>
      line_ok raw /\
      exists ds, (forall raws, directives_of (v_section st) (raw :: raws)
                               = ds ++ directives_of (v_section st') raws) /\
      Forall dir_ok ds /\ no_repeat (seen_count st) ds /\ length ds <= 1 /\ advances st st' ds
  | Err _ =>
      forall raws, ~ (line_ok raw /\ Forall dir_ok (directives_of (v_section st) (raw :: raws))
        /\ no_repeat (seen_count st) (directives_of (v_section st) (raw :: raws)))
  end.
Proof.
  unfold step_line, line_ok. cbn [directives_of]. unfold blank_line.
  set (line := trim_right CR raw).
  case_bool_decide as Hb; cbn.
  { split; [by left|]. exists []. split_and!; [done..|cbn; lia|apply advances_nil]. }
  case_bool_decide as Hl; cbn [negb guard_err rbind]; [|refute_line].
  destruct (has_suffix line "\") eqn:Hsuf; cbn [guard_err rbind]; [refute_line|].
  destruct (has_prefix line "#" || has_prefix line ";") eqn:Hpre; cbn [guard_err rbind];
    [apply orb_true_iff in Hpre as [?|?]; refute_line|].
  apply orb_false_iff in Hpre as [Hp1 Hp2].
  destruct (sectionRe line) as [s|] eqn:Hsec; cbn.
  { split; [right; split_and!; eauto|]. exists []. split_and!; [done..|cbn; lia|].
    split; [|done]. intros id. apply plus_n_O. }
  destruct (kvRe line) as [[k v]|] eqn:Hkv; cbn.
  2: { refute_line. }
  case_bool_decide as Hs; cbn [guard_err rbind].
  { intros raws (_ & [[Hne _] _]%Forall_cons & _). by cbn in Hne. }
  change (id_of (v_section st) k) with (d_id (Dir (v_section st) k v)).
  set (d := Dir (v_section st) k v).
  match goal with |- context [guard_err ?b (DuplicateKey _ _)] =>
    change b with ((1 <? S (seen_count st (d_id d)))%nat && negb (inb k repeatableKeys)) end.
  destruct ((1 <? S (seen_count st (d_id d)))%nat && negb (inb k repeatableKeys)) eqn:Hdup; cbn [guard_err rbind].
  { apply andb_true_iff in Hdup as [Hn Hr]. apply Nat.ltb_lt in Hn. unfold inb in Hr.
    apply negb_true_iff, bool_decide_eq_false in Hr.
    intros raws (_ & _ & [[?|?] _]); [lia|done]. }
  destruct (validateKV (v_section st) k v) as [[]|e] eqn:Hval.
  2: { intros raws (_ & [[_ Hok] _]%Forall_cons & _). cbn in Hok. congruence. }
  split; [right; split_and!; eauto|]. exists [d]. split_and!; auto.
  - by repeat constructor.
  - split; [|done]. apply andb_false_iff in Hdup as [Hn|Hr].
    + apply Nat.ltb_ge in Hn. left. lia.
    + right. unfold inb in Hr. by apply negb_false_iff, bool_decide_eq_true in Hr.
  - split; [|done]. intros id. rewrite seen_count_insert, occurs_cons, occurs_nil.
    destruct (decide (id = d_id d)) as [->|]; [rewrite decide_True by done; lia|].
    rewrite decide_False by congruence. lia.
Qed.

Lemma advances_app st st1 st2 ds1 ds2 :
  advances st st1 ds1 -> advances st1 st2 ds2 -> length ds1 <= 1 -> advances st st2 (ds1 ++ ds2).
Proof.
  intros [Hc1 He1] [Hc2 He2] Hlen. destruct ds1 as [|d [|]]; cbn in Hlen; [..|lia]; cbn in *.
  - split; [|by rewrite He2, He1]. intros id. rewrite Hc2, Hc1, occurs_nil. lia.
  - split; [|by rewrite He2, He1]. intros id. rewrite Hc2, Hc1, !occurs_cons, occurs_nil. lia.
Qed.

Lemma no_repeat_after st st1 ds1 ds2 :
  advances st st1 ds1 -> no_repeat (seen_count st) ds1 -> length ds1 <= 1 ->
  no_repeat (seen_count st) (ds1 ++ ds2) <-> no_repeat (seen_count st1) ds2.
Proof.
  intros [Hc _] Hn Hlen. destruct ds1 as [|d [|]]; cbn in Hlen; [..|lia]; cbn in *.
  - apply no_repeat_ext. intros id. rewrite Hc, occurs_nil. lia.
  - rewrite <- (no_repeat_ext (seen_count st1)).
    + tauto.
    + intros id. rewrite Hc, occurs_cons, occurs_nil.
      repeat case_decide; subst; try congruence; lia.
Qed.

(** The loop succeeds exactly on well-shaped lines whose directives are allowed
    and not repeated, and it then has counted them. *)
Lemma step_lines_spec ln raws st :
  match step_lines ln raws st with
  | Ok st' =>
      Forall line_ok raws /\ Forall dir_ok (directives_of (v_section st) raws) /\
      no_repeat (seen_count st) (directives_of (v_section st) raws) /\
      advances st st' (directives_of (v_section st) raws)
  | Err _ =>
      ~ (Forall line_ok raws /\ Forall dir_ok (directives_of (v_section st) raws) /\
         no_repeat (seen_count st) (directives_of (v_section st) raws))
  end.
Proof.
  revert ln st. induction raws as [|raw raws IH]; intros ln st.
  { cbn. split_and!; [done..|apply advances_nil]. }
  cbn [step_lines]. pose proof (step_line_spec ln raw st) as Hl.
  destruct (step_line ln raw st) as [st1|e]; cbn [rbind].
  - destruct Hl as (Hok & ds & Hds & Hdok & Hnr & Hlen & Hadv).
    rewrite Hds. specialize (IH (S ln) st1).
    pose proof (no_repeat_after st st1 ds (directives_of (v_section st1) raws) Hadv Hnr Hlen) as Hiff.
    destruct (step_lines (S ln) raws st1) as [st2|e2].
    + destruct IH as (H1 & H2 & H3 & H4).
      split_and!; [by constructor|by apply Forall_app|by apply Hiff|by eapply advances_app].
    + intros ([_ H1]%Forall_cons & [_ H2]%Forall_app & H3). apply IH. naive_solver.
  - intros ([H1 _]%Forall_cons & H2 & H3). by apply (Hl raws).
Qed.

(** *** From counters to "occurs exactly once" *)

Definition plain_section (d : directive) : Prop := mem_byte "/" (d_section d) = false.

Lemma d_id_key d1 d2 : plain_section d1 -> plain_section d2 -> d_id d1 = d_id d2 -> d_key d1 = d_key d2.
Proof.
  intros H1 H2 Heq.
  assert (cut (d_id d1) "/" = Some (d_section d1, d_key d1)) as Hc1 by by apply cut_Some.
  assert (cut (d_id d2) "/" = Some (d_section d2, d_key d2)) as Hc2 by by apply cut_Some.
  congruence.
Qed.

Lemma sectionRe_Some line s : sectionRe line = Some s -> s ∈ ["Unit"; "Service"; "Install"].
Proof.
  unfold sectionRe, inb. case_bool_decide as H; [|done]. intros [= <-].
  repeat (apply elem_of_cons in H as [->|H]; [vm_compute; set_solver|]). by apply elem_of_nil in H.
Qed.

Lemma directives_of_plain sec raws :
  mem_byte "/" sec = false -> Forall plain_section (directives_of sec raws).
Proof.
  revert sec. induction raws as [|raw raws IH]; intros sec Hsec; cbn; [done|].
  destruct (blank_line raw); [auto|].
  destruct (sectionRe _) as [s|] eqn:Hs.
  - apply sectionRe_Some in Hs. apply IH. set_solver.
  - destruct (kvRe _) as [[k v]|]; [|auto]. constructor; [done|auto].
Qed.

Lemma occurs_pos id ds : occurs id ds <> 0 <-> exists d, d ∈ ds /\ d_id d = id.
Proof.
  induction ds as [|d ds IH]; [rewrite occurs_nil; set_solver|]. rewrite occurs_cons.
  case_decide; set_solver by lia.
Qed.

Lemma no_repeat_iff cnt ds :
  Forall plain_section ds ->
  no_repeat cnt ds <->
  forall d, d ∈ ds -> d_key d ∉ repeatableKeys -> cnt (d_id d) = 0 /\ occurs (d_id d) ds = 1.
Proof.
  intros Hp. revert cnt. induction Hp as [|d ds Hd Hp IH]; intros cnt; cbn [no_repeat]; [set_solver|].
  rewrite IH. setoid_rewrite occurs_cons. split.
  - intros [Hhd Htl] d' Hin Hrep. apply elem_of_cons in Hin as [->|Hin].
    + rewrite decide_True by done. destruct Hhd as [Hz|]; [|done]. split; [done|].
      destruct (decide (occurs (d_id d) ds = 0)) as [->|Hne]; [done|].
      apply occurs_pos in Hne as (d'' & Hin'' & Hid).
      assert (d_key d'' = d_key d) as Hk.
      { apply d_id_key; [|done|done]. by rewrite Forall_forall in Hp; apply Hp. }
      destruct (Htl d'' Hin'') as [Hcnt _]; [by rewrite Hk|].
      rewrite decide_True in Hcnt by done. lia.
    + destruct (Htl d' Hin Hrep) as [Hcnt Hocc].
      destruct (decide (d_id d' = d_id d)); [lia|]. by rewrite decide_False by congruence.
  - intros Hall. split.
    + destruct (decide (d_key d ∈ repeatableKeys)); [by right|left].
      apply Hall; [set_solver|done].
    + intros d' Hin Hrep. destruct (Hall d') as [Hcnt Hocc]; [set_solver|done|].
      assert (occurs (d_id d') ds <> 0) by (apply occurs_pos; eauto).
      destruct (decide (d_id d = d_id d')) as [Heq|Hne]; [lia|].
      rewrite decide_False by congruence. lia.
Qed.

Lemma last_exec_ne cur ds :
  Forall dir_ok ds -> occurs "Service/ExecStart" ds <> 0 -> last_exec cur ds <> "".
Proof.
  intros Hok. revert cur. induction Hok as [|d ds Hd Hok IH]; intros cur; [done|].
  rewrite occurs_cons. cbn. case_decide as Hid.
  - intros _. rewrite bool_decide_eq_true_2 by done.
    destruct (decide (occurs "Service/ExecStart" ds = 0)) as [Hz|]; [|auto].
    assert (forall cur, last_exec cur ds = cur) as Hlast.
    { clear -Hz. induction ds as [|d ds IH]; [done|]. rewrite occurs_cons in Hz. intros cur. cbn.
      case_decide; [lia|]. rewrite bool_decide_eq_false_2 by done. auto with lia. }
    rewrite Hlast. intros Hv. destruct Hd as [Hs Hd]. rewrite Hv in Hd.
    unfold d_id, id_of in Hid.
    assert (d_section d = "Service" /\ d_key d = "ExecStart") as [Hsec Hkey].
    { destruct d as [sec k v]. cbn in *. clear -Hid Hd Hs.
      unfold validateKV in Hd.
      repeat (case_bool_decide; [subst; cbn in Hid; try congruence; by injection Hid|]). done. }
    rewrite Hsec, Hkey in Hd. by vm_compute in Hd.
  - rewrite bool_decide_eq_false_2 by done. cbn. auto.
Qed.

Lemma presence_Ok st :
  presence st = Ok tt <->
  (forall k w, (k, w) ∈ requiredExact -> seen_count st (id_of "Service" k) <> 0) /\
  seen_count st "Service/ExecStart" = 1 /\ v_exec st <> "" /\
  seen_count st "Install/WantedBy" = 1 /\ seen_count st "Unit/Description" = 1.
Proof.
  unfold presence. autorewrite with agent. split.
  - intros (Hreq & [He1 He2] & Hw & Hd).
    rewrite Nat.eqb_eq in He1, Hw, Hd. apply bool_decide_eq_false in He2.
    split_and!; [|done..]. intros k w Hin H0.
    assert (existsb (fun p => (seen_count st (id_of "Service" p.1) =? 0)%nat) requiredExact = true)
      as Hex; [|congruence].
    apply existsb_exists. exists (k, w). split; [by apply list_elem_of_In|]. by apply Nat.eqb_eq.
  - intros (Hreq & He1 & He2 & Hw & Hd). rewrite He1, Hw, Hd, bool_decide_eq_false_2 by done.
    split; [|done].
    apply not_true_is_false. intros ([k w] & Hin & H0)%existsb_exists.
    apply Nat.eqb_eq in H0. apply (Hreq k w); [by apply list_elem_of_In|done].
Qed.

(** The loop decides the declarative policy. *)
Lemma Validate_policy name content :
  Validate name content = Ok tt <-> loop_policy name content.
Proof.
  unfold Validate, ValidateName.
  pose proof (step_lines_spec 1 (split_on LF content) vstate0) as Hsp.
  change (v_section vstate0) with "" in Hsp.
  change (directives_of "" (split_on LF content)) with (directives content) in Hsp.
  assert (Forall plain_section (directives content)) as Hpl by by apply directives_of_plain.
  pose proof (no_repeat_iff (seen_count vstate0) _ Hpl) as Hnr.
  autorewrite with agent. split.
  - intros (Hname & Hne & Hsz & Hnul & (st & Hst & Hpres)%rbind_Ok).
    rewrite Hst in Hsp. destruct Hsp as (Hl & Hd & Hrep & [Hc He]).
    apply presence_Ok in Hpres as (Hreq & Hex & Hexv & Hw & Hds).
    setoid_rewrite Hc in Hreq. rewrite Hc in Hex, Hw, Hds.
    apply bool_decide_eq_false in Hne. rewrite Z.gtb_ltb in Hsz. apply Z.ltb_ge in Hsz.
    constructor; auto.
    intros d Hin Hk. by apply Hnr.
  - intros [Hname Hne Hsz Hnul Hl Hd Hs Hreq Hex Hw Hds].
    rewrite Hname, bool_decide_eq_false_2 by done.
    split_and!; [done..|rewrite Z.gtb_ltb; by apply Z.ltb_ge|done|].
    destruct (step_lines _ _ _) as [st|e].
    2: { exfalso. apply Hsp. split_and!; [done..|]. apply Hnr. intros d Hin Hk. by rewrite Hs. }
    destruct Hsp as (_ & _ & _ & [Hc He]). cbn [rbind].
    apply presence_Ok. rewrite !Hc, Hex, Hw, Hds, He. split_and!; try done.
    + intros k w Hin. rewrite Hc. by apply (Hreq k w).
    + apply last_exec_ne; [done|]. by rewrite Hex.
Qed.

Lemma validateExecStart_Ok val :
  validateExecStart val = Ok tt <->
  exists bin args, fields val = bin :: args /\ has_prefix bin (BinRoot +:+ "/") = true /\
    Forall (fun tok => execTokenRe tok = true /\ contains tok ".." = false) (bin :: args).
Proof.
  unfold validateExecStart. destruct (fields val) as [|bin args];
    [split; [discriminate|intros (? & ? & ? & _); discriminate]|].
  autorewrite with agent. setoid_rewrite guard_seq_Ok. setoid_rewrite guard_err_Ok.
  setoid_rewrite negb_false_iff. split.
  - intros (Hb & Hc & Hall). by exists bin, args.
  - intros (b & a & [= <- <-] & Hb & Hall). split_and!; [done| |done].
    by apply Forall_cons in Hall as [[_ ?] _].
Qed.

(** ** The policy

    Spelled out, with nothing of the code but its reader of lines: which
    directives a unit may carry and with which values, which it must carry, and
    which may be repeated. *)

(** A lower-case letter or digit, then at most 63 of these and dashes. *)
Definition identifier (m : string) : Prop :=
  exists a r, m = String a r /\ (is_lower a || is_digit a) = true /\
    str_all (fun c => is_lower c || is_digit c || Ascii.eqb c "-") r = true /\ slen r <= 63.
(** The name of a target, service or socket. *)
Definition unit_token (s : string) : Prop :=
  exists stem suffix, s = stem +:+ suffix /\ suffix ∈ [".target"; ".service"; ".socket"] /\ stem <> "" /\
    str_all (fun c => is_alnum c || mem_byte c "@._-") stem = true.
(** A word of a command line: no quoting, expansion or shell syntax, no parent step. *)
Definition argument (tok : string) : Prop :=
  tok <> "" /\ str_all (fun c => is_alnum c || mem_byte c "/._:=+,@-") tok = true /\ contains tok ".." = false.
(** An assignment to a variable, its value without quotes, escapes, expansions and control characters. *)
Definition assignment (s : string) : Prop :=
  exists a r v, s = String a r +:+ String "=" v /\ (is_alpha a || Ascii.eqb a "_") = true /\
    str_all (fun c => is_alnum c || Ascii.eqb c "_") r = true /\
    str_all (fun c => negb (Ascii.eqb c "034" || mem_byte c "'\$`" || (code c <? 32)%N)) v = true.

Inductive allowed : string -> string -> string -> Prop :=
| allow_description v : v <> "" -> mem_byte NUL v = false -> allowed "Unit" "Description" v
| allow_order k v : k ∈ ["After"; "Wants"] -> Forall unit_token (fields v) -> allowed "Unit" k v
| allow_hardening k v :
    (k, v) ∈ [("DynamicUser", "yes"); ("NoNewPrivileges", "yes"); ("ProtectSystem", "strict"); ("ProtectHome", "yes");
              ("PrivateTmp", "yes"); ("DevicePolicy", "closed"); ("RestrictSUIDSGID", "yes")] -> allowed "Service" k v
| allow_type v : v ∈ ["simple"; "exec"] -> allowed "Service" "Type" v
| allow_exec v p args : fields v = ("/opt/obacht/system/bin/" +:+ p) :: args ->
    Forall argument (("/opt/obacht/system/bin/" +:+ p) :: args) -> allowed "Service" "ExecStart" v
| allow_groups v : fields v <> [] -> Forall (fun g => g ∈ ["video"; "render"; "input"]) (fields v) -> allowed "Service" "SupplementaryGroups" v
| allow_device v : v ∈ ["char-video4linux rw"; "char-media rw"; "char-drm rw"; "char-dma_heap rw"] -> allowed "Service" "DeviceAllow" v
| allow_state m : identifier m -> allowed "Service" "StateDirectory" ("obacht-svc/" +:+ m)
| allow_environment v : assignment v -> allowed "Service" "Environment" v
| allow_restart v : v ∈ ["always"; "on-failure"; "no"] -> allowed "Service" "Restart" v
| allow_seconds k v : k ∈ ["RestartSec"; "TimeoutStopSec"] -> str_all is_digit v = true -> 1 <= slen v <= 5 -> allowed "Service" k v
| allow_umask r : slen r = 3 -> str_all (between "0" "7") r = true -> allowed "Service" "UMask" (String "0" r)
| allow_families v : Forall (fun f => f ∈ ["AF_UNIX"; "AF_INET"; "AF_INET6"]) (fields v) -> allowed "Service" "RestrictAddressFamilies" v
| allow_wanted : allowed "Install" "WantedBy" "multi-user.target".

(** A line that is neither blank, a section header nor an assignment is refused,
    and so are leading blanks, continuations and comments. *)
Definition line_shape (raw : string) : Prop :=
  let line := trim_right CR raw in
  blank_line raw = true \/
  (line = trim_left_blank line /\ has_suffix line "\" = false /\ has_prefix line "#" = false /\ has_prefix line ";" = false /\
   (line ∈ ["[Unit]"; "[Service]"; "[Install]"] \/ exists k v, line = k +:+ String "=" v /\ k <> "" /\ str_all is_alpha k = true)).

Record unit_policy (name content : string) : Prop := {
  up_name : exists m, name = "obacht-svc-" +:+ m +:+ ".service" /\ identifier m;
  up_size : content <> "" /\ (Z.of_nat (slen content) <= 16384)%Z;
  up_nul : mem_byte NUL content = false;
  up_lines : Forall line_shape (split_on LF content);
  up_dirs : Forall (fun d => allowed (d_section d) (d_key d) (d_val d)) (directives content);
  up_single : forall d, d ∈ directives content -> d_key d <> "DeviceAllow" -> d_key d <> "Environment" ->
                        occurs (d_id d) (directives content) = 1;
  up_required : Forall (fun k => occurs ("Service/" +:+ k) (directives content) <> 0)
    ["DynamicUser"; "NoNewPrivileges"; "ProtectSystem"; "ProtectHome"; "PrivateTmp"; "DevicePolicy"; "RestrictSUIDSGID"];
  up_once : Forall (fun id => occurs id (directives content) = 1) ["Service/ExecStart"; "Install/WantedBy"; "Unit/Description"]
}.

(** *** The checks against their descriptions *)
Lemma idToken_iff m : idToken m = true <-> identifier m.
Proof.
  unfold identifier. destruct m as [|a r]; cbn; [split; [done|by intros (?&?&?&_)]|].
  rewrite !andb_true_iff, Nat.leb_le. split; [intros [[H1 H2] H3]; by exists a, r|].
  by intros (a' & r' & [= <- <-] & H1 & H2 & H3).
Qed.

Lemma unitTokenRe_iff s : unitTokenRe s = true <-> unit_token s.
Proof.
  unfold unitTokenRe, unit_token. rewrite existsb_exists. split.
  - intros (suf & Hin%list_elem_of_In & H). destruct (strip_suffix s suf) as [r|] eqn:Hr; [|done]. apply strip_suffix_Some in Hr as ->.
    apply andb_true_iff in H as [Hne Hb]. apply negb_true_iff, bool_decide_eq_false in Hne. by exists r, suf.
  - intros (r & suf & -> & Hin & Hne & Hb). exists suf. split; [by apply list_elem_of_In|].
    rewrite (proj2 (strip_suffix_Some _ _ _) eq_refl). apply andb_true_iff. split; [|done]. by apply negb_true_iff, bool_decide_eq_false.
Qed.

Lemma envRe_iff s : envRe s = true <-> assignment s.
Proof.
  unfold envRe, assignment. split.
  - destruct (cut s "=") as [[k v]|] eqn:Hc; [|done]. apply cut_Some in Hc as [-> _]. rewrite andb_true_iff. intros [Hk Hv].
    destruct k as [|a r]; [done|]. cbn in Hk. apply andb_true_iff in Hk as [Ha Hr]. by exists a, r, v.
  - intros (a & r & v & -> & Ha & Hr & Hv). assert (Hc : cut (String a r +:+ String "=" v) "=" = Some (String a r, v)).
    { apply cut_Some. split; [done|]. assert (Hn : str_all (fun c => is_alnum c || Ascii.eqb c "_") (String a r) = true).
      { cbn [str_all]. rewrite Hr, andb_true_r. apply orb_true_iff in Ha as [Ha|Ha]; [unfold is_alnum; by rewrite Ha|by rewrite Ha, orb_true_r]. }
      revert Hn. by apply str_all_not_mem. }
    rewrite Hc. cbn [envName]. rewrite Ha, Hr. exact Hv.
Qed.

Lemma execTokenRe_iff tok : execTokenRe tok = true /\ contains tok ".." = false <-> argument tok.
Proof. unfold execTokenRe, argument. rewrite andb_true_iff, negb_true_iff, bool_decide_eq_false. tauto. Qed.

Lemma inb_iff x l : negb (inb x l) = false <-> x ∈ l.
Proof. unfold inb. by rewrite negb_false_iff, bool_decide_eq_true. Qed.

Lemma line_shape_iff raw : line_ok raw <-> line_shape raw.
Proof.
  unfold line_ok, line_shape. do 6 f_equiv.
  - unfold sectionRe, inb. case_bool_decide as H; [split; [done|by eexists]|split; [by intros []|done]].
  - unfold kvRe. split.
    + destruct (cut _ _) as [[k v]|] eqn:Hc; [|by intros []]. apply cut_Some in Hc as [He _]. intros [p Hp]. exists k, v.
      destruct (str_all is_alpha k && _) eqn:Hk; [|done]. apply andb_true_iff in Hk as [Ha Hn]. apply negb_true_iff, bool_decide_eq_false in Hn. done.
    + intros (k & v & -> & Hn & Ha). rewrite (proj2 (cut_Some _ _ k v)); [|split; [done|by revert Ha; apply str_all_not_mem]].
      rewrite Ha, bool_decide_eq_false_2 by done. by eexists.
Qed.

Lemma descr_iff v : (bool_decide (v = "") || contains_any v (str1 NUL)) = false <-> v <> "" /\ mem_byte NUL v = false.
Proof.
  rewrite orb_false_iff, bool_decide_eq_false. f_equiv. unfold contains_any. induction v as [|a v IH]; [done|].
  cbn [str_any mem_byte str1]. rewrite !orb_false_iff, IH, Ascii.eqb_sym. tauto.
Qed.

(** The check of one directive, on each known key. *)
Lemma allowed_check s k v : allowed s k v -> validateKV s k v = Ok tt.
Proof.
  intros H. destruct H as [v Hne Hn|k v Hk Hf|k v Hk|v Hv|v p args Hf Ha|v Hne Hf|v Hv|m Hm|v Hv|v Hv|k v Hk Hd Hl|r Hl Hr|v Hf|].
  - change (guard_err (bool_decide (v = "") || contains_any v (str1 NUL)) (InvalidValue "Description") = Ok tt).
    by apply guard_err_Ok, descr_iff.
  - assert (He : validateKV "Unit" k v = for_each (fun tok => guard_err (negb (unitTokenRe tok)) (InvalidValue k)) (fields v))
      by (repeat (apply elem_of_cons in Hk as [->|Hk]; [reflexivity|]); by apply elem_of_nil in Hk).
    rewrite He. apply for_each_Ok. eapply Forall_impl; [exact Hf|]. intros tok Ht. by apply guard_err_Ok, negb_false_iff, unitTokenRe_iff.
  - repeat (apply elem_of_cons in Hk as [[= -> ->]|Hk]; [reflexivity|]). by apply elem_of_nil in Hk.
  - change (guard_err (negb (inb v ["simple"; "exec"])) (InvalidValue "Type") = Ok tt). by apply guard_err_Ok, inb_iff.
  - change (validateExecStart v = Ok tt). apply validateExecStart_Ok. exists ("/opt/obacht/system/bin/" +:+ p), args. split; [done|].
    split; [apply has_prefix_spec; by exists p|]. eapply Forall_impl; [exact Ha|]. intros tok. apply execTokenRe_iff.
  - change (match fields v with [] => Err (InvalidValue "SupplementaryGroups")
            | groups => for_each (fun g => guard_err (negb (inb g AllowedGroups)) (InvalidValue "SupplementaryGroups")) groups end = Ok tt).
    destruct (fields v) as [|g gs]; [done|]. apply for_each_Ok. eapply Forall_impl; [exact Hf|]. intros x Hx. by apply guard_err_Ok, inb_iff.
  - change (guard_err (negb (inb v AllowedDeviceAllow)) (InvalidValue "DeviceAllow") = Ok tt). by apply guard_err_Ok, inb_iff.
  - change (guard_err (negb (stateDirRe ("obacht-svc/" +:+ m))) (InvalidValue "StateDirectory") = Ok tt).
    apply guard_err_Ok, negb_false_iff. unfold stateDirRe. rewrite (proj2 (strip_prefix_Some _ _ m) eq_refl). by apply idToken_iff.
  - change (guard_err (negb (envRe v)) (InvalidValue "Environment") = Ok tt). by apply guard_err_Ok, negb_false_iff, envRe_iff.
  - change (guard_err (negb (inb v ["always"; "on-failure"; "no"])) (InvalidValue "Restart") = Ok tt). by apply guard_err_Ok, inb_iff.
  - assert (He : validateKV "Service" k v = guard_err (negb (digitsRe v)) (InvalidValue k))
      by (repeat (apply elem_of_cons in Hk as [->|Hk]; [reflexivity|]); by apply elem_of_nil in Hk).
    rewrite He. apply guard_err_Ok, negb_false_iff. unfold digitsRe. rewrite Hd. cbn [andb]. apply andb_true_iff. by rewrite !Nat.leb_le.
  - change (guard_err (negb (umaskRe (String "0" r))) (InvalidValue "UMask") = Ok tt). apply guard_err_Ok, negb_false_iff. cbn [umaskRe]. by rewrite Hl, Hr.
  - change (for_each (fun f => guard_err (negb (inb f ["AF_UNIX"; "AF_INET"; "AF_INET6"])) (InvalidValue "RestrictAddressFamilies")) (fields v) = Ok tt).
    apply for_each_Ok. eapply Forall_impl; [exact Hf|]. intros f Hx. by apply guard_err_Ok, inb_iff.
  - reflexivity.
Qed.

Lemma check_allowed s k v : validateKV s k v = Ok tt -> allowed s k v.
Proof.
  unfold validateKV. case_bool_decide as Hs; [subst s|clear Hs; case_bool_decide as Hs; [subst s|clear Hs; case_bool_decide as Hs; [subst s|done]]].
  - case_bool_decide as Hk; [subst k; by intros [??]%guard_err_Ok%descr_iff; constructor|]. unfold inb at 1. case_bool_decide as Hk'; [|done].
    intros Hf%for_each_Ok. apply allow_order; [done|]. eapply Forall_impl; [exact Hf|]. intros tok. rewrite guard_err_Ok, negb_false_iff. apply unitTokenRe_iff.
  - destruct (list_find _ _) as [[i [k' want]]|] eqn:Hfind.
    { apply list_find_Some in Hfind as (Hl & Hk & _). cbn in Hk. subst k'. rewrite guard_err_Ok, negb_false_iff, bool_decide_eq_true. intros ->.
      apply allow_hardening. by apply list_elem_of_lookup_2 in Hl. }
    clear Hfind. case_bool_decide as Hk; [subst k; intros H%guard_err_Ok; apply allow_type; by apply inb_iff|clear Hk].
    case_bool_decide as Hk; [subst k; intros (bin & args & Hf & Hp & Ha)%validateExecStart_Ok|clear Hk].
    { apply has_prefix_spec in Hp as [p ->]. apply (allow_exec v p args); [done|]. eapply Forall_impl; [exact Ha|]. intros tok. apply execTokenRe_iff. }
    case_bool_decide as Hk; [subst k|clear Hk].
    { destruct (fields v) as [|g gs] eqn:Hf; [done|]. intros Hall%for_each_Ok. apply allow_groups; rewrite Hf; [done|].
      eapply Forall_impl; [exact Hall|]. intros x. rewrite guard_err_Ok. apply inb_iff. }
    case_bool_decide as Hk; [subst k; intros H%guard_err_Ok; apply allow_device; by apply inb_iff|clear Hk].
    case_bool_decide as Hk; [subst k; rewrite guard_err_Ok, negb_false_iff; unfold stateDirRe|clear Hk].
    { destruct (strip_prefix v "obacht-svc/") as [m|] eqn:Hm; [|done]. apply strip_prefix_Some in Hm as ->. intros Hi. by apply allow_state, idToken_iff. }
    case_bool_decide as Hk; [subst k; rewrite guard_err_Ok, negb_false_iff; intros H; by apply allow_environment, envRe_iff|clear Hk].
    case_bool_decide as Hk; [subst k; intros H%guard_err_Ok; apply allow_restart; by apply inb_iff|clear Hk].
    unfold inb at 1. case_bool_decide as Hk; [rewrite guard_err_Ok, negb_false_iff|clear Hk].
    { unfold digitsRe. rewrite !andb_true_iff, !Nat.leb_le. intros [[Hd H1] H5]. by apply allow_seconds. }
    case_bool_decide as Hk; [subst k; rewrite guard_err_Ok, negb_false_iff|clear Hk].
    { unfold umaskRe. destruct v as [|a r]; [done|]. destruct (ascii_dec a "0") as [->|Hne]; [|by destruct a as [[] [] [] [] [] [] [] []]].
      rewrite andb_true_iff, Nat.eqb_eq. intros [??]. by apply allow_umask. }
    case_bool_decide as Hk; [subst k|done]. intros Hall%for_each_Ok. apply allow_families. eapply Forall_impl; [exact Hall|].
    intros x. rewrite guard_err_Ok. apply inb_iff.
  - case_bool_decide as Hk; [|done]. subst k. rewrite guard_err_Ok, negb_false_iff, bool_decide_eq_true. intros ->. constructor.
Qed.

Lemma dir_ok_iff d : dir_ok d <-> allowed (d_section d) (d_key d) (d_val d).
Proof.
  split; [by intros [_ H]; apply check_allowed|]. intros H. split; [by destruct H|by apply allowed_check].
Qed.

Lemma name_iff name : UnitNameRe name = true <-> exists m, name = "obacht-svc-" +:+ m +:+ ".service" /\ identifier m.
Proof.
  unfold UnitNameRe, UnitPrefix. split.
  - destruct (strip_prefix _ _) as [r|] eqn:Hr; [|done]. apply strip_prefix_Some in Hr as ->.
    destruct (strip_suffix _ _) as [m|] eqn:Hm; [|done]. apply strip_suffix_Some in Hm as ->. intros Hi. exists m. split; [done|by apply idToken_iff].
  - intros (m & -> & Hi). rewrite (proj2 (strip_prefix_Some _ _ _) eq_refl), (proj2 (strip_suffix_Some _ _ _) eq_refl). by apply idToken_iff.
Qed.

Lemma policy_iff name content : loop_policy name content <-> unit_policy name content.
Proof.
  assert (Hrep : forall k, k ∉ repeatableKeys <-> k <> "DeviceAllow" /\ k <> "Environment").
  { intros k. unfold repeatableKeys. rewrite !not_elem_of_cons. split; [tauto|]. intros [??]. split_and!; [done..|apply not_elem_of_nil]. }
  assert (Hlines : Forall line_ok (split_on LF content) <-> Forall line_shape (split_on LF content)) by (apply Forall_iff; intros ?; apply line_shape_iff).
  assert (Hdirs : Forall dir_ok (directives content) <-> Forall (fun d => allowed (d_section d) (d_key d) (d_val d)) (directives content))
    by (apply Forall_iff; intros ?; apply dir_ok_iff).
  split.
  - intros [Hn He Hz Hnul Hl Hd Hs Hreq Hx Hw Hds]. constructor; [by apply name_iff|done|done|by apply Hlines|by apply Hdirs| | |by repeat constructor].
    + intros d Hin H1 H2. apply Hs; [done|]. by apply Hrep.
    + repeat (apply Forall_cons; split); [..|by apply Forall_nil]; (eapply Hreq, list_elem_of_In; cbn; repeat (first [left; reflexivity|right])).
  - intros [Hn [He Hz] Hnul Hl Hd Hs Hreq Ho].
    apply Forall_cons in Ho as [Hx Ho]. apply Forall_cons in Ho as [Hw Ho]. apply Forall_cons in Ho as [Hds _].
    constructor; [by apply name_iff|done|done|done|by apply Hlines|by apply Hdirs| | |done|done|done].
    + intros d Hin Hk. apply Hrep in Hk as [H1 H2]. by apply Hs.
    + intros k w Hin. rewrite Forall_forall in Hreq. apply (Hreq k). unfold requiredExact in Hin.
      repeat (apply elem_of_cons in Hin as [[= -> ->]|Hin]; [set_solver|]). by apply elem_of_nil in Hin.
Qed.

Lemma Validate_unit name content : Validate name content = Ok tt <-> unit_policy name content.
Proof. by rewrite Validate_policy, policy_iff. Qed.

(** C17: [Validate] accepts a staged unit exactly when it satisfies the policy:
    its name and size, the shape of its lines, every directive one of those
    listed with a listed value, the whole hardening block, one program below
    the binary root, one description and one target, and no key repeated but
    the two that may be. *)
Theorem Validate_iff name content :
  Validate name content = Ok tt <-> unit_policy name content.
Proof. apply Validate_unit. Qed.

Lemma validateKV_required k w v :
  (k, w) ∈ requiredExact -> validateKV "Service" k v = Ok tt -> v = w.
Proof.
  intros Hin. unfold requiredExact in Hin.
  repeat (apply elem_of_cons in Hin as [[= -> ->]|Hin];
    [match goal with |- validateKV _ ?key v = _ -> v = ?want =>
       change (guard_err (negb (bool_decide (v = want))) (InvalidValue key) = Ok tt -> v = want) end;
     case_bool_decide; by intros|]).
  by apply elem_of_nil in Hin.
Qed.

Lemma occurs_dir sec k ds :
  Forall plain_section ds -> mem_byte "/" sec = false -> occurs (id_of sec k) ds <> 0 ->
  exists v, Dir sec k v ∈ ds.
Proof.
  intros Hpl Hsec (d & Hin & Hid)%occurs_pos. exists (d_val d).
  rewrite Forall_forall in Hpl. specialize (Hpl d Hin).
  assert (cut (d_id d) "/" = Some (d_section d, d_key d)) as H1 by by apply cut_Some.
  assert (cut (id_of sec k) "/" = Some (sec, k)) as H2 by by apply cut_Some.
  rewrite Hid, H2 in H1. injection H1 as -> ->. by destruct d.
Qed.

Lemma policy_dir name content sec k v :
  loop_policy name content -> Dir sec k v ∈ directives content -> validateKV sec k v = Ok tt.
Proof.
  intros Hp Hin. pose proof (lp_dirs _ _ Hp) as Hd. rewrite Forall_forall in Hd.
  by destruct (Hd _ Hin).
Qed.

(** Every unit [Validate] accepts carries the whole hardening block: each
    required directive is present in [Service] and no directive of that name
    has any other value. *)
Theorem Validate_hardened name content k w :
  Validate name content = Ok tt -> (k, w) ∈ requiredExact ->
  Dir "Service" k w ∈ directives content /\
  forall v, Dir "Service" k v ∈ directives content -> v = w.
Proof.
  intros Hv Hin. apply Validate_policy in Hv as Hp.
  assert (forall v, Dir "Service" k v ∈ directives content -> v = w) as Hall.
  { intros v Hd. eapply validateKV_required; [done|]. by eapply policy_dir. }
  split; [|done].
  destruct (occurs_dir "Service" k (directives content)) as [v Hd];
    [by apply directives_of_plain|done|by eapply lp_required|].
  by rewrite <- (Hall v Hd).
Qed.

(** A unit [Validate] accepts starts exactly one program, which lies under
    the content-addressed binary root, and no token of its command line has a
    parent-directory step or a byte outside the conservative alphabet. *)
Theorem Validate_exec_confined name content :
  Validate name content = Ok tt ->
  occurs "Service/ExecStart" (directives content) = 1 /\
  forall val, Dir "Service" "ExecStart" val ∈ directives content ->
  exists bin args, fields val = bin :: args /\
    (exists p, bin = BinRoot +:+ "/" +:+ p) /\
    Forall (fun tok => str_all execByte tok = true /\ contains tok ".." = false) (bin :: args).
Proof.
  intros Hv. apply Validate_policy in Hv as Hp. split; [by eapply lp_exec|].
  intros val Hin. pose proof (policy_dir _ _ _ _ _ Hp Hin) as Hok.
  change (validateExecStart val = Ok tt) in Hok.
  apply validateExecStart_Ok in Hok as (bin & args & Hf & Hpre & Hall).
  exists bin, args. split; [done|]. split.
  - apply has_prefix_spec in Hpre as [t ->]. exists t. apply sapp_assoc.
  - eapply Forall_impl; [exact Hall|]. intros tok [Ht ?]. split; [|done].
    by apply andb_true_iff in Ht as [_ ?].
Qed.

(** A unit of the shape the generator emits. *)
Definition sample_unit : string :=
  join (str1 LF)
    ["[Unit]"; "Description=obacht managed service cam1 (rtsp)"; "After=network-online.target"; "";
     "[Service]"; "Type=exec"; "ExecStart=/opt/obacht/system/bin/00ff/mediamtx /etc/obacht/svc/cam1/m.yml";
     "DynamicUser=yes"; "NoNewPrivileges=yes"; "ProtectSystem=strict"; "ProtectHome=yes"; "PrivateTmp=yes";
     "RestrictSUIDSGID=yes"; "DevicePolicy=closed"; "DeviceAllow=char-video4linux rw";
     "SupplementaryGroups=render video"; "Restart=always"; "RestartSec=2"; ""; "[Install]";
     "WantedBy=multi-user.target"; ""].

Lemma Validate_hardened_witness :
  Dir "Service" "ProtectSystem" "strict" ∈ directives sample_unit /\
  forall v, Dir "Service" "ProtectSystem" v ∈ directives sample_unit -> v = "strict".
Proof.
  apply (Validate_hardened "obacht-svc-cam1.service" sample_unit); [vm_compute; reflexivity|].
  unfold requiredExact. set_solver.
Defined.

Lemma Validate_exec_confined_witness :
  occurs "Service/ExecStart" (directives sample_unit) = 1 /\
  forall val, Dir "Service" "ExecStart" val ∈ directives sample_unit ->
  exists bin args, fields val = bin :: args /\
    (exists p, bin = BinRoot +:+ "/" +:+ p) /\
    Forall (fun tok => str_all execByte tok = true /\ contains tok ".." = false) (bin :: args).
Proof.
  apply (Validate_exec_confined "obacht-svc-cam1.service" sample_unit). vm_compute. reflexivity.
Defined.
