(* ===== verification/RootHelper.v ===== *)
(** * The root helper: cmd/obacht-power-toggle/main.go

    The only program the unprivileged agent may run as root.  Its arguments and
    the contents of the staging directory are under the caller's control; the
    rest of the machine is [root]: the files it can reach, the systemctl
    commands it has run (newest first) and whether the kiosk user exists (what
    useradd itself writes to make it is not shown).  How the machine answers
    (exit codes, failing writes) is the parameter [host]. *)

From S2P Require Import Prelude GoStrings GoUrl UnitPolicy.

Definition sudoersPath : string := "/etc/sudoers.d/obacht-power".
Definition nl (l : list string) : string := join (str1 LF) l +:+ str1 LF.
Definition powerSudoersContent : string := nl
  ["# Managed by obacht-power-toggle. Do not edit by hand.";
   "# Phase S5: Power Mode is ENABLED. The obacht user can run obacht-scoped";
   "# systemd actions, mediated by the validating 'svc' subcommand below, and";
   "# install/remove agent-staged managed-service units, mediated by the";
   "# validating 'unit' subcommand (internal/unitpolicy content policy).";
   "# To disable, run: sudo obacht-power-toggle disable";
   "obacht ALL=(root) NOPASSWD: /usr/local/sbin/obacht-power-toggle svc *";
   "obacht ALL=(root) NOPASSWD: /usr/local/sbin/obacht-power-toggle unit *";
   "obacht ALL=(root) NOPASSWD: /usr/local/sbin/obacht-power-toggle kiosk enable";
   "obacht ALL=(root) NOPASSWD: /usr/local/sbin/obacht-power-toggle kiosk disable"].

Definition allowedSvcVerbs : list string := ["start"; "stop"; "restart"; "reload"; "enable"; "disable"].

(** [svcUnitRe]: ^obacht-[a-zA-Z0-9@._-]+\.(service|timer)$ *)
Definition svcUnitRe (u : string) : bool :=
  match strip_prefix u "obacht-" with
  | None => false
  | Some r =>
      existsb (fun suffix => match strip_suffix r suffix with
                             | Some mid => negb (bool_decide (mid = "")) && str_all unitByte mid
                             | None => false
                             end) [".service"; ".timer"]
  end.

Definition kioskUnitName : string := "obacht-kiosk.service".
Definition kioskUnitPath : string := "/etc/systemd/system/obacht-kiosk.service".
Definition kioskUser : string := "obacht-kiosk".
Definition kioskSessionExec : string := "/opt/obacht-agent/libexec/obacht-kiosk-session".
Definition kioskRestorePath : string := "/var/lib/obacht-power/kiosk-dm".
Definition knownDisplayManagers : list string := ["lightdm"; "gdm3"; "gdm"; "sddm"; "greetd"].
Definition isKnownDM (dm : string) : bool := existsb (fun k => bool_decide (dm = k)) knownDisplayManagers.

Definition kioskUnitContent : string := nl
  ["[Unit]"; "Description=obacht kiosk session"; "After=systemd-user-sessions.service getty@tty1.service";
   "Conflicts=getty@tty1.service"; ""; "[Service]"; "Type=simple"; "User=" +:+ kioskUser; "PAMName=login";
   "TTYPath=/dev/tty1"; "TTYReset=yes"; "TTYVHangup=yes"; "StandardInput=tty"; "StandardOutput=journal";
   "StandardError=journal"; "UtmpIdentifier=tty1"; "UtmpMode=user"; "ExecStart=" +:+ kioskSessionExec;
   "Restart=always"; "RestartSec=2"; ""; "[Install]"; "WantedBy=graphical.target"].

(** A file, or something else (a link, a directory, a device). *)
Inductive node := Reg (content : string) | NotRegular.
Record root := MkRoot { files : gmap string node; ran : list (list string); kiosk_user : bool }.

Record host := MkHost {
  euid_root : bool;
  systemctl_rc : list (list string) -> list string -> Z;   (* exit code, given the commands run before *)
  write_ok : string -> bool;                               (* can the file be written by rename *)
  remove_ok : string -> bool;                              (* can an existing file be removed *)
  late_bytes : string -> string;                           (* bytes appended between stat and read *)
  session_installed : bool;
  followed : string -> option (option string);             (* reading what is no regular file: a broken link; a directory; a link to this text *)
  useradd_found : bool;
  useradd_ok : bool;
  visudo_accepts : bool                                    (* or visudo is not installed *)
}.

Inductive helper_error := Failed (what : string).

Section helper.
Context (h : host).

Definition set_files (f : gmap string node -> gmap string node) (r : root) : root := MkRoot (f (files r)) (ran r) (kiosk_user r).

Definition runSystemctl (args : list string) (r : root) : Z * root :=
  (systemctl_rc h (ran r) args, MkRoot (files r) (args :: ran r) (kiosk_user r)).
(** A call whose exit code is ignored. *)
Definition run_ (args : list string) (r : root) : root := (runSystemctl args r).2.

Definition atomicWriteRoot (path data : string) (r : root) : res helper_error unit * root :=
  if write_ok h path then (Ok tt, set_files (fun m => <[path := Reg data]> m) r) else (Err (Failed "write"), r).

(** [os.Remove], a missing file being no error. *)
Definition removeIfThere (path : string) (r : root) : res helper_error unit * root :=
  match files r !! path with
  | None => (Ok tt, r)
  | Some _ => if remove_ok h path then (Ok tt, set_files (delete path) r) else (Err (Failed "remove"), r)
  end.

Definition readStagedUnit (name : string) (r : root) : res helper_error string :=
  let stagePath := Join2 StagingDir name in
  match files r !! stagePath with
  | None => Err (Failed "open staged unit")
  | Some NotRegular => Err (Failed "not a regular file")
  | Some (Reg data) =>
      if (Z.of_nat (slen data) >? MaxUnitSize)%Z then Err (Failed "exceeds size")
      else Ok (stake (Z.to_nat (MaxUnitSize + 1)) (data +:+ late_bytes h stagePath))
  end.

Definition unitCmd (args : list string) (r : root) : Z * root :=
  match args with
  | [verb; name] =>
      match ValidateName name with
      | Err _ => (2%Z, r)
      | Ok _ =>
          let installedPath := Join2 UnitDir name in
          if bool_decide (verb = "install") then
            match readStagedUnit name r with
            | Err _ => (2%Z, r)
            | Ok content =>
                match Validate name content with
                | Err _ => (2%Z, r)
                | Ok _ =>
                    match atomicWriteRoot installedPath content r with
                    | (Err _, r) => (2%Z, r)
                    | (Ok _, r) =>
                        let '(rc, r) := runSystemctl ["daemon-reload"] r in
                        if negb (rc =? 0)%Z then (rc, r) else
                        let '(rc, r) := runSystemctl ["enable"; name] r in
                        if negb (rc =? 0)%Z then (rc, r) else (0%Z, r)
                    end
                end
            end
          else if bool_decide (verb = "remove") then
            let r := run_ ["disable"; "--now"; name] r in
            match removeIfThere installedPath r with
            | (Err _, r) => (2%Z, r)
            | (Ok _, r) => let '(rc, r) := runSystemctl ["daemon-reload"] r in if negb (rc =? 0)%Z then (rc, r) else (0%Z, r)
            end
          else (2%Z, r)
      end
  | _ => (2%Z, r)
  end.

Definition svc (args : list string) (r : root) : Z * root :=
  match args with
  | [verb; unit] =>
      if negb (inb verb allowedSvcVerbs) then (2%Z, r)
      else if negb (svcUnitRe unit) then (2%Z, r)
      else runSystemctl [verb; unit] r
  | _ => (2%Z, r)
  end.

(** ** Kiosk *)
Definition ensureKioskUser (r : root) : res helper_error unit * root :=
  if negb (useradd_found h) then (Err (Failed "useradd not found"), r)
  else if kiosk_user r then (Ok tt, r)
  else if useradd_ok h then (Ok tt, MkRoot (files r) (ran r) true) else (Err (Failed "useradd"), r).

(** The first enabled display manager; every question is one systemctl run. *)
Fixpoint findDM (dms : list string) (r : root) : string * root :=
  match dms with
  | [] => ("none", r)
  | dm :: rest =>
      let '(rc, r) := runSystemctl ["is-enabled"; dm +:+ ".service"] r in
      if (rc =? 0)%Z then (dm, r) else findDM rest r
  end.

(** The record of the display manager: none; one that cannot be read; its text. *)
Definition recorded (r : root) : option (option string) :=
  match files r !! kioskRestorePath with
  | None => None
  | Some (Reg data) => Some (Some data)
  | Some NotRegular => followed h kioskRestorePath
  end.

Definition snapshotAndStopDM (r : root) : res helper_error unit * root :=
  match recorded r with
  | Some data =>
      let dm := trim_space (default "" data) in
      (Ok tt, if isKnownDM dm then run_ ["disable"; dm] (run_ ["stop"; dm] r) else r)
  | None =>
      let '(active, r) := findDM knownDisplayManagers r in
      match atomicWriteRoot kioskRestorePath (active +:+ str1 LF) r with
      | (Err e, r) => (Err e, r)
      | (Ok _, r) =>
          (Ok tt, if bool_decide (active = "none") then r else run_ ["disable"; active] (run_ ["stop"; active] r))
      end
  end.

Definition restoreDM (r : root) : res helper_error unit * root :=
  match recorded r with
  | None => (Ok tt, r)
  | Some None => (Err (Failed "read snapshot"), r)
  | Some (Some data) =>
      let dm := trim_space data in
      let r := if isKnownDM dm then run_ ["start"; dm] (run_ ["enable"; dm] r) else r in
      (Ok tt, (removeIfThere kioskRestorePath r).2)
  end.

Definition kioskEnable (r : root) : res helper_error unit * root :=
  if negb (session_installed h) then (Err (Failed "session script not installed"), r) else
  match ensureKioskUser r with
  | (Err e, r) => (Err e, r)
  | (Ok _, r) =>
      match snapshotAndStopDM r with
      | (Err e, r) => (Err e, r)
      | (Ok _, r) =>
          match atomicWriteRoot kioskUnitPath kioskUnitContent r with
          | (Err e, r) => (Err e, r)
          | (Ok _, r) =>
              let '(rc, r) := runSystemctl ["daemon-reload"] r in
              if negb (rc =? 0)%Z then (Err (Failed "daemon-reload failed"), r) else
              let '(rc, r) := runSystemctl ["enable"; kioskUnitName] r in
              if negb (rc =? 0)%Z then (Err (Failed "enable failed"), r) else
              let '(rc, r) := runSystemctl ["restart"; kioskUnitName] r in
              if negb (rc =? 0)%Z then (Err (Failed "start failed"), r) else (Ok tt, r)
          end
      end
  end.

Definition kioskDisable (r : root) : res helper_error unit * root :=
  let r := run_ ["disable"; "--now"; kioskUnitName] r in
  match removeIfThere kioskUnitPath r with
  | (Err e, r) => (Err e, r)
  | (Ok _, r) => restoreDM (run_ ["daemon-reload"] r)
  end.

Definition exit_of (x : res helper_error unit * root) : Z * root := (if is_ok x.1 then 0%Z else 2%Z, x.2).

Definition kioskCmd (args : list string) (r : root) : Z * root :=
  match args with
  | [verb] =>
      if bool_decide (verb = "enable") then exit_of (kioskEnable r)
      else if bool_decide (verb = "disable") then exit_of (kioskDisable r)
      else (2%Z, r)
  | _ => (2%Z, r)
  end.

(** ** Power mode *)
Definition enable (r : root) : res helper_error unit * root :=
  if negb (write_ok h sudoersPath) then (Err (Failed "write"), r)
  else if negb (visudo_accepts h) then (Err (Failed "visudo rejected fragment"), r)
  else (Ok tt, set_files (fun m => <[sudoersPath := Reg powerSudoersContent]> m) r).
Definition disable (r : root) : res helper_error unit * root := removeIfThere sudoersPath r.
Definition status (r : root) : bool := bool_decide (is_Some (files r !! sudoersPath)).

(** [main] with the arguments after the program name. *)
Definition main (args : list string) (r : root) : Z * root :=
  match args with
  | [] => (2%Z, r)
  | cmd :: rest =>
      let as_root (x : Z * root) := if euid_root h then x else (2%Z, r) in
      if inb cmd ["--help"; "-h"; "help"] then (0%Z, r)
      else if bool_decide (cmd = "enable") then as_root (exit_of (enable r))
      else if bool_decide (cmd = "disable") then as_root (exit_of (disable r))
      else if bool_decide (cmd = "svc") then as_root (svc rest r)
      else if bool_decide (cmd = "unit") then as_root (unitCmd rest r)
      else if bool_decide (cmd = "kiosk") then as_root (kioskCmd rest r)
      else if bool_decide (cmd = "status") then (if status r then 0%Z else 1%Z, r)
      else (2%Z, r)
  end.
End helper.

(** ** Confinement *)

(** What a file may look like after the helper touched it. *)
Definition allowed_file (p : string) (n : option node) : Prop :=
  (p = sudoersPath /\ (n = None \/ n = Some (Reg powerSudoersContent))) \/
  (p = kioskUnitPath /\ (n = None \/ n = Some (Reg kioskUnitContent))) \/
  (p = kioskRestorePath /\ (n = None \/ exists dm, dm ∈ "none" :: knownDisplayManagers /\ n = Some (Reg (dm +:+ str1 LF)))) \/
  (exists name, UnitNameRe name = true /\ p = Join2 UnitDir name /\
     (n = None \/ exists c, n = Some (Reg c) /\ Validate name c = Ok tt)).

(** The units a command may name: the agent's own, or a display manager. *)
Definition obacht_unit (u : string) : Prop :=
  exists mid ext, u = "obacht-" +:+ mid +:+ ext /\ ext ∈ [".service"; ".timer"] /\ mid <> "" /\ str_all unitByte mid = true.
Definition allowed_cmd (argv : list string) : Prop :=
  argv = ["daemon-reload"] \/
  (exists verb u, verb ∈ "is-enabled" :: allowedSvcVerbs /\ argv = [verb; u] /\
     (obacht_unit u \/ u ∈ knownDisplayManagers \/ (verb = "is-enabled" /\ exists dm, dm ∈ knownDisplayManagers /\ u = dm +:+ ".service"))) \/
  (exists u, argv = ["disable"; "--now"; u] /\ obacht_unit u).

(** A run of the helper that stays within these bounds. *)
Definition confined (r r' : root) : Prop :=
  (forall p, files r' !! p = files r !! p \/ allowed_file p (files r' !! p)) /\
  exists new, ran r' = new ++ ran r /\ Forall allowed_cmd new.

#[export] Instance confined_pre : PreOrder confined.
Proof.
  split.
  - intros r. split; [by left|]. by exists [].
  - intros r1 r2 r3 [Hf1 (n1 & Hr1 & Ha1)] [Hf2 (n2 & Hr2 & Ha2)]. split.
    + intros p. destruct (Hf2 p) as [->|]; [apply Hf1|by right].
    + exists (n2 ++ n1). split; [by rewrite Hr2, Hr1, app_assoc|]. by apply Forall_app.
Qed.

Lemma write_confined h p data r : allowed_file p (Some (Reg data)) -> confined r (atomicWriteRoot h p data r).2.
Proof.
  intros Ha. unfold atomicWriteRoot. destruct (write_ok h p); [|reflexivity]. cbn. split; [|by exists []].
  intros q. cbn. destruct (decide (q = p)) as [->|Hne]; [right; by rewrite lookup_insert_eq|left; by rewrite lookup_insert_ne].
Qed.

Lemma remove_confined h p r : allowed_file p None -> confined r (removeIfThere h p r).2.
Proof.
  intros Ha. unfold removeIfThere. destruct (files r !! p); [|reflexivity]. destruct (remove_ok h p); [|reflexivity].
  split; [|by exists []]. intros q. cbn.
  destruct (decide (q = p)) as [->|Hne]; [right; by rewrite lookup_delete_eq|left; by rewrite lookup_delete_ne].
Qed.

Lemma run_confined h argv r : allowed_cmd argv -> confined r (runSystemctl h argv r).2.
Proof. intros Ha. split; [by left|]. exists [argv]. split; [done|]. by apply Forall_singleton. Qed.

Lemma svcUnitRe_obacht u : svcUnitRe u = true -> obacht_unit u.
Proof.
  unfold svcUnitRe. destruct (strip_prefix u "obacht-") as [r|] eqn:Hp; [|done]. apply strip_prefix_Some in Hp as ->.
  rewrite existsb_exists. intros (ext & Hext%list_elem_of_In & Hm).
  destruct (strip_suffix r ext) as [mid|] eqn:Hs; [|done]. apply strip_suffix_Some in Hs as ->.
  apply andb_true_iff in Hm as [Hne%negb_true_iff%bool_decide_eq_false Ha]. by exists mid, ext.
Qed.

(** Names of staged units are unit names of the agent. *)
Lemma UnitNameRe_obacht name : UnitNameRe name = true -> obacht_unit name.
Proof.
  unfold UnitNameRe, UnitPrefix.
  destruct (strip_prefix name "obacht-svc-") as [r|] eqn:Hp; [|done]. apply strip_prefix_Some in Hp as ->.
  destruct (strip_suffix r ".service") as [mid|] eqn:Hs; [|done]. apply strip_suffix_Some in Hs as ->. intros Ht.
  exists ("svc-" +:+ mid), ".service". split; [by rewrite sapp_assoc|]. split; [set_solver|]. split; [done|].
  rewrite str_all_app. apply andb_true_iff. split; [done|].
  unfold idToken in Ht. destruct mid as [|a t]; [done|]. rewrite !andb_true_iff in Ht. destruct Ht as [[Ha Ht] _].
  cbn [str_all]. apply andb_true_iff. split; [by destruct a as [[] [] [] [] [] [] [] []]|].
  eapply str_all_impl; [|exact Ht]. intros c. by destruct c as [[] [] [] [] [] [] [] []].
Qed.

Lemma findDM_spec h dms r : (forall dm, dm ∈ dms -> dm ∈ knownDisplayManagers) ->
  confined r (findDM h dms r).2 /\ files (findDM h dms r).2 = files r /\ kiosk_user (findDM h dms r).2 = kiosk_user r /\
  (findDM h dms r).1 ∈ "none" :: dms.
Proof.
  revert r. induction dms as [|dm dms IH]; intros r Hin; [split; [reflexivity|]; repeat split; set_solver|].
  cbn [findDM runSystemctl]. destruct (_ =? 0)%Z eqn:Hrc.
  - split; [|repeat split; set_solver]. apply (run_confined h ["is-enabled"; dm +:+ ".service"]). right. left.
    exists "is-enabled", (dm +:+ ".service"). split; [set_solver|]. split; [done|]. right. right. split; [done|].
    exists dm. split; [|done]. apply Hin. set_solver.
  - destruct (IH (MkRoot (files r) (["is-enabled"; dm +:+ ".service"] :: ran r) (kiosk_user r))) as (Hc & Hf & Hu & Hd);
      [intros d Hd; apply Hin; set_solver|].
    split; [|repeat split; [done|done|set_solver]]. etransitivity; [|exact Hc].
    apply (run_confined h ["is-enabled"; dm +:+ ".service"]). right. left.
    exists "is-enabled", (dm +:+ ".service"). split; [set_solver|]. split; [done|]. right. right. split; [done|].
    exists dm. split; [|done]. apply Hin. set_solver.
Qed.

Lemma isKnownDM_spec dm : isKnownDM dm = true <-> dm ∈ knownDisplayManagers.
Proof.
  unfold isKnownDM. rewrite existsb_exists. setoid_rewrite bool_decide_eq_true. setoid_rewrite <- list_elem_of_In.
  split; [intros (x & ? & ->)|]; eauto.
Qed.

Lemma dm_cmd verb dm : verb ∈ allowedSvcVerbs -> dm ∈ knownDisplayManagers -> allowed_cmd [verb; dm].
Proof. intros Hv Hd. right. left. exists verb, dm. split; [set_solver|]. auto. Qed.
Lemma unit_cmd verb u : verb ∈ allowedSvcVerbs -> obacht_unit u -> allowed_cmd [verb; u].
Proof. intros Hv Hd. right. left. exists verb, u. split; [set_solver|]. auto. Qed.

Lemma verb_in v : existsb (String.eqb v) allowedSvcVerbs = true -> v ∈ allowedSvcVerbs.
Proof. rewrite existsb_exists. setoid_rewrite String.eqb_eq. intros (x & Hx & ->). by apply list_elem_of_In. Qed.

#[export] Hint Extern 1 (_ ∈ allowedSvcVerbs) => apply verb_in; reflexivity : agent.
#[export] Hint Extern 1 (obacht_unit kioskUnitName) => apply svcUnitRe_obacht; reflexivity : agent.
#[export] Hint Resolve dm_cmd unit_cmd run_confined write_confined remove_confined : agent.

Lemma run__confined h argv r : allowed_cmd argv -> confined r (run_ h argv r).
Proof. apply run_confined. Qed.

Lemma two_runs h r dm v1 v2 : dm ∈ knownDisplayManagers -> v1 ∈ allowedSvcVerbs -> v2 ∈ allowedSvcVerbs ->
  confined r (run_ h [v2; dm] (run_ h [v1; dm] r)).
Proof. intros. etransitivity; apply run__confined; auto with agent. Qed.

Lemma snapshot_confined h r : confined r (snapshotAndStopDM h r).2.
Proof.
  unfold snapshotAndStopDM. destruct (recorded h r) as [n|] eqn:Hn.
  - cbn [snd]. set (dm := trim_space _). destruct (isKnownDM dm) eqn:Hk; [|reflexivity].
    apply isKnownDM_spec in Hk. by apply two_runs; auto with agent.
  - destruct (findDM_spec h knownDisplayManagers r) as (Hc & _ & _ & Hd); [done|].
    destruct (findDM h knownDisplayManagers r) as [active r1]. cbn [fst snd] in *.
    assert (Hw : confined r1 (atomicWriteRoot h kioskRestorePath (active +:+ str1 LF) r1).2).
    { apply write_confined. right. right. left. split; [done|]. right. by exists active. }
    destruct (atomicWriteRoot _ _ _ r1) as [[[]|] r2]; cbn [snd] in *; [|by etransitivity].
    case_bool_decide as Ha; [by etransitivity|]. transitivity r1; [done|]. transitivity r2; [done|].
    apply two_runs; auto with agent. apply elem_of_cons in Hd as [|]; done.
Qed.

Lemma restore_confined h r : confined r (restoreDM h r).2.
Proof.
  unfold restoreDM. destruct (recorded h r) as [[data|]|]; [|reflexivity..]. cbn [snd].
  assert (Hrm : forall r, confined r (removeIfThere h kioskRestorePath r).2).
  { intros r0. apply remove_confined. right. right. left. split; [done|]. by left. }
  destruct (isKnownDM (trim_space data)) eqn:Hk; [|apply Hrm].
  apply isKnownDM_spec in Hk. etransitivity; [|apply Hrm]. apply two_runs; auto with agent.
Qed.

(** Sequencing after a systemctl run. *)
Lemma then_run {A} h argv r (k : Z -> root -> A * root) :
  allowed_cmd argv -> (forall rc r', confined r r' -> confined r (k rc r').2) ->
  confined r (let '(rc, r') := runSystemctl h argv r in k rc r').2.
Proof. intros Ha Hk. apply Hk. by apply (run_confined h argv). Qed.

Lemma then_step {E A} (x : res E unit * root) r (f : E -> root -> A * root) (g : root -> A * root) :
  confined r x.2 -> (forall e r', confined r r' -> confined r (f e r').2) -> (forall r', confined r r' -> confined r (g r').2) ->
  confined r (match x with (Err e, r') => f e r' | (Ok _, r') => g r' end).2.
Proof. destruct x as [[[]|] r']; auto. Qed.

Lemma confined_run h argv r r' : confined r r' -> allowed_cmd argv -> confined r (runSystemctl h argv r').2.
Proof. intros Hc Ha. etransitivity; [exact Hc|]. by apply run_confined. Qed.

Lemma kioskEnable_confined h r : confined r (kioskEnable h r).2.
Proof.
  unfold kioskEnable. destruct (negb _); [reflexivity|].
  apply then_step; [unfold ensureKioskUser; repeat case_match; (split; [by left|by exists []])|done|].
  intros r1 H1. apply then_step; [etransitivity; [exact H1|apply snapshot_confined]|done|].
  intros r2 H2. apply then_step; [|done|].
  { etransitivity; [exact H2|]. apply write_confined. right. left. split; [done|by right]. }
  intros r3 H3. cbn [runSystemctl].
  assert (H4 : confined r (runSystemctl h ["daemon-reload"] r3).2) by (apply confined_run; [done|by left]).
  destruct (negb _); [exact H4|].
  assert (H5 : confined r (runSystemctl h ["enable"; kioskUnitName] (runSystemctl h ["daemon-reload"] r3).2).2)
    by (apply confined_run; auto with agent).
  destruct (negb _); [exact H5|].
  assert (H6 : confined r (runSystemctl h ["restart"; kioskUnitName]
    (runSystemctl h ["enable"; kioskUnitName] (runSystemctl h ["daemon-reload"] r3).2).2).2) by (apply confined_run; auto with agent).
  destruct (negb _); exact H6.
Qed.

Lemma kioskDisable_confined h r : confined r (kioskDisable h r).2.
Proof.
  unfold kioskDisable. cbv zeta.
  assert (H1 : confined r (run_ h ["disable"; "--now"; kioskUnitName] r)).
  { apply run__confined. right. right. exists kioskUnitName. auto with agent. }
  apply then_step; [|done|].
  - etransitivity; [exact H1|]. apply remove_confined. right. left. split; [done|by left].
  - intros r2 H2. etransitivity; [exact H2|]. etransitivity; [|apply restore_confined]. apply run__confined. by left.
Qed.

Lemma unitCmd_confined h args r : confined r (unitCmd h args r).2.
Proof.
  unfold unitCmd. destruct args as [|verb [|name [|]]]; try reflexivity.
  destruct (ValidateName name) as [[]|] eqn:Hname; [|reflexivity].
  assert (Hre : UnitNameRe name = true).
  { unfold ValidateName in Hname. apply guard_err_Ok in Hname. by apply negb_false_iff in Hname. }
  pose proof (UnitNameRe_obacht name Hre) as Hu. cbv zeta.
  case_bool_decide; [|case_bool_decide; [|reflexivity]].
  - destruct (readStagedUnit h name r) as [content|]; [|reflexivity].
    destruct (Validate name content) as [[]|] eqn:Hval; [|reflexivity].
    apply then_step; [|done|].
    + apply write_confined. right. right. right. exists name. split; [done|]. split; [done|]. right. by exists content.
    + intros r1 H1. cbn [runSystemctl].
      assert (H2 : confined r (runSystemctl h ["daemon-reload"] r1).2) by (apply confined_run; [done|by left]).
      destruct (negb _); [exact H2|].
      assert (H3 : confined r (runSystemctl h ["enable"; name] (runSystemctl h ["daemon-reload"] r1).2).2)
        by (apply confined_run; auto with agent).
      destruct (negb _); exact H3.
  - apply then_step; [|done|].
    + transitivity (run_ h ["disable"; "--now"; name] r).
      * apply run__confined. right. right. by exists name.
      * apply remove_confined. right. right. right. exists name. split; [done|]. split; [done|by left].
    + intros r1 H1. cbn [runSystemctl].
      assert (H2 : confined r (runSystemctl h ["daemon-reload"] r1).2) by (apply confined_run; [done|by left]).
      destruct (negb _); exact H2.
Qed.

Lemma svc_confined h args r : confined r (svc h args r).2.
Proof.
  unfold svc. destruct args as [|verb [|u [|]]]; try reflexivity.
  destruct (inb verb allowedSvcVerbs) eqn:Hv; [|reflexivity]. cbn [negb]. destruct (svcUnitRe u) eqn:Hu; [|reflexivity].
  apply run_confined, unit_cmd; [|by apply svcUnitRe_obacht]. unfold inb in Hv. by apply bool_decide_eq_true in Hv.
Qed.

Lemma main_confined h args r : confined r (main h args r).2.
Proof.
  unfold main. destruct args as [|cmd rest]; [reflexivity|]. cbv zeta.
  assert (Hs : allowed_file sudoersPath (Some (Reg powerSudoersContent))) by (left; split; [done|by right]).
  destruct (inb cmd _); [reflexivity|]. destruct (euid_root h) eqn:Hroot; [|repeat (case_bool_decide; [reflexivity|]); reflexivity].
  case_bool_decide; [|case_bool_decide; [|case_bool_decide; [|case_bool_decide; [|case_bool_decide; [|by case_bool_decide]]]]].
  - unfold exit_of, enable. destruct (negb _); [reflexivity|]. destruct (negb _); [reflexivity|]. cbn [snd].
    pose proof (write_confined h sudoersPath powerSudoersContent r Hs) as Hw. split; [|by exists []].
    intros q. cbn. destruct (decide (q = sudoersPath)) as [->|Hne]; [right; by rewrite lookup_insert_eq|left; by rewrite lookup_insert_ne].
  - apply (remove_confined h sudoersPath). left. split; [done|by left].
  - apply svc_confined.
  - apply unitCmd_confined.
  - unfold kioskCmd. destruct rest as [|verb [|]]; try reflexivity.
    case_bool_decide; [apply kioskEnable_confined|]. case_bool_decide; [apply kioskDisable_confined|reflexivity].
Qed.

(** C4: The privilege boundary holds for a fully compromised caller: whatever
    arguments the helper is run with, whatever the staging directory contains
    and however the machine responds, the only files that change are the fixed
    sudoers fragment, the fixed kiosk unit, the display-manager record, and
    units with the agent's name pattern whose content satisfies the unit
    policy; and the only commands that run name the agent's own units or a
    known display manager. *)
Theorem helper_confined h args r :
  confined r (main h args r).2.
Proof. apply main_confined. Qed.

(** ** Kiosk round trip *)

(** Writing the record or the unit leaves other files alone. *)
Lemma write_lookup h p q d r : q <> p -> files (atomicWriteRoot h p d r).2 !! q = files r !! q.
Proof. intros Hne. unfold atomicWriteRoot. destruct (write_ok h p); [|done]. cbn. by rewrite lookup_insert_ne. Qed.

Lemma user_files h r : files (ensureKioskUser h r).2 = files r.
Proof. unfold ensureKioskUser. by repeat case_match. Qed.

Lemma kioskEnable_tail h r1 q : q <> kioskUnitPath ->
  files (match atomicWriteRoot h kioskUnitPath kioskUnitContent r1 with
         | (Err e, r) => (Err e : res helper_error unit, r)
         | (Ok _, r) =>
              let '(rc, r) := runSystemctl h ["daemon-reload"] r in
              if negb (rc =? 0)%Z then (Err (Failed "daemon-reload failed"), r) else
              let '(rc, r) := runSystemctl h ["enable"; kioskUnitName] r in
              if negb (rc =? 0)%Z then (Err (Failed "enable failed"), r) else
              let '(rc, r) := runSystemctl h ["restart"; kioskUnitName] r in
              if negb (rc =? 0)%Z then (Err (Failed "start failed"), r) else (Ok tt, r)
         end).2 !! q = files r1 !! q.
Proof.
  intros Hq. pose proof (write_lookup h kioskUnitPath q kioskUnitContent r1 Hq) as Hw.
  destruct (atomicWriteRoot _ _ _ r1) as [[[]|] r2]; [|done]. cbn [runSystemctl].
  destruct (negb _); [exact Hw|]. destruct (negb _); [exact Hw|]. destruct (negb _); exact Hw.
Qed.

Lemma snapshot_keeps h r d : files r !! kioskRestorePath = Some (Reg d) ->
  exists r', snapshotAndStopDM h r = (Ok tt, r') /\ files r' = files r.
Proof. intros Hn. unfold snapshotAndStopDM, recorded. rewrite Hn. eexists. split; [done|]. by destruct (isKnownDM _). Qed.

(** Enabling again keeps the first record. *)
Lemma kioskEnable_keeps h r d : files r !! kioskRestorePath = Some (Reg d) -> files (kioskEnable h r).2 !! kioskRestorePath = Some (Reg d).
Proof.
  intros Hn. unfold kioskEnable. destruct (negb _); [done|]. pose proof (user_files h r) as Hu.
  destruct (ensureKioskUser h r) as [[[]|] r0]; cbn [snd] in Hu; rewrite <- Hu in Hn; [|exact Hn].
  destruct (snapshot_keeps h r0 d Hn) as (r1 & -> & Hf). rewrite kioskEnable_tail by done. by rewrite Hf.
Qed.

Lemma kioskEnable_records h r : files r !! kioskRestorePath = None -> is_ok (kioskEnable h r).1 = true ->
  files (kioskEnable h r).2 !! kioskRestorePath = Some (Reg ((findDM h knownDisplayManagers (ensureKioskUser h r).2).1 +:+ str1 LF)).
Proof.
  intros Hn. unfold kioskEnable. destruct (negb _); [done|]. pose proof (user_files h r) as Hu.
  destruct (ensureKioskUser h r) as [[[]|] r0]; cbn [snd] in *; [|done]. rewrite <- Hu in Hn.
  unfold snapshotAndStopDM, recorded. rewrite Hn. destruct (findDM h knownDisplayManagers r0) as [dm r1]. cbn [fst].
  unfold atomicWriteRoot at 1 3. destruct (write_ok h kioskRestorePath); [|done]. cbv iota. intros _.
  rewrite kioskEnable_tail by done. set (r2 := set_files _ _).
  transitivity (files r2 !! kioskRestorePath); [by destruct (bool_decide _)|]. cbn. by rewrite lookup_insert_eq.
Qed.

Lemma known_trim dm : dm ∈ "none" :: knownDisplayManagers ->
  trim_space (dm +:+ str1 LF) = dm /\ isKnownDM dm = negb (bool_decide (dm = "none")).
Proof. unfold knownDisplayManagers. rewrite !elem_of_cons, elem_of_nil. intros [->|[->|[->|[->|[->|[->|[]]]]]]]; by split. Qed.

Lemma remove_spec h p r : remove_ok h p = true ->
  exists r', removeIfThere h p r = (Ok tt, r') /\ ran r' = ran r /\ files r' !! p = None /\ forall q, q <> p -> files r' !! q = files r !! q.
Proof.
  intros Hok. unfold removeIfThere. destruct (files r !! p) eqn:Hp; [|by exists r].
  rewrite Hok. eexists. split; [done|]. cbn. split; [done|]. split; [by rewrite lookup_delete_eq|]. intros q Hq. by rewrite lookup_delete_ne.
Qed.

(** Kiosk mode is undone exactly: after a first successful `kiosk enable`,
    any number of further enables (successful or not) keep the record of the
    display manager found first, and `kiosk disable` then succeeds, removes
    the kiosk unit and the record, and its last commands enable and start that
    very display manager again; when none was enabled, it starts nothing. *)
Theorem kiosk_roundtrip h r r1 r2 dm :
  files r !! kioskRestorePath = None ->
  kioskEnable h r = (Ok tt, r1) ->
  dm = (findDM h knownDisplayManagers (ensureKioskUser h r).2).1 ->
  rtc (fun a b => b = (kioskEnable h a).2) r1 r2 ->
  remove_ok h kioskUnitPath = true -> remove_ok h kioskRestorePath = true ->
  exists r3, kioskDisable h r2 = (Ok tt, r3) /\
    files r3 !! kioskUnitPath = None /\ files r3 !! kioskRestorePath = None /\
    ran r3 = (if bool_decide (dm = "none") then [] else [["start"; dm]; ["enable"; dm]]) ++
             [["daemon-reload"]; ["disable"; "--now"; kioskUnitName]] ++ ran r2.
Proof.
  intros Hn He Hdm Hre Hu Hr.
  assert (Hrec : files r1 !! kioskRestorePath = Some (Reg (dm +:+ str1 LF))).
  { rewrite Hdm. replace r1 with (kioskEnable h r).2 by by rewrite He. apply kioskEnable_records; [done|]. by rewrite He. }
  assert (Hrec2 : files r2 !! kioskRestorePath = Some (Reg (dm +:+ str1 LF))).
  { clear -Hre Hrec. induction Hre as [|a b c -> _ IH]; [done|]. apply IH. by apply kioskEnable_keeps. }
  assert (Hin : dm ∈ "none" :: knownDisplayManagers) by (rewrite Hdm; by apply findDM_spec).
  destruct (known_trim dm Hin) as [Htr Hk]. unfold kioskDisable. cbv zeta.
  destruct (remove_spec h kioskUnitPath (run_ h ["disable"; "--now"; kioskUnitName] r2) Hu) as (r4 & -> & Hran & Hg & Hf).
  unfold restoreDM, recorded. change (files (run_ h ["daemon-reload"] r4)) with (files r4). rewrite (Hf kioskRestorePath) by done.
  change (files (run_ h _ r2)) with (files r2). rewrite Hrec2. cbv zeta. rewrite Htr, Hk.
  destruct (bool_decide (dm = "none")); cbn [negb].
  - destruct (remove_spec h kioskRestorePath (run_ h ["daemon-reload"] r4) Hr) as (r5 & -> & Hran5 & Hg5 & Hf5). exists r5.
    split; [done|]. split; [by rewrite Hf5|]. split; [done|]. rewrite Hran5. cbn. by rewrite Hran.
  - destruct (remove_spec h kioskRestorePath (run_ h ["start"; dm] (run_ h ["enable"; dm] (run_ h ["daemon-reload"] r4))) Hr)
      as (r5 & -> & Hran5 & Hg5 & Hf5). exists r5.
    split; [done|]. split; [by rewrite Hf5|]. split; [done|]. rewrite Hran5. cbn. by rewrite Hran.
Qed.

(** A desktop with gdm3 enabled. *)
Definition demo_host : host := MkHost true
  (fun _ argv => if decide (argv = ["is-enabled"; "lightdm.service"]) then 1%Z else 0%Z)
  (fun _ => true) (fun _ => true) (fun _ => "") true (fun _ => Some None) true true true.
Definition demo_root : root := MkRoot ∅ [] false.

Definition demo_first : root := (kioskEnable demo_host demo_root).2.
Definition demo_again : root := (kioskEnable demo_host demo_first).2.

Lemma kiosk_roundtrip_witness :
  exists r3, kioskDisable demo_host demo_again = (Ok tt, r3) /\ files r3 !! kioskRestorePath = None /\
    take 2 (ran r3) = [["start"; "gdm3"]; ["enable"; "gdm3"]].
Proof.
  assert (He : kioskEnable demo_host demo_root = (Ok tt, demo_first)) by (vm_compute; reflexivity).
  assert (Hd : "gdm3" = (findDM demo_host knownDisplayManagers (ensureKioskUser demo_host demo_root).2).1) by (vm_compute; reflexivity).
  destruct (kiosk_roundtrip demo_host demo_root demo_first demo_again "gdm3") as (r3 & H3 & _ & Hf & Hran).
  - reflexivity.
  - exact He.
  - exact Hd.
  - by apply rtc_once.
  - reflexivity.
  - reflexivity.
  - exists r3. split; [done|]. split; [done|]. by rewrite Hran.
Defined.
