(* ===== verification/JsonDec.v ===== *)
(** * Decoding JSON into Go structs

    encoding/json's Unmarshal for the shapes the runtime specs use: structs,
    slices, string maps and pointers, built from the scalar decoders of Json.
    A decoder takes the current value of its target, because a member that
    occurs again is decoded into what the first one left; the second component
    says whether an error was met (Unmarshal goes on and reports it at the
    end).  A slice that shrinks and grows again within one text (a member
    occurring three times) would revive old elements; here they are zero. *)

From S2P Require Import Prelude GoStrings Codec Utf8 Json.

Definition decoder (A : Type) : Type := json -> A -> A * bool.

(** One field: its name and how it is decoded into the struct. *)
Definition field_dec (A : Type) : Type := string * decoder A.
Definition fld {A B} (name : string) (dec : decoder B) (get : A -> B) (set : B -> A -> A) : field_dec A :=
  (name, fun j a => let '(b, e) := dec j (get a) in (set b a, e)).

Definition dec_struct {A} (fs : list (field_dec A)) : decoder A := fun j cur =>
  match j with
  | JObj ms => fold_left (fun '(cur, e) '(k, v) =>
      match List.find (fun f => names_field f.1 k) fs with
      | Some f => let '(cur, e') := f.2 v cur in (cur, e || e')
      | None => (cur, e)
      end) ms (cur, false)
  | JNull => (cur, false)
  | _ => (cur, true)
  end.

(** A slice: elements are decoded over the ones already there. *)
Fixpoint dec_items {A} (dec : decoder A) (zero : A) (js : list json) (cur : list A) : list A * bool :=
  match js with
  | [] => ([], false)
  | j :: js =>
      let '(a, e) := dec j (default zero (head cur)) in
      let '(l, e') := dec_items dec zero js (tail cur) in (a :: l, e || e')
  end.
(** A slice is [None] when it is nil. *)
Definition slice (A : Type) : Type := option (list A).
Definition elems {A} (s : slice A) : list A := default [] s.
Definition dec_slice {A} (dec : decoder A) (zero : A) : decoder (slice A) := fun j cur =>
  match j with
  | JArr js => let '(l, e) := dec_items dec zero js (elems cur) in (Some l, e)
  | JNull => (None, false)
  | _ => (cur, true)
  end.

(** A [map[string]string]: every value is decoded into an empty string. *)
Definition dec_str_map : decoder (gmap string string) := fun j cur =>
  match j with
  | JObj ms => fold_left (fun '(m, e) '(k, v) => let '(s, e') := dec_string v "" in (<[k := s]> m, e || e')) ms (cur, false)
  | JNull => (∅, false)
  | _ => (cur, true)
  end.

(** A pointer: [null] makes it nil, another value is decoded into the target,
    which is allocated when there is none. *)
Definition dec_ptr {A} (dec : decoder A) (zero : A) : decoder (option A) := fun j cur =>
  match j with
  | JNull => (None, false)
  | _ => let '(a, e) := dec j (default zero cur) in (Some a, e)
  end.

(** [json.Unmarshal] into a zero value. *)
Definition unmarshal {A} (dec : decoder A) (zero : A) (s : string) : option A :=
  match json_parse s with
  | None => None
  | Some j => let '(a, e) := dec j zero in if e then None else Some a
  end.

(** ** Facts *)

(** A member whose name is distinct from all others decides its field. *)
Lemma dec_struct_nil {A} (fs : list (field_dec A)) cur : dec_struct fs (JObj []) cur = (cur, false).
Proof. done. Qed.

Lemma dec_items_strings ss : dec_items dec_string "" (map JStr ss) [] = (ss, false).
Proof. induction ss as [|s ss IH]; [done|]. cbn. by rewrite IH. Qed.
