(* ===== verification/ReadinessConfig.v ===== *)
(** * Readiness configuration: internal/readiness/config.go

    The per-service probe configuration, its validation and the decision when
    an HTTP status counts as an answer. *)

From S2P Require Import Prelude GoStrings Json JsonDec.

Definition StateStarting : string := "starting".
Definition StateReady : string := "ready".
Definition StateUnhealthy : string := "unhealthy".

Definition DefaultPath : string := "/".
Definition DefaultTimeoutSeconds : Z := 300.
Definition MinTimeoutSeconds : Z := 10.
Definition MaxTimeoutSeconds : Z := 1800.

Record Config := MkConfig {
  Path : string;
  ExpectStatus : list Z;
  TimeoutSeconds : Z
}.

Inductive config_error : Type :=
| PathNotAbsolute | PathIsURL | PathControl
| StatusRange (s : Z) | TimeoutRange (t : Z).

(** Its JSON form. *)
Definition dec_Config : decoder Config := dec_struct
  [fld "path" dec_string Path (fun v c => MkConfig v (ExpectStatus c) (TimeoutSeconds c));
   fld "expectStatus" (dec_slice dec_int 0%Z) (fun c => Some (ExpectStatus c)) (fun v c => MkConfig (Path c) (elems v) (TimeoutSeconds c));
   fld "timeoutSeconds" dec_int TimeoutSeconds (fun v c => MkConfig (Path c) (ExpectStatus c) v)].
Definition zero_Config : Config := MkConfig "" [] 0.

(** A nil [*Config] is [None]. *)
Definition Validate (c : option Config) : res config_error unit :=
  match c with
  | None => Ok tt
  | Some c =>
      (if bool_decide (Path c = "") then Ok tt else
         guard_err (negb (has_prefix (Path c) "/")) PathNotAbsolute ;;!
         guard_err (contains (Path c) "://") PathIsURL ;;!
         guard_err (contains_any (Path c) (String " " (String TAB (String NUL (String LF (str1 CR))))))
           PathControl) ;;!
      for_each (fun s => guard_err ((s <? 100) || (599 <? s))%Z (StatusRange s)) (ExpectStatus c) ;;!
      guard_err (negb (TimeoutSeconds c =? 0)%Z &&
                 ((TimeoutSeconds c <? MinTimeoutSeconds) || (MaxTimeoutSeconds <? TimeoutSeconds c))%Z)
        (TimeoutRange (TimeoutSeconds c))
  end.

Definition path (c : option Config) : string :=
  match c with
  | Some c => if bool_decide (Path c = "") then DefaultPath else Path c
  | None => DefaultPath
  end.

(** In seconds; the code multiplies by [time.Second]. *)
Definition timeout (c : option Config) : Z :=
  match c with
  | Some c => if (TimeoutSeconds c =? 0)%Z then DefaultTimeoutSeconds else TimeoutSeconds c
  | None => DefaultTimeoutSeconds
  end.

Definition accepts (c : option Config) (status : Z) : bool :=
  match ExpectStatus <$> c with
  | Some ((_ :: _) as codes) => existsb (fun s => (s =? status)%Z) codes
  | _ => ((200 <=? status) && (status <=? 399))%Z || (status =? 401)%Z || (status =? 403)%Z
  end.

Definition joinPath (prefix p : string) : string :=
  if bool_decide (prefix = "") then p else trim_suffix prefix "/" +:+ p.

(** A configuration that passed validation bounds the starting phase. *)
Lemma timeout_bounds c :
  Validate c = Ok tt -> (MinTimeoutSeconds <= timeout c <= MaxTimeoutSeconds)%Z.
Proof.
  destruct c as [c|]; [|done]. unfold Validate, timeout.
  rewrite seq_Ok, for_each_seq_Ok, guard_err_Ok, andb_false_iff, negb_false_iff.
  intros (_ & _ & Ht). destruct (Z.eqb_spec (TimeoutSeconds c) 0); [done|].
  destruct Ht as [?|Ht]; [done|]. apply orb_false_iff in Ht as [?%Z.ltb_ge ?%Z.ltb_ge]. lia.
Qed.

(** The probe path of a validated configuration is absolute. *)
Lemma path_absolute c : Validate c = Ok tt -> has_prefix (path c) "/" = true.
Proof.
  destruct c as [c|]; [|done]. unfold Validate, path. case_bool_decide; [done|].
  rewrite seq_Ok, guard_seq_Ok, negb_false_iff. tauto.
Qed.
