(* ===== verification/Materialize.v ===== *)
(** * From a manifest to a stored configuration: internal/manifest

    [Materialize] turns the document of a manifest and the values the user
    entered into the JSON configuration of a runtime driver;
    [BuildInstanceConfig] checks that nothing is left open and adds the user's
    input.  The YAML library is a parameter: [yaml_load] reads a document into
    a map (non-string keys already printed, as [normaliseMap] does), and
    [yaml_string], [yaml_map], [yaml_schema] read single fields into structs. *)

From S2P Require Import Prelude GoStrings Codec Utf8 Json JsonEnc GoAny Placeholders ReadinessConfig Secrets.

Inductive mat_error : Type :=
| ManifestParse | MissingSpec | MissingRuntime | MissingContainer | ImageRequired
| MissingSystem | FreeFormWithdrawn | ControlCharacter | NoFlavor | ManyFlavors
| MissingCompose | MissingBody | MissingPrimaryService | MissingPrimaryPort
| UnsupportedRuntime (t : string) | UnsetValues (keys : list string) | SelfCheck.

(** ** Pieces of JSON output; [omit*] leave out the zero value *)
Definition jnum (z : Z) : json := JNum (itoa z).
Definition jmap (ms : list (string * json)) : json := JObj (by_name ms).
Definition jstrs (ms : list (string * string)) : json := jmap (map (fun p => (p.1, JStr p.2)) ms).
Definition omit_str (k v : string) : list (string * json) := if bool_decide (v = "") then [] else [(k, JStr v)].
Definition omit_int (k : string) (z : Z) : list (string * json) := if (z =? 0)%Z then [] else [(k, jnum z)].
Definition omit_bool (k : string) (b : bool) : list (string * json) := if b then [(k, JBool true)] else [].
Definition omit_list (k : string) (l : list json) : list (string * json) := match l with [] => [] | _ => [(k, JArr l)] end.
Definition omit_map (k : string) (m : list (string * string)) : list (string * json) := match m with [] => [] | _ => [(k, jstrs m)] end.
Definition omit_opt (k : string) (o : option json) : list (string * json) := match o with Some j => [(k, j)] | None => [] end.

Definition matReadiness (v : any) : option Config :=
  match v with
  | AMap ((_ :: _) as rm) =>
      Some (MkConfig (toString (get "path" rm)) (map toInt (default [] (as_list (get "expectStatus" rm))))
              (toInt (get "timeoutSeconds" rm)))
  | _ => None
  end.

Definition readiness_json (c : Config) : json :=
  JObj (omit_str "path" (Path c) ++ omit_list "expectStatus" (map jnum (ExpectStatus c)) ++
        omit_int "timeoutSeconds" (TimeoutSeconds c)).

(** A Go map of strings filled from a map of values. *)
Definition str_map (f : any -> string) (m : amap) : list (string * string) := map (fun p => (p.1, f p.2)) m.

(** ** Defaults *)
Definition default_step (cfg : amap) (em : amap) : amap :=
  let key := toString (get "key" em) in
  if bool_decide (key = "") then cfg
  else match assoc key cfg, assoc "default" em with
       | None, Some def => assoc_set key def cfg
       | _, _ => cfg
       end.
Definition applyConfigSchemaDefaults (spec userConfig : amap) : amap :=
  fold_left default_step (maps_of (get "configSchema" spec)) userConfig.

Definition disk_step (userConfig : amap) (required : Z) (em : amap) : Z :=
  if negb (bool_decide (toString (get "type" em) = "select")) then required else
  match as_map (get "optionRequirements" em), assoc (toString (get "key" em)) userConfig with
  | Some reqs, Some chosen =>
      match as_map (get (toString chosen) reqs) with
      | Some entry => let n := toInt (get "minDiskMb" entry) in if (required <? n)%Z then n else required
      | None => required
      end
  | _, _ => required
  end.
(** The floor of the template. *)
Definition disk_floor (spec : amap) : Z :=
  match as_map (get "compatibility" spec) with
  | Some compat => match as_map (get "resources" compat) with
                   | Some res => toInt (get "minDiskMb" res)
                   | None => 0
                   end
  | None => 0
  end.
Definition requiredDiskMb (spec userConfig : amap) : Z :=
  fold_left (disk_step userConfig) (maps_of (get "configSchema" spec)) (disk_floor spec).

(** ** Secrets *)
Record matSecretField := MkSecretField { F_Key : string; F_Length : Z; F_Charset : string }.
Definition secret_fields (spec : amap) : list matSecretField :=
  omap (fun em =>
    let k := toString (get "key" em) in
    if bool_decide (k = "") then None
    else let n := toInt (get "length" em) in
         Some (MkSecretField k (if (n =? 0)%Z then 32 else n) (toString (get "charset" em))))
    (maps_of (get "secretsSchema" spec)).
Definition secret_json (f : matSecretField) : json :=
  JObj ([("key", JStr (F_Key f)); ("length", jnum (F_Length f))] ++ omit_str "charset" (F_Charset f)).

Section materialize.
Context (environ : string -> option string).
Notation subst s v := (subst_string environ s v).

(** ** Containers *)

(** The [KEY=value] list form of the environment; later entries win. *)
Definition env_item (s : substituter) (m : list (string * string)) (item : any) : list (string * string) :=
  match item with
  | AStr e => match cut e "=" with
              | Some (k, v) => if bool_decide (k = "") then m else assoc_set k (subst s v) m
              | None => m
              end
  | _ => m
  end.
Definition container_env (s : substituter) (v : any) : list (string * string) :=
  match v with
  | AMap m => str_map (fun v => subst s (toString v)) m
  | AList l => fold_left (env_item s) l []
  | _ => []
  end.

Definition materializeContainer (spec runtime userConfig : amap) (instanceID templateID : string) : res mat_error json :=
  match as_map (get "container" runtime) with
  | None => Err MissingContainer
  | Some container =>
      let s := MkSubst userConfig instanceID templateID in
      let image := match get "image" container with AStr v => subst s v | _ => "" end in
      if bool_decide (image = "") then Err ImageRequired else
      let network := match get "network" container with AStr v => subst s v | _ => "" end in
      let port p := JObj [("host", jnum (toInt (get "host" p))); ("container", jnum (toInt (get "container" p)))] in
      let vol v := JObj ([("source", JStr (subst s (toString (get "source" v))));
                          ("target", JStr (subst s (toString (get "target" v))))] ++
                         omit_bool "readOnly" (toBool (get "readOnly" v))) in
      let svc m := JObj ([("name", JStr (toString (get "name" m)))] ++ omit_str "targetType" (toString (get "targetType" m)) ++
                         [("targetPort", jnum (toInt (get "targetPort" m)))] ++ omit_str "appPath" (toString (get "appPath" m)) ++
                         omit_opt "readiness" (readiness_json <$> matReadiness (get "readiness" m))) in
      Ok (JObj ([("image", JStr image)] ++
        omit_map "env" (container_env s (get "env" container)) ++
        omit_list "ports" (map port (maps_of (get "ports" container))) ++
        omit_list "volumes" (map vol (maps_of (get "volumes" container))) ++
        omit_str "network" network ++
        omit_list "cmd" (map (fun v => JStr (subst s (toString v))) (default [] (as_list (get "cmd" container)))) ++
        omit_map "labels" (str_map (fun v => subst s (toString v)) (default [] (as_map (get "labels" container)))) ++
        omit_list "services" (map svc (maps_of (get "services" spec))) ++
        omit_list "secretsSchema" (map secret_json (secret_fields spec)) ++
        omit_int "min_disk_mb" (requiredDiskMb spec userConfig)))
  end.

(** ** System services *)
Definition materializeSystemServices (spec : amap) : option json :=
  match as_list (get "services" spec) with
  | Some (_ :: _) =>
      Some (JArr (map (fun m =>
        jmap ([("name", JStr (toString (get "name" m))); ("target_type", JStr (toString (get "targetType" m)));
               ("target_port", jnum (toInt (get "targetPort" m)))] ++ omit_str "app_path" (toString (get "appPath" m)) ++
              omit_opt "readiness" (readiness_json <$> matReadiness (get "readiness" m)))) (maps_of (get "services" spec))))
  | _ => None
  end.

Definition materializeSystemFiles (sysBlock : amap) (s : substituter) : option json :=
  match as_list (get "files" sysBlock) with
  | Some (_ :: _) =>
      Some (JArr (map (fun f =>
        jmap ([("path", JStr (subst s (toString (get "path" f)))); ("content", JStr (subst s (toString (get "content" f))))] ++
              omit_str "mode" (toString (get "mode" f)))) (maps_of (get "files" sysBlock))))
  | _ => None
  end.

(** A user value the system flavors refuse. *)
Definition control_value (v : any) : bool :=
  match v with AStr s => contains_any s (String NUL (String LF (str1 CR))) | _ => false end.

Definition scalar_fields : list string := ["kind"; "binary"; "binary_url"; "binary_digest"; "archive"; "data_dir"].

(** The fields both service flavors share. *)
Definition service_fields (s : substituter) (src : amap) : list (string * json) :=
  omap (fun k => match get k src with
                 | AStr v => if bool_decide (v = "") then None else Some (k, JStr (subst s v))
                 | _ => None
                 end) scalar_fields ++
  omit_opt "args" ((fun l => JArr (map (fun a => JStr (subst s (toString a))) l)) <$> as_list (get "args" src)) ++
  omit_opt "env" ((fun m => jstrs (str_map (fun v => subst s (toString v)) m)) <$> as_map (get "env" src)).

Definition post_start_hook (s : substituter) (h : any) : option json :=
  match as_map (get "http" (default [] (as_map h))) with
  | None => None
  | Some http =>
      Some (jmap [("http", jmap ([("method", JStr (toString (get "method" http))); ("url", JStr (subst s (toString (get "url" http))))] ++
        omit_str "body" (subst s (toString (get "body" http))) ++
        omit_str "contentType" (toString (get "contentType" http)) ++
        omit_int "timeoutSeconds" (toInt (get "timeoutSeconds" http))))])
  end.

Definition hardware_fields (hw : amap) : json :=
  let strs k := (fun l => JArr (map (fun v => JStr (toString v)) l)) <$> as_list (get k hw) in
  jmap (omit_opt "groups" (strs "groups") ++ omit_opt "devices" (strs "devices")).

Definition flavors (sysBlock : amap) : list bool :=
  [bool_decide (is_Some (as_map (get "host_service" sysBlock)));
   bool_decide (is_Some (as_map (get "managed_service" sysBlock)));
   bool_decide (is_Some (assoc "kiosk" sysBlock))].

Definition materializeSystem (spec runtime userConfig : amap) (instanceID templateID : string) : res mat_error json :=
  match as_map (get "system" runtime) with
  | None => Err MissingSystem
  | Some sysBlock =>
      if bool_decide (is_Some (assoc "unitTemplate" sysBlock)) then Err FreeFormWithdrawn else
      if existsb (fun p => control_value p.2) userConfig then Err ControlCharacter else
      let s := MkSubst userConfig instanceID templateID in
      let flavorCount := length (filter (fun b => b = true) (flavors sysBlock)) in
      if (flavorCount =? 0)%nat then Err NoFlavor else
      if (1 <? flavorCount)%nat then Err ManyFlavors else
      let files := omit_opt "files" (materializeSystemFiles sysBlock s) in
      let group := omit_str "exclusivity_group" (toString (get "exclusivityGroup" spec)) in
      let services := omit_opt "services" (materializeSystemServices spec) in
      match as_map (get "host_service" sysBlock), as_map (get "managed_service" sysBlock) with
      | Some hs, _ =>
          let hooks := omit_list "post_start" (omap (post_start_hook s) (default [] (as_list (get "post_start" hs)))) in
          Ok (jmap ([("host_service", jmap (service_fields s hs ++ hooks))] ++ services))
      | None, Some ms =>
          let hw := omit_opt "hardware" (hardware_fields <$> as_map (get "hardware" ms)) in
          let ports := omit_opt "listen_ports" ((fun l => JArr (map (fun p => jnum (toInt p)) l)) <$> as_list (get "listen_ports" ms)) in
          Ok (jmap ([("managed_service", jmap (service_fields s ms ++ hw ++ ports))] ++ files ++ group ++ services))
      | None, None => Ok (jmap ([("kiosk", jmap [])] ++ files ++ group))
      end
  end.

(** ** Compose bundles *)
Definition materializeCompose (spec runtime userConfig : amap) (instanceID templateID : string) : res mat_error json :=
  match as_map (get "compose" runtime) with
  | None => Err MissingCompose
  | Some block =>
      let body := toString (get "body" block) in
      if bool_decide (trim_space body = "") then Err MissingBody else
      let cfgFlat := str_map toString userConfig in
      let primaryService := resolveCfgPlaceholders (toString (get "primaryService" block)) cfgFlat in
      if bool_decide (primaryService = "") then Err MissingPrimaryService else
      let primaryPort := toInt (AStr (resolveCfgPlaceholders (toString (get "primaryPort" block)) cfgFlat)) in
      if (primaryPort =? 0)%Z then Err MissingPrimaryPort else
      let envKey := toString (get "envConfigKey" block) in
      let envFile := if bool_decide (envKey = "") then "" else default "" (assoc envKey cfgFlat) in
      let s := MkSubst userConfig instanceID templateID in
      let svc m :=
        let t := toString (get "targetService" m) in
        JObj ([("name", JStr (toString (get "name" m)));
               ("targetService", JStr (if bool_decide (t = "") then primaryService else resolveCfgPlaceholders t cfgFlat));
               ("targetPort", jnum (toInt (AStr (resolveCfgPlaceholders (toString (get "targetPort" m)) cfgFlat))))] ++
              omit_str "appPath" (toString (get "appPath" m)) ++
              omit_opt "readiness" (readiness_json <$> matReadiness (get "readiness" m))) in
      let secretEnvKeys := filter (fun k => k <> "") (map toString (default [] (as_list (get "secrets" spec)))) in
      Ok (JObj ([("compose_body", JStr (substWithoutCfgSecret environ s body));
                 ("primary_service", JStr primaryService); ("primary_port", jnum primaryPort)] ++
        omit_map "image_digests" (str_map toString (default [] (as_map (get "imageDigests" block)))) ++
        omit_list "secrets_schema" (map secret_json (secret_fields spec)) ++
        omit_list "services" (map svc (maps_of (get "services" spec))) ++
        omit_map "config" cfgFlat ++
        omit_list "secret_env_keys" (map JStr secretEnvKeys) ++
        omit_bool "allow_unpinned_images" (toBool (get "allowUnpinnedImages" block)) ++
        omit_str "env_file" envFile ++
        omit_int "min_disk_mb" (requiredDiskMb spec userConfig)))
  end.

Context (yaml_load : string -> option amap).

(** The result: runtime kind, JSON text, and the user configuration with the
    defaults [applyConfigSchemaDefaults] wrote into it. *)
Definition Materialize (manifest : string) (userConfig : amap) (instanceID templateID : string)
    : res mat_error (string * string * amap) :=
  match yaml_load manifest with
  | None => Err ManifestParse
  | Some raw =>
      match as_map (get "spec" raw) with
      | None => Err MissingSpec
      | Some spec =>
          match as_map (get "runtime" spec) with
          | None => Err MissingRuntime
          | Some runtime =>
              let userConfig := applyConfigSchemaDefaults spec userConfig in
              let t := toString (get "type" runtime) in
              let done kind r := rmap (fun cfg => (kind, render cfg, userConfig)) r in
              if bool_decide (t = "") || bool_decide (t = "container")
              then done "container" (materializeContainer spec runtime userConfig instanceID templateID)
              else if bool_decide (t = "compose")
              then done "compose" (materializeCompose spec runtime userConfig instanceID templateID)
              else if bool_decide (t = "system")
              then done "system" (materializeSystem spec runtime userConfig instanceID templateID)
              else Err (UnsupportedRuntime t)
          end
      end
  end.

(** ** verify.go: probes of single fields *)
Context (yaml_string : list string -> string -> option string).
Context (yaml_map : list string -> string -> option amap).
Context (yaml_schema : string -> option (list (string * string))).

Definition ExtractMinSudoLevel (m : string) : string := default "" (yaml_string ["spec"; "minSudoLevel"] m).
Definition ExtractVersion (m : string) : string := default "" (yaml_string ["metadata"; "version"] m).
Definition RuntimeType (m : string) : string := default "" (yaml_string ["spec"; "runtime"; "type"] m).
Definition nonempty_map (o : option amap) : bool := match o with Some (_ :: _) => true | _ => false end.
Definition HasHostService (m : string) : bool := nonempty_map (yaml_map ["spec"; "runtime"; "system"; "host_service"] m).
Definition HasManagedService (m : string) : bool := nonempty_map (yaml_map ["spec"; "runtime"; "system"; "managed_service"] m).
Definition HasKiosk (m : string) : bool :=
  match yaml_map ["spec"; "runtime"; "system"] m with Some s => bool_decide (is_Some (assoc "kiosk" s)) | None => false end.

(** [spec.configSchema] read as pairs of key and type. *)
Definition SecretConfigKeys (m : string) : list string :=
  omap (fun f => if bool_decide (f.2 = "secret") && negb (bool_decide (f.1 = "")) then Some f.1 else None)
    (default [] (yaml_schema m)).

(** ** instance.go *)
Record InstanceConfig := MkInstanceConfig { I_Runtime : string; I_Config : any; I_Version : string }.

Context (parse_float : string -> option gofloat).

(** The names nothing will resolve later. *)
Definition really_unset (kind : string) (u : string) : bool :=
  negb (has_prefix u "secret." || has_prefix u "host." || bool_decide (kind = "compose")).

Definition BuildInstanceConfig (manifest : string) (userConfig : amap) (instanceID templateID explicitVersion : string)
    : res mat_error InstanceConfig :=
  let! spec := Materialize manifest userConfig instanceID templateID in
  let '(kind, text, userConfig) := spec in
  match List.filter (really_unset kind) (FindUnresolvedPlaceholders text) with
  | _ :: _ as real => Err (UnsetValues real)
  | [] =>
      match json_any parse_float <$> json_parse text with
      | Some (asAny, false) =>
          let config := match asAny with
                        | AMap m => AMap (assoc_set SecretKeysMarker (AList (map AStr (SecretConfigKeys manifest)))
                                            (assoc_set "__input" (AMap userConfig) m))
                        | _ => asAny
                        end in
          let version := if bool_decide (explicitVersion = "") then ExtractVersion manifest else explicitVersion in
          Ok (MkInstanceConfig kind config (if bool_decide (version = "") then "unknown" else version))
      | _ => Err SelfCheck
      end
  end.
End materialize.

(** ** [DecodeBase64]: standard or URL alphabet, padded or not *)
Definition b64_raw (s : string) : option string :=
  let s := drop_breaks s in
  if mem_byte "=" s then None else
  match (slen s mod 4)%nat with
  | 0 => b64_groups s
  | 2 => b64_groups (s +:+ "==")
  | 3 => b64_groups (s +:+ "=")
  | _ => None
  end.
Fixpoint smap (f : ascii -> ascii) (s : string) : string :=
  match s with "" => "" | String a s' => String (f a) (smap f s') end.
Definition url_alphabet (s : string) : option string :=
  if mem_byte "+" s || mem_byte "/" s then None
  else Some (smap (fun c => if Ascii.eqb c "-" then "+"%char else if Ascii.eqb c "_" then "/"%char else c) s).

Definition DecodeBase64 (s : string) : option string :=
  let s := trim_space s in
  match b64_decode s, b64_raw s, url_alphabet s ≫= b64_decode with
  | Some b, _, _ => Some b
  | None, Some b, _ => Some b
  | None, None, Some b => Some b
  | None, None, None => url_alphabet s ≫= b64_raw
  end.
