(* ===== verification/MaterializeProps.v ===== *)
(** * Properties of materialised configurations

    No unset placeholder reaches a container or system configuration; the disk
    requirement is the largest that applies; the files of a system template
    keep their line structure; declared secrets stay masked in the echo of what
    is stored. *)

From S2P Require Import Prelude GoStrings Codec Utf8 Json JsonEnc Jcs JsonRound GoAny Placeholders ReadinessConfig Secrets Materialize.

(** ** Unset values *)
Section build.
Context (environ : string -> option string) (yaml_load : string -> option amap).
Context (yaml_string : list string -> string -> option string) (yaml_schema : string -> option (list (string * string))).
Context (parse_float : string -> option gofloat).
Notation Materialize := (Materialize environ yaml_load).
Notation Build := (BuildInstanceConfig environ yaml_load yaml_string yaml_schema parse_float).

(** A configuration that is built for a container or system template has
    no open value: wherever its text contains a placeholder, the name is one
    the agent itself resolves when it applies the configuration (a secret or a
    host fact). *)
Theorem BuildInstanceConfig_no_unset m uc iid tid ver cfg kind text uc' k x y :
  Materialize m uc iid tid = Ok (kind, text, uc') -> Build m uc iid tid ver = Ok cfg -> kind <> "compose" ->
  key_text k -> text = x +:+ placeholder k +:+ y ->
  has_prefix k "secret." = true \/ has_prefix k "host." = true.
Proof.
  intros Hm Hb Hkind Hk Hocc. unfold BuildInstanceConfig in Hb. rewrite Hm in Hb. cbn [rbind] in Hb.
  destruct (List.filter _ _) as [|u us] eqn:Hf; [|done].
  assert (Hin : k ∈ FindUnresolvedPlaceholders text) by (apply FindUnresolvedPlaceholders_occur; eauto).
  destruct (really_unset kind k) eqn:Hr.
  - exfalso. apply list_elem_of_In in Hin. assert (H : In k []) by (rewrite <- Hf; by apply filter_In). done.
  - unfold really_unset in Hr. rewrite negb_false_iff, !orb_true_iff, (bool_decide_eq_false_2 _ Hkind) in Hr. naive_solver.
Qed.
End build.

(** ** Disk requirement *)

(** The requirement of the option the user chose for a schema field. *)
Definition chosen_mb (uc em : amap) : option Z :=
  if bool_decide (toString (get "type" em) = "select") then
    reqs ← as_map (get "optionRequirements" em);
    chosen ← assoc (toString (get "key" em)) uc;
    entry ← as_map (get (toString chosen) reqs);
    Some (toInt (get "minDiskMb" entry))
  else None.

Lemma disk_step_max uc r em : disk_step uc r em = match chosen_mb uc em with Some n => Z.max r n | None => r end.
Proof.
  unfold disk_step, chosen_mb. case_bool_decide; cbn [negb]; [|done].
  destruct (as_map (get "optionRequirements" em)) as [reqs|]; cbn; [|done].
  destruct (assoc _ uc) as [c|]; cbn; [|done]. destruct (as_map (get (toString c) reqs)) as [e|]; cbn; [|done].
  destruct (Z.ltb_spec r (toInt (get "minDiskMb" e))); lia.
Qed.

(** The disk space an install requires is the least bound of the
    template's floor and of the requirement of every option the user chose. *)
Theorem requiredDiskMb_max spec uc z :
  (requiredDiskMb spec uc <= z)%Z <->
  (disk_floor spec <= z)%Z /\ forall em n, em ∈ maps_of (get "configSchema" spec) -> chosen_mb uc em = Some n -> (n <= z)%Z.
Proof.
  unfold requiredDiskMb. generalize (disk_floor spec) as r. generalize (maps_of (get "configSchema" spec)) as l.
  induction l as [|em l IH]; intros r; cbn [fold_left].
  - split; [intros H; split; [done|]; intros ? ? Hin; by apply elem_of_nil in Hin|naive_solver].
  - rewrite IH, disk_step_max. split.
    + intros [Hr Hl]. split; [destruct (chosen_mb uc em); lia|]. intros em' n Hin Hc.
      apply elem_of_cons in Hin as [->|Hin]; [rewrite Hc in Hr; lia|by eapply Hl].
    + intros [Hr Hl]. split; [destruct (chosen_mb uc em) as [n|] eqn:Hc; [|done]|intros; eapply Hl; [by right|done]].
      pose proof (Hl em n ltac:(left) Hc). lia.
Qed.

(** ** Lines of system files *)

(** A value whose text is one a system template accepts when it is a string. *)
Definition flat (v : any) : bool :=
  match v with ANull | ABool _ | AInt _ | AStr _ => true | AFloat f => f_whole f | _ => false end.

Lemma flat_text v : flat v = true -> control_value v = false -> mem_byte LF (toString v) = false.
Proof.
  destruct v as [ |[]|z|f|s|l|ms|a b]; cbn; try done.
  - intros _ _. by apply (str_all_not_mem int_byte), itoa_bytes.
  - intros -> _. by apply (str_all_not_mem int_byte), itoa_bytes.
  - intros _ H. destruct (mem_byte LF s) eqn:Hm; [|done]. unfold contains_any in H.
    rewrite str_any_all, negb_false_iff in H. rewrite mem_byte_any, str_any_all, negb_true_iff in Hm.
    rewrite <- Hm. symmetry. eapply str_all_impl; [|exact H]. intros c. cbn. rewrite !negb_true_iff.
    intros Hc. apply Ascii.eqb_neq. intros ->. done.
Qed.

(** Members of the written object. *)
Lemma assoc_omit_opt k k' o : assoc k (omit_opt k' o) = if bool_decide (k' = k) then o else None.
Proof. destruct o; cbn; [done|by case_bool_decide]. Qed.
Lemma assoc_omit_str k k' v : k' <> k -> assoc k (omit_str k' v) = None.
Proof. intros H. unfold omit_str. case_bool_decide; cbn; [done|by rewrite bool_decide_eq_false_2]. Qed.

Section system.
Context (environ : string -> option string).

Lemma lookup_flat s k v :
  Forall (fun p => flat p.2 = true /\ control_value p.2 = false) (s_cfg s) ->
  mem_byte LF (s_instanceID s) = false -> mem_byte LF (s_templateID s) = false ->
  (forall n v, environ n = Some v -> mem_byte LF v = false) ->
  lookup environ s k = Some v -> mem_byte LF v = false.
Proof.
  intros Hc Hi Ht He. unfold lookup. repeat case_match; try done; [by intros [= <-]|by intros [= <-]| |by apply He].
  intros (a & Ha & ->)%fmap_Some.
  apply (assoc_Forall (fun v => flat v = true /\ control_value v = false)) in Ha as [? ?]; [by apply flat_text|done].
Qed.

(** The member of a rendered file. *)
Definition content_of (x : json) : option json := match x with JObj m => assoc "content" m | _ => None end.

Lemma system_files_content sysBlock s fs :
  materializeSystemFiles environ sysBlock s = Some (JArr fs) ->
  Forall2 (fun f x => content_of x = Some (JStr (subst_string environ s (toString (get "content" f)))))
    (maps_of (get "files" sysBlock)) fs.
Proof.
  unfold materializeSystemFiles. destruct (as_list _) as [[|? ?]|]; try done. intros [= <-].
  apply Forall2_fmap_r, Forall_Forall2_diag, Forall_true. intros f. cbn [compose content_of jmap]. by rewrite assoc_by_name.
Qed.

Lemma existsb_false_all {A} (f : A -> bool) l : existsb f l = false -> Forall (fun x => f x = false) l.
Proof. apply existsb_false_forall. Qed.

(** The files of a successful result are the rendered files of the template. *)
Lemma materializeSystem_files spec runtime uc iid tid ms sysBlock fs :
  materializeSystem environ spec runtime uc iid tid = Ok (JObj ms) ->
  as_map (get "system" runtime) = Some sysBlock -> assoc "files" ms = Some fs ->
  existsb (fun p => control_value p.2) uc = false /\
  materializeSystemFiles environ sysBlock (MkSubst uc iid tid) = Some fs.
Proof.
  intros Hm Hs Hf. unfold materializeSystem in Hm. rewrite Hs in Hm.
  destruct (bool_decide (is_Some (assoc "unitTemplate" sysBlock))); [done|].
  destruct (existsb (fun p => control_value p.2) uc); [done|]. split; [done|]. cbv zeta in Hm.
  destruct (length _ =? 0)%nat; [done|]. destruct (1 <? length _)%nat; [done|].
  destruct (as_map (get "host_service" sysBlock)); [|destruct (as_map (get "managed_service" sysBlock))];
    injection Hm as <-; rewrite assoc_by_name in Hf;
    cbn [assoc app] in Hf; rewrite bool_decide_eq_false_2 in Hf by done;
    rewrite ?assoc_app, !assoc_omit_opt, ?assoc_omit_str, ?bool_decide_eq_false_2, ?bool_decide_eq_true_2 in Hf by done; [done| |];
    by destruct (materializeSystemFiles _ _ _).
Qed.

(** No user value adds a line to a file of a system template: for
    accepted scalar values (and identifiers and environment variables without
    line breaks) every rendered file has exactly the line breaks of its
    template. *)
Theorem materializeSystem_lines spec runtime uc iid tid ms sysBlock fs :
  materializeSystem environ spec runtime uc iid tid = Ok (JObj ms) ->
  as_map (get "system" runtime) = Some sysBlock -> assoc "files" ms = Some (JArr fs) ->
  Forall (fun p => flat p.2 = true) uc -> mem_byte LF iid = false -> mem_byte LF tid = false ->
  (forall n v, environ n = Some v -> mem_byte LF v = false) ->
  Forall2 (fun f x => exists c, content_of x = Some (JStr c) /\ count_byte LF c = count_byte LF (toString (get "content" f)))
    (maps_of (get "files" sysBlock)) fs.
Proof.
  intros Hm Hs Hf Hflat Hi Ht He. destruct (materializeSystem_files _ _ _ _ _ _ _ _ Hm Hs Hf) as [Hctl Hfiles].
  eapply Forall2_impl; [by apply system_files_content|]. cbv beta. intros f x ->. eexists. split; [done|].
  apply subst_string_count; [done|set_solver|]. intros k v. apply lookup_flat; [|done|done|done].
  apply Forall_and. split; [done|]. by apply existsb_false_all.
Qed.
End system.

(** A kiosk template with one file, and a user value for it. *)
Definition kiosk_system : amap :=
  [("kiosk", AMap []);
   ("files", AList [AMap [("path", AStr "/opt/obacht/instances/k/config.env"); ("content", AStr "URL=${cfg.url}")]])].
Definition kiosk_runtime : amap := [("type", AStr "system"); ("system", AMap kiosk_system)].
Definition no_env : string -> option string := fun _ => None.

Definition kiosk_result (url : any) : res mat_error json :=
  materializeSystem no_env [] kiosk_runtime [("url", url)] "k" "t".

Lemma materializeSystem_lines_witness :
  exists ms fs, kiosk_result (AStr "http://a") = Ok (JObj ms) /\ assoc "files" ms = Some (JArr fs) /\
  Forall2 (fun f x => exists c, content_of x = Some (JStr c) /\ count_byte LF c = count_byte LF (toString (get "content" f)))
    (maps_of (get "files" kiosk_system)) fs.
Proof.
  eexists _, _. split; [reflexivity|]. split; [reflexivity|].
  eapply (materializeSystem_lines no_env [] kiosk_runtime [("url", AStr "http://a")] "k" "t" _ kiosk_system); try reflexivity.
  - apply Forall_cons. split; [reflexivity|by apply Forall_nil].
  - by intros.
Defined.

(** The check looks at strings only: a list of strings with a line break is
    accepted, and its printed form adds a line to the file. *)
Example system_list_value_adds_line :
  exists ms fs, kiosk_result (AList [AStr ("x" +:+ String LF "ADMIN=1")]) = Ok (JObj ms) /\
    assoc "files" ms = Some (JArr fs) /\
    map content_of fs = [Some (JStr ("URL=[x" +:+ String LF "ADMIN=1]"))].
Proof. eexists _, _. repeat split; reflexivity. Qed.

(** ** What is stored, and what its echo shows *)
Lemma seq_opt_members (f : any -> option json) (m : amap) ms :
  seq_opt (map (fun p => pair p.1 <$> f p.2) m) = Some ms ->
  map fst ms = map fst m /\ forall k, assoc k ms = assoc k m ≫= f.
Proof.
  revert ms. induction m as [|[k v] m IH]; intros ms; cbn; [by intros [= <-]|].
  destruct (f v) as [j|] eqn:Hf; cbn; [|done]. destruct (seq_opt _) as [r|] eqn:Hr; cbn; [|done].
  intros [= <-]. destruct (IH r eq_refl) as [Hk Ha]. split; [cbn; by f_equal|]. intros k'. cbn.
  case_bool_decide; [by rewrite <- Hf|apply Ha].
Qed.

Lemma seq_opt_strs ks : seq_opt (map any_json (map AStr ks)) = Some (map JStr ks).
Proof. induction ks as [|k ks IH]; [done|]. cbn in *. by rewrite IH. Qed.

Lemma map_jstr_id (f : json -> json) ks : (forall s, f (JStr s) = JStr s) -> map f (map JStr ks) = map JStr ks.
Proof. intros H. rewrite map_map. by apply map_ext. Qed.

Lemma marker_keys_strs ks : marker_keys (map JStr ks) = ks.
Proof. induction ks as [|k ks IH]; [done|]. cbn in *. by f_equal. Qed.

(** Reading back a stored object: every name means what it meant. *)
Lemma parse_map_stored ms : NoDup (map fst ms) ->
  printable (sort_json (JObj ms)) = true -> depth (sort_json (JObj ms)) <= maxNestingDepth ->
  exists cfg, parse_map (marshal (JObj ms)) = Some cfg /\
    forall k, assoc k cfg = (fun j => to_any (sort_json j)) <$> assoc k ms.
Proof.
  intros Hnd Hp Hd. unfold parse_map, marshal. rewrite parse_render by done. cbn [sort_json to_any].
  rewrite last_wins_id.
  - eexists. split; [done|]. intros k. by rewrite assoc_map_snd, assoc_by_name, assoc_map_snd, <- option_fmap_compose.
  - rewrite map_fst_snd, by_name_keys, map_fst_snd. by rewrite sort_strings_perm.
Qed.

Lemma amap_fold_keys (vs : list (string * (any * bool))) acc :
  NoDup (map fst acc) -> NoDup (map fst (fold_left (fun (m : amap) p => assoc_set p.1 (fst p.2) m) vs acc)).
Proof. revert acc. induction vs as [|p vs IH]; intros acc H; [done|]. apply IH. by apply assoc_set_keys. Qed.

Section stored.
Context (environ : string -> option string) (yaml_load : string -> option amap).
Context (yaml_string : list string -> string -> option string) (yaml_schema : string -> option (list (string * string))).
Context (parse_float : string -> option gofloat).
Notation Build := (BuildInstanceConfig environ yaml_load yaml_string yaml_schema parse_float).

(** A built object carries the marker list, and its names are distinct. *)
Lemma Build_marker m uc iid tid ver cfg c :
  Build m uc iid tid ver = Ok cfg -> I_Config cfg = AMap c ->
  NoDup (map fst c) /\ assoc SecretKeysMarker c = Some (AList (map AStr (SecretConfigKeys yaml_schema m))).
Proof.
  intros Hb Hc. unfold BuildInstanceConfig in Hb.
  destruct (Materialize _ _ _ _ _ _) as [[[kind text] uc']|]; [|done]. cbn [rbind] in Hb.
  destruct (List.filter _ _); [|done]. destruct (json_parse text) as [j|]; [|done]. cbn in Hb.
  destruct (json_any parse_float j) as [a []] eqn:Hj; [done|]. injection Hb as <-. cbn [I_Config] in Hc.
  destruct a as [ | | | | | |m0| ]; try done. injection Hc as <-.
  split; [|by rewrite assoc_set_eq]. do 2 apply assoc_set_keys.
  destruct j as [ | |t| | |jms]; cbn in Hj; try done; [by destruct (parse_float t)|].
  injection Hj as <- _. apply amap_fold_keys. apply NoDup_nil_2.
Qed.

(** Declared secrets stay on the device: for every instance configuration
    that is built and stored, the echo of the stored text shows, under every
    key the manifest declares as a secret, the keep-sentinel or the empty
    string, never the value the user entered. *)
Theorem stored_secrets_masked m uc iid tid ver cfg c j echo k v :
  Build m uc iid tid ver = Ok cfg -> I_Config cfg = AMap c -> any_json (I_Config cfg) = Some j ->
  printable (sort_json j) = true -> depth (sort_json j) <= maxNestingDepth ->
  RedactedInputEcho (marshal j) = Some echo ->
  k ∈ SecretConfigKeys yaml_schema m -> assoc k echo = Some v ->
  v = JStr SecretKeepSentinel \/ v = JStr "".
Proof.
  intros Hb Hc Hj Hp Hd He Hk Hv. destruct (Build_marker _ _ _ _ _ _ _ Hb Hc) as [Hnd Hmark].
  rewrite Hc in Hj. cbn [any_json] in Hj. apply fmap_Some in Hj as (ms & Hms & ->).
  apply seq_opt_members in Hms as [Hkeys Hassoc]. rewrite <- Hkeys in Hnd.
  destruct (parse_map_stored ms Hnd Hp Hd) as (st & Hst & Hlook).
  unfold RedactedInputEcho in He. destruct (bool_decide _); [done|]. rewrite Hst in He.
  assert (Hecho : echo = map (echo_value (secret_test st)) (input_of st)) by (destruct (input_of st); [done|by injection He]).
  assert (Hsec : secret_test st k = true).
  { unfold secret_test. rewrite Hlook, Hassoc, Hmark. cbn [mbind option_bind any_json]. rewrite seq_opt_strs.
    cbn. rewrite !map_jstr_id by done. rewrite marker_keys_strs. by apply bool_decide_eq_true_2. }
  rewrite Hecho, assoc_map in Hv by apply echo_value_key. apply fmap_Some in Hv as (u & _ & ->).
  unfold echo_value. cbn [fst snd]. rewrite Hsec. cbn [negb]. destruct u as [ | | |[|]| |]; cbn; auto.
Qed.
End stored.

(** A container template with a declared secret. *)
Definition demo_manifest : amap :=
  [("spec", AMap
     [("configSchema", AList [AMap [("key", AStr "pass"); ("type", AStr "secret")]]);
      ("runtime", AMap [("type", AStr "container");
         ("container", AMap [("image", AStr "img"); ("env", AMap [("P", AStr "${cfg.pass}"); ("K", AStr "${secret.key}")])])])])].
Definition demo_load : string -> option amap := fun _ => Some demo_manifest.
Definition demo_string : list string -> string -> option string := fun _ _ => None.
Definition demo_schema : string -> option (list (string * string)) := fun _ => Some [("pass", "secret")].
Definition demo_float : string -> option gofloat := fun _ => None.

Lemma BuildInstanceConfig_no_unset_witness :
  has_prefix "secret.key" "secret." = true \/ has_prefix "secret.key" "host." = true.
Proof.
  eapply (BuildInstanceConfig_no_unset no_env demo_load demo_string demo_schema demo_float "m" [("pass", AStr "pw")] "i" "t" "1" _
            "container" (bq "{`image`:`img`,`env`:{`K`:`${secret.key}`,`P`:`pw`}}") _ "secret.key"
            (bq "{`image`:`img`,`env`:{`K`:`") (bq "`,`P`:`pw`}}")); [reflexivity|reflexivity|done|by split|reflexivity].
Defined.

Lemma stored_secrets_masked_witness :
  JStr SecretKeepSentinel = JStr SecretKeepSentinel \/ JStr SecretKeepSentinel = JStr "".
Proof.
  eapply (stored_secrets_masked no_env demo_load demo_string demo_schema demo_float "m" [("pass", AStr "pw")] "i" "t" "1"
            _ _ _ [("pass", JStr SecretKeepSentinel)] "pass");
    [reflexivity|reflexivity|reflexivity|vm_compute; reflexivity| |vm_compute; reflexivity|by left|reflexivity].
  apply Nat.leb_le. vm_compute. reflexivity.
Defined.
