(* ===== verification/SystemSpec.v ===== *)
(** * System specs: internal/runtime/system/spec.go

    The specification of a system instance (managed service, host service or
    kiosk) and the checks that confine it: file paths, unit names, post-start
    hooks, download sources.  A Go map of environment variables is a [gmap]. *)

From S2P Require Import Prelude GoStrings GoUrl ReadinessConfig.

Inductive spec_error : Type :=
| InvalidUnitName
| PathEmpty | PathControlChars | PathNotAbs | PathNotCanonical | PathOutside
| HookNoHTTP | HookMethod | HookURL | HookContentType | HookTimeout (t : Z)
| BinaryNotAllowed | BinaryRequired | DigestShape | DigestCase | ArchiveUnsupported
| URLNotAllowed | ArgControl (a : string) | EnvControl | DataDirShape
| PostStartAt (i : nat) (e : spec_error)
| GroupNotAllowed (g : string) | DeviceNotAllowed (d : string) | PortRange (p : Z)
| Withdrawn | FlavorCount | ServiceReadiness (svc : string) (e : config_error)
| KioskFile (p : string).

(** [unitNameRe] *)
Definition unitNameByte (c : ascii) : bool := is_alnum c || mem_byte c "@._-".
Definition unitNameRe (name : string) : bool :=
  match strip_suffix name ".service" with
  | Some r => negb (bool_decide (r = "")) && str_all unitNameByte r
  | None => false
  end.

Definition allowedFilePrefixes : list string := ["/etc/obacht/"; "/var/lib/obacht/"; "/opt/obacht/"].

Definition validateUnitName (name : string) : res spec_error unit :=
  guard_err ((128 <? slen name)%nat || negb (unitNameRe name)) InvalidUnitName.

(** The bytes NUL, LF and CR. *)
Definition ctl3 : string := String NUL (String LF (str1 CR)).

Definition validateFilePath (p : string) : res spec_error unit :=
  guard_err (bool_decide (p = "")) PathEmpty ;;!
  guard_err (contains_any p ctl3) PathControlChars ;;!
  guard_err (negb (IsAbs p)) PathNotAbs ;;!
  guard_err (negb (bool_decide (Clean p = p))) PathNotCanonical ;;!
  guard_err (negb (existsb (has_prefix p) allowedFilePrefixes)) PathOutside.

Record PostStartHTTP := MkPostStartHTTP {
  Method : string;
  URL : string;
  Body : string;
  ContentType : string;
  HTimeoutSeconds : Z
}.

(** A [PostStartHook] is its only field, the pointer [HTTP]. *)
Record PostStartHook := MkPostStartHook { HTTP : option PostStartHTTP }.

Definition PostStartDefaultContentType : string := "application/json".
Definition PostStartDefaultTimeout : Z := 1800.
Definition PostStartMinTimeout : Z := 10.
Definition PostStartMaxTimeout : Z := 7200.

(** After [^http://(127\.0\.0\.1|localhost)]: [(:[0-9]+)?/]. *)
Fixpoint digits_then_slash (seen : bool) (s : string) : bool :=
  match s with
  | String a s' => if Ascii.eqb a "/" then seen else is_digit a && digits_then_slash true s'
  | "" => false
  end.
Definition port_slash (s : string) : bool :=
  match s with
  | String "/" _ => true
  | String ":" s' => digits_then_slash false s'
  | _ => false
  end.
Definition postStartURLRe (u : string) : bool :=
  existsb (fun pre => match strip_prefix u pre with Some r => port_slash r | None => false end)
    ["http://127.0.0.1"; "http://localhost"].

Definition hook_validate (h : PostStartHook) : res spec_error unit :=
  match HTTP h with
  | None => Err HookNoHTTP
  | Some p =>
      guard_err (negb (bool_decide (to_upper (Method p) ∈ ["GET"; "POST"]))) HookMethod ;;!
      guard_err (negb (postStartURLRe (URL p)) ||
                 contains_any (URL p) (ctl3 +:+ String " " (str1 TAB))) HookURL ;;!
      guard_err (contains_any (ContentType p) ctl3) HookContentType ;;!
      guard_err (negb (HTimeoutSeconds p =? 0)%Z &&
                 ((HTimeoutSeconds p <? PostStartMinTimeout)%Z || (PostStartMaxTimeout <? HTimeoutSeconds p)%Z))
        (HookTimeout (HTimeoutSeconds p))
  end.

(** [effective]: method, content type and timeout in seconds. *)
Definition effective (p : PostStartHTTP) : string * string * Z :=
  (to_upper (Method p),
   if bool_decide (ContentType p = "") then PostStartDefaultContentType else ContentType p,
   if (HTimeoutSeconds p =? 0)%Z then PostStartDefaultTimeout else HTimeoutSeconds p).

Record HostServiceSpec := MkHostServiceSpec {
  h_Kind : string;
  h_Binary : string;
  h_BinaryURL : string;
  h_BinaryDigest : string;
  h_Archive : string;
  h_Args : list string;
  h_Env : gmap string string;
  h_DataDir : string;
  h_PostStart : list PostStartHook
}.

Definition allowedHostBinaries : list string := ["ollama"].

(** [^[a-z0-9][a-z0-9._-]{0,63}$] *)
Definition hostBinaryRe (s : string) : bool :=
  match s with
  | String a t => (is_lower a || is_digit a) &&
                  str_all (fun c => is_lower c || is_digit c || mem_byte c "._-") t && (slen t <=? 63)%nat
  | "" => false
  end.

Definition allowedDownloadHosts : list string :=
  ["ollama.com"; "github.com"; "objects.githubusercontent.com"; "release-assets.githubusercontent.com"].

Definition inl (x : string) (l : list string) : bool := bool_decide (x ∈ l).

Definition RedirectHostAllowed (host : string) : bool :=
  inl host allowedDownloadHosts || has_suffix host ".githubusercontent.com".

(** The checks of a pinned download shared by both service kinds. *)
Definition digest_shape (d : string) : bool :=
  has_prefix d "sha256:" && (slen d =? slen "sha256:" + 64)%nat.

Definition url_allowed (u : string) : bool :=
  match url_scheme_host u with
  | Some (scheme, host) => bool_decide (scheme = "https") && inl host allowedDownloadHosts
  | None => false
  end.

Definition env_bad (kv : string * string) : bool :=
  bool_decide (kv.1 = "") || contains_any kv.1 (ctl3 +:+ "=") || contains_any kv.2 ctl3.

Fixpoint for_each_at {E A} (i : nat) (f : nat -> A -> res E unit) (l : list A) : res E unit :=
  match l with
  | [] => Ok tt
  | x :: l' => f i x ;;! for_each_at (S i) f l'
  end.

(** [HostServiceSpec.validate] *)
Definition host_validate (h : HostServiceSpec) : res spec_error unit :=
  guard_err (negb (inl (h_Binary h) allowedHostBinaries) || negb (hostBinaryRe (h_Binary h)))
    BinaryNotAllowed ;;!
  guard_err (bool_decide (h_BinaryURL h = "") || bool_decide (h_BinaryDigest h = "")) BinaryRequired ;;!
  guard_err (negb (digest_shape (h_BinaryDigest h))) DigestShape ;;!
  guard_err (negb (inl (h_Archive h) [""; "tgz"])) ArchiveUnsupported ;;!
  guard_err (negb (url_allowed (h_BinaryURL h))) URLNotAllowed ;;!
  for_each (fun a => guard_err (contains_any a ctl3) (ArgControl a)) (h_Args h) ;;!
  for_each (fun kv => guard_err (env_bad kv) EnvControl) (map_to_list (h_Env h)) ;;!
  guard_err (negb (bool_decide (h_DataDir h = "")) &&
             (negb (IsAbs (h_DataDir h)) || negb (bool_decide (Clean (h_DataDir h) = h_DataDir h)) ||
              contains_any (h_DataDir h) ctl3)) DataDirShape ;;!
  for_each_at 0 (fun i hook => match hook_validate hook with
                               | Ok _ => Ok tt
                               | Err e => Err (PostStartAt i e)
                               end) (h_PostStart h).

Record ManagedHardware := MkManagedHardware { Groups : list string; Devices : list string }.

Record ManagedServiceSpec := MkManagedServiceSpec {
  m_Kind : string;
  m_Binary : string;
  m_BinaryURL : string;
  m_BinaryDigest : string;
  m_Archive : string;
  m_Args : list string;
  m_Env : gmap string string;
  m_Hardware : option ManagedHardware;
  m_ListenPorts : list Z
}.

Definition allowedManagedBinaries : list string := ["mediamtx"].
Definition allowedManagedGroups : list string := ["video"; "render"; "input"].
Definition allowedManagedDevices : list (string * string) :=
  [("/dev/video*", "char-video4linux rw"); ("/dev/media*", "char-media rw");
   ("/dev/dri/*", "char-drm rw"); ("/dev/dma_heap/*", "char-dma_heap rw")].

(** [allowedManagedDevices[d]], the empty string when absent. *)
Definition device_class (d : string) : option string :=
  snd <$> find (fun p => bool_decide (p.1 = d)) allowedManagedDevices.

Definition isHexLower (s : string) : bool := str_all (fun c => is_digit c || between "a" "f" c) s.

(** [ManagedServiceSpec.validate] *)
Definition managed_validate (m : ManagedServiceSpec) : res spec_error unit :=
  guard_err (negb (inl (m_Binary m) allowedManagedBinaries) || negb (hostBinaryRe (m_Binary m)))
    BinaryNotAllowed ;;!
  guard_err (bool_decide (m_BinaryURL m = "") || bool_decide (m_BinaryDigest m = "")) BinaryRequired ;;!
  guard_err (negb (digest_shape (m_BinaryDigest m))) DigestShape ;;!
  guard_err (negb (isHexLower (sdrop (slen "sha256:") (m_BinaryDigest m)))) DigestCase ;;!
  guard_err (negb (inl (m_Archive m) [""; "tgz"])) ArchiveUnsupported ;;!
  guard_err (negb (url_allowed (m_BinaryURL m))) URLNotAllowed ;;!
  for_each (fun a => guard_err (contains_any a ctl3) (ArgControl a)) (m_Args m) ;;!
  for_each (fun kv => guard_err (env_bad kv) EnvControl) (map_to_list (m_Env m)) ;;!
  match m_Hardware m with
  | Some hw =>
      for_each (fun g => guard_err (negb (inl g allowedManagedGroups)) (GroupNotAllowed g)) (Groups hw) ;;!
      for_each (fun d => guard_err (negb (bool_decide (is_Some (device_class d)))) (DeviceNotAllowed d))
        (Devices hw)
  | None => Ok tt
  end ;;!
  for_each (fun p => guard_err ((p <? 1) || (65535 <? p))%Z (PortRange p)) (m_ListenPorts m).

Record Service := MkService {
  s_Name : string;
  s_TargetType : string;
  s_TargetPort : Z;
  s_AppPath : string;
  s_Readiness : option Config
}.

Record File := MkFile { f_Path : string; f_Mode : string; f_Content : string }.

(** The marker [KioskSpec] has no field: its pointer is a boolean. *)
Record Spec := MkSpec {
  UnitName : string;
  UnitTemplate : string;
  Files : list File;
  ExclusivityGroup : string;
  Services : list Service;
  HostService : option HostServiceSpec;
  ManagedService : option ManagedServiceSpec;
  Kiosk : bool
}.

Definition count_true (l : list bool) : nat := length (filter (fun b => b = true) l).

(** [Spec.Validate] *)
Definition Validate (s : Spec) : res spec_error unit :=
  guard_err (negb (bool_decide (UnitName s = "")) || negb (bool_decide (UnitTemplate s = ""))) Withdrawn ;;!
  guard_err (negb (count_true [bool_decide (is_Some (HostService s));
                               bool_decide (is_Some (ManagedService s)); Kiosk s] =? 1)%nat) FlavorCount ;;!
  for_each (fun f => if bool_decide (f_Path f = "") then Ok tt else validateFilePath (f_Path f)) (Files s) ;;!
  for_each (fun svc => match ReadinessConfig.Validate (s_Readiness svc) with
                       | Ok _ => Ok tt
                       | Err e => Err (ServiceReadiness (s_Name svc) e)
                       end) (Services s) ;;!
  match HostService s, ManagedService s with
  | Some h, _ => host_validate h
  | None, Some m => managed_validate m
  | None, None =>
      for_each (fun f => if bool_decide (f_Path f = "") then Ok tt else
                         guard_err (negb (has_prefix (f_Path f) "/etc/obacht/kiosk/"))
                           (KioskFile (f_Path f))) (Files s)
  end.

(** ** File paths *)

(** The allowed directory trees, as segments. *)
Definition allowedRoots : list (list string) :=
  [["etc"; "obacht"]; ["var"; "lib"; "obacht"]; ["opt"; "obacht"]].

(** What the path check promises: a canonical path strictly inside an allowed
    tree, no segment of which is empty, a dot or a parent-directory step. *)
Definition confined_path (p : string) : Prop :=
  contains_any p ctl3 = false /\
  exists root rest, root ∈ allowedRoots /\ rest <> [] /\ Forall plain_seg rest /\
                    p = "/" +:+ join "/" (root ++ rest).

Lemma join_app_cons root x rest :
  root <> [] -> join "/" (root ++ x :: rest) = join "/" root +:+ "/" +:+ join "/" (x :: rest).
Proof.
  intros Hne. induction root as [|r root IH]; [done|].
  destruct root as [|r' root]; [done|].
  change (r +:+ "/" +:+ join "/" ((r' :: root) ++ x :: rest)
          = (r +:+ "/" +:+ join "/" (r' :: root)) +:+ "/" +:+ join "/" (x :: rest)).
  rewrite IH by done. by rewrite !sapp_assoc.
Qed.

Lemma allowedRoots_plain root : root ∈ allowedRoots -> Forall plain_seg root /\ root <> [].
Proof.
  unfold allowedRoots. intros Hin.
  repeat (apply elem_of_cons in Hin as [->|Hin]; [split; [repeat constructor; done|done]|]).
  by apply elem_of_nil in Hin.
Qed.

Lemma prefix_root p :
  existsb (has_prefix p) allowedFilePrefixes = true <->
  exists root t, root ∈ allowedRoots /\ p = "/" +:+ join "/" root +:+ "/" +:+ t.
Proof.
  unfold allowedFilePrefixes, allowedRoots. cbn [existsb]. rewrite !orb_true_iff, !has_prefix_spec. split.
  - intros [[t ->]|[[t ->]|[[t ->]|]]];
      [exists ["etc"; "obacht"], t|exists ["var"; "lib"; "obacht"], t|exists ["opt"; "obacht"], t|done];
      (split; [set_solver|reflexivity]).
  - intros (root & t & Hin & ->).
    repeat (apply elem_of_cons in Hin as [->|Hin]; [eauto 10|]). by apply elem_of_nil in Hin.
Qed.

Lemma validateFilePath_confined p : validateFilePath p = Ok tt <-> confined_path p.
Proof.
  unfold validateFilePath, confined_path. autorewrite with agent.
  rewrite prefix_root, bool_decide_eq_true, bool_decide_eq_false. split.
  - intros (Hne & Hctl & Habs & Hcl & root & t & Hroot & Hp). split; [done|].
    destruct (Clean_fixed p Habs Hcl) as (segs & Hsegs & Hplain).
    assert (split_on "/" p = "" :: segs) as Hsplit.
    { destruct segs as [|s segs].
      - rewrite Hsegs in Hp. apply (f_equal slen) in Hp.
        rewrite !slen_app in Hp. apply allowedRoots_plain in Hroot as [_ Hr].
        cbn in Hp. lia.
      - rewrite Hsegs. by apply split_on_rooted. }
    assert (split_on "/" p = "" :: root ++ split_on "/" t) as Hsplit2.
    { rewrite Hp. cbn. f_equal. clear -Hroot.
      unfold allowedRoots in Hroot.
      repeat (apply elem_of_cons in Hroot as [->|Hroot]; [reflexivity|]). by apply elem_of_nil in Hroot. }
    assert (segs = root ++ split_on "/" t) as -> by congruence.
    apply Forall_app in Hplain as [_ Hplain].
    exists root, (split_on "/" t). split_and!; [done|apply split_on_nonempty|done|done].
  - intros (Hctl & root & rest & Hroot & Hne & Hplain & ->).
    destruct (allowedRoots_plain root Hroot) as [Hrp Hrn].
    split_and!; [done|done|apply has_prefix_app| |].
    + apply Clean_rooted; [by apply Forall_app|]. destruct root; [by destruct Hrn|done].
    + destruct rest as [|x rest]; [done|]. exists root, (join "/" (x :: rest)). split; [done|].
      by rewrite join_app_cons.
Qed.

(** The file-path check accepts exactly the canonical absolute paths
    strictly inside one of the three allowed trees: no control byte, no empty,
    dot or parent-directory segment, whatever the manifest says. *)
Theorem validateFilePath_iff p : validateFilePath p = Ok tt <-> confined_path p.
Proof. apply validateFilePath_confined. Qed.

(** A unit name that passes is a single file name. *)
Lemma validateUnitName_leaf name : validateUnitName name = Ok tt -> mem_byte "/" name = false.
Proof.
  unfold validateUnitName, unitNameRe. rewrite guard_err_Ok, orb_false_iff, negb_false_iff.
  intros [_ H]. destruct (strip_suffix name ".service") as [r|] eqn:Hr; [|done].
  apply strip_suffix_Some in Hr as ->. apply andb_true_iff in H as [_ H].
  rewrite mem_byte_app, orb_false_iff. split; [|done].
  by eapply str_all_not_mem; [|exact H].
Qed.

(** ** Post-start hooks reach the loopback interface only *)

(** The authority the hook's URL names. *)
Definition loopback_url (u : string) : Prop :=
  exists host port rest, host ∈ ["127.0.0.1"; "localhost"] /\
    u = "http://" +:+ host +:+ port +:+ "/" +:+ rest /\
    (port = "" \/ exists ds, port = ":" +:+ ds /\ ds <> "" /\ str_all is_digit ds = true).

Lemma digits_then_slash_spec b s :
  digits_then_slash b s = true <->
  exists ds rest, s = ds +:+ "/" +:+ rest /\ str_all is_digit ds = true /\ (b = true \/ ds <> "").
Proof.
  revert b. induction s as [|a s IH]; intros b; cbn [digits_then_slash].
  - split; [done|]. intros ([|??] & ? & ? & _); done.
  - destruct (Ascii.eqb_spec a "/") as [->|Hne].
    + split; [intros ->; exists "", s; auto|].
      intros ([|d ds] & rest & Heq & Hd & Hb); [by destruct Hb|].
      injection Heq as <- ->. cbn in Hd. done.
    + rewrite andb_true_iff, IH. split.
      * intros (Hd & ds & rest & -> & Hds & _). exists (String a ds), rest.
        cbn. rewrite Hd, Hds. split_and!; [done|done|by right].
      * intros ([|d ds] & rest & Heq & Hd & _); [by injection Heq|].
        injection Heq as <- ->. cbn in Hd. apply andb_true_iff in Hd as [? ?].
        split; [done|]. exists ds, rest. auto.
Qed.

Lemma port_slash_spec s :
  port_slash s = true ->
  exists port rest, s = port +:+ "/" +:+ rest /\
    (port = "" \/ exists ds, port = ":" +:+ ds /\ ds <> "" /\ str_all is_digit ds = true).
Proof.
  destruct s as [|a s]; [done|]. unfold port_slash.
  destruct (decide (a = "/"%char)) as [->|]; [intros _; exists "", s; auto|].
  destruct (decide (a = ":"%char)) as [->|].
  - intros (ds & rest & -> & Hd & Hb)%digits_then_slash_spec.
    exists (":" +:+ ds), rest. split; [done|]. right. exists ds.
    destruct Hb; [done|]. auto.
  - intros H. exfalso. destruct a as [[] [] [] [] [] [] [] []]; done.
Qed.

Lemma postStartURLRe_loopback u : postStartURLRe u = true -> loopback_url u.
Proof.
  unfold postStartURLRe. intros (pre & Hin & Hm)%existsb_exists.
  destruct (strip_prefix u pre) as [r|] eqn:Hr; [|done].
  apply strip_prefix_Some in Hr as ->. apply port_slash_spec in Hm as (port & rest & -> & Hport).
  cbn [In] in Hin. destruct Hin as [<-|[<-|[]]];
    [exists "127.0.0.1", port, rest|exists "localhost", port, rest]; (split_and!; [set_solver|done|done]).
Qed.

(** A post-start hook that validates can only address the loopback
    interface (a literal host, an optional numeric port and then the path, so
    no user part can redirect it), with method GET or POST and an effective
    timeout between the bounds. *)
Theorem hook_validate_loopback h :
  hook_validate h = Ok tt ->
  exists p, HTTP h = Some p /\ loopback_url (URL p) /\
    let '(m, _, secs) := effective p in
    m ∈ ["GET"; "POST"] /\ (PostStartMinTimeout <= secs <= PostStartMaxTimeout)%Z.
Proof.
  unfold hook_validate. destruct (HTTP h) as [p|]; [|done]. autorewrite with agent.
  rewrite bool_decide_eq_true.
  intros (Hm & [Hu _] & _ & Ht). exists p. split; [done|]. split; [by apply postStartURLRe_loopback|].
  unfold effective. split; [done|]. destruct (Z.eqb_spec (HTimeoutSeconds p) 0) as [|Hz]; [done|].
  destruct Ht as [Ht|[?%Z.ltb_ge ?%Z.ltb_ge]]; [lia|lia].
Qed.

Lemma hook_validate_loopback_witness :
  hook_validate (MkPostStartHook (Some (MkPostStartHTTP "post" "http://127.0.0.1:11434/api/pull" "{}" "" 0)))
    = Ok tt /\
  exists p, Some (MkPostStartHTTP "post" "http://127.0.0.1:11434/api/pull" "{}" "" 0) = Some p /\
    loopback_url (URL p) /\
    let '(m, _, secs) := effective p in
    m ∈ ["GET"; "POST"] /\ (PostStartMinTimeout <= secs <= PostStartMaxTimeout)%Z.
Proof.
  split; [reflexivity|].
  apply (hook_validate_loopback (MkPostStartHook (Some
    (MkPostStartHTTP "post" "http://127.0.0.1:11434/api/pull" "{}" "" 0)))). reflexivity.
Defined.

(** ** Whole specs *)

Definition one_flavor (s : Spec) : Prop :=
  match HostService s, ManagedService s, Kiosk s with
  | Some _, None, false | None, Some _, false | None, None, true => True
  | _, _, _ => False
  end.

(** A spec that validates has exactly one flavor, carries no free-form
    unit text, writes only to confined paths, and, when it is a kiosk, only
    below the kiosk directory. *)
Theorem Validate_confined s :
  Validate s = Ok tt ->
  one_flavor s /\ UnitName s = "" /\ UnitTemplate s = "" /\
  Forall (fun f => f_Path f = "" \/
            confined_path (f_Path f) /\
            (Kiosk s = true -> has_prefix (f_Path f) "/etc/obacht/kiosk/" = true)) (Files s).
Proof.
  unfold Validate. rewrite guard_seq_Ok, guard_seq_Ok, for_each_seq_Ok, for_each_seq_Ok.
  rewrite orb_false_iff, !negb_false_iff, !bool_decide_eq_true, Nat.eqb_eq.
  intros ([HU HT] & Hcnt & Hfiles & _ & Hfl).
  assert (one_flavor s) as Hone.
  { unfold one_flavor. destruct (HostService s), (ManagedService s), (Kiosk s); done. }
  split_and!; [done..|].
  assert (Kiosk s = true -> Forall (fun f => f_Path f = "" \/
            has_prefix (f_Path f) "/etc/obacht/kiosk/" = true) (Files s)) as Hk.
  { intros Hk. unfold one_flavor in Hone. rewrite Hk in Hone.
    destruct (HostService s), (ManagedService s); try done.
    apply for_each_Ok in Hfl. eapply Forall_impl; [exact Hfl|]. intros f. cbv beta.
    destruct (decide (f_Path f = "")); [by left|]. rewrite bool_decide_eq_false_2 by done.
    rewrite guard_err_Ok, negb_false_iff. by right. }
  apply Forall_forall. intros f Hin. rewrite Forall_forall in Hfiles.
  specialize (Hfiles f Hin). cbn in Hfiles.
  destruct (decide (f_Path f = "")) as [|Hne]; [by left|right].
  rewrite bool_decide_eq_false_2 in Hfiles by done. split; [by apply validateFilePath_confined|].
  intros Hki. specialize (Hk Hki). rewrite Forall_forall in Hk. by destruct (Hk f Hin).
Qed.

Lemma Validate_confined_witness :
  let s := MkSpec "" "" [MkFile "/etc/obacht/kiosk/config.env" "" "URL=x"] "display-output" [] None None true in
  one_flavor s /\ UnitName s = "" /\ UnitTemplate s = "" /\
  Forall (fun f => f_Path f = "" \/
            confined_path (f_Path f) /\
            (Kiosk s = true -> has_prefix (f_Path f) "/etc/obacht/kiosk/" = true)) (Files s).
Proof. intros s. apply (Validate_confined s). reflexivity. Defined.
