(* ===== verification/ManagedUnit.v ===== *)
(** * Managed units: internal/runtime/system/managed.go

    The generator of the hardened systemd unit of a managed service.  The
    generator and the policy of [UnitPolicy] are two halves of one contract:
    the theorems say for which specs generation succeeds, and that the text
    does not depend on the order in which hardware is declared. *)

From S2P Require Import Prelude GoStrings GoUrl UnitPolicy SystemSpec.

Inductive gen_error : Type :=
| SpecInvalid (e : spec_error)
| PolicyRejected (e : policy_error).

Definition ManagedUnitName (instanceID : string) : string := UnitPrefix +:+ instanceID +:+ ".service".

(** [filepath.Join] of three elements, the first one not empty. *)
Definition Join3 (a b c : string) : string :=
  Clean (join "/" (filter (fun s => s <> "") [a; b; c])).

Definition managedBinPath (ms : ManagedServiceSpec) : string :=
  Join3 BinRoot (trim_prefix (m_BinaryDigest ms) "sha256:") (m_Binary ms).

(** [strings.Map] with a mapping that drops the C0 controls and DEL. *)
Fixpoint drop_ctl (s : string) : string :=
  match s with
  | "" => ""
  | String a s' => if (code a <? 32)%N || (code a =? 127)%N then drop_ctl s' else String a (drop_ctl s')
  end.

Definition sanitizeDescription (s : string) : string :=
  let s := drop_ctl s in
  if (64 <? slen s)%nat then stake 64 s else s.

(** A line and its line feed. *)
Definition lines_text (ls : list string) : string := fold_right (fun l acc => l +:+ String LF acc) "" ls.

Definition kv (key val : string) : string := key +:+ String "=" val.

Definition device_line (d : string) : string := kv "DeviceAllow" (default "" (device_class d)).

Definition hardware_lines (hw : option ManagedHardware) : list string :=
  match hw with
  | None => []
  | Some hw =>
      map device_line (sort_strings (Devices hw)) ++
      if (0 <? length (Groups hw))%nat
      then [kv "SupplementaryGroups" (join " " (sort_strings (Groups hw)))] else []
  end.

Definition env_keys (env : gmap string string) : list string := sort_strings (map fst (map_to_list env)).

Definition env_line (env : gmap string string) (k : string) : string :=
  kv "Environment" (kv k (default "" (env !! k))).

Definition exec_line (ms : ManagedServiceSpec) : string :=
  fold_left (fun acc a => acc +:+ " " +:+ a) (m_Args ms) (managedBinPath ms).

(** The lines [GenerateManagedUnit] prints. *)
Definition unit_lines (instanceID : string) (ms : ManagedServiceSpec) : list string :=
  let kind := if bool_decide (m_Kind ms = "") then m_Binary ms else m_Kind ms in
  ["[Unit]";
   kv "Description" ("obacht managed service " +:+ instanceID +:+ " (" +:+ sanitizeDescription kind +:+ ")");
   kv "After" "network-online.target"; "";
   "[Service]"; kv "Type" "exec"; kv "ExecStart" (exec_line ms);
   kv "DynamicUser" "yes"; kv "NoNewPrivileges" "yes"; kv "ProtectSystem" "strict";
   kv "ProtectHome" "yes"; kv "PrivateTmp" "yes"; kv "RestrictSUIDSGID" "yes";
   kv "DevicePolicy" "closed"] ++
  hardware_lines (m_Hardware ms) ++
  [kv "StateDirectory" ("obacht-svc/" +:+ instanceID);
   kv "RestrictAddressFamilies" "AF_UNIX AF_INET AF_INET6"; kv "Restart" "always"; kv "RestartSec" "2"] ++
  map (env_line (m_Env ms)) (env_keys (m_Env ms)) ++
  [""; "[Install]"; kv "WantedBy" "multi-user.target"].

Definition GenerateManagedUnit (instanceID : string) (ms : ManagedServiceSpec) : res gen_error string :=
  match managed_validate ms with
  | Err e => Err (SpecInvalid e)
  | Ok _ =>
      let unit := lines_text (unit_lines instanceID ms) in
      match UnitPolicy.Validate (ManagedUnitName instanceID) unit with
      | Err e => Err (PolicyRejected e)
      | Ok _ => Ok unit
      end
  end.

(** ** Reading the generated text back *)

Lemma split_on_lines ls :
  Forall (fun l => mem_byte LF l = false) ls -> split_on LF (lines_text ls) = ls ++ [""].
Proof. induction 1 as [|l ls Hl Hls IH]; [done|].
  change (lines_text (l :: ls)) with (l +:+ String LF (lines_text ls)).
  rewrite split_on_cons by done. by rewrite IH.
Qed.

Lemma lines_text_mem c ls :
  c <> LF -> Forall (fun l => mem_byte c l = false) ls -> mem_byte c (lines_text ls) = false.
Proof.
  intros Hc. induction 1 as [|l ls Hl Hls IH]; [done|].
  change (lines_text (l :: ls)) with (l +:+ String LF (lines_text ls)).
  rewrite mem_byte_app, Hl. change (Ascii.eqb LF c || mem_byte c (lines_text ls) = false). rewrite IH.
  destruct (Ascii.eqb_spec LF c); [congruence|done].
Qed.

Lemma trim_right_id c s : mem_byte c s = false -> trim_right c s = s.
Proof.
  induction s as [|a s IH]; [done|]. cbn. rewrite orb_false_iff. intros [-> Hs]. by rewrite IH.
Qed.

Lemma trim_space_solid a s : solid a = true -> trim_space (String a s) <> "".
Proof.
  intros Ha. unfold trim_space. cbn [mark]. rewrite space_len_solid by done. cbn [strip_l strip_r].
  by destruct (strip_r (mark 0 s)).
Qed.

Lemma has_suffix_last_ne x c a : x <> "" -> has_suffix (String a x) (str1 c) = has_suffix x (str1 c).
Proof.
  intros Hx. cbn. rewrite bool_decide_eq_false_2; [done|]. unfold str1. intros [=]. congruence.
Qed.

Lemma has_suffix_app1 x v c : v <> "" -> has_suffix (x +:+ v) (str1 c) = has_suffix v (str1 c).
Proof.
  intros Hv. induction x as [|a x IH]; [done|]. rewrite sapp_cons, has_suffix_last_ne; [done|].
  by intros [_ ?]%sapp_eq_nil.
Qed.

Lemma not_mem_no_suffix c v : mem_byte c v = false -> has_suffix v (str1 c) = false.
Proof.
  intros Hm. apply not_true_is_false. intros [t ->]%has_suffix_spec.
  rewrite mem_byte_app in Hm. cbn in Hm. rewrite ascii_eqb_refl, orb_true_r in Hm. done.
Qed.

Lemma alpha_facts a :
  is_alpha a = true ->
  solid a = true /\ a <> " "%char /\ a <> TAB /\ a <> "#"%char /\ a <> ";"%char /\ a <> "["%char /\ a <> "="%char.
Proof.
  intros Ha. split.
  - destruct a as [[] [] [] [] [] [] [] []]; vm_compute in Ha |- *; congruence.
  - split_and!; intros ->; vm_compute in Ha; congruence.
Qed.

(** A key and a value the generator may print on a line. *)
Definition key_fit (k : string) : Prop := k <> "" /\ str_all is_alpha k = true.
Definition val_fit (v : string) : Prop := mem_byte CR v = false /\ has_suffix v "\" = false.

Lemma alpha_not_mem c k : is_alpha c = false -> str_all is_alpha k = true -> mem_byte c k = false.
Proof. intros. by eapply str_all_not_mem. Qed.

Lemma kvRe_kv k v : key_fit k -> kvRe (kv k v) = Some (k, v).
Proof.
  intros [Hne Hk]. unfold kvRe, kv.
  assert (cut (k +:+ String "=" v) "=" = Some (k, v)) as ->.
  { apply cut_Some. split; [done|]. by apply alpha_not_mem. }
  by rewrite Hk, bool_decide_eq_false_2.
Qed.

Lemma kv_shape k v :
  key_fit k -> mem_byte CR v = false ->
  trim_right CR (kv k v) = kv k v /\ blank_line (kv k v) = false /\ sectionRe (kv k v) = None.
Proof.
  intros [Hne Hk] Hv.
  assert (trim_right CR (kv k v) = kv k v) as Ht.
  { apply trim_right_id. unfold kv. rewrite mem_byte_app. cbn. rewrite Hv, orb_false_r.
    by apply alpha_not_mem. }
  split; [done|]. unfold blank_line. rewrite Ht. destruct k as [|a k]; [done|].
  cbn in Hk. apply andb_true_iff in Hk as [Ha Hk].
  destruct (alpha_facts a Ha) as (Hs & _ & _ & _ & _ & Hb & _). split.
  - apply bool_decide_eq_false_2. by apply trim_space_solid.
  - unfold sectionRe, inb. rewrite bool_decide_eq_false_2; [done|]. unfold kv. cbn.
    rewrite !elem_of_cons, elem_of_nil. intros H. destruct_or!; by injection H.
Qed.

Lemma kv_directives sec k v raws :
  key_fit k -> mem_byte CR v = false ->
  directives_of sec (kv k v :: raws) = Dir sec k v :: directives_of sec raws.
Proof.
  intros Hk Hv. destruct (kv_shape k v Hk Hv) as (Ht & Hb & Hs). cbn [directives_of].
  by rewrite Ht, Hb, Hs, kvRe_kv.
Qed.

Lemma kv_line_ok k v : key_fit k -> val_fit v -> line_ok (kv k v).
Proof.
  intros Hk [Hv Hb]. destruct (kv_shape k v Hk Hv) as (Ht & _ & _).
  right. cbv zeta. rewrite Ht, kvRe_kv by done.
  assert (has_suffix (kv k v) "\" = false) as ->.
  { unfold kv. change "\" with (str1 "\"). rewrite has_suffix_app1 by done.
    destruct (decide (v = "")) as [->|]; [done|]. by rewrite has_suffix_last_ne. }
  destruct Hk as [Hne Hk]. destruct k as [|a k]; [done|]. cbn in Hk. apply andb_true_iff in Hk as [Ha _].
  destruct (alpha_facts a Ha) as (_ & H1 & H2 & H3 & H4 & _). unfold kv. cbn.
  destruct (Ascii.eqb_spec a " "), (Ascii.eqb_spec a TAB), (Ascii.eqb_spec a "#"),
    (Ascii.eqb_spec a ";"); try congruence.
  split_and!; eauto.
Qed.

(** ** The directives of a generated unit *)

Definition kind_of (ms : ManagedServiceSpec) : string :=
  if bool_decide (m_Kind ms = "") then m_Binary ms else m_Kind ms.

Definition description (instanceID : string) (ms : ManagedServiceSpec) : string :=
  "obacht managed service " +:+ instanceID +:+ " (" +:+ sanitizeDescription (kind_of ms) +:+ ")".

Definition svc (k v : string) : directive := Dir "Service" k v.

Definition device_dir (d : string) : directive := svc "DeviceAllow" (default "" (device_class d)).
Definition group_dirs (gs : list string) : list directive :=
  if (0 <? length gs)%nat then [svc "SupplementaryGroups" (join " " (sort_strings gs))] else [].
Definition hardware_dirs (hw : option ManagedHardware) : list directive :=
  match hw with
  | None => []
  | Some hw => map device_dir (sort_strings (Devices hw)) ++ group_dirs (Groups hw)
  end.
Definition env_dir (env : gmap string string) (k : string) : directive :=
  svc "Environment" (kv k (default "" (env !! k))).

Definition head_dirs (instanceID : string) (ms : ManagedServiceSpec) : list directive :=
  [Dir "Unit" "Description" (description instanceID ms); Dir "Unit" "After" "network-online.target";
   svc "Type" "exec"; svc "ExecStart" (exec_line ms);
   svc "DynamicUser" "yes"; svc "NoNewPrivileges" "yes"; svc "ProtectSystem" "strict";
   svc "ProtectHome" "yes"; svc "PrivateTmp" "yes"; svc "RestrictSUIDSGID" "yes";
   svc "DevicePolicy" "closed"].
Definition mid_dirs (instanceID : string) : list directive :=
  [svc "StateDirectory" ("obacht-svc/" +:+ instanceID);
   svc "RestrictAddressFamilies" "AF_UNIX AF_INET AF_INET6"; svc "Restart" "always"; svc "RestartSec" "2"].

Definition unit_dirs (instanceID : string) (ms : ManagedServiceSpec) : list directive :=
  head_dirs instanceID ms ++ hardware_dirs (m_Hardware ms) ++ mid_dirs instanceID ++
  map (env_dir (m_Env ms)) (env_keys (m_Env ms)) ++ [Dir "Install" "WantedBy" "multi-user.target"].

(** What the values of a generated unit must satisfy. *)
Definition clean_val (v : string) : Prop :=
  mem_byte CR v = false /\ mem_byte LF v = false /\ mem_byte NUL v = false /\ has_suffix v "\" = false.

(** The inputs for which generation is promised to work. *)
Record generable (instanceID : string) (ms : ManagedServiceSpec) : Prop := {
  g_valid : managed_validate ms = Ok tt;
  g_id : idToken instanceID = true;
  g_args : Forall (fun a => execTokenRe a = true /\ contains a ".." = false) (m_Args ms);
  g_env : forall k v, m_Env ms !! k = Some v -> envName k = true /\ str_all envByte v = true;
  g_size : (Z.of_nat (slen (lines_text (unit_lines instanceID ms))) <= MaxUnitSize)%Z
}.

(** Values over an alphabet without control bytes and backslash are clean. *)
Lemma clean_val_all (p : ascii -> bool) v :
  p CR = false -> p LF = false -> p NUL = false -> p "\"%char = false ->
  str_all p v = true -> clean_val v.
Proof.
  intros H1 H2 H3 H4 Hv. unfold clean_val.
  split_and!; [by eapply str_all_not_mem..|].
  apply (not_mem_no_suffix "\"). by eapply str_all_not_mem.
Qed.

Lemma clean_val_app u v : clean_val u -> clean_val v -> v <> "" -> clean_val (u +:+ v).
Proof.
  intros (H1 & H2 & H3 & _) (H5 & H6 & H7 & H8) Hne. unfold clean_val.
  rewrite !mem_byte_app, H1, H2, H3, H5, H6, H7. split_and!; [done..|].
  change "\" with (str1 "\"). by rewrite has_suffix_app1.
Qed.

Lemma idToken_bytes s : idToken s = true -> str_all idByte s = true /\ s <> "".
Proof.
  destruct s as [|a s]; [done|]. cbn. rewrite !andb_true_iff. intros [[Ha Hs] _]. split; [|done].
  split; [|done]. unfold idByte. by rewrite Ha.
Qed.

Lemma drop_ctl_no c s : (code c < 32)%N -> mem_byte c (drop_ctl s) = false.
Proof.
  intros Hc. induction s as [|a s IH]; [done|]. cbn.
  destruct ((code a <? 32)%N || (code a =? 127)%N) eqn:Ha; [done|]. cbn. rewrite IH, orb_false_r.
  apply orb_false_iff in Ha as [Ha _]. apply N.ltb_ge in Ha.
  destruct (Ascii.eqb_spec a c) as [->|]; [lia|done].
Qed.

Lemma stake_no c n s : mem_byte c s = false -> mem_byte c (stake n s) = false.
Proof.
  revert s. induction n as [|n IH]; intros [|a s]; cbn; try done.
  rewrite !orb_false_iff. intros [-> Hs]. auto.
Qed.

Lemma sanitize_no c s : (code c < 32)%N -> mem_byte c (sanitizeDescription s) = false.
Proof.
  intros Hc. unfold sanitizeDescription. cbv zeta.
  destruct (64 <? _)%nat; [apply stake_no|]; by apply drop_ctl_no.
Qed.

Lemma description_clean instanceID ms : idToken instanceID = true -> clean_val (description instanceID ms).
Proof.
  intros [Hid _]%idToken_bytes. unfold description, clean_val.
  rewrite !mem_byte_app, !sanitize_no by done.
  rewrite !(str_all_not_mem idByte _ instanceID) by done. split_and!; [done..|].
  change "\" with (str1 "\"). rewrite !has_suffix_app1; [done|..]; intros H;
    rewrite ?sapp_eq_nil in H; destruct_and?; done.
Qed.

(** ** The command line *)

Lemma contains_dots_mem s : mem_byte "." s = false -> contains s ".." = false.
Proof.
  intros Hm. apply not_true_is_false. intros (x & y & ->)%contains_spec.
  rewrite !mem_byte_app in Hm. cbn in Hm. by rewrite orb_true_r in Hm.
Qed.

Lemma execByte_solid c : execByte c = true -> solid c = true.
Proof. destruct c as [[] [] [] [] [] [] [] []]; vm_compute; congruence. Qed.

Lemma execTokenRe_fit t : execTokenRe t = true -> str_all execByte t = true /\ t <> "".
Proof. unfold execTokenRe. rewrite andb_true_iff, negb_true_iff, bool_decide_eq_false. tauto. Qed.

Lemma exec_line_join ms : exec_line ms = join " " (managedBinPath ms :: m_Args ms).
Proof.
  unfold exec_line. generalize (managedBinPath ms). induction (m_Args ms) as [|a l IH]; intros b; [done|].
  cbn [fold_left]. rewrite IH. destruct l as [|a' l]; [done|].
  change ((b +:+ " " +:+ a) +:+ " " +:+ join " " (a' :: l) = b +:+ " " +:+ (a +:+ " " +:+ join " " (a' :: l))).
  by rewrite !sapp_assoc.
Qed.

(** What [validate] says of the pinned binary. *)
Lemma managed_validate_binary ms :
  managed_validate ms = Ok tt ->
  m_Binary ms = "mediamtx" /\
  exists hex, m_BinaryDigest ms = "sha256:" +:+ hex /\ slen hex = 64 /\ isHexLower hex = true.
Proof.
  unfold managed_validate. rewrite !guard_seq_Ok. intros ([Hb _]%orb_false_iff & _ & Hd & Hx & _).
  apply negb_false_iff in Hb, Hd, Hx. unfold inl in Hb. apply bool_decide_eq_true in Hb.
  unfold digest_shape in Hd. apply andb_true_iff in Hd as [Hp Hlen].
  apply has_prefix_spec in Hp as [hex Hhex]. rewrite Hhex in *. rewrite sdrop_app in Hx.
  apply Nat.eqb_eq in Hlen. rewrite slen_app in Hlen.
  split; [set_solver|]. exists hex. split_and!; [done|lia|done].
Qed.

Lemma managed_validate_hardware ms hw :
  managed_validate ms = Ok tt -> m_Hardware ms = Some hw ->
  Forall (fun g => g ∈ allowedManagedGroups) (Groups hw) /\
  Forall (fun d => is_Some (device_class d)) (Devices hw).
Proof.
  unfold managed_validate. rewrite !guard_seq_Ok, !for_each_seq_Ok.
  intros (_ & _ & _ & _ & _ & _ & _ & _ & H) Hhw. rewrite Hhw, seq_Ok, for_each_seq_Ok, for_each_Ok in H.
  destruct H as [[Hg Hd] _]. split.
  - eapply Forall_impl; [exact Hg|]. intros g. cbv beta. unfold inl.
    rewrite guard_err_Ok, negb_false_iff, bool_decide_eq_true. done.
  - eapply Forall_impl; [exact Hd|]. intros d. cbv beta.
    rewrite guard_err_Ok, negb_false_iff, bool_decide_eq_true. done.
Qed.

Lemma isHexLower_no c s : isHexLower (str1 c) = false -> isHexLower s = true -> mem_byte c s = false.
Proof. intros Hc. apply str_all_not_mem. cbn in Hc. by rewrite andb_true_r in Hc. Qed.

Lemma managedBinPath_eq ms hex :
  m_Binary ms = "mediamtx" -> m_BinaryDigest ms = "sha256:" +:+ hex -> slen hex = 64 ->
  isHexLower hex = true ->
  managedBinPath ms = BinRoot +:+ "/" +:+ hex +:+ "/mediamtx".
Proof.
  intros Hb Hd Hl Hx. unfold managedBinPath. rewrite Hb, Hd, trim_prefix_app.
  assert (hex <> "") as Hne by (intros ->; done).
  assert (mem_byte "/" hex = false) as Hs by (by apply isHexLower_no).
  assert (mem_byte "." hex = false) as Hdot by (by apply isHexLower_no).
  unfold Join3. rewrite !filter_cons, !decide_True, filter_nil by done.
  change (Clean ("/" +:+ join "/" ["opt"; "obacht"; "system"; "bin"; hex; "mediamtx"])
          = "/" +:+ join "/" ["opt"; "obacht"; "system"; "bin"; hex; "mediamtx"]).
  apply Clean_rooted; [|done].
  repeat constructor; try done; intros ->; done.
Qed.

Lemma exec_line_ok ms :
  managed_validate ms = Ok tt ->
  Forall (fun a => execTokenRe a = true /\ contains a ".." = false) (m_Args ms) ->
  validateExecStart (exec_line ms) = Ok tt /\ clean_val (exec_line ms).
Proof.
  intros Hv Ha. destruct (managed_validate_binary ms Hv) as (Hb & hex & Hd & Hl & Hx).
  rewrite exec_line_join. set (bin := managedBinPath ms).
  assert (bin = BinRoot +:+ "/" +:+ hex +:+ "/mediamtx") as Hbin by (by apply managedBinPath_eq).
  assert (str_all execByte hex = true) as Hhex.
  { eapply str_all_impl; [|exact Hx]. intros c. unfold execByte, is_alnum, is_alpha. 
    destruct c as [[] [] [] [] [] [] [] []]; vm_compute; congruence. }
  assert (execTokenRe bin = true /\ contains bin ".." = false) as Htok.
  { rewrite Hbin. split.
    - unfold execTokenRe. rewrite bool_decide_eq_false_2 by done. rewrite !str_all_app, Hhex. done.
    - apply contains_dots_mem. rewrite !mem_byte_app.
      rewrite (isHexLower_no "." hex) by done. done. }
  assert (Forall (fun a => execTokenRe a = true /\ contains a ".." = false) (bin :: m_Args ms)) as Hall
    by (by constructor).
  split.
  - apply validateExecStart_Ok. exists bin, (m_Args ms). split_and!; [|rewrite Hbin|done].
    + apply fields_join. eapply Forall_impl; [exact Hall|].
      intros t [[Ht Hne]%execTokenRe_fit _]. split; [|done]. eapply str_all_impl; [|exact Ht].
      apply execByte_solid.
    + rewrite <- sapp_assoc. apply has_prefix_app.
  - apply (clean_val_all (fun c => execByte c || Ascii.eqb c " ")); [done..|].
    revert Hall. generalize (bin :: m_Args ms). clear. induction 1 as [|t l [[Ht _]%execTokenRe_fit _] Hl IH]; [done|].
    assert (str_all (fun c => execByte c || Ascii.eqb c " ") t = true) as Ht'.
    { eapply str_all_impl; [|exact Ht]. by intros c ->. }
    destruct l as [|u l]; [done|].
    change (join " " (t :: u :: l)) with (t +:+ " " +:+ join " " (u :: l)).
    rewrite !str_all_app, Ht', IH. done.
Qed.

(** ** The generated unit satisfies the policy *)

Definition good_line (l : string) : Prop :=
  line_ok l /\ mem_byte LF l = false /\ mem_byte NUL l = false.

Lemma kv_good k v : key_fit k -> clean_val v -> good_line (kv k v).
Proof.
  intros Hk (H1 & H2 & H3 & H4). split; [by apply kv_line_ok|].
  destruct Hk as [_ Hk]. unfold kv. rewrite !mem_byte_app. cbn -[LF NUL].
  rewrite H2, H3, !(alpha_not_mem _ k) by done. done.
Qed.

Lemma kv_map_directives {A} sec k (f : A -> string) l raws :
  key_fit k -> Forall (fun x => clean_val (f x)) l ->
  directives_of sec (map (fun x => kv k (f x)) l ++ raws)
  = map (fun x => Dir sec k (f x)) l ++ directives_of sec raws.
Proof.
  intros Hk. induction 1 as [|x l [Hx _] Hl IH]; [done|]. cbn [map app].
  by rewrite kv_directives, IH.
Qed.

Lemma kv_map_good {A} k (f : A -> string) l :
  key_fit k -> Forall (fun x => clean_val (f x)) l -> Forall good_line (map (fun x => kv k (f x)) l).
Proof. intros Hk. induction 1; constructor; [by apply kv_good|done]. Qed.

Definition clean_valb (v : string) : bool :=
  negb (mem_byte CR v) && negb (mem_byte LF v) && negb (mem_byte NUL v) && negb (has_suffix v "\").
Lemma clean_valb_spec v : clean_valb v = true -> clean_val v.
Proof. unfold clean_valb, clean_val. rewrite !andb_true_iff, !negb_true_iff. tauto. Qed.

Lemma device_class_allowed d c :
  device_class d = Some c -> c ∈ AllowedDeviceAllow /\ clean_val c.
Proof.
  unfold device_class, allowedManagedDevices. cbn [find fst].
  repeat (case_bool_decide; [intros [= <-]; split; [set_solver|by apply clean_valb_spec]|]). done.
Qed.

Lemma devices_fit hw ms :
  managed_validate ms = Ok tt -> m_Hardware ms = Some hw ->
  Forall (fun d => default "" (device_class d) ∈ AllowedDeviceAllow /\
                   clean_val (default "" (device_class d))) (sort_strings (Devices hw)).
Proof.
  intros Hv Hhw. destruct (managed_validate_hardware ms hw Hv Hhw) as [_ Hd].
  rewrite sort_strings_perm. eapply Forall_impl; [exact Hd|]. intros d [c Hc].
  rewrite Hc. exact (device_class_allowed d c Hc).
Qed.

Lemma groups_fit hw ms :
  managed_validate ms = Ok tt -> m_Hardware ms = Some hw -> Groups hw <> [] ->
  let val := join " " (sort_strings (Groups hw)) in
  clean_val val /\ validateKV "Service" "SupplementaryGroups" val = Ok tt.
Proof.
  intros Hv Hhw Hne. destruct (managed_validate_hardware ms hw Hv Hhw) as [Hg _].
  assert (Forall (fun g => g ∈ allowedManagedGroups) (sort_strings (Groups hw))) as Hs
    by (by rewrite sort_strings_perm).
  assert (sort_strings (Groups hw) <> []) as Hne'.
  { intros H0. apply Hne. apply Permutation_nil_r. by rewrite <- sort_strings_perm, H0. }
  clear Hg Hne. revert Hs Hne'. generalize (sort_strings (Groups hw)). clear. intros gs Hs Hne.
  assert (Forall (fun t => str_all solid t = true /\ t <> "") gs) as Hsolid.
  { eapply Forall_impl; [exact Hs|]. intros g Hg. unfold allowedManagedGroups in Hg.
    repeat (apply elem_of_cons in Hg as [->|Hg]; [split; [reflexivity|done]|]). by apply elem_of_nil in Hg. }
  cbv zeta. split.
  - apply (clean_val_all (fun c => is_lower c || Ascii.eqb c " ")); [done..|].
    clear Hne Hsolid. induction Hs as [|g gs Hg Hs IH]; [done|].
    assert (str_all (fun c => is_lower c || Ascii.eqb c " ") g = true) as Hg'.
    { unfold allowedManagedGroups in Hg.
      repeat (apply elem_of_cons in Hg as [->|Hg]; [reflexivity|]). by apply elem_of_nil in Hg. }
    destruct gs as [|g' gs]; [done|]. change (join " " (g :: g' :: gs)) with (g +:+ " " +:+ join " " (g' :: gs)).
    rewrite !str_all_app, Hg', IH. done.
  - change (match fields (join " " gs) with
            | [] => Err (InvalidValue "SupplementaryGroups")
            | groups => for_each (fun g => guard_err (negb (inb g AllowedGroups))
                                     (InvalidValue "SupplementaryGroups")) groups
            end = Ok tt).
    rewrite fields_join by done. destruct gs as [|g gs]; [done|]. apply for_each_Ok.
    eapply Forall_impl; [exact Hs|]. intros g' Hg'. cbv beta.
    rewrite guard_err_Ok. unfold inb. apply negb_false_iff, bool_decide_eq_true. exact Hg'.
Qed.

Lemma env_fit id ms :
  generable id ms ->
  Forall (fun k => clean_val (kv k (default "" (m_Env ms !! k))) /\
                   envRe (kv k (default "" (m_Env ms !! k))) = true) (env_keys (m_Env ms)).
Proof.
  intros Hg. unfold env_keys. rewrite sort_strings_perm. apply Forall_forall. intros k.
  rewrite list_elem_of_fmap. intros ([k' v] & -> & Hin%elem_of_map_to_list). cbn [fst]. rewrite Hin. change (default "" (Some v)) with v.
  destruct (g_env _ _ Hg k' v Hin) as [Hk Hv].
  assert (forall c, is_alnum c || Ascii.eqb c "_" = false -> mem_byte c k' = false) as Hkm.
  { intros c Hc. unfold envName in Hk. destruct k' as [|a k']; [done|].
    apply andb_true_iff in Hk as [Ha Hk]. cbn. apply orb_false_iff. split.
    - destruct (Ascii.eqb_spec a c) as [->|]; [|done]. unfold is_alnum in Hc. 
      rewrite !orb_false_iff in Hc. destruct Hc as [[Hc _] Hu]. by rewrite Hc, Hu in Ha.
    - by eapply str_all_not_mem; [|exact Hk]. }
  split.
  - unfold clean_val, kv. rewrite !mem_byte_app. rewrite !Hkm by done. cbn -[CR LF NUL].
    split_and!; [by apply (str_all_not_mem envByte)..|]. change "\" with (str1 "\").
    rewrite has_suffix_app1 by done. destruct (decide (v = "")) as [->|]; [done|].
    rewrite has_suffix_last_ne by done. apply not_mem_no_suffix. by apply (str_all_not_mem envByte).
  - unfold envRe, kv. assert (cut (k' +:+ String "=" v) "=" = Some (k', v)) as ->; [|by rewrite Hk, Hv].
    apply cut_Some. split; [done|]. by apply Hkm.
Qed.

Lemma hardware_lines_directives id ms raws :
  generable id ms ->
  directives_of "Service" (hardware_lines (m_Hardware ms) ++ raws)
  = hardware_dirs (m_Hardware ms) ++ directives_of "Service" raws /\
  Forall good_line (hardware_lines (m_Hardware ms)).
Proof.
  intros Hg. unfold hardware_lines, hardware_dirs. destruct (m_Hardware ms) as [hw|] eqn:Hhw; [|done].
  pose proof (devices_fit hw ms (g_valid _ _ Hg) Hhw) as Hd.
  assert (Forall (fun d => clean_val (default "" (device_class d))) (sort_strings (Devices hw))) as Hd'
    by (eapply Forall_impl; [exact Hd|]; by intros ? [_ ?]).
  assert (key_fit "DeviceAllow") as Hk1 by done. assert (key_fit "SupplementaryGroups") as Hk2 by done.
  rewrite <- !app_assoc. unfold device_line. rewrite kv_map_directives by done. unfold group_dirs.
  destruct (0 <? length (Groups hw))%nat eqn:Hn.
  - assert (Groups hw <> []) as Hne by (intros Hz; rewrite Hz in Hn; discriminate Hn).
    destruct (groups_fit hw ms (g_valid _ _ Hg) Hhw Hne) as [Hc _].
    split; [cbn [app]; rewrite kv_directives; [done|done|by destruct Hc]|].
    apply Forall_app. split; [by apply kv_map_good|]. apply Forall_cons. split; [by apply kv_good|apply Forall_nil_2].
  - split; [done|]. apply Forall_app. split; [by apply kv_map_good|done].
Qed.

(** The fixed lines are good by evaluation. *)
Definition good_static (k v : string) : bool :=
  negb (bool_decide (k = "")) && str_all is_alpha k && clean_valb v.
Lemma good_static_spec k v : good_static k v = true -> key_fit k /\ clean_val v.
Proof.
  unfold good_static. rewrite !andb_true_iff, negb_true_iff, bool_decide_eq_false.
  intros [[??] ?%clean_valb_spec]. done.
Qed.

Ltac static := match goal with
  | |- good_line (kv ?k ?v) => apply kv_good; apply (good_static_spec k v); reflexivity
  | |- key_fit ?k => split; [discriminate|reflexivity]
  end.

Lemma blank_good : good_line "".
Proof. split; [by left|done]. Qed.

Lemma section_good s : s ∈ ["[Unit]"; "[Service]"; "[Install]"] -> good_line s.
Proof.
  intros Hs. repeat (apply elem_of_cons in Hs as [->|Hs];
    [split; [right; split_and!; try reflexivity; left; eexists; reflexivity|done]|]).
  by apply elem_of_nil in Hs.
Qed.

Lemma id_clean id : idToken id = true -> clean_val ("obacht-svc/" +:+ id).
Proof.
  intros [Hid Hne]%idToken_bytes. apply clean_val_app; [by apply clean_valb_spec| |done].
  by apply (clean_val_all idByte).
Qed.

Lemma dir_unit sec l : directives_of sec ("[Unit]" :: l) = directives_of "Unit" l.
Proof. reflexivity. Qed.
Lemma dir_service sec l : directives_of sec ("[Service]" :: l) = directives_of "Service" l.
Proof. reflexivity. Qed.
Lemma dir_install sec l : directives_of sec ("[Install]" :: l) = directives_of "Install" l.
Proof. reflexivity. Qed.
Lemma dir_blank sec l : directives_of sec ("" :: l) = directives_of sec l.
Proof. reflexivity. Qed.

Lemma unit_lines_good id ms :
  generable id ms ->
  Forall good_line (unit_lines id ms) /\
  directives_of "" (unit_lines id ms ++ [""]) = unit_dirs id ms.
Proof.
  intros Hg. destruct (hardware_lines_directives id ms [] Hg) as [_ Hhw].
  pose proof (env_fit id ms Hg) as Henv.
  assert (Forall (fun k => clean_val (kv k (default "" (m_Env ms !! k)))) (env_keys (m_Env ms))) as Henv'
    by (eapply Forall_impl; [exact Henv|]; by intros ? [? _]).
  destruct (exec_line_ok ms (g_valid _ _ Hg) (g_args _ _ Hg)) as [_ Hex].
  pose proof (description_clean id ms (g_id _ _ Hg)) as Hdesc.
  pose proof (id_clean id (g_id _ _ Hg)) as Hid.
  unfold unit_lines, unit_dirs. cbv zeta. fold (kind_of ms). fold (description id ms). split.
  - repeat (apply Forall_app; split).
    + repeat (apply Forall_cons; split); try apply Forall_nil_2;
        try apply blank_good; try (apply section_good; set_solver); try static;
        by apply kv_good.
    + done.
    + repeat (apply Forall_cons; split); try apply Forall_nil_2; try static. by apply kv_good.
    + unfold env_line. by apply kv_map_good.
    + repeat (apply Forall_cons; split); try apply Forall_nil_2;
        try apply blank_good; try (apply section_good; set_solver); static.
  - rewrite <- !app_assoc. cbn [app].
    rewrite dir_unit.
    rewrite (kv_directives _ "Description"), (kv_directives _ "After") by (done || apply Hdesc).
    rewrite dir_blank, dir_service. rewrite (kv_directives _ "Type") by done.
    rewrite (kv_directives _ "ExecStart") by (done || apply Hex).
    rewrite !(kv_directives _ _ "yes"), !(kv_directives _ _ "strict"), (kv_directives _ _ "yes"),
      (kv_directives _ _ "yes"), (kv_directives _ _ "yes"), (kv_directives _ _ "closed") by done.
    rewrite (proj1 (hardware_lines_directives id ms _ Hg)).
    rewrite (kv_directives _ "StateDirectory") by (done || apply Hid).
    rewrite (kv_directives _ "RestrictAddressFamilies"), (kv_directives _ "Restart"),
      (kv_directives _ "RestartSec") by done.
    unfold env_line. rewrite kv_map_directives by done.
    rewrite dir_blank, dir_install, (kv_directives _ "WantedBy"), dir_blank by done.
    reflexivity.
Qed.

(** *** Counting *)

Lemma occurs_app id l1 l2 : occurs id (l1 ++ l2) = occurs id l1 + occurs id l2.
Proof. unfold occurs. by rewrite filter_app, length_app. Qed.

Lemma occurs_map_ne {A} id (f : A -> directive) l :
  (forall x, d_id (f x) <> id) -> occurs id (map f l) = 0.
Proof.
  intros Hne. induction l as [|x l IH]; [done|]. cbn [map]. rewrite occurs_cons, IH.
  by rewrite decide_False.
Qed.

Lemma occurs_env id env : id <> "Service/Environment" -> occurs id (map (env_dir env) (env_keys env)) = 0.
Proof. intros Hne. apply occurs_map_ne. intros x Hx. apply Hne. by rewrite <- Hx. Qed.

(** Everything but the repeatable directives, as identifiers. *)
Definition group_count (hw : option ManagedHardware) : nat :=
  match hw with Some hw => if (0 <? length (Groups hw))%nat then 1 else 0 | None => 0 end.

Lemma occurs_hardware id hw :
  id <> "Service/DeviceAllow" ->
  occurs id (hardware_dirs hw) = if decide ("Service/SupplementaryGroups" = id) then group_count hw else 0.
Proof.
  intros Hne. destruct hw as [hw|]; cbn [hardware_dirs group_count]; [|by case_decide].
  rewrite occurs_app, occurs_map_ne by (intros x Hx; apply Hne; by rewrite <- Hx).
  unfold group_dirs. destruct (0 <? _)%nat; [|by case_decide].
  rewrite occurs_cons, occurs_nil. change (d_id _) with "Service/SupplementaryGroups".
  by case_decide.
Qed.

Lemma occurs_unit id inst ms :
  id <> "Service/DeviceAllow" -> id <> "Service/Environment" ->
  occurs id (unit_dirs inst ms) =
  occurs id (head_dirs inst ms) +
  ((if decide ("Service/SupplementaryGroups" = id) then group_count (m_Hardware ms) else 0) +
   (occurs id (mid_dirs inst) + (0 + occurs id [Dir "Install" "WantedBy" "multi-user.target"]))).
Proof.
  intros H1 H2. unfold unit_dirs. rewrite !occurs_app. by rewrite occurs_hardware, occurs_env.
Qed.

Lemma ManagedUnitName_ok id : idToken id = true -> UnitNameRe (ManagedUnitName id) = true.
Proof.
  intros Hid. unfold UnitNameRe, ManagedUnitName.
  assert (strip_prefix (UnitPrefix +:+ id +:+ ".service") UnitPrefix = Some (id +:+ ".service")) as ->
    by by apply strip_prefix_Some.
  assert (strip_suffix (id +:+ ".service") ".service" = Some id) as -> by by apply strip_suffix_Some.
  done.
Qed.

Lemma stateDirRe_ok id : idToken id = true -> stateDirRe ("obacht-svc/" +:+ id) = true.
Proof.
  intros Hid. unfold stateDirRe.
  by assert (strip_prefix ("obacht-svc/" +:+ id) "obacht-svc/" = Some id) as ->
    by by apply strip_prefix_Some.
Qed.

Lemma dir_ok_svc k v : validateKV "Service" k v = Ok tt -> dir_ok (svc k v).
Proof. by split. Qed.

Lemma unit_dirs_ok id ms : generable id ms -> Forall dir_ok (unit_dirs id ms).
Proof.
  intros Hg. unfold unit_dirs. repeat (apply Forall_app; split).
  - destruct (exec_line_ok ms (g_valid _ _ Hg) (g_args _ _ Hg)) as [Hex _].
    repeat (apply Forall_cons; split); try apply Forall_nil_2; try (split; [discriminate|reflexivity]).
    + split; [discriminate|].
      change (guard_err (bool_decide (description id ms = "") || contains_any (description id ms) (str1 NUL))
                (InvalidValue "Description") = Ok tt).
      rewrite guard_err_Ok, bool_decide_eq_false_2 by done. cbn [orb].
      destruct (description_clean id ms (g_id _ _ Hg)) as (_ & _ & Hn & _).
      revert Hn. unfold contains_any. rewrite mem_byte_any. generalize (description id ms). clear.
      intros s. induction s as [|a s IH]; [done|]. cbn [str_any mem_byte str1]. rewrite !orb_false_iff.
      intros [Ha Hs]. split; [|auto]. split; [|done]. destruct (Ascii.eqb_spec NUL a) as [<-|]; done.
    + apply dir_ok_svc. exact Hex.
  - unfold hardware_dirs. destruct (m_Hardware ms) as [hw|] eqn:Hhw; [|done]. apply Forall_app. split.
    + apply Forall_map. eapply Forall_impl; [exact (devices_fit hw ms (g_valid _ _ Hg) Hhw)|].
      intros d [Hd _]. apply dir_ok_svc.
      change (guard_err (negb (inb (default "" (device_class d)) AllowedDeviceAllow))
                (InvalidValue "DeviceAllow") = Ok tt).
      by rewrite guard_err_Ok, negb_false_iff; apply bool_decide_eq_true.
    + unfold group_dirs. destruct (0 <? _)%nat eqn:Hn; [|done]. apply Forall_cons. split; [|done].
      apply dir_ok_svc.
      assert (Groups hw <> []) as Hne by (intros Hz; rewrite Hz in Hn; discriminate Hn).
      exact (proj2 (groups_fit hw ms (g_valid _ _ Hg) Hhw Hne)).
  - repeat (apply Forall_cons; split); try apply Forall_nil_2; try (split; [discriminate|reflexivity]).
    apply dir_ok_svc.
    change (guard_err (negb (stateDirRe ("obacht-svc/" +:+ id))) (InvalidValue "StateDirectory") = Ok tt).
    by rewrite stateDirRe_ok by apply (g_id _ _ Hg).
  - apply Forall_map. eapply Forall_impl; [exact (env_fit id ms Hg)|]. intros k [_ He].
    apply dir_ok_svc. unfold compose.
    change (guard_err (negb (envRe (kv k (default "" (m_Env ms !! k))))) (InvalidValue "Environment") = Ok tt).
    by rewrite He.
  - apply Forall_cons. split; [|done]. split; [discriminate|reflexivity].
Qed.

Lemma unit_dirs_single id ms d :
  d ∈ unit_dirs id ms -> d_key d ∉ repeatableKeys -> occurs (d_id d) (unit_dirs id ms) = 1.
Proof.
  unfold unit_dirs at 1. rewrite !elem_of_app. intros Hin Hrep.
  assert (forall sec k v, d = Dir sec k v -> mem_byte "/" sec = false ->
            d_id d <> "Service/DeviceAllow" /\ d_id d <> "Service/Environment") as Hid.
  { intros sec k v -> Hsec. split; intros Heq; apply Hrep; cbn [d_key].
    - pose proof (d_id_key (Dir sec k v) (svc "DeviceAllow" "") Hsec eq_refl Heq) as Hk.
      cbn in Hk. subst k. set_solver.
    - pose proof (d_id_key (Dir sec k v) (svc "Environment" "") Hsec eq_refl Heq) as Hk.
      cbn in Hk. subst k. set_solver. }
  destruct Hin as [Hin|[Hin|[Hin|[Hin|Hin]]]].
  - repeat (apply elem_of_cons in Hin as [->|Hin];
      [rewrite occurs_unit by (eapply Hid; done); reflexivity|]). by apply elem_of_nil in Hin.
  - destruct (m_Hardware ms) as [hw|] eqn:Hhw; [|by apply elem_of_nil in Hin].
    cbn [hardware_dirs] in Hin. apply elem_of_app in Hin as [Hin|Hin].
    + apply list_elem_of_fmap in Hin as (x & -> & _). cbn in Hrep. set_solver.
    + unfold group_dirs in Hin. destruct (0 <? _)%nat eqn:Hn; [|by apply elem_of_nil in Hin].
      apply list_elem_of_singleton in Hin as ->. rewrite occurs_unit by (eapply Hid; done).
      rewrite Hhw. cbn [group_count]. rewrite Hn. reflexivity.
  - repeat (apply elem_of_cons in Hin as [->|Hin];
      [rewrite occurs_unit by (eapply Hid; done); reflexivity|]). by apply elem_of_nil in Hin.
  - apply list_elem_of_fmap in Hin as (x & -> & _). cbn in Hrep. set_solver.
  - apply list_elem_of_singleton in Hin as ->. rewrite occurs_unit by (eapply Hid; done). reflexivity.
Qed.

Lemma generated_policy id ms :
  generable id ms -> loop_policy (ManagedUnitName id) (lines_text (unit_lines id ms)).
Proof.
  intros Hg. destruct (unit_lines_good id ms Hg) as [Hl Hd].
  assert (split_on LF (lines_text (unit_lines id ms)) = unit_lines id ms ++ [""]) as Hsp.
  { apply split_on_lines. eapply Forall_impl; [exact Hl|]. by intros ? (_ & ? & _). }
  assert (directives (lines_text (unit_lines id ms)) = unit_dirs id ms) as Hdir.
  { unfold directives. by rewrite Hsp. }
  constructor; rewrite ?Hdir, ?Hsp.
  - apply ManagedUnitName_ok, Hg.
  - discriminate.
  - apply Hg.
  - apply lines_text_mem; [done|]. eapply Forall_impl; [exact Hl|]. by intros ? (_ & _ & ?).
  - apply Forall_app. split; [eapply Forall_impl; [exact Hl|]; by intros ? (? & _)|].
    apply Forall_cons. split; [by left|done].
  - by apply unit_dirs_ok.
  - apply unit_dirs_single.
  - intros k w Hin. unfold requiredExact in Hin.
    repeat (apply elem_of_cons in Hin as [[= -> ->]|Hin];
      [rewrite occurs_unit by discriminate; vm_compute; discriminate|]). by apply elem_of_nil in Hin.
  - by rewrite occurs_unit by discriminate.
  - by rewrite occurs_unit by discriminate.
  - by rewrite occurs_unit by discriminate.
Qed.

(** C21: the generator and the policy are two halves of one contract: for every
    spec that validates, with an identifier, arguments and environment of the
    accepted alphabets and a text within the size limit, generation succeeds,
    its result is the text of the printed lines, and it satisfies the policy
    the root helper enforces.  The policy never rejects what the generator
    stages for such inputs. *)
Theorem GenerateManagedUnit_complete id ms :
  generable id ms ->
  GenerateManagedUnit id ms = Ok (lines_text (unit_lines id ms)) /\
  unit_policy (ManagedUnitName id) (lines_text (unit_lines id ms)).
Proof.
  intros Hg. pose proof (generated_policy id ms Hg) as Hp. split; [|by apply policy_iff].
  unfold GenerateManagedUnit. rewrite (g_valid _ _ Hg). cbv zeta.
  apply Validate_policy in Hp. by rewrite Hp.
Qed.

Definition sample_hex : string := "0123456789abcdef0123456789abcdef0123456789abcdef0123456789abcdef".
Definition sample_ms : ManagedServiceSpec :=
  MkManagedServiceSpec "rtsp" "mediamtx" "https://github.com/bluenviron/mediamtx/releases/x.tgz"
    ("sha256:" +:+ sample_hex) "tgz" ["/etc/obacht/svc/cam1/m.yml"] {["MTX_PORT" := "8554"]}
    (Some (MkManagedHardware ["video"; "render"] ["/dev/video*"; "/dev/dri/*"])) [8554%Z].

Lemma sample_generable : generable "cam1" sample_ms.
Proof.
  constructor; [vm_compute; reflexivity|vm_compute; reflexivity| | |vm_compute; discriminate].
  - apply Forall_cons. split; [|done]. split; vm_compute; reflexivity.
  - intros k v Hkv. change (({["MTX_PORT" := "8554"]} : gmap string string) !! k = Some v) in Hkv.
    apply lookup_singleton_Some in Hkv as [<- <-]. split; vm_compute; reflexivity.
Qed.

Lemma GenerateManagedUnit_complete_witness :
  GenerateManagedUnit "cam1" sample_ms = Ok (lines_text (unit_lines "cam1" sample_ms)) /\
  unit_policy (ManagedUnitName "cam1") (lines_text (unit_lines "cam1" sample_ms)).
Proof. apply (GenerateManagedUnit_complete "cam1" sample_ms). exact sample_generable. Defined.

(** Two specs that differ in the order of their hardware grants only. *)
Definition same_hardware (h1 h2 : option ManagedHardware) : Prop :=
  match h1, h2 with
  | None, None => True
  | Some a, Some b => Groups a ≡ₚ Groups b /\ Devices a ≡ₚ Devices b
  | _, _ => False
  end.

(** The text of a generated unit does not depend on the order in which the
    manifest lists devices and groups, so a reordered manifest leaves the unit
    unchanged and the reconciler does not restart it. *)
Theorem GenerateManagedUnit_stable id m hw1 hw2 :
  same_hardware hw1 hw2 ->
  let with_hw hw := MkManagedServiceSpec (m_Kind m) (m_Binary m) (m_BinaryURL m) (m_BinaryDigest m)
                      (m_Archive m) (m_Args m) (m_Env m) hw (m_ListenPorts m) in
  is_ok (managed_validate (with_hw hw1)) = is_ok (managed_validate (with_hw hw2)) /\
  forall u1 u2, GenerateManagedUnit id (with_hw hw1) = Ok u1 ->
                GenerateManagedUnit id (with_hw hw2) = Ok u2 -> u1 = u2.
Proof.
  intros Hhw with_hw.
  assert (hardware_lines hw1 = hardware_lines hw2) as Hl.
  { unfold hardware_lines. destruct hw1 as [a|], hw2 as [b|]; try done. destruct Hhw as [Hg Hd].
    by rewrite (sort_strings_unique _ _ Hd), (sort_strings_unique _ _ Hg), (Permutation_length Hg). }
  assert (unit_lines id (with_hw hw1) = unit_lines id (with_hw hw2)) as Hu.
  { unfold unit_lines. cbn [m_Hardware with_hw]. by rewrite Hl. }
  split.
  - apply eq_true_iff_eq. unfold is_ok.
    assert (forall hw, match managed_validate (with_hw hw) with Ok _ => true | Err _ => false end = true <->
                       managed_validate (with_hw hw) = Ok tt) as Hok.
    { intros hw. by destruct (managed_validate (with_hw hw)) as [[]|]. }
    rewrite !Hok. unfold managed_validate. rewrite !guard_seq_Ok, !for_each_seq_Ok, !seq_Ok.
    cbn [with_hw m_Binary m_BinaryURL m_BinaryDigest m_Archive m_Args m_Env m_Hardware m_ListenPorts].
    assert (forall a b, same_hardware a b ->
      match a with
      | Some h => for_each (fun g => guard_err (negb (inl g allowedManagedGroups)) (GroupNotAllowed g)) (Groups h) ;;!
                  for_each (fun d => guard_err (negb (bool_decide (is_Some (device_class d)))) (DeviceNotAllowed d)) (Devices h)
      | None => Ok tt end = Ok tt ->
      match b with
      | Some h => for_each (fun g => guard_err (negb (inl g allowedManagedGroups)) (GroupNotAllowed g)) (Groups h) ;;!
                  for_each (fun d => guard_err (negb (bool_decide (is_Some (device_class d)))) (DeviceNotAllowed d)) (Devices h)
      | None => Ok tt end = Ok tt) as Hperm.
    { intros [a|] [b|] Hab; try done. destruct Hab as [Hg Hd]. rewrite !seq_Ok, !for_each_Ok.
      by rewrite Hg, Hd. }
    assert (same_hardware hw2 hw1) as Hsym.
    { destruct hw1, hw2; try done. by destruct Hhw; split. }
    pose proof (Hperm _ _ Hhw). pose proof (Hperm _ _ Hsym). tauto.
  - intros u1 u2. unfold GenerateManagedUnit. rewrite Hu. cbv zeta.
    destruct (managed_validate (with_hw hw1)); [|discriminate].
    destruct (managed_validate (with_hw hw2)); [|discriminate].
    destruct (UnitPolicy.Validate _ _); [|discriminate]. congruence.
Qed.

Lemma GenerateManagedUnit_stable_witness :
  let hw1 := Some (MkManagedHardware ["video"; "render"] ["/dev/video*"; "/dev/dri/*"]) in
  let hw2 := Some (MkManagedHardware ["render"; "video"] ["/dev/dri/*"; "/dev/video*"]) in
  let with_hw hw := MkManagedServiceSpec (m_Kind sample_ms) (m_Binary sample_ms) (m_BinaryURL sample_ms)
                      (m_BinaryDigest sample_ms) (m_Archive sample_ms) (m_Args sample_ms)
                      (m_Env sample_ms) hw (m_ListenPorts sample_ms) in
  is_ok (managed_validate (with_hw hw1)) = is_ok (managed_validate (with_hw hw2)) /\
  forall u1 u2, GenerateManagedUnit "cam1" (with_hw hw1) = Ok u1 ->
                GenerateManagedUnit "cam1" (with_hw hw2) = Ok u2 -> u1 = u2.
Proof.
  intros hw1 hw2 with_hw.
  apply (GenerateManagedUnit_stable "cam1" sample_ms hw1 hw2).
  split; apply perm_swap.
Defined.

(** A staged unit whose description carries a carriage return inside the line:
    the policy splits on line feeds only, so the second directive is invisible
    to it. *)
Definition cr_unit : string :=
  lines_text (map (fun l => if has_prefix l "Description="
                            then "Description=x" +:+ String CR "ExecStartPre=/bin/sh" else l)
                  (unit_lines "cam1" sample_ms)).
Lemma Validate_accepts_cr : UnitPolicy.Validate (ManagedUnitName "cam1") cr_unit = Ok tt.
Proof. vm_compute. reflexivity. Qed.
