(* ===== verification/Store.v ===== *)
(** * The device database: internal/store

    The SQLite file is a record of tables; a statement that violates a CHECK
    or a FOREIGN KEY of the schema (internal/store/migrations) returns an error
    and leaves the tables as they were, and a DELETE cascades the way the
    schema says.  The insertion of an audit row can be refused by the database
    ([InsertAudit]).  The pool holds one connection, so every method is one atomic
    step.  Times are Unix seconds; a zero [time.Time] is [None].  The
    [created_at] columns of locks and secrets are never read and left out. *)

From S2P Require Import Prelude GoStrings Codec.

Inductive store_error : Type :=
| Required | NotFound | CheckFailed | ForeignKey | LockHeld | EmptyNonce
| IOFailed | BindingNeeds | BindingBoth | AuthTogether | LengthRange (n : Z) | UnknownCharset (c : string).

Definition RuntimeContainer : string := "container".
Definition RuntimeCompose : string := "compose".
Definition RuntimeSystem : string := "system".
Definition DesiredInstalled : string := "installed".
Definition DesiredStopped : string := "stopped".
Definition DesiredRemoved : string := "removed".

Record Instance := MkInstance {
  ID : string;
  TemplateID : string;
  Runtime : string;
  Version : string;
  DesiredState : string;
  ConfigJSON : string;
  ObservedState : string;
  ObservedJSON : string;
  ObservedAt : option Z;
  ServiceReady : string;
  ReadyAt : option Z;
  CreatedAt : option Z;
  UpdatedAt : option Z
}.

Definition DomainStatusPending : string := "pending".
Definition DomainStatusClaiming : string := "claiming".
Definition DomainStatusReady : string := "ready".
Definition DomainStatusBound : string := "bound".
Definition DomainStatusError : string := "error".
Definition DomainStatusRemoved : string := "removed".

Record Domain := MkDomain {
  D_Domain : string;
  DesiredStatus : string;
  ObservedStatus : string;
  CertNotAfter : option Z;
  CertIssuer : string;
  LastError : string;
  BasicAuthUser : string;
  BasicAuthHash : string;
  D_CreatedAt : option Z;
  D_UpdatedAt : option Z
}.

Record IngressBinding := MkBinding {
  B_Domain : string;
  B_InstanceID : string;
  B_ServiceName : string;
  LocalPort : Z;
  Mode : string;
  PathPrefix : string
}.

Record InstanceService := MkService {
  S_InstanceID : string;
  S_ServiceName : string;
  TargetType : string;
  Target : string;
  AppPath : string
}.

Record TemplateSecret := MkTemplateSecret { T_Value : string; T_Length : Z; T_Charset : string }.

Record AuditRow := MkAuditRow {
  Seq : Z;
  TS : Z;
  Op : string;
  Actor : string;
  A_Target : string;
  Result : string;
  ParamsHash : string;
  ParamsSummary : string;
  ErrorMessage : string
}.

(** ** Rows: nullable columns are options *)
Record instance_row := IRow {
  r_template : string;
  r_runtime : string;
  r_version : string;
  r_desired : string;
  r_config : string;
  r_observed_state : option string;
  r_observed_json : option string;
  r_observed_at : option Z;
  r_service_ready : string;
  r_ready_at : option Z;
  r_created : Z;
  r_updated : Z
}.

Record domain_row := DRow {
  d_status : string;
  d_desired : option string;
  d_observed : option string;
  d_cert_not_after : option Z;
  d_cert_issuer : option string;
  d_last_error : option string;
  d_auth_user : string;
  d_auth_hash : string;
  d_created : Z;
  d_updated : Z
}.

Record binding_row := BRow {
  b_instance : option string;
  b_service : option string;
  b_local_port : Z;
  b_mode : string;
  b_prefix : string
}.

Record service_row := SRow { s_type : string; s_target : string; s_app_path : option string }.

Record DB := MkDB {
  instances : gmap string instance_row;
  services : gmap (string * string) service_row;
  domains : gmap string domain_row;
  bindings : gmap string binding_row;
  locks : gmap string string;
  instance_secrets : gmap string string;
  template_secrets : gmap (string * string) TemplateSecret;
  agent_meta : gmap string string;
  system_settings : gmap string (string * Z);
  nonces : gmap string Z;
  audit_log : list AuditRow;  (* newest first *)
  audit_last : Z              (* sqlite_sequence of the AUTOINCREMENT key *)
}.

(** The database after all migrations on a new file, at time [now]. *)
Definition fresh_db (now : Z) : DB :=
  MkDB ∅ ∅ ∅ ∅ ∅ ∅ ∅ {["schema_version" := "3"]}
    {["power_mode" := ("false", now); "security_mode" := ("v1", now)]} ∅ [] 0.

Definition set_instances f db := MkDB (f (instances db)) (services db) (domains db) (bindings db) (locks db)
  (instance_secrets db) (template_secrets db) (agent_meta db) (system_settings db) (nonces db) (audit_log db) (audit_last db).
Definition set_services f db := MkDB (instances db) (f (services db)) (domains db) (bindings db) (locks db)
  (instance_secrets db) (template_secrets db) (agent_meta db) (system_settings db) (nonces db) (audit_log db) (audit_last db).
Definition set_domains f db := MkDB (instances db) (services db) (f (domains db)) (bindings db) (locks db)
  (instance_secrets db) (template_secrets db) (agent_meta db) (system_settings db) (nonces db) (audit_log db) (audit_last db).
Definition set_bindings f db := MkDB (instances db) (services db) (domains db) (f (bindings db)) (locks db)
  (instance_secrets db) (template_secrets db) (agent_meta db) (system_settings db) (nonces db) (audit_log db) (audit_last db).
Definition set_locks f db := MkDB (instances db) (services db) (domains db) (bindings db) (f (locks db))
  (instance_secrets db) (template_secrets db) (agent_meta db) (system_settings db) (nonces db) (audit_log db) (audit_last db).
Definition set_instance_secrets f db := MkDB (instances db) (services db) (domains db) (bindings db) (locks db)
  (f (instance_secrets db)) (template_secrets db) (agent_meta db) (system_settings db) (nonces db) (audit_log db) (audit_last db).
Definition set_template_secrets f db := MkDB (instances db) (services db) (domains db) (bindings db) (locks db)
  (instance_secrets db) (f (template_secrets db)) (agent_meta db) (system_settings db) (nonces db) (audit_log db) (audit_last db).
Definition set_agent_meta f db := MkDB (instances db) (services db) (domains db) (bindings db) (locks db)
  (instance_secrets db) (template_secrets db) (f (agent_meta db)) (system_settings db) (nonces db) (audit_log db) (audit_last db).
Definition set_system_settings f db := MkDB (instances db) (services db) (domains db) (bindings db) (locks db)
  (instance_secrets db) (template_secrets db) (agent_meta db) (f (system_settings db)) (nonces db) (audit_log db) (audit_last db).
Definition set_nonces f db := MkDB (instances db) (services db) (domains db) (bindings db) (locks db)
  (instance_secrets db) (template_secrets db) (agent_meta db) (system_settings db) (f (nonces db)) (audit_log db) (audit_last db).
Definition set_audit rows last db := MkDB (instances db) (services db) (domains db) (bindings db) (locks db)
  (instance_secrets db) (template_secrets db) (agent_meta db) (system_settings db) (nonces db) rows last.

(** A method that changes the database: its result and the new database. *)
Notation M A := (DB -> res store_error A * DB).
Definition ok {A} (a : A) : M A := fun db => (Ok a, db).
Definition fail {A} (e : store_error) : M A := fun db => (Err e, db).
Definition write (f : DB -> DB) : M unit := fun db => (Ok tt, f db).

Definition emptyb (s : string) : bool := bool_decide (s = "").
Definition oneof (s : string) (l : list string) : bool := bool_decide (s ∈ l).
Definition has {V} (m : gmap string V) (k : string) : bool := bool_decide (is_Some (m !! k)).

(** [CHECK] constraints of the schema. *)
Definition runtimes : list string := ["container"; "system"; "compose"].
Definition desired_states : list string := ["installed"; "stopped"; "removed"].
Definition target_types : list string := ["host_port"; "docker_dns"; "unix_socket"].
Definition domain_statuses : list string := ["pending"; "claiming"; "ready"; "error"].
Definition binding_modes : list string := ["root"; "path"].

(** ** instances.go *)

Definition UpsertInstance (inst : Instance) (now : Z) : M unit := fun db =>
  if emptyb (ID inst) || emptyb (TemplateID inst) || emptyb (Runtime inst) || emptyb (DesiredState inst)
  then fail Required db
  else if negb (oneof (Runtime inst) runtimes && oneof (DesiredState inst) desired_states)
  then fail CheckFailed db
  else
    let created := default now (CreatedAt inst) in
    let row := match instances db !! ID inst with
               | Some r => IRow (TemplateID inst) (Runtime inst) (Version inst) (DesiredState inst)
                             (ConfigJSON inst) (r_observed_state r) (r_observed_json r) (r_observed_at r)
                             (r_service_ready r) (r_ready_at r) (r_created r) now
               | None => IRow (TemplateID inst) (Runtime inst) (Version inst) (DesiredState inst)
                           (ConfigJSON inst) None None None "" None created now
               end in
    write (set_instances (fun m => <[ID inst := row]> m)) db.

(** A stored time is read back only when it is positive. *)
Definition read_time (t : option Z) : option Z :=
  let v := default 0%Z t in if (0 <? v)%Z then Some v else None.

Definition readInstance (id : string) (r : instance_row) : Instance :=
  MkInstance id (r_template r) (r_runtime r) (r_version r) (r_desired r) (r_config r)
    (default "" (r_observed_state r)) (default "" (r_observed_json r)) (read_time (r_observed_at r))
    (r_service_ready r) (read_time (r_ready_at r)) (Some (r_created r)) (Some (r_updated r)).

Definition GetInstance (id : string) (db : DB) : res store_error Instance :=
  match instances db !! id with
  | Some r => Ok (readInstance id r)
  | None => Err NotFound
  end.

(** [ORDER BY created_at ASC]; SQL leaves the order of ties open. *)
Definition created_le (a b : string * instance_row) : Prop := (r_created a.2 <= r_created b.2)%Z.
#[export] Instance created_le_dec a b : Decision (created_le a b).
Proof. unfold created_le. apply _. Defined.

Definition ListInstances (db : DB) : list Instance :=
  map (fun p => readInstance p.1 p.2) (merge_sort created_le (map_to_list (instances db))).

(** [DELETE] with the cascades of the schema. *)
Definition DeleteInstance (id : string) : M unit :=
  write (fun db =>
    MkDB (delete id (instances db))
      (filter (fun p => p.1.1 <> id) (services db))
      (domains db)
      (filter (fun p => b_instance p.2 <> Some id) (bindings db))
      (filter (fun p => p.2 <> id) (locks db))
      (delete id (instance_secrets db))
      (template_secrets db) (agent_meta db) (system_settings db) (nonces db) (audit_log db) (audit_last db)).

Definition SetObservedState (id state payload : string) (now : Z) : M unit :=
  write (set_instances (alter (fun r =>
    IRow (r_template r) (r_runtime r) (r_version r) (r_desired r) (r_config r) (Some state) (Some payload)
      (Some now) (r_service_ready r) (r_ready_at r) (r_created r) (r_updated r)) id)).

Definition SetServiceReady (id state : string) (readyAt : option Z) : M unit :=
  write (set_instances (alter (fun r =>
    IRow (r_template r) (r_runtime r) (r_version r) (r_desired r) (r_config r) (r_observed_state r)
      (r_observed_json r) (r_observed_at r) state readyAt (r_created r) (r_updated r)) id)).

Definition SetMeta (key value : string) : M unit := write (set_agent_meta (fun m => <[key := value]> m)).
Definition GetMeta (key : string) (db : DB) : res store_error string :=
  match agent_meta db !! key with Some v => Ok v | None => Err NotFound end.

(** ** domains.go *)

Definition UpsertDomain (domain desired : string) (now : Z) : M unit := fun db =>
  if emptyb domain then fail Required db else
  let desired := if emptyb desired then DomainStatusPending else desired in
  if negb (oneof desired domain_statuses) then fail CheckFailed db else
  let row := match domains db !! domain with
             | Some r => DRow desired (Some desired) (d_observed r) (d_cert_not_after r) (d_cert_issuer r)
                           (d_last_error r) (d_auth_user r) (d_auth_hash r) (d_created r) now
             | None => DRow desired (Some desired) (Some DomainStatusPending) None None None "" "" now now
             end in
  write (set_domains (fun m => <[domain := row]> m)) db.

Definition SetDomainObserved (domain observed lastErr : string) (now : Z) : M unit :=
  write (set_domains (alter (fun r =>
    DRow (d_status r) (d_desired r) (Some observed) (d_cert_not_after r) (d_cert_issuer r) (Some lastErr)
      (d_auth_user r) (d_auth_hash r) (d_created r) now) domain)).

Definition SetDomainCertNotAfter (domain : string) (notAfter : option Z) (now : Z) : M unit :=
  write (set_domains (alter (fun r =>
    DRow (d_status r) (d_desired r) (d_observed r) (Some (default 0%Z notAfter)) (d_cert_issuer r)
      (d_last_error r) (d_auth_user r) (d_auth_hash r) (d_created r) now) domain)).

Definition SetDomainCert (domain : string) (notAfter : option Z) (issuer : string) (now : Z) : M unit :=
  write (set_domains (alter (fun r =>
    DRow (d_status r) (d_desired r) (d_observed r) (Some (default 0%Z notAfter)) (Some issuer)
      (d_last_error r) (d_auth_user r) (d_auth_hash r) (d_created r) now) domain)).

Definition SetDomainBasicAuth (domain username hash : string) (now : Z) : M unit := fun db =>
  if emptyb domain then fail Required db
  else if negb (Bool.eqb (emptyb username) (emptyb hash)) then fail AuthTogether db
  else if has (domains db) domain then
    write (set_domains (alter (fun r =>
      DRow (d_status r) (d_desired r) (d_observed r) (d_cert_not_after r) (d_cert_issuer r)
        (d_last_error r) username hash (d_created r) now) domain)) db
  else fail NotFound db.

Definition DeleteDomain (domain : string) : M unit :=
  write (fun db => set_bindings (delete domain) (set_domains (delete domain) db)).

Definition readDomain (name : string) (r : domain_row) : Domain :=
  MkDomain name (default (d_status r) (d_desired r)) (default "" (d_observed r))
    (read_time (d_cert_not_after r)) (default "" (d_cert_issuer r)) (default "" (d_last_error r))
    (d_auth_user r) (d_auth_hash r) (Some (d_created r)) (Some (d_updated r)).

Definition GetDomain (domain : string) (db : DB) : res store_error Domain :=
  match domains db !! domain with Some r => Ok (readDomain domain r) | None => Err NotFound end.

(** [ORDER BY domain ASC]: the keys in byte order. *)
Definition keys_sorted {V} (m : gmap string V) : list string := sort_strings (map fst (map_to_list m)).

Definition ListDomains (db : DB) : list Domain :=
  omap (fun d => readDomain d <$> domains db !! d) (keys_sorted (domains db)).

Definition UpsertBinding (b : IngressBinding) : M unit := fun db =>
  if emptyb (B_Domain b) then fail Required db else
  let hasService := negb (emptyb (B_InstanceID b)) && negb (emptyb (B_ServiceName b)) in
  let hasLocal := (0 <? LocalPort b)%Z in
  if negb hasService && negb hasLocal then fail BindingNeeds db else
  if hasService && hasLocal then fail BindingBoth db else
  let mode := if emptyb (Mode b) then "root" else Mode b in
  let inst := if hasService then Some (B_InstanceID b) else None in
  let svc := if hasService then Some (B_ServiceName b) else None in
  if negb (oneof mode binding_modes) then fail CheckFailed db else
  if negb (has (domains db) (B_Domain b) &&
           match inst with Some i => has (instances db) i | None => true end) then fail ForeignKey db else
  write (set_bindings (fun m => <[B_Domain b := BRow inst svc (LocalPort b) mode (PathPrefix b)]> m)) db.

Definition DeleteBinding (domain : string) : M unit := write (set_bindings (delete domain)).

Definition readBinding (d : string) (r : binding_row) : IngressBinding :=
  MkBinding d (default "" (b_instance r)) (default "" (b_service r)) (b_local_port r) (b_mode r) (b_prefix r).

Definition ListBindings (db : DB) : list IngressBinding :=
  omap (fun d => readBinding d <$> bindings db !! d) (keys_sorted (bindings db)).

Definition nullIfEmpty (s : string) : option string := if emptyb s then None else Some s.

Definition UpsertService (svc : InstanceService) : M unit := fun db =>
  if emptyb (S_InstanceID svc) || emptyb (S_ServiceName svc) || emptyb (TargetType svc) || emptyb (Target svc)
  then fail Required db
  else if negb (oneof (TargetType svc) target_types) then fail CheckFailed db
  else if negb (has (instances db) (S_InstanceID svc)) then fail ForeignKey db
  else write (set_services (fun m => <[(S_InstanceID svc, S_ServiceName svc) :=
                SRow (TargetType svc) (Target svc) (nullIfEmpty (AppPath svc))]> m)) db.

Definition readService (k : string * string) (r : service_row) : InstanceService :=
  MkService k.1 k.2 (s_type r) (s_target r) (default "" (s_app_path r)).

Definition ListInstanceServices (db : DB) : list InstanceService :=
  map (fun p => readService p.1 p.2) (map_to_list (services db)).

Definition GetInstanceService (id name : string) (db : DB) : res store_error InstanceService :=
  match services db !! (id, name) with Some r => Ok (readService (id, name) r) | None => Err NotFound end.

(** ** locks.go *)

Definition TryAcquireLock (group id : string) : M unit := fun db =>
  if emptyb group || emptyb id then fail Required db else
  match locks db !! group with
  | Some holder => if bool_decide (holder = id) then ok tt db else fail LockHeld db
  | None =>
      (* an INSERT that violates the foreign key is reported as a held lock *)
      if has (instances db) id then write (set_locks (fun m => <[group := id]> m)) db
      else fail LockHeld db
  end.

Definition GetLockHolder (group : string) (db : DB) : string := default "" (locks db !! group).

Definition ReleaseLock (group id : string) : M unit := fun db =>
  if emptyb group || emptyb id then ok tt db else
  match locks db !! group with
  | Some holder => if bool_decide (holder = id) then write (set_locks (delete group)) db else ok tt db
  | None => ok tt db
  end.

Definition ReleaseLocksForInstance (id : string) : M unit :=
  write (set_locks (filter (fun p => p.2 <> id))).

(** ** nonces.go *)

(** 24 hours in seconds. *)
Definition nonceRetention : Z := 86400.

Definition CheckAndMarkNonce (nonce : string) (now : Z) : M bool := fun db =>
  if emptyb nonce then fail EmptyNonce db else
  let fresh := negb (has (nonces db) nonce) in
  let marked := if fresh then <[nonce := now]> (nonces db) else nonces db in
  (Ok fresh, set_nonces (fun _ => filter (fun p => (now - nonceRetention <= p.2)%Z) marked) db).

(** ** secrets.go: [buf] is what [crypto/rand] delivers *)

Definition CreateInstanceSecret (id buf : string) : M string := fun db =>
  if emptyb id then fail Required db else
  if negb (has (instances db) id) then fail ForeignKey db else
  let secret := hex_encode buf in
  (Ok secret, set_instance_secrets (fun m => <[id := secret]> m) db).

Definition EnsureInstanceSecret (id buf : string) : M string := fun db =>
  if emptyb id then fail Required db else
  match instance_secrets db !! id with
  | Some s => ok s db
  | None => CreateInstanceSecret id buf db
  end.

(** Every row is compared; the last match in row order wins. *)
Definition LookupInstanceBySecret (secret : string) (db : DB) : res store_error string :=
  if emptyb secret then Err NotFound else
  match fold_left (fun found p => if bool_decide (p.2 = secret) then Some p.1 else found)
          (map_to_list (instance_secrets db)) None with
  | Some id => Ok id
  | None => Err NotFound
  end.

(** ** template_secrets.go *)

Definition alphanumericChars : string := "abcdefghijklmnopqrstuvwxyzABCDEFGHIJKLMNOPQRSTUVWXYZ0123456789".
Definition alphanumericSymbolsChars : string := alphanumericChars +:+ "!@#$%^&*-_=+".

Definition byte_at (s : string) (i : nat) : ascii := default NUL (String.get i s).

(** The loop of [randString]: [reads k n] are the [n] bytes of the [k]-th read. *)
Fixpoint rand_loop (reads : nat -> nat -> string) (alphabet : string) (n : nat)
    (k : nat) (buf : string) (bi : nat) : string :=
  match n with
  | 0 => ""
  | S n' =>
      let '(k, buf, bi) := if (slen buf <=? bi)%nat then (S k, reads k (slen buf), 0) else (k, buf, bi) in
      String (byte_at alphabet (N.to_nat (code (byte_at buf bi)) mod slen alphabet))
        (rand_loop reads alphabet n' k buf (S bi))
  end.
Definition randString (reads : nat -> nat -> string) (alphabet : string) (n : nat) : string :=
  rand_loop reads alphabet n 1 (reads 0 (n * 2)) 0.

Definition GenerateSecretValue (reads : nat -> nat -> string) (charset : string) (length : Z) : res store_error string :=
  if ((length <? 8) || (256 <? length))%Z then Err (LengthRange length) else
  let n := Z.to_nat length in
  if oneof charset [""; "alphanumeric"] then Ok (randString reads alphanumericChars n)
  else if bool_decide (charset = "alphanumeric_symbols") then Ok (randString reads alphanumericSymbolsChars n)
  else if bool_decide (charset = "hex") then Ok (stake n (hex_encode (reads 0 ((n + 1) / 2))))
  else if bool_decide (charset = "base64") then Ok (stake n (b64_encode false (reads 0 n)))
  else if bool_decide (charset = "base64_bytes") then Ok (b64_encode true (reads 0 n))
  else Err (UnknownCharset charset).

Definition EnsureTemplateSecret (reads : nat -> nat -> string) (id key charset : string) (length : Z) : M string :=
  fun db =>
  if emptyb id || emptyb key then fail Required db else
  match template_secrets db !! (id, key) with
  | Some s => ok (T_Value s) db
  | None =>
      match GenerateSecretValue reads charset length with
      | Err e => fail e db
      | Ok val => (Ok val, set_template_secrets (fun m => <[(id, key) := MkTemplateSecret val length charset]> m) db)
      end
  end.

Definition DropTemplateSecrets (id : string) : M unit :=
  write (set_template_secrets (filter (fun p => p.1.1 <> id))).

Definition ListTemplateSecretKeys (id : string) (db : DB) : list string :=
  sort_strings (map (fun p => p.1.2) (filter (fun p => p.1.1 = id) (map_to_list (template_secrets db)))).

(** ** audit.go *)

(** [LastInsertId] of an AUTOINCREMENT key: one more than any key ever used. *)
(** The insert may be refused: the context of the request is cancelled, the
    database busy or its disk full. *)
Definition InsertAudit (accepted : bool) (r : AuditRow) (now : Z) : M Z := fun db =>
  if negb accepted then (Err IOFailed, db) else
  let seq := (audit_last db + 1)%Z in
  let row := MkAuditRow seq (if (TS r =? 0)%Z then now else TS r) (Op r) (Actor r) (A_Target r)
               (if emptyb (Result r) then "ok" else Result r) (ParamsHash r) (ParamsSummary r) (ErrorMessage r) in
  (Ok seq, set_audit (row :: audit_log db) seq db).

Definition TailAudit (n : Z) (db : DB) : list AuditRow :=
  take (Z.to_nat (if (n <=? 0)%Z then 50 else n)) (audit_log db).

Definition AuditCounters (db : DB) : gmap string Z :=
  fold_right (fun r m => <[Op r := (default 0 (m !! Op r) + 1)%Z]> m) ∅ (audit_log db).

Definition GetSystemSetting (key : string) (db : DB) : res store_error string :=
  match system_settings db !! key with Some (v, _) => Ok v | None => Err NotFound end.
Definition SetSystemSetting (key value : string) (now : Z) : M unit :=
  write (set_system_settings (fun m => <[key := (value, now)]> m)).
Definition AllSystemSettings (db : DB) : gmap string string := fst <$> system_settings db.
