(* ===== verification/StoreInv.v ===== *)
(** * Invariants of the device database

    Every sequence of store methods keeps the database well formed; locks are
    exclusive and only their holder (or its deletion) gives them up; secrets,
    once made, never change; nonces are fresh once; secret values have the
    promised length and alphabet. *)

From S2P Require Import Prelude GoStrings Codec Store.

(** ** Steps: any method, with any arguments *)
Inductive store_op : Type :=
| OpUpsertInstance (inst : Instance) (now : Z)
| OpDeleteInstance (id : string)
| OpSetObservedState (id state payload : string) (now : Z)
| OpSetServiceReady (id state : string) (at_ : option Z)
| OpSetMeta (k v : string)
| OpUpsertDomain (domain desired : string) (now : Z)
| OpSetDomainObserved (domain observed err : string) (now : Z)
| OpSetDomainCertNotAfter (domain : string) (t : option Z) (now : Z)
| OpSetDomainCert (domain : string) (t : option Z) (issuer : string) (now : Z)
| OpSetDomainBasicAuth (domain user hash : string) (now : Z)
| OpDeleteDomain (domain : string)
| OpUpsertBinding (b : IngressBinding)
| OpDeleteBinding (domain : string)
| OpUpsertService (svc : InstanceService)
| OpTryAcquireLock (group id : string)
| OpReleaseLock (group id : string)
| OpReleaseLocksForInstance (id : string)
| OpCheckAndMarkNonce (nonce : string) (now : Z)
| OpCreateInstanceSecret (id buf : string)
| OpEnsureInstanceSecret (id buf : string)
| OpEnsureTemplateSecret (reads : nat -> nat -> string) (id key charset : string) (length : Z)
| OpDropTemplateSecrets (id : string)
| OpInsertAudit (accepted : bool) (r : AuditRow) (now : Z)
| OpSetSystemSetting (k v : string) (now : Z).

Definition exec (op : store_op) (db : DB) : DB :=
  match op with
  | OpUpsertInstance i now => (UpsertInstance i now db).2
  | OpDeleteInstance id => (DeleteInstance id db).2
  | OpSetObservedState id s p now => (SetObservedState id s p now db).2
  | OpSetServiceReady id s t => (SetServiceReady id s t db).2
  | OpSetMeta k v => (SetMeta k v db).2
  | OpUpsertDomain d s now => (UpsertDomain d s now db).2
  | OpSetDomainObserved d o e now => (SetDomainObserved d o e now db).2
  | OpSetDomainCertNotAfter d t now => (SetDomainCertNotAfter d t now db).2
  | OpSetDomainCert d t i now => (SetDomainCert d t i now db).2
  | OpSetDomainBasicAuth d u h now => (SetDomainBasicAuth d u h now db).2
  | OpDeleteDomain d => (DeleteDomain d db).2
  | OpUpsertBinding b => (UpsertBinding b db).2
  | OpDeleteBinding d => (DeleteBinding d db).2
  | OpUpsertService s => (UpsertService s db).2
  | OpTryAcquireLock g i => (TryAcquireLock g i db).2
  | OpReleaseLock g i => (ReleaseLock g i db).2
  | OpReleaseLocksForInstance i => (ReleaseLocksForInstance i db).2
  | OpCheckAndMarkNonce n now => (CheckAndMarkNonce n now db).2
  | OpCreateInstanceSecret i b => (CreateInstanceSecret i b db).2
  | OpEnsureInstanceSecret i b => (EnsureInstanceSecret i b db).2
  | OpEnsureTemplateSecret rd i k c n => (EnsureTemplateSecret rd i k c n db).2
  | OpDropTemplateSecrets i => (DropTemplateSecrets i db).2
  | OpInsertAudit accepted r now => (InsertAudit accepted r now db).2
  | OpSetSystemSetting k v now => (SetSystemSetting k v now db).2
  end.

Inductive reachable (t0 : Z) : DB -> Prop :=
| reach_fresh : reachable t0 (fresh_db t0)
| reach_step db op : reachable t0 db -> reachable t0 (exec op db).

(** ** The invariant *)
Definition instance_row_ok (r : instance_row) : Prop :=
  r_template r <> "" /\ r_runtime r ∈ runtimes /\ r_desired r ∈ desired_states.

Definition domain_row_ok (r : domain_row) : Prop :=
  d_status r ∈ domain_statuses /\ d_desired r = Some (d_status r) /\ (d_auth_user r = "" <-> d_auth_hash r = "").

(** Exactly one kind of upstream, and it exists. *)
Definition binding_ok (db : DB) (d : string) (r : binding_row) : Prop :=
  is_Some (domains db !! d) /\ b_mode r ∈ binding_modes /\
  match b_instance r, b_service r with
  | Some i, Some s => is_Some (instances db !! i) /\ s <> "" /\ (b_local_port r <= 0)%Z
  | None, None => (0 < b_local_port r)%Z
  | _, _ => False
  end.

Definition service_ok (db : DB) (k : string * string) (r : service_row) : Prop :=
  is_Some (instances db !! k.1) /\ k.2 <> "" /\ s_type r ∈ target_types /\ s_target r <> "".

(** Newest first, strictly decreasing sequence numbers below the counter. *)
Fixpoint audit_ok (last : Z) (rows : list AuditRow) : Prop :=
  match rows with
  | [] => (0 <= last)%Z
  | r :: rows' => (0 < Seq r <= last)%Z /\ audit_ok (Seq r - 1) rows'
  end.

Record db_ok (db : DB) : Prop := {
  ok_instances : map_Forall (fun id r => id <> "" /\ instance_row_ok r) (instances db);
  ok_services : map_Forall (service_ok db) (services db);
  ok_domains : map_Forall (fun d r => d <> "" /\ domain_row_ok r) (domains db);
  ok_bindings : map_Forall (binding_ok db) (bindings db);
  ok_locks : map_Forall (fun g i => g <> "" /\ is_Some (instances db !! i)) (locks db);
  ok_secrets : map_Forall (fun i _ => is_Some (instances db !! i)) (instance_secrets db);
  ok_templates : map_Forall (fun k s => k.1 <> "" /\ k.2 <> "" /\ (8 <= T_Length s <= 256)%Z) (template_secrets db);
  ok_nonces : map_Forall (fun n _ => n <> "") (nonces db);
  ok_audit : audit_ok (audit_last db) (audit_log db)
}.

(** *** Automation: tests of the methods, and maps *)
Lemma emptyb_true s : emptyb s = true <-> s = "".
Proof. apply bool_decide_eq_true. Qed.
Lemma emptyb_false s : emptyb s = false <-> s <> "".
Proof. apply bool_decide_eq_false. Qed.
Lemma oneof_true s l : oneof s l = true <-> s ∈ l.
Proof. apply bool_decide_eq_true. Qed.
Lemma has_true {V} (m : gmap string V) k : has m k = true <-> is_Some (m !! k).
Proof. apply bool_decide_eq_true. Qed.

#[export] Hint Rewrite emptyb_true emptyb_false oneof_true @has_true : agent.

(** Split on every test of a method. *)
Ltac tests :=
  repeat match goal with
  | |- context [if ?b then _ else _] =>
      let E := fresh "E" in destruct b eqn:E; cbn [fail ok write fst snd]
  | |- context [match ?m !! ?k with Some _ => _ | None => _ end] =>
      let E := fresh "E" in destruct (m !! k) eqn:E; cbn [fail ok write fst snd]
  end; try done; autorewrite with agent in *; destruct_and?.

Lemma is_Some_insert {V} (m : gmap string V) k v i :
  is_Some (m !! i) -> is_Some (<[k := v]> m !! i).
Proof. intros H. apply lookup_insert_is_Some'. by right. Qed.

Lemma is_Some_alter {V} (f : V -> V) (m : gmap string V) k i :
  is_Some (m !! i) -> is_Some (alter f k m !! i).
Proof.
  intros [x Hx]. destruct (decide (k = i)) as [->|].
  - rewrite lookup_alter_eq, Hx. eauto.
  - rewrite lookup_alter_ne by done. eauto.
Qed.

Lemma is_Some_delete {V} (m : gmap string V) k i :
  k <> i -> is_Some (m !! i) -> is_Some (delete k m !! i).
Proof. intros Hne H. by rewrite lookup_delete_ne. Qed.

Lemma map_Forall_alter {V} (P : string -> V -> Prop) f (m : gmap string V) k :
  (forall x, P k x -> P k (f x)) -> map_Forall P m -> map_Forall P (alter f k m).
Proof.
  intros Hf HP i x. destruct (decide (k = i)) as [->|].
  - rewrite lookup_alter_eq. intros (y & Hy & ->)%fmap_Some. apply Hf. by apply HP.
  - rewrite lookup_alter_ne by done. apply HP.
Qed.

Lemma map_Forall_filter_sub {K V} `{Countable K} (P : K -> V -> Prop) (Q : K * V -> Prop)
    `{forall x, Decision (Q x)} (m : gmap K V) :
  map_Forall P m -> map_Forall (fun k v => P k v /\ Q (k, v)) (filter Q m).
Proof.
  intros HP k v [Hkv HQ]%map_lookup_filter_Some. split; [by apply HP|done].
Qed.

Lemma map_Forall_filter {K V} `{Countable K} (P : K -> V -> Prop) (Q : K * V -> Prop)
    `{forall x, Decision (Q x)} (m : gmap K V) :
  map_Forall P m -> map_Forall P (filter Q m).
Proof. intros HP k v [Hkv _]%map_lookup_filter_Some. by apply HP. Qed.

(** Changing the instance table only grows what rows may refer to. *)
Definition instances_grow (db db' : DB) : Prop :=
  forall i, is_Some (instances db !! i) -> is_Some (instances db' !! i).

Lemma db_ok_set_instances f db :
  db_ok db ->
  (forall i, is_Some (instances db !! i) -> is_Some (f (instances db) !! i)) ->
  map_Forall (fun id r => id <> "" /\ instance_row_ok r) (f (instances db)) ->
  db_ok (set_instances f db).
Proof.
  intros [] Hgrow Hok. constructor; cbn; try done.
  - eapply map_Forall_impl; [done|]. intros k r (H1 & H2). split; [by apply Hgrow|done].
  - eapply map_Forall_impl; [done|]. intros d r (H1 & H2 & H3). split_and!; [done..|].
    cbn. destruct (b_instance r), (b_service r); try done. destruct H3 as [? ?]. split; [by apply Hgrow|done].
  - eapply map_Forall_impl; [done|]. intros g i (H1 & H2). split; [done|by apply Hgrow].
  - eapply map_Forall_impl; [done|]. intros i r H1. by apply Hgrow.
Qed.

Lemma db_ok_set_domains f db :
  db_ok db ->
  (forall i, is_Some (domains db !! i) -> is_Some (f (domains db) !! i)) ->
  map_Forall (fun d r => d <> "" /\ domain_row_ok r) (f (domains db)) ->
  db_ok (set_domains f db).
Proof.
  intros [] Hgrow Hok. constructor; cbn; try done.
  eapply map_Forall_impl; [done|]. intros d r (H1 & H2). split; [by apply Hgrow|done].
Qed.

Lemma db_ok_alter_domain f d db :
  db_ok db -> (forall r, domain_row_ok r -> domain_row_ok (f r)) -> db_ok (set_domains (alter f d) db).
Proof.
  intros Hdb Hf. apply db_ok_set_domains; [done|intros i; apply is_Some_alter|].
  apply map_Forall_alter; [|apply Hdb]. intros r [? ?]. auto.
Qed.

Lemma db_ok_alter_instance f id db :
  db_ok db -> (forall r, instance_row_ok r -> instance_row_ok (f r)) -> db_ok (set_instances (alter f id) db).
Proof.
  intros Hdb Hf. apply db_ok_set_instances; [done|intros i; apply is_Some_alter|].
  apply map_Forall_alter; [|apply Hdb]. intros r [? ?]. auto.
Qed.

(** *** One lemma per method that can fail *)
Lemma UpsertInstance_db_ok inst now db : db_ok db -> db_ok (UpsertInstance inst now db).2.
Proof.
  intros Hdb. unfold UpsertInstance.
  destruct (emptyb (ID inst) || _ || _ || _) eqn:E1; [done|].
  destruct (negb (_ && _)) eqn:E2; [done|]. autorewrite with agent in *. destruct_and!.
  apply db_ok_set_instances; [done|intros i; apply is_Some_insert|].
  apply map_Forall_insert_2; [|apply Hdb]. split; [done|]. by destruct (instances db !! ID inst).
Qed.

Lemma UpsertDomain_db_ok d s now db : db_ok db -> db_ok (UpsertDomain d s now db).2.
Proof.
  intros Hdb. unfold UpsertDomain. destruct (emptyb d) eqn:E1; [done|]. cbv zeta.
  set (s' := if emptyb s then _ else s). destruct (negb (oneof s' domain_statuses)) eqn:E2; [done|].
  autorewrite with agent in *.
  apply db_ok_set_domains; [done|intros i; apply is_Some_insert|].
  apply map_Forall_insert_2; [|apply Hdb]. split; [done|].
  destruct (domains db !! d) as [r|] eqn:E; [|done].
  destruct (ok_domains _ Hdb _ _ E) as (_ & _ & _ & ?). done.
Qed.

Lemma UpsertBinding_db_ok b db : db_ok db -> db_ok (UpsertBinding b db).2.
Proof.
  intros Hdb. unfold UpsertBinding. destruct (emptyb (B_Domain b)) eqn:E1; [done|]. cbv zeta.
  destruct (negb (emptyb (B_InstanceID b)) && negb (emptyb (B_ServiceName b))) eqn:Es;
  destruct (0 <? LocalPort b)%Z eqn:El; cbn [negb andb]; try done;
  (destruct (negb (oneof _ binding_modes)) eqn:Em; [done|]);
  (destruct (negb (_ && _)) eqn:Ef; [done|]); autorewrite with agent in *; destruct_and!;
  destruct Hdb; constructor; cbn; try done;
  (apply map_Forall_insert_2; [|done]); repeat split; try done; cbn; [apply Z.ltb_ge in El|apply Z.ltb_lt in El]; lia.
Qed.

Lemma UpsertService_db_ok s db : db_ok db -> db_ok (UpsertService s db).2.
Proof.
  intros Hdb. unfold UpsertService. tests. destruct Hdb; constructor; cbn; try done.
  apply map_Forall_insert_2; [|done]. repeat split; done.
Qed.

Lemma TryAcquireLock_db_ok g i db : db_ok db -> db_ok (TryAcquireLock g i db).2.
Proof.
  intros Hdb. unfold TryAcquireLock. tests. destruct Hdb; constructor; cbn; try done.
  apply map_Forall_insert_2; [|done]. done.
Qed.

Lemma CreateInstanceSecret_db_ok i b db : db_ok db -> db_ok (CreateInstanceSecret i b db).2.
Proof.
  intros Hdb. unfold CreateInstanceSecret. tests. destruct Hdb; constructor; cbn; try done.
  apply map_Forall_insert_2; done.
Qed.

Lemma GenerateSecretValue_range reads c n v : GenerateSecretValue reads c n = Ok v -> (8 <= n <= 256)%Z.
Proof.
  unfold GenerateSecretValue. destruct ((n <? 8) || (256 <? n))%Z eqn:E; [done|]. intros _.
  apply orb_false_iff in E as [?%Z.ltb_ge ?%Z.ltb_ge]. lia.
Qed.

Lemma EnsureTemplateSecret_db_ok rd i k c n db : db_ok db -> db_ok (EnsureTemplateSecret rd i k c n db).2.
Proof.
  intros Hdb. unfold EnsureTemplateSecret. tests.
  destruct (GenerateSecretValue rd c n) eqn:Eg; cbn; [|done].
  destruct Hdb; constructor; cbn; try done.
  apply map_Forall_insert_2; [|done]. 
  split; [done|]. split; [done|]. by eapply GenerateSecretValue_range.
Qed.

Lemma DeleteInstance_db_ok id db : db_ok db -> db_ok (DeleteInstance id db).2.
Proof.
  intros []. constructor; cbn; try done.
  - by apply map_Forall_delete.
  - eapply map_Forall_impl; [by apply map_Forall_filter_sub|].
    intros [i n] r [(H1 & H2) Hne]. split; [|done]. apply is_Some_delete; [|done]. cbn in *. congruence.
  - eapply map_Forall_impl; [by apply map_Forall_filter_sub|].
    intros d r [(H1 & H2 & H3) Hne]. split_and!; [done..|]. cbn in *.
    destruct (b_instance r), (b_service r); try done. destruct H3 as [? ?].
    split; [|done]. apply is_Some_delete; congruence.
  - eapply map_Forall_impl; [by apply map_Forall_filter_sub|].
    intros g i [[H1 H2] Hne]. split; [done|]. apply is_Some_delete; cbn in *; congruence.
  - intros i s [Hne Hs]%lookup_delete_Some. apply is_Some_delete; [done|]. by eapply ok_secrets0.
Qed.

Lemma DeleteDomain_db_ok d db : db_ok db -> db_ok (DeleteDomain d db).2.
Proof.
  intros []. constructor; cbn; try done.
  - by apply map_Forall_delete.
  - intros i r [Hne Hr]%lookup_delete_Some. destruct (ok_bindings0 _ _ Hr) as (H1 & H2).
    split; [|done]. by apply is_Some_delete.
Qed.

Lemma exec_db_ok op db : db_ok db -> db_ok (exec op db).
Proof.
  intros Hdb. destruct op; cbn [exec].
  - by apply UpsertInstance_db_ok.
  - by apply DeleteInstance_db_ok.
  - by apply db_ok_alter_instance.
  - by apply db_ok_alter_instance.
  - destruct Hdb; by constructor.
  - by apply UpsertDomain_db_ok.
  - by apply db_ok_alter_domain.
  - by apply db_ok_alter_domain.
  - by apply db_ok_alter_domain.
  - unfold SetDomainBasicAuth. tests. apply db_ok_alter_domain; [done|].
    intros r (H1 & H2 & _). split_and!; [done..|cbn].
    match goal with H : Bool.eqb _ _ = true |- _ => apply eqb_prop in H; unfold emptyb in H end.
    repeat case_bool_decide; naive_solver.
  - by apply DeleteDomain_db_ok.
  - by apply UpsertBinding_db_ok.
  - destruct Hdb; constructor; cbn; try done. by apply map_Forall_delete.
  - by apply UpsertService_db_ok.
  - by apply TryAcquireLock_db_ok.
  - unfold ReleaseLock. tests. destruct Hdb; constructor; cbn; try done. by apply map_Forall_delete.
  - destruct Hdb; constructor; cbn; try done.
    by apply map_Forall_filter.
  - unfold CheckAndMarkNonce. destruct (emptyb nonce) eqn:E; [done|]. apply emptyb_false in E.
    destruct Hdb. constructor; cbn; try done. apply map_Forall_filter.
    destruct (negb _); [by apply map_Forall_insert_2|done].
  - by apply CreateInstanceSecret_db_ok.
  - unfold EnsureInstanceSecret. tests. by apply CreateInstanceSecret_db_ok.
  - by apply EnsureTemplateSecret_db_ok.
  - destruct Hdb; constructor; cbn; try done.
    by apply map_Forall_filter.
  - unfold InsertAudit. destruct accepted; [|done]. destruct Hdb as [? ? ? ? ? ? ? ? Ha]; constructor; cbn; try done.
    assert (0 <= audit_last db)%Z as Hl by (destruct (audit_log db); cbn in Ha; lia).
    split; [cbn; lia|]. cbn. replace (audit_last db + 1 - 1)%Z with (audit_last db) by lia. done.
  - destruct Hdb; by constructor.
Qed.

Lemma fresh_db_ok t0 : db_ok (fresh_db t0).
Proof. constructor; unfold fresh_db; try (intros ? ?; apply map_Forall_empty); done. Qed.

(** C18: whatever methods run in whatever order with whatever arguments, the
    database stays well formed: rows satisfy their checks, every service,
    binding, lock and agent secret refers to an existing instance or domain,
    every binding has exactly one kind of upstream, user name and hash of a
    basic-auth domain are set together, and audit sequence numbers are unique
    and increasing. *)
Theorem store_invariant t0 db : reachable t0 db -> db_ok db.
Proof. induction 1; [apply fresh_db_ok|by apply exec_db_ok]. Qed.

Lemma store_invariant_witness :
  db_ok (exec (OpTryAcquireLock "tty1" "a")
    (exec (OpUpsertInstance (MkInstance "a" "t" "system" "1" "installed" "" "" "" None "" None None None) 5)
      (fresh_db 0))).
Proof. apply (store_invariant 0). repeat constructor. Defined.
