(* ===== verification/StoreProps.v ===== *)
(** * What the device database promises its clients

    Round trips, exclusivity of locks, stability of secrets, freshness of
    nonces, the shape of generated secrets and the audit sequence. *)

From S2P Require Import Prelude GoStrings Codec Store StoreInv.

(** ** Instances *)

(** What an upsert must leave behind: the new fields, with the observed state,
    the readiness and the creation time of an existing row untouched. *)
Definition upserted (old : option Instance) (inst : Instance) (now : Z) : Instance :=
  match old with
  | Some o => MkInstance (ID inst) (TemplateID inst) (Runtime inst) (Version inst) (DesiredState inst)
                (ConfigJSON inst) (ObservedState o) (ObservedJSON o) (ObservedAt o) (ServiceReady o)
                (ReadyAt o) (CreatedAt o) (Some now)
  | None => MkInstance (ID inst) (TemplateID inst) (Runtime inst) (Version inst) (DesiredState inst)
              (ConfigJSON inst) "" "" None "" None (Some (default now (CreatedAt inst))) (Some now)
  end.

Definition get_opt (id : string) (db : DB) : option Instance :=
  match GetInstance id db with Ok i => Some i | Err _ => None end.

(** An upsert that succeeds is read back exactly: the fields given, the
    creation time and the observed and readiness state of an existing row kept,
    every other instance unchanged; an upsert that fails changes nothing, and
    it fails exactly on a missing field or a value outside the schema. *)
Theorem UpsertInstance_roundtrip inst now db :
  match UpsertInstance inst now db with
  | (Ok _, db') =>
      get_opt (ID inst) db' = Some (upserted (get_opt (ID inst) db) inst now) /\
      forall id, id <> ID inst -> get_opt id db' = get_opt id db
  | (Err e, db') =>
      db' = db /\
      (ID inst = "" \/ TemplateID inst = "" \/ Runtime inst ∉ runtimes \/ DesiredState inst ∉ desired_states)
  end.
Proof.
  unfold UpsertInstance.
  destruct (emptyb (ID inst) || _ || _ || _) eqn:E1; cbn [fail].
  { split; [done|]. autorewrite with agent in E1. destruct E1 as [[[E1|E1]|E1]|E1]; [tauto|tauto|..];
      rewrite E1; right; right; [left|right]; unfold runtimes, desired_states; set_solver. }
  destruct (negb (_ && _)) eqn:E2; cbn [fail].
  { split; [done|]. right; right. apply negb_true_iff, andb_false_iff in E2.
    destruct E2 as [E2|E2]; apply bool_decide_eq_false in E2; tauto. }
  unfold write, get_opt, GetInstance. cbn. split.
  - rewrite lookup_insert_eq. by destruct (instances db !! ID inst).
  - intros id Hne. by rewrite lookup_insert_ne.
Qed.

(** Deleting an instance removes everything that refers to it (its row,
    services, bindings, locks and agent secret) and nothing of any other
    instance. *)
Theorem DeleteInstance_cascade id db :
  let db' := (DeleteInstance id db).2 in
  get_opt id db' = None /\
  (forall i, i <> id -> instances db' !! i = instances db !! i /\
                        instance_secrets db' !! i = instance_secrets db !! i) /\
  instance_secrets db' !! id = None /\
  (forall i n, services db' !! (i, n) = if decide (i = id) then None else services db !! (i, n)) /\
  (forall g, locks db' !! g = if decide (locks db !! g = Some id) then None else locks db !! g) /\
  (forall d b, bindings db' !! d = Some b <-> bindings db !! d = Some b /\ b_instance b <> Some id).
Proof.
  cbn. unfold get_opt, GetInstance. cbn. split_and!.
  - by rewrite lookup_delete_eq.
  - intros i Hne. by rewrite !lookup_delete_ne.
  - by rewrite lookup_delete_eq.
  - intros i n. case_decide as Hi.
    + apply map_lookup_filter_None. right. intros x _ Hx. by apply Hx.
    + destruct (services db !! (i, n)) as [s|] eqn:Hs.
      * by apply map_lookup_filter_Some.
      * apply map_lookup_filter_None. by left.
  - intros g. case_decide as Hg.
    + apply map_lookup_filter_None. right. intros x Hx Hne. cbn in Hne. congruence.
    + destruct (locks db !! g) as [i|] eqn:Hl.
      * apply map_lookup_filter_Some. split; [done|]. cbn. congruence.
      * apply map_lookup_filter_None. by left.
  - intros d b. by rewrite map_lookup_filter_Some.
Qed.

(** ** Locks *)

(** Taking an exclusivity lock succeeds exactly when the group is free and
    the instance exists, or the instance already holds it; afterwards it is
    the holder, and every other instance is refused. *)
Theorem TryAcquireLock_exclusive g i db :
  g <> "" -> i <> "" ->
  ((TryAcquireLock g i db).1 = Ok tt <->
   locks db !! g = Some i \/ (locks db !! g = None /\ is_Some (instances db !! i))) /\
  ((TryAcquireLock g i db).1 = Ok tt ->
   let db' := (TryAcquireLock g i db).2 in
   GetLockHolder g db' = i /\
   forall j, j <> "" -> j <> i -> TryAcquireLock g j db' = (Err LockHeld, db')).
Proof.
  intros Hg Hi. unfold TryAcquireLock.
  assert (emptyb g = false /\ emptyb i = false) as [-> ->] by (by rewrite !emptyb_false).
  cbn [orb]. destruct (locks db !! g) as [h|] eqn:Hl.
  - case_bool_decide as Hh; cbn.
    + subst h. split; [split; [by left|done]|]. intros _. split; [by unfold GetLockHolder; rewrite Hl|].
      intros j Hj Hne. rewrite (proj2 (emptyb_false j)) by done. rewrite Hl.
      by rewrite bool_decide_eq_false_2.
    + split; [|done]. split; [done|]. intros [[= ->]|[? _]]; done.
  - destruct (has (instances db) i) eqn:Hh; cbn.
    + apply has_true in Hh. split; [split; [by right|done]|]. intros _.
      split; [by unfold GetLockHolder; cbn; rewrite lookup_insert_eq|].
      intros j Hj Hne. rewrite (proj2 (emptyb_false j)) by done. rewrite lookup_insert_eq.
      by rewrite bool_decide_eq_false_2.
    + split; [|done]. split; [done|]. intros [?|[_ H]]; [done|].
      apply has_true in H. congruence.
Qed.

Lemma TryAcquireLock_exclusive_witness :
  let db := (UpsertInstance (MkInstance "a" "t" "system" "1" "installed" "" "" "" None "" None None None) 5
               (fresh_db 0)).2 in
  ((TryAcquireLock "display-output" "a" db).1 = Ok tt <->
   locks db !! "display-output" = Some "a" \/
   (locks db !! "display-output" = None /\ is_Some (instances db !! "a"))) /\
  ((TryAcquireLock "display-output" "a" db).1 = Ok tt ->
   let db' := (TryAcquireLock "display-output" "a" db).2 in
   GetLockHolder "display-output" db' = "a" /\
   forall j, j <> "" -> j <> "a" -> TryAcquireLock "display-output" j db' = (Err LockHeld, db')).
Proof. intros db. apply (TryAcquireLock_exclusive "display-output" "a" db); discriminate. Defined.

(** The methods that may take a lock away from [i]. *)
Definition gives_up (g i : string) (op : store_op) : Prop :=
  match op with
  | OpReleaseLock g' i' => g' = g /\ i' = i
  | OpReleaseLocksForInstance i' => i' = i
  | OpDeleteInstance i' => i' = i
  | _ => False
  end.

(** A held lock stays with its holder under every method and any
    arguments, except the holder's own release or the deletion of its
    instance: nobody can steal or free another instance's lock. *)
Theorem lock_stable g i op db :
  locks db !! g = Some i -> ~ gives_up g i op -> locks (exec op db) !! g = Some i.
Proof.
  intros Hl Hop. destruct op; cbn [exec]; try exact Hl;
    try (unfold UpsertInstance, UpsertDomain, SetDomainBasicAuth, UpsertBinding, UpsertService,
           CheckAndMarkNonce, EnsureInstanceSecret, CreateInstanceSecret, EnsureTemplateSecret, InsertAudit; cbv zeta;
         repeat case_match; exact Hl).
  - cbn in *. apply map_lookup_filter_Some. split; [done|]. cbn. congruence.
  - unfold TryAcquireLock. repeat case_match; try exact Hl. cbn.
    rewrite lookup_insert_ne; [done|]. congruence.
  - unfold ReleaseLock. destruct (emptyb group || emptyb id); [exact Hl|].
    destruct (locks db !! group) as [h|] eqn:Hh; [|exact Hl]. case_bool_decide; [|exact Hl].
    cbn in *. rewrite lookup_delete_ne; [done|]. intros ->. rewrite Hl in Hh. naive_solver.
  - cbn in *. apply map_lookup_filter_Some. split; [done|]. cbn. congruence.
Qed.

Lemma lock_stable_witness :
  let db := MkDB ∅ ∅ ∅ ∅ {["g" := "a"]} ∅ ∅ ∅ ∅ ∅ [] 0 in
  locks (exec (OpReleaseLock "g" "b") db) !! "g" = Some "a".
Proof. apply lock_stable; [reflexivity|]. intros [_ H]. discriminate H. Defined.

(** ** Secrets *)

Definition drops (i : string) (op : store_op) : Prop :=
  match op with OpDropTemplateSecrets i' => i' = i | _ => False end.

(** A template secret survives every method but its own drop. *)
Lemma template_secret_kept i k s op db :
  template_secrets db !! (i, k) = Some s -> ~ drops i op ->
  template_secrets (exec op db) !! (i, k) = Some s.
Proof.
  intros Hs Hop. destruct op; cbn [exec]; try exact Hs;
    try (unfold UpsertInstance, UpsertDomain, SetDomainBasicAuth, UpsertBinding, UpsertService,
           CheckAndMarkNonce, EnsureInstanceSecret, CreateInstanceSecret, TryAcquireLock, ReleaseLock, InsertAudit; cbv zeta;
         repeat case_match; exact Hs).
  - unfold EnsureTemplateSecret. destruct (emptyb id || emptyb key); [exact Hs|].
    destruct (template_secrets db !! (id, key)) eqn:Hk; [exact Hs|].
    destruct (GenerateSecretValue _ _ _); [|exact Hs]. cbn. rewrite lookup_insert_ne; [done|]. congruence.
  - cbn in *. apply map_lookup_filter_Some. split; [done|]. cbn. congruence.
Qed.

(** A template secret is generated once: after a first successful call,
    and after any further methods other than dropping that instance's secrets,
    asking again, with whatever charset, length or randomness, returns the
    same value and changes nothing. *)
Theorem EnsureTemplateSecret_stable rd i k c n db v ops :
  (EnsureTemplateSecret rd i k c n db).1 = Ok v ->
  Forall (fun op => ~ drops i op) ops ->
  let db' := fold_left (fun d op => exec op d) ops (EnsureTemplateSecret rd i k c n db).2 in
  forall rd' c' n', EnsureTemplateSecret rd' i k c' n' db' = (Ok v, db').
Proof.
  intros Hv Hops.
  assert (emptyb i || emptyb k = false /\
          exists s, template_secrets (EnsureTemplateSecret rd i k c n db).2 !! (i, k) = Some s /\ T_Value s = v)
    as [Hne (s & Hs & Hval)].
  { revert Hv. unfold EnsureTemplateSecret. destruct (emptyb i || emptyb k); [done|].
    destruct (template_secrets db !! (i, k)) as [s|] eqn:Hk; cbn; [intros [= <-]; eauto|].
    destruct (GenerateSecretValue rd c n); cbn; [|done]. intros [= <-]. split; [done|].
    eexists. by rewrite lookup_insert_eq. }
  clear Hv. intros db' rd' c' n'.
  assert (template_secrets db' !! (i, k) = Some s) as Hs'.
  { unfold db'. revert Hs. generalize (EnsureTemplateSecret rd i k c n db).2.
    induction Hops as [|op ops Hop Hops IH]; intros d Hd; [done|]. cbn. apply IH.
    by apply template_secret_kept. }
  unfold EnsureTemplateSecret. rewrite Hne, Hs'. cbn. by rewrite Hval.
Qed.

Lemma EnsureTemplateSecret_stable_witness :
  let rd := fun _ n => "AAAAAAAAAAAAAAAAAAAAAAAAAAAAAAAA" in
  let ops := [OpDropTemplateSecrets "other"; OpDeleteInstance "wp"] in
  let db' := fold_left (fun d op => exec op d) ops (EnsureTemplateSecret rd "wp" "db" "hex" 8 (fresh_db 0)).2 in
  EnsureTemplateSecret (fun _ _ => "") "wp" "db" "base64" 44 db' = (Ok "41414141", db').
Proof.
  intros rd ops. apply (EnsureTemplateSecret_stable rd "wp" "db" "hex" 8 (fresh_db 0) "41414141" ops).
  - reflexivity.
  - unfold ops. repeat constructor; cbn; discriminate || (intros []).
Defined.

(** ** Generated secrets *)

Lemma slen_stake n s : slen (stake n s) = Nat.min n (slen s).
Proof. revert s. induction n as [|n IH]; intros [|a s]; cbn; auto. Qed.

Lemma str_all_stake p n s : str_all p s = true -> str_all p (stake n s) = true.
Proof.
  revert s. induction n as [|n IH]; intros [|a s]; cbn; auto.
  rewrite !andb_true_iff. intros [-> ?]; auto.
Qed.

Lemma byte_at_mem s i : i < slen s -> mem_byte (byte_at s i) s = true.
Proof.
  revert i. induction s as [|a s IH]; intros i Hi; cbn in Hi; [lia|].
  destruct i as [|i]; cbn [mem_byte byte_at]; [by rewrite ascii_eqb_refl|].
  rewrite orb_true_iff. right. change (byte_at (String a s) (S i)) with (byte_at s i). apply IH. lia.
Qed.

Lemma rand_loop_shape reads alphabet n k buf bi :
  alphabet <> "" ->
  slen (rand_loop reads alphabet n k buf bi) = n /\
  str_all (fun c => mem_byte c alphabet) (rand_loop reads alphabet n k buf bi) = true.
Proof.
  intros Ha. revert k buf bi. induction n as [|n IH]; intros k buf bi; [done|].
  cbn [rand_loop]. destruct (if (slen buf <=? bi)%nat then _ else _) as [[k' buf'] bi'].
  destruct (IH k' buf' (S bi')) as [IHl IHa]. cbn [String.length str_all]. rewrite IHl, IHa. split; [done|].
  rewrite andb_true_r. apply byte_at_mem. apply Nat.mod_upper_bound. by destruct alphabet.
Qed.

(** The oversampled buffer is never exhausted: one read is enough. *)
Lemma rand_loop_one_read reads reads' alphabet n k buf bi :
  bi + n <= slen buf -> rand_loop reads alphabet n k buf bi = rand_loop reads' alphabet n k buf bi.
Proof.
  revert bi. induction n as [|n IH]; intros bi Hn; [done|]. cbn [rand_loop].
  assert ((slen buf <=? bi)%nat = false) as -> by (apply Nat.leb_gt; lia).
  f_equal. apply IH. lia.
Qed.


(** A generated secret has exactly the promised shape, whatever the random
    source delivers (as long as it delivers as many bytes as asked for): the
    requested length over the charset's alphabet, or, for base64_bytes, the
    padded encoding of exactly that many bytes; lengths outside 8..256 and
    unknown charsets are errors. *)
Theorem GenerateSecretValue_shape reads c n :
  (forall k m, slen (reads k m) = m) ->
  match GenerateSecretValue reads c n with
  | Ok v =>
      (8 <= n <= 256)%Z /\
      (c = "" \/ c = "alphanumeric" ->
         Z.of_nat (slen v) = n /\ str_all (fun a => mem_byte a alphanumericChars) v = true) /\
      (c = "alphanumeric_symbols" ->
         Z.of_nat (slen v) = n /\ str_all (fun a => mem_byte a alphanumericSymbolsChars) v = true) /\
      (c = "hex" -> Z.of_nat (slen v) = n /\ str_all hexLower v = true) /\
      (c = "base64" -> Z.of_nat (slen v) = n /\ str_all (fun a => mem_byte a b64_alphabet) v = true) /\
      (c = "base64_bytes" -> exists b, v = b64_encode true b /\ Z.of_nat (slen b) = n)
  | Err (LengthRange m) => m = n /\ ((n < 8)%Z \/ (256 < n)%Z)
  | Err (UnknownCharset c') => c' = c /\ (8 <= n <= 256)%Z /\
      c ∉ [""; "alphanumeric"; "alphanumeric_symbols"; "hex"; "base64"; "base64_bytes"]
  | Err _ => False
  end.
Proof.
  intros Hreads. unfold GenerateSecretValue, randString.
  destruct ((n <? 8) || (256 <? n))%Z eqn:Hn.
  { split; [done|]. apply orb_true_iff in Hn as [?%Z.ltb_lt|?%Z.ltb_lt]; auto. }
  apply orb_false_iff in Hn as [?%Z.ltb_ge ?%Z.ltb_ge]. cbv zeta. unfold oneof.
  pose proof (rand_loop_shape reads alphanumericChars (Z.to_nat n) 1 (reads 0 (Z.to_nat n * 2)) 0
                ltac:(discriminate)) as [Hl1 Ha1].
  pose proof (rand_loop_shape reads alphanumericSymbolsChars (Z.to_nat n) 1 (reads 0 (Z.to_nat n * 2)) 0
                ltac:(discriminate)) as [Hl2 Ha2].
  case_bool_decide as H1; [|case_bool_decide as H2; [|case_bool_decide as H3;
    [|case_bool_decide as H4; [|case_bool_decide as H5]]]].
  - split; [lia|]. split; [intros _; split; [lia|done]|]. split_and!; intros ->; exfalso; set_solver.
  - subst. split; [lia|]. split; [intros [|]; done|]. split; [intros _; split; [lia|done]|]. done.
  - subst. split; [lia|]. split; [intros [|]; done|]. split; [done|]. split; [intros _|done].
    split; [|apply str_all_stake, hex_encode_lower].
    rewrite slen_stake, hex_encode_slen, Hreads.
    pose proof (Nat.div_mod (Z.to_nat n + 1) 2). pose proof (Nat.mod_upper_bound (Z.to_nat n + 1) 2). lia.
  - subst. split; [lia|]. split; [intros [|]; done|]. split; [done|]. split; [done|]. split; [intros _|done].
    split; [|apply str_all_stake, b64_encode_raw_alphabet].
    rewrite slen_stake. pose proof (b64_encode_raw_slen (reads 0 (Z.to_nat n))) as Hb. rewrite Hreads in Hb. lia.
  - subst. split; [lia|]. split; [intros [|]; done|]. split_and!; [done..|]. intros _.
    exists (reads 0 (Z.to_nat n)). rewrite Hreads. split; [done|lia].
  - split_and!; [done|lia..|]. set_solver.
Qed.

Fixpoint xs (m : nat) : string := match m with 0 => "" | S m' => String "x" (xs m') end.
Lemma xs_slen m : slen (xs m) = m.
Proof. induction m as [|m IH]; [done|]. cbn. by rewrite IH. Qed.

Lemma GenerateSecretValue_shape_witness :
  exists v, GenerateSecretValue (fun _ => xs) "hex" 8 = Ok v /\
            Z.of_nat (slen v) = 8%Z /\ str_all hexLower v = true.
Proof.
  pose proof (GenerateSecretValue_shape (fun _ => xs) "hex" 8 (fun _ => xs_slen)) as H.
  eexists. split; [reflexivity|].
  exact (proj1 (proj2 (proj2 (proj2 H))) eq_refl).
Defined.

(** ** Nonces *)

(** A run of nonce checks: each call's nonce, time and verdict. *)
Fixpoint nonce_run (calls : list (string * Z)) (db : DB) : list bool * DB :=
  match calls with
  | [] => ([], db)
  | (n, t) :: calls' =>
      let '(r, db') := CheckAndMarkNonce n t db in
      let '(rs, db'') := nonce_run calls' db' in
      (match r with Ok b => b | Err _ => false end :: rs, db'')
  end.

(** A marked nonce stays marked while the clock has not passed its retention. *)
Lemma nonce_kept n t m s db :
  nonces db !! n = Some s -> (t <= s + nonceRetention)%Z ->
  nonces (CheckAndMarkNonce m t db).2 !! n = Some s.
Proof.
  intros Hn Ht. unfold CheckAndMarkNonce. destruct (emptyb m); [exact Hn|]. cbn.
  apply map_lookup_filter_Some. split; [|cbn; lia].
  destruct (negb (has (nonces db) m)) eqn:Hm; [|done].
  rewrite lookup_insert_ne; [done|]. intros ->. unfold has in Hm.
  by rewrite bool_decide_eq_true_2 in Hm by eauto.
Qed.

Lemma nonce_marked n t db :
  n <> "" -> (CheckAndMarkNonce n t db).1 = Ok true -> nonces (CheckAndMarkNonce n t db).2 !! n = Some t.
Proof.
  intros Hn. unfold CheckAndMarkNonce. rewrite (proj2 (emptyb_false n)) by done. cbn.
  intros [= Hf]. rewrite Hf. apply map_lookup_filter_Some. rewrite lookup_insert_eq.
  split; [done|]. cbn. unfold nonceRetention. lia.
Qed.

Lemma nonce_seen n t s db : nonces db !! n = Some s -> (CheckAndMarkNonce n t db).1 <> Ok true.
Proof.
  intros Hn. unfold CheckAndMarkNonce. destruct (emptyb n); [done|]. cbn. unfold has.
  rewrite bool_decide_eq_true_2 by eauto. done.
Qed.

Lemma nonce_run_keeps calls n s db :
  nonces db !! n = Some s -> Forall (fun c => (c.2 <= s + nonceRetention)%Z) calls ->
  nonces (nonce_run calls db).2 !! n = Some s.
Proof.
  revert db. induction calls as [|[m t] calls IH]; intros db Hn Hc; [done|].
  apply Forall_cons in Hc as [Ht Hc]. cbn [nonce_run].
  pose proof (nonce_kept n t m s db Hn Ht) as Hk.
  destruct (CheckAndMarkNonce m t db) as [r db']. cbn in Hk. specialize (IH db' Hk Hc).
  by destruct (nonce_run calls db').
Qed.

(** A nonce is fresh at most once per retention period: once a check has
    said fresh at time [t], every later check of the same nonce, after any
    other checks, no later than 24 hours after [t], says it is a replay. *)
Theorem nonce_fresh_once n t t' calls db :
  n <> "" -> (CheckAndMarkNonce n t db).1 = Ok true ->
  Forall (fun c => (c.2 <= t + nonceRetention)%Z) calls ->
  let db1 := (CheckAndMarkNonce n t db).2 in
  let db2 := (nonce_run calls db1).2 in
  (CheckAndMarkNonce n t' db2).1 = Ok false.
Proof.
  intros Hn Hf Hc db1 db2.
  assert (nonces db2 !! n = Some t) as H2 by (apply nonce_run_keeps; [by apply nonce_marked|done]).
  unfold CheckAndMarkNonce. rewrite (proj2 (emptyb_false n)) by done. cbn. unfold has.
  by rewrite bool_decide_eq_true_2 by eauto.
Qed.

Lemma nonce_fresh_once_witness :
  let db1 := (CheckAndMarkNonce "n1" 1000 (fresh_db 0)).2 in
  let db2 := (nonce_run [("n2", 2000%Z); ("n1", 2001%Z)] db1).2 in
  (CheckAndMarkNonce "n1" 3000 db2).1 = Ok false.
Proof.
  apply (nonce_fresh_once "n1" 1000 3000 [("n2", 2000%Z); ("n1", 2001%Z)] (fresh_db 0)).
  - discriminate.
  - reflexivity.
  - repeat constructor; cbn; unfold nonceRetention; lia.
Defined.

(** After the retention period the same nonce counts as fresh again. *)
Example nonce_forgotten :
  let db1 := (CheckAndMarkNonce "n1" 1000 (fresh_db 0)).2 in
  let db2 := (CheckAndMarkNonce "n2" 90000 db1).2 in
  (CheckAndMarkNonce "n1" 90001 db2).1 = Ok true.
Proof. vm_compute. reflexivity. Qed.

(** ** Agent secrets *)

Lemma LookupInstanceBySecret_sound secret db id :
  LookupInstanceBySecret secret db = Ok id -> instance_secrets db !! id = Some secret /\ secret <> "".
Proof.
  unfold LookupInstanceBySecret. destruct (emptyb secret) eqn:He; [done|]. apply emptyb_false in He.
  assert (forall (l : list (string * string)) (acc : option string) i,
    fold_left (fun found p => if bool_decide (p.2 = secret) then Some p.1 else found) l acc = Some i ->
    acc = Some i \/ (i, secret) ∈ l) as Hf.
  { induction l as [|[j s] l IH]; intros acc i Hi; [by left|]. cbn in Hi. apply IH in Hi as [Hi|Hi].
    - case_bool_decide; [|by left]. subst. injection Hi as <-. right. left.
    - right. by right. }
  destruct (fold_left _ _ _) as [i|] eqn:Hl; [|done]. intros [= <-].
  apply Hf in Hl as [?|Hl]; [done|]. by apply elem_of_map_to_list in Hl.
Qed.

(** An IPC secret identifies an instance exactly when some instance holds
    that secret: the lookup never returns an instance whose secret differs,
    never accepts the empty secret and never misses a holder. *)
Theorem LookupInstanceBySecret_spec secret db :
  match LookupInstanceBySecret secret db with
  | Ok id => secret <> "" /\ instance_secrets db !! id = Some secret
  | Err _ => secret = "" \/ forall id, instance_secrets db !! id <> Some secret
  end.
Proof.
  destruct (LookupInstanceBySecret secret db) as [id|e] eqn:Hl.
  { by apply LookupInstanceBySecret_sound in Hl as [? ?]. }
  unfold LookupInstanceBySecret in Hl. destruct (emptyb secret) eqn:He; [left; by apply emptyb_true in He|].
  right. intros id Hid. apply elem_of_map_to_list in Hid.
  assert (forall (l : list (string * string)) (acc : option string), (id, secret) ∈ l \/ acc <> None ->
    fold_left (fun found p => if bool_decide (p.2 = secret) then Some p.1 else found) l acc <> None) as Hf.
  { induction l as [|[j s] l IH]; intros acc [Hi|Hacc]; cbn; try done.
    - by apply elem_of_nil in Hi.
    - apply IH. apply elem_of_cons in Hi as [[= <- <-]|Hi]; [|by left]. right.
      by rewrite bool_decide_eq_true_2.
    - apply IH. right. by case_bool_decide. }
  specialize (Hf (map_to_list (instance_secrets db)) None (or_introl Hid)).
  by destruct (fold_left _ _ _).
Qed.

(** ** Audit rows *)

(** In every reachable database a new audit row gets a sequence number
    larger than all existing ones, becomes the first row of the tail, and the
    older rows are neither changed nor dropped. *)
Theorem InsertAudit_monotone t0 r now db :
  reachable t0 db ->
  exists seq, (InsertAudit true r now db).1 = Ok seq /\
  let db' := (InsertAudit true r now db).2 in
  Forall (fun row => (Seq row < seq)%Z) (audit_log db) /\
  (exists row, audit_log db' = row :: audit_log db /\ Seq row = seq /\ Op row = Op r /\
               Actor row = Actor r /\ A_Target row = A_Target r /\ ParamsHash row = ParamsHash r /\
               Result row = (if emptyb (Result r) then "ok" else Result r)) /\
  forall n, (0 < n)%Z -> hd_error (TailAudit n db') = hd_error (audit_log db').
Proof.
  intros Hr. assert (audit_ok (audit_last db) (audit_log db)) as Ha.
  { assert (db_ok db) as Hdb by (induction Hr; [apply fresh_db_ok|by apply exec_db_ok]). apply Hdb. }
  exists (audit_last db + 1)%Z. split; [done|]. cbn. split_and!.
  - revert Ha. generalize (audit_last db). induction (audit_log db) as [|row rows IH]; intros last Ha; [done|].
    cbn in Ha. destruct Ha as [Hs Ha]. constructor; [lia|]. eapply Forall_impl; [exact (IH _ Ha)|].
    cbn. intros x. lia.
  - eexists. split_and!; done.
  - intros n Hn. unfold TailAudit. cbn. destruct (Z.leb_spec n 0); [lia|].
    destruct (Z.to_nat n) eqn:Hz; [lia|done].
Qed.

Lemma InsertAudit_monotone_witness :
  exists seq, (InsertAudit true (MkAuditRow 0 0 "op" "a" "" "" "h" "" "") 7 (fresh_db 0)).1 = Ok seq /\
  let db' := (InsertAudit true (MkAuditRow 0 0 "op" "a" "" "" "h" "" "") 7 (fresh_db 0)).2 in
  Forall (fun row => (Seq row < seq)%Z) (audit_log (fresh_db 0)) /\
  (exists row, audit_log db' = row :: audit_log (fresh_db 0) /\ Seq row = seq /\ Op row = "op" /\
               Actor row = "a" /\ A_Target row = "" /\ ParamsHash row = "h" /\
               Result row = (if emptyb "" then "ok" else "")) /\
  forall n, (0 < n)%Z -> hd_error (TailAudit n db') = hd_error (audit_log db').
Proof.
  apply (InsertAudit_monotone 0 (MkAuditRow 0 0 "op" "a" "" "" "h" "" "") 7 (fresh_db 0)).
  apply reach_fresh.
Defined.
