(* ===== verification/SignedMut.v ===== *)
(** * Signed mutations: internal/signedmut/envelope.go

    The verifier of user-signed envelopes.  Ed25519 verification is a
    parameter; the nonce store is an interface with the laws the verifier
    relies on, which the device database implements. *)

From S2P Require Import Prelude GoStrings Codec Utf8 Json Jcs UserKeys Store StoreProps.

(** ** The nonce store the verifier relies on *)
Class ReplayStore (St : Type) := {
  check_nonce : string -> Z -> St -> res store_error bool * St;
  (** [seen n t s]: [n] was marked at time [t] and [s] still knows it. *)
  seen : string -> Z -> St -> Prop;
  retention : Z;
  (** longer than any envelope can live: skew plus lifetime *)
  retention_long : (630 <= retention)%Z;
  check_marks n t s s' : check_nonce n t s = (Ok true, s') -> seen n t s';
  check_keeps n t m t' s : seen n t s -> (t' <= t + retention)%Z -> seen n t (check_nonce m t' s).2;
  check_seen n t t' s : seen n t s -> (check_nonce n t' s).1 <> Ok true
}.

#[export] Instance store_replay : ReplayStore DB.
Proof.
  refine {| check_nonce := CheckAndMarkNonce; seen := fun n t db => nonces db !! n = Some t;
            retention := nonceRetention |}.
  - unfold nonceRetention. lia.
  - intros n t s s' H. assert (s' = (CheckAndMarkNonce n t s).2) as -> by (by rewrite H).
    apply nonce_marked; [|by rewrite H]. intros ->. by vm_compute in H.
  - intros n t m t' s. apply nonce_kept.
  - intros n t t' s. apply nonce_seen.
Defined.

(** ** Wire format *)
Record Envelope := MkEnvelope { E_Mutation : option json; SigB64 : string; SignerPubkeyB64 : string }.

Record Mutation := MkMutation {
  V : Z;
  DeviceID : string;
  Op : string;
  Params : option json;
  Nonce : string;
  Iat : Z;
  Exp : Z;
  KeyID : string
}.

Definition DenyMalformed : string := "deny_malformed".
Definition DenyUntrustedKey : string := "deny_untrusted_key".
Definition DenySig : string := "deny_sig".
Definition DenyDeviceMismatch : string := "deny_device_mismatch".
Definition DenyExpired : string := "deny_expired".
Definition DenyFutureIat : string := "deny_future_iat".
Definition DenyWindow : string := "deny_window".
Definition DenyReplay : string := "deny_replay".

(** An error with the key it was matched to, if any. *)
Inductive verify_error : Type :=
| Deny (reason : string) (matched : option UserKey)
| NonceStoreFailed (matched : option UserKey).

Definition maxEnvelopeBytes : Z := 2 ^ 20.
Definition clockSkew : Z := 30.
Definition maxLifetime : Z := 600.

(** [int64] arithmetic wraps around. *)
Definition wrap64 (z : Z) : Z := ((z + 2 ^ 63) mod 2 ^ 64 - 2 ^ 63)%Z.

(** [json.Unmarshal] into the two structs; the flag is a decoding error. *)
Definition decode_envelope (j : json) : Envelope * bool :=
  let '(ms, e0) := struct_members j in
  let '(m, e1) := dec_field dec_raw "mutation" ms None in
  let '(s, e2) := dec_field dec_string "sig_b64" ms "" in
  let '(p, e3) := dec_field dec_string "signer_pubkey_b64" ms "" in
  (MkEnvelope m s p, e0 || e1 || e2 || e3).

Definition decode_mutation (j : json) : Mutation * bool :=
  let '(ms, e0) := struct_members j in
  let '(v, e1) := dec_field dec_int "v" ms 0%Z in
  let '(d, e2) := dec_field dec_string "device_id" ms "" in
  let '(o, e3) := dec_field dec_string "op" ms "" in
  let '(p, e4) := dec_field dec_raw "params" ms None in
  let '(n, e5) := dec_field dec_string "nonce" ms "" in
  let '(i, e6) := dec_field dec_int "iat" ms 0%Z in
  let '(x, e7) := dec_field dec_int "exp" ms 0%Z in
  let '(k, e8) := dec_field dec_string "key_id" ms "" in
  (MkMutation v d o p n i x k, e0 || e1 || e2 || e3 || e4 || e5 || e6 || e7 || e8).

(** The bytes that are signed: the canonical form of the decoded mutation. *)
Definition canonical_mutation (j : json) : res jcs_error string :=
  let! t := decodeJSON j in canonicalize t.

Section verifier.
Context (ed25519_verify : string -> string -> string -> bool).

Definition PublicKeyOk (s : string) : bool := (slen s =? 32)%nat.
Definition SignatureOk (s : string) : bool := (slen s =? 64)%nat.

(** Everything [Verify] checks before it asks the nonce store. *)
Definition verify_static (keys : list UserKey) (raw own : string) (nowU : Z)
    : res verify_error (Mutation * UserKey) :=
  guard_err (Z.of_nat (slen raw) >? maxEnvelopeBytes)%Z (Deny DenyMalformed None) ;;!
  match json_parse raw with
  | None => Err (Deny DenyMalformed None)
  | Some j =>
    let '(env, bad) := decode_envelope j in
    guard_err bad (Deny DenyMalformed None) ;;!
    match E_Mutation env with
    | None => Err (Deny DenyMalformed None)
    | Some mj =>
      guard_err (bool_decide (SigB64 env = "") || bool_decide (SignerPubkeyB64 env = ""))
        (Deny DenyMalformed None) ;;!
      match b64_decode (SignerPubkeyB64 env) with
      | None => Err (Deny DenyMalformed None)
      | Some signerPub =>
        guard_err (negb (PublicKeyOk signerPub)) (Deny DenyMalformed None) ;;!
        match b64_decode (SigB64 env) with
        | None => Err (Deny DenyMalformed None)
        | Some sig =>
          guard_err (negb (SignatureOk sig)) (Deny DenyMalformed None) ;;!
          match find (fun k => bool_decide (Pub k = signerPub)) keys with
          | None => Err (Deny DenyUntrustedKey None)
          | Some k =>
            match canonical_mutation mj with
            | Err _ => Err (Deny DenyMalformed None)
            | Ok canon =>
              guard_err (negb (ed25519_verify signerPub canon sig)) (Deny DenySig (Some k)) ;;!
              let '(m, badm) := decode_mutation mj in
              guard_err badm (Deny DenyMalformed (Some k)) ;;!
              guard_err (negb (V m =? 1)%Z) (Deny DenyMalformed (Some k)) ;;!
              guard_err (bool_decide (Op m = "") || bool_decide (Nonce m = "") || (128 <? slen (Nonce m))%nat)
                (Deny DenyMalformed (Some k)) ;;!
              guard_err (negb (bool_decide (DeviceID m = own))) (Deny DenyDeviceMismatch (Some k)) ;;!
              guard_err (nowU + clockSkew <? Iat m)%Z (Deny DenyFutureIat (Some k)) ;;!
              guard_err (Exp m <=? nowU)%Z (Deny DenyExpired (Some k)) ;;!
              guard_err ((maxLifetime <? wrap64 (Exp m - Iat m)) || (Exp m <=? Iat m))%Z
                (Deny DenyWindow (Some k)) ;;!
              Ok (m, k)
            end
          end
        end
      end
    end
  end.

Definition Verify {St} `{ReplayStore St} (keys : list UserKey) (raw own : string) (now : Z) (st : St)
    : res verify_error (Mutation * UserKey) * St :=
  match verify_static keys raw own now with
  | Err e => (Err e, st)
  | Ok (m, k) =>
      match check_nonce (Nonce m) now st with
      | (Err _, st') => (Err (NonceStoreFailed (Some k)), st')
      | (Ok fresh, st') => if fresh then (Ok (m, k), st') else (Err (Deny DenyReplay (Some k)), st')
      end
  end.

(** ** Object members with distinct names *)

(** No two member names select the same struct field. *)
Definition uniq (ms : list (string * json)) : Prop := NoDup (map (fun p => fold_key p.1) ms).

Definition plain_object (j : json) : Prop := match j with JObj ms => uniq ms | _ => True end.

Definition field_of {A} (name : string) (ms : list (string * A)) : option (string * A) :=
  find (fun p => names_field name p.1) ms.

Lemma dec_field_skip {A} (dec : json -> A -> A * bool) name ms cur :
  Forall (fun p => names_field name p.1 = false) ms ->
  fold_left (fun '(cur, e) '(k, j) =>
    if names_field name k then let '(v, e') := dec j cur in (v, e || e') else (cur, e)) ms cur = cur.
Proof.
  revert cur. induction ms as [|[k j] ms IH]; intros [c e] Hs; [done|].
  apply Forall_cons in Hs as [Hk Hs]. cbn in Hk. cbn [fold_left]. rewrite Hk. by apply IH.
Qed.

Lemma dec_field_uniq {A} (dec : json -> A -> A * bool) name ms zero :
  uniq ms ->
  dec_field dec name ms zero = match field_of name ms with Some (_, j) => dec j zero | None => (zero, false) end.
Proof.
  unfold dec_field, field_of. induction ms as [|[k j] ms IH]; intros Hu; [done|].
  unfold uniq in Hu. cbn [map fst] in Hu. apply NoDup_cons in Hu as [Hn Hu]. cbn [find fst].
  destruct (names_field name k) eqn:Hk.
  - cbn [fold_left]. rewrite Hk. destruct (dec j zero) as [v e] eqn:Hd. rewrite orb_false_l.
    rewrite dec_field_skip; [done|]. apply Forall_forall. intros [k' j'] Hin. cbn.
    apply not_true_is_false. intros Hk'. apply Hn. apply list_elem_of_fmap. exists (k', j'). split; [|done].
    unfold names_field in *. apply bool_decide_eq_true in Hk, Hk'. cbn. congruence.
  - cbn [fold_left]. rewrite Hk. by apply IH.
Qed.

(** ** The typed view of a mutation is a function of its signed tree *)

Definition on_tree (j : json) (t : tree) : Prop := normalize j = Ok t.

Definition members_match (ms : list (string * json)) (tms : list (string * tree)) : Prop :=
  Forall2 (fun p q => p.1 = q.1 /\ on_tree p.2 q.2) ms tms.

Lemma uniq_names ms : uniq ms -> NoDup (map fst ms).
Proof.
  unfold uniq. intros H. rewrite <- (map_map fst fold_key) in H. by apply NoDup_fmap_1 in H.
Qed.

Lemma normalize_obj ms t :
  uniq ms -> normalize (JObj ms) = Ok t -> exists tms, t = TObj tms /\ members_match ms tms.
Proof.
  intros Hu. cbn [normalize]. rewrite last_wins_id.
  2: { rewrite map_map. cbn. by apply uniq_names. }
  clear Hu. intros (tms & Hs & ->)%rmap_Ok. exists tms. split; [done|].
  rewrite map_map in Hs. revert tms Hs. induction ms as [|[k j] ms IH]; intros tms Hs.
  - injection Hs as <-. constructor.
  - apply seq_list_cons in Hs as (a & r & Ha & Hr & ->). unfold with_key in Ha. cbn in Ha.
    apply rmap_Ok in Ha as (t & Ht & ->). constructor; [done|]. by apply IH.
Qed.

Lemma field_match name ms tms :
  members_match ms tms ->
  match field_of name ms, field_of name tms with
  | Some (k, j), Some (k', t) => k = k' /\ on_tree j t
  | None, None => True
  | _, _ => False
  end.
Proof.
  induction 1 as [|[k j] [k' t] ms tms [Hk Ht] Hm IH]; [done|]. cbn in Hk, Ht. subst k'.
  unfold field_of in *. cbn. by destruct (names_field name k).
Qed.

(** What a struct field reads from a tree. *)
Definition tdec_string (t : tree) : option string := match t with TStr s => Some s | TNull => Some "" | _ => None end.
Definition tdec_int (t : tree) : option Z := match t with TInt z => Some z | TNull => Some 0%Z | _ => None end.

Lemma dec_string_tree j t : on_tree j t ->
  dec_string j "" = match tdec_string t with Some s => (s, false) | None => ("", true) end.
Proof.
  unfold on_tree. destruct j; cbn; try by intros [= <-].
  - destruct (parse_int64 text); by intros [= <-].
  - by intros (a & _ & ->)%rmap_Ok.
  - by intros (a & _ & ->)%rmap_Ok.
Qed.

Lemma dec_int_tree j t : on_tree j t ->
  dec_int j 0%Z = match tdec_int t with Some z => (z, false) | None => (0%Z, true) end.
Proof.
  unfold on_tree. destruct j; cbn; try by intros [= <-].
  - destruct (parse_int64 text); by intros [= <-].
  - by intros (a & _ & ->)%rmap_Ok.
  - by intros (a & _ & ->)%rmap_Ok.
Qed.

(** Two sets of members with the same sorted form read the same fields. *)
Definition same_members (tms1 tms2 : list (string * tree)) : Prop :=
  map (on_snd sorted_tree) tms1 ≡ₚ map (on_snd sorted_tree) tms2.

Lemma sorted_obj_same tms1 tms2 : sorted_tree (TObj tms1) = sorted_tree (TObj tms2) -> same_members tms1 tms2.
Proof.
  cbn. intros [= H]. unfold same_members.
  change (fun p : string * tree => (p.1, sorted_tree p.2)) with (on_snd sorted_tree) in H.
  rewrite <- (sortUTF16_perm (map (on_snd sorted_tree) tms1)), H. by rewrite sortUTF16_perm.
Qed.

Lemma field_of_perm {A} name (l1 l2 : list (string * A)) :
  NoDup (map (fun p => fold_key p.1) l1) -> l1 ≡ₚ l2 -> field_of name l1 = field_of name l2.
Proof.
  intros Hnd Hp. induction Hp as [|[k x] l1 l2 Hp IH|[k x] [k' y] l|l1 l2 l3 H12 IH1 H23 IH2]; [done|..].
  - cbn in *. apply NoDup_cons in Hnd as [_ Hnd]. unfold field_of in *. cbn. destruct (names_field name k); auto.
  - unfold field_of. cbn. destruct (names_field name k') eqn:Hk', (names_field name k) eqn:Hk; try done.
    exfalso. cbn in Hnd. apply NoDup_cons in Hnd as [Hn _]. apply Hn. unfold names_field in *.
    apply bool_decide_eq_true in Hk, Hk'. rewrite Hk, Hk'. set_solver.
  - rewrite IH1 by done. apply IH2. by rewrite <- H12.
Qed.

Lemma field_of_map {A B} (f : A -> B) name l : field_of name (map (on_snd f) l) = on_snd f <$> field_of name l.
Proof. induction l as [|[k x] l IH]; [done|]. unfold field_of in *. cbn. by destruct (names_field name k). Qed.

Lemma members_match_uniq ms tms : members_match ms tms -> uniq ms -> NoDup (map (fun p : string * tree => fold_key p.1) tms).
Proof.
  unfold uniq. intros Hm. enough (map (fun p => fold_key p.1) ms = map (fun p : string * tree => fold_key p.1) tms) as -> by done.
  induction Hm as [|[k j] [k' t] ms tms [Hk _] Hm IH]; [done|]. cbn in *. by rewrite IH, Hk.
Qed.

(** Corresponding values of a field in two wire objects with the same signed form. *)
Lemma field_same name ms1 ms2 t1 t2 :
  uniq ms1 -> uniq ms2 -> normalize (JObj ms1) = Ok t1 -> normalize (JObj ms2) = Ok t2 ->
  sorted_tree t1 = sorted_tree t2 ->
  match field_of name ms1, field_of name ms2 with
  | Some (_, j1), Some (_, j2) => exists u1 u2, on_tree j1 u1 /\ on_tree j2 u2 /\ sorted_tree u1 = sorted_tree u2
  | None, None => True
  | _, _ => False
  end.
Proof.
  intros U1 U2 N1 N2 Hs. destruct (normalize_obj _ _ U1 N1) as (tms1 & -> & M1).
  destruct (normalize_obj _ _ U2 N2) as (tms2 & -> & M2). apply sorted_obj_same in Hs.
  pose proof (members_match_uniq _ _ M1 U1) as D1.
  assert (field_of name (map (on_snd sorted_tree) tms1) = field_of name (map (on_snd sorted_tree) tms2)) as Hf.
  { apply field_of_perm; [|done]. by rewrite map_map. }
  rewrite !field_of_map in Hf. pose proof (field_match name _ _ M1) as F1. pose proof (field_match name _ _ M2) as F2.
  destruct (field_of name ms1) as [[k1 j1]|], (field_of name tms1) as [[k1' u1]|]; try done;
  destruct (field_of name ms2) as [[k2 j2]|], (field_of name tms2) as [[k2' u2]|]; try done.
  cbn in Hf. injection Hf as _ Hu. destruct F1, F2. eauto.
Qed.

Lemma string_field_same name ms1 ms2 t1 t2 :
  uniq ms1 -> uniq ms2 -> normalize (JObj ms1) = Ok t1 -> normalize (JObj ms2) = Ok t2 ->
  sorted_tree t1 = sorted_tree t2 -> dec_field dec_string name ms1 "" = dec_field dec_string name ms2 "".
Proof.
  intros U1 U2 N1 N2 Hs. rewrite !dec_field_uniq by done. pose proof (field_same name _ _ _ _ U1 U2 N1 N2 Hs) as H.
  destruct (field_of name ms1) as [[k1 j1]|], (field_of name ms2) as [[k2 j2]|]; try done.
  destruct H as (u1 & u2 & H1 & H2 & Hu). rewrite (dec_string_tree _ _ H1), (dec_string_tree _ _ H2).
  by destruct u1, u2; simplify_eq/=.
Qed.

Lemma int_field_same name ms1 ms2 t1 t2 :
  uniq ms1 -> uniq ms2 -> normalize (JObj ms1) = Ok t1 -> normalize (JObj ms2) = Ok t2 ->
  sorted_tree t1 = sorted_tree t2 -> dec_field dec_int name ms1 0%Z = dec_field dec_int name ms2 0%Z.
Proof.
  intros U1 U2 N1 N2 Hs. rewrite !dec_field_uniq by done. pose proof (field_same name _ _ _ _ U1 U2 N1 N2 Hs) as H.
  destruct (field_of name ms1) as [[k1 j1]|], (field_of name ms2) as [[k2 j2]|]; try done.
  destruct H as (u1 & u2 & H1 & H2 & Hu). rewrite (dec_int_tree _ _ H1), (dec_int_tree _ _ H2).
  by destruct u1, u2; simplify_eq/=.
Qed.

(** Two typed mutations that say the same: equal fields, and parameters equal
    up to the order of members. *)
Definition same_params (p1 p2 : option json) : Prop :=
  match p1, p2 with
  | None, None => True
  | Some j1, Some j2 => exists u1 u2, on_tree j1 u1 /\ on_tree j2 u2 /\ sorted_tree u1 = sorted_tree u2
  | _, _ => False
  end.

Definition same_mutation (m1 m2 : Mutation) : Prop :=
  V m1 = V m2 /\ DeviceID m1 = DeviceID m2 /\ Op m1 = Op m2 /\ Nonce m1 = Nonce m2 /\
  Iat m1 = Iat m2 /\ Exp m1 = Exp m2 /\ KeyID m1 = KeyID m2 /\ same_params (Params m1) (Params m2).

Lemma canonical_same j1 j2 c :
  canonical_mutation j1 = Ok c -> canonical_mutation j2 = Ok c ->
  exists t1 t2, normalize j1 = Ok t1 /\ normalize j2 = Ok t2 /\ sorted_tree t1 = sorted_tree t2.
Proof.
  unfold canonical_mutation, decodeJSON. intros (t1 & N1 & C1)%rbind_Ok (t2 & N2 & C2)%rbind_Ok.
  exists t1, t2. split_and!; [done..|].
  apply (writeCanonical_readable t1 t2 c c "" ""); [done..|by left|by left].
Qed.

Lemma raw_field_same name ms1 ms2 t1 t2 :
  uniq ms1 -> uniq ms2 -> normalize (JObj ms1) = Ok t1 -> normalize (JObj ms2) = Ok t2 ->
  sorted_tree t1 = sorted_tree t2 ->
  exists p1 p2, dec_field dec_raw name ms1 None = (p1, false) /\ dec_field dec_raw name ms2 None = (p2, false) /\
    same_params p1 p2.
Proof.
  intros U1 U2 N1 N2 Hs. rewrite !dec_field_uniq by done. pose proof (field_same name _ _ _ _ U1 U2 N1 N2 Hs) as H.
  destruct (field_of name ms1) as [[k1 j1]|], (field_of name ms2) as [[k2 j2]|]; try done.
  - exists (Some j1), (Some j2). split_and!; done.
  - exists None, None. done.
Qed.

Lemma decode_mutation_same j1 j2 c :
  canonical_mutation j1 = Ok c -> canonical_mutation j2 = Ok c -> plain_object j1 -> plain_object j2 ->
  (decode_mutation j1).2 = (decode_mutation j2).2 /\ same_mutation (decode_mutation j1).1 (decode_mutation j2).1.
Proof.
  intros C1 C2 P1 P2. destruct (canonical_same _ _ _ C1 C2) as (t1 & t2 & N1 & N2 & Hs).
  destruct j1 as [ |b1|n1|s1|l1|ms1], j2 as [ |b2|n2|s2|l2|ms2]; try (cbn; split; [done|by repeat split]);
    try (exfalso; cbn in N1, N2; repeat case_match; simplify_eq;
         repeat match goal with H : rmap _ _ = Ok _ |- _ => apply rmap_Ok in H as (? & _ & ->) end; discriminate Hs).
  cbn [plain_object] in P1, P2. unfold decode_mutation. cbn [struct_members].
  pose proof (int_field_same "v" _ _ _ _ P1 P2 N1 N2 Hs) as ->.
  pose proof (string_field_same "device_id" _ _ _ _ P1 P2 N1 N2 Hs) as ->.
  pose proof (string_field_same "op" _ _ _ _ P1 P2 N1 N2 Hs) as ->.
  pose proof (string_field_same "nonce" _ _ _ _ P1 P2 N1 N2 Hs) as ->.
  pose proof (int_field_same "iat" _ _ _ _ P1 P2 N1 N2 Hs) as ->.
  pose proof (int_field_same "exp" _ _ _ _ P1 P2 N1 N2 Hs) as ->.
  pose proof (string_field_same "key_id" _ _ _ _ P1 P2 N1 N2 Hs) as ->.
  destruct (raw_field_same "params" _ _ _ _ P1 P2 N1 N2 Hs) as (p1 & p2 & -> & -> & Hp).
  repeat match goal with |- context [dec_field ?d ?n ?m ?z] => destruct (dec_field d n m z) end.
  cbn. split; [done|]. unfold same_mutation. cbn. auto 10.
Qed.

(** The mutation an envelope carries, and the bytes its signature covers. *)
Definition signed_part (raw : string) : option json :=
  j ← json_parse raw; E_Mutation (decode_envelope j).1.

(** Reading a passed static check backwards. *)
Lemma verify_static_Ok keys raw own now m k :
  verify_static keys raw own now = Ok (m, k) ->
  exists mj canon sig,
    signed_part raw = Some mj /\ canonical_mutation mj = Ok canon /\
    k ∈ keys /\ ed25519_verify (Pub k) canon sig = true /\ slen sig = 64 /\
    decode_mutation mj = (m, false) /\ V m = 1%Z /\ Op m <> "" /\ Nonce m <> "" /\ DeviceID m = own /\
    (Iat m <= now + clockSkew)%Z /\ (now < Exp m)%Z /\ (wrap64 (Exp m - Iat m) <= maxLifetime)%Z /\ (Iat m < Exp m)%Z.
Proof.
  unfold verify_static, signed_part. rewrite guard_seq_Ok. intros [_ H].
  destruct (json_parse raw) as [j|]; [|done]. cbn. destruct (decode_envelope j) as [env bad]. cbn.
  rewrite guard_seq_Ok in H. destruct H as [_ H]. destruct (E_Mutation env) as [mj|]; [|done].
  rewrite guard_seq_Ok in H. destruct H as [_ H]. destruct (b64_decode (SignerPubkeyB64 env)) as [sp|]; [|done].
  rewrite guard_seq_Ok in H. destruct H as [_ H]. destruct (b64_decode (SigB64 env)) as [sig|]; [|done].
  rewrite guard_seq_Ok in H. destruct H as [Hsig H].
  destruct (find _ keys) as [k'|] eqn:Hf; [|done]. apply find_some in Hf as [Hin Hk].
  apply bool_decide_eq_true in Hk. destruct (canonical_mutation mj) as [canon|] eqn:Hc; [|done].
  rewrite guard_seq_Ok in H. destruct H as [Hv H]. destruct (decode_mutation mj) as [m' badm] eqn:Hd.
  rewrite !guard_seq_Ok in H. destruct H as (Hb & HV & Hon & Hdev & Hiat & Hexp & Hwin & [= -> ->]).
  apply negb_false_iff in Hsig, Hv, HV, Hdev. rewrite !orb_false_iff, !bool_decide_eq_false in Hon.
  destruct Hon as [[Ho Hn] _]. apply bool_decide_eq_true in Hdev. apply Z.eqb_eq in HV.
  apply Z.ltb_ge in Hiat. apply Z.leb_gt in Hexp. apply orb_false_iff in Hwin as [Hw1%Z.ltb_ge Hw2%Z.leb_gt].
  exists mj, canon, sig. subst badm. rewrite Hk. apply list_elem_of_In in Hin.
  unfold SignatureOk in Hsig. apply Nat.eqb_eq in Hsig. split_and!; done.
Qed.

(** C5: what the agent acts on is what was signed.  If an envelope is accepted,
    a pinned key's Ed25519 signature verifies over the canonical bytes of its
    mutation, the mutation names this device and its window covers now; and
    any other envelope a relay could make out of the same signed bytes, in
    whatever member order, whitespace or escapes, reads as the same mutation,
    as long as no member name of the mutation object occurs twice. *)
Theorem Verify_authentic {St} `{ReplayStore St} keys raw own now (st st' : St) m k :
  Verify keys raw own now st = (Ok (m, k), st') ->
  exists mj canon sig,
    signed_part raw = Some mj /\ canonical_mutation mj = Ok canon /\ k ∈ keys /\
    ed25519_verify (Pub k) canon sig = true /\ DeviceID m = own /\
    (Iat m <= now + clockSkew)%Z /\ (now < Exp m)%Z /\
    forall raw2 own2 now2 (st2 st2' : St) m2 k2 mj2,
      Verify keys raw2 own2 now2 st2 = (Ok (m2, k2), st2') ->
      signed_part raw2 = Some mj2 -> canonical_mutation mj2 = Ok canon ->
      plain_object mj -> plain_object mj2 -> same_mutation m m2.
Proof.
  unfold Verify. intros Hv. destruct (verify_static keys raw own now) as [[m' k']|] eqn:Hs; [|done].
  assert (m' = m /\ k' = k) as [-> ->].
  { repeat case_match; by simplify_eq. }
  destruct (verify_static_Ok _ _ _ _ _ _ Hs) as
    (mj & canon & sig & Hp & Hc & Hin & Hver & _ & Hd & _ & _ & _ & Hown & Hiat & Hexp & _ & _).
  exists mj, canon, sig. split_and!; [done..|].
  intros raw2 own2 now2 st2 st2' m2 k2 mj2 Hv2 Hp2 Hc2 P1 P2.
  destruct (verify_static keys raw2 own2 now2) as [[m2' k2']|] eqn:Hs2; [|done].
  assert (m2' = m2) as -> by (clear Hv; repeat case_match; by simplify_eq).
  destruct (verify_static_Ok _ _ _ _ _ _ Hs2) as (mj' & _ & _ & Hp2' & _ & _ & _ & _ & Hd2 & _).
  rewrite Hp2 in Hp2'. injection Hp2' as <-.
  destruct (decode_mutation_same mj mj2 canon) as [_ Hsame]; [done..|]. by rewrite Hd, Hd2 in Hsame.
Qed.

(** A rejected envelope never consumes a nonce: unless the nonce store
    itself was asked (a replay, or a store failure), the store is exactly as
    before, and it is asked only about an envelope that passed every other
    check. *)
Theorem Verify_reject_pure {St} `{ReplayStore St} keys raw own now (st st' : St) e :
  Verify keys raw own now st = (Err e, st') ->
  st' = st \/
  (exists m k, verify_static keys raw own now = Ok (m, k) /\ st' = (check_nonce (Nonce m) now st).2 /\
     (check_nonce (Nonce m) now st).1 <> Ok true /\ (e = Deny DenyReplay (Some k) \/ e = NonceStoreFailed (Some k))).
Proof.
  unfold Verify. destruct (verify_static keys raw own now) as [[m k]|e'] eqn:Hs.
  - intros Hv. right. exists m, k. split; [done|].
    destruct (check_nonce (Nonce m) now st) as [[[]|] s2]; simplify_eq; cbn; auto.
  - intros [= <- <-]. by left.
Qed.

(** Integers of a canonicalizable object are in the safe range. *)
Lemma seq_list_Ok {E A} (l : list (res E A)) ps : seq_list l = Ok ps -> Forall (fun x => is_ok x = true) l.
Proof.
  revert ps. induction l as [|x l IH]; intros ps Hs; [done|].
  apply seq_list_cons in Hs as (a & r & -> & Hr & _). constructor; [done|]. by eapply IH.
Qed.

Lemma canonical_members tms s :
  writeCanonical (TObj tms) = Ok s -> Forall (fun p => is_ok (writeCanonical p.2) = true) tms.
Proof.
  cbn [writeCanonical]. intros (ps & Hs & _)%rmap_Ok. apply seq_list_Ok in Hs.
  rewrite Forall_map, sortUTF16_perm, Forall_map in Hs. eapply Forall_impl; [exact Hs|].
  intros [k t]. unfold compose, member_text, validateUTF8. cbn. destruct (negb _); [done|].
  cbn. by destruct (writeCanonical t).
Qed.

Lemma int_field_safe name ms canon z :
  uniq ms -> canonical_mutation (JObj ms) = Ok canon -> dec_field dec_int name ms 0%Z = (z, false) ->
  (- maxSafeInteger <= z <= maxSafeInteger)%Z.
Proof.
  intros U (t & N & C)%rbind_Ok. destruct (normalize_obj _ _ U N) as (tms & -> & M).
  apply canonical_members in C. rewrite dec_field_uniq by done. pose proof (field_match name _ _ M) as F.
  destruct (field_of name ms) as [[k j]|] eqn:Hf, (field_of name tms) as [[k' u]|] eqn:Hf'; try done.
  - destruct F as [_ Hj]. rewrite (dec_int_tree _ _ Hj). unfold field_of in Hf'. apply find_some in Hf' as [Hin _].
    apply list_elem_of_In in Hin. rewrite Forall_forall in C. specialize (C _ Hin). cbn in C.
    destruct u; cbn; try discriminate; intros [= <-]; [unfold maxSafeInteger; lia|].
    revert C. cbn. destruct (_ || _)%Z eqn:E; [done|]. apply orb_false_iff in E as [?%Z.ltb_ge ?%Z.ltb_ge]. lia.
  - intros [= <-]. unfold maxSafeInteger. lia.
Qed.

Lemma wrap64_small z : (- 2 ^ 63 <= z < 2 ^ 63)%Z -> wrap64 z = z.
Proof. intros Hz. unfold wrap64. rewrite Z.mod_small by lia. lia. Qed.

(** A passed check bounds the lifetime: no wrap-around hides a long window. *)
Lemma lifetime_bound keys raw own now m k mj :
  verify_static keys raw own now = Ok (m, k) -> signed_part raw = Some mj -> plain_object mj ->
  (Exp m <= Iat m + maxLifetime)%Z.
Proof.
  intros Hs Hp Hpl. destruct (verify_static_Ok _ _ _ _ _ _ Hs) as
    (mj' & canon & sig & Hp' & Hc & _ & _ & _ & Hd & _ & _ & _ & _ & _ & _ & Hw & _).
  rewrite Hp in Hp'. injection Hp' as <-.
  assert (- maxSafeInteger <= Iat m <= maxSafeInteger /\ - maxSafeInteger <= Exp m <= maxSafeInteger)%Z as [Hi He].
  { unfold decode_mutation in Hd. destruct mj as [ |b|n|x|l|ms]; try (cbn in Hd; injection Hd as <-; cbn; unfold maxSafeInteger; lia).
    cbn [struct_members plain_object] in *.
    destruct (dec_field dec_int "v" ms 0%Z) as [v1 e1] eqn:E1, (dec_field dec_string "device_id" ms "") as [v2 e2],
      (dec_field dec_string "op" ms "") as [v3 e3], (dec_field dec_raw "params" ms None) as [v4 e4],
      (dec_field dec_string "nonce" ms "") as [v5 e5], (dec_field dec_int "iat" ms 0%Z) as [v6 e6] eqn:E6,
      (dec_field dec_int "exp" ms 0%Z) as [v7 e7] eqn:E7, (dec_field dec_string "key_id" ms "") as [v8 e8].
    injection Hd as <- He. rewrite !orb_false_iff in He. destruct_and!. subst. cbn [Iat Exp].
    split; eapply int_field_safe; done. }
  rewrite wrap64_small in Hw; [lia|]. unfold maxSafeInteger in *. lia.
Qed.

(** A run of nonce checks between two verifications. *)
Definition run_checks {St} `{ReplayStore St} (calls : list (string * Z)) (st : St) : St :=
  fold_left (fun s c => (check_nonce c.1 c.2 s).2) calls st.

Lemma run_checks_keeps {St} `{ReplayStore St} calls n t (st : St) :
  seen n t st -> Forall (fun c => (c.2 <= t + retention)%Z) calls -> seen n t (run_checks calls st).
Proof.
  revert st. induction calls as [|[m t'] calls IH]; intros st Hs Hc; [done|].
  apply Forall_cons in Hc as [Ht Hc]. cbn in *. apply IH; [|done]. by apply check_keeps.
Qed.

(** C6: an accepted mutation whose text repeats no name (not in another case of
    letters either) is never accepted again: not the same envelope, not a
    re-encoding of the same signed bytes that repeats no name, for any key set
    or device, after any other nonce checks, at any later time the clock shows.  Within
    its lifetime the nonce is still remembered; afterwards it has expired, and
    the retention is longer than the lifetime. *)
Theorem Verify_accepts_once {St} `{ReplayStore St} keys raw own t1 (st st1 : St) m k mj
    keys2 raw2 own2 t2 mj2 canon calls mk2 :
  Verify keys raw own t1 st = (Ok (m, k), st1) ->
  signed_part raw = Some mj -> canonical_mutation mj = Ok canon -> plain_object mj ->
  signed_part raw2 = Some mj2 -> canonical_mutation mj2 = Ok canon -> plain_object mj2 ->
  Forall (fun c => (c.2 <= t2)%Z) calls ->
  (Verify keys2 raw2 own2 t2 (run_checks calls st1)).1 <> Ok mk2.
Proof.
  intros Hv Hp Hc Hpl Hp2 Hc2 Hpl2 Hcalls Hacc.
  unfold Verify in Hv. destruct (verify_static keys raw own t1) as [[m' k']|] eqn:Hs; [|done].
  destruct (check_nonce (Nonce m') t1 st) as [[[]|] s'] eqn:Hn; [|done..]. injection Hv as -> -> ->.
  apply check_marks in Hn.
  unfold Verify in Hacc. destruct (verify_static keys2 raw2 own2 t2) as [[m2 k2]|] eqn:Hs2; [|done].
  destruct (verify_static_Ok _ _ _ _ _ _ Hs) as
    (mj' & _ & _ & Hp' & _ & _ & _ & _ & Hd & _ & _ & _ & _ & Hiat & _).
  rewrite Hp in Hp'. injection Hp' as <-.
  destruct (verify_static_Ok _ _ _ _ _ _ Hs2) as
    (mj2' & _ & _ & Hp2' & _ & _ & _ & _ & Hd2 & _ & _ & _ & _ & _ & Hexp2 & _).
  rewrite Hp2 in Hp2'. injection Hp2' as <-.
  destruct (decode_mutation_same mj mj2 canon) as [_ Hsame]; [done..|]. rewrite Hd, Hd2 in Hsame.
  destruct Hsame as (_ & _ & _ & Hnonce & _ & Hexp & _). cbn [fst] in Hnonce, Hexp.
  pose proof (lifetime_bound _ _ _ _ _ _ _ Hs Hp Hpl) as Hlife. pose proof (@retention_long St _) as Hret.
  unfold clockSkew, maxLifetime in *.
  assert (seen (Nonce m) t1 (run_checks calls st1)) as Hseen.
  { apply run_checks_keeps; [done|]. eapply Forall_impl; [exact Hcalls|]. cbn. intros c Hct.
    lia. }
  rewrite Hnonce in Hseen. pose proof (check_seen _ _ t2 _ Hseen) as Hns.
  destruct (check_nonce (Nonce m2) t2 (run_checks calls st1)) as [[[]|] ?]; done.
Qed.
End verifier.

(** ** A concrete envelope *)
Definition sample_key : UserKey := MkUserKey "me.pub" sample_pub.
Definition sample_mutation_text : string :=
  bq "{`v`:1,`device_id`:`d1`,`op`:`domain.delete`,`params`:{`domain`:`x.org`},`nonce`:`n1`,`iat`:1000,`exp`:1120,`key_id`:`k`}".
Definition sample_raw : string :=
  bq "{`mutation`:" +:+ sample_mutation_text +:+ bq ",`sig_b64`:`" +:+ b64_encode true (zeros 64) +:+
  bq "`,`signer_pubkey_b64`:`" +:+ b64_encode true sample_pub +:+ bq "`}".
Definition sample_json : json :=
  JObj [("v", JNum "1"); ("device_id", JStr "d1"); ("op", JStr "domain.delete");
        ("params", JObj [("domain", JStr "x.org")]); ("nonce", JStr "n1"); ("iat", JNum "1000");
        ("exp", JNum "1120"); ("key_id", JStr "k")].
Definition sample_mutation : Mutation :=
  MkMutation 1 "d1" "domain.delete" (Some (JObj [("domain", JStr "x.org")])) "n1" 1000 1120 "k".
Definition sample_canon : string :=
  bq "{`device_id`:`d1`,`exp`:1120,`iat`:1000,`key_id`:`k`,`nonce`:`n1`,`op`:`domain.delete`,`params`:{`domain`:`x.org`},`v`:1}".
Definition any_sig : string -> string -> string -> bool := fun _ _ _ => true.

Lemma sample_uniq : plain_object sample_json.
Proof. cbn. unfold uniq. apply (bool_decide_unpack _). vm_compute. exact I. Qed.

Lemma Verify_authentic_witness :
  exists mj canon sig,
    signed_part sample_raw = Some mj /\ canonical_mutation mj = Ok canon /\ sample_key ∈ [sample_key] /\
    any_sig (Pub sample_key) canon sig = true /\ DeviceID sample_mutation = "d1" /\
    (Iat sample_mutation <= 1010 + clockSkew)%Z /\ (1010 < Exp sample_mutation)%Z /\
    forall raw2 own2 now2 (st2 st2' : DB) m2 k2 mj2,
      Verify any_sig [sample_key] raw2 own2 now2 st2 = (Ok (m2, k2), st2') ->
      signed_part raw2 = Some mj2 -> canonical_mutation mj2 = Ok canon ->
      plain_object mj -> plain_object mj2 -> same_mutation sample_mutation m2.
Proof.
  apply (Verify_authentic any_sig [sample_key] sample_raw "d1" 1010 (fresh_db 0)
           (Verify any_sig [sample_key] sample_raw "d1" 1010 (fresh_db 0)).2 sample_mutation sample_key).
  vm_compute. reflexivity.
Defined.

Lemma Verify_reject_pure_witness :
  let st' := (Verify any_sig [sample_key] sample_raw "d2" 1010 (fresh_db 0)).2 in
  st' = fresh_db 0 \/
  (exists m k, verify_static any_sig [sample_key] sample_raw "d2" 1010 = Ok (m, k) /\
     st' = (check_nonce (Nonce m) 1010 (fresh_db 0)).2 /\ (check_nonce (Nonce m) 1010 (fresh_db 0)).1 <> Ok true /\
     (Deny DenyDeviceMismatch (Some sample_key) = Deny DenyReplay (Some k) \/
      Deny DenyDeviceMismatch (Some sample_key) = NonceStoreFailed (Some k))).
Proof.
  apply (Verify_reject_pure any_sig [sample_key] sample_raw "d2" 1010 (fresh_db 0)
           (Verify any_sig [sample_key] sample_raw "d2" 1010 (fresh_db 0)).2). vm_compute. reflexivity.
Defined.

Lemma Verify_accepts_once_witness :
  (Verify any_sig [sample_key] sample_raw "d1" 1050
     (run_checks [("other", 1020%Z)] (Verify any_sig [sample_key] sample_raw "d1" 1010 (fresh_db 0)).2)).1
  <> Ok (sample_mutation, sample_key).
Proof.
  apply (Verify_accepts_once any_sig [sample_key] sample_raw "d1" 1010 (fresh_db 0)
           (Verify any_sig [sample_key] sample_raw "d1" 1010 (fresh_db 0)).2 sample_mutation sample_key sample_json
           [sample_key] sample_raw "d1" 1050 sample_json sample_canon [("other", 1020%Z)] (sample_mutation, sample_key));
    [vm_compute; reflexivity|vm_compute; reflexivity|vm_compute; reflexivity|exact sample_uniq
    |vm_compute; reflexivity|vm_compute; reflexivity|exact sample_uniq|].
  repeat constructor. cbn. lia.
Defined.
