(* ===== verification/AuditLog.v ===== *)
(** * The audit log: internal/audit/writer.go

    The writer inserts a row into the database, which assigns the sequence
    number, and then appends one line to the log file.  The file is the list
    of the entries written to it, newest first.  [log_io] says whether the
    database accepts the row and the operating system the line: a refused row
    leaves neither, a refused line leaves the row.  The
    mutex makes one [Append] one atomic step. *)

From S2P Require Import Prelude GoStrings Codec Utf8 Json JsonEnc Store StoreInv.

Inductive audit_error : Type := OpRequired | ActorRequired | DBInsert (e : store_error) | FileWrite.

Definition ResultOK : string := "ok".
Definition ResultError : string := "error".
Definition ResultDenied : string := "denied".

Record Entry := MkEntry {
  A_Seq : Z;
  A_TS : Z;
  A_Op : string;
  A_Actor : string;
  E_Target : string;
  A_Result : string;
  Params : list (string * json);
  A_ParamsHash : string;
  A_ParamsSummary : string;
  A_ErrorMessage : string
}.

Inductive log_io := RowRefused | LineRefused | Logged.
Definition row_ok (io : log_io) : bool := match io with RowRefused => false | _ => true end.
Definition line_ok (io : log_io) : bool := match io with Logged => true | _ => false end.

(** A non-nil [Writer]: the lines of the file and whether it is still open. *)
Record Writer := MkWriter { lines : list Entry; opened : bool }.

(** [canonicalize]: a map becomes the array of its names and values, in byte
    order of the names. *)
Fixpoint canonicalize (v : json) : json :=
  match v with
  | JObj ms => JArr (flat_map (fun p => [JStr p.1; p.2]) (by_name (map (fun p => (p.1, canonicalize p.2)) ms)))
  | JArr l => JArr (map canonicalize l)
  | _ => v
  end.

Section writer.
Context (sha256 : string -> string).

Definition HashParams (params : list (string * json)) : string :=
  match params with
  | [] => "sha256:empty"
  | _ => "sha256:" +:+ hex_encode (sha256 (marshal (canonicalize (JObj params))))
  end.

(** The entry with the defaults [Append] fills in. *)
Definition completed (e : Entry) (now : Z) : Entry :=
  MkEntry (A_Seq e) (if (A_TS e =? 0)%Z then now else A_TS e) (A_Op e) (A_Actor e) (E_Target e)
    (if emptyb (A_Result e) then ResultOK else A_Result e) (Params e)
    (if emptyb (A_ParamsHash e) then HashParams (Params e) else A_ParamsHash e)
    (A_ParamsSummary e) (A_ErrorMessage e).

Definition row_of (e : Entry) : AuditRow :=
  MkAuditRow (A_Seq e) (A_TS e) (A_Op e) (A_Actor e) (E_Target e) (A_Result e)
    (A_ParamsHash e) (A_ParamsSummary e) (A_ErrorMessage e).

Definition with_seq (e : Entry) (seq : Z) : Entry :=
  MkEntry seq (A_TS e) (A_Op e) (A_Actor e) (E_Target e) (A_Result e) (Params e)
    (A_ParamsHash e) (A_ParamsSummary e) (A_ErrorMessage e).

Definition Append (w : option Writer) (e : Entry) (now : Z) (io : log_io) (db : DB)
    : res audit_error unit * option Writer * DB :=
  match w with
  | None => (Ok tt, None, db)
  | Some wr =>
      let e := completed e now in
      if emptyb (A_Op e) then (Err OpRequired, w, db)
      else if emptyb (A_Actor e) then (Err ActorRequired, w, db)
      else
        let '(r, db') := InsertAudit (row_ok io) (row_of e) now db in
        match r with
        | Err err => (Err (DBInsert err), w, db')
        | Ok seq =>
            if negb (opened wr) then (Ok tt, w, db')
            else if negb (line_ok io) then (Err FileWrite, w, db')
            else (Ok tt, Some (MkWriter (with_seq e seq :: lines wr) true), db')
        end
  end.

(** [Close] drops the handle; the lines stay on disk. *)
Definition Close (w : option Writer) : option Writer :=
  match w with
  | None => None
  | Some wr => Some (MkWriter (lines wr) false)
  end.

Definition entry_of (r : AuditRow) : Entry :=
  MkEntry (Seq r) (TS r) (Op r) (Actor r) (A_Target r) (Result r) [] (ParamsHash r) (ParamsSummary r) (ErrorMessage r).

Definition Tail (w : option Writer) (n : Z) (db : DB) : list Entry :=
  match w with
  | None => []
  | Some _ => map entry_of (TailAudit (if (n <=? 0)%Z then 50 else n) db)
  end.

(** ** Lemmas *)

Lemma canonicalize_sim j1 j2 : jsim j1 j2 -> canonicalize j1 = canonicalize j2.
Proof.
  induction 1 as [|l1 l2 Hl _ IH|ms1 ms2 Hp _ IH]; [done| |]; cbn.
  - by rewrite (map_sim canonicalize l1 l2).
  - by rewrite (by_name_sim canonicalize ms1 ms2).
Qed.

Lemma completed_result e now : A_Result (completed e now) <> "".
Proof. cbn. unfold emptyb. case_bool_decide; done. Qed.

(** What an insertion stores: the completed entry under the new key. *)
Lemma InsertAudit_row e now db :
  InsertAudit true (row_of (completed e now)) now db =
  (Ok (audit_last db + 1)%Z,
   set_audit (row_of (with_seq (completed e now) (audit_last db + 1)) :: audit_log db) (audit_last db + 1) db).
Proof.
  unfold InsertAudit. f_equal. f_equal. f_equal.
  pose proof (completed_result e now) as Hr. unfold row_of, with_seq.
  cbn [TS Op Actor A_Target Result ParamsHash ParamsSummary ErrorMessage].
  replace (emptyb (A_Result (completed e now))) with false
    by (symmetry; unfold emptyb; by apply bool_decide_eq_false_2).
  f_equal. destruct (Z.eqb_spec (A_TS (completed e now)) 0) as [H0|]; [|done]. rewrite H0.
  cbn in H0. destruct (Z.eqb_spec (A_TS e) 0); [done|lia].
Qed.

(** The row an [Append] leaves, as [Tail] shows it. *)
Definition recorded (e : Entry) (now : Z) (db : DB) : Entry := with_seq (completed e now) (audit_last db + 1).

Lemma Append_Some w e now io db :
  emptyb (A_Op e) = false -> emptyb (A_Actor e) = false ->
  Append (Some w) e now io db =
  if row_ok io then
  (if opened w && negb (line_ok io) then Err FileWrite else Ok tt,
   Some (if opened w && line_ok io then MkWriter (recorded e now db :: lines w) true else w),
   set_audit (row_of (recorded e now db) :: audit_log db) (audit_last db + 1) db)
  else (Err (DBInsert IOFailed), Some w, db).
Proof.
  intros Ho Ha. unfold Append. change (A_Op (completed e now)) with (A_Op e).
  change (A_Actor (completed e now)) with (A_Actor e). rewrite Ho, Ha. destruct io; cbn [row_ok line_ok]; [done|rewrite InsertAudit_row; by destruct (opened w)..].
Qed.

(** An entry with an operation and an actor, when the database accepts it, is
    recorded whatever happens to the file: it becomes the newest row of the table under a new sequence
    number, with its defaults filled in, [Tail] returns it, no other table
    changes, and the log file gets a line with the same sequence number exactly
    when it is open and the write succeeds (a refused write is reported). *)
Theorem Append_effect w e now io db r w' db' :
  row_ok io = true -> A_Op e <> "" -> A_Actor e <> "" ->
  Append (Some w) e now io db = (r, w', db') ->
  db' = set_audit (row_of (recorded e now db) :: audit_log db) (audit_last db + 1) db /\
  Tail w' 1 db' = [entry_of (row_of (recorded e now db))] /\
  (r = Ok tt <-> opened w && negb (line_ok io) = false) /\
  lines <$> w' = Some (if opened w && line_ok io then recorded e now db :: lines w else lines w).
Proof.
  intros Hio Ho Ha Happ. rewrite Append_Some, Hio in Happ by (unfold emptyb; by apply bool_decide_eq_false_2).
  injection Happ as <- <- <-. by destruct (opened w), (line_ok io).
Qed.

(** The parameter hash depends on the logical parameters only: values that
    differ in the order of map entries, at any depth, have the same hash. *)
Theorem HashParams_order_free p q : jsim (JObj p) (JObj q) -> HashParams p = HashParams q.
Proof.
  intros Hs. pose proof (canonicalize_sim _ _ Hs) as Hc.
  assert (Hnil : p = [] <-> q = []).
  { inversion Hs as [| |? ? Hp]; subst; [done|]. destruct p, q; cbn in Hp; try done;
      [by apply Permutation_nil_cons in Hp|symmetry in Hp; by apply Permutation_nil_cons in Hp]. }
  unfold HashParams. rewrite Hc. destruct p, q; naive_solver.
Qed.

(** ** The file and the table along any run *)
Inductive audit_step : option Writer * DB -> option Writer * DB -> Prop :=
| AAppend w db e now io :
    audit_step (w, db) ((Append w e now io db).1.2, (Append w e now io db).2)
| AClose w db : audit_step (w, db) (Close w, db)
| AStore w db op : audit_step (w, db) (w, exec op db).

Inductive audit_run (t0 : Z) : option Writer * DB -> Prop :=
| run_new : audit_run t0 (Some (MkWriter [] true), fresh_db t0)
| run_step s s' : audit_run t0 s -> audit_step s s' -> audit_run t0 s'.

(** Each line is a row of the table, and the lines are in sequence order. *)
Definition mirrored (s : option Writer * DB) : Prop :=
  match s.1 with
  | None => True
  | Some w => StronglySorted (fun a b => (A_Seq b < A_Seq a)%Z) (lines w) /\
              Forall (fun l => row_of l ∈ audit_log s.2 /\ (A_Seq l <= audit_last s.2)%Z) (lines w)
  end.

(** No store method removes or changes an audit row. *)
Lemma exec_audit op db :
  (audit_log (exec op db) = audit_log db /\ audit_last (exec op db) = audit_last db) \/
  exists row, audit_log (exec op db) = row :: audit_log db /\ audit_last (exec op db) = (audit_last db + 1)%Z.
Proof.
  destruct op; cbn; try (left; done); try (destruct accepted; [right; eexists; done|by left]); left;
    unfold UpsertInstance, UpsertDomain, SetDomainBasicAuth, UpsertBinding, UpsertService, TryAcquireLock, ReleaseLock,
      CheckAndMarkNonce, EnsureInstanceSecret, CreateInstanceSecret, EnsureTemplateSecret; repeat case_match; done.
Qed.

Lemma mirrored_rows w db db' row :
  audit_log db' = audit_log db /\ audit_last db' = audit_last db \/
  audit_log db' = row :: audit_log db /\ audit_last db' = (audit_last db + 1)%Z ->
  mirrored (w, db) -> mirrored (w, db').
Proof.
  unfold mirrored. destruct w as [w|]; [|done]. cbn. intros Hdb [Hs Hf]. split; [done|].
  eapply Forall_impl; [exact Hf|]. cbn. intros l [Hin Hle].
  destruct Hdb as [[-> ->]|[-> ->]]; [done|]. split; [set_solver|lia].
Qed.

Lemma mirrored_append w db e now io :
  mirrored (w, db) -> mirrored ((Append w e now io db).1.2, (Append w e now io db).2).
Proof.
  destruct w as [w|]; [|done]. intros H.
  destruct (emptyb (A_Op e)) eqn:Ho; [unfold Append; change (A_Op (completed e now)) with (A_Op e); by rewrite Ho|].
  destruct (emptyb (A_Actor e)) eqn:Ha.
  { unfold Append. change (A_Op (completed e now)) with (A_Op e).
    change (A_Actor (completed e now)) with (A_Actor e). by rewrite Ho, Ha. }
  rewrite Append_Some by done. destruct (row_ok io); [|done]. cbn [fst snd].
  assert (Hold : mirrored (Some w, set_audit (row_of (recorded e now db) :: audit_log db) (audit_last db + 1) db))
    by (eapply mirrored_rows; [by right|done]).
  destruct (opened w && line_ok io); [|done].
  destruct H as [Hs Hf], Hold as [_ Hf']. split; cbn.
  - constructor; [done|]. eapply Forall_impl; [exact Hf|]. cbn. intros l [_ Hl]. unfold recorded. cbn. lia.
  - constructor; [split; [apply list_elem_of_here|unfold recorded; cbn; lia]|done].
Qed.

(** The log file and the table never disagree: in every state reached by
    appends (successful or not), closing the writer and any other store
    methods, each line of the file is a row of the table with the same contents,
    and the lines are in strictly increasing order of their sequence numbers. *)
Theorem audit_mirror t0 s w :
  audit_run t0 s -> s.1 = Some w ->
  StronglySorted (fun a b => (A_Seq b < A_Seq a)%Z) (lines w) /\
  Forall (fun l => row_of l ∈ audit_log s.2) (lines w).
Proof.
  intros Hrun Hw. assert (Hm : mirrored s).
  { clear Hw. induction Hrun as [|s s' _ IH Hstep]; [by repeat constructor|].
    destruct Hstep as [w' db e now ok|w' db|w' db op].
    - by apply mirrored_append.
    - by destruct w'.
    - destruct (exec_audit op db) as [Hdb|[row Hdb]];
        (eapply mirrored_rows; [|exact IH]); [left; exact Hdb|right; exact Hdb]. }
  unfold mirrored in Hm. rewrite Hw in Hm. destruct Hm as [Hs Hf]. split; [done|].
  eapply Forall_impl; [exact Hf|]. by intros ? [? _].
  Unshelve. exact (MkAuditRow 0 0 "" "" "" "" "" "" "").
Qed.

End writer.

(** ** Concrete runs *)
Definition id_hash : string -> string := fun s => s.
Definition sample_entry : Entry :=
  MkEntry 0 0 "instance.upsert" "obachtctl" "web" "" [("b", JNum "1"); ("a", JObj [("y", JNull); ("x", JBool true)])] "" "" "".

Lemma Append_effect_witness :
  exists db', Tail (Some (MkWriter [] true)) 1 db' = [entry_of (row_of (recorded id_hash sample_entry 7 (fresh_db 1)))].
Proof.
  destruct (Append id_hash (Some (MkWriter [] true)) sample_entry 7 LineRefused (fresh_db 1)) as [[r w'] db'] eqn:Happ.
  exists db'. destruct (Append_effect id_hash (MkWriter [] true) sample_entry 7 LineRefused (fresh_db 1) r w' db')
    as (_ & Ht & _); [done|by vm_compute|by vm_compute|exact Happ|].
  rewrite <- Ht. assert (w' = Some (MkWriter [] true)) as ->; [|done].
  revert Happ. vm_compute. intros [= _ <- _]. done.
Defined.

Lemma HashParams_order_free_witness :
  HashParams id_hash [("b", JNum "1"); ("a", JObj [("y", JNull); ("x", JBool true)])] =
  HashParams id_hash [("a", JObj [("x", JBool true); ("y", JNull)]); ("b", JNum "1")].
Proof.
  apply HashParams_order_free. apply jsim_obj; [apply perm_swap|].
  intros k v1 v2. cbn. repeat case_bool_decide; subst; try done; intros [= <-] [= <-]; [apply jsim_refl|].
  apply jsim_obj; [apply perm_swap|]. intros k v1 v2. cbn.
  repeat case_bool_decide; subst; try done; intros [= <-] [= <-]; apply jsim_refl.
Defined.

Lemma audit_mirror_witness :
  exists s w, s.1 = Some w /\ length (lines w) = 2 /\ StronglySorted (fun a b => (A_Seq b < A_Seq a)%Z) (lines w) /\
    Forall (fun l => row_of l ∈ audit_log s.2) (lines w).
Proof.
  pose (step := fun (s : option Writer * DB) =>
    ((Append id_hash s.1 sample_entry 7 Logged s.2).1.2, (Append id_hash s.1 sample_entry 7 Logged s.2).2)).
  pose (s0 := (Some (MkWriter [] true), fresh_db 1)).
  exists (step (step s0)). eexists. split; [by vm_compute|]. split; [by vm_compute|].
  eapply (audit_mirror id_hash 1); [|by vm_compute].
  eapply run_step; [eapply run_step; [apply run_new|]|]; apply AAppend.
Defined.

(** A map and the array of its names and values hash alike: the hash does not
    separate the two shapes. *)
Example HashParams_shapes :
  HashParams id_hash [("k", JObj [("a", JNum "1")])] = HashParams id_hash [("k", JArr [JStr "a"; JNum "1"])].
Proof. reflexivity. Qed.
