(* ===== verification/Trust.v ===== *)
(** * Trusted signing keys: internal/trust, internal/selfupdate/verify.go,
    manifest.Verify

    Minisign is a parameter: [unmarshal] reads a public key, [verify_sig] checks
    one signature under one key.  A directory of keys is missing, unreadable, or
    the list of its entries in name order. *)

From S2P Require Import Prelude GoStrings.

Record KeyEntry := MkKeyEntry { K_Label : string; PubKey : string }.

Inductive trust_error : Type :=
| EmptyBundle | BadKey (label : string) | ReadDir | ReadFile (name : string)
| NoKeys | Rejected (n : nat) (last : string).

Inductive dir_item := ISub | IFile (content : option string).  (* [None]: the file cannot be read *)
Inductive directory := Missing | Unreadable | Entries (l : list (string * dir_item)).

(** [LoadFromDir] *)
Fixpoint load_items (l : list (string * dir_item)) : res trust_error (list KeyEntry) :=
  match l with
  | [] => Ok []
  | (name, IFile c) :: l' =>
      if negb (has_suffix name ".pub") then load_items l'
      else match c with
           | None => Err (ReadFile name)
           | Some data => rmap (cons (MkKeyEntry name data)) (load_items l')
           end
  | (_, ISub) :: l' => load_items l'
  end.
Definition LoadFromDir (d : directory) : res trust_error (list KeyEntry) :=
  match d with
  | Missing => Ok []
  | Unreadable => Err ReadDir
  | Entries l => load_items l
  end.

Definition EmbeddedKeys : list KeyEntry :=
  [MkKeyEntry "obacht-registry-prod-1"
     ("untrusted comment: minisign public key 7263DA4AA71D7A3A" +:+ String LF
      ("RWQ6eh2nStpjcld2gQQl2cSn4Hm7J4nHJ3uQzOZWlMRz1riY7+uRhcW4" +:+ str1 LF))].

Section minisign.
Context {Key : Type} (unmarshal : string -> option Key) (verify_sig : Key -> string -> string -> bool).

Record Bundle := MkBundle { b_keys : list (Key * string) }.  (* each key with its label *)

Fixpoint read_keys (entries : list KeyEntry) : res trust_error (list (Key * string)) :=
  match entries with
  | [] => Ok []
  | e :: l => match unmarshal (trim_space (PubKey e)) with
              | None => Err (BadKey (K_Label e))
              | Some pk => rmap (cons (pk, K_Label e)) (read_keys l)
              end
  end.
Definition New (entries : list KeyEntry) : res trust_error Bundle :=
  match entries with [] => Err EmptyBundle | _ => rmap MkBundle (read_keys entries) end.

(** The loop of [Bundle.Verify]; [last] is the label tried last. *)
Fixpoint verify_loop (keys : list (Key * string)) (n : nat) (last content sig : string) : res trust_error unit :=
  match keys with
  | [] => Err (Rejected n last)
  | (pk, label) :: l => if verify_sig pk content sig then Ok tt else verify_loop l n label content sig
  end.
Definition Bundle_Verify (b : Bundle) (content sig : string) : res trust_error unit :=
  match b_keys b with
  | [] => Err EmptyBundle
  | ks => verify_loop ks (length ks) "" content sig
  end.

(** [manifest.Verify] with the directory the trust path names. *)
Definition manifest_Verify (manifestBytes sig : string) (trustDir : directory) : res trust_error unit :=
  let! dirEntries := LoadFromDir trustDir in
  let! bundle := New (EmbeddedKeys ++ dirEntries) in
  Bundle_Verify bundle manifestBytes sig.

(** ** Self-update *)
Definition verifyWithKeys (keys : list KeyEntry) (content sig : string) : res trust_error unit :=
  match keys with
  | [] => Err NoKeys
  | _ => let! bundle := New keys in Bundle_Verify bundle content sig
  end.
Definition LoadReleaseKeys (embedded : list KeyEntry) (dir : directory) : res trust_error (list KeyEntry) :=
  rmap (app embedded) (LoadFromDir dir).
Definition VerifyFile (embedded : list KeyEntry) (dir : directory) (content sig : string) : res trust_error unit :=
  let! keys := LoadReleaseKeys embedded dir in verifyWithKeys keys content sig.

(** ** Lemmas *)
Lemma read_keys_Ok entries ks :
  read_keys entries = Ok ks <-> Forall2 (fun e k => unmarshal (trim_space (PubKey e)) = Some k.1 /\ K_Label e = k.2) entries ks.
Proof.
  revert ks. induction entries as [|e l IH]; intros ks; cbn.
  - split; [intros [= <-]; constructor|]. intros H. by inversion H.
  - destruct (unmarshal _) as [pk|] eqn:Hu.
    + destruct (read_keys l) as [ks'|] eqn:Hr; cbn.
      * split; [intros [= <-]; constructor; [done|by apply IH]|]. intros H. inversion H as [|? [pk' lb] ? ? [Hk Hl] Hrest]; subst.
        cbn in *. simplify_eq. apply IH in Hrest. congruence.
      * split; [done|]. intros H. inversion H as [|? ? ? ? _ Hrest]; subst. apply IH in Hrest. congruence.
    + split; [done|]. intros H. inversion H as [|? ? ? ? [Hk _]]; subst. congruence.
Qed.

Lemma verify_loop_Ok ks n last c s :
  verify_loop ks n last c s = Ok tt <-> exists k, k ∈ ks /\ verify_sig k.1 c s = true.
Proof.
  revert last. induction ks as [|[pk lb] ks IH]; intros last; cbn.
  - split; [done|]. intros (k & Hk & _). by apply elem_of_nil in Hk.
  - destruct (verify_sig pk c s) eqn:Hv.
    + split; [intros _; exists (pk, lb); split; [left|done]|done].
    + rewrite IH. split; intros (k & Hk & Hs); exists k; (split; [|done]); [by right|].
      apply elem_of_cons in Hk as [->|Hk]; [cbn in Hs; congruence|done].
Qed.

(** Acceptance under a list of key entries. *)
Definition accepted_by (entries : list KeyEntry) (content sig : string) : Prop :=
  Forall (fun e => is_Some (unmarshal (trim_space (PubKey e)))) entries /\
  exists e pk, e ∈ entries /\ unmarshal (trim_space (PubKey e)) = Some pk /\ verify_sig pk content sig = true.

Lemma bundle_accepts entries content sig :
  (let! b := New entries in Bundle_Verify b content sig) = Ok tt <-> accepted_by entries content sig.
Proof.
  rewrite rbind_Ok. split.
  - intros (b & Hb & Hv). unfold New in Hb. destruct entries as [|e0 l0]; [done|]. set (es := e0 :: l0) in *.
    destruct (read_keys es) as [ks|] eqn:Hr; [|done]. injection Hb as <-. apply read_keys_Ok in Hr.
    unfold Bundle_Verify in Hv. cbn [b_keys] in Hv. destruct ks as [|k0 ks]; [done|]. apply verify_loop_Ok in Hv as (k & Hk & Hs).
    split; [by eapply Forall2_Forall_l; [exact Hr|]; apply Forall_true; intros k' e' [-> _]|].
    apply list_elem_of_lookup in Hk as [i Hi]. destruct (Forall2_lookup_r _ _ _ _ _ Hr Hi) as (e & He & Hu & _).
    exists e, k.1. split; [by eapply list_elem_of_lookup_2|done].
  - intros [Hall (e & pk & He & Hu & Hs)]. assert (Hks : exists ks, read_keys entries = Ok ks).
    { clear -Hall. induction Hall as [|x l [k Hx] _ [ks IH]]; [by eexists|]. cbn. rewrite Hx, IH. by eexists. }
    destruct Hks as [ks Hks]. exists (MkBundle ks). split; [unfold New; destruct entries; [by apply elem_of_nil in He|by rewrite Hks]|].
    apply read_keys_Ok in Hks. apply list_elem_of_lookup in He as [i Hi].
    destruct (Forall2_lookup_l _ _ _ _ _ Hks Hi) as (k & Hk & Hk1 & _). assert (k.1 = pk) as <- by congruence.
    apply list_elem_of_lookup_2 in Hk. unfold Bundle_Verify. cbn [b_keys].
    destruct ks as [|k0 ks]; [by apply elem_of_nil in Hk|]. apply verify_loop_Ok. eauto.
Qed.

(** A manifest is accepted exactly when the trust directory can be read,
    every embedded and installed key is well formed and at least one of them
    verifies the signature over the manifest; there is no other way in. *)
Theorem manifest_Verify_iff m sig d :
  manifest_Verify m sig d = Ok tt <->
  exists extra, LoadFromDir d = Ok extra /\ accepted_by (EmbeddedKeys ++ extra) m sig.
Proof.
  unfold manifest_Verify. rewrite rbind_Ok. by setoid_rewrite bundle_accepts.
Qed.

(** A self-update is verified exactly when some release key accepts it; no
    trusted key at all is reported as such, and is the only way to get that
    answer. *)
Theorem VerifyFile_iff embedded d content sig :
  (VerifyFile embedded d content sig = Ok tt <->
   exists extra, LoadFromDir d = Ok extra /\ accepted_by (embedded ++ extra) content sig) /\
  (VerifyFile embedded d content sig = Err NoKeys <-> LoadFromDir d = Ok [] /\ embedded = []).
Proof.
  unfold VerifyFile, LoadReleaseKeys. destruct (LoadFromDir d) as [extra|e] eqn:Hd; cbn [rmap rbind].
  2:{ split; [split; [done|intros (? & ? & _); done]|]. split; [|intros [? _]; done]. intros [= ->].
      destruct d as [| |l]; try done. exfalso. cbn in Hd. induction l as [|[n [|c]] l IH]; cbn in Hd; [done|by apply IH|].
      destruct (negb _); [by apply IH|]. destruct c; [|done]. destruct (load_items l); [done|]. injection Hd as ->. by apply IH. }
  split.
  - unfold verifyWithKeys. destruct (embedded ++ extra) as [|e0 l0] eqn:He.
    + split; [done|]. intros (x & [= <-] & _ & e & pk & Hin & _). rewrite He in Hin. by apply elem_of_nil in Hin.
    + rewrite bundle_accepts, <- He. split; [eauto|]. by intros (x & [= <-] & H).
  - unfold verifyWithKeys. destruct (embedded ++ extra) as [|e0 l0] eqn:He.
    + apply app_eq_nil in He as [-> ->]. done.
    + split; [|by intros [[= ->] ->]]. intros H. exfalso. destruct (New (e0 :: l0)) as [b|e] eqn:Hn; cbn in H.
      * unfold Bundle_Verify in H. destruct (b_keys b) as [|k ks]; [done|]. revert H. generalize (length (k :: ks)) as n, "" as lb.
        generalize (k :: ks) as kk. induction kk as [|[pk lb'] kk IH]; intros n lb H; cbn in H; [done|].
        destruct (verify_sig pk content sig); [done|]. by eapply IH.
      * injection H as ->. unfold New in Hn. revert Hn. generalize (e0 :: l0) as es. intros es.
        assert (Hr : read_keys es <> Err NoKeys).
        { induction es as [|x es IH]; cbn; [done|]. destruct (unmarshal _); [|done]. destruct (read_keys es); cbn; [done|]. congruence. }
        destruct es; [done|]. destruct (read_keys _); cbn; [done|congruence].
Qed.
End minisign.
