(* ===== verification/BasicAuth.v ===== *)
(** * Basic-auth credentials: internal/basicauth

    User name and bcrypt hash are written into the Caddyfile as bare tokens;
    the checks here are what keeps them inert.  bcrypt is a parameter. *)

From S2P Require Import Prelude GoStrings Utf8.

Inductive auth_error : Type :=
| BadUsername | PasswordUTF8 | PasswordShort | PasswordLong | PasswordControl | HashFailed.

Definition user_byte (c : ascii) : bool :=
  is_alnum c || Ascii.eqb c "." || Ascii.eqb c "_" || Ascii.eqb c "@" || Ascii.eqb c "-".

(** [userRe] *)
Definition ValidUsername (u : string) : bool := str_all user_byte u && (1 <=? slen u)%nat && (slen u <=? 64)%nat.

Definition hash_byte (c : ascii) : bool := is_alnum c || Ascii.eqb c "." || Ascii.eqb c "/".

(** [hashRe] *)
Definition ValidHash (h : string) : bool :=
  match h with
  | String "$" (String "2" (String v (String "$" (String d1 (String d2 (String "$" body)))))) =>
      mem_byte v "abxy" && is_digit d1 && is_digit d2 && str_all hash_byte body && (slen body =? 53)%nat
  | _ => false
  end.

Definition MinPasswordLen : nat := 8.
Definition maxPasswordBytes : nat := 72.

Definition ValidateCredentials (username password : string) : res auth_error unit :=
  guard_err (negb (ValidUsername username)) BadUsername ;;!
  guard_err (negb (valid_utf8 password)) PasswordUTF8 ;;!
  guard_err (length (runes password) <? MinPasswordLen)%nat PasswordShort ;;!
  guard_err (maxPasswordBytes <? slen password)%nat PasswordLong ;;!
  guard_err (existsb (fun r => (r <? 32)%N || (r =? 127)%N) (runes password)) PasswordControl.

Section bcrypt.
(** [bcrypt.GenerateFromPassword]: it fails on more than 72 bytes. *)
Context (bcrypt : string -> option string).
Definition Hash (password : string) : res auth_error string :=
  match bcrypt password with Some h => Ok h | None => Err HashFailed end.
End bcrypt.

(** Bytes with a meaning in a Caddyfile token: space and controls, quotes,
    braces, comments, escapes. *)
Definition caddy_special (c : ascii) : bool :=
  (code c <=? 32)%N || (127 <=? code c)%N || mem_byte c (String "034" "`{}#\;,<>").

Lemma token_inert (p : ascii -> bool) s :
  (forall c, p c = true -> caddy_special c = false) -> str_all p s = true -> str_all (fun c => negb (caddy_special c)) s = true.
Proof. intros H. apply str_all_impl. intros c Hc. by rewrite (H c Hc). Qed.

(** A text without such bytes, and one that is not empty. *)
Definition bare (s : string) : bool := str_all (fun c => negb (caddy_special c)) s.
Definition token (s : string) : bool := negb (bool_decide (s = "")) && bare s.

Lemma token_spec s : token s = true <-> s <> "" /\ bare s = true.
Proof. unfold token. by rewrite andb_true_iff, negb_true_iff, bool_decide_eq_false. Qed.

Lemma user_token u : ValidUsername u = true -> token u = true.
Proof.
  unfold ValidUsername. rewrite !andb_true_iff, !Nat.leb_le, token_spec. intros [[Hu Hl] _].
  split; [by intros ->; cbn in Hl; lia|]. apply (token_inert user_byte); [|done].
  intros c. by destruct c as [[] [] [] [] [] [] [] []].
Qed.

Lemma hash_token h : ValidHash h = true -> token h = true.
Proof.
  intros Hh. apply token_spec. split; [by intros ->|]. unfold ValidHash in Hh.
  repeat match type of Hh with
  | match ?s with "" => false | String _ _ => _ end = true => destruct s as [|? ?]; [done|]
  | context [match ?a with Ascii _ _ _ _ _ _ _ _ => _ end] => destruct a as [[] [] [] [] [] [] [] []]; try done
  end.
  rewrite !andb_true_iff in Hh. destruct Hh as [[[[Hv H1] H2] Hb] _].
  assert (Hbody : str_all (fun c => negb (caddy_special c)) _ = true)
    by (eapply (token_inert hash_byte); [|exact Hb]; intros c; by destruct c as [[] [] [] [] [] [] [] []]).
  assert (Hd : forall c, is_digit c = true -> negb (caddy_special c) = true)
    by (intros c; by destruct c as [[] [] [] [] [] [] [] []]).
  assert (Hx : forall c, mem_byte c "abxy" = true -> negb (caddy_special c) = true)
    by (intros c; by destruct c as [[] [] [] [] [] [] [] []]).
  unfold bare. cbn [str_all]. rewrite (Hx _ Hv), (Hd _ H1), (Hd _ H2), Hbody. done.
Qed.

(** Accepted user names and hashes are inert Caddyfile tokens: they are not
    empty and contain no white space, control or non-ASCII byte, quote, brace,
    comment sign or escape. *)
Theorem credentials_inert u h :
  ValidUsername u = true -> ValidHash h = true ->
  u <> "" /\ h <> "" /\ str_all (fun c => negb (caddy_special c)) u = true /\ str_all (fun c => negb (caddy_special c)) h = true.
Proof.
  intros Hu%user_token%token_spec Hh%hash_token%token_spec. unfold bare in *. naive_solver.
Qed.

Definition sample_hash : string := "$2a$10$N9qo8uLOickgx2ZMRZoMyeIjZAgcfl7p92ldGxad68LJZdL17lhWy".

Lemma credentials_inert_witness :
  "alice" <> "" /\ sample_hash <> "" /\ str_all (fun c => negb (caddy_special c)) "alice" = true /\
  str_all (fun c => negb (caddy_special c)) sample_hash = true.
Proof. apply credentials_inert; reflexivity. Defined.
