(* ===== verification/Dispatch.v ===== *)
(** * Applying signed mutations: internal/sync/signed_mutation.go

    The handler of the one inbound event that may change state: verify the
    envelope, dispatch the operation to the store, write one audit entry and
    send one result.  What the agent calls outside its own source is collected
    in [platform]; the texts of errors are functions of the error value. *)

From S2P Require Import Prelude GoStrings Codec Utf8 Json JsonEnc GoAny Secrets.
From S2P Require Import ReadinessConfig Materialize UserKeys Store StoreInv AuditLog Trust BasicAuth SignedMut.

Inductive op_error : Type :=
| InvalidParams (op : string) | StoreFailed (e : store_error) | AuthFailed (e : auth_error)
| DesiredStateValue (s : string) | UnsupportedOp (op : string)
| IdsRequired | SignedManifestRequired | ManifestB64 | ManifestSigB64 | ManifestRejected (e : trust_error)
| SystemUnsupported | HostServiceInstalled (template holder : string) | PowerModeRequired
| MaterialiseFailed (e : mat_error) | EncodeConfig.

Record platform := MkPlatform {
  ed25519 : string -> string -> string -> bool;
  p_sha256 : string -> string;
  p_bcrypt : string -> option string;
  MKey : Type;
  p_unmarshal : string -> option MKey;
  p_minisign : MKey -> string -> string -> bool;
  p_trustDir : directory;
  p_environ : string -> option string;
  p_yaml_load : string -> option amap;
  p_yaml_string : list string -> string -> option string;
  p_yaml_map : list string -> string -> option amap;
  p_yaml_schema : string -> option (list (string * string));
  p_parse_float : string -> option gofloat;
  p_goos : string;
  op_text : op_error -> string;
  deny_text : verify_error -> string
}.

(** The result event; [R_Error] is empty when the field is left out. *)
Record result := MkResult { R_Device : string; R_Nonce : string; R_Op : string; R_OK : bool; R_Error : string }.

Record sync_state := MkSync {
  y_db : DB;
  y_audit : option Writer;
  y_sent : list result;      (* newest first *)
  y_triggers : nat;          (* reconcile requests *)
  y_reloads : nat            (* Caddy reloads *)
}.
Definition with_db (db : DB) (y : sync_state) : sync_state := MkSync db (y_audit y) (y_sent y) (y_triggers y) (y_reloads y).
Definition triggered (y : sync_state) : sync_state := MkSync (y_db y) (y_audit y) (y_sent y) (S (y_triggers y)) (y_reloads y).
Definition reloaded (y : sync_state) : sync_state := MkSync (y_db y) (y_audit y) (y_sent y) (y_triggers y) (S (y_reloads y)).

(** One store call followed by [k]; an error of the store ends the operation. *)
Definition store_call {A} (f : DB -> res store_error A * DB) (y : sync_state)
    (k : sync_state -> res op_error unit * sync_state) : res op_error unit * sync_state :=
  let '(r, db) := f (y_db y) in
  match r with
  | Ok _ => k (with_db db y)
  | Err e => (Err (StoreFailed e), with_db db y)
  end.

Definition finish_op (y : sync_state) : res op_error unit * sync_state := (Ok tt, triggered y).

(** ** Parameters of the operations *)
Definition params_members (m : Mutation) : option (list (string * json)) :=
  match Params m with
  | Some j => let '(ms, bad) := struct_members j in if bad then None else Some ms
  | None => None
  end.

(** A required string field; [None] when decoding fails. *)
Definition str_field (name : string) (ms : list (string * json)) : option string :=
  let '(v, bad) := dec_field dec_string name ms "" in if bad then None else Some v.
Definition bool_field (name : string) (ms : list (string * json)) : option bool :=
  let '(v, bad) := dec_field dec_bool name ms false in if bad then None else Some v.
Definition int_field (name : string) (ms : list (string * json)) : option Z :=
  let '(v, bad) := dec_field dec_int name ms 0%Z in if bad then None else Some v.

Definition field {A} (f : list (string * json) -> option A) (ms : option (list (string * json))) : option A :=
  match ms with Some l => f l | None => None end.

Record upsert_params := MkUpsert {
  P_InstanceID : string;
  P_TemplateID : string;
  P_Version : string;
  P_DesiredState : string;
  P_UserConfig : list (string * json);
  P_ManifestB64 : string;
  P_ManifestSigB64 : string
}.

Section dispatch.
Context (P : platform).

(** The [user_config] map: merged across repeated members. *)
Definition dec_config (j : json) (cur : list (string * json)) : list (string * json) * bool :=
  let '(m, bad) := dec_map j cur in (m, bad || snd (json_any (p_parse_float P) j)).

Definition decode_upsert (ms : list (string * json)) : option upsert_params :=
  i ← str_field "instance_id" ms; t ← str_field "template_id" ms; v ← str_field "version" ms;
  d ← str_field "desired_state" ms;
  c ← (let '(c, bad) := dec_field dec_config "user_config" ms [] in if bad then None else Some c);
  b ← str_field "manifest_b64" ms; s ← str_field "manifest_sig_b64" ms;
  Some (MkUpsert i t v d c b s).

Definition powerModeEnabled (db : DB) : bool := bool_decide (AllSystemSettings db !! "power_mode" = Some "true").

(** Another instance of a host service that stands in the way. *)
Definition blocks (p : upsert_params) (e : Instance) : bool :=
  bool_decide (Runtime e = RuntimeSystem) && bool_decide (TemplateID e = P_TemplateID p) &&
  negb (bool_decide (ID e = P_InstanceID p)) && negb (bool_decide (DesiredState e = DesiredRemoved)).

Definition check_system (p : upsert_params) (manifest : string) (db : DB) : res op_error unit :=
  if negb (bool_decide (RuntimeType (p_yaml_string P) manifest = "system")) then Ok tt else
  let darwinHostSvc := bool_decide (p_goos P = "darwin") && HasHostService (p_yaml_map P) manifest in
  let linuxSystem := bool_decide (p_goos P = "linux") &&
    (HasManagedService (p_yaml_map P) manifest || HasKiosk (p_yaml_map P) manifest) in
  if negb darwinHostSvc && negb linuxSystem then Err SystemUnsupported
  else if darwinHostSvc && negb (bool_decide (P_DesiredState p = DesiredRemoved))
  then match find (blocks p) (ListInstances db) with
       | Some e => Err (HostServiceInstalled (P_TemplateID p) (ID e))
       | None => Ok tt
       end
  else Ok tt.

Definition check_power (manifest : string) (db : DB) : res op_error unit :=
  guard_err (bool_decide (ExtractMinSudoLevel (p_yaml_string P) manifest = "power") &&
             (negb (bool_decide (p_goos P = "linux")) || negb (powerModeEnabled db))) PowerModeRequired.

(** Everything up to the store call: the instance row to write. *)
Definition build_instance (m : Mutation) (db : DB) : res op_error Instance :=
  match params_members m ≫= decode_upsert with
  | None => Err (InvalidParams (Op m))
  | Some p =>
      guard_err (emptyb (P_InstanceID p) || emptyb (P_TemplateID p)) IdsRequired ;;!
      guard_err (emptyb (P_ManifestB64 p) || emptyb (P_ManifestSigB64 p)) SignedManifestRequired ;;!
      match DecodeBase64 (P_ManifestB64 p), DecodeBase64 (P_ManifestSigB64 p) with
      | None, _ => Err ManifestB64
      | Some _, None => Err ManifestSigB64
      | Some manifest, Some sig =>
          match manifest_Verify (p_unmarshal P) (p_minisign P) manifest sig (p_trustDir P) with
          | Err e => Err (ManifestRejected e)
          | Ok _ =>
              check_system p manifest db ;;!
              check_power manifest db ;;!
              let stored := match GetInstance (P_InstanceID p) db with Ok e => ConfigJSON e | Err _ => "" end in
              let userConfig := map (fun q => (q.1, fst (json_any (p_parse_float P) q.2)))
                                  (ResolveSecretSentinels (P_UserConfig p) stored) in
              match BuildInstanceConfig (p_environ P) (p_yaml_load P) (p_yaml_string P) (p_yaml_schema P) (p_parse_float P)
                      manifest userConfig (P_InstanceID p) (P_TemplateID p) (P_Version p) with
              | Err e => Err (MaterialiseFailed e)
              | Ok built =>
                  match any_json (I_Config built) with
                  | None => Err EncodeConfig
                  | Some cfg =>
                      Ok (MkInstance (P_InstanceID p) (P_TemplateID p) (I_Runtime built) (I_Version built)
                            (if emptyb (P_DesiredState p) then DesiredInstalled else P_DesiredState p)
                            (marshal cfg) "" "" None "" None None None)
                  end
              end
          end
      end
  end.

Definition dispatchInstanceUpsert (m : Mutation) (now : Z) (y : sync_state) : res op_error unit * sync_state :=
  match build_instance m (y_db y) with
  | Err e => (Err e, y)
  | Ok inst => store_call (UpsertInstance inst now) y finish_op
  end.

(** Re-write an instance with another desired state. *)
Definition set_desired (id state : string) (now : Z) (y : sync_state) : res op_error unit * sync_state :=
  match GetInstance id (y_db y) with
  | Err e => (Err (StoreFailed e), y)
  | Ok i =>
      store_call (UpsertInstance (MkInstance (ID i) (TemplateID i) (Runtime i) (Version i) state (ConfigJSON i)
        (ObservedState i) (ObservedJSON i) (ObservedAt i) (ServiceReady i) (ReadyAt i) (CreatedAt i) (UpdatedAt i)) now)
        y finish_op
  end.

Definition dispatchSignedMutation (has_ingress : bool) (m : Mutation) (now : Z) (y : sync_state)
    : res op_error unit * sync_state :=
  let invalid : res op_error unit * sync_state := (Err (InvalidParams (Op m)), y) in
  let ms := params_members m in
  if bool_decide (Op m = "domain.upsert") then
    match field (str_field "domain") ms, field (str_field "desired_status") ms with
    | Some d, Some s => store_call (UpsertDomain d s now) y (fun y => finish_op (if has_ingress then reloaded y else y))
    | _, _ => invalid
    end
  else if bool_decide (Op m = "domain.delete") then
    match field (str_field "domain") ms with
    | Some d => if emptyb d then invalid else store_call (DeleteDomain d) y finish_op
    | None => invalid
    end
  else if bool_decide (Op m = "domain.set_basic_auth") then
    match field (str_field "domain") ms, field (str_field "username") ms, field (str_field "password") ms, field (bool_field "clear") ms with
    | Some d, Some u, Some pw, Some clear =>
        if emptyb d then invalid
        else if clear then store_call (SetDomainBasicAuth d "" "" now) y finish_op
        else match ValidateCredentials u pw ;;! Hash (p_bcrypt P) pw with
             | Err e => (Err (AuthFailed e), y)
             | Ok hash => store_call (SetDomainBasicAuth d u hash now) y finish_op
             end
    | _, _, _, _ => invalid
    end
  else if bool_decide (Op m = "instance.upsert") then dispatchInstanceUpsert m now y
  else if bool_decide (Op m = "instance.delete") then
    match field (str_field "instance_id") ms with
    | Some i => if emptyb i then invalid else set_desired i DesiredRemoved now y
    | None => invalid
    end
  else if bool_decide (Op m = "instance.set_state") then
    match field (str_field "instance_id") ms, field (str_field "desired_state") ms with
    | Some i, Some s =>
        if emptyb i then invalid
        else if oneof s [DesiredInstalled; DesiredStopped] then set_desired i s now y
        else (Err (DesiredStateValue s), y)
    | _, _ => invalid
    end
  else if bool_decide (Op m = "binding.upsert") then
    match field (str_field "domain") ms, field (str_field "instance_id") ms, field (str_field "service") ms, field (int_field "local_port") ms with
    | Some d, Some i, Some s, Some n =>
        if emptyb d then invalid else store_call (UpsertBinding (MkBinding d i s n "" "")) y finish_op
    | _, _, _, _ => invalid
    end
  else if bool_decide (Op m = "binding.delete") then
    match field (str_field "domain") ms with
    | Some d => if emptyb d then invalid else store_call (DeleteBinding d) y finish_op
    | None => invalid
    end
  else (Err (UnsupportedOp (Op m)), y).

(** ** Audit and result *)
Definition audit_outcome (outcome : string) : string :=
  if bool_decide (outcome = "ok") then ResultOK else if bool_decide (outcome = "error") then ResultError else ResultDenied.

Definition audit_entry (outcome op keyLabel errMsg : string) (m : option Mutation) : Entry :=
  MkEntry 0 0 ("security.signed_mutation." +:+ outcome) (if emptyb keyLabel then "user" else "user:" +:+ keyLabel) op
    (audit_outcome outcome)
    (match m with Some m => [("nonce", JStr (Nonce m))] | None => [] end) ""
    (match m with Some m => Op m | None => "" end)
    (if bool_decide (outcome = "ok") then "" else errMsg).

Definition auditSignedMutation (outcome op keyLabel errMsg : string) (m : option Mutation) (now : Z) (io : log_io)
    (y : sync_state) : sync_state :=
  let '(_, w, db) := Append (p_sha256 P) (y_audit y) (audit_entry outcome op keyLabel errMsg m) now io (y_db y) in
  MkSync db w (y_sent y) (y_triggers y) (y_reloads y).

Definition emitSignedMutationResult (own nonce op : string) (ok : bool) (errMsg : string) (y : sync_state) : sync_state :=
  MkSync (y_db y) (y_audit y) (MkResult own nonce op ok errMsg :: y_sent y) (y_triggers y) (y_reloads y).

(** ** The handler *)

(** [peek]: the labels of an unverified envelope. *)
Definition peek_mutation (j : json) (cur : string * string) : (string * string) * bool :=
  let '(ms, bad) := struct_members j in
  ((fst (dec_field dec_string "op" ms cur.1), fst (dec_field dec_string "nonce" ms cur.2)), bad).
Definition peek (raw : string) : string * string :=
  match json_parse raw with
  | Some j => fst (dec_field peek_mutation "mutation" (fst (struct_members j)) ("", ""))
  | None => ("", "")
  end.

Definition deny_reason (e : verify_error) : string :=
  match e with Deny r _ => r | NonceStoreFailed _ => DenyMalformed end.
Definition deny_label (e : verify_error) : string :=
  match e with Deny _ (Some k) | NonceStoreFailed (Some k) => Label k | _ => "" end.

Definition handleSignedMutation (keys : option (list UserKey)) (has_ingress : bool) (own : string)
    (args : list string) (now : Z) (io : log_io) (y : sync_state) : sync_state :=
  match args with
  | [] => y
  | raw :: _ =>
      let '(op, nonce) := peek raw in
      let refuse (reason label msg text : string) (y : sync_state) :=
        emitSignedMutationResult own nonce op false text (auditSignedMutation reason op label msg None now io y) in
      match keys with
      | None | Some [] => refuse DenyUntrustedKey "" "no user keys pinned" "device has no pinned user keys" y
      | Some keys =>
          match Verify (ed25519 P) keys raw own now (y_db y) with
          | (Err e, db) => refuse (deny_reason e) (deny_label e) (deny_text P e) (deny_reason e) (with_db db y)
          | (Ok (m, key), db) =>
              match dispatchSignedMutation has_ingress m now (with_db db y) with
              | (Err e, y') =>
                  emitSignedMutationResult own (Nonce m) (Op m) false (op_text P e)
                    (auditSignedMutation "error" (Op m) (Label key) (op_text P e) (Some m) now io y')
              | (Ok _, y') =>
                  emitSignedMutationResult own (Nonce m) (Op m) true ""
                    (auditSignedMutation "ok" (Op m) (Label key) "" (Some m) now io y')
              end
          end
      end
  end.
End dispatch.
