(* ===== verification/DispatchProps.v ===== *)
(** * What a signed mutation can and cannot do

    Only verified envelopes have an effect; whatever is signed, the operations
    reach the instance, domain and binding tables only; an install needs a
    manifest signed by the registry; passwords leave no trace outside the hash;
    every event is answered and audited once. *)

From S2P Require Import Prelude GoStrings Codec Utf8 Json JsonEnc GoAny Secrets ReadinessConfig Materialize.
From S2P Require Import Jcs MaterializeProps UserKeys Store StoreInv StoreProps AuditLog Trust BasicAuth SignedMut Dispatch.

(** The tables no operation on this path may touch. *)
Definition same_rest (db db' : DB) : Prop :=
  services db' = services db /\ locks db' = locks db /\ instance_secrets db' = instance_secrets db /\
  template_secrets db' = template_secrets db /\ agent_meta db' = agent_meta db /\ system_settings db' = system_settings db.
(** The tables with the device's desired state. *)
Definition same_state (db db' : DB) : Prop :=
  instances db' = instances db /\ domains db' = domains db /\ bindings db' = bindings db.

#[export] Instance same_rest_pre : PreOrder same_rest.
Proof. split; [by intros db|]. intros a b c Hab Hbc. unfold same_rest in *. intuition congruence. Qed.
#[export] Instance same_state_pre : PreOrder same_state.
Proof. split; [by intros db|]. intros a b c Hab Hbc. unfold same_state in *. intuition congruence. Qed.

(** What a dispatched operation may do to the syncer. *)
Definition in_scope (y y' : sync_state) : Prop :=
  same_rest (y_db y) (y_db y') /\ y_audit y' = y_audit y /\ y_sent y' = y_sent y /\
  (forall i, is_Some (instances (y_db y) !! i) -> is_Some (instances (y_db y') !! i)) /\
  audit_log (y_db y') = audit_log (y_db y) /\ audit_last (y_db y') = audit_last (y_db y).

Definition store_scope {A} (f : DB -> res store_error A * DB) : Prop :=
  forall db, same_rest db (f db).2 /\ (forall i, is_Some (instances db !! i) -> is_Some (instances (f db).2 !! i)) /\
             audit_log (f db).2 = audit_log db /\ audit_last (f db).2 = audit_last db.

Lemma finish_scope y y' : in_scope y y' -> in_scope y (finish_op y').2.
Proof. done. Qed.

Lemma store_call_scope {A} (f : DB -> res store_error A * DB) y k :
  store_scope f -> (forall y', in_scope y y' -> in_scope y (k y').2) -> in_scope y (store_call f y k).2.
Proof.
  intros Hf Hk. unfold store_call. pose proof (Hf (y_db y)) as Hs. destruct (f (y_db y)) as [r db]. cbn in Hs.
  assert (Hy : in_scope y (with_db db y)) by (destruct Hs as (? & ? & ? & ?); by repeat split_and).
  destruct r; [by apply Hk|done].
Qed.

Lemma scope_refl y : in_scope y y.
Proof. by repeat split_and. Qed.

Lemma UpsertDomain_scope d s now : store_scope (UpsertDomain d s now).
Proof. intros db. unfold UpsertDomain. repeat case_match; by repeat split_and. Qed.
Lemma DeleteDomain_scope d : store_scope (DeleteDomain d).
Proof. intros db. by repeat split_and. Qed.
Lemma SetDomainBasicAuth_scope d u h now : store_scope (SetDomainBasicAuth d u h now).
Proof. intros db. unfold SetDomainBasicAuth. repeat case_match; by repeat split_and. Qed.
Lemma UpsertBinding_scope b : store_scope (UpsertBinding b).
Proof. intros db. unfold UpsertBinding. cbv zeta. repeat case_match; by repeat split_and. Qed.
Lemma DeleteBinding_scope d : store_scope (DeleteBinding d).
Proof. intros db. by repeat split_and. Qed.
Lemma UpsertInstance_scope inst now : store_scope (UpsertInstance inst now).
Proof.
  intros db. unfold UpsertInstance. case_match; [by repeat split_and|]. case_match; [by repeat split_and|].
  split; [by repeat split_and|]. split; [|done]. intros i Hi. cbn [snd write set_instances instances].
  by apply is_Some_insert.
Qed.

#[export] Hint Resolve UpsertDomain_scope DeleteDomain_scope SetDomainBasicAuth_scope UpsertBinding_scope
  DeleteBinding_scope UpsertInstance_scope scope_refl finish_scope : agent.

Section props.
Context (P : platform).

Lemma set_desired_scope id st now y : in_scope y (set_desired id st now y).2.
Proof. unfold set_desired. destruct (GetInstance id (y_db y)); [|done]. apply store_call_scope; auto with agent. Qed.

Lemma dispatch_scope ing m now y : in_scope y (dispatchSignedMutation P ing m now y).2.
Proof.
  unfold dispatchSignedMutation, dispatchInstanceUpsert. cbv zeta.
  repeat (case_match; try (apply scope_refl)); try (apply set_desired_scope);
    try (apply store_call_scope; [auto with agent|]; intros y' Hy'; first [destruct ing; exact Hy' | exact Hy']).
Qed.

(** The audit step adds one row when there is a writer and the database
    accepts the row, and nothing else. *)
Definition audited (io : log_io) (y : sync_state) (e : Entry) (now : Z) (y' : sync_state) : Prop :=
  match (if row_ok io then y_audit y else None) with
  | Some _ => y_db y' = set_audit (row_of (recorded (p_sha256 P) e now (y_db y)) :: audit_log (y_db y))
                          (audit_last (y_db y) + 1) (y_db y) /\ is_Some (y_audit y')
  | None => y_db y' = y_db y /\ y_audit y' = y_audit y
  end /\ y_sent y' = y_sent y /\ y_triggers y' = y_triggers y /\ y_reloads y' = y_reloads y.

Lemma audit_step outcome op label msg m now wok y :
  audited wok y (audit_entry outcome op label msg m) now (auditSignedMutation P outcome op label msg m now wok y).
Proof.
  unfold audited, auditSignedMutation. destruct (y_audit y) as [w|]; [|by destruct (row_ok wok)].
  rewrite Append_Some; [by destruct (row_ok wok)|done|]. cbn. unfold emptyb at 1. destruct (emptyb label); by apply bool_decide_eq_false_2.
Qed.

Lemma audited_same io y e now y' : audited io y e now y' -> same_rest (y_db y) (y_db y') /\ same_state (y_db y) (y_db y').
Proof. unfold audited. intros [H _]. destruct (if row_ok io then y_audit y else None); [destruct H as [-> _]|destruct H as [-> _]]; by repeat split_and. Qed.

Lemma nonce_check_same n now db : same_rest db (CheckAndMarkNonce n now db).2 /\ same_state db (CheckAndMarkNonce n now db).2 /\
  audit_log (CheckAndMarkNonce n now db).2 = audit_log db /\ audit_last (CheckAndMarkNonce n now db).2 = audit_last db.
Proof. unfold CheckAndMarkNonce. case_match; by repeat split_and. Qed.

(** Verification touches the nonce table only. *)
Lemma Verify_same keys raw own now db r db' : Verify (ed25519 P) keys raw own now db = (r, db') ->
  same_rest db db' /\ same_state db db' /\ audit_log db' = audit_log db /\ audit_last db' = audit_last db.
Proof.
  unfold Verify. destruct (verify_static _ keys raw own now) as [[m k]|]; [|intros [= _ <-]; by repeat split_and].
  change (check_nonce (Nonce m) now db) with (CheckAndMarkNonce (Nonce m) now db).
  pose proof (nonce_check_same (Nonce m) now db) as H.
  destruct (CheckAndMarkNonce (Nonce m) now db) as [[[]|] db1]; intros [= _ <-]; exact H.
Qed.

(** The run of the handler after a decision: dispatch or not, then one audit
    entry, then one result. *)
Lemma handle_runs keys ing own raw rest now wok y :
  let y' := handleSignedMutation P keys ing own (raw :: rest) now wok y in
  exists r e y1 y2,
    audited wok y1 e now y2 /\ y' = emitSignedMutationResult own (R_Nonce r) (R_Op r) (R_OK r) (R_Error r) y2 /\
    R_Device r = own /\
    ((exists db, same_rest (y_db y) db /\ same_state (y_db y) db /\ audit_log db = audit_log (y_db y) /\
        audit_last db = audit_last (y_db y) /\ y1 = with_db db y /\ R_OK r = false) \/
     (exists ks m k db, keys = Some ks /\ Verify (ed25519 P) ks raw own now (y_db y) = (Ok (m, k), db) /\
        y1 = (dispatchSignedMutation P ing m now (with_db db y)).2 /\
        R_Nonce r = Nonce m /\ R_Op r = Op m /\ (R_OK r = is_ok (dispatchSignedMutation P ing m now (with_db db y)).1))).
Proof.
  cbv zeta. unfold handleSignedMutation. destruct (peek raw) as [op nonce].
  assert (Hquiet : forall reason label msg text, exists r e y1 y2, audited wok y1 e now y2 /\
    emitSignedMutationResult own nonce op false text (auditSignedMutation P reason op label msg None now wok y) =
    emitSignedMutationResult own (R_Nonce r) (R_Op r) (R_OK r) (R_Error r) y2 /\ R_Device r = own /\
    exists db, same_rest (y_db y) db /\ same_state (y_db y) db /\ audit_log db = audit_log (y_db y) /\
        audit_last db = audit_last (y_db y) /\ y1 = with_db db y /\ R_OK r = false).
  { intros. eexists (MkResult own nonce op false text), _, y, _. split; [apply audit_step|]. split; [done|]. split; [done|].
    exists (y_db y). destruct y. by repeat split_and. }
  destruct keys as [[|k0 ks]|].
  - destruct (Hquiet DenyUntrustedKey "" "no user keys pinned" "device has no pinned user keys")
      as (r & e & y1 & y2 & Ha & He & Hr & Hq). exists r, e, y1, y2. rewrite <- He. eauto 10.
  - destruct (Verify _ _ _ _ _ _) as [[[m k]|e] db] eqn:Hv.
    + destruct (dispatchSignedMutation P ing m now (with_db db y)) as [[u|e] y1] eqn:Hd;
        [exists (MkResult own (Nonce m) (Op m) true "")|exists (MkResult own (Nonce m) (Op m) false (op_text P e))];
        (eexists _, y1, _; split; [apply audit_step|]; split; [done|]; split; [done|]; right;
         exists (k0 :: ks), m, k, db; rewrite Hd; done).
    + eexists (MkResult own nonce op false (deny_reason e)), _, (with_db db y), _. split; [apply audit_step|].
      split; [done|]. split; [done|]. left. exists db. apply Verify_same in Hv. naive_solver.
  - destruct (Hquiet DenyUntrustedKey "" "no user keys pinned" "device has no pinned user keys")
      as (r & e & y1 & y2 & Ha & He & Hr & Hq). exists r, e, y1, y2. rewrite <- He. eauto 10.
Qed.

(** An accepted envelope carries a mutation that a pinned key signed over its canonical bytes for this device. *)
Lemma Verify_signed ks raw own now db m k db' : Verify (ed25519 P) ks raw own now db = (Ok (m, k), db') ->
  exists mj canon sig, k ∈ ks /\ signed_part raw = Some mj /\ decode_mutation mj = (m, false) /\ canonical_mutation mj = Ok canon /\
    ed25519 P (Pub k) canon sig = true /\ DeviceID m = own.
Proof.
  unfold Verify. destruct (verify_static _ ks raw own now) as [[m' k']|] eqn:Hst; [|done]. intros Hv.
  assert (m' = m /\ k' = k) as [-> ->] by (repeat case_match; by simplify_eq).
  apply verify_static_Ok in Hst as (mj & canon & sig & H1 & H2 & H3 & H4 & _ & H5 & _ & _ & _ & H6 & _). by exists mj, canon, sig.
Qed.

(** Nothing unsigned has an effect.  Whatever a backend sends, either no
    instance, domain or binding changes and neither a reconcile nor a reload is
    requested, or the envelope was accepted: a pinned key's signature verifies
    over the canonical bytes of its mutation and the mutation names this
    device. *)
Lemma handle_only_verified keys ing own raw rest now wok y y' :
  handleSignedMutation P keys ing own (raw :: rest) now wok y = y' ->
  (same_state (y_db y) (y_db y') /\ y_triggers y' = y_triggers y /\ y_reloads y' = y_reloads y) \/
  (exists ks m k mj canon sig, keys = Some ks /\ k ∈ ks /\ signed_part raw = Some mj /\
     decode_mutation mj = (m, false) /\ canonical_mutation mj = Ok canon /\
     ed25519 P (Pub k) canon sig = true /\ DeviceID m = own).
Proof.
  intros <-. destruct (handle_runs keys ing own raw rest now wok y) as (r & e & y1 & y2 & Ha & -> & _ & Hc).
  destruct Hc as [(db & _ & Hs & _ & _ & -> & _)|(ks & m & k & db & -> & Hv & _)].
  - left. cbn. destruct (audited_same _ _ _ _ _ Ha) as [_ Hs']. destruct Ha as (_ & _ & Ht & Hr).
    split; [by transitivity db|done].
  - right. apply Verify_signed in Hv as (mj & canon & sig & H). by exists ks, m, k, mj, canon, sig.
Qed.

(** Signed mutations stay in their lane.  No envelope, whoever signed it,
    changes a system setting (power mode and security mode stay as they are), a
    secret, an exclusivity lock, the agent's metadata or a registered service;
    and none removes an instance from the database. *)
Theorem handle_scope keys ing own args now wok y y' :
  handleSignedMutation P keys ing own args now wok y = y' ->
  same_rest (y_db y) (y_db y') /\
  forall i, is_Some (instances (y_db y) !! i) -> is_Some (instances (y_db y') !! i).
Proof.
  intros <-. destruct args as [|raw rest]; [done|].
  destruct (handle_runs keys ing own raw rest now wok y) as (r & e & y1 & y2 & Ha & -> & _ & Hc).
  destruct (audited_same _ _ _ _ _ Ha) as [Hr2 (Hi2 & _)]. cbn [y_db emitSignedMutationResult].
  destruct Hc as [(db & Hr & (Hi & _) & _ & _ & -> & _)|(ks & m & k & db & -> & Hv & -> & _)]; cbn [y_db with_db] in *.
  - split; [by transitivity db|]. by rewrite Hi2, Hi.
  - apply Verify_same in Hv as (Hr & (Hi & _) & _). destruct (dispatch_scope ing m now (with_db db y)) as (Hd & _ & _ & Hg & _).
    split; [transitivity db; [done|]; by etransitivity|]. rewrite Hi2. intros i. rewrite <- Hi. apply Hg.
Qed.

(** Every event is answered and audited exactly once: one result for this
    device is sent, and one row is added to the audit table (when auditing is
    on and the database accepts the row); a positive result means the operation was verified and succeeded. *)
Theorem handle_answers_once keys ing own raw rest now wok y y' :
  handleSignedMutation P keys ing own (raw :: rest) now wok y = y' ->
  exists r, y_sent y' = r :: y_sent y /\ R_Device r = own /\
    (R_OK r = true -> exists ks m k db, keys = Some ks /\ Verify (ed25519 P) ks raw own now (y_db y) = (Ok (m, k), db) /\
       R_Nonce r = Nonce m /\ R_Op r = Op m /\ is_ok (dispatchSignedMutation P ing m now (with_db db y)).1 = true) /\
    length (audit_log (y_db y')) = length (audit_log (y_db y)) + (if row_ok wok then if y_audit y then 1 else 0 else 0).
Proof.
  intros <-. destruct (handle_runs keys ing own raw rest now wok y) as (r & e & y1 & y2 & Ha & -> & Hd & Hc).
  assert (Hy1 : y_audit y1 = y_audit y /\ y_sent y1 = y_sent y /\ audit_log (y_db y1) = audit_log (y_db y)).
  { destruct Hc as [(db & _ & _ & Hl & _ & -> & _)|(ks & m & k & db & _ & Hv & -> & _)]; [done|].
    apply Verify_same in Hv as (_ & _ & Hl & _). destruct (dispatch_scope ing m now (with_db db y)) as (_ & -> & -> & _ & -> & _). done. }
  destruct Hy1 as (Hw & Hs & Hl). unfold audited in Ha. rewrite Hw in Ha. destruct Ha as (Hdb & Hs2 & _).
  exists (MkResult own (R_Nonce r) (R_Op r) (R_OK r) (R_Error r)). cbn. split; [by rewrite Hs2, Hs|]. split; [done|]. split.
  - intros Hok. destruct Hc as [(db & _ & _ & _ & _ & _ & Hno)|(ks & m & k & db & -> & Hv & _ & Hn & Ho & Hisok)]; [congruence|].
    exists ks, m, k, db. rewrite <- Hisok. done.
  - destruct (row_ok wok), (y_audit y); destruct Hdb as [-> _]; cbn; rewrite Hl; lia.
Qed.

(** ** Installs *)

(** What a row that was built went through. *)
Lemma build_instance_Ok m db inst : build_instance P m db = Ok inst ->
  exists p manifest sig extra, params_members m ≫= decode_upsert P = Some p /\ ID inst = P_InstanceID p /\ TemplateID inst = P_TemplateID p /\
    DecodeBase64 (P_ManifestB64 p) = Some manifest /\ DecodeBase64 (P_ManifestSigB64 p) = Some sig /\
    LoadFromDir (p_trustDir P) = Ok extra /\ accepted_by (p_unmarshal P) (p_minisign P) (EmbeddedKeys ++ extra) manifest sig /\
    check_system P p manifest db = Ok tt /\ check_power P manifest db = Ok tt.
Proof.
  unfold build_instance. destruct (params_members m ≫= decode_upsert P) as [p|]; [|done]. intros H.
  rewrite !guard_seq_Ok in H. destruct H as (_ & _ & H).
  destruct (DecodeBase64 (P_ManifestB64 p)) as [manifest|] eqn:Hm; [|done].
  destruct (DecodeBase64 (P_ManifestSigB64 p)) as [sig|] eqn:Hsig; [|done].
  destruct (manifest_Verify _ _ manifest sig (p_trustDir P)) as [[]|] eqn:Hv; [|done].
  rewrite !seq_Ok in H. destruct H as (Hsys & Hpow & H). cbv zeta in H.
  unfold manifest_Verify in Hv. apply rbind_Ok in Hv as (extra & Hx & Hv). apply bundle_accepts in Hv.
  destruct (BuildInstanceConfig _ _ _ _ _ _ _ _ _ _) as [built|]; [|done].
  destruct (any_json (I_Config built)) as [cfg|]; [|done]. injection H as <-. by exists p, manifest, sig, extra.
Qed.


(** Deleting an instance over this path is soft: the instance stays in the
    database, marked removed, with every other field of it unchanged, all other
    instances as they were, and one reconcile requested. *)
Theorem delete_is_soft ing m id now y y' :
  Op m = "instance.delete" -> field (str_field "instance_id") (params_members m) = Some id ->
  dispatchSignedMutation P ing m now y = (Ok tt, y') ->
  exists i, get_opt id (y_db y) = Some i /\
    get_opt id (y_db y') = Some (MkInstance (ID i) (TemplateID i) (Runtime i) (Version i) DesiredRemoved (ConfigJSON i)
      (ObservedState i) (ObservedJSON i) (ObservedAt i) (ServiceReady i) (ReadyAt i) (CreatedAt i) (Some now)) /\
    (forall j, j <> id -> get_opt j (y_db y') = get_opt j (y_db y)) /\ y_triggers y' = S (y_triggers y).
Proof.
  intros Hop Hid Hd. unfold dispatchSignedMutation in Hd. rewrite Hop, Hid in Hd.
  repeat (rewrite bool_decide_eq_false_2 in Hd by done). rewrite bool_decide_eq_true_2 in Hd by done.
  destruct (emptyb id) eqn:He; [done|]. unfold set_desired in Hd. unfold get_opt, GetInstance in *.
  destruct (instances (y_db y) !! id) as [r|] eqn:Hr; [|done]. exists (readInstance id r). split; [done|].
  unfold store_call, UpsertInstance in Hd. cbn [ID TemplateID Runtime Version DesiredState ConfigJSON CreatedAt readInstance] in Hd.
  rewrite He, Hr in Hd. destruct (_ || _); [done|]. destruct (negb _); [done|].
  injection Hd as <-. cbn. split; [by rewrite lookup_insert_eq|]. split; [|done]. intros j Hj. by rewrite lookup_insert_ne.
Qed.

(** ** Passwords *)

(** The database without the stored password hashes. *)
Definition forget_hashes (db : DB) : DB :=
  set_domains (fmap (fun r => DRow (d_status r) (d_desired r) (d_observed r) (d_cert_not_after r) (d_cert_issuer r)
    (d_last_error r) (d_auth_user r) "" (d_created r) (d_updated r))) db.

Lemma SetDomainBasicAuth_forget d u h1 h2 now db : h1 <> "" -> h2 <> "" ->
  (SetDomainBasicAuth d u h1 now db).1 = (SetDomainBasicAuth d u h2 now db).1 /\
  forget_hashes (SetDomainBasicAuth d u h1 now db).2 = forget_hashes (SetDomainBasicAuth d u h2 now db).2 /\
  audit_log (SetDomainBasicAuth d u h1 now db).2 = audit_log (SetDomainBasicAuth d u h2 now db).2 /\
  audit_last (SetDomainBasicAuth d u h1 now db).2 = audit_last (SetDomainBasicAuth d u h2 now db).2.
Proof.
  intros H1 H2. unfold SetDomainBasicAuth.
  assert (E1 : emptyb h1 = false) by (by apply emptyb_false). assert (E2 : emptyb h2 = false) by (by apply emptyb_false).
  rewrite E1, E2. destruct (emptyb d); [done|]. destruct (negb _); [done|]. destruct (has _ _); [|done].
  split; [done|]. split; [|done]. unfold write, forget_hashes. cbn [snd]. unfold set_domains. cbn. f_equal.
  apply map_eq. intros k. rewrite !lookup_fmap. destruct (decide (k = d)) as [->|Hne].
  - rewrite !lookup_alter_eq. by destruct (domains db !! d).
  - by rewrite !lookup_alter_ne.
Qed.

(** Equal up to stored password hashes. *)
Definition alike (y1 y2 : sync_state) : Prop :=
  forget_hashes (y_db y1) = forget_hashes (y_db y2) /\ y_audit y1 = y_audit y2 /\ y_sent y1 = y_sent y2 /\
  y_triggers y1 = y_triggers y2 /\ y_reloads y1 = y_reloads y2.

Lemma alike_audit y1 y2 : alike y1 y2 -> audit_log (y_db y1) = audit_log (y_db y2) /\ audit_last (y_db y1) = audit_last (y_db y2).
Proof.
  intros [H _]. split; [change (audit_log (forget_hashes (y_db y1)) = audit_log (forget_hashes (y_db y2)))
    |change (audit_last (forget_hashes (y_db y1)) = audit_last (forget_hashes (y_db y2)))]; by rewrite H.
Qed.

Lemma set_audit_alike rows n db1 db2 : forget_hashes db1 = forget_hashes db2 ->
  forget_hashes (set_audit rows n db1) = forget_hashes (set_audit rows n db2).
Proof.
  intros H. change (forget_hashes (set_audit rows n ?d)) with (set_audit rows n (forget_hashes d)). by rewrite H.
Qed.

Lemma auditSignedMutation_alike outcome op label msg m1 m2 now wok y1 y2 :
  Nonce m1 = Nonce m2 -> Op m1 = Op m2 -> alike y1 y2 ->
  alike (auditSignedMutation P outcome op label msg (Some m1) now wok y1)
        (auditSignedMutation P outcome op label msg (Some m2) now wok y2).
Proof.
  intros Hn Ho Hy. destruct (alike_audit _ _ Hy) as [Hlog Hlast]. destruct Hy as (Hdb & Hw & Hs & Ht & Hr).
  assert (He : audit_entry outcome op label msg (Some m1) = audit_entry outcome op label msg (Some m2))
    by (unfold audit_entry; by rewrite Hn, Ho).
  unfold auditSignedMutation. rewrite He, <- Hw. destruct (y_audit y1) as [w|]; [|done].
  assert (Hl : emptyb (A_Actor (audit_entry outcome op label msg (Some m2))) = false)
    by (cbn; destruct (emptyb label); apply emptyb_false; done).
  rewrite !Append_Some by done. destruct (row_ok wok); [|done]. unfold alike, recorded. cbn [y_db y_audit y_sent y_triggers y_reloads]. rewrite Hlog, Hlast.
  split; [by apply set_audit_alike|]. done.
Qed.

(** A password leaves no trace outside its hash: two verified requests to
    protect a domain that differ only in the (acceptable) password lead to the
    same audit rows and log lines, the same result event and the same database
    except for the stored hash. *)
Theorem password_confined ks ing own raw1 raw2 rest now wok y m1 m2 k db d u pw1 pw2 :
  (forall pw h, p_bcrypt P pw = Some h -> h <> "") ->
  ks <> [] ->
  Verify (ed25519 P) ks raw1 own now (y_db y) = (Ok (m1, k), db) ->
  Verify (ed25519 P) ks raw2 own now (y_db y) = (Ok (m2, k), db) ->
  Nonce m1 = Nonce m2 -> Op m1 = "domain.set_basic_auth" -> Op m2 = "domain.set_basic_auth" ->
  Forall (fun '(m, pw) =>
    field (str_field "domain") (params_members m) = Some d /\ field (str_field "username") (params_members m) = Some u /\
    field (str_field "password") (params_members m) = Some pw /\ field (bool_field "clear") (params_members m) = Some false /\
    ValidateCredentials u pw = Ok tt /\ is_Some (p_bcrypt P pw)) [(m1, pw1); (m2, pw2)] ->
  alike (handleSignedMutation P (Some ks) ing own (raw1 :: rest) now wok y)
        (handleSignedMutation P (Some ks) ing own (raw2 :: rest) now wok y).
Proof.
  intros Hbc Hks Hv1 Hv2 Hn Ho1 Ho2 Hf.
  apply Forall_cons in Hf as [(Hd1 & Hu1 & Hp1 & Hc1 & Hval1 & [h1 Hh1]) Hf].
  apply Forall_cons in Hf as [(Hd2 & Hu2 & Hp2 & Hc2 & Hval2 & [h2 Hh2]) _].
  unfold handleSignedMutation. destruct (peek raw1), (peek raw2). destruct ks as [|k0 ks]; [done|]. rewrite Hv1, Hv2.
  assert (Hdisp : forall m pw h, Op m = "domain.set_basic_auth" ->
    field (str_field "domain") (params_members m) = Some d -> field (str_field "username") (params_members m) = Some u ->
    field (str_field "password") (params_members m) = Some pw -> field (bool_field "clear") (params_members m) = Some false ->
    ValidateCredentials u pw = Ok tt -> p_bcrypt P pw = Some h ->
    dispatchSignedMutation P ing m now (with_db db y) =
      if emptyb d then (Err (InvalidParams "domain.set_basic_auth"), with_db db y)
      else store_call (SetDomainBasicAuth d u h now) (with_db db y) finish_op).
  { intros m pw h Ho H1 H2 H3 H4 H5 H6. unfold dispatchSignedMutation. rewrite Ho, H1, H2, H3, H4, H5.
    cbv zeta. do 2 (rewrite bool_decide_eq_false_2 by done). rewrite bool_decide_eq_true_2 by done.
    cbn [rbind]. unfold Hash. by rewrite H6. }
  rewrite (Hdisp m1 pw1 h1), (Hdisp m2 pw2 h2) by done. clear Hdisp.
  destruct (SetDomainBasicAuth_forget d u h1 h2 now db) as (Hr & Hg & _); [eauto..|].
  unfold store_call. cbn [y_db with_db].
  destruct (SetDomainBasicAuth d u h1 now db) as [r1 db1], (SetDomainBasicAuth d u h2 now db) as [r2 db2].
  cbn [fst snd] in Hr, Hg. subst r2. rewrite Ho1, Ho2, Hn.
  assert (Hemit : forall n o b e ya yb, alike ya yb -> alike (emitSignedMutationResult own n o b e ya) (emitSignedMutationResult own n o b e yb)).
  { intros n o b e ya yb (? & ? & Hs & ? & ?). unfold alike. cbn. by rewrite Hs. }
  assert (Halike : alike (with_db db1 y) (with_db db2 y)) by done.
  destruct (emptyb d); [|destruct r1]; cbn -[emitSignedMutationResult auditSignedMutation];
    apply Hemit, auditSignedMutation_alike; try done; congruence.
Qed.
End props.

(** ** Concrete runs *)
Definition demo_platform : platform :=
  MkPlatform any_sig id_hash (fun pw => Some ("H" +:+ pw)) unit (fun _ => Some tt) (fun _ _ _ => true) Missing
    no_env demo_load demo_string (fun _ _ => None) demo_schema demo_float "linux" (fun _ => "failed") (fun _ => "denied").

Definition demo_state : sync_state :=
  MkSync (UpsertDomain "x.org" "" 1 (UpsertInstance (MkInstance "web" "t" "container" "1" "installed" "{}" "" "" None "" None None None) 1
    (fresh_db 0)).2).2 (Some (MkWriter [] true)) [] 0 0.

Definition envelope (op params : string) : string :=
  bq "{`mutation`:{`v`:1,`device_id`:`d1`,`op`:`" +:+ op +:+ bq "`,`params`:" +:+ bq params +:+
  bq ",`nonce`:`n1`,`iat`:1000,`exp`:1120,`key_id`:`k`},`sig_b64`:`" +:+ b64_encode true (zeros 64) +:+
  bq "`,`signer_pubkey_b64`:`" +:+ b64_encode true sample_pub +:+ bq "`}".

Definition demo_run (raw : string) : sync_state :=
  handleSignedMutation demo_platform (Some [sample_key]) true "d1" [raw] 1010 Logged demo_state.

Example demo_effects :
  map (fun raw => (map R_OK (y_sent (demo_run raw)), y_triggers (demo_run raw), y_reloads (demo_run raw)))
    [envelope "domain.upsert" "{`domain`:`a.org`}"; envelope "domain.upsert" "{`domain`:7}";
     envelope "instance.delete" "{`instance_id`:`web`}"; envelope "agent.reboot" "{}"; "junk"]
  = [([true], 1, 1); ([false], 0, 0); ([true], 1, 0); ([false], 0, 0); ([false], 0, 0)].
Proof. vm_compute. reflexivity. Qed.

Lemma handle_scope_witness :
  let y' := demo_run (envelope "instance.delete" "{`instance_id`:`web`}") in
  same_rest (y_db demo_state) (y_db y') /\
  forall i, is_Some (instances (y_db demo_state) !! i) -> is_Some (instances (y_db y') !! i).
Proof.
  apply (handle_scope demo_platform (Some [sample_key]) true "d1" [envelope "instance.delete" "{`instance_id`:`web`}"] 1010 Logged
           demo_state). reflexivity.
Defined.

Lemma handle_answers_once_witness :
  exists r, y_sent (demo_run "junk") = [r] /\ R_Device r = "d1" /\ length (audit_log (y_db (demo_run "junk"))) = 1.
Proof.
  destruct (handle_answers_once demo_platform (Some [sample_key]) true "d1" "junk" [] 1010 Logged demo_state (demo_run "junk"))
    as (r & Hs & Hd & _ & Hl); [reflexivity|]. exists r. split; [exact Hs|]. split; [exact Hd|exact Hl].
Defined.

Definition install_params : json :=
  JObj [("instance_id", JStr "web2"); ("template_id", JStr "t"); ("user_config", JObj [("pass", JStr "pw")]);
        ("manifest_b64", JStr "bQ=="); ("manifest_sig_b64", JStr "cw==")].
Definition install_mutation : Mutation := MkMutation 1 "d1" "instance.upsert" (Some install_params) "n1" 1000 1120 "k".


Definition delete_mutation : Mutation :=
  MkMutation 1 "d1" "instance.delete" (Some (JObj [("instance_id", JStr "web")])) "n1" 1000 1120 "k".

Lemma delete_is_soft_witness :
  exists y' i, dispatchSignedMutation demo_platform true delete_mutation 1010 demo_state = (Ok tt, y') /\
    get_opt "web" (y_db demo_state) = Some i /\ y_triggers y' = 1.
Proof.
  destruct (dispatchSignedMutation demo_platform true delete_mutation 1010 demo_state) as [[[]|] y'] eqn:Hd;
    [|by vm_compute in Hd].
  assert (Hid : field (str_field "instance_id") (params_members delete_mutation) = Some "web") by (vm_compute; reflexivity).
  destruct (delete_is_soft demo_platform true delete_mutation "web" 1010 demo_state y' eq_refl Hid Hd) as (i & Hi & _ & _ & Ht).
  exists y', i. split; [done|]. split; [exact Hi|exact Ht].
Defined.

Definition auth_raw (pw : string) : string :=
  envelope "domain.set_basic_auth" ("{`domain`:`x.org`,`username`:`alice`,`password`:`" +:+ pw +:+ "`}").
Definition auth_mutation (pw : string) : Mutation :=
  MkMutation 1 "d1" "domain.set_basic_auth" (Some (JObj [("domain", JStr "x.org"); ("username", JStr "alice"); ("password", JStr pw)]))
    "n1" 1000 1120 "k".

Lemma password_confined_witness :
  alike (demo_run (auth_raw "correct horse")) (demo_run (auth_raw "battery staple")).
Proof.
  apply (password_confined demo_platform [sample_key] true "d1" (auth_raw "correct horse") (auth_raw "battery staple") [] 1010 Logged demo_state
           (auth_mutation "correct horse") (auth_mutation "battery staple") sample_key
           (Verify any_sig [sample_key] (auth_raw "correct horse") "d1" 1010 (y_db demo_state)).2 "x.org" "alice"
           "correct horse" "battery staple"); try done.
  - by intros pw h [= <-].
  - repeat (apply Forall_cons; split; [do 5 (split; [reflexivity|]); by eexists|]). by apply Forall_nil.
Defined.

(** ** Repeated members

    The signed bytes are the canonical form of the decoded mutation, in which
    the last of equal names wins; the parameters are decoded into a struct,
    where a repeated [user_config] is merged.  A relay can therefore add
    configuration entries without touching the signature. *)
Definition signed_form (extra : string) : string :=
  bq "{`v`:1,`device_id`:`d1`,`op`:`instance.upsert`,`params`:{`instance_id`:`i`," +:+ bq extra +:+
  bq "`user_config`:{`mode`:`safe`}},`nonce`:`n1`,`iat`:1000,`exp`:1120,`key_id`:`k`}".

Example relay_can_add_config :
  let honest := json_parse (signed_form "") in
  let altered := json_parse (signed_form "`user_config`:{`debug`:true},") in
  let config j := P_UserConfig <$> (params_members (fst (decode_mutation j)) ≫= decode_upsert demo_platform) in
  canonical_mutation <$> honest = canonical_mutation <$> altered /\
  honest ≫= config = Some [("mode", JStr "safe")] /\
  altered ≫= config = Some [("debug", JBool true); ("mode", JStr "safe")].
Proof. vm_compute. repeat split. Qed.
