(* ===== verification/Host.v ===== *)
(** * Programs over a host

    Code that issues requests to its surroundings (the docker daemon, the file
    system, a command) is a function from the host's state to a result and the
    next state; a failed step ends the program with its error and keeps the
    state reached.  What a request does is the business of the class that
    declares it; here are sequencing, error wrapping and the two proof methods
    the components share: a property every step keeps, and the intermediate
    states of a run that succeeded. *)

From S2P Require Import Prelude.

Notation prog X E A := (E -> res X A * E).

Section programs.
Context {X E : Type}.

Definition hret {A} (a : A) : prog X E A := fun e => (Ok a, e).
Definition hfail {A} (x : X) : prog X E A := fun e => (Err x, e).
Definition hbind {A B} (m : prog X E A) (f : A -> prog X E B) : prog X E B :=
  fun e => match m e with (Ok a, e) => f a e | (Err x, e) => (Err x, e) end.
(** Runs [m] and gives its result as a value. *)
Definition htry {A} (m : prog X E A) : prog X E (res X A) := fun e => let '(r, e) := m e in (Ok r, e).
Definition hwhen (b : bool) (m : prog X E unit) : prog X E unit := if b then m else hret tt.

(** A request whose error becomes one of the program's. *)
Definition host_send_with {Y A} (wrap : Y -> X) (m : prog Y E A) : prog X E A :=
  fun e => let '(r, e) := m e in (match r with Ok a => Ok a | Err y => Err (wrap y) end, e).
(** A request that fails with a text, and one that changes nothing. *)
Definition host_send {A} (wrap : string -> X) (what : string) (m : prog string E A) : prog X E A :=
  host_send_with (fun t => wrap (what +:+ t)) m.
Definition host_ask {A} (wrap : string -> X) (what : string) (m : E -> res string A) : prog X E A :=
  host_send wrap what (fun e => (m e, e)).

(** [f] on every element, in order. *)
Fixpoint hfor {A} (f : A -> prog X E unit) (l : list A) : prog X E unit :=
  match l with [] => hret tt | a :: l => hbind (f a) (fun _ => hfor f l) end.
End programs.

Declare Scope host_scope.
Notation "'do!' x ':=' m 'in' k" := (hbind m (fun x => k)) (at level 10, x name, m at level 100, k at level 200) : host_scope.
Notation "m ;;; k" := (hbind m (fun _ => k)) (at level 100, k at level 200, right associativity) : host_scope.
Open Scope host_scope.

(** ** Properties of the host that a program keeps *)
Definition keeps {X E A} (P : E -> Prop) (m : prog X E A) : Prop := forall e, P e -> P (m e).2.

Section keeps.
Context {X E : Type} (P : E -> Prop).

Lemma keeps_ret {A} (a : A) : keeps P (hret (X := X) a).
Proof. intros e He. exact He. Qed.
Lemma keeps_fail {A} x : keeps P (hfail (X := X) (A := A) x).
Proof. intros e He. exact He. Qed.
Lemma keeps_bind {A B} (m : prog X E A) (f : A -> prog X E B) : keeps P m -> (forall a, keeps P (f a)) -> keeps P (hbind m f).
Proof.
  intros Hm Hf e He. unfold hbind. specialize (Hm e He). destruct (m e) as [[a|x] e']; cbn in *; [|done]. by apply Hf.
Qed.
Lemma keeps_try {A} (m : prog X E A) : keeps P m -> keeps P (htry m).
Proof. intros Hm e He. unfold htry. specialize (Hm e He). by destruct (m e). Qed.
Lemma keeps_when b (m : prog X E unit) : keeps P m -> keeps P (hwhen b m).
Proof. intros Hm. unfold hwhen. destruct b; [done|apply keeps_ret]. Qed.
Lemma keeps_send_with {Y A} (wrap : Y -> X) (m : prog Y E A) : keeps P m -> keeps P (host_send_with wrap m).
Proof. intros Hm e He. unfold host_send_with. specialize (Hm e He). by destruct (m e). Qed.
Lemma keeps_send {A} wrap what (m : prog string E A) : keeps P m -> keeps P (host_send (X := X) wrap what m).
Proof. apply keeps_send_with. Qed.
Lemma keeps_ask {A} wrap what (m : E -> res string A) : keeps P (host_ask (X := X) wrap what m).
Proof. apply keeps_send. intros e He. exact He. Qed.
Lemma keeps_for {A} (f : A -> prog X E unit) l : (forall a, a ∈ l -> keeps P (f a)) -> keeps P (hfor f l).
Proof.
  induction l as [|a l IH]; intros Hf; cbn [hfor]; [apply keeps_ret|].
  apply keeps_bind; [apply Hf; by left|intros _; apply IH; intros; apply Hf; by right].
Qed.
End keeps.

Create HintDb host.
#[export] Hint Resolve keeps_ret keeps_fail keeps_bind keeps_try keeps_when keeps_send_with keeps_send keeps_ask keeps_for : host.

(** Runs through a program's tests. *)
Ltac host_cases :=
  repeat match goal with
  | |- keeps _ (if ?b then _ else _) => destruct b
  | |- keeps _ (match ?x with _ => _ end) => destruct x
  | |- keeps _ (hbind _ _) => apply keeps_bind; [|intros ?]
  | |- keeps _ (htry _) => apply keeps_try
  | |- keeps _ (hwhen _ _) => apply keeps_when
  | |- keeps _ _ => solve [auto with host]
  end.

(** ** A program that succeeded *)
Section runs.
Context {X E : Type}.

Lemma hbind_Ok {A B} (m : prog X E A) (f : A -> prog X E B) e b e' :
  hbind m f e = (Ok b, e') <-> exists a e1, m e = (Ok a, e1) /\ f a e1 = (Ok b, e').
Proof.
  unfold hbind. destruct (m e) as [[a|x] e1]; split.
  - intros Hf. by exists a, e1.
  - by intros (a' & e2 & [= <- <-] & Hf).
  - done.
  - by intros (a' & e2 & ? & _).
Qed.

Lemma send_with_Ok {Y A} (wrap : Y -> X) (m : prog Y E A) e a e' : host_send_with wrap m e = (Ok a, e') <-> m e = (Ok a, e').
Proof. unfold host_send_with. destruct (m e) as [[?|?] ?]; split; congruence. Qed.

Lemma send_Ok {A} wrap what (m : prog string E A) e a e' : host_send (X := X) wrap what m e = (Ok a, e') <-> m e = (Ok a, e').
Proof. apply send_with_Ok. Qed.

Lemma ask_Ok {A} wrap what (m : E -> res string A) e a e' : host_ask (X := X) wrap what m e = (Ok a, e') <-> m e = Ok a /\ e' = e.
Proof. unfold host_ask. rewrite send_Ok. split; [by intros [= -> ->]|by intros [-> ->]]. Qed.

Lemma try_run {A} (m : prog X E A) e r e' : htry m e = (r, e') -> e' = (m e).2 /\ r = Ok (m e).1.
Proof. unfold htry. destruct (m e). by intros [= <- <-]. Qed.
End runs.
