(* ===== verification/Container.v ===== *)
(** * The container driver: internal/runtime/container/docker.go

    The spec of one container, its parsing and expansion, the confinement of
    its mounts, and the driver's Apply and Remove over the engine's REST API.
    The engine itself is a parameter: the class [Engine] gives its answers
    (HTTP statuses, decoded bodies) and [EngineLaws] what its documentation
    promises about them.  SHA-256 and the random source are parameters. *)

From S2P Require Import Prelude GoStrings GoUrl Codec Utf8 Json JsonEnc JsonDec ReadinessConfig Store.
From S2P Require JsonRound.

Record PortMap := MkPortMap { Host : Z; ContainerPort : Z }.
Record VolumeMount := MkVolumeMount { Source : string; MountTarget : string; ReadOnly : bool; AgentManaged : bool }.
Record ServiceSpec := MkServiceSpec {
  Name : string;
  TargetType : string;
  TargetPort : Z;
  AppPath : string;
  Readiness : option Config
}.
Record SecretField := MkSecretField { Key : string; Length : Z; Charset : string }.

Record Spec := MkSpec {
  Image : string;
  Env : gmap string string;
  Ports : slice PortMap;
  Volumes : slice VolumeMount;
  Network : string;
  Cmd : slice string;
  Labels : gmap string string;
  Services : slice ServiceSpec;
  SecretsSchema : slice SecretField;
  MinDiskMb : Z
}.

(** ** Parsing *)
Definition dec_PortMap : decoder PortMap := dec_struct
  [fld "host" dec_int Host (fun v p => MkPortMap v (ContainerPort p));
   fld "container" dec_int ContainerPort (fun v p => MkPortMap (Host p) v)].
(** [AgentManaged] has no JSON name. *)
Definition dec_VolumeMount : decoder VolumeMount := dec_struct
  [fld "source" dec_string Source (fun v m => MkVolumeMount v (MountTarget m) (ReadOnly m) (AgentManaged m));
   fld "target" dec_string MountTarget (fun v m => MkVolumeMount (Source m) v (ReadOnly m) (AgentManaged m));
   fld "readOnly" dec_bool ReadOnly (fun v m => MkVolumeMount (Source m) (MountTarget m) v (AgentManaged m))].
Definition dec_ServiceSpec : decoder ServiceSpec := dec_struct
  [fld "name" dec_string Name (fun v s => MkServiceSpec v (TargetType s) (TargetPort s) (AppPath s) (Readiness s));
   fld "targetType" dec_string TargetType (fun v s => MkServiceSpec (Name s) v (TargetPort s) (AppPath s) (Readiness s));
   fld "targetPort" dec_int TargetPort (fun v s => MkServiceSpec (Name s) (TargetType s) v (AppPath s) (Readiness s));
   fld "appPath" dec_string AppPath (fun v s => MkServiceSpec (Name s) (TargetType s) (TargetPort s) v (Readiness s));
   fld "readiness" (dec_ptr dec_Config zero_Config) Readiness
     (fun v s => MkServiceSpec (Name s) (TargetType s) (TargetPort s) (AppPath s) v)].
Definition dec_SecretField : decoder SecretField := dec_struct
  [fld "key" dec_string Key (fun v f => MkSecretField v (Length f) (Charset f));
   fld "length" dec_int Length (fun v f => MkSecretField (Key f) v (Charset f));
   fld "charset" dec_string Charset (fun v f => MkSecretField (Key f) (Length f) v)].

Definition zero_Spec : Spec := MkSpec "" ∅ None None "" None ∅ None None 0.
Definition set_Env v s := MkSpec (Image s) v (Ports s) (Volumes s) (Network s) (Cmd s) (Labels s) (Services s) (SecretsSchema s) (MinDiskMb s).
Definition set_Volumes v s := MkSpec (Image s) (Env s) (Ports s) v (Network s) (Cmd s) (Labels s) (Services s) (SecretsSchema s) (MinDiskMb s).
Definition set_Cmd v s := MkSpec (Image s) (Env s) (Ports s) (Volumes s) (Network s) v (Labels s) (Services s) (SecretsSchema s) (MinDiskMb s).
Definition set_Labels v s := MkSpec (Image s) (Env s) (Ports s) (Volumes s) (Network s) (Cmd s) v (Services s) (SecretsSchema s) (MinDiskMb s).

Definition dec_Spec : decoder Spec := dec_struct
  [fld "image" dec_string Image (fun v s => MkSpec v (Env s) (Ports s) (Volumes s) (Network s) (Cmd s) (Labels s) (Services s) (SecretsSchema s) (MinDiskMb s));
   fld "env" dec_str_map Env set_Env;
   fld "ports" (dec_slice dec_PortMap (MkPortMap 0 0)) Ports
     (fun v s => MkSpec (Image s) (Env s) v (Volumes s) (Network s) (Cmd s) (Labels s) (Services s) (SecretsSchema s) (MinDiskMb s));
   fld "volumes" (dec_slice dec_VolumeMount (MkVolumeMount "" "" false false)) Volumes set_Volumes;
   fld "network" dec_string Network
     (fun v s => MkSpec (Image s) (Env s) (Ports s) (Volumes s) v (Cmd s) (Labels s) (Services s) (SecretsSchema s) (MinDiskMb s));
   fld "cmd" (dec_slice dec_string "") Cmd set_Cmd;
   fld "labels" dec_str_map Labels set_Labels;
   fld "services" (dec_slice dec_ServiceSpec (MkServiceSpec "" "" 0 "" None)) Services
     (fun v s => MkSpec (Image s) (Env s) (Ports s) (Volumes s) (Network s) (Cmd s) (Labels s) v (SecretsSchema s) (MinDiskMb s));
   fld "secretsSchema" (dec_slice dec_SecretField (MkSecretField "" 0 "")) SecretsSchema
     (fun v s => MkSpec (Image s) (Env s) (Ports s) (Volumes s) (Network s) (Cmd s) (Labels s) (Services s) v (MinDiskMb s));
   fld "min_disk_mb" dec_int MinDiskMb
     (fun v s => MkSpec (Image s) (Env s) (Ports s) (Volumes s) (Network s) (Cmd s) (Labels s) (Services s) (SecretsSchema s) v)].

Inductive spec_error :=
| EmptySpec | BadJSON | ImageRequired | ServiceReadiness (name : string) (e : config_error)
| EnsureSecret (key : string) (e : store_error)
| SourceEmpty | SourceControl (src : string) | DegenerateWorkspace (ws : string) | SourceEscapes (src ws : string).

Definition ParseSpec (configJSON : string) : res spec_error Spec :=
  if bool_decide (trim_space configJSON = "") then Err EmptySpec else
  match unmarshal dec_Spec zero_Spec configJSON with
  | None => Err BadJSON
  | Some s =>
      guard_err (bool_decide (Image s = "")) ImageRequired ;;!
      for_each (fun svc => match Validate (Readiness svc) with Ok _ => Ok tt | Err e => Err (ServiceReadiness (Name svc) e) end)
        (elems (Services s)) ;;!
      Ok s
  end.

(** ** Expansion *)
Section expand.
Context (rd : nat -> nat -> string).   (* the bytes of the random source *)

(** The replacement table, in schema order; Go leaves the order of the loop
    over it open. *)
Fixpoint secret_table (instanceID : string) (fs : list SecretField) (acc : list (string * string)) (db : DB)
  : res spec_error (list (string * string)) * DB :=
  match fs with
  | [] => (Ok acc, db)
  | f :: fs =>
      if bool_decide (Key f = "") then secret_table instanceID fs acc db else
      match EnsureTemplateSecret rd instanceID (Key f) (Charset f) (Length f) db with
      | (Err e, db) => (Err (EnsureSecret (Key f) e), db)
      | (Ok v, db) => secret_table instanceID fs (assoc_set ("${secret." +:+ Key f +:+ "}") v acc) db
      end
  end.
Definition sub_table (table : list (string * string)) (s : string) : string :=
  fold_left (fun out p => replace_all out p.1 p.2) table s.

Definition ExpandSecrets (instanceID : string) (s : Spec) (db : DB) : res spec_error Spec * DB :=
  match elems (SecretsSchema s) with
  | [] => (Ok s, db)
  | fs =>
      match secret_table instanceID fs [] db with
      | (Err e, db) => (Err e, db)
      | (Ok table, db) =>
          let sub := sub_table table in
          (Ok (MkSpec (Image s) (sub <$> Env s) (Ports s)
                 (map (fun v => MkVolumeMount (sub (Source v)) (sub (MountTarget v)) (ReadOnly v) (AgentManaged v)) <$> Volumes s)
                 (Network s) (map sub <$> Cmd s) (sub <$> Labels s) (Services s) (SecretsSchema s) (MinDiskMb s)), db)
      end
  end.
End expand.

Definition ExpandHostVars (gatewayIP : string) (s : Spec) : Spec :=
  if bool_decide (gatewayIP = "") then s else
  let sub := fun i => replace_all i "${host.gateway}" gatewayIP in
  set_Labels (sub <$> Labels s) (set_Cmd (map sub <$> Cmd s) (set_Env (sub <$> Env s) s)).

(** ** Mounts *)
Definition validateBindSource (instanceWorkspace src : string) : res spec_error unit :=
  if bool_decide (src = "") then Err SourceEmpty
  else if negb (has_prefix src "/") then Ok tt
  else if contains_any src (String NUL (String LF (str1 CR))) then Err (SourceControl src)
  else
    let ws := Clean instanceWorkspace in
    if negb (has_prefix (ws +:+ "/") "/var/lib/obacht/") || bool_decide (ws = "/var/lib/obacht") then Err (DegenerateWorkspace instanceWorkspace)
    else
      let clean := Clean src in
      guard_err (negb (bool_decide (clean = ws)) && negb (has_prefix clean (ws +:+ "/"))) (SourceEscapes src ws).

Definition bind_text (v : VolumeMount) : string :=
  Source v +:+ ":" +:+ MountTarget v +:+ ":" +:+ (if ReadOnly v then "ro" else "rw").

Fixpoint resolveBinds (instanceWorkspace : string) (vols : list VolumeMount) : res spec_error (list string * list string) :=
  match vols with
  | [] => Ok ([], [])
  | v :: vols =>
      if AgentManaged v then
        let! r := resolveBinds instanceWorkspace vols in Ok (bind_text v :: r.1, r.2)
      else
        validateBindSource instanceWorkspace (Source v) ;;!
        let! r := resolveBinds instanceWorkspace vols in
        Ok (bind_text v :: r.1, if ReadOnly v then r.2 else Source v :: r.2)
  end.

(** ** The drift hash *)
Definition slice_json {A} (f : A -> json) (s : slice A) : json := match s with None => JNull | Some l => JArr (map f l) end.
Definition pairs_sorted (m : gmap string string) : list string := sort_strings (map (fun p => p.1 +:+ "=" +:+ p.2) (map_to_list m)).
Definition stable_json (s : Spec) : json := JObj
  [("image", JStr (Image s));
   ("env", JArr (map JStr (pairs_sorted (Env s))));
   ("ports", slice_json (fun p => JObj [("host", JNum (itoa (Host p))); ("container", JNum (itoa (ContainerPort p)))]) (Ports s));
   ("volumes", slice_json (fun v => JObj ([("source", JStr (Source v)); ("target", JStr (MountTarget v))] ++
                                          (if ReadOnly v then [("readOnly", JBool true)] else []))) (Volumes s));
   ("network", JStr (Network s));
   ("cmd", slice_json JStr (Cmd s));
   ("labels", JArr (map JStr (pairs_sorted (Labels s))))].

Section driver.
Context (sha256 : string -> string) (goos : string) (agentGID : Z) (min_free : Z).

Definition hash (s : Spec) : string := hex_encode (sha256 (render (stable_json s))).

(** ** The engine *)
Record containerSummary := MkSummary { c_ID : string; c_State : string; c_Labels : gmap string string; c_ImageID : string }.

Record createBody := MkCreateBody {
  cb_Image : string;
  cb_Cmd : slice string;
  cb_Env : list string;
  cb_Labels : gmap string string;
  cb_Ports : gmap string string;   (* "<port>/tcp" to the host port, on 0.0.0.0 *)
  cb_Binds : list string;
  cb_Network : string
}.

Inductive fsop := Chown (path : string) (uid gid : Z) | Chmod (path : string) (mode : Z).

(** Requests and their answers: an HTTP status is [None] when the request
    itself failed; a decoded body is an error when any part of it failed. *)
Class Engine (E : Type) := {
  get_containers : string -> E -> res unit (list containerSummary);  (* with a name filter *)
  delete_container : string -> E -> option Z * E;
  get_image : string -> E -> option Z;
  free_bytes : E -> option Z;
  pull_image : string -> E -> option Z * E;
  repo_digests : string -> E -> res unit (list string);
  image_user : string -> E -> res unit string;
  mkdir_all : string -> E -> bool * E;
  fs_op : fsop -> E -> E;
  get_network : string -> E -> option Z;
  create_network : string -> E -> option Z * E;
  create_container : string -> createBody -> E -> option Z * E;
  start_container : string -> E -> option Z * E;
  delete_image : string -> E -> E
}.

Inductive driver_error :=
| FindFailed | RemoveFailed | NoSpace (need : Z) | PullFailed | DigestMismatch | ImageQuery
| BadSpec (e : spec_error) | NetworkFailed | CreateFailed | StartFailed.

Context {E : Type} `{Engine E}.

Definition findByName (name : string) (e : E) : res driver_error (option containerSummary) :=
  match get_containers ("^/" +:+ name +:+ "$") e with
  | Err _ => Err FindFailed
  | Ok l => Ok (head l)
  end.

Definition removeContainer (id : string) (e : E) : res driver_error unit * E :=
  let '(s, e) := delete_container id e in
  (if bool_decide (s = Some 204%Z) || bool_decide (s = Some 404%Z) then Ok tt else Err RemoveFailed, e).

Definition removeImageByID (id : string) (e : E) : E := if bool_decide (id = "") then e else delete_image id e.

(** [diskcheck.EnsureFreeAtLeast] and [diskcheck.MiB]; [min_free] is the floor
    the agent is configured with. *)
Definition MiB (mb : Z) : Z := if (mb <=? 0)%Z then 0 else (mb * 1024 * 1024) mod 2 ^ 64.
Definition EnsureFreeAtLeast (minBytes : Z) (e : E) : res driver_error unit :=
  match free_bytes e with
  | None => Ok tt
  | Some free =>
      let need := if (min_free <? minBytes)%Z then minBytes else min_free in
      guard_err (free <? need)%Z (NoSpace need)
  end.

(** [i] such that [image[i:]] starts with "@sha256:": the pinned digest. *)
Fixpoint pinned_digest (image : string) : option string :=
  match image with
  | "" => None
  | String a s => if has_prefix image "@sha256:" then Some s else pinned_digest s
  end.
Definition verifyPulledDigest (image : string) (e : E) : res driver_error unit :=
  match pinned_digest image with
  | None => Ok tt
  | Some want =>
      match repo_digests image e with
      | Err _ => Err ImageQuery
      | Ok ds => guard_err (negb (existsb (fun rd => match cut rd "@" with Some (_, d) => bool_decide (d = want) | None => false end) ds))
                   DigestMismatch
      end
  end.

Definition pullIfMissing (image : string) (minDiskBytes : Z) (e : E) : res driver_error unit * E :=
  match get_image image e with
  | None => (Err ImageQuery, e)
  | Some st =>
      if (st =? 200)%Z then (Ok tt, e) else
      match EnsureFreeAtLeast minDiskBytes e with
      | Err x => (Err x, e)
      | Ok _ =>
          let '(st, e) := pull_image image e in
          match st with
          | None => (Err PullFailed, e)
          | Some st => if (300 <=? st)%Z then (Err PullFailed, e) else (verifyPulledDigest image e, e)
          end
      end
  end.

(** [imageRunUID]: the user id the container runs as, when it can be told. *)
Definition imageRunUID (image : string) (e : E) : option (Z * Z) :=
  match image_user image e with
  | Err _ => None
  | Ok user =>
      let u := trim_space user in
      if bool_decide (u = "") then Some (0%Z, 0%Z) else
      let '(userPart, groupPart) := match cut u ":" with Some (a, b) => (a, b) | None => (u, "") end in
      uid ← Atoi userPart;
      Some (uid, match Atoi groupPart with Some g => g | None => uid end)
  end.

(** The writable bind directories; the mode 0o770 with the setgid bit is 1528. *)
Fixpoint preCreate (image : string) (dirs : list string) (e : E) : E :=
  match dirs with
  | [] => e
  | src :: dirs =>
      let '(made, e) := mkdir_all src e in
      let e := if negb made then e else
        match imageRunUID image e with
        | None => fs_op (Chmod src 511) (fs_op (Chown src (-1) agentGID) e)
        | Some (uid, _) => fs_op (Chmod src 1528) (fs_op (Chown src uid agentGID) e)
        end in
      preCreate image dirs e
  end.

Definition EnsureNetwork (name : string) (e : E) : res driver_error unit * E :=
  match get_network name e with
  | None => (Err NetworkFailed, e)
  | Some st =>
      if (st =? 200)%Z then (Ok tt, e) else
      if negb (st =? 404)%Z then (Err NetworkFailed, e) else
      let '(st, e) := create_network name e in
      match st with
      | None => (Err NetworkFailed, e)
      | Some st => (guard_err ((300 <=? st) && negb (st =? 409))%Z NetworkFailed, e)
      end
  end.

(** The labels: the agent's own, and the template's that do not pretend to be. *)
Definition own_labels (instanceID templateID h : string) : gmap string string :=
  list_to_map [("obacht.managed", "1"); ("obacht.instance.id", instanceID); ("obacht.template.id", templateID); ("obacht.config.hash", h)].
Definition merge_labels (own extra : gmap string string) : gmap string string :=
  filter (fun p => has_prefix p.1 "obacht." = false) extra ∪ own.

Definition workspace (templateID instanceID : string) : string := Clean ("/var/lib/obacht/" +:+ templateID +:+ "/" +:+ instanceID).

Definition create (name instanceID templateID h : string) (s : Spec) (e : E) : res driver_error unit * E :=
  match resolveBinds (workspace templateID instanceID) (elems (Volumes s)) with
  | Err x => (Err (BadSpec x), e)
  | Ok (binds, dirs) =>
      let e := preCreate (Image s) (if bool_decide (goos = "darwin") then [] else dirs) e in
      let '(net, e) := if bool_decide (Network s = "") then (Ok tt, e) else EnsureNetwork (Network s) e in
      match net with
      | Err x => (Err x, e)
      | Ok _ =>
          let body := MkCreateBody (Image s) (Cmd s) (pairs_sorted (Env s)) (merge_labels (own_labels instanceID templateID h) (Labels s))
            (list_to_map (rev (map (fun p => (itoa (ContainerPort p) +:+ "/tcp", itoa (Host p))) (elems (Ports s))))) binds (Network s) in
          let '(st, e) := create_container name body e in
          (match st with Some st => guard_err (300 <=? st)%Z CreateFailed | None => Err CreateFailed end, e)
      end
  end.

Definition start (name : string) (e : E) : res driver_error unit * E :=
  let '(st, e) := start_container name e in
  (if bool_decide (st = Some 204%Z) || bool_decide (st = Some 304%Z) then Ok tt else Err StartFailed, e).

Definition container_name (instanceID : string) : string := "obacht-" +:+ instanceID.
Definition config_hash (c : containerSummary) : string := default "" (c_Labels c !! "obacht.config.hash").

(** The part of [Apply] after a stale container is out of the way. *)
Definition recreate (instanceID templateID : string) (s : Spec) (old : option containerSummary) (e : E) : res driver_error bool * E :=
  match pullIfMissing (Image s) (MiB (MinDiskMb s)) e with
  | (Err x, e) => (Err x, e)
  | (Ok _, e) =>
      match create (container_name instanceID) instanceID templateID (hash s) s e with
      | (Err x, e) => (Err x, e)
      | (Ok _, e) =>
          match start (container_name instanceID) e with
          | (Err x, e) => (Err x, e)
          | (Ok _, e) => (Ok true, match old with Some c => removeImageByID (c_ImageID c) e | None => e end)
          end
      end
  end.

Definition Apply (instanceID templateID : string) (s : Spec) (e : E) : res driver_error bool * E :=
  match findByName (container_name instanceID) e with
  | Err x => (Err x, e)
  | Ok None => recreate instanceID templateID s None e
  | Ok (Some c) =>
      if bool_decide (config_hash c = hash s) && bool_decide (c_State c = "running") then (Ok false, e) else
      match removeContainer (c_ID c) e with
      | (Err x, e) => (Err x, e)
      | (Ok _, e) => recreate instanceID templateID s (Some c) e
      end
  end.

Definition Remove (instanceID : string) (e : E) : res driver_error bool * E :=
  match findByName (container_name instanceID) e with
  | Err x => (Err x, e)
  | Ok None => (Ok false, e)
  | Ok (Some c) =>
      match removeContainer (c_ID c) e with
      | (Err x, e) => (Err x, e)
      | (Ok _, e) => (Ok true, removeImageByID (c_ImageID c) e)
      end
  end.
End driver.

(** ** What the engine promises

    [view] is the engine's table of containers by name, and [made] the request
    that a container was created with: what it runs.  The name filter is a
    regular expression, so it finds exactly the name only for names without
    special characters.  A request that failed may or may not have happened. *)
Definition plain_name (n : string) : Prop := str_all (fun c => is_alnum c || mem_byte c "-_") n = true.

(** Nothing is different at [n]; nothing is anywhere. *)
Definition same_at {E : Type} (view : E -> gmap string containerSummary) (made : E -> string -> option createBody) (n : string) (e e' : E) : Prop :=
  view e' !! n = view e !! n /\ made e' n = made e n.
Definition same_table {E : Type} (view : E -> gmap string containerSummary) (made : E -> string -> option createBody) (e e' : E) : Prop :=
  view e' = view e /\ forall n, made e' n = made e n.

Class EngineLaws (E : Type) `{Engine E} := {
  view : E -> gmap string containerSummary;
  made : E -> string -> option createBody;
  view_ids : forall e n1 n2 c1 c2, view e !! n1 = Some c1 -> view e !! n2 = Some c2 -> c_ID c1 = c_ID c2 -> n1 = n2;
  get_view : forall n e l, plain_name n -> get_containers ("^/" +:+ n +:+ "$") e = Ok l -> head l = view e !! n;
  delete_view : forall id e, let '(st, e') := delete_container id e in
    (forall n, (forall c, view e !! n = Some c -> c_ID c <> id) -> same_at view made n e e') /\
    (st = Some 204%Z \/ st = Some 404%Z -> forall n c, view e !! n = Some c -> c_ID c = id -> view e' !! n = None);
  create_view : forall name b e, let '(st, e') := create_container name b e in
    (forall n, n <> name -> same_at view made n e e') /\
    forall s, st = Some s -> (s < 300)%Z -> (exists c, view e' !! name = Some c /\ c_Labels c = cb_Labels b) /\ made e' name = Some b;
  start_view : forall name e, let '(st, e') := start_container name e in
    (forall n, n <> name -> same_at view made n e e') /\ made e' name = made e name /\
    (st = Some 204%Z \/ st = Some 304%Z -> forall c, view e !! name = Some c ->
       exists c', view e' !! name = Some c' /\ c_Labels c' = c_Labels c /\ c_State c' = "running");
  pull_view : forall i e, same_table view made e (pull_image i e).2;
  mkdir_view : forall d e, same_table view made e (mkdir_all d e).2;
  fs_view : forall o e, same_table view made e (fs_op o e);
  network_view : forall n e, same_table view made e (create_network n e).2;
  delete_image_view : forall i e, same_table view made e (delete_image i e)
}.

(** ** What a container should be made of

    The request for a spec: its image, command, network, environment, mounts
    and ports, and labels among which the agent's own are as they should be. *)
Definition port_table (l : list PortMap) : gmap string string := fold_left (fun m p => <[itoa (ContainerPort p) +:+ "/tcp" := itoa (Host p)]> m) l ∅.
Definition body_for (s : Spec) (b : createBody) : Prop :=
  cb_Image b = Image s /\ cb_Cmd b = Cmd s /\ cb_Network b = Network s /\
  cb_Env b ≡ₚ map (fun p => p.1 +:+ "=" +:+ p.2) (map_to_list (Env s)) /\
  cb_Binds b = map (fun v => Source v +:+ ":" +:+ MountTarget v +:+ ":" +:+ (if ReadOnly v then "ro" else "rw")) (elems (Volumes s)) /\
  cb_Ports b = port_table (elems (Ports s)).

Lemma port_table_rev l : list_to_map (rev (map (fun p => (itoa (ContainerPort p) +:+ "/tcp", itoa (Host p))) l)) = port_table l.
Proof.
  unfold port_table. rewrite <- fold_left_rev_right. rewrite <- map_rev. induction (rev l) as [|p r IH]; [done|]. cbn. by rewrite IH.
Qed.

(** Two specs with the same canonical text are the same but for what the text
    leaves out: the same requests serve both. *)
Lemma slice_json_inj {A B} (f : A -> json) (g : A -> B) (s1 s2 : slice A) : (forall a b, f a = f b -> g a = g b) -> slice_json f s1 = slice_json f s2 ->
  map g <$> s1 = map g <$> s2.
Proof.
  intros Hf. destruct s1 as [l1|], s2 as [l2|]; cbn; try done. intros [= Hm]. f_equal. revert l2 Hm.
  induction l1 as [|a l1 IH]; intros [|b l2]; cbn; try done. intros [= Ha Hm]. f_equal; auto.
Qed.
Lemma elems_map {A B} (g : A -> B) (s1 s2 : slice A) : map g <$> s1 = map g <$> s2 -> map g (elems s1) = map g (elems s2).
Proof. destruct s1, s2; cbn; congruence. Qed.
Lemma stable_body s1 s2 b : stable_json s1 = stable_json s2 -> body_for s1 b -> body_for s2 b.
Proof.
  unfold stable_json. intros [= Hi He Hp Hv Hn Hc Hl] (Bi & Bc & Bn & Be & Bb & Bp).
  assert (Hcmd : Cmd s1 = Cmd s2).
  { apply (slice_json_inj JStr id) in Hc; [|by intros a c [= ->]]. destruct (Cmd s1), (Cmd s2); cbn in Hc; rewrite ?map_id in Hc; congruence. }
  split; [congruence|]. split; [congruence|]. split; [congruence|]. split; [|split].
  - assert (Hs : pairs_sorted (Env s1) = pairs_sorted (Env s2)).
    { revert He. generalize (pairs_sorted (Env s1)), (pairs_sorted (Env s2)). induction l as [|a l IH]; intros [|c l']; cbn; try done. intros [= -> H]. f_equal; auto. }
    rewrite Be, <- (sort_strings_perm (map _ (map_to_list (Env s1)))), <- (sort_strings_perm (map _ (map_to_list (Env s2)))). unfold pairs_sorted in Hs. by rewrite Hs.
  - rewrite Bb. apply elems_map. apply (slice_json_inj _ (fun v => Source v +:+ ":" +:+ MountTarget v +:+ ":" +:+ (if ReadOnly v then "ro" else "rw"))) in Hv; [done|].
    intros a c H. destruct (ReadOnly a), (ReadOnly c); cbn in H; simplify_eq; congruence.
  - rewrite Bp, <- !port_table_rev. apply (slice_json_inj _ (fun p => (itoa (ContainerPort p) +:+ "/tcp", itoa (Host p)))) in Hp; [by rewrite (elems_map _ _ _ Hp)|].
    intros a c [= -> ->]. done.
Qed.

(** ** Mounts are confined *)

(** [src] is the workspace or lies below it. *)
Definition inside (ws src : string) : Prop := Clean src = ws \/ has_prefix (Clean src) (ws +:+ "/") = true.

Lemma validateBindSource_inside ws src : validateBindSource ws src = Ok tt -> has_prefix src "/" = true ->
  inside (Clean ws) src /\ has_prefix (Clean ws +:+ "/") "/var/lib/obacht/" = true /\ Clean ws <> "/var/lib/obacht".
Proof.
  unfold validateBindSource, inside. case_bool_decide; [done|]. intros Hok Habs. revert Hok. rewrite Habs. cbn [negb].
  destruct (contains_any _ _); [done|]. destruct (negb (has_prefix (Clean ws +:+ "/") _) || _) eqn:Hd; [done|].
  apply orb_false_iff in Hd as [Hp%negb_false_iff Hne%bool_decide_eq_false]. rewrite guard_err_Ok, andb_false_iff, !negb_false_iff, bool_decide_eq_true.
  auto.
Qed.

Lemma resolveBinds_texts ws vols binds dirs : resolveBinds ws vols = Ok (binds, dirs) -> binds = map bind_text vols.
Proof.
  revert binds dirs. induction vols as [|v vols IH]; intros binds dirs; cbn [resolveBinds]; [by intros [= <- <-]|].
  destruct (AgentManaged v); rewrite ?seq_Ok, rbind_Ok; [intros ([bs ds] & Hr & [= <- <-])|intros (_ & [bs ds] & Hr & [= <- <-])]; by rewrite (IH _ _ Hr).
Qed.

(** A template can only mount what is its own.  Of the mounts the driver
    hands to the engine, every one the agent did not add itself names a volume
    or an absolute path that, once cleaned, is the instance's workspace or lies
    below it, and that workspace lies below /var/lib/obacht; the directories
    created on the host beforehand are such mounts, and writable ones. *)
Theorem resolveBinds_confined ws vols binds dirs :
  resolveBinds ws vols = Ok (binds, dirs) ->
  binds = map bind_text vols /\
  Forall (fun v => AgentManaged v = false -> Source v <> "" /\
            (has_prefix (Source v) "/" = true -> inside (Clean ws) (Source v) /\
             has_prefix (Clean ws +:+ "/") "/var/lib/obacht/" = true /\ Clean ws <> "/var/lib/obacht")) vols /\
  dirs = map Source (filter (fun v => AgentManaged v = false /\ ReadOnly v = false) vols).
Proof.
  revert binds dirs. induction vols as [|v vols IH]; intros binds dirs; cbn [resolveBinds]; [intros [= <- <-]; auto using Forall_nil|].
  destruct (AgentManaged v) eqn:Ham.
  - rewrite rbind_Ok. intros ([bs ds] & Hr & [= <- <-]). destruct (IH _ _ Hr) as (-> & Hf & ->). split; [done|]. split.
    + apply Forall_cons. split; [congruence|done].
    + cbn [filter list_filter]. rewrite decide_False; [done|]. intros []. congruence.
  - rewrite seq_Ok, rbind_Ok. intros (Hv & [bs ds] & Hr & [= <- <-]). destruct (IH _ _ Hr) as (-> & Hf & ->). split; [done|]. split.
    + apply Forall_cons. split; [|done]. intros _. split; [unfold validateBindSource in Hv; by case_bool_decide|]. by apply validateBindSource_inside.
    + cbn [filter list_filter]. destruct (ReadOnly v) eqn:Hro; [rewrite decide_False; [done|]; intros []; congruence|by rewrite decide_True].
Qed.

Lemma resolveBinds_confined_witness :
  exists binds dirs,
    resolveBinds (workspace "wp" "i1") [MkVolumeMount "/var/lib/obacht/wp/i1/data" "/data" false false; MkVolumeMount "/run/a.sock" "/s" false true]
      = Ok (binds, dirs) /\
    dirs = ["/var/lib/obacht/wp/i1/data"] /\
    resolveBinds (workspace "wp" "i1") [MkVolumeMount "/var/lib/obacht/wp/i1/../../../etc" "/data" false false] =
      Err (SourceEscapes "/var/lib/obacht/wp/i1/../../../etc" "/var/lib/obacht/wp/i1").
Proof.
  eexists _, _. split; [reflexivity|].
  destruct (resolveBinds_confined (workspace "wp" "i1")
    [MkVolumeMount "/var/lib/obacht/wp/i1/data" "/data" false false; MkVolumeMount "/run/a.sock" "/s" false true] _ _ eq_refl) as (_ & _ & ->).
  split; [reflexivity|vm_compute; reflexivity].
Defined.

(** ** Apply and Remove *)
Section laws.
Context (sha256 : string -> string) (goos : string) (agentGID min_free : Z) {E : Type} `{EngineLaws E}.

Notation Apply := (Apply sha256 goos agentGID min_free).
Notation recreate := (recreate sha256 goos agentGID min_free).
Notation create := (create goos agentGID).

(** Only the named container can change; no container did. *)
Definition only (name : string) (e e' : E) : Prop := forall n, n <> name -> same_at view made n e e'.
Notation same := (same_table view made).

#[local] Instance only_pre name : PreOrder (only name).
Proof.
  split; [by intros e n|]. intros a b c Hab Hbc n Hn. destruct (Hab n Hn) as [H1 H2], (Hbc n Hn) as [H3 H4]. by split; [rewrite H3|rewrite H4].
Qed.
#[local] Instance same_pre : PreOrder same.
Proof. split; [by intros e|]. intros a b c [H1 H2] [H3 H4]. split; [by rewrite H3|]. intros n. by rewrite H4. Qed.

Lemma same_only name e e' : same e e' -> only name e e'.
Proof. intros [Hv Hm] n _. split; [by rewrite Hv|done]. Qed.

Lemma pull_same image mb e : same e (pullIfMissing min_free image mb e).2.
Proof.
  unfold pullIfMissing. destruct (get_image image e) as [st|]; [|done]. destruct (st =? 200)%Z; [done|].
  destruct (EnsureFreeAtLeast _ _ e); [|done]. pose proof (pull_view image e) as Hp. destruct (pull_image image e) as [[st'|] e']; [|done].
  destruct (300 <=? st')%Z; done.
Qed.

Lemma preCreate_same image dirs e : same e (preCreate agentGID image dirs e).
Proof.
  revert e. induction dirs as [|d dirs IH]; intros e; [done|]. cbn [preCreate]. pose proof (mkdir_view d e) as Hm.
  destruct (mkdir_all d e) as [[] e']; cbn [negb snd] in *; (etransitivity; [exact Hm|]); [|apply IH].
  etransitivity; [|apply IH]. destruct (imageRunUID image e') as [[uid gid]|]; (etransitivity; [apply fs_view|apply fs_view]).
Qed.

Lemma EnsureNetwork_same n e : same e (EnsureNetwork n e).2.
Proof.
  unfold EnsureNetwork. destruct (get_network n e) as [st|]; [|done]. destruct (st =? 200)%Z; [done|]. destruct (negb _); [done|].
  pose proof (network_view n e) as Hn. by destruct (create_network n e) as [[st'|] e'].
Qed.

Lemma create_spec name id tid h s e r e' : create name id tid h s e = (r, e') ->
  only name e e' /\ (r = Ok tt -> (exists c, view e' !! name = Some c /\ c_Labels c = merge_labels (own_labels id tid h) (Labels s)) /\
    exists b, made e' name = Some b /\ body_for s b).
Proof.
  unfold create. destruct (resolveBinds _ _) as [[binds dirs]|x] eqn:Hb; [|intros [= <- <-]; by split].
  pose proof (preCreate_same (Image s) (if bool_decide (goos = "darwin") then [] else dirs) e) as Hpre. set (e1 := preCreate _ _ _ e) in *.
  assert (Hnet : same e1 (if bool_decide (Network s = "") then (Ok tt, e1) else EnsureNetwork (Network s) e1).2).
  { case_bool_decide; [done|apply EnsureNetwork_same]. }
  destruct (if bool_decide (Network s = "") then _ else _) as [[[]|x] e2]; cbn [snd] in Hnet;
    [|intros [= <- <-]; split; [by apply same_only; transitivity e1|done]].
  match goal with |- context [create_container name ?b e2] => set (body := b); pose proof (create_view name body e2) as Hc end.
  destruct (create_container name body e2) as [st e3]. destruct Hc as [Ho Hs]. intros [= <- <-]. split.
  - transitivity e2; [by apply same_only; transitivity e1|exact Ho].
  - destruct st as [st|]; [|done]. rewrite guard_err_Ok, Z.leb_gt. intros Hlt. destruct (Hs st eq_refl Hlt) as [(c & ? & ?) Hm]. split; [by exists c|].
    exists body. split; [done|]. split; [done|]. split; [done|]. split; [done|]. split; [apply sort_strings_perm|].
    split; [exact (resolveBinds_texts _ _ _ _ Hb)|apply port_table_rev].
Qed.

Lemma start_spec name e r e' : start name e = (r, e') ->
  only name e e' /\ made e' name = made e name /\ (r = Ok tt -> forall c, view e !! name = Some c ->
     exists c', view e' !! name = Some c' /\ c_Labels c' = c_Labels c /\ c_State c' = "running").
Proof.
  unfold start. pose proof (start_view name e) as Hs. destruct (start_container name e) as [st e1]. destruct Hs as (Ho & Hm & Hs).
  intros [= <- <-]. split; [exact Ho|]. split; [done|]. destruct (bool_decide (st = Some 204%Z) || _) eqn:Hst; [|done]. intros _. apply Hs.
  apply orb_true_iff in Hst as [?%bool_decide_eq_true|?%bool_decide_eq_true]; auto.
Qed.

(** The template cannot overwrite the agent's labels. *)
Lemma merge_labels_own own extra k v : has_prefix k "obacht." = true -> own !! k = Some v -> merge_labels own extra !! k = Some v.
Proof.
  intros Hp Hk. unfold merge_labels. apply lookup_union_Some_raw. right. split; [|done].
  apply map_lookup_filter_None. right. intros x _. cbn. by rewrite Hp.
Qed.

Lemma merged_hash id tid h extra c : c_Labels c = merge_labels (own_labels id tid h) extra ->
  config_hash c = h /\ c_Labels c !! "obacht.instance.id" = Some id /\ c_Labels c !! "obacht.template.id" = Some tid.
Proof.
  intros Hc. unfold config_hash. rewrite Hc.
  repeat split; [rewrite (merge_labels_own _ _ _ h); done| |]; by apply merge_labels_own.
Qed.

(** The container of [name] was made by the driver: of a spec whose hash it carries. *)
Definition stamped (name : string) (e : E) : Prop := forall c, view e !! name = Some c ->
  exists s b, made e name = Some b /\ body_for s b /\ config_hash c = hash sha256 s /\ JsonRound.printable (stable_json s) = true.
Lemma same_stamped name e e' : same e e' -> stamped name e -> stamped name e'.
Proof. intros [Hv Hm] Hs c Hc. rewrite Hv in Hc. destruct (Hs c Hc) as (s & b & ?). exists s, b. by rewrite Hm. Qed.
Lemma gone_stamped name e : view e !! name = None -> stamped name e.
Proof. intros Hn c Hc. congruence. Qed.

(** A container made of [s] runs under [name]. *)
Definition runs_for (name id tid : string) (s : Spec) (e : E) : Prop := exists c b, view e !! name = Some c /\ c_State c = "running" /\ config_hash c = hash sha256 s /\
  c_Labels c !! "obacht.instance.id" = Some id /\ c_Labels c !! "obacht.template.id" = Some tid /\ made e name = Some b /\ body_for s b.

Lemma recreate_spec id tid s old e r e' : recreate id tid s old e = (r, e') ->
  only (container_name id) e e' /\ forall b, r = Ok b -> b = true /\ runs_for (container_name id) id tid s e'.
Proof.
  unfold recreate. pose proof (pull_same (Image s) (MiB (MinDiskMb s)) e) as Hp.
  destruct (pullIfMissing _ _ _ e) as [[[]|x] e1]; cbn [snd] in Hp; [|intros [= <- <-]; split; [by apply same_only|done]].
  destruct (create _ id tid _ s e1) as [rc e2] eqn:Hc. apply create_spec in Hc as [Hc1 Hc2].
  destruct rc as [[]|x]; [|intros [= <- <-]; split; [transitivity e1; [by apply same_only|done]|done]].
  destruct (start _ e2) as [rs e3] eqn:Hs. apply start_spec in Hs as (Hs1 & Hm3 & Hs2). assert (Ho3 : only (container_name id) e e3).
  { transitivity e1; [by apply same_only|]. by transitivity e2. }
  destruct rs as [[]|x]; [|intros [= <- <-]; split; done]. intros [= <- <-]. set (e4 := match old with Some _ => _ | None => _ end).
  assert (Hv : same e3 e4) by (unfold e4, removeImageByID; destruct old; [case_bool_decide; [done|apply delete_image_view]|done]).
  split; [etransitivity; [exact Ho3|by apply same_only]|]. intros b [= <-]. split; [done|]. destruct Hv as [Hv Hm4].
  destruct (Hc2 eq_refl) as [(c & Hcv & Hl) (bd & Hmb & Hbd)]. destruct (Hs2 eq_refl c Hcv) as (c' & Hv' & Hl' & Hr). rewrite Hl in Hl'. apply merged_hash in Hl' as (? & ? & ?).
  exists c', bd. rewrite Hv, Hm4, Hm3. done.
Qed.

Lemma removeContainer_spec name c e r e' : view e !! name = Some c -> removeContainer (c_ID c) e = (r, e') ->
  only name e e' /\ (r = Ok tt -> view e' !! name = None).
Proof.
  intros Hc. unfold removeContainer. pose proof (delete_view (c_ID c) e) as Hd. destruct (delete_container (c_ID c) e) as [st e1].
  destruct Hd as [Ho Hs]. intros [= <- <-]. split.
  - intros n Hn. apply Ho. intros c2 Hc2 Heq. apply Hn. by apply (view_ids e n name c2 c).
  - destruct (bool_decide (st = Some 204%Z) || _) eqn:Hst; [|done]. intros _. apply (Hs ltac:(apply orb_true_iff in Hst as [?%bool_decide_eq_true|?%bool_decide_eq_true]; auto) name c); done.
Qed.

Lemma findByName_view name e x : plain_name name -> findByName name e = Ok x -> x = view e !! name.
Proof. unfold findByName. intros Hp. destruct (get_containers _ e) as [l|] eqn:Hg; [|done]. intros [= <-]. by apply get_view. Qed.

(** A successful Apply, and what a failed one leaves alone. *)
Lemma Apply_spec id tid s e r e' :
  plain_name (container_name id) -> Apply id tid s e = (r, e') ->
  only (container_name id) e e' /\ forall changed, r = Ok changed ->
    if changed then runs_for (container_name id) id tid s e'
    else e' = e /\ exists c, view e !! container_name id = Some c /\ c_State c = "running" /\ config_hash c = hash sha256 s.
Proof.
  intros Hp. unfold Apply. destruct (findByName _ e) as [[c|]|x] eqn:Hf; [| |intros [= <- <-]; by split].
  - apply findByName_view in Hf; [|done]. destruct (bool_decide _ && _) eqn:Hb.
    + intros [= <- <-]. split; [reflexivity|]. intros b [= <-]. split; [done|].
      apply andb_true_iff in Hb as [Hh%bool_decide_eq_true Hr%bool_decide_eq_true]. exists c. by rewrite <- Hf.
    + destruct (removeContainer (c_ID c) e) as [rr e1] eqn:Hr. apply (removeContainer_spec (container_name id)) in Hr as [Hr1 _]; [|done].
      destruct rr as [[]|x]; [|intros [= <- <-]; by split]. intros Hc. apply recreate_spec in Hc as [Hc1 Hc2].
      split; [by transitivity e1|]. intros b Hb'. by destruct (Hc2 b Hb') as [-> ?].
  - intros Hc. apply recreate_spec in Hc as [Hc1 Hc2]. split; [done|]. intros b Hb'. by destruct (Hc2 b Hb') as [-> ?].
Qed.

(** Equal hashes are hashes of equal specs, if SHA-256 has no collision. *)
Lemma stable_depth s : JsonRound.depth (stable_json s) <= maxNestingDepth.
Proof.
  assert (Ha : forall {A} (f : A -> json) l k, (forall a, JsonRound.depth (f a) <= k) -> list_max (map JsonRound.depth (map f l)) <= k).
  { intros A f l k Hf. rewrite map_map. apply list_max_le, Forall_map, Forall_forall. auto. }
  assert (Hs : forall {A} (f : A -> json) sl k, (forall a, JsonRound.depth (f a) <= k) -> JsonRound.depth (slice_json f sl) <= S k).
  { intros A f [l|] k Hf; cbn; [|lia]. apply le_n_S, Ha, Hf. }
  transitivity 3; [|by apply Nat.leb_le; vm_compute].
  assert (He := Ha _ JStr (pairs_sorted (Env s)) 0 (fun _ => le_n 0)). assert (Hl := Ha _ JStr (pairs_sorted (Labels s)) 0 (fun _ => le_n 0)).
  assert (Hc := Hs _ JStr (Cmd s) 0 (fun _ => le_n 0)).
  assert (Hp := Hs _ (fun p => JObj [("host", JNum (itoa (Host p))); ("container", JNum (itoa (ContainerPort p)))]) (Ports s) 1 (fun _ => le_n 1)).
  assert (Hv := Hs _ (fun v => JObj ([("source", JStr (Source v)); ("target", JStr (MountTarget v))] ++ (if ReadOnly v then [("readOnly", JBool true)] else []))) (Volumes s) 1
    ltac:(intros a; cbn beta; destruct (ReadOnly a); apply Nat.leb_le; reflexivity)).
  unfold stable_json. cbn [JsonRound.depth map snd list_max fold_right]. lia.
Qed.
Lemma hash_inj s1 s2 : Inj (=) (=) sha256 -> JsonRound.printable (stable_json s1) = true -> JsonRound.printable (stable_json s2) = true ->
  hash sha256 s1 = hash sha256 s2 -> stable_json s1 = stable_json s2.
Proof.
  intros Hi H1 H2 Hh. unfold hash in Hh. apply hex_encode_inj, Hi in Hh.
  pose proof (JsonRound.parse_render _ H1 (stable_depth s1)) as P1. pose proof (JsonRound.parse_render _ H2 (stable_depth s2)) as P2. congruence.
Qed.

(** C36: Apply converges one container and nothing else, for an identifier of
    letters, digits, dashes and underscores.  Against any engine that keeps its
    documented promises, a successful Apply leaves the instance's container
    running with the hash of the wanted spec; every other container is as it
    was, even when Apply fails; a result of false means nothing was touched,
    and a result of true that the container was created with the image, the
    command, the network, the environment, the mounts and the ports of the
    spec and carries the agent's own identity labels, whatever labels the
    template asks for.  If the container that was there, if any, was made by
    the driver too, and SHA-256 has no collision, it is made of the wanted spec
    in both cases.  Applying the same spec again right away does nothing. *)
Theorem Apply_converges id tid s e r e' :
  plain_name (container_name id) -> Apply id tid s e = (r, e') ->
  only (container_name id) e e' /\
  forall changed, r = Ok changed ->
    (if changed then runs_for (container_name id) id tid s e' else e' = e) /\
    (exists c, view e' !! container_name id = Some c /\ c_State c = "running" /\ config_hash c = hash sha256 s) /\
    (stamped (container_name id) e -> JsonRound.printable (stable_json s) = true -> stamped (container_name id) e' /\
       (Inj (=) (=) sha256 -> exists b, made e' (container_name id) = Some b /\ body_for s b)) /\
    (is_ok (findByName (container_name id) e') = true -> Apply id tid s e' = (Ok false, e')).
Proof.
  intros Hp Ha. destruct (Apply_spec id tid s e r e' Hp Ha) as [Ho Hg]. split; [done|]. intros changed Hb. specialize (Hg changed Hb).
  assert (Hrun : exists c, view e' !! container_name id = Some c /\ c_State c = "running" /\ config_hash c = hash sha256 s).
  { destruct changed; [destruct Hg as (c & b & ? & ? & ? & _); by exists c|destruct Hg as [-> ?]; done]. }
  split; [destruct changed; [done|by destruct Hg]|]. split; [done|]. split.
  - intros Hst Hpr. destruct changed.
    + destruct Hg as (c & b & Hv & _ & Hh & _ & _ & Hm & Hbd). split; [|intros _; by exists b]. intros c2 Hc2. exists s, b.
      assert (c2 = c) as -> by congruence. done.
    + destruct Hg as [-> (c & Hv & _ & Hh)]. split; [done|]. intros Hi. destruct (Hst c Hv) as (s' & b & Hm & Hbd & Hh' & Hpr'). exists b. split; [done|].
      eapply stable_body; [|exact Hbd]. apply hash_inj; try done. congruence.
  - destruct Hrun as (c & Hv & Hr & Hh). unfold Apply. destruct (findByName _ e') as [x|] eqn:Hfind; [|done]. intros _.
    apply findByName_view in Hfind; [|done]. rewrite Hv in Hfind. subst x. by rewrite !bool_decide_eq_true_2.
Qed.

(** Remove takes away the instance's container and no other. *)
Lemma Remove_spec id e r e' :
  plain_name (container_name id) -> Remove id e = (r, e') ->
  only (container_name id) e e' /\ forall b, r = Ok b ->
    view e' !! container_name id = None /\ (b = true <-> is_Some (view e !! container_name id)) /\ (b = false -> e' = e).
Proof.
  intros Hp. unfold Remove. destruct (findByName _ e) as [[c|]|x] eqn:Hf; [| |intros [= <- <-]; by split]; apply findByName_view in Hf; try done.
  - destruct (removeContainer (c_ID c) e) as [rr e1] eqn:Hr. apply (removeContainer_spec (container_name id)) in Hr as [Hr1 Hr2]; [|done].
    destruct rr as [[]|x]; [|intros [= <- <-]; by split]. intros [= <- <-].
    assert (Hs : same e1 (removeImageByID (c_ImageID c) e1)) by (unfold removeImageByID; case_bool_decide; [done|apply delete_image_view]). destruct Hs as [Hv Hm].
    split; [etransitivity; [exact Hr1|apply same_only; by split]|]. intros b [= <-]. rewrite Hv. split; [by apply Hr2|]. split; [|done].
    split; [|done]. intros _. by exists c.
  - intros [= <- <-]. split; [reflexivity|]. intros b [= <-]. split; [done|]. split; [|done]. rewrite <- Hf. split; [done|intros []; done].
Qed.
End laws.

(** ** A small engine

    Containers by name, with the name as identifier; all images are present
    and every request succeeds. *)
Notation toy := (gmap string (string * createBody)).
Definition toy_view (e : toy) : gmap string containerSummary := map_imap (fun n x => Some (MkSummary n x.1 (cb_Labels x.2) "")) e.
Definition toy_name (filter : string) : string := trim_suffix (trim_prefix filter "^/") "$".

#[export] Instance toy_engine : Engine toy := {|
  get_containers f e := Ok (option_list (toy_view e !! toy_name f));
  delete_container id e := (Some 204%Z, delete id e);
  get_image _ _ := Some 200%Z;
  free_bytes _ := None;
  pull_image _ e := (Some 200%Z, e);
  repo_digests _ _ := Ok [];
  image_user _ _ := Ok "";
  mkdir_all _ e := (true, e);
  fs_op _ e := e;
  get_network _ _ := Some 200%Z;
  create_network _ e := (Some 201%Z, e);
  create_container n b e := match e !! n with
                            | Some _ => (Some 409%Z, e)
                            | None => (Some 201%Z, <[n := ("created", b)]> e)
                            end;
  start_container n e := match e !! n with
                         | Some x => (Some 204%Z, <[n := ("running", x.2)]> e)
                         | None => (Some 404%Z, e)
                         end;
  delete_image _ e := e
|}.

Lemma toy_lookup e n : toy_view e !! n = (fun x => MkSummary n x.1 (cb_Labels x.2) "") <$> e !! n.
Proof. unfold toy_view. rewrite map_lookup_imap. destruct (e !! n); reflexivity. Qed.

Lemma toy_name_plain n : toy_name ("^/" +:+ n +:+ "$") = n.
Proof.
  unfold toy_name. rewrite trim_prefix_app. unfold trim_suffix.
  assert (Hs : has_suffix (n +:+ "$") "$" = true) by (apply has_suffix_spec; by exists n). rewrite Hs, slen_app. cbn [slen].
  by rewrite Nat.add_sub, stake_app.
Qed.

Definition toy_made (e : toy) (n : string) : option createBody := snd <$> e !! n.
Lemma toy_same n e e' : e' !! n = e !! n -> same_at toy_view toy_made n e e'.
Proof. intros He. unfold same_at, toy_made. by rewrite !toy_lookup, He. Qed.
#[export] Instance toy_laws : EngineLaws toy.
Proof.
  refine (Build_EngineLaws toy _ toy_view toy_made _ _ _ _ _ _ _ _ _ _); try done.
  - intros e n1 n2 c1 c2. rewrite !toy_lookup. intros (x1 & _ & ->)%fmap_Some (x2 & _ & ->)%fmap_Some. done.
  - intros n e l _ Hl. assert (l = option_list (toy_view e !! toy_name ("^/" +:+ n +:+ "$"))) as ->
      by (symmetry; exact (f_equal (fun x => match x with Ok v => v | Err _ => [] end) Hl)).
    rewrite toy_name_plain. by destruct (toy_view e !! n).
  - intros id e. cbn. split.
    + intros n Hn. destruct (decide (n = id)) as [->|Hne]; [|by apply toy_same; rewrite lookup_delete_ne].
      apply toy_same. rewrite lookup_delete_eq. destruct (e !! id) as [x|] eqn:Hx; [|done]. exfalso. apply (Hn (MkSummary id x.1 (cb_Labels x.2) "")); [|done].
      by rewrite toy_lookup, Hx.
    + intros _ n c. rewrite toy_lookup. intros (x & _ & ->)%fmap_Some. cbn. intros ->. by rewrite toy_lookup, lookup_delete_eq.
  - intros name b e. cbn. destruct (e !! name) as [x|] eqn:Hx; (split; [intros n Hn|]); [done|intros s [= <-]; lia|by apply toy_same; rewrite lookup_insert_ne|].
    intros s _ _. unfold toy_made. rewrite lookup_insert_eq. split; [|done]. exists (MkSummary name "created" (cb_Labels b) ""). by rewrite toy_lookup, lookup_insert_eq.
  - intros name e. cbn. destruct (e !! name) as [x|] eqn:Hx; (split; [intros n Hn|split]); [by apply toy_same; rewrite lookup_insert_ne| |  |done|done|by intros [|]].
    + unfold toy_made. by rewrite lookup_insert_eq, Hx.
    + intros _ c. rewrite toy_lookup, Hx. intros [= <-]. exists (MkSummary name "running" (cb_Labels x.2) ""). by rewrite toy_lookup, lookup_insert_eq.
Defined.

Definition demo_spec : Spec := set_Labels {["obacht.instance.id" := "other"]}
  (MkSpec "nginx@sha256:00" ∅ None None "" None ∅ None None 0).

Lemma Apply_converges_witness :
  exists c b e', Apply (fun s => s) "linux" 1000 0 "i1" "wp" demo_spec (∅ : toy) = (Ok true, e') /\
    view e' !! "obacht-i1" = Some c /\ c_State c = "running" /\ c_Labels c !! "obacht.instance.id" = Some "i1" /\
    made e' "obacht-i1" = Some b /\ cb_Image b = "nginx@sha256:00" /\
    Apply (fun s => s) "linux" 1000 0 "i1" "wp" demo_spec e' = (Ok false, e').
Proof.
  set (e' := (Apply (fun s => s) "linux" 1000 0 "i1" "wp" demo_spec (∅ : toy)).2).
  assert (Ha : Apply (fun s => s) "linux" 1000 0 "i1" "wp" demo_spec (∅ : toy) = (Ok true, e')) by (vm_compute; reflexivity).
  destruct (Apply_converges (fun s => s) "linux" 1000 0 "i1" "wp" demo_spec (∅ : toy) (Ok true) e') as [_ Hc]; [reflexivity|exact Ha|].
  destruct (Hc true eq_refl) as ((c & b & Hv & Hr & _ & Hl & _ & Hm & Hi & _) & _ & _ & Hagain). exists c, b, e'.
  split; [exact Ha|]. split; [exact Hv|]. split; [exact Hr|]. split; [exact Hl|]. split; [exact Hm|]. split; [exact Hi|]. apply Hagain. vm_compute. reflexivity.
Defined.
