(* ===== verification/Compose.v ===== *)
(** * The compose driver: internal/runtime/compose

    Bundles of containers run through the docker CLI: the spec, the rendering
    of the compose file (configuration, secrets, image digests) and the
    allowlist for user-written bodies.  The YAML decoder and the random source
    are parameters; the driver's effects are in ComposeRun.v. *)

From S2P Require Import Prelude GoStrings GoUrl Codec Utf8 Json JsonEnc JsonDec GoAny Placeholders Store ReadinessConfig.

Definition PrimaryEdgeNetwork : string := "obacht-edge".

Record SecretField := MkSecretField { Key : string; Length : Z; Charset : string }.
Record ServiceSpec := MkServiceSpec { Name : string; TargetService : string; TargetPort : Z; AppPath : string; Readiness : option Config }.
Record Spec := MkSpec {
  ComposeBody : string;
  PrimaryService : string;
  PrimaryPort : Z;
  ImageDigests : gmap string string;
  SecretsSchema : slice SecretField;
  Services : slice ServiceSpec;
  SpecConfig : gmap string string;
  SecretEnvKeys : slice string;
  AllowUnpinnedImages : bool;
  EnvFile : string;
  MinDiskMb : Z
}.

Inductive compose_error :=
| EmptySpec | BadJSON | ServiceReadiness (name : string) (e : config_error)
| InvalidInstanceID
| SecretFailed (key : string) (e : store_error) | Unsubstituted (text : string) | MissingDigests (refs : list string)
| YAMLError | EmptyDocument | ForbiddenExtension (k : string) | ForbiddenTopLevel (k : string) | ServicesRequired
| NotAMapping (what : string) | ForbiddenKey (what k : string) | UnknownKey (what k : string)
| VolumesNotArray | HostBind | UndeclaredVolume (src : string) | BadMount.

(** [instanceIDPattern]: ^[a-z0-9][a-z0-9-]{0,62}$ *)
Definition id_byte (c : ascii) : bool := is_lower c || is_digit c || Ascii.eqb c "-".
Definition validateInstanceID (id : string) : res compose_error unit :=
  guard_err (negb match id with
                  | String a s => (is_lower a || is_digit a) && str_all id_byte s && (slen s <=? 62)
                  | "" => false
                  end) InvalidInstanceID.

Definition ProjectName (instanceID : string) : string := "obacht-" +:+ instanceID.
Definition PrimaryContainerName (instanceID primaryService : string) : string := ProjectName instanceID +:+ "-" +:+ primaryService +:+ "-1".

(** ** Parsing *)
Definition dec_SecretField : decoder SecretField := dec_struct
  [fld "key" dec_string Key (fun v f => MkSecretField v (Length f) (Charset f));
   fld "length" dec_int Length (fun v f => MkSecretField (Key f) v (Charset f));
   fld "charset" dec_string Charset (fun v f => MkSecretField (Key f) (Length f) v)].
Definition dec_ServiceSpec : decoder ServiceSpec := dec_struct
  [fld "name" dec_string Name (fun v s => MkServiceSpec v (TargetService s) (TargetPort s) (AppPath s) (Readiness s));
   fld "targetService" dec_string TargetService (fun v s => MkServiceSpec (Name s) v (TargetPort s) (AppPath s) (Readiness s));
   fld "targetPort" dec_int TargetPort (fun v s => MkServiceSpec (Name s) (TargetService s) v (AppPath s) (Readiness s));
   fld "appPath" dec_string AppPath (fun v s => MkServiceSpec (Name s) (TargetService s) (TargetPort s) v (Readiness s));
   fld "readiness" (dec_ptr dec_Config zero_Config) Readiness
     (fun v s => MkServiceSpec (Name s) (TargetService s) (TargetPort s) (AppPath s) v)].

Definition zero_Spec : Spec := MkSpec "" "" 0 ∅ None None ∅ None false "" 0.
Definition dec_Spec : decoder Spec := dec_struct
  [fld "compose_body" dec_string ComposeBody (fun v s => MkSpec v (PrimaryService s) (PrimaryPort s) (ImageDigests s) (SecretsSchema s)
     (Services s) (SpecConfig s) (SecretEnvKeys s) (AllowUnpinnedImages s) (EnvFile s) (MinDiskMb s));
   fld "primary_service" dec_string PrimaryService (fun v s => MkSpec (ComposeBody s) v (PrimaryPort s) (ImageDigests s) (SecretsSchema s)
     (Services s) (SpecConfig s) (SecretEnvKeys s) (AllowUnpinnedImages s) (EnvFile s) (MinDiskMb s));
   fld "primary_port" dec_int PrimaryPort (fun v s => MkSpec (ComposeBody s) (PrimaryService s) v (ImageDigests s) (SecretsSchema s)
     (Services s) (SpecConfig s) (SecretEnvKeys s) (AllowUnpinnedImages s) (EnvFile s) (MinDiskMb s));
   fld "image_digests" dec_str_map ImageDigests (fun v s => MkSpec (ComposeBody s) (PrimaryService s) (PrimaryPort s) v (SecretsSchema s)
     (Services s) (SpecConfig s) (SecretEnvKeys s) (AllowUnpinnedImages s) (EnvFile s) (MinDiskMb s));
   fld "secrets_schema" (dec_slice dec_SecretField (MkSecretField "" 0 "")) SecretsSchema
     (fun v s => MkSpec (ComposeBody s) (PrimaryService s) (PrimaryPort s) (ImageDigests s) v
     (Services s) (SpecConfig s) (SecretEnvKeys s) (AllowUnpinnedImages s) (EnvFile s) (MinDiskMb s));
   fld "services" (dec_slice dec_ServiceSpec (MkServiceSpec "" "" 0 "" None)) Services
     (fun v s => MkSpec (ComposeBody s) (PrimaryService s) (PrimaryPort s) (ImageDigests s) (SecretsSchema s)
     v (SpecConfig s) (SecretEnvKeys s) (AllowUnpinnedImages s) (EnvFile s) (MinDiskMb s));
   fld "config" dec_str_map SpecConfig (fun v s => MkSpec (ComposeBody s) (PrimaryService s) (PrimaryPort s) (ImageDigests s) (SecretsSchema s)
     (Services s) v (SecretEnvKeys s) (AllowUnpinnedImages s) (EnvFile s) (MinDiskMb s));
   fld "secret_env_keys" (dec_slice dec_string "") SecretEnvKeys
     (fun v s => MkSpec (ComposeBody s) (PrimaryService s) (PrimaryPort s) (ImageDigests s) (SecretsSchema s)
     (Services s) (SpecConfig s) v (AllowUnpinnedImages s) (EnvFile s) (MinDiskMb s));
   fld "allow_unpinned_images" dec_bool AllowUnpinnedImages
     (fun v s => MkSpec (ComposeBody s) (PrimaryService s) (PrimaryPort s) (ImageDigests s) (SecretsSchema s)
     (Services s) (SpecConfig s) (SecretEnvKeys s) v (EnvFile s) (MinDiskMb s));
   fld "env_file" dec_string EnvFile (fun v s => MkSpec (ComposeBody s) (PrimaryService s) (PrimaryPort s) (ImageDigests s) (SecretsSchema s)
     (Services s) (SpecConfig s) (SecretEnvKeys s) (AllowUnpinnedImages s) v (MinDiskMb s));
   fld "min_disk_mb" dec_int MinDiskMb (fun v s => MkSpec (ComposeBody s) (PrimaryService s) (PrimaryPort s) (ImageDigests s) (SecretsSchema s)
     (Services s) (SpecConfig s) (SecretEnvKeys s) (AllowUnpinnedImages s) (EnvFile s) v)].

Definition ParseSpec (raw : string) : res compose_error Spec :=
  if bool_decide (trim_space raw = "") then Err EmptySpec else
  match unmarshal dec_Spec zero_Spec raw with
  | None => Err BadJSON
  | Some s =>
      for_each (fun svc => match Validate (Readiness svc) with Ok _ => Ok tt | Err e => Err (ServiceReadiness (Name svc) e) end)
        (elems (Services s)) ;;!
      Ok s
  end.

(** ** The allowlist for user-written bodies (allowlist.go) *)
Definition allowedTopLevel : list string := ["services"; "volumes"; "networks"; "version"; "name"].
Definition allowedServiceKeys : list string :=
  ["image"; "command"; "entrypoint"; "environment"; "volumes"; "depends_on"; "healthcheck"; "restart"; "labels"; "networks";
   "tmpfs"; "read_only"; "user"; "working_dir"; "cap_drop"; "security_opt"; "stop_grace_period"; "stop_signal"; "sysctls";
   "shm_size"; "mem_limit"; "cpus"; "init"].
Definition forbiddenVolumeKeys : list string := ["driver"; "driver_opts"; "external"; "name"].
Definition forbiddenNetworkKeys : list string := ["external"; "name"; "driver"; "driver_opts"].
Definition forbiddenServiceKeys : list string :=
  ["build"; "network_mode"; "privileged"; "cap_add"; "devices"; "pid"; "ipc"; "uts"; "ports"; "expose"; "secrets"; "configs"; "extends";
   "profiles"; "external_links"; "links"; "userns_mode"; "cgroup_parent"; "pids_limit"; "env_file"].

Definition inl (k : string) (l : list string) : bool := bool_decide (k ∈ l).

(** Keys in byte order, the deterministic iteration of the validator. *)
Definition keys_of (m : amap) : list string := sort_strings (map fst m).

Definition def_key (what : string) (forbidden : list string) (k : string) : res compose_error unit :=
  if has_prefix k "x-" then guard_err (negb (bool_decide (k = "x-obacht-data"))) (ForbiddenExtension k)
  else guard_err (inl k forbidden) (ForbiddenKey what k) ;;! guard_err (negb (bool_decide (k = "labels"))) (UnknownKey what k).
Definition validateTopLevelDefs (what : string) (defs : amap) (forbidden : list string) : res compose_error unit :=
  for_each (fun name =>
    match get name defs with
    | ANull => Ok tt
    | AMap m => for_each (def_key what forbidden) (keys_of m)
    | _ => Err (NotAMapping name)
    end) (keys_of defs).

Definition mount_source (m : string) : string := match cut m ":" with Some (src, _) => src | None => m end.
Definition validate_mount (declared : list string) (mount : any) : res compose_error unit :=
  match mount with
  | AStr m =>
      let src := mount_source m in
      guard_err (has_prefix src "/" || has_prefix src "." || has_prefix src "~") HostBind ;;!
      guard_err (negb (inl src declared)) (UndeclaredVolume src)
  | AMap m =>
      guard_err (match get "type" m with AStr t => bool_decide (t = "bind") | _ => false end) HostBind ;;!
      match get "source" m with
      | AStr src => guard_err (negb (bool_decide (src = "")) && negb (inl src declared)) (UndeclaredVolume src)
      | _ => Ok tt
      end
  | _ => Err BadMount
  end.
Definition validateServiceVolumes (v : any) (declared : list string) : res compose_error unit :=
  match v with AList l => for_each (validate_mount declared) l | _ => Err VolumesNotArray end.

Definition service_key (svcName : string) (svc : amap) (declared : list string) (k : string) : res compose_error unit :=
  if has_prefix k "x-" then Ok tt else
  guard_err (inl k forbiddenServiceKeys) (ForbiddenKey svcName k) ;;!
  guard_err (negb (inl k allowedServiceKeys)) (UnknownKey svcName k) ;;!
  (if bool_decide (k = "volumes") then validateServiceVolumes (get k svc) declared else Ok tt).

Definition top_key (k : string) : res compose_error unit :=
  if has_prefix k "x-" then guard_err (negb (bool_decide (k = "x-obacht-data"))) (ForbiddenExtension k)
  else guard_err (negb (inl k allowedTopLevel)) (ForbiddenTopLevel k).

Definition opt_defs (what : string) (v : any) (forbidden : list string) : res compose_error unit :=
  match v with AMap m => validateTopLevelDefs what m forbidden | _ => Ok tt end.

(** The checks on the decoded document; Go visits the top-level keys in any
    order, here in that of the document. *)
Definition validate_doc (doc : amap) : res compose_error unit :=
  for_each top_key (map fst doc) ;;!
  match get "services" doc with
  | AMap ((_ :: _) as services) =>
      opt_defs "volume" (get "volumes" doc) forbiddenVolumeKeys ;;!
      opt_defs "network" (get "networks" doc) forbiddenNetworkKeys ;;!
      let declared := match get "volumes" doc with AMap vols => map fst vols | _ => [] end in
      for_each (fun name =>
        match get name services with
        | AMap svc => for_each (service_key name svc declared) (keys_of svc)
        | _ => Err (NotAMapping name)
        end) (keys_of services)
  | _ => Err ServicesRequired
  end.

Section yaml.
(** [yaml.Unmarshal] into a map: an error, no document, or its tree. *)
Context (yaml_decode : string -> res unit (option amap)).

Definition ValidateComposeBody (body : string) : res compose_error unit :=
  match yaml_decode body with
  | Err _ => Err YAMLError
  | Ok None => Err EmptyDocument
  | Ok (Some doc) => validate_doc doc
  end.
End yaml.

(** ** Rendering *)

(** A match of [cfgPlaceholderRe] or, with [secret.], of [anyPlaceholderRe] at
    the start of [s]: the key. *)
Definition name_first (c : ascii) : bool := is_lower c || is_upper c || Ascii.eqb c "_".
Definition name_byte (c : ascii) : bool := name_first c || is_digit c.
Definition key_at (prefix s : string) : option string :=
  match strip_prefix s ("${" +:+ prefix) with
  | Some ((String a _) as r) =>
      if name_first a then
        match span name_byte r with
        | (k, String "}" _) => Some k
        | _ => None
        end
      else None
  | _ => None
  end.

Definition esc_rune (r : N) : string :=
  if (r =? 36)%N then "$$"
  else if (r =? 34)%N then String "\" (str1 "034")
  else if (r =? 92)%N then "\\"
  else if (r =? 10)%N then "\n"
  else if (r =? 13)%N then "\r"
  else if (r =? 9)%N then "\t"
  else if (r <? 32)%N then "\x" +:+ String (hex_digit (r / 16)) (str1 (hex_digit (r mod 16)))
  else encode_rune r.
Definition concat_strings (l : list string) : string := fold_right (fun a b => a +:+ b) "" l.
Definition yamlEscapeInner (v : string) : string := concat_strings (map esc_rune (runes v)).
Definition composeEscapeDollar (v : string) : string := replace_all v "$" "$$".

Fixpoint sub_cfg (cfg : gmap string string) (escape : bool) (skip : nat) (s : string) : string :=
  match s with
  | "" => ""
  | String a s' =>
      match skip with
      | S k => sub_cfg cfg escape k s'
      | 0 => match key_at "cfg." s with
             | Some key =>
                 match cfg !! key with
                 | Some v => (if escape then yamlEscapeInner v else v) +:+ sub_cfg cfg escape (slen key + 6) s'
                 | None => "${cfg." +:+ key +:+ "}" +:+ sub_cfg cfg escape (slen key + 6) s'
                 end
             | None => String a (sub_cfg cfg escape 0 s')
             end
      end
  end.
Definition substituteCfg (body : string) (cfg : gmap string string) (escape : bool) : string := sub_cfg cfg escape 0 body.

(** [findUnsubstituted]: the first placeholder left, or the empty string. *)
Fixpoint findUnsubstituted (body : string) : string :=
  match body with
  | "" => ""
  | String a s =>
      match key_at "secret." body with
      | Some k => "${secret." +:+ k +:+ "}"
      | None => match key_at "cfg." body with
                | Some k => "${cfg." +:+ k +:+ "}"
                | None => findUnsubstituted s
                end
      end
  end.

(** [imageLineRe] at the start of a line: its groups and the text matched.
    The class \s of Go's regexp has no vertical tab, and it crosses lines. *)
Definition re_space (c : ascii) : bool := mem_byte c (String TAB (String LF (String "012" (String CR " ")))).
Definition quote (c : ascii) : bool := Ascii.eqb c "'" || Ascii.eqb c "034".
Definition ref_byte (c : ascii) : bool := negb (quote c || re_space c || Ascii.eqb c "@").
Definition take_quote (s : string) : string * string :=
  match s with String a s' => if quote a then (str1 a, s') else ("", s) | "" => ("", "") end.
(** The white space before the end of a line: all of it at the end of the text,
    else up to its last line feed, if it has one. *)
Definition line_end (s : string) : option string :=
  let '(ws, rest) := span re_space s in
  if bool_decide (rest = "") then Some ws else
  match cut_last ws LF with (Some x, _) => Some x | (None, _) => None end.

Record image_line := MkImageLine { i_prefix : string; i_lq : string; i_ref : string; i_digest : string; i_rq : string; i_ws : string }.
Definition image_at (s : string) : option image_line :=
  let '(ws1, r1) := span re_space s in
  r2 ← strip_prefix r1 "image:";
  let '(ws2, r3) := span re_space r2 in
  let '(lq, r4) := take_quote r3 in
  let '(ref, r5) := span ref_byte r4 in
  if bool_decide (ref = "") then None else
  let '(digest, r6) :=
    match strip_prefix r5 "@sha256:" with
    | Some r => let '(hex, rest) := span (fun c => is_digit c || between "a" "f" c) r in
                if bool_decide (hex = "") then ("", r5) else ("@sha256:" +:+ hex, rest)
    | None => ("", r5)
    end in
  let '(rq, r7) := take_quote r6 in
  ws3 ← line_end r7;
  Some (MkImageLine (ws1 +:+ "image:" +:+ ws2) lq ref digest rq ws3).
Definition line_text (m : image_line) : string := i_prefix m +:+ i_lq m +:+ i_ref m +:+ i_digest m +:+ i_rq m +:+ i_ws m.

(** All matches in order; [bol] says the position is at the start of a line. *)
Fixpoint image_lines (bol : bool) (skip : nat) (s : string) : list image_line :=
  match s with
  | "" => []
  | String a s' =>
      match skip with
      | S k => image_lines (Ascii.eqb a LF) k s'
      | 0 => match (if bol then image_at s else None) with
             | Some m => m :: image_lines (Ascii.eqb a LF) (slen (line_text m) - 1) s'
             | None => image_lines (Ascii.eqb a LF) 0 s'
             end
      end
  end.

Definition imageRefs (body : string) : list string :=
  fold_left (fun refs m => let r := i_ref m +:+ i_digest m in if inl r refs then refs else refs ++ [r]) (image_lines true 0 body) [].

Definition pin_line (digests : gmap string string) (m : image_line) : string :=
  if negb (bool_decide (i_digest m = "")) then line_text m else
  match digests !! i_ref m with
  | Some dig => i_prefix m +:+ i_lq m +:+ i_ref m +:+ "@" +:+ dig +:+ i_rq m
  | None => line_text m
  end.
Fixpoint pin_go (digests : gmap string string) (bol : bool) (skip : nat) (s : string) : string :=
  match s with
  | "" => ""
  | String a s' =>
      match skip with
      | S k => pin_go digests (Ascii.eqb a LF) k s'
      | 0 => match (if bol then image_at s else None) with
             | Some m => pin_line digests m +:+ pin_go digests (Ascii.eqb a LF) (slen (line_text m) - 1) s'
             | None => String a (pin_go digests (Ascii.eqb a LF) 0 s')
             end
      end
  end.
(** The references without a digest, of the lines that need one. *)
Definition unpinned (digests : gmap string string) (body : string) : list string :=
  omap (fun m => if bool_decide (i_digest m = "") && negb (bool_decide (is_Some (digests !! i_ref m))) then Some (i_ref m) else None)
    (image_lines true 0 body).
Definition pinImages (body : string) (digests : gmap string string) (allowUnpinned : bool) : res compose_error string :=
  match (if allowUnpinned then [] else unpinned digests body) with
  | [] => Ok (pin_go digests true 0 body)
  | missing => Err (MissingDigests (sort_strings (remove_dups missing)))
  end.

Section render.
Context (yaml_decode : string -> res unit (option amap)) (rd : nat -> nat -> string).

Fixpoint sub_secrets (instanceID : string) (fs : list SecretField) (body : string) (db : DB) : res compose_error string * DB :=
  match fs with
  | [] => (Ok body, db)
  | f :: fs =>
      match EnsureTemplateSecret rd instanceID (Key f) (Charset f) (Length f) db with
      | (Err e, db) => (Err (SecretFailed (Key f) e), db)
      | (Ok v, db) => sub_secrets instanceID fs (replace_all body ("${secret." +:+ Key f +:+ "}") (composeEscapeDollar v)) db
      end
  end.

Definition renderBody (instanceID : string) (spec : Spec) (db : DB) : res compose_error string * DB :=
  let body := substituteCfg (ComposeBody spec) (SpecConfig spec) (negb (AllowUnpinnedImages spec)) in
  match sub_secrets instanceID (elems (SecretsSchema spec)) body db with
  | (Err e, db) => (Err e, db)
  | (Ok body, db) =>
      (guard_err (negb (bool_decide (findUnsubstituted body = ""))) (Unsubstituted (findUnsubstituted body)) ;;!
       (if AllowUnpinnedImages spec then ValidateComposeBody yaml_decode body else Ok tt) ;;!
       pinImages body (ImageDigests spec) (AllowUnpinnedImages spec), db)
  end.
End render.

(** ** Isolation

    Spelled out without the tables and checks of the code: what a bundle may
    say at the top, of a volume or network, and of a service. *)
Definition harmless_def (v : any) : Prop :=
  v = ANull \/ exists d, v = AMap d /\ forall k, k ∈ map fst d -> k = "labels" \/ k = "x-obacht-data".
Definition harmless_defs (v : any) : Prop :=
  forall defs name, v = AMap defs -> name ∈ map fst defs -> harmless_def (get name defs).
Definition declared_volumes (doc : amap) : list string := match get "volumes" doc with AMap vols => map fst vols | _ => [] end.

(** The source of a mount in its short form: what stands before the first colon. *)
Definition short_source (s src : string) : Prop := mem_byte ":" src = false /\ (s = src \/ exists rest, s = src +:+ String ":" rest).

(** A mount names a declared volume of the bundle and no path of the host. *)
Definition safe_mount (declared : list string) (mount : any) : Prop :=
  (exists s src, mount = AStr s /\ short_source s src /\ src ∈ declared /\
     has_prefix src "/" = false /\ has_prefix src "." = false /\ has_prefix src "~" = false) \/
  (exists m, mount = AMap m /\ get "type" m <> AStr "bind" /\ forall src, get "source" m = AStr src -> src = "" \/ src ∈ declared).

Definition harmless_service_keys : list string :=
  ["image"; "command"; "entrypoint"; "environment"; "volumes"; "depends_on"; "healthcheck"; "restart"; "labels"; "networks";
   "tmpfs"; "read_only"; "user"; "working_dir"; "cap_drop"; "security_opt"; "stop_grace_period"; "stop_signal"; "sysctls";
   "shm_size"; "mem_limit"; "cpus"; "init"].
Definition safe_service (declared : list string) (v : any) : Prop :=
  exists svc, v = AMap svc /\ forall k, k ∈ map fst svc ->
    has_prefix k "x-" = true \/
    (k ∈ harmless_service_keys /\ (k = "volumes" -> exists l, get k svc = AList l /\ Forall (safe_mount declared) l)).

Record isolated (doc : amap) : Prop := {
  iso_top : forall k, k ∈ map fst doc -> k ∈ ["services"; "volumes"; "networks"; "version"; "name"; "x-obacht-data"];
  iso_volumes : harmless_defs (get "volumes" doc);
  iso_networks : harmless_defs (get "networks" doc);
  iso_services : exists services, get "services" doc = AMap services /\ services <> [] /\
    forall name, name ∈ map fst services -> safe_service (declared_volumes doc) (get name services)
}.

Lemma inl_true k l : inl k l = true <-> k ∈ l.
Proof. apply bool_decide_eq_true. Qed.
Lemma inl_false k l : inl k l = false <-> k ∉ l.
Proof. apply bool_decide_eq_false. Qed.

(** A check of all keys, in any order. *)
Lemma for_keys {E} (f : string -> res E unit) m : for_each f (keys_of m) = Ok tt <-> forall k, k ∈ map fst m -> f k = Ok tt.
Proof. rewrite for_each_Ok, Forall_forall. unfold keys_of. by setoid_rewrite elem_of_sort_strings. Qed.

Lemma def_key_Ok what forbidden k :
  "labels" ∉ forbidden -> def_key what forbidden k = Ok tt <-> k = "labels" \/ k = "x-obacht-data".
Proof.
  intros Hl. unfold def_key. destruct (has_prefix k "x-") eqn:Hx.
  - rewrite guard_err_Ok, negb_false_iff, bool_decide_eq_true. split; [by right|]. intros [->|]; done.
  - rewrite guard_seq_Ok, guard_err_Ok, negb_false_iff, bool_decide_eq_true, inl_false. split; [tauto|]. intros [->| ->]; done.
Qed.

Lemma opt_defs_Ok what v forbidden : "labels" ∉ forbidden -> opt_defs what v forbidden = Ok tt <-> harmless_defs v.
Proof.
  intros Hl. unfold opt_defs, harmless_defs. destruct v as [| | | | | |defs|]; try (split; [intros _ ? ? [=]|done]).
  unfold validateTopLevelDefs. rewrite for_keys. split.
  - intros H defs' name [= <-] Hn. specialize (H name Hn). destruct (get name defs) as [| | | | | |d|]; try done; [by left|].
    right. exists d. split; [done|]. intros k Hk. rewrite for_keys in H. by apply (def_key_Ok what forbidden k Hl), H.
  - intros H name Hn. destruct (H defs name eq_refl Hn) as [->|(d & -> & Hd)]; [done|]. apply for_keys. intros k Hk.
    by apply def_key_Ok, Hd.
Qed.

Lemma cut_None s c : cut s c = None -> mem_byte c s = false.
Proof.
  induction s as [|a s IH]; [done|]. cbn. destruct (Ascii.eqb a c); [done|]. destruct (cut s c) as [[x y]|]; [done|by auto].
Qed.

Lemma short_source_iff s src : short_source s src <-> src = mount_source s.
Proof.
  unfold short_source, mount_source. destruct (cut s ":") as [[x y]|] eqn:Hc.
  - apply cut_Some in Hc as [-> Hx]. split.
    + intros [Hs [He|[rest He]]]; [rewrite <- He, mem_byte_app in Hs; cbn in Hs; by rewrite orb_true_r in Hs|].
      assert (H1 : cut (x +:+ String ":" y) ":" = Some (x, y)) by by apply cut_Some.
      assert (H2 : cut (x +:+ String ":" y) ":" = Some (src, rest)) by by apply cut_Some. congruence.
    + intros ->. split; [done|]. right. by exists y.
  - assert (Hn : forall x y, mem_byte ":" x = false -> s <> x +:+ String ":" y).
    { intros x y Hx ->. by rewrite (proj2 (cut_Some _ _ x y)) in Hc. }
    split; [by intros [Hs [->|[rest He]]]; [|by apply Hn in He]|]. intros ->. split; [|by left].
    by apply cut_None.
Qed.

Lemma validate_mount_Ok declared m : validate_mount declared m = Ok tt <-> safe_mount declared m.
Proof.
  unfold safe_mount. destruct m as [| | | |s| |m|]; cbn [validate_mount];
    try (split; [done|]; intros [(? & ? & [=] & _)|(? & [=] & _)]).
  - cbv zeta. rewrite guard_seq_Ok, guard_err_Ok, negb_false_iff, inl_true, !orb_false_iff. split.
    + intros [[[? ?] ?] ?]. left. exists s, (mount_source s). by rewrite short_source_iff.
    + intros [(s' & src & [= <-] & ->%short_source_iff & ? & ? & ? & ?)|(? & [=] & _)]. auto.
  - rewrite guard_seq_Ok. split.
    + intros [Ht Hs]. right. exists m. split; [done|]. split.
      * intros Hty. rewrite Hty in Ht. by rewrite bool_decide_eq_true_2 in Ht.
      * intros src Hsrc. rewrite Hsrc in Hs. apply guard_err_Ok, andb_false_iff in Hs.
        rewrite !negb_false_iff, bool_decide_eq_true, inl_true in Hs. done.
    + intros [(? & ? & [=] & _)|(m' & [= <-] & Ht & Hs)]. split.
      * destruct (get "type" m); try done. apply bool_decide_eq_false. congruence.
      * destruct (get "source" m) as [| | | |src| | |]; try done. apply guard_err_Ok, andb_false_iff.
        rewrite !negb_false_iff, bool_decide_eq_true, inl_true. by apply Hs.
Qed.

Lemma service_key_Ok name svc declared k :
  service_key name svc declared k = Ok tt <->
  has_prefix k "x-" = true \/
  (k ∈ harmless_service_keys /\ (k = "volumes" -> exists l, get k svc = AList l /\ Forall (safe_mount declared) l)).
Proof.
  unfold service_key. destruct (has_prefix k "x-"); [by split; [left|]|]. rewrite !guard_seq_Ok, negb_false_iff, inl_true, inl_false.
  assert (Hvol : (if bool_decide (k = "volumes") then validateServiceVolumes (get k svc) declared else Ok tt) = Ok tt <->
    (k = "volumes" -> exists l, get k svc = AList l /\ Forall (safe_mount declared) l)).
  { destruct (decide (k = "volumes")) as [Hk|Hk]; [rewrite bool_decide_eq_true_2 by done|by rewrite bool_decide_eq_false_2].
    unfold validateServiceVolumes. split.
    - intros H _. destruct (get k svc) as [| | | | |l| |]; try done. exists l. split; [done|]. rewrite for_each_Ok in H.
      eapply Forall_impl; [exact H|]. intros m. apply validate_mount_Ok.
    - intros H. destruct (H Hk) as (l & -> & Hl). apply for_each_Ok. eapply Forall_impl; [exact Hl|]. intros m. apply validate_mount_Ok. }
  rewrite Hvol. split; [intros (_ & ? & ?); by right|]. intros [?|[Hin ?]]; [done|]. split; [|done].
  assert (Hdis : Forall (fun k => k ∉ forbiddenServiceKeys) allowedServiceKeys).
  { apply (bool_decide_unpack _). by vm_compute. }
  by apply (proj1 (Forall_forall _ _) Hdis).
Qed.

Lemma top_key_Ok k : top_key k = Ok tt <-> k ∈ ["services"; "volumes"; "networks"; "version"; "name"; "x-obacht-data"].
Proof.
  change (k ∈ _) with (k ∈ allowedTopLevel ++ ["x-obacht-data"]). rewrite elem_of_app, list_elem_of_singleton.
  transitivity (k = "x-obacht-data" \/ k ∈ allowedTopLevel); [|tauto].
  unfold top_key. destruct (has_prefix k "x-") eqn:Hx; rewrite guard_err_Ok, negb_false_iff.
  - rewrite bool_decide_eq_true. split; [by left|]. intros [|Hin]; [done|]. exfalso.
    assert (Hdis : Forall (fun k => has_prefix k "x-" = false) allowedTopLevel) by (apply (bool_decide_unpack _); by vm_compute).
    apply (proj1 (Forall_forall _ _) Hdis) in Hin. congruence.
  - rewrite inl_true. split; [by right|]. intros [->|]; done.
Qed.

(** C37: A user-written compose body is accepted exactly when it is isolated:
    only listed keys at the top and in services, named volumes and networks
    without driver, name or external reference, and every mount a declared
    volume of the bundle, never a path of the host. *)
Theorem validate_doc_iff doc : validate_doc doc = Ok tt <-> isolated doc.
Proof.
  unfold validate_doc. rewrite for_each_seq_Ok, Forall_forall. setoid_rewrite top_key_Ok. split.
  - intros [Htop H]. destruct (get "services" doc) as [| | | | | |[|p services]|] eqn:Hs; try done.
    rewrite !seq_Ok, !opt_defs_Ok in H by (by vm_compute; set_solver). destruct H as (Hv & Hn & H). split; try done.
    exists (p :: services). split; [done|]. split; [done|]. intros name Hin. rewrite for_keys in H. specialize (H name Hin).
    destruct (get name (p :: services)) as [| | | | | |svc|]; try done. exists svc. split; [done|]. intros k Hk.
    rewrite for_keys in H. apply (service_key_Ok name), H. done.
  - intros [Htop Hv Hn (services & Hs & Hne & H)]. split; [done|]. rewrite Hs. destruct services as [|p services]; [done|].
    rewrite !seq_Ok, !opt_defs_Ok by (by vm_compute; set_solver). split; [done|]. split; [done|]. apply for_keys.
    intros name Hin. destruct (H name Hin) as (svc & -> & Hk). apply for_keys. intros k Hin'. by apply service_key_Ok, Hk.
Qed.
