(* ===== verification/WorkQueue.v ===== *)
(** * The serial apply worker: the work queue of internal/reconciler/loop.go

    Two goroutines share the queue under a mutex: the reconcile pass, which
    enqueues applies and runs stop/remove inline, and the worker, which drains
    the queue one instance at a time.  A step is one critical section or one
    channel operation; a long Apply or Remove is the interval between the step
    that starts it and the step that ends it. *)

From S2P Require Import Prelude.

Record applyJob := MkJob { instanceID : string; firstInstall : bool }.

(** What the worker goroutine is doing. *)
Inductive worker_pc := Waiting | Draining | Applying (id : string).
(** What the pass goroutine is doing with respect to the queue. *)
Inductive pass_pc := PIdle | PKick | PRemoving (id : string).

Record wq := MkWQ {
  workQueue : list applyJob;
  workPending : gset string;
  workActive : string;
  workActiveFirst : bool;
  workKick : bool;           (* the channel of capacity one *)
  worker : worker_pc;
  pass : pass_pc
}.

Definition initial : wq := MkWQ [] ∅ "" false false Waiting PIdle.

Definition isFirstInstallState (observed : string) : bool :=
  bool_decide (observed = "") || bool_decide (observed = "pending") || bool_decide (observed = "installing").

Definition workerBusyWith (id : string) (s : wq) : bool := bool_decide (workActive s = id) || bool_decide (id ∈ workPending s).

(** [enqueueApply] up to the release of the mutex: the new state and whether
    the instance is reported as queued. *)
Definition enqueueApply (id observed : string) (s : wq) : wq * bool :=
  if bool_decide (id ∈ workPending s) || bool_decide (workActive s = id) then (s, false)
  else
    let first := isFirstInstallState observed in
    (MkWQ (workQueue s ++ [MkJob id first]) ({[id]} ∪ workPending s) (workActive s) (workActiveFirst s) (workKick s)
       (worker s) PKick,
     negb (bool_decide (workActive s = "")) && first).

(** The non-blocking send that ends it. *)
Definition sendKick (s : wq) : wq :=
  MkWQ (workQueue s) (workPending s) (workActive s) (workActiveFirst s) true (worker s) PIdle.

(** The worker: receive a kick, take the head of the queue or go back to
    waiting, end an apply. *)
Definition receiveKick (s : wq) : wq :=
  MkWQ (workQueue s) (workPending s) (workActive s) (workActiveFirst s) false Draining (pass s).
Definition takeJob (s : wq) : wq :=
  match workQueue s with
  | [] => MkWQ [] (workPending s) (workActive s) (workActiveFirst s) (workKick s) Waiting (pass s)
  | job :: rest => MkWQ rest (workPending s ∖ {[instanceID job]}) (instanceID job) (firstInstall job) (workKick s)
                     (Applying (instanceID job)) (pass s)
  end.
Definition endApply (s : wq) : wq :=
  MkWQ (workQueue s) (workPending s) "" false (workKick s) Draining (pass s).

Definition set_pass (p : pass_pc) (s : wq) : wq :=
  MkWQ (workQueue s) (workPending s) (workActive s) (workActiveFirst s) (workKick s) (worker s) p.

(** [ActiveWork]: first installs only. *)
Definition ActiveWork (s : wq) : string * list string :=
  (if workActiveFirst s then workActive s else "",
   omap (fun j => if firstInstall j then Some (instanceID j) else None) (workQueue s)).

(** ** Interleavings

    [gc] allows the pass to collect orphans as well, which it does without
    asking the worker. *)
Inductive step (gc : bool) : wq -> wq -> Prop :=
| s_enqueue s id observed : pass s = PIdle -> id <> "" -> step gc s (enqueueApply id observed s).1
| s_send s : pass s = PKick -> step gc s (sendKick s)
| s_receive s : worker s = Waiting -> workKick s = true -> step gc s (receiveKick s)
| s_take s : worker s = Draining -> step gc s (takeJob s)
| s_end s id : worker s = Applying id -> step gc s (endApply s)
| s_down s id : pass s = PIdle -> id <> "" -> workerBusyWith id s = false -> step gc s (set_pass (PRemoving id) s)
| s_orphan s id : gc = true -> pass s = PIdle -> step gc s (set_pass (PRemoving id) s)
| s_removed s id : pass s = PRemoving id -> step gc s (set_pass PIdle s).

Inductive reachable (gc : bool) : wq -> Prop :=
| r_init : reachable gc initial
| r_step s s' : reachable gc s -> step gc s s' -> reachable gc s'.

(** ** The invariant *)
Definition ids (s : wq) : list string := map instanceID (workQueue s).

Record wq_ok (s : wq) : Prop := {
  ok_nodup : NoDup (ids s);
  ok_pending : forall i, i ∈ workPending s <-> i ∈ ids s;
  ok_nonempty : Forall (fun i => i <> "") (ids s);
  ok_active : match worker s with
              | Applying i => workActive s = i /\ i <> "" /\ i ∉ workPending s
              | _ => workActive s = "" /\ workActiveFirst s = false
              end;
  ok_wakeup : workQueue s <> [] -> workKick s = true \/ worker s <> Waiting \/ pass s = PKick
}.

Lemma step_ok gc s s' : wq_ok s -> step gc s s' -> wq_ok s'.
Proof.
  intros [Hnd Hp Hne Ha Hw] Hstep.
  destruct Hstep as [s id obs Hpass Hid|s Hpass|s Hwk Hk|s Hwk|s id Hwk|s id Hpass Hid Hb|s id Hgc Hpass|s id Hpass].
  - unfold enqueueApply. destruct (bool_decide (id ∈ workPending s) || _) eqn:Hb; [by split|].
    apply orb_false_iff in Hb as [Hb1%bool_decide_eq_false Hb2%bool_decide_eq_false]. cbn. unfold ids in *. split; cbn.
    + rewrite map_app. apply NoDup_app. split; [done|]. split; [|apply NoDup_singleton].
      intros i Hi. cbn. rewrite list_elem_of_singleton. intros ->. by apply Hb1, Hp.
    + intros i. rewrite map_app, elem_of_app, <- Hp. cbn. set_solver.
    + rewrite map_app. apply Forall_app. split; [done|by repeat constructor].
    + destruct (worker s); [done|done|]. destruct Ha as (<- & ? & ?). split; [done|]. split; [done|]. set_solver.
    + intros _. by right; right.
  - split; try done. intros _. by left.
  - rewrite Hwk in Ha. split; cbn; try done. intros _. right. by left.
  - unfold takeJob. rewrite Hwk in Ha. destruct (workQueue s) as [|job rest] eqn:Hq.
    + unfold ids in *. rewrite Hq in *. by split.
    + unfold ids in *. rewrite Hq in *. cbn in *. apply NoDup_cons in Hnd as [Hn Hnd]. apply Forall_cons in Hne as [Hj Hne].
      split; cbn; [done| |done| |intros _; right; by left].
      * intros i. rewrite elem_of_difference, Hp. set_solver.
      * split; [done|]. split; [done|set_solver].
  - split; cbn; try done. intros _. right. by left.
  - split; cbn; try done. intros Hq. destruct (Hw Hq) as [?|[?|?]]; [by left|right; by left|congruence].
  - split; cbn; try done. intros Hq. destruct (Hw Hq) as [?|[?|?]]; [by left|right; by left|congruence].
  - split; cbn; try done. intros Hq. destruct (Hw Hq) as [?|[?|?]]; [by left|right; by left|congruence].
Qed.

Lemma initial_ok : wq_ok initial.
Proof. split; cbn; [apply NoDup_nil_2|set_solver|apply Forall_nil_2|done|done]. Qed.

Lemma reachable_ok gc s : reachable gc s -> wq_ok s.
Proof. induction 1 as [|s s' _ IH Hs]; [apply initial_ok|by eapply step_ok]. Qed.

(** C20: The work queue is sound in every interleaving: no instance is queued
    twice, none is queued while it is being applied, the pending set is exactly
    the queued instances, and no wake-up is lost: while jobs are queued the
    worker is draining, or a kick is in the channel or about to be sent. *)
Theorem queue_invariant gc s :
  reachable gc s ->
  NoDup (ids s) /\ (forall i, i ∈ workPending s <-> i ∈ ids s) /\
  (forall i, worker s = Applying i -> workActive s = i /\ i ∉ ids s) /\
  (workQueue s <> [] -> workKick s = true \/ worker s <> Waiting \/ pass s = PKick).
Proof.
  intros H. destruct (reachable_ok gc s H) as [Hnd Hp _ Ha Hw]. split; [done|]. split; [done|]. split; [|done].
  intros i Hi. rewrite Hi in Ha. destruct Ha as (? & _ & Hn). split; [done|]. by rewrite <- Hp.
Qed.

(** Stop and remove keep clear of the worker. *)
Definition clear (s : wq) : Prop := forall i, pass s = PRemoving i -> i <> "" /\ workActive s <> i /\ i ∉ workPending s.

Lemma busy_false i s : workerBusyWith i s = false <-> workActive s <> i /\ i ∉ workPending s.
Proof. unfold workerBusyWith. by rewrite orb_false_iff, !bool_decide_eq_false. Qed.

Lemma step_clear s s' : wq_ok s -> clear s -> step false s s' -> clear s'.
Proof.
  intros Hok Hc Hstep. unfold clear in *.
  destruct Hstep as [s id obs Hpass Hid|s Hpass|s Hwk Hk|s Hwk|s id Hwk|s id Hpass Hid Hb|s id Hgc Hpass|s id Hpass]; try done.
  - intros i. unfold enqueueApply. destruct (_ || _); cbn; [congruence|done].
  - intros i Hi. unfold takeJob in *. destruct (workQueue s) as [|job rest] eqn:Hq; cbn in *; [by apply Hc|].
    destruct (Hc i Hi) as (Hne & _ & Hn). split; [done|]. split; [|set_solver]. intros <-.
    apply Hn, (ok_pending s Hok). unfold ids. rewrite Hq. cbn. left.
  - intros i Hi. cbn in *. destruct (Hc i Hi) as (Hne & _ & Hn). done.
  - intros i [= <-]. by apply busy_false in Hb as [? ?].
Qed.

(** Stop and remove never overlap an apply of the same instance: in every
    interleaving of the pass and the worker without orphan collection, while
    the pass tears an instance down the worker neither applies it nor has it
    queued. *)
Theorem teardown_exclusive s i :
  reachable false s -> pass s = PRemoving i -> worker s <> Applying i /\ i ∉ ids s.
Proof.
  intros Hr. assert (Hc : clear s).
  { induction Hr as [|s s' Hr IH Hs]; [by intros ?|]. eapply step_clear; [by apply (reachable_ok false)|done|done]. }
  intros Hp. destruct (Hc i Hp) as (Hne & Hact & Hpend). pose proof (reachable_ok _ _ Hr) as Hok.
  split; [|by rewrite <- (ok_pending s Hok)]. intros Hw. pose proof (ok_active s Hok) as Ha. rewrite Hw in Ha. naive_solver.
Qed.

(** ** Concrete interleavings *)
Definition one_queued : wq := (enqueueApply "web" "" initial).1.
Definition one_active : wq := takeJob (receiveKick (sendKick one_queued)).

Lemma one_active_reachable gc : reachable gc one_active.
Proof.
  unfold one_active. eapply r_step; [|by apply s_take]. eapply r_step; [|by apply s_receive].
  eapply r_step; [|by apply s_send]. eapply r_step; [apply r_init|]. by apply s_enqueue.
Qed.

Lemma queue_invariant_witness : NoDup (ids one_queued) /\
  (forall i, i ∈ workPending one_queued <-> i ∈ ids one_queued) /\
  (forall i, worker one_queued = Applying i -> workActive one_queued = i /\ i ∉ ids one_queued) /\
  (workQueue one_queued <> [] -> workKick one_queued = true \/ worker one_queued <> Waiting \/ pass one_queued = PKick).
Proof. apply (queue_invariant false). eapply r_step; [apply r_init|]. by apply s_enqueue. Defined.

Lemma teardown_exclusive_witness :
  let s := set_pass (PRemoving "other") one_active in worker s <> Applying "other" /\ "other" ∉ ids s.
Proof.
  apply teardown_exclusive; [|reflexivity]. eapply r_step; [apply one_active_reachable|].
  apply s_down; [reflexivity|done|vm_compute; reflexivity].
Defined.

(** Orphan collection does not ask the worker: it can remove the container of
    an instance whose row was deleted while the worker applies it. *)
Example orphan_removal_overlaps :
  exists s, reachable true s /\ pass s = PRemoving "web" /\ worker s = Applying "web".
Proof.
  exists (set_pass (PRemoving "web") one_active). split; [|done].
  eapply r_step; [apply one_active_reachable|]. by apply s_orphan.
Qed.

(** ** Draining *)

(** Take and finish jobs until the queue is empty: the instances in the order
    they are applied. *)
Fixpoint drain (fuel : nat) (s : wq) : list string * wq :=
  match fuel with
  | 0 => ([], s)
  | S n => match workQueue s with
           | [] => ([], takeJob s)
           | job :: _ => let '(l, s') := drain n (endApply (takeJob s)) in (instanceID job :: l, s')
           end
  end.

(** The worker drains the queue completely and in order: with no new work,
    after as many applies as there are jobs (and one look at the empty queue) it
    waits again, every queued instance was applied exactly once, first in first
    out, and nothing is pending. *)
Theorem drain_fifo gc s :
  reachable gc s -> worker s = Draining ->
  let '(applied, s') := drain (S (length (workQueue s))) s in
  applied = ids s /\ workQueue s' = [] /\ worker s' = Waiting /\ workPending s' ≡ ∅.
Proof.
  intros Hr. pose proof (reachable_ok _ _ Hr) as Hok. clear Hr. intros Hw.
  remember (length (workQueue s)) as n eqn:Hn. revert s Hn Hok Hw. induction n as [|n IH]; intros s Hn Hok Hw.
  - cbn. unfold ids. destruct (workQueue s) as [|job rest] eqn:Hq; [|done]. unfold takeJob. rewrite Hq. cbn.
    do 3 (split; [done|]). apply elem_of_equiv_empty. intros i. rewrite (ok_pending s Hok). unfold ids. rewrite Hq.
    apply not_elem_of_nil.
  - change (drain (S (S n)) s) with (match workQueue s with
      | [] => ([], takeJob s)
      | job :: _ => let '(l, s') := drain (S n) (endApply (takeJob s)) in (instanceID job :: l, s') end).
    unfold ids. destruct (workQueue s) as [|job rest] eqn:Hq; [done|].
    assert (Hq' : workQueue (endApply (takeJob s)) = rest) by (unfold takeJob; by rewrite Hq).
    assert (Hok' : wq_ok (endApply (takeJob s))).
    { eapply (step_ok gc); [eapply (step_ok gc); [exact Hok|by apply s_take]|]. eapply s_end. unfold takeJob. by rewrite Hq. }
    specialize (IH (endApply (takeJob s)) ltac:(rewrite Hq'; cbn in Hn; lia) Hok' eq_refl).
    destruct (drain (S n) (endApply (takeJob s))) as [l s']. destruct IH as (-> & ? & ? & ?).
    unfold ids. rewrite Hq'. done.
Qed.

Lemma drain_fifo_witness :
  let s := receiveKick (sendKick (enqueueApply "b" "installed" (sendKick one_queued)).1) in
  let '(applied, s') := drain 3 s in
  applied = ids s /\ workQueue s' = [] /\ worker s' = Waiting /\ workPending s' ≡ ∅.
Proof.
  apply (drain_fifo false); [|reflexivity]. eapply r_step; [|by apply s_receive]. eapply r_step; [|by apply s_send].
  eapply r_step; [|by apply s_enqueue]. eapply r_step; [|by apply s_send]. eapply r_step; [apply r_init|]. by apply s_enqueue.
Defined.
