(* ===== verification/Observed.v ===== *)
(** * What leaves the device: internal/sync/syncer.go

    The observed-state snapshot, the throttled install progress, the advertised
    capabilities and the denial of unsigned events.  Docker, D-Bus and the
    websocket are parameters: per-instance service status, the list of custom
    units, and whether the client is connected.  [now] is in nanoseconds where
    durations are compared. *)

From S2P Require Import Prelude GoStrings Codec Utf8 Json JsonEnc Secrets UserKeys Store AuditLog WorkQueue SignedMut Dispatch DispatchProps.

Definition second : Z := 1000000000.

(** ** Observed state *)
Record ServiceStatus := MkServiceStatus { SS_Service : string; SS_Name : string; SS_State : string; SS_Health : string; SS_Image : string }.

Record instOut := MkInstOut {
  IO_ID : string; IO_TemplateID : string; IO_Version : string; IO_DesiredState : string; IO_ObservedState : string;
  IO_ObservedAt : Z; IO_ErrorMessage : string; IO_Input : option (list (string * json)); IO_Runtime : string;
  IO_ServicesStatus : list ServiceStatus; IO_ServiceReady : string; IO_ReadyAt : Z
}.
Record bindOut := MkBindOut { BO_Domain : string; BO_InstanceID : string; BO_ServiceName : string; BO_LocalPort : Z }.
Record domOut := MkDomOut {
  DO_Domain : string; DO_DesiredStatus : string; DO_ObservedStatus : string; DO_LastError : string; DO_CertNotAfter : Z;
  DO_CertIssuer : string; DO_CertObserved : string; DO_BasicAuthUser : string
}.
Record UnitInfo := MkUnitInfo {
  U_Name : string; U_Description : string; U_LoadState : string; U_ActiveState : string; U_SubState : string;
  U_UnitFileState : string; U_FragmentPath : string
}.
Record payload := MkPayload {
  O_deviceId : string; O_timestamp : Z; O_instances : list instOut; O_bindings : list bindOut; O_domains : list domOut;
  O_active_work : option (string * list string); O_power_mode : bool; O_security_mode : string;
  O_systemd_services : option (list UnitInfo)
}.

Section push.
Context (compose_status : option (string -> option (list ServiceStatus))).  (* [None]: no compose driver *)
Context (custom_services : option (list UnitInfo)).
Context (deviceID : string).

Definition inst_out (i : Instance) : instOut :=
  MkInstOut (ID i) (TemplateID i) (Version i) (DesiredState i) (ObservedState i)
    (default 0%Z (ObservedAt i)) (if bool_decide (ObservedState i = "error") then ObservedJSON i else "")
    (RedactedInputEcho (ConfigJSON i)) (Runtime i)
    (match compose_status with
     | Some status => if bool_decide (Runtime i = "compose") then default [] (status (ID i)) else []
     | None => []
     end)
    (ServiceReady i) (default 0%Z (ReadyAt i)).

Definition bind_out (b : IngressBinding) : bindOut := MkBindOut (B_Domain b) (B_InstanceID b) (B_ServiceName b) (LocalPort b).

(** The coarse certificate state, at [now] nanoseconds. *)
Definition cert_observed (d : Domain) (now : Z) : string :=
  match CertNotAfter d with
  | Some t =>
      let delta := (t * second - now)%Z in
      if (delta <=? 0)%Z then "expired" else if (delta <? 14 * 24 * 3600 * second)%Z then "expiring" else "active"
  | None => if oneof (ObservedStatus d) ["claiming"; "ready"] then "pending" else ""
  end.
Definition dom_out (now : Z) (d : Domain) : domOut :=
  MkDomOut (D_Domain d) (DesiredStatus d) (ObservedStatus d) (LastError d) (default 0%Z (CertNotAfter d)) (CertIssuer d)
    (cert_observed d now) (BasicAuthUser d).

(** [None]: the client is not connected and nothing is sent. *)
Definition pushObserved (connected : bool) (w : wq) (now : Z) (db : DB) : option payload :=
  if negb connected then None else
  let settings := AllSystemSettings db in
  Some (MkPayload deviceID (now / second) (map inst_out (ListInstances db)) (map bind_out (ListBindings db))
    (map (dom_out now) (ListDomains db))
    (match ActiveWork w with (active, queued) =>
       if bool_decide (active = "") && bool_decide (queued = []) then None else Some (active, queued) end)
    (bool_decide (default "" (settings !! "power_mode") = "true")) (default "" (settings !! "security_mode"))
    custom_services).
End push.

(** ** Install progress *)
Record progStamp := MkStamp { phase : string; stamp_at : Z }.
Definition progressThrottle : Z := 2 * second.

(** The new stamps and whether the event is sent. *)
Definition Report (connected : bool) (sent : gmap string progStamp) (instanceID ph : string) (percent now : Z)
    : gmap string progStamp * bool :=
  if emptyb instanceID || negb connected then (sent, false) else
  let throttled := match sent !! instanceID with
                   | Some last => bool_decide (phase last = ph) && negb (percent =? 100)%Z && (now - stamp_at last <? progressThrottle)%Z
                   | None => false
                   end in
  if throttled then (sent, false) else
  let sent := <[instanceID := MkStamp ph now]> sent in
  ((if (64 <? size sent)%nat then filter (fun p => (now - stamp_at p.2 <= 10 * 60 * second)%Z) sent else sent), true).

(** ** Capabilities *)
Definition capabilities (goos : string) (verifier : option (list UserKey)) (db : DB) (enc_ok : bool) : list string :=
  ["ingress.caddy"; "runtime.container"; "runtime.compose"; "ipc.unix"; "progress.v1"; "ingress.basic-auth"] ++
  (match verifier with Some (_ :: _) => ["signed-mutation"] | _ => [] end) ++
  (if bool_decide (goos = "linux") && powerModeEnabled db then ["runtime.system"] else []) ++
  (if enc_ok then ["enc-key.v1"] else []).

(** ** Unsigned desired-state events *)
Definition denied_events : list string :=
  ["agent:upsert_instance"; "agent:delete_instance"; "agent:upsert_binding"; "agent:delete_binding";
   "agent:upsert_domain"; "agent:delete_domain"].

(** The preview is cut at 256 bytes and an ellipsis added. *)
Definition preview (args : list string) : string :=
  match args with
  | [] => ""
  | p :: _ => if (256 <? slen p)%nat then stake 256 p +:+ encode_rune 8230 else p
  end.
Definition deny_entry (op : string) (args : list string) : Entry :=
  MkEntry 0 0 "security.deny" "backend" op ResultDenied [("event", JStr op); ("payload_preview", JStr (preview args))] ""
    "inbound desired-state event blocked" "".

(** The whole inbound surface: the events with a handler. *)
Definition on_event (P : platform) (keys : option (list UserKey)) (ing : bool) (own event : string) (args : list string)
    (now : Z) (wok : log_io) (y : sync_state) : sync_state :=
  if bool_decide (event ∈ denied_events) then
    let '(_, w, db) := Append (p_sha256 P) (y_audit y) (deny_entry event args) now wok (y_db y) in
    MkSync db w (y_sent y) (y_triggers y) (y_reloads y)
  else if bool_decide (event = "agent:signed_mutation") then handleSignedMutation P keys ing own args now wok y
  else y.

(** ** Secrets stay on the device *)
Lemma keys_sorted_fmap {A B} (f : A -> B) (m : gmap string A) : keys_sorted (f <$> m) = keys_sorted m.
Proof.
  unfold keys_sorted. apply sort_strings_unique.
  transitivity (fst <$> (prod_map id f <$> map_to_list m)); [by rewrite <- map_to_list_fmap|].
  rewrite <- list_fmap_compose. done.
Qed.

Lemma map_omap {A B C} (g : B -> C) (f : A -> option B) (l : list A) : map g (omap f l) = omap (fun a => g <$> f a) l.
Proof. induction l as [|a l IH]; [done|]. cbn. destruct (f a); cbn; by rewrite IH. Qed.

(** The snapshot of the domains does not depend on the hashes. *)
Lemma domains_out_forget now db : map (dom_out now) (ListDomains (forget_hashes db)) = map (dom_out now) (ListDomains db).
Proof.
  unfold ListDomains. cbn [forget_hashes domains set_domains]. rewrite keys_sorted_fmap, !map_omap.
  apply omap_ext_in. intros d _. rewrite lookup_fmap. by destruct (domains db !! d).
Qed.

(** Two configurations that show the same public side: the stored user input
    has the same keys, of which the same are secret; a value that is not secret
    is the same; of a secret only whether it is empty counts.  Whatever stands
    outside the user input is free. *)
Definition same_public (c1 c2 : string) : Prop :=
  c1 = c2 \/
  exists cfg1 cfg2, parse_map c1 = Some cfg1 /\ parse_map c2 = Some cfg2 /\
    (forall k, secret_test cfg1 k = secret_test cfg2 k) /\
    Forall2 (fun p q => p.1 = q.1 /\
      if secret_test cfg1 p.1 then p.2 = JStr "" <-> q.2 = JStr "" else p.2 = q.2) (input_of cfg1) (input_of cfg2).
(** The same instance up to the hidden side of its configuration. *)
Definition same_but_hidden (i1 i2 : Instance) : Prop :=
  (exists c, i2 = MkInstance (ID i1) (TemplateID i1) (Runtime i1) (Version i1) (DesiredState i1) c (ObservedState i1) (ObservedJSON i1)
     (ObservedAt i1) (ServiceReady i1) (ReadyAt i1) (CreatedAt i1) (UpdatedAt i1)) /\
  same_public (ConfigJSON i1) (ConfigJSON i2).

Lemma echo_value_hides (f g : string -> bool) l1 l2 : (forall k, f k = g k) ->
  Forall2 (fun p q : string * json => p.1 = q.1 /\ if f p.1 then p.2 = JStr "" <-> q.2 = JStr "" else p.2 = q.2) l1 l2 ->
  map (echo_value f) l1 = map (echo_value g) l2.
Proof.
  intros Hfg. induction 1 as [|[k v] [k' v'] l1 l2 [Hk Hv] _ IH]; [done|]. cbn [map fst snd] in *. subst k'. f_equal; [|exact IH].
  unfold echo_value. cbn [fst snd]. rewrite <- Hfg. destruct (f k); cbn [negb]; [|by subst].
  destruct Hv as [H1 H2]. destruct v as [| | |[|c s]| |], v' as [| | |[|c' s']| |]; try done;
    first [discriminate (H1 eq_refl)|discriminate (H2 eq_refl)].
Qed.

Lemma RedactedInputEcho_public c1 c2 : same_public c1 c2 -> RedactedInputEcho c1 = RedactedInputEcho c2.
Proof.
  intros [->|(cfg1 & cfg2 & H1 & H2 & Hs & Hf)]; [done|]. unfold RedactedInputEcho.
  do 2 (rewrite bool_decide_eq_false_2 by (intros ->; done)). rewrite H1, H2.
  pose proof (echo_value_hides _ _ _ _ Hs Hf) as He. destruct Hf; [done|by rewrite He].
Qed.

Lemma inst_out_hides status i1 i2 : same_but_hidden i1 i2 -> inst_out status i1 = inst_out status i2.
Proof. intros [[c Hc] He]. apply RedactedInputEcho_public in He. unfold inst_out. rewrite He. by rewrite Hc. Qed.


Definition keeping (config hash : string) : DB :=
  let inst := MkInstance "web" "t" "container" "1" "installed" config "" "" None "" None None None in
  (CreateInstanceSecret "web" hash (SetDomainBasicAuth "x.org" "alice" hash 1
    (UpsertDomain "x.org" "" 1 (UpsertInstance inst 1 (fresh_db 0)).2).2).2).2.
Definition hiding (pw : string) : string := bq "{`env`:[`DB=" +:+ pw +:+ bq "`],`__input`:{`dbPassword`:`" +:+ pw +:+ bq "`,`port`:80}}".


(** ** Inbound events *)

(** There is one way in.  Whatever event with whatever arguments a backend
    sends, either no instance, domain or binding changes and no reconcile or
    reload is requested, or it was a signed mutation that a pinned key signed
    over its canonical bytes for this device. *)
Theorem inbound_only_signed P keys ing own event args now wok y y' :
  on_event P keys ing own event args now wok y = y' ->
  (same_state (y_db y) (y_db y') /\ y_triggers y' = y_triggers y /\ y_reloads y' = y_reloads y) \/
  (event = "agent:signed_mutation" /\
   exists raw rest ks m k mj canon sig, args = raw :: rest /\ keys = Some ks /\ k ∈ ks /\ signed_part raw = Some mj /\
     decode_mutation mj = (m, false) /\ canonical_mutation mj = Ok canon /\
     ed25519 P (Pub k) canon sig = true /\ DeviceID m = own).
Proof.
  intros <-. unfold on_event. destruct (bool_decide (event ∈ denied_events)).
  - left. destruct (y_audit y) as [w|]; [rewrite Append_Some by done; destruct (row_ok wok)|]; by repeat split_and.
  - case_bool_decide as He; [|by left; repeat split_and]. destruct args as [|raw rest]; [by left; repeat split_and|].
    destruct (handle_only_verified P keys ing own raw rest now wok y _ eq_refl) as [H|(ks & m & k & mj & canon & sig & H)];
      [by left|right]. split; [done|]. exists raw, rest, ks, m, k, mj, canon, sig. done.
Qed.

Lemma inbound_only_signed_witness :
  let y' := on_event demo_platform (Some [sample_key]) true "d1" "agent:upsert_domain" ["x"] 1010 Logged demo_state in
  (same_state (y_db demo_state) (y_db y') /\ y_triggers y' = 0 /\ y_reloads y' = 0) \/
  ("agent:upsert_domain" = "agent:signed_mutation" /\
   exists raw rest ks m k mj canon sig, ["x"] = raw :: rest /\ Some [sample_key] = Some ks /\ k ∈ ks /\ signed_part raw = Some mj /\
     decode_mutation mj = (m, false) /\ canonical_mutation mj = Ok canon /\ any_sig (Pub k) canon sig = true /\ DeviceID m = "d1").
Proof. apply (inbound_only_signed demo_platform (Some [sample_key]) true "d1" "agent:upsert_domain" ["x"] 1010 Logged demo_state). reflexivity. Defined.
