(* ===== verification/Prober.v ===== *)
(** * The readiness prober: internal/readiness/probe.go

    One goroutine per starting instance probes until an answer or the timeout;
    settled instances are probed once per reconcile pass.  A probe asks the
    outside world, which is the parameter [world]: HTTP answers (the status, or
    none when no response came back) and the container engine's inspect tree.
    Shared state is the registry of starting runs, the failure counters and the
    address cache (under the mutex) and the instance rows of the store. *)

From S2P Require Import Prelude GoStrings Codec Json JsonEnc GoAny ReadinessConfig Store StoreInv.

Definition startingInterval : Z := 5.
Definition unhealthyAfter : Z := 3.
Definition edgeNetwork : string := "obacht-edge".

Record Target := MkTarget {
  InstanceID : string;
  ServiceName : string;
  ContainerName : string;
  TargetPort : Z;
  HostPort : bool;
  t_Config : option Config
}.

Record world := MkWorld {
  http_get : string -> string -> option Z;          (* URL and server name to the status of the response *)
  inspect : option (string -> res unit (option amap))  (* nil prober, error, or the tree (nil when absent) *)
}.

Section prober.
Context (goos : string) (httpsPort : Z).

(** [probeHTTP]: whether the status is accepted, and whether there was none. *)
Definition probeHTTP (w : world) (url serverName : string) (cfg : option Config) : bool * bool :=
  match http_get w url serverName with
  | None => (false, true)
  | Some status => (accepts cfg status, false)
  end.

Definition probeViaCaddy (w : world) (domain path : string) (cfg : option Config) : bool * bool :=
  probeHTTP w ("https://127.0.0.1:" +:+ itoa httpsPort +:+ path) domain cfg.

Definition prefixOf (b : IngressBinding) : string := if bool_decide (Mode b = "path") then PathPrefix b else "".

(** The loop of [binding]: an exact service wins, else the first of the instance. *)
Fixpoint pick_binding (t : Target) (fallback : option IngressBinding) (bs : list IngressBinding) : option IngressBinding :=
  match bs with
  | [] => fallback
  | b :: bs =>
      if negb (bool_decide (B_InstanceID b = InstanceID t)) then pick_binding t fallback bs
      else if bool_decide (B_ServiceName b = ServiceName t) then Some b
      else pick_binding t (match fallback with None => Some b | _ => fallback end) bs
  end.
Definition binding (db : DB) (t : Target) : string * string :=
  match pick_binding t None (ListBindings db) with Some b => (B_Domain b, prefixOf b) | None => ("", "") end.

Definition str_of (v : any) : string := default "" (as_str v).
Definition map_of (v : any) : amap := default [] (as_map v).

(** [containerIP]: the cached address, else the edge network's, else the first
    one any network has (Go leaves the order of that loop open; it is the order
    of the entries here), which is then cached. *)
Definition containerIP (ips : gmap string string) (name : string) (insp : amap) : string * gmap string string :=
  match ips !! name with
  | Some ip => (ip, ips)
  | None =>
      let nets := map_of (get "Networks" (map_of (get "NetworkSettings" insp))) in
      let edge := str_of (get "IPAddress" (map_of (get edgeNetwork nets))) in
      let ip := if negb (bool_decide (edge = "")) then edge else
        default "" (head (filter (fun s => s <> "") (map (fun n => str_of (get "IPAddress" (map_of n.2))) nets))) in
      (ip, if bool_decide (ip = "") then ips else <[name := ip]> ips)
  end.

(** [net.JoinHostPort]. *)
Definition JoinHostPort (host port : string) : string :=
  if mem_byte ":" host then "[" +:+ host +:+ "]:" +:+ port else host +:+ ":" +:+ port.

(** The checks after the Caddy attempt. *)
Definition probe_direct (w : world) (ips : gmap string string) (t : Target) : bool * gmap string string :=
  let path := path (t_Config t) in
  if HostPort t then ((probeHTTP w ("http://127.0.0.1:" +:+ itoa (TargetPort t) +:+ path) "" (t_Config t)).1, ips) else
  match (if bool_decide (ContainerName t = "") then None else inspect w) with
  | None => (false, ips)
  | Some insp =>
      match insp (ContainerName t) with
      | Err _ => (false, ips)
      | Ok None => (false, ips)
      | Ok (Some tree) =>
          let state := map_of (get "State" tree) in
          if negb (match get "Running" state with ABool b => b | _ => false end) then (false, ips) else
          let docker_health := match as_map (get "Health" state) with
            | Some health =>
                let status := str_of (get "Status" health) in
                if bool_decide (status = "healthy") then true
                else if bool_decide (status = "unhealthy") then false
                else if bool_decide (status = "starting") then false else true
            | None => true
            end in
          if bool_decide (goos = "linux") && (0 <? TargetPort t)%Z then
            let '(ip, ips) := containerIP ips (ContainerName t) tree in
            if negb (bool_decide (ip = "")) then
              ((probeHTTP w ("http://" +:+ JoinHostPort ip (itoa (TargetPort t)) +:+ path) "" (t_Config t)).1, ips)
            else (docker_health, ips)
          else (docker_health, ips)
      end
  end.

Definition probe (w : world) (db : DB) (ips : gmap string string) (t : Target) : bool * gmap string string :=
  let '(domain, prefix) := binding db t in
  if bool_decide (domain = "") then probe_direct w ips t else
  let '(ok, transportErr) := probeViaCaddy w domain (joinPath prefix (path (t_Config t))) (t_Config t) in
  if transportErr then probe_direct w ips t else (ok, ips).

(** ** State *)

(** Where a starting goroutine is: registered but its state not yet recorded,
    probing, decided but its verdict not yet recorded, or gone. *)
Inductive phase := Fresh | Probing | Decided (ready : bool) | Gone.
Record startingRun := MkRun { target : Target; cancelled : bool; at_ : phase }.

Record Prober := MkProber {
  st : DB;
  active : gmap string nat;         (* the current run of an instance *)
  failures : gmap string Z;
  ips : gmap string string;
  runs : gmap nat startingRun;      (* every run ever started *)
  next : nat;
  notified : nat                    (* calls of the notifier *)
}.

Definition set_st db p := MkProber db (active p) (failures p) (ips p) (runs p) (next p) (notified p).
Definition set_runs f p := MkProber (st p) (active p) (failures p) (ips p) (f (runs p)) (next p) (notified p).

Definition cancel (n : nat) : gmap nat startingRun -> gmap nat startingRun :=
  alter (fun r => MkRun (target r) true (at_ r)) n.
Definition go (n : nat) (ph : phase) : gmap nat startingRun -> gmap nat startingRun :=
  alter (fun r => MkRun (target r) (cancelled r) ph) n.

Definition Active (id : string) (p : Prober) : bool := bool_decide (is_Some (active p !! id)).

(** [Set] with a live context: written and notified only on a transition. *)
Definition SetState (id state : string) (now : Z) (p : Prober) : Prober :=
  match GetInstance id (st p) with
  | Err _ => p
  | Ok inst =>
      if bool_decide (ServiceReady inst = state) then p else
      let db := (SetServiceReady id state (if bool_decide (state = StateReady) then Some now else None) (st p)).2 in
      MkProber db (active p) (failures p) (ips p) (runs p) (next p) (S (notified p))
  end.

(** [Begin] up to the release of the mutex. *)
Definition Begin (t : Target) (p : Prober) : Prober :=
  if bool_decide (InstanceID t = "") then p else
  let runs := match active p !! InstanceID t with Some old => cancel old (runs p) | None => runs p end in
  MkProber (st p) (<[InstanceID t := next p]> (active p)) (delete (InstanceID t) (failures p))
    (if bool_decide (ContainerName t = "") then ips p else delete (ContainerName t) (ips p))
    (<[next p := MkRun t false Fresh]> runs) (S (next p)) (notified p).
(** The rest of it: record the starting state (a database call with a
    cancelled context does nothing) and start the goroutine. *)
Definition Begin_rest (n : nat) (r : startingRun) (now : Z) (p : Prober) : Prober :=
  let p := if cancelled r then p else SetState (InstanceID (target r)) StateStarting now p in
  set_runs (go n Probing) p.

Definition Forget (id container : string) (p : Prober) : Prober :=
  let runs := match active p !! id with Some n => cancel n (runs p) | None => runs p end in
  MkProber (st p) (delete id (active p)) (delete id (failures p))
    (if bool_decide (container = "") then ips p else delete container (ips p)) runs (next p) (notified p).

Definition markDone (id : string) (n : nat) (p : Prober) : Prober :=
  if bool_decide (active p !! id = Some n)
  then MkProber (st p) (delete id (active p)) (failures p) (ips p) (runs p) (next p) (notified p) else p.

(** One turn of the loop of [runStarting], up to the mutex of [markDone]:
    [late] says the deadline has passed. *)
Definition runStarting_turn (n : nat) (r : startingRun) (ok late : bool) (p : Prober) : Prober :=
  let id := InstanceID (target r) in
  if cancelled r then set_runs (go n Gone) (markDone id n p)
  else if ok then set_runs (go n (Decided true)) (markDone id n p)
  else if late then set_runs (go n (Decided false)) (markDone id n p)
  else p.
Definition runStarting_end (n : nat) (r : startingRun) (ready : bool) (now : Z) (p : Prober) : Prober :=
  set_runs (go n Gone) (SetState (InstanceID (target r)) (if ready then StateReady else StateUnhealthy) now p).

(** ** The steady state *)

(** What one worker of [RunSteady] does with its probe's answer [ok]. *)
Definition steady_one (t : Target) (cur : string) (ok : bool) (now : Z) (p : Prober) : Prober :=
  let n := if ok then 0%Z else (default 0 (failures p !! InstanceID t) + 1)%Z in
  let p := MkProber (st p) (active p) (<[InstanceID t := n]> (failures p)) (ips p) (runs p) (next p) (notified p) in
  if ok && bool_decide (cur = StateUnhealthy) then SetState (InstanceID t) StateReady now p
  else if negb ok && bool_decide (cur = StateReady) && (unhealthyAfter <=? n)%Z
       then SetState (InstanceID t) StateUnhealthy now p
  else p.

(** [RunSteady], its workers one after the other (they touch different rows and
    counters), with the log of the answers. *)
Definition steady_state (states : gmap string string) (id : string) : string := default "" (states !! id).
Fixpoint steady_loop (w : world) (now : Z) (states : gmap string string) (ts : list Target) (p : Prober)
  : Prober * list (string * bool) :=
  match ts with
  | [] => (p, [])
  | t :: ts =>
      let cur := steady_state states (InstanceID t) in
      if Active (InstanceID t) p || negb (bool_decide (cur = StateReady) || bool_decide (cur = StateUnhealthy))
      then steady_loop w now states ts p
      else
        let '(ok, ips') := probe w (st p) (ips p) t in
        let p := MkProber (st p) (active p) (failures p) ips' (runs p) (next p) (notified p) in
        let '(p', log) := steady_loop w now states ts (steady_one t cur ok now p) in
        (p', (InstanceID t, ok) :: log)
  end.
Definition ready_states (db : DB) : gmap string string := r_service_ready <$> instances db.
Definition RunSteady (w : world) (now : Z) (ts : list Target) (p : Prober) : Prober * list (string * bool) :=
  steady_loop w now (ready_states (st p)) ts p.
End prober.

(** [New]. *)
Definition New (db : DB) : Prober := MkProber db ∅ ∅ ∅ ∅ 0 0.

(** ** The starting phase ends *)

(** The loop of one goroutine: [answer k] is what its [k]-th probe finds,
    [stop k] whether the run is cancelled by the end of it and [judged k] the
    time it ends; [None] when the fuel does not suffice. *)
Fixpoint starting_loop (fuel n : nat) (deadline : Z) (judged : nat -> Z) (answer stop : nat -> bool) (k : nat) (p : Prober)
  : option Prober :=
  match fuel with
  | 0 => None
  | S fuel =>
      let p := if stop k then set_runs (cancel n) p else p in
      match runs p !! n with
      | Some r =>
          let p := runStarting_turn n r (answer k) (deadline <? judged k)%Z p in
          match at_ <$> runs p !! n with
          | Some Probing => starting_loop fuel n deadline judged answer stop (S k) p
          | _ => Some p
          end
      | None => Some p
      end
  end.

(** The pace of the loop: the first probe begins at once, a probe takes at most
    [d] seconds, and the next one begins with the next tick: no sooner than its
    number of ticks, no later than one tick after the last probe ended. *)
Record paced (start d : Z) (began judged : nat -> Z) : Prop := {
  paced_first : began 0 = start;
  paced_probe k : (began k <= judged k <= began k + d)%Z;
  paced_ticks k : (start + startingInterval * Z.of_nat k <= began k)%Z;
  paced_next k : (judged k <= began (S k) <= judged k + startingInterval)%Z
}.

Lemma lookup_go n ph m r : m !! n = Some r -> go n ph m !! n = Some (MkRun (target r) (cancelled r) ph).
Proof. intros H. unfold go. by rewrite lookup_alter_eq, H. Qed.

Lemma markDone_same id n p : st (markDone id n p) = st p /\ runs (markDone id n p) = runs p /\ active (markDone id n p) !! id <> Some n.
Proof. unfold markDone. case_bool_decide as H; [|done]. cbn. by rewrite lookup_delete_eq. Qed.

Lemma lookup_cancel n m r : m !! n = Some r -> cancel n m !! n = Some (MkRun (target r) true (at_ r)).
Proof. intros H. unfold cancel. by rewrite lookup_alter_eq, H. Qed.

(** What a turn leaves when it ends the run. *)
Lemma turn_ends n r0 r p ok late : runs p !! n = Some r0 -> target r0 = target r ->
  (cancelled r || ok || late) = true ->
  let p' := runStarting_turn n r ok late p in
  runs p' !! n = Some (MkRun (target r) (cancelled r0) (if cancelled r then Gone else Decided ok)) /\
  active p' !! InstanceID (target r) <> Some n /\ st p' = st p.
Proof.
  intros Hr Ht He. destruct (markDone_same (InstanceID (target r)) n p) as (Hst & Hrs & Hact).
  cbv zeta. unfold runStarting_turn.
  assert (Hset : forall ph, runs (set_runs (go n ph) (markDone (InstanceID (target r)) n p)) !! n = Some (MkRun (target r) (cancelled r0) ph))
    by (intros ph; cbn [set_runs runs]; rewrite Hrs, (lookup_go n _ _ r0 Hr); by rewrite Ht).
  destruct (cancelled r), ok, late; try done; by rewrite Hset.
Qed.

(** C38: A starting instance is always judged.  When a probe takes at most [d]
    seconds, the goroutine of a run ends after at most [timeout / 5 s + 2]
    probes (362 for any valid configuration) and at most [5 s + d] after the
    timeout, and unregistered.  Unless the run was cancelled by then, which ends
    it without a verdict, it ends with ready exactly when its last probe, the
    first to pass, passed, and with unhealthy only after the timeout. *)
Theorem starting_decides p n r began judged answer stop start d :
  runs p !! n = Some r -> at_ r = Probing -> cancelled r = false ->
  Validate (t_Config (target r)) = Ok tt -> paced start d began judged ->
  exists k p',
    starting_loop 362 n (start + timeout (t_Config (target r))) judged answer stop 0 p = Some p' /\
    (Z.of_nat k <= timeout (t_Config (target r)) / startingInterval + 1)%Z /\
    (judged k <= start + timeout (t_Config (target r)) + startingInterval + d)%Z /\
    (forall j, j < k -> answer j = false /\ stop j = false) /\
    runs p' !! n = Some (MkRun (target r) (stop k) (if stop k then Gone else Decided (answer k))) /\
    active p' !! InstanceID (target r) <> Some n /\ st p' = st p /\
    (stop k = false -> answer k = false -> start + timeout (t_Config (target r)) < judged k)%Z.
Proof.
  intros Hr Hph Hc Hv [Hb0 Hpr Htk Hnx]. pose proof (timeout_bounds _ Hv) as Hb. unfold MinTimeoutSeconds, MaxTimeoutSeconds in Hb.
  set (T := timeout _) in *. unfold startingInterval in *.
  assert (Hend : forall fuel k,
    (stop k || answer k || (start + T <? judged k)%Z) = true ->
    exists p', starting_loop (S fuel) n (start + T) judged answer stop k p = Some p' /\
      runs p' !! n = Some (MkRun (target r) (stop k) (if stop k then Gone else Decided (answer k))) /\
      active p' !! InstanceID (target r) <> Some n /\ st p' = st p).
  { intros fuel k He. cbn [starting_loop].
    assert (Hr1 : runs (if stop k then set_runs (cancel n) p else p) !! n = Some (MkRun (target r) (stop k) Probing)).
    { destruct (stop k); [cbn; by rewrite (lookup_cancel _ _ _ Hr), Hph|]. rewrite Hr, <- Hph, <- Hc. by destruct r. }
    rewrite Hr1. destruct (turn_ends n _ (MkRun (target r) (stop k) Probing) _ (answer k) (start + T <? judged k)%Z Hr1 eq_refl He)
      as (H1 & H2 & H3). cbv zeta in H1, H2, H3. cbn [target cancelled] in H1, H2. rewrite H1. cbn [fmap option_fmap option_map at_].
    match type of H1 with runs ?q !! _ = _ => exists q end. split; [by destruct (stop k)|]. split; [exact H1|]. split; [exact H2|]. rewrite H3. by destruct (stop k). }
  assert (Hgen : forall fuel k0, (T / 5 + 1 <= Z.of_nat k0 + Z.of_nat fuel)%Z -> (Z.of_nat k0 <= T / 5 + 1)%Z ->
    (forall j, j < k0 -> answer j = false /\ stop j = false) -> (judged k0 <= start + T + 5 + d)%Z ->
    exists k p', starting_loop (S fuel) n (start + T) judged answer stop k0 p = Some p' /\ (Z.of_nat k <= T / 5 + 1)%Z /\
      (judged k <= start + T + 5 + d)%Z /\ (forall j, j < k -> answer j = false /\ stop j = false) /\
      runs p' !! n = Some (MkRun (target r) (stop k) (if stop k then Gone else Decided (answer k))) /\
      active p' !! InstanceID (target r) <> Some n /\ st p' = st p /\
      (stop k = false -> answer k = false -> start + T < judged k)%Z).
  { induction fuel as [|fuel IH]; intros k0 Hf Hk Hno Hj.
    all: destruct (stop k0 || answer k0 || (start + T <? judged k0)%Z) eqn:He;
      [edestruct (Hend) as (p' & ? & ? & ? & ?); [exact He|]; exists k0, p'; repeat (split; [done|]); intros Hs Ha;
       rewrite Hs, Ha in He; cbn in He; by apply Z.ltb_lt|].
    all: apply orb_false_iff in He as [[Hs Ha]%orb_false_iff Hl]; apply Z.ltb_ge in Hl.
    all: pose proof (Hpr k0); pose proof (Htk k0); assert (Z.of_nat k0 <= T / 5)%Z by (apply Z.div_le_lower_bound; lia).
    - lia.
    - assert (He : starting_loop (S (S fuel)) n (start + T) judged answer stop k0 p = starting_loop (S fuel) n (start + T) judged answer stop (S k0) p).
      { change (starting_loop (S (S fuel)) n (start + T) judged answer stop k0 p) with
          (let p := if stop k0 then set_runs (cancel n) p else p in
           match runs p !! n with
           | Some r => let p := runStarting_turn n r (answer k0) (start + T <? judged k0)%Z p in
               match at_ <$> runs p !! n with
               | Some Probing => starting_loop (S fuel) n (start + T) judged answer stop (S k0) p | _ => Some p end
           | None => Some p end).
        rewrite Hs. cbv zeta. rewrite Hr. unfold runStarting_turn. rewrite Hc, Ha.
        rewrite (proj2 (Z.ltb_ge _ _) Hl), Hr. cbn [fmap option_fmap option_map]. by rewrite Hph. }
      rewrite He. apply IH; [lia|lia| |].
      + intros j Hjk. destruct (decide (j = k0)) as [->|]; [done|]. apply Hno. lia.
      + pose proof (Hnx k0). pose proof (Hpr (S k0)). lia. }
  apply (Hgen 361 0); [|pose proof (Z.div_pos T 5); lia|lia|].
  - assert (T / 5 <= 360)%Z by (apply Z.div_le_upper_bound; lia). lia.
  - pose proof (Hpr 0). lia.
Qed.

(** ** Flapping *)

(** Probe failures since the last success. *)
Definition misses (os : list bool) : Z := fold_left (fun (n : Z) (ok : bool) => if ok then 0%Z else (n + 1)%Z) os 0%Z.
Definition answers (i : string) (log : list (string * bool)) : list bool :=
  map snd (filter (fun e : string * bool => e.1 = i) log).

(** The readiness a row shows and the counter of an instance. *)
Definition ready_of (p : Prober) (i : string) : option string := r_service_ready <$> instances (st p) !! i.
Definition count_of (p : Prober) (i : string) : Z := default 0%Z (failures p !! i).

Lemma SetState_frame id s now p :
  active (SetState id s now p) = active p /\ failures (SetState id s now p) = failures p /\
  runs (SetState id s now p) = runs p /\ next (SetState id s now p) = next p /\
  forall i, instances (st (SetState id s now p)) !! i =
    if decide (i = id) then (fun r => if decide (r_service_ready r = s) then r else
       IRow (r_template r) (r_runtime r) (r_version r) (r_desired r) (r_config r) (r_observed_state r)
      (r_observed_json r) (r_observed_at r) s (if bool_decide (s = StateReady) then Some now else None) (r_created r) (r_updated r))
      <$> instances (st p) !! i
    else instances (st p) !! i.
Proof.
  unfold SetState, GetInstance. destruct (instances (st p) !! id) as [r|] eqn:Hr.
  - cbn [ServiceReady readInstance]. case_bool_decide as Hs.
    + repeat split; try done. intros i. destruct (decide (i = id)) as [->|]; [|done]. rewrite Hr. cbn. by rewrite decide_True.
    + repeat split; try done. intros i. cbn. destruct (decide (i = id)) as [->|Hne].
      * rewrite lookup_alter_eq, Hr. cbn. by rewrite decide_False.
      * by rewrite lookup_alter_ne.
  - repeat split; try done. intros i. destruct (decide (i = id)) as [->|]; [|done]. by rewrite Hr.
Qed.

Lemma SetState_ready id s now p i :
  ready_of (SetState id s now p) i = if decide (i = id) then (fun _ => s) <$> ready_of p i else ready_of p i.
Proof.
  destruct (SetState_frame id s now p) as (_ & _ & _ & _ & H). unfold ready_of. rewrite H.
  destruct (decide (i = id)) as [->|]; [|done]. destruct (instances (st p) !! id) as [r|]; [|done]. cbn. by destruct (decide _) as [->|].
Qed.

(** One worker: the automaton of the flap rules. *)
Lemma steady_one_spec t cur ok now p :
  active (steady_one t cur ok now p) = active p /\
  (forall i, i <> InstanceID t -> ready_of (steady_one t cur ok now p) i = ready_of p i /\
                                  count_of (steady_one t cur ok now p) i = count_of p i) /\
  let n := if ok then 0%Z else (count_of p (InstanceID t) + 1)%Z in
  count_of (steady_one t cur ok now p) (InstanceID t) = n /\
  ready_of (steady_one t cur ok now p) (InstanceID t) =
    if ok && bool_decide (cur = StateUnhealthy) then (fun _ => StateReady) <$> ready_of p (InstanceID t)
    else if negb ok && bool_decide (cur = StateReady) && (unhealthyAfter <=? n)%Z
         then (fun _ => StateUnhealthy) <$> ready_of p (InstanceID t)
    else ready_of p (InstanceID t).
Proof.
  unfold steady_one. set (n := if ok then 0%Z else _). set (q := MkProber _ _ _ _ _ _ _). cbv zeta.
  change (if ok then 0%Z else (count_of p (InstanceID t) + 1)%Z) with n.
  assert (Hq : forall s, let q' := SetState (InstanceID t) s now q in
    active q' = active p /\ (forall i, i <> InstanceID t -> ready_of q' i = ready_of p i /\ count_of q' i = count_of p i) /\
    count_of q' (InstanceID t) = n /\ ready_of q' (InstanceID t) = (fun _ => s) <$> ready_of p (InstanceID t)).
  { intros s q'. destruct (SetState_frame (InstanceID t) s now q) as (Ha & Hf & _). fold q' in Ha, Hf.
    split; [by rewrite Ha|]. split.
    - intros i Hi. split; [unfold q'; rewrite SetState_ready, decide_False; done|].
      unfold count_of. rewrite Hf. cbn. by rewrite lookup_insert_ne.
    - split; [unfold count_of; rewrite Hf; cbn; by rewrite lookup_insert_eq|]. unfold q'. rewrite SetState_ready. by rewrite decide_True. }
  destruct (ok && _) eqn:H1; [destruct (Hq StateReady) as (? & ? & ? & ?); auto|].
  destruct (negb ok && _ && _) eqn:H2; [destruct (Hq StateUnhealthy) as (? & ? & ? & ?); auto|].
  split; [done|]. split; [|split; [unfold count_of; cbn; by rewrite lookup_insert_eq|done]].
  intros i Hi. split; [done|]. unfold count_of. cbn. by rewrite lookup_insert_ne.
Qed.

(** What a list of answers makes of an instance. *)
Definition judged (s : string) (n : Z) (os : list bool) : string * Z :=
  fold_left (fun '(s, n) (ok : bool) =>
    if ok then (StateReady, 0%Z)
    else (if bool_decide (s = StateReady) && (unhealthyAfter <=? n + 1)%Z then StateUnhealthy else s, (n + 1)%Z)) os (s, n).

Lemma judged_misses os s n : (0 <= n)%Z ->
  s = (if (n <? unhealthyAfter)%Z then StateReady else StateUnhealthy) ->
  judged s n os = (let m := fold_left (fun (n : Z) (ok : bool) => if ok then 0%Z else (n + 1)%Z) os n in
                   (if (m <? unhealthyAfter)%Z then StateReady else StateUnhealthy, m)).
Proof.
  revert s n. induction os as [|ok os IH]; intros s n Hn Hs; [by subst s|]. cbn [judged fold_left]. destruct ok; [by apply IH|].
  apply IH; [lia|]. subst s. destruct (Z.ltb_spec n unhealthyAfter); destruct (Z.leb_spec unhealthyAfter (n + 1));
    destruct (Z.ltb_spec (n + 1) unhealthyAfter); unfold unhealthyAfter in *; try lia; try done.
Qed.

Lemma judged_app s n os1 os2 : judged s n (os1 ++ os2) = judged (judged s n os1).1 (judged s n os1).2 os2.
Proof. unfold judged. rewrite fold_left_app. by destruct (fold_left _ os1 (s, n)). Qed.

(** Before the first success an unhealthy instance stays so. *)
Lemma judged_unhealthy os n : existsb (fun b : bool => b) os = false -> (judged StateUnhealthy n os).1 = StateUnhealthy.
Proof. revert n. induction os as [|[] os IH]; intros n; [done|done|]. cbn. apply IH. Qed.

Section passes.
Context (goos : string) (httpsPort : Z).

Lemma steady_loop_judged w now states ts p i s :
  NoDup (map InstanceID ts) -> active p !! i = None -> ready_of p i = Some s ->
  (i ∈ map InstanceID ts -> states !! i = Some s) -> s = StateReady \/ s = StateUnhealthy ->
  let '(p', log) := steady_loop goos httpsPort w now states ts p in
  active p' = active p /\
  (ready_of p' i, count_of p' i) = (Some (judged s (count_of p i) (answers i log)).1, (judged s (count_of p i) (answers i log)).2).
Proof.
  revert p s. induction ts as [|t ts IH]; intros p s Hnd Ha Hs Hst Hcase; [cbn; by rewrite Hs|].
  cbn [map] in Hnd, Hst. apply NoDup_cons in Hnd as [Hni Hnd]. cbn [steady_loop].
  destruct (Active (InstanceID t) p || negb _) eqn:Hskip.
  { apply IH; try done. intros Hin. apply Hst. set_solver. }
  apply orb_false_iff in Hskip as [_ Hset%negb_false_iff].
  destruct (probe goos httpsPort w (st p) (ips p) t) as [ok ips'].
  set (p1 := MkProber _ _ _ _ _ _ _). set (cur := steady_state states (InstanceID t)) in *.
  destruct (steady_one_spec t cur ok now p1) as (Hact & Hoth & Hcnt & Hrdy).
  destruct (decide (InstanceID t = i)) as [Hti|Hti].
  - (* this target; the rest does not touch it *)
    subst i. assert (Hcur : cur = s) by (unfold cur, steady_state; by rewrite Hst by set_solver).
    set (p2 := steady_one t cur ok now p1) in *.
    set (s2 := (judged s (count_of p (InstanceID t)) [ok]).1). set (n2 := (judged s (count_of p (InstanceID t)) [ok]).2).
    change (ready_of p1 (InstanceID t)) with (ready_of p (InstanceID t)) in Hrdy. rewrite Hs in Hrdy. cbn in Hrdy.
    change (count_of p1 (InstanceID t)) with (count_of p (InstanceID t)) in Hcnt, Hrdy.
    assert (H2 : ready_of p2 (InstanceID t) = Some s2 /\ count_of p2 (InstanceID t) = n2 /\ (s2 = StateReady \/ s2 = StateUnhealthy)).
    { unfold s2, n2. cbn. rewrite Hrdy, Hcnt, Hcur. destruct Hcase as [->| ->]; destruct ok; cbn; auto.
      destruct (unhealthyAfter <=? _)%Z; auto. }
    destruct H2 as (Hr2 & Hn2 & Hc2).
    specialize (IH p2 s2 Hnd). rewrite Hact in IH. specialize (IH Ha Hr2).
    destruct (steady_loop goos httpsPort w now states ts p2) as [p3 log]. destruct IH as [IHa IH]; [done|done|].
    split; [by rewrite IHa|]. rewrite IH, Hn2. unfold answers. cbn [filter list_filter fst]. rewrite decide_True by done.
    cbn [map snd]. change (ok :: ?l) with ([ok] ++ l). rewrite judged_app. done.
  - specialize (IH (steady_one t cur ok now p1) s Hnd). rewrite Hact in IH. specialize (IH Ha).
    destruct (Hoth i) as [Hr Hn]; [done|]. rewrite Hr in IH. specialize (IH Hs).
    destruct (steady_loop goos httpsPort w now states ts _) as [p3 log]. destruct IH as [IHa IH]; [|done|].
    { intros Hin. apply Hst. set_solver. }
    split; [by rewrite IHa|]. rewrite IH, Hn. unfold answers. cbn [filter list_filter fst]. by rewrite decide_False.
Qed.

(** A series of passes and the log of all its answers. *)
Fixpoint run_passes (ps : list (world * Z * list Target)) (p : Prober) : Prober * list (string * bool) :=
  match ps with
  | [] => (p, [])
  | (w, now, ts) :: ps =>
      let '(p1, log1) := RunSteady goos httpsPort w now ts p in
      let '(p2, log2) := run_passes ps p1 in (p2, log1 ++ log2)
  end.

Lemma run_passes_judged ps p i s :
  Forall (fun '(_, _, ts) => NoDup (map InstanceID ts)) ps -> active p !! i = None -> ready_of p i = Some s ->
  s = StateReady \/ s = StateUnhealthy ->
  let '(p', log) := run_passes ps p in
  ready_of p' i = Some (judged s (count_of p i) (answers i log)).1.
Proof.
  revert p s. induction ps as [|[[w now] ts] ps IH]; intros p s Hnd Ha Hs Hc; [done|]. apply Forall_cons in Hnd as [Hts Hnd].
  cbn [run_passes]. unfold RunSteady.
  assert (Hst : i ∈ map InstanceID ts -> ready_states (st p) !! i = Some s) by (intros _; unfold ready_states; by rewrite lookup_fmap).
  pose proof (steady_loop_judged w now (ready_states (st p)) ts p i s Hts Ha Hs Hst Hc) as H1.
  destruct (steady_loop _ _ _ _ _ _ _) as [p1 log1]. destruct H1 as [Ha1 H1]. injection H1 as Hs1 Hn1.
  assert (Hc1 : (judged s (count_of p i) (answers i log1)).1 = StateReady \/ (judged s (count_of p i) (answers i log1)).1 = StateUnhealthy).
  { clear -Hc. revert s Hc. generalize (count_of p i). induction (answers i log1) as [|ok os IHo]; intros n s Hc; [done|].
    cbn. destruct ok; [by apply IHo; left|]. apply IHo. destruct (bool_decide _ && _); auto. }
  specialize (IH p1 (judged s (count_of p i) (answers i log1)).1 Hnd). rewrite Ha1 in IH. specialize (IH Ha Hs1 Hc1). destruct (run_passes ps p1) as [p2 log2].
  rewrite IH, Hn1. unfold answers. by rewrite filter_app, map_app, judged_app.
Qed.

(** One slow answer does not flap.  Over any series of reconcile passes, a
    settled instance (whose counter was reset by its start) ends unhealthy
    exactly when it was ready and its last three or more probes failed, or it
    was unhealthy and no probe has passed yet or the last three or more
    failed; one passing probe makes it ready again. *)
Theorem steady_flap ps p i s :
  Forall (fun '(_, _, ts) => NoDup (map InstanceID ts)) ps -> active p !! i = None ->
  ready_of p i = Some s -> s = StateReady \/ s = StateUnhealthy -> failures p !! i = None ->
  let '(p', log) := run_passes ps p in
  ready_of p' i = Some (if (misses (answers i log) <? unhealthyAfter)%Z && (bool_decide (s = StateReady) || existsb (fun b : bool => b) (answers i log))
                        then StateReady else StateUnhealthy).
Proof.
  intros Hnd Ha Hs Hc Hf. pose proof (run_passes_judged ps p i s Hnd Ha Hs Hc) as H. destruct (run_passes ps p) as [p' log].
  rewrite H. f_equal. unfold count_of. rewrite Hf. cbn [default]. destruct Hc as [->| ->].
  - rewrite judged_misses by done. cbn. unfold misses. by destruct (_ <? _)%Z.
  - cbn [bool_decide]. destruct (existsb (fun b : bool => b) (answers i log)) eqn:He.
    + apply existsb_exists in He as (b & Hb%list_elem_of_In & Ht). apply list_elem_of_split in Hb as (l1 & l2 & Heq).
      destruct b; [|done]. unfold misses. rewrite Heq. change (true :: l2) with ([true] ++ l2). rewrite !judged_app, !fold_left_app.
      cbn. rewrite judged_misses by done. cbn. by destruct (_ <? _)%Z.
    + rewrite judged_unhealthy by done. by rewrite andb_false_r.
Qed.
End passes.

(** ** Interleavings

    The goroutines, the passes, the hook sink and every other method of the
    store, in any order.  [Begin] is two steps, and so is the end of a run: a
    run leaves the registry before its verdict is recorded. *)
Definition sets_ready (op : store_op) : bool := match op with OpSetServiceReady _ _ _ => true | _ => false end.

Inductive step : Prober -> Prober -> Prop :=
| s_begin p t : step p (Begin t p)
| s_begin_rest p n r now : runs p !! n = Some r -> at_ r = Fresh -> step p (Begin_rest n r now p)
| s_turn p n r ok late : runs p !! n = Some r -> at_ r = Probing -> step p (runStarting_turn n r ok late p)
| s_end p n r ready now : runs p !! n = Some r -> at_ r = Decided ready -> step p (runStarting_end n r ready now p)
| s_forget p id container : step p (Forget id container p)
| s_steady p goos port w now ts : step p (RunSteady goos port w now ts p).1
| s_hook p id state now : step p (SetState id state now p)
| s_reset p id : step p (set_st (SetServiceReady id "" None (st p)).2 p)
| s_store p op : sets_ready op = false -> step p (set_st (exec op (st p)) p).

Inductive reachable : Prober -> Prop :=
| r_new now : reachable (New (fresh_db now))
| r_step p p' : reachable p -> step p p' -> reachable p'.

(** A run that still drives its instance. *)
Definition driving (r : startingRun) : Prop := cancelled r = false /\ (at_ r = Fresh \/ at_ r = Probing).

(** The ready time is set exactly for ready instances. *)
Definition stamped (db : DB) : Prop :=
  map_Forall (fun _ r => is_Some (r_ready_at r) <-> r_service_ready r = StateReady) (instances db).

Record prober_ok (p : Prober) : Prop := {
  ok_registered : forall i n, active p !! i = Some n -> exists r, runs p !! n = Some r /\ InstanceID (target r) = i /\ driving r;
  ok_driving : forall n r, runs p !! n = Some r -> driving r -> active p !! InstanceID (target r) = Some n;
  ok_next : forall n r, runs p !! n = Some r -> n < next p;
  ok_stamped : stamped (st p)
}.

Definition row_stamped (r : instance_row) : Prop := is_Some (r_ready_at r) <-> r_service_ready r = StateReady.

Lemma stamped_alter f id db : (forall r, row_stamped r -> row_stamped (f r)) -> stamped db -> stamped (set_instances (alter f id) db).
Proof.
  intros Hf Hs i r. cbn. destruct (decide (i = id)) as [->|Hne].
  - rewrite lookup_alter_eq. intros (r0 & Hr & ->)%fmap_Some. apply Hf. by apply (Hs id).
  - rewrite lookup_alter_ne by done. apply Hs.
Qed.

Lemma SetState_stamped id s now p : stamped (st p) -> stamped (st (SetState id s now p)).
Proof.
  intros Hs. unfold SetState. destruct (GetInstance id (st p)); [|done]. case_bool_decide; [done|].
  apply stamped_alter; [|done]. intros r _. unfold row_stamped. cbn. case_bool_decide; split; naive_solver.
Qed.

(** The methods that touch the instance table. *)
Definition on_instances (op : store_op) : bool :=
  match op with OpUpsertInstance _ _ | OpDeleteInstance _ | OpSetObservedState _ _ _ _ | OpSetServiceReady _ _ _ => true | _ => false end.
Lemma exec_instances op db : on_instances op = false -> instances (exec op db) = instances db.
Proof.
  destruct op; intros Hop; try discriminate; try reflexivity; cbn [exec];
    unfold UpsertDomain, SetDomainBasicAuth, UpsertBinding, UpsertService, TryAcquireLock, ReleaseLock, CheckAndMarkNonce,
      EnsureInstanceSecret, CreateInstanceSecret, EnsureTemplateSecret, InsertAudit, ok, fail, write; by repeat case_match; simplify_eq/=.
Qed.

Lemma exec_stamped op db : sets_ready op = false -> stamped db -> stamped (exec op db).
Proof.
  intros Hop Hs. destruct (on_instances op) eqn:Hi; [|unfold stamped; by rewrite exec_instances].
  destruct op; try discriminate; cbn [exec].
  - unfold UpsertInstance, fail, write. destruct (_ || _); [done|]. destruct (negb _); [done|].
    intros i r. cbn. destruct (decide (i = ID inst)) as [->|]; [rewrite lookup_insert_eq|rewrite lookup_insert_ne by done; apply Hs].
    intros [= <-]. destruct (instances db !! ID inst) as [r0|] eqn:Hr; cbn; [by apply (Hs _ _ Hr)|]. by split; [intros []|].
  - intros i r. cbn. intros [_ Hr]%lookup_delete_Some. by apply (Hs i).
  - apply stamped_alter; [|done]. by intros r.
Qed.

(** Updating one run. *)
Lemma lookup_go_inv n ph m k r : go n ph m !! k = Some r ->
  exists r0, m !! k = Some r0 /\ target r = target r0 /\ cancelled r = cancelled r0 /\ at_ r = if decide (k = n) then ph else at_ r0.
Proof.
  unfold go. destruct (decide (k = n)) as [->|Hne].
  - rewrite lookup_alter_eq. intros (r0 & Hr & ->)%fmap_Some. by exists r0.
  - rewrite lookup_alter_ne by done. intros Hr. by exists r.
Qed.
Lemma lookup_cancel_inv n m k r : cancel n m !! k = Some r ->
  exists r0, m !! k = Some r0 /\ target r = target r0 /\ at_ r = at_ r0 /\ cancelled r = if decide (k = n) then true else cancelled r0.
Proof.
  unfold cancel. destruct (decide (k = n)) as [->|Hne].
  - rewrite lookup_alter_eq. intros (r0 & Hr & ->)%fmap_Some. by exists r0.
  - rewrite lookup_alter_ne by done. intros Hr. by exists r.
Qed.
Lemma lookup_cancel_ne n m k : k <> n -> cancel n m !! k = m !! k.
Proof. intros. unfold cancel. by rewrite lookup_alter_ne. Qed.
Lemma lookup_go_ne n ph m k : k <> n -> go n ph m !! k = m !! k.
Proof. intros. unfold go. by rewrite lookup_alter_ne. Qed.

(** The registry part of the invariant does not look at the rows. *)
Lemma prober_ok_frame p q : prober_ok p -> active q = active p -> runs q = runs p -> next q = next p -> stamped (st q) -> prober_ok q.
Proof. intros [H1 H2 H3 H4] Ha Hr Hn Hs. split; rewrite ?Ha, ?Hr, ?Hn; done. Qed.

(** A run that stops driving leaves the registry. *)
Lemma stop_ok p n r ph : prober_ok p -> runs p !! n = Some r -> (at_ r = Fresh \/ at_ r = Probing) -> (ph = Gone \/ exists b, ph = Decided b) ->
  prober_ok (set_runs (go n ph) (markDone (InstanceID (target r)) n p)).
Proof.
  intros [H1 H2 H3 H4] Hr Hat Hph. destruct (markDone_same (InstanceID (target r)) n p) as (Hst & Hrs & _).
  assert (Hact : forall i, active (markDone (InstanceID (target r)) n p) !! i =
    if decide (active p !! i = Some n) then None else active p !! i).
  { intros i. unfold markDone. case_bool_decide as Hc; cbn.
    - destruct (decide (i = InstanceID (target r))) as [->|Hne]; [by rewrite lookup_delete_eq, decide_True|].
      rewrite lookup_delete_ne by done. destruct (decide _) as [Hi|]; [|done].
      apply H1 in Hi as (r' & Hr' & Hid & _). congruence.
    - destruct (decide _) as [Hi|]; [|done]. pose proof (H1 _ _ Hi) as (r' & Hr' & Hid & _). assert (r' = r) as -> by congruence. congruence. }
  split; cbn [set_runs active runs st next].
  - intros i k. rewrite Hact. destruct (decide _) as [|Hne]; [done|]. intros Hi. rewrite Hrs, lookup_go_ne; [by apply H1|congruence].
  - intros k r' Hk [Hc Hd]. rewrite Hrs in Hk. apply lookup_go_inv in Hk as (r0 & Hr0 & Ht & Hcc & Hat').
    destruct (decide (k = n)) as [->|Hne]; [rewrite Hat' in Hd; destruct Hph as [->|[b ->]]; by destruct Hd|].
    rewrite Hact, Ht. assert (Ha : active p !! InstanceID (target r0) = Some k) by (apply (H2 k); [done|split; congruence]).
    rewrite Ha. rewrite decide_False by congruence. done.
  - intros k r' Hk. rewrite Hrs in Hk. apply lookup_go_inv in Hk as (r0 & Hr0 & _). unfold markDone.
    case_bool_decide; by apply (H3 k r0).
  - by rewrite Hst.
Qed.

Lemma steady_frame goos port w now states ts p :
  let p' := (steady_loop goos port w now states ts p).1 in
  active p' = active p /\ runs p' = runs p /\ next p' = next p /\ (stamped (st p) -> stamped (st p')).
Proof.
  revert p. induction ts as [|t ts IH]; intros p; [done|]. cbn [steady_loop]. destruct (Active _ _ || _); [apply IH|].
  destruct (probe _ _ _ _ _ _) as [ok ips']. set (p1 := MkProber _ _ _ _ _ _ _). set (p2 := steady_one _ _ _ _ p1).
  specialize (IH p2). destruct (steady_loop _ _ _ _ _ _ p2) as [p3 log]. cbn [fst] in *. destruct IH as (-> & -> & -> & Hs).
  assert (H2 : active p2 = active p /\ runs p2 = runs p /\ next p2 = next p /\ (stamped (st p) -> stamped (st p2))).
  { unfold p2, steady_one. set (q := MkProber _ _ _ _ _ _ _).
    assert (Hq : forall s, active (SetState (InstanceID t) s now q) = active p /\ runs (SetState (InstanceID t) s now q) = runs p /\
      next (SetState (InstanceID t) s now q) = next p /\ (stamped (st p) -> stamped (st (SetState (InstanceID t) s now q)))).
    { intros s. destruct (SetState_frame (InstanceID t) s now q) as (-> & _ & -> & -> & _). split; [done|]. split; [done|].
      split; [done|]. intros Hp. by apply SetState_stamped. }
    destruct (_ && _); [apply Hq|]. destruct (_ && _); [apply Hq|done]. }
  destruct H2 as (-> & -> & -> & ?). split; [done|]. split; [done|]. split; [done|auto].
Qed.

Lemma Begin_ok t p : prober_ok p -> prober_ok (Begin t p).
Proof.
  intros [H1 H2 H3 H4]. unfold Begin. case_bool_decide; [by split|]. set (rs := match active p !! InstanceID t with Some old => cancel old (runs p) | None => runs p end).
  assert (Hrs : forall k r, rs !! k = Some r -> exists r0, runs p !! k = Some r0 /\ target r = target r0 /\ (driving r -> driving r0 /\ InstanceID (target r0) <> InstanceID t)).
  { intros k r. unfold rs. destruct (active p !! InstanceID t) as [old|] eqn:Ho.
    - intros (r0 & Hr0 & Ht & Ha & Hc)%lookup_cancel_inv. exists r0. split; [done|]. split; [done|]. intros [Hc' Hd].
      destruct (decide (k = old)) as [->|]; [congruence|]. rewrite Ha in Hd. assert (driving r0) as Hdr by (split; congruence). split; [done|].
      intros Hid. specialize (H2 k r0 Hr0 Hdr). congruence.
    - intros Hr. exists r. split; [done|]. split; [done|]. intros Hd. split; [done|]. intros Hid. specialize (H2 k r Hr Hd). congruence. }
  assert (Hsame : forall i k, i <> InstanceID t -> active p !! i = Some k -> rs !! k = runs p !! k).
  { intros i k Hi Hk. unfold rs. destruct (active p !! InstanceID t) as [old|] eqn:Ho; [|done]. apply lookup_cancel_ne. intros ->.
    apply H1 in Hk as (r1 & E1 & I1 & _). apply H1 in Ho as (r2 & E2 & I2 & _). congruence. }
  split; cbn [active runs st next].
  - intros i k. destruct (decide (i = InstanceID t)) as [->|Hne].
    + rewrite lookup_insert_eq. intros [= <-]. exists (MkRun t false Fresh). rewrite lookup_insert_eq. split; [done|]. split; [done|]. split; [done|by left].
    + rewrite lookup_insert_ne by done. intros Hk. pose proof (H1 _ _ Hk) as (r & Hr & Hid & Hd). exists r.
      rewrite lookup_insert_ne by (specialize (H3 _ _ Hr); lia). by rewrite (Hsame i).
  - intros k r. destruct (decide (k = next p)) as [->|Hne].
    + rewrite lookup_insert_eq. intros [= <-] _. cbn. by rewrite lookup_insert_eq.
    + rewrite lookup_insert_ne by done. intros (r0 & Hr0 & -> & Hd)%Hrs Hdr. destruct (Hd Hdr) as [Hd0 Hid].
      rewrite lookup_insert_ne by done. by apply H2.
  - intros k r. destruct (decide (k = next p)) as [->|Hne]; [lia|]. rewrite lookup_insert_ne by done.
    intros (r0 & Hr0 & _)%Hrs. specialize (H3 _ _ Hr0). lia.
  - done.
Qed.

Lemma Forget_ok id container p : prober_ok p -> prober_ok (Forget id container p).
Proof.
  intros [H1 H2 H3 H4]. unfold Forget. split; cbn [active runs st next]; [| | |done].
  - intros i k [Hne Hk]%lookup_delete_Some. pose proof (H1 _ _ Hk) as (r & Hr & Hid & Hd). exists r. split; [|done].
    destruct (active p !! id) as [n|] eqn:Hn; [|done]. rewrite lookup_cancel_ne; [done|]. intros ->.
    apply H1 in Hn as (r2 & E2 & I2 & _). congruence.
  - intros k r Hk Hd. destruct (active p !! id) as [n|] eqn:Hn.
    + apply lookup_cancel_inv in Hk as (r0 & Hr0 & Ht & Ha & Hc). destruct Hd as [Hc' Hd]. destruct (decide (k = n)); [congruence|].
      rewrite Ht. assert (Hact : active p !! InstanceID (target r0) = Some k) by (apply H2; [done|split; congruence]).
      rewrite lookup_delete_ne; [done|]. congruence.
    + specialize (H2 k r Hk Hd). rewrite lookup_delete_ne; [done|]. congruence.
  - intros k r. destruct (active p !! id) as [n|]; [|apply H3]. intros (r0 & Hr0 & _)%lookup_cancel_inv. by apply (H3 k r0).
Qed.

Lemma Begin_rest_ok n r now p : prober_ok p -> runs p !! n = Some r -> at_ r = Fresh -> prober_ok (Begin_rest n r now p).
Proof.
  intros Hok Hr Hat. unfold Begin_rest. set (q := if cancelled r then p else _).
  assert (Hq : prober_ok q /\ runs q = runs p).
  { unfold q. destruct (cancelled r); [done|]. destruct (SetState_frame (InstanceID (target r)) StateStarting now p) as (Ha & _ & Hrs & Hn & _).
    split; [|done]. eapply prober_ok_frame; try done. apply SetState_stamped, Hok. }
  destruct Hq as [[H1 H2 H3 H4] Hrs]. split; cbn [set_runs active runs st next]; [| | |done].
  - intros i k Hk. pose proof (H1 _ _ Hk) as (r' & Hr' & Hid & Hd). destruct (decide (k = n)) as [->|Hne].
    + rewrite Hrs, (lookup_go n _ _ r Hr). rewrite Hrs in Hr'. assert (r' = r) as -> by congruence. eexists. split; [done|].
      cbn. split; [done|]. split; [by destruct Hd|by right].
    + rewrite lookup_go_ne by done. by exists r'.
  - intros k r' (r0 & Hr0 & Ht & Hc & Ha)%lookup_go_inv [Hd1 Hd2]. rewrite Ht. apply H2; [done|]. split; [congruence|].
    destruct (decide (k = n)) as [->|]; [|by rewrite <- Ha]. left. congruence.
  - intros k r' (r0 & Hr0 & _)%lookup_go_inv. by apply (H3 k r0).
Qed.

Lemma end_ok n r ready now p : prober_ok p -> runs p !! n = Some r -> at_ r = Decided ready -> prober_ok (runStarting_end n r ready now p).
Proof.
  intros Hok Hr Hat. unfold runStarting_end. set (q := SetState _ _ _ _).
  destruct (SetState_frame (InstanceID (target r)) (if ready then StateReady else StateUnhealthy) now p) as (Ha & _ & Hrs & Hn & _). fold q in Ha, Hrs, Hn.
  assert (Hq : prober_ok q) by (eapply prober_ok_frame; try done; apply SetState_stamped, Hok).
  destruct Hq as [H1 H2 H3 H4]. split; cbn [set_runs active runs st next]; [| | |done].
  - intros i k Hk. pose proof (H1 _ _ Hk) as (r' & Hr' & Hid & [Hd1 Hd2]). exists r'. rewrite lookup_go_ne; [done|]. intros ->.
    rewrite Hrs in Hr'. destruct Hd2; congruence.
  - intros k r' (r0 & Hr0 & Ht & Hc & Hat')%lookup_go_inv [Hd1 Hd2]. destruct (decide (k = n)) as [->|]; [rewrite Hat' in Hd2; by destruct Hd2|].
    rewrite Ht. apply H2; [done|]. split; [congruence|by rewrite <- Hat'].
  - intros k r' (r0 & Hr0 & _)%lookup_go_inv. by apply (H3 k r0).
Qed.

Lemma prober_step_ok p p' : prober_ok p -> step p p' -> prober_ok p'.
Proof.
  intros Hok Hstep. destruct Hstep as [p t|p n r now Hr Ha|p n r okb late Hr Ha|p n r ready now Hr Ha|p id c|p goos port w now ts|p id s now|p id|p op Hop].
  - by apply Begin_ok.
  - by apply Begin_rest_ok.
  - unfold runStarting_turn. destruct (cancelled r); [apply stop_ok; auto|]. destruct okb; [apply stop_ok; eauto|].
    destruct late; [apply stop_ok; eauto|done].
  - by apply end_ok.
  - by apply Forget_ok.
  - destruct (steady_frame goos port w now (ready_states (st p)) ts p) as (? & ? & ? & Hs). apply (prober_ok_frame p); try done. apply Hs, Hok.
  - destruct (SetState_frame id s now p) as (? & _ & ? & ? & _). apply (prober_ok_frame p); try done. apply SetState_stamped, Hok.
  - apply (prober_ok_frame p); try done. apply stamped_alter; [|apply Hok]. intros r _. by split; [intros []|].
  - apply (prober_ok_frame p); try done. apply exec_stamped; [done|apply Hok].
Qed.

(** In every interleaving of starts, probes, passes, stops, hooks and store
    methods, an instance has at most one goroutine that drives it, the one in
    the registry; a run that was replaced or forgotten never drives again; and
    a ready time is recorded exactly for the instances that are ready. *)
Theorem prober_invariant p :
  reachable p ->
  (forall n1 n2 r1 r2, runs p !! n1 = Some r1 -> runs p !! n2 = Some r2 -> driving r1 -> driving r2 ->
     InstanceID (target r1) = InstanceID (target r2) -> n1 = n2 /\ active p !! InstanceID (target r1) = Some n1) /\
  (forall i n, active p !! i = Some n -> exists r, runs p !! n = Some r /\ InstanceID (target r) = i /\ driving r) /\
  stamped (st p).
Proof.
  intros Hr. assert (prober_ok p) as [H1 H2 H3 H4] by (induction Hr; [by split|by eapply prober_step_ok]).
  split; [|done]. intros n1 n2 r1 r2 E1 E2 D1 D2 Hid. pose proof (H2 _ _ E1 D1) as A1. pose proof (H2 _ _ E2 D2) as A2.
  rewrite Hid in A1. split; congruence.
Qed.

(** ** Concrete runs *)
Definition demo_target : Target := MkTarget "app" "web" "obacht-app" 80 false (Some (MkConfig "/health" [] 30)).
Definition demo_new : Prober :=
  set_st (exec (OpUpsertInstance (MkInstance "app" "tpl" "container" "1" "installed" "{}" "" "" None "" None None None) 5) (fresh_db 0))
    (New (fresh_db 0)).
Definition demo_run (n : nat) (p : Prober) : startingRun := default (MkRun demo_target false Gone) (runs p !! n).
Definition demo_begun : Prober := Begin demo_target demo_new.
Definition demo_probing : Prober := Begin_rest 0 (demo_run 0 demo_begun) 6 demo_begun.
Definition demo_decided : Prober := runStarting_turn 0 (demo_run 0 demo_probing) true false demo_probing.
Definition demo_ready : Prober := runStarting_end 0 (demo_run 0 demo_decided) true 9 demo_decided.

Lemma demo_probing_reachable : reachable demo_probing.
Proof.
  eapply r_step; [eapply r_step; [eapply r_step; [apply (r_new 0)|]|]|].
  - by apply (s_store _ (OpUpsertInstance (MkInstance "app" "tpl" "container" "1" "installed" "{}" "" "" None "" None None None) 5)).
  - apply (s_begin _ demo_target).
  - by apply (s_begin_rest _ 0 (MkRun demo_target false Fresh) 6).
Qed.

Lemma demo_decided_reachable : reachable demo_decided.
Proof. eapply r_step; [apply demo_probing_reachable|]. by apply (s_turn _ 0 (MkRun demo_target false Probing) true false). Qed.

(** A verdict is recorded after the run has left the registry, so stopping the
    instance in between (forget, then reset) does not hold it back: the stopped
    instance ends as ready. *)
Definition demo_stopped : Prober :=
  let p := Forget "app" "obacht-app" demo_decided in set_st (SetServiceReady "app" "" None (st p)).2 p.
Example late_verdict :
  reachable (runStarting_end 0 (demo_run 0 demo_stopped) true 9 demo_stopped) /\
  ready_of demo_stopped "app" = Some "" /\ active demo_stopped !! "app" = None /\
  ready_of (runStarting_end 0 (demo_run 0 demo_stopped) true 9 demo_stopped) "app" = Some StateReady.
Proof.
  split; [|by vm_compute]. eapply r_step; [eapply r_step; [eapply r_step; [apply demo_decided_reachable|]|]|].
  - apply (s_forget _ "app" "obacht-app").
  - apply (s_reset _ "app").
  - by apply (s_end _ 0 (MkRun demo_target false (Decided true)) true 9).
Qed.

Lemma prober_invariant_witness : exists r, runs demo_probing !! 0 = Some r /\ InstanceID (target r) = "app" /\ driving r.
Proof.
  destruct (prober_invariant demo_probing) as (_ & H & _); [apply demo_probing_reachable|]. apply (H "app" 0). reflexivity.
Defined.

(** Probes of two seconds, the first at second 6, that fail three times; and
    the same run, cancelled before it succeeds. *)
Definition demo_began (k : nat) : Z := 6 + 5 * Z.of_nat k.
Definition demo_judged (k : nat) : Z := demo_began k + 2.
Lemma demo_paced : paced 6 2 demo_began demo_judged.
Proof. constructor; unfold demo_judged, demo_began, startingInterval; lia. Qed.
Lemma starting_decides_witness : Forall (fun cancel_at =>
  exists k p', starting_loop 362 0 (6 + 30) demo_judged (Nat.eqb 3) (Nat.eqb cancel_at) 0 demo_probing = Some p' /\
    runs p' !! 0 = Some (MkRun demo_target (cancel_at =? k) (if cancel_at =? k then Gone else Decided (3 =? k)))) [2; 5].
Proof.
  repeat constructor.
  - destruct (starting_decides demo_probing 0 (MkRun demo_target false Probing) demo_began demo_judged (Nat.eqb 3) (Nat.eqb 2) 6 2
      eq_refl eq_refl eq_refl eq_refl demo_paced) as (k & p' & Hl & _ & _ & _ & Hr & _). exists k, p'. exact (conj Hl Hr).
  - destruct (starting_decides demo_probing 0 (MkRun demo_target false Probing) demo_began demo_judged (Nat.eqb 3) (Nat.eqb 5) 6 2
      eq_refl eq_refl eq_refl eq_refl demo_paced) as (k & p' & Hl & _ & _ & _ & Hr & _). exists k, p'. exact (conj Hl Hr).
Defined.

(** Three refused probes in three passes, then an accepted one. *)
Definition demo_world (status : Z) : world :=
  MkWorld (fun _ _ => Some status)
    (Some (fun _ => Ok (Some [("State", AMap [("Running", ABool true)]);
                              ("NetworkSettings", AMap [("Networks", AMap [("obacht-edge", AMap [("IPAddress", AStr "172.18.0.2")])])])]))).
Definition demo_pass (now status : Z) : world * Z * list Target := (demo_world status, now, [demo_target]).

Lemma demo_nodup ps : Forall (fun '(_, _, ts) => NoDup (map InstanceID ts)) (map (fun s => demo_pass 40 s) ps).
Proof. apply Forall_map, Forall_forall. intros s _. apply NoDup_singleton. Qed.

Lemma steady_flap_witness :
  ready_of (run_passes "linux" 443 (map (demo_pass 40) [500%Z; 500%Z]) demo_ready).1 "app" = Some StateReady /\
  ready_of (run_passes "linux" 443 (map (demo_pass 40) [500%Z; 500%Z; 500%Z]) demo_ready).1 "app" = Some StateUnhealthy.
Proof.
  pose proof (fun ps Ha Hs Hf => steady_flap "linux" 443 _ demo_ready "app" StateReady (demo_nodup ps) Ha Hs (or_introl eq_refl) Hf) as H.
  pose proof (H [500%Z; 500%Z] eq_refl eq_refl eq_refl) as H2. pose proof (H [500%Z; 500%Z; 500%Z] eq_refl eq_refl eq_refl) as H3.
  clear H. split; [clear H3; vm_compute in H2 |- *; exact H2|clear H2; vm_compute in H3 |- *; exact H3].
Defined.
