(* ===== verification/Caddyfile.v ===== *)
(** * The rendered Caddyfile: internal/ingress/caddy.go

    [renderCaddyfile] builds the text of the edge proxy's configuration from the
    domains, bindings and services of the database, with a summary the manager
    writes back.  The second half relates the text to a plan (one site per valid
    domain, one directive at a time), reads the blocks back from the text alone
    ([blocks]) and shows what stored values cannot do to it.  [goos] and [gateway] are the build tag and the gateway address. *)

From S2P Require Import Prelude GoStrings Utf8 Json Store StoreProps BasicAuth.

(** Literal texts: [|] stands for a double quote, [~] for a tab, [$] for a line feed. *)
Fixpoint txt (s : string) : string :=
  match s with
  | "" => ""
  | String a s' => String (if Ascii.eqb a "|" then "034" else if Ascii.eqb a "~" then TAB
                           else if Ascii.eqb a "$" then LF else a)%char (txt s')
  end.

(** ** What is checked before it is rendered *)

Definition label_byte (c : ascii) : bool := is_alnum c || Ascii.eqb c "-".
Definition edge_ok (o : option ascii) : bool := match o with Some c => is_alnum c | None => false end.
Definition domain_label (l : string) : bool :=
  str_all label_byte l && (slen l <=? 63)%nat && edge_ok (String.get 0 l) && edge_ok (String.get (slen l - 1) l).

(** [domainRe]: at least two labels. *)
Definition domainRe (d : string) : bool :=
  forallb domain_label (split_on "." d) && (2 <=? length (split_on "." d))%nat.
Definition isValidDomain (d : string) : bool := (slen d <=? 253)%nat && domainRe d.

Definition path_byte (c : ascii) : bool := is_alnum c || mem_byte c "._~-".
Definition appPathRe (p : string) : bool :=
  match p with
  | String "/" r => match r with "" => true | String c r' => path_byte c && str_all (fun c => path_byte c || Ascii.eqb c "/") r' end
  | _ => false
  end.
Definition sanitizeAppPath (p : string) : string :=
  if emptyb p || (512 <? slen p)%nat || has_prefix p "//" || negb (appPathRe p) then "" else p.

Definition escape (s : string) : string := replace_all (replace_all s "\" "\\") (str1 "034") (String "\" (str1 "034")).

(** ** Upstreams *)
Inductive upstream_error := UnixSocket (instanceID : string) | UnknownTarget (targetType instanceID : string).

Section render.
Context (goos gateway : string) (quote : string -> string).   (* [quote] is [%q], for a target type no row has *)

Definition error_text (e : upstream_error) : string :=
  match e with
  | UnixSocket i => "unix_socket target not supported by ingress (instance " +:+ i +:+ ")"
  | UnknownTarget t i => "unknown target_type " +:+ quote t +:+ " for instance " +:+ i
  end.

Definition localPortUpstream (port : Z) : string :=
  if bool_decide (goos = "darwin") && negb (emptyb gateway) then gateway +:+ ":" +:+ itoa port
  else "host.docker.internal:" +:+ itoa port.

(** The target and the host port it needs (0 for none). *)
Definition upstreamFor (svc : InstanceService) (instanceID : string) : res upstream_error string * Z :=
  if bool_decide (TargetType svc = "host_port") then
    let hp := Target svc in
    if has_prefix hp "127.0.0.1:" || has_prefix hp "localhost:" then
      match cut hp ":" with
      | Some (_, port) =>
          match Atoi port with
          | Some p => if (0 <? p)%Z then (Ok (localPortUpstream p), p) else (Ok hp, 0%Z)
          | None => (Ok hp, 0%Z)
          end
      | None => (Ok hp, 0%Z)
      end
    else (Ok hp, 0%Z)
  else if bool_decide (TargetType svc = "docker_dns") then (Ok (Target svc), 0%Z)
  else if bool_decide (TargetType svc = "unix_socket") then (Err (UnixSocket instanceID), 0%Z)
  else (Err (UnknownTarget (TargetType svc) instanceID), 0%Z).

(** ** Rendering *)
Record IngressConfig := MkIngressConfig {
  Disabled : bool;
  Image : string;
  Network : string;
  HTTPPort : Z;
  HTTPSPort : Z;
  Containerized : bool
}.

Definition httpPort (c : IngressConfig) : Z := if (HTTPPort c =? 0)%Z then 80 else HTTPPort c.
Definition httpsPort (c : IngressConfig) : Z := if (HTTPSPort c =? 0)%Z then 443 else HTTPSPort c.

Record renderSummary := MkRenderSummary {
  totalDomains : Z;
  bound : Z;
  observed : gmap string string;
  lastErrors : gmap string string;
  localPorts : list Z
}.
Definition observe (d s : string) (m : renderSummary) : renderSummary :=
  MkRenderSummary (totalDomains m) (bound m) (<[d := s]> (observed m)) (lastErrors m) (localPorts m).
Definition last_error (d e : string) (m : renderSummary) : renderSummary :=
  MkRenderSummary (totalDomains m) (bound m) (observed m) (<[d := e]> (lastErrors m)) (localPorts m).
Definition one_more (m : renderSummary) : renderSummary :=
  MkRenderSummary (totalDomains m + 1) (bound m) (observed m) (lastErrors m) (localPorts m).
Definition one_bound (m : renderSummary) : renderSummary :=
  MkRenderSummary (totalDomains m) (bound m + 1) (observed m) (lastErrors m) (localPorts m).
Definition add_ports (ps : list Z) (m : renderSummary) : renderSummary :=
  MkRenderSummary (totalDomains m) (bound m) (observed m) (lastErrors m) (localPorts m ++ ps).

Definition startingErrorHTML : string := txt (
  "<!DOCTYPE html><html lang=|en|><head><meta charset=|utf-8|>" +:+
  "<meta name=|viewport| content=|width=device-width, initial-scale=1|>" +:+
  "<meta http-equiv=|refresh| content=|5|><title>Just a moment</title></head>" +:+
  "<body style=|margin:0;min-height:100vh;display:flex;align-items:center;justify-content:center;" +:+
  "background:#f6f6f2;color:#1a1a1a;font-family:-apple-system,BlinkMacSystemFont,Segoe UI,Helvetica,Arial,sans-serif;|>" +:+
  "<main style=|max-width:28rem;padding:2rem;text-align:center;|>" +:+
  "<h1 style=|font-size:1.5rem;font-weight:600;margin:0 0 .75rem;|>Just a moment</h1>" +:+
  "<p style=|margin:0;line-height:1.5;|>The app on this device is still starting. This page reloads on its own.</p>" +:+
  "</main></body></html>").

Definition startingErrorPage : string :=
  txt "~handle_errors 502 503 504 {$~~header Refresh 5$~~header Content-Type |text/html; charset=utf-8|$" +:+
  txt "~~respond `" +:+ startingErrorHTML +:+ txt "` {err.status_code}$~}$".

Definition reverseProxyBlock (indent upstream : string) : string :=
  indent +:+ "reverse_proxy " +:+ upstream +:+ txt " {$" +:+ indent +:+ txt "~lb_try_duration 5s$" +:+
  indent +:+ txt "~lb_try_interval 250ms$" +:+ indent +:+ txt "}$".

Definition svcKey (inst name : string) : string := inst +:+ "/" +:+ name.

Section maps.
Context (binds : gmap string IngressBinding) (svcs : gmap string InstanceService).

(** The binding's target, the host ports it adds and the app path; [None] when
    the service is not registered. *)
Definition resolve (bind : IngressBinding) : option (res upstream_error string * list Z * string) :=
  if (0 <? LocalPort bind)%Z then Some (Ok (localPortUpstream (LocalPort bind)), [LocalPort bind], "")
  else match svcs !! svcKey (B_InstanceID bind) (B_ServiceName bind) with
       | None => None
       | Some svc => let '(up, lp) := upstreamFor svc (B_InstanceID bind) in
                     Some (up, if (0 <? lp)%Z then [lp] else [], AppPath svc)
       end.

(** One turn of the loop: the text so far and the summary so far. *)
Definition render_domain (st : string * renderSummary) (d : Domain) : string * renderSummary :=
  let '(b, m) := st in
  let name := D_Domain d in
  if bool_decide (DesiredStatus d = DomainStatusRemoved) then (b, observe name DomainStatusRemoved m) else
  if negb (isValidDomain name) then
    (b, last_error name "domain name is not a valid hostname" (observe name DomainStatusError m)) else
  let m := one_more m in
  let b := b +:+ name +:+ txt " {$" in
  if negb (emptyb (BasicAuthHash d)) && (negb (ValidUsername (BasicAuthUser d)) || negb (ValidHash (BasicAuthHash d))) then
    (b +:+ txt "~respond |obacht: basic auth misconfigured for this domain| 503$}$$",
     last_error name "stored basic auth credentials are invalid; serving 503 until they are set again or removed"
       (observe name DomainStatusError m)) else
  let b := if emptyb (BasicAuthHash d) then b
           else b +:+ txt "~basic_auth {$~~" +:+ BasicAuthUser d +:+ " " +:+ BasicAuthHash d +:+ txt "$~}$" in
  match binds !! name with
  | None => (b +:+ txt "~respond |obacht: domain ready, no app bound yet| 200$" +:+ txt "}$$", observe name DomainStatusReady m)
  | Some bind =>
      match resolve bind with
      | None => (b +:+ txt "~respond |obacht: binding " +:+ B_InstanceID bind +:+ "/" +:+ B_ServiceName bind +:+
                   txt " has no registered service yet| 503$" +:+ txt "}$$", observe name DomainStatusReady m)
      | Some (up, ports, appPath) =>
          let m := add_ports ports m in
          match up with
          | Err e => (b +:+ txt "~respond |obacht: " +:+ escape (error_text e) +:+ txt "| 503$" +:+ txt "}$$",
                      observe name DomainStatusReady m)
          | Ok upstream =>
              let b := b +:+ startingErrorPage in
              let b := if bool_decide (Mode bind = "path") && negb (emptyb (PathPrefix bind)) then
                         b +:+ txt "~handle " +:+ PathPrefix bind +:+ txt "* {$" +:+ reverseProxyBlock (txt "~~") upstream +:+ txt "~}$"
                       else
                         let ap := sanitizeAppPath appPath in
                         let b := if emptyb ap then b else b +:+ txt "~redir / " +:+ ap +:+ txt "$" in
                         b +:+ reverseProxyBlock (txt "~") upstream in
              (b +:+ txt "}$$", observe name DomainStatusBound (one_bound m))
          end
      end
  end.
End maps.

Definition bindByDomain (bs : list IngressBinding) : gmap string IngressBinding :=
  fold_left (fun (m : gmap string IngressBinding) b => <[B_Domain b := b]> m) bs ∅.
Definition svcMap (ss : list InstanceService) : gmap string InstanceService :=
  fold_left (fun (m : gmap string InstanceService) s => <[svcKey (S_InstanceID s) (S_ServiceName s) := s]> m) ss ∅.

Definition domain_le (a b : Domain) : Prop := String.le (D_Domain a) (D_Domain b).
#[export] Instance domain_le_dec a b : Decision (domain_le a b).
Proof. unfold domain_le. apply _. Defined.

Definition preamble (cfg : IngressConfig) : string :=
  txt "# Generated by obacht-agent. Do not edit by hand.$" +:+ txt "{$~admin 0.0.0.0:2019$" +:+
  (if (httpPort cfg =? 80)%Z then "" else txt "~http_port " +:+ itoa (httpPort cfg) +:+ txt "$") +:+
  (if (httpsPort cfg =? 443)%Z then "" else txt "~https_port " +:+ itoa (httpsPort cfg) +:+ txt "$") +:+
  txt "}$$".

Definition no_domains (cfg : IngressConfig) : string :=
  ":" +:+ itoa (httpPort cfg) +:+ txt " {$~respond |obacht-agent: no domains configured| 200$}$".

Definition sorted_domains (db : DB) : list Domain := merge_sort domain_le (ListDomains db).

Definition renderCaddyfile (cfg : IngressConfig) (db : DB) : string * renderSummary :=
  let '(b, m) := fold_left (render_domain (bindByDomain (ListBindings db)) (svcMap (ListInstanceServices db)))
                   (sorted_domains db) (preamble cfg, MkRenderSummary 0 0 ∅ ∅ []) in
  (if (totalDomains m =? 0)%Z then b +:+ no_domains cfg else b, m).
End render.

(** ** The plan: sites of directives *)

(** Lines, each ended by a line feed. *)
Definition lines_text (ls : list string) : string := fold_right (fun l t => l +:+ str1 LF +:+ t) "" ls.

Inductive directive :=
| Respond (message status : string)
| BasicAuth (user hash : string)
| HandleErrors
| Redir (path : string)
| Proxy (upstream : string)
| HandlePath (prefix upstream : string).

Definition proxy_lines (indent upstream : string) : list string :=
  [indent +:+ "reverse_proxy " +:+ upstream +:+ " {"; indent +:+ txt "~lb_try_duration 5s";
   indent +:+ txt "~lb_try_interval 250ms"; indent +:+ "}"].

Definition directive_lines (d : directive) : list string :=
  match d with
  | Respond m s => [txt "~respond |" +:+ m +:+ txt "| " +:+ s]
  | BasicAuth u h => [txt "~basic_auth {"; txt "~~" +:+ u +:+ " " +:+ h; txt "~}"]
  | HandleErrors => [txt "~handle_errors 502 503 504 {"; txt "~~header Refresh 5";
                     txt "~~header Content-Type |text/html; charset=utf-8|";
                     txt "~~respond `" +:+ startingErrorHTML +:+ "` {err.status_code}"; txt "~}"]
  | Redir p => [txt "~redir / " +:+ p]
  | Proxy up => proxy_lines (txt "~") up
  | HandlePath p up => [txt "~handle " +:+ p +:+ "* {"] ++ proxy_lines (txt "~~") up ++ [txt "~}"]
  end.

Record site := MkSite { s_label : string; s_body : list directive }.
Definition site_lines (s : site) : list string :=
  [s_label s +:+ " {"] ++ flat_map directive_lines (s_body s) ++ ["}"; ""].

(** What a domain gets: its site, its observed status, the reason of an error,
    and the host ports it needs. *)
Record verdict := MkVerdict { v_site : option site; v_status : string; v_reason : option string; v_ports : list Z }.

Section plan.
Context (goos gateway : string) (quote : string -> string).
Context (binds : gmap string IngressBinding) (svcs : gmap string InstanceService).
Notation resolve := (resolve goos gateway svcs).
Notation render_domain := (render_domain goos gateway quote binds svcs).

(** The directives that serve the application. *)
Definition serve (bind : IngressBinding) (upstream appPath : string) : list directive :=
  HandleErrors ::
  (if bool_decide (Mode bind = "path") && negb (emptyb (PathPrefix bind)) then [HandlePath (PathPrefix bind) upstream]
   else (if emptyb (sanitizeAppPath appPath) then [] else [Redir (sanitizeAppPath appPath)]) ++ [Proxy upstream]).

Definition body_of (name : string) : list directive * string * list Z :=
  match binds !! name with
  | None => ([Respond "obacht: domain ready, no app bound yet" "200"], DomainStatusReady, [])
  | Some bind =>
      match resolve bind with
      | None => ([Respond ("obacht: binding " +:+ B_InstanceID bind +:+ "/" +:+ B_ServiceName bind +:+ " has no registered service yet") "503"],
                 DomainStatusReady, [])
      | Some (Err e, ports, _) => ([Respond ("obacht: " +:+ escape (error_text quote e)) "503"], DomainStatusReady, ports)
      | Some (Ok upstream, ports, appPath) => (serve bind upstream appPath, DomainStatusBound, ports)
      end
  end.

Definition protection (d : Domain) : option (list directive) :=
  if emptyb (BasicAuthHash d) then Some []
  else if ValidUsername (BasicAuthUser d) && ValidHash (BasicAuthHash d) then Some [BasicAuth (BasicAuthUser d) (BasicAuthHash d)]
  else None.

Definition plan (d : Domain) : verdict :=
  let name := D_Domain d in
  if bool_decide (DesiredStatus d = DomainStatusRemoved) then MkVerdict None DomainStatusRemoved None [] else
  if negb (isValidDomain name) then MkVerdict None DomainStatusError (Some "domain name is not a valid hostname") [] else
  match protection d with
  | None => MkVerdict (Some (MkSite name [Respond "obacht: basic auth misconfigured for this domain" "503"])) DomainStatusError
              (Some "stored basic auth credentials are invalid; serving 503 until they are set again or removed") []
  | Some auth => let '(body, status, ports) := body_of name in MkVerdict (Some (MkSite name (auth ++ body))) status None ports
  end.

Definition site_text (v : verdict) : string := match v_site v with Some s => lines_text (site_lines s) | None => "" end.
Definition count (b : bool) : Z := if b then 1 else 0.
Definition add_verdict (d : Domain) (v : verdict) (m : renderSummary) : renderSummary :=
  MkRenderSummary (totalDomains m + count (bool_decide (is_Some (v_site v))))
    (bound m + count (bool_decide (v_status v = DomainStatusBound)))
    (<[D_Domain d := v_status v]> (observed m))
    (match v_reason v with Some r => <[D_Domain d := r]> (lastErrors m) | None => lastErrors m end)
    (localPorts m ++ v_ports v).

Lemma lines_app l1 l2 : lines_text (l1 ++ l2) = lines_text l1 +:+ lines_text l2.
Proof. induction l1 as [|l l1 IH]; simpl; [done|]. by rewrite IH, !sapp_assoc. Qed.

(** Both sides to one chain of bytes and values. *)
Ltac same_text :=
  unfold site_text, startingErrorPage, reverseProxyBlock; cbn -[startingErrorHTML String.append txt];
  rewrite ?sapp_assoc, ?sapp_nil_r; reflexivity.
Ltac same_summary :=
  unfold add_verdict, observe, last_error, one_more, one_bound, add_ports; cbn; rewrite ?Z.add_0_r, ?app_nil_r; reflexivity.
Ltac same_step := apply pair_eq; split; [same_text|same_summary].

Lemma render_domain_plan b m d :
  render_domain (b, m) d = (b +:+ site_text (plan d), add_verdict d (plan d) m).
Proof.
  unfold render_domain, plan. destruct (bool_decide (DesiredStatus d = DomainStatusRemoved)) eqn:Hr.
  { apply bool_decide_eq_true in Hr. same_step. }
  destruct (isValidDomain (D_Domain d)); cbn [negb]; [|same_step].
  unfold protection, body_of.
  destruct (emptyb (BasicAuthHash d)); cbn [negb andb];
    [|destruct (ValidUsername (BasicAuthUser d)), (ValidHash (BasicAuthHash d)); cbn [negb andb orb];
      [|same_step..]];
  (destruct (binds !! D_Domain d) as [bind|]; [|same_step]);
  (destruct (resolve bind) as [[[[up|e] ports] appPath]|]; [|same_step..]);
  unfold serve; (destruct (bool_decide (Mode bind = "path") && negb (emptyb (PathPrefix bind)));
    [|destruct (emptyb (sanitizeAppPath appPath))]); same_step.
Qed.
End plan.

Section facts.
Context (goos gateway : string) (quote : string -> string).
Notation plan_of db := (plan goos gateway quote (bindByDomain (ListBindings db)) (svcMap (ListInstanceServices db))).

Definition sites (db : DB) : list site := omap (fun d => v_site (plan_of db d)) (sorted_domains db).

Lemma fold_plan db ds b m :
  fold_left (render_domain goos gateway quote (bindByDomain (ListBindings db)) (svcMap (ListInstanceServices db))) ds (b, m) =
  (b +:+ lines_text (flat_map site_lines (omap (fun d => v_site (plan_of db d)) ds)),
   fold_left (fun m d => add_verdict d (plan_of db d) m) ds m).
Proof.
  revert b m. induction ds as [|d ds IH]; intros b m; [cbn; by rewrite sapp_nil_r|].
  cbn [fold_left]. rewrite render_domain_plan, IH. f_equal. unfold site_text. cbn [omap list_omap].
  destruct (v_site (plan_of db d)); cbn [flat_map]; by rewrite ?lines_app, sapp_assoc.
Qed.

Lemma fold_total db ds m : totalDomains (fold_left (fun m d => add_verdict d (plan_of db d) m) ds m) =
  (totalDomains m + Z.of_nat (length (omap (fun d => v_site (plan_of db d)) ds)))%Z.
Proof.
  revert m. induction ds as [|d ds IH]; intros m; cbn [fold_left omap list_omap]; [simpl; lia|].
  rewrite IH. unfold add_verdict. cbn [totalDomains].
  destruct (v_site (plan_of db d)); simpl; rewrite ?bool_decide_eq_true_2, ?bool_decide_eq_false_2 by (eauto || by intros [? ?]); simpl; lia.
Qed.

Lemma ListDomains_names db : map D_Domain (ListDomains db) = keys_sorted (domains db).
Proof.
  unfold ListDomains. assert (Hall : Forall (fun k => is_Some (domains db !! k)) (keys_sorted (domains db))).
  { apply Forall_forall. intros k. unfold keys_sorted. rewrite elem_of_sort_strings, list_elem_of_fmap.
    intros ([k' r] & -> & Hin). apply elem_of_map_to_list in Hin. eauto. }
  induction Hall as [|k ks [r Hr] _ IH]; [done|]. cbn. rewrite Hr. cbn. by f_equal.
Qed.

Lemma keys_sorted_NoDup {V} (m : gmap string V) : NoDup (keys_sorted m).
Proof. unfold keys_sorted. rewrite sort_strings_perm. apply NoDup_fst_map_to_list. Qed.

Lemma sorted_names db : NoDup (map D_Domain (sorted_domains db)) /\
  forall x, x ∈ map D_Domain (sorted_domains db) <-> is_Some (domains db !! x).
Proof.
  assert (Hp : map D_Domain (sorted_domains db) ≡ₚ keys_sorted (domains db)).
  { rewrite <- ListDomains_names. unfold sorted_domains. by rewrite merge_sort_Permutation. }
  split; [rewrite Hp; apply keys_sorted_NoDup|].
  intros x. rewrite Hp. unfold keys_sorted. rewrite elem_of_sort_strings, list_elem_of_fmap. split.
  - intros ([k r] & -> & Hin). apply elem_of_map_to_list in Hin. eauto.
  - intros [r Hr]. exists (x, r). split; [done|]. by apply elem_of_map_to_list.
Qed.

Lemma elem_of_sorted db d : d ∈ sorted_domains db <-> exists r, domains db !! D_Domain d = Some r /\ d = readDomain (D_Domain d) r.
Proof.
  unfold sorted_domains. rewrite (merge_sort_Permutation domain_le (ListDomains db)).
  unfold ListDomains. rewrite list_elem_of_omap. split.
  - intros (k & Hk & Hd). destruct (domains db !! k) as [r|] eqn:Hr; [|done]. injection Hd as <-. cbn. eauto.
  - intros (r & Hr & Hd). exists (D_Domain d). rewrite Hr. split; [|cbn; by rewrite <- Hd].
    unfold keys_sorted. rewrite elem_of_sort_strings, list_elem_of_fmap. exists (D_Domain d, r).
    split; [done|]. by apply elem_of_map_to_list.
Qed.

Lemma fold_frame db ds m x : x ∉ map D_Domain ds ->
  observed (fold_left (fun m d => add_verdict d (plan_of db d) m) ds m) !! x = observed m !! x /\
  lastErrors (fold_left (fun m d => add_verdict d (plan_of db d) m) ds m) !! x = lastErrors m !! x.
Proof.
  revert m. induction ds as [|d ds IH]; intros m Hx; [done|]. cbn [fold_left map] in *.
  apply not_elem_of_cons in Hx as [Hd Hx]. destruct (IH (add_verdict d (plan_of db d) m) Hx) as [-> ->].
  unfold add_verdict. cbn [observed lastErrors]. destruct (v_reason (plan_of db d)); by rewrite ?lookup_insert_ne.
Qed.

Lemma fold_observed db ds m d : NoDup (map D_Domain ds) -> d ∈ ds -> (forall x, x ∈ map D_Domain ds -> lastErrors m !! x = None) ->
  observed (fold_left (fun m d => add_verdict d (plan_of db d) m) ds m) !! D_Domain d = Some (v_status (plan_of db d)) /\
  lastErrors (fold_left (fun m d => add_verdict d (plan_of db d) m) ds m) !! D_Domain d = v_reason (plan_of db d).
Proof.
  revert m. induction ds as [|d' ds IH]; intros m Hnd Hin Hm; [by apply not_elem_of_nil in Hin|].
  cbn [fold_left map] in *. apply NoDup_cons in Hnd as [Hx Hnd]. apply elem_of_cons in Hin as [->|Hin].
  - destruct (fold_frame db ds (add_verdict d' (plan_of db d') m) _ Hx) as [-> ->]. unfold add_verdict. cbn [observed lastErrors].
    rewrite lookup_insert_eq. split; [done|]. destruct (v_reason (plan_of db d')); [by rewrite lookup_insert_eq|].
    apply Hm. left.
  - apply IH; [done..|]. intros x Hxs. unfold add_verdict. cbn [lastErrors].
    destruct (v_reason (plan_of db d')); [rewrite lookup_insert_ne by congruence|]; apply Hm; by right.
Qed.

Lemma plan_label binds svcs d s : v_site (plan goos gateway quote binds svcs d) = Some s -> s_label s = D_Domain d.
Proof.
  unfold plan. destruct (bool_decide _); [done|]. destruct (negb _); [done|].
  destruct (protection d); [|by intros [= <-]]. destruct (body_of _ _ _ _ _ _) as [[? ?] ?]. by intros [= <-].
Qed.

Lemma plan_valid binds svcs d : DesiredStatus d <> DomainStatusRemoved -> isValidDomain (D_Domain d) = true ->
  exists s, v_site (plan goos gateway quote binds svcs d) = Some s.
Proof.
  intros Hd Hv. unfold plan. rewrite bool_decide_eq_false_2, Hv by done. cbn [negb].
  destruct (protection d); [destruct (body_of _ _ _ _ _ _) as [[? ?] ?]|]; cbn; eauto.
Qed.

Lemma labels_NoDup db : NoDup (map s_label (sites db)).
Proof.
  destruct (sorted_names db) as [Hnd _]. unfold sites. revert Hnd. generalize (sorted_domains db) as ds.
  induction ds as [|d ds IH]; intros Hnd; [by constructor|]. cbn [map] in Hnd. apply NoDup_cons in Hnd as [Hx Hnd].
  cbn [omap list_omap]. destruct (v_site (plan_of db d)) as [s|] eqn:Hs; [|by apply IH].
  cbn [map]. apply NoDup_cons. split; [|by apply IH]. rewrite (plan_label _ _ _ _ Hs).
  intros Hin. apply Hx. apply list_elem_of_fmap in Hin as (s' & Heq & Hin). apply list_elem_of_omap in Hin as (d' & Hin & Hs').
  rewrite Heq, (plan_label _ _ _ _ Hs'). apply list_elem_of_fmap. eauto.
Qed.

Lemma render_text cfg db : (renderCaddyfile goos gateway quote cfg db).1 =
  preamble cfg +:+ lines_text (flat_map site_lines (sites db)) +:+ (if decide (sites db = []) then no_domains cfg else "").
Proof.
  unfold renderCaddyfile. rewrite fold_plan. fold (sites db).
  assert (Htot := fold_total db (sorted_domains db) (MkRenderSummary 0 0 ∅ ∅ [])). fold (sites db) in Htot. rewrite Htot.
  destruct (sites db) as [|s ss]; [by rewrite decide_True, sapp_assoc|].
  rewrite decide_False by done. destruct (Z.eqb_spec (totalDomains (MkRenderSummary 0 0 ∅ ∅ []) + Z.of_nat (length (s :: ss))) 0) as [H|_];
    [simpl in H; lia|]. by rewrite sapp_nil_r.
Qed.

Lemma render_summary cfg db : (renderCaddyfile goos gateway quote cfg db).2 =
  fold_left (fun m d => add_verdict d (plan_of db d) m) (sorted_domains db) (MkRenderSummary 0 0 ∅ ∅ []).
Proof. unfold renderCaddyfile. by rewrite fold_plan. Qed.

Lemma render_observed cfg db x r : domains db !! x = Some r ->
  let v := plan_of db (readDomain x r) in let m := (renderCaddyfile goos gateway quote cfg db).2 in
  observed m !! x = Some (v_status v) /\ lastErrors m !! x = v_reason v.
Proof.
  intros Hr. cbn zeta. rewrite render_summary. destruct (sorted_names db) as [Hnd _].
  assert (Hin : readDomain x r ∈ sorted_domains db) by (apply elem_of_sorted; eauto).
  apply (fold_observed db _ (MkRenderSummary 0 0 ∅ ∅ []) _ Hnd Hin). intros. apply lookup_empty.
Qed.

(** The Caddyfile is the preamble and the sites of the plan, one per valid
    domain in name order; every domain of the database gets exactly the status
    and the reason of its plan. *)
Theorem renderCaddyfile_refines cfg db :
  let '(text, summary) := renderCaddyfile goos gateway quote cfg db in
  text = preamble cfg +:+ lines_text (flat_map site_lines (sites db)) +:+ (if decide (sites db = []) then no_domains cfg else "") /\
  NoDup (map s_label (sites db)) /\
  (forall x r, domains db !! x = Some r ->
    let v := plan_of db (readDomain x r) in
    observed summary !! x = Some (v_status v) /\ lastErrors summary !! x = v_reason v /\
    (isValidDomain x = true -> default (d_status r) (d_desired r) <> DomainStatusRemoved -> exists s, s ∈ sites db /\ s_label s = x)).
Proof.
  assert (Ht := render_text cfg db). assert (Hm := render_observed cfg db).
  destruct (renderCaddyfile _ _ _ cfg db) as [text m]. cbn [fst snd] in Ht, Hm.
  split; [done|]. split; [apply labels_NoDup|]. intros x r Hr. destruct (Hm x r Hr) as [Ho He].
  split; [done|]. split; [done|]. intros Hv Hd.
  destruct (plan_valid (bindByDomain (ListBindings db)) (svcMap (ListInstanceServices db)) (readDomain x r)) as [s Hs]; [done..|].
  exists s. split; [|by rewrite (plan_label _ _ _ _ Hs)]. apply list_elem_of_omap.
  exists (readDomain x r). split; [apply elem_of_sorted; eauto|done].
Qed.

(** The site planned for a domain with a password. *)
Lemma protected_site db x r st :
  domains db !! x = Some r -> d_auth_hash r <> "" -> st ∈ sites db -> s_label st = x ->
  (exists rest, s_body st = BasicAuth (d_auth_user r) (d_auth_hash r) :: rest /\
     ValidUsername (d_auth_user r) = true /\ ValidHash (d_auth_hash r) = true) \/
  s_body st = [Respond "obacht: basic auth misconfigured for this domain" "503"].
Proof.
  intros Hr Hh Hin Hl. unfold sites in Hin. apply list_elem_of_omap in Hin as (d & Hin & Hs).
  apply elem_of_sorted in Hin as (r' & Hr' & Hd). assert (Hx := plan_label _ _ _ _ Hs).
  rewrite <- Hx, Hl, Hr in Hr'. injection Hr' as <-. rewrite <- Hx, Hl in Hd. subst d.
  revert Hs. unfold plan. destruct (bool_decide _); [done|]. destruct (negb _); [done|].
  unfold protection. cbn [BasicAuthHash BasicAuthUser readDomain]. unfold emptyb. rewrite bool_decide_eq_false_2 by done.
  destruct (ValidUsername (d_auth_user r)), (ValidHash (d_auth_hash r)); cbn [andb];
    [destruct (body_of _ _ _ _ _ _) as [[? ?] ?]|..]; intros [= <-]; cbn [s_body app]; eauto 10.
Qed.
End facts.

(** ** Inert tokens and the lines of the text *)

(** The inside of a quoted token: no line feed, no quote without a backslash. *)
Fixpoint quoted (s : string) : bool :=
  match s with
  | "" => true
  | String "\" (String c s') => negb (Ascii.eqb c LF) && quoted s'
  | String "\" "" => false
  | String "034" _ => false
  | String c s' => negb (Ascii.eqb c LF) && quoted s'
  end.

Definition directive_ok (d : directive) : bool :=
  match d with
  | Respond m st => quoted m && token st
  | BasicAuth u h => token u && token h
  | HandleErrors => true
  | Redir p => token p
  | Proxy up => token up
  | HandlePath p up => token p && token up
  end.
Definition site_ok (s : site) : Prop := token (s_label s) = true /\ Forall (fun d => directive_ok d = true) (s_body s).

(** What the writers of bindings and services are expected to keep. *)
Definition rows_inert (db : DB) : Prop :=
  (forall x b, bindings db !! x = Some b -> bare (default "" (b_instance b)) = true /\ bare (default "" (b_service b)) = true /\ bare (b_prefix b) = true) /\
  (forall k s, services db !! k = Some s -> token (s_target s) = true /\ s_type s ∈ target_types).

Lemma bare_app s t : bare (s +:+ t) = bare s && bare t.
Proof. apply str_all_app. Qed.

Lemma bare_quoted s : bare s = true -> quoted s = true.
Proof.
  unfold bare. induction s as [|c s IH]; [done|]. cbn [str_all]. rewrite andb_true_iff. intros [Hc Hs]. specialize (IH Hs).
  destruct c as [[] [] [] [] [] [] [] []]; cbn in Hc |- *; done.
Qed.

Lemma quoted_app s t : bare s = true -> quoted t = true -> quoted (s +:+ t) = true.
Proof.
  unfold bare. induction s as [|c s IH]; [done|]. cbn [str_all]. rewrite andb_true_iff. intros [Hc Hs] Ht. specialize (IH Hs Ht).
  rewrite sapp_cons. destruct c as [[] [] [] [] [] [] [] []]; cbn in Hc |- *; done.
Qed.

(** [escape] makes any text without line feeds fit for the inside of a quoted token. *)
Lemma escape_cons a s : escape (String a s) =
  (if Ascii.eqb a "\" then "\\" else if Ascii.eqb a "034" then String "\" (str1 "034") else str1 a) +:+ escape s.
Proof.
  unfold escape. change "\" with (str1 "\"). rewrite replace_all_char, replace_all_app.
  destruct (Ascii.eqb_spec a "\") as [->|]; [done|]. change (str1 a) with (String a "").
  rewrite replace_all_char.
  by destruct (Ascii.eqb a "034").
Qed.

Lemma escape_quoted s : mem_byte LF s = false -> quoted (escape s) = true.
Proof.
  induction s as [|a s IH]; [done|]. cbn [mem_byte]. rewrite orb_false_iff. intros [Ha Hs]. rewrite escape_cons.
  specialize (IH Hs). destruct a as [[] [] [] [] [] [] [] []]; cbn in Ha |- *; done.
Qed.

Lemma bare_no_lf s : bare s = true -> mem_byte LF s = false.
Proof. apply str_all_not_mem. done. Qed.

Lemma quoted_no_lf s : quoted s = true -> mem_byte LF s = false.
Proof.
  induction s as [s IH] using (well_founded_induction (Wf_nat.well_founded_ltof _ slen)). destruct s as [|a s]; [done|].
  assert (Hsub : forall t, slen t <= slen s -> quoted t = true -> mem_byte LF t = false) by (intros t Ht; apply IH; unfold ltof; cbn; lia).
  destruct (Ascii.eqb_spec a "\") as [->|Hb].
  - destruct s as [|c s]; [done|]. cbn [quoted]. rewrite andb_true_iff, negb_true_iff. intros [Hc Hq].
    cbn [mem_byte]. rewrite Hc. apply Hsub; [cbn; lia|done].
  - intros Hq. assert (H : Ascii.eqb a LF = false /\ quoted s = true).
    { revert Hq Hb. clear. destruct a as [[] [] [] [] [] [] [] []]; cbn; try done; destruct s; done. }
    destruct H as [Ha Hs]. cbn [mem_byte]. rewrite Ha. by apply Hsub.
Qed.

(** *** The checks give tokens *)
Lemma bare_impl (p : ascii -> bool) s : (forall c, p c = true -> caddy_special c = false) -> str_all p s = true -> bare s = true.
Proof. apply token_inert. Qed.

Lemma bare_join c l : caddy_special c = false -> Forall (fun x => bare x = true) l -> bare (join (str1 c) l) = true.
Proof.
  intros Hc. induction 1 as [|x [|y l] Hx _ IH]; [done|done|].
  change (join (str1 c) (x :: y :: l)) with (x +:+ str1 c +:+ join (str1 c) (y :: l)).
  rewrite !bare_app, Hx, IH. cbn. by rewrite Hc.
Qed.

Lemma domain_token d : isValidDomain d = true -> token d = true.
Proof.
  unfold isValidDomain, domainRe. rewrite !andb_true_iff. intros [_ [Hl _]]. apply token_spec. split.
  - intros ->. done.
  - rewrite <- (join_split_on "." d). apply bare_join; [done|]. apply Forall_forall. intros x Hx.
    rewrite forallb_forall in Hl. specialize (Hl x). rewrite <- list_elem_of_In in Hl. specialize (Hl Hx).
    unfold domain_label in Hl. rewrite !andb_true_iff in Hl. destruct Hl as [[[Hl _] _] _].
    revert Hl. apply bare_impl. intros c. by destruct c as [[] [] [] [] [] [] [] []].
Qed.

Lemma app_path_token p : emptyb (sanitizeAppPath p) = false -> token (sanitizeAppPath p) = true.
Proof.
  unfold sanitizeAppPath. destruct (appPathRe p) eqn:Hre; [|by rewrite !orb_true_r]. destruct (_ || _); [done|].
  intros He. unfold token. unfold emptyb in He. rewrite He. unfold appPathRe in Hre. destruct p as [|a p]; [done|].
  destruct a as [[] [] [] [] [] [] [] []]; try done. unfold bare. cbn [str_all]. destruct p as [|c p]; [done|].
  apply andb_true_iff in Hre as [Hc Hp]. cbn [str_all negb andb].
  assert (Hpb : forall a, path_byte a = true -> negb (caddy_special a) = true) by (intros a; by destruct a as [[] [] [] [] [] [] [] []]).
  rewrite (Hpb _ Hc). cbn. revert Hp. apply str_all_impl. intros a. by destruct a as [[] [] [] [] [] [] [] []].
Qed.

Section inert.
Context (goos gateway : string) (quote : string -> string) (gateway_bare : bare gateway = true).

Lemma itoa_bare p : bare (itoa p) = true.
Proof. destruct (itoa_bytes p) as [Hi _]. revert Hi. apply bare_impl. intros c. by destruct c as [[] [] [] [] [] [] [] []]. Qed.

Lemma local_token p : token (localPortUpstream goos gateway p) = true.
Proof.
  assert (Hi := itoa_bare p). unfold localPortUpstream. apply token_spec. destruct (_ && _).
  - split; [intros [_ H]%sapp_eq_nil; done|]. by rewrite !bare_app, gateway_bare, Hi.
  - split; [done|]. by rewrite bare_app, Hi.
Qed.

Lemma fold_insert_in {A} (key : A -> string) (l : list A) k a :
  fold_left (fun (m : gmap string A) x => <[key x := x]> m) l ∅ !! k = Some a -> a ∈ l.
Proof.
  assert (H : forall m : gmap string A, fold_left (fun (m : gmap string A) x => <[key x := x]> m) l m !! k = Some a ->
    a ∈ l \/ m !! k = Some a).
  { induction l as [|x l IH]; intros m; cbn [fold_left]; [by right|]. intros [Hin|Hm]%IH; [left; by right|].
    apply lookup_insert_Some in Hm as [[_ <-]|[_ Hm]]; [left; by left|by right]. }
  intros Hs. destruct (H ∅ Hs) as [?|Hn]; [done|]. by rewrite lookup_empty in Hn.
Qed.

Lemma bound_row db x b : bindByDomain (ListBindings db) !! x = Some b ->
  exists y r, bindings db !! y = Some r /\ b = readBinding y r.
Proof.
  intros Hb. apply fold_insert_in in Hb. unfold ListBindings in Hb. apply list_elem_of_omap in Hb as (y & _ & Hy).
  destruct (bindings db !! y) as [r|] eqn:Hr; [|done]. injection Hy as <-. eauto.
Qed.

Lemma service_row_of db k s : svcMap (ListInstanceServices db) !! k = Some s ->
  exists y r, services db !! y = Some r /\ s = readService y r.
Proof.
  intros Hs. apply fold_insert_in in Hs. unfold ListInstanceServices in Hs.
  apply list_elem_of_fmap in Hs as ([y r] & -> & Hy). apply elem_of_map_to_list in Hy. eauto.
Qed.

Lemma resolve_ok db bind r ports app : rows_inert db -> bare (B_InstanceID bind) = true ->
  resolve goos gateway (svcMap (ListInstanceServices db)) bind = Some (r, ports, app) ->
  match r with Ok up => token up = true | Err e => quoted (escape (error_text quote e)) = true end.
Proof.
  intros [_ Hs] Hi. unfold resolve. destruct (0 <? LocalPort bind)%Z; [intros [= <- _ _]; apply local_token|].
  destruct (svcMap _ !! _) as [svc|] eqn:Hsvc; [|done]. apply service_row_of in Hsvc as (y & row & Hrow & ->).
  destruct (Hs _ _ Hrow) as [Ht Hty]. unfold upstreamFor. cbn [TargetType Target readService].
  destruct (bool_decide (s_type row = "host_port")) eqn:H1.
  { destruct (_ || _); [|intros [= <- _ _]; done]. destruct (cut _ _) as [[? port]|]; [|intros [= <- _ _]; done].
    destruct (Atoi port) as [p|]; [|intros [= <- _ _]; done].
    destruct (0 <? p)%Z; intros [= <- _ _]; [apply local_token|done]. }
  destruct (bool_decide (s_type row = "docker_dns")) eqn:H2; [intros [= <- _ _]; done|].
  destruct (bool_decide (s_type row = "unix_socket")) eqn:H3; intros [= <- _ _].
  - apply escape_quoted. cbn [error_text]. rewrite !mem_byte_app, (bare_no_lf _ Hi). done.
  - exfalso. apply bool_decide_eq_false in H1, H2, H3. unfold target_types in Hty. set_solver.
Qed.

Lemma binding_message i n : bare i = true -> bare n = true ->
  quoted ("obacht: binding " +:+ i +:+ "/" +:+ n +:+ " has no registered service yet") = true.
Proof.
  intros Hi Hn. change (quoted (i +:+ String "/" (n +:+ " has no registered service yet")) = true).
  apply quoted_app; [done|]. cbn. by apply quoted_app.
Qed.

Lemma serve_ok bind up app : token up = true -> bare (PathPrefix bind) = true ->
  Forall (fun d => directive_ok d = true) (serve bind up app).
Proof.
  intros Hup Hp. unfold serve. constructor; [done|]. destruct (bool_decide _ && negb _) eqn:Hb.
  - apply andb_true_iff in Hb as [_ He]. repeat constructor. cbn. rewrite Hup, andb_true_r. unfold token. fold (emptyb (PathPrefix bind)). by rewrite He, Hp.
  - apply Forall_app. split; [|by repeat constructor]. destruct (emptyb (sanitizeAppPath app)) eqn:He; repeat constructor. by apply app_path_token.
Qed.

Lemma body_ok db name : rows_inert db ->
  Forall (fun d => directive_ok d = true)
    (body_of goos gateway quote (bindByDomain (ListBindings db)) (svcMap (ListInstanceServices db)) name).1.1.
Proof.
  intros Hrows. unfold body_of. destruct (bindByDomain _ !! name) as [bind|] eqn:Hb; [|by repeat constructor].
  apply bound_row in Hb as (y & row & Hrow & ->). destruct Hrows as [Hbs Hss]. destruct (Hbs _ _ Hrow) as (Hi & Hn & Hp).
  destruct (resolve _ _ _ _) as [[[r ports] app]|] eqn:Hr.
  - assert (Hok := resolve_ok db (readBinding y row) r ports app (conj Hbs Hss) Hi Hr). destruct r as [up|e]; cbn [fst].
    + by apply serve_ok.
    + repeat constructor. apply andb_true_iff. split; [|done]. exact Hok.
  - repeat constructor. apply andb_true_iff. split; [|done]. by apply binding_message.
Qed.

Lemma plan_ok db d st : rows_inert db ->
  v_site (plan goos gateway quote (bindByDomain (ListBindings db)) (svcMap (ListInstanceServices db)) d) = Some st -> site_ok st.
Proof.
  intros Hrows. unfold plan. destruct (bool_decide _); [done|]. destruct (isValidDomain _) eqn:Hv; [|done]. cbn [negb].
  apply domain_token in Hv. unfold protection. assert (Hbody := body_ok db (D_Domain d) Hrows).
  destruct (body_of _ _ _ _ _ _) as [[body status] ports]. cbn [fst] in Hbody.
  destruct (emptyb (BasicAuthHash d)); [intros [= <-]; by split|].
  destruct (ValidUsername (BasicAuthUser d)) eqn:Hu; [destruct (ValidHash (BasicAuthHash d)) eqn:Hh|];
    cbn [andb]; intros [= <-]; (split; [done|]); repeat constructor; [|done].
  cbn [directive_ok]. by rewrite (user_token _ Hu), (hash_token _ Hh).
Qed.
End inert.

(** *** Lines *)
Definition indented (l : string) : bool := has_prefix l (str1 TAB).
(** The lines of a text that open or close a block of the file. *)
Definition top_lines (text : string) : list string := List.filter (fun l => negb (indented l)) (split_on LF text).

Definition line_ok (l : string) : Prop := mem_byte LF l = false.
Definition nested (l : string) : Prop := line_ok l /\ indented l = true.

Lemma split_lines ls : Forall line_ok ls -> split_on LF (lines_text ls) = ls ++ [""].
Proof.
  induction 1 as [|l ls Hl _ IH]; [done|]. cbn [lines_text fold_right app].
  change (str1 LF +:+ _) with (String LF (lines_text ls)). by rewrite split_on_cons, IH.
Qed.

Lemma proxy_nested ind up : mem_byte LF ind = false -> indented (ind +:+ " ") = true -> token up = true -> Forall nested (proxy_lines ind up).
Proof.
  intros Hi Ht [_ Hb%bare_no_lf]%token_spec.
  assert (Hind : forall t, indented (ind +:+ t) = true).
  { intros t. unfold indented in *. destruct ind as [|a ind]; [done|]. cbn in *. destruct (Ascii.eqb a TAB); [|done].
    by destruct (ind +:+ t). }
  unfold proxy_lines. repeat constructor; try apply Hind; unfold line_ok; by rewrite !mem_byte_app, ?Hi, ?Hb.
Qed.

Lemma directive_nested d : directive_ok d = true -> Forall nested (directive_lines d).
Proof.
  destruct d; cbn [directive_ok directive_lines]; rewrite ?andb_true_iff; intros H.
  - destruct H as [Hm%quoted_no_lf [_ Hs%bare_no_lf]%token_spec]. repeat constructor. unfold line_ok. by rewrite !mem_byte_app, Hm, Hs.
  - destruct H as [[_ Hu%bare_no_lf]%token_spec [_ Hh%bare_no_lf]%token_spec]. repeat constructor. unfold line_ok. by rewrite !mem_byte_app, Hu, Hh.
  - repeat constructor.
  - apply token_spec in H as [_ H%bare_no_lf]. repeat constructor. unfold line_ok. by rewrite !mem_byte_app, H.
  - by apply proxy_nested.
  - destruct H as [[_ Hp%bare_no_lf]%token_spec Hup]. apply Forall_app. split; [|apply Forall_app; split].
    + repeat constructor. unfold line_ok. by rewrite !mem_byte_app, Hp.
    + by apply proxy_nested.
    + repeat constructor.
Qed.

Lemma top_lines_text ls : Forall line_ok ls -> top_lines (lines_text ls) = List.filter (fun l => negb (indented l)) ls ++ [""].
Proof. intros H. unfold top_lines. by rewrite split_lines, List.filter_app. Qed.

Lemma filter_nested ls : Forall nested ls -> List.filter (fun l => negb (indented l)) ls = [].
Proof. induction 1 as [|l ls [_ Hi] _ IH]; [done|]. cbn. by rewrite Hi. Qed.

Lemma nested_line ls : Forall nested ls -> Forall line_ok ls.
Proof. intros H. apply (Forall_impl _ _ _ H). by intros l [? _]. Qed.

Lemma body_nested ds : Forall (fun d => directive_ok d = true) ds -> Forall nested (flat_map directive_lines ds).
Proof. induction 1 as [|d ds Hd _ IH]; [by constructor|]. apply Forall_app. split; [by apply directive_nested|done]. Qed.

Lemma label_line l : token l = true -> line_ok (l +:+ " {") /\ indented (l +:+ " {") = false.
Proof.
  intros [Hne Hb]%token_spec. split; [unfold line_ok; by rewrite mem_byte_app, (bare_no_lf _ Hb)|].
  destruct l as [|c l]; [done|]. unfold bare in Hb. cbn [str_all] in Hb. apply andb_true_iff in Hb as [Hc _].
  unfold indented. rewrite sapp_cons, has_prefix_str1. by destruct c as [[] [] [] [] [] [] [] []].
Qed.

Definition top_of (s : site) : list string := [s_label s +:+ " {"; "}"; ""].

Lemma sites_lines ss : Forall site_ok ss -> Forall line_ok (flat_map site_lines ss) /\
  List.filter (fun l => negb (indented l)) (flat_map site_lines ss) = flat_map top_of ss.
Proof.
  induction 1 as [|s ss [Hl Hb] _ [IH1 IH2]]; [by split|]. cbn [flat_map].
  destruct (label_line _ Hl) as [Hlo Hli]. assert (Hn := body_nested _ Hb). split.
  - unfold site_lines. cbn [app]. constructor; [done|]. rewrite <- app_assoc. apply Forall_app.
    split; [by apply nested_line|]. by repeat constructor.
  - rewrite List.filter_app, IH2. f_equal. unfold site_lines, top_of. rewrite !List.filter_app, (filter_nested _ Hn).
    cbn [List.filter]. by rewrite Hli.
Qed.

Definition preamble_lines (cfg : IngressConfig) : list string :=
  ["# Generated by obacht-agent. Do not edit by hand."; "{"; txt "~admin 0.0.0.0:2019"] ++
  (if (httpPort cfg =? 80)%Z then [] else [txt "~http_port " +:+ itoa (httpPort cfg)]) ++
  (if (httpsPort cfg =? 443)%Z then [] else [txt "~https_port " +:+ itoa (httpsPort cfg)]) ++ ["}"; ""].
Definition no_domains_lines (cfg : IngressConfig) : list string :=
  [":" +:+ itoa (httpPort cfg) +:+ " {"; txt "~respond |obacht-agent: no domains configured| 200"; "}"].

Lemma itoa_no_lf z : mem_byte LF (itoa z) = false.
Proof. destruct (itoa_bytes z) as [H _]. revert H. by apply str_all_not_mem. Qed.

Lemma preamble_text cfg : preamble cfg = lines_text (preamble_lines cfg).
Proof.
  unfold preamble, preamble_lines. destruct (httpPort cfg =? 80)%Z, (httpsPort cfg =? 443)%Z; cbn -[String.append txt itoa];
    rewrite ?sapp_assoc, ?sapp_nil_l, ?sapp_nil_r; reflexivity.
Qed.
Lemma no_domains_text cfg : no_domains cfg = lines_text (no_domains_lines cfg).
Proof. unfold no_domains, no_domains_lines. cbn -[String.append txt itoa]. rewrite ?sapp_assoc. reflexivity. Qed.

Lemma preamble_top cfg : Forall line_ok (preamble_lines cfg) /\
  List.filter (fun l => negb (indented l)) (preamble_lines cfg) = ["# Generated by obacht-agent. Do not edit by hand."; "{"; "}"; ""].
Proof.
  unfold preamble_lines. destruct (httpPort cfg =? 80)%Z, (httpsPort cfg =? 443)%Z; (split;
    [cbn [app]; repeat constructor; unfold line_ok; rewrite mem_byte_app, itoa_no_lf; done|reflexivity]).
Qed.

Lemma sites_ok goos gateway quote db : bare gateway = true -> rows_inert db -> Forall site_ok (sites goos gateway quote db).
Proof. intros Hg Hrows. apply Forall_forall. intros s Hs. apply list_elem_of_omap in Hs as (d & _ & Hd). by eapply plan_ok. Qed.


(** ** The blocks of the text *)

(** The label of an unindented line that opens a block. *)
Definition label_of (l : string) : option string :=
  if negb (indented l) && bool_decide (sdrop (slen l - 2) l = " {") then Some (stake (slen l - 2) l) else None.
(** A reader of the text: each block is its label and the lines up to the
    unindented closing brace. *)
Fixpoint read_blocks (cur : option (string * list string)) (ls : list string) : list (string * list string) :=
  match ls with
  | [] => []
  | l :: ls =>
      match cur with
      | Some (lab, body) => if bool_decide (l = "}") then (lab, body) :: read_blocks None ls else read_blocks (Some (lab, body ++ [l])) ls
      | None => match label_of l with Some lab => read_blocks (Some (lab, [])) ls | None => read_blocks None ls end
      end
  end.
Definition blocks (text : string) : list (string * list string) := read_blocks None (split_on LF text).

Lemma label_of_line l : token l = true -> label_of (l +:+ " {") = Some l.
Proof.
  intros Ht. destruct (label_line _ Ht) as [_ Hi]. unfold label_of. rewrite Hi, slen_app. cbn [slen negb andb].
  replace (slen l + 2 - 2) with (slen l) by lia. by rewrite sdrop_app, stake_app.
Qed.

Lemma read_nested lab acc ls rest : Forall nested ls -> read_blocks (Some (lab, acc)) (ls ++ "}" :: rest) = (lab, acc ++ ls) :: read_blocks None rest.
Proof.
  intros H. revert acc. induction H as [|l ls [_ Hl] _ IH]; intros acc; cbn [app read_blocks].
  - by rewrite bool_decide_eq_true_2, app_nil_r.
  - rewrite bool_decide_eq_false_2 by (by intros ->). by rewrite IH, <- app_assoc.
Qed.

Lemma read_sites ss rest : Forall site_ok ss ->
  read_blocks None (flat_map site_lines ss ++ rest) =
  map (fun s => (s_label s, flat_map directive_lines (s_body s))) ss ++ read_blocks None rest.
Proof.
  induction 1 as [|s ss [Hl Hb] _ IH]; [done|]. cbn [flat_map map app]. unfold site_lines at 1.
  cbn [app read_blocks]. rewrite (label_of_line _ Hl), <- !app_assoc. cbn [app].
  rewrite (read_nested _ [] _ _ (body_nested _ Hb)). cbn [app]. f_equal. exact IH.
Qed.

Lemma read_preamble cfg rest : read_blocks None (preamble_lines cfg ++ rest) = read_blocks None rest.
Proof. unfold preamble_lines. destruct (httpPort cfg =? 80)%Z, (httpsPort cfg =? 443)%Z; reflexivity. Qed.

(** The label of the block for no domains is no domain. *)
Lemma port_no_domain z : isValidDomain (":" +:+ itoa z) = false.
Proof.
  unfold isValidDomain, domainRe. rewrite split_on_no_sep; [by rewrite ?andb_false_r|].
  cbn. destruct (itoa_bytes z) as [H _]. revert H. by apply str_all_not_mem.
Qed.

(** What a reader finds in the rendered text. *)
Lemma Caddyfile_blocks goos gateway quote cfg db : bare gateway = true -> rows_inert db ->
  blocks (renderCaddyfile goos gateway quote cfg db).1 =
  map (fun s => (s_label s, flat_map directive_lines (s_body s))) (sites goos gateway quote db) ++
  (if decide (sites goos gateway quote db = []) then [(":" +:+ itoa (httpPort cfg), [txt "~respond |obacht-agent: no domains configured| 200"])] else []).
Proof.
  intros Hg Hrows. assert (Hok := sites_ok goos gateway quote db Hg Hrows).
  unfold blocks. rewrite render_text, preamble_text. destruct (sites_lines _ Hok) as [Hl1 _], (preamble_top cfg) as [Hp1 _].
  assert (Hcl : token (":" +:+ itoa (httpPort cfg)) = true).
  { apply token_spec. split; [done|]. rewrite bare_app, itoa_bare. done. }
  assert (Hn : Forall line_ok (no_domains_lines cfg)) by (repeat constructor; unfold line_ok; by rewrite !mem_byte_app, itoa_no_lf).
  destruct (decide _) as [He|Hne].
  - rewrite no_domains_text, <- !lines_app, split_lines by (apply Forall_app; split; [done|by apply Forall_app]).
    rewrite <- !app_assoc, read_preamble, read_sites by done. f_equal. unfold no_domains_lines. cbn [app read_blocks].
    change (":" +:+ itoa (httpPort cfg) +:+ " {") with ((":" +:+ itoa (httpPort cfg)) +:+ " {"). by rewrite (label_of_line _ Hcl).
  - rewrite sapp_nil_r, <- lines_app, split_lines by (by apply Forall_app). rewrite <- app_assoc, read_preamble, read_sites by done. reflexivity.
Qed.

(** C8: A domain with a password is never served without it.  When the rows hold
    inert values, every block of the rendered Caddyfile that is labelled with a
    valid domain whose row has a password hash begins with the [basic_auth]
    directive of exactly that row's user and hash, both of the accepted form, or
    answers every request with 503; and there is such a block unless the domain
    is marked removed. *)
Theorem protected_fails_closed goos gateway quote cfg db x r :
  bare gateway = true -> rows_inert db ->
  domains db !! x = Some r -> d_auth_hash r <> "" -> isValidDomain x = true ->
  let text := (renderCaddyfile goos gateway quote cfg db).1 in
  (forall body, (x, body) ∈ blocks text ->
     (exists rest, body = txt "~basic_auth {" :: (txt "~~" +:+ d_auth_user r +:+ " " +:+ d_auth_hash r) :: txt "~}" :: rest /\
        ValidUsername (d_auth_user r) = true /\ ValidHash (d_auth_hash r) = true) \/
     body = [txt "~respond |obacht: basic auth misconfigured for this domain| 503"]) /\
  (DesiredStatus (readDomain x r) <> DomainStatusRemoved -> exists body, (x, body) ∈ blocks text).
Proof.
  intros Hg Hrows Hr Hh Hv. cbv zeta. rewrite (Caddyfile_blocks _ _ _ _ _ Hg Hrows). split.
  - intros body [Hin|Hin]%elem_of_app.
    + apply list_elem_of_fmap in Hin as (st & [= -> ->] & Hin).
      destruct (protected_site goos gateway quote db (s_label st) r st Hr Hh Hin eq_refl) as [(rest & He & Hu & Hp)|He];
        rewrite He; [left|by right]. eexists. split; [reflexivity|done].
    + exfalso. destruct (decide _); [|by apply not_elem_of_nil in Hin]. apply list_elem_of_singleton in Hin as [= -> _]. discriminate (eq_trans (eq_sym Hv) (port_no_domain (httpPort cfg))).
  - intros Hd. destruct (plan_valid goos gateway quote (bindByDomain (ListBindings db)) (svcMap (ListInstanceServices db)) (readDomain x r)) as [st Hs].
    + done.
    + done.
    + exists (flat_map directive_lines (s_body st)). apply elem_of_app. left. apply list_elem_of_fmap. exists st.
      rewrite (plan_label _ _ _ _ _ _ _ Hs). split; [done|]. apply list_elem_of_omap. exists (readDomain x r). split; [|done].
      apply elem_of_sorted. eauto.
Qed.

(** ** Inputs *)
Definition demo_cfg : IngressConfig := MkIngressConfig false "caddy:2-alpine" "obacht-edge" 0 0 false.
Definition demo_domain (user hash : string) : domain_row := DRow "ready" None None None None None user hash 0 0.
Definition demo_db (service user : string) : DB :=
  set_domains (fun _ => {["app.example.com" := demo_domain user sample_hash]})
    (set_bindings (fun _ => {["app.example.com" := BRow (Some "app") (Some service) 0 "root" ""]})
      (set_services (fun _ => {[("app", "web") := SRow "docker_dns" "obacht-app:80" (Some "/cam/")]}) (fresh_db 0))).

Lemma demo_inert : rows_inert (demo_db "web" "alice").
Proof.
  split.
  - intros x b Hb. change (({["app.example.com" := BRow (Some "app") (Some "web") 0 "root" ""]} : gmap string binding_row) !! x = Some b) in Hb.
    apply lookup_singleton_Some in Hb as [_ <-]. done.
  - intros k s Hs. change (({[("app", "web") := SRow "docker_dns" "obacht-app:80" (Some "/cam/")]} : gmap (string * string) service_row) !! k = Some s) in Hs.
    apply lookup_singleton_Some in Hs as [_ <-]. split; [done|]. unfold target_types. set_solver.
Qed.


Lemma demo_inert_any user : rows_inert (demo_db "web" user).
Proof. exact demo_inert. Qed.
Lemma protected_fails_closed_witness :
  Forall (fun user => forall body, ("app.example.com", body) ∈ blocks (renderCaddyfile "linux" "" id demo_cfg (demo_db "web" user)).1 ->
    (exists rest, body = txt "~basic_auth {" :: (txt "~~" +:+ user +:+ " " +:+ sample_hash) :: txt "~}" :: rest /\
       ValidUsername user = true /\ ValidHash sample_hash = true) \/
    body = [txt "~respond |obacht: basic auth misconfigured for this domain| 503"]) ["alice"; "al ice"] /\
  exists body, ("app.example.com", body) ∈ blocks (renderCaddyfile "linux" "" id demo_cfg (demo_db "web" "al ice")).1.
Proof.
  pose proof (fun user => protected_fails_closed "linux" "" id demo_cfg (demo_db "web" user) "app.example.com" (demo_domain user sample_hash)
    eq_refl (demo_inert_any user) eq_refl ltac:(discriminate) eq_refl) as H. cbv zeta in H.
  split; [apply Forall_cons; split; [exact (proj1 (H _))|apply Forall_cons; split; [exact (proj1 (H _))|by apply Forall_nil]]|exact (proj2 (H "al ice") ltac:(discriminate))].
Defined.
Example protected_block : map fst (blocks (renderCaddyfile "linux" "" id demo_cfg (demo_db "web" "alice")).1) = ["app.example.com"].
Proof. vm_compute. reflexivity. Qed.

(** A service name is put into a quoted token as it is: one with a quote and a
    line feed opens a site of its own. *)
Definition evil_service : string := txt "x| 503$}$evil.example.com {$~respond |".
Example service_name_injection :
  In "evil.example.com {" (top_lines (renderCaddyfile "linux" "" id demo_cfg (demo_db evil_service "alice")).1) /\
  map s_label (sites "linux" "" id (demo_db evil_service "alice")) = ["app.example.com"].
Proof. split; [vm_compute; tauto|vm_compute; reflexivity]. Qed.
