(* ===== verification/Ingress.v ===== *)
(** * The ingress manager: internal/ingress

    Keeps the edge proxy's container, its configuration and the observed status
    of the domains in step with the database: [Bootstrap], [Apply], [Reload],
    the recovery of leaked port reservations, the local-port forwarders of the
    macOS build and the certificate scan.  The docker daemon's answers to the
    manager's own requests are the class [CaddyHost]; pulling images and making
    networks is the container driver's code.  SHA-256 and the certificate parser
    are parameters. *)

From S2P Require Import Prelude Host GoStrings GoUrl Codec Utf8 Json GoAny Store BasicAuth Container Caddyfile.

Definition ContainerName : string := "obacht-caddy".
Definition caddyDataVolume : string := "obacht-caddy-data".

Inductive ingress_error := Msg (text : string) | Driver (e : driver_error).

(** ** Requests of a manager to its host *)
Record caddyBody := MkCaddyBody {
  cy_Image : string;
  cy_Ports : list Z;       (* exposed and bound on 0.0.0.0 *)
  cy_Binds : list string;
  cy_Dns : list string;
  cy_Network : string
}.

(** A request fails as a whole ([Err]) or answers with a status and a body; a
    body that is decoded may fail to decode. *)
Class CaddyHost (E : Type) := {
  mkdir : string -> E -> res string unit * E;
  write_file : string -> string -> E -> res string unit * E;
  read_file : string -> E -> res string string;
  get_inspect : string -> E -> res string (Z * string * res string amap);
  connect : string -> string -> E -> res string (Z * string) * E;
  delete_caddy : E -> res string (Z * string) * E;
  create_caddy : caddyBody -> E -> res string (Z * string) * E;
  put_archive : string -> E -> res string (Z * string) * E;
  start_caddy : E -> res string (Z * string) * E;
  list_ids : E -> res string (Z * string * res string (list string));
  endpoints : string -> E -> res string (Z * string * res string (list string));
  disconnect : string -> string -> E -> res string (Z * string) * E;
  exec_create : list string -> E -> res string (Z * string * res string string) * E;
  exec_start : string -> E -> res string string * E;
  exec_code : string -> E -> res string (option Z);
  listen : string -> Z -> E -> bool;
  certs_on_disk : string -> E -> option (list (string * bool * option string));
  certs_in_archive : E -> option (Z * list (string * bool * option string))
}.

(** ** Requests as host programs *)
Notation H E A := (prog ingress_error E A).
Notation send := (host_send Msg).
Notation ask := (host_ask Msg).
Definition driver {E A} (m : E -> res driver_error A * E) : H E A := host_send_with Driver m.
Definition in_context {E A} (what : string) (m : H E A) : H E A :=
  fun e => let '(r, e) := m e in (match r with Err (Msg t) => Err (Msg (what +:+ t)) | r => r end, e).

Section manager.
Context (sha256 : string -> string) (min_free : Z) (goos gateway : string) (quote : string -> string) (cfg : IngressConfig).
Context (CaddyData CaddyConfig : string).
Context (parse_cert : string -> option (Z * string * list string)).   (* expiry, issuer name, organisations *)
Context {E : Type} `{Engine E} `{CaddyHost E}.

Definition sha256Hex (s : string) : string := hex_encode (sha256 s).
Definition in_range (lo hi s : Z) : bool := ((lo <=? s) && (s <? hi))%Z.
Definition status_in (l : list Z) (s : Z) : bool := bool_decide (s ∈ l).
Definition refuse {A} (what : string) (s : Z) (body : string) : H E A := hfail (Msg (what +:+ " " +:+ itoa s +:+ ": " +:+ body)).

(** ** The container driver's requests used here (docker.go) *)
Definition Inspect (name : string) : H E (option amap) :=
  do! r := ask "" (get_inspect name) in
  let '(st, body, doc) := r in
  if (st =? 404)%Z then hret None else
  if negb (st =? 200)%Z then refuse "inspect" st body else
  match doc with Ok m => hret (Some m) | Err t => hfail (Msg t) end.

Definition ConnectContainerToNetwork (container network : string) : H E unit :=
  do! r := send "" (connect container network) in
  let '(st, body) := r in
  if status_in [200; 204]%Z st then hret tt else
  if (st =? 403)%Z && contains body "already exists" then hret tt else
  refuse "connect" st body.   (* only logged *)

Definition PullImage (image : string) : H E unit := driver (pullIfMissing min_free image 0).

(** ** Files *)
Definition caddyfilePath : string := Join2 CaddyConfig "Caddyfile".

Definition ensureDirs : H E unit :=
  send ("mkdir " +:+ CaddyData +:+ ": ") (mkdir CaddyData) ;;; send ("mkdir " +:+ CaddyConfig +:+ ": ") (mkdir CaddyConfig).

Definition writeCaddyfile (body : string) : H E unit :=
  send "mkdir caddy config dir: " (mkdir (Dir caddyfilePath)) ;;; send "" (write_file caddyfilePath body).

Definition copyCaddyfileToContainer : H E unit :=
  do! data := ask "read staged caddyfile: " (read_file caddyfilePath) in
  do! r := send "put archive: " (put_archive data) in
  let '(st, body) := r in
  if (st =? 200)%Z then hret tt else refuse "put archive" st body.

(** ** The container *)
Definition hasHostGatewayExtraHost (insp : amap) : bool :=
  match as_map (get "HostConfig" insp) with
  | None => false
  | Some hc => existsb (fun h => has_prefix (default "" (as_str h)) "host.docker.internal:")
                 (default [] (as_list (get "ExtraHosts" hc)))
  end.

Definition is_running (insp : amap) : bool :=
  match get "Running" (default [] (as_map (get "State" insp))) with ABool b => b | _ => false end.

Definition removeCaddyContainer : H E unit :=
  do! r := send "" delete_caddy in
  let '(st, body) := r in
  if status_in [204; 404]%Z st then hret tt else refuse "delete caddy" st body.

Definition startCaddy : H E unit :=
  do! r := send "start caddy: " start_caddy in
  let '(st, body) := r in
  if status_in [204; 304]%Z st then hret tt else refuse "start caddy" st body.

Definition liveContainerIDs : H E (list string) :=
  do! r := ask "" list_ids in
  let '(st, body, ids) := r in
  if negb (st =? 200)%Z then refuse "containers list" st body else
  match ids with Ok l => hret l | Err t => hfail (Msg t) end.

Definition networkEndpointContainerIDs (network : string) : H E (list string) :=
  do! r := ask "" (endpoints network) in
  let '(st, body, ids) := r in
  if negb (st =? 200)%Z then refuse "network inspect" st body else
  match ids with Ok l => hret l | Err t => hfail (Msg t) end.

Definition networkDisconnect (network container : string) : H E unit :=
  do! r := send "" (disconnect network container) in
  let '(st, body) := r in
  if status_in [200; 204]%Z st then hret tt else refuse "disconnect" st body.

(** The endpoints of one network whose container is not among the live ones. *)
Fixpoint disconnect_stale (live : list string) (network : string) (eps : list string) : H E unit :=
  match eps with
  | [] => hret tt
  | cid :: eps =>
      hwhen (negb (bool_decide (cid ∈ live))) (htry (networkDisconnect network cid) ;;; hret tt) ;;;
      disconnect_stale live network eps
  end.

Fixpoint recover_networks (live : list string) (networks : list string) : H E unit :=
  match networks with
  | [] => hret tt
  | network :: networks =>
      do! eps := htry (networkEndpointContainerIDs network) in
      match eps with Ok eps => disconnect_stale live network eps | Err _ => hret tt end ;;;
      recover_networks live networks
  end.

Definition recoverStalePortBindings : H E unit :=
  do! live := in_context "list containers: " liveContainerIDs in
  recover_networks live [Network cfg; "bridge"].

Definition caddy_body : caddyBody :=
  MkCaddyBody (Image cfg) [httpPort cfg; httpsPort cfg]
    (if Containerized cfg then [caddyDataVolume +:+ ":/data:rw"] else [CaddyData +:+ ":/data:rw"; CaddyConfig +:+ ":/etc/caddy:rw"])
    (if Containerized cfg then ["1.1.1.1"; "8.8.8.8"] else []) (Network cfg).

Definition mentions (x : ingress_error) (sub : string) : bool := match x with Msg t => contains t sub | Driver _ => false end.

Definition createCaddyContainer : H E unit :=
  do! r := send "create caddy: " (create_caddy caddy_body) in
  let '(st, body) := r in
  if (300 <=? st)%Z then refuse "create caddy" st body else
  hwhen (Containerized cfg) (in_context "seed caddyfile: " copyCaddyfileToContainer) ;;;
  do! started := htry startCaddy in
  match started with
  | Ok _ => hret tt
  | Err x =>
      if Containerized cfg && mentions x "port is already allocated" then
        htry recoverStalePortBindings ;;;
        in_context "start caddy after port-leak recovery: " startCaddy
      else hfail x
  end.

Definition pull_and_create : H E unit :=
  PullImage (Image cfg) ;;;
  do! created := htry createCaddyContainer in
  match created with
  | Ok _ => hret tt
  | Err x =>
      if mentions x "create caddy 409" then
        in_context "remove conflicting caddy: " removeCaddyContainer ;;; createCaddyContainer
      else hfail x
  end ;;;
  htry (ConnectContainerToNetwork ContainerName (Network cfg)) ;;; hret tt.

Definition ensureCaddyContainer : H E unit :=
  do! insp := Inspect ContainerName in
  match insp with
  | None => pull_and_create
  | Some m =>
      if is_running m then
        if negb (hasHostGatewayExtraHost m) then in_context "remove drifted caddy: " removeCaddyContainer ;;; pull_and_create
        else htry (ConnectContainerToNetwork ContainerName (Network cfg)) ;;; hret tt
      else in_context "remove stopped caddy: " removeCaddyContainer ;;; pull_and_create
  end.

(** ** Reload and permissions: [docker exec] *)
Definition reload_cmd : list string := ["caddy"; "reload"; "--config"; "/etc/caddy/Caddyfile"; "--adapter"; "caddyfile"].
Definition chmod_cmd : list string :=
  ["sh"; "-c"; "chmod o+rx /data /data/caddy 2>/dev/null; if [ -d /data/caddy/certificates ]; then " +:+
   "find /data/caddy/certificates -type d -exec chmod o+rx {} + ; " +:+
   "find /data/caddy/certificates -name '*.crt' -exec chmod o+r {} + ; fi"].

(** The printable bytes and line feeds of a command's output. *)
Fixpoint printable (s : string) : string :=
  match s with
  | "" => ""
  | String c s' => if ((32 <=? code c)%N && (code c <? 127)%N) || Ascii.eqb c LF then String c (printable s') else printable s'
  end.
Definition sanitize (out : string) : string := trim_space (printable out).

Definition exec_run (cmd : list string) : H E (string * string) :=
  do! r := send "" (exec_create cmd) in
  let '(st, body, id) := r in
  if negb (st =? 201)%Z then refuse "exec create" st body else
  match id with
  | Err t => hfail (Msg t)
  | Ok id => do! out := send "" (exec_start id) in hret (id, out)
  end.

(** An exit code that cannot be decoded counts as 0. *)
Definition reloadCaddy : H E unit :=
  do! r := exec_run reload_cmd in
  let '(id, out) := r in
  do! code := ask "" (exec_code id) in
  let code := default 0%Z code in
  if (code =? 0)%Z then hret tt else hfail (Msg ("caddy reload exit=" +:+ itoa code +:+ " output=" +:+ sanitize out)).

Definition chmodCertsForAgentRead : H E unit :=
  if Containerized cfg then hret tt else do! r := exec_run chmod_cmd in hret tt.

(** ** The manager's own state *)
Record Manager := MkManager { lastHash : string; localProxies : gset Z }.
Definition New : Manager := MkManager "" ∅.

Definition reservedHostPorts : list Z := [51820%Z].
Definition forwardable (p : Z) : bool := ((0 <? p) && (p <=? 65535))%Z && negb (bool_decide (p ∈ reservedHostPorts)).

(** Forwarders no longer wanted are closed, missing ones that can listen are started. *)
Definition syncLocalPortForwarders (ports : list Z) (e : E) (m : Manager) : Manager :=
  if negb (bool_decide (goos = "darwin")) || emptyb gateway then m else
  let want : gset Z := list_to_set (filter (fun p => forwardable p = true) ports) in
  let kept := filter (fun p => p ∈ want) (localProxies m) in
  MkManager (lastHash m) (kept ∪ filter (fun p => listen gateway p e = true) (want ∖ kept)).

(** ** Certificates *)
Definition recordCert (domain pem : string) (now : Z) (db : DB) : DB :=
  match parse_cert pem with
  | None => db
  | Some (notAfter, name, orgs) =>
      (SetDomainCert domain (Some notAfter) (if emptyb name then default "" (head orgs) else name) now db).2
  end.

(** One walk over (path, is a directory or unreadable entry, content). *)
Fixpoint scan (want : list string) (now : Z) (files : list (string * bool * option string)) (db : DB) : DB :=
  match files with
  | [] => db
  | (path, skip, data) :: files =>
      let base := trim_suffix (Base path) ".crt" in
      scan want now files
        (if skip || negb (has_suffix path ".crt") || negb (bool_decide (base ∈ want)) then db
         else match data with Some pem => recordCert base pem now db | None => db end)
  end.

(** The archive is read up to its end or to an entry that cannot be read. *)
Definition scanCertsContainerized (want : list string) (now : Z) (e : E) (db : DB) : DB :=
  match certs_in_archive e with
  | Some (st, files) => if (st =? 200)%Z then scan want now files db else db
  | None => db
  end.
Definition ScanCerts (now : Z) (e : E) (db : DB) : DB :=
  let want := map D_Domain (ListDomains db) in
  if Containerized cfg then scanCertsContainerized want now e db
  else match certs_on_disk (Join2 CaddyData "caddy/certificates") e with
       | Some files => scan want now files db
       | None => db
       end.

(** ** Bootstrap, Apply, Reload *)
Definition render (db : DB) : string * renderSummary := renderCaddyfile goos gateway quote cfg db.

Definition Bootstrap (db : DB) : H E unit :=
  if Disabled cfg then hret tt else
  driver (EnsureNetwork (Network cfg)) ;;; ensureDirs ;;;
  writeCaddyfile (render db).1 ;;;
  in_context "ensure caddy container: " ensureCaddyContainer.

Definition Reload : H E unit :=
  if Disabled cfg then hret tt else
  ensureCaddyContainer ;;;
  hwhen (Containerized cfg) (in_context "copy caddyfile: " copyCaddyfileToContainer) ;;;
  reloadCaddy.

(** The part of [Apply] for a text that differs from the last one. *)
Definition deploy (caddyfile : string) : H E unit :=
  writeCaddyfile caddyfile ;;; ensureCaddyContainer ;;;
  hwhen (Containerized cfg) (in_context "copy caddyfile: " copyCaddyfileToContainer) ;;;
  in_context "reload caddy: " reloadCaddy.

(** Go ranges over the map in any order; the domains are distinct rows. *)
Definition write_observed (summary : renderSummary) (now : Z) (db : DB) : DB :=
  fold_left (fun db p => (SetDomainObserved p.1 p.2 (default "" (lastErrors summary !! p.1)) now db).2)
    (map_to_list (observed summary)) db.

Definition Apply (now : Z) (m : Manager) (db : DB) (e : E) : res ingress_error unit * (Manager * DB * E) :=
  if Disabled cfg then (Ok tt, (m, db, e)) else
  let '(caddyfile, summary) := render db in
  let m := syncLocalPortForwarders (localPorts summary) e m in
  let hash := sha256Hex caddyfile in
  let '(r, e) := if bool_decide (hash = lastHash m) then (Ok tt, e) else deploy caddyfile e in
  match r with
  | Err x => (Err x, (m, db, e))
  | Ok _ =>
      let m := MkManager hash (localProxies m) in
      let db := write_observed summary now db in
      let '(_, e) := chmodCertsForAgentRead e in
      (Ok tt, (m, ScanCerts now e db, e))
  end.
End manager.
