(* ===== verification/IngressProps.v ===== *)
(** * What the ingress manager guarantees

    Against a host that keeps its promises ([CaddyLaws]): after a successful
    [Apply] the proxy runs a configuration with the digest of the current
    rendering, every domain carries the status and reason of its plan, live
    containers keep their networks through the port-leak recovery, and the
    forwarders listen only on ports that bindings ask for. *)

From S2P Require Import Prelude Host GoStrings GoUrl Codec Utf8 Json GoAny Store BasicAuth Container Caddyfile Ingress.

(** [disk] is the host's file system, [mounted] what the proxy's container has
    at /etc/caddy/Caddyfile, [loaded] the configuration it runs, [attached] the
    endpoints of the networks. *)
Class CaddyLaws (E : Type) `{Engine E} `{CaddyHost E} := {
  disk : E -> string -> option string;
  mounted : E -> option string;
  loaded : E -> option string;
  attached : E -> string -> string -> Prop;
  mkdir_disk : forall d e p, disk (mkdir d e).2 p = disk e p;
  pull_disk : forall i e p, disk (pull_image i e).2 p = disk e p;
  connect_disk : forall c n e p, disk (connect c n e).2 p = disk e p;
  delete_disk : forall e p, disk (delete_caddy e).2 p = disk e p;
  create_disk : forall b e p, disk (create_caddy b e).2 p = disk e p;
  put_disk : forall d e p, disk (put_archive d e).2 p = disk e p;
  start_disk : forall e p, disk (start_caddy e).2 p = disk e p;
  disconnect_disk : forall n c e p, disk (disconnect n c e).2 p = disk e p;
  write_disk : forall p b e e', write_file p b e = (Ok tt, e') -> disk e' p = Some b;
  read_disk : forall p e d, read_file p e = Ok d -> disk e p = Some d;
  put_mounted : forall d e b e', put_archive d e = (Ok (200%Z, b), e') -> mounted e' = Some d;
  exec_disk : forall cmd e p, disk (exec_create cmd e).2 p = disk e p;
  exec_mounted : forall cmd e, mounted (exec_create cmd e).2 = mounted e;
  exec_loaded : forall cmd e, loaded (exec_create cmd e).2 = loaded e;
  code_decodes : forall id e, exec_code id e <> Ok None;
  reload_loads : forall e b id e1 out e2, exec_create reload_cmd e = (Ok (201%Z, b, Ok id), e1) ->
    exec_start id e1 = (Ok out, e2) -> exec_code id e2 = Ok (Some 0%Z) -> loaded e2 = mounted e1;
  chmod_keeps : forall e b id e1, exec_create chmod_cmd e = (Ok (201%Z, b, Ok id), e1) -> loaded (exec_start id e1).2 = loaded e1;
  disconnect_only : forall n c e n' c', (n', c') <> (n, c) -> attached (disconnect n c e).2 n' c' <-> attached e n' c'
}.

(** ** Programs that keep a property of the host *)
Lemma keeps_driver {E A} (P : E -> Prop) (m : prog driver_error E A) : keeps P m -> keeps P (driver m).
Proof. apply keeps_send_with. Qed.
Lemma keeps_context {E A} (P : E -> Prop) what (m : H E A) : keeps P m -> keeps P (in_context what m).
Proof. intros Hm e He. unfold in_context. specialize (Hm e He). by destruct (m e). Qed.
Lemma keeps_refuse {E A} (P : E -> Prop) what s b : keeps P (refuse (E := E) (A := A) what s b).
Proof. apply keeps_fail. Qed.
#[export] Hint Resolve keeps_driver keeps_context keeps_refuse : host.

Section guarantees.
Context (sha256 : string -> string) (min_free : Z) (goos gateway : string) (quote : string -> string) (cfg : IngressConfig).
Context (CaddyData CaddyConfig : string) (parse_cert : string -> option (Z * string * list string)).
Context {E : Type} `{CaddyLaws E}.
(** Without a container file system of its own the proxy sees the host's file. *)
Context (bind_mounted : Containerized cfg = false -> forall e, mounted e = disk e (caddyfilePath CaddyConfig)).
Notation path := (caddyfilePath CaddyConfig).
Notation ensure := (ensureCaddyContainer min_free cfg CaddyData CaddyConfig).
Notation deploy := (deploy min_free cfg CaddyData CaddyConfig).
Notation Apply := (Apply sha256 min_free goos gateway quote cfg CaddyData CaddyConfig parse_cert).
Notation render := (render goos gateway quote cfg).

Notation on_disk b := (fun e => disk e path = Some b).

Lemma pull_keeps image b : keeps (on_disk b) (PullImage min_free image).
Proof.
  apply keeps_driver. intros e He. unfold pullIfMissing. destruct (get_image image e) as [st|]; [|done].
  destruct (st =? 200)%Z; [done|]. destruct (EnsureFreeAtLeast _ _ _); [|done].
  assert (Hp := pull_disk image e path). destruct (pull_image image e) as [[st'|] e']; cbn [snd] in Hp; [|cbn; congruence].
  destruct (300 <=? st')%Z; cbn; congruence.
Qed.

Lemma copy_keeps b : keeps (on_disk b) (copyCaddyfileToContainer CaddyConfig).
Proof.
  unfold copyCaddyfileToContainer. host_cases. apply keeps_send. intros e. cbn. by rewrite put_disk.
Qed.

Lemma start_keeps b : keeps (on_disk b) startCaddy.
Proof. unfold startCaddy. host_cases. apply keeps_send. intros e. cbn. by rewrite start_disk. Qed.

Lemma connect_keeps c n b : keeps (on_disk b) (ConnectContainerToNetwork c n).
Proof. unfold ConnectContainerToNetwork. host_cases. apply keeps_send. intros e. cbn. by rewrite connect_disk. Qed.

Lemma remove_keeps b : keeps (on_disk b) removeCaddyContainer.
Proof. unfold removeCaddyContainer. host_cases. apply keeps_send. intros e. cbn. by rewrite delete_disk. Qed.

Lemma stale_keeps (P : E -> Prop) live network eps :
  (forall cid, cid ∈ eps -> cid ∉ live -> forall e, P e -> P (disconnect network cid e).2) ->
  keeps P (disconnect_stale live network eps).
Proof.
  induction eps as [|cid eps IH]; intros Hd; cbn [disconnect_stale]; [auto with host|].
  apply keeps_bind; [|intros _; apply IH; intros c Hc; apply Hd; by right].
  unfold hwhen. destruct (bool_decide_reflect (cid ∈ live)) as [_|Hn]; cbn [negb]; [auto with host|].
  apply keeps_bind; [apply keeps_try; unfold networkDisconnect; host_cases|auto with host].
  apply keeps_send. refine (Hd cid _ _); [by left|done].
Qed.

Lemma networks_keeps (P : E -> Prop) live networks :
  (forall n cid, cid ∉ live -> forall e, P e -> P (disconnect n cid e).2) -> keeps P (recover_networks live networks).
Proof.
  intros Hd. induction networks as [|n networks IH]; cbn [recover_networks]; [auto with host|].
  apply keeps_bind; [apply keeps_try; unfold networkEndpointContainerIDs; host_cases|]. intros eps.
  apply keeps_bind; [|intros _; exact IH]. destruct eps; [apply stale_keeps; intros; by apply Hd|auto with host].
Qed.

Lemma recover_keeps b : keeps (on_disk b) (recoverStalePortBindings cfg).
Proof.
  unfold recoverStalePortBindings, liveContainerIDs.
  apply keeps_bind; [apply keeps_context; host_cases|intros live]. apply networks_keeps.
  intros n cid _ e. cbn. by rewrite disconnect_disk.
Qed.

Lemma create_keeps b : keeps (on_disk b) (createCaddyContainer cfg CaddyData CaddyConfig).
Proof.
  unfold createCaddyContainer. apply keeps_bind; [apply keeps_send; intros e; cbn; by rewrite create_disk|].
  intros [st body]. destruct (300 <=? st)%Z; [auto with host|].
  apply keeps_bind; [apply keeps_when, keeps_context, copy_keeps|intros _].
  apply keeps_bind; [apply keeps_try, start_keeps|intros started]. destruct started as [|x]; [auto with host|].
  destruct (_ && _); [|auto with host].
  apply keeps_bind; [apply keeps_try, recover_keeps|intros _; apply keeps_context, start_keeps].
Qed.

Lemma pull_and_create_keeps b : keeps (on_disk b) (pull_and_create min_free cfg CaddyData CaddyConfig).
Proof.
  unfold pull_and_create. apply keeps_bind; [apply pull_keeps|intros _].
  apply keeps_bind; [apply keeps_try, create_keeps|intros created]. apply keeps_bind.
  - destruct created as [|x]; [auto with host|]. destruct (mentions x _); [|auto with host].
    apply keeps_bind; [apply keeps_context, remove_keeps|intros _; apply create_keeps].
  - intros _. apply keeps_bind; [apply keeps_try, connect_keeps|auto with host].
Qed.

Lemma ensure_keeps b : keeps (on_disk b) ensure.
Proof.
  unfold ensureCaddyContainer. apply keeps_bind; [unfold Inspect; host_cases|]. intros [m|]; [|apply pull_and_create_keeps].
  destruct (is_running m); [destruct (hasHostGatewayExtraHost m); cbn [negb]|].
  - apply keeps_bind; [apply keeps_try, connect_keeps|auto with host].
  - apply keeps_bind; [apply keeps_context, remove_keeps|intros _; apply pull_and_create_keeps].
  - apply keeps_bind; [apply keeps_context, remove_keeps|intros _; apply pull_and_create_keeps].
Qed.

Lemma context_Ok {A} what (m : H E A) e a e' : in_context what m e = (Ok a, e') <-> m e = (Ok a, e').
Proof. unfold in_context. destruct (m e) as [[?|[]] ?]; split; congruence. Qed.

Lemma copy_mounts e e' : copyCaddyfileToContainer CaddyConfig e = (Ok tt, e') ->
  exists d, disk e path = Some d /\ mounted e' = Some d.
Proof.
  unfold copyCaddyfileToContainer. rewrite hbind_Ok. intros (d & e1 & [Hd ->]%ask_Ok & Hp).
  apply hbind_Ok in Hp as ([st b] & e2 & Hp%send_Ok & Hst). exists d. split; [by apply read_disk|].
  destruct (Z.eqb_spec st 200) as [->|]; [|unfold refuse, hfail in Hst; done]. injection Hst as <-. by eapply put_mounted.
Qed.

Lemma exec_run_Ok cmd e id out e' : exec_run cmd e = (Ok (id, out), e') ->
  exists b e1, exec_create cmd e = (Ok (201%Z, b, Ok id), e1) /\ exec_start id e1 = (Ok out, e').
Proof.
  unfold exec_run. rewrite hbind_Ok. intros ([[st b] oid] & e1 & Hc%send_Ok & Hr).
  destruct (Z.eqb_spec st 201) as [->|]; cbn [negb] in Hr; [|unfold refuse, hfail in Hr; done].
  destruct oid as [id'|]; [|unfold hfail in Hr; done].
  apply hbind_Ok in Hr as (o & e2 & Hs%send_Ok & Hr). injection Hr as <- <- <-. eauto.
Qed.

Lemma reload_loaded e e' : reloadCaddy e = (Ok tt, e') -> loaded e' = mounted e.
Proof.
  unfold reloadCaddy. rewrite hbind_Ok. intros ([id out] & e1 & (b & e0 & Hc & Hs)%exec_run_Ok & Hr).
  apply hbind_Ok in Hr as (code & e2 & [Hcode ->]%ask_Ok & Hr). cbn zeta in Hr.
  destruct code as [c|]; [|by apply code_decodes in Hcode]. change (default 0%Z (Some c)) with c in Hr.
  destruct (Z.eqb_spec c 0) as [->|]; [|unfold hfail in Hr; done]. injection Hr as <-.
  rewrite (reload_loads _ _ _ _ _ _ Hc Hs Hcode). assert (Hm := exec_mounted reload_cmd e). by rewrite Hc in Hm.
Qed.

(** A successful deployment leaves the proxy running the given text. *)
Lemma deploy_loads text e e' : deploy text e = (Ok tt, e') -> loaded e' = Some text.
Proof.
  unfold Ingress.deploy. rewrite hbind_Ok. intros (u1 & e1 & Hw & Hr). unfold writeCaddyfile in Hw.
  apply hbind_Ok in Hw as (u0 & e0 & _ & Hw%send_Ok). destruct u1. apply write_disk in Hw.
  apply hbind_Ok in Hr as (u2 & e2 & Hens & Hr). assert (Hd := ensure_keeps text e1 Hw). rewrite Hens in Hd. cbn in Hd.
  apply hbind_Ok in Hr as (u3 & e3 & Hcopy & Hr%context_Ok%reload_loaded). rewrite Hr.
  unfold hwhen in Hcopy. destruct (Containerized cfg) eqn:Hc.
  - apply context_Ok in Hcopy. destruct u3. apply copy_mounts in Hcopy as (d & Hd' & Hm). congruence.
  - injection Hcopy as _ <-. by rewrite bind_mounted.
Qed.

Lemma chmod_loaded e r e' : chmodCertsForAgentRead cfg e = (r, e') -> loaded e' = loaded e.
Proof.
  unfold chmodCertsForAgentRead. destruct (Containerized cfg); [by intros [= _ <-]|]. unfold exec_run, hbind, host_send, host_send_with.
  assert (Hl := exec_loaded chmod_cmd e). destruct (exec_create chmod_cmd e) as [[[[st b] oid]|t] e1] eqn:Hc; cbn in Hl |- *; [|intros [= _ <-]; done].
  destruct (Z.eqb_spec st 201) as [->|]; cbn [negb]; [|intros [= _ <-]; done].
  destruct oid as [id|]; [|intros [= _ <-]; done]. assert (Hk := chmod_keeps _ _ _ _ Hc).
  destruct (exec_start id e1) as [[out|t] e2]; cbn in Hk |- *; intros [= _ <-]; congruence.
Qed.

(** ** The observed status of the domains *)

(** What [Apply] writes into a row, and what a scan leaves alone. *)
Definition facts (r : domain_row) := (d_observed r, d_last_error r, d_auth_user r, d_auth_hash r, d_desired r, d_status r).
Definition observe_row (s err : string) (now : Z) (r : domain_row) : domain_row :=
  DRow (d_status r) (d_desired r) (Some s) (d_cert_not_after r) (d_cert_issuer r) (Some err) (d_auth_user r) (d_auth_hash r) (d_created r) now.

Lemma write_observed_lookup (errs : gmap string string) now (l : list (string * string)) db x : NoDup l.*1 ->
  domains (fold_left (fun db p => (SetDomainObserved p.1 p.2 (default "" (errs !! p.1)) now db).2) l db) !! x =
  match (list_to_map l : gmap string string) !! x with
  | Some s => observe_row s (default "" (errs !! x)) now <$> domains db !! x
  | None => domains db !! x
  end.
Proof.
  revert db. induction l as [|[k s] l IH]; intros db Hnd; [done|]. cbn [fold_left]. cbn in Hnd. apply NoDup_cons in Hnd as [Hk Hnd].
  rewrite IH by done. cbn [fst snd]. change ((list_to_map ((k, s) :: l) : gmap string string)) with (<[k := s]> (list_to_map l : gmap string string)).
  cbn [SetDomainObserved write domains set_domains snd]. destruct (decide (x = k)) as [->|Hne].
  - rewrite lookup_insert_eq, not_elem_of_list_to_map_1 by done. apply lookup_alter_eq.
  - rewrite !lookup_insert_ne, lookup_alter_ne by done. done.
Qed.

Lemma recordCert_facts d pem now db x : facts <$> domains (recordCert parse_cert d pem now db) !! x = facts <$> domains db !! x.
Proof.
  unfold recordCert. destruct (parse_cert pem) as [[[? ?] ?]|]; [|done]. cbn [SetDomainCert write domains set_domains snd].
  destruct (decide (x = d)) as [->|Hne]; [|by rewrite lookup_alter_ne]. rewrite lookup_alter_eq. by destruct (domains db !! d).
Qed.

Lemma scan_facts want now files db x : facts <$> domains (scan parse_cert want now files db) !! x = facts <$> domains db !! x.
Proof.
  revert db. induction files as [|[[path skip] data] files IH]; intros db; [done|]. cbn [scan]. rewrite IH.
  destruct (_ || _ || _); [done|]. destruct data; [apply recordCert_facts|done].
Qed.

Lemma ScanCerts_facts now e db x : facts <$> domains (ScanCerts cfg CaddyData parse_cert now e db) !! x = facts <$> domains db !! x.
Proof.
  unfold ScanCerts, scanCertsContainerized. destruct (Containerized cfg).
  - destruct (certs_in_archive e) as [[st files]|]; [|done]. destruct (st =? 200)%Z; [apply scan_facts|done].
  - destruct (certs_on_disk _ e); [apply scan_facts|done].
Qed.

(** The manager's hash, when it has one, is that of the running configuration. *)
Definition in_sync (m : Manager) (e : E) : Prop :=
  lastHash m = "" \/ exists t, loaded e = Some t /\ sha256Hex sha256 t = lastHash m.
Notation verdict_of db x r := (plan goos gateway quote (bindByDomain (ListBindings db)) (svcMap (ListInstanceServices db)) (readDomain x r)).

Lemma Apply_Ok now m db e m' db' e' : Disabled cfg = false -> Apply now m db e = (Ok tt, (m', db', e')) ->
  let text := (render db).1 in let hash := sha256Hex sha256 text in
  lastHash m' = hash /\ (if bool_decide (hash = lastHash m) then loaded e' = loaded e else loaded e' = Some text) /\
  exists e1, db' = ScanCerts cfg CaddyData parse_cert now e1 (write_observed (render db).2 now db).
Proof.
  intros Hd. unfold Ingress.Apply. rewrite Hd. destruct (render db) as [text summary]. cbn zeta. cbn [fst snd].
  assert (Hh : lastHash (syncLocalPortForwarders goos gateway (localPorts summary) e m) = lastHash m)
    by (unfold syncLocalPortForwarders; by destruct (_ || _)).
  rewrite Hh. set (m1 := syncLocalPortForwarders _ _ _ _ _).
  destruct (bool_decide (sha256Hex sha256 text = lastHash m)).
  - destruct (chmodCertsForAgentRead cfg e) as [r e2] eqn:Hc. intros [= <- <- <-]. apply chmod_loaded in Hc. eauto.
  - destruct (deploy text e) as [[[]|x] e1] eqn:Hdep; [|done].
    destruct (chmodCertsForAgentRead cfg e1) as [r e2] eqn:Hc. intros [= <- <- <-].
    apply chmod_loaded in Hc. apply deploy_loads in Hdep. rewrite Hc. eauto.
Qed.

(** A life of the manager: it starts out new, whatever the proxy runs; it applies
    the database of the moment again and again; in between the host changes as
    it likes.  What is excluded is a change of the running configuration behind
    the manager's back: by another process, by a restart of the container, or by
    an [Apply] that fails after the proxy has taken up the new file. *)
Inductive managed : Manager -> E -> Prop :=
| managed_new e : managed New e
| managed_apply now m db e r m' db' e' : managed m e -> Apply now m db e = (r, (m', db', e')) ->
    r = Ok tt \/ loaded e' = loaded e -> managed m' e'
| managed_host m e e' : managed m e -> loaded e' = loaded e -> managed m e'.

Section size.
Context (sha256_size : forall s, slen (sha256 s) = 32) (enabled : Disabled cfg = false).

(** What the proxy runs after a successful [Apply]. *)
Lemma Apply_runs now m db e m' db' e' : in_sync m e -> Apply now m db e = (Ok tt, (m', db', e')) ->
  exists t, loaded e' = Some t /\ sha256Hex sha256 t = sha256Hex sha256 (render db).1 /\
     (lastHash m <> sha256Hex sha256 (render db).1 -> t = (render db).1).
Proof.
  intros Hsync Ha. destruct (Apply_Ok _ _ _ _ _ _ _ enabled Ha) as (_ & Hload & _).
  destruct (bool_decide_reflect (sha256Hex sha256 (render db).1 = lastHash m)) as [He|Hne]; [|by eauto].
  destruct Hsync as [Hm|(t & Ht & Hh)].
  - exfalso. rewrite Hm in He. apply (f_equal slen) in He. unfold sha256Hex in He. rewrite hex_encode_slen, sha256_size in He. done.
  - exists t. rewrite Hload. split; [done|]. split; [congruence|]. by intros [].
Qed.

(** A failed [Apply] remembers what it remembered. *)
Lemma Apply_Err_hash now m db e x m' db' e' : Apply now m db e = (Err x, (m', db', e')) -> lastHash m' = lastHash m.
Proof.
  unfold Ingress.Apply. rewrite enabled. destruct (render db) as [text summary]. cbn zeta.
  assert (Hh : lastHash (syncLocalPortForwarders goos gateway (localPorts summary) e m) = lastHash m)
    by (unfold syncLocalPortForwarders; by destruct (_ || _)).
  destruct (bool_decide _); [by destruct (chmodCertsForAgentRead cfg e)|].
  destruct (deploy text e) as [[[]|y] e1]; [by destruct (chmodCertsForAgentRead cfg e1)|]. by intros [= _ <- _ _].
Qed.

Lemma managed_in_sync m e : managed m e -> in_sync m e.
Proof.
  induction 1 as [e|now m db e r m' db' e' _ IH Ha Hr|m e e' _ IH Hl]; [by left| |].
  - destruct r as [[]|x].
    + destruct (Apply_runs _ _ _ _ _ _ _ IH Ha) as (t & Ht & Hh & _). destruct (Apply_Ok _ _ _ _ _ _ _ enabled Ha) as (Hlast & _).
      right. exists t. split; [done|]. by rewrite Hlast.
    + destruct Hr as [|Hl]; [done|]. unfold in_sync. by rewrite (Apply_Err_hash _ _ _ _ _ _ _ _ Ha), Hl.
  - unfold in_sync. by rewrite Hl.
Qed.
End size.

(** C16: At any point of the manager's life a successful [Apply] leaves the proxy
    with a configuration that has the digest of the current rendering (the
    rendering itself when the digest changed), and every domain row carries the
    status and the reason of its plan while its credentials and desired status
    are untouched.  (The life of a manager: [Apply]s that succeeded or left
    what the proxy has loaded, and nobody else changed that in between.  The
    engine's answer about the reload decodes: [code_decodes].  The
    file a failed reload rejected is another matter: [rejected_file_stays].) *)
Theorem Apply_reflects now m db e m' db' e' :
  (forall s, slen (sha256 s) = 32) -> Disabled cfg = false -> managed m e -> Apply now m db e = (Ok tt, (m', db', e')) ->
  (exists t, loaded e' = Some t /\ sha256Hex sha256 t = sha256Hex sha256 (render db).1 /\
     (lastHash m <> sha256Hex sha256 (render db).1 -> t = (render db).1)) /\
  managed m' e' /\
  forall x r, domains db !! x = Some r -> exists r', domains db' !! x = Some r' /\
    facts r' = (Some (v_status (verdict_of db x r)), Some (default "" (v_reason (verdict_of db x r))),
                d_auth_user r, d_auth_hash r, d_desired r, d_status r).
Proof.
  intros Hsize Hd Hm Ha. split; [|split].
  - exact (Apply_runs Hsize Hd _ _ _ _ _ _ _ (managed_in_sync Hsize Hd _ _ Hm) Ha).
  - eapply managed_apply; [exact Hm|exact Ha|by left].
  - destruct (Apply_Ok _ _ _ _ _ _ _ Hd Ha) as (_ & _ & e1 & ->).
    intros x r Hr. destruct (render_observed goos gateway quote cfg db x r Hr) as [Ho He]. fold (render db) in Ho, He.
    assert (Hf := ScanCerts_facts now e1 (write_observed (render db).2 now db) x). unfold write_observed in Hf at 2.
    rewrite write_observed_lookup, list_to_map_to_list, Ho, He, Hr in Hf by apply NoDup_fst_map_to_list. cbn [fmap option_fmap option_map] in Hf.
    apply fmap_Some in Hf as (r' & Hr' & Hf). eauto.
Qed.

(** The port-leak recovery never takes a container that the daemon listed off a network. *)
Theorem recovery_spares_live e st b live n c : list_ids e = Ok (st, b, Ok live) -> c ∈ live ->
  attached (recoverStalePortBindings cfg e).2 n c <-> attached e n c.
Proof.
  intros Hl Hc. unfold recoverStalePortBindings, liveContainerIDs, in_context, host_ask, host_send, host_send_with, hbind. rewrite Hl.
  destruct (st =? 200)%Z; cbn [negb]; [|done]. cbn [hret].
  assert (Hk : forall P : Prop, (attached e n c <-> P) -> attached (recover_networks live [Network cfg; "bridge"] e).2 n c <-> P).
  { intros P HP. apply (networks_keeps (fun e => attached e n c <-> P)); [|done]. intros n' cid Hcid e0 He0.
    rewrite disconnect_only; [done|]. intros [= <- <-]. done. }
  by apply Hk.
Qed.
End guarantees.

(** Whatever the bindings ask for, the forwarders listen on the gateway only,
    on unreserved TCP ports that are bound; when every port can be listened on,
    on all of them. *)
Theorem forwarders_bounded {E} `{CaddyHost E} gateway ports e m : gateway <> "" ->
  let m' := syncLocalPortForwarders "darwin" gateway ports e m in
  (forall p, p ∈ localProxies m' -> p ∈ ports /\ (1 <= p <= 65535)%Z /\ p <> 51820%Z) /\
  ((forall p, listen gateway p e = true) -> forall p, p ∈ ports -> (1 <= p <= 65535)%Z -> p <> 51820%Z -> p ∈ localProxies m').
Proof.
  intros Hg. cbn zeta. unfold syncLocalPortForwarders.
  replace (negb (bool_decide ("darwin" = "darwin")) || emptyb gateway) with false
    by (unfold emptyb; by rewrite (bool_decide_eq_false_2 (gateway = ""))).
  cbn [localProxies].
  assert (Hw : forall p, p ∈ (list_to_set (filter (fun p => forwardable p = true) ports) : gset Z) <->
    p ∈ ports /\ (1 <= p <= 65535)%Z /\ p <> 51820%Z).
  { intros p. rewrite elem_of_list_to_set, list_elem_of_filter. unfold forwardable, reservedHostPorts.
    rewrite !andb_true_iff, Z.ltb_lt, Z.leb_le, negb_true_iff, bool_decide_eq_false, list_elem_of_singleton. intuition lia. }
  split.
  - intros p. rewrite elem_of_union, !elem_of_filter, elem_of_difference. intros [[Hp _]|[_ [Hp _]]]; by apply Hw.
  - intros Hlisten p Hp Hr Hn. rewrite elem_of_union, !elem_of_filter, elem_of_difference, elem_of_filter.
    assert (Hwp := proj2 (Hw p) (conj Hp (conj Hr Hn))). destruct (decide (p ∈ localProxies m)); [by left|].
    right. split; [done|]. split; [done|]. tauto.
Qed.

(** ** A host *)
Record toy := MkToy {
  t_files : gmap string string;
  t_up : bool;
  t_loaded : option string;
  t_reloads : bool;                   (* whether [caddy reload] accepts what it reads *)
  t_attached : list (string * string)
}.
Definition toy_config : string := "/var/lib/obacht/caddy".
Definition toy_path : string := caddyfilePath toy_config.
Definition toy_insp : amap :=
  [("State", AMap [("Running", ABool true)]); ("HostConfig", AMap [("ExtraHosts", AList [AStr "host.docker.internal:host-gateway"])])].

#[export] Instance toy_driver : Engine toy := {|
  get_containers _ _ := Ok [];
  delete_container _ e := (Some 204%Z, e);
  get_image _ _ := Some 200%Z;
  free_bytes _ := None;
  pull_image _ e := (Some 200%Z, e);
  repo_digests _ _ := Ok [];
  image_user _ _ := Ok "";
  mkdir_all _ e := (true, e);
  fs_op _ e := e;
  get_network _ _ := Some 200%Z;
  create_network _ e := (Some 201%Z, e);
  create_container _ _ e := (Some 201%Z, e);
  start_container _ e := (Some 204%Z, e);
  delete_image _ e := e
|}.

#[export] Instance toy_host : CaddyHost toy := {|
  mkdir _ e := (Ok tt, e);
  write_file p b e := (Ok tt, MkToy (<[p := b]> (t_files e)) (t_up e) (t_loaded e) (t_reloads e) (t_attached e));
  read_file p e := match t_files e !! p with Some d => Ok d | None => Err "no such file" end;
  get_inspect _ e := Ok (if t_up e then (200, "", Ok toy_insp) else (404, "", Err ""))%Z;
  connect _ _ e := (Ok (200%Z, ""), e);
  delete_caddy e := (Ok (204%Z, ""), MkToy (t_files e) false None (t_reloads e) (t_attached e));
  create_caddy _ e := (Ok (201%Z, ""), e);
  put_archive _ e := (Ok (500%Z, ""), e);
  start_caddy e := (Ok (204%Z, ""), MkToy (t_files e) true (t_files e !! toy_path) (t_reloads e) (t_attached e));
  list_ids e := Ok (200%Z, "", Ok ["c1"]);
  endpoints n e := Ok (200%Z, "", Ok (map snd (filter (fun p => p.1 = n) (t_attached e))));
  disconnect n c e := (Ok (200%Z, ""), MkToy (t_files e) (t_up e) (t_loaded e) (t_reloads e) (filter (fun p => p <> (n, c)) (t_attached e)));
  exec_create cmd e := (Ok (201%Z, "", Ok (default "" (head cmd))), e);
  exec_start id e := (Ok "", if bool_decide (id = "caddy") && t_reloads e
                             then MkToy (t_files e) (t_up e) (t_files e !! toy_path) (t_reloads e) (t_attached e) else e);
  exec_code id e := Ok (Some (if t_reloads e then 0 else 1)%Z);
  listen _ _ _ := true;
  certs_on_disk _ _ := None;
  certs_in_archive _ := None
|}.

#[export] Instance toy_keeps : CaddyLaws toy.
Proof.
  refine (Build_CaddyLaws toy _ _ (fun e p => t_files e !! p) (fun e => t_files e !! toy_path) t_loaded (fun e n c => (n, c) ∈ t_attached e)
    _ _ _ _ _ _ _ _ _ _ _ _ _ _ _ _ _ _); try done.
  - intros p b e e' [= <-]. cbn. apply lookup_insert_eq.
  - intros p e d. cbn. destruct (t_files e !! p); congruence.
  - intros e b id e1 out e2 [= <- <- <-] [= <- <-]. cbn. by destruct (t_reloads e) eqn:Hr; rewrite ?Hr.
  - intros e b id e1 [= <- <- <-]. done.
  - intros n c e n' c' Hne. cbn. rewrite list_elem_of_filter. naive_solver.
Defined.

Definition toy_sha (s : string) : string :=
  if contains s "other.example" then "22222222222222222222222222222222" else "11111111111111111111111111111111".
Notation toy_apply := (Ingress.Apply toy_sha 0 "linux" "" id demo_cfg "/data" toy_config (fun _ => None)).
Notation toy_render db := (Ingress.render "linux" "" id demo_cfg db).1.
Definition toy_start : toy := MkToy ∅ false None true [].
Definition web_db : DB := demo_db "web" "alice".
Definition two_db : DB := set_domains (fun ds => <["other.example" := demo_domain "" ""]> ds) web_db.
Definition after_web := (toy_apply 9 New web_db toy_start).2.

Lemma toy_bind : Containerized demo_cfg = false -> forall e : toy, mounted e = disk e (caddyfilePath toy_config).
Proof. done. Qed.

(** A second [Apply] of the same rows, with nothing to deploy. *)
Definition after_again := (toy_apply 10 after_web.1.1 web_db after_web.2).2.
Lemma Apply_reflects_witness :
  (exists t, loaded after_again.2 = Some t /\ sha256Hex toy_sha t = sha256Hex toy_sha (toy_render web_db)) /\
  exists r', domains after_again.1.2 !! "app.example.com" = Some r' /\ d_observed r' = Some "bound" /\ d_last_error r' = Some "".
Proof.
  destruct (Apply_reflects toy_sha 0 "linux" "" id demo_cfg "/data" toy_config (fun _ => None) toy_bind
    10 after_web.1.1 web_db after_web.2 after_again.1.1 after_again.1.2 after_again.2) as ((t & Ht & Hh & _) & _ & Hrows).
  - intros s. unfold toy_sha. by destruct (contains s _).
  - reflexivity.
  - eapply (managed_apply _ _ _ _ _ _ _ _ _ 9 New web_db toy_start (Ok tt)); [apply managed_new|vm_compute; reflexivity|by left].
  - vm_compute. reflexivity.
  - split; [exists t; exact (conj Ht Hh)|]. destruct (Hrows "app.example.com" (demo_domain "alice" sample_hash) eq_refl) as (r' & Hr' & Hf).
    exists r'. split; [exact Hr'|]. assert (Hv : plan "linux" "" id (bindByDomain (ListBindings web_db)) (svcMap (ListInstanceServices web_db))
      (readDomain "app.example.com" (demo_domain "alice" sample_hash)) =
      MkVerdict (Some (MkSite "app.example.com" [BasicAuth "alice" sample_hash; HandleErrors; Redir "/cam/"; Proxy "obacht-app:80"])) "bound" None [])
      by (vm_compute; reflexivity).
    rewrite Hv in Hf. split; [exact (f_equal (fun x => x.1.1.1.1.1) Hf)|exact (f_equal (fun x => x.1.1.1.1.2) Hf)].
Defined.

Definition leaked : toy := MkToy ∅ true None true [("obacht-edge", "c1"); ("obacht-edge", "gone")].
Lemma recovery_spares_live_witness : attached (recoverStalePortBindings demo_cfg leaked).2 "obacht-edge" "c1".
Proof. apply (recovery_spares_live demo_cfg leaked 200 "" ["c1"] "obacht-edge" "c1"); [reflexivity|by left|by left]. Defined.

Lemma forwarders_bounded_witness :
  3000%Z ∈ localProxies (syncLocalPortForwarders "darwin" "192.168.64.1" [3000; 51820; 70000]%Z toy_start New).
Proof.
  apply (forwarders_bounded (E := toy) "192.168.64.1" [3000; 51820; 70000]%Z toy_start New); [done|done|by left|lia|lia].
Defined.

(** A rejected Caddyfile stays on disk: when the change is taken back the digest
    is the remembered one, so nothing is written, and the next start of the
    container would load the rejected text. *)
Definition rejecting (e : toy) : toy := MkToy (t_files e) (t_up e) (t_loaded e) false (t_attached e).
Definition after_two := toy_apply 10 after_web.1.1 two_db (rejecting after_web.2).
Definition after_revert := toy_apply 11 after_two.2.1.1 web_db after_two.2.2.
Example rejected_file_stays :
  is_ok after_two.1 = false /\ is_ok after_revert.1 = true /\
  lastHash after_revert.2.1.1 = sha256Hex toy_sha (toy_render web_db) /\
  disk after_revert.2.2 toy_path = Some (toy_render two_db) /\ toy_render two_db <> toy_render web_db.
Proof.
  assert (Hd : bool_decide (toy_render two_db = toy_render web_db) = false) by (vm_compute; reflexivity).
  split; [vm_compute; reflexivity|]. split; [vm_compute; reflexivity|]. split; [vm_compute; reflexivity|].
  split; [vm_compute; reflexivity|]. by apply bool_decide_eq_false in Hd.
Qed.
