(* ===== verification/ComposeRun.v ===== *)
(** * Running compose bundles: internal/runtime/compose/compose.go

    The driver's effects: the workspace with its atomically written files, the
    docker command line, the pre-pull, the teardown by project name and its
    last resort, the list of workspaces and the per-service status.  The file
    system and the command line are the class [ComposeHost]; rendering is
    Compose.v, pulling is the container driver. *)

From S2P Require Import Prelude Host GoStrings GoUrl Codec Utf8 Json GoAny Store Container Compose.

(** What a bundle's run asks of the machine: system calls, the docker command
    (its error text if it failed, and its output), the context's error and the
    progress report. *)
Class ComposeHost (E : Type) := {
  make_dir : string -> E -> res string unit * E;
  read_content : string -> E -> option string;
  file_exists : string -> E -> bool;
  open_trunc : string -> E -> res string unit * E;
  f_write : string -> string -> E -> res string unit * E;
  f_sync : string -> E -> res string unit * E;
  f_close : string -> E -> res string unit * E;
  rename : string -> string -> E -> res string unit * E;
  unlink : string -> E -> E;
  remove_all : string -> E -> res string unit * E;
  read_dir : string -> E -> res bool (list (string * bool));   (* the error: is it ErrNotExist *)
  docker : list string -> E -> option string * string * E;
  ctx_err : E -> option string;
  report_starting : string -> E -> E
}.

Inductive run_error :=
| Text (t : string)
| Invalid (what : string) (e : compose_error)    (* "apply: " or "remove: " *)
| RenderFailed (e : compose_error)
| DiskFull (e : driver_error)
| DropSecrets (e : store_error).

(** Programs over the database and the machine. *)
Notation R E A := (prog run_error (DB * E) A).
Definition on_host {E A} (m : prog run_error E A) : R E A := fun s => let '(r, e) := m s.2 in (r, (s.1, e)).
Definition on_db {E A} (m : DB -> res run_error A * DB) : R E A := fun s => let '(r, db) := m s.1 in (r, (db, s.2)).

Section driver.
Context (sha256 : string -> string) (min_free : Z) (root : string) (puller : bool).
Context (yaml_decode : string -> res unit (option amap)) (rd : nat -> nat -> string).
Context {E : Type} `{Engine E} `{ComposeHost E}.
Notation call := (host_send Text).

Definition in_text {A} (what : string) (m : prog run_error E A) : prog run_error E A :=
  fun e => let '(r, e) := m e in (match r with Err (Text t) => Err (Text (what +:+ t)) | r => r end, e).

(** The command line; errors are dropped where the code drops them. *)
Definition run_docker (args : list string) : prog run_error E string :=
  fun e => let '(err, out, e) := docker args e in (match err with None => Ok out | Some t => Err (Text t) end, e).
Definition docker_quietly (args : list string) : prog run_error E unit := htry (run_docker args) ;;; hret tt.

Definition project_label (id : string) : string := "label=com.docker.compose.project=" +:+ ProjectName id.
Definition Workspace (id : string) : string := Join2 root (Base id).

(** [fileHash]: empty when the file cannot be read. *)
Definition fileHash (path : string) (e : E) : string :=
  match read_content path e with Some b => hex_encode (sha256 b) | None => "" end.

(** A write that fails removes its temporary file; [close] is the program to
    run before that. *)
Definition or_unlink (tmp : string) (close : prog run_error E unit) (m : prog run_error E unit) : prog run_error E unit :=
  fun e => match m e with
           | (Ok _, e) => (Ok tt, e)
           | (Err x, e) => let '(_, e) := close e in (Err x, unlink tmp e)
           end.

Definition atomicWriteFile (path data : string) : prog run_error E unit :=
  let tmp := path +:+ ".tmp" in
  call "" (open_trunc tmp) ;;;
  or_unlink tmp (call "" (f_close tmp)) (call "" (f_write tmp data)) ;;;
  or_unlink tmp (call "" (f_close tmp)) (call "" (f_sync tmp)) ;;;
  or_unlink tmp (hret tt) (call "" (f_close tmp)) ;;;
  or_unlink tmp (hret tt) (call "" (rename tmp path)).

Fixpoint dedupe (seen : list string) (l : list string) : list string :=
  match l with
  | [] => []
  | x :: l => if bool_decide (x ∈ seen) || emptyb x then dedupe seen l else x :: dedupe (x :: seen) l
  end.

(** Any failure gives no images. *)
Definition projectImageIDs (id : string) : prog run_error E (list string) :=
  do! cids := htry (run_docker ["ps"; "-aq"; "--filter"; project_label id]) in
  match cids with
  | Err _ => hret []
  | Ok out =>
      match fields out with
      | [] => hret []
      | cids =>
          do! imgs := htry (run_docker (["inspect"; "--format"; "{{.Image}}"] ++ cids)) in
          hret (match imgs with Ok out => dedupe [] (fields out) | Err _ => [] end)
      end
  end.

Definition removeImage (image : string) : prog run_error E unit :=
  if emptyb image then hret tt else docker_quietly ["image"; "rm"; image].

Definition runCompose (id : string) (args : list string) : prog run_error E unit :=
  fun e =>
  let ws := Workspace id in
  let envPath := Join2 ws ".env" in
  let full := ["compose"; "--project-name"; ProjectName id; "--file"; Join2 ws "docker-compose.yml"] ++
              (if file_exists envPath e then ["--env-file"; envPath] else []) ++ args in
  let '(err, out, e) := docker full e in
  (match err with
   | None => Ok tt
   | Some t => Err (Text ("docker " +:+ join " " args +:+ ": " +:+ t +:+ " (output: " +:+ trim_space out +:+ ")"))
   end, e).

Definition projectDown (id : string) : prog run_error E unit :=
  fun e =>
  let '(err, out, e) := docker ["compose"; "--project-name"; ProjectName id; "down"; "-v"; "--remove-orphans"] e in
  (match err with
   | None => Ok tt
   | Some t => Err (Text ("compose down (project " +:+ ProjectName id +:+ "): " +:+ t +:+ " (output: " +:+ trim_space out +:+ ")"))
   end, e).

(** Everything still labelled with the project, one kind after the other. *)
Definition force_kind (list_args rm_args : list string) : prog run_error E unit :=
  do! out := htry (run_docker list_args) in
  match out with
  | Err _ => hret tt
  | Ok out => hfor (fun x => docker_quietly (rm_args ++ [x])) (fields out)
  end.
Definition forceRemoveByLabel (id : string) : prog run_error E unit :=
  force_kind ["ps"; "-aq"; "--filter"; project_label id] ["rm"; "-f"; "-v"] ;;;
  force_kind ["volume"; "ls"; "-q"; "--filter"; project_label id] ["volume"; "rm"; "-f"] ;;;
  force_kind ["network"; "ls"; "-q"; "--filter"; project_label id] ["network"; "rm"].

(** The pre-pull stops at the first image that fails. *)
Fixpoint prePull (refs : list string) : prog run_error E unit :=
  match refs with
  | [] => hret tt
  | ref :: refs =>
      do! r := htry (host_send_with DiskFull (pullIfMissing min_free ref 0)) in
      match r with Ok _ => prePull refs | Err _ => hret tt end
  end.

Definition check_cancelled : prog run_error E unit :=
  fun e => (match ctx_err e with Some t => Err (Text t) | None => Ok tt end, e).

(** [Apply] after rendering: the result says whether the file changed. *)
Definition apply_body (id : string) (spec : Spec) (body : string) : prog run_error E bool :=
  let ws := Workspace id in
  let composePath := Join2 ws "docker-compose.yml" in
  call "mkdir workspace: " (make_dir ws) ;;;
  do! prevHash := (fun e => (Ok (fileHash composePath e), e)) in
  in_text "write compose: " (atomicWriteFile composePath body) ;;;
  in_text "write env file: " (atomicWriteFile (Join2 ws ".env") (EnvFile spec)) ;;;
  let changed := negb (bool_decide (prevHash = hex_encode (sha256 body))) in
  hwhen changed (host_send_with DiskFull (fun e => (EnsureFreeAtLeast min_free (MiB (MinDiskMb spec)) e, e))) ;;;
  do! preUp := if changed then projectImageIDs id else hret [] in
  hwhen (changed && puller) (prePull (imageRefs body) ;;; check_cancelled) ;;;
  (fun e => (Ok tt, report_starting id e)) ;;;
  in_text "compose up: " (runCompose id ["up"; "-d"; "--remove-orphans"]) ;;;
  docker_quietly ["network"; "create"; PrimaryEdgeNetwork] ;;;
  docker_quietly ["network"; "connect"; PrimaryEdgeNetwork; PrimaryContainerName id (PrimaryService spec)] ;;;
  hfor removeImage preUp ;;;
  hret changed.

Definition Apply (id : string) (spec : Spec) : R E bool :=
  fun s =>
  if bool_decide (id = "") then (Err (Text "apply: instance id required"), s) else
  match validateInstanceID id with
  | Err x => (Err (Invalid "apply: " x), s)
  | Ok _ =>
      if bool_decide (PrimaryService spec = "") || (PrimaryPort spec =? 0)%Z
      then (Err (Text "apply: primary_service and primary_port required"), s) else
      match renderBody yaml_decode rd id spec s.1 with
      | (Err x, db) => (Err (RenderFailed x), (db, s.2))
      | (Ok body, db) => on_host (apply_body id spec body) (db, s.2)
      end
  end.

Definition Remove (id : string) : R E bool :=
  fun s =>
  match validateInstanceID id with
  | Err x => (Err (Invalid "remove: " x), s)
  | Ok _ =>
      (do! imageIDs := on_host (projectImageIDs id) in
       on_host (do! down := htry (projectDown id) in
                match down with Ok _ => hret tt | Err _ => forceRemoveByLabel id end) ;;;
       on_host (call "rm workspace: " (remove_all (Workspace id))) ;;;
       on_db (fun db => let '(r, db) := DropTemplateSecrets id db in
                        (match r with Ok u => Ok u | Err x => Err (DropSecrets x) end, db)) ;;;
       on_host (hfor removeImage imageIDs) ;;;
       hret true) s
  end.

(** [List]: directories below the root that hold a compose file. *)
Definition List (e : E) : res unit (list string) :=
  match read_dir root e with
  | Err true => Ok []
  | Err false => Err tt
  | Ok entries => Ok (map fst (filter (fun p => (p.2 && file_exists (Join2 (Join2 root p.1) "docker-compose.yml") e) = true) entries))
  end.

(** ** Status *)
Record ServiceStatus := MkStatus { ss_Service : string; ss_Name : string; ss_State : string; ss_Health : string; ss_Image : string }.

(** [strings.SplitN(line, "|", 5)] with all five parts. *)
Definition split5 (line : string) : option (string * string * string * string * string) :=
  '(a, r) ← cut line "|"; '(b, r) ← cut r "|"; '(c, r) ← cut r "|"; '(d, x) ← cut r "|"; Some (a, b, c, d, x).

Definition status_health (status : string) : string :=
  if contains status "(healthy)" then "healthy" else
  if contains status "(unhealthy)" then "unhealthy" else
  if contains status "health: starting" then "starting" else "".

Definition status_line (line : string) : option ServiceStatus :=
  if emptyb line then None else
  '(name, service, state, status, image) ← split5 line;
  Some (MkStatus service name state (status_health status) image).

Definition service_le (a b : ServiceStatus) : Prop := String.le (ss_Service a) (ss_Service b).
#[local] Instance service_le_dec a b : Decision (service_le a b).
Proof. unfold service_le. apply _. Defined.

Definition status_format : string :=
  "{{.Names}}|{{.Label " +:+ str1 "034" +:+ "com.docker.compose.service" +:+ str1 "034" +:+ "}}|{{.State}}|{{.Status}}|{{.Image}}".
Definition Status (id : string) : prog run_error E (list ServiceStatus) :=
  fun e =>
  let '(err, out, e) := docker ["ps"; "--all"; "--no-trunc"; "--filter"; project_label id; "--format"; status_format] e in
  (match err with
   | Some t => Err (Text ("docker ps for " +:+ id +:+ ": " +:+ t))
   | None => Ok (merge_sort service_le (omap status_line (split_on LF (trim_space out))))
   end, e).
End driver.
