(* ===== verification/ComposeProps.v ===== *)
(** * What the compose driver guarantees

    A file written atomically holds the old or the new contents; a removal
    ends whatever the docker command answers; a value put into a quoted scalar
    of a template stays inside it. *)

From S2P Require Import Prelude Host GoStrings GoUrl Codec Utf8 Json GoAny Store Container Compose ComposeRun.

(** ** Files *)
Class FileLaws (E : Type) `{ComposeHost E} := {
  content : E -> string -> option string;
  open_other : forall p e q, q <> p -> content (open_trunc p e).2 q = content e q;
  open_empty : forall p e e', open_trunc p e = (Ok tt, e') -> content e' p = Some "";
  write_all : forall p d e e', content e p = Some "" -> f_write p d e = (Ok tt, e') -> content e' p = Some d;
  write_other : forall p d e q, q <> p -> content (f_write p d e).2 q = content e q;
  sync_same : forall p e q, content (f_sync p e).2 q = content e q;
  close_same : forall p e q, content (f_close p e).2 q = content e q;
  rename_moves : forall a b e e', rename a b e = (Ok tt, e') -> content e' b = content e a;
  rename_other : forall a b e q, q <> a -> q <> b -> content (rename a b e).2 q = content e q;
  rename_fails : forall a b e x e' q, rename a b e = (Err x, e') -> content e' q = content e q;
  unlink_other : forall p e q, q <> p -> content (unlink p e) q = content e q
}.

Lemma tmp_differs p : p <> p +:+ ".tmp".
Proof. intros H. apply (f_equal slen) in H. rewrite slen_app in H. cbn in H. lia. Qed.

Section files.
Context {E : Type} `{FileLaws E}.
Notation call := (host_send Text).

Lemma keeps_unlink (P : E -> Prop) tmp close m :
  (forall e, P e -> P (unlink tmp e)) -> keeps P close -> keeps P m -> keeps P (or_unlink tmp close m).
Proof.
  intros Hu Hc Hm e He. unfold or_unlink. specialize (Hm e He). destruct (m e) as [[[]|x] e1]; cbn in *; [done|].
  specialize (Hc e1 Hm). destruct (close e1) as [u e2]; cbn in *. by apply Hu.
Qed.

Lemma unlink_Ok tmp close m e u e' : or_unlink tmp close m e = (Ok u, e') -> m e = (Ok u, e').
Proof. unfold or_unlink. destruct (m e) as [[[]|x] e1]; [by intros [= <- <-]|]. by destruct (close e1). Qed.

(** The temporary file: written, flushed and closed. *)
Definition stage (tmp data : string) : prog run_error E unit :=
  call "" (open_trunc tmp) ;;;
  or_unlink tmp (call "" (f_close tmp)) (call "" (f_write tmp data)) ;;;
  or_unlink tmp (call "" (f_close tmp)) (call "" (f_sync tmp)) ;;;
  or_unlink tmp (hret tt) (call "" (f_close tmp)).

Lemma stage_then path data e : atomicWriteFile path data e =
  hbind (stage (path +:+ ".tmp") data) (fun _ => or_unlink (path +:+ ".tmp") (hret tt) (call "" (rename (path +:+ ".tmp") path))) e.
Proof.
  unfold atomicWriteFile, stage, hbind. cbn zeta.
  destruct (call "" (open_trunc (path +:+ ".tmp")) e) as [[u|x] e1]; [|done].
  destruct (or_unlink _ _ _ e1) as [[u1|x] e2]; [|done]. by destruct (or_unlink _ _ _ e2) as [[u2|x] e3].
Qed.

Lemma stage_keeps tmp data q v : q <> tmp -> keeps (fun e => content e q = v) (stage tmp data).
Proof.
  intros Hq. unfold stage. assert (Hu : forall e, content e q = v -> content (unlink tmp e) q = v) by (intros e; by rewrite unlink_other).
  assert (Hc : keeps (fun e => content e q = v) (call "" (f_close tmp))) by (apply keeps_send; intros e; by rewrite close_same).
  apply keeps_bind; [apply keeps_send; intros e; by rewrite open_other|intros _].
  apply keeps_bind; [apply keeps_unlink; [done..|]; apply keeps_send; intros e; by rewrite write_other|intros _].
  apply keeps_bind; [apply keeps_unlink; [done..|]; apply keeps_send; intros e; by rewrite sync_same|intros _].
  apply keeps_unlink; [done|auto with host|done].
Qed.

Lemma stage_Ok tmp data e e' : stage tmp data e = (Ok tt, e') -> content e' tmp = Some data.
Proof.
  unfold stage. rewrite hbind_Ok. intros ([] & e1 & Ho%send_Ok & Hr). apply open_empty in Ho.
  apply hbind_Ok in Hr as ([] & e2 & Hw%unlink_Ok%send_Ok & Hr). apply write_all in Hw; [|done].
  apply hbind_Ok in Hr as ([] & e3 & Hs%unlink_Ok%send_Ok & Hc%unlink_Ok%send_Ok).
  assert (H1 := sync_same tmp e2 tmp). rewrite Hs in H1. assert (H2 := close_same tmp e3 tmp). rewrite Hc in H2. cbn in H1, H2. congruence.
Qed.

(** A reader sees the old contents or the new ones, never a part: the write
    succeeds with all of [data] in place, or fails with the file as it was, and
    no file but its temporary one is touched. *)
Theorem atomicWriteFile_atomic path data e r e' : atomicWriteFile path data e = (r, e') ->
  content e' path = (if is_ok r then Some data else content e path) /\
  forall q, q <> path -> q <> path +:+ ".tmp" -> content e' q = content e q.
Proof.
  rewrite stage_then. set (tmp := path +:+ ".tmp"). assert (Hne : path <> tmp) by apply tmp_differs.
  assert (Hk : forall q, q <> tmp -> content (stage tmp data e).2 q = content e q).
  { intros q Hq. by apply (stage_keeps tmp data q (content e q) Hq e). }
  unfold hbind. destruct (stage tmp data e) as [[[]|x] e1] eqn:Hs; cbn in Hk; [|intros [= <- <-]; auto].
  apply stage_Ok in Hs. unfold or_unlink, host_send, host_send_with.
  destruct (rename tmp path e1) as [[[]|t] e2] eqn:Hr; cbn; intros [= <- <-]; split; cbn [is_ok].
  - by rewrite (rename_moves _ _ _ _ Hr).
  - intros q Hp Hq. assert (Ho := rename_other tmp path e1 q Hq Hp). rewrite Hr in Ho. cbn in Ho. rewrite Ho. by apply Hk.
  - rewrite unlink_other, (rename_fails _ _ _ _ _ path Hr) by done. by apply Hk.
  - intros q Hp Hq. rewrite unlink_other, (rename_fails _ _ _ _ _ q Hr) by done. by apply Hk.
Qed.
End files.

(** ** Removal always ends *)
Section removal.
Context (root : string) {E : Type} `{ComposeHost E}.

Definition total {X S A} (m : prog X S A) : Prop := forall s, exists a s', m s = (Ok a, s').

Lemma total_bind {X S A B} (m : prog X S A) (f : A -> prog X S B) : total m -> (forall a, total (f a)) -> total (hbind m f).
Proof. intros Hm Hf s. unfold hbind. destruct (Hm s) as (a & s' & ->). apply Hf. Qed.
Lemma total_try {X S A} (m : prog X S A) : total (htry m).
Proof. intros s. unfold htry. destruct (m s) as [r s']. eauto. Qed.
Lemma total_ret {X S A} (a : A) : total (hret (X := X) (E := S) a).
Proof. intros s. unfold hret. eauto. Qed.
Lemma total_for {X S A} (f : A -> prog X S unit) l : (forall a, total (f a)) -> total (hfor f l).
Proof. intros Hf. induction l as [|a l IH]; cbn [hfor]; [apply total_ret|by apply total_bind]. Qed.
Lemma total_quiet args : total (docker_quietly (E := E) args).
Proof. apply total_bind; [apply total_try|intros; apply total_ret]. Qed.

Lemma total_images id : total (projectImageIDs (E := E) id).
Proof.
  apply total_bind; [apply total_try|]. intros [out|x]; [|apply total_ret]. destruct (fields out); [apply total_ret|].
  apply total_bind; [apply total_try|intros; apply total_ret].
Qed.

Lemma total_kind l r : total (force_kind (E := E) l r).
Proof.
  apply total_bind; [apply total_try|]. intros [out|x]; [|apply total_ret]. apply total_for. intros. apply total_quiet.
Qed.

Lemma host_run {A} (m : prog run_error E A) s : total m -> exists a e', on_host m s = (Ok a, (s.1, e')).
Proof. intros Hm. unfold on_host. destruct (Hm s.2) as (a & e' & ->). eauto. Qed.

Lemma total_down id : total (do! down := htry (projectDown (E := E) id) in
  match down with Ok _ => hret tt | Err _ => forceRemoveByLabel id end).
Proof.
  apply total_bind; [apply total_try|]. intros [u|x]; [apply total_ret|]. unfold forceRemoveByLabel.
  repeat (apply total_bind; [apply total_kind|intros _]). apply total_kind.
Qed.

Lemma Remove_total id s : validateInstanceID id = Ok tt ->
  (forall e, (remove_all (Workspace root id) e).1 = Ok tt) ->
  exists e', Remove root id s = (Ok true, ((DropTemplateSecrets id s.1).2, e')).
Proof.
  intros Hid Hrm. unfold Remove. rewrite Hid. unfold hbind at 1.
  destruct (host_run (projectImageIDs id) s (total_images id)) as (imgs & e1 & ->). unfold hbind at 1.
  destruct (host_run _ (s.1, e1) (total_down id)) as (u & e2 & ->). unfold hbind at 1. cbn [fst].
  assert (Hr : total (host_send Text "rm workspace: " (remove_all (Workspace root id)))).
  { intros e. unfold host_send, host_send_with. specialize (Hrm e). destruct (remove_all _ e) as [r e']. cbn in Hrm. rewrite Hrm. eauto. }
  destruct (host_run _ (s.1, e2) Hr) as (v & e3 & ->). unfold hbind at 1. cbn [fst on_db DropTemplateSecrets write snd]. unfold hbind at 1.
  destruct (host_run _ ((DropTemplateSecrets id s.1).2, e3) (total_for removeImage imgs ltac:(intros a; unfold removeImage; destruct (emptyb a); [apply total_ret|apply total_quiet])))
    as (w & e4 & Hf). cbn [fst DropTemplateSecrets write snd] in Hf. rewrite Hf. eexists. reflexivity.
Qed.

(** Whatever the docker command answers, a removal whose workspace directory
    can be deleted succeeds, and the instance's template secrets are gone. *)
Theorem Remove_never_stuck id s : validateInstanceID id = Ok tt ->
  (forall e, (remove_all (Workspace root id) e).1 = Ok tt) ->
  exists e', Remove root id s = (Ok true, ((DropTemplateSecrets id s.1).2, e')).
Proof. apply Remove_total. Qed.
End removal.

(** ** Values in quoted scalars

    How a YAML reader takes the inside of a double-quoted scalar (the escapes
    used here, no raw control characters), and how docker compose interpolates
    the value: [$$] is a dollar sign, any other dollar sign a variable. *)
Definition dq_escape (c : ascii) : option ascii :=
  if Ascii.eqb c "n" then Some LF else if Ascii.eqb c "r" then Some CR else if Ascii.eqb c "t" then Some TAB
  else if Ascii.eqb c "\" then Some "\"%char else if Ascii.eqb c "034" then Some "034"%char else None.
Definition prefixed (a : ascii) (r : option (string * string)) : option (string * string) :=
  match r with Some (w, t) => Some (String a w, t) | None => None end.

Fixpoint dq_read (s : string) : option (string * string) :=
  match s with
  | "" => None
  | String c s' =>
      if Ascii.eqb c "034" then Some ("", s') else
      if negb (Ascii.eqb c "\") then (if (code c <? 32)%N || (code c =? 127)%N then None else prefixed c (dq_read s')) else
      match s' with
      | "" => None
      | String d s'' =>
          if Ascii.eqb d "x" then
            match s'' with
            | String h (String l s3) =>
                match hex_value h, hex_value l with
                | Some a, Some b => if (a * 16 + b <? 128)%N then prefixed (ascii_of_N (a * 16 + b)) (dq_read s3) else None
                | _, _ => None
                end
            | _ => None
            end
          else match dq_escape d with Some b => prefixed b (dq_read s'') | None => None end
      end
  end.

Fixpoint interpolate (s : string) : option string :=
  match s with
  | "" => Some ""
  | String "$" (String "$" s') => String "$" <$> interpolate s'
  | String "$" _ => None
  | String c s' => String c <$> interpolate s'
  end.

(** Runes YAML allows in a scalar without folding or refusing them. *)
Definition yaml_rune (r : N) : bool :=
  negb ((127 <=? r) && (r <=? 159) || (r =? 8232) || (r =? 8233) || (r =? 65534) || (r =? 65535) || (r =? 65279))%N.

(** What the reader sees of one rune. *)
Definition shown (r : N) : string := if (r =? 36)%N then "$$" else encode_rune r.
Definition before (x : string) (p : string * string) : string * string := (x +:+ p.1, p.2).

Lemma prefixed_before a x (o : option (string * string)) : prefixed a (before x <$> o) = before (String a x) <$> o.
Proof. by destruct o as [[w t]|]. Qed.

Lemma dq_high x s : str_all (fun c => (128 <=? code c)%N) x = true -> dq_read (x +:+ s) = before x <$> dq_read s.
Proof.
  induction x as [|c x IH]; [intros _; cbn; by destruct (dq_read s) as [[w t]|]|]. cbn [str_all]. rewrite andb_true_iff. intros [Hc Hx].
  rewrite sapp_cons. cbn [dq_read]. rewrite IH, prefixed_before by done.
  by destruct c as [[] [] [] [] [] [] [] []]; cbn in Hc.
Qed.

Lemma interp_high x s : str_all (fun c => (128 <=? code c)%N) x = true -> interpolate (x +:+ s) = (fun w => x +:+ w) <$> interpolate s.
Proof.
  induction x as [|c x IH]; [intros _; cbn; by destruct (interpolate s)|]. cbn [str_all]. rewrite andb_true_iff. intros [Hc Hx]. rewrite sapp_cons.
  destruct c as [[] [] [] [] [] [] [] []]; cbn in Hc; try done; cbn [interpolate]; rewrite (IH Hx); by destruct (interpolate s).
Qed.

Lemma ascii_rune (P : N -> Prop) : Forall P (map N.of_nat (List.seq 0 128)) -> forall r, (r < 128)%N -> P r.
Proof.
  intros H r Hr. rewrite Forall_forall in H. apply H. apply list_elem_of_In, in_map_iff. exists (N.to_nat r).
  split; [lia|]. apply in_seq. lia.
Qed.

(** Evaluates the given functions at the literal of the goal. *)
Ltac eval_at f := match goal with |- context [f ?n] => let v := eval vm_compute in (f n) in change (f n) with v end.

Lemma dq_ascii s : forall r, (r < 128)%N -> yaml_rune r = true -> dq_read (esc_rune r +:+ s) = before (shown r) <$> dq_read s.
Proof.
  apply (ascii_rune (fun r => yaml_rune r = true -> dq_read (esc_rune r +:+ s) = before (shown r) <$> dq_read s)).
  cbn [List.seq map N.of_nat]. repeat (apply Forall_cons_2; [intros Hy; first [discriminate Hy|eval_at esc_rune; eval_at shown; cbn; by destruct (dq_read s) as [[w t]|]]|]).
  apply Forall_nil_2.
Qed.

Lemma interp_ascii w : forall r, (r < 128)%N -> interpolate (shown r +:+ w) = (fun v => encode_rune r +:+ v) <$> interpolate w.
Proof.
  apply (ascii_rune (fun r => interpolate (shown r +:+ w) = (fun v => encode_rune r +:+ v) <$> interpolate w)).
  cbn [List.seq map N.of_nat]. repeat (apply Forall_cons_2; [eval_at shown; eval_at encode_rune; cbn; by destruct (interpolate w)|]).
  apply Forall_nil_2.
Qed.

Lemma high_same r : (128 <= r)%N -> esc_rune r = encode_rune r /\ shown r = encode_rune r.
Proof.
  intros Hr. unfold esc_rune, shown.
  repeat match goal with |- context [(r =? ?n)%N] => destruct (N.eqb_spec r n); [lia|] end.
  by destruct (N.ltb_spec r 32); [lia|].
Qed.

Lemma dq_rune r s : yaml_rune r = true -> dq_read (esc_rune r +:+ s) = before (shown r) <$> dq_read s.
Proof.
  intros Hy. destruct (N.lt_ge_cases r 128) as [Hr|Hr]; [by apply dq_ascii|].
  destruct (high_same r Hr) as [-> ->]. by apply dq_high, encode_rune_high.
Qed.

Lemma interp_rune r w : interpolate (shown r +:+ w) = (fun v => encode_rune r +:+ v) <$> interpolate w.
Proof.
  destruct (N.lt_ge_cases r 128) as [Hr|Hr]; [by apply interp_ascii|].
  destruct (high_same r Hr) as [_ ->]. by apply interp_high, encode_rune_high.
Qed.

Lemma escaped_runes rs t : Forall (fun r => yaml_rune r = true) rs ->
  exists w, dq_read (concat_strings (map esc_rune rs) +:+ String "034" t) = Some (w, t) /\ interpolate w = Some (encode_runes rs).
Proof.
  induction 1 as [|r rs Hr _ (w & Hw & Hi)]; [by exists ""|]. exists (shown r +:+ w).
  change (concat_strings (map esc_rune (r :: rs))) with (esc_rune r +:+ concat_strings (map esc_rune rs)).
  rewrite sapp_assoc, dq_rune, Hw by done. split; [done|]. by rewrite interp_rune, Hi.
Qed.

(** A configuration value never leaves its quoted scalar: read back up to the
    closing quote, then interpolated, it is the value itself and what followed
    is untouched. *)
Theorem yamlEscapeInner_contained v t : valid_utf8 v = true -> Forall (fun r => yaml_rune r = true) (runes v) ->
  exists w, dq_read (yamlEscapeInner v +:+ String "034" t) = Some (w, t) /\ interpolate w = Some v.
Proof.
  intros Hv Hy. destruct (encode_runes_valid v Hv) as [Hrunes _].
  destruct (escaped_runes (runes v) t Hy) as (w & Hw & Hi). exists w. split; [done|]. by rewrite Hi, Hrunes.
Qed.

Definition hostile : string := "a$b" +:+ String "034" (str1 LF) +:+ "  privileged: true #\".
Lemma yamlEscapeInner_contained_witness : exists w, dq_read (yamlEscapeInner hostile +:+ String "034" ": x") = Some (w, ": x") /\ interpolate w = Some hostile.
Proof.
  apply yamlEscapeInner_contained; [vm_compute; reflexivity|]. apply (bool_decide_unpack _). vm_compute. exact I.
Defined.

(** ** A machine *)
Record box := MkBox { k_files : gmap string string; k_log : list (list string); k_free : Z; k_answer : option string }.
Definition set_files f (b : box) : box := MkBox (f (k_files b)) (k_log b) (k_free b) (k_answer b).

#[export] Instance box_engine : Engine box := {|
  get_containers _ _ := Ok [];
  delete_container _ e := (Some 204%Z, e);
  get_image _ _ := Some 200%Z;
  free_bytes e := Some (k_free e);
  pull_image _ e := (Some 200%Z, e);
  repo_digests _ _ := Ok [];
  image_user _ _ := Ok "";
  mkdir_all _ e := (true, e);
  fs_op _ e := e;
  get_network _ _ := Some 200%Z;
  create_network _ e := (Some 201%Z, e);
  create_container _ _ e := (Some 201%Z, e);
  start_container _ e := (Some 204%Z, e);
  delete_image _ e := e
|}.

#[export] Instance box_host : ComposeHost box := {|
  make_dir _ e := (Ok tt, e);
  read_content p e := k_files e !! p;
  file_exists p e := bool_decide (is_Some (k_files e !! p));
  open_trunc p e := (Ok tt, set_files (fun m => <[p := ""]> m) e);
  f_write p d e := (Ok tt, set_files (fun m => <[p := d]> m) e);
  f_sync _ e := (Ok tt, e);
  f_close _ e := (Ok tt, e);
  rename a b e := match k_files e !! a with
                  | Some d => (Ok tt, set_files (fun m => <[b := d]> (delete a m)) e)
                  | None => (Err "no such file", e)
                  end;
  unlink p e := set_files (delete p) e;
  remove_all _ e := (Ok tt, e);
  read_dir _ _ := Ok [];
  docker args e := (k_answer e, "", MkBox (k_files e) (args :: k_log e) (k_free e) (k_answer e));
  ctx_err _ := None;
  report_starting _ e := e
|}.

#[export] Instance box_files : FileLaws box.
Proof.
  refine (Build_FileLaws box _ (fun e p => k_files e !! p) _ _ _ _ _ _ _ _ _ _); try done.
  - intros p e q Hq. cbn. by rewrite lookup_insert_ne.
  - intros p e e' [= <-]. apply lookup_insert_eq.
  - intros p d e e' _ [= <-]. apply lookup_insert_eq.
  - intros p d e q Hq. cbn. by rewrite lookup_insert_ne.
  - intros a b e e'. cbn. destruct (k_files e !! a) as [d|]; [|done]. intros [= <-]. apply lookup_insert_eq.
  - intros a b e q Ha Hb. cbn. destruct (k_files e !! a) as [d|]; [|done]. cbn. by rewrite lookup_insert_ne, lookup_delete_ne.
  - intros a b e x e' q. cbn. destruct (k_files e !! a); [done|]. by intros [= _ <-].
  - intros p e q Hq. cbn. by rewrite lookup_delete_ne.
Defined.

Definition no_disk : box := MkBox {["/w/a" := "old"]} [] 10485760 None.
Lemma atomicWriteFile_atomic_witness : exists e', atomicWriteFile "/w/a" "new" no_disk = (Ok tt, e') /\ content e' "/w/a" = Some "new".
Proof.
  exists (atomicWriteFile "/w/a" "new" no_disk).2. assert (Hr : atomicWriteFile "/w/a" "new" no_disk = (Ok tt, (atomicWriteFile "/w/a" "new" no_disk).2))
    by (vm_compute; reflexivity).
  split; [exact Hr|]. exact (proj1 (atomicWriteFile_atomic "/w/a" "new" no_disk (Ok tt) _ Hr)).
Defined.

Definition broken_docker : box := MkBox ∅ [] 0 (Some "exit status 1").
Lemma Remove_never_stuck_witness : exists e', Remove "/var/lib/obacht/compose" "wp" (fresh_db 0, broken_docker) = (Ok true, (fresh_db 0, e')).
Proof.
  destruct (Remove_never_stuck "/var/lib/obacht/compose" "wp" (fresh_db 0, broken_docker)) as [e' He]; [vm_compute; reflexivity|reflexivity|].
  exists e'. rewrite He. vm_compute. reflexivity.
Defined.

(** The file is written before the disk check, and an unchanged file skips the
    check: the pass after a refusal starts the bundle on the full disk. *)
Definition bundle : Spec := MkSpec ("services:" +:+ str1 LF +:+ "  web:" +:+ str1 LF +:+ "    image: nginx@sha256:00" +:+ str1 LF)
  "web" 80 ∅ None None ∅ None false "" 1000.
Notation pass s := (Apply (fun b => b) 0 "/w" true (fun _ => Err tt) (fun _ _ => "") "wp" bundle s).
Definition first_pass := pass (fresh_db 0, no_disk).
Definition second_pass := pass first_pass.2.
Definition starts (args : list string) : bool := bool_decide ("up" ∈ args).
Example disk_check_once :
  first_pass.1 = Err (DiskFull (Container.NoSpace 1048576000%Z)) /\ existsb starts (k_log first_pass.2.2) = false /\
  second_pass.1 = Ok false /\ existsb starts (k_log second_pass.2.2) = true.
Proof. repeat split; vm_compute; reflexivity. Qed.
