(* ===== verification/SystemParse.v ===== *)
(** * Reading system specs: ParseSpec and DetectFlavor of internal/runtime/system/spec.go

    The stored configuration of a system instance decoded into the spec of
    SystemSpec.v, and the lenient look at its flavor that the teardown uses when
    the spec no longer passes validation. *)

From S2P Require Import Prelude GoStrings Json JsonDec ReadinessConfig SystemSpec.

Definition dec_list {A B} (dec : decoder A) (zero : A) (name : string) (get : B -> list A) (set : list A -> B -> B) : field_dec B :=
  fld name (dec_slice dec zero) (fun b => Some (get b)) (fun v b => set (elems v) b).

Definition zero_http : PostStartHTTP := MkPostStartHTTP "" "" "" "" 0.
Definition dec_http : decoder PostStartHTTP := dec_struct
  [fld "method" dec_string Method (fun v h => MkPostStartHTTP v (URL h) (Body h) (ContentType h) (HTimeoutSeconds h));
   fld "url" dec_string URL (fun v h => MkPostStartHTTP (Method h) v (Body h) (ContentType h) (HTimeoutSeconds h));
   fld "body" dec_string Body (fun v h => MkPostStartHTTP (Method h) (URL h) v (ContentType h) (HTimeoutSeconds h));
   fld "contentType" dec_string ContentType (fun v h => MkPostStartHTTP (Method h) (URL h) (Body h) v (HTimeoutSeconds h));
   fld "timeoutSeconds" dec_int HTimeoutSeconds (fun v h => MkPostStartHTTP (Method h) (URL h) (Body h) (ContentType h) v)].
Definition zero_hook : PostStartHook := MkPostStartHook None.
Definition dec_hook : decoder PostStartHook := dec_struct [fld "http" (dec_ptr dec_http zero_http) HTTP (fun v _ => MkPostStartHook v)].

Definition zero_host : HostServiceSpec := MkHostServiceSpec "" "" "" "" "" [] ∅ "" [].
Definition dec_host : decoder HostServiceSpec := dec_struct
  [fld "kind" dec_string h_Kind (fun v h => MkHostServiceSpec v (h_Binary h) (h_BinaryURL h) (h_BinaryDigest h) (h_Archive h) (h_Args h) (h_Env h) (h_DataDir h) (h_PostStart h));
   fld "binary" dec_string h_Binary (fun v h => MkHostServiceSpec (h_Kind h) v (h_BinaryURL h) (h_BinaryDigest h) (h_Archive h) (h_Args h) (h_Env h) (h_DataDir h) (h_PostStart h));
   fld "binary_url" dec_string h_BinaryURL (fun v h => MkHostServiceSpec (h_Kind h) (h_Binary h) v (h_BinaryDigest h) (h_Archive h) (h_Args h) (h_Env h) (h_DataDir h) (h_PostStart h));
   fld "binary_digest" dec_string h_BinaryDigest (fun v h => MkHostServiceSpec (h_Kind h) (h_Binary h) (h_BinaryURL h) v (h_Archive h) (h_Args h) (h_Env h) (h_DataDir h) (h_PostStart h));
   fld "archive" dec_string h_Archive (fun v h => MkHostServiceSpec (h_Kind h) (h_Binary h) (h_BinaryURL h) (h_BinaryDigest h) v (h_Args h) (h_Env h) (h_DataDir h) (h_PostStart h));
   dec_list dec_string "" "args" h_Args (fun v h => MkHostServiceSpec (h_Kind h) (h_Binary h) (h_BinaryURL h) (h_BinaryDigest h) (h_Archive h) v (h_Env h) (h_DataDir h) (h_PostStart h));
   fld "env" dec_str_map h_Env (fun v h => MkHostServiceSpec (h_Kind h) (h_Binary h) (h_BinaryURL h) (h_BinaryDigest h) (h_Archive h) (h_Args h) v (h_DataDir h) (h_PostStart h));
   fld "data_dir" dec_string h_DataDir (fun v h => MkHostServiceSpec (h_Kind h) (h_Binary h) (h_BinaryURL h) (h_BinaryDigest h) (h_Archive h) (h_Args h) (h_Env h) v (h_PostStart h));
   dec_list dec_hook zero_hook "post_start" h_PostStart (fun v h => MkHostServiceSpec (h_Kind h) (h_Binary h) (h_BinaryURL h) (h_BinaryDigest h) (h_Archive h) (h_Args h) (h_Env h) (h_DataDir h) v)].

Definition zero_hardware : ManagedHardware := MkManagedHardware [] [].
Definition dec_hardware : decoder ManagedHardware := dec_struct
  [dec_list dec_string "" "groups" Groups (fun v h => MkManagedHardware v (Devices h));
   dec_list dec_string "" "devices" Devices (fun v h => MkManagedHardware (Groups h) v)].

Definition zero_managed : ManagedServiceSpec := MkManagedServiceSpec "" "" "" "" "" [] ∅ None [].
Definition dec_managed : decoder ManagedServiceSpec := dec_struct
  [fld "kind" dec_string m_Kind (fun v m => MkManagedServiceSpec v (m_Binary m) (m_BinaryURL m) (m_BinaryDigest m) (m_Archive m) (m_Args m) (m_Env m) (m_Hardware m) (m_ListenPorts m));
   fld "binary" dec_string m_Binary (fun v m => MkManagedServiceSpec (m_Kind m) v (m_BinaryURL m) (m_BinaryDigest m) (m_Archive m) (m_Args m) (m_Env m) (m_Hardware m) (m_ListenPorts m));
   fld "binary_url" dec_string m_BinaryURL (fun v m => MkManagedServiceSpec (m_Kind m) (m_Binary m) v (m_BinaryDigest m) (m_Archive m) (m_Args m) (m_Env m) (m_Hardware m) (m_ListenPorts m));
   fld "binary_digest" dec_string m_BinaryDigest (fun v m => MkManagedServiceSpec (m_Kind m) (m_Binary m) (m_BinaryURL m) v (m_Archive m) (m_Args m) (m_Env m) (m_Hardware m) (m_ListenPorts m));
   fld "archive" dec_string m_Archive (fun v m => MkManagedServiceSpec (m_Kind m) (m_Binary m) (m_BinaryURL m) (m_BinaryDigest m) v (m_Args m) (m_Env m) (m_Hardware m) (m_ListenPorts m));
   dec_list dec_string "" "args" m_Args (fun v m => MkManagedServiceSpec (m_Kind m) (m_Binary m) (m_BinaryURL m) (m_BinaryDigest m) (m_Archive m) v (m_Env m) (m_Hardware m) (m_ListenPorts m));
   fld "env" dec_str_map m_Env (fun v m => MkManagedServiceSpec (m_Kind m) (m_Binary m) (m_BinaryURL m) (m_BinaryDigest m) (m_Archive m) (m_Args m) v (m_Hardware m) (m_ListenPorts m));
   fld "hardware" (dec_ptr dec_hardware zero_hardware) m_Hardware (fun v m => MkManagedServiceSpec (m_Kind m) (m_Binary m) (m_BinaryURL m) (m_BinaryDigest m) (m_Archive m) (m_Args m) (m_Env m) v (m_ListenPorts m));
   dec_list dec_int 0%Z "listen_ports" m_ListenPorts (fun v m => MkManagedServiceSpec (m_Kind m) (m_Binary m) (m_BinaryURL m) (m_BinaryDigest m) (m_Archive m) (m_Args m) (m_Env m) (m_Hardware m) v)].

Definition zero_Service : Service := MkService "" "" 0 "" None.
Definition dec_Service : decoder Service := dec_struct
  [fld "name" dec_string s_Name (fun v s => MkService v (s_TargetType s) (s_TargetPort s) (s_AppPath s) (s_Readiness s));
   fld "target_type" dec_string s_TargetType (fun v s => MkService (s_Name s) v (s_TargetPort s) (s_AppPath s) (s_Readiness s));
   fld "target_port" dec_int s_TargetPort (fun v s => MkService (s_Name s) (s_TargetType s) v (s_AppPath s) (s_Readiness s));
   fld "app_path" dec_string s_AppPath (fun v s => MkService (s_Name s) (s_TargetType s) (s_TargetPort s) v (s_Readiness s));
   fld "readiness" (dec_ptr dec_Config zero_Config) s_Readiness (fun v s => MkService (s_Name s) (s_TargetType s) (s_TargetPort s) (s_AppPath s) v)].

Definition dec_File : decoder File := dec_struct
  [fld "path" dec_string f_Path (fun v f => MkFile v (f_Mode f) (f_Content f));
   fld "mode" dec_string f_Mode (fun v f => MkFile (f_Path f) v (f_Content f));
   fld "content" dec_string f_Content (fun v f => MkFile (f_Path f) (f_Mode f) v)].

(** A pointer to a struct without fields, and a [*json.RawMessage]: whether it is not nil. *)
Definition dec_marker : decoder bool := fun j _ => match j with JNull => (false, false) | JObj _ => (true, false) | _ => (true, true) end.
Definition dec_raw : decoder bool := fun j _ => match j with JNull => (false, false) | _ => (true, false) end.

Definition zero_Spec : Spec := MkSpec "" "" [] "" [] None None false.
Definition spec_fields : list (field_dec Spec) :=
  [fld "unit_name" dec_string UnitName (fun v s => MkSpec v (UnitTemplate s) (Files s) (ExclusivityGroup s) (Services s) (HostService s) (ManagedService s) (Kiosk s));
   fld "unit_template" dec_string UnitTemplate (fun v s => MkSpec (UnitName s) v (Files s) (ExclusivityGroup s) (Services s) (HostService s) (ManagedService s) (Kiosk s));
   dec_list dec_File (MkFile "" "" "") "files" Files (fun v s => MkSpec (UnitName s) (UnitTemplate s) v (ExclusivityGroup s) (Services s) (HostService s) (ManagedService s) (Kiosk s));
   fld "exclusivity_group" dec_string ExclusivityGroup (fun v s => MkSpec (UnitName s) (UnitTemplate s) (Files s) v (Services s) (HostService s) (ManagedService s) (Kiosk s));
   dec_list dec_Service zero_Service "services" Services (fun v s => MkSpec (UnitName s) (UnitTemplate s) (Files s) (ExclusivityGroup s) v (HostService s) (ManagedService s) (Kiosk s));
   fld "host_service" (dec_ptr dec_host zero_host) HostService (fun v s => MkSpec (UnitName s) (UnitTemplate s) (Files s) (ExclusivityGroup s) (Services s) v (ManagedService s) (Kiosk s));
   fld "managed_service" (dec_ptr dec_managed zero_managed) ManagedService (fun v s => MkSpec (UnitName s) (UnitTemplate s) (Files s) (ExclusivityGroup s) (Services s) (HostService s) v (Kiosk s));
   fld "kiosk" dec_marker Kiosk (fun v s => MkSpec (UnitName s) (UnitTemplate s) (Files s) (ExclusivityGroup s) (Services s) (HostService s) (ManagedService s) v)].
Definition dec_Spec : decoder Spec := dec_struct spec_fields.

Inductive parse_error := EmptySpec | BadJSON | Refused (e : spec_error).

Definition ParseSpec (configJSON : string) : res parse_error Spec :=
  if bool_decide (configJSON = "") then Err EmptySpec else
  match unmarshal dec_Spec zero_Spec configJSON with
  | None => Err BadJSON
  | Some s => match Validate s with Ok _ => Ok s | Err e => Err (Refused e) end
  end.

Record probe := MkProbe { p_Host : bool; p_Managed : bool; p_Kiosk : bool }.
Definition probe_fields : list (field_dec probe) :=
  [fld "host_service" dec_raw p_Host (fun v p => MkProbe v (p_Managed p) (p_Kiosk p));
   fld "managed_service" dec_raw p_Managed (fun v p => MkProbe (p_Host p) v (p_Kiosk p));
   fld "kiosk" dec_raw p_Kiosk (fun v p => MkProbe (p_Host p) (p_Managed p) v)].

Definition DetectFlavor (configJSON : string) : string :=
  if bool_decide (configJSON = "") then "" else
  match unmarshal (dec_struct probe_fields) (MkProbe false false false) configJSON with
  | None => ""
  | Some p => if p_Kiosk p then "kiosk" else if p_Managed p then "managed" else if p_Host p then "host_service" else ""
  end.

Definition HasPostStart (s : Spec) : bool :=
  match HostService s with Some h => negb (bool_decide (h_PostStart h = [])) | None => false end.

(** Texts with single quotes for the double ones. *)
Fixpoint unq (s : string) : string :=
  match s with "" => "" | String a s' => String (if Ascii.eqb a "'" then "034" else a)%char (unq s') end.

(** ** The two readers agree *)
Definition agree (s : Spec) (p : probe) : Prop :=
  p_Host p = bool_decide (is_Some (HostService s)) /\ p_Managed p = bool_decide (is_Some (ManagedService s)) /\ p_Kiosk p = Kiosk s.

(** The flavor of a spec with exactly one. *)
Definition flavor_of (s : Spec) : string :=
  if Kiosk s then "kiosk" else if bool_decide (is_Some (ManagedService s)) then "managed"
  else if bool_decide (is_Some (HostService s)) then "host_service" else "".

Definition step_of {A} (fs : list (field_dec A)) (k : string) (v : json) (cur : A) : A * bool :=
  match List.find (fun f => names_field f.1 k) fs with Some f => f.2 v cur | None => (cur, false) end.

Lemma dec_struct_fold {A} (fs : list (field_dec A)) ms cur :
  dec_struct fs (JObj ms) cur = fold_left (fun '(cur, e) '(k, v) => let '(cur', e') := step_of fs k v cur in (cur', e || e')) ms (cur, false).
Proof.
  unfold dec_struct. generalize false as e. revert cur. induction ms as [|[k v] ms IH]; intros cur e; [done|]. cbn [fold_left].
  unfold step_of at 2. unfold step_of at 1. destruct (List.find (fun f : string * decoder A => names_field f.1 k) fs) as [f|];
    [destruct (f.2 v cur)|rewrite orb_false_r]; apply IH.
Qed.

Lemma names_apart a b k : fold_key a <> fold_key b -> names_field a k = true -> names_field b k = false.
Proof.
  unfold names_field. intros Hne Ha%bool_decide_eq_true. apply bool_decide_eq_false. congruence.
Qed.

(** A pointer field without an error is nil for null and only then. *)
Lemma ptr_agrees {A} (dec : decoder A) zero v cur o : dec_ptr dec zero v cur = (o, false) -> bool_decide (is_Some o) = (dec_raw v false).1.
Proof. unfold dec_ptr. destruct v; try (by intros [= <-]); destruct (dec _ _); by intros [= <- _]. Qed.

Lemma marker_agrees v cur b : dec_marker v cur = (b, false) -> b = (dec_raw v false).1.
Proof. by destruct v; intros [= <-]. Qed.

Lemma fld_step {A B} name (dec : decoder B) (get : A -> B) set v a a' e : (fld name dec get set).2 v a = (a', e) ->
  exists b, dec v (get a) = (b, e) /\ a' = set b a.
Proof. unfold fld. cbn. destruct (dec v (get a)) as [b e']. intros [= <- <-]. eauto. Qed.

Lemma raw_step name get set v (p : probe) : (fld name dec_raw get set).2 v p = (set (dec_raw v false).1 p, false).
Proof. unfold fld. cbn. by destruct v. Qed.

(** A member of another field leaves the flavors alone. *)
Lemma other_step {B} name (dec : decoder B) get set k v s s' p : agree s p ->
  (forall b, HostService (set b s) = HostService s /\ ManagedService (set b s) = ManagedService s /\ Kiosk (set b s) = Kiosk s) ->
  names_field "host_service" k = false -> names_field "managed_service" k = false -> names_field "kiosk" k = false ->
  (fld name dec get set).2 v s = (s', false) ->
  exists p', step_of probe_fields k v p = (p', false) /\ agree s' p'.
Proof.
  intros Ha Hset H1 H2 H3 (b & _ & ->)%fld_step. exists p. unfold step_of, probe_fields. cbn [List.find fst fld]. rewrite H1, H2, H3.
  split; [done|]. destruct (Hset b) as (Hx & Hy & Hz). unfold agree. by rewrite Hx, Hy, Hz.
Qed.

Ltac no_flavor n := match goal with Hn : names_field n ?k = true |- _ =>
  assert (names_field "host_service" k = false) by (by apply (names_apart n));
  assert (names_field "managed_service" k = false) by (by apply (names_apart n));
  assert (names_field "kiosk" k = false) by (by apply (names_apart n)) end.

Lemma step_agree k v s p s' : agree s p -> step_of spec_fields k v s = (s', false) ->
  exists p', step_of probe_fields k v p = (p', false) /\ agree s' p'.
Proof.
  intros Ha Hstep. unfold step_of, spec_fields in Hstep. cbn [List.find fst fld dec_list] in Hstep.
  destruct (names_field "unit_name" k) eqn:H1; [no_flavor "unit_name"; revert Hstep; by eapply other_step|].
  destruct (names_field "unit_template" k) eqn:H2; [no_flavor "unit_template"; revert Hstep; by eapply other_step|].
  destruct (names_field "files" k) eqn:H3; [no_flavor "files"; revert Hstep; by eapply other_step|].
  destruct (names_field "exclusivity_group" k) eqn:H4; [no_flavor "exclusivity_group"; revert Hstep; by eapply other_step|].
  destruct (names_field "services" k) eqn:H5; [no_flavor "services"; revert Hstep; by eapply other_step|].
  destruct Ha as (Hh & Hm & Hk). unfold step_of, probe_fields. cbn [List.find fst fld].
  destruct (names_field "host_service" k) eqn:H6.
  { apply fld_step in Hstep as (b & Hb & ->). rewrite raw_step. eexists. split; [done|]. unfold agree. cbn.
    by rewrite (ptr_agrees _ _ _ _ _ Hb). }
  destruct (names_field "managed_service" k) eqn:H7.
  { apply fld_step in Hstep as (b & Hb & ->). rewrite raw_step. eexists. split; [done|]. unfold agree. cbn.
    by rewrite (ptr_agrees _ _ _ _ _ Hb). }
  destruct (names_field "kiosk" k) eqn:H8.
  { apply fld_step in Hstep as (b & Hb & ->). rewrite raw_step. eexists. split; [done|]. unfold agree. cbn.
    by rewrite (marker_agrees _ _ _ Hb). }
  injection Hstep as <-. exists p. done.
Qed.

Lemma fold_agree ms s p s' e0 : agree s p ->
  fold_left (fun '(cur, e) '(k, v) => let '(cur', e') := step_of spec_fields k v cur in (cur', e || e')) ms (s, e0) = (s', false) ->
  exists p', fold_left (fun '(cur, e) '(k, v) => let '(cur', e') := step_of probe_fields k v cur in (cur', e || e')) ms (p, false) = (p', false) /\ agree s' p'.
Proof.
  revert s p e0. induction ms as [|[k v] ms IH]; intros s p e0 Ha; cbn [fold_left].
  - intros [= <- _]. eauto.
  - destruct (step_of spec_fields k v s) as [s1 e1] eqn:Hs. intros Hf.
    assert (He : e0 || e1 = false).
    { destruct (e0 || e1) eqn:He; [|done]. exfalso. revert Hf. clear. revert s1. induction ms as [|[k v] ms IH]; intros s1; cbn [fold_left]; [done|].
      destruct (step_of spec_fields k v s1). apply IH. }
    rewrite He in Hf. apply orb_false_iff in He as [_ ->]. destruct (step_agree k v s p s1 Ha Hs) as (p1 & -> & Ha1). by apply (IH s1 p1 false).
Qed.

(** The lenient look at the flavor never misjudges a spec that parses: a
    teardown takes the path the installation took. *)
Theorem DetectFlavor_agrees configJSON s : ParseSpec configJSON = Ok s -> DetectFlavor configJSON = flavor_of s.
Proof.
  unfold ParseSpec, DetectFlavor, unmarshal. destruct (bool_decide (configJSON = "")); [done|].
  destruct (json_parse configJSON) as [j|]; [|done]. destruct (dec_Spec j zero_Spec) as [s1 e] eqn:Hd.
  destruct e; [done|]. destruct (Validate s1) as [u|x]; [|done]. intros [= ->].
  assert (Hp : exists p, dec_struct probe_fields j (MkProbe false false false) = (p, false) /\ agree s p).
  { destruct j as [| | | | |ms]; try discriminate Hd.
    - injection Hd as <-. eexists. by split.
    - change (dec_struct spec_fields (JObj ms) zero_Spec = (s, false)) in Hd. rewrite dec_struct_fold in Hd. rewrite dec_struct_fold. by apply (fold_agree ms zero_Spec _ s false). }
  destruct Hp as (p & -> & Hh & Hm & Hk). by rewrite Hh, Hm, Hk.
Qed.

Definition kiosk_json : string := unq "{'files':[{'path':'/etc/obacht/kiosk/config.env','content':'A=1'}],'Kiosk':{}}".
Lemma DetectFlavor_agrees_witness : exists s, ParseSpec kiosk_json = Ok s /\ DetectFlavor kiosk_json = flavor_of s.
Proof.
  exists (match ParseSpec kiosk_json with Ok s => s | Err _ => zero_Spec end).
  assert (Hp : ParseSpec kiosk_json = Ok (match ParseSpec kiosk_json with Ok s => s | Err _ => zero_Spec end)) by (vm_compute; reflexivity).
  split; [exact Hp|]. exact (DetectFlavor_agrees kiosk_json _ Hp).
Defined.
