(* ===== verification/Reconciler.v ===== *)
(** * The reconcile pass: internal/reconciler/loop.go

    Brings containers, bundles and system services to the desired states of the
    database and records what was observed.  The handlers and the pass are
    functions on a [World]: the readiness prober with the database in it, the
    work queue, the machine, and the signals sent so far.  The container and
    compose drivers are the ones of Container.v and ComposeRun.v; the system
    driver and the ingress manager are the interfaces of the code. *)

From S2P Require Import Prelude Host GoStrings GoUrl Codec Utf8 Json GoAny JsonDec ReadinessConfig WorkQueue Store StoreInv Prober.
From S2P Require Container Compose ComposeRun SystemSpec SystemParse.

(** ** Interfaces *)

(** [system.Driver]: a text is the error of a failed call. *)
Class SystemDriver (E : Type) := {
  sys_apply : string -> SystemSpec.Spec -> E -> option string * E;
  sys_remove : string -> SystemSpec.Spec -> E -> option string * E;
  sys_gc : list string -> E -> E
}.

(** [IngressApplier]: a failed call is only logged. *)
Class IngressApplier (E : Type) := { ingress_Apply : DB * E -> DB * E }.

(** The daemon's list of the containers labelled as managed. *)
Record rawContainer := MkRaw { raw_ID : string; raw_Names : list string; raw_State : string; raw_Labels : gmap string string }.
Class ManagedList (E : Type) := { get_managed : E -> res string (Z * res string (list rawContainer)) }.

Record ManagedContainer := MkManaged {
  mc_ID : string; mc_Name : string; mc_State : string; mc_InstanceID : string; mc_TemplateID : string; mc_ConfigHash : string
}.

Inductive signal := Notify | TriggerPass | TriggerIngress | Queued (id : string).

Record World (E : Type) := MkW { prober : Prober; queue : wq; machine : E; sent : list signal (* newest first *) }.
Arguments MkW {E}. Arguments prober {E}. Arguments queue {E}. Arguments machine {E}. Arguments sent {E}.

(** The statements of a teardown; the error of each is only logged. *)
Inductive statement := DropSecrets | ReleaseLocks | DeleteRow.

(** What a loop is built from: the agent's parameters, the socket path (an
    empty one disables injection), the gateway address, whether a compose driver,
    an ingress manager and a prober are wired, the texts of the drivers' errors,
    and which statements for which instance the database fails to execute at
    which time. *)
Class Loop := {
  sha256 : string -> string;
  goos : string;
  agentGID : Z;
  min_free : Z;
  httpsPort : Z;
  compose_root : string;
  puller : bool;
  yaml_decode : string -> res unit (option amap);
  rd : nat -> nat -> string;
  secret_bytes : string;
  socketPath : string;
  hostGatewayIP : string;
  has_compose : bool;
  has_ingress : bool;
  has_prober : bool;
  container_text : Container.driver_error -> string;
  secrets_text : Container.spec_error -> string;
  compose_parse_text : Compose.compose_error -> string;
  compose_text : ComposeRun.run_error -> string;
  system_text : SystemParse.parse_error -> string;
  db_fails : statement -> string -> Z -> bool
}.

Section reconciler.
Context {loop : Loop}.
Context {E : Type} `{Container.Engine E} `{ComposeRun.ComposeHost E} `{SystemDriver E} `{ManagedList E} `{IngressApplier E}.
Context (pw : E -> world) (now : Z).
Notation W := (World E).

Definition db (w : W) : DB := st (prober w).
Definition on_prober (f : Prober -> Prober) (w : W) : W := MkW (f (prober w)) (queue w) (machine w) (sent w).
Definition set_db (d : DB) (w : W) : W := on_prober (set_st d) w.
Definition set_machine (e : E) (w : W) : W := MkW (prober w) (queue w) e (sent w).
Definition signal_ (s : signal) (w : W) : W := MkW (prober w) (queue w) (machine w) (s :: sent w).
(** A database method whose error is only logged. *)
Definition write_db (m : M unit) (w : W) : W := set_db (m (db w)).2 w.
(** A statement of a teardown: when it fails the handler goes on without it. *)
Definition teardown_db (s : statement) (id : string) (m : string -> M unit) (w : W) : W :=
  if db_fails s id now then w else write_db (m id) w.

(** [isTransientDockerErr] *)
Definition isTransientDockerErr (text : string) : bool :=
  existsb (contains text) ["connection refused"; "EOF"; "dial unix"; "broken pipe"; "connection reset"; "no such file or directory"].

(** [container.Driver.List] *)
Definition List (e : E) : res string (list ManagedContainer) :=
  match get_managed e with
  | Err t => Err ("list containers: " +:+ t)
  | Ok (status, body) =>
      if negb (status =? 200)%Z then Err ("list containers: status " +:+ itoa status) else
      match body with
      | Err t => Err ("decode containers: " +:+ t)
      | Ok raw => Ok (map (fun c => MkManaged (raw_ID c) (match raw_Names c with n :: _ => trim_prefix n "/" | [] => "" end) (raw_State c)
                                     (default "" (raw_Labels c !! "obacht.instance.id")) (default "" (raw_Labels c !! "obacht.template.id"))
                                     (default "" (raw_Labels c !! "obacht.config.hash"))) raw)
      end
  end.

(** ** Readiness *)

Definition boundServices (d : DB) : gmap string string :=
  fold_left (fun (m : gmap string string) b => if emptyb (B_InstanceID b) then m else <[B_InstanceID b := B_ServiceName b]> m) (ListBindings d) ∅.

(** The loop that picks a service: the first routable one, or the last of the
    wanted name after it. *)
Definition pick_service {A} (routable : A -> bool) (name : A -> string) (want : string) (l : list A) : option A :=
  fold_left (fun pick s => if negb (routable s) then pick else
                           match pick with
                           | None => Some s
                           | Some _ => if bool_decide (name s = want) then Some s else pick
                           end) l None.

Definition readinessTarget (inst : Instance) (bound : gmap string string) : option Target :=
  let want := default "" (bound !! ID inst) in
  if bool_decide (Runtime inst = RuntimeContainer) then
    match Container.ParseSpec (ConfigJSON inst) with
    | Err _ => None
    | Ok spec =>
        s ← pick_service (fun s => negb (emptyb (Container.Name s)) && negb (Container.TargetPort s =? 0)%Z) Container.Name want
              (elems (Container.Services spec));
        Some (MkTarget (ID inst) (Container.Name s) ("obacht-" +:+ ID inst) (Container.TargetPort s) false (Container.Readiness s))
    end
  else if bool_decide (Runtime inst = RuntimeCompose) then
    match Compose.ParseSpec (ConfigJSON inst) with
    | Err _ => None
    | Ok spec =>
        s ← pick_service (fun s => negb (emptyb (Compose.Name s)) && negb (Compose.TargetPort s =? 0)%Z && negb (emptyb (Compose.TargetService s)))
              Compose.Name want (elems (Compose.Services spec));
        Some (MkTarget (ID inst) (Compose.Name s) (Compose.PrimaryContainerName (ID inst) (Compose.TargetService s)) (Compose.TargetPort s) false
                (Compose.Readiness s))
    end
  else if bool_decide (Runtime inst = RuntimeSystem) then
    match SystemParse.ParseSpec (ConfigJSON inst) with
    | Err _ => None
    | Ok spec =>
        if SystemParse.HasPostStart spec then None else
        s ← pick_service (fun s => negb (emptyb (SystemSpec.s_Name s)) && negb (SystemSpec.s_TargetPort s =? 0)%Z &&
                                   (emptyb (SystemSpec.s_TargetType s) || bool_decide (SystemSpec.s_TargetType s = "host_port")))
              SystemSpec.s_Name want (SystemSpec.Services spec);
        Some (MkTarget (ID inst) (SystemSpec.s_Name s) "" (SystemSpec.s_TargetPort s) true (SystemSpec.s_Readiness s))
    end
  else None.

(** [Begin] as a whole. *)
Definition ready_Begin (t : Target) (p : Prober) : Prober :=
  let n := next p in
  let p := Begin t p in
  match runs p !! n with Some r => Begin_rest n r now p | None => p end.

Definition beginReadiness (inst : Instance) (w : W) : W :=
  if negb has_prober then w else
  match readinessTarget inst (boundServices (db w)) with Some t => on_prober (ready_Begin t) w | None => w end.

Definition resetReadiness (inst : Instance) (w : W) : W :=
  if negb has_prober then w else
  let w := on_prober (Forget (ID inst) ("obacht-" +:+ ID inst)) w in
  if bool_decide (DesiredState inst = DesiredStopped) && negb (emptyb (ServiceReady inst))
  then write_db (SetServiceReady (ID inst) "" None) w else w.

Definition collectReadiness (inst : Instance) (bound : gmap string string) (steady : list Target) (w : W) : list Target * W :=
  if negb has_prober || negb (bool_decide (DesiredState inst = DesiredInstalled)) || negb (bool_decide (ObservedState inst = "installed"))
  then (steady, w) else
  match readinessTarget inst bound with
  | None => (steady, w)
  | Some t =>
      if bool_decide (ServiceReady inst = StateReady) || bool_decide (ServiceReady inst = StateUnhealthy) then (steady ++ [t], w)
      else if Active (ID inst) (prober w) then (steady, w) else (steady, on_prober (ready_Begin t) w)
  end.

(** ** Shared steps of the handlers *)

Definition set_observed (id state text : string) : W -> W := write_db (fun d => SetObservedState id state text now d).

Definition markInstalling (inst : Instance) (w : W) : W :=
  if negb (emptyb (ObservedState inst)) && negb (bool_decide (ObservedState inst = "pending")) then w
  else signal_ Notify (set_observed (ID inst) "installing" "" w).

Definition recordObservedError (inst : Instance) (text : string) (w : W) : bool * W :=
  (negb (bool_decide (ObservedState inst = "error")), set_observed (ID inst) "error" text w).

(** Registers the services that can be routed to. *)
Definition register {A} (routable : A -> bool) (svc : A -> InstanceService) (l : list A) (w : W) : W :=
  fold_left (fun w s => if routable s then write_db (UpsertService (svc s)) w else w) l w.

Definition containerSocket : string := "/run/obacht/agent.sock".

(** [injectIPC]: the new specification, or nothing when no secret could be issued. *)
Definition injectIPC (id : string) (spec : Container.Spec) (w : W) : option Container.Spec * W :=
  if emptyb socketPath then (Some spec, w) else
  let env := Container.Env spec in
  let env := match env !! "OBACHT_AGENT_SOCKET" with Some _ => env | None => <["OBACHT_AGENT_SOCKET" := containerSocket]> env end in
  let '(env, w) := match env !! "OBACHT_INSTANCE_SECRET" with
                   | Some _ => (Some env, w)
                   | None =>
                       let '(r, d) := EnsureInstanceSecret id secret_bytes (db w) in
                       (match r with Ok s => Some (<["OBACHT_INSTANCE_SECRET" := s]> env) | Err _ => None end, set_db d w)
                   end in
  match env with
  | None => (None, w)
  | Some env =>
      let spec := Container.set_Env env spec in
      let vols := elems (Container.Volumes spec) in
      (Some (if existsb (fun v => bool_decide (Container.MountTarget v = containerSocket)) vols then spec
             else Container.set_Volumes (Some (vols ++ [Container.MkVolumeMount socketPath containerSocket false true])) spec), w)
  end.

(** ** Container instances *)
Definition container_service (id : string) (s : Container.ServiceSpec) : InstanceService :=
  MkService id (Container.Name s) "docker_dns" ("obacht-" +:+ id +:+ ":" +:+ itoa (Container.TargetPort s)) (Container.AppPath s).

(** After a successful apply: services, observed state, readiness clock. *)
Definition container_applied (inst : Instance) (obs : gmap string ManagedContainer) (spec : Container.Spec) (applied : bool) (w : W) : bool * W :=
  let w := register (fun s => negb (emptyb (Container.Name s)) && negb (Container.TargetPort s =? 0)%Z) (container_service (ID inst))
             (elems (Container.Services spec)) w in
  let state := match obs !! ID inst with
               | Some c => if negb (emptyb (mc_State c)) && negb (bool_decide (mc_State c = "running")) then mc_State c else "installed"
               | None => "installed"
               end in
  let w := set_observed (ID inst) state "" w in
  let w := if applied || (bool_decide (state = "installed") && negb (bool_decide (ObservedState inst = "installed")))
           then beginReadiness inst w else w in
  (applied || negb (bool_decide (state = ObservedState inst)), w).

Definition applyContainer (inst : Instance) (obs : gmap string ManagedContainer) (w : W) : bool * W :=
  match Container.ParseSpec (ConfigJSON inst) with
  | Err _ => (false, w)
  | Ok spec =>
      match injectIPC (ID inst) spec w with
      | (None, w) => (false, w)
      | (Some spec, w) =>
          let '(r, d) := Container.ExpandSecrets rd (ID inst) spec (db w) in
          let w := set_db d w in
          match r with
          | Err x => recordObservedError inst (secrets_text x) w
          | Ok spec =>
              let spec := Container.ExpandHostVars hostGatewayIP spec in
              let w := markInstalling inst w in
              let '(r, e) := Container.Apply sha256 goos agentGID min_free (ID inst) (TemplateID inst) spec (machine w) in
              let w := set_machine e w in
              match r with
              | Err x => if isTransientDockerErr (container_text x) then (false, w) else recordObservedError inst (container_text x) w
              | Ok applied => container_applied inst obs spec applied w
              end
          end
      end
  end.

Definition docker_Remove (id : string) (w : W) : res Container.driver_error bool * W :=
  let '(r, e) := Container.Remove id (machine w) in (r, set_machine e w).

Definition reconcileContainerDown (inst : Instance) (w : W) : bool * W :=
  if bool_decide (DesiredState inst = DesiredStopped) then
    match docker_Remove (ID inst) w with
    | (Err _, w) => (false, w)
    | (Ok removed, w) => (removed, resetReadiness inst w)
    end
  else if bool_decide (DesiredState inst = DesiredRemoved) then
    match docker_Remove (ID inst) w with
    | (Err _, w) => (false, w)
    | (Ok _, w) =>
        let w := resetReadiness inst w in
        let w := teardown_db DropSecrets (ID inst) DropTemplateSecrets w in
        let w := teardown_db ReleaseLocks (ID inst) ReleaseLocksForInstance w in
        (true, teardown_db DeleteRow (ID inst) DeleteInstance w)
    end
  else (false, w).

(** ** Compose instances *)
Definition compose_service (id : string) (s : Compose.ServiceSpec) : InstanceService :=
  MkService id (Compose.Name s) "docker_dns"
    (Compose.PrimaryContainerName id (Compose.TargetService s) +:+ ":" +:+ itoa (Compose.TargetPort s)) (Compose.AppPath s).

(** Runs a compose driver operation on the world. *)
Definition compose_run {A} (m : prog ComposeRun.run_error (DB * E) A) (w : W) : res ComposeRun.run_error A * W :=
  let '(r, (d, e)) := m (db w, machine w) in (r, set_machine e (set_db d w)).

Definition compose_Remove (id : string) (w : W) : res ComposeRun.run_error bool * W :=
  compose_run (ComposeRun.Remove compose_root id) w.

Definition applyCompose (inst : Instance) (w : W) : bool * W :=
  if negb has_compose then (false, w) else
  match Compose.ParseSpec (ConfigJSON inst) with
  | Err Compose.EmptySpec => (false, w)
  | Err x => recordObservedError inst (compose_parse_text x) w
  | Ok spec =>
      let w := markInstalling inst w in
      match compose_run (ComposeRun.Apply sha256 min_free compose_root puller yaml_decode rd (ID inst) spec) w with
      | (Err x, w) => if isTransientDockerErr (compose_text x) then (false, w) else recordObservedError inst (compose_text x) w
      | (Ok applied, w) =>
          let w := register (fun s => negb (emptyb (Compose.Name s)) && negb (Compose.TargetPort s =? 0)%Z && negb (emptyb (Compose.TargetService s)))
                     (compose_service (ID inst)) (elems (Compose.Services spec)) w in
          let w := set_observed (ID inst) "installed" "" w in
          let fresh := applied || negb (bool_decide (ObservedState inst = "installed")) in
          (fresh, if fresh then beginReadiness inst w else w)
      end
  end.

Definition reconcileComposeDown (inst : Instance) (w : W) : bool * W :=
  if negb has_compose then (false, w)
  else if bool_decide (DesiredState inst = DesiredStopped) then
    match compose_Remove (ID inst) w with
    | (Err _, w) => (false, w)
    | (Ok removed, w) => (removed, resetReadiness inst w)
    end
  else if bool_decide (DesiredState inst = DesiredRemoved) then
    match compose_Remove (ID inst) w with
    | (Err _, w) => (false, w)
    | (Ok _, w) =>
        let w := resetReadiness inst w in
        let w := teardown_db ReleaseLocks (ID inst) ReleaseLocksForInstance w in
        (true, teardown_db DeleteRow (ID inst) DeleteInstance w)
    end
  else (false, w).

(** ** System instances *)
Definition system_service (id : string) (s : SystemSpec.Service) : InstanceService :=
  MkService id (SystemSpec.s_Name s) (if emptyb (SystemSpec.s_TargetType s) then "host_port" else SystemSpec.s_TargetType s)
    ("127.0.0.1:" +:+ itoa (SystemSpec.s_TargetPort s)) (SystemSpec.s_AppPath s).

Definition kiosk_only : SystemSpec.Spec := SystemSpec.MkSpec "" "" [] "" [] None None true.

(** Whether the instance converged to installed. *)
Definition reconcileSystem (inst : Instance) (w : W) : bool * W :=
  let id := ID inst in
  if bool_decide (DesiredState inst = DesiredInstalled) then
    match SystemParse.ParseSpec (ConfigJSON inst) with
    | Err SystemParse.EmptySpec => (false, w)
    | Err x => (false, set_observed id "error" (system_text x) w)
    | Ok spec =>
        let group := SystemSpec.ExclusivityGroup spec in
        let '(locked, w) := if emptyb group then (true, w)
                            else let '(r, d) := TryAcquireLock group id (db w) in (is_ok r, set_db d w) in
        if negb locked then
          (false, set_observed id "error" ("resource " +:+ str1 "034" +:+ group +:+ str1 "034" +:+ " already in use by " +:+ GetLockHolder group (db w)) w)
        else
          let '(err, e) := sys_apply id spec (machine w) in
          let w := set_machine e w in
          match err with
          | Some t => (false, set_observed id "error" t w)
          | None =>
              let w := register (fun s => negb (emptyb (SystemSpec.s_Name s)) && negb (SystemSpec.s_TargetPort s =? 0)%Z)
                         (system_service id) (SystemSpec.Services spec) w in
              (true, set_observed id "installed" "" w)
          end
    end
  else if bool_decide (DesiredState inst = DesiredStopped) || bool_decide (DesiredState inst = DesiredRemoved) then
    let spec := match SystemParse.ParseSpec (ConfigJSON inst) with
                | Ok spec => spec
                | Err _ => if bool_decide (SystemParse.DetectFlavor (ConfigJSON inst) = "kiosk") then kiosk_only else SystemParse.zero_Spec
                end in
    let '(err, e) := sys_remove id spec (machine w) in
    let w := set_machine e w in
    match err with
    | Some _ => (false, w)
    | None =>
        let w := resetReadiness inst w in
        let w := teardown_db ReleaseLocks id ReleaseLocksForInstance w in
        (false, if bool_decide (DesiredState inst = DesiredRemoved) then teardown_db DeleteRow id DeleteInstance w
                else set_observed id "stopped" "" w)
    end
  else (false, w).

(** ** The pass *)
Definition set_ObservedState (s : string) (i : Instance) : Instance :=
  MkInstance (ID i) (TemplateID i) (Runtime i) (Version i) (DesiredState i) (ConfigJSON i) s (ObservedJSON i) (ObservedAt i)
    (ServiceReady i) (ReadyAt i) (CreatedAt i) (UpdatedAt i).

Record pass_state := MkPass { p_changed : bool; p_steady : list Target; p_world : W }.

Definition enqueue (inst : Instance) (w : W) : W :=
  let '(q, report) := enqueueApply (ID inst) (ObservedState inst) (queue w) in
  let q := if bool_decide (ID inst ∈ workPending (queue w)) || bool_decide (workActive (queue w) = ID inst) then q else sendKick q in
  MkW (prober w) q (machine w) (if report then Queued (ID inst) :: sent w else sent w).

(** One turn of the loop over the rows. *)
Definition reconcile_one (syncApply : bool) (obs : gmap string ManagedContainer) (bound : gmap string string) (s : pass_state) (inst : Instance) : pass_state :=
  let '(MkPass changed steady w) := s in
  let is_container := bool_decide (Runtime inst = RuntimeContainer) in
  if is_container || bool_decide (Runtime inst = RuntimeCompose) then
    if bool_decide (DesiredState inst = DesiredInstalled) then
      let '(c, w) := if syncApply then (if is_container then applyContainer inst obs w else applyCompose inst w)
                     else (false, enqueue inst w) in
      let '(steady, w) := collectReadiness inst bound steady w in
      MkPass (c || changed) steady w
    else if negb syncApply && workerBusyWith (ID inst) (queue w) then s
    else
      let '(c, w) := if is_container then reconcileContainerDown inst w else reconcileComposeDown inst w in
      MkPass (c || changed) steady w
  else if bool_decide (Runtime inst = RuntimeSystem) then
    let '(installed, w) := reconcileSystem inst w in
    if installed then
      let '(steady, w) := collectReadiness (set_ObservedState "installed" inst) bound steady w in MkPass changed steady w
    else MkPass changed steady w
  else s.

(** Containers, then compose workspaces, without a row. *)
Definition gc_container (desired : list string) (s : bool * W) (id : string) : bool * W :=
  if bool_decide (id ∈ desired) then s else
  match docker_Remove id s.2 with
  | (Ok true, w) => (true, w)
  | (_, w) => (s.1, w)
  end.
Definition gc_compose (desired : list string) (s : bool * W) (id : string) : bool * W :=
  if bool_decide (id ∈ desired) then s else
  match compose_Remove id s.2 with
  | (Ok true, w) => (true, w)
  | (_, w) => (s.1, w)
  end.

Definition observedByInstance (l : list ManagedContainer) : gmap string ManagedContainer :=
  fold_left (fun (m : gmap string ManagedContainer) c => if emptyb (mc_InstanceID c) then m else <[mc_InstanceID c := c]> m) l ∅.

Definition garbage_collect (desired : list Instance) (obs : gmap string ManagedContainer) (s : bool * W) : bool * W :=
  let ids := map ID desired in
  let keep := map ID (filter (fun i => Runtime i = RuntimeSystem /\ DesiredState i = DesiredInstalled) desired) in
  let s := (s.1, set_machine (sys_gc keep (machine s.2)) s.2) in
  let s := fold_left (gc_container ids) (map fst (map_to_list obs)) s in
  if negb has_compose then s else
  match ComposeRun.List compose_root (machine s.2) with
  | Err _ => s
  | Ok orphans => fold_left (gc_compose ids) orphans s
  end.

(** After the loop: orphans, the settled instances, the ingress. *)
Definition finish_pass (syncApply : bool) (desired : list Instance) (obs : gmap string ManagedContainer) (s : pass_state) : bool * W :=
  let '(changed, w) := garbage_collect desired obs (p_changed s, p_world s) in
  let w := if has_prober then on_prober (fun p => (RunSteady goos httpsPort (pw (machine w)) now (p_steady s) p).1) w else w in
  let w := if negb syncApply then signal_ TriggerIngress w
           else if has_ingress then let '(d, e) := ingress_Apply (db w, machine w) in set_machine e (set_db d w) else w in
  (true, if changed then signal_ Notify w else w).

(** A pass that cannot list the containers changes nothing. *)
Definition reconcile (syncApply : bool) (w : W) : bool * W :=
  let desired := ListInstances (db w) in
  match List (machine w) with
  | Err _ => (false, w)
  | Ok observed =>
      let obs := observedByInstance observed in
      finish_pass syncApply desired obs (fold_left (reconcile_one syncApply obs (boundServices (db w))) desired (MkPass false [] w))
  end.

(** ** The worker *)
Definition applyOne (id : string) (obs : gmap string ManagedContainer) (w : W) : bool * W :=
  match GetInstance id (db w) with
  | Err _ => (false, w)
  | Ok inst =>
      if negb (bool_decide (DesiredState inst = DesiredInstalled)) then (false, signal_ TriggerPass w) else
      if bool_decide (Runtime inst = RuntimeContainer) || bool_decide (Runtime inst = RuntimeCompose) then
        let '(changed, w) := if bool_decide (Runtime inst = RuntimeContainer) then applyContainer inst obs w else applyCompose inst w in
        (changed, match GetInstance id (db w) with
                  | Ok fresh => if bool_decide (DesiredState fresh = DesiredInstalled) then w else signal_ TriggerPass w
                  | Err _ => w
                  end)
      else (false, w)
  end.

(** One turn of the worker's loop around [applyOne]. *)
Definition worker_turn (obs : gmap string ManagedContainer) (w : W) : W :=
  match workQueue (queue w) with
  | [] => w
  | job :: _ =>
      let w := MkW (prober w) (takeJob (queue w)) (machine w) (sent w) in
      let '(changed, w) := applyOne (instanceID job) obs w in
      let w := MkW (prober w) (endApply (queue w)) (machine w) (sent w) in
      if changed then signal_ Notify (signal_ TriggerIngress w) else w
  end.
End reconciler.
