(* ===== verification/ReconcilerProps.v ===== *)
(** * What a reconcile pass guarantees

    A pass observes and converges; it never edits what the user asked for.  A
    row is deleted only when it was marked removed, and its teardown takes its
    container, locks and secrets with it, but for what a failed statement keeps; an instance becomes installed only
    with its container running; a system service runs only under its lock. *)

From S2P Require Import Prelude Host GoStrings GoUrl Codec Utf8 Json GoAny JsonDec ReadinessConfig WorkQueue Store StoreInv Prober Reconciler.
From S2P Require Container Compose ComposeRun ComposeProps SystemSpec SystemParse Ingress.
Import (hints) Container ComposeProps.

(** ** The desired part of the database *)
Definition core (r : instance_row) : string * string * string * string * string * Z :=
  (r_template r, r_runtime r, r_version r, r_desired r, r_config r, r_created r).

Definition row_kept (o o' : option instance_row) : Prop :=
  match o, o' with
  | Some r, Some r' => core r' = core r
  | Some r, None => r_desired r = DesiredRemoved
  | None, None => True
  | None, Some _ => False
  end.

(** No row appears, none is edited, and only removed ones go. *)
Definition preserves (d d' : DB) : Prop := forall i, row_kept (instances d !! i) (instances d' !! i).

#[export] Instance preserves_pre : PreOrder preserves.
Proof.
  split.
  - intros d i. by destruct (instances d !! i).
  - intros d1 d2 d3 H12 H23 i. specialize (H12 i). specialize (H23 i). unfold row_kept in *.
    destruct (instances d1 !! i), (instances d2 !! i), (instances d3 !! i); try done; unfold core in *; congruence.
Qed.

(** No row appears. *)
Definition no_new (d d' : DB) : Prop := forall i, instances d !! i = None -> instances d' !! i = None.
#[export] Instance no_new_pre : PreOrder no_new.
Proof. split; [by intros d i|]. intros d1 d2 d3 H12 H23 i Hi. by apply H23, H12. Qed.

(** What the two relations share: they see neither the other tables nor the
    observed part of a row. *)
Class Frame (R : DB -> DB -> Prop) := {
  frame_pre :: PreOrder R;
  frame_same : forall d d', instances d' = instances d -> R d d';
  frame_alter : forall f id d, (forall r, core (f r) = core r) -> R d (set_instances (alter f id) d)
}.

#[export] Instance preserves_frame : Frame preserves.
Proof.
  split; [apply _|intros d d' He i; rewrite He; by destruct (instances d !! i)|].
  intros f id d Hf i. cbn. destruct (decide (i = id)) as [->|Hne].
  - rewrite lookup_alter_eq. destruct (instances d !! id); cbn; [apply Hf|done].
  - rewrite lookup_alter_ne by done. by destruct (instances d !! i).
Qed.

#[export] Instance no_new_frame : Frame no_new.
Proof.
  split; [apply _|intros d d' He i; by rewrite He|].
  intros f id d _ i Hi. cbn. destruct (decide (i = id)) as [->|Hne]; [by rewrite lookup_alter_eq, Hi|by rewrite lookup_alter_ne].
Qed.

Section frame.
Context (R : DB -> DB -> Prop) `{Frame R}.

Lemma frame_SetState id s now p : R (st p) (st (SetState id s now p)).
Proof.
  unfold SetState. destruct (GetInstance id (st p)) as [inst|]; [|reflexivity]. destruct (bool_decide _); [reflexivity|].
  by apply frame_alter.
Qed.

Lemma frame_Begin now t p : R (st p) (st (ready_Begin now t p)).
Proof.
  assert (Hb : st (Begin t p) = st p) by (unfold Begin; by case_bool_decide).
  unfold ready_Begin. destruct (runs (Begin t p) !! next p) as [r|]; [|by rewrite Hb].
  unfold Begin_rest. cbn [set_runs st]. destruct (cancelled r); rewrite <- Hb; [reflexivity|]. apply frame_SetState.
Qed.

Lemma frame_steady_one t cur ok now p : R (st p) (st (steady_one t cur ok now p)).
Proof.
  unfold steady_one. set (q := MkProber _ _ _ _ _ _ _). change (st p) with (st q).
  destruct (ok && _); [apply frame_SetState|]. destruct (negb ok && _ && _); [apply frame_SetState|reflexivity].
Qed.

Lemma frame_RunSteady goos port w now ts p : R (st p) (st (RunSteady goos port w now ts p).1).
Proof.
  unfold RunSteady. generalize (ready_states (st p)) as states. intros states. revert p. induction ts as [|t ts IH]; intros p; [reflexivity|].
  cbn [steady_loop]. destruct (_ || _); [apply IH|]. destruct (probe _ _ w (st p) (ips p) t) as [ok ips'].
  match goal with |- context [steady_one t ?c ok now ?q] => pose proof (frame_steady_one t c ok now q) as H1; specialize (IH (steady_one t c ok now q)) end.
  cbn [st] in H1. destruct (steady_loop _ _ w now states ts _) as [p' log]. by etransitivity.
Qed.
End frame.

(** ** A method that leaves the instance table alone *)
Definition calm {X A} (m : prog X DB A) : Prop := forall d, instances (m d).2 = instances d.

Lemma calm_op {A} (m : M A) (op : store_op) : (forall d, (m d).2 = exec op d) -> on_instances op = false -> calm m.
Proof. intros Hm Hop d. by rewrite Hm, exec_instances. Qed.

Lemma calm_service s : calm (UpsertService s).
Proof. by apply (calm_op _ (OpUpsertService s)). Qed.
Lemma calm_secrets id : calm (DropTemplateSecrets id).
Proof. by apply (calm_op _ (OpDropTemplateSecrets id)). Qed.
Lemma calm_locks id : calm (ReleaseLocksForInstance id).
Proof. by apply (calm_op _ (OpReleaseLocksForInstance id)). Qed.
Lemma calm_lock g id : calm (TryAcquireLock g id).
Proof. by apply (calm_op _ (OpTryAcquireLock g id)). Qed.
Lemma calm_secret id b : calm (EnsureInstanceSecret id b).
Proof. by apply (calm_op _ (OpEnsureInstanceSecret id b)). Qed.
Lemma calm_template rd id k c n : calm (EnsureTemplateSecret rd id k c n).
Proof. by apply (calm_op _ (OpEnsureTemplateSecret rd id k c n)). Qed.

Lemma calm_expand rd id s : calm (Container.ExpandSecrets rd id s).
Proof.
  assert (Ht : forall fs acc, calm (Container.secret_table rd id fs acc)).
  { induction fs as [|f fs IH]; intros acc d; [done|]. cbn [Container.secret_table]. case_bool_decide; [apply IH|].
    pose proof (calm_template rd id (Container.Key f) (Container.Charset f) (Container.Length f) d) as He.
    destruct (EnsureTemplateSecret _ _ _ _ _ d) as [[v|x] d']; cbn in He; [by rewrite IH|done]. }
  intros d. unfold Container.ExpandSecrets. destruct (elems _) as [|f fs]; [done|]. specialize (Ht (f :: fs) [] d).
  by destruct (Container.secret_table _ _ _ _ d) as [[t|x] d'].
Qed.

Lemma calm_render dec rd id spec : calm (Compose.renderBody dec rd id spec).
Proof.
  assert (Hs : forall fs b, calm (Compose.sub_secrets rd id fs b)).
  { induction fs as [|f fs IH]; intros b d; [done|]. cbn [Compose.sub_secrets].
    pose proof (calm_template rd id (Compose.Key f) (Compose.Charset f) (Compose.Length f) d) as He.
    destruct (EnsureTemplateSecret _ _ _ _ _ d) as [[v|x] d']; cbn in He; [by rewrite IH|done]. }
  intros d. unfold Compose.renderBody. cbv zeta. match goal with |- context [Compose.sub_secrets _ _ ?fs ?b d] => specialize (Hs fs b d) end.
  by destruct (Compose.sub_secrets _ _ _ _ d) as [[t|x] d'].
Qed.

(** The database side of the compose driver. *)
Lemma compose_Apply_calm {E} `{Container.Engine E} `{ComposeRun.ComposeHost E} sha mf root pl dec rd id spec (s : DB * E) :
  instances (ComposeRun.Apply sha mf root pl dec rd id spec s).2.1 = instances s.1.
Proof.
  unfold ComposeRun.Apply. case_bool_decide; [done|]. destruct (Compose.validateInstanceID id); [|done]. destruct (_ || _); [done|].
  pose proof (calm_render dec rd id spec s.1) as Hr. destruct (Compose.renderBody _ _ _ _ s.1) as [[body|x] d]; cbn in Hr; [|done].
  unfold ComposeRun.on_host. cbn [fst snd]. by destruct (ComposeRun.apply_body _ _ _ _ _ _ _ _) as [r e].
Qed.

Lemma keeps_on_host {E A} (P : DB -> Prop) (m : prog ComposeRun.run_error E A) : keeps (fun s => P s.1) (ComposeRun.on_host m).
Proof. intros s Hs. unfold ComposeRun.on_host. by destruct (m s.2). Qed.

Lemma compose_Remove_calm {E} `{ComposeRun.ComposeHost E} root id (s : DB * E) :
  instances (ComposeRun.Remove root id s).2.1 = instances s.1.
Proof.
  unfold ComposeRun.Remove. destruct (Compose.validateInstanceID id); [|done].
  match goal with |- instances (?m s).2.1 = _ => assert (Hk : keeps (fun s' => instances s'.1 = instances s.1) m); [|by apply Hk] end.
  repeat (apply keeps_bind; [|intros ?]); try apply (keeps_on_host (fun d => instances d = instances s.1)); [|apply keeps_ret].
  intros s' Hs'. done.
Qed.

(** ** Every handler stays within a frame *)
Section pass.
Context {loop : Loop} {E : Type} `{Container.Engine E} `{ComposeRun.ComposeHost E} `{SystemDriver E} `{ManagedList E} `{IngressApplier E}.
Context (now : Z) (R : DB -> DB -> Prop) `{Frame R} (d0 : DB) (may : Instance -> Prop).
Context (may_delete : forall inst d, may inst -> DesiredState inst = DesiredRemoved -> R d0 d -> R d0 (DeleteInstance (ID inst) d).2).
Notation W := (World E).

Definition kept (w : W) : Prop := R d0 (db w).
Definition keep (f : W -> W) : Prop := forall w, kept w -> kept (f w).

Lemma kept_refl w : d0 = db w -> kept w.
Proof. unfold kept. intros <-. reflexivity. Qed.
Lemma kept_to w d : kept w -> R (db w) d -> R d0 d.
Proof. unfold kept. intros Hw Hd. by etransitivity. Qed.

Lemma keep_calm (m : M unit) : calm m -> keep (write_db m).
Proof. intros Hm w Hw. apply (kept_to w); [done|]. apply frame_same, Hm. Qed.

Lemma keep_observed id s t : keep (set_observed now id s t).
Proof. intros w Hw. apply (kept_to w); [done|]. by apply frame_alter. Qed.

Lemma keep_ready id s t : keep (write_db (SetServiceReady id s t)).
Proof. intros w Hw. apply (kept_to w); [done|]. by apply frame_alter. Qed.

Lemma keep_delete inst : may inst -> DesiredState inst = DesiredRemoved -> keep (teardown_db now DeleteRow (ID inst) DeleteInstance).
Proof. intros Hm Hd w Hw. unfold teardown_db. destruct (db_fails _ _ _); [done|by apply may_delete]. Qed.

Lemma keep_teardown s id (m : string -> M unit) : calm (m id) -> keep (teardown_db now s id m).
Proof. intros Hm w Hw. unfold teardown_db. destruct (db_fails _ _ _); [done|by apply keep_calm]. Qed.

Lemma keep_register {A} ok (svc : A -> InstanceService) l : keep (register ok svc l).
Proof.
  induction l as [|a l IH]; intros w Hw; [done|]. unfold register in *. cbn [fold_left]. apply IH.
  destruct (ok a); [|done]. by apply keep_calm; [apply calm_service|].
Qed.

Lemma keep_prober (f : Prober -> Prober) : (forall p, R (st p) (st (f p))) -> keep (on_prober f).
Proof. intros Hf w Hw. apply (kept_to w); [done|]. apply Hf. Qed.

Lemma keep_begin inst : keep (beginReadiness now inst).
Proof.
  intros w Hw. unfold beginReadiness. destruct (negb has_prober); [done|]. destruct (readinessTarget _ _) as [t|]; [|done].
  revert w Hw. apply keep_prober. intros p; by apply frame_Begin.
Qed.

Lemma keep_reset inst : keep (resetReadiness inst).
Proof.
  intros w Hw. unfold resetReadiness. destruct (negb has_prober); [done|].
  destruct (bool_decide _ && _); [apply keep_ready|]; (apply keep_prober; [|done]); by intros p.
Qed.

Lemma keep_collect inst bound steady w : kept w -> kept (collectReadiness now inst bound steady w).2.
Proof.
  intros Hw. unfold collectReadiness. destruct (_ || _); [done|]. destruct (readinessTarget _ _) as [t|]; [|done].
  destruct (_ || _); [done|]. destruct (Active _ _); [done|]. apply keep_prober; [intros p; by apply frame_Begin|done].
Qed.

Lemma keep_machine e : keep (set_machine e).
Proof. by intros w. Qed.

Lemma keep_installing inst : keep (markInstalling now inst).
Proof. intros w Hw. unfold markInstalling. destruct (_ && _); [done|]. by apply (keep_observed _ _ _ w). Qed.

Lemma keep_error inst t w : kept w -> kept (recordObservedError now inst t w).2.
Proof. apply keep_observed. Qed.

Lemma keep_db d w : kept w -> instances d = instances (db w) -> kept (set_db d w).
Proof. intros Hw Hd. apply (kept_to w); [done|]. by apply frame_same. Qed.

Lemma keep_inject id spec w : kept w -> kept (injectIPC id spec w).2.
Proof.
  intros Hw. unfold injectIPC. destruct (emptyb socketPath); [done|]. cbv zeta.
  set (env := match Container.Env spec !! _ with Some _ => _ | None => _ end).
  destruct (env !! "OBACHT_INSTANCE_SECRET"); [done|].
  pose proof (calm_secret id secret_bytes (db w)) as Hs. destruct (EnsureInstanceSecret id secret_bytes (db w)) as [r d]; cbn in Hs.
  destruct r; by apply keep_db.
Qed.

Lemma keep_docker_Remove id w : kept w -> kept (docker_Remove id w).2.
Proof. intros Hw. unfold docker_Remove. by destruct (Container.Remove id (machine w)). Qed.

Lemma keep_compose_run {A} (m : prog ComposeRun.run_error (DB * E) A) w :
  instances (m (db w, machine w)).2.1 = instances (db w) -> kept w -> kept (compose_run m w).2.
Proof. unfold compose_run. destruct (m _) as [r [d e]]; cbn. intros Hm Hw. by apply keep_machine, keep_db. Qed.

Lemma keep_compose_Remove id w : kept w -> kept (compose_Remove id w).2.
Proof. apply keep_compose_run, compose_Remove_calm. Qed.

Hint Resolve keep_observed keep_begin keep_reset keep_installing keep_error keep_machine keep_db keep_register keep_collect : kept.

Lemma keep_applyContainer inst obs w : kept w -> kept (applyContainer now inst obs w).2.
Proof.
  intros Hw. unfold applyContainer. destruct (Container.ParseSpec _) as [spec|]; [|done].
  pose proof (keep_inject (ID inst) spec w Hw) as Hi. destruct (injectIPC (ID inst) spec w) as [[spec'|] w1]; cbn in Hi; [|done].
  pose proof (calm_expand rd (ID inst) spec' (db w1)) as Hx. destruct (Container.ExpandSecrets _ _ _ _) as [r d]; cbn in Hx.
  assert (Hd : kept (set_db d w1)) by auto with kept. destruct r as [spec2|x]; [|by apply keep_error].
  cbv zeta. destruct (Container.Apply _ _ _ _ _ _ _ _) as [r e].
  assert (He : kept (set_machine e (markInstalling now inst (set_db d w1)))) by (apply keep_machine; by apply keep_installing).
  destruct r as [applied|x]; [|destruct (isTransientDockerErr _); [done|by apply keep_error]].
  unfold container_applied. cbv zeta. cbn [snd].
  match goal with |- kept (if ?b then _ else _) => destruct b end; [apply keep_begin|]; apply keep_observed; by apply keep_register.
Qed.

Lemma keep_applyCompose inst w : kept w -> kept (applyCompose now inst w).2.
Proof.
  intros Hw. unfold applyCompose. destruct (negb has_compose); [done|].
  destruct (Compose.ParseSpec _) as [spec|x]; [|destruct x; by try apply keep_error]. cbv zeta.
  assert (Hi : kept (markInstalling now inst w)) by by apply keep_installing.
  pose proof (keep_compose_run (ComposeRun.Apply sha256 min_free compose_root puller yaml_decode rd (ID inst) spec) _ (compose_Apply_calm _ _ _ _ _ _ _ _ _) Hi) as Hr.
  destruct (compose_run _ _) as [[applied|x] w1]; cbn in Hr; [|destruct (isTransientDockerErr _); [done|by apply keep_error]].
  cbn [snd]. match goal with |- kept (if ?b then _ else _) => destruct b end; [apply keep_begin|]; apply keep_observed; by apply keep_register.
Qed.

Lemma keep_containerDown inst w : may inst -> kept w -> kept (reconcileContainerDown now inst w).2.
Proof.
  intros Hf Hw. unfold reconcileContainerDown. pose proof (keep_docker_Remove (ID inst) w Hw) as Hr.
  destruct (bool_decide (DesiredState inst = DesiredStopped)).
  - destruct (docker_Remove _ w) as [[b|x] w1]; [by apply keep_reset|done].
  - destruct (bool_decide (DesiredState inst = DesiredRemoved)) eqn:Hd; [|done]. apply bool_decide_eq_true in Hd.
    destruct (docker_Remove _ w) as [[b|x] w1]; [|done]. cbv zeta. cbn [snd].
    apply keep_delete; [done..|]. apply keep_teardown; [apply calm_locks|]. apply keep_teardown; [apply calm_secrets|]. by apply keep_reset.
Qed.

Lemma keep_composeDown inst w : may inst -> kept w -> kept (reconcileComposeDown now inst w).2.
Proof.
  intros Hf Hw. unfold reconcileComposeDown. destruct (negb has_compose); [done|]. pose proof (keep_compose_Remove (ID inst) w Hw) as Hr.
  destruct (bool_decide (DesiredState inst = DesiredStopped)).
  - destruct (compose_Remove _ w) as [[b|x] w1]; [by apply keep_reset|done].
  - destruct (bool_decide (DesiredState inst = DesiredRemoved)) eqn:Hd; [|done]. apply bool_decide_eq_true in Hd.
    destruct (compose_Remove _ w) as [[b|x] w1]; [|done]. cbv zeta. cbn [snd].
    apply keep_delete; [done..|]. apply keep_teardown; [apply calm_locks|]. by apply keep_reset.
Qed.

Lemma keep_system inst w : may inst -> kept w -> kept (reconcileSystem now inst w).2.
Proof.
  intros Hf Hw. unfold reconcileSystem. cbv zeta. destruct (bool_decide (DesiredState inst = DesiredInstalled)).
  - destruct (SystemParse.ParseSpec _) as [spec|x]; [|destruct x; try done; by apply keep_observed].
    match goal with |- context [if emptyb ?g then (true, w) else ?y] => set (lk := if emptyb g then (true, w) else y) end.
    assert (Hl : kept lk.2).
    { unfold lk. destruct (emptyb _); [done|]. pose proof (calm_lock (SystemSpec.ExclusivityGroup spec) (ID inst) (db w)) as Hc.
      destruct (TryAcquireLock _ _ _) as [r d]. cbn in Hc. cbn [snd]. auto with kept. }
    destruct lk as [locked w1]. destruct (negb locked); [by apply keep_observed|].
    destruct (sys_apply _ _ _) as [[t|] e]; [by apply keep_observed|]. cbn [snd]. apply keep_observed. by apply keep_register.
  - destruct (_ || _); [|done]. destruct (sys_remove _ _ _) as [[t|] e]; [done|]. cbn [snd].
    assert (Hk : kept (teardown_db now ReleaseLocks (ID inst) ReleaseLocksForInstance (resetReadiness inst (set_machine e w)))).
    { apply keep_teardown; [apply calm_locks|]. by apply keep_reset. }
    destruct (bool_decide (DesiredState inst = DesiredRemoved)) eqn:Hd; [|by apply keep_observed].
    apply bool_decide_eq_true in Hd. by apply keep_delete.
Qed.

Lemma keep_enqueue inst w : kept w -> kept (enqueue inst w).
Proof. intros Hw. unfold enqueue. by destruct (enqueueApply _ _ _). Qed.

Lemma keep_one sync obs bound s inst : may inst -> kept (p_world s) -> kept (p_world (reconcile_one now sync obs bound s inst)).
Proof.
  intros Hf. destruct s as [ch st w]. cbn [p_world]. intros Hw. unfold reconcile_one. cbv zeta.
  destruct (_ || _).
  - destruct (bool_decide (DesiredState inst = DesiredInstalled)).
    + match goal with |- context [if sync then ?a else ?b] => set (x := if sync then a else b) end.
      assert (Hx : kept x.2).
      { unfold x. destruct sync; [|by apply keep_enqueue]. destruct (bool_decide _); [by apply keep_applyContainer|by apply keep_applyCompose]. }
      destruct x as [c w1]. pose proof (keep_collect inst bound st w1 Hx) as Hc. by destruct (collectReadiness _ _ _ _ w1).
    + destruct (_ && _); [done|]. destruct (bool_decide (Runtime inst = RuntimeContainer)).
      * pose proof (keep_containerDown inst w Hf Hw) as Hc. by destruct (reconcileContainerDown _ _ w).
      * pose proof (keep_composeDown inst w Hf Hw) as Hc. by destruct (reconcileComposeDown _ _ w).
  - destruct (bool_decide _); [|done]. pose proof (keep_system inst w Hf Hw) as Hs. destruct (reconcileSystem _ _ w) as [[] w1]; [|done].
    pose proof (keep_collect (set_ObservedState "installed" inst) bound st w1 Hs) as Hc. by destruct (collectReadiness _ _ _ _ w1).
Qed.

Lemma keep_gc desired obs s : kept s.2 -> kept (garbage_collect desired obs s).2.
Proof.
  intros Hw. unfold garbage_collect. cbv zeta. set (ids := map ID desired). set (s1 := (s.1, _)).
  assert (Hs1 : kept s1.2) by done. clearbody s1.
  assert (Hc : forall l s, kept s.2 -> kept (fold_left (gc_container ids) l s).2).
  { induction l as [|id l IH]; intros s' Hs'; [done|]. cbn [fold_left]. apply IH. unfold gc_container. case_bool_decide; [done|].
    pose proof (keep_docker_Remove id s'.2 Hs') as Hr. destruct (docker_Remove id s'.2) as [[[]|x] w1]; done. }
  assert (Hp : forall l s, kept s.2 -> kept (fold_left (gc_compose ids) l s).2).
  { induction l as [|id l IH]; intros s' Hs'; [done|]. cbn [fold_left]. apply IH. unfold gc_compose. case_bool_decide; [done|].
    pose proof (keep_compose_Remove id s'.2 Hs') as Hr. destruct (compose_Remove id s'.2) as [[[]|x] w1]; done. }
  destruct (negb has_compose); [by apply Hc|]. destruct (ComposeRun.List _ _); [apply Hp|]; by apply Hc.
Qed.
End pass.

(** The ingress manager promises the reconciler to leave the instance table alone. *)
Class IngressLaws (E : Type) `{IngressApplier E} := ingress_calm : forall s : DB * E, instances (ingress_Apply s).1 = instances s.1.

Lemma ListInstances_read d inst : inst ∈ ListInstances d -> exists r, instances d !! ID inst = Some r /\ inst = readInstance (ID inst) r.
Proof.
  unfold ListInstances. rewrite list_elem_of_In, in_map_iff. intros ([i r] & <- & Hp%list_elem_of_In). cbn.
  rewrite merge_sort_Permutation, elem_of_map_to_list in Hp. by exists r.
Qed.
Lemma ListInstances_lists d i r : instances d !! i = Some r -> readInstance i r ∈ ListInstances d.
Proof.
  intros Hr. unfold ListInstances. apply list_elem_of_In, in_map_iff. exists (i, r). split; [done|]. apply list_elem_of_In.
  by rewrite merge_sort_Permutation, elem_of_map_to_list.
Qed.

Section runs.
Context {loop : Loop} {E : Type} `{Container.Engine E} `{ComposeRun.ComposeHost E} `{SystemDriver E} `{ManagedList E} `{IngressLaws E}.
Context (R : DB -> DB -> Prop) `{Frame R} (d0 : DB) (may : Instance -> Prop).
Context (may_delete : forall inst d, may inst -> DesiredState inst = DesiredRemoved -> R d0 d -> R d0 (DeleteInstance (ID inst) d).2).
Notation W := (World E).
Notation kept := (kept R d0).

Lemma fold_kept now sync obs bound l s : (forall inst, inst ∈ l -> may inst) -> kept (p_world s) ->
  kept (p_world (fold_left (reconcile_one now sync obs bound) l s)).
Proof.
  revert s. induction l as [|inst l IH]; intros s Hl Hs; [done|]. cbn [fold_left]. apply IH; [intros; apply Hl; by right|].
  apply (keep_one _ R d0 may may_delete); [apply Hl; by left|done].
Qed.

Lemma finish_kept pw now sync desired obs s : kept (p_world s) -> kept (finish_pass pw now sync desired obs s).2.
Proof.
  intros Hf. unfold finish_pass. cbv zeta.
  pose proof (keep_gc R d0 desired obs (p_changed s, p_world s) Hf) as Hg.
  destruct (garbage_collect _ _ _) as [ch w1]. cbn [snd] in Hg.
  set (w2 := if has_prober then _ else w1).
  assert (Hk2 : kept w2) by (unfold w2; destruct has_prober; [apply (keep_prober R d0); [intros p; by apply frame_RunSteady|done]|done]).
  set (w3 := if negb sync then _ else _).
  assert (Hw3 : kept w3).
  { unfold w3. destruct (negb sync); [done|]. destruct has_ingress; [|done]. pose proof (ingress_calm (db w2, machine w2)) as Hi.
    destruct (ingress_Apply _) as [d e]. by apply keep_machine, keep_db. }
  by destruct ch.
Qed.

Lemma reconcile_kept pw now sync w : kept w -> (forall inst, inst ∈ ListInstances (db w) -> may inst) ->
  kept (reconcile pw now sync w).2.
Proof.
  intros Hw Hl. unfold reconcile. cbv zeta. destruct (List (machine w)) as [observed|]; [|done]. by apply finish_kept, fold_kept.
Qed.

Lemma applyOne_kept now id obs w : kept w -> kept (applyOne now id obs w).2.
Proof.
  intros Hw. unfold applyOne. destruct (GetInstance id (db w)) as [inst|]; [|done]. destruct (negb _); [done|]. destruct (_ || _); [|done].
  set (x := if bool_decide _ then _ else _).
  assert (Hx : kept x.2) by (unfold x; destruct (bool_decide _); [by apply (keep_applyContainer _ R)|by apply (keep_applyCompose _ R)]).
  destruct x as [c w1]. cbn [snd] in *. destruct (GetInstance id (db w1)); [|done]. by destruct (bool_decide _).
Qed.

Lemma worker_kept now obs w : kept w -> kept (worker_turn now obs w).
Proof.
  intros Hw. unfold worker_turn. destruct (workQueue (queue w)) as [|job q]; [done|]. cbv zeta.
  pose proof (applyOne_kept now (instanceID job) obs (MkW (prober w) (takeJob (queue w)) (machine w) (sent w)) Hw) as Ha.
  destruct (applyOne _ _ _ _) as [[] w1]; done.
Qed.

End runs.

(** A row read from a database may be deleted from its descendants. *)
Definition read_from (d0 : DB) (inst : Instance) : Prop := exists r, instances d0 !! ID inst = Some r /\ inst = readInstance (ID inst) r.

Lemma preserves_delete d0 inst d : read_from d0 inst -> DesiredState inst = DesiredRemoved -> preserves d0 d -> preserves d0 (DeleteInstance (ID inst) d).2.
Proof.
  intros (r0 & Hr0 & Hinst) Hd Hp i. cbn. specialize (Hp i). destruct (decide (i = ID inst)) as [->|Hne].
  - rewrite lookup_delete_eq, Hr0. cbn. rewrite Hinst in Hd. exact Hd.
  - by rewrite lookup_delete_ne.
Qed.

Lemma no_new_delete d0 id d : no_new d0 d -> no_new d0 (DeleteInstance id d).2.
Proof. intros Hn i Hi. cbn. destruct (decide (i = id)) as [->|Hne]; [by rewrite lookup_delete_eq|rewrite lookup_delete_ne by done; by apply Hn]. Qed.

Section agent.
Context {loop : Loop} {E : Type} `{Container.Engine E} `{ComposeRun.ComposeHost E} `{SystemDriver E} `{ManagedList E} `{IngressLaws E}.
Notation W := (World E).

(** What the agent does on its own: passes, worker turns, turns of the ingress
    loop and the verdicts of the readiness goroutines, in any order. *)
Inductive agent_step : W -> W -> Prop :=
| a_pass w pw now sync : agent_step w (reconcile pw now sync w).2
| a_turn w now obs : agent_step w (worker_turn now obs w)
| a_ingress w : agent_step w (let '(d, e) := ingress_Apply (db w, machine w) in set_machine e (set_db d w))
| a_starting w n r now : agent_step w (on_prober (Begin_rest n r now) w)
| a_verdict w n r ready now : agent_step w (on_prober (runStarting_end n r ready now) w).

Lemma agent_step_preserves w w' : agent_step w w' -> preserves (db w) (db w').
Proof.
  intros [w0 pw now sync|w0 now obs|w0|w0 n r now|w0 n r ready now].
  - apply (reconcile_kept preserves (db w0) (read_from (db w0)) (preserves_delete (db w0))); [by apply (kept_refl preserves)|].
    apply ListInstances_read.
  - apply (worker_kept preserves (db w0)). by apply (kept_refl preserves).
  - pose proof (ingress_calm (db w0, machine w0)) as Hi. destruct (ingress_Apply _) as [d e]. by apply (frame_same (R := preserves)).
  - apply (keep_prober preserves (db w0)); [|by apply (kept_refl preserves)]. intros p. unfold Begin_rest. cbn [set_runs st].
    destruct (cancelled r); [reflexivity|apply (frame_SetState preserves)].
  - apply (keep_prober preserves (db w0)); [|by apply (kept_refl preserves)]. intros p. unfold runStarting_end. cbn [set_runs st]. apply (frame_SetState preserves).
Qed.

(** C9: The agent never edits what the user asked for: however long it runs on its
    own, whatever the daemon, the compose command and the system driver answer,
    no instance row appears, no row changes its template, version, runtime,
    desired state or configuration, and a row disappears only if it was marked
    removed. *)
Theorem agent_preserves_desired w w' : rtc agent_step w w' -> preserves (db w) (db w').
Proof. induction 1 as [|w1 w2 w3 H12 _ IH]; [reflexivity|]. etransitivity; [by apply agent_step_preserves|done]. Qed.
End agent.

(** ** A removed instance leaves *)
Section removal.
Context {loop : Loop} {E : Type} `{Container.Engine E} `{ComposeRun.ComposeHost E} `{SystemDriver E} `{ManagedList E} `{IngressLaws E}.
Notation W := (World E).

(** The instance's driver answers, so its teardown succeeds, and the database
    takes the deletion of its row. *)
Definition teardown_answers (inst : Instance) : Prop :=
  (forall t, db_fails DeleteRow (ID inst) t = false) /\
  (Runtime inst = RuntimeContainer -> forall e, is_ok (Container.Remove (ID inst) e).1 = true) /\
  (Runtime inst = RuntimeCompose -> has_compose = true /\ forall s, is_ok (ComposeRun.Remove compose_root (ID inst) s).1 = true) /\
  (Runtime inst = RuntimeSystem -> forall spec e, (sys_remove (ID inst) spec e).1 = None).

Lemma deleted now id (w : W) : db_fails DeleteRow id now = false -> instances (db (teardown_db now DeleteRow id DeleteInstance w)) !! id = None.
Proof. unfold teardown_db. intros ->. cbn. apply lookup_delete_eq. Qed.

Lemma removed_now now obs bound s inst : teardown_answers inst -> Runtime inst ∈ runtimes ->
  DesiredState inst = DesiredRemoved -> instances (db (p_world (reconcile_one now true obs bound s inst))) !! ID inst = None.
Proof.
  intros (Hdel & Hc & Hp & Hs) Hrt Hd. specialize (Hdel now). destruct s as [ch st w]. unfold reconcile_one. cbv zeta.
  assert (Hni : bool_decide (DesiredState inst = DesiredInstalled) = false) by (rewrite Hd; reflexivity).
  assert (Hns : bool_decide (DesiredState inst = DesiredStopped) = false) by (rewrite Hd; reflexivity).
  assert (Hrm : bool_decide (DesiredState inst = DesiredRemoved) = true) by (rewrite Hd; reflexivity).
  rewrite Hni. unfold runtimes in Hrt. rewrite !elem_of_cons in Hrt. destruct Hrt as [Hr|[Hr|[Hr|Hr]]]; [| | |by apply elem_of_nil in Hr]; rewrite Hr.
  - change (bool_decide ("container" = RuntimeContainer)) with true. cbn [orb negb andb].
    unfold reconcileContainerDown, docker_Remove. rewrite Hns, Hrm. specialize (Hc Hr (machine w)).
    destruct (Container.Remove _ _) as [[b|x] e]; [|done]. by apply deleted.
  - change (bool_decide ("system" = RuntimeContainer)) with false. change (bool_decide ("system" = RuntimeCompose)) with false.
    change (bool_decide ("system" = RuntimeSystem)) with true. cbn [orb]. unfold reconcileSystem. cbv zeta. rewrite Hni, Hns, Hrm. cbn [orb].
    match goal with |- context [sys_remove ?i ?sp ?e] => specialize (Hs Hr sp e); destruct (sys_remove i sp e) as [err e'] end.
    cbn in Hs. rewrite Hs. cbn [p_world]. by apply deleted.
  - change (bool_decide ("compose" = RuntimeContainer)) with false. change (bool_decide ("compose" = RuntimeCompose)) with true. cbn [orb negb andb].
    unfold reconcileComposeDown, compose_Remove, compose_run. destruct (Hp Hr) as [-> Hrun]. rewrite Hns, Hrm. cbn [negb]. specialize (Hrun (db w, machine w)).
    destruct (ComposeRun.Remove _ _ _) as [[b|x] [d e]]; [|done]. by apply deleted.
Qed.

Lemma gone_stays now sync obs bound l (s : pass_state) id : instances (db (p_world s)) !! id = None ->
  instances (db (p_world (fold_left (reconcile_one now sync obs bound) l s))) !! id = None.
Proof.
  intros Hn. pose proof (fold_kept no_new (db (p_world s)) (fun _ => True) (fun i d _ _ => no_new_delete _ (ID i) d) now sync obs bound l s) as Hk.
  apply Hk; [done|by apply (kept_refl no_new)|done].
Qed.

End removal.

(** ** Container instances *)
Section observed.
Context {loop : Loop} {E : Type}.
Notation W := (World E).

(** The observed state of a row. *)
Definition observed_of (d : DB) (id : string) : option string := instances d !! id ≫= r_observed_state.

Lemma observed_set now id s t (w : W) : observed_of (db (set_observed now id s t w)) id = (fun _ => s) <$> instances (db w) !! id.
Proof. unfold observed_of. cbn. rewrite lookup_alter_eq. by destruct (instances (db w) !! id). Qed.

Lemma observed_same d d' id : instances d' = instances d -> observed_of d' id = observed_of d id.
Proof. unfold observed_of. by intros ->. Qed.

Lemma inject_spec id spec (w : W) : instances (db (injectIPC id spec w).2) = instances (db w) /\ machine (injectIPC id spec w).2 = machine w /\
  forall spec', (injectIPC id spec w).1 = Some spec' -> Container.Image spec' = Container.Image spec.
Proof.
  unfold injectIPC. destruct (emptyb socketPath); [split_and!; [done..|by intros ? [= <-]]|]. cbv zeta.
  set (env := match Container.Env spec !! _ with Some _ => _ | None => _ end).
  destruct (env !! "OBACHT_INSTANCE_SECRET").
  - split_and!; [done..|]. intros spec' [= <-]. by destruct (existsb _ _).
  - pose proof (calm_secret id secret_bytes (db w)) as Hs. destruct (EnsureInstanceSecret id secret_bytes (db w)) as [[v|x] d]; cbn in Hs;
      (split_and!; [done..|]); intros spec' Hi; cbn in Hi; [|done]. injection Hi as <-. by destruct (existsb _ _).
Qed.

Lemma register_machine {A} ok (svc : A -> InstanceService) l (w : W) : machine (register ok svc l w) = machine w.
Proof. unfold register. revert w. induction l as [|a l IH]; intros w; [done|]. cbn [fold_left]. rewrite IH. by destruct (ok a). Qed.

Lemma begin_machine now inst (w : W) : machine (beginReadiness now inst w) = machine w.
Proof. unfold beginReadiness. destruct (negb has_prober); [done|]. by destruct (readinessTarget _ _). Qed.

Lemma error_observed now inst t (w : W) : observed_of (db (recordObservedError now inst t w).2) (ID inst) <> Some "installed".
Proof. unfold recordObservedError. cbn [snd]. rewrite observed_set. by destruct (instances (db w) !! ID inst). Qed.

Lemma installing_observed now inst (w : W) : observed_of (db w) (ID inst) <> Some "installed" ->
  observed_of (db (markInstalling now inst w)) (ID inst) <> Some "installed" /\ machine (markInstalling now inst w) = machine w.
Proof.
  intros Hno. unfold markInstalling. destruct (_ && _); [done|]. change (db (signal_ Notify ?w0)) with (db w0).
  rewrite observed_set. by destruct (instances (db w) !! _).
Qed.

Lemma applied_machine now inst obs spec applied (w : W) : machine (container_applied now inst obs spec applied w).2 = machine w.
Proof.
  unfold container_applied. cbv zeta. cbn [snd].
  match goal with |- machine (if ?b then _ else _) = _ => destruct b end; rewrite ?begin_machine; cbn [set_observed write_db set_db on_prober machine];
    apply register_machine.
Qed.
End observed.

Lemma expand_image rd id spec d spec' : (Container.ExpandSecrets rd id spec d).1 = Ok spec' -> Container.Image spec' = Container.Image spec.
Proof.
  unfold Container.ExpandSecrets. destruct (elems _) as [|f fs]; [by intros [= <-]|].
  destruct (Container.secret_table _ _ _ _ _) as [[t|x] d']; cbn; [by intros [= <-]|done].
Qed.

Lemma hostvars_image ip spec : Container.Image (Container.ExpandHostVars ip spec) = Container.Image spec.
Proof. unfold Container.ExpandHostVars. by case_bool_decide. Qed.

Section containers.
Context {loop : Loop} {E : Type} `{Container.EngineLaws E}.
Notation W := (World E).

Lemma teardown_machine now s id m (w : W) : machine (teardown_db now s id m w) = machine w.
Proof. unfold teardown_db. by destruct (db_fails _ _ _). Qed.

(** C10: The teardown of a removed container instance takes everything the
    database lets it take.  For an identifier of letters, digits, dashes and
    underscores no other container is touched; a teardown whose request fails
    leaves the database as it was, for the next pass.  After one that succeeded
    no container of that name is left; neither is a template secret of the
    instance, nor a lock, unless the statement that drops them failed; and no
    row, service, route, lock or secret, unless the deletion of the row failed,
    and then the row is still there and marked removed, for the next pass. *)
Theorem removed_leaves_nothing now inst w c w' :
  Container.plain_name (Container.container_name (ID inst)) -> DesiredState inst = DesiredRemoved -> reconcileContainerDown now inst w = (c, w') ->
  Container.only (Container.container_name (ID inst)) (machine w) (machine w') /\
  if c then Container.view (machine w') !! Container.container_name (ID inst) = None /\
    (db_fails DropSecrets (ID inst) now = false -> forall k, k.1 = ID inst -> template_secrets (db w') !! k = None) /\
    (db_fails ReleaseLocks (ID inst) now = false -> forall g, locks (db w') !! g <> Some (ID inst)) /\
    (if db_fails DeleteRow (ID inst) now then instances (db w') = instances (db w) else
     instances (db w') !! ID inst = None /\ (forall k, k.1 = ID inst -> services (db w') !! k = None) /\
     (forall d b, bindings (db w') !! d = Some b -> b_instance b <> Some (ID inst)) /\
     (forall g, locks (db w') !! g <> Some (ID inst)) /\ instance_secrets (db w') !! ID inst = None)
  else db w' = db w.
Proof.
  intros Hp Hd. unfold reconcileContainerDown, docker_Remove.
  assert (Hns : bool_decide (DesiredState inst = DesiredStopped) = false) by (rewrite Hd; reflexivity).
  assert (Hrm : bool_decide (DesiredState inst = DesiredRemoved) = true) by (rewrite Hd; reflexivity). rewrite Hns, Hrm.
  destruct (Container.Remove (ID inst) (machine w)) as [r e] eqn:Hr. apply Container.Remove_spec in Hr as [Ho Hr]; [|done].
  assert (Hst : forall w0 : W, db (resetReadiness inst w0) = db w0 /\ machine (resetReadiness inst w0) = machine w0).
  { intros w0. unfold resetReadiness. rewrite Hns. by destruct (negb has_prober). }
  destruct r as [b|x]; intros [= <- <-]; [|by split].
  destruct (Hst (set_machine e w)) as [Hdb Hm]. set (w1 := resetReadiness inst (set_machine e w)) in *.
  rewrite !teardown_machine, Hm. split; [done|]. split; [by apply (Hr b)|].
  assert (Hsec : forall k d, k.1 = ID inst -> template_secrets (DropTemplateSecrets (ID inst) d).2 !! k = None)
    by (intros k d Hk; apply map_lookup_filter_None; right; intros x _ Hx; by apply Hx).
  assert (Hlock : forall g d, locks (ReleaseLocksForInstance (ID inst) d).2 !! g <> Some (ID inst))
    by (intros g d; cbn; by intros [_ Hb]%map_lookup_filter_Some).
  split; [|split].
  - unfold teardown_db. intros ->. intros k Hk. destruct (db_fails ReleaseLocks _ _), (db_fails DeleteRow _ _); by apply Hsec.
  - unfold teardown_db. intros ->. intros g. destruct (db_fails DropSecrets _ _), (db_fails DeleteRow _ _); try apply Hlock;
      cbn; intros [Hg _]%map_lookup_filter_Some; by apply Hlock in Hg.
  - unfold teardown_db. destruct (db_fails DeleteRow _ _).
    + change (instances (db w)) with (instances (db (set_machine e w))). rewrite <- Hdb.
      by destruct (db_fails ReleaseLocks _ _), (db_fails DropSecrets _ _).
    + split; [cbn; apply lookup_delete_eq|]. split; [|split; [|split]].
      * intros k Hk. cbn. apply map_lookup_filter_None; right; intros x _ Hx; apply Hx; exact Hk.
      * intros d x. cbn. by intros [_ Hb]%map_lookup_filter_Some.
      * intros g. cbn. by intros [_ Hb]%map_lookup_filter_Some.
      * cbn. apply lookup_delete_eq.
Qed.

(** What the agent knows of an instance's container: it runs, and it was created
    just now with a request for the wanted spec, or it was there before, with
    the hash of the wanted spec; then, if it was the driver who made it, it was
    created with a request for some spec of that hash, which is the wanted one
    if SHA-256 has no collision. *)
Definition runs_spec (name : string) (spec : Container.Spec) (e e' : E) : Prop :=
  exists x, Container.view e' !! name = Some x /\ Container.c_State x = "running" /\ Container.config_hash x = Container.hash sha256 spec /\
    ((exists b, Container.made e' name = Some b /\ Container.body_for spec b) \/
     (e' = e /\ (Container.stamped sha256 name e -> exists spec' b, Container.made e' name = Some b /\ Container.body_for spec' b /\
        Container.hash sha256 spec' = Container.hash sha256 spec /\
        (Inj (=) (=) sha256 -> JsonRound.printable (Container.stable_json spec) = true -> Container.body_for spec b)))).

Lemma Apply_runs_spec id tid spec (e : E) r e' : Container.plain_name (Container.container_name id) ->
  Container.Apply sha256 goos agentGID min_free id tid spec e = (r, e') -> is_ok r = true -> runs_spec (Container.container_name id) spec e e'.
Proof.
  intros Hp Ha Hok. destruct (Container.Apply_spec _ _ _ _ _ _ _ _ _ _ Hp Ha) as [_ Hap]. destruct r as [changed|]; [|done].
  specialize (Hap changed eq_refl). destruct changed.
  - destruct Hap as (c & b & Hv & Hr & Hh & _ & _ & Hm & Hb). exists c. split_and!; [done..|]. left. by exists b.
  - destruct Hap as [-> (c & Hv & Hr & Hh)]. exists c. split_and!; [done..|]. right. split; [done|]. intros Hst.
    destruct (Hst c Hv) as (s' & b & Hm & Hb & Hh' & Hpr). exists s', b. split_and!; [done..|congruence|].
    intros Hi Hpr'. apply (Container.stable_body s'); [|done]. apply (Container.hash_inj sha256); [done..|congruence].
Qed.

(** "Installed" is never a guess: when applying an instance turns its observed
    state to installed, its container runs a specification with the configured
    image.  An apply that failed shows another state. *)
Theorem installed_is_running now inst obs w c w' :
  Container.plain_name (Container.container_name (ID inst)) -> observed_of (db w) (ID inst) <> Some "installed" ->
  applyContainer now inst obs w = (c, w') -> observed_of (db w') (ID inst) = Some "installed" ->
  exists parsed spec, Container.ParseSpec (ConfigJSON inst) = Ok parsed /\ Container.Image spec = Container.Image parsed /\
    runs_spec (Container.container_name (ID inst)) spec (machine w) (machine w').
Proof.
  intros Hp Hno. unfold applyContainer. destruct (Container.ParseSpec _) as [parsed|]; [|by intros [= _ <-]].
  destruct (inject_spec (ID inst) parsed w) as (Hi1 & Hi2 & Hi3). destruct (injectIPC (ID inst) parsed w) as [[spec1|] w1]; cbn [fst snd] in *;
    [|intros [= _ <-]; by rewrite (observed_same (db w))].
  pose proof (calm_expand rd (ID inst) spec1 (db w1)) as Hx1. pose proof (expand_image rd (ID inst) spec1 (db w1)) as Hx2.
  destruct (Container.ExpandSecrets _ _ _ _) as [r d]; cbn [fst snd] in *.
  destruct r as [spec2|x]; [|intros Heq; apply (f_equal snd) in Heq; cbn [snd] in Heq; subst w'; by intros Hc%error_observed].
  cbv zeta. set (spec3 := Container.ExpandHostVars _ _).
  destruct (installing_observed now inst (set_db d w1)) as [Hw2 Hm2]; [rewrite (observed_same (db w)); [done|]; cbn; congruence|].
  set (w2 := markInstalling now inst (set_db d w1)) in *.
  destruct (Container.Apply _ _ _ _ _ _ spec3 (machine w2)) as [r e] eqn:Ha. pose proof (Apply_runs_spec _ _ _ _ _ _ Hp Ha) as Hap.
  destruct r as [applied|x].
  - specialize (Hap eq_refl). intros Heq _. exists parsed, spec3. split; [done|].
    split; [unfold spec3; rewrite hostvars_image, (Hx2 _ eq_refl); by apply Hi3|].
    apply (f_equal snd) in Heq. cbn [snd] in Heq. subst w'. rewrite applied_machine. cbn [set_machine machine].
    replace (machine w) with (machine w2); [done|]. rewrite Hm2. exact Hi2.
  - destruct (isTransientDockerErr _); intros Heq; apply (f_equal snd) in Heq; cbn [snd] in Heq; subst w'; [done|by intros Hc%error_observed].
Qed.
End containers.

(** ** System services *)
Section systems.
Context {loop : Loop} {E : Type} `{SystemDriver E}.
Notation W := (World E).

Lemma register_locks {A} ok (svc : A -> InstanceService) l (w : W) : locks (db (register ok svc l w)) = locks (db w).
Proof.
  unfold register. revert w. induction l as [|a l IH]; intros w; [done|]. cbn [fold_left]. rewrite IH. destruct (ok a); [|done].
  cbn. unfold UpsertService, fail, write. by repeat case_match.
Qed.

(** A device resource has one user.  A service whose group is held by another
    instance is not started: the machine is not asked for anything, the lock
    stays with its holder, and the row shows the error.  A service that was
    started holds its group's lock. *)
Theorem exclusive_service now inst (w : W) spec b w' :
  DesiredState inst = DesiredInstalled -> SystemParse.ParseSpec (ConfigJSON inst) = Ok spec -> SystemSpec.ExclusivityGroup spec <> "" ->
  reconcileSystem now inst w = (b, w') ->
  (b = true -> locks (db w') !! SystemSpec.ExclusivityGroup spec = Some (ID inst)) /\
  forall other, locks (db w) !! SystemSpec.ExclusivityGroup spec = Some other -> other <> ID inst ->
    b = false /\ machine w' = machine w /\ locks (db w') = locks (db w) /\
    (is_Some (instances (db w) !! ID inst) -> observed_of (db w') (ID inst) = Some "error").
Proof.
  intros Hd Hps Hg. unfold reconcileSystem. cbv zeta.
  assert (Hin : bool_decide (DesiredState inst = DesiredInstalled) = true) by (rewrite Hd; reflexivity). rewrite Hin, Hps.
  apply emptyb_false in Hg as ->.
  destruct (TryAcquireLock _ _ (db w)) as [r d] eqn:Hl. unfold TryAcquireLock in Hl.
  destruct (emptyb _ || emptyb _); [injection Hl as <- <-|destruct (locks (db w) !! SystemSpec.ExclusivityGroup spec) as [holder|] eqn:Hh].
  - cbn [is_ok negb]. intros [= <- <-]. split; [done|]. intros other _ _. split_and!; [done..|]. intros [r Hr]. rewrite observed_set. cbn. by rewrite Hr.
  - case_bool_decide as Hme; injection Hl as <- <-.
    + subst holder. cbn [is_ok negb]. destruct (sys_apply _ _ _) as [[t|] e]; intros [= <- <-]; (split; [|by intros ? [= <-]]); [done|].
      intros _. cbn [set_observed write_db set_db on_prober db]. cbn. by rewrite register_locks.
    + cbn [is_ok negb]. intros [= <- <-]. split; [done|]. intros other _ _. split_and!; [done..|]. intros [r Hr]. rewrite observed_set. cbn. by rewrite Hr.
  - destruct (has _ _); injection Hl as <- <-; cbn [is_ok negb].
    + destruct (sys_apply _ _ _) as [[t|] e]; intros [= <- <-]; (split; [|done]); [done|]. intros _. cbn. rewrite register_locks. cbn. apply lookup_insert_eq.
    + intros [= <- <-]. by split.
Qed.
End systems.

(** ** The ingress manager keeps its promise

    Its own state lives beside the machine. *)
Section ingress.
Context (sha256 : string -> string) (min_free : Z) (goos gateway : string) (quote : string -> string) (cfg : Caddyfile.IngressConfig).
Context (CaddyData CaddyConfig : string) (parse_cert : string -> option (Z * string * list string)) (clock : Z).
Context {E : Type} `{Container.Engine E} `{Ingress.CaddyHost E} (manager : E -> Ingress.Manager) (set_manager : Ingress.Manager -> E -> E).

Definition manager_applier : IngressApplier E := {|
  ingress_Apply s := let '(_, (m, db, e)) := Ingress.Apply sha256 min_free goos gateway quote cfg CaddyData CaddyConfig parse_cert clock (manager s.2) s.1 s.2
                     in (db, set_manager m e)
|}.

Lemma calm_scan want files d : instances (Ingress.scan parse_cert want clock files d) = instances d.
Proof.
  revert d. induction files as [|[[path skip] data] files IH]; intros d; [done|]. cbn [Ingress.scan]. cbv zeta. rewrite IH.
  destruct (_ || _); [done|]. destruct data as [pem|]; [|done]. unfold Ingress.recordCert. by destruct (parse_cert pem) as [[[? ?] ?]|].
Qed.

Lemma manager_calm : @IngressLaws E manager_applier.
Proof.
  intros [d e]. unfold ingress_Apply, manager_applier, Ingress.Apply. cbn [fst snd].
  destruct (Caddyfile.Disabled cfg); [done|]. destruct (Ingress.render _ _ _ _ d) as [file summary]. cbv zeta.
  destruct (if bool_decide _ then _ else _) as [[u|x] e1]; [|done]. destruct (Ingress.chmodCertsForAgentRead _ e1) as [r e2]. cbn [fst].
  assert (Hw : instances (Ingress.write_observed summary clock d) = instances d).
  { unfold Ingress.write_observed. revert d. induction (map_to_list _) as [|p l IH]; intros d; [done|]. cbn [fold_left]. by rewrite IH. }
  rewrite <- Hw. unfold Ingress.ScanCerts, Ingress.scanCertsContainerized. cbv zeta. destruct (Caddyfile.Containerized cfg).
  - destruct (Ingress.certs_in_archive e2) as [[st files]|]; [|done]. destruct (st =? 200)%Z; [apply calm_scan|done].
  - destruct (Ingress.certs_on_disk _ e2); [apply calm_scan|done].
Qed.
End ingress.

(** ** A small device *)
Notation box := ComposeProps.box.
#[export] Instance box_system : SystemDriver box := {| sys_apply _ _ e := (None, e); sys_remove _ _ e := (None, e); sys_gc _ e := e |}.
#[export] Instance box_managed : ManagedList box := {| get_managed _ := Ok (200%Z, Ok []) |}.
#[export] Instance box_ingress : IngressApplier box := {| ingress_Apply s := s |}.
#[export] Instance box_ingress_laws : IngressLaws box.
Proof. intros s. reflexivity. Defined.

Definition demo_with (fails : statement -> string -> Z -> bool) : Loop := {|
  sha256 s := s; goos := "linux"; agentGID := 1000; min_free := 0; httpsPort := 443; compose_root := "/w"; puller := false;
  yaml_decode _ := Err tt; rd _ _ := ""; secret_bytes := ""; socketPath := ""; hostGatewayIP := "";
  has_compose := true; has_ingress := true; has_prober := true;
  container_text _ := "container error"; secrets_text _ := "secret error"; compose_parse_text _ := "bad bundle";
  compose_text _ := "compose error"; system_text _ := "bad spec"; db_fails := fails
|}.
Definition demo_loop : Loop := demo_with (fun _ _ _ => false).
Definition quoted (s : string) : string := replace_all s "'" (str1 "034").
Definition wanted (id runtime desired config : string) : Instance := MkInstance id "t" runtime "1" desired config "" "" None "" None None None.
Definition nginx : string := quoted "{'image':'nginx'}".
Definition demo_ops : list store_op :=
  [OpUpsertInstance (wanted "wp" "compose" "removed" "{}") 1; OpUpsertInstance (wanted "web" "container" "installed" nginx) 2;
   OpEnsureTemplateSecret (fun _ _ => "AAAA") "wp" "db" "hex" 8].
Definition demo_db : DB := fold_left (fun d op => exec op d) demo_ops (fresh_db 0).
Lemma demo_ok : db_ok demo_db.
Proof. unfold demo_db, demo_ops. cbn [fold_left]. repeat apply exec_db_ok. apply fresh_db_ok. Qed.
Definition world_of {E} (d : DB) (e : E) : World E := MkW (Prober.New d) WorkQueue.initial e [].
Definition quiet_world : world := MkWorld (fun _ _ => None) None.
Definition tools : box := ComposeProps.broken_docker.

Definition demo_pass : World box := (reconcile (loop := demo_loop) (fun _ => quiet_world) 5 true (world_of demo_db tools)).2.
Lemma agent_preserves_desired_witness : preserves demo_db (db demo_pass) /\
  instances (db demo_pass) !! "wp" = None /\ observed_of (db demo_pass) "web" = Some "installed".
Proof.
  split; [|by split; vm_compute].
  apply (agent_preserves_desired (loop := demo_loop) (world_of demo_db tools) demo_pass). apply rtc_once. apply a_pass.
Defined.

Definition stored (id : string) (d : DB) : Instance := match GetInstance id d with Ok i => i | Err _ => wanted "" "" "" "" end.

(** Containers by name: web runs, and so does a neighbour; the row of web is
    marked removed, and the database may fail to delete it. *)
Definition some_body : Container.createBody := Container.MkCreateBody "nginx" None [] ∅ ∅ [] "obacht-edge".
Definition engine : Container.toy := {["obacht-web" := ("running", some_body); "obacht-api" := ("running", some_body)]}.
Definition gone_db : DB := exec (OpUpsertInstance (wanted "web" "container" "removed" nginx) 3) demo_db.
Definition failing_loop : Loop := demo_with (fun s _ t => match s with DeleteRow => (t <? 10)%Z | _ => false end).
Definition down (now : Z) (w : World Container.toy) : bool * World Container.toy := reconcileContainerDown (loop := failing_loop) now (stored "web" gone_db) w.
(** The deletion fails in a first pass and is made up for in a second. *)
Lemma removed_leaves_nothing_witness :
  let first := down 5 (world_of gone_db engine) in let second := down 15 first.2 in
  Container.view (machine first.2) !! "obacht-web" = None /\ instances (db first.2) = instances gone_db /\
  instances (db second.2) !! "web" = None /\
  Container.view (machine first.2) !! "obacht-api" = Container.view engine !! "obacht-api".
Proof.
  cbv zeta.
  destruct (removed_leaves_nothing (loop := failing_loop) 5 (stored "web" gone_db) (world_of gone_db engine) true (down 5 (world_of gone_db engine)).2)
    as [Ho (Hv & _ & _ & Hi)]; [reflexivity|reflexivity|vm_compute; reflexivity|].
  destruct (removed_leaves_nothing (loop := failing_loop) 15 (stored "web" gone_db) (down 5 (world_of gone_db engine)).2 true
    (down 15 (down 5 (world_of gone_db engine)).2).2) as [_ (_ & _ & _ & Hi2 & _)]; [reflexivity|reflexivity|vm_compute; reflexivity|].
  split; [exact Hv|]. split; [exact Hi|]. split; [exact Hi2|]. exact (proj1 (Ho "obacht-api" ltac:(done))).
Defined.

(** A failed drop is not made up for: once the row is gone, nothing removes the
    template secrets of the instance again. *)
Definition keeping_loop : Loop := demo_with (fun s _ t => match s with DropSecrets => (t <? 10)%Z | _ => false end).
Definition secret_db : DB := (EnsureTemplateSecret (fun _ _ => "AAAA") "web" "db" "hex" 8 gone_db).2.
Example secrets_outlive_row :
  let w := (reconcileContainerDown (loop := keeping_loop) 5 (stored "web" secret_db) (world_of secret_db engine)).2 in
  instances (db w) !! "web" = None /\ is_Some (template_secrets (db w) !! ("web", "db")).
Proof. split; vm_compute; [reflexivity|eauto]. Qed.

Definition up : bool * World Container.toy := applyContainer (loop := demo_loop) 7 (stored "web" demo_db) ∅ (world_of demo_db (∅ : Container.toy)).
Lemma installed_is_running_witness : observed_of (db up.2) "web" = Some "installed" /\
  exists x, Container.view (machine up.2) !! "obacht-web" = Some x /\ Container.c_State x = "running".
Proof.
  assert (Ho : observed_of (db up.2) "web" = Some "installed") by (vm_compute; reflexivity). split; [exact Ho|].
  destruct (installed_is_running (loop := demo_loop) 7 (stored "web" demo_db) ∅ (world_of demo_db (∅ : Container.toy)) up.1 up.2)
    as (_ & _ & _ & _ & x & Hv & Hr & _); [reflexivity|by vm_compute|exact (surjective_pairing up)|exact Ho|]. exists x.
  assert (Hid : Container.container_name (ID (stored "web" demo_db)) = "obacht-web") by (vm_compute; reflexivity). rewrite Hid in Hv. exact (conj Hv Hr).
Defined.

(** Two screens, one display. *)
Definition screen : string := quoted "{'kiosk':{},'exclusivity_group':'screen'}".
Definition screens_ops : list store_op :=
  [OpUpsertInstance (wanted "a" "system" "installed" screen) 1; OpUpsertInstance (wanted "b" "system" "installed" screen) 2; OpTryAcquireLock "screen" "a"].
Definition screens_db : DB := fold_left (fun d op => exec op d) screens_ops (fresh_db 0).
Definition second_screen : bool * World box := reconcileSystem (loop := demo_loop) 9 (stored "b" screens_db) (world_of screens_db tools).
Lemma exclusive_service_witness : second_screen.1 = false /\ machine second_screen.2 = tools /\ observed_of (db second_screen.2) "b" = Some "error".
Proof.
  destruct (exclusive_service (loop := demo_loop) 9 (stored "b" screens_db) (world_of screens_db tools)
    (match SystemParse.ParseSpec screen with Ok s => s | Err _ => SystemParse.zero_Spec end) second_screen.1 second_screen.2) as [_ Hx];
    [reflexivity|vm_compute; reflexivity|by vm_compute|exact (surjective_pairing second_screen)|].
  destruct (Hx "a") as (Hb & Hm & _ & Ho); [vm_compute; reflexivity|done|]. split; [exact Hb|]. split; [exact Hm|]. apply Ho. vm_compute. eauto.
Defined.

(** Stopping a bundle runs the removal of the driver: [down -v] takes its
    volumes, and its workspace and template secrets go; the row stays. *)
Definition paused_db : DB := exec (OpUpsertInstance (wanted "wp" "compose" "stopped" "{}") 3) demo_db.
Definition stopped : bool * World box := reconcileComposeDown (loop := demo_loop) 5 (stored "wp" paused_db) (world_of paused_db tools).
Example stop_discards :
  template_secrets paused_db !! ("wp", "db") <> None /\ template_secrets (db stopped.2) !! ("wp", "db") = None /\
  ["compose"; "--project-name"; "obacht-wp"; "down"; "-v"; "--remove-orphans"] ∈ ComposeProps.k_log (machine stopped.2) /\
  is_Some (instances (db stopped.2) !! "wp").
Proof.
  split; [by vm_compute|]. split; [by vm_compute|]. split; [apply (bool_decide_unpack _); vm_compute; exact I|vm_compute; eauto].
Qed.
