(* ===== verification/Ipc.v ===== *)
(** * The local API: internal/ipc/server.go

    An HTTP server on a unix socket with two classes of callers: the device
    admin, recognised by the uid of the connection, and templates, recognised
    by a bearer secret.  A request is handled by [serve]: routing, the guard of
    the admin endpoints and one function per handler, on the database, the
    audit log and the trust store, with the signals it sends to the rest of the
    agent.  The docker command line, the reconciler's queue report and the
    ingress reload are what the surroundings answer.  The members of an answer are in
    the order in which the code writes them; the encoder sorts them. *)

From S2P Require Import Prelude GoStrings Codec Utf8 Json JsonEnc JsonDec GoAny Secrets UserKeys Store StoreInv AuditLog BasicAuth.

(** ** Requests and responses *)

(** [r_peer] is what [peerUID] finds on the connection (-1: unknown). *)
Record request := MkRequest {
  r_peer : res unit Z;
  r_method : string;
  r_path : list string;                  (* the segments, unescaped *)
  r_query : list (string * string);
  r_authorization : string;
  r_body : string
}.
Definition query_get (k : string) (r : request) : string := default "" (assoc k (r_query r)).

Inductive ipc_error :=
| PeerCheckFailed | NotAdmin | NoEndpoint
| BadBody | IdAndTemplateRequired | StateValue (s : string) | SettingNotWritable (k : string)
| StoreError (e : store_error) | AuthError (e : auth_error) | KeyError (e : key_error)
| ReconcilerNotWired | IngressNotEnabled | KeysNotConfigured | ReloadError (t : string) | AuditError
| MissingBearer | InvalidToken
| IDRequired | InvalidID | InvalidService | NoContainer (id service : string) | Command (what t : string).

(** A body is missing when encoding it fails after the header was sent. *)
Record response := MkResponse { code_ : Z; body : option json }.

(** What the server tells the rest of the agent. *)
Inductive effect := Trigger | NudgeIngress | Reload | KeysChanged | SettingChanged (key : string).

Record server := MkServer {
  v_db : DB;
  v_audit : option Writer;
  v_keys : keys_dir;
  v_sent : list effect     (* newest first *)
}.
Definition on_db (db : DB) (s : server) : server := MkServer db (v_audit s) (v_keys s) (v_sent s).
Definition on_keys (k : keys_dir) (s : server) : server := MkServer (v_db s) (v_audit s) k (v_sent s).
Definition send (e : effect) (s : server) : server := MkServer (v_db s) (v_audit s) (v_keys s) (e :: v_sent s).

(** How the server is wired, and what its surroundings answer. *)
Class Wiring := {
  self_uid : Z;
  version : string;
  has_rec : bool;
  nudgeable : bool;                           (* the reconciler has TriggerIngress *)
  active_work : option (string * list string);
  reload : option (option string);            (* no ingress manager, or the error of Reload *)
  keys_configured : bool;
  keys_listener : option (keys_dir -> Z);     (* the verifier's reload, with its key count *)
  services : res string json;                 (* the systemd units *)
  docker_out : list string -> res string string;
  docker_combined : list string -> option string * string;
  sha : string -> string;
  crypt : string -> option string;
  secret_bytes : string;
  to_float : string -> option gofloat;
  now : Z;
  log_writable : log_io;                      (* does the database take the row, the file the line *)
  err_text : ipc_error -> string;
  store_text : store_error -> string;
  key_problem : string * key_error -> string
}.

Section server.
Context {wiring : Wiring}.

Notation handler := (server -> response * server).

(** ** Writing *)
Definition writeJSON (code : Z) (j : json) : response := MkResponse code (Some j).
Definition writeErr (code : Z) (e : ipc_error) : response := writeJSON code (JObj [("error", JStr (err_text e))]).
Definition num (z : Z) : json := JNum (itoa z).
Definition okay (ms : list (string * json)) : response := writeJSON 200 (JObj (("ok", JBool true) :: ms)).

(** ** Reading a body

    A decoder reads the first value of the body and ignores what follows. *)
Fixpoint first_value (st : list frame) (m : mode) (s : string) : option json :=
  match st, m with
  | [], MDone v => Some v
  | _, _ =>
      match s with
      | "" => match st, m with
              | [], MNum ns raw => if num_complete ns then Some (JNum (srev raw)) else None
              | _, _ => None
              end
      | String c s' => match step st m c with Some (st', m') => first_value st' m' s' | None => None end
      end
  end.

(** The members of the first object with the text of each value. *)
Definition is_number (st : list frame) (m : mode) : bool := match st, m with [FObj _ _], MNum _ _ => true | _, _ => false end.
Fixpoint raw_members (st : list frame) (m : mode) (cur : option (string * string)) (s : string) : list (string * string) :=
  match s with
  | "" => []
  | String c s' =>
      match step st m c with
      | None => []
      | Some (st', m') =>
          match cur, st, m with
          | None, [FObj _ k], MValue => raw_members st' m' (if is_ws c then None else Some (k, str1 c)) s'
          | None, _, _ => raw_members st' m' None s'
          | Some (k, raw), _, _ =>
              match st' with
              | [] | [FKey _] => (k, srev (if is_number st m then raw else String c raw)) :: raw_members st' m' None s'
              | _ => raw_members st' m' (Some (k, String c raw)) s'
              end
          end
      end
  end.
(** A [json.RawMessage] member of the first object. *)
Definition raw_member (name s : string) : string :=
  fold_left (fun (cur : string) p => if names_field name p.1 then p.2 else cur) (raw_members [] MValue None s) "".

Definition decode {A} (limit : nat) (dec : decoder A) (zero : A) (r : request) : option A :=
  j ← first_value [] MValue (stake limit (r_body r));
  let '(a, bad) := dec j zero in if (bad : bool) then None else Some a.
Definition MB : nat := Z.to_nat 1048576.
Definition KB64 : nat := Z.to_nat 65536.

(** ** Audit and signals *)
Definition audit (op target result : string) (params : list (string * json)) (summary err : string) (s : server) : server :=
  let '(_, w, db) := Append sha (v_audit s) (MkEntry 0 0 op "obachtctl" target result params "" summary err) now log_writable (v_db s) in
  MkServer db w (v_keys s) (v_sent s).
Definition audit_ok op target params summary : server -> server := audit op target "" params summary "".
Definition audit_err op target params summary (e : store_error) : server -> server :=
  audit op target ResultError params summary (store_text e).

Definition trigger (s : server) : server := if has_rec then send Trigger s else s.
Definition nudgeIngressLoop (s : server) : server := if has_rec && nudgeable then send NudgeIngress s else s.

(** A store method, its error handled by [bad] and its success by [k]. *)
Definition store_do {A} (m : M A) (bad : store_error -> handler) (k : A -> handler) : handler :=
  fun s => let '(r, db) := m (v_db s) in
           match r with Ok a => k a (on_db db s) | Err e => bad e (on_db db s) end.
Definition refuse (code : Z) (e : ipc_error) : handler := fun s => (writeErr code e, s).
Definition not_found_or (code : Z) (e : store_error) : response :=
  writeErr (match e with NotFound => 404 | _ => code end) (StoreError e).

(** ** Instances *)
Definition zero_unix : Z := -62135596800.
Definition unix (t : option Z) : json := num (default zero_unix t).

(** A text read into a [map[string]any]. *)
Definition unmarshal_map (raw : string) : option amap :=
  j ← json_parse raw;
  let '(m, bad) := dec_amap to_float j [] in if (bad : bool) then None else Some m.

(** [redactInstanceConfig]: the text itself when it is not an object. *)
Definition redact_value (p : string * any) : string * any := if IsSecretKey p.1 then (p.1, AStr Placeholder) else p.
Definition redact_item (v : any) : any :=
  match v with
  | AStr e => match index_byte e "=" with
              | Some (S n) => let k := stake (S n) e in if IsSecretKey k then AStr (k +:+ "=" +:+ Placeholder) else v
              | _ => v
              end
  | _ => v
  end.
Definition redactInstanceConfig (raw : string) : res string any :=
  match unmarshal_map raw with
  | None => Err raw
  | Some cfg =>
      if match json_parse raw with Some JNull => true | _ => false end then Ok ANull else
      Ok (AMap (match get "env" cfg with
                | AMap ms => assoc_set "env" (AMap (map redact_value ms)) cfg
                | AList l => assoc_set "env" (AList (map redact_item l)) cfg
                | _ => cfg
                end))
  end.

(** The map of an instance; [None] when its raw configuration cannot be encoded. *)
Definition instanceToMap (i : Instance) : option (list (string * json)) :=
  let m := [("id", JStr (ID i)); ("template_id", JStr (TemplateID i)); ("runtime", JStr (Runtime i)); ("version", JStr (Version i));
            ("desired_state", JStr (DesiredState i)); ("observed_state", JStr (ObservedState i));
            ("created_at", unix (CreatedAt i)); ("updated_at", unix (UpdatedAt i))] ++
           (match ObservedAt i with Some t => [("observed_at", num t)] | None => [] end) in
  if emptyb (ConfigJSON i) then Some m else
  c ← match redactInstanceConfig (ConfigJSON i) with Ok v => any_json v | Err raw => json_parse raw end;
  Some (m ++ [("config", c); ("sanitized", JBool true)]).

Definition work_state (i : Instance) : list (string * json) :=
  let '(active, queued) := default ("", []) active_work in
  if negb (emptyb active) && bool_decide (ID i = active) then [("work_state", JStr "applying")]
  else if bool_decide (ID i ∈ queued) then [("work_state", JStr "queued")] else [].

Definition adminListInstances : handler := fun s =>
  (MkResponse 200 (JArr <$> seq_opt (map (fun i => m ← instanceToMap i; Some (JObj (m ++ work_state i))) (ListInstances (v_db s)))), s).

Record upsertReq := MkUpsertReq { q_ID : string; q_TemplateID : string; q_Runtime : string; q_Version : string; q_Desired : string; q_Config : any }.
Definition dec_any : decoder any := fun j _ => json_any to_float j.
Definition dec_upsertReq : decoder upsertReq := dec_struct
  [fld "id" dec_string q_ID (fun v q => MkUpsertReq v (q_TemplateID q) (q_Runtime q) (q_Version q) (q_Desired q) (q_Config q));
   fld "template_id" dec_string q_TemplateID (fun v q => MkUpsertReq (q_ID q) v (q_Runtime q) (q_Version q) (q_Desired q) (q_Config q));
   fld "runtime" dec_string q_Runtime (fun v q => MkUpsertReq (q_ID q) (q_TemplateID q) v (q_Version q) (q_Desired q) (q_Config q));
   fld "version" dec_string q_Version (fun v q => MkUpsertReq (q_ID q) (q_TemplateID q) (q_Runtime q) v (q_Desired q) (q_Config q));
   fld "desired_state" dec_string q_Desired (fun v q => MkUpsertReq (q_ID q) (q_TemplateID q) (q_Runtime q) (q_Version q) v (q_Config q));
   fld "config" dec_any q_Config (fun v q => MkUpsertReq (q_ID q) (q_TemplateID q) (q_Runtime q) (q_Version q) (q_Desired q) v)].

Definition or_else (s d : string) : string := if emptyb s then d else s.
Definition config_text (v : any) : string :=
  match v with AStr s => s | ANull => "" | _ => match any_json v with Some j => marshal j | None => "" end end.

Definition adminUpsertInstance (r : request) : handler :=
  match decode MB dec_upsertReq (MkUpsertReq "" "" "" "" "" ANull) r with
  | None => refuse 400 BadBody
  | Some q =>
      if emptyb (q_ID q) || emptyb (q_TemplateID q) then refuse 400 IdAndTemplateRequired else
      let runtime := or_else (q_Runtime q) "container" in
      let desired := or_else (q_Desired q) "installed" in
      let inst := MkInstance (q_ID q) (q_TemplateID q) runtime (q_Version q) desired (config_text (q_Config q)) "" "" None "" None None None in
      store_do (UpsertInstance inst now)
        (fun e s => (writeErr 400 (StoreError e),
                     audit_err "instance.upsert" (q_ID q) [("template", JStr (q_TemplateID q)); ("state", JStr desired)] "" e s))
        (fun _ s => (okay [("id", JStr (q_ID q))],
           trigger (audit_ok "instance.upsert" (q_ID q)
             [("template", JStr (q_TemplateID q)); ("runtime", JStr runtime); ("state", JStr desired); ("version", JStr (q_Version q))]
             ("template=" +:+ q_TemplateID q +:+ " state=" +:+ desired) s)))
  end.

Definition adminInstanceConfigInput (id : string) : handler := fun s =>
  match GetInstance id (v_db s) with
  | Err e => (not_found_or 500 e, s)
  | Ok inst =>
      let input := match unmarshal_map (ConfigJSON inst) with
                   | Some cfg => match get "__input" cfg with AMap m => m | _ => [] end
                   | None => []
                   end in
      (MkResponse 200 (v ← any_json (AMap input); Some (JObj [("id", JStr id); ("input", v)])), s)
  end.

Definition set_desired (d : string) (i : Instance) : Instance :=
  MkInstance (ID i) (TemplateID i) (Runtime i) (Version i) d (ConfigJSON i) (ObservedState i) (ObservedJSON i) (ObservedAt i)
    (ServiceReady i) (ReadyAt i) (CreatedAt i) (UpdatedAt i).

Definition adminDeleteInstance (r : request) (id : string) : handler := fun s =>
  if bool_decide (query_get "hard" r = "1") then
    store_do (DeleteInstance id)
      (fun e s => (writeErr 500 (StoreError e), audit_err "instance.delete" id [] "hard=true" e s))
      (fun _ s => (okay [("deleted", JStr id)], trigger (audit_ok "instance.delete" id [] "hard=true" s))) s
  else
    match GetInstance id (v_db s) with
    | Err e => (not_found_or 500 e, s)
    | Ok inst =>
        store_do (UpsertInstance (set_desired DesiredRemoved inst) now)
          (fun e => refuse 500 (StoreError e))
          (fun _ s => (okay [("marked_removed", JStr id)], trigger s)) s
    end.

Definition adminSetInstanceState (r : request) (id : string) : handler := fun s =>
  match decode 1024 (dec_struct [fld "state" dec_string (fun x => x) (fun v _ => v)]) "" r with
  | None => refuse 400 BadBody s
  | Some state =>
      if negb (bool_decide (state = DesiredInstalled) || bool_decide (state = DesiredStopped)) then refuse 400 (StateValue state) s else
      match GetInstance id (v_db s) with
      | Err e => (not_found_or 500 e, s)
      | Ok inst =>
          if bool_decide (DesiredState inst = state)
          then (okay [("id", JStr id); ("state", JStr state); ("noop", JBool true)], s)
          else
            store_do (UpsertInstance (set_desired state inst) now)
              (fun e s => (writeErr 500 (StoreError e), audit_err "instance.set_state" id [] ("state=" +:+ state) e s))
              (fun _ s => (okay [("id", JStr id); ("state", JStr state)],
                           trigger (audit_ok "instance.set_state" id [] ("state=" +:+ state) s))) s
      end
  end.

Definition adminTriggerReconcile : handler := fun s =>
  if has_rec then (okay [("triggered", JBool true)], send Trigger s) else refuse 503 ReconcilerNotWired s.

Definition adminIssueSecret (id : string) : handler := fun s =>
  match GetInstance id (v_db s) with
  | Err e => (not_found_or 500 e, s)
  | Ok _ =>
      store_do (CreateInstanceSecret id secret_bytes)
        (fun e s => (writeErr 500 (StoreError e), audit_err "instance.secret.issue" id [] "" e s))
        (fun secret s => (okay [("instance_id", JStr id); ("secret", JStr secret)],
                          audit_ok "instance.secret.issue" id [] "secret rotated" s)) s
  end.

(** ** Domains, routes and services *)
Definition domain_map (binds : list IngressBinding) (d : Domain) : json :=
  JObj ([("domain", JStr (D_Domain d)); ("desired_status", JStr (DesiredStatus d)); ("observed_status", JStr (ObservedStatus d));
         ("last_error", JStr (LastError d)); ("created_at", unix (D_CreatedAt d)); ("updated_at", unix (D_UpdatedAt d))] ++
        (match CertNotAfter d with Some t => [("cert_not_after", num t)] | None => [] end) ++
        (if emptyb (BasicAuthUser d) then [] else [("basic_auth_user", JStr (BasicAuthUser d))]) ++
        (match List.find (fun b => bool_decide (B_Domain b = D_Domain d)) binds with
         | Some b => [("binding", JObj [("instance_id", JStr (B_InstanceID b)); ("service_name", JStr (B_ServiceName b));
                                        ("mode", JStr (Mode b)); ("path_prefix", JStr (PathPrefix b))])]
         | None => []
         end)).

Definition adminListDomains : handler := fun s =>
  (writeJSON 200 (JArr (map (domain_map (ListBindings (v_db s))) (ListDomains (v_db s)))), s).

Record domainReq := MkDomainReq { dq_Domain : string; dq_Desired : string }.
Definition dec_domainReq : decoder domainReq := dec_struct
  [fld "domain" dec_string dq_Domain (fun v q => MkDomainReq v (dq_Desired q)); fld "desired_status" dec_string dq_Desired (fun v q => MkDomainReq (dq_Domain q) v)].

Definition adminUpsertDomain (r : request) : handler :=
  match decode KB64 dec_domainReq (MkDomainReq "" "") r with
  | None => refuse 400 BadBody
  | Some q =>
      store_do (UpsertDomain (dq_Domain q) (dq_Desired q) now)
        (fun e s => (writeErr 400 (StoreError e), audit_err "domain.upsert" (dq_Domain q) [("desired", JStr (dq_Desired q))] "" e s))
        (fun _ s =>
           let s := audit_ok "domain.upsert" (dq_Domain q) [("desired", JStr (dq_Desired q))] ("desired=" +:+ dq_Desired q) s in
           let s := match reload with Some _ => send Reload s | None => s end in
           (okay [("domain", JStr (dq_Domain q))], nudgeIngressLoop (trigger s)))
  end.

Definition adminDeleteDomain (d : string) : handler :=
  store_do (DeleteDomain d)
    (fun e s => (writeErr 500 (StoreError e), audit_err "domain.delete" d [] "" e s))
    (fun _ s => (okay [("deleted", JStr d)], nudgeIngressLoop (trigger (audit_ok "domain.delete" d [] "" s)))).

Record authReq := MkAuthReq { a_User : string; a_Password : string }.
Definition dec_authReq : decoder authReq := dec_struct
  [fld "username" dec_string a_User (fun v q => MkAuthReq v (a_Password q)); fld "password" dec_string a_Password (fun v q => MkAuthReq (a_User q) v)].

Definition adminSetDomainBasicAuth (r : request) (d : string) : handler :=
  match decode KB64 dec_authReq (MkAuthReq "" "") r with
  | None => refuse 400 BadBody
  | Some q =>
      match ValidateCredentials (a_User q) (a_Password q) with
      | Err e => refuse 400 (AuthError e)
      | Ok _ =>
          match Hash crypt (a_Password q) with
          | Err e => refuse 500 (AuthError e)
          | Ok hash =>
              store_do (SetDomainBasicAuth d (a_User q) hash now)
                (fun e s => (not_found_or 400 e, audit_err "domain.set_basic_auth" d [("username", JStr (a_User q))] "" e s))
                (fun _ s => (okay [("domain", JStr d); ("username", JStr (a_User q))],
                   nudgeIngressLoop (audit_ok "domain.set_basic_auth" d [("username", JStr (a_User q))] ("user=" +:+ a_User q) s)))
          end
      end
  end.

Definition adminClearDomainBasicAuth (d : string) : handler :=
  store_do (SetDomainBasicAuth d "" "" now)
    (fun e s => (not_found_or 400 e, audit_err "domain.clear_basic_auth" d [] "" e s))
    (fun _ s => (okay [("domain", JStr d); ("cleared", JBool true)], nudgeIngressLoop (audit_ok "domain.clear_basic_auth" d [] "" s))).

Definition dec_binding : decoder IngressBinding := dec_struct
  [fld "domain" dec_string B_Domain (fun v b => MkBinding v (B_InstanceID b) (B_ServiceName b) (LocalPort b) (Mode b) (PathPrefix b));
   fld "instance_id" dec_string B_InstanceID (fun v b => MkBinding (B_Domain b) v (B_ServiceName b) (LocalPort b) (Mode b) (PathPrefix b));
   fld "service_name" dec_string B_ServiceName (fun v b => MkBinding (B_Domain b) (B_InstanceID b) v (LocalPort b) (Mode b) (PathPrefix b));
   fld "local_port" dec_int LocalPort (fun v b => MkBinding (B_Domain b) (B_InstanceID b) (B_ServiceName b) v (Mode b) (PathPrefix b));
   fld "mode" dec_string Mode (fun v b => MkBinding (B_Domain b) (B_InstanceID b) (B_ServiceName b) (LocalPort b) v (PathPrefix b));
   fld "path_prefix" dec_string PathPrefix (fun v b => MkBinding (B_Domain b) (B_InstanceID b) (B_ServiceName b) (LocalPort b) (Mode b) v)].

Definition adminUpsertBinding (r : request) : handler :=
  match decode KB64 dec_binding (MkBinding "" "" "" 0 "" "") r with
  | None => refuse 400 BadBody
  | Some b =>
      let params := [("instance", JStr (B_InstanceID b)); ("service", JStr (B_ServiceName b)); ("local_port", num (LocalPort b)); ("mode", JStr (Mode b))] in
      store_do (UpsertBinding b)
        (fun e s => (writeErr 400 (StoreError e), audit_err "binding.upsert" (B_Domain b) params "" e s))
        (fun _ s => (okay [("domain", JStr (B_Domain b))],
           nudgeIngressLoop (trigger (audit_ok "binding.upsert" (B_Domain b) (params ++ [("path_prefix", JStr (PathPrefix b))])
             (B_Domain b +:+ " -> " +:+ B_InstanceID b +:+ "/" +:+ B_ServiceName b) s))))
  end.

Definition adminDeleteBinding (d : string) : handler :=
  store_do (DeleteBinding d)
    (fun e s => (writeErr 500 (StoreError e), audit_err "binding.delete" d [] "" e s))
    (fun _ s => (okay [("unbound", JStr d)], nudgeIngressLoop (trigger (audit_ok "binding.delete" d [] "" s)))).

Definition dec_service : decoder InstanceService := dec_struct
  [fld "instance_id" dec_string S_InstanceID (fun v x => MkService v (S_ServiceName x) (TargetType x) (Target x) (AppPath x));
   fld "service_name" dec_string S_ServiceName (fun v x => MkService (S_InstanceID x) v (TargetType x) (Target x) (AppPath x));
   fld "target_type" dec_string TargetType (fun v x => MkService (S_InstanceID x) (S_ServiceName x) v (Target x) (AppPath x));
   fld "target" dec_string Target (fun v x => MkService (S_InstanceID x) (S_ServiceName x) (TargetType x) v (AppPath x))].

Definition adminUpsertService (r : request) : handler :=
  match decode KB64 dec_service (MkService "" "" "" "" "") r with
  | None => refuse 400 BadBody
  | Some x =>
      let name := S_InstanceID x +:+ "/" +:+ S_ServiceName x in
      let params := [("target_type", JStr (TargetType x)); ("target", JStr (Target x))] in
      store_do (UpsertService x)
        (fun e s => (writeErr 400 (StoreError e), audit_err "service.upsert" name params "" e s))
        (fun _ s => (okay [], nudgeIngressLoop (trigger (audit_ok "service.upsert" name params (TargetType x +:+ "=" +:+ Target x) s))))
  end.

Definition adminIngressReload : handler := fun s =>
  match reload with
  | None => refuse 503 IngressNotEnabled s
  | Some (Some t) => (writeErr 500 (ReloadError t), audit "ingress.reload" "" ResultError [] "" t (send Reload s))
  | Some None => (okay [("reloaded", JBool true)], audit_ok "ingress.reload" "" [] "" (send Reload s))
  end.

(** ** Templates *)
Definition requireTemplateAuth (r : request) (db : DB) : res ipc_error string :=
  if negb (has_prefix (r_authorization r) "Bearer ") then Err MissingBearer else
  match LookupInstanceBySecret (trim_space (trim_prefix (r_authorization r) "Bearer ")) db with
  | Ok id => Ok id
  | Err _ => Err InvalidToken
  end.

Definition with_template (r : request) (k : string -> handler) : handler := fun s =>
  match requireTemplateAuth r (v_db s) with Err e => refuse 401 e s | Ok id => k id s end.

Definition templateSelf (r : request) : handler := with_template r (fun id s =>
  match GetInstance id (v_db s) with
  | Err e => refuse 500 (StoreError e) s
  | Ok inst => (MkResponse 200 (JObj <$> instanceToMap inst), s)
  end).

(** [stateReq]; the payload is kept as the text it is. *)
Definition templateState (r : request) : handler := with_template r (fun id s =>
  match decode MB (dec_struct [fld "state" dec_string (fun x => x) (fun v _ => v)]) "" r with
  | None => refuse 400 BadBody s
  | Some state =>
      store_do (SetObservedState id state (raw_member "payload" (stake MB (r_body r))) now)
        (fun e => refuse 500 (StoreError e)) (fun _ s => (okay [], s)) s
  end).

Definition templateEvent (r : request) : handler := with_template r (fun id s =>
  match decode MB (dec_struct [fld "type" dec_string (fun x => x) (fun v _ => v)]) "" r with
  | None => refuse 400 BadBody s
  | Some _ => (writeJSON 202 (JObj [("ok", JBool true)]), s)
  end).

(** ** Audit, status, settings *)
Definition entry_json (e : Entry) : json :=
  let opt k v := if emptyb v then [] else [(k, JStr v)] in
  JObj ([("seq", num (A_Seq e)); ("ts", num (A_TS e)); ("op", JStr (A_Op e)); ("actor", JStr (A_Actor e))] ++ opt "target" (E_Target e) ++
        [("result", JStr (A_Result e))] ++ opt "params_hash" (A_ParamsHash e) ++ opt "params_summary" (A_ParamsSummary e) ++ opt "error_message" (A_ErrorMessage e)).

Definition adminAuditTail (r : request) : handler := fun s =>
  let n := match Atoi (query_get "n" r) with Some n => if ((0 <? n) && (n <=? 1000))%Z then n else 50%Z | None => 50%Z end in
  (writeJSON 200 (JArr (map entry_json (Tail (v_audit s) n (v_db s)))), s).

Definition str_map (m : gmap string string) : json := JObj (map (fun p => (p.1, JStr p.2)) (map_to_list m)).

Definition systemStatus : handler := fun s =>
  let settings := AllSystemSettings (v_db s) in
  let count {A} (l : list A) := num (Z.of_nat (length l)) in
  (writeJSON 200 (JObj
    [("agent_version", JStr version); ("system_settings", str_map settings);
     ("power_mode", JBool (bool_decide (settings !! "power_mode" = Some "true")));
     ("security_mode", JStr (default "" (settings !! "security_mode")));
     ("counters", JObj [("instances", count (ListInstances (v_db s))); ("domains", count (ListDomains (v_db s)));
                        ("bindings", count (ListBindings (v_db s)));
                        ("audit_ops", JObj (map (fun p => (p.1, num p.2)) (map_to_list (AuditCounters (v_db s)))))]);
     ("audit_log_path", JStr ""); ("now", num now)]), s).

Record settingReq := MkSettingReq { g_Key : string; g_Value : string }.
Definition dec_settingReq : decoder settingReq := dec_struct
  [fld "key" dec_string g_Key (fun v q => MkSettingReq v (g_Value q)); fld "value" dec_string g_Value (fun v q => MkSettingReq (g_Key q) v)].
Definition writable_settings : list string := ["power_mode"; "security_mode"].

Definition adminSetSystemSetting (r : request) : handler :=
  match decode (slen (r_body r)) dec_settingReq (MkSettingReq "" "") r with
  | None => refuse 400 BadBody
  | Some q =>
      if negb (bool_decide (g_Key q ∈ writable_settings)) then refuse 400 (SettingNotWritable (g_Key q)) else
      let params := [("key", JStr (g_Key q)); ("value", JStr (g_Value q))] in
      store_do (SetSystemSetting (g_Key q) (g_Value q) now)
        (fun e s => (writeErr 500 (StoreError e), audit_err "system.setting.set" (g_Key q) params ("value=" +:+ g_Value q) e s))
        (fun _ s => (okay [("key", JStr (g_Key q)); ("value", JStr (g_Value q))],
                     send (SettingChanged (g_Key q)) (audit "system.setting.set" (g_Key q) ResultOK params ("value=" +:+ g_Value q) "" s)))
  end.

(** ** The trust store of signed mutations *)
Definition load_problem (p : string * dir_entry) : option (string * key_error) :=
  match p.2 with
  | DDir => None
  | DFile data => if negb (has_suffix p.1 ".pub") then None
                  else match ParseOpenSSHEd25519 data with Ok _ => None | Err e => Some (p.1, e) end
  end.
Definition problems (dir : keys_dir) : list string :=
  match dir with None => [] | Some d => map key_problem (omap load_problem (entries d)) end.

Definition with_keys (k : handler) : handler := if keys_configured then k else refuse 503 KeysNotConfigured.

Definition adminListUserKeys : handler := with_keys (fun s =>
  let keys := LoadUserKeys (v_keys s) in
  (writeJSON 200 (JObj ([("keys", JArr (map (fun k => JObj [("label", JStr (Label k)); ("fingerprint", JStr (Fingerprint sha k))]) keys));
                         ("count", num (Z.of_nat (length keys)))] ++
                        (match problems (v_keys s) with [] => [] | l => [("problems", JArr (map JStr l))] end))), s)).

(** The reload of the verifier, and its key count or that of the directory. *)
Definition notifyUserKeysChanged (s : server) : Z * bool * server :=
  match keys_listener with
  | Some f => (f (v_keys s), true, send KeysChanged s)
  | None => (Z.of_nat (length (LoadUserKeys (v_keys s))), false, s)
  end.

Definition one_string (name : string) : decoder string := dec_struct [fld name dec_string (fun x => x) (fun v _ => v)].

Definition adminPinUserKey (r : request) : handler := with_keys (fun s =>
  match decode 8192 (one_string "public_key") "" r with
  | None => refuse 400 BadBody s
  | Some line =>
      let '(res, dir) := PinUserKey sha (v_keys s) line in
      let s := on_keys dir s in
      match res with
      | Err e => (writeErr 400 (KeyError e), audit "security.user_key.pinned" "" ResultError [] "" (err_text (KeyError e)) s)
      | Ok (key, created) =>
          let fp := Fingerprint sha key in
          let s := audit "security.user_key.pinned" fp ResultOK
                     [("label", JStr (Label key)); ("fingerprint", JStr fp); ("created", JBool created)] ("label=" +:+ Label key) "" s in
          let '(count, reloaded, s) := notifyUserKeysChanged s in
          (okay [("created", JBool created); ("label", JStr (Label key)); ("fingerprint", JStr fp); ("keyCount", num count); ("reloaded", JBool reloaded)], s)
      end
  end).

Definition adminUnpinUserKey (r : request) : handler := with_keys (fun s =>
  match decode 8192 (one_string "fingerprint") "" r with
  | None => refuse 400 BadBody s
  | Some fp =>
      let '(res, dir) := UnpinUserKey sha (v_keys s) fp in
      let s := on_keys dir s in
      match res with
      | Err e => (writeErr 400 (KeyError e), audit "security.user_key.unpinned" fp ResultError [] "" (err_text (KeyError e)) s)
      | Ok removed =>
          let n := Z.of_nat removed in
          let s := audit "security.user_key.unpinned" fp ResultOK [("fingerprint", JStr fp); ("removed", num n)] ("removed=" +:+ itoa n) "" s in
          let '(count, reloaded, s) := notifyUserKeysChanged s in
          (okay [("removed", num n); ("keyCount", num count); ("reloaded", JBool reloaded)], s)
      end
  end).

(** ** Read-only host views *)
Definition adminListSystemdServices : handler := fun s =>
  match services with
  | Err t => refuse 500 (Command "" t) s
  | Ok j => (writeJSON 200 (JObj [("services", j)]), s)
  end.

Definition safe_byte (c : ascii) : bool := is_lower c || is_upper c || is_digit c || mem_byte c "-_.".
Definition isSafeArg (s : string) : bool := negb (emptyb s) && (slen s <=? 200)%nat && str_all safe_byte s.

Definition log_tail (t : string) : Z := match Atoi t with Some n => Z.min 5000 (Z.max 1 n) | None => 200 end.

Definition lines_of (out : string) : list string := filter (fun l => l <> "") (split_on LF (trim_space out)).
(** Names and services of a project's containers. *)
Definition ps_match (service line : string) : option (string * string) :=
  match cut line "|" with
  | Some (name, svc) => if negb (emptyb service) && negb (bool_decide (svc = service)) then None else Some (name, svc)
  | None => None
  end.
Fixpoint distinct (seen l : list string) : list string :=
  match l with
  | [] => []
  | x :: l => let x := trim_space x in if emptyb x || bool_decide (x ∈ seen) then distinct seen l else x :: distinct (x :: seen) l
  end.
Definition out_of (r : res string string) : string := match r with Ok o => o | Err _ => "" end.
Definition service_label : string := "{{.Label " +:+ str1 "034" +:+ "com.docker.compose.service" +:+ str1 "034" +:+ "}}".

(** Every command this handler runs, with its arguments. *)
Definition ps_args (id fmt : string) : list string := ["ps"; "-a"; "--filter"; "label=com.docker.compose.project=obacht-" +:+ id; "--format"; fmt].
Definition name_args (id : string) : list string := ["ps"; "-a"; "--filter"; "name=^obacht-" +:+ id +:+ "$"; "--format"; "{{.Names}}"].

Definition logs_response (id service container : string) (tail : Z) (logs : string) : response :=
  let names := if emptyb service then distinct [] (split_on LF (trim_space (out_of (docker_out (ps_args id service_label))))) else [] in
  writeJSON 200 (JObj [("instance", JStr id); ("service", JStr service); ("container", JStr container); ("tail", num tail);
                       ("logs", JStr logs); ("services", JArr (map JStr names))]).

Definition adminInstanceLogs (r : request) (id : string) : handler := fun s =>
  if emptyb id then refuse 400 IDRequired s else
  if negb (isSafeArg id) then refuse 400 InvalidID s else
  let service := query_get "service" r in
  if negb (emptyb service) && negb (isSafeArg service) then refuse 400 InvalidService s else
  let tail := log_tail (query_get "tail" r) in
  match docker_out (ps_args id ("{{.Names}}|" +:+ service_label)) with
  | Err t => refuse 500 (Command "docker ps: " t) s
  | Ok out =>
      let found := omap (ps_match service) (lines_of out) in
      let found := match found with
                   | [] => if emptyb service then
                             let name := trim_space (out_of (docker_out (name_args id))) in if emptyb name then [] else [(name, "")]
                           else []
                   | _ => found
                   end in
      match found with
      | [] => refuse 404 (NoContainer id service) s
      | (container, _) :: _ =>
          let '(err, logs) := docker_combined ["logs"; "--tail"; itoa tail; "--timestamps"; container] in
          match err with
          | Some t => if emptyb logs then refuse 500 (Command "docker logs: " t) s else (logs_response id service container tail logs, s)
          | None => (logs_response id service container tail logs, s)
          end
      end
  end.

Definition handleHealth : handler := fun s => (writeJSON 200 (JObj [("ok", JBool true); ("ts", num now)]), s).

(** ** Routing *)

(** Only root and the agent's own uid pass; an unknown uid falls back to the
    permissions of the socket. *)
Definition is_admin (peer : Z) : bool := negb ((0 <=? peer)%Z && negb (bool_decide (peer = self_uid)) && negb (peer =? 0)%Z).
Definition adminGuard (r : request) (h : handler) : handler :=
  match r_peer r with
  | Err _ => refuse 403 PeerCheckFailed
  | Ok uid => if is_admin uid then h else refuse 403 NotAdmin
  end.

(** A pattern is a list of segments, [{}] for the one that is passed on; the
    flag says whether the guard is around the handler. *)
Record route := MkRoute { t_method : string; t_path : list string; t_guarded : bool; t_handler : request -> string -> handler }.

Definition routes : list route :=
  [MkRoute "GET" ["v1"; "health"] false (fun _ _ => handleHealth);
   MkRoute "GET" ["v1"; "admin"; "instances"] true (fun _ _ => adminListInstances);
   MkRoute "POST" ["v1"; "admin"; "instances"] true (fun r _ => adminUpsertInstance r);
   MkRoute "DELETE" ["v1"; "admin"; "instances"; "{}"] true adminDeleteInstance;
   MkRoute "POST" ["v1"; "admin"; "instances"; "{}"; "state"] true adminSetInstanceState;
   MkRoute "POST" ["v1"; "admin"; "reconcile"] true (fun _ _ => adminTriggerReconcile);
   MkRoute "POST" ["v1"; "admin"; "instances"; "{}"; "secret"] true (fun _ => adminIssueSecret);
   MkRoute "GET" ["v1"; "admin"; "instances"; "{}"; "config-input"] true (fun _ => adminInstanceConfigInput);
   MkRoute "GET" ["v1"; "admin"; "domains"] true (fun _ _ => adminListDomains);
   MkRoute "POST" ["v1"; "admin"; "domains"] true (fun r _ => adminUpsertDomain r);
   MkRoute "DELETE" ["v1"; "admin"; "domains"; "{}"] true (fun _ => adminDeleteDomain);
   MkRoute "POST" ["v1"; "admin"; "domains"; "{}"; "basic-auth"] true adminSetDomainBasicAuth;
   MkRoute "DELETE" ["v1"; "admin"; "domains"; "{}"; "basic-auth"] true (fun _ => adminClearDomainBasicAuth);
   MkRoute "POST" ["v1"; "admin"; "bindings"] true (fun r _ => adminUpsertBinding r);
   MkRoute "DELETE" ["v1"; "admin"; "bindings"; "{}"] true (fun _ => adminDeleteBinding);
   MkRoute "POST" ["v1"; "admin"; "services"] true (fun r _ => adminUpsertService r);
   MkRoute "POST" ["v1"; "admin"; "ingress"; "reload"] true (fun _ _ => adminIngressReload);
   MkRoute "GET" ["v1"; "admin"; "user-keys"] true (fun _ _ => adminListUserKeys);
   MkRoute "POST" ["v1"; "admin"; "user-keys"] true (fun r _ => adminPinUserKey r);
   MkRoute "DELETE" ["v1"; "admin"; "user-keys"] true (fun r _ => adminUnpinUserKey r);
   MkRoute "GET" ["v1"; "admin"; "audit"] true (fun r _ => adminAuditTail r);
   MkRoute "GET" ["v1"; "system"; "status"] false (fun _ _ => systemStatus);
   MkRoute "POST" ["v1"; "admin"; "system"; "settings"] true (fun r _ => adminSetSystemSetting r);
   MkRoute "GET" ["v1"; "admin"; "systemd-services"] true (fun _ _ => adminListSystemdServices);
   MkRoute "GET" ["v1"; "admin"; "instances"; "{}"; "logs"] true adminInstanceLogs;
   MkRoute "GET" ["v1"; "template"; "self"] false (fun r _ => templateSelf r);
   MkRoute "POST" ["v1"; "template"; "state"] false (fun r _ => templateState r);
   MkRoute "POST" ["v1"; "template"; "event"] false (fun r _ => templateEvent r)].

(** The segment at the placeholder, "" when the pattern has none. *)
Fixpoint match_path (pattern path : list string) : option string :=
  match pattern, path with
  | [], [] => Some ""
  | p :: pattern, x :: path =>
      if bool_decide (p = "{}") then if emptyb x then None else match match_path pattern path with Some _ => Some x | None => None end
      else if bool_decide (p = x) then match_path pattern path else None
  | _, _ => None
  end.
(** A GET pattern also takes HEAD. *)
Definition method_ok (t : route) (r : request) : bool :=
  bool_decide (t_method t = r_method r) || (bool_decide (t_method t = "GET") && bool_decide (r_method r = "HEAD")).
Definition find_route (r : request) : option (route * string) :=
  head (omap (fun t => if method_ok t r then pair t <$> match_path (t_path t) (r_path r) else None) routes).

(** An unknown path or method is answered by the multiplexer, in plain text. *)
Definition serve (r : request) : handler :=
  match find_route r with
  | Some (t, arg) => if t_guarded t then adminGuard r (t_handler t r arg) else t_handler t r arg
  | None => fun s => (MkResponse (if existsb (fun t => bool_decide (is_Some (match_path (t_path t) (r_path r)))) routes then 405 else 404) None, s)
  end.
End server.
