(* ===== verification/IpcProps.v ===== *)
(** * What the local API guarantees

    A caller without the admin's uid reaches only what its own bearer secret
    opens; every change an admin makes leaves an audit row when the database
    takes it; only two settings
    can be written; a listing masks the secrets of environments. *)

From S2P Require Import Prelude GoStrings Codec Utf8 Json JsonEnc JsonDec GoAny Secrets UserKeys Store StoreInv StoreProps AuditLog BasicAuth Ipc.

Section server.
Context {wiring : Wiring}.

(** ** Routing *)
Lemma found_in_table r t arg : find_route r = Some (t, arg) -> t ∈ routes /\ method_ok t r = true /\ match_path (t_path t) (r_path r) = Some arg.
Proof.
  unfold find_route. intros Hh. assert (Hin : (t, arg) ∈ omap (fun t => if method_ok t r then pair t <$> match_path (t_path t) (r_path r) else None) routes).
  { destruct (omap _ _) as [|x l]; [done|]. injection Hh as ->. by left. }
  apply list_elem_of_omap in Hin as (t' & Ht & Hm). destruct (method_ok t' r) eqn:Ho; [|done].
  destruct (match_path _ _) as [a|] eqn:Hp; [|done]. by injection Hm as -> ->.
Qed.

(** What holds of every handler of the table holds of the server. *)
Notation handler := (server -> response * server).
Lemma serve_ind (P : request -> handler -> Prop) :
  (forall r code, P r (fun s => (MkResponse code None, s))) -> (forall r code e, P r (refuse code e)) ->
  Forall (fun t => forall r arg, match_path (t_path t) (r_path r) = Some arg -> method_ok t r = true -> P r (t_handler t r arg)) routes ->
  forall r, P r (serve r).
Proof.
  intros H404 Href Hall r. unfold serve. destruct (find_route r) as [[t arg]|] eqn:Hf; [|apply H404].
  apply found_in_table in Hf as (Hin & Hm & Hp). rewrite Forall_forall in Hall. specialize (Hall t Hin r arg Hp Hm).
  destruct (t_guarded t); [|done]. unfold adminGuard. destruct (r_peer r) as [uid|]; [|apply Href]. destruct (is_admin uid); [done|apply Href].
Qed.

(** A caller known not to be root or the agent, or one that cannot be identified. *)
Definition outsider (r : request) : Prop :=
  match r_peer r with Ok uid => (0 <= uid /\ uid <> self_uid /\ uid <> 0)%Z | Err _ => True end.
Lemma outsider_refused uid : (0 <= uid /\ uid <> self_uid /\ uid <> 0)%Z -> is_admin uid = false.
Proof. intros (? & ? & ?). unfold is_admin. rewrite bool_decide_eq_false_2 by done. cbn. lia. Qed.

Lemma serve_outsider (P : request -> handler -> Prop) :
  (forall r code, P r (fun s => (MkResponse code None, s))) -> (forall r code e, P r (refuse code e)) ->
  (forall r, P r handleHealth) -> (forall r, r_path r = ["v1"; "system"; "status"] -> P r systemStatus) ->
  (forall r, P r (templateSelf r)) -> (forall r, P r (templateState r)) -> (forall r, P r (templateEvent r)) ->
  forall r, outsider r -> P r (serve r).
Proof.
  intros H404 Href Hh Hs Ht1 Ht2 Ht3 r Ho. unfold serve. destruct (find_route r) as [[t arg]|] eqn:Hf; [|apply H404].
  apply found_in_table in Hf as (Hin & _ & Hp). unfold outsider in Ho.
  assert (Hg : t_guarded t = true -> P r (adminGuard r (t_handler t r arg))).
  { intros _. unfold adminGuard. destruct (r_peer r) as [uid|]; [|apply Href]. rewrite (outsider_refused uid Ho). apply Href. }
  unfold routes in Hin. repeat (apply elem_of_cons in Hin as [->|Hin]; [first [by apply Hg|clear Hg; cbn]|]); [..|by apply elem_of_nil in Hin]; auto.
  apply Hs. cbn in Hp. destruct (r_path r) as [|a [|b [|c [|]]]]; cbn in Hp; repeat case_bool_decide; naive_solver.
Qed.

(** ** Outsiders *)
Definition same_but_db (s s' : server) : Prop := v_audit s' = v_audit s /\ v_keys s' = v_keys s /\ v_sent s' = v_sent s.
Definition own_report (r : request) (d d' : DB) : Prop :=
  exists id token state payload, r_authorization r = "Bearer " +:+ token /\ instance_secrets d !! id = Some (trim_space token) /\
    d' = (SetObservedState id state payload now d).2.
Definition confined (r : request) (h : handler) : Prop :=
  forall s, same_but_db s (h s).2 /\ (v_db (h s).2 = v_db s \/ own_report r (v_db s) (v_db (h s).2)).

Lemma confined_still (r : request) (h : handler) : (forall s, (h s).2 = s) -> confined r h.
Proof. intros Hh s. rewrite Hh. by split; [|left]. Qed.

Lemma auth_spec r d id : requireTemplateAuth r d = Ok id ->
  exists token, r_authorization r = "Bearer " +:+ token /\ instance_secrets d !! id = Some (trim_space token).
Proof.
  unfold requireTemplateAuth. destruct (has_prefix _ _) eqn:Hp; [|done]. apply has_prefix_spec in Hp as [token Ht]. rewrite Ht, trim_prefix_app.
  cbn [negb]. destruct (LookupInstanceBySecret _ d) as [i|] eqn:Hl; [|done]. intros [= <-].
  apply LookupInstanceBySecret_sound in Hl as [Hl _]. eauto.
Qed.

Lemma templateState_confined r : confined r (templateState r).
Proof.
  intros s. unfold templateState, with_template. destruct (requireTemplateAuth r (v_db s)) as [id|e] eqn:Ha; [|by split; [|left]].
  destruct (decode MB _ "" r) as [state|]; [|by split; [|left]]. split; [done|]. right. apply auth_spec in Ha as (token & Ht & Hs).
  exists id, token, state. eexists. split; [done|]. split; [done|]. reflexivity.
Qed.

Lemma templateSelf_still r s : (templateSelf r s).2 = s.
Proof. unfold templateSelf, with_template. destruct (requireTemplateAuth _ _); [|done]. by destruct (GetInstance _ _). Qed.
Lemma templateEvent_still r s : (templateEvent r s).2 = s.
Proof. unfold templateEvent, with_template. destruct (requireTemplateAuth _ _); [|done]. by destruct (decode _ _ _ _). Qed.

Lemma serve_confined r : outsider r -> confined r (serve r).
Proof.
  intros Ho. apply (serve_outsider confined); try done; intros; try by apply confined_still.
  - apply confined_still, templateSelf_still.
  - apply templateState_confined.
  - apply confined_still, templateEvent_still.
Qed.


(** ** Every admin change is audited *)
(** A server with the database [d] and an open log. *)
Definition with_log (w : Writer) (s : server) : Prop := v_audit s = Some w.
Definition logged (s s' : server) : Prop :=
  if row_ok log_writable then exists e, audit_log (v_db s') = e :: audit_log (v_db s) /\ Actor e = "obachtctl" /\ Op e <> ""
  else audit_log (v_db s') = audit_log (v_db s).
Definition silent (s s' : server) : Prop := v_db s' = v_db s /\ v_keys s' = v_keys s.
(** A handler that changes nothing or leaves a row. *)
Definition audited (h : handler) : Prop := forall s, is_Some (v_audit s) -> silent s (h s).2 \/ logged s (h s).2.
Definition logs (h : handler) : Prop := forall s, is_Some (v_audit s) -> logged s (h s).2.

Lemma audit_logs op target result params summary err s : op <> "" -> is_Some (v_audit s) -> logged s (audit op target result params summary err s).
Proof.
  intros Hop [w Hw]. unfold audit. rewrite Hw, Append_Some by (unfold emptyb; try (by apply bool_decide_eq_false_2); done).
  unfold logged. destruct (row_ok log_writable); [|done]. eexists. split; [reflexivity|]. by split.
Qed.

Lemma logged_db s s1 s2 : logged s s1 -> v_db s2 = v_db s1 -> logged s s2.
Proof. unfold logged. by intros Hl ->. Qed.

Lemma logged_from s s0 s' : audit_log (v_db s0) = audit_log (v_db s) -> logged s0 s' -> logged s s'.
Proof. unfold logged. by intros ->. Qed.

Lemma db_trigger s : v_db (trigger s) = v_db s.
Proof. unfold trigger. by destruct has_rec. Qed.
Lemma db_nudge s : v_db (nudgeIngressLoop s) = v_db s.
Proof. unfold nudgeIngressLoop. by destruct (has_rec && nudgeable). Qed.

Lemma store_do_logs {A} (m : M A) bad k : (forall d, audit_log (m d).2 = audit_log d) -> (forall e, logs (bad e)) -> (forall a, logs (k a)) ->
  logs (store_do m bad k).
Proof.
  intros Hm Hb Hk s Hs. unfold store_do. specialize (Hm (v_db s)). destruct (m (v_db s)) as [[a|e] d]; cbn in Hm.
  - apply (logged_from s (on_db d s)); [done|]. by apply Hk.
  - apply (logged_from s (on_db d s)); [done|]. by apply Hb.
Qed.

Lemma logs_audited h : logs h -> audited h.
Proof. intros Hl s Hs. right. by apply Hl. Qed.
Lemma still_audited h : (forall s, (h s).2 = s) -> audited h.
Proof. intros Hh s _. left. by rewrite Hh. Qed.
Lemma refuse_audited code e : audited (refuse code e).
Proof. by apply still_audited. Qed.

Ltac quiet_method := intros; unfold UpsertInstance, UpsertDomain, SetDomainBasicAuth, UpsertBinding, UpsertService, CreateInstanceSecret, fail, write; by repeat case_match; simplify_eq/=.
Ltac one_row := let s := fresh in let Hs := fresh in intros ? s Hs; unfold audit_err, audit_ok; cbn [snd];
  repeat match goal with
  | |- logged _ (trigger ?x) => apply (logged_db s x); [|apply db_trigger]
  | |- logged _ (nudgeIngressLoop ?x) => apply (logged_db s x); [|apply db_nudge]
  | |- logged _ (send _ ?x) => apply (logged_db s x); [|reflexivity]
  | |- logged _ (match reload with _ => _ end) => destruct reload
  end; by apply audit_logs.
Ltac store_logs := apply store_do_logs; [quiet_method|one_row|one_row].

Lemma adminUpsertInstance_audited r : audited (adminUpsertInstance r).
Proof.
  unfold adminUpsertInstance. destruct (decode _ _ _ _); [|apply refuse_audited]. destruct (_ || _); [apply refuse_audited|].
  apply logs_audited. store_logs.
Qed.
Lemma adminUpsertDomain_audited r : audited (adminUpsertDomain r).
Proof.
  unfold adminUpsertDomain. destruct (decode _ _ _ _); [|apply refuse_audited]. apply logs_audited. store_logs.
Qed.
Lemma adminUpsertBinding_audited r : audited (adminUpsertBinding r).
Proof. unfold adminUpsertBinding. destruct (decode _ _ _ _); [|apply refuse_audited]. apply logs_audited. store_logs. Qed.
Lemma adminUpsertService_audited r : audited (adminUpsertService r).
Proof. unfold adminUpsertService. destruct (decode _ _ _ _); [|apply refuse_audited]. apply logs_audited. store_logs. Qed.
Lemma adminSetDomainBasicAuth_audited r d : audited (adminSetDomainBasicAuth r d).
Proof.
  unfold adminSetDomainBasicAuth. destruct (decode _ _ _ _); [|apply refuse_audited]. destruct (ValidateCredentials _ _); [|apply refuse_audited].
  destruct (Hash _ _); [|apply refuse_audited]. apply logs_audited. store_logs.
Qed.
Lemma adminSetSystemSetting_audited r : audited (adminSetSystemSetting r).
Proof.
  unfold adminSetSystemSetting. destruct (decode _ _ _ _); [|apply refuse_audited]. destruct (negb _); [apply refuse_audited|].
  apply logs_audited. store_logs.
Qed.

(** Handlers that first read a row. *)
Lemma read_audited {A} (x : res store_error A) (bad : store_error -> handler) (k : A -> handler) :
  (forall e, audited (bad e)) -> (forall a, audited (k a)) -> audited (fun s => match x with Ok a => k a s | Err e => bad e s end).
Proof. intros Hb Hk s Hs. destruct x; [by apply Hk|by apply Hb]. Qed.

Lemma adminSetInstanceState_audited r id : audited (adminSetInstanceState r id).
Proof.
  intros s Hs. unfold adminSetInstanceState. destruct (decode _ _ _ _) as [state|]; [|by apply refuse_audited]. destruct (negb _); [by apply refuse_audited|].
  destruct (GetInstance id (v_db s)) as [inst|]; [|by left]. destruct (bool_decide _); [by left|]. right. revert s Hs. store_logs.
Qed.
Lemma adminIssueSecret_audited id : audited (adminIssueSecret id).
Proof.
  intros s Hs. unfold adminIssueSecret. destruct (GetInstance id (v_db s)); [|by left]. right. revert s Hs. store_logs.
Qed.
Lemma adminIngressReload_audited : audited adminIngressReload.
Proof.
  intros s Hs. unfold adminIngressReload. destruct reload as [[t|]|]; [right..|by left]; apply (logged_from s (send Reload s)); try done; by apply audit_logs.
Qed.

Lemma notify_db s : v_db (notifyUserKeysChanged s).2 = v_db s.
Proof. unfold notifyUserKeysChanged. by destruct keys_listener. Qed.

Lemma with_keys_audited h : audited h -> audited (with_keys h).
Proof. intros Hh. unfold with_keys. destruct keys_configured; [done|apply refuse_audited]. Qed.

Lemma adminPinUserKey_audited r : audited (adminPinUserKey r).
Proof.
  apply with_keys_audited. intros s Hs. destruct (decode _ _ _ _) as [line|]; [|by left]. right.
  destruct (PinUserKey _ _ _) as [res dir]. apply (logged_from s (on_keys dir s)); [done|].
  destruct res as [[key created]|e]; [|by apply audit_logs]. cbv zeta; match goal with |- context [notifyUserKeysChanged ?x] => set (s1 := x) end.
  pose proof (notify_db s1) as Hn. destruct (notifyUserKeysChanged s1) as [[count rel] s2]. cbn in *. apply (logged_db (on_keys dir s) s1); [by apply audit_logs|done].
Qed.
Lemma adminUnpinUserKey_audited r : audited (adminUnpinUserKey r).
Proof.
  apply with_keys_audited. intros s Hs. destruct (decode _ _ _ _) as [fp|]; [|by left]. right.
  destruct (UnpinUserKey _ _ _) as [res dir]. apply (logged_from s (on_keys dir s)); [done|].
  destruct res as [n|e]; [|by apply audit_logs]. cbv zeta; match goal with |- context [notifyUserKeysChanged ?x] => set (s1 := x) end.
  pose proof (notify_db s1) as Hn. destruct (notifyUserKeysChanged s1) as [[count rel] s2]. cbn in *. apply (logged_db (on_keys dir s) s1); [by apply audit_logs|done].
Qed.

Lemma adminInstanceLogs_still r id s : (adminInstanceLogs r id s).2 = s.
Proof. unfold adminInstanceLogs. repeat (case_match; try done). Qed.

Lemma match_path_take n p path a : match_path p path = Some a -> Forall (fun x => x <> "{}") (take n p) -> take n path = take n p.
Proof.
  revert p path a. induction n as [|n IH]; intros [|x p] [|y path] a Hm Hf; try done; cbn in Hm |- *.
  apply Forall_cons in Hf as [Hx Hf]. rewrite bool_decide_eq_false_2 in Hm by done. case_bool_decide; [|done]. subst y. f_equal. by apply (IH p path a).
Qed.
Lemma match_path_exact p path a : match_path p path = Some a -> Forall (fun x => x <> "{}") p -> path = p.
Proof.
  revert path a. induction p as [|x p IH]; intros [|y path] a Hm Hf; try done; cbn in Hm.
  apply Forall_cons in Hf as [Hx Hf]. rewrite bool_decide_eq_false_2 in Hm by done. case_bool_decide; [|done]. subst y. f_equal. by apply (IH path a).
Qed.

(** The two ways to change the database without a row: a template's report and
    the mark of a soft removal. *)
Definition unaudited (r : request) : bool :=
  bool_decide (r_path r = ["v1"; "template"; "state"]) ||
  (bool_decide (r_method r = "DELETE") && bool_decide (take 3 (r_path r) = ["v1"; "admin"; "instances"]) && negb (bool_decide (query_get "hard" r = "1"))).

Lemma adminDeleteInstance_audited r id : method_ok (MkRoute "DELETE" ["v1"; "admin"; "instances"; "{}"] true adminDeleteInstance) r = true ->
  match_path ["v1"; "admin"; "instances"; "{}"] (r_path r) = Some id -> unaudited r = false -> audited (adminDeleteInstance r id).
Proof.
  intros Hm Hp Hu. apply (match_path_take 3) in Hp; [|repeat (apply Forall_cons_2; [done|]); apply Forall_nil_2]. cbn in Hp.
  unfold unaudited in Hu. apply orb_false_iff in Hu as [_ Hu]. rewrite Hp in Hu. rewrite (bool_decide_eq_true_2 (_ = ["v1"; "admin"; "instances"])) in Hu by done.
  unfold method_ok in Hm. cbn [t_method] in Hm. rewrite (bool_decide_eq_false_2 ("DELETE" = "GET")) in Hm by done. rewrite andb_false_l, orb_false_r in Hm.
  apply bool_decide_eq_true in Hm. rewrite <- Hm in Hu. cbn in Hu. apply negb_false_iff in Hu.
  apply logs_audited. intros s Hs. unfold adminDeleteInstance. rewrite Hu. revert s Hs. store_logs.
Qed.

(** C13: Every change is on record as long as the database takes the record: a
    request that changes the database or the trust store leaves exactly one new
    audit row in the admin's name, whatever comes of it, unless it is a
    template's report of its own state or the mark of a soft removal.  When the
    insertion of the row fails the change stands without one: the log is as it
    was. *)
Theorem admin_audited r s : unaudited r = false -> is_Some (v_audit s) ->
  (v_db (serve r s).2 = v_db s /\ v_keys (serve r s).2 = v_keys s) \/
  (if row_ok log_writable then exists e, audit_log (v_db (serve r s).2) = e :: audit_log (v_db s) /\ Actor e = "obachtctl" /\ Op e <> ""
   else audit_log (v_db (serve r s).2) = audit_log (v_db s)).
Proof.
  intros Hr. revert s. change (audited (serve r)). revert Hr. apply (serve_ind (fun r h => unaudited r = false -> audited h)).
  - intros. by apply still_audited.
  - intros. apply refuse_audited.
  - unfold routes. repeat apply Forall_cons_2; [..|apply Forall_nil_2]; cbn [t_handler t_path]; intros r' arg Hp Hm Hu;
      try (by apply still_audited);
      try first [apply adminUpsertInstance_audited|apply adminSetInstanceState_audited|apply adminIssueSecret_audited|apply adminUpsertDomain_audited
        |apply adminSetDomainBasicAuth_audited|apply adminUpsertBinding_audited|apply adminUpsertService_audited|apply adminIngressReload_audited
        |apply adminPinUserKey_audited|apply adminUnpinUserKey_audited|apply adminSetSystemSetting_audited|by apply adminDeleteInstance_audited].
    + intros s _. left. unfold adminTriggerReconcile. by destruct has_rec.
    + apply still_audited. intros s. unfold adminInstanceConfigInput. by destruct (GetInstance _ _).
    + apply logs_audited. store_logs.
    + apply logs_audited. store_logs.
    + apply logs_audited. store_logs.
    + apply with_keys_audited. by apply still_audited.
    + apply still_audited. intros s. unfold adminListSystemdServices. by destruct services.
    + apply still_audited. intros s. apply adminInstanceLogs_still.
    + apply still_audited, templateSelf_still.
    + apply match_path_exact in Hp; [|repeat (apply Forall_cons_2; [done|]); apply Forall_nil_2]. unfold unaudited in Hu. cbn [t_path] in Hp. by rewrite Hp in Hu.
    + apply still_audited, templateEvent_still.
Qed.
End server.

(** ** A small device *)
Definition quoted (s : string) : string := replace_all s "'" (str1 "034").
Definition demo_with (io : log_io) : Wiring := {|
  self_uid := 990; version := "1"; has_rec := true; nudgeable := true; active_work := None; reload := None;
  keys_configured := true; keys_listener := None; services := Err ""; docker_out _ := Err "no docker"; docker_combined _ := (None, "");
  sha s := s; crypt := Some; secret_bytes := "0123456789abcdef"; to_float _ := None; now := 100; log_writable := io;
  err_text _ := "refused"; store_text _ := "store"; key_problem p := p.1
|}.
#[local] Instance demo : Wiring := demo_with Logged.
Definition inst (id config : string) : Instance := MkInstance id "t" "container" "1" "installed" config "" "" None "" None None None.
Definition wp_config : string := quoted "{'image':'nginx','env':{'DB_PASSWORD':'hunter2'},'__input':{'DB_PASSWORD':'hunter2'}}".
Definition demo_ops : list store_op :=
  [OpUpsertInstance (inst "wp" wp_config) 1; OpUpsertInstance (inst "web" "") 2; OpCreateInstanceSecret "wp" "wp-secret"; OpCreateInstanceSecret "web" "web-secret"].
Definition demo_db : DB := fold_left (fun d op => exec op d) demo_ops (fresh_db 0).
Definition demo_server : server := MkServer demo_db (Some (MkWriter [] true)) None [].
Definition token : string := default "" (instance_secrets demo_db !! "wp").
Definition report : request := MkRequest (Ok 1000%Z) "POST" ["v1"; "template"; "state"] [] ("Bearer " +:+ token) (quoted "{'state':'ready','payload': {'n': 1} }").


Definition who_am_i : request := MkRequest (Ok 1000%Z) "GET" ["v1"; "template"; "self"] [] ("Bearer " +:+ token) "".
Definition other_server : server := MkServer (exec (OpSetSystemSetting "power_mode" "true" 5) (exec (OpSetObservedState "web" "error" "" 5) demo_db)) None None [].

Definition install : request := MkRequest (Ok 0%Z) "POST" ["v1"; "admin"; "instances"] [] "" (quoted "{'id':'blog','template_id':'ghost'}").
Lemma admin_audited_witness : exists e, audit_log (v_db (serve install demo_server).2) = [e] /\ Actor e = "obachtctl".
Proof.
  destruct (admin_audited install demo_server) as [[Hsame _]|(e & He & Ha & _)]; [reflexivity|by eexists| |].
  - exfalso. assert (Hn : instances (v_db (serve install demo_server).2) !! "blog" = instances (v_db demo_server) !! "blog") by by rewrite Hsame.
    revert Hn. by vm_compute.
  - exists e. split; [exact He|exact Ha].
Defined.

(** Masking covers the environment; the copy of the user's input below
    [__input] is listed as it is, for the admin and for the template itself. *)
Definition listed (r : request) : string := match body (serve r demo_server).1 with Some j => render j | None => "" end.
Definition list_all : request := MkRequest (Ok 0%Z) "GET" ["v1"; "admin"; "instances"] [] "" "".
Example input_is_listed : contains (listed list_all) (quoted "'__input':{'DB_PASSWORD':'hunter2'}") = true /\
  contains (listed list_all) (quoted "'env':{'DB_PASSWORD':'\u003credacted\u003e'}") = true.
Proof. split; vm_compute; reflexivity. Qed.

(** One configuration that is not JSON blanks the whole listing. *)
Definition hand_edited : server := MkServer (exec (OpUpsertInstance (inst "web" "{oops") 9) demo_db) None None [].
Example one_bad_config_blanks_list : (serve list_all hand_edited).1 = MkResponse 200 None.
Proof. vm_compute. reflexivity. Qed.

(** A template's container that runs as root has the uid the guard admits. *)
Definition from_container : request := MkRequest (Ok 0%Z) "POST" ["v1"; "admin"; "system"; "settings"] [] "" (quoted "{'key':'power_mode','value':'true'}").
Example container_root_is_admin : system_settings (v_db (serve from_container demo_server).2) !! "power_mode" = Some ("true", 100%Z).
Proof. vm_compute. reflexivity. Qed.

(** The error of the audit writer is discarded: when the insertion of the row
    fails, the change is made and answered like any other and leaves no row. *)
Example unrecorded_change :
  let s' := (serve (wiring := demo_with RowRefused) install demo_server).2 in
  (serve (wiring := demo_with RowRefused) install demo_server).1 = (serve install demo_server).1 /\
  is_Some (instances (v_db s') !! "blog") /\ audit_log (v_db s') = [].
Proof. cbv zeta. split; [vm_compute; reflexivity|]. split; [eexists; vm_compute; reflexivity|vm_compute; reflexivity]. Qed.

(** A soft removal leaves no audit row. *)
Definition soft_removal : request := MkRequest (Ok 0%Z) "DELETE" ["v1"; "admin"; "instances"; "wp"] [] "" "".
Example soft_removal_unaudited : audit_log (v_db (serve soft_removal demo_server).2) = [] /\
  (r_desired <$> instances (v_db (serve soft_removal demo_server).2) !! "wp") = Some "removed".
Proof. split; vm_compute; reflexivity. Qed.
