(* ===== verification/Fs.v ===== *)
(** * Files and directories as the agent's os calls see them

    A file system with symbolic links: [walk] resolves a path the way the
    kernel does (at most forty links), and on it the calls of package os that
    the agent uses.  A path is the list of its segments from the root.  What
    the machine refuses for reasons of its own (permissions, a full disk) and
    the attributes it reports are the class [Disk]; owners and modes are not
    modelled, names are case-sensitive. *)

From S2P Require Import Prelude GoStrings GoUrl.

Inductive inode := Folder | Data (content : string) | Link (target : string).
#[export] Instance inode_eq_dec : EqDecision inode.
Proof. solve_decision. Defined.
Notation path := (list string).
Notation FS := (gmap (list string) inode).

Inductive errno := ENOENT | ENOTDIR | EISDIR | EEXIST | ELOOP | EOTHER (text : string).

(** The segments of a cleaned absolute path. *)
Definition segs (p : string) : path := filter (fun s => s <> "") (split_on "/" p).

(** What stands at a place; the root is always a directory. *)
Definition at_ (m : FS) (p : path) : option inode := match p with [] => Some Folder | _ => m !! p end.

(** [rest] from the directory [cur]: the place it names, which need not exist
    but whose parent does.  A link at the end is followed when [follow]. *)
Fixpoint walk (links : nat) (follow : bool) (m : FS) : path -> path -> res errno path :=
  fix go (cur rest : path) {struct rest} : res errno path :=
    match rest with
    | [] => Ok cur
    | s :: rest' =>
        if bool_decide (s = "") || bool_decide (s = ".") then go cur rest'
        else if bool_decide (s = "..") then go (removelast cur) rest'
        else
          let here := cur ++ [s] in
          let final := match rest' with [] => true | _ => false end in
          match m !! here with
          | Some Folder => go here rest'
          | Some (Link target) =>
              if final && negb follow then Ok here else
              match links with
              | O => Err ELOOP
              | S links => walk links follow m (if has_prefix target "/" then [] else cur) (split_on "/" target ++ rest')
              end
          | Some (Data _) => if final then Ok here else Err ENOTDIR
          | None => if final then Ok here else Err ENOENT
          end
    end.
Definition max_links : nat := 40.
Definition resolve (m : FS) (p : path) : res errno path := walk max_links true m [] p.
Definition resolve_entry (m : FS) (p : path) : res errno path := walk max_links false m [] p.

(** What the machine adds: refusals by call and place, entries that cannot be
    removed, writes that stop short, attributes. *)
Class Disk := {
  deny : string -> path -> option string;
  stuck : path -> bool;
  short_write : path -> option (nat * string);
  folder_size : path -> Z;
  mtime : path -> Z
}.

Section os.
Context {disk : Disk}.

Definition allowed {A} (call : string) (p : path) (k : res errno A) : res errno A :=
  match deny call p with Some t => Err (EOTHER t) | None => k end.

(** [os.Stat] and [os.Lstat]: the place and what is there. *)
Definition stat_at (call : string) (m : FS) (where_ : res errno path) : res errno (path * inode) :=
  let! p := where_ in
  allowed call p (match at_ m p with Some n => Ok (p, n) | None => Err ENOENT end).
Definition Stat (m : FS) (p : path) : res errno (path * inode) := stat_at "stat" m (resolve m p).
Definition Lstat (m : FS) (p : path) : res errno (path * inode) := stat_at "lstat" m (resolve_entry m p).

Definition is_folder (n : inode) : bool := match n with Folder => true | _ => false end.

(** [os.Mkdir] *)
Definition Mkdir (m : FS) (p : path) : res errno unit * FS :=
  match (let! here := resolve_entry m p in
         allowed "mkdir" here (match at_ m here with Some _ => Err EEXIST | None => Ok here end)) with
  | Err e => (Err e, m)
  | Ok here => (Ok tt, <[here := Folder]> m)
  end.

(** [os.MkdirAll], on the segments from the last one. *)
Fixpoint mkdir_all (m : FS) (rp : path) : res errno unit * FS :=
  match Stat m (rev rp) with
  | Ok (_, n) => (if is_folder n then Ok tt else Err ENOTDIR, m)
  | Err e =>
      match rp with
      | [] => (Err e, m)
      | _ :: up =>
          let made := match up with [] => (Ok tt, m) | _ => mkdir_all m up end in
          match made with
          | (Err e, m) => (Err e, m)
          | (Ok _, m) =>
              match Mkdir m (rev rp) with
              | (Ok _, m) => (Ok tt, m)
              | (Err e, m) => match Lstat m (rev rp) with Ok (_, Folder) => (Ok tt, m) | _ => (Err e, m) end
              end
          end
      end
  end.
Definition MkdirAll (m : FS) (p : path) : res errno unit * FS := mkdir_all m (rev p).

(** [os.ReadDir]: the names in order with what each entry is (not followed). *)
Definition children (m : FS) (here : path) : FS := filter (fun e : path * inode => e.1 <> [] /\ removelast e.1 = here) m.
Definition ReadDir (m : FS) (p : path) : res errno (list (string * inode)) :=
  let! s := Stat m p in
  match s with
  | (here, Folder) =>
      let names := sort_strings (map (fun e => List.last e.1 "") (map_to_list (children m here))) in
      allowed "readdir" here (Ok (omap (fun name => pair name <$> m !! (here ++ [name])) names))
  | _ => Err ENOTDIR
  end.

(** [os.ReadFile] *)
Definition ReadFile (m : FS) (p : path) : res errno string :=
  let! here := resolve m p in
  allowed "open" here
    (match at_ m here with Some (Data c) => Ok c | Some _ => Err EISDIR | None => Err ENOENT end).

(** [os.WriteFile]: opened with truncation, so a write that stops short leaves
    what it wrote. *)
Definition WriteFile (m : FS) (p : path) (data : string) : res errno unit * FS :=
  match (let! here := resolve m p in
         allowed "write" here (match at_ m here with Some Folder => Err EISDIR | _ => Ok here end)) with
  | Err e => (Err e, m)
  | Ok here =>
      match short_write here with
      | Some (n, t) => (Err (EOTHER t), <[here := Data (stake n data)]> m)
      | None => (Ok tt, <[here := Data data]> m)
      end
  end.

(** [os.RemoveAll]: the entry itself, never what a link leads to, and all below
    it; entries that cannot be removed stay with the directories above them.
    A missing entry is no error. *)
Definition below (p q : path) : bool := bool_decide (p `prefix_of` q).
Definition stays (m : FS) (q : path) : bool :=
  existsb (fun x => below q x && stuck x) (map fst (map_to_list m)).
Definition RemoveAll (m : FS) (p : path) : res errno unit * FS :=
  match resolve_entry m p with
  | Err ENOENT => (Ok tt, m)
  | Err e => (Err e, m)
  | Ok here =>
      let gone q := below here q && negb (stays m q) in
      let m' := filter (fun e : path * inode => gone e.1 = false) m in
      (match at_ m' here with Some _ => Err (EOTHER "not removed") | None => Ok tt end, m')
  end.
End os.
