(* ===== verification/Files.v ===== *)
(** * Remote file access: internal/files/handler.go

    The handler of the backend's agent:files_request events: it lists, reads,
    writes, creates and deletes below the first writable volume of the instance
    the request names.  A call is a function from the file system to the answer
    it emits, if any, and the next file system. *)

From S2P Require Import Prelude GoStrings GoUrl Codec Utf8 Json JsonDec Store Fs.

Definition maxBodyBytes : Z := 25 * 1024 * 1024.

Record request := MkRequest { RequestID : string; InstanceID : string; Op : string; Path : string; NewPath : string; Content : string }.
Definition zero_request : request := MkRequest "" "" "" "" "" "".
Definition dec_request : decoder request := dec_struct
  [fld "request_id" dec_string RequestID (fun v r => MkRequest v (InstanceID r) (Op r) (Path r) (NewPath r) (Content r));
   fld "instance_id" dec_string InstanceID (fun v r => MkRequest (RequestID r) v (Op r) (Path r) (NewPath r) (Content r));
   fld "op" dec_string Op (fun v r => MkRequest (RequestID r) (InstanceID r) v (Path r) (NewPath r) (Content r));
   fld "path" dec_string Path (fun v r => MkRequest (RequestID r) (InstanceID r) (Op r) v (NewPath r) (Content r));
   fld "new_path" dec_string NewPath (fun v r => MkRequest (RequestID r) (InstanceID r) (Op r) (Path r) v (Content r));
   fld "content" dec_string Content (fun v r => MkRequest (RequestID r) (InstanceID r) (Op r) (Path r) (NewPath r) v)].

Inductive files_error :=
| FieldsRequired | InstanceNotFound (id : string) | NoSpec | BadSpec | NoWritableVolume | PathEscapes
| OsError (e : errno) | DownloadDir | FileTooLarge (n : Z) | PayloadTooLarge | BadContent | DeleteRoot | UnknownOp (op : string).

Record FileEntry := MkFileEntry { fe_Name : string; fe_Path : string; Size : Z; IsDir : bool; ModTime : Z }.
Inductive answer :=
| Listed (p : string) (entries : list FileEntry)
| Downloaded (size : Z) (content : string)
| Uploaded (size : Z)
| Deleted (deleted : bool)
| Made (p : string).

Record response := MkResponse { re_RequestID : string; re_Op : string; re_result : res files_error answer }.
Definition OK (r : response) : bool := is_ok (re_result r).

(** ** The webroot *)
Record volume := MkVolume { Source : string; Target : string; ReadOnly : bool }.
Definition dec_volume : decoder volume := dec_struct
  [fld "source" dec_string Source (fun v x => MkVolume v (Target x) (ReadOnly x));
   fld "target" dec_string Target (fun v x => MkVolume (Source x) v (ReadOnly x));
   fld "readOnly" dec_bool ReadOnly (fun v x => MkVolume (Source x) (Target x) v)].
Definition dec_volumes : decoder (slice volume) :=
  dec_struct [fld "volumes" (dec_slice dec_volume (MkVolume "" "" false)) (fun s => s) (fun v _ => v)].

Definition writable (v : volume) : bool := negb (ReadOnly v) && has_prefix (Source v) "/var/lib/obacht/".

Definition resolveWebroot (instanceID : string) (db : DB) : res files_error string :=
  match GetInstance instanceID db with
  | Err _ => Err (InstanceNotFound instanceID)
  | Ok inst =>
      if bool_decide (ConfigJSON inst = "") then Err NoSpec else
      match unmarshal dec_volumes None (ConfigJSON inst) with
      | None => Err BadSpec
      | Some vols => match List.find writable (elems vols) with
                     | Some v => Ok (Clean (Source v))
                     | None => Err NoWritableVolume
                     end
      end
  end.

Definition safeJoin (root rel : string) : res files_error string :=
  let clean := Clean ("/" +:+ rel) in
  let abs := Join2 root clean in
  if negb (bool_decide (abs = root)) && negb (has_prefix abs (root +:+ "/")) then Err PathEscapes else Ok abs.

(** [relTo], for a path at or below the root. *)
Definition relTo (root abs : string) : string :=
  if bool_decide (abs = root) then "" else trim_prefix abs (if bool_decide (root = "/") then "/" else root +:+ "/").

(** ** Operations *)
Section handler.
Context {disk : Disk}.

Definition lift {A} (r : res errno A) : res files_error A := match r with Ok a => Ok a | Err e => Err (OsError e) end.

Definition entry_of (root abs : string) (here : path) (e : string * inode) : FileEntry :=
  let p := here ++ [e.1] in
  MkFileEntry e.1 (relTo root (Join2 abs e.1))
    (match e.2 with Folder => folder_size p | Data c => Z.of_nat (slen c) | Link t => Z.of_nat (slen t) end)
    (is_folder e.2) (mtime p).

Definition opList (abs root : string) (m : FS) : res files_error answer * FS :=
  match MkdirAll m (segs abs) with
  | (Err e, m) => (Err (OsError e), m)
  | (Ok _, m) =>
      (match ReadDir m (segs abs) with
       | Err e => Err (OsError e)
       | Ok entries => Ok (Listed (relTo root abs) (map (entry_of root abs (segs abs)) entries))
       end, m)
  end.

Definition size_of (s : path * inode) : Z :=
  match s.2 with Data c => Z.of_nat (slen c) | Folder => folder_size s.1 | Link t => Z.of_nat (slen t) end.

Definition opDownload (abs : string) (m : FS) : res files_error answer * FS :=
  (let! s := lift (Stat m (segs abs)) in
   guard_err (is_folder s.2) DownloadDir ;;!
   guard_err (maxBodyBytes <? size_of s)%Z (FileTooLarge (size_of s)) ;;!
   let! b := lift (ReadFile m (segs abs)) in
   Ok (Downloaded (size_of s) (b64_encode true b)), m).

Definition opUpload (abs b64 : string) (m : FS) : res files_error answer * FS :=
  if (maxBodyBytes * 2 <? Z.of_nat (slen b64))%Z then (Err PayloadTooLarge, m) else
  match b64_decode b64 with
  | None => (Err BadContent, m)
  | Some data =>
      if (maxBodyBytes <? Z.of_nat (slen data))%Z then (Err (FileTooLarge (Z.of_nat (slen data))), m) else
      match MkdirAll m (segs (Dir abs)) with
      | (Err e, m) => (Err (OsError e), m)
      | (Ok _, m) =>
          let '(r, m) := WriteFile m (segs abs) data in
          (match r with Ok _ => Ok (Uploaded (Z.of_nat (slen data))) | Err e => Err (OsError e) end, m)
      end
  end.

Definition opDelete (abs root : string) (m : FS) : res files_error answer * FS :=
  if bool_decide (abs = root) then (Err DeleteRoot, m) else
  let '(r, m) := RemoveAll m (segs abs) in
  (match r with
   | Ok _ => Ok (Deleted true)
   | Err ENOENT => Ok (Deleted false)
   | Err e => Err (OsError e)
   end, m).

Definition opMkdir (abs : string) (m : FS) : res files_error answer * FS :=
  let '(r, m) := MkdirAll m (segs abs) in
  (match r with Ok _ => Ok (Made abs) | Err e => Err (OsError e) end, m).

Definition dispatch (req : request) (root abs : string) (m : FS) : res files_error answer * FS :=
  if bool_decide (Op req = "list") then opList abs root m
  else if bool_decide (Op req = "download") then opDownload abs m
  else if bool_decide (Op req = "upload") then opUpload abs (Content req) m
  else if bool_decide (Op req = "delete") then opDelete abs root m
  else if bool_decide (Op req = "mkdir") then opMkdir abs m
  else (Err (UnknownOp (Op req)), m).

Definition serve (req : request) (db : DB) (m : FS) : res files_error answer * FS :=
  if bool_decide (RequestID req = "") || bool_decide (InstanceID req = "") || bool_decide (Op req = "") then (Err FieldsRequired, m) else
  match resolveWebroot (InstanceID req) db with
  | Err e => (Err e, m)
  | Ok root => match safeJoin root (Path req) with
               | Err e => (Err e, m)
               | Ok abs => dispatch req root abs m
               end
  end.

(** The event's first argument; one that does not decode is only logged. *)
Definition handle (args : list string) (db : DB) (m : FS) : option response * FS :=
  match args with
  | [] => (None, m)
  | arg :: _ =>
      match unmarshal dec_request zero_request arg with
      | None => (None, m)
      | Some req => let '(r, m) := serve req db m in (Some (MkResponse (RequestID req) (Op req) r), m)
      end
  end.
End handler.
