(* ===== verification/FilesProps.v ===== *)
(** * What the backend reaches through the file handler

    When no link lies on the way to the webroot or below it, a request changes
    nothing outside it, its answer depends on nothing outside it, and what was
    uploaded is what is downloaded.  The examples show what a link changes. *)

From S2P Require Import Prelude GoStrings GoUrl Codec Utf8 Json JsonDec Store StoreInv Fs Files.

(** ** Paths *)
Lemma segs_app x y : segs (x +:+ "/" +:+ y) = segs x ++ segs y.
Proof. unfold segs. rewrite <- filter_app. f_equal. apply (split_on_app "/"). Qed.

Lemma filter_ne_plain xs : Forall plain_seg xs -> filter (fun s => s <> "") xs = xs.
Proof. induction 1 as [|x xs (Hx & _) _ IH]; [done|]. rewrite filter_cons_True by done. by rewrite IH. Qed.

Lemma segs_rooted xs : Forall plain_seg xs -> segs ("/" +:+ join "/" xs) = xs.
Proof.
  intros Hx. destruct xs as [|x xs]; [done|]. unfold segs. rewrite split_on_rooted by done. rewrite filter_cons_False by (intros Hn; by apply Hn).
  by apply filter_ne_plain.
Qed.

(** The directory of a cleaned absolute path. *)
Lemma segs_Dir xs : Forall plain_seg xs -> segs (Dir ("/" +:+ join "/" xs)) = removelast xs.
Proof.
  intros Hx. rewrite Dir_rooted by done. apply segs_rooted. destruct xs as [|x xs _] using rev_ind; [done|].
  rewrite removelast_last. by apply Forall_app in Hx as [? _].
Qed.

(** What [safeJoin] gives lies below the root. *)
Lemma safeJoin_below root rel abs : IsAbs root = true -> safeJoin root rel = Ok abs ->
  exists xs, abs = "/" +:+ join "/" xs /\ Forall plain_seg xs /\ segs root `prefix_of` xs.
Proof.
  intros Hr Hs. unfold safeJoin in Hs. set (clean := Clean _) in Hs. set (a := Join2 root clean) in *.
  assert (Ha : exists xs, a = "/" +:+ join "/" xs /\ Forall plain_seg xs).
  { unfold a. by apply Join2_abs. }
  destruct (bool_decide (a = root)) eqn:He, (has_prefix a (root +:+ "/")) eqn:Hp; cbn in Hs; simplify_eq.
  1,2: apply bool_decide_eq_true in He; destruct Ha as (xs & Ha & Hx); exists xs; split_and!; [done..|]; by rewrite <- He, Ha, segs_rooted.
  destruct Ha as (xs & Ha & Hx). exists xs. split_and!; [done..|]. apply has_prefix_spec in Hp as [t Ht].
  rewrite <- (segs_rooted xs), <- Ha, Ht, sapp_assoc, segs_app by done. by exists (segs t).
Qed.

(** ** Walking where there are no links *)

(** The walk of plain segments among files and directories. *)
Fixpoint straight (m : FS) (cur rest : path) : res errno path :=
  match rest with
  | [] => Ok cur
  | s :: rest' =>
      let here := cur ++ [s] in
      let final := match rest' with [] => true | _ => false end in
      match m !! here with
      | Some Folder => straight m here rest'
      | Some (Link _) => Err ELOOP
      | Some (Data _) => if final then Ok here else Err ENOTDIR
      | None => if final then Ok here else Err ENOENT
      end
  end.

Definition no_link (m : FS) (p : path) : Prop := forall t, m !! p <> Some (Link t).

Lemma walk_cons links follow m cur s rest : plain_seg s -> no_link m (cur ++ [s]) ->
  walk links follow m cur (s :: rest) =
    match m !! (cur ++ [s]) with
    | Some Folder => walk links follow m (cur ++ [s]) rest
    | Some (Link _) => Err ELOOP
    | Some (Data _) => if match rest with [] => true | _ => false end then Ok (cur ++ [s]) else Err ENOTDIR
    | None => if match rest with [] => true | _ => false end then Ok (cur ++ [s]) else Err ENOENT
    end.
Proof.
  intros (H1 & H2 & H3 & _) Hn. destruct links; cbn; rewrite !bool_decide_eq_false_2 by done; cbn;
    destruct (m !! (cur ++ [s])) as [[| |t]|] eqn:E; try done; by apply Hn in E.
Qed.

Lemma walk_straight links follow m rest cur : Forall plain_seg rest ->
  (forall p, cur `prefix_of` p -> p `prefix_of` cur ++ rest -> no_link m p) ->
  walk links follow m cur rest = straight m cur rest.
Proof.
  revert cur. induction rest as [|s rest IH]; intros cur Hp Hn; [by destruct links|].
  apply Forall_cons in Hp as [Hs Hp]. rewrite walk_cons; [|done|].
  - cbn. destruct (m !! (cur ++ [s])) as [[]|]; try done. apply IH; [done|].
    intros p Hl Hr. apply Hn; [etrans; [|exact Hl]; by apply prefix_app_r|by rewrite <- app_assoc in Hr].
  - apply Hn; [by apply prefix_app_r|]. apply prefix_app. by exists rest.
Qed.

Lemma straight_place m rest cur q : straight m cur rest = Ok q -> q = cur ++ rest.
Proof.
  revert cur. induction rest as [|s rest IH]; intros cur Hs; cbn in Hs; [by rewrite app_nil_r; injection Hs|].
  destruct (m !! (cur ++ [s])) as [[]|]; [|by destruct rest; simplify_eq|done|by destruct rest; simplify_eq].
  apply IH in Hs. by rewrite Hs, <- app_assoc.
Qed.

Lemma straight_agree m1 m2 rest cur : (forall p, cur `prefix_of` p -> p `prefix_of` cur ++ rest -> m1 !! p = m2 !! p) ->
  straight m1 cur rest = straight m2 cur rest.
Proof.
  revert cur. induction rest as [|s rest IH]; intros cur Ha; [done|]. cbn.
  rewrite <- (Ha (cur ++ [s])); [|by apply prefix_app_r|by apply prefix_app; exists rest].
  destruct (m1 !! (cur ++ [s])) as [[]|]; try done. apply IH.
  intros p Hl Hr. apply Ha; [etrans; [|exact Hl]; by apply prefix_app_r|by rewrite <- app_assoc in Hr].
Qed.

(** A file written at the end of a walk is found by the same walk. *)
Lemma straight_insert m c rest cur q : rest <> [] -> m !! (cur ++ rest) <> Some Folder ->
  straight m cur rest = Ok q -> straight (<[cur ++ rest := Data c]> m) cur rest = Ok q.
Proof.
  revert cur. induction rest as [|s rest IH]; intros cur Hne Hf Hs; [done|]. cbn in Hs |- *. destruct rest as [|s' rest].
  - rewrite lookup_insert_eq. destruct (m !! (cur ++ [s])) as [[]|]; done.
  - rewrite lookup_insert_ne.
    2:{ intros Hc. apply app_inv_head in Hc. done. }
    destruct (m !! (cur ++ [s])) as [[]|]; try done. replace (cur ++ s :: s' :: rest) with ((cur ++ [s]) ++ s' :: rest) in Hf |- * by by rewrite <- app_assoc.
    by apply IH.
Qed.

(** ** Calls at or below a webroot *)
Section webroot.
Context {disk : Disk} (rs : path).

(** On the way to the webroot or below it. *)
Definition related (p : path) : Prop := p `prefix_of` rs \/ rs `prefix_of` p.
Definition unlinked (m : FS) : Prop := forall p t, related p -> m !! p <> Some (Link t).
Definition agree (m1 m2 : FS) : Prop := forall p, related p -> m1 !! p = m2 !! p.
(** What [m'] may differ from [m] in: the webroot, which stays a directory, and
    missing directories on the way to it. *)
Definition kept (m m' : FS) : Prop :=
  (forall p, ~ rs `prefix_of` p -> m' !! p = m !! p \/ (m !! p = None /\ m' !! p = Some Folder /\ p `prefix_of` rs)) /\
  (m !! rs = Some Folder -> m' !! rs = Some Folder).

Definition safe {A} (op : FS -> A * FS) : Prop := forall m, unlinked m ->
  unlinked (op m).2 /\ kept m (op m).2 /\ forall m2, agree m m2 -> (op m).1 = (op m2).1 /\ agree (op m).2 (op m2).2.
Definition reads {A} (f : FS -> A) : Prop := forall m m2, unlinked m -> agree m m2 -> f m = f m2.

Lemma kept_self m : kept m m.
Proof. split; [by left|done]. Qed.
Lemma kept_then m1 m2 m3 : kept m1 m2 -> kept m2 m3 -> kept m1 m3.
Proof.
  intros [H1 F1] [H2 F2]. split; [|auto]. intros p Hp. destruct (H1 p Hp) as [E1|(N1 & E1 & R1)], (H2 p Hp) as [E2|(N2 & E2 & R2)].
  - left. congruence.
  - right. rewrite <- E1. auto.
  - right. rewrite E2. auto.
  - congruence.
Qed.
Lemma agree_sym m1 m2 : agree m1 m2 -> agree m2 m1.
Proof. intros Ha p Hp. by rewrite Ha. Qed.
Lemma agree_unlinked m1 m2 : agree m1 m2 -> unlinked m1 -> unlinked m2.
Proof. intros Ha Hu p t Hp. rewrite <- Ha by done. by apply Hu. Qed.

Lemma related_up p q : related p -> q `prefix_of` p -> related q.
Proof.
  intros [Hp|Hp] Hq; [left; by etrans|]. destruct (prefix_weak_total _ _ _ Hp Hq) as [H|H]; [by right|by left].
Qed.

Lemma safe_ret {A} (a : A) : safe (pair a).
Proof. intros m Hu. split; [done|]. split; [apply kept_self|]. by intros m2 Ha. Qed.
Lemma safe_reads {A} (f : FS -> A) : reads f -> safe (fun m => (f m, m)).
Proof. intros Hf m Hu. cbn. split; [done|]. split; [apply kept_self|]. intros m2 Ha. split; [by apply Hf|done]. Qed.
Lemma safe_then {A B : Type} (op : FS -> A * FS) (k : A -> FS -> B * FS) : safe op -> (forall a, safe (k a)) ->
  safe (fun m => let '(a, m') := op m in k a m').
Proof.
  intros Ho Hk m Hu. destruct (Ho m Hu) as (Hu' & Hkept & Hag). destruct (op m) as [a m'] eqn:E1. cbn in *.
  destruct (Hk a m' Hu') as (Hu2 & Hkept2 & Hag2). split; [done|]. split; [by eapply kept_then|].
  intros m2 Ha. destruct (Hag m2 Ha) as [Hr Ha']. destruct (op m2) as [a2 m2']. cbn in *. subst a2. by apply Hag2.
Qed.
Lemma safe_by {A B : Type} (f : FS -> A) (k : A -> FS -> B * FS) : reads f -> (forall a, safe (k a)) -> safe (fun m => k (f m) m).
Proof.
  intros Hf Hk m Hu. destruct (Hk (f m) m Hu) as (U & K & G). split; [done|]. split; [done|]. intros m2 Ha. rewrite <- (Hf m m2 Hu Ha). by apply G.
Qed.
Lemma safe_ext {A : Type} (f g : FS -> A * FS) : (forall m, f m = g m) -> safe f -> safe g.
Proof. intros He Hf m Hu. rewrite <- He. destruct (Hf m Hu) as (U & K & G). split; [done|]. split; [done|]. intros m2. rewrite <- He. by apply G. Qed.
Lemma safe_if {A} (b : bool) (f g : FS -> A * FS) : safe f -> safe g -> safe (fun m => if b then f m else g m).
Proof. by destruct b. Qed.

(** *** The calls *)
Section calls.
Context (p : path) (Hplain : Forall plain_seg p) (Hrel : related p).

Lemma walk_here links follow m : unlinked m -> walk links follow m [] p = straight m [] p.
Proof. intros Hu. apply walk_straight; [done|]. intros q _ Hq t. apply Hu. by eapply related_up. Qed.

Lemma straight_here m q : straight m [] p = Ok q -> q = p.
Proof. apply straight_place. Qed.

Lemma straight_reads : reads (fun m => straight m [] p).
Proof. intros m m2 _ Ha. apply straight_agree. intros q _ Hq. apply Ha. by eapply related_up. Qed.

Lemma at_reads : reads (fun m => at_ m p).
Proof. intros m m2 _ Ha. unfold at_. destruct p; [done|]. by apply Ha. Qed.

(** A call that resolves its path and looks at what is there. *)
Lemma look_reads {A} links follow (k : path -> option inode -> res errno A) :
  reads (fun m => rbind (walk links follow m [] p) (fun q => k q (at_ m q))).
Proof.
  intros m m2 Hu Ha. rewrite !walk_here by (try done; by eapply agree_unlinked). rewrite <- (straight_reads m m2 Hu Ha).
  destruct (straight m [] p) as [q|] eqn:E; [|done]. apply straight_here in E as ->. cbn. by rewrite (at_reads m m2 Hu Ha).
Qed.

Lemma Stat_reads : reads (fun m => Stat m p).
Proof. apply (look_reads max_links true (fun q n => allowed "stat" q match n with Some n => Ok (q, n) | None => Err ENOENT end)). Qed.
Lemma Lstat_reads : reads (fun m => Lstat m p).
Proof. apply (look_reads max_links false (fun q n => allowed "lstat" q match n with Some n => Ok (q, n) | None => Err ENOENT end)). Qed.
Lemma ReadFile_reads : reads (fun m => ReadFile m p).
Proof.
  apply (look_reads max_links true (fun q n => allowed "open" q match n with Some (Data c) => Ok c | Some _ => Err EISDIR | None => Err ENOENT end)).
Qed.

Lemma Stat_place m q n : unlinked m -> Stat m p = Ok (q, n) -> q = p /\ at_ m p = Some n.
Proof.
  intros Hu. unfold Stat, stat_at, resolve. rewrite walk_here by done. destruct (straight m [] p) as [x|] eqn:E; [|done]. apply straight_here in E as ->.
  cbn. unfold allowed. destruct (deny "stat" p); [done|]. destruct (at_ m p); [|done]. by intros [= <- <-].
Qed.

(** An entry set at [p]. *)
Lemma set_safe n m : unlinked m -> (forall t, n <> Link t) -> (rs `prefix_of` p \/ (m !! p = None /\ n = Folder)) -> (p = rs -> m !! rs = Some Folder -> n = Folder) ->
  unlinked (<[p := n]> m) /\ kept m (<[p := n]> m) /\ forall m2, agree m m2 -> agree (<[p := n]> m) (<[p := n]> m2).
Proof.
  intros Hu Hn Hp Hroot. split_and!; [|split|].
  - intros q t Hq. destruct (decide (q = p)) as [->|]; [rewrite lookup_insert_eq|rewrite lookup_insert_ne by done; by apply Hu]. intros [= ->]. by eapply Hn.
  - intros q Hq. destruct (decide (q = p)) as [->|]; [|left; by rewrite lookup_insert_ne]. rewrite lookup_insert_eq.
    right. destruct Hp as [|[? ->]]; [done|]. split_and!; [done..|]. destruct Hrel; [done|]. by destruct Hq.
  - intros Hr. destruct (decide (rs = p)) as [<-|]; [|by rewrite lookup_insert_ne]. rewrite lookup_insert_eq. f_equal. by apply Hroot.
  - intros m2 Ha q Hq. destruct (decide (q = p)) as [->|]; [by rewrite !lookup_insert_eq|]. rewrite !lookup_insert_ne by done. by apply Ha.
Qed.

(** A call that resolves its path, looks and then sets the entry there. *)
Lemma set_at_safe {A : Type} (f : FS -> res errno path) (bad : errno -> A) (good : path -> A) (n : path -> inode) :
  reads f -> (forall t, n p <> Link t) ->
  (forall m q, unlinked m -> f m = Ok q -> q = p /\ (rs `prefix_of` p \/ (m !! p = None /\ n p = Folder)) /\ (p = rs -> m !! rs = Some Folder -> n p = Folder)) ->
  safe (fun m => match f m with Err e => (bad e, m) | Ok here => (good here, <[here := n here]> m) end).
Proof.
  intros Hf Hn Hok m Hu. specialize (Hok m). specialize (Hf m). destruct (f m) as [q|e].
  - destruct (Hok q Hu eq_refl) as (-> & H1 & H2). destruct (set_safe (n p) m Hu Hn H1 H2) as (U & K & G). cbn. split; [done|]. split; [done|].
    intros m2 Ha. rewrite <- (Hf m2 Hu Ha). split; [done|by apply G].
  - cbn. split; [done|]. split; [apply kept_self|]. intros m2 Ha. by rewrite <- (Hf m2 Hu Ha).
Qed.

Lemma Mkdir_safe : safe (fun m => Mkdir m p).
Proof.
  apply (set_at_safe (fun m => rbind (resolve_entry m p) (fun here => allowed "mkdir" here match at_ m here with Some _ => Err EEXIST | None => Ok here end))
    Err (fun _ => Ok tt) (fun _ => Folder)); [|done|].
  - apply (look_reads max_links false (fun q n => allowed "mkdir" q match n with Some _ => Err EEXIST | None => Ok q end)).
  - intros m q Hu. unfold resolve_entry. rewrite walk_here by done. destruct (straight m [] p) as [x|] eqn:E; [|done]. apply straight_here in E as ->.
    cbn. unfold allowed. destruct (deny "mkdir" p); [done|]. destruct (at_ m p) eqn:Hat; [done|]. intros [= <-]. split_and!; [done| |done].
    right. split; [|done]. unfold at_ in Hat. by destruct p.
Qed.

Lemma WriteFile_safe data : rs `prefix_of` p -> safe (fun m => WriteFile m p data).
Proof.
  intros Hb. eapply (safe_ext (fun m =>
    match rbind (resolve m p) (fun here => allowed "write" here match at_ m here with Some Folder => Err EISDIR | _ => Ok here end) with
    | Err e => (Err e, m)
    | Ok here => (match short_write here with Some (_, t) => Err (EOTHER t) | None => Ok tt end,
                  <[here := Data (match short_write here with Some (n, _) => stake n data | None => data end)]> m)
    end)).
  { intros m. unfold WriteFile. destruct (rbind _ _) as [here|]; [|done]. by destruct (short_write here) as [[]|]. }
  apply (set_at_safe (fun m => rbind (resolve m p) (fun here => allowed "write" here match at_ m here with Some Folder => Err EISDIR | _ => Ok here end)) Err); [|done|].
  - apply (look_reads max_links true (fun q n => allowed "write" q match n with Some Folder => Err EISDIR | _ => Ok q end)).
  - intros m q Hu. unfold resolve. rewrite walk_here by done. destruct (straight m [] p) as [x|] eqn:E; [|done]. apply straight_here in E as ->.
    cbn. unfold allowed. destruct (deny "write" p); [done|]. intros Hq. assert (q = p) as -> by (destruct (at_ m p) as [[]|]; congruence). split_and!; [done|by left|].
    intros -> Hf. exfalso. unfold at_ in Hq. destruct rs; [done|]. by rewrite Hf in Hq.
Qed.
End calls.

Lemma mkdir_all_safe rp : Forall plain_seg (rev rp) -> related (rev rp) -> safe (fun m => mkdir_all m rp).
Proof.
  induction rp as [|s rp IH]; intros Hp Hr; cbn [mkdir_all].
  - apply (safe_by (fun m => Stat m (rev [])) (fun x m => match x with Ok (_, n) => (if is_folder n then Ok tt else Err ENOTDIR, m) | Err e => (Err e, m) end));
      [by apply Stat_reads|]. intros [[q n]|e]; apply safe_ret.
  - apply (safe_by (fun m => Stat m (rev (s :: rp))) (fun x m => match x with
      | Ok (_, n) => (if is_folder n then Ok tt else Err ENOTDIR, m)
      | Err e => let '(r, m) := (match rp with [] => (Ok tt, m) | _ => mkdir_all m rp end : res errno unit * FS) in
          match r with
          | Err e => (Err e, m)
          | Ok _ => let '(r, m) := Mkdir m (rev (s :: rp)) in
              match r with
              | Ok _ => (Ok tt, m)
              | Err e => match Lstat m (rev (s :: rp)) with Ok (_, Folder) => (Ok tt, m) | _ => (Err e, m) end
              end
          end
      end)); [by apply Stat_reads|].
    intros [[q n]|e]; [apply safe_ret|]. apply (safe_then (fun m => match rp with [] => (Ok tt, m) | _ => mkdir_all m rp end)).
    + destruct rp as [|s' rp']; [apply safe_ret|]. apply IH; [|eapply related_up; [exact Hr|]; by apply prefix_app_r].
      cbn [rev] in Hp. by apply Forall_app in Hp as [? _].
    + intros [[]|e']; [|apply safe_ret]. apply safe_then; [by apply Mkdir_safe|]. intros [[]|e']; [apply safe_ret|].
      apply (safe_by (fun m => Lstat m (rev (s :: rp))) (fun x m => match x with Ok (_, Folder) => (Ok tt, m) | _ => (Err e', m) end)); [by apply Lstat_reads|].
      intros [[q []]|e2]; apply safe_ret.
Qed.

Lemma MkdirAll_safe p : Forall plain_seg p -> related p -> safe (fun m => MkdirAll m p).
Proof. intros Hp Hr. unfold MkdirAll. apply mkdir_all_safe; by rewrite rev_involutive. Qed.

(** Entries below the webroot are what decides what stays. *)
Lemma stays_spec m q : stays m q = true <-> exists x, is_Some (m !! x) /\ q `prefix_of` x /\ stuck x = true.
Proof.
  unfold stays, below. rewrite existsb_exists. split.
  - intros (x & Hx & Hb). apply andb_true_iff in Hb as [Hb Hs]. apply bool_decide_eq_true in Hb. apply in_map_iff in Hx as ([y n] & <- & Hin).
    apply list_elem_of_In, elem_of_map_to_list in Hin. exists y. split; [by exists n|done].
  - intros (x & [n Hn] & Hp & Hs). exists x. rewrite Hs. split; [|by rewrite bool_decide_eq_true_2].
    apply in_map_iff. exists (x, n). split; [done|]. by apply list_elem_of_In, elem_of_map_to_list.
Qed.

Lemma stays_agree m1 m2 q : rs `prefix_of` q -> agree m1 m2 -> stays m1 q = stays m2 q.
Proof.
  intros Hq Ha. apply eq_true_iff_eq. rewrite !stays_spec. split; intros (x & Hx & Hp & Hs); exists x; (split; [|done]).
  - rewrite <- Ha; [done|]. right. by etrans.
  - rewrite Ha; [done|]. right. by etrans.
Qed.

Lemma RemoveAll_safe p : Forall plain_seg p -> rs `prefix_of` p -> p <> rs -> safe (fun m => RemoveAll m p).
Proof.
  intros Hp Hb Hne. assert (Hr : related p) by by right.
  set (gone m q := below p q && negb (stays m q)).
  set (left_ m := filter (fun e : path * inode => gone m e.1 = false) m).
  assert (Hlook : forall m q, left_ m !! q = if gone m q then None else m !! q).
  { intros m q. unfold left_. destruct (gone m q) eqn:Hg; [apply map_lookup_filter_None; right; intros n _ Hn; cbn in Hn; congruence|].
    destruct (m !! q) as [n|] eqn:Hq; [by apply map_lookup_filter_Some|apply map_lookup_filter_None; by left]. }
  assert (Hgone : forall m q, gone m q = true -> p `prefix_of` q).
  { intros m q Hg. apply andb_true_iff in Hg as [Hg _]. by apply bool_decide_eq_true in Hg. }
  assert (Heq : forall m, unlinked m -> RemoveAll m p = match straight m [] p with
    | Ok _ => (match at_ (left_ m) p with Some _ => Err (EOTHER "not removed") | None => Ok tt end, left_ m)
    | Err ENOENT => (Ok tt, m)
    | Err e => (Err e, m)
    end).
  { intros m Hu. unfold RemoveAll, resolve_entry. rewrite (walk_here p) by done. destruct (straight m [] p) as [q|] eqn:E; [|done].
    by apply straight_here in E as ->. }
  assert (Hag : forall m m2, agree m m2 -> agree (left_ m) (left_ m2)).
  { intros m m2 Ha q Hq. rewrite !Hlook, (Ha q Hq). unfold gone. destruct (below p q) eqn:Hq'; [|done].
    apply bool_decide_eq_true in Hq'. by rewrite (stays_agree m m2) by (by etrans || done). }
  intros m Hu. rewrite Heq by done. destruct (straight m [] p) as [q|e] eqn:E.
  - split; [intros x t Hx; cbn; rewrite Hlook; destruct (gone m x); [done|by apply Hu]|]. split; [split; cbn|].
    + intros x Hx. left. rewrite Hlook. destruct (gone m x) eqn:Hg; [|done]. apply Hgone in Hg. destruct Hx. by etrans.
    + intros Hf. rewrite Hlook. destruct (gone m rs) eqn:Hg; [|done]. apply Hgone in Hg. destruct Hne. by apply (anti_symm prefix).
    + intros m2 Ha. rewrite Heq by by eapply agree_unlinked. rewrite <- (straight_reads p Hr m m2 Hu Ha), E. cbn. split; [|by apply Hag].
      unfold at_. destruct p; [done|]. by rewrite (Hag m m2 Ha) by done.
  - split; [by destruct e|]. split; [destruct e; apply kept_self|]. intros m2 Ha. rewrite Heq by by eapply agree_unlinked.
    rewrite <- (straight_reads p Hr m m2 Hu Ha), E. by destruct e.
Qed.

Lemma ReadDir_reads p : Forall plain_seg p -> rs `prefix_of` p -> reads (fun m => ReadDir m p).
Proof.
  intros Hp Hb m m2 Hu Ha. assert (Hr : related p) by by right. unfold ReadDir. rewrite <- (Stat_reads p Hp Hr m m2 Hu Ha).
  destruct (Stat m p) as [[q n]|] eqn:E; [|done]. apply Stat_place in E as [-> _]; [|done..]. cbn. destruct n; try done.
  assert (Hc : children m p = children m2 p).
  { apply map_eq. intros x. unfold children. apply option_eq. intros n. rewrite !map_lookup_filter_Some. cbn.
    split; intros (Hx & Hne & Hl); (split; [|done]); [rewrite <- Ha|rewrite Ha]; try done; right;
      (etrans; [exact Hb|]; rewrite (app_removelast_last "" Hne), Hl; by apply prefix_app_r). }
  rewrite Hc. unfold allowed. destruct (deny "readdir" p); [done|]. f_equal. apply list_omap_ext. apply Forall2_same_length_lookup_2; [done|].
  intros i x y Hx Hy. simplify_eq. rewrite Ha; [done|]. right. etrans; [exact Hb|]. by apply prefix_app_r.
Qed.

(** A directory above a path of the webroot. *)
Lemma removelast_up p : Forall plain_seg p -> related p -> Forall plain_seg (removelast p) /\ related (removelast p).
Proof.
  intros Hp Hr. destruct p as [|x p _] using rev_ind; [done|]. rewrite removelast_last. apply Forall_app in Hp as [Hp _].
  split; [done|]. eapply related_up; [exact Hr|]. by apply prefix_app_r.
Qed.

(** What a successful write leaves is what is found there. *)
Lemma WriteFile_finds p data m : Forall plain_seg p -> rs `prefix_of` p -> unlinked m -> (WriteFile m p data).1 = Ok tt ->
  exists m', WriteFile m p data = (Ok tt, m') /\
    ((forall q, deny "stat" q = None /\ deny "open" q = None) -> Stat m' p = Ok (p, Data data) /\ ReadFile m' p = Ok data).
Proof.
  intros Hp Hb Hu Hok. assert (Hr : related p) by by right. pose proof (WriteFile_safe p Hp Hr data Hb m Hu) as (Hu' & _).
  revert Hok Hu'. unfold WriteFile, resolve. rewrite (walk_here p) by done. destruct (straight m [] p) as [q|] eqn:E; [|done].
  pose proof (straight_here p m q E) as ->. cbn. unfold allowed. destruct (deny "write" p); [done|].
  destruct (decide (at_ m p = Some Folder)) as [Hf|Hf]; [by rewrite Hf|].
  replace (match at_ m p with Some Folder => Err EISDIR | _ => Ok p end) with (Ok (E := errno) p) by (by destruct (at_ m p) as [[]|]).
  destruct (short_write p) as [[]|]; [done|]. cbn. intros _ Hu'. eexists. split; [done|]. intros Hd.
  assert (Hne : p <> []) by (intros ->; by apply Hf).
  assert (Hm : m !! p <> Some Folder) by (unfold at_ in Hf; by destruct p).
  pose proof (straight_insert m data p [] p Hne Hm E) as Hs. cbn [app] in Hs.
  assert (Hat : at_ (<[p := Data data]> m) p = Some (Data data)) by (unfold at_; destruct p; [done|]; by rewrite lookup_insert_eq).
  unfold Stat, stat_at, ReadFile, resolve, allowed. rewrite !(walk_here p), Hs by done. cbn. rewrite Hat. destruct (Hd p) as [-> ->]. done.
Qed.
End webroot.

(** ** Requests *)
Section requests.
Context {disk : Disk}.

(** The webroot a call's request names. *)
Definition target (args : list string) (db : DB) : option string :=
  match args with
  | [] => None
  | arg :: _ =>
      req ← unmarshal dec_request zero_request arg;
      match resolveWebroot (InstanceID req) db with Ok root => Some root | Err _ => None end
  end.

Lemma resolveWebroot_canonical id db root : resolveWebroot id db = Ok root ->
  exists rs, root = "/" +:+ join "/" rs /\ Forall plain_seg rs.
Proof.
  unfold resolveWebroot. destruct (GetInstance id db); [|done]. case_bool_decide; [done|]. destruct (unmarshal _ _ _) as [vols|]; [|done].
  destruct (List.find writable (elems vols)) as [v|] eqn:Hf; [|done]. intros [= <-]. apply Clean_abs.
  apply find_some in Hf as [_ Hw]. apply andb_true_iff in Hw as [_ Hw]. apply has_prefix_spec in Hw as [t ->]. done.
Qed.

Section operations.
Context (root : string) (rs : path) (Hroot : root = "/" +:+ join "/" rs) (Hrs : Forall plain_seg rs).

Lemma dispatch_safe req abs xs : abs = "/" +:+ join "/" xs -> Forall plain_seg xs -> rs `prefix_of` xs -> safe rs (dispatch req root abs).
Proof.
  intros Habs Hx Hb. assert (Hr : related rs xs) by by right. assert (Hseg : segs abs = xs) by by rewrite Habs, segs_rooted.
  unfold dispatch. apply safe_if; [|apply safe_if; [|apply safe_if; [|apply safe_if; [|apply safe_if]]]].
  - eapply (safe_ext rs (fun m => let '(r, m) := MkdirAll m xs in match r with
      | Err e => (Err (OsError e), m)
      | Ok _ => (match ReadDir m xs with Err e => Err (OsError e) | Ok entries => Ok (Listed (relTo root abs) (map (entry_of root abs xs) entries)) end, m)
      end)); [intros m; unfold opList; by rewrite Hseg|].
    apply safe_then; [by apply MkdirAll_safe|]. intros [[]|e]; [|apply safe_ret].
    apply (safe_by rs (fun m => ReadDir m xs) (fun r m => (match r with Err e => Err (OsError e) | Ok entries => _ end, m))); [by apply ReadDir_reads|].
    intros r. apply safe_ret.
  - eapply (safe_ext rs (fun m => ((fun s b => let! s := lift s in
        guard_err (is_folder s.2) DownloadDir ;;! guard_err (maxBodyBytes <? size_of s)%Z (FileTooLarge (size_of s)) ;;!
        let! b := lift b in Ok (Downloaded (size_of s) (b64_encode true b))) (Stat m xs) (ReadFile m xs), m)));
      [intros m; unfold opDownload; by rewrite Hseg|].
    apply safe_reads. intros m m2 Hu Ha. cbv beta. by rewrite (Stat_reads rs xs Hx Hr m m2 Hu Ha), (ReadFile_reads rs xs Hx Hr m m2 Hu Ha).
  - unfold opUpload. apply safe_if; [apply safe_ret|]. destruct (b64_decode (Content req)) as [data|]; [|apply safe_ret].
    apply safe_if; [apply safe_ret|]. rewrite Hseg, Habs, segs_Dir by done.
    destruct (removelast_up rs xs Hx Hr) as [Hpl Hrl]. apply (safe_then rs (fun m => MkdirAll m (removelast xs))); [by apply MkdirAll_safe|].
    intros [[]|e]; [|apply safe_ret]. apply (safe_then rs (fun m => WriteFile m xs data)); [by apply WriteFile_safe|]. intros r. apply safe_ret.
  - unfold opDelete. destruct (decide (abs = root)) as [He|Hne]; [rewrite (bool_decide_eq_true_2 _ He); apply safe_ret|].
    rewrite (bool_decide_eq_false_2 _ Hne), Hseg. apply (safe_then rs (fun m => RemoveAll m xs)); [|intros r; apply safe_ret].
    apply RemoveAll_safe; [done..|]. intros ->. apply Hne. by rewrite Habs, Hroot.
  - unfold opMkdir. rewrite Hseg. apply (safe_then rs (fun m => MkdirAll m xs)); [by apply MkdirAll_safe|]. intros r. apply safe_ret.
  - apply safe_ret.
Qed.
End operations.

Lemma serve_safe req db root : resolveWebroot (InstanceID req) db = Ok root -> safe (segs root) (serve req db).
Proof.
  intros Hw. unfold serve. rewrite Hw. destruct (resolveWebroot_canonical _ _ _ Hw) as (rs & Hr & Hp).
  assert (Hs : segs root = rs) by by rewrite Hr, segs_rooted. destruct (_ || _); [apply safe_ret|].
  destruct (safeJoin root (Path req)) as [abs|e] eqn:Hj; [|apply safe_ret]. destruct (safeJoin_below root (Path req) abs) as (xs & Ha & Hx & Hb); [rewrite Hr; apply has_prefix_app|done|].
  rewrite Hs in Hb |- *. by apply (dispatch_safe root rs Hr req abs xs).
Qed.

Lemma handle_safe args db root : target args db = Some root -> safe (segs root) (handle args db).
Proof.
  unfold target, handle. destruct args as [|arg args]; [done|]. destruct (unmarshal _ _ arg) as [req|]; [|done]. cbn.
  destruct (resolveWebroot _ _) as [r|] eqn:Hw; [|done]. intros [= ->]. apply (safe_then _ (serve req db)); [by apply serve_safe|]. intros x. apply safe_ret.
Qed.

Lemma handle_no_target args db m : target args db = None -> (handle args db m).2 = m.
Proof.
  unfold target, handle. destruct args as [|arg args]; [done|]. destruct (unmarshal _ _ arg) as [req|]; [|done]. cbn. unfold serve.
  destruct (resolveWebroot _ _); [done|]. by destruct (_ || _).
Qed.

(** A request that names no webroot changes nothing.  One that does, when no
    link lies on the way to the webroot or below it, changes nothing outside the
    webroot but to create missing directories above it, and never removes the
    webroot. *)
Theorem files_confined args db m :
  match target args db with
  | None => (handle args db m).2 = m
  | Some root => unlinked (segs root) m ->
      (forall p, ~ segs root `prefix_of` p ->
        (handle args db m).2 !! p = m !! p \/ (m !! p = None /\ (handle args db m).2 !! p = Some Folder /\ p `prefix_of` segs root)) /\
      (m !! segs root = Some Folder -> (handle args db m).2 !! segs root = Some Folder)
  end.
Proof.
  destruct (target args db) as [root|] eqn:Ht; [|by apply handle_no_target]. intros Hu.
  destruct (handle_safe args db root Ht m Hu) as (_ & [H1 H2] & _). by split.
Qed.

(** The answer depends on the webroot alone: two devices with the same webroot
    (and the same directories on the way to it) answer alike, whatever other
    files they hold. *)
Theorem files_blind args db m1 m2 root : target args db = Some root -> unlinked (segs root) m1 ->
  (forall p, p `prefix_of` segs root \/ segs root `prefix_of` p -> m1 !! p = m2 !! p) ->
  (handle args db m1).1 = (handle args db m2).1.
Proof.
  intros Ht Hu Ha. destruct (handle_safe args db root Ht m1 Hu) as (_ & _ & Hb). by apply Hb.
Qed.

(** What a successful upload wrote is what a download of the same path gives,
    when the machine lets it be read. *)
Theorem upload_download up down db m m' root a :
  Op up = "upload" -> Op down = "download" -> InstanceID down = InstanceID up -> Path down = Path up -> RequestID down <> "" ->
  resolveWebroot (InstanceID up) db = Ok root -> unlinked (segs root) m -> (forall p, deny "stat" p = None /\ deny "open" p = None) ->
  serve up db m = (Ok a, m') ->
  exists data, b64_decode (Content up) = Some data /\ a = Uploaded (Z.of_nat (slen data)) /\
    serve down db m' = (Ok (Downloaded (Z.of_nat (slen data)) (b64_encode true data)), m').
Proof.
  intros Hu Hd Hi Hp Hid Hw Hun Hdeny. destruct (resolveWebroot_canonical _ _ _ Hw) as (rs & Hr & Hrs).
  assert (Hseg : segs root = rs) by by rewrite Hr, segs_rooted. unfold serve. rewrite Hi, Hp, Hd, Hw, Hu.
  rewrite (bool_decide_eq_false_2 (RequestID down = "")), (bool_decide_eq_false_2 ("download" = "")) by done. cbn [orb].
  destruct (bool_decide (RequestID up = "") || _ || _) eqn:Hfields; [done|]. apply orb_false_iff in Hfields as [Hfields _]. apply orb_false_iff in Hfields as [_ ->]. cbn [orb].
  destruct (safeJoin root (Path up)) as [abs|] eqn:Hj; [|done].
  destruct (safeJoin_below root (Path up) abs) as (xs & Ha & Hx & Hb); [rewrite Hr; apply has_prefix_app|done|]. rewrite Hseg in Hb, Hun.
  assert (Hrel : related rs xs) by by right. assert (Hsx : segs abs = xs) by by rewrite Ha, segs_rooted.
  unfold dispatch. rewrite Hu, Hd. rewrite !(bool_decide_eq_false_2 (_ = "list")), (bool_decide_eq_false_2 ("upload" = "download")) by done.
  rewrite !bool_decide_eq_true_2 by done. unfold opUpload. destruct (_ <? _)%Z; [done|]. destruct (b64_decode (Content up)) as [data|]; [|done].
  destruct (maxBodyBytes <? Z.of_nat (slen data))%Z eqn:Hmax; [done|]. rewrite Hsx, Ha, segs_Dir by done.
  pose proof (removelast_up rs xs Hx Hrel) as [Hpl Hrl]. pose proof (MkdirAll_safe rs _ Hpl Hrl m Hun) as (Hun1 & _).
  destruct (MkdirAll m (removelast xs)) as [[[]|e] m1]; [|done]. cbn in Hun1. intros Hwr.
  destruct (WriteFile_finds rs xs data m1 Hx Hb Hun1) as (m2 & Hm2 & Hfind); [by destruct (WriteFile m1 xs data) as [[[]|] ?]|].
  rewrite Hm2 in Hwr. injection Hwr as <- <-. exists data. split; [done|]. split; [done|]. destruct (Hfind Hdeny) as [Hst Hrd].
  unfold opDownload. rewrite <- Ha, Hsx, Hst. unfold lift at 1. cbn. unfold size_of. cbn. rewrite Hmax. cbn. by rewrite Hrd.
Qed.
End requests.

(** ** A static site *)
#[local] Instance demo_disk : Disk := {| deny _ _ := None; stuck _ := false; short_write _ := None; folder_size _ := 4096%Z; mtime _ := 1000%Z |}.
Definition quoted (s : string) : string := replace_all s "'" (str1 "034").
Definition site (source : string) : DB :=
  exec (OpUpsertInstance (MkInstance "blog" "static-site" "container" "1" "installed"
    (quoted ("{'volumes':[{'source':'" +:+ source +:+ "','target':'/srv'}]}")) "" "" None "" None None None) 1) (fresh_db 0).
Definition own_dir : string := "/var/lib/obacht/static-site/blog/srv".
Definition disk0 : FS := {[["etc"] := Folder; ["etc"; "passwd"] := Data "root"; ["var"] := Folder; ["var"; "lib"] := Folder; ["var"; "lib"; "obacht"] := Folder]}.
Definition event (op p content : string) : list string :=
  [quoted ("{'request_id':'r1','instance_id':'blog','op':'" +:+ op +:+ "','path':'" +:+ p +:+ "','content':'" +:+ content +:+ "'}")].
Definition upload : list string := event "upload" "../../a/index.html" "aGk=".
Definition uploaded : FS := (handle upload (site own_dir) disk0).2.

Lemma own_segs : segs own_dir = ["var"; "lib"; "obacht"; "static-site"; "blog"; "srv"].
Proof. vm_compute. reflexivity. Qed.
Lemma disk0_unlinked rs : unlinked rs disk0.
Proof.
  intros p t _ Hp. unfold disk0 in Hp. repeat (apply lookup_insert_Some in Hp as [[_ Hp]|[_ Hp]]; [done|]). by apply lookup_singleton_Some in Hp as [_ Hp].
Qed.

Lemma files_confined_witness : uploaded !! ["etc"; "passwd"] = Some (Data "root") /\ uploaded !! (segs own_dir ++ ["a"; "index.html"]) = Some (Data "hi").
Proof.
  split; [|vm_compute; reflexivity].
  assert (Ht : target upload (site own_dir) = Some own_dir) by (vm_compute; reflexivity).
  pose proof (files_confined upload (site own_dir) disk0) as Hc. rewrite Ht in Hc. destruct (Hc (disk0_unlinked _)) as [Hout _].
  destruct (Hout ["etc"; "passwd"]) as [Heq|(Hn & _)].
  - rewrite own_segs. intros [k Hk]. discriminate Hk.
  - etransitivity; [exact Heq|]. vm_compute. reflexivity.
  - exfalso. revert Hn. by vm_compute.
Defined.

Lemma files_blind_witness :
  (handle (event "download" "a" "") (site own_dir) (<[["etc"; "shadow"] := Data "x"]> disk0)).1 = (handle (event "download" "a" "") (site own_dir) disk0).1.
Proof.
  apply (files_blind _ _ _ _ own_dir); [vm_compute; reflexivity| |].
  - intros p t Hr Hp. apply lookup_insert_Some in Hp as [[_ Hp]|[_ Hp]]; [done|]. by apply (disk0_unlinked _ p t Hr).
  - intros p Hp. rewrite lookup_insert_ne; [done|]. intros <-. rewrite own_segs in Hp. by destruct Hp as [[k Hk]|[k Hk]].
Defined.

Definition put : request := MkRequest "r1" "blog" "upload" "a.txt" "" "aGk=".
Definition get_ : request := MkRequest "r2" "blog" "download" "a.txt" "" "".
Lemma upload_download_witness : exists m' data, serve put (site own_dir) disk0 = (Ok (Uploaded 2), m') /\
  b64_decode "aGk=" = Some data /\ (serve get_ (site own_dir) m').1 = Ok (Downloaded 2 "aGk=").
Proof.
  assert (Hs : (serve put (site own_dir) disk0).1 = Ok (Uploaded 2)) by (vm_compute; reflexivity).
  destruct (upload_download put get_ (site own_dir) disk0 (serve put (site own_dir) disk0).2 own_dir (Uploaded 2)) as (data & Hd & Ha & Hg);
    [done..|vm_compute; reflexivity|apply disk0_unlinked|done|rewrite <- Hs; apply surjective_pairing|].
  exists (serve put (site own_dir) disk0).2, data. split; [rewrite <- Hs; apply surjective_pairing|]. split; [exact Hd|]. rewrite Hg. cbn [fst].
  assert (Hdec : b64_decode (Content put) = Some "hi") by (vm_compute; reflexivity). rewrite Hdec in Hd. injection Hd as <-. vm_compute. reflexivity.
Defined.

(** A link in the webroot, which the site's own container can plant, is
    followed: the checks look at the text of the path only. *)
Definition planted : FS := <[segs own_dir ++ ["x"] := Link "/etc"]> (handle (event "mkdir" "" "") (site own_dir) disk0).2.
Example link_escapes : (handle (event "upload" "x/passwd" "aGk=") (site own_dir) planted).2 !! ["etc"; "passwd"] = Some (Data "hi").
Proof. vm_compute. reflexivity. Qed.

(** The source of the volume is cleaned after its prefix was checked, so it can
    name any directory. *)
Example source_escapes : resolveWebroot "blog" (site "/var/lib/obacht/../../../etc") = Ok "/etc".
Proof. vm_compute. reflexivity. Qed.

(** Deleting what is not there counts as deleted. *)
Example delete_missing : option_map re_result (handle (event "delete" "nothing" "") (site own_dir) disk0).1 = Some (Ok (Deleted true)).
Proof. vm_compute. reflexivity. Qed.
