(* ===== verification/Logs.v ===== *)
(** * Remote container logs: internal/logs/handler.go

    The handler of the backend's agent:logs_request events, next to the local
    endpoint of [Ipc] that it mirrors: for the same instance, service and number
    of lines both read the same container and give the same text. *)

From S2P Require Import Prelude GoStrings Json JsonDec Store Ipc.

Record request := MkRequest { RequestID : string; InstanceID : string; Service : string; Tail : Z }.
Definition dec_request : decoder request := dec_struct
  [fld "request_id" dec_string RequestID (fun v r => MkRequest v (InstanceID r) (Service r) (Tail r));
   fld "instance_id" dec_string InstanceID (fun v r => MkRequest (RequestID r) v (Service r) (Tail r));
   fld "service" dec_string Service (fun v r => MkRequest (RequestID r) (InstanceID r) v (Tail r));
   fld "tail" dec_int Tail (fun v r => MkRequest (RequestID r) (InstanceID r) (Service r) v)].

Inductive logs_error := IdsRequired | InvalidInstance | InvalidServiceName | DockerPs (t : string) | NotFoundFor (id service : string) | DockerLogs (t : string).
Record logs_data := MkLogs { l_container : string; l_service : string; l_tail : Z; l_logs : string; l_services : list string }.
Record response := MkResponse { re_RequestID : string; re_result : res logs_error logs_data }.

Section handler.
Context {wiring : Wiring}.

(** The containers of the project that match, or the one named after the instance. *)
Definition candidates (id service out : string) : list string :=
  match omap (ps_match service) (lines_of out) with
  | [] => if emptyb service then
            let name := trim_space (out_of (docker_out (name_args id))) in if emptyb name then [] else [name]
          else []
  | found => map fst found
  end.

Definition fetchLogs (id service : string) (tail : Z) : res logs_error logs_data :=
  match docker_out (ps_args id ("{{.Names}}|" +:+ service_label)) with
  | Err t => Err (DockerPs t)
  | Ok out =>
      match candidates id service out with
      | [] => Err (NotFoundFor id service)
      | container :: _ =>
          let '(err, logs) := docker_combined ["logs"; "--tail"; itoa tail; "--timestamps"; container] in
          let data := MkLogs container service tail logs
                        (distinct [] (split_on LF (trim_space (out_of (docker_out (ps_args id service_label)))))) in
          match err with
          | Some t => if emptyb logs then Err (DockerLogs t) else Ok data
          | None => Ok data
          end
      end
  end.

Definition tail_of (n : Z) : Z := let n := if (n <? 1)%Z then 200%Z else n in if (5000 <? n)%Z then 5000%Z else n.

Definition answer (req : request) : res logs_error logs_data :=
  if emptyb (RequestID req) || emptyb (InstanceID req) then Err IdsRequired else
  if negb (isSafeArg (InstanceID req)) then Err InvalidInstance else
  if negb (emptyb (Service req)) && negb (isSafeArg (Service req)) then Err InvalidServiceName else
  fetchLogs (InstanceID req) (Service req) (tail_of (Tail req)).

Definition handle (args : list string) : option response :=
  match args with
  | [] => None
  | arg :: _ =>
      match unmarshal dec_request (MkRequest "" "" "" 0) arg with
      | None => None
      | Some req => Some (MkResponse (RequestID req) (answer req))
      end
  end.

(** An admin asking the local endpoint for the same instance, service and number
    of lines gets the container and the text the backend gets, and an error
    when the backend gets one. *)
Theorem logs_mirror req r s : RequestID req <> "" -> InstanceID req <> "" ->
  query_get "service" r = Service req -> log_tail (query_get "tail" r) = tail_of (Tail req) ->
  match answer req with
  | Ok d => (adminInstanceLogs r (InstanceID req) s).1 = logs_response (InstanceID req) (Service req) (l_container d) (l_tail d) (l_logs d)
  | Err _ => code_ (adminInstanceLogs r (InstanceID req) s).1 <> 200%Z
  end.
Proof.
  intros Hr Hi Hs Ht. unfold answer, fetchLogs, candidates, adminInstanceLogs. rewrite Hs, Ht.
  assert (Hr' : emptyb (RequestID req) = false) by by apply bool_decide_eq_false_2.
  assert (Hi' : emptyb (InstanceID req) = false) by by apply bool_decide_eq_false_2. rewrite Hr', Hi'. cbn [orb].
  destruct (negb (isSafeArg (InstanceID req))); [done|]. destruct (_ && _); [done|]. destruct (docker_out (ps_args _ _)) as [out|t]; [|done].
  destruct (omap (ps_match (Service req)) (lines_of out)) as [|[c svc] found]; [destruct (emptyb (Service req)); [|done]; cbv zeta; destruct (emptyb (trim_space _)); [done|]|];
    cbn [map fst]; match goal with |- context [docker_combined ?l] => destruct (docker_combined l) as [[t|] logs] end; try destruct (emptyb logs); done.
Qed.
End handler.
