(* ===== verification/Linux.v ===== *)
(** * The Linux system driver: internal/runtime/system/driver_linux.go, managed_fetch.go

    The unprivileged half of a system instance: it fetches the pinned binary,
    writes the instance's files, stages the generated unit and asks the root
    helper, through sudo, to install and start it.  The machine is the one of
    [RootHelper]; what the network, sudo, the disk and systemd answer is the
    class [Agent].  File modes and directories are not represented. *)

From S2P Require Import Prelude Host GoStrings GoUrl UnitPolicy SystemSpec ManagedUnit RootHelper.
Notation root := RootHelper.root.

(** ** The surroundings *)

(** An answer to a GET; a body that breaks off comes with its error. *)
Inductive reply := Redirect (target : string) | Reply (status : Z) (content : string) (broken : option string) | NoReply (t : string).
Record tar_entry := MkEntry { e_name : string; e_regular : bool; e_size : Z; e_content : string; e_broken : option string }.

Class Agent := {
  helper : host;
  sudo : list string -> root -> bool;                 (* does sudo run the helper *)
  respond : string -> reply;
  sha256 : string -> string;                          (* in hexadecimal *)
  untar : string -> res string (list tar_entry * option string);   (* the entries up to the end or an error *)
  failing : string -> string -> option string;        (* a call on a path *)
  short_copy : string -> option (nat * string);       (* a file whose writing stops short *)
  undeletable : string -> bool;
  active_state : string -> root -> string             (* empty when it cannot be read *)
}.

Inductive driver_error :=
| IdRequired | SpecError (e : spec_error) | NoManagedService | UnitError (e : gen_error)
| HelperLocked | HelperFailed (rc : Z) | ModeSyntax (m : string) | OutsideInstance (p : string) | OutsideKiosk (p : string)
| Io (what t : string) | TooManyRedirects | RedirectRefused (u : string) | HttpStatus (st : Z) | TooLarge | DigestMismatch | NoBinary | Escapes (name : string).

Section driver.
Context {agent : Agent}.

Notation P A := (prog driver_error root A).
Definition check {A} (x : res spec_error A) : P A := fun r => (match x with Ok a => Ok a | Err e => Err (SpecError e) end, r).
Definition or_stop (b : bool) (e : driver_error) : P unit := if b then hfail e else hret tt.
(** A call that only fails or succeeds. *)
Definition call (what p : string) : P unit := match failing what p with Some t => hfail (Io what t) | None => hret tt end.
Definition put (p data : string) : P unit := fun r => (Ok tt, set_files (fun m => <[p := Reg data]> m) r).

(** ** The helper *)
Definition runHelper (args : list string) : P unit := fun r =>
  if sudo args r then let '(rc, r) := main helper args r in (if (rc =? 0)%Z then Ok tt else Err (HelperFailed rc), r)
  else (Err HelperLocked, r).

(** ** Files *)

(** [strconv.ParseUint] in base 8 with 32 bits. *)
Fixpoint octal (s : string) (acc : Z) : option Z :=
  match s with
  | "" => Some acc
  | String a s => if between "0" "7" a then let acc := (acc * 8 + Z.of_N (code a) - 48)%Z in if (2 ^ 32 <=? acc)%Z then None else octal s acc else None
  end.
Definition mode_ok (s : string) : bool := bool_decide (s = "") || bool_decide (is_Some (octal s 0)).

Definition content_at (p : string) (r : root) : option string := match files r !! p with Some (Reg c) => Some c | _ => None end.

(** [writeIfDifferent]: by a temporary file and a rename. *)
Definition writeIfDifferent (p data : string) : P bool := fun r =>
  if bool_decide (content_at p r = Some data) && bool_decide (failing "read" p = None) then (Ok false, r) else
  let tmp := p +:+ ".tmp" in
  let r' := match files r !! tmp, failing "unlink" tmp with Some _, None => set_files (delete tmp) r | _, _ => r end in
  match files r' !! tmp with
  | Some _ => (Err (Io "open" "exists"), r')
  | None => (call "write" p ;;; put p data ;;; hret true) r'
  end.

(** [withinDir] *)
Definition withinDir (dir target : string) : bool :=
  let dir := Clean dir in
  let target := Clean target in
  bool_decide (target = dir) || has_prefix target (dir +:+ "/").

Definition validateInstanceScopedPath (instanceID p : string) : P unit :=
  or_stop (negb (existsb (fun rt => withinDir (Join2 rt instanceID) p) [EtcRoot; VarRoot])) (OutsideInstance p).

(** One file of [writeFiles] or [writeKioskFiles]. *)
Definition write_file (scope : string -> P unit) (f : File) : P bool :=
  if bool_decide (f_Path f = "") then hret false else
  check (validateFilePath (f_Path f)) ;;;
  scope (f_Path f) ;;;
  or_stop (negb (mode_ok (f_Mode f))) (ModeSyntax (f_Mode f)) ;;;
  call "mkdir" (GoUrl.Dir (f_Path f)) ;;;
  writeIfDifferent (f_Path f) (f_Content f).

Fixpoint writeFiles (instanceID : string) (fs : list File) : P bool :=
  match fs with
  | [] => hret false
  | f :: fs => do! wrote := write_file (validateInstanceScopedPath instanceID) f in do! rest := writeFiles instanceID fs in hret (wrote || rest)
  end.

Definition kiosk_scope (p : string) : P unit := or_stop (negb (has_prefix p "/etc/obacht/kiosk/")) (OutsideKiosk p).
Definition writeKioskFiles (fs : list File) : P unit := hfor (fun f => write_file kiosk_scope f ;;; hret tt) fs.

(** ** The binary *)
Definition maxManagedDownloadBytes : Z := 512 * 2 ^ 20.

(** At most [n] bytes. *)
Definition limit (n : Z) (s : string) : string := if (Z.of_nat (slen s) <=? n)%Z then s else stake (Z.to_nat n) s.

Definition redirect_ok (u : string) : bool :=
  match url_scheme_host u with Some (scheme, host) => bool_decide (scheme = "https") && RedirectHostAllowed host | None => false end.

(** [client.Get]: the addresses asked, in order, and the last answer. *)
Fixpoint get (hops : nat) (u : string) : list string * res driver_error (Z * string * option string) :=
  match respond u with
  | NoReply t => ([u], Err (Io "download" t))
  | Reply st content broken => ([u], Ok (st, content, broken))
  | Redirect target =>
      match hops with
      | O => ([u], Err TooManyRedirects)
      | S hops => if redirect_ok target then let '(asked, r) := get hops target in (u :: asked, r) else ([u], Err (RedirectRefused target))
      end
  end.

(** The verified download. *)
Definition download (ms : ManagedServiceSpec) : res driver_error string :=
  match snd (get 9 (m_BinaryURL ms)) with
  | Err e => Err e
  | Ok (st, content, broken) =>
      guard_err (negb (st =? 200)%Z) (HttpStatus st) ;;!
      let content := limit (maxManagedDownloadBytes + 1) content in
      match broken with Some t => Err (Io "download" t) | None => Ok tt end ;;!
      guard_err (maxManagedDownloadBytes <? Z.of_nat (slen content))%Z TooLarge ;;!
      guard_err (negb (bool_decide (sha256 content = trim_prefix (m_BinaryDigest ms) "sha256:"))) DigestMismatch ;;!
      Ok content
  end.

(** The entries of the archive, flat into the directory. *)
Fixpoint extract (destDir : string) (entries : list tar_entry) (total : Z) : P unit :=
  match entries with
  | [] => hret tt
  | e :: entries =>
      let base := Base (Clean (e_name e)) in
      if negb (e_regular e) || inl base ["."; ".."; "/"; ""] then extract destDir entries total else
      let total := (total + e_size e)%Z in
      or_stop (maxManagedDownloadBytes <? total)%Z TooLarge ;;;
      let out := Join2 destDir base in
      or_stop (negb (has_prefix out (Clean destDir +:+ "/"))) (Escapes (e_name e)) ;;;
      call "create" out ;;;
      match short_copy out, e_broken e with
      | Some (n, t), _ => put out (stake n (e_content e)) ;;; hfail (Io "copy" t)
      | None, Some t => put out (e_content e) ;;; hfail (Io "copy" t)
      | None, None => put out (limit maxManagedDownloadBytes (e_content e))
      end ;;;
      extract destDir entries total
  end.

Definition stat_regular (p : string) (r : root) : bool := bool_decide (is_Some (content_at p r)).

Definition extractManagedTgz (archive destDir binary : string) : P unit :=
  match untar archive with
  | Err t => hfail (Io "gzip" t)
  | Ok (entries, err) =>
      extract destDir entries 0 ;;;
      match err with Some t => hfail (Io "tar" t) | None => hret tt end ;;;
      fun r => (or_stop (match files r !! Join2 destDir binary with Some _ => false | None => true end) NoBinary) r
  end.

Definition EnsureManagedBinary (ms : ManagedServiceSpec) : P string := fun r =>
  match managed_validate ms with
  | Err e => (Err (SpecError e), r)
  | Ok _ =>
      let binPath := managedBinPath ms in
      if stat_regular binPath r then (Ok binPath, r) else
      let destDir := GoUrl.Dir binPath in
      (call "mkdir" destDir ;;;
       call "temp" destDir ;;;
       do! content := (fun r => (download ms, r)) in
       (if bool_decide (m_Archive ms = "tgz") then extractManagedTgz content destDir (m_Binary ms)
        else (call "rename" binPath ;;; put binPath content)) ;;;
       call "chmod" binPath ;;;
       (fun r => or_stop (negb (stat_regular binPath r)) NoBinary r) ;;;
       hret binPath) r
  end.

(** ** The driver *)
Definition applyKiosk (spec : Spec) : P unit :=
  writeKioskFiles (Files spec) ;;;
  runHelper ["kiosk"; "enable"] ;;;
  runHelper ["svc"; "restart"; "obacht-kiosk.service"].

(** Installed when the unit differs, restarted when anything does. *)
Definition install (unitName content : string) (filesChanged : bool) : P unit := fun r =>
  let unitChanged := negb (bool_decide (default "" (content_at (Join2 UnitDir unitName) r) = content)) in
  ((if unitChanged then runHelper ["unit"; "install"; unitName] else hret tt) ;;;
   (fun r => (if unitChanged || filesChanged || negb (bool_decide (active_state unitName r = "active"))
              then runHelper ["svc"; "restart"; unitName] else hret tt) r)) r.

Definition Apply (instanceID : string) (spec : Spec) : P unit :=
  if bool_decide (instanceID = "") then hfail IdRequired else
  check (Validate spec) ;;;
  if Kiosk spec then applyKiosk spec else
  match ManagedService spec with
  | None => hfail NoManagedService
  | Some ms =>
      EnsureManagedBinary ms ;;;
      do! filesChanged := writeFiles instanceID (Files spec) in
      let unitName := ManagedUnitName instanceID in
      match GenerateManagedUnit instanceID ms with
      | Err e => hfail (UnitError e)
      | Ok content =>
          call "mkdir" StagingDir ;;;
          writeIfDifferent (Join2 StagingDir unitName) content ;;;
          install unitName content filesChanged
      end
  end.

(** [os.RemoveAll] of a directory: all below it but what cannot be deleted. *)
Definition in_dir (dir p : string) : bool := bool_decide (p = dir) || has_prefix p (dir +:+ "/").
Definition removeAll (dir : string) (r : root) : root :=
  set_files (fun m => filter (fun e : string * node => in_dir dir e.1 = false \/ undeletable e.1 = true) m) r.
Definition unlink (p : string) (r : root) : root := if undeletable p then r else set_files (delete p) r.

Definition Remove (instanceID : string) (spec : Spec) : P unit :=
  if Kiosk spec then runHelper ["kiosk"; "disable"] ;;; (fun r => (Ok tt, removeAll "/etc/obacht/kiosk" r)) else
  if bool_decide (instanceID = "") then hret tt else
  let unitName := ManagedUnitName instanceID in
  match ValidateName unitName with
  | Err _ => hret tt
  | Ok _ =>
      runHelper ["unit"; "remove"; unitName] ;;;
      (fun r => (Ok tt, removeAll (Join2 VarRoot instanceID) (removeAll (Join2 EtcRoot instanceID) (unlink (Join2 StagingDir unitName) r))))
  end.
End driver.
