(* ===== verification/LinuxProps.v ===== *)
(** * What the Linux driver guarantees

    What the driver and the root helper behind it may touch, together; what a
    successful apply leaves; and where the binary it runs comes from. *)

From S2P Require Import Prelude Host GoStrings GoUrl UnitPolicy SystemSpec ManagedUnit RootHelper Linux.

(** ** Places *)

(** The directories the agent writes to for one instance. *)
Definition own_dirs (id : string) : list string :=
  [BinRoot; StagingDir; EtcRoot +:+ "/" +:+ id; VarRoot +:+ "/" +:+ id; "/etc/obacht/kiosk"].
Definition own (id p : string) : bool := existsb (fun d => in_dir d p || bool_decide (p = d +:+ ".tmp")) (own_dirs id).
(** The files of one instance. *)
Definition instance_file (id p : string) : bool :=
  existsb (fun d => in_dir d p || bool_decide (p = d +:+ ".tmp")) [EtcRoot +:+ "/" +:+ id; VarRoot +:+ "/" +:+ id].

Lemma in_dir_below d x : in_dir d (d +:+ "/" +:+ x) = true.
Proof. unfold in_dir. rewrite <- sapp_assoc, has_prefix_app. apply orb_true_r. Qed.

Lemma in_dir_tmp d p : in_dir d p || bool_decide (p = d +:+ ".tmp") = true -> p <> d +:+ ".tmp" -> in_dir d p = true.
Proof. intros Hi Hne. by rewrite (bool_decide_eq_false_2 _ Hne), orb_false_r in Hi. Qed.

(** A path in a directory and the temporary file beside it. *)
Lemma tmp_near d p : in_dir d p = true -> in_dir d (p +:+ ".tmp") || bool_decide (p +:+ ".tmp" = d +:+ ".tmp") = true.
Proof.
  unfold in_dir. rewrite orb_true_iff. intros [->%bool_decide_eq_true|Hp]; [by rewrite (bool_decide_eq_true_2 (_ = d +:+ ".tmp")), orb_true_r|].
  apply has_prefix_spec in Hp as [t ->]. by rewrite sapp_assoc, has_prefix_app, orb_true_r.
Qed.

Lemma near_mem dirs d p : d ∈ dirs -> in_dir d p = true ->
  existsb (fun d => in_dir d p || bool_decide (p = d +:+ ".tmp")) dirs = true /\
  existsb (fun d => in_dir d (p +:+ ".tmp") || bool_decide (p +:+ ".tmp" = d +:+ ".tmp")) dirs = true.
Proof.
  intros Hd Hp. split; apply existsb_exists; exists d; (split; [by apply list_elem_of_In|]); [by rewrite Hp|by apply tmp_near].
Qed.

Lemma instance_own id p : instance_file id p = true -> own id p = true.
Proof.
  unfold instance_file, own. rewrite !existsb_exists. intros (d & Hd & Hp). exists d. split; [|done]. cbn in *. naive_solver.
Qed.

(** Identifiers are plain segments. *)
Lemma id_plain id : idToken id = true -> plain_seg id.
Proof.
  intros Hid. destruct (idToken_bytes id Hid) as [Hb Hne]. split; [done|].
  assert (Hns : mem_byte "/" id = false) by (by apply (str_all_not_mem idByte)).
  assert (Hnd : mem_byte "." id = false) by (by apply (str_all_not_mem idByte)). split_and!; [intros ->; done..|done].
Qed.

Lemma unit_name_plain id : idToken id = true -> plain_seg (ManagedUnitName id).
Proof.
  intros Hid. destruct (id_plain id Hid) as (_ & _ & _ & Hs). unfold ManagedUnitName, UnitPrefix. split_and!; [done..|].
  rewrite !mem_byte_app, Hs. done.
Qed.

Lemma etc_dir id : idToken id = true -> Join2 EtcRoot id = EtcRoot +:+ "/" +:+ id /\ Join2 VarRoot id = VarRoot +:+ "/" +:+ id.
Proof.
  intros Hid. apply id_plain in Hid. split; [apply (Join2_seg ["etc"; "obacht"; "svc"])|apply (Join2_seg ["opt"; "obacht"; "svc"])]; try done;
    (repeat apply Forall_cons_2; [done..|apply Forall_nil_2]).
Qed.

Lemma clean_dir id : idToken id = true -> Clean (EtcRoot +:+ "/" +:+ id) = EtcRoot +:+ "/" +:+ id /\ Clean (VarRoot +:+ "/" +:+ id) = VarRoot +:+ "/" +:+ id.
Proof.
  intros Hid. apply id_plain in Hid.
  split; [apply (Clean_rooted ["etc"; "obacht"; "svc"; id])|apply (Clean_rooted ["opt"; "obacht"; "svc"; id])]; try done;
    (repeat apply Forall_cons_2; [done..|apply Forall_nil_2]).
Qed.

Lemma staged_path id : idToken id = true -> Join2 StagingDir (ManagedUnitName id) = StagingDir +:+ "/" +:+ ManagedUnitName id.
Proof.
  intros Hid. apply unit_name_plain in Hid. apply (Join2_seg ["var"; "lib"; "obacht"; "system"; "staging"]); [|done..].
  repeat apply Forall_cons_2; [done..|apply Forall_nil_2].
Qed.

(** What passes the path checks of an instance's files lies in its directories. *)
Lemma scoped_inside id p : idToken id = true -> validateFilePath p = Ok tt ->
  existsb (fun rt => withinDir (Join2 rt id) p) [EtcRoot; VarRoot] = true ->
  exists d, d ∈ [EtcRoot +:+ "/" +:+ id; VarRoot +:+ "/" +:+ id] /\ in_dir d p = true.
Proof.
  intros Hid Hv Hw. assert (Hc : Clean p = p).
  { unfold validateFilePath in Hv. do 3 (apply rbind_Ok in Hv as (? & _ & Hv)). apply rbind_Ok in Hv as (? & Hg & _).
    apply guard_err_Ok, negb_false_iff, bool_decide_eq_true in Hg. done. }
  destruct (etc_dir id Hid) as [E1 E2], (clean_dir id Hid) as [C1 C2]. cbn [existsb] in Hw. unfold withinDir in Hw. rewrite E1, E2, C1, C2, Hc, orb_false_r in Hw.
  apply orb_true_iff in Hw as [Hw|Hw]; eexists; (split; [|exact Hw]); set_solver.
Qed.

(** The path of the binary. *)
Lemma bin_path ms : managed_validate ms = Ok tt -> exists hex,
  managedBinPath ms = "/" +:+ join "/" ["opt"; "obacht"; "system"; "bin"; hex; m_Binary ms] /\
  Forall plain_seg ["opt"; "obacht"; "system"; "bin"; hex; m_Binary ms] /\
  m_BinaryDigest ms = "sha256:" +:+ hex.
Proof.
  intros Hv. destruct (managed_validate_binary ms Hv) as (Hb & hex & Hd & Hl & Hx). exists hex.
  rewrite (managedBinPath_eq ms hex), Hb by done. split; [done|]. split; [|done].
  assert (Hs : mem_byte "/" hex = false) by (by apply isHexLower_no). assert (Hdot : mem_byte "." hex = false) by (by apply isHexLower_no).
  repeat apply Forall_cons_2; try done. split_and!; [intros ->; done..|done].
Qed.

Section driver.
Context {agent : Agent}.
Notation P A := (prog driver_error root A).

(** ** What a step leaves alone *)

(** Only files in [D] differ, and no command ran. *)
Definition only (D : string -> bool) (r0 r : root) : Prop := ran r = ran r0 /\ forall p, D p = false -> files r !! p = files r0 !! p.

Lemma keeps_guard {A} (Q : root -> Prop) b e (k : unit -> P A) : (b = false -> keeps Q (k tt)) -> keeps Q (hbind (or_stop b e) k).
Proof. intros Hk r Hr. unfold hbind, or_stop. destruct b; [done|]. by apply Hk. Qed.
Lemma keeps_check {A B} (Q : root -> Prop) (x : res spec_error A) (k : A -> P B) : (forall a, x = Ok a -> keeps Q (k a)) -> keeps Q (hbind (check x) k).
Proof. intros Hk r Hr. unfold hbind, check. destruct x as [a|e]; [|done]. by apply Hk. Qed.
Lemma keeps_call (Q : root -> Prop) what p : keeps Q (call what p).
Proof. intros r Hr. unfold call. by destruct (failing what p). Qed.
Lemma keeps_pure {A} (Q : root -> Prop) (f : root -> res driver_error A) : keeps Q (fun r => (f r, r)).
Proof. by intros r Hr. Qed.

Lemma only_refl D r : only D r r.
Proof. by split. Qed.
Lemma only_trans D r1 r2 r3 : only D r1 r2 -> only D r2 r3 -> only D r1 r3.
Proof. intros [H1 F1] [H2 F2]. split; [congruence|]. intros p Hp. rewrite F2, F1 by done. done. Qed.
Lemma only_put D r0 p data : D p = true -> keeps (only D r0) (put p data).
Proof.
  intros Hp r [Hr Hf]. split; [done|]. intros q Hq. cbn. rewrite lookup_insert_ne; [by apply Hf|]. intros ->. congruence.
Qed.

Lemma writeIfDifferent_only D r0 p data : D p = true -> D (p +:+ ".tmp") = true -> keeps (only D r0) (writeIfDifferent p data).
Proof.
  intros Hp Ht r [Hr Hf]. unfold writeIfDifferent. destruct (_ && _); [done|].
  set (r' := match files r !! (p +:+ ".tmp") with Some _ => _ | None => _ end).
  assert (H' : only D r0 r').
  { unfold r'. destruct (files r !! _); [|done]. destruct (failing _ _); [done|]. split; [done|]. intros q Hq. cbn.
    rewrite lookup_delete_ne; [by apply Hf|]. intros <-. congruence. }
  cbv zeta. destruct (files r' !! _); [done|]. revert H'. generalize r'. apply keeps_bind; [apply keeps_call|]. intros _.
  apply keeps_bind; [by apply only_put|]. intros _. apply keeps_ret.
Qed.

Lemma write_file_only D r0 scope f : (forall p (k : unit -> P bool), validateFilePath p = Ok tt -> (D p = true -> D (p +:+ ".tmp") = true -> keeps (only D r0) (k tt)) ->
    keeps (only D r0) (hbind (scope p) k)) -> keeps (only D r0) (write_file scope f).
Proof.
  intros Hs. unfold write_file. destruct (bool_decide _); [apply keeps_ret|]. apply keeps_check. intros [] Hv. apply Hs; [done|]. intros H1 H2.
  apply keeps_guard. intros _. apply keeps_bind; [apply keeps_call|]. intros _. by apply writeIfDifferent_only.
Qed.

Lemma writeFiles_only id r0 fs : idToken id = true -> keeps (only (instance_file id) r0) (writeFiles id fs).
Proof.
  intros Hid. induction fs as [|f fs IH]; [apply keeps_ret|]. cbn [writeFiles]. apply keeps_bind.
  - apply write_file_only. intros p k Hv Hk. unfold validateInstanceScopedPath. apply keeps_guard. intros Hw. apply negb_false_iff in Hw.
    destruct (scoped_inside id p Hid Hv Hw) as (d & Hd & Hp). destruct (near_mem _ d p Hd Hp) as [H1 H2]. by apply Hk.
  - intros wrote. apply keeps_bind; [done|]. intros rest. apply keeps_ret.
Qed.

Definition kiosk_file (p : string) : bool := existsb (fun d => in_dir d p || bool_decide (p = d +:+ ".tmp")) ["/etc/obacht/kiosk"].
Lemma writeKioskFiles_only r0 fs : keeps (only kiosk_file r0) (writeKioskFiles fs).
Proof.
  unfold writeKioskFiles. apply keeps_for. intros f _. apply keeps_bind; [|intros; apply keeps_ret].
  apply write_file_only. intros p k _ Hk. unfold kiosk_scope. apply keeps_guard. intros Hp. apply negb_false_iff in Hp.
  destruct (near_mem ["/etc/obacht/kiosk"] "/etc/obacht/kiosk" p) as [H1 H2]; [set_solver|apply orb_true_iff; right; exact Hp|]. by apply Hk.
Qed.

Lemma extract_only destDir r0 entries total : keeps (only (fun p => has_prefix p (Clean destDir +:+ "/")) r0) (extract destDir entries total).
Proof.
  revert total. induction entries as [|e entries IH]; intros total; cbn [extract]; [apply keeps_ret|]. cbv zeta.
  destruct (_ || _); [apply IH|]. apply keeps_guard. intros _. apply keeps_guard. intros Hp. apply negb_false_iff in Hp.
  apply keeps_bind; [apply keeps_call|]. intros _. apply keeps_bind; [|intros _; apply IH].
  destruct (short_copy _) as [[n t]|]; [|destruct (e_broken e)]; [..|by apply only_put]; (apply keeps_bind; [by apply only_put|]); intros _; apply keeps_fail.
Qed.

(** The directory of a binary. *)
Lemma bin_dir ms : managed_validate ms = Ok tt -> exists hex,
  m_BinaryDigest ms = "sha256:" +:+ hex /\ GoUrl.Dir (managedBinPath ms) = BinRoot +:+ "/" +:+ hex /\
  Clean (BinRoot +:+ "/" +:+ hex) = BinRoot +:+ "/" +:+ hex /\ managedBinPath ms = BinRoot +:+ "/" +:+ hex +:+ "/" +:+ m_Binary ms.
Proof.
  intros Hv. destruct (bin_path ms Hv) as (hex & Hp & Hs & Hd). exists hex. split; [done|]. rewrite Hp, Dir_rooted by done. split; [done|]. split; [|done].
  apply (Clean_rooted ["opt"; "obacht"; "system"; "bin"; hex]); [|done]. change ["opt"; "obacht"; "system"; "bin"; hex; m_Binary ms] with (["opt"; "obacht"; "system"; "bin"; hex] ++ [m_Binary ms]) in Hs.
  by apply Forall_app in Hs as [? _].
Qed.

Lemma Ensure_only ms r0 : keeps (only (in_dir BinRoot) r0) (EnsureManagedBinary ms).
Proof.
  intros r Hr. unfold EnsureManagedBinary. destruct (managed_validate ms) as [[]|] eqn:Hv; [|done]. cbv zeta.
  destruct (stat_regular _ _); [done|]. destruct (bin_dir ms Hv) as (hex & _ & Hdir & Hclean & Hbin). revert r Hr.
  apply keeps_bind; [apply keeps_call|]. intros _. apply keeps_bind; [apply keeps_call|]. intros _. apply keeps_bind; [apply keeps_pure|]. intros content.
  apply keeps_bind; [|intros _; apply keeps_bind; [apply keeps_call|intros _; apply keeps_bind; [|intros _; apply keeps_ret]]].
  - destruct (bool_decide _).
    + unfold extractManagedTgz. destruct (untar content) as [[entries err]|]; [|apply keeps_fail]. apply keeps_bind.
      * intros r Hr. rewrite Hdir. pose proof (extract_only (BinRoot +:+ "/" +:+ hex) r entries 0 r (only_refl _ r)) as Ho. eapply only_trans; [exact Hr|].
        destruct Ho as [H1 H2]. split; [done|]. intros p Hp. apply H2. rewrite Hclean. destruct (has_prefix p _) eqn:Hpre; [|done].
        apply has_prefix_spec in Hpre as [t ->]. rewrite !sapp_assoc, in_dir_below in Hp. done.
      * intros _. apply keeps_bind; [destruct err; [apply keeps_fail|apply keeps_ret]|]. intros _ r Hr. unfold or_stop. by destruct (files r !! _).
    + apply keeps_bind; [apply keeps_call|]. intros _. apply only_put. rewrite Hbin. apply in_dir_below.
  - intros r Hr. unfold or_stop. by destruct (negb _).
Qed.

(** ** What the driver and the helper may touch together *)
Ltac own_dirs := unfold own_dirs; set_solver.

(** sudo lets the agent run the helper at all. *)
Definition granted : Prop := exists args r, sudo args r = true.
Definition bounded (id : string) (r0 r : root) : Prop :=
  (forall p, files r !! p = files r0 !! p \/ own id p = true \/ (granted /\ allowed_file p (files r !! p))) /\
  exists new, ran r = new ++ ran r0 /\ Forall allowed_cmd new /\ (new = [] \/ granted).

Lemma bounded_refl id r : bounded id r r.
Proof. split; [by left|]. exists []. split_and!; [done|done|by left]. Qed.

Lemma bounded_only {A} id D r0 (m : P A) : (forall p, D p = true -> own id p = true) -> (forall r1, keeps (only D r1) m) -> keeps (bounded id r0) m.
Proof.
  intros HD Hm r [Hf Hr]. destruct (Hm r r (only_refl D r)) as [Er Ef]. split; [|by rewrite Er].
  intros p. destruct (D p) eqn:Hp; [right; left; by apply HD|]. rewrite Ef by done. apply Hf.
Qed.

Lemma bounded_helper id r0 args : keeps (bounded id r0) (runHelper args).
Proof.
  intros r Hb. unfold runHelper. destruct (sudo args r) eqn:Hs; [|done]. destruct Hb as [Hf (new & Hr & Ha & _)].
  assert (Hg : granted) by by exists args, r. pose proof (main_confined helper args r) as [Hf' (new' & Hr' & Ha')].
  destruct (main helper args r) as [rc r']. cbn in *. split.
  - intros p. destruct (Hf' p) as [->|Hp]; [apply Hf|]. by right; right.
  - exists (new' ++ new). split; [by rewrite Hr', Hr, app_assoc|]. split; [by apply Forall_app|by right].
Qed.

Lemma own_bin id p : in_dir BinRoot p = true -> own id p = true.
Proof. intros Hp. apply (near_mem (own_dirs id) BinRoot p); [own_dirs|done]. Qed.
Lemma own_kiosk id p : kiosk_file p = true -> own id p = true.
Proof. unfold kiosk_file, own. rewrite !existsb_exists. intros (d & Hd & Hp). exists d. split; [|done]. cbn in *. naive_solver. Qed.
Lemma own_dir id d p : d ∈ own_dirs id -> in_dir d p = true -> own id p = true.
Proof. intros Hd Hp. by apply (near_mem (own_dirs id) d p). Qed.

Lemma bounded_remove id r0 dir : dir ∈ own_dirs id -> keeps (bounded id r0) (fun r => (Ok (E := driver_error) tt, removeAll dir r)).
Proof.
  intros Hd. apply (bounded_only id (in_dir dir)); [intros p; by apply own_dir|]. intros r1 r [Hr Hf]. split; [done|]. intros p Hp. cbn.
  rewrite <- Hf by done. destruct (files r !! p) as [n|] eqn:Hn; [apply map_lookup_filter_Some; split; [done|by left]|].
  apply map_lookup_filter_None. by left.
Qed.

Lemma install_bounded id r0 name content changed : keeps (bounded id r0) (install name content changed).
Proof.
  intros r Hr. unfold install. cbv zeta. revert r Hr. intros r Hr. apply (keeps_bind (bounded id r0)); [| |done].
  - destruct (negb _); [apply bounded_helper|apply keeps_ret].
  - intros _ r' Hr'. destruct (_ || _); [by apply bounded_helper|done].
Qed.

(** C14: Whatever a spec asks for, applying it to an instance whose identifier
    has the form the unit policy asks for (small letters, digits and dashes;
    [dotdot_id_writes] has another) or removing it changes nothing but the
    directories the agent owns for that instance and, if sudo grants the helper, what the helper may write:
    its fixed files and units that satisfy the unit policy; and it runs only the
    helper's commands.  Without the grant no command runs and nothing outside the
    agent's directories changes. *)
Theorem driver_bounded id spec r : idToken id = true -> bounded id r (Apply id spec r).2 /\ bounded id r (Remove id spec r).2.
Proof.
  intros Hid. assert (Hk : forall A (m : P A), keeps (bounded id r) m -> bounded id r (m r).2) by (intros A m Hm; apply Hm, bounded_refl).
  split; apply Hk.
  - unfold Apply. destruct (bool_decide _); [apply keeps_fail|]. apply keeps_check. intros [] Hv. destruct (Kiosk spec).
    + unfold applyKiosk. apply keeps_bind; [apply (bounded_only id kiosk_file); [apply own_kiosk|intros; apply writeKioskFiles_only]|]. intros _.
      apply keeps_bind; [apply bounded_helper|]. intros _. apply bounded_helper.
    + destruct (ManagedService spec) as [ms|]; [|apply keeps_fail].
      apply keeps_bind; [apply (bounded_only id (in_dir BinRoot)); [apply own_bin|intros; apply Ensure_only]|]. intros _.
      apply keeps_bind; [apply (bounded_only id (instance_file id)); [apply instance_own|intros; by apply writeFiles_only]|]. intros changed.
      destruct (GenerateManagedUnit id ms) as [content|]; [|apply keeps_fail]. apply keeps_bind; [apply keeps_call|]. intros _.
      apply keeps_bind; [|intros _; apply install_bounded].
      apply (bounded_only id (own id)); [done|]. intros r1. rewrite staged_path by done.
      apply writeIfDifferent_only; [apply (own_dir id StagingDir); [own_dirs|apply in_dir_below]|].
      apply (near_mem (own_dirs id) StagingDir); [own_dirs|apply in_dir_below].
  - unfold Remove. destruct (Kiosk spec).
    + apply keeps_bind; [apply bounded_helper|]. intros _. apply bounded_remove. own_dirs.
    + rewrite (bool_decide_eq_false_2 (id = "")) by (by intros ->). destruct (ValidateName (ManagedUnitName id)); [|apply keeps_ret].
      apply keeps_bind; [apply bounded_helper|]. intros _ r1 Hr1. destruct (etc_dir id Hid) as [-> ->].
      apply (bounded_remove id r (VarRoot +:+ "/" +:+ id)); [own_dirs|]. apply (bounded_remove id r (EtcRoot +:+ "/" +:+ id)); [own_dirs|].
      revert r1 Hr1. change (keeps (bounded id r) (fun r1 => (Ok (E := driver_error) tt, unlink (Join2 StagingDir (ManagedUnitName id)) r1))).
      apply (bounded_only id (own id)); [done|]. intros r1 r2 [Hr2 Hf2]. unfold unlink. destruct (undeletable _); [done|]. split; [done|]. intros p Hp. cbn.
      rewrite lookup_delete_ne; [by apply Hf2|]. intros <-. change (own id (Join2 StagingDir (ManagedUnitName id)) = false) in Hp.
      by rewrite staged_path, (own_dir id StagingDir) in Hp by (own_dirs || apply in_dir_below || done).
Qed.

(** ** What a successful apply leaves *)
Lemma guard_run {A} b e (k : unit -> P A) r a r' : hbind (or_stop b e) k r = (Ok a, r') -> b = false /\ k tt r = (Ok a, r').
Proof. unfold hbind, or_stop. by destruct b. Qed.
Lemma check_run {A B} (x : res spec_error A) (k : A -> P B) r b r' : hbind (check x) k r = (Ok b, r') -> exists a, x = Ok a /\ k a r = (Ok b, r').
Proof. unfold hbind, check. destruct x as [a|]; [eauto|done]. Qed.
Lemma call_run {A} what p (k : unit -> P A) r a r' : hbind (call what p) k r = (Ok a, r') -> failing what p = None /\ k tt r = (Ok a, r').
Proof. unfold hbind, call. by destruct (failing what p). Qed.

Lemma writeIfDifferent_sets p data r b r' : writeIfDifferent p data r = (Ok b, r') -> content_at p r' = Some data.
Proof.
  unfold writeIfDifferent. destruct (bool_decide (content_at p r = Some data)) eqn:Hc.
  - apply bool_decide_eq_true in Hc. destruct (bool_decide (failing "read" p = None)); cbn [andb]; [by intros [= _ <-]|]. cbv zeta. destruct (files _ !! _); [done|].
    intros (_ & Hw)%call_run. injection Hw as _ <-. unfold content_at. cbn. by rewrite lookup_insert_eq.
  - cbn [andb]. cbv zeta. destruct (files _ !! _); [done|]. intros (_ & Hw)%call_run. injection Hw as _ <-. unfold content_at. cbn. by rewrite lookup_insert_eq.
Qed.

(** *** The files of a spec *)
Definition paths (fs : list File) : list string := filter (fun p => p <> "") (map f_Path fs).
(** Distinct files, none of which is the temporary file of another. *)
Definition separate (fs : list File) : Prop := NoDup (paths fs) /\ forall p q, p ∈ paths fs -> q ∈ paths fs -> p <> q +:+ ".tmp".
Definition touched (fs : list File) (p : string) : bool := existsb (fun q => bool_decide (p = q) || bool_decide (p = q +:+ ".tmp")) (paths fs).

Lemma paths_cons f fs : paths (f :: fs) = if bool_decide (f_Path f = "") then paths fs else f_Path f :: paths fs.
Proof. unfold paths. cbn [map]. rewrite filter_cons. destruct (decide (f_Path f <> "")) as [Hn|Hn]; case_bool_decide; naive_solver. Qed.

Lemma write_file_touched D r0 scope f : (forall p, keeps (only D r0) (scope p)) -> (f_Path f <> "" -> D (f_Path f) = true /\ D (f_Path f +:+ ".tmp") = true) ->
  keeps (only D r0) (write_file scope f).
Proof.
  intros Hs HD. unfold write_file. destruct (bool_decide (f_Path f = "")) eqn:Hp; [apply keeps_ret|]. apply bool_decide_eq_false in Hp.
  apply keeps_check. intros _ _. apply keeps_bind; [apply Hs|]. intros _. apply keeps_guard. intros _. apply keeps_bind; [apply keeps_call|]. intros _.
  by apply writeIfDifferent_only; apply HD.
Qed.

Lemma scope_keeps id (Q : root -> Prop) p : keeps Q (validateInstanceScopedPath id p).
Proof. intros r Hr. unfold validateInstanceScopedPath, or_stop. by destruct (negb _). Qed.

Lemma writeFiles_touched id fs r0 : keeps (only (touched fs) r0) (writeFiles id fs).
Proof.
  assert (Hgen : forall l, (forall p, p ∈ paths l -> p ∈ paths fs) -> keeps (only (touched fs) r0) (writeFiles id l)).
  { induction l as [|f l IH]; intros Hl; [apply keeps_ret|]. rewrite paths_cons in Hl. cbn [writeFiles]. apply keeps_bind; [|intros w; apply keeps_bind; [|intros w2; apply keeps_ret]].
    - apply write_file_touched; [intros p; apply scope_keeps|]. intros Hp. rewrite bool_decide_eq_false_2 in Hl by done. assert (Hin : f_Path f ∈ paths fs) by (apply Hl; by left).
      split; apply existsb_exists; exists (f_Path f); (split; [by apply list_elem_of_In|]); [by rewrite bool_decide_eq_true_2|by rewrite (bool_decide_eq_true_2 (_ = _ +:+ ".tmp")), orb_true_r].
    - apply IH. intros p Hp. apply Hl. destruct (bool_decide _); [done|by right]. }
  by apply Hgen.
Qed.

Lemma write_file_run scope f r b r' : write_file scope f r = (Ok b, r') -> f_Path f <> "" -> content_at (f_Path f) r' = Some (f_Content f).
Proof.
  unfold write_file. intros Hw Hp. rewrite bool_decide_eq_false_2 in Hw by done. apply check_run in Hw as (? & _ & Hw). apply hbind_Ok in Hw as (? & r1 & _ & Hw).
  apply guard_run in Hw as [_ Hw]. apply call_run in Hw as [_ Hw]. by eapply writeIfDifferent_sets.
Qed.

Lemma content_only D r0 r p : only D r0 r -> D p = false -> content_at p r = content_at p r0.
Proof. intros [_ Hf] Hp. unfold content_at. by rewrite Hf. Qed.

Lemma writeFiles_sets id fs r b r' : separate fs -> writeFiles id fs r = (Ok b, r') ->
  forall f, f ∈ fs -> f_Path f <> "" -> content_at (f_Path f) r' = Some (f_Content f).
Proof.
  revert r b. induction fs as [|f fs IH]; intros r b [Hnd Hsep] Hw g Hg Hp; [by apply elem_of_nil in Hg|]. cbn [writeFiles] in Hw.
  apply hbind_Ok in Hw as (w & r1 & H1 & Hw). apply hbind_Ok in Hw as (w2 & r2 & H2 & Hw). injection Hw as _ <-. rewrite paths_cons in Hnd, Hsep.
  apply elem_of_cons in Hg as [->|Hg].
  - pose proof (writeFiles_touched id fs r1 r1 (only_refl _ _)) as Ho. rewrite H2 in Ho. cbn in Ho. rewrite (content_only _ _ _ _ Ho); [by eapply write_file_run|].
    rewrite bool_decide_eq_false_2 in Hnd, Hsep by done. apply NoDup_cons in Hnd as [Hni _]. apply not_true_is_false. intros Ht. apply existsb_exists in Ht as (q & Hq & Ht). apply list_elem_of_In in Hq.
    apply orb_true_iff in Ht as [Ht|Ht]; apply bool_decide_eq_true in Ht; [by subst q|]. by apply (Hsep (f_Path f) q); [left|right|].
  - eapply IH; [|exact H2|done..]. destruct (bool_decide _); [by split|]. apply NoDup_cons in Hnd as [_ Hnd]. split; [done|]. intros p q Hp' Hq. apply Hsep; by right.
Qed.

(** *** The helper's part *)
Lemma main_unit h args r : main h ("unit" :: args) r = if euid_root h then unitCmd h args r else (2%Z, r).
Proof. reflexivity. Qed.
Lemma svc_files h args r : files (main h ("svc" :: args) r).2 = files r.
Proof.
  assert (Hm : main h ("svc" :: args) r = if euid_root h then svc h args r else (2%Z, r)) by reflexivity. rewrite Hm.
  destruct (euid_root h); [|done]. unfold svc. destruct args as [|v [|u [|]]]; try done. destruct (negb _); [done|]. by destruct (negb _).
Qed.

(** A successful install puts the staged text in place and nothing else. *)
Lemma install_files h name r c : late_bytes h (Join2 StagingDir name) = "" -> content_at (Join2 StagingDir name) r = Some c ->
  (main h ["unit"; "install"; name] r).1 = 0%Z -> files (main h ["unit"; "install"; name] r).2 = <[Join2 UnitDir name := Reg c]> (files r).
Proof.
  intros Hl Hc. rewrite main_unit. destruct (euid_root h); [|done]. unfold unitCmd. destruct (ValidateName name); [|done].
  cbv zeta. rewrite bool_decide_eq_true_2 by done. unfold readStagedUnit. unfold content_at in Hc. cbv zeta.
  destruct (files r !! Join2 StagingDir name) as [[c'|]|]; [|done..]. injection Hc as ->.
  destruct (_ >? _)%Z eqn:Hsize; [done|]. rewrite Hl, sapp_nil_r.
  assert (Hs : stake (Z.to_nat (MaxUnitSize + 1)) c = c).
  { pose proof (stake_sdrop (Z.to_nat (MaxUnitSize + 1)) c) as Hsd. rewrite sdrop_all, sapp_nil_r in Hsd; [done|]. unfold MaxUnitSize in *. lia. }
  rewrite Hs. destruct (UnitPolicy.Validate name c); [|done]. unfold atomicWriteRoot. destruct (write_ok h _); [|done]. cbn [runSystemctl fst snd].
  destruct (negb _) eqn:E1; [intros Hrc; apply negb_true_iff, Z.eqb_neq in E1; by destruct E1|].
  match goal with |- context [if ?b then _ else _] => destruct b eqn:E2 end; [|done].
  intros Hrc. apply negb_true_iff, Z.eqb_neq in E2. by destruct E2.
Qed.

Lemma runHelper_run args r r' : runHelper args r = (Ok tt, r') -> (main helper args r).1 = 0%Z /\ r' = (main helper args r).2.
Proof.
  unfold runHelper. destruct (sudo args r); [|done]. destruct (main helper args r) as [rc r1]. cbn. destruct (rc =? 0)%Z eqn:E; [|done]. intros [= <-]. split; [lia|done].
Qed.

(** After a successful installation the unit is the staged text and no other
    file differs. *)
Lemma install_run name content changed r r' : (forall p, late_bytes helper p = "") -> content <> "" -> content_at (Join2 StagingDir name) r = Some content ->
  install name content changed r = (Ok tt, r') ->
  content_at (Join2 UnitDir name) r' = Some content /\ forall p, p <> Join2 UnitDir name -> files r' !! p = files r !! p.
Proof.
  intros Hl Hne Hstage. unfold install. cbv zeta. intros Hi. apply hbind_Ok in Hi as ([] & r1 & H1 & H2).
  assert (Hmid : content_at (Join2 UnitDir name) r1 = Some content /\ forall p, p <> Join2 UnitDir name -> files r1 !! p = files r !! p).
  { destruct (bool_decide _) eqn:Hsame; cbn [negb] in H1.
    - injection H1 as <-. split; [|done]. apply bool_decide_eq_true in Hsame. destruct (content_at (Join2 UnitDir name) r) as [c|]; cbn in Hsame; congruence.
    - apply runHelper_run in H1 as [Hrc ->]. pose proof (install_files helper name r content (Hl _) Hstage Hrc) as Hf. unfold content_at. rewrite Hf, lookup_insert_eq.
      split; [done|]. intros p Hp. by rewrite lookup_insert_ne. }
  destruct (_ || _ || _); [|by injection H2 as <-]. apply runHelper_run in H2 as [_ ->]. unfold content_at. rewrite svc_files. exact Hmid.
Qed.

Lemma Ensure_run ms r b r' : EnsureManagedBinary ms r = (Ok b, r') -> managed_validate ms = Ok tt /\ b = managedBinPath ms /\ is_Some (content_at (managedBinPath ms) r').
Proof.
  unfold EnsureManagedBinary. destruct (managed_validate ms) as [[]|] eqn:Hv; [|done]. cbv zeta. intros He. split; [done|]. revert He.
  destruct (stat_regular (managedBinPath ms) r) eqn:Hs; [intros [= <- <-]; split; [done|]; unfold stat_regular in Hs; by apply bool_decide_eq_true in Hs|].
  intros (_ & He)%call_run. apply call_run in He as [_ He]. apply hbind_Ok in He as (content & r1 & _ & He). apply hbind_Ok in He as (u & r2 & _ & He). apply call_run in He as [_ He].
  unfold hbind, or_stop in He. destruct (stat_regular (managedBinPath ms) r2) eqn:Hs2; cbn in He; [|done]. injection He as <- <-. split; [done|].
  unfold stat_regular in Hs2. by apply bool_decide_eq_true in Hs2.
Qed.

Lemma Generate_name id ms c : GenerateManagedUnit id ms = Ok c -> idToken id = true /\ c <> "".
Proof.
  unfold GenerateManagedUnit. destruct (managed_validate ms); [|done]. cbv zeta. destruct (UnitPolicy.Validate _ _) as [[]|] eqn:Hv; [|done]. intros [= <-].
  apply Validate_policy in Hv as [Hn Hne]. split; [|done]. unfold UnitNameRe, ManagedUnitName in Hn.
  assert (strip_prefix (UnitPrefix +:+ id +:+ ".service") UnitPrefix = Some (id +:+ ".service")) as Hp by by apply strip_prefix_Some.
  rewrite Hp in Hn. assert (strip_suffix (id +:+ ".service") ".service" = Some id) as Hs by by apply strip_suffix_Some. by rewrite Hs in Hn.
Qed.

(** *** The whole of a managed service *)
Lemma not_instance id d x : d ∈ [BinRoot; StagingDir; UnitDir] -> instance_file id (d +:+ "/" +:+ x) = false.
Proof.
  intros Hd. apply not_true_is_false. intros Ht. apply existsb_exists in Ht as (e & He & Ht). unfold in_dir in Ht. rewrite !orb_true_iff, !bool_decide_eq_true, has_prefix_spec in Ht.
  cbn in He. repeat (apply elem_of_cons in Hd as [->|Hd]); [..|by apply elem_of_nil in Hd];
    destruct He as [<-|[<-|[]]]; destruct Ht as [[Ht|[t Ht]]|Ht]; discriminate Ht.
Qed.

Lemma unit_path name : plain_seg name -> Join2 UnitDir name = UnitDir +:+ "/" +:+ name.
Proof. intros Hn. apply (Join2_seg ["etc"; "systemd"; "system"]); [|done..]. repeat apply Forall_cons_2; [done..|apply Forall_nil_2]. Qed.

Lemma Apply_managed id spec ms r r' : Kiosk spec = false -> ManagedService spec = Some ms -> Apply id spec r = (Ok tt, r') ->
  exists bin r1 changed r2 content w r3,
    id <> "" /\ SystemSpec.Validate spec = Ok tt /\ EnsureManagedBinary ms r = (Ok bin, r1) /\ writeFiles id (Files spec) r1 = (Ok changed, r2) /\
    GenerateManagedUnit id ms = Ok content /\ failing "mkdir" StagingDir = None /\
    writeIfDifferent (Join2 StagingDir (ManagedUnitName id)) content r2 = (Ok w, r3) /\ install (ManagedUnitName id) content changed r3 = (Ok tt, r').
Proof.
  intros Hk Hm. unfold Apply. case_bool_decide as Hid; [done|]. intros Ha. apply check_run in Ha as ([] & Hv & Ha). rewrite Hk, Hm in Ha.
  apply hbind_Ok in Ha as (bin & r1 & He & Ha). apply hbind_Ok in Ha as (changed & r2 & Hw & Ha).
  destruct (GenerateManagedUnit id ms) as [content|] eqn:Hg; [|done]. apply call_run in Ha as [Hf Ha]. apply hbind_Ok in Ha as (w & r3 & Hs & Ha).
  exists bin, r1, changed, r2, content, w, r3. by split_and!.
Qed.

Lemma writeIfDifferent_frame p data r b r' q : writeIfDifferent p data r = (b, r') -> q <> p -> q <> p +:+ ".tmp" -> files r' !! q = files r !! q.
Proof.
  intros Hw H1 H2. set (D := fun q => bool_decide (q = p) || bool_decide (q = p +:+ ".tmp")).
  destruct (writeIfDifferent_only D r p data) with (e := r) as [_ Hf]; [by apply orb_true_iff; left; apply bool_decide_eq_true_2
    |by apply orb_true_iff; right; apply bool_decide_eq_true_2|apply only_refl|].
  rewrite Hw in Hf. apply Hf. unfold D. by rewrite !bool_decide_eq_false_2.
Qed.

Lemma write_file_scoped id f r b r' : idToken id = true -> write_file (validateInstanceScopedPath id) f r = (Ok b, r') -> f_Path f <> "" -> instance_file id (f_Path f) = true.
Proof.
  unfold write_file. intros Hid Hw Hp. rewrite bool_decide_eq_false_2 in Hw by done. apply check_run in Hw as ([] & Hv & Hw). apply guard_run in Hw as [Hs _].
  apply negb_false_iff in Hs. destruct (scoped_inside id (f_Path f) Hid Hv Hs) as (d & Hd & Hi). by destruct (near_mem _ d _ Hd Hi).
Qed.
Lemma writeFiles_scoped id fs r b r' : idToken id = true -> writeFiles id fs r = (Ok b, r') -> forall f, f ∈ fs -> f_Path f <> "" -> instance_file id (f_Path f) = true.
Proof.
  intros Hid. revert r b. induction fs as [|f fs IH]; intros r b Hw g Hg Hp; [by apply elem_of_nil in Hg|]. cbn [writeFiles] in Hw.
  apply hbind_Ok in Hw as (w & r1 & H1 & Hw). apply hbind_Ok in Hw as (w2 & r2 & H2 & Hw). injection Hw as _ <-.
  apply elem_of_cons in Hg as [->|Hg]; [by eapply write_file_scoped|by apply (IH r1 w2 H2)].
Qed.

(** Everything that is in place after a successful apply. *)
Lemma Apply_places id spec ms r r' : Kiosk spec = false -> ManagedService spec = Some ms -> separate (Files spec) -> (forall p, late_bytes helper p = "") ->
  Apply id spec r = (Ok tt, r') -> exists content, GenerateManagedUnit id ms = Ok content /\ idToken id = true /\
    content_at (Join2 UnitDir (ManagedUnitName id)) r' = Some content /\ content_at (Join2 StagingDir (ManagedUnitName id)) r' = Some content /\
    is_Some (content_at (managedBinPath ms) r') /\ forall f, f ∈ Files spec -> f_Path f <> "" -> content_at (f_Path f) r' = Some (f_Content f).
Proof.
  intros Hk Hm Hsep Hl Ha. destruct (Apply_managed id spec ms r r' Hk Hm Ha) as (bin & r1 & changed & r2 & content & w & r3 & _ & _ & He & Hw & Hg & _ & Hs & Hi).
  destruct (Generate_name id ms content Hg) as [Hid Hne]. pose proof (unit_name_plain id Hid) as Hplain. set (name := ManagedUnitName id) in *.
  pose proof (writeIfDifferent_sets _ _ _ _ _ Hs) as Hstage. destruct (install_run name content changed r3 r' Hl Hne Hstage Hi) as [Hunit Hrest].
  pose proof (staged_path id Hid) as Hsp. fold name in Hsp. pose proof (unit_path name Hplain) as Hup. rewrite Hsp in Hs, Hstage. rewrite Hup in Hunit, Hrest. rewrite Hsp, Hup.
  assert (Hstay : forall p, p <> StagingDir +:+ "/" +:+ name -> p <> (StagingDir +:+ "/" +:+ name) +:+ ".tmp" -> p <> UnitDir +:+ "/" +:+ name -> content_at p r' = content_at p r2).
  { intros p H1 H2 H3. unfold content_at at 1. rewrite Hrest by done. change (content_at p r3 = content_at p r2).
    unfold content_at. by rewrite (writeIfDifferent_frame _ _ _ _ _ p Hs). }
  exists content. split; [done|]. split; [done|]. split; [exact Hunit|]. split; [|split].
  - unfold content_at. rewrite Hrest by discriminate. exact Hstage.
  - destruct (Ensure_run ms r bin r1 He) as (Hv & -> & Hbin). destruct (bin_dir ms Hv) as (hex & _ & _ & _ & Hb). rewrite Hstay by (rewrite Hb; discriminate).
    pose proof (writeFiles_only id r1 (Files spec) Hid r1 (only_refl _ _)) as Ho. rewrite Hw in Ho. rewrite (content_only _ _ _ _ Ho); [done|].
    rewrite Hb. apply (not_instance id BinRoot). set_solver.
  - intros f Hf Hp. pose proof (writeFiles_sets id (Files spec) r1 changed r2 Hsep Hw f Hf Hp) as Hc. 
    pose proof (writeFiles_scoped id (Files spec) r1 changed r2 Hid Hw f Hf Hp) as Hin.
    rewrite Hstay; [done|intros E; rewrite E in Hin..]; rewrite ?sapp_assoc in Hin; by rewrite not_instance in Hin by set_solver.
Qed.

(** After a successful apply of a managed service the installed unit is the
    generated one, which satisfies the unit policy, its binary is in place and
    every supporting file has the configured content. *)
Theorem Apply_installs id spec ms r r' : Kiosk spec = false -> ManagedService spec = Some ms -> separate (Files spec) -> (forall p, late_bytes helper p = "") ->
  Apply id spec r = (Ok tt, r') ->
  (exists content, content_at (Join2 UnitDir (ManagedUnitName id)) r' = Some content /\ GenerateManagedUnit id ms = Ok content /\ unit_policy (ManagedUnitName id) content) /\
  is_Some (content_at (managedBinPath ms) r') /\
  forall f, f ∈ Files spec -> f_Path f <> "" -> content_at (f_Path f) r' = Some (f_Content f).
Proof.
  intros Hk Hm Hsep Hl Ha. destruct (Apply_places id spec ms r r' Hk Hm Hsep Hl Ha) as (content & Hg & _ & Hu & _ & Hb & Hf). split; [|done].
  exists content. split; [done|]. split; [done|]. unfold GenerateManagedUnit in Hg. destruct (managed_validate ms); [|done]. cbv zeta in Hg.
  destruct (UnitPolicy.Validate _ _) as [[]|] eqn:Hv; [|done]. injection Hg as <-. by apply Validate_unit.
Qed.

Lemma writeIfDifferent_same p data r : content_at p r = Some data -> failing "read" p = None -> writeIfDifferent p data r = (Ok false, r).
Proof. intros Hc Hr. unfold writeIfDifferent. by rewrite !bool_decide_eq_true_2. Qed.

Lemma writeFiles_again id fs r b r1 r' : (forall p, failing "read" p = None) -> writeFiles id fs r = (Ok b, r1) ->
  (forall f, f ∈ fs -> f_Path f <> "" -> content_at (f_Path f) r' = Some (f_Content f)) -> writeFiles id fs r' = (Ok false, r').
Proof.
  intros Hread. revert r b. induction fs as [|f fs IH]; intros r b Hw Hc; [done|]. cbn [writeFiles] in Hw |- *.
  apply hbind_Ok in Hw as (w & r2 & H1 & Hw). apply hbind_Ok in Hw as (w2 & r3 & H2 & Hw). injection Hw as _ <-.
  assert (Hf : write_file (validateInstanceScopedPath id) f r' = (Ok false, r')).
  { unfold write_file in *. destruct (bool_decide (f_Path f = "")) eqn:Hp; [done|]. apply bool_decide_eq_false in Hp. apply check_run in H1 as ([] & Hv & H1).
    apply guard_run in H1 as [Hs H1]. apply guard_run in H1 as [Hmode H1]. apply call_run in H1 as [Hmk _]. unfold hbind, check, validateInstanceScopedPath, or_stop, call.
    rewrite Hv, Hs, Hmode, Hmk. cbn. apply writeIfDifferent_same; [|done]. apply Hc; [by left|done]. }
  unfold hbind. rewrite Hf, (IH r2 w2); [done|done|]. intros g Hg. apply Hc. by right.
Qed.

Lemma install_settled name content r : content_at (Join2 UnitDir name) r = Some content -> active_state name r = "active" -> install name content false r = (Ok tt, r).
Proof.
  intros Hu Ha. unfold install. cbv zeta. rewrite Hu. cbn [default from_option id]. rewrite (bool_decide_eq_true_2 (content = content)) by done.
  unfold hbind, hret, negb, orb. by rewrite Ha, bool_decide_eq_true_2.
Qed.

(** Once applied and running, applying again changes nothing and runs nothing. *)
Theorem Apply_settles id spec ms r r' : Kiosk spec = false -> ManagedService spec = Some ms -> separate (Files spec) -> (forall p, late_bytes helper p = "") ->
  (forall p, failing "read" p = None) -> active_state (ManagedUnitName id) r' = "active" ->
  Apply id spec r = (Ok tt, r') -> Apply id spec r' = (Ok tt, r').
Proof.
  intros Hk Hm Hsep Hl Hread Hact Ha. destruct (Apply_places id spec ms r r' Hk Hm Hsep Hl Ha) as (content & Hg & _ & Hu & Hst & Hb & Hf).
  destruct (Apply_managed id spec ms r r' Hk Hm Ha) as (bin & r1 & changed & r2 & content' & w & r3 & Hid & Hv & He & Hw & Hg' & Hmk & _ & _).
  destruct (Ensure_run ms r bin r1 He) as (Hmv & -> & _).
  assert (He' : EnsureManagedBinary ms r' = (Ok (managedBinPath ms), r')).
  { unfold EnsureManagedBinary. rewrite Hmv. cbv zeta. unfold stat_regular. by rewrite bool_decide_eq_true_2. }
  unfold Apply. rewrite (bool_decide_eq_false_2 (id = "")) by done. unfold hbind, check, call. rewrite Hv, Hk, Hm, He', (writeFiles_again id (Files spec) r1 changed r2 r' Hread Hw Hf), Hg, Hmk.
  unfold hret at 1. rewrite (writeIfDifferent_same _ content r' Hst (Hread _)). by apply install_settled.
Qed.

(** ** Removal *)
Lemma uninstall_files h name r : (main h ["unit"; "remove"; name] r).1 = 0%Z -> files (main h ["unit"; "remove"; name] r).2 = delete (Join2 UnitDir name) (files r).
Proof.
  rewrite main_unit. destruct (euid_root h); [|done]. unfold unitCmd. destruct (ValidateName name); [|done]. cbv zeta.
  rewrite bool_decide_eq_false_2, bool_decide_eq_true_2 by done. unfold removeIfThere. change (files (run_ h ["disable"; "--now"; name] r)) with (files r).
  destruct (files r !! Join2 UnitDir name) eqn:Hn; [destruct (remove_ok h _); [|done]|]; cbn [runSystemctl];
    match goal with |- context [if ?b then _ else _] => destruct b eqn:E end; try (intros Hrc; apply negb_true_iff, Z.eqb_neq in E; by destruct E); [done|].
  intros _. change (files r = delete (Join2 UnitDir name) (files r)). by rewrite delete_id.
Qed.

Lemma gone_in dir r p : in_dir dir p = true -> undeletable p = false -> files (removeAll dir r) !! p = None.
Proof. intros Hp Hu. apply map_lookup_filter_None. right. intros n _ [Hn|Hn]; cbn in Hn; congruence. Qed.
Lemma gone_already dir r p : files r !! p = None -> files (removeAll dir r) !! p = None.
Proof. intros Hp. apply map_lookup_filter_None. by left. Qed.

(** A removal that succeeds leaves no unit and no deletable file in the
    instance's directories; one that the helper refuses changes no file but the
    unit's. *)
Theorem Remove_cleans id spec r : Kiosk spec = false -> idToken id = true ->
  match Remove id spec r with
  | (Ok _, r') => files r' !! Join2 UnitDir (ManagedUnitName id) = None /\
      forall d p, d ∈ [EtcRoot +:+ "/" +:+ id; VarRoot +:+ "/" +:+ id] -> in_dir d p = true -> undeletable p = false -> files r' !! p = None
  | (Err _, r') => forall p, p <> Join2 UnitDir (ManagedUnitName id) -> files r' !! p = files r !! p \/ allowed_file p (files r' !! p)
  end.
Proof.
  intros Hk Hid. unfold Remove. rewrite Hk, (bool_decide_eq_false_2 (id = "")) by (by intros ->). unfold ValidateName. rewrite (ManagedUnitName_ok id Hid). cbn [negb guard_err].
  set (name := ManagedUnitName id) in *. destruct (etc_dir id Hid) as [-> ->]. unfold hbind. destruct (runHelper ["unit"; "remove"; name] r) as [[[]|e] r1] eqn:Hr.
  - apply runHelper_run in Hr as [Hrc ->]. pose proof (uninstall_files helper name r Hrc) as Hf. set (r1 := (main helper ["unit"; "remove"; name] r).2) in *. split.
    + do 2 apply gone_already. unfold unlink. destruct (undeletable _); cbn; [|apply lookup_delete_None; right]; rewrite Hf; apply lookup_delete_eq.
    + intros d p Hd Hp Hu. apply elem_of_cons in Hd as [->|Hd]; [apply gone_already; by apply gone_in|]. apply list_elem_of_singleton in Hd as ->. by apply gone_in.
  - intros p _. unfold runHelper in Hr. destruct (sudo _ r); [|injection Hr as _ <-; by left].
    pose proof (main_confined helper ["unit"; "remove"; name] r) as [Hm _]. destruct (main helper ["unit"; "remove"; name] r) as [rc r2]. destruct (rc =? 0)%Z; [done|].
    injection Hr as _ <-. apply Hm.
Qed.

(** ** Where the binary comes from *)

(** Every address asked is https at an allowed host, and there are at most ten. *)
Definition https_allowed (u : string) : Prop := exists host, url_scheme_host u = Some ("https", host) /\ RedirectHostAllowed host = true.

Lemma redirect_ok_spec u : redirect_ok u = true -> https_allowed u.
Proof.
  unfold redirect_ok. destruct (url_scheme_host u) as [[s h]|] eqn:Hu; [|done]. intros [Hs Hh]%andb_true_iff. apply bool_decide_eq_true in Hs as ->. by exists h.
Qed.

Lemma get_hosts hops u : https_allowed u -> Forall https_allowed (get hops u).1 /\ length (get hops u).1 <= S hops.
Proof.
  revert u. induction hops as [|hops IH]; intros u Hu; cbn; destruct (respond u) as [target| |]; cbn; try (split; [by apply Forall_cons_2|lia]).
  destruct (redirect_ok target) eqn:Hr; cbn; [|split; [by apply Forall_cons_2|lia]]. apply redirect_ok_spec in Hr. destruct (IH target Hr) as [IH1 IH2].
  destruct (get hops target) as [asked res]. cbn in *. split; [by apply Forall_cons_2|lia].
Qed.

Lemma validated_url ms : managed_validate ms = Ok tt -> https_allowed (m_BinaryURL ms).
Proof.
  intros Hv. unfold managed_validate in Hv. do 5 (apply rbind_Ok in Hv as (? & _ & Hv)). apply rbind_Ok in Hv as (? & Hg & _). apply guard_err_Ok, negb_false_iff in Hg.
  unfold url_allowed in Hg. destruct (url_scheme_host (m_BinaryURL ms)) as [[s h]|] eqn:Hu; [|done]. apply andb_true_iff in Hg as [Hs Hh]. apply bool_decide_eq_true in Hs as ->.
  exists h. split; [done|]. unfold RedirectHostAllowed. by rewrite Hh.
Qed.

Lemma download_digest ms data : download ms = Ok data -> sha256 data = trim_prefix (m_BinaryDigest ms) "sha256:".
Proof.
  unfold download. destruct (get 9 (m_BinaryURL ms)).2 as [[[st c] broken]|]; [|done]. intros Hd. apply rbind_Ok in Hd as (? & _ & Hd). cbv zeta in Hd.
  revert Hd. generalize (limit (maxManagedDownloadBytes + 1) c). intros content Hd.
  apply rbind_Ok in Hd as (? & _ & Hd). apply rbind_Ok in Hd as (? & _ & Hd). apply rbind_Ok in Hd as (? & Hg & Hd). injection Hd as <-.
  apply guard_err_Ok, negb_false_iff, bool_decide_eq_true in Hg. done.
Qed.

Lemma Base_plain p : inl (Base p) ["."; ".."; "/"; ""] = false -> plain_seg (Base p).
Proof.
  unfold inl. intros Hn. apply bool_decide_eq_false in Hn. split_and!; [intros E; apply Hn; rewrite E; set_solver..|]. unfold Base in *.
  case_bool_decide; [done|]. cbv zeta in *. case_bool_decide; [destruct Hn; set_solver|]. pose proof (split_on_parts "/" (trim_right "/" p)) as Hp.
  pose proof (split_on_nonempty "/" (trim_right "/" p)) as Hne. destruct (split_on "/" (trim_right "/" p)) as [|x l _] using rev_ind; [done|]. rewrite last_last.
  apply Forall_app in Hp as [_ Hp]. by apply Forall_inv in Hp.
Qed.

(** What a successful extraction leaves at a path. *)
Lemma extract_content dest ds entries total r r' p : dest = "/" +:+ join "/" ds -> Forall plain_seg ds -> ds <> [] ->
  extract dest entries total r = (Ok tt, r') ->
  content_at p r' = content_at p r \/ exists e, e ∈ entries /\ e_regular e = true /\ e_broken e = None /\
    p = dest +:+ "/" +:+ Base (Clean (e_name e)) /\ content_at p r' = Some (limit maxManagedDownloadBytes (e_content e)).
Proof.
  intros Hd Hds Hne. revert total r. induction entries as [|e entries IH]; intros total r; cbn [extract]; [intros [= <-]; by left|]. cbv zeta.
  assert (Hin : forall r0, content_at p r' = content_at p r0 \/ (exists e0, e0 ∈ entries /\ e_regular e0 = true /\ e_broken e0 = None /\
    p = dest +:+ "/" +:+ Base (Clean (e_name e0)) /\ content_at p r' = Some (limit maxManagedDownloadBytes (e_content e0))) ->
    content_at p r' = content_at p r0 \/ exists e0, e0 ∈ e :: entries /\ e_regular e0 = true /\ e_broken e0 = None /\
    p = dest +:+ "/" +:+ Base (Clean (e_name e0)) /\ content_at p r' = Some (limit maxManagedDownloadBytes (e_content e0))).
  { intros r0 [H|(e0 & He0 & H)]; [by left|]. right. exists e0. split; [by right|done]. }
  destruct (negb (e_regular e) || _) eqn:Hskip; [intros Hx; apply Hin; by apply (IH _ _ Hx)|]. apply orb_false_iff in Hskip as [Hreg Hbase]. apply negb_false_iff in Hreg.
  intros (_ & Hx)%guard_run. apply guard_run in Hx as [_ Hx]. apply call_run in Hx as [_ Hx]. apply hbind_Ok in Hx as ([] & r1 & H1 & Hx).
  apply Base_plain in Hbase. assert (Hout : Join2 dest (Base (Clean (e_name e))) = dest +:+ "/" +:+ Base (Clean (e_name e))) by (rewrite Hd at 1; rewrite Join2_seg by done; by rewrite Hd, !sapp_assoc).
  rewrite Hout in H1. destruct (short_copy _) as [[n t]|]; [done|]. destruct (e_broken e) eqn:Hbr; [done|]. injection H1 as <-.
  destruct (Hin _ (IH _ _ Hx)) as [Hc|Hc]; [|by right]. destruct (decide (p = dest +:+ "/" +:+ Base (Clean (e_name e)))) as [->|Hp].
  - right. exists e. split; [by left|]. split_and!; [done..|]. rewrite Hc. unfold content_at. cbn. by rewrite lookup_insert_eq.
  - left. rewrite Hc. unfold content_at. cbn. by rewrite lookup_insert_ne.
Qed.

(** C15: A binary is either already in place or is what was downloaded with the
    pinned digest: the download itself, or for an archive the complete content
    of a regular entry with the binary's name.  Only allowed hosts are asked. *)
Theorem binary_pinned ms r p r' : EnsureManagedBinary ms r = (Ok p, r') ->
  p = managedBinPath ms /\ (Forall https_allowed (get 9 (m_BinaryURL ms)).1 /\ length (get 9 (m_BinaryURL ms)).1 <= 10) /\
  ((r' = r /\ is_Some (content_at p r)) \/
   exists data, m_BinaryDigest ms = "sha256:" +:+ sha256 data /\
     (m_Archive ms <> "tgz" -> content_at p r' = Some data) /\
     (m_Archive ms = "tgz" -> exists entries e, untar data = Ok (entries, None) /\ e ∈ entries /\ e_regular e = true /\ e_broken e = None /\
        Base (Clean (e_name e)) = m_Binary ms /\ content_at p r' = Some (limit maxManagedDownloadBytes (e_content e)))).
Proof.
  intros He. destruct (Ensure_run ms r p r' He) as (Hv & -> & _). split; [done|]. split; [apply (get_hosts 9), validated_url, Hv|].
  destruct (bin_path ms Hv) as (hex & Hbp & Hsegs & Hdig). destruct (bin_dir ms Hv) as (hex' & Hdig' & Hdir & _ & Hb).
  assert (hex' = hex) as -> by (rewrite Hdig in Hdig'; by apply (inj (String.append "sha256:")) in Hdig').
  unfold EnsureManagedBinary in He. rewrite Hv in He. cbv zeta in He. destruct (stat_regular (managedBinPath ms) r) eqn:Hs.
  { injection He as <-. left. split; [done|]. unfold stat_regular in Hs. by apply bool_decide_eq_true in Hs. }
  right. apply call_run in He as [_ He]. apply call_run in He as [_ He]. apply hbind_Ok in He as (data & r1 & Hdl & He).
  injection Hdl as Hdl <-. exists data. split; [rewrite Hdig; f_equal; apply download_digest in Hdl; by rewrite Hdl, Hdig, trim_prefix_app|].
  apply hbind_Ok in He as ([] & r2 & Hmat & He). apply call_run in He as [_ He]. assert (Hr2 : stat_regular (managedBinPath ms) r2 = true /\ r2 = r').
  { unfold hbind, or_stop in He. destruct (stat_regular (managedBinPath ms) r2); [|done]. split; [done|]. by injection He. }
  destruct Hr2 as [Hst <-]. case_bool_decide as Ha; (split; [intros Hne|intros Hq]); try done.
  - unfold extractManagedTgz in Hmat. destruct (untar data) as [[entries err]|]; [|done]. apply hbind_Ok in Hmat as ([] & r3 & Hx & Hmat).
    destruct err as [t|]; [done|]. apply hbind_Ok in Hmat as ([] & r4 & Hr4 & Hmat). injection Hr4 as <-.
    assert (r3 = r2) as -> by (unfold or_stop in Hmat; destruct (files r3 !! _); [by injection Hmat|done]).
    rewrite Hdir in Hx. apply (extract_content _ ["opt"; "obacht"; "system"; "bin"; hex] _ _ _ _ (managedBinPath ms)) in Hx; [|done| |done].
    2:{ change ["opt"; "obacht"; "system"; "bin"; hex; m_Binary ms] with (["opt"; "obacht"; "system"; "bin"; hex] ++ [m_Binary ms]) in Hsegs. by apply Forall_app in Hsegs as [? _]. }
    unfold stat_regular in Hs, Hst. apply bool_decide_eq_true in Hst. apply bool_decide_eq_false in Hs.
    destruct Hx as [Hx|(e & He1 & He2 & He3 & Hp & Hc)]; [rewrite Hx in Hst; done|]. exists entries, e. split_and!; try done.
    rewrite Hb in Hp. rewrite !sapp_assoc in Hp. by repeat (apply (inj (String.append _)) in Hp).
  - apply call_run in Hmat as [_ Hmat]. injection Hmat as <-. unfold content_at. cbn. by rewrite lookup_insert_eq.
Qed.
End driver.

(** ** A camera server *)
Definition power_sudo (args : list string) (r : root) : bool := bool_decide (is_Some (files r !! sudoersPath)).
Definition camera_url (u : string) : reply :=
  if bool_decide (u = m_BinaryURL sample_ms) then Redirect "https://objects.githubusercontent.com/x" else Reply 200 "TGZ" None.
Definition camera_agent (tar : res string (list tar_entry * option string)) : Agent := {|
  helper := demo_host; sudo := power_sudo; respond := camera_url; sha256 _ := sample_hex; untar _ := tar; failing _ _ := None;
  short_copy _ := None; undeletable _ := false;
  active_state name r := if bool_decide (["restart"; name] ∈ ran r) then "active" else "inactive"
|}.
Definition whole_tar : res string (list tar_entry * option string) := Ok ([MkEntry "mediamtx_v1/mediamtx" true 3 "ELF" None], None).
#[local] Instance camera : Agent := camera_agent whole_tar.
Definition camera_spec : Spec := MkSpec "" "" [MkFile "/etc/obacht/svc/cam1/m.yml" "0600" "paths:"] "" [] None (Some sample_ms) false.
Definition powered : root := MkRoot {[sudoersPath := Reg powerSudoersContent]} [] false.
Definition applied : root := (Apply "cam1" camera_spec powered).2.

Lemma camera_separate : separate (Files camera_spec).
Proof.
  split; [apply NoDup_singleton|]. intros p q Hp Hq. assert (Hpath : paths (Files camera_spec) = ["/etc/obacht/svc/cam1/m.yml"]) by reflexivity.
  rewrite Hpath in Hp, Hq. apply list_elem_of_singleton in Hp as ->. apply list_elem_of_singleton in Hq as ->. discriminate.
Qed.
Lemma camera_applied : Apply "cam1" camera_spec powered = (Ok tt, applied).
Proof.
  assert (Hr : is_ok (Apply "cam1" camera_spec powered).1 = true) by (vm_compute; reflexivity). unfold applied.
  destruct (Apply "cam1" camera_spec powered) as [[[]|e] r]; [done|discriminate Hr].
Qed.

Lemma driver_bounded_witness : bounded "cam1" powered applied.
Proof. destruct (driver_bounded "cam1" camera_spec powered) as [Ha _]; [vm_compute; reflexivity|]. exact Ha. Defined.

Lemma Apply_installs_witness : is_Some (content_at (managedBinPath sample_ms) applied) /\ content_at "/etc/obacht/svc/cam1/m.yml" applied = Some "paths:".
Proof.
  destruct (Apply_installs "cam1" camera_spec sample_ms powered applied) as (_ & Hb & Hf);
    [reflexivity|reflexivity|exact camera_separate|reflexivity|exact camera_applied|]. split; [exact Hb|].
  apply (Hf (MkFile "/etc/obacht/svc/cam1/m.yml" "0600" "paths:")); [by left|discriminate].
Defined.

Lemma Apply_settles_witness : Apply "cam1" camera_spec applied = (Ok tt, applied) /\ length (ran applied) = 3.
Proof.
  split; [|vm_compute; reflexivity].
  apply (Apply_settles "cam1" camera_spec sample_ms powered applied); [reflexivity|reflexivity|exact camera_separate|reflexivity|reflexivity|vm_compute; reflexivity|exact camera_applied].
Defined.

Definition fetched : root := (EnsureManagedBinary sample_ms powered).2.
Lemma binary_pinned_witness : exists c, content_at (managedBinPath sample_ms) fetched = Some c /\ (get 9 (m_BinaryURL sample_ms)).1 = [m_BinaryURL sample_ms; "https://objects.githubusercontent.com/x"].
Proof.
  assert (He : EnsureManagedBinary sample_ms powered = (Ok (managedBinPath sample_ms), fetched)).
  { assert (Hr : is_ok (EnsureManagedBinary sample_ms powered).1 = true) by (vm_compute; reflexivity). unfold fetched.
    destruct (EnsureManagedBinary sample_ms powered) as [[p|e] r] eqn:E; [|discriminate Hr]. destruct (Ensure_run _ _ _ _ E) as (_ & -> & _). reflexivity. }
  destruct (binary_pinned sample_ms powered (managedBinPath sample_ms) fetched He) as (_ & _ & [[_ Hs]|(data & _ & _ & Ht)]).
  - exfalso. assert (Hn : content_at (managedBinPath sample_ms) powered = None) by (vm_compute; reflexivity). rewrite Hn in Hs. by destruct Hs.
  - destruct (Ht eq_refl) as (entries & e & _ & _ & _ & _ & _ & Hc). eexists. split; [exact Hc|]. vm_compute. reflexivity.
Defined.

(** An extraction that breaks off leaves its beginning at the path of the binary;
    the next attempt takes it for a verified one. *)
Definition torn : Agent := camera_agent (Ok ([MkEntry "mediamtx" true 9 "EL" (Some "unexpected EOF")], None)).
Example partial_extract_accepted : let first := EnsureManagedBinary (agent := torn) sample_ms powered in
  is_ok first.1 = false /\ EnsureManagedBinary (agent := torn) sample_ms first.2 = (Ok (managedBinPath sample_ms), first.2) /\
  content_at (managedBinPath sample_ms) first.2 = Some "EL".
Proof. split_and!; vm_compute; reflexivity. Qed.

(** The identifier is joined to the directory before it is checked: the files of
    an instance called [..] are written beside the directories of all instances. *)
Example dotdot_id_writes : let spec := MkSpec "" "" [MkFile "/etc/obacht/agent.yaml" "" "x"] "" [] None (Some sample_ms) false in
  is_ok (Apply ".." spec powered).1 = false /\ content_at "/etc/obacht/agent.yaml" (Apply ".." spec powered).2 = Some "x".
Proof. split; vm_compute; reflexivity. Qed.
