(* ===== verification/HookRunner.v ===== *)
(** * Post-start hooks: internal/runtime/system/poststart.go, hostdata.go

    After a host service was started a goroutine waits for its port and sends
    the hooks one after the other; what comes of it is told to the readiness
    sink.  The runner is a state with one routine per run ever started, of which
    every step that takes the mutex or waits for the outside world is one
    [turn]; runs of different instances, restarts and removals interleave. *)

From S2P Require Import Prelude GoStrings GoUrl SystemSpec.
From S2P Require Prober AuditLog.

(** Milliseconds. *)
Definition hookTCPWait : Z := 120000.
Definition hookTCPInterval : Z := 1000.
Definition hookRetryAfter : Z := 300000.

(** ** State *)
Record hookRun := MkHookRun { cancelled : bool; running : bool; failed : bool; errMsg : string; finished : Z }.

(** Where the goroutine of a run is: not yet begun, waiting for the port, at a
    hook, decided but not yet heard, or gone. *)
Inductive stage := Fresh | Waiting | Calling (i : nat) (rest : list PostStartHook) | Verdict (state msg : string) | Gone.
Record routine := MkRoutine { inst : string; hooks : list PostStartHook; record_ : hookRun; at_ : stage }.

Record hookRunner := MkRunner {
  runs : gmap string nat;           (* the latest run of an instance *)
  table : gmap nat routine;         (* every run ever started *)
  next : nat;
  emitted : list (string * string * string)   (* instance, state, message; newest first *)
}.
Definition newHookRunner : hookRunner := MkRunner ∅ ∅ 0 [].

Definition on_table (f : gmap nat routine -> gmap nat routine) (r : hookRunner) : hookRunner := MkRunner (runs r) (f (table r)) (next r) (emitted r).
Definition set_cancelled (g : routine) : routine :=
  MkRoutine (inst g) (hooks g) (MkHookRun true (running (record_ g)) (failed (record_ g)) (errMsg (record_ g)) (finished (record_ g))) (at_ g).
Definition cancel_run (n : nat) : hookRunner -> hookRunner := on_table (alter set_cancelled n).
Definition emit (id state msg : string) (r : hookRunner) : hookRunner := MkRunner (runs r) (table r) (next r) ((id, state, msg) :: emitted r).

(** [shouldRun]: always the first time and after a restart, never during a run,
    otherwise only some time after a failure. *)
Definition shouldRun (id : string) (restarted : bool) (now : Z) (r : hookRunner) : bool :=
  match runs r !! id with
  | None => true
  | Some n =>
      match table r !! n with
      | None => true
      | Some g => if running (record_ g) then false else if restarted then true
                  else failed (record_ g) && (hookRetryAfter <? now - finished (record_ g))%Z
      end
  end.

Definition start (id : string) (hs : list PostStartHook) (r : hookRunner) : hookRunner :=
  let r := match runs r !! id with
           | Some n => match table r !! n with Some g => if running (record_ g) then cancel_run n r else r | None => r end
           | None => r
           end in
  let run := MkRoutine id hs (MkHookRun false true false "" 0) Fresh in
  MkRunner (<[id := next r]> (runs r)) (<[next r := run]> (table r)) (S (next r)) (emitted r).

Definition cancel (id : string) (r : hookRunner) : hookRunner :=
  match runs r !! id with
  | Some n => let r := cancel_run n r in MkRunner (delete id (runs r)) (table r) (next r) (emitted r)
  | None => r
  end.

(** ** The address to wait for *)

(** [Hostname] and [Port] of a URL's host. *)
Definition port_ok (s : string) : bool := str_all is_digit s.
Definition host_port (h : string) : string * string :=
  match split_on ":" h with
  | [] => (h, "")
  | parts => let port := List.last parts "" in
             if (1 <? length parts)%nat && port_ok port then (join ":" (removelast parts), port) else (h, "")
  end.
Definition unbracket (h : string) : string := if has_prefix h "[" && has_suffix h "]" then sdrop 1 (stake (slen h - 1) h) else h.
Definition hookAddr (raw : string) : string :=
  match url_scheme_host raw with
  | None => "127.0.0.1:80"
  | Some (_, h) => let '(host, port) := host_port h in
                   Prober.JoinHostPort (unbracket host) (if bool_decide (port = "") then "80" else port)
  end.

(** ** The goroutine *)

(** What it hears: the port accepts, it does not within the budget, a hook's
    status, or an error instead of one. *)
Inductive answer := Connected | NotConnected | Status (code : Z) | CallFailed (t : string).

(** What a failure says; validated hooks have a request. *)
Definition hook_request (h : PostStartHook) : PostStartHTTP := default (MkPostStartHTTP "" "" "" "" 0) (HTTP h).
Definition unreachable (hs : list PostStartHook) : string :=
  "service did not accept connections on " +:+ hookAddr (from_option (fun h => URL (hook_request h)) "" (head hs)) +:+ " within 2m0s".
Definition hook_text (i : nat) (h : PostStartHook) (t : string) : string :=
  let '(m, _, _) := effective (hook_request h) in "hook " +:+ itoa (Z.of_nat i) +:+ " " +:+ m +:+ " " +:+ URL (hook_request h) +:+ ": " +:+ t.

Definition ended (msg : string) (now : Z) (then_ : stage) (g : routine) : routine :=
  MkRoutine (inst g) (hooks g) (MkHookRun (cancelled (record_ g)) false (negb (bool_decide (msg = ""))) msg now) then_.
Definition moved (to_ : stage) (g : routine) : routine := MkRoutine (inst g) (hooks g) (record_ g) to_.

(** A failure: silent when the run was cancelled. *)
Definition failing (msg : string) (now : Z) (g : routine) : routine :=
  if cancelled (record_ g) then ended "" now Gone g else ended msg now (Verdict "unhealthy" msg) g.

Definition success (code : Z) : bool := (200 <=? code)%Z && (code <=? 299)%Z.

(** The next step of a routine, and what it emits. *)
Definition turn_of (a : answer) (now : Z) (g : routine) : option (string * string) * routine :=
  match at_ g with
  | Fresh => (Some ("starting", ""), moved (match hooks g with [] => Calling 0 [] | _ => Waiting end) g)
  | Waiting => match a with
               | Connected => (None, moved (Calling 0 (hooks g)) g)
               | _ => (None, failing (unreachable (hooks g)) now g)
               end
  | Calling i [] => (None, ended "" now (Verdict "ready" "") g)
  | Calling i (h :: rest) =>
      match a with
      | Status code => if success code then (None, moved (Calling (S i) rest) g) else (None, failing (hook_text i h ("HTTP " +:+ itoa code)) now g)
      | CallFailed t => (None, failing (hook_text i h t) now g)
      | _ => (None, g)
      end
  | Verdict state msg => (Some (state, msg), moved Gone g)
  | Gone => (None, g)
  end.

Definition turn (n : nat) (a : answer) (now : Z) (r : hookRunner) : hookRunner :=
  match table r !! n with
  | None => r
  | Some g =>
      let '(e, g') := turn_of a now g in
      let r := on_table (<[n := g']>) r in
      match e with Some (state, msg) => emit (inst g) state msg r | None => r end
  end.

(** ** Every interleaving *)
Inductive event := Start (id : string) (hs : list PostStartHook) | Cancel (id : string) | Turn (n : nat) (a : answer) (now : Z).
Definition exec (e : event) (r : hookRunner) : hookRunner :=
  match e with Start id hs => start id hs r | Cancel id => cancel id r | Turn n a now => turn n a now r end.
(** The events so far, newest first. *)
Definition after (l : list event) : hookRunner := fold_right exec newHookRunner l.

(** ** Waiting for the port *)

(** [waitTCP]: [dial k] is how long the k-th attempt takes and whether it
    connects; the time at which the wait ends and its outcome. *)
Fixpoint waitTCP (fuel : nat) (dial : nat -> Z * bool) (k : nat) (now deadline : Z) : option (bool * Z) :=
  match fuel with
  | O => None
  | S fuel =>
      let '(took, ok) := dial k in
      let now := (now + took)%Z in
      if ok then Some (true, now) else if (deadline <? now)%Z then Some (false, now)
      else waitTCP fuel dial (S k) (now + hookTCPInterval) deadline
  end.

(** ** The data directory *)

Definition hostDataPlaceholder : string := "${host.data}".
Definition dataDirEnv : string := "OBACHT_DATA_DIR".
Definition expandHostData (hs : HostServiceSpec) (dataDir : string) : list string * gmap string string :=
  let sub s := replace_all s hostDataPlaceholder dataDir in
  (map sub (h_Args hs), <[dataDirEnv := dataDir]> (sub <$> h_Env hs)).

(** ** The sink: loop.go, [hookReadiness] *)
Definition hookReadiness (sha : string -> string) (log_writable : AuditLog.log_io) (now : Z) (e : string * string * string)
    (x : Prober.Prober * option AuditLog.Writer) : Prober.Prober * option AuditLog.Writer :=
  let '(id, state, msg) := e in
  let p := Prober.SetState id state now x.1 in
  if bool_decide (state = ReadinessConfig.StateUnhealthy) then
    let '(_, w, db) := AuditLog.Append sha x.2 (AuditLog.MkEntry 0 0 "instance.post_start" "reconciler" id AuditLog.ResultError [] "" "post_start hook failed" msg)
                         now log_writable (Prober.st p) in
    (Prober.set_st db p, w)
  else (p, x.2).
