(* ===== verification/HookProps.v ===== *)
(** * What the post-start hooks guarantee

    In every interleaving of starts, cancellations and the goroutines' steps an
    instance has at most one run that is alive, and an instance is called ready
    only when all hooks of one of its runs were answered with success. *)

From S2P Require Import Prelude GoStrings GoUrl SystemSpec HookRunner.

(** ** What a run has done *)

(** The requests of a run that were answered with a status, in order. *)
Definition answered (n : nat) (e : event) (r : hookRunner) : list (PostStartHook * Z) :=
  match e, table r !! n with
  | Turn m (Status code) _, Some g => if bool_decide (m = n) then match at_ g with Calling _ (h :: _) => [(h, code)] | _ => [] end else []
  | _, _ => []
  end.
Fixpoint calls (n : nat) (l : list event) : list (PostStartHook * Z) :=
  match l with [] => [] | e :: l => calls n l ++ answered n e (after l) end.
Definition all_good (n : nat) (l : list event) (hs : list PostStartHook) : Prop :=
  map fst (calls n l) = hs /\ Forall (fun c => success c.2 = true) (calls n l).

Definition at_work (s : stage) : bool := match s with Fresh | Waiting | Calling _ _ => true | _ => false end.
Definition progress (n : nat) (l : list event) (g : routine) : Prop :=
  match at_ g with
  | Fresh | Waiting => calls n l = []
  | Calling i rest => map fst (calls n l) ++ rest = hooks g /\ Forall (fun c => success c.2 = true) (calls n l)
  | Verdict state _ => state = "ready" -> all_good n l (hooks g)
  | Gone => True
  end.

(** What holds of every run, and of what was emitted. *)
Record runner_ok (l : list event) (r : hookRunner) : Prop := {
  ok_below : forall n, is_Some (table r !! n) -> n < next r;
  ok_working : forall n g, table r !! n = Some g -> running (record_ g) = at_work (at_ g);
  ok_latest : forall n g, table r !! n = Some g -> running (record_ g) = true -> cancelled (record_ g) = false -> runs r !! inst g = Some n;
  ok_runs : forall id n, runs r !! id = Some n -> exists g, table r !! n = Some g /\ inst g = id;
  ok_progress : forall n g, table r !! n = Some g -> progress n l g;
  ok_new : forall n, next r <= n -> calls n l = [];
  ok_emitted : forall id msg, (id, "ready", msg) ∈ emitted r -> exists n g, table r !! n = Some g /\ inst g = id /\ at_ g = Gone /\ all_good n l (hooks g)
}.

Lemma cancel_lookup n m r : table (cancel_run n r) !! m = (if bool_decide (m = n) then set_cancelled <$> table r !! m else table r !! m).
Proof. unfold cancel_run, on_table. cbn. case_bool_decide as Hm; [subst; by rewrite lookup_alter_eq|by rewrite lookup_alter_ne]. Qed.

(** A run that is only marked keeps its progress. *)
Lemma progress_cancelled n l g : progress n l (set_cancelled g) <-> progress n l g.
Proof. done. Qed.

Lemma calls_other n e l : (forall m a now, e = Turn m a now -> m <> n) -> calls n (e :: l) = calls n l.
Proof.
  intros Hm. cbn. unfold answered. destruct e as [| |m a now]; rewrite ?app_nil_r; try done. destruct a; rewrite ?app_nil_r; try done.
  destruct (table (after l) !! n); rewrite ?app_nil_r; [|done]. rewrite bool_decide_eq_false_2; [by rewrite app_nil_r|]. by apply (Hm m (Status code) now).
Qed.

Lemma progress_calls n l l' g : calls n l' = calls n l -> progress n l g -> progress n l' g.
Proof. intros Hc. unfold progress, all_good. by rewrite Hc. Qed.
Lemma all_good_calls n l l' hs : calls n l' = calls n l -> all_good n l hs -> all_good n l' hs.
Proof. intros Hc. unfold all_good. by rewrite Hc. Qed.

(** What the answer to a turn adds to the requests of its run. *)
Lemma calls_turn n a now l g : table (after l) !! n = Some g ->
  calls n (Turn n a now :: l) = calls n l ++ match a, at_ g with Status code, Calling _ (h :: _) => [(h, code)] | _, _ => [] end.
Proof. intros Hg. cbn. unfold answered. destruct a; try done. rewrite Hg, bool_decide_eq_true_2 by done. by destruct (at_ g) as [| |i [|h rest]| |]. Qed.

(** One turn keeps what is known of its run, and says ready only after all its hooks. *)
Lemma turn_of_ok n a now l g e g' : table (after l) !! n = Some g -> running (record_ g) = at_work (at_ g) -> progress n l g ->
  turn_of a now g = (e, g') ->
  inst g' = inst g /\ hooks g' = hooks g /\ cancelled (record_ g') = cancelled (record_ g) /\
  (running (record_ g') = true -> running (record_ g) = true) /\ running (record_ g') = at_work (at_ g') /\
  progress n (Turn n a now :: l) g' /\ (forall msg, e = Some ("ready", msg) -> all_good n (Turn n a now :: l) (hooks g)).
Proof.
  intros Hg Hw Hp Ht. unfold progress, all_good in *. rewrite (calls_turn n a now l g Hg).
  unfold turn_of, failing, ended, moved in Ht.
  destruct (at_ g) as [| |i [|h rest]|state msg|] eqn:Hat; cbn in Hw.
  - injection Ht as <- <-. cbn. rewrite Hw. destruct (hooks g) eqn:Hh; cbn; rewrite Hp; by destruct a.
  - destruct a; try (destruct (cancelled (record_ g)) eqn:Hc); injection Ht as <- <-; cbn; rewrite ?Hw, ?Hp, ?Hc; by auto.
  - destruct Hp as [Hp1 Hp2]. rewrite app_nil_r in Hp1. injection Ht as <- <-. cbn. rewrite Hw. destruct a; rewrite app_nil_r; by auto 10.
  - destruct Hp as [Hp1 Hp2]. destruct a as [| |code|t].
    1,2: injection Ht as <- <-; cbn; rewrite Hw, Hat, app_nil_r; by auto 10.
    2: destruct (cancelled (record_ g)) eqn:Hc; injection Ht as <- <-; cbn; rewrite ?Hw, ?Hc; by auto 10.
    destruct (success code) eqn:Hs; [|destruct (cancelled (record_ g)) eqn:Hc; injection Ht as <- <-; cbn; rewrite ?Hw, ?Hc; by auto 10].
    injection Ht as <- <-. cbn. rewrite Hw, map_app, <- app_assoc. split_and!; try done. apply Forall_app. split; [done|]. by apply Forall_cons_2.
  - injection Ht as <- <-. cbn. rewrite Hw. split_and!; try done. intros m [= -> ->]. destruct Hp as [H1 H2]; [done|]. by destruct a; rewrite app_nil_r.
  - injection Ht as <- <-. cbn. rewrite Hw, Hat. by auto 10.
Qed.

(** An event that answers no run keeps what is known. *)
Lemma ok_quiet e l r : (forall n, calls n (e :: l) = calls n l) -> runner_ok l r -> runner_ok (e :: l) r.
Proof.
  intros Hc [H1 H2 H3 H4 H5 H6 H7]. split; try done.
  - intros n g Hg. eapply progress_calls; [apply Hc|by apply H5].
  - intros n Hn. rewrite Hc. by apply H6.
  - intros id msg Hm. destruct (H7 id msg Hm) as (n & g & Hg & Hi & Hgo & Ha). exists n, g. refine (conj Hg (conj Hi (conj Hgo _))). by apply (all_good_calls _ l); [apply Hc|].
Qed.

Lemma cancel_run_ok m l r : runner_ok l r -> runner_ok l (cancel_run m r).
Proof.
  intros [H1 H2 H3 H4 H5 H6 H7].
  assert (Hl : forall n g, table (cancel_run m r) !! n = Some g -> exists g0, table r !! n = Some g0 /\ (g = g0 \/ (n = m /\ g = set_cancelled g0))).
  { intros n g. rewrite cancel_lookup. case_bool_decide as Hn; [|by eauto]. intros (g0 & Hg0 & ->)%fmap_Some. by eauto 10. }
  assert (Hr : forall n g0, table r !! n = Some g0 -> exists g, table (cancel_run m r) !! n = Some g /\ inst g = inst g0 /\ hooks g = hooks g0 /\ at_ g = at_ g0).
  { intros n g0 Hg0. rewrite cancel_lookup, Hg0. case_bool_decide; cbn; by eauto. }
  split; try done.
  - intros n [g Hg]. destruct (Hl n g Hg) as (g0 & Hg0 & _). apply H1. by eauto.
  - intros n g Hg. destruct (Hl n g Hg) as (g0 & Hg0 & [->|[_ ->]]); exact (H2 n g0 Hg0).
  - intros n g Hg Hrun Hcan. destruct (Hl n g Hg) as (g0 & Hg0 & [->|[_ ->]]); [by apply (H3 n)|discriminate Hcan].
  - intros id n Hn. destruct (H4 id n Hn) as (g0 & Hg0 & <-). destruct (Hr n g0 Hg0) as (g & Hg & Hi & _). by eauto.
  - intros n g Hg. destruct (Hl n g Hg) as (g0 & Hg0 & [->|[_ ->]]); [by apply H5|]. apply progress_cancelled. exact (H5 n g0 Hg0).
  - intros id msg Hm. destruct (H7 id msg Hm) as (n & g0 & Hg0 & Hi & Hgo & Ha). destruct (Hr n g0 Hg0) as (g & Hg & Hi' & Hh & Ha').
    exists n, g. rewrite Hi', Hh, Ha'. done.
Qed.

Lemma start_ok id hs l : runner_ok l (after l) -> runner_ok (Start id hs :: l) (start id hs (after l)).
Proof.
  intros Hok. apply ok_quiet; [intros n; by apply calls_other|]. revert Hok. generalize (after l) as r. intros r Hok. unfold start.
  set (r1 := match runs r !! id with Some _ => _ | None => r end).
  assert (Hok1 : runner_ok l r1 /\ forall n g, table r1 !! n = Some g -> inst g = id -> running (record_ g) = true -> cancelled (record_ g) = true).
  { subst r1. destruct (runs r !! id) as [m|] eqn:Hm.
    - destruct (ok_runs _ _ Hok id m Hm) as (gm & Hgm & Hi). rewrite Hgm. destruct (running (record_ gm)) eqn:Hrun.
      + split; [by apply cancel_run_ok|]. intros n g. rewrite cancel_lookup. destruct (bool_decide_reflect (n = m)) as [->|Hn].
        * rewrite Hgm. by intros [= <-].
        * intros Hg Hgi Hgr. destruct (cancelled (record_ g)) eqn:Hc; [done|]. pose proof (ok_latest _ _ Hok n g Hg Hgr Hc) as Hl. rewrite Hgi, Hm in Hl. congruence.
      + split; [done|]. intros n g Hg Hgi Hgr. destruct (cancelled (record_ g)) eqn:Hc; [done|].
        pose proof (ok_latest _ _ Hok n g Hg Hgr Hc) as Hl. rewrite Hgi, Hm in Hl. congruence.
    - split; [done|]. intros n g Hg Hgi Hgr. destruct (cancelled (record_ g)) eqn:Hc; [done|].
      pose proof (ok_latest _ _ Hok n g Hg Hgr Hc) as Hl. rewrite Hgi, Hm in Hl. congruence. }
  clearbody r1. clear Hok. destruct Hok1 as [[H1 H2 H3 H4 H5 H6 H7] Hold].
  assert (Hnew : table r1 !! next r1 = None) by (destruct (table r1 !! next r1) as [g|] eqn:Hg; [destruct (Nat.lt_irrefl (next r1)); apply H1; by eauto|done]).
  split; cbn.
  - intros n. destruct (decide (n = next r1)) as [->|Hn]; [lia|]. rewrite lookup_insert_ne by done. intros Hs. specialize (H1 n Hs). lia.
  - intros n g [[<- <-]|[Hn Hg]]%lookup_insert_Some; [done|by apply (H2 n)].
  - intros n g [[<- <-]|[Hn Hg]]%lookup_insert_Some Hr Hc; [by rewrite lookup_insert_eq|].
    rewrite lookup_insert_ne; [by apply H3|]. intros Hi. rewrite (Hold n g Hg) in Hc; done.
  - intros id' n [[<- <-]|[Hn Hg]]%lookup_insert_Some; [eexists; by rewrite lookup_insert_eq|].
    destruct (H4 id' n Hg) as (g & Hgn & Hi). exists g. rewrite lookup_insert_ne; [done|]. congruence.
  - intros n g [[<- <-]|[Hn Hg]]%lookup_insert_Some; [by apply H6|by apply H5].
  - intros n Hn. apply H6. lia.
  - intros id' msg Hm. destruct (H7 id' msg Hm) as (n & g & Hg & Hi & Ha). exists n, g. rewrite lookup_insert_ne; [done|congruence].
Qed.

Lemma cancel_ok id l : runner_ok l (after l) -> runner_ok (Cancel id :: l) (cancel id (after l)).
Proof.
  intros Hok. apply ok_quiet; [intros n; by apply calls_other|]. unfold cancel. destruct (runs (after l) !! id) as [m|] eqn:Hm; [|done].
  pose proof (cancel_run_ok m l _ Hok) as [H1 H2 H3 H4 H5 H6 H7]. split; cbn; try done.
  - intros n g Hg Hr Hc. destruct (decide (inst g = id)) as [Hi|Hi]; [|rewrite lookup_delete_ne by done; exact (H3 n g Hg Hr Hc)].
    pose proof (H3 n g Hg Hr Hc) as Hl. rewrite Hi in Hl. change (runs (after l) !! id = Some n) in Hl. rewrite Hm in Hl. injection Hl as ->.
    change (table (cancel_run n (after l)) !! n = Some g) in Hg. rewrite cancel_lookup, bool_decide_eq_true_2 in Hg by done.
    apply fmap_Some in Hg as (g0 & _ & ->). discriminate Hc.
  - intros id' n [_ Hg]%lookup_delete_Some. by apply H4.
Qed.

Lemma turn_ok n a now l : runner_ok l (after l) -> runner_ok (Turn n a now :: l) (turn n a now (after l)).
Proof.
  intros Hok. unfold turn. destruct (table (after l) !! n) as [g|] eqn:Hg.
  2: { apply ok_quiet; [|done]. intros m. cbn. unfold answered. destruct a; rewrite ?app_nil_r; try done.
       destruct (decide (n = m)) as [->|Hm]; [by rewrite Hg, app_nil_r|]. destruct (table (after l) !! m); by rewrite ?bool_decide_eq_false_2, app_nil_r. }
  destruct (turn_of a now g) as [e g'] eqn:Ht. pose proof Hok as [H1 H2 H3 H4 H5 H6 H7].
  destruct (turn_of_ok n a now l g e g' Hg (H2 n g Hg) (H5 n g Hg) Ht) as (Hi & Hh & Hc & Hr & Hw & Hp & He).
  assert (Hother : forall m, m <> n -> calls m (Turn n a now :: l) = calls m l) by (intros m Hm; apply calls_other; intros ??? [= <- _ _]; done).
  assert (Hsame : at_ g = Gone -> calls n (Turn n a now :: l) = calls n l) by (intros Hgo; rewrite (calls_turn n a now l g Hg), Hgo; destruct a; apply app_nil_r).
  assert (Hlast : forall id msg, (id, "ready", msg) ∈ emitted (after l) ->
    exists m g0, <[n := g']> (table (after l)) !! m = Some g0 /\ inst g0 = id /\ at_ g0 = Gone /\ all_good m (Turn n a now :: l) (hooks g0)).
  { intros id msg Hm. destruct (H7 id msg Hm) as (m & g0 & Hg0 & Hi0 & Hgo & Ha). exists m. destruct (decide (m = n)) as [->|Hmn].
    - rewrite Hg in Hg0. injection Hg0 as <-. exists g'. rewrite lookup_insert_eq, Hi, Hh. unfold turn_of in Ht. rewrite Hgo in Ht.
      injection Ht as _ <-. refine (conj eq_refl (conj Hi0 (conj Hgo _))). by apply (all_good_calls n l); [apply Hsame|].
    - exists g0. rewrite lookup_insert_ne by done. refine (conj Hg0 (conj Hi0 (conj Hgo _))). by apply (all_good_calls m l); [apply Hother|]. }
  assert (Hbase : runner_ok (Turn n a now :: l) (on_table (<[n := g']>) (after l))).
  { split; cbn -[calls]; try done.
    - intros m. destruct (decide (m = n)) as [->|Hm]; [intros _; apply H1; by eauto|rewrite lookup_insert_ne by done; apply H1].
    - intros m gm [[<- <-]|[Hm Hgm]]%lookup_insert_Some; [done|by apply (H2 m)].
    - intros m gm [[<- <-]|[Hm Hgm]]%lookup_insert_Some Hrm Hcm; [|by apply H3]. rewrite Hi. apply H3; [done|by apply Hr|congruence].
    - intros id m Hm. destruct (H4 id m Hm) as (gm & Hgm & Him). destruct (decide (m = n)) as [->|Hmn].
      + exists g'. rewrite lookup_insert_eq. split; congruence.
      + exists gm. by rewrite lookup_insert_ne.
    - intros m gm [[<- <-]|[Hm Hgm]]%lookup_insert_Some; [done|]. apply (progress_calls m l); [by apply Hother|by apply H5].
    - intros m Hm. destruct (decide (m = n)) as [->|Hmn]; [|rewrite Hother by done; by apply H6].
      assert (n < next (after l)) by (apply H1; by eauto). lia. }
  destruct e as [[state msg]|]; [|exact Hbase]. destruct Hbase as [B1 B2 B3 B4 B5 B6 B7]. split; try done. cbn.
  intros id m [[= -> <- <-]|Hm]%elem_of_cons; [|by eapply Hlast].
  exists n, g'. rewrite lookup_insert_eq, Hi, Hh. refine (conj eq_refl (conj eq_refl (conj _ (He m eq_refl)))).
  unfold turn_of, failing in Ht. destruct (at_ g) as [| |i [|h rest]|st ms|]; try discriminate; try (by injection Ht as _ _ <-).
  all: destruct a; try discriminate; try (destruct (success code); discriminate).
Qed.

Lemma after_ok l : runner_ok l (after l).
Proof.
  induction l as [|[id hs|id|n a now] l IH]; [|by apply start_ok|by apply cancel_ok|by apply turn_ok].
  split; cbn; try done.
  - intros n [g Hg]. by rewrite lookup_empty in Hg.
  - intros id msg Hm. by apply elem_of_nil in Hm.
Qed.

(** Two runs of one instance that are both alive, neither finished nor cancelled, are the same run. *)
Theorem hooks_exclusive l n m g g' :
  table (after l) !! n = Some g -> table (after l) !! m = Some g' -> inst g = inst g' ->
  running (record_ g) = true -> running (record_ g') = true ->
  cancelled (record_ g) = false -> cancelled (record_ g') = false -> n = m.
Proof.
  intros Hg Hg' Hi Hr Hr' Hc Hc'. pose proof (after_ok l) as Hok.
  pose proof (ok_latest _ _ Hok n g Hg Hr Hc) as H1. pose proof (ok_latest _ _ Hok m g' Hg' Hr' Hc') as H2. rewrite Hi in H1. congruence.
Qed.

(** C32: An instance is told ready only when the hooks of one of its runs were sent one after the other and each was answered with a 2xx status. *)
Theorem ready_means_answered l id msg : (id, "ready", msg) ∈ emitted (after l) ->
  exists n g, table (after l) !! n = Some g /\ inst g = id /\ map fst (calls n l) = hooks g /\ Forall (fun c => 200 <= c.2 <= 299)%Z (calls n l).
Proof.
  intros Hm. destruct (ok_emitted _ _ (after_ok l) id msg Hm) as (n & g & Hg & Hi & _ & Hh & Ha). exists n, g. do 3 (split; [done|]).
  eapply Forall_impl; [exact Ha|]. intros c. unfold success. cbv beta. lia.
Qed.

(** The wait for the port ends, within the budget and one more attempt. *)
Lemma waitTCP_ends dial fuel : forall k now deadline, (forall j, 0 <= (dial j).1 <= 2000)%Z ->
  (now <= deadline + hookTCPInterval)%Z -> (deadline < now + Z.of_nat (pred fuel) * hookTCPInterval)%Z -> 0 < fuel ->
  exists ok t, waitTCP fuel dial k now deadline = Some (ok, t) /\ (now <= t <= deadline + hookTCPInterval + 2000)%Z.
Proof.
  induction fuel as [|fuel IH]; intros k now deadline Hd Hn Hf Hp; [lia|]. cbn [waitTCP]. pose proof (Hd k) as Hk. unfold hookTCPInterval in *.
  destruct (dial k) as [took ok]. cbn in Hk. destruct ok; [eexists _, _; split; [done|lia]|].
  destruct (deadline <? now + took)%Z eqn:Hlt; [eexists _, _; split; [done|lia]|]. apply Z.ltb_ge in Hlt.
  destruct fuel as [|fuel]; [cbn in Hf; lia|].
  destruct (IH (S k) (now + took + 1000)%Z deadline Hd) as (ok & t & He & Ht); [lia..|]. exists ok, t. split; [done|lia].
Qed.

(** When a dial takes at most its two seconds, the wait for the port ends within the budget, one more interval and one more dial. *)
Theorem waitTCP_terminates dial now : (forall j, 0 <= (dial j).1 <= 2000)%Z ->
  exists ok t, waitTCP 122 dial 0 now (now + hookTCPWait) = Some (ok, t) /\ (t <= now + hookTCPWait + hookTCPInterval + 2000)%Z.
Proof.
  intros Hd. destruct (waitTCP_ends dial 122 0 now (now + hookTCPWait) Hd) as (ok & t & He & Ht); unfold hookTCPWait, hookTCPInterval in *; [lia..|].
  exists ok, t. split; [done|lia].
Qed.

(** ** Instances *)
Definition demo_hook (u : string) : PostStartHook := MkPostStartHook (Some (MkPostStartHTTP "GET" u "" "" 0)).

Example hookAddr_plain : hookAddr "http://127.0.0.1:11434/api/pull" = "127.0.0.1:11434". Proof. vm_compute. reflexivity. Qed.
Example hookAddr_six : hookAddr "http://[::1]/x" = "[::1]:80". Proof. vm_compute. reflexivity. Qed.

(** A run that has decided on success is not stopped by the next start: its
    ready comes after the new run's starting. *)
Example stale_ready : let l := rev [Start "a" []; Turn 0 Connected 1; Turn 0 Connected 2; Start "a" [demo_hook "http://127.0.0.1:1/"]; Turn 1 Connected 3; Turn 0 Connected 4] in
  let r := after l in
  runs r !! "a" = Some 1 /\ emitted r = [("a", "ready", ""); ("a", "starting", ""); ("a", "starting", "")].
Proof. vm_compute. done. Qed.

Definition demo_h1 : PostStartHook := demo_hook "http://127.0.0.1:11434/api/pull".
Definition demo_events : list event := rev [Start "a" [demo_h1]; Turn 0 Connected 1; Turn 0 Connected 2; Start "a" [demo_h1]; Turn 0 (CallFailed "context canceled") 3; Turn 1 Connected 4; Turn 1 Connected 5; Turn 1 (Status 204) 6; Turn 1 Connected 7; Turn 1 Connected 8].

Lemma hooks_exclusive_witness : exists g, table (after (drop 4 demo_events)) !! 1 = Some g /\ running (record_ g) = true /\ cancelled (record_ g) = false /\
  forall n g', table (after (drop 4 demo_events)) !! n = Some g' -> inst g' = inst g -> running (record_ g') = true -> cancelled (record_ g') = false -> n = 1.
Proof.
  eexists. split; [vm_compute; reflexivity|]. split; [reflexivity|]. split; [reflexivity|]. intros n g' Hg Hi Hr Hc.
  eapply (hooks_exclusive (drop 4 demo_events)); [exact Hg|vm_compute; reflexivity|exact Hi|exact Hr|reflexivity|exact Hc|reflexivity].
Defined.

Lemma ready_means_answered_witness : ("a", "ready", "") ∈ emitted (after demo_events) /\
  exists n g, table (after demo_events) !! n = Some g /\ inst g = "a" /\ map fst (calls n demo_events) = hooks g /\ Forall (fun c => 200 <= c.2 <= 299)%Z (calls n demo_events).
Proof.
  assert (H : ("a", "ready", "") ∈ emitted (after demo_events)) by (vm_compute; left). split; [exact H|]. exact (ready_means_answered _ _ _ H).
Defined.

Lemma waitTCP_terminates_witness : (forall j : nat, 0 <= ((fun _ : nat => (2000, false)) j).1 <= 2000)%Z /\
  exists ok t, waitTCP 122 (fun _ => (2000, false)%Z) 0 7 (7 + hookTCPWait) = Some (ok, t) /\ (t <= 7 + hookTCPWait + hookTCPInterval + 2000)%Z.
Proof. split; [intros; cbn; lia|]. apply (waitTCP_terminates (fun _ => (2000, false)%Z) 7). intros; cbn; lia. Defined.
