(* ===== verification/Darwin.v ===== *)
(** * The macOS system driver: internal/runtime/system/driver_darwin.go

    Host services run as launch agents of the user: a pinned binary, a property
    list and launchd.  The machine is the files the driver can reach (contents
    and the executable bit), the directories that [MkdirAll] makes, launchd, the
    commands run and the hook runner of [HookRunner].  What the network, tar,
    the disk and launchctl answer is the class [Mac].  The directories of an
    archive (they are below the directory of binaries), links and other mode
    bits are not represented. *)

From S2P Require Import Prelude Host GoStrings GoUrl Utf8 SystemSpec HookRunner.
From S2P Require Linux.

(** ** The surroundings *)
Inductive tar_kind := TarDir | TarReg | TarOther.
Record tar_entry := MkEntry { e_name : string; e_kind : tar_kind; e_exec : bool; e_content : string; e_broken : option string }.

Notation disk := (gmap string (string * bool)).

Class Mac := {
  launchd : Type;
  launchctl : list string -> disk -> launchd -> string * option string * launchd;   (* output, error *)
  respond : string -> Linux.reply;
  sha256 : string -> string;
  untar : string -> res string (list tar_entry * option string);
  failing : string -> string -> option string;      (* a call on a path *)
  undeletable : string -> bool
}.

(** ** Paths *)
Record Driver := MkDriver { binDir : string; dataDir : string; agentDir : string; logDir : string; uid : Z }.

Definition envOr (getenv : string -> string) (key def : string) : string := if bool_decide (getenv key = "") then def else getenv key.
Definition New (getenv : string -> string) (home : string) (user : Z) : Driver :=
  let base := envOr getenv "OBACHT_HOST_BASE_DIR" (Join2 home "Library/Application Support/obacht/host") in
  MkDriver (Join2 base "bin") (Join2 base "data") (envOr getenv "OBACHT_LAUNCHAGENTS_DIR" (Join2 home "Library/LaunchAgents"))
    (envOr getenv "OBACHT_HOST_LOG_DIR" (Join2 home "Library/Logs/obacht")) user.

Definition labelPrefix : string := "dev.obacht.hostsvc.".
Definition labelByte (c : ascii) : bool := is_alnum c || mem_byte c "._-".
(** [instanceIDSanitizeRe]: every other rune becomes a dash. *)
Fixpoint sanitize (skip : nat) (s : string) : string :=
  match s with
  | "" => ""
  | String a s' =>
      match skip with
      | S k => sanitize k s'
      | O => if labelByte a then String a (sanitize 0 s')
             else String "-" (sanitize (match decode_rune s with Some (_, w) => w - 1 | None => 0 end) s')
      end
  end.
Definition hostLabel (instanceID : string) : string := labelPrefix +:+ sanitize 0 instanceID.

(** ** The property list *)
Definition quoted (s : string) : string := replace_all s "'" (str1 "034").
Definition line (s : string) : string := s +:+ str1 LF.
Definition xml_byte (c : ascii) : string :=
  if Ascii.eqb c "&" then "&amp;" else if Ascii.eqb c "<" then "&lt;" else if Ascii.eqb c ">" then "&gt;"
  else if Ascii.eqb c "034" then "&quot;" else if Ascii.eqb c "'" then "&apos;" else str1 c.
Fixpoint xmlEscape (s : string) : string := match s with "" => "" | String a s => xml_byte a +:+ xmlEscape s end.

Fixpoint catmap {A} (f : A -> string) (l : list A) : string := match l with [] => "" | a :: l => f a +:+ catmap f l end.
Definition string_line (a : string) : string := line ("    <string>" +:+ xmlEscape a +:+ "</string>").
Definition key_line (indent k : string) (v : string) : string := line (indent +:+ "<key>" +:+ k +:+ "</key>" +:+ v).
Definition string_elem (v : string) : string := "<string>" +:+ xmlEscape v +:+ "</string>".
Definition env_keys (env : gmap string string) : list string := sort_strings (map_to_list env).*1.
Definition env_line (env : gmap string string) (k : string) : string := key_line "    " (xmlEscape k) (string_elem (default "" (env !! k))).

Definition renderPlist (label binary : string) (args : list string) (env : gmap string string) (logDir : string) : string :=
  line (quoted "<?xml version='1.0' encoding='UTF-8'?>") +:+
  line (quoted "<!DOCTYPE plist PUBLIC '-//Apple//DTD PLIST 1.0//EN' 'http://www.apple.com/DTDs/PropertyList-1.0.dtd'>") +:+
  line (quoted "<plist version='1.0'>") +:+ line "<dict>" +:+
  key_line "  " "Label" (string_elem label) +:+
  line "  <key>ProgramArguments</key>" +:+ line "  <array>" +:+
  string_line binary +:+ catmap string_line args +:+
  line "  </array>" +:+
  (if bool_decide (env = ∅) then "" else
   line "  <key>EnvironmentVariables</key>" +:+ line "  <dict>" +:+ catmap (env_line env) (env_keys env) +:+ line "  </dict>") +:+
  key_line "  " "RunAtLoad" "<true/>" +:+
  key_line "  " "KeepAlive" "<true/>" +:+
  key_line "  " "StandardOutPath" (string_elem (Join2 logDir (label +:+ ".out.log"))) +:+
  key_line "  " "StandardErrorPath" (string_elem (Join2 logDir (label +:+ ".err.log"))) +:+
  line "</dict>" +:+ line "</plist>".

(** ** The machine *)
Inductive mac_error :=
| Required | SpecError (e : spec_error) | Io (what t : string) | TooManyRedirects | HttpStatus (st : Z) | DigestMismatch
| Escapes (name : string) | NoBinary | Launchctl (args : list string) (t : string).

Section driver.
Context {mac : Mac}.

Record machine := MkMachine { files : disk; dirs : gset string; daemon : launchd; commands : list (list string); hooks_ : hookRunner }.
Definition set_files (f : disk -> disk) (m : machine) : machine := MkMachine (f (files m)) (dirs m) (daemon m) (commands m) (hooks_ m).
Definition set_dirs (f : gset string -> gset string) (m : machine) : machine := MkMachine (files m) (f (dirs m)) (daemon m) (commands m) (hooks_ m).
Definition set_hooks (f : hookRunner -> hookRunner) (m : machine) : machine := MkMachine (files m) (dirs m) (daemon m) (commands m) (f (hooks_ m)).

Notation P A := (prog mac_error machine A).
Definition or_stop (b : bool) (e : mac_error) : P unit := if b then hfail e else hret tt.
Definition call (what p : string) : P unit := match failing what p with Some t => hfail (Io what t) | None => hret tt end.
Definition lift {A} (x : res mac_error A) : P A := fun m => (x, m).

(** [os.MkdirAll]: the directory and what leads to it, from the top, but for
    those that are there. *)
Definition leading (p : string) : list string :=
  let segs := filter (fun x => x <> "") (split_on "/" p) in
  map (fun n => Clean ((if has_prefix p "/" then "/" else "") +:+ join "/" (take n segs))) (seq 1 (length segs - 1)) ++ [Clean p].
Definition mkdir (q : string) : P unit := fun m =>
  if decide (q ∈ dirs m) then (Ok tt, m) else (call "mkdir" q ;;; (fun m => (Ok tt, set_dirs (fun ds => {[q]} ∪ ds) m))) m.
Definition mkdirAll (p : string) : P unit := fun m => if decide (Clean p ∈ dirs m) then (Ok tt, m) else hfor mkdir (leading p) m.

(** [os.Remove], [os.RemoveAll] and [os.Rename]; a failed removal is ignored everywhere. *)
Definition unlink (p : string) : P unit := fun m => (Ok tt, if undeletable p then m else set_files (delete p) m).
Definition removeAll (dir : string) : P unit := fun m =>
  (Ok tt, set_files (fun fs => filter (fun e : string * (string * bool) => Linux.in_dir dir e.1 = false \/ undeletable e.1 = true) fs) m).
Definition move (a b : string) : P unit := fun m =>
  match failing "rename" b, files m !! a with
  | Some t, _ => (Err (Io "rename" t), m)
  | None, None => (Err (Io "rename" "missing"), m)
  | None, Some f => (Ok tt, set_files (fun fs => <[b := f]> (delete a fs)) m)
  end.
(** A directory takes its contents along; nothing is below the target. *)
Definition moved_path (a b p : string) : string := match strip_prefix p a with Some t => b +:+ t | None => p end.
Definition move_dir (a b : string) : P unit := fun m =>
  match failing "rename" b with
  | Some t => (Err (Io "rename" t), m)
  | None => (Ok tt, set_files (fun fs => list_to_map (map (fun e : string * (string * bool) => (if Linux.in_dir a e.1 then moved_path a b e.1 else e.1, e.2)) (map_to_list fs))) m)
  end.
(** An exclusive creation with what is written before the copy ends, well or not. *)
Definition create (p content : string) (exec : bool) : P unit := fun m =>
  match files m !! p with
  | Some _ => (Err (Io "open" "exists"), m)
  | None => (call "create" p ;;; (fun m => (Ok tt, set_files (<[p := (content, exec)]>) m))) m
  end.
(** The removal of [tmp] when the rest fails. *)
Definition or_unlink {A} (tmp : string) (x : P A) : P A := fun m =>
  match x m with (Ok a, m) => (Ok a, m) | (Err e, m) => (Err e, (unlink tmp m).2) end.
Definition or_removeAll {A} (dir : string) (x : P A) : P A := fun m =>
  match x m with (Ok a, m) => (Ok a, m) | (Err e, m) => (Err e, (removeAll dir m).2) end.
(** A deferred removal. *)
Definition then_unlink {A} (p : string) (x : P A) : P A := fun m => let '(r, m) := x m in (r, (unlink p m).2).

Definition isExecutable (p : string) (m : machine) : bool := match files m !! p with Some (_, x) => x | None => false end.
Definition fileSHA256 (p : string) (m : machine) : option string :=
  match failing "read" p, files m !! p with None, Some (c, _) => Some (sha256 c) | _, _ => None end.

(** [writeIfDifferent] *)
Definition writeIfDifferent (p data : string) : P bool := fun m =>
  if bool_decide (failing "read" p = None) && bool_decide (fst <$> files m !! p = Some data) then (Ok false, set_files (alter (fun f => (f.1, false)) p) m) else
  let tmp := p +:+ ".tmp" in
  (unlink tmp ;;; create tmp data false ;;; or_unlink tmp (call "write" tmp ;;; move tmp p) ;;; hret true) m.

(** ** The binary *)

(** Ten addresses at most, wherever they lead. *)
Fixpoint get (hops : nat) (u : string) : list string * res mac_error (Z * string * option string) :=
  match respond u with
  | Linux.NoReply t => ([u], Err (Io "download" t))
  | Linux.Reply st content broken => ([u], Ok (st, content, broken))
  | Linux.Redirect target =>
      match hops with
      | O => ([u], Err TooManyRedirects)
      | S hops => let '(asked, r) := get hops target in (u :: asked, r)
      end
  end.

Definition download (url dest wantHex : string) (exec : bool) : P unit :=
  do! answer := lift (get 9 url).2 in
  let '(st, content, broken) := answer in
  or_stop (negb (st =? 200)%Z) (HttpStatus st) ;;;
  let tmp := dest +:+ ".tmp" in
  unlink tmp ;;;
  create tmp content exec ;;;
  or_unlink tmp (
    match broken with Some t => hfail (Io "copy" t) | None => hret tt end ;;;
    call "write" tmp ;;;
    or_stop (negb (bool_decide (sha256 content = wantHex))) DigestMismatch ;;;
    move tmp dest).

(** One entry of the archive, below [tmpDir]. *)
Definition entry (tmpDir : string) (e : tar_entry) : P unit :=
  let clean := Clean (e_name e) in
  if bool_decide (clean = ".") || IsAbs clean || has_prefix clean ".." then hret tt else
  let target := Join2 tmpDir clean in
  or_stop (negb (Linux.withinDir tmpDir target)) (Escapes (e_name e)) ;;;
  match e_kind e with
  | TarDir => call "mkdir" target
  | TarReg => call "mkdir" (GoUrl.Dir target) ;;; create target (e_content e) (e_exec e) ;;;
              match e_broken e with Some t => hfail (Io "copy" t) | None => hret tt end
  | TarOther => hret tt
  end.

Definition extractTarGz (archive destDir : string) : P unit :=
  match untar archive with
  | Err t => hfail (Io "gzip" t)
  | Ok (entries, err) =>
      let tmpDir := destDir +:+ ".extract.tmp" in
      removeAll tmpDir ;;;
      call "mkdir" tmpDir ;;;
      or_removeAll tmpDir (hfor (entry tmpDir) entries ;;; match err with Some t => hfail (Io "tar" t) | None => hret tt end) ;;;
      removeAll destDir ;;;
      or_removeAll tmpDir (move_dir tmpDir destDir)
  end.

Definition read_file (p : string) : P string := fun m =>
  match failing "open" p, files m !! p with
  | Some t, _ => (Err (Io "open" t), m)
  | None, None => (Err (Io "open" "missing"), m)
  | None, Some (c, _) => (Ok c, m)
  end.

Definition ensureBinary (d : Driver) (hs : HostServiceSpec) : P string :=
  mkdirAll (binDir d) ;;;
  let want := trim_prefix (h_BinaryDigest hs) "sha256:" in
  if bool_decide (h_Archive hs = "tgz") then
    let extractDir := Join2 (binDir d) (h_Binary hs +:+ "-" +:+ stake 16 want) in
    let binPath := Join2 extractDir (h_Binary hs) in
    fun m => if isExecutable binPath m then (Ok binPath, m) else
      let tgz := Join2 (binDir d) ("." +:+ stake 16 want +:+ ".tgz") in
      (download (h_BinaryURL hs) tgz want false ;;;
       then_unlink tgz (
         do! archive := read_file tgz in
         extractTarGz archive extractDir ;;;
         (fun m => or_stop (negb (isExecutable binPath m)) NoBinary m) ;;;
         hret binPath)) m
  else
    let path := Join2 (binDir d) (h_Binary hs) in
    fun m => if bool_decide (fileSHA256 path m = Some want) then (Ok path, m) else (download (h_BinaryURL hs) path want true ;;; hret path) m.

(** ** launchd *)
Definition launchctlOutput (args : list string) (m : machine) : string * option string * machine :=
  let '(out, err, d) := launchctl args (files m) (daemon m) in (out, err, MkMachine (files m) (dirs m) d (args :: commands m) (hooks_ m)).
Definition runLaunchctl (args : list string) : P unit := fun m =>
  let '(_, err, m) := launchctlOutput args m in (match err with Some t => Err (Launchctl args t) | None => Ok tt end, m).
(** A command whose failure is ignored. *)
Definition tryLaunchctl (args : list string) : P unit := fun m => (Ok tt, (runLaunchctl args m).2).

Definition plistPath (d : Driver) (label : string) : string := Join2 (agentDir d) (label +:+ ".plist").
Definition guiDomain (d : Driver) : string := "gui/" +:+ itoa (uid d).
Definition service (d : Driver) (label : string) : string := guiDomain d +:+ "/" +:+ label.

Definition Status (d : Driver) (unitName : string) : P string := fun m =>
  if bool_decide (unitName = "") then (Ok "", m) else
  let '(out, err, m) := launchctlOutput ["print"; service d unitName] m in
  (Ok (match err with Some _ => "" | None => if contains out "state = running" then "active" else "inactive" end), m).

(** [load]: whether the service was started. *)
Definition load (d : Driver) (label : string) (changed : bool) : P bool :=
  let svc := service d label in
  let bootstrap := runLaunchctl ["bootstrap"; guiDomain d; plistPath d label] in
  if changed then tryLaunchctl ["bootout"; svc] ;;; bootstrap ;;; runLaunchctl ["kickstart"; "-k"; svc] ;;; hret true else
  do! st := Status d label in
  (if bool_decide (st = "") then bootstrap else hret tt) ;;;
  tryLaunchctl ["kickstart"; svc] ;;;
  hret (bool_decide (st = "")).

(** ** The driver *)
Definition run_hooks (now : Z) (instanceID : string) (hs : list PostStartHook) (restarted : bool) : P unit := fun m =>
  (Ok tt, if negb (bool_decide (hs = [])) && shouldRun instanceID restarted now (hooks_ m) then set_hooks (start instanceID hs) m else m).

Definition instance_data (d : Driver) (instanceID : string) (hs : HostServiceSpec) : string :=
  if bool_decide (h_DataDir hs = "") then Join2 (dataDir d) (hostLabel instanceID) else h_DataDir hs.
Definition instance_plist (d : Driver) (instanceID binPath : string) (hs : HostServiceSpec) : string :=
  let '(args, env) := expandHostData hs (instance_data d instanceID hs) in
  renderPlist (hostLabel instanceID) binPath args env (logDir d).

Definition Apply (d : Driver) (now : Z) (instanceID : string) (spec : Spec) : P unit :=
  match HostService spec with
  | None => hfail Required
  | Some hs =>
      or_stop (bool_decide (instanceID = "")) Required ;;;
      lift (match Validate spec with Ok _ => Ok tt | Err e => Err (SpecError e) end) ;;;
      do! binPath := ensureBinary d hs in
      hfor mkdirAll [agentDir d; logDir d; instance_data d instanceID hs] ;;;
      do! changed := writeIfDifferent (plistPath d (hostLabel instanceID)) (instance_plist d instanceID binPath hs) in
      do! restarted := load d (hostLabel instanceID) changed in
      run_hooks now instanceID (h_PostStart hs) restarted
  end.

Definition Remove (d : Driver) (instanceID : string) : P unit :=
  if bool_decide (instanceID = "") then hret tt else
  let label := hostLabel instanceID in
  (fun m => (Ok tt, set_hooks (cancel instanceID) m)) ;;;
  tryLaunchctl ["bootout"; service d label] ;;;
  unlink (plistPath d label).

(** The names of the files of a directory, in order. *)
Definition names_in (dir : string) (m : machine) : list string :=
  sort_strings (omap (fun p => match strip_prefix p (dir +:+ "/") with Some n => if mem_byte "/" n then None else Some n | None => None end) (map_to_list (files m)).*1).
Definition collect (d : Driver) (keepLabels : list string) (name : string) : P unit :=
  if negb (has_prefix name labelPrefix) || negb (has_suffix name ".plist") then hret tt else
  let label := trim_suffix name ".plist" in
  if inl label keepLabels then hret tt else
  tryLaunchctl ["bootout"; service d label] ;;;
  unlink (Join2 (agentDir d) name).
Definition GarbageCollect (d : Driver) (keep : list string) : P unit := fun m =>
  match failing "readdir" (agentDir d) with
  | Some _ => (Ok tt, m)
  | None => hfor (collect d (map hostLabel keep)) (names_in (agentDir d) m) m
  end.
End driver.

(** ** The launch agents of launchctl's listing: services_darwin.go *)
Definition service_row (l : string) : option (string * string) :=
  let fs := fields l in
  if (length fs <? 3)%nat then None else
  let pid := List.hd "" fs in
  let label := List.last fs "" in
  if negb (has_prefix label labelPrefix) then None else
  Some (label, if negb (bool_decide (pid = "-")) && negb (bool_decide (pid = "0")) then "active" else "inactive").
Definition listCustomServices (answer : string * option string) : list (string * string) :=
  match answer.2 with Some _ => [] | None => omap service_row (split_on LF answer.1) end.
