(* ===== verification/DarwinProps.v ===== *)
(** * What the macOS driver guarantees

    The property list says what the specification says, whatever its strings
    hold; the driver touches its own files only; a service that runs unchanged
    is not restarted; the program of a raw binary has the pinned digest; the
    collection of orphans removes exactly the agents of unknown instances. *)

From S2P Require Import Prelude Host GoStrings GoUrl Utf8 SystemSpec HookRunner Darwin.
From S2P Require Linux LinuxProps.

(** ** A reader of property lists *)

(** Entities. *)
Definition entities : list (string * string) := [("&amp;", "&"); ("&lt;", "<"); ("&gt;", ">"); ("&quot;", str1 "034"); ("&apos;", "'")].
Fixpoint entity (l : list (string * string)) (s : string) : option (string * nat) :=
  match l with [] => None | (e, c) :: l => if has_prefix s e then Some (c, slen e) else entity l s end.
Fixpoint unescape (skip : nat) (s : string) : string :=
  match s with
  | "" => ""
  | String a s' => match skip with
                   | S k => unescape k s'
                   | O => match entity entities s with Some (c, n) => c +:+ unescape (n - 1) s' | None => String a (unescape 0 s') end
                   end
  end.

(** The tags of a text, each with the text before it. *)
Fixpoint markup (text : option string) (acc s : string) : list (string * string) :=
  match s with
  | "" => []
  | String a s =>
      match text with
      | None => if Ascii.eqb a "<" then markup (Some (unescape 0 acc)) "" s else markup None (acc +:+ str1 a) s
      | Some t => if Ascii.eqb a ">" then (t, acc) :: markup None "" s else markup text (acc +:+ str1 a) s
      end
  end.

Inductive plist := PString (s : string) | PTrue | PArray (l : list plist) | PDict (l : list (string * plist)).

(** Values; the items of an array and the entries of a dictionary up to their end. *)
Fixpoint value (fuel : nat) (ts : list (string * string)) : option (plist * list (string * string)) :=
  match fuel with
  | O => None
  | S fuel =>
      match ts with
      | (_, t) :: ts =>
          if bool_decide (t = "true/") then Some (PTrue, ts) else
          if bool_decide (t = "string") then match ts with (s, e) :: ts => if bool_decide (e = "/string") then Some (PString s, ts) else None | [] => None end else
          if bool_decide (t = "array") then match items fuel ts with Some (l, ts) => Some (PArray l, ts) | None => None end else
          if bool_decide (t = "dict") then match entries fuel ts with Some (l, ts) => Some (PDict l, ts) | None => None end else None
      | [] => None
      end
  end
with items (fuel : nat) (ts : list (string * string)) : option (list plist * list (string * string)) :=
  match fuel with
  | O => None
  | S fuel =>
      match ts with
      | (_, t) :: ts' => if bool_decide (t = "/array") then Some ([], ts') else
          match value fuel ts with
          | Some (v, ts) => match items fuel ts with Some (l, ts) => Some (v :: l, ts) | None => None end
          | None => None
          end
      | [] => None
      end
  end
with entries (fuel : nat) (ts : list (string * string)) : option (list (string * plist) * list (string * string)) :=
  match fuel with
  | O => None
  | S fuel =>
      match ts with
      | (_, t) :: ts' => if bool_decide (t = "/dict") then Some ([], ts') else
          if negb (bool_decide (t = "key")) then None else
          match ts' with
          | (k, e) :: ts => if negb (bool_decide (e = "/key")) then None else
              match value fuel ts with
              | Some (v, ts) => match entries fuel ts with Some (l, ts) => Some ((k, v) :: l, ts) | None => None end
              | None => None
              end
          | [] => None
          end
      | [] => None
      end
  end.

(** A whole document: declaration, document type, the plist element. *)
Definition read_plist (s : string) : option plist :=
  match markup None "" s with
  | _ :: _ :: (_, t) :: ts =>
      if has_prefix t "plist " then match value (length ts) ts with Some (v, [(_, e)]) => if bool_decide (e = "/plist") then Some v else None | _ => None end else None
  | _ => None
  end.

(** *** Tags and texts *)

Lemma xml_byte_inert a : mem_byte "<" (xml_byte a) = false.
Proof.
  unfold xml_byte. destruct (Ascii.eqb a "&"), (Ascii.eqb a "<") eqn:H1, (Ascii.eqb a ">"), (Ascii.eqb a "034"), (Ascii.eqb a "'"); try done.
  all: cbn [str1 mem_byte]; by rewrite H1.
Qed.
Lemma xmlEscape_inert s : mem_byte "<" (xmlEscape s) = false.
Proof. induction s as [|a s IH]; [done|]. cbn [xmlEscape]. by rewrite mem_byte_app, xml_byte_inert, IH. Qed.

Lemma unescape_skip k s : unescape k s = unescape 0 (sdrop k s).
Proof. revert k. induction s as [|a s IH]; intros [|k]; try done. cbn [unescape sdrop]. apply IH. Qed.

Lemma unescape_plain a s : Ascii.eqb a "&" = false -> unescape 0 (String a s) = String a (unescape 0 s).
Proof.
  intros Ha. assert (Hp : forall e, has_prefix (String a s) (String "&" e) = false).
  { intros e. change (Ascii.eqb a "&" && has_prefix s e = false). by rewrite Ha. }
  cbn [unescape]. unfold entities. cbn [entity]. by rewrite !Hp.
Qed.

Lemma unescape_escape s t : unescape 0 (xmlEscape s +:+ t) = s +:+ unescape 0 t.
Proof.
  induction s as [|a s IH]; [done|]. cbn [xmlEscape]. rewrite sapp_assoc, sapp_cons, <- IH. generalize (xmlEscape s +:+ t) as r. intros r. unfold xml_byte.
  destruct (Ascii.eqb_spec a "&") as [->|Hamp]; [by destruct r|]. destruct (Ascii.eqb_spec a "<") as [->|]; [by destruct r|].
  destruct (Ascii.eqb_spec a ">") as [->|]; [by destruct r|]. destruct (Ascii.eqb_spec a "034") as [->|]; [by destruct r|].
  destruct (Ascii.eqb_spec a "'") as [->|]; [by destruct r|].
  apply unescape_plain. by apply Ascii.eqb_neq.
Qed.

(** The text up to a tag, and the tag. *)
Lemma markup_text x acc s : mem_byte "<" x = false -> markup None acc (x +:+ String "<" s) = markup (Some (unescape 0 (acc +:+ x))) "" s.
Proof.
  revert acc. induction x as [|a x IH]; intros acc Hx; [by rewrite sapp_nil_r|]. cbn [mem_byte] in Hx. apply orb_false_iff in Hx as [Ha Hx].
  rewrite sapp_cons. cbn [markup]. rewrite Ha, IH by done. by rewrite sapp_assoc.
Qed.
Lemma markup_tag t x acc s : mem_byte ">" x = false -> markup (Some t) acc (x +:+ String ">" s) = (t, acc +:+ x) :: markup None "" s.
Proof.
  revert acc. induction x as [|a x IH]; intros acc Hx; [by rewrite sapp_nil_r|]. cbn [mem_byte] in Hx. apply orb_false_iff in Hx as [Ha Hx].
  rewrite sapp_cons. cbn [markup]. rewrite Ha, IH by done. by rewrite sapp_assoc.
Qed.

Definition tagged (text tag : string) : string := text +:+ String "<" (tag +:+ ">").
Lemma markup_tagged text tag s : mem_byte "<" text = false -> mem_byte ">" tag = false ->
  markup None "" (tagged text tag +:+ s) = (unescape 0 text, tag) :: markup None "" s.
Proof. intros Ht Hg. unfold tagged. rewrite sapp_assoc, sapp_cons, sapp_assoc. rewrite markup_text by done. by rewrite (markup_tag _ tag "" s). Qed.

Lemma unescape_xml s : unescape 0 (xmlEscape s) = s.
Proof. pose proof (unescape_escape s "") as H. by rewrite !sapp_nil_r in H. Qed.
Lemma markup_escaped s tag r : mem_byte ">" tag = false ->
  markup None "" (xmlEscape s +:+ String "<" (tag +:+ String ">" r)) = (s, tag) :: markup None "" r.
Proof.
  intros Hg. pose proof (markup_tagged (xmlEscape s) tag r (xmlEscape_inert s) Hg) as H. unfold tagged in H. rewrite unescape_xml in H.
  rewrite <- H, !sapp_assoc, sapp_cons, sapp_assoc. done.
Qed.

(** *** The tags of a rendered list *)
Definition nl (indent : string) : string := String LF indent.
Definition string_tags (indent s : string) : list (string * string) := [(indent, "string"); (s, "/string")].
Definition key_tags (indent k : string) : list (string * string) := [(indent, "key"); (k, "/key")].
Definition arg_tags (args : list string) : list (string * string) := concat (map (string_tags (nl "    ")) args).
Definition env_tags (env : gmap string string) (ks : list string) : list (string * string) :=
  concat (map (fun k => key_tags (nl "    ") k ++ string_tags "" (default "" (env !! k))) ks).

Lemma tags_string_line a r : markup None (str1 LF) (string_line a +:+ r) = string_tags (nl "    ") a ++ markup None (str1 LF) r.
Proof.
  unfold string_line, line. rewrite !sapp_assoc.
  transitivity ((nl "    ", "string") :: markup None "" (xmlEscape a +:+ String "<" ("/string" +:+ String ">" (String LF r)))); [reflexivity|].
  by rewrite markup_escaped.
Qed.
Lemma tags_args args r : markup None (str1 LF) (catmap string_line args +:+ r) = arg_tags args ++ markup None (str1 LF) r.
Proof. induction args as [|a args IH]; [done|]. cbn [catmap]. rewrite sapp_assoc, tags_string_line, IH. done. Qed.

Lemma tags_env_line env k r : markup None (str1 LF) (env_line env k +:+ r) = (key_tags (nl "    ") k ++ string_tags "" (default "" (env !! k))) ++ markup None (str1 LF) r.
Proof.
  unfold env_line, key_line, string_elem, line. rewrite !sapp_assoc. generalize (default "" (env !! k)) as v. intros v.
  transitivity ((nl "    ", "key") :: markup None "" (xmlEscape k +:+ String "<" ("/key" +:+ String ">" ("<string>" +:+ xmlEscape v +:+ "</string>" +:+ str1 LF +:+ r)))); [reflexivity|].
  rewrite markup_escaped by done.
  transitivity ((nl "    ", "key") :: (k, "/key") :: ("", "string") :: markup None "" (xmlEscape v +:+ String "<" ("/string" +:+ String ">" (String LF r)))); [reflexivity|].
  by rewrite markup_escaped.
Qed.
Lemma tags_env env ks r : markup None (str1 LF) (catmap (env_line env) ks +:+ r) = env_tags env ks ++ markup None (str1 LF) r.
Proof. induction ks as [|k ks IH]; [done|]. cbn [catmap]. rewrite sapp_assoc, tags_env_line, IH. reflexivity. Qed.

Lemma tags_key_line k v r : mem_byte "<" k = false -> mem_byte "&" k = false ->
  markup None (str1 LF) (key_line "  " k (string_elem v) +:+ r) = (nl "  ", "key") :: (unescape 0 k, "/key") :: ("", "string") :: (v, "/string") :: markup None (str1 LF) r.
Proof.
  intros Hk _. unfold key_line, string_elem, line. rewrite !sapp_assoc.
  transitivity ((nl "  ", "key") :: markup None "" (k +:+ String "<" ("/key" +:+ String ">" ("<string>" +:+ xmlEscape v +:+ "</string>" +:+ str1 LF +:+ r)))); [reflexivity|].
  rewrite markup_text by done.
  transitivity ((nl "  ", "key") :: (unescape 0 k, "/key") :: ("", "string") :: markup None "" (xmlEscape v +:+ String "<" ("/string" +:+ String ">" (String LF r)))); [reflexivity|].
  by rewrite markup_escaped.
Qed.

Lemma tags_env_part env r : markup None (str1 LF) ((if bool_decide (env = ∅) then "" else
   line "  <key>EnvironmentVariables</key>" +:+ line "  <dict>" +:+ catmap (env_line env) (env_keys env) +:+ line "  </dict>") +:+ r) =
  (if bool_decide (env = ∅) then [] else key_tags (nl "  ") "EnvironmentVariables" ++ (nl "  ", "dict") :: env_tags env (env_keys env) ++ [(nl "  ", "/dict")]) ++ markup None (str1 LF) r.
Proof.
  case_bool_decide as He; [done|]. rewrite !sapp_assoc.
  transitivity ((nl "  ", "key") :: ("EnvironmentVariables", "/key") :: (nl "  ", "dict") :: markup None (str1 LF) (catmap (env_line env) (env_keys env) +:+ line "  </dict>" +:+ r)); [reflexivity|].
  rewrite tags_env. unfold key_tags. cbn [app]. do 3 f_equal. rewrite <- app_assoc. reflexivity.
Qed.

(** *** Reading them *)
Section reading.
Context (x y : string) (f : nat) (ts : list (string * string)).
Lemma value_string s : value (S f) ((x, "string") :: (s, "/string") :: ts) = Some (PString s, ts).
Proof. reflexivity. Qed.
Lemma value_true : value (S f) ((x, "true/") :: ts) = Some (PTrue, ts).
Proof. reflexivity. Qed.
Lemma value_array : value (S f) ((x, "array") :: ts) = match items f ts with Some (l, ts) => Some (PArray l, ts) | None => None end.
Proof. reflexivity. Qed.
Lemma value_dict : value (S f) ((x, "dict") :: ts) = match entries f ts with Some (l, ts) => Some (PDict l, ts) | None => None end.
Proof. reflexivity. Qed.
Lemma items_end : items (S f) ((x, "/array") :: ts) = Some ([], ts).
Proof. reflexivity. Qed.
Lemma items_string s : items (S (S f)) ((x, "string") :: (s, "/string") :: ts) = match items (S f) ts with Some (l, ts) => Some (PString s :: l, ts) | None => None end.
Proof. reflexivity. Qed.
Lemma entries_end : entries (S f) ((x, "/dict") :: ts) = Some ([], ts).
Proof. reflexivity. Qed.
Lemma entries_key k : entries (S f) ((x, "key") :: (k, "/key") :: ts) =
  match value f ts with Some (v, ts) => match entries f ts with Some (l, ts) => Some ((k, v) :: l, ts) | None => None end | None => None end.
Proof. reflexivity. Qed.
End reading.

Lemma items_args args f x ts : items (S (S (length args + f))) (arg_tags args ++ (x, "/array") :: ts) = Some (map PString args, ts).
Proof. induction args as [|a args IH]; [done|]. change (arg_tags (a :: args)) with (string_tags (nl "    ") a ++ arg_tags args). cbn [app string_tags length Nat.add]. by rewrite items_string, IH. Qed.

Definition env_dict (env : gmap string string) (ks : list string) : list (string * plist) := map (fun k => (k, PString (default "" (env !! k)))) ks.
Lemma entries_env env ks f x ts : entries (S (S (length ks + f))) (env_tags env ks ++ (x, "/dict") :: ts) = Some (env_dict env ks, ts).
Proof.
  induction ks as [|k ks IH]; [done|].
  change (env_tags env (k :: ks)) with ((key_tags (nl "    ") k ++ string_tags "" (default "" (env !! k))) ++ env_tags env ks).
  cbn [app key_tags string_tags length Nat.add]. by rewrite entries_key, value_string, IH.
Qed.

(** What launchd reads. *)
Definition agent_dict (label binary : string) (args : list string) (env : gmap string string) (logDir : string) : plist :=
  PDict ([("Label", PString label); ("ProgramArguments", PArray (map PString (binary :: args)))] ++
         (if bool_decide (env = ∅) then [] else [("EnvironmentVariables", PDict (env_dict env (env_keys env)))]) ++
         [("RunAtLoad", PTrue); ("KeepAlive", PTrue); ("StandardOutPath", PString (Join2 logDir (label +:+ ".out.log")));
          ("StandardErrorPath", PString (Join2 logDir (label +:+ ".err.log")))]).

Definition env_part (env : gmap string string) : list (string * string) :=
  if bool_decide (env = ∅) then [] else key_tags (nl "  ") "EnvironmentVariables" ++ (nl "  ", "dict") :: env_tags env (env_keys env) ++ [(nl "  ", "/dict")].
Definition agent_tags (label binary : string) (args : list string) (env : gmap string string) (out err : string) : list (string * string) :=
  (nl "", "dict") :: key_tags (nl "  ") "Label" ++ string_tags "" label ++ key_tags (nl "  ") "ProgramArguments" ++ (nl "  ", "array") ::
  arg_tags (binary :: args) ++ (nl "  ", "/array") :: env_part env ++
  key_tags (nl "  ") "RunAtLoad" ++ ("", "true/") :: key_tags (nl "  ") "KeepAlive" ++ ("", "true/") ::
  key_tags (nl "  ") "StandardOutPath" ++ string_tags "" out ++ key_tags (nl "  ") "StandardErrorPath" ++ string_tags "" err ++ [(nl "", "/dict"); (nl "", "/plist")].

Lemma tags_plist label binary args env logDir : exists a b c,
  markup None "" (renderPlist label binary args env logDir) =
  a :: b :: (c, quoted "plist version='1.0'") :: agent_tags label binary args env (Join2 logDir (label +:+ ".out.log")) (Join2 logDir (label +:+ ".err.log")).
Proof.
  do 3 eexists. unfold renderPlist. generalize (Join2 logDir (label +:+ ".out.log")), (Join2 logDir (label +:+ ".err.log")). intros out err.
  match goal with |- markup None "" (?l1 +:+ ?l2 +:+ ?l3 +:+ ?l4 +:+ ?r) = _ =>
    transitivity (("", quoted "?xml version='1.0' encoding='UTF-8'?") :: (nl "", quoted "!DOCTYPE plist PUBLIC '-//Apple//DTD PLIST 1.0//EN' 'http://www.apple.com/DTDs/PropertyList-1.0.dtd'") ::
      (nl "", quoted "plist version='1.0'") :: (nl "", "dict") :: markup None (str1 LF) r); [reflexivity|] end.
  rewrite tags_key_line by done. unfold agent_tags.
  match goal with |- context [markup None (str1 LF) (line "  <key>ProgramArguments</key>" +:+ line "  <array>" +:+ ?r)] =>
    replace (markup None (str1 LF) (line "  <key>ProgramArguments</key>" +:+ line "  <array>" +:+ r)) with
      ((nl "  ", "key") :: ("ProgramArguments", "/key") :: (nl "  ", "array") :: markup None (str1 LF) r) by reflexivity end.
  rewrite tags_string_line, tags_args.
  match goal with |- context [markup None (str1 LF) (line "  </array>" +:+ ?r)] =>
    replace (markup None (str1 LF) (line "  </array>" +:+ r)) with ((nl "  ", "/array") :: markup None (str1 LF) r) by reflexivity end.
  rewrite tags_env_part. fold (env_part env).
  match goal with |- context [markup None (str1 LF) (key_line "  " "RunAtLoad" "<true/>" +:+ key_line "  " "KeepAlive" "<true/>" +:+ ?r)] =>
    replace (markup None (str1 LF) (key_line "  " "RunAtLoad" "<true/>" +:+ key_line "  " "KeepAlive" "<true/>" +:+ r)) with
      ((nl "  ", "key") :: ("RunAtLoad", "/key") :: ("", "true/") :: (nl "  ", "key") :: ("KeepAlive", "/key") :: ("", "true/") :: markup None (str1 LF) r) by reflexivity end.
  rewrite !tags_key_line by done. reflexivity.
Qed.

Lemma entries_env_part env f ts : 3 + length (env_keys env) <= f ->
  entries (S f) (env_part env ++ ts) =
  match entries (if bool_decide (env = ∅) then S f else f) ts with
  | Some (l, ts) => Some ((if bool_decide (env = ∅) then [] else [("EnvironmentVariables", PDict (env_dict env (env_keys env)))]) ++ l, ts)
  | None => None
  end.
Proof.
  intros Hf. unfold env_part. case_bool_decide as He; [cbn [app]; destruct (entries (S f) ts) as [[??]|]; done|].
  change (key_tags (nl "  ") "EnvironmentVariables" ++ (nl "  ", "dict") :: env_tags env (env_keys env) ++ [(nl "  ", "/dict")])
    with ((nl "  ", "key") :: ("EnvironmentVariables", "/key") :: (nl "  ", "dict") :: env_tags env (env_keys env) ++ [(nl "  ", "/dict")]).
  cbn [app]. rewrite entries_key. destruct f as [|f]; [lia|]. rewrite value_dict, <- app_assoc. cbn [app].
  replace f with (S (S (length (env_keys env) + (f - 2 - length (env_keys env))))) at 1 by lia. by rewrite entries_env.
Qed.

(** The length of the tags suffices as fuel. *)
Lemma length_tags label binary args env out err :
  15 + length args + (if bool_decide (env = ∅) then 0 else length (env_keys env)) <= length (agent_tags label binary args env out err).
Proof.
  assert (Ha : forall l, length (arg_tags l) = 2 * length l) by (induction l as [|a l IH]; [done|]; change (arg_tags (a :: l)) with (string_tags (nl "    ") a ++ arg_tags l); rewrite length_app, IH; cbn; lia).
  assert (He : forall ks, length ks <= length (env_tags env ks)).
  { induction ks as [|k ks IH]; [done|]. change (env_tags env (k :: ks)) with ((key_tags (nl "    ") k ++ string_tags "" (default "" (env !! k))) ++ env_tags env ks).
    rewrite length_app. cbn. lia. }
  unfold agent_tags, env_part. rewrite !app_comm_cons, !length_app. specialize (He (env_keys env)). specialize (Ha (binary :: args)).
  case_bool_decide; cbn [length key_tags string_tags app] in *; rewrite ?length_app in *; cbn [length] in *; rewrite ?length_app in *; cbn [length] in *; lia.
Qed.

Lemma read_render label binary args env logDir :
  read_plist (renderPlist label binary args env logDir) = Some (agent_dict label binary args env logDir).
Proof.
  destruct (tags_plist label binary args env logDir) as (a & b & c & Ht). unfold read_plist. rewrite Ht. cbn [has_prefix quoted].
  assert (Hk : env = ∅ -> env_keys env = []) by (intros ->; reflexivity).
  pose proof (length_tags label binary args env (Join2 logDir (label +:+ ".out.log")) (Join2 logDir (label +:+ ".err.log"))) as Hl. unfold agent_dict in *.
  revert Hl. generalize (Join2 logDir (label +:+ ".out.log")), (Join2 logDir (label +:+ ".err.log")). intros out err.
  generalize (length (agent_tags label binary args env out err)) as n. intros n Hn.
  assert (Hlen : length (env_keys env) <= n - 15 - length args) by (case_bool_decide; [rewrite Hk by done; cbn; lia|lia]).
  replace n with (12 + (length args + (n - 12 - length args))) by lia. set (f := length args + (n - 12 - length args)).
  change (has_prefix (quoted "plist version='1.0'") "plist ") with true. cbn [Nat.add].
  unfold agent_tags, key_tags, string_tags. cbn [app]. rewrite value_dict, entries_key, value_string, entries_key, value_array.
  replace (S (S (S (S (S (S (S (S f)))))))) with (S (S (length (binary :: args) + (7 + (n - 14 - length args))))) at 1 by (subst f; cbn [length]; lia).
  rewrite items_args, entries_env_part by (subst f; lia).
  destruct (bool_decide (env = ∅)); rewrite entries_key, value_true, entries_key, value_true, entries_key, value_string, entries_key, value_string, entries_end; reflexivity.
Qed.

(** The environment of a dictionary. *)
Lemma elem_env_dict env k v : (k, PString v) ∈ env_dict env (env_keys env) <-> env !! k = Some v.
Proof.
  unfold env_dict, env_keys. rewrite list_elem_of_fmap. setoid_rewrite elem_of_sort_strings. setoid_rewrite list_elem_of_fmap. split.
  - intros (k' & [= -> ->] & (k2 & v2) & -> & He%elem_of_map_to_list). cbn. by rewrite He.
  - intros He. exists k. rewrite He. split; [done|]. exists (k, v). split; [done|]. by apply elem_of_map_to_list.
Qed.
Lemma env_part_inj env env' :
  (if bool_decide (env = ∅) then [] else [("EnvironmentVariables", PDict (env_dict env (env_keys env)))]) =
  (if bool_decide (env' = ∅) then [] else [("EnvironmentVariables", PDict (env_dict env' (env_keys env')))]) -> env = env'.
Proof.
  do 2 case_bool_decide; intros He; try discriminate He; [congruence|]. injection He as He.
  apply map_eq. intros k. apply option_eq. intros v. by rewrite <- !elem_env_dict, He.
Qed.

(** C30: Whatever the label, the program, its arguments, the environment and the log directory hold, a reader of the rendered property list finds exactly them: no value adds a key or an argument. Lists that differ in the label, the program, an argument or the environment are different texts, so a changed specification is noticed. *)
Theorem plist_roundtrip label binary args env logDir :
  read_plist (renderPlist label binary args env logDir) = Some (agent_dict label binary args env logDir) /\
  forall label' binary' args' env', renderPlist label binary args env logDir = renderPlist label' binary' args' env' logDir ->
    label = label' /\ binary = binary' /\ args = args' /\ env = env'.
Proof.
  split; [apply read_render|]. intros label' binary' args' env' Heq. apply (f_equal read_plist) in Heq. rewrite !read_render in Heq. unfold agent_dict in Heq.
  injection Heq as -> -> Ha He. apply app_inv_tail, env_part_inj in He. split_and!; [done..| |done].
  revert Ha. apply list_fmap_eq_inj. by intros ?? [= ->].
Qed.

(** ** Labels *)
Lemma sanitize_label k s : str_all labelByte (sanitize k s) = true.
Proof. revert k. induction s as [|a s IH]; intros [|k]; try done; cbn [sanitize]; [|apply IH]. destruct (labelByte a) eqn:Ha; cbn [str_all]; by rewrite ?Ha, IH. Qed.

Lemma label_bytes id : str_all labelByte (hostLabel id) = true.
Proof. unfold hostLabel. by rewrite str_all_app, sanitize_label. Qed.
Lemma label_no_slash id : mem_byte "/" (hostLabel id) = false.
Proof. apply (str_all_not_mem labelByte); [done|apply label_bytes]. Qed.

(** Identifiers that differ in a character outside the pattern share a label. *)
Example label_shared : hostLabel "a b" = hostLabel "a-b" /\ hostLabel "a/b" = hostLabel "a-b".
Proof. done. Qed.

(** ** Where the driver writes *)

(** An absolute directory in canonical form, not the root. *)
Definition directory (dir : string) : Prop := exists xs, dir = "/" +:+ join "/" xs /\ xs <> [] /\ Forall plain_seg xs.

Lemma dir_file dir n : directory dir -> plain_seg n -> Join2 dir n = dir +:+ "/" +:+ n.
Proof. intros (xs & -> & Hne & Hx) Hn. by rewrite (Join2_seg xs n). Qed.
Lemma dir_sub dir n : directory dir -> plain_seg n -> directory (dir +:+ "/" +:+ n).
Proof.
  intros (xs & -> & Hne & Hx) Hn. exists (xs ++ [n]). rewrite join_snoc, sapp_assoc by done. split; [done|]. split; [by destruct xs|]. apply Forall_app. split; [done|by apply Forall_cons_2].
Qed.
Lemma dir_file_ne dir dir' n n' : directory dir -> directory dir' -> plain_seg n -> plain_seg n' -> n <> n' -> dir +:+ "/" +:+ n <> dir' +:+ "/" +:+ n'.
Proof.
  intros (xs & -> & Hx & Hpx) (ys & -> & Hy & Hpy) Hn Hn' Hne. rewrite !sapp_assoc, <- !join_snoc by done. intros Heq.
  apply rooted_inj in Heq; [|apply Forall_app; split; [done|by apply Forall_cons_2]..|by destruct xs|by destruct ys]. by apply app_inj_tail in Heq as [_ ?].
Qed.
Lemma plain_prefix c t : mem_byte "/" (String c t) = false -> c <> "."%char -> plain_seg (String c t).
Proof. intros Hs Hc. split; [done|]. split; [by intros [= ->]|]. split; [by intros [= ->]|done]. Qed.
Lemma label_suffix_plain id suffix : mem_byte "/" suffix = false -> plain_seg (hostLabel id +:+ suffix).
Proof.
  intros Hx. assert (Hs : mem_byte "/" (hostLabel id +:+ suffix) = false) by (by rewrite mem_byte_app, label_no_slash). revert Hs. unfold hostLabel, labelPrefix.
  rewrite sapp_assoc, sapp_cons. intros Hs. by apply plain_prefix.
Qed.
Lemma label_plist_plain id : plain_seg (hostLabel id +:+ ".plist").
Proof. by apply label_suffix_plain. Qed.

(** The default directories. *)
Example New_default : let d := New (fun _ => "") "/Users/u" 501 in
  binDir d = "/Users/u/Library/Application Support/obacht/host/bin" /\ agentDir d = "/Users/u/Library/LaunchAgents" /\ guiDomain d = "gui/501".
Proof. done. Qed.

Section driver.
Context {mac : Mac}.
Notation P A := (prog mac_error machine A).

(** Its binaries, its property list, and the temporary file beside that. *)
Definition agent_plist (d : Driver) (id : string) : string := agentDir d +:+ "/" +:+ hostLabel id +:+ ".plist".
Definition own (d : Driver) (id p : string) : bool :=
  Linux.in_dir (binDir d) p || bool_decide (p = agent_plist d id) || bool_decide (p = agent_plist d id +:+ ".tmp").
(** The commands about its service. *)
Definition own_commands (d : Driver) (id : string) : list (list string) :=
  let svc := service d (hostLabel id) in
  [["bootout"; svc]; ["bootstrap"; guiDomain d; agent_plist d id]; ["kickstart"; "-k"; svc]; ["kickstart"; svc]; ["print"; svc]].
Definition touches (d : Driver) (id : string) (roots : list string) (m0 m : machine) : Prop :=
  (forall p, own d id p = false -> files m !! p = files m0 !! p) /\
  (dirs m0 ⊆ dirs m /\ forall p, p ∈ dirs m -> p ∈ dirs m0 \/ exists r, r ∈ roots /\ p ∈ leading r) /\
  exists new, commands m = new ++ commands m0 /\ Forall (fun c => c ∈ own_commands d id) new.

Lemma touches_refl d id roots m : touches d id roots m m.
Proof. split; [done|]. split; [split; [done|by left]|by exists []]. Qed.

(** *** Steps *)
Lemma mac_keeps_guard {A} (Q : machine -> Prop) b e (k : unit -> P A) : (b = false -> keeps Q (k tt)) -> keeps Q (hbind (or_stop b e) k).
Proof. intros Hk r Hr. unfold hbind, or_stop. destruct b; [done|]. by apply Hk. Qed.
Lemma mac_keeps_call (Q : machine -> Prop) what p : keeps Q (call what p).
Proof. intros r Hr. unfold call. by destruct (failing what p). Qed.
Lemma keeps_lift {A} (Q : machine -> Prop) (x : res mac_error A) : keeps Q (lift x).
Proof. by intros r Hr. Qed.
Lemma keeps_read (Q : machine -> Prop) p : keeps Q (read_file p).
Proof. intros r Hr. unfold read_file. destruct (failing _ _); [done|]. by destruct (files r !! p) as [[??]|]. Qed.

Section files.
Context (d : Driver) (id : string) (roots : list string) (m0 : machine).
Notation Q := (touches d id roots m0).

(** A step on the files alone. *)
Lemma touches_files (f : disk -> disk) m : (forall fs p, own d id p = false -> f fs !! p = fs !! p) -> Q m -> Q (set_files f m).
Proof. intros Hf [H1 H2]. split; [|exact H2]. intros p Hp. cbn. rewrite Hf by done. by apply H1. Qed.

Lemma keeps_mkdirAll p : p ∈ roots -> keeps Q (mkdirAll p).
Proof.
  intros Hp. assert (Hf : keeps Q (hfor mkdir (leading p))).
  { apply keeps_for. intros q Hq m Hm. unfold mkdir. case_decide; [done|]. revert m Hm H. intros m Hm _. unfold hbind, call. destruct (failing _ _); [done|].
    destruct Hm as (H1 & [H2 H3] & H4). split; [exact H1|]. split; [|exact H4]. cbn. split; [set_solver|]. intros q' [->%elem_of_singleton|Hq']%elem_of_union; [right; by exists p|by apply H3]. }
  intros m Hm. unfold mkdirAll. case_decide; [done|by apply Hf].
Qed.

Lemma mac_keeps_unlink p : own d id p = true -> keeps Q (unlink p).
Proof.
  intros Hp m Hm. unfold unlink. cbn. destruct (undeletable p); [done|]. apply touches_files; [|done]. intros fs q Hq. rewrite lookup_delete_ne; [done|]. intros <-. congruence.
Qed.
Lemma keeps_create p c x : own d id p = true -> keeps Q (create p c x).
Proof.
  intros Hp m Hm. unfold create. destruct (files m !! p); [done|]. revert m Hm. apply keeps_bind; [apply mac_keeps_call|]. intros _ m Hm. cbn.
  apply touches_files; [|done]. intros fs q Hq. rewrite lookup_insert_ne; [done|]. intros <-. congruence.
Qed.
Lemma keeps_move a b : own d id a = true -> own d id b = true -> keeps Q (move a b).
Proof.
  intros Ha Hb m Hm. unfold move. destruct (failing _ _); [by destruct (files m !! a)|]. destruct (files m !! a); [|done]. cbn. apply touches_files; [|done].
  intros fs q Hq. cbn. rewrite lookup_insert_ne by (intros <-; congruence). rewrite lookup_delete_ne; [done|]. intros <-. congruence.
Qed.
Lemma keeps_or_unlink {A} p (x : P A) : own d id p = true -> keeps Q x -> keeps Q (or_unlink p x).
Proof. intros Hp Hx m Hm. unfold or_unlink. specialize (Hx m Hm). destruct (x m) as [[a|e] m']; [done|]. by apply mac_keeps_unlink. Qed.
Lemma keeps_then_unlink {A} p (x : P A) : own d id p = true -> keeps Q x -> keeps Q (then_unlink p x).
Proof. intros Hp Hx m Hm. unfold then_unlink. specialize (Hx m Hm). destruct (x m) as [r m']. by apply mac_keeps_unlink. Qed.
Lemma keeps_removeAll dir : (forall p, Linux.in_dir dir p = true -> own d id p = true) -> keeps Q (removeAll dir).
Proof.
  intros Hd m Hm. cbn. apply touches_files; [|done]. intros fs q Hq. rewrite map_lookup_filter. destruct (fs !! q) as [f|]; [|done]. cbn.
  destruct (Linux.in_dir dir q) eqn:Hi; [rewrite Hd in Hq by done; done|]. by rewrite option_guard_True by (by left).
Qed.
Lemma keeps_or_removeAll {A} dir (x : P A) : (forall p, Linux.in_dir dir p = true -> own d id p = true) -> keeps Q x -> keeps Q (or_removeAll dir x).
Proof. intros Hp Hx m Hm. unfold or_removeAll. specialize (Hx m Hm). destruct (x m) as [[a|e] m']; [done|]. by apply keeps_removeAll. Qed.

(** Entries that move among owned paths leave the others alone. *)
Lemma lookup_renamed (f : string * (string * bool) -> string * (string * bool)) l p :
  (forall e, e ∈ l -> (f e).1 = p \/ e.1 = p -> f e = e) -> (list_to_map (map f l) : disk) !! p = (list_to_map l : disk) !! p.
Proof.
  induction l as [|e l IH]; intros Hf; [done|]. cbn [map].
  change ((<[(f e).1 := (f e).2]> (list_to_map (map f l) : disk)) !! p = (<[e.1 := e.2]> (list_to_map l : disk)) !! p).
  assert (IH' : (list_to_map (map f l) : disk) !! p = (list_to_map l : disk) !! p) by (apply IH; intros e' He'; apply Hf; by right).
  destruct (decide ((f e).1 = p)) as [Hp|Hp]; [|destruct (decide (e.1 = p)) as [He|He]].
  - rewrite (Hf e) in * by ((by left) || by left). rewrite Hp. by rewrite !lookup_insert_eq.
  - rewrite Hf in Hp; [done|by left|by right].
  - by rewrite !lookup_insert_ne.
Qed.
Lemma keeps_move_dir a b : (forall p, Linux.in_dir a p = true -> own d id p = true) -> (forall p, Linux.in_dir b p = true -> own d id p = true) -> keeps Q (move_dir a b).
Proof.
  intros Ha Hb m Hm. unfold move_dir. destruct (failing _ _); [done|]. cbn. apply touches_files; [|done]. intros fs q Hq. cbn.
  rewrite lookup_renamed; [by rewrite list_to_map_to_list|]. intros [k v] _ Hk. cbn in *. destruct (Linux.in_dir a k) eqn:Hi; [|done]. exfalso.
  assert (Hin : Linux.in_dir b (moved_path a b k) = true).
  { unfold Linux.in_dir in Hi. apply orb_true_iff in Hi as [->%bool_decide_eq_true|Hp].
    - unfold moved_path. replace (strip_prefix a a) with (Some ""); [rewrite sapp_nil_r; unfold Linux.in_dir; by rewrite bool_decide_eq_true_2|].
      symmetry. apply strip_prefix_Some. by rewrite sapp_nil_r.
    - apply has_prefix_spec in Hp as [t ->]. unfold moved_path. rewrite !sapp_assoc. replace (strip_prefix (a +:+ "/" +:+ t) a) with (Some ("/" +:+ t)).
      + apply LinuxProps.in_dir_below.
      + symmetry. by apply strip_prefix_Some. }
  destruct Hk as [<-|<-]; [rewrite Hb in Hq; done|rewrite Ha in Hq; done].
Qed.

Lemma keeps_writeIfDifferent p data : own d id p = true -> own d id (p +:+ ".tmp") = true -> keeps Q (writeIfDifferent p data).
Proof.
  intros Hp Ht m Hm. unfold writeIfDifferent. destruct (_ && _).
  - cbn. apply touches_files; [|done]. intros fs q Hq. rewrite lookup_alter_ne; [done|]. intros <-. congruence.
  - cbv zeta. revert m Hm. apply keeps_bind; [by apply mac_keeps_unlink|]. intros _. apply keeps_bind; [by apply keeps_create|]. intros _.
    apply keeps_bind; [|intros _; apply keeps_ret]. apply keeps_or_unlink; [done|]. apply keeps_bind; [apply mac_keeps_call|]. intros _. by apply keeps_move.
Qed.

Lemma keeps_download url dest want x : own d id dest = true -> own d id (dest +:+ ".tmp") = true -> keeps Q (download url dest want x).
Proof.
  intros Hd Ht. unfold download. apply keeps_bind; [apply keeps_lift|]. intros [[st content] broken]. apply mac_keeps_guard. intros _. cbv zeta.
  apply keeps_bind; [by apply mac_keeps_unlink|]. intros _. apply keeps_bind; [by apply keeps_create|]. intros _. apply keeps_or_unlink; [done|].
  apply keeps_bind; [destruct broken; [apply keeps_fail|apply keeps_ret]|]. intros _. apply keeps_bind; [apply mac_keeps_call|]. intros _.
  apply mac_keeps_guard. intros _. by apply keeps_move.
Qed.

Lemma keeps_entry tmp e : Clean tmp = tmp -> (forall p, Linux.in_dir tmp p = true -> own d id p = true) -> (forall q, Clean (Join2 tmp q) = Join2 tmp q) -> keeps Q (entry tmp e).
Proof.
  intros Hc Ht Hj. unfold entry. cbv zeta. destruct (_ || _); [apply keeps_ret|]. apply mac_keeps_guard. intros Hw. apply negb_false_iff in Hw.
  assert (Ho : own d id (Join2 tmp (Clean (e_name e))) = true) by (apply Ht; unfold Linux.withinDir in Hw; rewrite Hc, Hj in Hw; exact Hw).
  destruct (e_kind e); [apply mac_keeps_call| |apply keeps_ret]. apply keeps_bind; [apply mac_keeps_call|]. intros _. apply keeps_bind; [by apply keeps_create|]. intros _.
  destruct (e_broken e); [apply keeps_fail|apply keeps_ret].
Qed.

Lemma keeps_extract archive dest : directory dest -> (forall p, Linux.in_dir dest p = true -> own d id p = true) -> directory (dest +:+ ".extract.tmp") ->
  (forall p, Linux.in_dir (dest +:+ ".extract.tmp") p = true -> own d id p = true) -> keeps Q (extractTarGz archive dest).
Proof.
  intros Hd Ho (xs & Hx & Hne & Hp) Hot. unfold extractTarGz. destruct (untar archive) as [[es err]|]; [|apply keeps_fail]. cbv zeta.
  assert (Hj : forall q, Clean (Join2 (dest +:+ ".extract.tmp") q) = Join2 (dest +:+ ".extract.tmp") q).
  { intros q. destruct (Join2_abs (dest +:+ ".extract.tmp") q) as (ys & -> & Hy); [by rewrite Hx; apply has_prefix_app|]. destruct ys; [done|by apply Clean_rooted]. }
  apply keeps_bind; [by apply keeps_removeAll|]. intros _. apply keeps_bind; [apply mac_keeps_call|]. intros _. apply keeps_bind.
  { apply keeps_or_removeAll; [done|]. apply keeps_bind; [|intros _; destruct err; [apply keeps_fail|apply keeps_ret]].
    apply keeps_for. intros e _. apply keeps_entry; [|done..]. rewrite Hx. by apply Clean_rooted. }
  intros _. apply keeps_bind; [by apply keeps_removeAll|]. intros _. apply keeps_or_removeAll; [done|]. by apply keeps_move_dir.
Qed.

(** *** Commands *)
Lemma keeps_command args : args ∈ own_commands d id -> keeps Q (runLaunchctl args).
Proof.
  intros Hin m (H1 & Hd & new & H2 & H3). unfold runLaunchctl, launchctlOutput. destruct (launchctl args (files m) (daemon m)) as [[out err] l].
  split; [exact H1|]. split; [exact Hd|]. exists (args :: new). split; [cbn; by rewrite H2|by apply Forall_cons_2].
Qed.
Lemma keeps_try_command args : args ∈ own_commands d id -> keeps Q (tryLaunchctl args).
Proof. intros Hin m Hm. unfold tryLaunchctl. by apply keeps_command. Qed.
Lemma keeps_Status : keeps Q (Status d (hostLabel id)).
Proof.
  intros m Hm. unfold Status. destruct (bool_decide _); [done|]. pose proof (keeps_command ["print"; service d (hostLabel id)]) as Hk.
  specialize (Hk ltac:(unfold own_commands; set_solver) m Hm). unfold runLaunchctl in Hk. by destruct (launchctlOutput _ m) as [[out err] m'].
Qed.

Lemma keeps_load changed : directory (agentDir d) -> keeps Q (load d (hostLabel id) changed).
Proof.
  intros Ha. unfold load, plistPath. rewrite (dir_file _ _ Ha (label_plist_plain id)). fold (agent_plist d id). cbv zeta.
  assert (Hc : forall c, c ∈ own_commands d id -> keeps Q (tryLaunchctl c) /\ keeps Q (runLaunchctl c)) by (intros c Hin; split; [by apply keeps_try_command|by apply keeps_command]).
  destruct changed.
  - apply keeps_bind; [apply Hc; unfold own_commands; set_solver|]. intros _. apply keeps_bind; [apply Hc; unfold own_commands; set_solver|]. intros _.
    apply keeps_bind; [apply Hc; unfold own_commands; set_solver|]. intros _. apply keeps_ret.
  - apply keeps_bind; [apply keeps_Status|]. intros st. apply keeps_bind; [destruct (bool_decide _); [apply Hc; unfold own_commands; set_solver|apply keeps_ret]|]. intros _.
    apply keeps_bind; [apply Hc; unfold own_commands; set_solver|]. intros _. apply keeps_ret.
Qed.

Lemma own_below p : Linux.in_dir (binDir d) p = true -> own d id p = true.
Proof. unfold own. by intros ->. Qed.
Lemma in_sub dir n p : Linux.in_dir (dir +:+ "/" +:+ n) p = true -> Linux.in_dir dir p = true.
Proof.
  unfold Linux.in_dir at 1. intros [->%bool_decide_eq_true|Hp]%orb_true_iff; [apply LinuxProps.in_dir_below|].
  apply has_prefix_spec in Hp as [t ->]. rewrite !sapp_assoc. apply LinuxProps.in_dir_below.
Qed.

(** *** The binary *)
Definition want (hs : HostServiceSpec) : string := trim_prefix (h_BinaryDigest hs) "sha256:".
(** The digest begins like one: its first characters are no path. *)
Definition digest_plain (hs : HostServiceSpec) : Prop := mem_byte "/" (stake 16 (want hs)) = false.

Lemma host_binary hs : host_validate hs = Ok tt -> h_Binary hs = "ollama".
Proof.
  unfold host_validate. intros Hv. apply rbind_Ok in Hv as (? & Hg & _). apply guard_err_Ok, orb_false_iff in Hg as [Hg _].
  apply negb_false_iff in Hg. unfold inl, allowedHostBinaries in Hg. apply bool_decide_eq_true in Hg. set_solver.
Qed.

Lemma tgz_plain hs : digest_plain hs -> plain_seg ("." +:+ stake 16 (want hs) +:+ ".tgz").
Proof.
  unfold digest_plain. generalize (stake 16 (want hs)) as w. intros w Hp. split_and!; [done|by destruct w|by destruct w as [|? [|??]]|]. by rewrite !mem_byte_app, Hp.
Qed.

Lemma keeps_ensure hs : binDir d ∈ roots -> directory (binDir d) -> host_validate hs = Ok tt -> digest_plain hs -> keeps Q (ensureBinary d hs).
Proof.
  intros Hroot Hd Hv Hp. unfold digest_plain in Hp. unfold ensureBinary. rewrite (host_binary hs Hv). fold (want hs). apply keeps_bind; [by apply keeps_mkdirAll|]. intros _. cbv zeta.
  set (w := stake 16 (want hs)) in *. destruct (bool_decide _).
  - assert (He : plain_seg ("ollama-" +:+ w)) by (split_and!; [done..|]; by rewrite mem_byte_app, Hp).
    assert (Ht : plain_seg ("." +:+ w +:+ ".tgz")) by (by apply tgz_plain).
    assert (Hx : plain_seg (("ollama-" +:+ w) +:+ ".extract.tmp")) by (split_and!; [done..|]; by rewrite !mem_byte_app, Hp).
    change ("ollama" +:+ "-" +:+ w) with ("ollama-" +:+ w). rewrite !(dir_file _ _ Hd) by done. intros m Hm. destruct (isExecutable _ m); [done|]. revert m Hm.
    assert (Hsub : forall n t p, Linux.in_dir ((binDir d +:+ "/" +:+ n) +:+ t) p = true -> own d id p = true).
    { intros n t p Hi. apply own_below. rewrite !sapp_assoc in Hi. by eapply in_sub. }
    assert (Hfile : forall n t, own d id ((binDir d +:+ "/" +:+ n) +:+ t) = true) by (intros n t; apply own_below; rewrite !sapp_assoc; apply LinuxProps.in_dir_below).
    assert (Hfile0 : forall n, own d id (binDir d +:+ "/" +:+ n) = true) by (intros n; apply own_below, LinuxProps.in_dir_below).
    apply keeps_bind; [by apply keeps_download|]. intros _. apply keeps_then_unlink; [done|]. apply keeps_bind; [apply keeps_read|]. intros archive.
    apply keeps_bind.
    + apply keeps_extract; [by apply dir_sub| |rewrite !sapp_assoc, <- (sapp_assoc "ollama-"); by apply dir_sub|apply Hsub].
      intros p Hi. apply own_below. by eapply in_sub.
    + intros _. apply keeps_bind; [intros m Hm; unfold or_stop; by destruct (negb _)|intros _; apply keeps_ret].
  - rewrite (dir_file _ "ollama" Hd) by done. intros m Hm. destruct (bool_decide _); [done|]. revert m Hm.
    apply keeps_bind; [|intros _; apply keeps_ret]. apply keeps_download; apply own_below; rewrite ?sapp_assoc; apply LinuxProps.in_dir_below.
Qed.
End files.

Lemma Validate_host spec hs : Validate spec = Ok tt -> HostService spec = Some hs -> host_validate hs = Ok tt.
Proof.
  unfold Validate. intros Hv Hh. rewrite Hh in Hv. do 4 (apply rbind_Ok in Hv as (? & _ & Hv)). done.
Qed.

Lemma own_plist d id : own d id (agent_plist d id) = true /\ own d id (agent_plist d id +:+ ".tmp") = true.
Proof. unfold own. split; [apply orb_true_iff; left|]; apply orb_true_iff; right; by apply bool_decide_eq_true_2. Qed.

(** The directories an apply makes sure of: those of the driver, and the one for
    the instance's data, which the specification may choose. *)
Definition made_dirs (d : Driver) (id : string) (spec : Spec) : list string :=
  [binDir d; agentDir d; logDir d] ++ match HostService spec with Some hs => [instance_data d id hs] | None => [] end.


(** ** What a successful apply leaves *)
Lemma mac_guard_run {A} b e (k : unit -> P A) m a m' : hbind (or_stop b e) k m = (Ok a, m') -> b = false /\ k tt m = (Ok a, m').
Proof. unfold hbind, or_stop. by destruct b. Qed.
Lemma mac_call_run {A} what p (k : unit -> P A) m a m' : hbind (call what p) k m = (Ok a, m') -> failing what p = None /\ k tt m = (Ok a, m').
Proof. unfold hbind, call. by destruct (failing what p). Qed.
Lemma lift_run {A B} (x : res mac_error A) (k : A -> P B) m b m' : hbind (lift x) k m = (Ok b, m') -> exists a, x = Ok a /\ k a m = (Ok b, m').
Proof. unfold hbind, lift. destruct x; [eauto|done]. Qed.
Lemma or_unlink_run {A} p (x : P A) m a m' : or_unlink p x m = (Ok a, m') -> x m = (Ok a, m').
Proof. unfold or_unlink. by destruct (x m) as [[?|?] ?]. Qed.

Lemma move_run a b m u m' : move a b m = (Ok u, m') -> exists f, files m !! a = Some f /\ files m' !! b = Some f /\ forall p, p <> a -> p <> b -> files m' !! p = files m !! p.
Proof.
  unfold move. destruct (failing _ _); [by destruct (files m !! a)|]. destruct (files m !! a) as [f|]; [|done]. intros [= _ <-]. exists f. cbn.
  rewrite lookup_insert_eq. split_and!; [done..|]. intros p Ha Hb. by rewrite lookup_insert_ne, lookup_delete_ne.
Qed.
Lemma create_run {A} p c x (k : unit -> P A) m a m' : hbind (create p c x) k m = (Ok a, m') -> k tt (set_files (<[p := (c, x)]>) m) = (Ok a, m').
Proof. unfold hbind at 1, create. destruct (files m !! p); [done|]. unfold hbind, call. destruct (failing _ _); [done|]. done. Qed.
Lemma unlink_run {A} p (k : unit -> P A) m a m' : hbind (unlink p) k m = (Ok a, m') -> exists m1, k tt m1 = (Ok a, m') /\ forall q, q <> p -> files m1 !! q = files m !! q.
Proof.
  intros Hr. unfold hbind, unlink in Hr. cbn in Hr. destruct (undeletable p); eexists; (split; [exact Hr|]); [done|]. intros q Hq. cbn. by rewrite lookup_delete_ne.
Qed.

Lemma writeIfDifferent_run p data m b m' : writeIfDifferent p data m = (Ok b, m') ->
  files m' !! p = Some (data, false) /\ forall q, q <> p -> q <> p +:+ ".tmp" -> files m' !! q = files m !! q.
Proof.
  unfold writeIfDifferent. destruct (_ && _) eqn:Hc; cbv zeta.
  - apply andb_true_iff in Hc as [_ Hc]. apply bool_decide_eq_true in Hc. intros [= _ <-]. cbn. rewrite lookup_alter_eq. split; [|intros q Hq _; by rewrite lookup_alter_ne].
    apply fmap_Some in Hc as ([c x] & -> & ->). done.
  - intros (m1 & Hw & H1)%unlink_run. apply create_run in Hw. apply hbind_Ok in Hw as (? & m2 & Hw & [= _ <-]). apply or_unlink_run, mac_call_run in Hw as [_ Hw].
    apply move_run in Hw as (f & Hf & Hp & Hq). cbn in Hf. rewrite lookup_insert_eq in Hf. injection Hf as <-. split; [done|]. intros q Hq1 Hq2.
    rewrite Hq by done. cbn. rewrite lookup_insert_ne by done. by apply H1.
Qed.

Lemma download_run url dest w x m m' : download url dest w x m = (Ok tt, m') -> exists c, files m' !! dest = Some (c, x) /\ sha256 c = w.
Proof.
  unfold download. intros ([[st c] broken] & _ & Hd)%lift_run. apply mac_guard_run in Hd as [_ Hd]. cbv zeta in Hd. apply unlink_run in Hd as (m1 & Hd & _). apply create_run in Hd.
  apply or_unlink_run, hbind_Ok in Hd as (? & m2 & H2 & Hd). apply mac_call_run in Hd as [_ Hd]. apply mac_guard_run in Hd as [Hs Hd]. apply negb_false_iff, bool_decide_eq_true in Hs.
  apply move_run in Hd as (f & Hf & Hp & _). exists c. split; [|done]. destruct broken; [done|]. injection H2 as _ <-. cbn in Hf. rewrite lookup_insert_eq in Hf. congruence.
Qed.

(** The binary of a specification, and that it is in place. *)
Definition bin_dir (d : Driver) (hs : HostServiceSpec) : string :=
  if bool_decide (h_Archive hs = "tgz") then binDir d +:+ "/" +:+ "ollama-" +:+ stake 16 (want hs) else binDir d.
Definition bin_path (d : Driver) (hs : HostServiceSpec) : string := bin_dir d hs +:+ "/ollama".
Definition in_place (d : Driver) (hs : HostServiceSpec) (m : machine) : Prop :=
  exists c x, files m !! bin_path d hs = Some (c, x) /\ if bool_decide (h_Archive hs = "tgz") then x = true else sha256 c = want hs.

Lemma bin_dir_directory d hs : directory (binDir d) -> digest_plain hs -> directory (bin_dir d hs).
Proof.
  intros Hd Hp. unfold bin_dir. destruct (bool_decide _); [|done]. apply dir_sub; [done|]. split_and!; [done..|]. unfold digest_plain in Hp. by rewrite mem_byte_app, Hp.
Qed.

Lemma bin_join d hs : directory (binDir d) -> digest_plain hs -> bool_decide (h_Archive hs = "tgz") = true ->
  Join2 (Join2 (binDir d) ("ollama" +:+ "-" +:+ stake 16 (want hs))) "ollama" = bin_path d hs.
Proof.
  intros Hd Hp Ht. pose proof (bin_dir_directory d hs Hd Hp) as Hb. unfold bin_path, bin_dir in *. rewrite Ht in *. change ("ollama" +:+ "-" +:+ stake 16 (want hs)) with ("ollama-" +:+ stake 16 (want hs)).
  rewrite (dir_file _ ("ollama-" +:+ _) Hd); [by rewrite (dir_file _ "ollama" Hb)|]. split_and!; [done..|]. unfold digest_plain in Hp. by rewrite mem_byte_app, Hp.
Qed.

(** A directory that is there is not made again. *)
Lemma mkdirAll_there p m : Clean p ∈ dirs m -> mkdirAll p m = (Ok tt, m).
Proof. intros Hp. unfold mkdirAll. by rewrite decide_True. Qed.
Lemma mkdir_run q m u m' : mkdir q m = (Ok u, m') -> files m' = files m /\ dirs m' = {[q]} ∪ dirs m.
Proof.
  unfold mkdir. case_decide; [intros [= _ <-]; split; [done|set_solver]|]. unfold hbind, call. destruct (failing _ _); [done|]. by intros [= _ <-].
Qed.
Lemma mkdirAll_run p m u m' : mkdirAll p m = (Ok u, m') -> files m' = files m /\ Clean p ∈ dirs m' /\ dirs m ⊆ dirs m'.
Proof.
  unfold mkdirAll. case_decide; [intros [= _ <-]; done|]. assert (Hl : Clean p ∈ leading p) by (unfold leading; apply elem_of_app; right; by left).
  assert (Hf : forall l m, hfor mkdir l m = (Ok u, m') -> files m' = files m /\ (forall q, q ∈ l -> q ∈ dirs m') /\ dirs m ⊆ dirs m').
  { induction l as [|q l IH]; intros m0; [intros [= _ <-]; split_and!; [done|by intros q Hq%elem_of_nil|done]|]. cbn [hfor].
    intros (v & m1 & Hq & Hr)%hbind_Ok. apply mkdir_run in Hq as [Hf Hd]. destruct (IH m1 Hr) as (H1 & H2 & H3).
    split_and!; [congruence| |set_solver]. intros q' [->|Hq']%elem_of_cons; [set_solver|by apply H2]. }
  intros Hr. destruct (Hf _ _ Hr) as (H1 & H2 & H3). auto.
Qed.
Lemma mkdirs_run l m u m' : hfor mkdirAll l m = (Ok u, m') -> files m' = files m /\ Forall (fun p => Clean p ∈ dirs m') l /\ dirs m ⊆ dirs m'.
Proof.
  revert m. induction l as [|p l IH]; intros m; [by intros [= _ <-]|]. cbn [hfor]. intros (v & m1 & Hp & Hr)%hbind_Ok.
  apply mkdirAll_run in Hp as (Hf & Hp & Hd). destruct (IH m1 Hr) as (H1 & H2 & H3). split_and!; [congruence|apply Forall_cons_2; [by apply H3|done]|set_solver].
Qed.

Lemma ensure_run d hs m bin m' : directory (binDir d) -> host_validate hs = Ok tt -> digest_plain hs -> ensureBinary d hs m = (Ok bin, m') ->
  bin = bin_path d hs /\ in_place d hs m' /\ Clean (binDir d) ∈ dirs m'.
Proof.
  intros Hd Hv Hp He.
  assert (Hmk : Clean (binDir d) ∈ dirs m').
  { pose proof He as He2. unfold ensureBinary in He2. apply hbind_Ok in He2 as ([] & m1 & Hm & Hr). apply mkdirAll_run in Hm as (_ & Hc & _).
    assert (He1 : ensureBinary d hs m1 = (Ok bin, m')) by (unfold ensureBinary, hbind at 1; by rewrite (mkdirAll_there _ m1 Hc)).
    pose proof (keeps_ensure d "" [binDir d] m1 hs ltac:(by left) Hd Hv Hp m1 (touches_refl _ _ _ _)) as (_ & [Hsub _] & _). rewrite He1 in Hsub. by apply Hsub. }
  revert He. unfold ensureBinary. rewrite (host_binary hs Hv). fold (want hs). intros (u0 & m0 & _ & He)%hbind_Ok. clear u0 m. rename m0 into m. cbv zeta in He.
  destruct (bool_decide (h_Archive hs = "tgz")) eqn:Ha.
  - rewrite (bin_join d hs Hd Hp Ha) in He. assert (Hex : forall m, isExecutable (bin_path d hs) m = true -> in_place d hs m).
    { intros m1 Hm1. unfold isExecutable in Hm1. destruct (files m1 !! bin_path d hs) as [[c ex]|] eqn:Hf; [|done]. exists c, ex. by rewrite Ha. }
    destruct (isExecutable _ m) eqn:Hx; [injection He as <- <-; by auto|].
    apply hbind_Ok in He as (? & m1 & _ & He). unfold then_unlink in He. destruct (hbind (read_file _) _ m1) as [r m2] eqn:Hr. injection He as -> <-.
    apply hbind_Ok in Hr as (archive & m3 & _ & Hr). apply hbind_Ok in Hr as (? & m4 & _ & Hr). unfold hbind at 1, or_stop in Hr.
    destruct (isExecutable _ m4) eqn:Hm4; [|done]. injection Hr as <- <-. split; [done|]. split; [|done].
    destruct (Hex m4 Hm4) as (c & ex & Hf & Hxx). exists c, ex. split; [|done]. unfold unlink. cbn. destruct (undeletable _); [done|]. cbn. rewrite lookup_delete_ne; [done|].
    rewrite (dir_file _ _ Hd) by by apply tgz_plain. by apply dir_file_ne; [|apply bin_dir_directory|apply tgz_plain|..].
  - assert (Hpl : directory (bin_dir d hs)) by by apply bin_dir_directory. assert (Hj : Join2 (binDir d) "ollama" = bin_path d hs).
    { unfold bin_path, bin_dir in *. rewrite Ha in *. by apply dir_file. }
    rewrite Hj in He. destruct (bool_decide (fileSHA256 _ m = _)) eqn:Hx.
    + injection He as <- <-. split; [done|]. split; [|done]. apply bool_decide_eq_true in Hx. unfold fileSHA256 in Hx. destruct (failing "read" _); [done|].
      destruct (files m !! bin_path d hs) as [[c ex]|] eqn:Hf; [|done]. exists c, ex. rewrite Ha. split; [done|]. congruence.
    + apply hbind_Ok in He as ([] & m1 & Hdl & He). injection He as <- <-. split; [done|]. split; [|done]. apply download_run in Hdl as (c & Hf & Hs). exists c, true. by rewrite Ha.
Qed.

(** Commands and hooks change no file. *)
Lemma command_files args m : files (runLaunchctl args m).2 = files m.
Proof. unfold runLaunchctl, launchctlOutput. by destruct (launchctl _ _ _) as [[??]?]. Qed.
Lemma load_files d label changed m : files (load d label changed m).2 = files m.
Proof.
  assert (Hk : keeps (fun m1 => files m1 = files m) (load d label changed)); [|by apply Hk].
  assert (Hc : forall args, keeps (fun m1 => files m1 = files m) (runLaunchctl args)) by (intros args m1 <-; apply command_files).
  assert (Ht : forall args, keeps (fun m1 => files m1 = files m) (tryLaunchctl args)) by (intros args m1 <-; apply command_files).
  unfold load. cbv zeta. destruct changed.
  - apply keeps_bind; [apply Ht|]. intros _. apply keeps_bind; [apply Hc|]. intros _. apply keeps_bind; [apply Hc|]. intros _. apply keeps_ret.
  - apply keeps_bind.
    + intros m1 <-. unfold Status. destruct (bool_decide _); [done|]. pose proof (command_files ["print"; service d label] m1) as H. unfold runLaunchctl in H.
      by destruct (launchctlOutput _ m1) as [[??]?].
    + intros st. apply keeps_bind; [destruct (bool_decide _); [apply Hc|apply keeps_ret]|]. intros _. apply keeps_bind; [apply Ht|]. intros _. apply keeps_ret.
Qed.
Lemma run_hooks_files now id hs b m : files (run_hooks now id hs b m).2 = files m /\ (run_hooks now id hs b m).1 = Ok tt.
Proof. unfold run_hooks. by destruct (_ && _). Qed.

(** The service is installed: its binary and its property list are in place. *)
Record installed (d : Driver) (id : string) (spec : Spec) (hs : HostServiceSpec) (m : machine) : Prop := {
  i_spec : HostService spec = Some hs;
  i_valid : id <> "" /\ Validate spec = Ok tt;
  i_dirs : Forall (fun p => Clean p ∈ dirs m) [binDir d; agentDir d; logDir d; instance_data d id hs];
  i_binary : in_place d hs m;
  i_plist : files m !! agent_plist d id = Some (instance_plist d id (bin_path d hs) hs, false)
}.

Lemma mac_Apply_installs d now id spec m m' : directory (binDir d) -> directory (agentDir d) -> (forall hs, HostService spec = Some hs -> digest_plain hs) ->
  Apply d now id spec m = (Ok tt, m') -> exists hs, installed d id spec hs m'.
Proof.
  intros Hb Ha Hdig. unfold Apply. destruct (HostService spec) as [hs|] eqn:Hh; [|done]. intros (Hid & Hr)%mac_guard_run. apply bool_decide_eq_false in Hid.
  apply lift_run in Hr as ([] & Hv & Hr). destruct (Validate spec) as [[]|] eqn:Hval; [|done]. apply hbind_Ok in Hr as (bin & m1 & Hbin & Hr).
  pose proof (Validate_host _ _ Hval Hh) as Hvh. specialize (Hdig hs eq_refl). destruct (ensure_run d hs m bin m1 Hb Hvh Hdig Hbin) as (-> & Hin & Hmk).
  apply hbind_Ok in Hr as ([] & m2 & Hdirs & Hr). destruct (mkdirs_run _ _ _ _ Hdirs) as (Hf2 & Hall & Hd2).
  apply hbind_Ok in Hr as (changed & m3 & Hw & Hr). unfold plistPath in Hw. rewrite (dir_file _ _ Ha (label_plist_plain id)) in Hw. fold (agent_plist d id) in Hw.
  assert (Hd3 : dirs m2 ⊆ dirs m3).
  { pose proof (keeps_writeIfDifferent d id [] m2 (agent_plist d id) (instance_plist d id (bin_path d hs) hs) (proj1 (own_plist d id)) (proj2 (own_plist d id)) m2 (touches_refl _ _ _ _)) as (_ & [Hs _] & _).
    by rewrite Hw in Hs. }
  apply writeIfDifferent_run in Hw as [Hp Hq]. apply hbind_Ok in Hr as (restarted & m4 & Hl & Hr).
  assert (Hd4 : dirs m3 ⊆ dirs m4) by (pose proof (keeps_load d id [] m3 changed Ha m3 (touches_refl _ _ _ _)) as (_ & [Hs _] & _); by rewrite Hl in Hs).
  assert (Hd5 : dirs m' = dirs m4) by (revert Hr; unfold run_hooks; destruct (_ && _); by intros [= <-]).
  assert (H4 : files m4 = files m3) by (pose proof (load_files d (hostLabel id) changed m3) as H; by rewrite Hl in H).
  assert (H5 : files m' = files m4) by (pose proof (proj1 (run_hooks_files now id (h_PostStart hs) restarted m4)) as H; by rewrite Hr in H).
  exists hs. split; [done|done| |..].
  - assert (Hsub : dirs m2 ⊆ dirs m') by (rewrite Hd5; by etransitivity). apply Forall_cons_2; [by apply Hsub, Hd2|]. eapply Forall_impl; [exact Hall|]. intros p Hc. by apply Hsub.
  - destruct Hin as (c & ex & Hf & Hx). exists c, ex. split; [|done]. rewrite H5, H4, Hq, Hf2; [done|..].
    + by apply dir_file_ne; [apply bin_dir_directory| |done|apply label_plist_plain|].
    + unfold agent_plist. rewrite !sapp_assoc. by apply dir_file_ne; [apply bin_dir_directory| |done|apply label_suffix_plain|].
  - by rewrite H5, H4.
Qed.

(** Once applying a specification has succeeded, applying it again while launchd still knows the service changes no file, and runs two commands only: the query and a kickstart that does not stop a running service.  Unless hooks are due none is started. *)
Theorem mac_quiet d now now' id spec m m1 m2 out l : directory (binDir d) -> directory (agentDir d) -> (forall hs, HostService spec = Some hs -> digest_plain hs) ->
  (forall p, failing "read" p = None) ->
  Apply d now id spec m = (Ok tt, m1) -> files m2 = files m1 -> dirs m1 ⊆ dirs m2 ->
  launchctl ["print"; service d (hostLabel id)] (files m2) (daemon m2) = (out, None, l) ->
  exists m3, Apply d now' id spec m2 = (Ok tt, m3) /\ files m3 = files m2 /\
    commands m3 = [["kickstart"; service d (hostLabel id)]; ["print"; service d (hostLabel id)]] ++ commands m2 /\
    (shouldRun id false now' (hooks_ m2) = false -> hooks_ m3 = hooks_ m2).
Proof.
  intros Hb Ha Hdig Hread HA Hfs Hds Hpr. destruct (mac_Apply_installs d now id spec m m1 Hb Ha Hdig HA) as (hs & [Hh [Hid Hv] [Hmk Hall]%Forall_cons (c & ex & Hf & Hx) Hp]).
  pose proof (Validate_host _ _ Hv Hh) as Hvh. specialize (Hdig hs Hh). rewrite <- Hfs in Hf, Hp.
  assert (Hensure : ensureBinary d hs m2 = (Ok (bin_path d hs), m2)).
  { unfold ensureBinary. rewrite (host_binary hs Hvh). fold (want hs). unfold hbind at 1. rewrite (mkdirAll_there _ m2 (Hds _ Hmk)). cbv beta iota zeta. unfold in_place in *. destruct (bool_decide (h_Archive hs = "tgz")) eqn:Ht.
    - rewrite (bin_join d hs Hb Hdig Ht). cbv beta. unfold isExecutable. by rewrite Hf, Hx.
    - assert (Hj : Join2 (binDir d) "ollama" = bin_path d hs) by (unfold bin_path, bin_dir; rewrite Ht; by apply dir_file).
      rewrite Hj. cbv beta. unfold fileSHA256. rewrite Hread, Hf, Hx. by rewrite bool_decide_eq_true_2. }
  assert (Hmkdirs : hfor mkdirAll [agentDir d; logDir d; instance_data d id hs] m2 = (Ok tt, m2)).
  { apply Forall_cons in Hall as [H1 [H2 [H3 _]%Forall_cons]%Forall_cons]. cbn [hfor]. unfold hbind. by rewrite !mkdirAll_there by auto. }
  assert (Hwrite : writeIfDifferent (agent_plist d id) (instance_plist d id (bin_path d hs) hs) m2 = (Ok false, m2)).
  { unfold writeIfDifferent. rewrite Hread, Hp. rewrite !bool_decide_eq_true_2 by done. cbn [andb]. f_equal. unfold set_files. rewrite alter_id; [by destruct m2|]. intros f. rewrite Hp. by intros [= <-]. }
  set (svc := service d (hostLabel id)) in *. set (p := MkMachine (files m2) (dirs m2) l (["print"; svc] :: commands m2) (hooks_ m2)).
  destruct (launchctl ["kickstart"; svc] (files m2) l) as [[out' err'] l'] eqn:Hk.
  set (k := MkMachine (files m2) (dirs m2) l' (["kickstart"; svc] :: ["print"; svc] :: commands m2) (hooks_ m2)).
  assert (Hload : load d (hostLabel id) false m2 = (Ok false, k)).
  { unfold load. fold svc. cbv zeta. unfold Status. fold svc. unfold hbind at 1. rewrite (bool_decide_eq_false_2 (hostLabel id = "")) by done. unfold launchctlOutput. rewrite Hpr. clearbody svc. subst p k.
    destruct (contains out "state = running"); [change (bool_decide ("active" = "")) with false|change (bool_decide ("inactive" = "")) with false];
      unfold hbind, tryLaunchctl, runLaunchctl, launchctlOutput; cbn; by rewrite Hk. }
  exists (run_hooks now' id (h_PostStart hs) false k).2. split_and!.
  - unfold Apply. rewrite Hh. unfold hbind at 1, or_stop. rewrite bool_decide_eq_false_2 by done. cbn [hret]. unfold hret. unfold hbind at 1, lift. rewrite Hv.
    unfold hbind at 1. rewrite Hensure. unfold hbind at 1. rewrite Hmkdirs. unfold plistPath. rewrite (dir_file _ _ Ha (label_plist_plain id)). fold (agent_plist d id).
    unfold hbind at 1. rewrite Hwrite. unfold hbind at 1. rewrite Hload. pose proof (proj2 (run_hooks_files now' id (h_PostStart hs) false k)) as Hr.
    by destruct (run_hooks _ _ _ _ k) as [? ?]; cbn in Hr; rewrite Hr.
  - by rewrite (proj1 (run_hooks_files _ _ _ _ _)).
  - unfold run_hooks. by destruct (_ && _).
  - intros Hs. unfold run_hooks. cbn. by rewrite Hs, andb_false_r.
Qed.

Lemma instance_list d id bin hs : exists args env, read_plist (instance_plist d id bin hs) = Some (agent_dict (hostLabel id) bin args env (logDir d)).
Proof. unfold instance_plist. destruct (expandHostData _ _) as [args env]. exists args, env. apply read_render. Qed.

(** After a successful apply the program of the launch agent is the file of the specification's binary; unless it came out of an archive its contents have the pinned digest. *)
Theorem mac_runs_pinned d now id spec m m' : directory (binDir d) -> directory (agentDir d) -> (forall hs, HostService spec = Some hs -> digest_plain hs) ->
  Apply d now id spec m = (Ok tt, m') ->
  exists hs text args env c ex, HostService spec = Some hs /\ files m' !! agent_plist d id = Some (text, false) /\
    read_plist text = Some (agent_dict (hostLabel id) (bin_path d hs) args env (logDir d)) /\
    files m' !! bin_path d hs = Some (c, ex) /\ if bool_decide (h_Archive hs = "tgz") then ex = true else sha256 c = want hs.
Proof.
  intros Hb Ha Hdig HA. destruct (mac_Apply_installs d now id spec m m' Hb Ha Hdig HA) as (hs & [Hh _ _ (c & ex & Hf & Hx) Hp]).
  destruct (instance_list d id (bin_path d hs) hs) as (args & env & Hi). exists hs, (instance_plist d id (bin_path d hs) hs), args, env, c, ex. exact (conj Hh (conj Hp (conj Hi (conj Hf Hx)))).
Qed.

(** ** Orphans *)
Definition orphan_name (keep : list string) (n : string) : bool :=
  has_prefix n labelPrefix && has_suffix n ".plist" && negb (inl (trim_suffix n ".plist") (map hostLabel keep)).
(** The property list of an agent of no kept instance. *)
Definition orphan (d : Driver) (keep : list string) (p : string) : bool :=
  match strip_prefix p (agentDir d +:+ "/") with Some n => negb (mem_byte "/" n) && orphan_name keep n | None => false end.

Lemma orphan_plain keep n : mem_byte "/" n = false -> orphan_name keep n = true -> plain_seg n.
Proof.
  unfold orphan_name. intros Hs [[Hp _]%andb_true_iff _]%andb_true_iff. apply has_prefix_spec in Hp as [t ->]. unfold labelPrefix in *. rewrite sapp_cons in *. by apply plain_prefix.
Qed.

Lemma collect_run d keep n m : directory (agentDir d) -> mem_byte "/" n = false -> exists m', collect d (map hostLabel keep) n m = (Ok tt, m') /\
  (forall p, files m' !! p = if orphan_name keep n && bool_decide (p = agentDir d +:+ "/" +:+ n) && negb (undeletable p) then None else files m !! p) /\
  exists new, commands m' = new ++ commands m /\ (orphan_name keep n = true -> ["bootout"; service d (trim_suffix n ".plist")] ∈ new).
Proof.
  intros Hd Hs. unfold collect. destruct (orphan_name keep n) eqn:Ho.
  - pose proof (orphan_plain keep n Hs Ho) as Hn. unfold orphan_name in Ho. apply andb_true_iff in Ho as [[H1 H2]%andb_true_iff H3]. apply negb_true_iff in H3. rewrite H1, H2, H3. cbn [negb orb].
    rewrite (dir_file _ n Hd Hn). unfold hbind, tryLaunchctl. set (m1 := (runLaunchctl _ m).2).
    assert (H : files m1 = files m /\ commands m1 = ["bootout"; service d (trim_suffix n ".plist")] :: commands m).
    { subst m1. unfold runLaunchctl, launchctlOutput. by destruct (launchctl _ _ _) as [[??]?]. }
    destruct H as [Hf Hc]. clearbody m1. unfold unlink. eexists. split; [reflexivity|]. split.
    + intros p. cbn [andb]. destruct (bool_decide_reflect (p = agentDir d +:+ "/" +:+ n)) as [->|Hp].
      * destruct (undeletable _); cbn [negb andb]; [by rewrite Hf|]. cbn. by rewrite lookup_delete_eq.
      * cbn [andb]. destruct (undeletable _); [by rewrite Hf|]. cbn. by rewrite lookup_delete_ne, Hf.
    + exists [["bootout"; service d (trim_suffix n ".plist")]]. split; [destruct (undeletable _); exact Hc|]. intros _. by left.
  - exists m. split; [|split; [done|by exists []]]. unfold orphan_name in Ho. destruct (has_prefix n labelPrefix); [|done]. destruct (has_suffix n ".plist"); [|done].
    cbn [andb negb orb] in *. by destruct (inl _ _).
Qed.

Lemma collect_all d keep names m : directory (agentDir d) -> Forall (fun n => mem_byte "/" n = false) names -> exists m', hfor (collect d (map hostLabel keep)) names m = (Ok tt, m') /\
  (forall p, files m' !! p = if existsb (fun n => orphan_name keep n && bool_decide (p = agentDir d +:+ "/" +:+ n)) names && negb (undeletable p) then None else files m !! p) /\
  exists new, commands m' = new ++ commands m /\ forall n, n ∈ names -> orphan_name keep n = true -> ["bootout"; service d (trim_suffix n ".plist")] ∈ new.
Proof.
  intros Hd Hn. revert m. induction Hn as [|n names Hs Hn IH]; intros m; [exists m; split_and!; [done..|]; exists []; split; [done|]; intros n Hin; by apply elem_of_nil in Hin|].
  destruct (collect_run d keep n m Hd Hs) as (m1 & H1 & F1 & new1 & C1 & B1). destruct (IH m1) as (m2 & H2 & F2 & new2 & C2 & B2).
  exists m2. split; [cbn [hfor]; unfold hbind; by rewrite H1|]. split.
  - intros p. rewrite F2, F1. cbn [existsb]. destruct (orphan_name keep n && bool_decide _), (existsb _ names), (undeletable p); done.
  - exists (new2 ++ new1). split; [by rewrite C2, C1, app_assoc|]. intros n' [->|Hin]%elem_of_cons Ho; apply elem_of_app; [right; by apply B1|left; by apply B2].
Qed.

Lemma elem_names dir m n : n ∈ names_in dir m <-> mem_byte "/" n = false /\ is_Some (files m !! (dir +:+ "/" +:+ n)).
Proof.
  unfold names_in. rewrite elem_of_sort_strings, list_elem_of_omap. setoid_rewrite list_elem_of_fmap. split.
  - intros (p & ([p' f] & -> & Hf%elem_of_map_to_list) & Hn). cbn in Hn. destruct (strip_prefix p' _) as [t|] eqn:Hp; [|done]. destruct (mem_byte "/" t) eqn:Ht; [done|].
    injection Hn as ->. apply strip_prefix_Some in Hp as ->. rewrite sapp_assoc in Hf. split; [done|]. by exists f.
  - intros [Hn [f Hf]]. exists (dir +:+ "/" +:+ n). split; [exists (dir +:+ "/" +:+ n, f); split; [done|by apply elem_of_map_to_list]|].
    replace (strip_prefix _ (dir +:+ "/")) with (Some n); [by rewrite Hn|]. symmetry. apply strip_prefix_Some. by rewrite sapp_assoc.
Qed.

(** The collection removes exactly the property lists, in the launch agents' directory, under the driver's prefix whose label belongs to no kept instance (but for those the system refuses to delete), and boots each of them out; every other file stays as it was. *)
Theorem gc_exact d keep m : directory (agentDir d) -> failing "readdir" (agentDir d) = None -> exists m', GarbageCollect d keep m = (Ok tt, m') /\
  (forall p, files m' !! p = if orphan d keep p && negb (undeletable p) then None else files m !! p) /\
  forall n, is_Some (files m !! (agentDir d +:+ "/" +:+ n)) -> orphan d keep (agentDir d +:+ "/" +:+ n) = true -> ["bootout"; service d (trim_suffix n ".plist")] ∈ commands m'.
Proof.
  intros Hd Hr. unfold GarbageCollect. rewrite Hr. destruct (collect_all d keep (names_in (agentDir d) m) m Hd) as (m' & Hg & Hf & new & Hc & Hb).
  { apply Forall_forall. intros n Hn%elem_names. by destruct Hn. }
  assert (Hst : forall n, strip_prefix (agentDir d +:+ "/" +:+ n) (agentDir d +:+ "/") = Some n) by (intros n; apply strip_prefix_Some; by rewrite sapp_assoc).
  exists m'. split; [done|]. split.
  - intros p. rewrite Hf. destruct (undeletable p); [by rewrite !andb_false_r|]. cbn [negb]. rewrite !andb_true_r. destruct (existsb _ _) eqn:He.
    + apply existsb_exists in He as (n & Hn%list_elem_of_In%elem_names & [Ho ->%bool_decide_eq_true]%andb_true_iff). unfold orphan. rewrite Hst. destruct Hn as [-> _]. by rewrite Ho.
    + destruct (orphan d keep p) eqn:Ho; [|done]. destruct (files m !! p) as [f|] eqn:Hp; [|done]. exfalso. unfold orphan in Ho. destruct (strip_prefix p _) as [n|] eqn:Hs; [|done].
      apply strip_prefix_Some in Hs as ->. rewrite sapp_assoc in *. apply andb_true_iff in Ho as [Hn Ho]. apply negb_true_iff in Hn. apply not_true_iff_false in He. apply He, existsb_exists.
      exists n. split; [apply list_elem_of_In, elem_names; by split|]. rewrite Ho. by apply bool_decide_eq_true_2.
  - intros n Hn Ho. rewrite Hc. apply elem_of_app. left. unfold orphan in Ho. rewrite Hst in Ho. apply andb_true_iff in Ho as [Hs Ho]. apply negb_true_iff in Hs. apply Hb; [by apply elem_names|done].
Qed.
End driver.

(** ** Instances *)
Definition demo_digest : string := "0123456789abcdef0123456789abcdef0123456789abcdef0123456789abcdef".
(** A machine where launchd knows the service after a bootstrap, and the download is what was pinned. *)
#[local] Instance demo_mac : Mac := {
  launchd := bool;
  launchctl := fun args _ loaded => match args with
    | "bootstrap" :: _ => ("", None, true)
    | "bootout" :: _ => ("", if loaded then None else Some "not found", false)
    | "print" :: _ => if loaded then ("state = running", None, loaded) else ("", Some "not found", loaded)
    | _ => ("", None, loaded)
    end;
  respond := fun _ => Linux.Reply 200 "machine code" None;
  sha256 := fun c => if bool_decide (c = "machine code") then demo_digest else "";
  untar := fun _ => Err "not an archive";
  failing := fun _ _ => None;
  undeletable := fun _ => false
}.
Definition demo_driver : Driver := New (fun _ => "") "/Users/u" 501.
Definition demo_host : HostServiceSpec :=
  MkHostServiceSpec "binary" "ollama" "https://ollama.com/x" ("sha256:" +:+ demo_digest) "" ["serve"; "--dir=${host.data}"] {["A" := "</string>&"]} "" [].
Definition demo_spec : Spec := MkSpec "" "" [] "" [] (Some demo_host) None false.
Definition demo_start : machine := MkMachine {["/Users/u/Library/LaunchAgents/dev.obacht.hostsvc.old.plist" := ("x", false); "/etc/hosts" := ("h", false)]} ∅ false [] newHookRunner.
Definition demo_done : machine := (Apply demo_driver 0 "llm" demo_spec demo_start).2.

Lemma demo_directories : directory (binDir demo_driver) /\ directory (agentDir demo_driver).
Proof.
  split; [exists ["Users"; "u"; "Library"; "Application Support"; "obacht"; "host"; "bin"]|exists ["Users"; "u"; "Library"; "LaunchAgents"]];
    (split; [vm_compute; reflexivity|split; [done|]]); repeat (apply Forall_cons_2; [done|]); apply Forall_nil_2.
Qed.
Lemma demo_plain hs : HostService demo_spec = Some hs -> digest_plain hs.
Proof. intros [= <-]. vm_compute. reflexivity. Qed.
Lemma demo_applies : Apply demo_driver 0 "llm" demo_spec demo_start = (Ok tt, demo_done).
Proof. vm_compute. reflexivity. Qed.

Example demo_environment : expandHostData demo_host "/d" = (["serve"; "--dir=/d"], <["OBACHT_DATA_DIR" := "/d"]> {["A" := "</string>&"]}).
Proof. vm_compute. reflexivity. Qed.


(** The directory for the data is where the specification puts it. *)
Definition elsewhere : Spec := MkSpec "" "" [] "" [] (Some (MkHostServiceSpec "binary" "ollama" "https://ollama.com/x" ("sha256:" +:+ demo_digest) "" [] ∅ "/Volumes/models/llm" [])) None false.
Example data_dir_anywhere : let m := (Apply demo_driver 0 "llm" elsewhere demo_start).2 in
  (Apply demo_driver 0 "llm" elsewhere demo_start).1 = Ok tt /\ Forall (fun p => p ∈ dirs m) ["/Volumes"; "/Volumes/models"; "/Volumes/models/llm"; "/Users/u/Library/Logs/obacht"].
Proof. split; [vm_compute; reflexivity|apply (bool_decide_unpack _); vm_compute; exact I]. Qed.

Lemma mac_quiet_witness : exists m3, Apply demo_driver 9 "llm" demo_spec demo_done = (Ok tt, m3) /\ files m3 = files demo_done.
Proof.
  destruct (mac_quiet demo_driver 0 9 "llm" demo_spec demo_start demo_done demo_done "state = running" true (proj1 demo_directories) (proj2 demo_directories) demo_plain
    (fun _ => eq_refl) demo_applies eq_refl (reflexivity _)) as (m3 & H1 & H2 & _); [vm_compute; reflexivity|]. exists m3. exact (conj H1 H2).
Defined.

Lemma mac_runs_pinned_witness : exists c ex, files demo_done !! bin_path demo_driver demo_host = Some (c, ex) /\ sha256 c = demo_digest.
Proof.
  destruct (mac_runs_pinned demo_driver 0 "llm" demo_spec demo_start demo_done (proj1 demo_directories) (proj2 demo_directories) demo_plain demo_applies)
    as (hs & text & args & env & c & ex & Hh & _ & _ & Hf & Hx). injection Hh as <-. exists c, ex. exact (conj Hf Hx).
Defined.

Lemma gc_exact_witness : exists m', GarbageCollect demo_driver ["llm"] demo_done = (Ok tt, m') /\
  files m' !! "/Users/u/Library/LaunchAgents/dev.obacht.hostsvc.old.plist" = None /\ is_Some (files m' !! agent_plist demo_driver "llm").
Proof.
  destruct (gc_exact demo_driver ["llm"] demo_done (proj2 demo_directories) eq_refl) as (m' & Hg & Hf & _). exists m'. split; [exact Hg|]. split.
  - rewrite Hf. vm_compute. reflexivity.
  - rewrite Hf. vm_compute. eexists. reflexivity.
Defined.

Lemma plist_roundtrip_witness : read_plist (renderPlist "l" "/b" ["</array>"] {["A" := "&lt;"]} "/log") = Some (agent_dict "l" "/b" ["</array>"] {["A" := "&lt;"]} "/log").
Proof. destruct (plist_roundtrip "l" "/b" ["</array>"] {["A" := "&lt;"]} "/log") as [H _]. exact H. Defined.

(** A digest with parent steps in its first characters leads out of the directory of binaries, to any executable of that name, whose contents nobody checks. *)
Definition escaping_host : HostServiceSpec :=
  MkHostServiceSpec "binary" "ollama" "https://ollama.com/x" "sha256:/../../../../obt000000000000000000000000000000000000000000000000" "tgz" [] ∅ "" [].
Definition escaped_binary : string := "/Users/u/Library/Application Support/obt/ollama".
Example digest_escapes : let m := set_files <[escaped_binary := ("anything", true)]> demo_start in
  Validate (MkSpec "" "" [] "" [] (Some escaping_host) None false) = Ok tt /\ (ensureBinary demo_driver escaping_host m).1 = Ok escaped_binary.
Proof. vm_compute. done. Qed.
