(* ===== verification/Services.v ===== *)
(** * The admin's own services: internal/runtime/system/services.go, services_linux.go

    The read-only list of systemd units that the admin installed.  systemd's
    answers over D-Bus are the class [Systemd]. *)

From S2P Require Import Prelude GoStrings SystemSpec.
From S2P Require UnitPolicy ManagedUnit.

Record ServiceInfo := MkServiceInfo {
  Name : string; Description : string; LoadState : string; ActiveState : string; SubState : string; UnitFileState : string; FragmentPath : string
}.
Definition with_file_state (t : string) (i : ServiceInfo) : ServiceInfo :=
  MkServiceInfo (Name i) (Description i) (LoadState i) (ActiveState i) (SubState i) t (FragmentPath i).

(** A loaded unit and a unit file, as systemd lists them. *)
Record UnitStatus := MkUnit { u_Name : string; u_Description : string; u_LoadState : string; u_ActiveState : string; u_SubState : string }.
Record UnitFile := MkUnitFile { f_path : string; f_type : string }.

Class Systemd := {
  list_units : res string (list UnitStatus);       (* or the error of the connection *)
  list_files : res string (list UnitFile);
  property : string -> string -> option string     (* of a unit, printed *)
}.

Definition startsWith (s p : string) : bool := has_prefix s p.
Definition shouldHideService (name fragmentPath : string) : bool :=
  inl name ["obacht-agent.service"; "obacht-power-toggle.service"] || bool_decide (fragmentPath = "") ||
  existsb (startsWith fragmentPath) ["/lib/"; "/usr/lib/"; "/run/"; "/etc/obacht/"] ||
  negb (startsWith fragmentPath "/etc/systemd/system/").

Definition unquoteDbusString (s : string) : string :=
  if (2 <=? slen s)%nat && has_prefix s (str1 "034") && has_suffix s (str1 "034") then stake (slen s - 2) (sdrop 1 s) else s.
(** What follows the last slash. *)
Definition basename (p : string) : string := List.last (split_on "/" p) "".

Section listing.
Context {systemd : Systemd}.

Definition prop_of (unit_ name : string) : string := match property unit_ name with Some v => unquoteDbusString v | None => "" end.

(** The loaded units, then the unit files that are not loaded. *)
Definition add_unit (m : gmap string ServiceInfo) (u : UnitStatus) : gmap string ServiceInfo :=
  let frag := prop_of (u_Name u) "FragmentPath" in
  if shouldHideService (u_Name u) frag then m
  else <[u_Name u := MkServiceInfo (u_Name u) (u_Description u) (u_LoadState u) (u_ActiveState u) (u_SubState u) "" frag]> m.
Definition add_file (m : gmap string ServiceInfo) (f : UnitFile) : gmap string ServiceInfo :=
  let name := basename (f_path f) in
  if shouldHideService name (f_path f) then m else
  match m !! name with
  | Some i => <[name := with_file_state (f_type f) i]> m
  | None => <[name := MkServiceInfo name "" "not-loaded" "" "" (f_type f) (f_path f)]> m
  end.
Definition fill (name : string) (i : ServiceInfo) : ServiceInfo :=
  if bool_decide (UnitFileState i = "") then match property name "UnitFileState" with Some v => with_file_state (unquoteDbusString v) i | None => i end else i.

Definition byName (units : list UnitStatus) (fs : list UnitFile) : gmap string ServiceInfo := fold_left add_file fs (fold_left add_unit units ∅).

Definition listCustomServicesImpl : res string (list ServiceInfo) :=
  match list_units, list_files with
  | Err e, _ => Err e
  | _, Err e => Err e
  | Ok units, Ok fs =>
      let m := map_imap (fun k i => Some (fill k i)) (byName units fs) in
      Ok (omap (fun n => m !! n) (sort_strings (map_to_list m).*1))
  end.

(** ** What is listed *)

(** A unit the admin may see, loaded or on disk. *)
Definition loaded_custom (units : list UnitStatus) (n : string) : Prop := exists u, u ∈ units /\ u_Name u = n /\ shouldHideService n (prop_of n "FragmentPath") = false.
Definition file_custom (fs : list UnitFile) (n : string) : Prop := exists f, f ∈ fs /\ basename (f_path f) = n /\ shouldHideService n (f_path f) = false.

(** Entries sit under their own name and are none of the hidden ones. *)
Definition table_ok (m : gmap string ServiceInfo) : Prop := forall n i, m !! n = Some i -> Name i = n /\ shouldHideService n (FragmentPath i) = false.

Lemma units_table units m : table_ok m ->
  table_ok (fold_left add_unit units m) /\ forall n, is_Some (fold_left add_unit units m !! n) <-> is_Some (m !! n) \/ loaded_custom units n.
Proof.
  revert m. induction units as [|u units IH]; intros m Hm; [split; [done|]; intros n; split; [by left|intros [?|(u & Hu & _)]; [done|by apply elem_of_nil in Hu]]|].
  cbn [fold_left]. assert (Ha : table_ok (add_unit m u) /\ forall n, is_Some (add_unit m u !! n) <-> is_Some (m !! n) \/ (u_Name u = n /\ shouldHideService n (prop_of n "FragmentPath") = false)).
  { unfold add_unit. destruct (shouldHideService _ _) eqn:Hh.
    - split; [done|]. intros n. split; [by left|]. intros [?|[<- ?]]; [done|congruence].
    - split.
      + intros n i [[<- <-]|[_ Hi]]%lookup_insert_Some; [done|by apply Hm].
      + intros n. rewrite lookup_insert_is_Some. split; [intros [<-|[_ ?]]; auto|]. destruct (decide (u_Name u = n)) as [?|?]; [by left|]. intros [?|[? _]]; [by right|done]. }
  destruct Ha as [H1 H2]. destruct (IH _ H1) as [H3 H4]. split; [done|]. intros n. rewrite H4, H2. unfold loaded_custom. setoid_rewrite elem_of_cons. naive_solver.
Qed.

Lemma files_table fs m : table_ok m ->
  table_ok (fold_left add_file fs m) /\ forall n, is_Some (fold_left add_file fs m !! n) <-> is_Some (m !! n) \/ file_custom fs n.
Proof.
  revert m. induction fs as [|f fs IH]; intros m Hm; [split; [done|]; intros n; split; [by left|intros [?|(u & Hu & _)]; [done|by apply elem_of_nil in Hu]]|].
  cbn [fold_left]. set (b := basename (f_path f)).
  assert (Ha : table_ok (add_file m f) /\ forall n, is_Some (add_file m f !! n) <-> is_Some (m !! n) \/ (b = n /\ shouldHideService n (f_path f) = false)).
  { unfold add_file. fold b. destruct (shouldHideService b (f_path f)) eqn:Hh.
    - split; [done|]. intros n. split; [by left|]. intros [?|[<- ?]]; [done|congruence].
    - assert (Hi : forall i, Name i = b -> shouldHideService b (FragmentPath i) = false -> table_ok (<[b := i]> m) /\
        forall n, is_Some (<[b := i]> m !! n) <-> is_Some (m !! n) \/ (b = n /\ shouldHideService n (f_path f) = false)).
      { intros i Hn Hf. split; [intros n j [[<- <-]|[_ Hj]]%lookup_insert_Some; [done|by apply Hm]|]. intros n. rewrite lookup_insert_is_Some.
        split; [intros [<-|[_ ?]]; auto|]. destruct (decide (b = n)) as [?|?]; [by left|]. intros [?|[? _]]; [by right|done]. }
      destruct (m !! b) as [i|] eqn:Hb; [destruct (Hm b i Hb)|]; by apply Hi. }
  destruct Ha as [H1 H2]. destruct (IH _ H1) as [H3 H4]. split; [done|]. intros n. rewrite H4, H2. unfold file_custom. setoid_rewrite elem_of_cons. naive_solver.
Qed.

Lemma fill_same k i : Name (fill k i) = Name i /\ FragmentPath (fill k i) = FragmentPath i.
Proof. unfold fill. destruct (bool_decide _); [|done]. by destruct (property _ _). Qed.

(** Values looked up under their own names give the names back. *)
Lemma names_of (m : gmap string ServiceInfo) ns : table_ok m -> Forall (fun n => is_Some (m !! n)) ns -> map Name (omap (fun n => m !! n) ns) = ns.
Proof.
  intros Hm Hn. induction Hn as [|n ns [i Hi] Hn IH]; [done|]. cbn. rewrite Hi. cbn. rewrite IH. f_equal. by apply Hm.
Qed.

(** The listing names, sorted and each once, exactly the units that are loaded or on disk and pass the filter, and shows no unit the filter hides. *)
Theorem listing_exact units fs out : list_units = Ok units -> list_files = Ok fs -> listCustomServicesImpl = Ok out ->
  NoDup (map Name out) /\ Sorted String.le (map Name out) /\
  (forall n, n ∈ map Name out <-> loaded_custom units n \/ file_custom fs n) /\
  forall i, i ∈ out -> shouldHideService (Name i) (FragmentPath i) = false.
Proof.
  unfold listCustomServicesImpl. intros -> -> [= <-]. destruct (units_table units ∅) as [U1 U2]; [intros n i Hi; by rewrite lookup_empty in Hi|].
  destruct (files_table fs _ U1) as [F1 F2]. fold (byName units fs) in F1, F2. set (m := map_imap _ (byName units fs)).
  assert (Hl : forall n, m !! n = fill n <$> byName units fs !! n) by (intros n; unfold m; rewrite map_lookup_imap; by destruct (byName units fs !! n)).
  assert (Hm : table_ok m).
  { intros n i. rewrite Hl. intros (i0 & Hi0 & ->)%fmap_Some. destruct (fill_same n i0) as [-> ->]. by apply F1. }
  assert (Hk : forall n, n ∈ (map_to_list m).*1 <-> is_Some (m !! n)).
  { intros n. rewrite list_elem_of_fmap. split; [intros ([k i] & -> & Hi%elem_of_map_to_list); by exists i|intros [i Hi]; exists (n, i); split; [done|by apply elem_of_map_to_list]]. }
  assert (Hn : map Name (omap (fun n => m !! n) (sort_strings (map_to_list m).*1)) = sort_strings (map_to_list m).*1).
  { apply names_of; [done|]. apply Forall_forall. intros n Hi. exact (proj1 (Hk n) (proj1 (elem_of_sort_strings _ _) Hi)). }
  rewrite Hn. split_and!.
  - rewrite (sort_strings_perm (map_to_list m).*1). apply NoDup_fst_map_to_list.
  - apply Sorted_merge_sort. apply _.
  - intros n. rewrite elem_of_sort_strings, Hk, Hl, fmap_is_Some, F2, U2, lookup_empty. split; [intros [[[? ?]|?]|?]; [done|auto..]|intros [?|?]; auto].
  - intros i (n & _ & Hi)%list_elem_of_omap. destruct (Hm n i Hi) as [<- ?]. done.
Qed.
End listing.

(** ** Instances *)
Definition demo_units : list UnitStatus := [MkUnit "vpn.service" "VPN" "loaded" "active" "running"; MkUnit "ssh.service" "SSH" "loaded" "active" "running"].
Definition demo_files : list UnitFile := [MkUnitFile "/etc/systemd/system/old.service" "disabled"; MkUnitFile "/etc/systemd/system/vpn.service" "enabled"].
#[local] Instance demo_systemd : Systemd := {
  list_units := Ok demo_units;
  list_files := Ok demo_files;
  property := fun u p => if bool_decide (p = "FragmentPath")
    then if bool_decide (u = "vpn.service") then Some (str1 "034" +:+ "/etc/systemd/system/vpn.service" +:+ str1 "034") else Some "/lib/systemd/system/ssh.service" else None
}.
Definition demo_listing : list ServiceInfo :=
  [MkServiceInfo "old.service" "" "not-loaded" "" "" "disabled" "/etc/systemd/system/old.service";
   MkServiceInfo "vpn.service" "VPN" "loaded" "active" "running" "enabled" "/etc/systemd/system/vpn.service"].
Lemma listing_exact_witness : listCustomServicesImpl = Ok demo_listing /\ Sorted String.le (map Name demo_listing).
Proof.
  assert (H : listCustomServicesImpl = Ok demo_listing) by (vm_compute; reflexivity). split; [exact H|].
  destruct (listing_exact (systemd := demo_systemd) demo_units demo_files demo_listing eq_refl eq_refl H) as (_ & Hs & _). exact Hs.
Defined.

(** The units the root helper installs for instances lie where the admin's do: they are listed. *)
Example managed_unit_listed : shouldHideService (ManagedUnit.ManagedUnitName "cam1") (UnitPolicy.UnitDir +:+ "/" +:+ ManagedUnit.ManagedUnitName "cam1") = false.
Proof. done. Qed.
