(* ===== verification/Flags.v ===== *)
(** * Command line flags, as package flag of the Go standard library parses them

    A flag set is the list of its flags with their kinds; parsing yields the
    settings in the order of the arguments (the last one of a name wins) and
    the arguments that are left.  A flag set of the command line client ends
    the process on an error (2) and on a request for help (0). *)

From S2P Require Import Prelude GoStrings Json.

Inductive kind := FString | FBool | FInt.
Definition flagset := list (string * kind).
Inductive setting := VString (s : string) | VBool (b : bool) | VInt (z : Z).
Inductive flag_error := ErrHelp | BadSyntax (s : string) | Undefined (name : string) | NeedsArgument (name : string) | Invalid (name value : string).

(** [strconv.ParseBool] *)
Definition ParseBool (s : string) : option bool :=
  if bool_decide (s ∈ ["1"; "t"; "T"; "true"; "TRUE"; "True"]) then Some true
  else if bool_decide (s ∈ ["0"; "f"; "F"; "false"; "FALSE"; "False"]) then Some false else None.

(** [strconv.ParseInt] with base 0 and 64 bits: prefixes and underscores. *)
Definition digit_of (c : ascii) : option Z :=
  if is_digit c then Some (Z.of_N (code c) - 48)%Z else
  let l := lower_byte c in if is_lower l then Some (Z.of_N (code l) - 87)%Z else None.
Fixpoint digits_in (base : Z) (s : string) (acc : Z) : option Z :=
  match s with
  | "" => Some acc
  | String c s => if Ascii.eqb c "_" then digits_in base s acc else
                  match digit_of c with Some d => if (d <? base)%Z then digits_in base s (acc * base + d)%Z else None | None => None end
  end.
Inductive last_seen := SBegin | SDigit | SUnder | SOther.
Fixpoint under_go (hex : bool) (seen : last_seen) (s : string) : bool :=
  match s with
  | "" => match seen with SUnder => false | _ => true end
  | String c s =>
      if is_digit c || (hex && between "a" "f" (lower_byte c)) then under_go hex SDigit s
      else if Ascii.eqb c "_" then match seen with SDigit => under_go hex SUnder s | _ => false end
      else match seen with SUnder => false | _ => under_go hex SOther s end
  end.
Definition base_of (c : ascii) : option Z :=
  let l := lower_byte c in if Ascii.eqb l "b" then Some 2%Z else if Ascii.eqb l "o" then Some 8%Z else if Ascii.eqb l "x" then Some 16%Z else None.
Definition underscoreOK (s : string) : bool :=
  match s with
  | String "0" (String c r) => match base_of c with Some b => under_go (b =? 16)%Z SDigit r | None => under_go false SBegin s end
  | _ => under_go false SBegin s
  end.
(** The magnitude. *)
Definition ParseUint0 (s : string) : option Z :=
  let '(base, digits) := match s with
    | String "0" (String c (String _ _ as r)) => match base_of c with Some b => (b, r) | None => (8%Z, String c r) end
    | String "0" r => (8%Z, r)
    | _ => (10%Z, s)
    end in
  if bool_decide (s = "") || (mem_byte "_" s && negb (underscoreOK s)) then None else digits_in base digits 0.
Definition ParseInt0 (s : string) : option Z :=
  z ← match s with String "-" d => Z.opp <$> ParseUint0 d | String "+" d => ParseUint0 d | _ => ParseUint0 s end;
  if int64_ok z then Some z else None.

Definition kind_of (fs : flagset) (name : string) : option kind := assoc name fs.
Definition read_value (k : kind) (name v : string) : res flag_error setting :=
  match k with
  | FString => Ok (VString v)
  | FBool => match ParseBool v with Some b => Ok (VBool b) | None => Err (Invalid name v) end
  | FInt => match ParseInt0 v with Some z => Ok (VInt z) | None => Err (Invalid name v) end
  end.

(** The name of an argument that is a flag, and the value after an equals sign. *)
Inductive shape := NotFlag | Terminator | Bad | Flag (name : string) (value : option string).
Definition flag_shape (s : string) : shape :=
  match s with
  | String "-" (String c r) =>
      let name := if Ascii.eqb c "-" then r else String c r in
      if Ascii.eqb c "-" && bool_decide (r = "") then Terminator else
      match name with
      | "" => Bad
      | String a _ => if Ascii.eqb a "-" || Ascii.eqb a "=" then Bad
                      else match cut name "=" with Some (n, v) => Flag n (Some v) | None => Flag name None end
      end
  | _ => NotFlag
  end.

Notation settings := (list (string * setting)).
(** [Parse]: one argument at a time; a flag that needs a value takes the next
    argument when none is attached. *)
Fixpoint Parse (fs : flagset) (args : list string) : res flag_error (settings * list string) :=
  match args with
  | [] => Ok ([], [])
  | a :: rest =>
      match flag_shape a with
      | NotFlag => Ok ([], a :: rest)
      | Terminator => Ok ([], rest)
      | Bad => Err (BadSyntax a)
      | Flag name value =>
          match kind_of fs name with
          | None => Err (if bool_decide (name ∈ ["help"; "h"]) then ErrHelp else Undefined name)
          | Some FBool =>
              let! v := read_value FBool name (default "true" value) in
              let! tail := Parse fs rest in Ok ((name, v) :: tail.1, tail.2)
          | Some k =>
              match value, rest with
              | Some v, _ => let! v := read_value k name v in let! tail := Parse fs rest in Ok ((name, v) :: tail.1, tail.2)
              | None, v :: rest' => let! v := read_value k name v in let! tail := Parse fs rest' in Ok ((name, v) :: tail.1, tail.2)
              | None, [] => Err (NeedsArgument name)
              end
          end
      end
  end.

(** The value of a flag after parsing. *)
Definition last_of (name : string) (vs : settings) : option setting :=
  fold_left (fun cur p => if bool_decide (p.1 = name) then Some p.2 else cur) vs None.
Definition str_of (def name : string) (vs : settings) : string := match last_of name vs with Some (VString s) => s | _ => def end.
Definition bool_of (name : string) (vs : settings) : bool := match last_of name vs with Some (VBool b) => b | _ => false end.
Definition int_of (def : Z) (name : string) (vs : settings) : Z := match last_of name vs with Some (VInt z) => z | _ => def end.

Example parse_ex : Parse [("id", FString); ("hard", FBool); ("n", FInt)] ["--id=a=b"; "-hard"; "--n"; "0x_1F"; "rest"; "--id"; "c"] =
  Ok ([("id", VString "a=b"); ("hard", VBool true); ("n", VInt 31)], ["rest"; "--id"; "c"]).
Proof. reflexivity. Qed.
Example parse_bad : Parse [("n", FInt)] ["--n=1__0"] = Err (Invalid "n" "1__0") /\ Parse [("id", FString)] ["--help"] = Err ErrHelp /\
  Parse [("id", FString)] ["--id"] = Err (NeedsArgument "id") /\ ParseInt0 "9223372036854775808" = None.
Proof. done. Qed.

(** A flag written with an equals sign, and one followed by its value, set it. *)
Lemma Parse_eq fs k name v rest : kind_of fs name = Some k -> k <> FBool -> name <> "" -> mem_byte "=" name = false -> has_prefix name (str1 "-") = false ->
  Parse fs ((("--" +:+ name) +:+ "=" +:+ v) :: rest) =
  (let! v := read_value k name v in let! tail := Parse fs rest in Ok ((name, v) :: tail.1, tail.2)).
Proof.
  intros Hk Hb Hn He Hd. destruct name as [|a name]; [done|]. cbn [Parse].
  replace (flag_shape (("--" +:+ String a name) +:+ "=" +:+ v)) with (Flag (String a name) (Some v)).
  - rewrite Hk. by destruct k.
  - change ((("--" +:+ String a name) +:+ "=" +:+ v)) with (String "-" (String "-" (String a (name +:+ "=" +:+ v)))). unfold flag_shape.
    change (Ascii.eqb "-" "-") with true. cbv iota. rewrite bool_decide_eq_false_2 by done. cbn [andb].
    rewrite has_prefix_str1 in Hd. cbn [mem_byte] in He. apply orb_false_iff in He as [He1 He2]. rewrite Hd, He1. cbn [orb].
    replace (cut (String a (name +:+ "=" +:+ v)) "=") with (Some (String a name, v)); [done|]. symmetry. apply cut_Some. split; [done|]. cbn [mem_byte]. by rewrite He1.
Qed.
