(* ===== verification/Ctl.v ===== *)
(** * The command line client: cmd/obachtctl/main.go

    Every command is a program over the client's state: the surroundings (the
    agent behind its socket, commands, files), the database of direct mode and
    what was printed.  It ends well or with an exit code and a message.  The
    answers of the surroundings are the class [Surroundings]; flags are parsed
    by [Flags], manifests are verified and materialised by [Trust] and
    [Materialize].  Usage texts are not represented. *)

From S2P Require Import Prelude Host GoStrings Codec Utf8 Json JsonEnc JsonDec GoAny Secrets Materialize Trust Store StoreInv Flags.
From S2P Require Dispatch.

(** ** The surroundings *)

(** A command that ran to an exit code, or did not. *)
Inductive command_result := Exited (code : Z) (output : string) | NotRun (t : string).

Class Surroundings (E : Type) := {
  exchange : string -> string -> option string -> E -> res string (Z * string) * E;   (* method, path, body *)
  run : list string -> E -> command_result * E;
  read_input : string -> E -> res string string;       (* a file, or standard input for a dash *)
  open_store : string -> E -> option string;           (* why the database does not open *)
  geteuid : Z;
  random4 : option string;                             (* four random bytes *)
  typed : string -> res string string;                 (* what the operator types, shown the code *)
  cliVersion : string;
  secret_bytes : string;
  now : Z
}.

Inductive message :=
| Usage | FlagError (e : flag_error) | Text (t : string) | StoreFailed (what : string) (e : store_error)
| SignatureRejected (e : trust_error) | BuildFailed (e : mat_error) | CommandFailed (what : string) (r : command_result).
Record ending := Exit { e_code : Z; e_message : message }.

Record runtime := MkRuntime { socket : string; dbPath : string }.
Definition directMode (rt : runtime) : bool := negb (bool_decide (dbPath rt = "")).

(** ** Checks *)
Definition serviceByte (c : ascii) : bool := is_alnum c || mem_byte c ".-_@".
Definition isValidServiceUnitName (name : string) : bool :=
  (0 <? slen name)%nat && (slen name <=? 128)%nat && has_prefix name "obacht-" && has_suffix name ".service" && str_all serviceByte name.
Definition allowedServiceVerbs : list string := ["start"; "stop"; "restart"; "reload"; "enable"; "disable"].
(** The release tags the update helper takes. *)
Definition version_ok (v : string) : bool :=
  bool_decide (v = "latest") ||
  match v with String "v" (String _ _ as r) => str_all (fun c => is_digit c || Ascii.eqb c ".") r | _ => false end.

Section ctl.
Context {E : Type} {surroundings : Surroundings E} (P : Dispatch.platform).

Record cli := MkCli { env_ : E; db_ : DB; out : string }.
Notation prog A := (Host.prog ending cli A).
Definition die {A} (m : message) : prog A := hfail (Exit 1 m).
Definition die_if (b : bool) (t : string) : prog unit := if b then die (Text t) else hret tt.
Definition print (t : string) : prog unit := fun c => (Ok tt, MkCli (env_ c) (db_ c) (out c +:+ t)).
Definition println (t : string) : prog unit := print (t +:+ str1 LF).
(** One line of JSON. *)
Definition encode (j : json) : prog unit := println (marshal j).
Definition parse_flags (fs : flagset) (args : list string) : prog (list (string * setting)) := fun c =>
  match Parse fs args with
  | Ok (vs, _) => (Ok vs, c)
  | Err ErrHelp => (Err (Exit 0 Usage), c)
  | Err e => (Err (Exit 2 (FlagError e)), c)
  end.

(** ** Talking to the agent *)

(** The body is encoded by [json.Marshal]; its error leaves the body empty. *)
Definition encoded (v : any) : string := match any_json v with Some j => marshal j | None => "" end.
Definition send (method path : string) (body : option any) : prog (res string (Z * string)) := fun c =>
  let '(r, e) := exchange method path (encoded <$> body) (env_ c) in (Ok r, MkCli e (db_ c) (out c)).
Definition doIPC (method path : string) (body : option any) : prog (Z * string) :=
  do! r := send method path body in match r with Ok a => hret a | Err t => die (Text t) end.
Definition ends_lf (s : string) : bool := has_suffix s (str1 LF).
Definition emit (answer : Z * string) : prog unit :=
  let '(code, body) := answer in
  if (400 <=? code)%Z then die (Text (trim_space body)) else
  print body ;;; if negb (bool_decide (body = "")) && negb (ends_lf body) then println "" else hret tt.
Definition ask (method path : string) (body : option any) : prog unit := do! a := doIPC method path body in emit a.
Definition requireIPC (rt : runtime) : prog unit := die_if (directMode rt) "this command requires the daemon (not available in --db mode)".
Definition str (v : string) : any := AStr v.

(** ** Direct mode *)
Definition openStore (rt : runtime) : prog unit := fun c =>
  match open_store (dbPath rt) (env_ c) with Some t => (Err (Exit 1 (Text ("open store: " +:+ t))), c) | None => (Ok tt, c) end.
Definition on_store {A} (what : string) (m : DB -> res store_error A * DB) : prog A := fun c =>
  let '(r, db) := m (db_ c) in
  (match r with Ok a => Ok a | Err e => Err (Exit 1 (StoreFailed what e)) end, MkCli (env_ c) db (out c)).

(** ** Instances *)
Definition instance_line (i : Instance) : json :=
  JObj [("id", JStr (ID i)); ("template_id", JStr (TemplateID i)); ("runtime", JStr (Runtime i)); ("version", JStr (Version i));
        ("desired_state", JStr (DesiredState i)); ("observed_state", JStr (ObservedState i))].
Definition instanceList (rt : runtime) : prog unit :=
  if directMode rt then openStore rt ;;; (fun c => encode (JArr (map instance_line (ListInstances (db_ c)))) c)
  else ask "GET" "/v1/admin/instances" None.

(** A JSON text as an [any]. *)
Definition unmarshal_any (s : string) : option any :=
  j ← json_parse s; let '(v, bad) := json_any (Dispatch.p_parse_float P) j in if (bad : bool) then None else Some v.
Definition is_nil (v : any) : bool := match v with ANull => true | _ => false end.

Definition read_config (file : string) : prog any := fun c =>
  if bool_decide (file = "") then (Ok ANull, c) else
  match read_input file (env_ c) with
  | Err t => (Err (Exit 1 (Text ("read config: " +:+ t))), c)
  | Ok b => match unmarshal_any b with Some v => (Ok v, c) | None => (Err (Exit 1 (Text "config-file is not valid JSON")), c) end
  end.
Definition instanceUpsert (rt : runtime) (args : list string) : prog unit :=
  do! vs := parse_flags [("id", FString); ("template", FString); ("runtime", FString); ("version", FString); ("state", FString); ("config-file", FString)] args in
  let id := str_of "" "id" vs in
  let template := str_of "" "template" vs in
  let kind := str_of "container" "runtime" vs in
  let version := str_of "" "version" vs in
  let desired := str_of "installed" "state" vs in
  die_if (bool_decide (id = "") || bool_decide (template = "")) "--id and --template are required" ;;;
  do! config := read_config (str_of "" "config-file" vs) in
  if directMode rt then
    openStore rt ;;;
    on_store "upsert: " (UpsertInstance (MkInstance id template kind version desired (if is_nil config then "" else encoded config) "" "" None "" None None None) now) ;;;
    encode (JObj [("ok", JBool true); ("id", JStr id)])
  else
    ask "POST" "/v1/admin/instances" (Some (AMap
      [("id", str id); ("template_id", str template); ("runtime", str kind); ("version", str version); ("desired_state", str desired); ("config", config)])).

Definition delete_path (id : string) (hard : bool) : string := "/v1/admin/instances/" +:+ id +:+ (if hard then "?hard=1" else "").
Definition mark_removed (i : Instance) : Instance :=
  MkInstance (ID i) (TemplateID i) (Runtime i) (Version i) DesiredRemoved (ConfigJSON i) (ObservedState i) (ObservedJSON i) (ObservedAt i)
    (ServiceReady i) (ReadyAt i) (CreatedAt i) (UpdatedAt i).
Definition instanceRemove (rt : runtime) (args : list string) : prog unit :=
  do! vs := parse_flags [("id", FString); ("hard", FBool)] args in
  let id := str_of "" "id" vs in
  die_if (bool_decide (id = "")) "--id is required" ;;;
  if directMode rt then
    openStore rt ;;;
    if bool_of "hard" vs then on_store "delete: " (DeleteInstance id) ;;; encode (JObj [("ok", JBool true); ("deleted", JStr id)])
    else do! got := on_store "get instance: " (fun db => (GetInstance id db, db)) in
         on_store "update: " (UpsertInstance (mark_removed got) now) ;;; encode (JObj [("ok", JBool true); ("marked_removed", JStr id)])
  else ask "DELETE" (delete_path id (bool_of "hard" vs)) None.

Definition instanceSecret (rt : runtime) (args : list string) : prog unit :=
  do! vs := parse_flags [("id", FString)] args in
  let id := str_of "" "id" vs in
  die_if (bool_decide (id = "")) "--id is required" ;;;
  if directMode rt then
    openStore rt ;;; do! secret := on_store "issue secret: " (CreateInstanceSecret id secret_bytes) in
    encode (JObj [("ok", JBool true); ("secret", JStr secret)])
  else ask "POST" ("/v1/admin/instances/" +:+ id +:+ "/secret") None.

(** The body is encoded twice: [json.Marshal] writes the bytes of the first
    encoding as a base64 string. *)
Definition state_bytes (state : string) : string := marshal (JObj [("state", JStr state)]).
Definition instanceSetState (rt : runtime) (args : list string) : prog unit :=
  do! vs := parse_flags [("id", FString); ("state", FString)] args in
  let id := str_of "" "id" vs in
  let state := str_of "" "state" vs in
  die_if (bool_decide (id = "") || bool_decide (state = "")) "--id and --state are required" ;;;
  die_if (negb (bool_decide (state ∈ ["installed"; "stopped"]))) "--state must be 'installed' or 'stopped'" ;;;
  ask "POST" ("/v1/admin/instances/" +:+ id +:+ "/state") (Some (AStr (b64_encode true (state_bytes state)))).

Definition cmdInstance (rt : runtime) (args : list string) : prog unit :=
  match args with
  | [] => die Usage
  | a :: rest =>
      if bool_decide (a = "list") then instanceList rt else
      if bool_decide (a = "upsert") then instanceUpsert rt rest else
      if bool_decide (a = "remove") then instanceRemove rt rest else
      if bool_decide (a = "secret") then instanceSecret rt rest else
      if bool_decide (a = "set-state") then instanceSetState rt rest else die (Text ("unknown instance subcommand: " +:+ a))
  end.

(** ** Domains and ingress *)
Definition domain_of (rt : runtime) (vs : list (string * setting)) (k : string -> prog unit) : prog unit :=
  let domain := str_of "" "domain" vs in
  die_if (bool_decide (domain = "")) "--domain is required" ;;; k domain.
Definition domainBind (rt : runtime) (args : list string) : prog unit :=
  do! vs := parse_flags [("domain", FString); ("instance", FString); ("service", FString); ("mode", FString); ("path-prefix", FString); ("local-port", FInt); ("json", FBool)] args in
  domain_of rt vs (fun domain =>
    let inst := str_of "" "instance" vs in
    let svc := str_of "" "service" vs in
    let port := int_of 0 "local-port" vs in
    let mode := [("mode", str (str_of "root" "mode" vs)); ("path_prefix", str (str_of "" "path-prefix" vs))] in
    if (0 <? port)%Z then
      die_if (negb (bool_decide (inst = "")) || negb (bool_decide (svc = ""))) "--local-port is mutually exclusive with --instance/--service" ;;;
      requireIPC rt ;;;
      ask "POST" "/v1/admin/bindings" (Some (AMap ([("domain", str domain); ("local_port", AInt port)] ++ mode)))
    else
      die_if (bool_decide (inst = "") || bool_decide (svc = "")) "--domain plus either --instance/--service or --local-port required" ;;;
      requireIPC rt ;;;
      ask "POST" "/v1/admin/bindings" (Some (AMap ([("domain", str domain); ("instance_id", str inst); ("service_name", str svc)] ++ mode)))).

Definition domainBasicAuth (rt : runtime) (args : list string) : prog unit :=
  do! vs := parse_flags [("domain", FString); ("user", FString); ("password", FString); ("clear", FBool)] args in
  domain_of rt vs (fun domain =>
    requireIPC rt ;;;
    let path := "/v1/admin/domains/" +:+ domain +:+ "/basic-auth" in
    if bool_of "clear" vs then ask "DELETE" path None else
    let user := str_of "" "user" vs in
    let password := str_of "" "password" vs in
    die_if (bool_decide (user = "") || bool_decide (password = "")) "--user and --password required (or --clear)" ;;;
    ask "POST" path (Some (AMap [("username", str user); ("password", str password)]))).

Definition domainService (rt : runtime) (args : list string) : prog unit :=
  do! vs := parse_flags [("instance", FString); ("service", FString); ("type", FString); ("target", FString)] args in
  let inst := str_of "" "instance" vs in
  let svc := str_of "" "service" vs in
  let target := str_of "" "target" vs in
  die_if (bool_decide (inst = "") || bool_decide (svc = "") || bool_decide (target = "")) "--instance, --service, --target required" ;;;
  requireIPC rt ;;;
  ask "POST" "/v1/admin/services" (Some (AMap
    [("instance_id", str inst); ("service_name", str svc); ("target_type", str (str_of "docker_dns" "type" vs)); ("target", str target)])).

Definition just_domain : flagset := [("domain", FString); ("json", FBool)].
Definition cmdDomain (rt : runtime) (args : list string) : prog unit :=
  match args with
  | [] => die Usage
  | a :: rest =>
      if bool_decide (a = "list") then requireIPC rt ;;; ask "GET" "/v1/admin/domains" None else
      if bool_decide (a = "claim") then do! vs := parse_flags just_domain rest in domain_of rt vs (fun d =>
        requireIPC rt ;;; ask "POST" "/v1/admin/domains" (Some (AMap [("domain", str d); ("desired_status", str "ready")]))) else
      if bool_decide (a = "unclaim") then do! vs := parse_flags just_domain rest in domain_of rt vs (fun d =>
        requireIPC rt ;;; ask "DELETE" ("/v1/admin/domains/" +:+ d) None) else
      if bool_decide (a = "bind") then domainBind rt rest else
      if bool_decide (a = "unbind") then do! vs := parse_flags just_domain rest in domain_of rt vs (fun d =>
        requireIPC rt ;;; ask "DELETE" ("/v1/admin/bindings/" +:+ d) None) else
      if bool_decide (a = "basic-auth") then domainBasicAuth rt rest else
      if bool_decide (a = "service") then domainService rt rest else die (Text ("unknown domain subcommand: " +:+ a))
  end.

Definition cmdIngress (rt : runtime) (args : list string) : prog unit :=
  match args with
  | "reload" :: _ => requireIPC rt ;;; ask "POST" "/v1/admin/ingress/reload" None
  | _ => die Usage
  end.
Definition cmdReconcile (rt : runtime) (args : list string) : prog unit :=
  match args with
  | "trigger" :: _ => die_if (directMode rt) "reconcile trigger requires the daemon (not available in --db mode)" ;;; ask "POST" "/v1/admin/reconcile" None
  | _ => die Usage
  end.
Definition cmdHealth (rt : runtime) : prog unit :=
  if directMode rt then println (bq "{`ok`:true,`mode`:`direct`}") else ask "GET" "/v1/health" None.
Definition cmdAudit (rt : runtime) (args : list string) : prog unit :=
  match args with
  | "tail" :: rest => do! vs := parse_flags [("n", FInt)] rest in requireIPC rt ;;; ask "GET" ("/v1/admin/audit?n=" +:+ itoa (int_of 50 "n" vs)) None
  | _ => die Usage
  end.
Definition cmdLogs (rt : runtime) (args : list string) : prog unit :=
  do! vs := parse_flags [("instance", FString); ("service", FString); ("tail", FInt)] args in
  let inst := str_of "" "instance" vs in
  let svc := str_of "" "service" vs in
  die_if (bool_decide (inst = "")) "--instance is required" ;;;
  requireIPC rt ;;;
  ask "GET" ("/v1/admin/instances/" +:+ inst +:+ "/logs?tail=" +:+ itoa (int_of 200 "tail" vs) +:+ (if bool_decide (svc = "") then "" else "&service=" +:+ svc)) None.

(** ** Commands with privileges *)
Definition run_command (args : list string) : prog command_result := fun c => let '(r, e) := run args (env_ c) in (Ok r, MkCli e (db_ c) (out c)).
Definition succeeded (r : command_result) : bool := match r with Exited 0 _ => true | _ => false end.
Definition exit_code (r : command_result) : Z := match r with Exited c _ => c | NotRun _ => -1 end.
Definition output_of (r : command_result) : string := match r with Exited _ o => o | NotRun _ => "" end.
Definition toggleBinary : string := "/usr/local/sbin/obacht-power-toggle".

(** The answer must be the first six hexadecimal digits of the random bytes. *)
Definition interactiveConfirm : prog unit :=
  match random4 with
  | None => die (Text "generate confirm code")
  | Some bytes =>
      let code := stake 6 (hex_encode bytes) in
      match typed code with
      | Err t => die (Text t)
      | Ok s => die_if (negb (bool_decide (trim_space s = code))) "confirm code did not match"
      end
  end.
Definition setting (key value : string) : prog unit := ask "POST" "/v1/admin/system/settings" (Some (AMap [("key", str key); ("value", str value)])).
(** What [systemUnlockPower] and [systemLockPower] share. *)
Definition power_flags : flagset := [("yes", FBool); ("toggle-binary", FString); ("skip-sudo", FBool); ("json", FBool)].
Definition systemPower (rt : runtime) (verb value : string) (args : list string) : prog unit :=
  do! vs := parse_flags power_flags args in
  (if bool_of "yes" vs then hret tt else interactiveConfirm) ;;;
  (if bool_of "skip-sudo" vs then hret tt else
   let toggle := str_of toggleBinary "toggle-binary" vs in
   do! r := run_command ((if (geteuid =? 0)%Z then [] else ["sudo"; "-n"]) ++ [toggle; verb]) in
   if succeeded r then hret tt else die (CommandFailed ("obacht-power-toggle " +:+ verb) r)) ;;;
  requireIPC rt ;;;
  setting "power_mode" value.
Definition systemUnlockPower (rt : runtime) (args : list string) : prog unit := systemPower rt "enable" "true" args.
Definition systemLockPower (rt : runtime) (args : list string) : prog unit := systemPower rt "disable" "false" args.
Definition systemSetPowerMode (rt : runtime) (args : list string) : prog unit :=
  do! vs := parse_flags [("enable", FBool); ("disable", FBool); ("json", FBool)] args in
  die_if (Bool.eqb (bool_of "enable" vs) (bool_of "disable" vs)) "exactly one of --enable / --disable is required" ;;;
  requireIPC rt ;;;
  setting "power_mode" (if bool_of "enable" vs then "true" else "false").
Definition systemUpdateAgent (args : list string) : prog unit :=
  do! vs := parse_flags [("version", FString)] args in
  let version := str_of "latest" "version" vs in
  die_if (bool_decide (version = "")) "--version cannot be empty" ;;;
  die_if (negb (version_ok version)) "--version must be 'latest' or vX.Y.Z" ;;;
  do! r := run_command ["sudo"; "-n"; "/usr/local/sbin/obacht-self-update"; version] in
  print (output_of r) ;;;
  if succeeded r then hret tt else die (CommandFailed "obacht-self-update failed" r).

Definition cmdSystem (rt : runtime) (args : list string) : prog unit :=
  match args with
  | [] => die Usage
  | a :: rest =>
      if bool_decide (a = "status") then requireIPC rt ;;; ask "GET" "/v1/system/status" None else
      if bool_decide (a = "set-power-mode") then systemSetPowerMode rt rest else
      if bool_decide (a = "unlock-power") then systemUnlockPower rt rest else
      if bool_decide (a = "lock-power") then systemLockPower rt rest else
      if bool_decide (a = "update-agent") then systemUpdateAgent rest else die (Text ("unknown system subcommand: " +:+ a))
  end.

(** ** Pinned keys *)
Definition cmdTrust (rt : runtime) (args : list string) : prog unit :=
  match args with
  | [] => die Usage
  | a :: rest =>
      die_if (directMode rt) "trust commands require the daemon (not available in --db mode)" ;;;
      if bool_decide (a = "list-user-keys") then ask "GET" "/v1/admin/user-keys" None else
      if bool_decide (a = "pin-user-key") then
        do! vs := parse_flags [("pubkey", FString); ("json", FBool)] rest in
        let pubkey := str_of "" "pubkey" vs in
        die_if (bool_decide (pubkey = "")) "--pubkey is required" ;;; ask "POST" "/v1/admin/user-keys" (Some (AMap [("public_key", str pubkey)]))
      else if bool_decide (a = "unpin-user-key") then
        do! vs := parse_flags [("fingerprint", FString); ("json", FBool)] rest in
        let fp := str_of "" "fingerprint" vs in
        die_if (bool_decide (fp = "")) "--fingerprint is required" ;;; ask "DELETE" "/v1/admin/user-keys" (Some (AMap [("fingerprint", str fp)]))
      else die (Text ("unknown trust subcommand: " +:+ a))
  end.

(** ** Units *)

(** Fails unless the agent reports power mode. *)
Definition dec_power : decoder any := dec_struct [fld "power_mode" (fun j (_ : any) => json_any (Dispatch.p_parse_float P) j) (fun v => v) (fun v _ => v)].
Definition power_on (v : any) : bool :=
  match v with ABool b => b | AStr s => bool_decide (s = "true") || bool_decide (s = "enabled") | _ => false end.
Definition assertPowerModeEnabled (rt : runtime) (prefix : string) : prog unit :=
  requireIPC rt ;;;
  do! r := send "GET" "/v1/system/status" None in
  match r with
  | Err t => die (Text (prefix +:+ "query system status: " +:+ t))
  | Ok (code, body) =>
      die_if (negb (code ÷ 100 =? 2)%Z) (prefix +:+ "system status returned HTTP " +:+ itoa code) ;;;
      match unmarshal dec_power ANull body with
      | None => die (Text (prefix +:+ "parse system status"))
      | Some v => die_if (negb (power_on v)) (prefix +:+ "power_mode is locked; run `obachtctl system unlock-power` first")
      end
  end.

Definition serviceControl (rt : runtime) (verb : string) (args : list string) : prog unit :=
  do! vs := parse_flags [("name", FString); ("json", FBool); ("systemctl", FString); ("toggle-binary", FString); ("skip-sudo", FBool); ("skip-power-check", FBool)] args in
  let name := str_of "" "name" vs in
  die_if (bool_decide (name = "")) "--name UNIT.service is required" ;;;
  die_if (negb (isValidServiceUnitName name)) "invalid unit name" ;;;
  (if bool_of "skip-power-check" vs then hret tt else assertPowerModeEnabled rt "") ;;;
  do! r := run_command (if bool_of "skip-sudo" vs then [str_of "/usr/bin/systemctl" "systemctl" vs; verb; name]
                        else ["sudo"; "-n"; str_of toggleBinary "toggle-binary" vs; "svc"; verb; name]) in
  let code := exit_code r in
  emit (if (code =? 0)%Z then 200 else 500,
        marshal (JObj [("ok", JBool (code =? 0)%Z); ("verb", JStr verb); ("unit", JStr name); ("exit_code", JNum (itoa code)); ("output", JStr (output_of r))]))%Z.
Definition cmdService (rt : runtime) (args : list string) : prog unit :=
  match args with
  | [] => die Usage
  | verb :: rest =>
      if bool_decide (verb = "list") then requireIPC rt ;;; ask "GET" "/v1/admin/systemd-services" None else
      die_if (negb (bool_decide (verb ∈ allowedServiceVerbs))) ("unknown service subcommand: " +:+ verb) ;;;
      serviceControl rt verb rest
  end.

(** ** Templates *)

(** [url.PathEscape] *)
Definition segmentByte (c : ascii) : bool := is_alnum c || mem_byte c "-_.~$&+=:@".
Definition upper_hex (n : N) : ascii := upper_byte (hex_digit n).
Fixpoint PathEscape (s : string) : string :=
  match s with
  | "" => ""
  | String c s => if segmentByte c then String c (PathEscape s)
                  else String "%" (String (upper_hex (code c / 16)) (String (upper_hex (code c mod 16)) (PathEscape s)))
  end.

(** The trust check of a manifest that comes with its signature. *)
Definition check_manifest (rt : runtime) (manifest64 signature64 : string) : prog (option string) :=
  die_if (negb (Bool.eqb (bool_decide (manifest64 = "")) (bool_decide (signature64 = "")))) "--manifest-base64 and --signature-base64 must be used together" ;;;
  if bool_decide (manifest64 = "") then hret None else
  match DecodeBase64 manifest64, DecodeBase64 signature64 with
  | None, _ => die (Text "--manifest-base64 not valid base64")
  | Some _, None => die (Text "--signature-base64 not valid base64")
  | Some manifest, Some sig =>
      match manifest_Verify (Dispatch.p_unmarshal P) (Dispatch.p_minisign P) manifest sig (Dispatch.p_trustDir P) with
      | Err e => die (SignatureRejected e)
      | Ok _ =>
          (if bool_decide (ExtractMinSudoLevel (Dispatch.p_yaml_string P) manifest = "power")
           then assertPowerModeEnabled rt "template requires power mode: " else hret tt) ;;;
          hret (Some manifest)
      end
  end.

(** The user's values of [--config-json] when a manifest is materialised. *)
Definition user_values (config : any) : prog amap :=
  match config with
  | ANull => hret []
  | AMap m => hret m
  | _ => die (Text "--config-json must be a JSON object when materialising from manifest")
  end.
Definition sentinel (v : any) : bool := match v with AStr s => bool_decide (s = SecretKeepSentinel) | _ => false end.
Definition HasSecretSentinel (m : amap) : bool := existsb (fun p => sentinel p.2) m.
Definition resolve (stored : amap) (p : string * any) : string * any :=
  if negb (sentinel p.2) then p else
  match assoc p.1 stored with Some sv => if sentinel sv then (p.1, AStr "") else (p.1, sv) | None => (p.1, AStr "") end.
Definition dec_input : decoder amap := dec_struct [fld "input" (dec_amap (Dispatch.p_parse_float P)) (fun m => m) (fun m _ => m)].
Definition stored_values (rt : runtime) (id : string) (m : amap) : prog amap :=
  if negb (HasSecretSentinel m) then hret m else
  requireIPC rt ;;;
  do! r := send "GET" ("/v1/admin/instances/" +:+ PathEscape id +:+ "/config-input") None in
  match r with
  | Ok (200, body) => match unmarshal dec_input [] body with
                      | None => die (Text "cannot parse stored config input")
                      | Some stored => hret (map (resolve stored) m)
                      end
  | _ => die (Text ("cannot resolve stored secret values for " +:+ id))
  end%Z.

Definition install_flags : flagset :=
  [("id", FString); ("instance", FString); ("version", FString); ("config-json", FString); ("manifest-base64", FString); ("signature-base64", FString); ("json", FBool)].
Definition built_config (rt : runtime) (manifest : option string) (config : any) (iid tid version : string) : prog (any * string * string) :=
  match manifest with
  | None => hret (config, "container", version)
  | Some m =>
      do! values := user_values config in
      do! values := stored_values rt iid values in
      match BuildInstanceConfig (Dispatch.p_environ P) (Dispatch.p_yaml_load P) (Dispatch.p_yaml_string P) (Dispatch.p_yaml_schema P) (Dispatch.p_parse_float P) m values iid tid version with
      | Err e => die (BuildFailed e)
      | Ok built => hret (I_Config built, I_Runtime built, I_Version built)
      end
  end.
Definition templateInstall (rt : runtime) (args : list string) : prog unit :=
  do! vs := parse_flags install_flags args in
  let tid := str_of "" "id" vs in
  let iid := str_of "" "instance" vs in
  let config_json := str_of "" "config-json" vs in
  die_if (bool_decide (tid = "") || bool_decide (iid = "")) "--id and --instance are required" ;;;
  do! manifest := check_manifest rt (str_of "" "manifest-base64" vs) (str_of "" "signature-base64" vs) in
  do! config := (if bool_decide (config_json = "") then hret ANull else
                 match unmarshal_any config_json with Some v => hret v | None => die (Text "--config-json is not valid JSON") end) in
  do! built := built_config rt manifest config iid tid (str_of "" "version" vs) in
  let '(config, kind, version) := built in
  requireIPC rt ;;;
  ask "POST" "/v1/admin/instances" (Some (AMap
    [("id", str iid); ("template_id", str tid); ("runtime", str kind); ("version", str (if bool_decide (version = "") then "unknown" else version));
     ("desired_state", str "installed"); ("config", config); ("signed", ABool (bool_decide (is_Some manifest)))])).

Definition templateUninstall (rt : runtime) (args : list string) : prog unit :=
  do! vs := parse_flags [("instance", FString); ("hard", FBool); ("json", FBool)] args in
  let iid := str_of "" "instance" vs in
  die_if (bool_decide (iid = "")) "--instance is required" ;;;
  requireIPC rt ;;;
  ask "DELETE" (delete_path iid (bool_of "hard" vs)) None.
Definition cmdTemplate (rt : runtime) (args : list string) : prog unit :=
  match args with
  | [] => die Usage
  | a :: rest => if bool_decide (a = "install") then templateInstall rt rest else
                 if bool_decide (a = "uninstall") then templateUninstall rt rest else die (Text ("unknown template subcommand: " +:+ a))
  end.

(** ** The process *)
Definition command (rt : runtime) (a : string) (rest : list string) : prog unit :=
  if bool_decide (a = "version") then println (trim_prefix cliVersion "v") else
  if bool_decide (a = "health") then cmdHealth rt else
  if bool_decide (a = "instance") then cmdInstance rt rest else
  if bool_decide (a = "template") then cmdTemplate rt rest else
  if bool_decide (a = "domain") then cmdDomain rt rest else
  if bool_decide (a = "ingress") then cmdIngress rt rest else
  if bool_decide (a = "reconcile") then cmdReconcile rt rest else
  if bool_decide (a = "audit") then cmdAudit rt rest else
  if bool_decide (a = "service") then cmdService rt rest else
  if bool_decide (a = "system") then cmdSystem rt rest else
  if bool_decide (a = "trust") then cmdTrust rt rest else
  if bool_decide (a = "logs") then cmdLogs rt rest else hfail (Exit 2 Usage).
Definition main (defaultSocket : string) (args : list string) : prog unit := fun c =>
  match Parse [("socket", FString); ("db", FString)] args with
  | Err ErrHelp => (Err (Exit 0 Usage), c)
  | Err e => (Err (Exit 2 (FlagError e)), c)
  | Ok (vs, []) => (Err (Exit 2 Usage), c)
  | Ok (vs, a :: rest) => command (MkRuntime (str_of defaultSocket "socket" vs) (str_of "" "db" vs)) a rest c
  end.
End ctl.
