(* ===== verification/CtlProps.v ===== *)
(** * What the command line client guarantees

    Against any agent: no manifest that fails its check has an effect, power
    mode changes only after a confirmation, controlling a unit runs nothing but
    the root helper, and the unit names it lets through are those the helper
    takes.  On the agent's own server: ClientServer.v. *)

From S2P Require Import Prelude Host GoStrings Codec Utf8 Json JsonEnc JsonDec Jcs JsonRound GoAny Materialize Trust Store StoreInv Flags Ctl.
From S2P Require Dispatch Ipc UnitPolicy RootHelper IpcProps.

(** ** Any agent *)
Section any_agent.
Context {E : Type} {surroundings : Surroundings E} (P : Dispatch.platform).
Notation cli := (Ctl.cli (E := E)).
Notation prog A := (Host.prog ending cli A).

Lemma die_if_run {A} b t (k : unit -> prog A) c r c' : hbind (die_if b t) k c = (r, c') -> (b = true /\ c' = c /\ r = Err (Exit 1 (Text t))) \/ (b = false /\ k tt c = (r, c')).
Proof. unfold hbind, die_if, die, hfail, hret. destruct b; [intros [= <- <-]; by left|by right]. Qed.
Lemma flags_run {A} fs args (k : list (string * Flags.setting) -> prog A) c r c' : hbind (parse_flags fs args) k c = (r, c') ->
  (c' = c /\ forall v, r <> Ok v) \/ exists vs rest, Parse fs args = Ok (vs, rest) /\ k vs c = (r, c').
Proof.
  unfold hbind, parse_flags. destruct (Parse fs args) as [[vs rest]|e]; [right; by exists vs, rest|]. left. by destruct e; simplify_eq.
Qed.

(** The manifest passes its check. *)
Definition manifest_accepted (manifest64 signature64 : string) : Prop :=
  exists manifest sig, DecodeBase64 manifest64 = Some manifest /\ DecodeBase64 signature64 = Some sig /\
    manifest_Verify (Dispatch.p_unmarshal P) (Dispatch.p_minisign P) manifest sig (Dispatch.p_trustDir P) = Ok tt.

Lemma check_manifest_run {A} rt m64 s64 (k : option string -> prog A) c r c' : hbind (check_manifest P rt m64 s64) k c = (r, c') ->
  env_ c' = env_ c \/ (m64 = "" /\ s64 = "") \/ manifest_accepted m64 s64.
Proof.
  unfold check_manifest. intros Hr. assert (Hb : hbind (check_manifest P rt m64 s64) k c = (r, c')) by exact Hr. clear Hr. unfold check_manifest in Hb.
  destruct (decide (m64 = "")) as [Hm|Hm], (decide (s64 = "")) as [Hs|Hs]; [right; by left|left|left|].
  - subst m64. unfold hbind in Hb. rewrite (bool_decide_eq_false_2 (s64 = "")) in Hb by done. by injection Hb as <- <-.
  - subst s64. unfold hbind in Hb. rewrite (bool_decide_eq_false_2 (m64 = "")) in Hb by done. by injection Hb as <- <-.
  - rewrite !(bool_decide_eq_false_2 (_ = "")) in Hb by done. cbn -[DecodeBase64 manifest_Verify] in Hb. unfold hbind at 2, hret at 1 in Hb. cbv beta iota in Hb.
    destruct (DecodeBase64 m64) as [manifest|] eqn:H1; [|left; by injection Hb as <- <-].
    destruct (DecodeBase64 s64) as [sig|] eqn:H2; [|left; by injection Hb as <- <-].
    destruct (manifest_Verify _ _ manifest sig _) as [[]|] eqn:H3; [|left; by injection Hb as <- <-].
    right; right. by exists manifest, sig.
Qed.

(** C26: An install that comes with a manifest or a signature reaches the agent only when both are given, both decode, and a trusted registry key signed the manifest. *)
Theorem install_needs_signature rt args vs rest c : Parse install_flags args = Ok (vs, rest) ->
  str_of "" "manifest-base64" vs <> "" \/ str_of "" "signature-base64" vs <> "" ->
  env_ (templateInstall P rt args c).2 = env_ c \/ manifest_accepted (str_of "" "manifest-base64" vs) (str_of "" "signature-base64" vs).
Proof.
  intros Hp Hgiven. destruct (templateInstall P rt args c) as [r c'] eqn:Hr. unfold templateInstall in Hr.
  apply flags_run in Hr as [[-> _]|(vs' & rest' & Hp' & Hr)]; [by left|]. rewrite Hp in Hp'. injection Hp' as <- <-. cbv zeta in Hr.
  apply die_if_run in Hr as [(_ & -> & _)|[_ Hr]]; [by left|]. apply check_manifest_run in Hr as [He|[[H1 H2]|Ha]]; [by left| |by right].
  destruct Hgiven; done.
Qed.

(** The operator typed the code that was shown. *)
Definition confirmed : Prop := exists bytes answer, random4 = Some bytes /\ typed (stake 6 (hex_encode bytes)) = Ok answer /\ trim_space answer = stake 6 (hex_encode bytes).

(** Unlocking or locking power mode without --yes does nothing at all, neither the privileged helper nor the agent, unless the operator typed back the random code. *)
Theorem power_confirmed rt verb value args vs rest c : Parse power_flags args = Ok (vs, rest) -> bool_of "yes" vs = false ->
  env_ (systemPower rt verb value args c).2 = env_ c \/ confirmed.
Proof.
  intros Hp Hy. destruct (systemPower rt verb value args c) as [r c'] eqn:Hr. unfold systemPower in Hr.
  apply flags_run in Hr as [[-> _]|(vs' & rest' & Hp' & Hr)]; [by left|]. rewrite Hp in Hp'. injection Hp' as <- <-. rewrite Hy in Hr. unfold interactiveConfirm in Hr.
  destruct random4 as [bytes|] eqn:Hb; [|left; by injection Hr as <- <-]. destruct (typed (stake 6 (hex_encode bytes))) as [answer|] eqn:Ht; [|left; by injection Hr as <- <-].
  apply die_if_run in Hr as [(_ & -> & _)|[Hc _]]; [by left|]. apply negb_false_iff, bool_decide_eq_true in Hc. right. by exists bytes, answer.
Qed.

(** *** Units *)

(** The request for the status changes nothing and every other one is allowed to. *)
Definition unit_command (args : list string) : Prop :=
  exists verb name, verb ∈ allowedServiceVerbs /\ isValidServiceUnitName name = true /\ args = ["sudo"; "-n"; toggleBinary; "svc"; verb; name].
Section unit_control.
Context (Q : E -> Prop).
Hypothesis status_keeps : forall e, Q e -> Q (exchange "GET" "/v1/system/status" None e).2.
Hypothesis units_keep : forall e args, unit_command args -> Q e -> Q (run args e).2.
Notation kept := (keeps (fun c : cli => Q (env_ c))).

Lemma kept_die {A} m : kept (die (A := A) m).
Proof. by intros c Hc. Qed.
Lemma kept_die_if b t : kept (die_if b t).
Proof. unfold die_if. destruct b; [apply kept_die|apply keeps_ret]. Qed.
Lemma kept_flags fs args : kept (parse_flags fs args).
Proof. intros c Hc. unfold parse_flags. by destruct (Parse fs args) as [[??]|[]]. Qed.
Lemma kept_guard {A} b t (k : unit -> prog A) : (b = false -> kept (k tt)) -> kept (hbind (die_if b t) k).
Proof. intros Hk c Hc. unfold hbind, die_if. destruct b; [done|]. by apply Hk. Qed.
Lemma kept_parsed {A} fs args vs rest (k : list (string * Flags.setting) -> prog A) : Parse fs args = Ok (vs, rest) -> kept (k vs) -> kept (hbind (parse_flags fs args) k).
Proof. intros Hp Hk c Hc. unfold hbind, parse_flags. rewrite Hp. by apply Hk. Qed.
Lemma kept_emit a : kept (emit a).
Proof. unfold emit. destruct a as [code body]. destruct (400 <=? code)%Z; [apply kept_die|]. apply keeps_bind; [by intros c Hc|]. intros _. destruct (_ && _); [by intros c Hc|apply keeps_ret]. Qed.
Lemma kept_power rt prefix : kept (assertPowerModeEnabled P rt prefix).
Proof.
  unfold assertPowerModeEnabled. apply keeps_bind; [apply kept_die_if|]. intros _. apply keeps_bind.
  - intros c Hc. unfold send. pose proof (status_keeps (env_ c) Hc) as Hs. cbn [fmap option_fmap option_map]. by destruct (exchange _ _ _ _) as [r e].
  - intros r. destruct r as [[code body]|]; [|apply kept_die]. apply keeps_bind; [apply kept_die_if|]. intros _. destruct (unmarshal _ _ _); [apply kept_die_if|apply kept_die].
Qed.

(** Controlling a unit, without the flags for tests, runs nothing but the root helper's svc command, with an allowed verb and the name of an obacht service. *)
Lemma kept_control rt verb args vs rest : verb ∈ allowedServiceVerbs -> Parse [("name", FString); ("json", FBool); ("systemctl", FString); ("toggle-binary", FString); ("skip-sudo", FBool); ("skip-power-check", FBool)] args = Ok (vs, rest) ->
  bool_of "skip-sudo" vs = false -> str_of toggleBinary "toggle-binary" vs = toggleBinary -> kept (serviceControl P rt verb args).
Proof.
  intros Hv Hp Hs Ht. unfold serviceControl. apply (kept_parsed _ _ _ _ _ Hp). cbv zeta. rewrite Hs, Ht. apply kept_guard. intros _. apply kept_guard. intros Hn. apply negb_false_iff in Hn.
  apply keeps_bind; [destruct (bool_of "skip-power-check" vs); [apply keeps_ret|apply kept_power]|]. intros _. apply keeps_bind; [|intros r; apply kept_emit].
  intros c Hc. unfold run_command. pose proof (units_keep (env_ c) ["sudo"; "-n"; toggleBinary; "svc"; verb; str_of "" "name" vs]) as Hk. destruct (run _ _) as [r e]. apply Hk; [|done].
  by exists verb, (str_of "" "name" vs).
Qed.
End unit_control.
End any_agent.

(** What the client lets through the helper accepts, but for the name that is the prefix and the suffix alone. *)
Lemma helper_agrees verb name : verb ∈ allowedServiceVerbs -> isValidServiceUnitName name = true -> name <> "obacht-.service" ->
  UnitPolicy.inb verb RootHelper.allowedSvcVerbs = true /\ RootHelper.svcUnitRe name = true.
Proof.
  intros Hv Hn Hne. split; [by apply bool_decide_eq_true_2|]. unfold isValidServiceUnitName in Hn. rewrite !andb_true_iff in Hn. destruct Hn as [[[_ Hp] Hs] Hb].
  apply has_prefix_spec in Hp as [r ->]. unfold RootHelper.svcUnitRe. replace (strip_prefix ("obacht-" +:+ r) "obacht-") with (Some r) by (symmetry; by apply strip_prefix_Some).
  rewrite str_all_app in Hb. apply andb_true_iff in Hb as [_ Hb]. apply has_suffix_spec in Hs as [t Ht].
  assert (Hr : exists mid, r = mid +:+ ".service" /\ mid <> "").
  { do 7 (destruct t as [|? t]; [cbn in Ht; simplify_eq|]). cbn in Ht. injection Ht. intros Hr. do 7 (intros _). exists t. split; [exact Hr|]. intros ->. apply Hne. by rewrite Hr. }
  destruct Hr as (mid & -> & Hm). cbn [existsb]. replace (strip_suffix (mid +:+ ".service") ".service") with (Some mid) by (symmetry; by apply strip_suffix_Some).
  rewrite bool_decide_eq_false_2 by done. rewrite str_all_app in Hb. apply andb_true_iff in Hb as [Hb _]. cbn [negb andb].
  rewrite (str_all_impl serviceByte UnitPolicy.unitByte mid); [done| |exact Hb].
  intros c. unfold serviceByte, UnitPolicy.unitByte. cbn [mem_byte]. rewrite !orb_true_iff. tauto.
Qed.
