(* ===== verification/ClientServer.v ===== *)
(** * The command line client on the local API

    The surroundings of [Ctl] whose agent is the server of [Ipc]: the client
    connects with some uid, its paths are read as the multiplexer reads them
    and its bodies as the handlers do.  Writing an instance through the agent
    leaves the rows that direct mode leaves; the command that sets the state
    of an instance never gets through; an id is not escaped in a path. *)

From S2P Require Import Prelude Host GoStrings Codec Utf8 Json JsonEnc JsonDec Jcs JsonRound GoAny Trust Store StoreInv Flags Ctl CtlProps.
From S2P Require Dispatch DispatchProps Ipc IpcProps AuditLog.

(** ** Reading what was written *)
Lemma first_value_scan s st m v : scan st m s = Some ([], MDone v) -> Ipc.first_value st m s = Some v.
Proof.
  revert st m. induction s as [|c s IH]; intros st m; cbn [scan Ipc.first_value]; [by intros [= -> ->]|].
  destruct (step st m c) as [[st' m']|] eqn:Hs; [|done]. cbn [mbind option_bind]. intros H. specialize (IH _ _ H).
  destruct st as [|f st]; [|done]. destruct m; try done. cbn [step] in Hs. unfold step_done in Hs.
  destruct (is_ws c); [|done]. injection Hs as <- <-. by destruct s.
Qed.

Definition not_number (j : json) : bool := match j with JNum _ => false | _ => true end.
Lemma first_value_render j : printable j = true -> depth j <= maxNestingDepth -> not_number j = true -> Ipc.first_value [] MValue (render j) = Some j.
Proof.
  intros Hp Hd Hn. destruct (printable_readable j Hp []) as (p & Hs & Hl); [done|]. apply first_value_scan. rewrite Hs.
  destruct Hl as [->|(ns & raw & -> & _ & ->)]; done.
Qed.
Lemma stake_all s n : slen s <= n -> stake n s = s.
Proof. revert n. induction s as [|c s IH]; intros [|n] H; cbn in *; try done; [lia|]. f_equal. apply IH. lia. Qed.

Section client.
Context {wiring : Ipc.Wiring} (uid : Z) (P : Dispatch.platform).

(** ** The connection *)

(** A path of plain bytes: what net/http and net/url make of it. *)
Definition query_pairs (q : string) : list (string * string) := omap (fun p => if bool_decide (p = "") then None else Some (default (p, "") (cut p "="))) (split_on "&" q).
Definition target (path : string) : list string * list (string * string) :=
  let '(p, q) := default (path, "") (cut path "?") in (tail (split_on "/" p), query_pairs q).
Definition asked (method path : string) (body : option string) : Ipc.request :=
  Ipc.MkRequest (Ok uid) method (target path).1 (target path).2 "" (default "" body).
(** The text of an answer: the encoder sorts the members and ends the line. *)
Definition answer_text (r : Ipc.response) : string := match Ipc.body r with Some j => marshal j +:+ str1 LF | None => "" end.

(** What the rest of the host does is arbitrary. *)
Class Host_side := {
  h_run : list string -> Ipc.server -> command_result * Ipc.server;
  h_input : string -> Ipc.server -> res string string;
  h_open : string -> Ipc.server -> option string;
  h_euid : Z;
  h_random : option string;
  h_typed : string -> res string string
}.
Context {host_side : Host_side}.
#[export] Instance connected : Surroundings Ipc.server := {|
  exchange method path body s := let '(r, s') := Ipc.serve (asked method path body) s in (Ok (Ipc.code_ r, answer_text r), s');
  run := h_run; read_input := h_input; open_store := h_open; geteuid := h_euid; random4 := h_random; typed := h_typed;
  cliVersion := Ipc.version; secret_bytes := Ipc.secret_bytes; now := Ipc.now
|}.

(** The client and the server, before a command. *)
Notation cli := (Ctl.cli (E := Ipc.server)).
Definition admin_client : Prop := Ipc.is_admin uid = true.

(** One segment that the multiplexer neither splits nor cleans. *)
Definition plain_id (id : string) : bool := Ipc.isSafeArg id && negb (bool_decide (id = ".")) && negb (bool_decide (id = "..")).

Lemma ask_run method path body (c : cli) : let '(a, s) := Ipc.serve (asked method path (encoded <$> body)) (env_ c) in
  env_ (ask method path body c).2 = s /\ ((400 <=? Ipc.code_ a)%Z = true -> forall v, (ask method path body c).1 <> Ok v).
Proof.
  unfold ask, doIPC, Ctl.send, hbind. cbn [exchange connected]. destruct (Ipc.serve _ _) as [a s]. cbn [hret]. unfold emit.
  destruct (400 <=? Ipc.code_ a)%Z; [done|]. split; [|done]. unfold hbind, print. cbn. by destruct (_ && _).
Qed.

Lemma ask_ok method path body (c : cli) : let '(a, s) := Ipc.serve (asked method path (encoded <$> body)) (env_ c) in
  (400 <=? Ipc.code_ a)%Z = false -> (ask method path body c).1 = Ok tt.
Proof.
  unfold ask, doIPC, Ctl.send, hbind. cbn [exchange connected]. destruct (Ipc.serve _ _) as [a s]. cbn [hret]. unfold emit. intros ->.
  unfold hbind, print. cbn. by destruct (_ && _).
Qed.

(** *** Paths *)
Lemma plain_bytes id : plain_id id = true -> id <> "" /\ forall b, Ipc.safe_byte b = false -> mem_byte b id = false.
Proof.
  unfold plain_id, Ipc.isSafeArg. rewrite !andb_true_iff, !negb_true_iff. intros [[[[Hne _] Hb] _] _]. split; [by intros ->|].
  intros b Hs. clear Hne. induction id as [|a id IH]; [done|]. cbn in Hb |- *. apply andb_true_iff in Hb as [Ha Hb]. rewrite IH by done.
  destruct (Ascii.eqb_spec a b) as [->|]; [congruence|done].
Qed.
Lemma target_of_segments l : l <> [] -> Forall (fun x => mem_byte "/" x = false /\ mem_byte "?" x = false) l -> target ("/" +:+ join "/" l) = (l, []).
Proof.
  intros Hne Hl. unfold target. assert (Hq : cut ("/" +:+ join "/" l) "?" = None).
  { destruct (cut _ _) as [[a b]|] eqn:Hc; [|done]. apply cut_Some in Hc as [Hc _]. exfalso.
    assert (Hm : mem_byte "?" ("/" +:+ join "/" l) = false).
    { cbn. clear Hc Hne. induction Hl as [|x l [_ Hx] Hl IH]; [done|]. destruct l as [|y l]; [done|].
      change (join "/" (x :: y :: l)) with (x +:+ "/" +:+ join "/" (y :: l)). rewrite mem_byte_any, !str_any_app, <- !mem_byte_any, Hx, IH. done. }
    rewrite Hc, mem_byte_any, str_any_app in Hm. cbn in Hm. by rewrite orb_true_r in Hm. }
  rewrite Hq. cbn -[split_on join]. change (String "/" (join "/" l)) with ("" +:+ String "/" (join "/" l)). rewrite split_on_cons by done.
  change (join "/" l) with (join (str1 "/") l). rewrite split_on_join; [done|done|]. eapply Forall_impl; [exact Hl|]. by intros x [].
Qed.

(** *** The state of an instance *)
Lemma serve_state body id s : plain_id id = true ->
  Ipc.serve (asked "POST" ("/v1/admin/instances/" +:+ id +:+ "/state") body) s =
  Ipc.adminGuard (asked "POST" ("/v1/admin/instances/" +:+ id +:+ "/state") body) (Ipc.adminSetInstanceState (asked "POST" ("/v1/admin/instances/" +:+ id +:+ "/state") body) id) s.
Proof.
  intros Hid. apply plain_bytes in Hid as [Hne Hb]. unfold asked.
  replace (target _) with (["v1"; "admin"; "instances"; id; "state"], @nil (string * string)).
  { destruct id; [done|]. reflexivity. }
  symmetry. apply (target_of_segments ["v1"; "admin"; "instances"; id; "state"]); [done|]. repeat (constructor; [by split; [try apply Hb|try apply Hb]|]). constructor.
Qed.

Lemma state_body_bad state r : state ∈ ["installed"; "stopped"] -> Ipc.r_body r = default "" (encoded <$> Some (AStr (b64_encode true (state_bytes state)))) ->
  Ipc.decode 1024 (dec_struct [fld "state" dec_string (fun x => x) (fun v _ => v)]) "" r = None.
Proof. intros Hs Hb. unfold Ipc.decode. rewrite Hb. rewrite !elem_of_cons, elem_of_nil in Hs. destruct Hs as [->|[->|[]]]; by vm_compute. Qed.
Lemma state_refused id body (s : Ipc.server) : plain_id id = true -> (forall r, Ipc.r_body r = default "" body -> Ipc.decode 1024 (dec_struct [fld "state" dec_string (fun x => x) (fun v _ => v)]) "" r = None) ->
  let r := Ipc.serve (asked "POST" ("/v1/admin/instances/" +:+ id +:+ "/state") body) s in r.2 = s /\ (400 <=? Ipc.code_ r.1)%Z = true.
Proof.
  intros Hid Hb. cbv zeta. rewrite serve_state by done. unfold Ipc.adminGuard. cbn [Ipc.r_peer asked].
  destruct (Ipc.is_admin uid); [|done]. unfold Ipc.adminSetInstanceState. by rewrite Hb.
Qed.

(** C28: The command that installs or stops an instance is refused by the agent for every state and every instance whose identifier is a segment of a path (letters, digits, dots, dashes, underscores, and not one or two dots alone), and changes nothing: its body reaches the agent as a base64 text instead of an object.  (With a slash and a question mark in the identifier the request is another one: [set_state_elsewhere].) *)
Theorem set_state_refused rt args vs rest (c : cli) : Parse [("id", FString); ("state", FString)] args = Ok (vs, rest) -> plain_id (str_of "" "id" vs) = true ->
  env_ (instanceSetState rt args c).2 = env_ c /\ forall v, (instanceSetState rt args c).1 <> Ok v.
Proof.
  intros Hp Hid. destruct (instanceSetState rt args c) as [r c'] eqn:Hr. unfold instanceSetState in Hr.
  apply flags_run in Hr as [[-> H]|(vs' & rest' & Hp' & Hr)]; [done|]. rewrite Hp in Hp'. injection Hp' as <- <-. cbv zeta in Hr.
  apply die_if_run in Hr as [(_ & -> & ->)|[_ Hr]]; [done|]. apply die_if_run in Hr as [(_ & -> & ->)|[Hs Hr]]; [done|].
  apply negb_false_iff, bool_decide_eq_true in Hs. cbn [fst snd].
  pose proof (ask_run "POST" ("/v1/admin/instances/" +:+ str_of "" "id" vs +:+ "/state") (Some (AStr (b64_encode true (state_bytes (str_of "" "state" vs))))) c) as Ha.
  destruct (state_refused (str_of "" "id" vs) (encoded <$> Some (AStr (b64_encode true (state_bytes (str_of "" "state" vs))))) (env_ c) Hid) as [He Hcode].
  { intros r' Hr'. by apply (state_body_bad (str_of "" "state" vs)). }
  rewrite Hr in Ha. destruct (Ipc.serve _ _) as [a s]. destruct Ha as [Ha Hn]. cbn [fst snd] in He, Hcode, Ha, Hn. rewrite He in Ha. split; [exact Ha|by apply Hn].
Qed.

(** *** The rows of an instance *)
Lemma audit_instances op t r ps sum err s : instances (Ipc.v_db (Ipc.audit op t r ps sum err s)) = instances (Ipc.v_db s).
Proof. unfold Ipc.audit, AuditLog.Append, InsertAudit. repeat (case_match; simplify_eq/=; try done). Qed.
Lemma trigger_instances s : instances (Ipc.v_db (Ipc.trigger s)) = instances (Ipc.v_db s).
Proof. unfold Ipc.trigger. by destruct Ipc.has_rec. Qed.

Definition upsert_body (id template kind version desired : string) : any :=
  AMap [("id", str id); ("template_id", str template); ("runtime", str kind); ("version", str version); ("desired_state", str desired); ("config", ANull)].
Definition texts_ok (l : list string) : Prop := Forall (fun s => valid_utf8 s = true) l.
Lemma upsert_decoded r id template kind version desired : texts_ok [id; template; kind; version; desired] ->
  Ipc.r_body r = encoded (upsert_body id template kind version desired) -> slen (Ipc.r_body r) <= Ipc.MB ->
  Ipc.decode Ipc.MB Ipc.dec_upsertReq (Ipc.MkUpsertReq "" "" "" "" "" ANull) r = Some (Ipc.MkUpsertReq id template kind version desired ANull).
Proof.
  intros Ht Hb Hl. unfold Ipc.decode. rewrite stake_all by done. rewrite Hb. unfold encoded, upsert_body, str. cbn [any_json map fst snd fmap option_fmap option_map seq_opt mbind option_bind]. unfold marshal.
  replace (sort_json _) with (JObj [("config", JNull); ("desired_state", JStr desired); ("id", JStr id); ("runtime", JStr kind); ("template_id", JStr template); ("version", JStr version)]) by reflexivity.
  unfold texts_ok in Ht. rewrite !Forall_cons in Ht. destruct Ht as (H1 & H2 & H3 & H4 & H5 & _).
  rewrite first_value_render; [reflexivity| |cbn; apply Nat.leb_le; vm_compute; reflexivity|done].
  cbn [printable forallb fst snd]. rewrite H1, H2, H3, H4, H5. reflexivity.
Qed.

Lemma serve_upsert body s : admin_client ->
  Ipc.serve (asked "POST" "/v1/admin/instances" body) s = Ipc.adminUpsertInstance (asked "POST" "/v1/admin/instances" body) s.
Proof. intros Ha. unfold Ipc.serve. replace (Ipc.find_route _) with (Some (Ipc.MkRoute "POST" ["v1"; "admin"; "instances"] true (fun r _ => Ipc.adminUpsertInstance r), "")) by reflexivity.
  cbn [Ipc.t_guarded Ipc.t_handler]. unfold Ipc.adminGuard. cbn [Ipc.r_peer asked]. by rewrite Ha. Qed.

Definition row (id template kind version desired : string) : Instance := MkInstance id template kind version desired "" "" "" None "" None None None.
Lemma handler_upsert r id template kind version desired s :
  Ipc.decode Ipc.MB Ipc.dec_upsertReq (Ipc.MkUpsertReq "" "" "" "" "" ANull) r = Some (Ipc.MkUpsertReq id template kind version desired ANull) ->
  id <> "" -> template <> "" -> kind <> "" -> desired <> "" ->
  let '(res, db) := UpsertInstance (row id template kind version desired) Ipc.now (Ipc.v_db s) in
  let '(a, s') := Ipc.adminUpsertInstance r s in
  instances (Ipc.v_db s') = instances db /\ Ipc.code_ a = match res with Ok _ => 200%Z | Err _ => 400%Z end.
Proof.
  intros Hd H1 H2 H3 H4. unfold Ipc.adminUpsertInstance. rewrite Hd. cbn [Ipc.q_ID Ipc.q_TemplateID Ipc.q_Runtime Ipc.q_Version Ipc.q_Desired Ipc.q_Config].
  unfold Ipc.or_else, emptyb. rewrite !bool_decide_eq_false_2 by done. cbn [orb Ipc.config_text]. unfold Ipc.store_do. fold (row id template kind version desired).
  destruct (UpsertInstance _ _ _) as [[[]|e] db]; split; try done; [by rewrite trigger_instances; unfold Ipc.audit_ok; rewrite audit_instances|by unfold Ipc.audit_err; rewrite audit_instances].
Qed.

Definition upsert_flags : flagset := [("id", FString); ("template", FString); ("runtime", FString); ("version", FString); ("state", FString); ("config-file", FString)].

Lemma direct_upsert_run rt id template kind version desired (c : cli) r c' : h_open (dbPath rt) (env_ c) = None ->
  (openStore rt ;;; on_store "upsert: " (UpsertInstance (row id template kind version desired) now) ;;; encode (JObj [("ok", JBool true); ("id", JStr id)])) c = (r, c') ->
  let '(res, db) := UpsertInstance (row id template kind version desired) Ipc.now (db_ c) in
  db_ c' = db /\ (r = Ok tt <-> res = Ok tt).
Proof.
  intros Ho. unfold hbind at 1, openStore. cbn [open_store connected]. rewrite Ho. unfold hbind, on_store. cbn [now connected].
  destruct (UpsertInstance _ _ _) as [[[]|e] db]; intros [= <- <-]; done.
Qed.
Lemma ipc_upsert_run id template kind version desired (c : cli) : admin_client -> id <> "" -> template <> "" -> kind <> "" -> desired <> "" ->
  texts_ok [id; template; kind; version; desired] -> slen (encoded (upsert_body id template kind version desired)) <= Ipc.MB ->
  let r := ask "POST" "/v1/admin/instances" (Some (upsert_body id template kind version desired)) c in
  let '(res, db) := UpsertInstance (row id template kind version desired) Ipc.now (Ipc.v_db (env_ c)) in
  instances (Ipc.v_db (env_ r.2)) = instances db /\ (r.1 = Ok tt <-> res = Ok tt).
Proof.
  intros Hadm H1 H2 H3 H4 Ht Hl. cbv zeta. set (b := upsert_body _ _ _ _ _). set (q := asked "POST" "/v1/admin/instances" (encoded <$> Some b)).
  pose proof (handler_upsert q id template kind version desired (env_ c) (upsert_decoded q _ _ _ _ _ Ht eq_refl Hl) H1 H2 H3 H4) as Hh.
  pose proof (ask_run "POST" "/v1/admin/instances" (Some b) c) as Ha. pose proof (ask_ok "POST" "/v1/admin/instances" (Some b) c) as Hok. rewrite serve_upsert in Ha, Hok by done. fold q in Ha, Hok.
  destruct (UpsertInstance _ _ _) as [res db]. destruct (Ipc.adminUpsertInstance q (env_ c)) as [a s]. destruct Hh as [Hi Hc], Ha as [-> Hbad]. split; [done|].
  rewrite Hc in Hbad, Hok. destruct res as [[]|e]; [split; [done|by intros _; apply Hok]|]. split; [intros H; by destruct (Hbad eq_refl tt)|done].
Qed.

Lemma hbind_ok {A B} (m : Host.prog ending cli A) (k : A -> Host.prog ending cli B) c a c' : m c = (Ok a, c') -> hbind m k c = k a c'.
Proof. unfold hbind. by intros ->. Qed.
Lemma upsert_steps rt args vs rest (c : cli) : Parse upsert_flags args = Ok (vs, rest) -> str_of "" "config-file" vs = "" ->
  let id := str_of "" "id" vs in let template := str_of "" "template" vs in let kind := str_of "container" "runtime" vs in
  let version := str_of "" "version" vs in let desired := str_of "installed" "state" vs in
  instanceUpsert P rt args c =
    if bool_decide (id = "") || bool_decide (template = "") then (Err (Exit 1 (Text "--id and --template are required")), c) else
    if directMode rt then (openStore rt ;;; on_store "upsert: " (UpsertInstance (row id template kind version desired) now) ;;; encode (JObj [("ok", JBool true); ("id", JStr id)])) c
    else ask "POST" "/v1/admin/instances" (Some (upsert_body id template kind version desired)) c.
Proof.
  intros Hp Hc. cbv zeta. unfold instanceUpsert. rewrite (hbind_ok _ _ c vs c) by (unfold parse_flags; fold upsert_flags; by rewrite Hp). cbv zeta.
  unfold die_if. destruct (_ || _); [done|]. rewrite (hbind_ok _ _ c tt c) by done. rewrite Hc.
  rewrite (hbind_ok _ _ c ANull c) by done. by destruct (directMode rt).
Qed.

(** C27: For an administrator, without a configuration file, with a runtime and a state that are not empty, texts in UTF-8 and a body of at most a megabyte, writing an instance through the agent and writing it in direct mode into the same database leave the same table of instances and succeed or fail together. *)
Theorem upsert_same_table rt direct args vs rest (c : cli) : admin_client -> Parse upsert_flags args = Ok (vs, rest) -> str_of "" "config-file" vs = "" ->
  let id := str_of "" "id" vs in let template := str_of "" "template" vs in let kind := str_of "container" "runtime" vs in
  let version := str_of "" "version" vs in let desired := str_of "installed" "state" vs in
  kind <> "" -> desired <> "" -> texts_ok [id; template; kind; version; desired] -> slen (encoded (upsert_body id template kind version desired)) <= Ipc.MB ->
  directMode rt = false -> directMode direct = true -> h_open (dbPath direct) (env_ c) = None -> db_ c = Ipc.v_db (env_ c) ->
  instances (Ipc.v_db (env_ (instanceUpsert P rt args c).2)) = instances (db_ (instanceUpsert P direct args c).2) /\
  ((instanceUpsert P rt args c).1 = Ok tt <-> (instanceUpsert P direct args c).1 = Ok tt).
Proof.
  intros Hadm Hp Hc id template kind version desired Hk Hs Ht Hl Hrt Hdir Ho Hdb.
  rewrite (upsert_steps rt _ _ _ _ Hp Hc), (upsert_steps direct _ _ _ _ Hp Hc). fold id template kind version desired. rewrite Hrt, Hdir.
  destruct (decide (id = "")) as [Hi|Hi]; [rewrite (bool_decide_eq_true_2 _ Hi); cbn [orb fst snd env_ db_]; by rewrite Hdb|].
  destruct (decide (template = "")) as [Hte|Hte]; [rewrite (bool_decide_eq_true_2 _ Hte), orb_true_r; cbn [fst snd]; by rewrite Hdb|].
  rewrite !(bool_decide_eq_false_2 (_ = "")) by done. cbn [orb].
  destruct (hbind (openStore direct) _ c) as [r c'] eqn:Hr. pose proof (direct_upsert_run _ _ _ _ _ _ _ _ _ Ho Hr) as Hd.
  pose proof (ipc_upsert_run id template kind version desired c Hadm Hi Hte Hk Hs Ht Hl) as Hi'. cbv zeta in Hi'. rewrite <- Hdb in Hi'.
  destruct (UpsertInstance _ _ _) as [res db]. cbn [fst snd]. destruct Hd as [-> Hd], Hi' as [-> Hi']. by rewrite Hd, Hi'.
Qed.
End client.

(** ** A small device *)
#[local] Existing Instance IpcProps.demo.
#[local] Instance demo_host : Host_side := {|
  h_run _ s := (NotRun "no sudo", s); h_input _ _ := Err "no file"; h_open _ _ := None; h_euid := 1000; h_random := Some "abcd"; h_typed := Ok
|}.
Notation client := (Ctl.cli (E := Ipc.server)).
Definition demo_client : client := MkCli IpcProps.demo_server IpcProps.demo_db "".
Definition daemon : runtime := MkRuntime "/run/obacht.sock" "".
Definition on_file : runtime := MkRuntime "/run/obacht.sock" "/var/lib/obacht/state.db".
Definition demo_pf : Dispatch.platform := DispatchProps.demo_platform.
Definition upsert_args : list string := ["--id"; "blog"; "--template=wordpress"; "-version"; "6"].
Definition upsert_vs : list (string * Flags.setting) := match Parse upsert_flags upsert_args with Ok (vs, _) => vs | Err _ => [] end.
Definition state_args : list string := ["--id"; "wp"; "--state"; "stopped"].
Definition state_vs : list (string * Flags.setting) := match Parse [("id", FString); ("state", FString)] state_args with Ok (vs, _) => vs | Err _ => [] end.

Lemma set_state_refused_witness : env_ (instanceSetState (surroundings := connected 990) daemon state_args demo_client).2 = IpcProps.demo_server /\
  forall v, (instanceSetState (surroundings := connected 990) daemon state_args demo_client).1 <> Ok v.
Proof. apply (set_state_refused 990 daemon state_args state_vs [] demo_client); vm_compute; reflexivity. Defined.

Lemma upsert_same_table_witness :
  instances (Ipc.v_db (env_ (instanceUpsert (surroundings := connected 990) demo_pf daemon upsert_args demo_client).2)) =
  instances (db_ (instanceUpsert (surroundings := connected 990) demo_pf on_file upsert_args demo_client).2).
Proof.
  refine (proj1 (upsert_same_table 990 demo_pf daemon on_file upsert_args upsert_vs [] demo_client eq_refl _ _ _ _ _ _ eq_refl eq_refl eq_refl eq_refl)).
  - vm_compute. reflexivity.
  - vm_compute. reflexivity.
  - vm_compute. discriminate.
  - vm_compute. discriminate.
  - repeat constructor.
  - apply Nat.leb_le. vm_compute. reflexivity.
Defined.

(** The row is there, and the state it should have is the default. *)
Example upsert_arrives : (fun r => (r_template r, r_version r, r_desired r)) <$>
  instances (Ipc.v_db (env_ (instanceUpsert (surroundings := connected 990) demo_pf daemon upsert_args demo_client).2)) !! "blog" = Some ("wordpress", "6", "installed").
Proof. vm_compute. reflexivity. Qed.

(** An id is put into the path as it is: removing the instance of this name
    without --hard deletes another instance for good. *)
Example id_not_escaped :
  instances (Ipc.v_db (env_ (instanceRemove (surroundings := connected 990) daemon ["--id"; "web?hard=1"] demo_client).2)) !! "web" = None /\
  is_Some (instances IpcProps.demo_db !! "web").
Proof. vm_compute. split; [reflexivity|by eexists]. Qed.

(** So a command that should change a state can issue another instance's secret
    anew: the state goes into the query of another request. *)
Example set_state_elsewhere :
  let r := instanceSetState (surroundings := connected 990) daemon ["--id"; "web/secret?"; "--state"; "stopped"] demo_client in
  r.1 = Ok tt /\ bool_decide (instance_secrets (Ipc.v_db (env_ r.2)) !! "web" = instance_secrets IpcProps.demo_db !! "web") = false /\
  is_Some (instances IpcProps.demo_db !! "web").
Proof. vm_compute. repeat split. by eexists. Qed.

(** An install without a signature leaves the row and the audit entry that a
    signed one leaves: the member [signed] is not read. *)
Example signed_not_read :
  let row_of b := (Ipc.serve (asked 990 "POST" "/v1/admin/instances" (Some (encoded (AMap [("id", str "x"); ("template_id", str "t"); ("signed", ABool b)])))) IpcProps.demo_server).2 in
  row_of true = row_of false.
Proof. vm_compute. reflexivity. Qed.

(** An operator who types something else. *)
Definition absent_minded : Host_side := {|
  h_run _ s := (Exited 0 "", s); h_input _ _ := Err "no file"; h_open _ _ := None; h_euid := 0; h_random := Some "abcd"; h_typed _ := Ok "yes"
|}.
Definition power_vs : list (string * Flags.setting) := match Parse power_flags [] with Ok (vs, _) => vs | Err _ => [] end.
Lemma power_confirmed_witness : env_ (systemPower (surroundings := connected 990 (host_side := absent_minded)) daemon "enable" "true" [] demo_client).2 = IpcProps.demo_server.
Proof.
  destruct (power_confirmed (surroundings := connected 990 (host_side := absent_minded)) daemon "enable" "true" [] power_vs [] demo_client) as [H|(b & a & Hb & Ha & Hc)];
    [vm_compute; reflexivity|vm_compute; reflexivity|exact H|]. vm_compute in Hb, Ha. injection Hb as <-. injection Ha as <-. by vm_compute in Hc.
Defined.

Definition install_args : list string := ["--id"; "t"; "--instance"; "x"; "--manifest-base64"; "!!"; "--signature-base64"; "AAAA"].
Definition install_vs : list (string * Flags.setting) := match Parse install_flags install_args with Ok (vs, _) => vs | Err _ => [] end.
Lemma install_needs_signature_witness : env_ (templateInstall (surroundings := connected 990) demo_pf daemon install_args demo_client).2 = IpcProps.demo_server.
Proof.
  destruct (install_needs_signature (surroundings := connected 990) demo_pf daemon install_args install_vs [] demo_client) as [H|(m & s & Hm & _)];
    [vm_compute; reflexivity|left; vm_compute; discriminate|exact H|]. by vm_compute in Hm.
Defined.
