(* ===== verification/Frames.v ===== *)
(** * Frames of the backend channel: internal/api/wsclient.go

    An event is sent as the text 42 and a JSON array: its name and its
    arguments.  The receiver splits the array into raw texts, reads the name
    and hands the rest on as it is.  What one side emits the other reads. *)

From S2P Require Import Prelude GoStrings Codec Utf8 Json JsonEnc JsonDec Jcs JsonRound.

(** ** Raw texts of an array *)
Fixpoint skip_ws (s : string) : string := match s with String a t => if is_ws a then skip_ws t else s | "" => "" end.

(** The byte ends a number. *)
Definition number_ends (st : list frame) (m : mode) (c : ascii) : bool :=
  match st, m with [], MNum ns _ => match step_num ns c with Some _ => false | None => true end | _, _ => false end.
(** The text of the value at the start, and what follows it. *)
Fixpoint take_value (st : list frame) (m : mode) (acc s : string) : string * string :=
  match st, m with
  | [], MDone _ => (srev acc, s)
  | _, _ =>
      match s with
      | "" => (srev acc, "")
      | String c s' =>
          if number_ends st m c then (srev acc, s) else
          match step st m c with Some (st', m') => take_value st' m' (String c acc) s' | None => (srev acc, s) end
      end
  end.
Fixpoint raw_items (n : nat) (s : string) : list string :=
  match n with
  | O => []
  | S n =>
      let '(raw, rest) := take_value [] MValue "" (skip_ws s) in
      raw :: match skip_ws rest with String c rest => if Ascii.eqb c "," then raw_items n rest else [] | "" => [] end
  end.
(** [json.Unmarshal] into a slice of raw messages; the number of elements is
    known from the parse, so there are enough steps. *)
Definition raw_array (s : string) : option (list string) :=
  match json_parse s with
  | Some (JArr l) => Some (raw_items (length l) (sdrop 1 (skip_ws s)))
  | Some JNull => Some []
  | _ => None
  end.

(** ** Events *)

(** [dispatchEvent] up to the handler: the name and the raw arguments. *)
Definition read_event (payload : string) : option (string * list string) :=
  raw ← raw_array payload;
  match raw with
  | [] => None
  | first :: args => name ← unmarshal dec_string "" first; Some (name, args)
  end.

(** The frame [Emit] writes; the arguments in the order of their fields. *)
Definition event_frame (event : string) (args : list json) : string := "42" +:+ render (JArr (JStr event :: args)).

(** What [handleFrame] does with a frame. *)
Inductive inbound := Nothing | Pong | Event (payload : string).
Definition handleFrame (f : string) : inbound :=
  match f with
  | String "2" _ => Pong
  | String "4" (String "2" payload) => Event payload
  | _ => Nothing
  end.

(** ** Reading back *)

(** The text does not end in white space. *)
Fixpoint last_plain (s : string) : bool :=
  match s with "" => true | String a "" => negb (is_ws a) | String _ t => last_plain t end.
Lemma last_plain_ws s : str_all is_ws s = true -> last_plain s = true -> s = "".
Proof.
  induction s as [|a s IH]; [done|]. cbn [str_all]. intros [Ha Hs]%andb_true_iff Hl. destruct s as [|b s]; [by cbn in Hl; rewrite Ha in Hl|]. by specialize (IH Hs Hl).
Qed.
Lemma last_plain_app x b y : last_plain (x +:+ String b y) = last_plain (String b y).
Proof. induction x as [|a x IH]; [done|]. rewrite sapp_cons. cbn [last_plain]. destruct (x +:+ String b y) as [|c t] eqn:E; [by destruct x|exact IH]. Qed.
Lemma last_plain_tail a b s : last_plain (String a (String b s)) = last_plain (String b s).
Proof. done. Qed.
Lemma done_ws v s p : scan [] (MDone v) s = Some p -> str_all is_ws s = true.
Proof.
  revert p. induction s as [|c s IH]; intros p; [done|]. cbn [scan step]. unfold step_done. destruct (is_ws c) eqn:Hc; [|done].
  cbn [mbind option_bind str_all]. intros H. by rewrite Hc, (IH _ H).
Qed.

(** The scanner is past the value, or at the end of a number. *)
Definition ended (p : list frame * mode) : Prop := (exists v, p = ([], MDone v)) \/ exists ns raw, p = ([], MNum ns raw) /\ num_complete ns = true.
Lemma take_value_spec s st m acc p c t : scan st m s = Some p -> ended p -> last_plain s = true -> closer c = true ->
  take_value st m acc (s +:+ String c t) = (srev (srev_app s acc), String c t).
Proof.
  revert st m acc. induction s as [|a s IH]; intros st m acc Hs He Hl Hc.
  - injection Hs as <-. destruct He as [[v He]|(ns & raw & He & Hn)]; injection He as -> ->; [done|].
    change ("" +:+ String c t) with (String c t). cbn [take_value number_ends]. by rewrite (closer_not_num _ _ Hc).
  - assert (Hstop : (forall v, (st, m) <> ([], MDone v)) /\ number_ends st m a = false).
    { split.
      - intros v [= -> ->]. apply done_ws in Hs. pose proof (last_plain_ws _ Hs Hl). done.
      - unfold number_ends. destruct st; [|done]. destruct m as [ | | | | | | | | |ns raw| | ]; try done. cbn [scan step] in Hs. destruct (step_num ns a) as [ns'|]; [done|].
        destruct (num_complete ns); [|done]. cbn [finish] in Hs. unfold step_done in Hs. destruct (is_ws a) eqn:Ha; [|done]. cbn in Hs. apply done_ws in Hs.
        pose proof (last_plain_ws (String a s) ltac:(cbn; by rewrite Ha, Hs) Hl). done. }
    destruct Hstop as [Hd Hn]. rewrite sapp_cons.
    assert (Hstep : take_value st m acc (String a (s +:+ String c t)) = match step st m a with Some (st', m') => take_value st' m' (String a acc) (s +:+ String c t) | None => (srev acc, String a (s +:+ String c t)) end).
    { cbn [take_value]. rewrite Hn. destruct st, m; try done. by destruct (Hd v). }
    rewrite Hstep. cbn [scan] in Hs. destruct (step st m a) as [[st' m']|]; [|done]. cbn [mbind option_bind] in Hs. cbn [srev_app].
    apply (IH _ _ _ Hs He); [|done]. destruct s; [done|exact Hl].
Qed.

(** *** What [render] writes *)
Lemma num_run_plain ns s ns' : num_run ns s = Some ns' -> str_all (fun c => negb (is_ws c)) s = true.
Proof.
  revert ns. induction s as [|c s IH]; intros ns; [done|]. cbn [num_run str_all]. destruct (step_num ns c) as [n1|] eqn:Hc; [|done]. cbn. intros H.
  rewrite (IH _ H), andb_true_r. unfold is_ws. destruct ns; by destruct c as [[] [] [] [] [] [] [] []].
Qed.
Lemma plain_last s : str_all (fun c => negb (is_ws c)) s = true -> last_plain s = true.
Proof. induction s as [|a s IH]; [done|]. cbn [str_all]. intros [Ha Hs]%andb_true_iff. destruct s; [done|]. by apply IH. Qed.
Lemma render_last v : printable v = true -> last_plain (render v) = true.
Proof.
  destruct v as [ |[]|t|s|l|ms]; cbn [printable]; intros Hp; try done.
  - apply plain_last. destruct t as [|c t]; [done|]. cbn in Hp |- *. destruct (num_start c) as [ns|] eqn:Hc; [|done]. cbn in Hp.
    destruct (num_run ns t) as [ns'|] eqn:Hr; [|done]. rewrite (num_run_plain _ _ _ Hr), andb_true_r. by destruct (num_start_value [] c ns Hc) as (_ & -> & _).
  - cbn [render]. unfold marshal_string. change (String "034" (html_go 0 s +:+ str1 "034")) with ((str1 "034" +:+ html_go 0 s) +:+ String "034" ""). by rewrite last_plain_app.
  - cbn [render]. rewrite <- sapp_assoc. exact (last_plain_app _ "]" "").
  - cbn [render]. rewrite <- sapp_assoc. exact (last_plain_app _ "}" "").
Qed.
Lemma lands_ended v p : lands v [] p -> ended p.
Proof. intros [->|(ns & raw & -> & Hn & _)]; [left; by exists v|right; by exists ns, raw]. Qed.
Lemma skip_render v t : printable v = true -> skip_ws (render v +:+ t) = render v +:+ t.
Proof. intros Hp. destruct (first_char v Hp) as (c & s & -> & Hw & _). rewrite sapp_cons. cbn [skip_ws]. by rewrite Hw. Qed.
Lemma take_render v c t : printable v = true -> depth v <= maxNestingDepth -> closer c = true ->
  take_value [] MValue "" (render v +:+ String c t) = (render v, String c t).
Proof.
  intros Hp Hd Hc. destruct (printable_readable v Hp []) as (p & Hs & Hl); [done|].
  rewrite (take_value_spec _ _ _ _ _ _ _ Hs (lands_ended _ _ Hl) (render_last v Hp) Hc). f_equal. apply srev_srev.
Qed.
Lemma raw_items_render l t : l <> [] -> forallb printable l = true -> Forall (fun v => depth v <= maxNestingDepth) l ->
  raw_items (length l) (join "," (map render l) +:+ "]" +:+ t) = map render l.
Proof.
  induction l as [|v l IH]; intros Hne Hp Hd; [done|]. cbn [forallb] in Hp. apply andb_true_iff in Hp as [Hv Hp]. apply Forall_cons in Hd as [Hdv Hd].
  cbn [length raw_items]. destruct l as [|w l].
  - cbn [map join]. rewrite skip_render by done. change ("]" +:+ t) with (String "]" t). by rewrite take_render.
  - change (join "," (map render (v :: w :: l))) with (render v +:+ "," +:+ join "," (map render (w :: l))). rewrite !sapp_assoc, skip_render by done.
    change ("," +:+ ?z) with (String "," z). rewrite take_render by done. cbn [skip_ws is_ws]. change (is_ws ",") with false. cbv iota. change (Ascii.eqb "," ",") with true. cbv iota.
    cbn [map]. f_equal. by apply IH.
Qed.
Lemma depth_le v l n : v ∈ l -> list_max (map depth l) <= n -> depth v <= n.
Proof.
  intros Hv Hn. rewrite list_max_le in Hn. rewrite List.Forall_forall in Hn. apply Hn, in_map, list_elem_of_In, Hv.
Qed.
Lemma raw_array_render l : l <> [] -> forallb printable l = true -> S (list_max (map depth l)) <= maxNestingDepth -> raw_array (render (JArr l)) = Some (map render l).
Proof.
  intros Hne Hp Hd. unfold raw_array. rewrite parse_render by done. f_equal. cbn [render]. change ("[" +:+ ?z) with (String "[" z). cbn [skip_ws]. change (is_ws "[") with false. cbv iota.
  cbn [sdrop]. rewrite <- (sapp_nil_r (_ +:+ "]")), sapp_assoc. apply raw_items_render; [done|done|]. apply Forall_forall. intros v Hv. apply (depth_le v l); [done|lia].
Qed.

(** C29: What one side emits the other reads: the name of the event and the texts of its arguments, whatever values they are. *)
Theorem emit_read event args : valid_utf8 event = true -> forallb printable args = true -> S (list_max (map depth args)) <= maxNestingDepth ->
  exists payload, handleFrame (event_frame event args) = Event payload /\ read_event payload = Some (event, map render args).
Proof.
  intros He Hp Hd. eexists. split; [reflexivity|]. unfold read_event. rewrite raw_array_render; [|done|cbn [forallb printable]; by rewrite He|exact Hd].
  cbn [mbind option_bind map]. unfold unmarshal. rewrite parse_render; [done|done|]. cbn [depth]. lia.
Qed.

(** ** Concrete frames *)
Example raw_texts : handleFrame (bq "42[ `agent:x` , {`a`: [1 , 2] } , 3 ]") = Event (bq "[ `agent:x` , {`a`: [1 , 2] } , 3 ]") /\
  read_event (bq "[ `agent:x` , {`a`: [1 , 2] } , 3 ]") = Some ("agent:x", [bq "{`a`: [1 , 2] }"; "3"]).
Proof. vm_compute. done. Qed.
(** A name that is null is the empty name. *)
Example null_name : read_event "[null,1]" = Some ("", ["1"]). Proof. vm_compute. done. Qed.
Lemma emit_read_witness : exists payload, handleFrame (event_frame "agent:progress" [JObj [("percent", JNum "40")]; JNull]) = Event payload /\
  read_event payload = Some ("agent:progress", [bq "{`percent`:40}"; "null"]).
Proof. apply (emit_read "agent:progress" [JObj [("percent", JNum "40")]; JNull]); [done|done|]. apply Nat.leb_le. vm_compute. done. Defined.
