(* ===== verification/WsUrl.v ===== *)
(** * The address of the backend channel: internal/api/wsclient.go

    [buildWSURL], [assertSecureWSTarget] and [redactToken] on the text of a
    URL: its fragment, scheme, authority, path and query, each unescaped and
    escaped as net/url does.  The client dials only what both let through:
    the configured host, with TLS unless it is this machine. *)

From S2P Require Import Prelude GoStrings GoUrl Codec Json HookRunner Prober.

(** ** Escaping *)
Definition upper_hex (n : N) : ascii := upper_byte (hex_digit n).
Definition pct (c : ascii) : string := String "%" (String (upper_hex (code c / 16)) (str1 (upper_hex (code c mod 16)))).
Fixpoint escape (keep : ascii -> bool) (s : string) : string :=
  match s with "" => "" | String c s => (if keep c then str1 c else pct c) +:+ escape keep s end.
Definition unhex (c : ascii) : N := default 0%N (hex_value c).
(** Of a text whose escapes are complete. *)
Fixpoint unescape (plus : bool) (s : string) : string :=
  match s with
  | "" => ""
  | String "%" (String a (String b t)) => String (ascii_of_N (16 * unhex a + unhex b)) (unescape plus t)
  | String c t => String (if plus && Ascii.eqb c "+" then " "%char else c) (unescape plus t)
  end.
Definition unreserved (c : ascii) : bool := is_alnum c || mem_byte c "-_.~".
Definition path_keep (c : ascii) : bool := unreserved c || mem_byte c "$&+,/:;=@".
Definition user_keep (c : ascii) : bool := unreserved c || mem_byte c "$&+,;=".
Definition host_keep (c : ascii) : bool := unreserved c || mem_byte c "!$&'()*+,;=:[]<>" || Ascii.eqb c "034".
Definition fragment_keep (c : ascii) : bool := unreserved c || mem_byte c "$&+,/:;=?@!()*".

(** ** [url.URL] *)

(** [host] is the text as it was written, [path] unescaped; [omit_host] marks
    a rooted path without an authority. *)
Record URL := MkURL {
  u_scheme : string; u_opaque : string; u_user : option (string * option string); u_host : string; u_omit_host : bool;
  u_path : string; u_raw_path : string; u_force_query : bool; u_raw_query : string; u_raw_fragment : string
}.
Definition user_of (auth : string) : option (string * option string) :=
  match (cut_last auth "@").1 with
  | None => None
  | Some info => Some match cut info ":" with
                      | Some (name, pw) => (unescape false name, Some (unescape false pw))
                      | None => (unescape false info, None)
                      end
  end.
(** The text between scheme and query: opaque, or an authority and a path. *)
Definition hier (scheme rest : string) : string * option string * string :=
  if negb (has_prefix rest "/") then if bool_decide (scheme = "") then ("", None, rest) else (rest, None, "")
  else if has_prefix rest "//" && (negb (bool_decide (scheme = "")) || negb (has_prefix rest "///")) then
    match cut (sdrop 2 rest) "/" with Some (a, p) => ("", Some a, String "/" p) | None => ("", Some (sdrop 2 rest), "") end
  else ("", None, rest).
Definition url_parse (raw : string) : option URL :=
  '(scheme, host) ← url_scheme_host raw;
  let '(u, frag) := default (raw, "") (cut raw "#") in
  if bool_decide (u = "*") then Some (MkURL "" "" None "" false "*" "" false "" frag) else
  '(_, rest0) ← get_scheme u;
  let '(rest, q) := default (rest0, "") (cut rest0 "?") in
  let '(opaque, auth, p) := hier scheme rest in
  Some (MkURL scheme opaque (auth ≫= user_of) host (bool_decide (auth = None) && negb (bool_decide (scheme = "")) && has_prefix rest "/")
          (unescape false p) p (bool_decide (q = "") && bool_decide (is_Some (cut rest0 "?"))) q frag).

Fixpoint host_text (h : string) : string :=
  match h with
  | "" => ""
  | String "%" (String a (String b t)) => String "%" (String (upper_byte a) (String (upper_byte b) (host_text t)))
  | String c t => (if host_keep c then str1 c else pct c) +:+ host_text t
  end.
Definition user_text (u : string * option string) : string :=
  escape user_keep u.1 +:+ match u.2 with Some pw => ":" +:+ escape user_keep pw | None => "" end.
Definition valid_encoded (keep : ascii -> bool) (s : string) : bool := str_all (fun c => keep c || mem_byte c "!$&'()*+,;=:@[]%") s.
Definition EscapedPath (u : URL) : string :=
  if negb (bool_decide (u_raw_path u = "")) && valid_encoded path_keep (u_raw_path u) && bool_decide (unescape false (u_raw_path u) = u_path u) then u_raw_path u
  else if bool_decide (u_path u = "*") then "*" else escape path_keep (u_path u).
Definition EscapedFragment (u : URL) : string :=
  if valid_encoded fragment_keep (u_raw_fragment u) then u_raw_fragment u else escape fragment_keep (unescape false (u_raw_fragment u)).
Definition authority_text (u : URL) : string :=
  if u_omit_host u && bool_decide (u_host u = "") && bool_decide (u_user u = None) then "" else
  if bool_decide (u_host u = "") && bool_decide (u_path u = "") && bool_decide (u_user u = None) then "" else
  "//" +:+ match u_user u with Some ui => user_text ui +:+ "@" | None => "" end +:+ host_text (u_host u).
(** Of a URL with a scheme. *)
Definition String_ (u : URL) : string :=
  u_scheme u +:+ ":" +:+
  (if bool_decide (u_opaque u = "") then authority_text u +:+ EscapedPath u else u_opaque u) +:+
  (if u_force_query u || negb (bool_decide (u_raw_query u = "")) then "?" +:+ u_raw_query u else "") +:+
  (if bool_decide (u_raw_fragment u = "") then "" else "#" +:+ EscapedFragment u).

(** *** Queries *)
Notation values := (gmap string (list string)).
Definition QueryUnescape (s : string) : option string := if pct_ok s then Some (unescape true s) else None.
Definition query_pair (m : values) (part : string) : values :=
  if bool_decide (part = "") || mem_byte ";" part then m else
  let '(k, v) := default (part, "") (cut part "=") in
  match QueryUnescape k, QueryUnescape v with
  | Some k, Some v => <[k := default [] (m !! k) ++ [v]]> m
  | _, _ => m
  end.
Definition Query (u : URL) : values := fold_left query_pair (split_on "&" (u_raw_query u)) ∅.
Definition QueryEscape (s : string) : string :=
  (fix go s := match s with "" => "" | String c s => (if Ascii.eqb c " " then "+" else if unreserved c then str1 c else pct c) +:+ go s end) s.
Definition pair_text (k v : string) : string := QueryEscape k +:+ "=" +:+ QueryEscape v.
Definition Encode (m : values) : string :=
  join "&" (flat_map (fun k => map (pair_text k) (default [] (m !! k))) (sort_strings (map fst (map_to_list m)))).
Definition Get (m : values) (k : string) : string := default "" (m !! k ≫= head).

(** ** The client's address *)
Inductive ws_error := ParseError | UnsupportedScheme (s : string) | Plaintext (host : string).
Definition ws_scheme (s : string) : option string :=
  if bool_decide (s = "http") then Some "ws" else if bool_decide (s = "https") then Some "wss" else
  if bool_decide (s = "ws") || bool_decide (s = "wss") then Some s else None.
Definition buildWSURL (baseURL token : string) : res ws_error string :=
  match url_parse baseURL with
  | None => Err ParseError
  | Some u =>
      match ws_scheme (u_scheme u) with
      | None => Err (UnsupportedScheme (u_scheme u))
      | Some scheme =>
          let q := <["transport" := ["websocket"]]> (<["EIO" := ["4"]]> (Query u)) in
          let q := if bool_decide (token = "") then q else <["token" := [token]]> q in
          Ok (String_ (MkURL scheme (u_opaque u) (u_user u) (u_host u) (u_omit_host u) (trim_right "/" (u_path u) +:+ "/ws/devices/") (u_raw_path u)
                 (u_force_query u) (Encode q) (u_raw_fragment u)))
      end
  end.

Definition Hostname (h : string) : string := unbracket (host_port h).1.
Definition loopback (h : string) : bool := bool_decide (lower_all (Hostname h) ∈ ["localhost"; "127.0.0.1"; "::1"]).
Definition assertSecureWSTarget (wsURL : string) : res ws_error unit :=
  match url_scheme_host wsURL with
  | None => Err ParseError
  | Some (scheme, host) =>
      if bool_decide (scheme = "wss") then Ok tt else
      if loopback host then Ok tt else Err (Plaintext (lower_all (Hostname host)))
  end.
Definition redactToken (s : string) : string :=
  match url_parse s with
  | None => s
  | Some u =>
      let q := Query u in
      if bool_decide (Get q "token" = "") then String_ u else
      String_ (MkURL (u_scheme u) (u_opaque u) (u_user u) (u_host u) (u_omit_host u) (u_path u) (u_raw_path u) (u_force_query u)
        (Encode (<["token" := ["REDACTED"]]> q)) (u_raw_fragment u))
  end.

Example build_https : buildWSURL "https://api.eu.obacht.dev/" "a.b+c" = Ok "wss://api.eu.obacht.dev/ws/devices/?EIO=4&token=a.b%2Bc&transport=websocket".
Proof. vm_compute. reflexivity. Qed.
Example build_keeps_query : buildWSURL "http://u:p@127.0.0.1:3000/x%2Fy?b=1;2&a=%20&EIO=3#f" "" = Ok "ws://u:p@127.0.0.1:3000/x/y/ws/devices/?EIO=4&a=+&transport=websocket#f".
Proof. vm_compute. reflexivity. Qed.
Example redacted : redactToken "wss://h/ws/devices/?EIO=4&token=secret&transport=websocket" = "wss://h/ws/devices/?EIO=4&token=REDACTED&transport=websocket".
Proof. vm_compute. reflexivity. Qed.

(** ** The dialed host is the configured one *)
Definition free_of (b : ascii) (s : string) : Prop := mem_byte b s = false.
Lemma free_app b x y : free_of b (x +:+ y) <-> free_of b x /\ free_of b y.
Proof. unfold free_of. rewrite !mem_byte_any, str_any_app, orb_false_iff. done. Qed.
Lemma cut_at x b y : free_of b x -> cut (x +:+ String b y) b = Some (x, y).
Proof. intros Hx. by apply cut_Some. Qed.
Lemma cut_free x b : free_of b x -> cut x b = None.
Proof.
  intros Hx. destruct (cut x b) as [[u v]|] eqn:Hc; [|done]. apply cut_Some in Hc as [-> _]. apply free_app in Hx as [_ Hx]. unfold free_of in Hx. cbn in Hx.
  by rewrite ascii_eqb_refl in Hx.
Qed.

Lemma upper_hex_alnum n : (n < 16)%N -> is_alnum (upper_hex n) && hexByte (upper_hex n) = true.
Proof.
  intros Hn. assert (Hin : In n (map N.of_nat (List.seq 0 16))) by (apply in_map_iff; exists (N.to_nat n); split; [lia|apply in_seq; lia]).
  cbn in Hin. repeat destruct Hin as [<-|Hin]; done.
Qed.
Lemma nibbles c : (code c / 16 < 16)%N /\ (code c mod 16 < 16)%N.
Proof. split; [|by apply N.mod_lt]. apply N.Div0.div_lt_upper_bound. pose proof (code_lt c). lia. Qed.
Lemma escape_all (p keep : ascii -> bool) s : (forall c, keep c = true -> p c = true) -> p "%"%char = true -> (forall c, is_alnum c = true -> p c = true) -> str_all p (escape keep s) = true.
Proof.
  intros Hk H1 H2. induction s as [|c s IH]; [done|]. cbn [escape]. rewrite str_all_app, IH, andb_true_r. destruct (keep c) eqn:Hc; cbn; [by rewrite Hk|].
  destruct (nibbles c) as [Ha Hb]. apply upper_hex_alnum, andb_true_iff in Ha as [Ha _]. apply upper_hex_alnum, andb_true_iff in Hb as [Hb _]. by rewrite H1, !H2.
Qed.
Lemma pct_ok_cons c s : c <> "%"%char -> pct_ok (String c s) = pct_ok s.
Proof. intros Hc. cbn [pct_ok]. by destruct c as [[] [] [] [] [] [] [] []]. Qed.
Lemma pct_ok_escape keep s t : keep "%"%char = false -> pct_ok (escape keep s +:+ t) = pct_ok t.
Proof.
  intros Hk. induction s as [|c s IH]; [done|]. cbn [escape]. rewrite sapp_assoc. destruct (keep c) eqn:Hc.
  - unfold str1. rewrite sapp_cons, pct_ok_cons; [exact IH|]. intros ->. congruence.
  - unfold pct, str1. rewrite !sapp_cons. cbn [pct_ok]. destruct (nibbles c) as [Ha Hb]. apply upper_hex_alnum, andb_true_iff in Ha as [_ ->]. apply upper_hex_alnum, andb_true_iff in Hb as [_ ->]. exact IH.
Qed.

(** *** The authority *)
Lemma cut_last_at x h c : free_of c x -> free_of c h -> cut_last (x +:+ String c h) c = (Some x, h).
Proof. intros Hx Hh. unfold cut_last. rewrite split_on_cons, (split_on_no_sep _ _ Hh) by done. reflexivity. Qed.
Lemma cut_last_free h c : free_of c h -> cut_last h c = (None, h).
Proof. intros Hh. unfold cut_last. by rewrite (split_on_no_sep _ _ Hh). Qed.
Definition host_fine (host : string) : bool :=
  if has_prefix host "[" then match cut_last host "]" with (Some _, port) => GoUrl.port_ok port | (None, _) => false end
  else str_all hostByte host && host_pct_ok host && match cut_last host ":" with (Some _, port) => GoUrl.port_ok (String ":" port) | (None, _) => true end.
Lemma parse_authority_eq auth : parse_authority auth =
  if host_fine (cut_last auth "@").2 && match (cut_last auth "@").1 with Some u => str_all userinfoByte u && pct_ok u | None => true end then Some (cut_last auth "@").2 else None.
Proof. unfold parse_authority. by destruct (cut_last auth "@") as [u h]. Qed.

Lemma byte_cases (p q : ascii -> bool) : forallb (fun n => implb (p (ascii_of_nat n)) (q (ascii_of_nat n))) (List.seq 0 256) = true -> forall c, p c = true -> q c = true.
Proof.
  intros H c Hp. rewrite forallb_forall in H. specialize (H (nat_of_ascii c)). rewrite ascii_nat_embedding, Hp in H. apply H, in_seq.
  pose proof (code_lt c). unfold nat_of_ascii. fold (code c). lia.
Qed.
Ltac bytes := apply byte_cases; vm_compute; reflexivity.

Definition auth_byte (c : ascii) : bool := negb (ctlByte c) && negb (mem_byte c "#?/@").
Lemma user_text_bytes u : str_all auth_byte (user_text u) = true /\ str_all userinfoByte (user_text u) = true /\ pct_ok (user_text u) = true.
Proof.
  destruct u as [n pw]. unfold user_text. cbn [fst snd].
  assert (Hall : forall p : ascii -> bool, (forall c, user_keep c = true -> p c = true) -> p "%"%char = true -> (forall c, is_alnum c = true -> p c = true) -> p ":"%char = true ->
    str_all p (escape user_keep n +:+ match pw with Some pw => ":" +:+ escape user_keep pw | None => "" end) = true).
  { intros p H1 H2 H3 H4. rewrite str_all_app, escape_all by done. destruct pw; [|done]. rewrite str_all_app, escape_all by done. cbn. by rewrite H4. }
  split; [|split]; [apply Hall; try done; bytes..|]. rewrite pct_ok_escape by done. destruct pw as [pw|]; [|done].
  change (":" +:+ ?z) with (String ":" z). rewrite pct_ok_cons by done. by rewrite <- (sapp_nil_r (escape _ _)), pct_ok_escape.
Qed.
Lemma host_keep_text h : str_all host_keep h = true -> host_text h = h.
Proof.
  induction h as [|c h IH]; [done|]. cbn [str_all]. intros [Hc Hh]%andb_true_iff. cbn [host_text].
  assert (c <> "%"%char) by (intros ->; done). assert (Hs : host_text (String c h) = (if host_keep c then str1 c else pct c) +:+ host_text h) by by destruct c as [[] [] [] [] [] [] [] []].
  cbn [host_text] in Hs. rewrite Hs, Hc, IH by done. done.
Qed.
Definition authority (user : option (string * option string)) (host : string) : string := match user with Some ui => user_text ui +:+ "@" | None => "" end +:+ host.
Lemma authority_parses user host : str_all host_keep host = true -> host_fine host = true -> parse_authority (authority user host) = Some host.
Proof.
  intros Hk Hf. rewrite parse_authority_eq. assert (Hat : free_of "@" host) by (apply (str_all_not_mem host_keep); done). unfold authority.
  destruct user as [ui|].
  - destruct (user_text_bytes ui) as (Ha & Hu & Hp). rewrite sapp_assoc. change ("@" +:+ host) with (String "@" host). rewrite cut_last_at; [|by apply (str_all_not_mem auth_byte)|done]. cbn [fst snd]. by rewrite Hf, Hu, Hp.
  - change ("" +:+ host) with host. rewrite cut_last_free by done. cbn [fst snd]. by rewrite Hf.
Qed.

(** *** The built address *)
Definition plain_byte (c : ascii) : bool := negb (ctlByte c) && negb (Ascii.eqb c "#").
Definition rest_byte (c : ascii) : bool := plain_byte c && negb (Ascii.eqb c "?").
Lemma plain_no_ctl s : str_all plain_byte s = true -> str_any ctlByte s = false.
Proof. intros H. rewrite str_any_all, negb_false_iff. revert H. apply str_all_impl. intros c. unfold plain_byte. by intros [? _]%andb_true_iff. Qed.
Lemma authority_bytes user host : str_all host_keep host = true -> str_all rest_byte (authority user host) = true /\ free_of "/" (authority user host).
Proof.
  intros Hh. assert (Hall : forall p : ascii -> bool, (forall c, auth_byte c = true -> p c = true) -> p "@"%char = true -> (forall c, host_keep c = true -> p c = true) -> str_all p (authority user host) = true).
  { intros p H1 H2 H3. unfold authority. rewrite str_all_app, (str_all_impl host_keep p host) by done. rewrite andb_true_r. destruct user as [ui|]; [|done].
    destruct (user_text_bytes ui) as (Ha & _). rewrite str_all_app, (str_all_impl auth_byte p (user_text ui)) by done. cbn. by rewrite H2. }
  split; [apply Hall; [bytes|done|bytes]|]. apply (str_all_not_mem (fun c => negb (Ascii.eqb c "/"))); [done|]. apply Hall; [bytes|done|bytes].
Qed.
Definition fragment_text (F : string) : Prop := F = "" \/ exists f, F = String "#" f /\ pct_ok f = true.
Lemma reparse scheme user host pt Q F : scheme = "ws" \/ scheme = "wss" -> str_all host_keep host = true -> host_fine host = true ->
  str_all rest_byte pt = true -> pct_ok pt = true -> str_all plain_byte Q = true -> fragment_text F ->
  url_scheme_host (scheme +:+ ":" +:+ ("//" +:+ authority user host +:+ String "/" pt) +:+ ("?" +:+ Q) +:+ F) = Some (scheme, host).
Proof.
  intros Hs Hk Hf Hp Hpct HQ HF. destruct (authority_bytes user host Hk) as [Hab Hslash].
  set (rest := "//" +:+ authority user host +:+ String "/" pt). set (u := scheme +:+ ":" +:+ rest +:+ "?" +:+ Q).
  assert (Hrest : str_all rest_byte rest = true) by (unfold rest; rewrite !str_all_app, Hab; cbn [str_all]; by rewrite Hp).
  assert (Hu : str_all plain_byte u = true).
  { unfold u. rewrite !str_all_app, HQ. rewrite (str_all_impl rest_byte plain_byte rest); [|intros c; unfold rest_byte; by intros [? _]%andb_true_iff|done]. by destruct Hs as [-> | ->]. }
  assert (Hnot : u <> "*") by (unfold u; by destruct Hs as [-> | ->]).
  assert (Hsch : get_scheme u = Some (scheme, rest +:+ "?" +:+ Q)).
  { unfold get_scheme, u. change (":" +:+ ?z) with (String ":" z). rewrite cut_at by by destruct Hs as [-> | ->]. by destruct Hs as [-> | ->]. }
  assert (Hlow : lower_all scheme = scheme) by by destruct Hs as [-> | ->].
  assert (Hne : scheme <> "") by by destruct Hs as [-> | ->].
  assert (Hmain : forall frag, pct_ok frag = true -> (if str_any ctlByte u || negb (pct_ok frag) then None else
    if bool_decide (u = "*") then Some ("", "") else '(sch, rest0) ← get_scheme u; let scheme := lower_all sch in
    let rest := match cut rest0 "?" with Some (r, _) => r | None => rest0 end in
    if negb (has_prefix rest "/") then if negb (bool_decide (scheme = "")) then Some (scheme, "") else match cut (match cut rest "/" with Some (seg, _) => seg | None => rest end) ":" with Some _ => None | None => if pct_ok rest then Some ("", "") else None end
    else if has_prefix rest "//" && (negb (bool_decide (scheme = "")) || negb (has_prefix rest "///")) then
      let r := sdrop 2 rest in let '(auth, pth) := match cut r "/" with Some (a, p) => (a, p) | None => (r, "") end in
      if negb (pct_ok pth) then None else host ← parse_authority auth; Some (scheme, host)
    else if pct_ok rest then Some (scheme, "") else None) = Some (scheme, host)).
  { intros frag Hfr. rewrite (plain_no_ctl _ Hu), Hfr, bool_decide_eq_false_2, Hsch by done. cbn [orb negb mbind option_bind]. cbv zeta. rewrite Hlow.
    change ("?" +:+ Q) with (String "?" Q). rewrite cut_at; [|by apply (str_all_not_mem rest_byte)]. cbv iota. rewrite (bool_decide_eq_false_2 _ Hne).
    change (has_prefix rest "/") with true. replace (has_prefix rest "//") with true by (unfold rest; by cbn; destruct (authority _ _ +:+ _)).
    change (sdrop 2 rest) with (authority user host +:+ String "/" pt). cbn [negb andb orb]. rewrite cut_at by exact Hslash. cbv iota. rewrite Hpct. cbn [negb]. by rewrite authority_parses. }
  assert (Hcut : free_of "#" u) by by apply (str_all_not_mem plain_byte).
  replace (scheme +:+ ":" +:+ rest +:+ ("?" +:+ Q) +:+ F) with (u +:+ F) by (unfold u; by rewrite !sapp_assoc).
  unfold url_scheme_host. destruct HF as [->|(f & -> & Hfp)]; [rewrite sapp_nil_r, (cut_free _ _ Hcut)|rewrite (cut_at _ _ _ Hcut)]; by apply Hmain.
Qed.

(** *** The parts of a parsed address *)
Lemma trim_right_split c s : exists t, s = trim_right c s +:+ t /\ str_all (fun a => Ascii.eqb a c) t = true.
Proof.
  induction s as [|a s (t & IH & Ht)]; [by exists ""|]. cbn [trim_right]. destruct (Ascii.eqb a c) eqn:Ha; cbn [andb].
  - destruct (decide (trim_right c s = "")) as [He|He].
    + rewrite bool_decide_eq_true_2 by done. exists (String a t). split; [rewrite IH, He; done|cbn; by rewrite Ha, Ht].
    + rewrite bool_decide_eq_false_2 by done. exists t. split; [by rewrite sapp_cons, <- IH|done].
  - exists t. split; [by rewrite sapp_cons, <- IH|done].
Qed.
Lemma sapp_cancel x y z : x +:+ y = x +:+ z -> y = z.
Proof. induction x as [|a x IH]; [done|]. rewrite !sapp_cons. intros [= H]. by apply IH. Qed.
Lemma never_the_old_path x : x <> trim_right "/" x +:+ "/ws/devices/".
Proof.
  intros Hx. destruct (trim_right_split "/" x) as (t & Ht & Hall). rewrite Ht in Hx at 1. apply sapp_cancel in Hx. by subst t.
Qed.
Lemma QueryEscape_all (p : ascii -> bool) s : p "+"%char = true -> p "%"%char = true -> (forall c, unreserved c = true -> p c = true) -> str_all p (QueryEscape s) = true.
Proof.
  intros H1 H2 H3. unfold QueryEscape. induction s as [|c s IH]; [done|]. rewrite str_all_app, IH, andb_true_r. destruct (Ascii.eqb c " "); [cbn; by rewrite H1|].
  destruct (unreserved c) eqn:Hc; [cbn; by rewrite (H3 c Hc)|]. destruct (nibbles c) as [Ha Hb]. apply upper_hex_alnum, andb_true_iff in Ha as [Ha _]. apply upper_hex_alnum, andb_true_iff in Hb as [Hb _].
  cbn. assert (Hal : forall a, is_alnum a = true -> p a = true) by (intros a Ha'; apply H3; unfold unreserved; by rewrite Ha'). by rewrite H2, !Hal.
Qed.
Lemma join_all (p : ascii -> bool) sep l : str_all p sep = true -> Forall (fun s => str_all p s = true) l -> str_all p (join sep l) = true.
Proof. intros Hs Hl. induction Hl as [|x l Hx Hl IH]; [done|]. destruct l as [|y l]; [done|]. change (join sep (x :: y :: l)) with (x +:+ sep +:+ join sep (y :: l)). by rewrite !str_all_app, Hx, Hs, IH. Qed.
Lemma Encode_plain m : str_all plain_byte (Encode m) = true.
Proof.
  unfold Encode. apply join_all; [done|]. apply Forall_forall. intros s Hs. apply list_elem_of_In, in_flat_map in Hs as (k & _ & Hs). apply in_map_iff in Hs as (v & <- & _).
  unfold pair_text. rewrite !str_all_app, !QueryEscape_all; [done|done|done|bytes|done|done|bytes].
Qed.
Lemma join_empty l x : x ∈ l -> x <> "" -> join "&" l <> "".
Proof. intros Hx Hne. destruct l as [|a [|b l]]; [by apply elem_of_nil in Hx|apply list_elem_of_singleton in Hx; by subst|]. by destruct a. Qed.
Lemma Encode_some (m : values) k v l : m !! k = Some (v :: l) -> Encode m <> "".
Proof.
  intros Hm. unfold Encode. apply (join_empty _ (pair_text k v)); [|by unfold pair_text; destruct (QueryEscape k)].
  apply list_elem_of_In, in_flat_map. exists k. split; [|rewrite Hm; by left]. apply list_elem_of_In, elem_of_sort_strings, list_elem_of_fmap.
  exists (k, v :: l). split; [done|]. by apply elem_of_map_to_list.
Qed.
Lemma url_authority raw scheme host : url_scheme_host raw = Some (scheme, host) -> host <> "" ->
  let '(u, frag) := default (raw, "") (cut raw "#") in
  u <> "*" /\ pct_ok frag = true /\ exists sch rest0 auth p, get_scheme u = Some (sch, rest0) /\ scheme = lower_all sch /\
    hier scheme (default (rest0, "") (cut rest0 "?")).1 = ("", Some auth, p) /\ parse_authority auth = Some host /\ (p = "" \/ exists t, p = String "/" t).
Proof.
  intros H Hne. unfold url_scheme_host in H. destruct (default (raw, "") (cut raw "#")) as [u frag] eqn:Hd.
  replace (match cut raw "#" with Some (u0, f) => (u0, f) | None => (raw, "") end) with (u, frag) in H by (rewrite <- Hd; by destruct (cut raw "#") as [[??]|]).
  destruct (str_any ctlByte u); [done|]. destruct (pct_ok frag) eqn:Hf; [|done]. cbn [orb negb] in H. destruct (decide (u = "*")) as [->|Hu]; [rewrite bool_decide_eq_true_2 in H by done; congruence|].
  rewrite bool_decide_eq_false_2 in H by done. split; [done|]. split; [done|]. destruct (get_scheme u) as [[sch rest0]|] eqn:Hs; [|done]. cbn [mbind option_bind] in H. cbv zeta in H.
  exists sch, rest0. set (rest := (default (rest0, "") (cut rest0 "?")).1).
  replace (match cut rest0 "?" with Some (r, _) => r | None => rest0 end) with rest in H by (unfold rest; by destruct (cut rest0 "?") as [[??]|]).
  unfold hier. destruct (has_prefix rest "/"); cbn [negb] in H |- *.
  - destruct (has_prefix rest "//" && _) eqn:Hb; [|destruct (pct_ok rest); [congruence|done]].
    destruct (cut (sdrop 2 rest) "/") as [[auth p]|] eqn:Hc.
    + destruct (negb (pct_ok p)); [done|]. destruct (parse_authority auth) as [h|] eqn:Hp; [|done]. injection H as <- <-. exists auth, (String "/" p). rewrite Hb. eauto 10.
    + destruct (negb (pct_ok "")); [done|]. destruct (parse_authority (sdrop 2 rest)) as [h|] eqn:Hp; [|done]. injection H as <- <-. exists (sdrop 2 rest), "". rewrite Hb. eauto 10.
  - destruct (negb (bool_decide (lower_all sch = ""))); [congruence|]. repeat case_match; congruence.
Qed.
Lemma parsed_host base u scheme host : url_parse base = Some u -> url_scheme_host base = Some (scheme, host) -> host <> "" ->
  u_scheme u = scheme /\ u_host u = host /\ u_opaque u = "" /\ u_omit_host u = false /\ host_fine host = true /\
  (u_path u = "" \/ exists p, u_path u = String "/" p) /\ pct_ok (u_raw_fragment u) = true.
Proof.
  unfold url_parse. intros Hu Hsh Hh. rewrite Hsh in Hu. cbn [mbind option_bind] in Hu.
  pose proof (url_authority _ _ _ Hsh Hh) as Ha. destruct (default (base, "") (cut base "#")) as [t frag]. destruct Ha as (Ht & Hf & sch & rest0 & auth & p & Hg & -> & Hhier & Hp & Hslash).
  rewrite bool_decide_eq_false_2, Hg in Hu by done. cbn [mbind option_bind] in Hu. destruct (default (rest0, "") (cut rest0 "?")) as [rest q]. cbn [fst] in Hhier. rewrite Hhier in Hu. injection Hu as <-.
  cbn [u_scheme u_host u_opaque u_omit_host u_path u_raw_fragment]. do 4 (split; [done|]). split.
  - rewrite parse_authority_eq in Hp. destruct (host_fine (cut_last auth "@").2) eqn:Hfine; [|done]. cbn [andb] in Hp. destruct (match _ with Some _ => _ | None => _ end); [|done]. by injection Hp as <-.
  - split; [|done]. destruct Hslash as [->|[p' ->]]; [by left|right]. by eexists.
Qed.

(** What follows the authority in the built address. *)
Lemma built_path u : (u_path u = "" \/ exists p, u_path u = String "/" p) -> forall scheme q,
  let v := MkURL scheme (u_opaque u) (u_user u) (u_host u) (u_omit_host u) (trim_right "/" (u_path u) +:+ "/ws/devices/") (u_raw_path u) (u_force_query u) q (u_raw_fragment u) in
  (u_path u = unescape false (u_raw_path u)) -> exists pt, EscapedPath v = String "/" pt /\ str_all rest_byte pt = true /\ pct_ok pt = true.
Proof.
  intros Hpath scheme q v Hraw. unfold EscapedPath, v. cbn [u_raw_path u_path]. rewrite <- Hraw.
  rewrite (bool_decide_eq_false_2 (u_path u = _)) by apply never_the_old_path. rewrite andb_false_r.
  assert (Hx : exists x, trim_right "/" (u_path u) +:+ "/ws/devices/" = String "/" x).
  { destruct Hpath as [->|[p ->]]; [by eexists|]. cbn [trim_right]. destruct (_ && _); by eexists. }
  destruct Hx as [x Hx]. rewrite Hx. rewrite bool_decide_eq_false_2 by (intros [= ->]; by destruct (trim_right "/" (u_path u)) as [|? [|]]).
  exists (escape path_keep x). split; [done|]. split; [apply escape_all; [bytes|done|bytes]|].
  by rewrite <- (sapp_nil_r (escape _ _)), pct_ok_escape.
Qed.
Lemma built_fragment u : pct_ok (u_raw_fragment u) = true -> fragment_text (if bool_decide (u_raw_fragment u = "") then "" else "#" +:+ EscapedFragment u).
Proof.
  intros Hp. destruct (bool_decide _); [by left|right]. eexists. split; [reflexivity|]. unfold EscapedFragment. destruct (valid_encoded _ _); [done|].
  by rewrite <- (sapp_nil_r (escape _ _)), pct_ok_escape.
Qed.
Lemma raw_path_of base u : url_parse base = Some u -> u_path u = unescape false (u_raw_path u) \/ u_path u = "*".
Proof.
  unfold url_parse. destruct (url_scheme_host base) as [[scheme host]|]; [|done]. cbn [mbind option_bind]. destruct (default _ _) as [t frag]. destruct (bool_decide _); [intros [= <-]; by right|].
  destruct (get_scheme t) as [[sch rest0]|]; [|done]. cbn [mbind option_bind]. destruct (default _ _) as [rest q]. destruct (hier scheme rest) as [[o a] p]. intros [= <-]. by left.
Qed.

Lemma ws_scheme_ws s ws : ws_scheme s = Some ws -> ws = "ws" \/ ws = "wss".
Proof.
  unfold ws_scheme. destruct (decide (s = "http")) as [H|H]; [rewrite bool_decide_eq_true_2 by done; intros [= <-]; by left|]. rewrite bool_decide_eq_false_2 by done.
  destruct (decide (s = "https")) as [H1|H1]; [rewrite bool_decide_eq_true_2 by done; intros [= <-]; by right|]. rewrite bool_decide_eq_false_2 by done.
  destruct (decide (s = "ws")) as [->|H2]; [rewrite bool_decide_eq_true_2 by done; intros [= <-]; by left|]. rewrite bool_decide_eq_false_2 by done. cbn [orb].
  destruct (decide (s = "wss")) as [->|H3]; [rewrite bool_decide_eq_true_2 by done; intros [= <-]; by right|]. by rewrite bool_decide_eq_false_2 by done.
Qed.

(** The client's address names the configured host, whatever path, query, user and token go into it, and its scheme is the one the configured scheme stands for. *)
Theorem target_host base token w scheme host : buildWSURL base token = Ok w -> url_scheme_host base = Some (scheme, host) -> host <> "" -> str_all host_keep host = true ->
  exists ws, ws_scheme scheme = Some ws /\ url_scheme_host w = Some (ws, host).
Proof.
  intros Hb Hs Hne Hk. unfold buildWSURL in Hb. destruct (url_parse base) as [u|] eqn:Hu; [|done].
  destruct (parsed_host _ _ _ _ Hu Hs Hne) as (Hsch & Hhost & Hop & Hom & Hfine & Hpath & Hfrag). rewrite Hsch in Hb.
  destruct (ws_scheme scheme) as [ws|] eqn:Hws; [|done]. exists ws. split; [done|].
  assert (Hraw : u_path u = unescape false (u_raw_path u)) by (destruct (raw_path_of _ _ Hu) as [|H]; [done|destruct Hpath as [Hp|[p Hp]]; by rewrite H in Hp]).
  set (q := if bool_decide (token = "") then _ else _) in Hb. assert (Hq : Encode q <> "").
  { apply (Encode_some q "EIO" "4" []). unfold q. destruct (bool_decide (token = "")); by rewrite ?lookup_insert_ne, lookup_insert_eq by done. }
  destruct (built_path u Hpath ws (Encode q) Hraw) as (pt & Hpt & Hrest & Hpct). injection Hb as <-. unfold String_. cbn [u_scheme u_opaque u_user u_host u_omit_host u_path u_raw_path u_force_query u_raw_query u_raw_fragment].
  rewrite Hop, bool_decide_eq_true_2 by done. rewrite (bool_decide_eq_false_2 (Encode q = "")), orb_true_r by done.
  rewrite Hop in Hpt. rewrite Hpt. unfold authority_text. cbn [u_omit_host u_host u_path u_user]. rewrite Hom, Hhost, !(bool_decide_eq_false_2 (host = "")) by done. cbn [andb].
  rewrite (host_keep_text _ Hk). fold (authority (u_user u) host).
  change (EscapedFragment _) with (EscapedFragment u).
  replace (("//" +:+ authority (u_user u) host) +:+ String "/" pt) with ("//" +:+ authority (u_user u) host +:+ String "/" pt) by by rewrite sapp_assoc.
  apply reparse; try done; [|apply Encode_plain|by apply built_fragment].
  exact (ws_scheme_ws _ _ Hws).
Qed.
