(* ===== verification/WsClient.v ===== *)
(** * The websocket client: internal/api/wsclient.go

    One goroutine keeps a session: it dials, waits for the open frame, joins
    the namespace and hands the events it reads to the handlers; any number of
    goroutines emit.  [Emit] takes the lock twice, once to look at the
    connection and once to write, so the steps of the model are the sections
    between two locks; a list of steps is one interleaving.  What the network
    does (dials, frames, errors) is in the steps. *)

From S2P Require Import Prelude GoStrings GoUrl Codec Utf8 Json JsonEnc JsonDec Frames WsUrl.

(** ** State *)

(** The session's goroutine; a reader that outlives the session may still
    hold one frame. *)
Inductive phase := Between | Opening | Greeting | Pumping | Stopped (reading : bool).

Record client := MkClient {
  url : string;
  token : string;
  handlers : list string;
  conn : option nat;               (* [c.conn], by number *)
  connected : bool;
  at_ : phase;
  cancelled : bool;
  backoff : Z;                     (* seconds until the next session *)
  emitting : list (nat * string);  (* [Emit] past its check: the connection it saw and its frame *)
  crashed : bool;                  (* a write through a nil connection *)
  made : nat;                      (* connections so far *)
  dialed : list string;            (* newest first, like all that follow *)
  wire : list (nat * string);      (* frames written *)
  heard : list (option nat * string);   (* frames the reader handled, and [c.conn] *)
  events : list (string * list string); (* what handlers were called with *)
  joined : nat                     (* calls of the connect callback *)
}.
Definition New (baseURL tok : string) (hs : list string) : client :=
  MkClient baseURL tok hs None false Between false 1 [] false 0 [] [] [] [] 0.

Definition backoffMax : Z := 30.
Definition set_conn (n : option nat) (on : bool) (p : phase) (c : client) : client :=
  MkClient (url c) (token c) (handlers c) n on p (cancelled c) (backoff c) (emitting c) (crashed c) (made c) (dialed c) (wire c) (heard c) (events c) (joined c).
Definition write (n : nat) (f : string) (c : client) : client :=
  MkClient (url c) (token c) (handlers c) (conn c) (connected c) (at_ c) (cancelled c) (backoff c) (emitting c) (crashed c) (made c) (dialed c) ((n, f) :: wire c) (heard c) (events c) (joined c).
Definition called (ev : string * list string) (c : client) : client :=
  MkClient (url c) (token c) (handlers c) (conn c) (connected c) (at_ c) (cancelled c) (backoff c) (emitting c) (crashed c) (made c) (dialed c) (wire c) (heard c) (ev :: events c) (joined c).
Definition hears (f : string) (c : client) : client :=
  MkClient (url c) (token c) (handlers c) (conn c) (connected c) (at_ c) (cancelled c) (backoff c) (emitting c) (crashed c) (made c) (dialed c) (wire c) ((conn c, f) :: heard c) (events c) (joined c).
Definition set_emitting (l : list (nat * string)) (c : client) : client :=
  MkClient (url c) (token c) (handlers c) (conn c) (connected c) (at_ c) (cancelled c) (backoff c) l (crashed c) (made c) (dialed c) (wire c) (heard c) (events c) (joined c).
Definition crash (c : client) : client :=
  MkClient (url c) (token c) (handlers c) (conn c) (connected c) (at_ c) (cancelled c) (backoff c) (emitting c) true (made c) (dialed c) (wire c) (heard c) (events c) (joined c).
Definition SetToken (t : string) (c : client) : client :=
  MkClient (url c) t (handlers c) (conn c) (connected c) (at_ c) (cancelled c) (backoff c) (emitting c) (crashed c) (made c) (dialed c) (wire c) (heard c) (events c) (joined c).
Definition cancel (c : client) : client :=
  MkClient (url c) (token c) (handlers c) (conn c) (connected c) (at_ c) true (backoff c) (emitting c) (crashed c) (made c) (dialed c) (wire c) (heard c) (events c) (joined c).
Definition dial (w : string) (ok : bool) (c : client) : client :=
  MkClient (url c) (token c) (handlers c) (if ok then Some (made c) else conn c) (connected c) (if ok then Opening else at_ c) (cancelled c) (backoff c) (emitting c) (crashed c)
    (if ok then S (made c) else made c) (w :: dialed c) (wire c) (heard c) (events c) (joined c).
(** The end of a session, after the deferred [disconnect]. *)
Definition wait_longer (c : client) : client :=
  MkClient (url c) (token c) (handlers c) (conn c) (connected c) (at_ c) (cancelled c) (Z.min backoffMax (2 * backoff c)) (emitting c) (crashed c) (made c) (dialed c) (wire c) (heard c) (events c) (joined c).
Definition callback (c : client) : client :=
  MkClient (url c) (token c) (handlers c) (conn c) (connected c) (at_ c) (cancelled c) (backoff c) (emitting c) (crashed c) (made c) (dialed c) (wire c) (heard c) (events c) (S (joined c)).
Definition disconnect (p : phase) (c : client) : client := set_conn None false p c.
Definition session_ends (c : client) : client := wait_longer (disconnect Between c).

(** ** The session *)

(** The address of the next session, [None] when the client refuses to dial. *)
Definition next_target (c : client) : option string :=
  match buildWSURL (url c) (token c) with
  | Err _ => None
  | Ok w => match assertSecureWSTarget w with Ok _ => Some w | Err _ => None end
  end.
Definition start_session (ok : bool) (c : client) : client :=
  match next_target c with
  | None => wait_longer c
  | Some w => if ok then dial w true c else wait_longer (dial w false c)
  end.

Record open_packet := MkOpen { sid : string; pingInterval : Z; pingTimeout : Z }.
Definition dec_open : decoder open_packet := dec_struct
  [fld "sid" dec_string sid (fun v o => MkOpen v (pingInterval o) (pingTimeout o)); fld "pingInterval" dec_int pingInterval (fun v o => MkOpen (sid o) v (pingTimeout o));
   fld "pingTimeout" dec_int pingTimeout (fun v o => MkOpen (sid o) (pingInterval o) v)].
Definition open_ok (f : string) : bool :=
  match f with String "0" body => bool_decide (is_Some (unmarshal dec_open (MkOpen "" 0 0) body)) | _ => false end.

Definition dispatchEvent (payload : string) (c : client) : client :=
  match read_event payload with
  | Some ev => if bool_decide (ev.1 ∈ handlers c) then called ev c else c
  | None => c
  end.
Definition handle (f : string) (c : client) : client :=
  let c := hears f c in
  match handleFrame f with
  | Nothing => c
  | Pong => match conn c with Some n => write n "3" c | None => c end
  | Event payload => dispatchEvent payload c
  end.

(** A text arrives; [wrote] says whether the answer to the open frame could
    be written. *)
Definition receive (f : string) (wrote : bool) (c : client) : client :=
  match at_ c, conn c with
  | Opening, Some n =>
      if negb (open_ok f) then session_ends c else
      if wrote then set_conn (conn c) (connected c) Greeting (write n "40" c) else session_ends (write n "40" c)
  | Greeting, _ => if has_prefix f "40" then callback (set_conn (conn c) true Pumping c) else session_ends c
  | Pumping, _ => handle f c
  | Stopped true, _ => set_conn (conn c) (connected c) (Stopped false) (handle f c)
  | _, _ => c
  end.

(** ** Emitting *)

(** The first half of [Emit] looks at the connection, the second writes. *)
Definition Emit (event : string) (args : list json) (c : client) : client :=
  match conn c with
  | Some n => if connected c then set_emitting (emitting c ++ [(n, event_frame event args)]) c else c
  | None => c
  end.
Definition emit_write (i : nat) (c : client) : client :=
  match emitting c !! i with
  | None => c
  | Some (_, f) =>
      let c := set_emitting (delete i (emitting c)) c in
      match conn c with Some n => write n f c | None => crash c end
  end.

(** ** Interleavings *)
Inductive move :=
| Dial (ok : bool) | Receive (f : string) (wrote : bool) | ReadFails | Cancel | Stop
| NewToken (t : string) | Emits (event : string) (args : list json) | Writes (i : nat).
Definition running (c : client) : bool := match at_ c with Opening | Greeting | Pumping => true | _ => false end.
Definition exec (m : move) (c : client) : client :=
  if crashed c then c else
  match m with
  | Dial ok => match at_ c with Between => start_session ok c | _ => c end
  | Receive f wrote => receive f wrote c
  | ReadFails => if running c then session_ends c else c
  | Cancel => cancel c
  | Stop => match at_ c with
            | Between => if cancelled c then disconnect (Stopped false) c else c
            | Pumping => if cancelled c then disconnect (Stopped true) c else c
            | _ => c
            end
  | NewToken t => SetToken t c
  | Emits event args => Emit event args c
  | Writes i => emit_write i c
  end.
(** The state after the moves, newest first. *)
Definition after (baseURL tok : string) (hs : list string) (l : list move) : client := fold_right exec (New baseURL tok hs) l.

(** ** In every interleaving *)
Section invariants.
Context (base tok : string) (hs : list string).
Notation aft := (after base tok hs).

Lemma after_url l : url (aft l) = base /\ handlers (aft l) = hs.
Proof.
  induction l as [|m l [Hu Hh]]; [done|]. change (aft (m :: l)) with (exec m (aft l)). revert Hu Hh. generalize (aft l) as c. intros c Hu Hh. unfold exec. destruct (crashed c); [done|].
  destruct m as [ok|f wrote| | | |t|e args|i]; cbn [SetToken cancel url handlers].
  - destruct (at_ c); try done. unfold start_session. destruct (next_target c); [|done]. by destruct ok.
  - unfold receive, handle, dispatchEvent. repeat case_match; done.
  - by destruct (running c).
  - done.
  - repeat case_match; done.
  - done.
  - unfold Emit. repeat case_match; done.
  - unfold emit_write. repeat case_match; done.
Qed.

(** The session's goroutine, the connection and the flag agree. *)
Definition linked (c : client) : Prop :=
  match at_ c with
  | Opening | Greeting => connected c = false /\ exists n, conn c = Some n /\ made c = S n
  | Pumping => connected c = true /\ exists n, conn c = Some n /\ made c = S n
  | Between | Stopped _ => connected c = false /\ conn c = None
  end.
Definition may_dial (w : string) : Prop := exists t, buildWSURL base t = Ok w /\ assertSecureWSTarget w = Ok tt.
Definition sound (c : client) : Prop := url c = base /\ linked c /\ (1 <= backoff c <= backoffMax)%Z /\ Forall may_dial (dialed c).

Lemma longer_bound b : (1 <= b <= backoffMax)%Z -> (1 <= Z.min backoffMax (2 * b) <= backoffMax)%Z.
Proof. unfold backoffMax. lia. Qed.
Lemma sound_ends c : sound c -> sound (session_ends c).
Proof. intros (Hu & _ & Hb & Hd). refine (conj Hu (conj _ (conj _ Hd))); [done|by apply longer_bound]. Qed.
Lemma sound_wire n f c : sound c -> sound (write n f c).
Proof. done. Qed.
Lemma sound_handle f c : sound c -> sound (handle f c).
Proof. intros H. unfold handle, dispatchEvent. repeat case_match; exact H. Qed.
Lemma handle_keeps f c : conn (handle f c) = conn c /\ connected (handle f c) = connected c /\ at_ (handle f c) = at_ c.
Proof. unfold handle, dispatchEvent. by repeat case_match. Qed.
Lemma sound_exec m c : sound c -> sound (exec m c).
Proof.
  intros Hs. pose proof (sound_ends c Hs) as Hends. destruct Hs as (Hu & Hl & Hb & Hd). unfold exec. destruct (crashed c); [done|].
  destruct m as [ok|f wrote| | | |t|e args|i].
  - destruct (at_ c) eqn:Ha; try done. unfold linked in Hl. rewrite Ha in Hl. unfold start_session. destruct (next_target c) as [w|] eqn:Hw.
    + assert (Hmay : may_dial w). { unfold next_target in Hw. rewrite Hu in Hw. destruct (buildWSURL base (token c)) as [w'|] eqn:Hb'; [|done]. destruct (assertSecureWSTarget w') as [[]|] eqn:Hs; [|done]. injection Hw as <-. by exists (token c). }
      destruct ok; refine (conj Hu (conj _ (conj _ _))); try (by constructor); try done; [split; [apply Hl|by exists (made c)]|unfold linked; cbn; by rewrite Ha|by apply longer_bound].
    + refine (conj Hu (conj _ (conj _ Hd))); [unfold linked; cbn; by rewrite Ha|by apply longer_bound].
  - unfold receive. destruct (at_ c) as [ | | | |[|]] eqn:Ha; try done; unfold linked in Hl; rewrite Ha in Hl.
    + destruct Hl as (Hc & n & Hn & Hm). rewrite Hn. destruct (open_ok f); [|done]. cbn [negb]. destruct wrote; [|exact Hends].
      refine (conj Hu (conj _ (conj Hb Hd))). split; [exact Hc|by exists n].
    + destruct Hl as (Hc & n & Hn & Hm). destruct (has_prefix f "40"); [|done]. refine (conj Hu (conj _ (conj Hb Hd))). split; [done|by exists n].
    + apply sound_handle. refine (conj Hu (conj _ (conj Hb Hd))). unfold linked. by rewrite Ha.
    + destruct (handle_keeps f c) as (Hc & Hon & _). assert (Hh : sound (handle f c)) by (apply sound_handle; refine (conj Hu (conj _ (conj Hb Hd))); unfold linked; by rewrite Ha).
      destruct Hh as (H1 & _ & H3 & H4). refine (conj H1 (conj (conj _ _) (conj H3 H4))); apply Hl.
  - by destruct (running c).
  - done.
  - destruct (at_ c) eqn:Ha; try done; destruct (cancelled c); done.
  - done.
  - unfold Emit. destruct (conn c); [|done]. by destruct (connected c).
  - unfold emit_write. destruct (emitting c !! i) as [[n f]|]; [|done]. cbn [conn set_emitting]. by destruct (conn c).
Qed.
Lemma sound_after l : sound (aft l).
Proof. induction l as [|m l IH]; [|by apply sound_exec]. refine (conj eq_refl (conj _ (conj _ _))); [done|cbn; unfold backoffMax; lia|done]. Qed.

(** C23: However sessions, cancellations, tokens and emitting goroutines interleave, the client that dials the websocket sends the token only to the configured host, over TLS unless that host is this machine; between two sessions the client waits between one and thirty seconds.  (The refresh of the token over HTTP is another client: [AgentProps.refresh_plaintext].) *)
Theorem dial_secure l w scheme host : url_scheme_host base = Some (scheme, host) -> host <> "" -> str_all host_keep host = true -> w ∈ dialed (aft l) ->
  (exists ws, url_scheme_host w = Some (ws, host) /\ (ws = "wss" \/ loopback host = true)) /\ (1 <= backoff (aft l) <= 30)%Z.
Proof.
  intros Hs Hne Hk Hw. destruct (sound_after l) as (_ & _ & Hb & Hd). split; [|exact Hb]. rewrite Forall_forall in Hd. destruct (Hd w Hw) as (t & Hbuilt & Hsec).
  destruct (target_host _ _ _ _ _ Hbuilt Hs Hne Hk) as (ws & _ & Hws). exists ws. split; [done|]. unfold assertSecureWSTarget in Hsec. rewrite Hws in Hsec.
  destruct (decide (ws = "wss")) as [->|Hn]; [by left|right]. rewrite bool_decide_eq_false_2 in Hsec by done. by destruct (loopback host).
Qed.

(** *** What goes over a connection *)

(** The frames written on a connection, newest first. *)
Definition on (n : nat) (c : client) : list string := omap (fun p : nat * string => if bool_decide (p.1 = n) then Some p.2 else None) (wire c).
Definition later_frame (f : string) : Prop := f = "3" \/ exists event args, f = event_frame event args.
(** The namespace is joined before anything else is said. *)
Definition protocol (l : list string) : Prop := l = [] \/ exists rest, l = rest ++ ["40"] /\ Forall later_frame rest.
Definition is_ping (f : string) : bool := match handleFrame f with Pong => true | _ => false end.
Definition pongs (n : nat) (c : client) : nat := length (List.filter (fun f => bool_decide (f = "3")) (on n c)).
Definition pings (n : nat) (c : client) : nat := length (List.filter (fun p : option nat * string => bool_decide (p.1 = Some n) && is_ping p.2) (heard c)).
(** No [Emit] writes on another connection than the one it looked at. *)
Fixpoint fresh (l : list move) : Prop :=
  match l with
  | [] => True
  | m :: l => fresh l /\ match m with Writes i => forall n f, emitting (aft l) !! i = Some (n, f) -> conn (aft l) = Some n | _ => True end
  end.

Definition orderly (c : client) : Prop :=
  crashed c = false /\
  (forall n, protocol (on n c)) /\ (forall n, made c <= n -> on n c = []) /\ (forall n, pongs n c = pings n c) /\
  (forall n, conn c = Some n -> match at_ c with Opening => on n c = [] | _ => on n c <> [] end) /\
  Forall (fun p : nat * string => on p.1 c <> [] /\ exists event args, p.2 = event_frame event args) (emitting c).

Lemma on_write n m f c : on n (write m f c) = if decide (m = n) then f :: on n c else on n c.
Proof. unfold on. cbn [wire write omap list_omap fst snd]. destruct (decide (m = n)); [by rewrite bool_decide_eq_true_2|by rewrite bool_decide_eq_false_2]. Qed.
Lemma protocol_later l f : protocol l -> l <> [] -> later_frame f -> protocol (f :: l).
Proof. intros [->|(rest & -> & Hr)] Hne Hf; [done|]. right. exists (f :: rest). split; [done|by constructor]. Qed.
Lemma pongs_write n m f c : pongs n (write m f c) = (if decide (m = n) then if bool_decide (f = "3") then 1 else 0 else 0) + pongs n c.
Proof. unfold pongs. rewrite on_write. destruct (decide (m = n)); [|done]. cbn [List.filter]. by destruct (bool_decide (f = "3")). Qed.
Lemma pings_hears n f c : pings n (hears f c) = (if bool_decide (conn c = Some n) && is_ping f then 1 else 0) + pings n c.
Proof. unfold pings. cbn [heard hears List.filter fst snd]. by destruct (_ && _). Qed.
Lemma never_empty n m f c : on n c <> [] -> on n (write m f c) <> [].
Proof. rewrite on_write. by destruct (decide (m = n)). Qed.
Lemma emitting_kept m f c : Forall (fun p : nat * string => on p.1 c <> [] /\ exists event args, p.2 = event_frame event args) (emitting c) ->
  Forall (fun p : nat * string => on p.1 (write m f c) <> [] /\ exists event args, p.2 = event_frame event args) (emitting (write m f c)).
Proof. intros H. eapply Forall_impl; [exact H|]. intros p [Hp He]. split; [by apply never_empty|done]. Qed.

(** Nothing is written: the parts the frames speak of stay. *)
Lemma orderly_quiet c c' : orderly c -> crashed c' = false -> wire c' = wire c -> heard c' = heard c -> made c <= made c' ->
  (forall n, conn c' = Some n -> match at_ c' with Opening => on n c = [] | _ => on n c <> [] end) ->
  Forall (fun p : nat * string => on p.1 c <> [] /\ exists event args, p.2 = event_frame event args) (emitting c') -> orderly c'.
Proof.
  intros (H1 & H2 & H3 & H4 & H5 & H6) Hc Hw Hh Hm Hconn Hem. assert (Hon : forall n, on n c' = on n c) by (intros n; unfold on; by rewrite Hw).
  refine (conj Hc (conj _ (conj _ (conj _ (conj _ _))))).
  - intros n. by rewrite Hon.
  - intros n Hn. rewrite Hon. apply H3. lia.
  - intros n. unfold pongs, pings. rewrite Hon, Hh. apply H4.
  - intros n Hn. rewrite Hon. by apply Hconn.
  - eapply Forall_impl; [exact Hem|]. intros p. by rewrite Hon.
Qed.
(** A later frame on the current connection. *)
Lemma orderly_write n f c : orderly c -> conn c = Some n -> at_ c = Greeting \/ at_ c = Pumping -> later_frame f -> n < made c -> f <> "3" -> orderly (write n f c).
Proof.
  intros (H1 & H2 & H3 & H4 & H5 & H6) Hn Ha Hf Hlt Hne. assert (Hon : on n c <> []) by (specialize (H5 n Hn); by destruct Ha as [Ha|Ha]; rewrite Ha in H5).
  refine (conj H1 (conj _ (conj _ (conj _ (conj _ _))))).
  - intros k. rewrite on_write. destruct (decide (n = k)) as [<-|]; [by apply protocol_later|done].
  - intros k Hk. rewrite on_write, decide_False by (cbn in Hk; lia). by apply H3.
  - intros k. rewrite pongs_write, bool_decide_eq_false_2 by done. destruct (decide (n = k)); apply H4.
  - intros k Hk. cbn [at_ write]. assert (k = n) as -> by (cbn in Hk; congruence). specialize (H5 n Hn). destruct Ha as [Ha|Ha]; rewrite Ha in *; by apply never_empty.
  - by apply emitting_kept.
Qed.
Lemma orderly_handle f c : orderly c -> (conn c = None \/ exists n, conn c = Some n /\ at_ c = Pumping /\ n < made c) -> orderly (handle f c).
Proof.
  intros Ho Hc. unfold handle. assert (Hq : forall c', handleFrame f <> Pong -> c' = hears f c \/ (exists ev, c' = called ev (hears f c)) -> orderly c').
  { intros c' Hnp Hc'. destruct Ho as (H1 & H2 & H3 & H4 & H5 & H6). assert (Hp : forall n, pings n c' = pings n c).
    { intros n. assert (pings n c' = pings n (hears f c)) as -> by by destruct Hc' as [->|[ev ->]]. rewrite pings_hears. unfold is_ping. destruct (handleFrame f); try done; by rewrite andb_false_r. }
    destruct Hc' as [->|[ev ->]]; refine (conj H1 (conj H2 (conj H3 (conj _ (conj H5 H6))))); intros n; rewrite Hp; apply H4. }
  destruct (handleFrame f) as [| |payload] eqn:Hf; [apply Hq; [done|by left]| |].
  - cbn [conn hears]. destruct Hc as [Hc|(n & Hc & Ha & Hlt)]; rewrite Hc.
    + destruct Ho as (H1 & H2 & H3 & H4 & H5 & H6). refine (conj H1 (conj H2 (conj H3 (conj _ (conj H5 H6))))). intros n. rewrite pings_hears, Hc. apply H4.
    + destruct Ho as (H1 & H2 & H3 & H4 & H5 & H6). assert (Hon : on n c <> []) by (specialize (H5 n Hc); by rewrite Ha in H5).
      refine (conj H1 (conj _ (conj _ (conj _ (conj _ _))))).
      * intros k. rewrite on_write. destruct (decide (n = k)) as [<-|]; [apply protocol_later; [apply H2|done|by left]|apply H2].
      * intros k Hk. rewrite on_write, decide_False by (cbn in Hk; lia). by apply H3.
      * intros k. rewrite pongs_write. change (pings k (write n "3" (hears f c))) with (pings k (hears f c)). rewrite pings_hears, Hc. unfold is_ping. rewrite Hf.
        change (pongs k (hears f c)) with (pongs k c). rewrite H4. destruct (decide (n = k)) as [->|Hk]; [by rewrite !bool_decide_eq_true_2|]. rewrite (bool_decide_eq_false_2 (Some n = Some k)) by congruence. done.
      * intros k Hk. cbn in Hk. cbn [at_ write hears]. assert (k = n) as -> by congruence. rewrite Ha. by apply never_empty.
      * by apply (emitting_kept n "3" (hears f c)).
  - unfold dispatchEvent. destruct (read_event payload) as [ev|]; [|apply Hq; [done|by left]]. destruct (bool_decide _); apply Hq; try done; [right; by exists ev|by left].
Qed.

Lemma orderly_exec m c : sound c -> orderly c -> (forall i, m = Writes i -> forall n f, emitting c !! i = Some (n, f) -> conn c = Some n) -> orderly (exec m c).
Proof.
  intros (_ & Hl & _) Ho Hfresh. assert (Ho' := Ho). destruct Ho' as (H1 & H2 & H3 & H4 & H5 & H6). unfold exec. rewrite H1. unfold linked in Hl.
  assert (Hdrop : forall c', crashed c' = false -> wire c' = wire c -> heard c' = heard c -> made c' = made c -> emitting c' = emitting c -> conn c' = None -> orderly c').
  { intros c' E1 E2 E3 E4 E5 E6. apply (orderly_quiet c); try done; [by rewrite E4|intros n; by rewrite E6|by rewrite E5]. }
  destruct m as [ok|f wrote| | | |t|e args|i]; try (by apply (orderly_quiet c)).
  - destruct (at_ c) eqn:Ha; try done. unfold start_session. destruct (next_target c) as [w|]; [|by apply Hdrop; try done; apply Hl].
    destruct ok; [|by apply Hdrop; try done; apply Hl]. apply (orderly_quiet c); try done; [cbn; lia|]. intros n [= <-]. by apply H3.
  - unfold receive. destruct (at_ c) as [ | | | |[|]] eqn:Ha; try done.
    + destruct Hl as (Hc & n & Hn & Hm). rewrite Hn. destruct (open_ok f); [|by apply Hdrop]. cbn [negb].
      assert (Hempty : on n c = []) by (specialize (H5 n Hn); by rewrite ?Ha in H5).
      assert (H40 : forall c', crashed c' = false -> wire c' = (n, "40") :: wire c -> heard c' = heard c -> made c' = made c -> emitting c' = emitting c -> (conn c' = None \/ (conn c' = Some n /\ at_ c' = Greeting)) -> orderly c').
      { intros c' E1 E2 E3 E4 E5 E6. assert (Hon : forall k, on k c' = if decide (n = k) then ["40"] else on k c).
        { intros k. pose proof (on_write k n "40" c) as Hw. unfold on in *. cbn [wire write] in Hw. rewrite E2, Hw. destruct (decide (n = k)) as [<-|]; [by rewrite Hempty|done]. }
        refine (conj E1 (conj _ (conj _ (conj _ (conj _ _))))).
        - intros k. rewrite Hon. destruct (decide (n = k)); [right; by exists []|apply H2].
        - intros k Hk. rewrite Hon, decide_False by lia. apply H3. lia.
        - intros k. unfold pongs, pings. rewrite Hon, E3. destruct (decide (n = k)) as [<-|]; [|apply H4]. specialize (H4 n). unfold pongs, pings in H4. rewrite Hempty in H4. exact H4.
        - intros k Hk. destruct E6 as [E6|[E6 E7]]; [congruence|]. assert (k = n) as -> by congruence. by rewrite E7, Hon, decide_True.
        - rewrite E5. eapply Forall_impl; [exact H6|]. intros p [Hp He]. split; [|done]. rewrite Hon. by destruct (decide (n = p.1)). }
      destruct wrote; apply H40; try done; [by right|by left].
    + destruct Hl as (Hc & n & Hn & Hm). destruct (has_prefix f "40"); [|by apply Hdrop]. apply (orderly_quiet c); try done.
    + destruct Hl as (Hc & n & Hn & Hm). apply orderly_handle; [done|right]. exists n. rewrite Hm. split_and!; [done|done|lia].
    + assert (Hh : orderly (handle f c)) by (apply orderly_handle; [done|left; apply Hl]). destruct Hh as (E1 & E2 & E3 & E4 & E5 & E6). apply (orderly_quiet (handle f c)); try done. 
      intros k Hk. cbn in Hk. by rewrite (proj2 Hl) in Hk.
  - destruct (running c); [by apply Hdrop|done].
  - destruct (at_ c) eqn:Ha; try done; (destruct (cancelled c); [by apply Hdrop|done]).
  - unfold Emit. destruct (conn c) as [n|] eqn:Hn; [|done]. destruct (connected c) eqn:Hc; [|done].
    assert (Hp : at_ c = Pumping) by (destruct (at_ c); try done; by destruct Hl as [Hl _]). apply (orderly_quiet c); try done; [intros k Hk; apply H5; rewrite <- Hn; exact Hk|]. cbn.
    apply Forall_app. split; [done|]. constructor; [|done]. cbn. specialize (H5 n eq_refl). rewrite Hp in H5. split; [exact H5|by exists e, args].
  - unfold emit_write. destruct (emitting c !! i) as [[n f]|] eqn:Hi; [|done]. pose proof (Hfresh i eq_refl n f Hi) as Hn. cbn [conn set_emitting]. rewrite Hn.
    assert (Hf : on n c <> [] /\ exists event args, f = event_frame event args) by (rewrite Forall_forall in H6; apply (H6 (n, f)), (list_elem_of_lookup_2 _ i), Hi).
    destruct Hf as [Hon (ev & args & ->)].
    assert (Hquiet : orderly (set_emitting (delete i (emitting c)) c)).
    { apply (orderly_quiet c); try done. by apply Forall_delete. }
    assert (Hat : at_ c = Greeting \/ at_ c = Pumping).
    { specialize (H5 n Hn). destruct (at_ c); auto; try (by destruct Hl as [_ Hl]; rewrite Hn in Hl). }
    apply orderly_write; try done; [right; by exists ev, args|]. destruct (at_ c); destruct Hat as [Ha|Ha]; try done; destruct Hl as (_ & k & Hk & Hm); cbn; rewrite Hn in Hk; injection Hk as ->; lia.
Qed.

(** The events of the frames that were handled. *)
Definition events_of (l : list (option nat * string)) : list (string * list string) :=
  omap (fun p : option nat * string => match handleFrame p.2 with
                 | Event payload => match read_event payload with Some ev => if bool_decide (ev.1 ∈ hs) then Some ev else None | None => None end
                 | _ => None
                 end) l.
Lemma handle_events f c : handlers c = hs -> events c = events_of (heard c) -> events (handle f c) = events_of (heard (handle f c)).
Proof.
  intros Hh He. assert (Hcons : heard (handle f c) = (conn c, f) :: heard c) by (unfold handle, dispatchEvent; by repeat case_match).
  rewrite Hcons. unfold events_of. cbn [omap list_omap snd]. unfold handle. destruct (handleFrame f) as [| |payload]; [exact He|cbn [conn hears]; by destruct (conn c)|].
  unfold dispatchEvent. destruct (read_event payload) as [ev|]; [|exact He]. cbn [handlers hears]. rewrite Hh. destruct (bool_decide _); [|exact He]. cbn [events called hears]. by f_equal.
Qed.
Lemma after_events l : events (aft l) = events_of (heard (aft l)).
Proof.
  induction l as [|m l IH]; [done|]. change (aft (m :: l)) with (exec m (aft l)). destruct (after_url l) as [_ Hh]. revert Hh IH. generalize (aft l) as c. intros c Hh IH. unfold exec. destruct (crashed c); [done|].
  destruct m as [ok|f wrote| | | |t|e args|i]; try done.
  - destruct (at_ c); try done. unfold start_session. destruct (next_target c); [|done]. by destruct ok.
  - unfold receive. destruct (at_ c) as [ | | | |[|]]; try done; try (by apply handle_events); repeat case_match; done.
  - by destruct (running c).
  - repeat case_match; done.
  - unfold Emit. repeat case_match; done.
  - unfold emit_write. repeat case_match; done.
Qed.
Lemma orderly_after l : fresh l -> orderly (aft l).
Proof.
  induction l as [|m l IH]; intros Hf.
  - refine (conj eq_refl (conj _ (conj _ (conj _ (conj _ _))))); try done. by left.
  - destruct Hf as [Hf Hm]. apply orderly_exec; [apply sound_after|by apply IH|]. by intros i ->.
Qed.

(** C24: When no emitting goroutine outlives the connection it looked at, the agent does not crash, every connection carries the namespace join first and then only pongs and events, each ping is answered once on its connection, and the handlers are called with exactly the events that arrived, in their order. *)
Theorem session_orderly l n : fresh l ->
  crashed (aft l) = false /\ protocol (on n (aft l)) /\ pongs n (aft l) = pings n (aft l) /\ events (aft l) = events_of (heard (aft l)).
Proof. intros Hf. destruct (orderly_after l Hf) as (H1 & H2 & _ & H4 & _). exact (conj H1 (conj (H2 n) (conj (H4 n) (after_events l)))). Qed.
End invariants.

(** ** Concrete interleavings *)
Definition open_frame : string := bq "0{`sid`:`s1`,`pingInterval`:25000,`pingTimeout`:20000}".
Definition joins : list move := [Dial true; Receive open_frame true; Receive (bq "40{`sid`:`s2`}") true].
Definition demo_hs : list string := ["agent:files_request"].
Definition demo_moves : list move := rev (joins ++ [Emits "agent:observed" [JNull]; Receive "2" true; Writes 0; Receive (bq "42[`agent:files_request`,{`op`:`list`}]") true]).
Notation run := (after "https://api.eu.obacht.dev" "jwt" demo_hs).
Lemma session_orderly_witness : fresh "https://api.eu.obacht.dev" "jwt" demo_hs demo_moves /\ crashed (run demo_moves) = false /\ pongs 0 (run demo_moves) = 1 /\
  on 0 (run demo_moves) = [event_frame "agent:observed" [JNull]; "3"; "40"] /\ events (run demo_moves) = [("agent:files_request", [bq "{`op`:`list`}"])].
Proof.
  assert (Hf : fresh "https://api.eu.obacht.dev" "jwt" demo_hs demo_moves) by (vm_compute; repeat split; intros; congruence).
  destruct (session_orderly "https://api.eu.obacht.dev" "jwt" demo_hs demo_moves 0 Hf) as (Hc & _ & Hp & He). refine (conj Hf (conj Hc (conj _ (conj _ _)))); [rewrite Hp; vm_compute; reflexivity|vm_compute; reflexivity|rewrite He; vm_compute; reflexivity].
Defined.
Lemma dial_secure_witness : exists ws, url_scheme_host (default "" (head (dialed (run demo_moves)))) = Some (ws, "api.eu.obacht.dev") /\ (ws = "wss" \/ loopback "api.eu.obacht.dev" = true).
Proof.
  refine (proj1 (dial_secure "https://api.eu.obacht.dev" "jwt" demo_hs demo_moves _ "https" "api.eu.obacht.dev" _ _ _ _)); [vm_compute; reflexivity|done|vm_compute; reflexivity|vm_compute; by left].
Defined.

(** The connection ends between the two halves of [Emit]: the write goes
    through a nil connection. *)
Example emit_crashes : crashed (run (rev (joins ++ [Emits "agent:observed" []; ReadFails; Writes 0]))) = true.
Proof. vm_compute. reflexivity. Qed.
(** The next connection is there already: the event is written before the
    namespace is joined. *)
Example event_before_join : on 1 (run (rev (joins ++ [Emits "agent:observed" []; ReadFails; Dial true; Writes 0]))) = [event_frame "agent:observed" []].
Proof. vm_compute. reflexivity. Qed.
(** The wait is never shortened again: after a day of connection it is what
    earlier failures made it. *)
Example wait_not_reset : backoff (run (rev (repeat (Dial false) 5 ++ joins ++ [ReadFails]))) = 30%Z.
Proof. vm_compute. reflexivity. Qed.
(** No plaintext to another host. *)
Example plaintext_refused : dialed (after "http://api.eu.obacht.dev" "jwt" [] [Dial true]) = [] /\ dialed (after "http://localhost:3000" "" [] [Dial true]) = ["ws://localhost:3000/ws/devices/?EIO=4&transport=websocket"].
Proof. vm_compute. done. Qed.
