(* ===== verification/Channel.v ===== *)
(** * The backend channel as the agent wires it: cmd/obacht-agent/main.go

    The websocket client hands events to the handlers that the synchroniser,
    the file handler and the log handler register: the six denied desired
    state events, signed mutations, file requests and log requests.  What one
    frame of the backend can do to the device follows. *)

From S2P Require Import Prelude GoStrings Codec Utf8 Json JsonEnc JsonDec UserKeys Store AuditLog SignedMut Dispatch DispatchProps Observed Frames.
From S2P Require Fs Files FilesProps Logs Ipc IpcProps WsClient.

(** The events with a handler. *)
Definition registered : list string := denied_events ++ ["agent:signed_mutation"; "agent:files_request"; "agent:logs_request"].

Inductive reply := FileReply (r : Files.response) | LogReply (r : Logs.response).
Record device := MkDevice { d_sync : sync_state; d_fs : Fs.FS; d_replies : list reply (* newest first *) }.

Section channel.
Context (P : platform) {disk : Fs.Disk} {wiring : Ipc.Wiring}.
Context (keys : option (list UserKey)) (ing : bool) (own : string) (now : Z) (log_ok : log_io).

Definition call_handler (event : string) (args : list string) (d : device) : device :=
  if bool_decide (event = "agent:files_request") then
    let '(r, fs) := Files.handle args (y_db (d_sync d)) (d_fs d) in
    MkDevice (d_sync d) fs (match r with Some r => FileReply r :: d_replies d | None => d_replies d end)
  else if bool_decide (event = "agent:logs_request") then
    MkDevice (d_sync d) (d_fs d) (match Logs.handle args with Some r => LogReply r :: d_replies d | None => d_replies d end)
  else MkDevice (on_event P keys ing own event args now log_ok (d_sync d)) (d_fs d) (d_replies d).
(** The event a frame carries to a handler. *)
Definition carried (frame : string) : option (string * list string) :=
  match handleFrame frame with
  | Event payload => match read_event payload with Some ev => if bool_decide (ev.1 ∈ registered) then Some ev else None | None => None end
  | _ => None
  end.
Definition on_frame (frame : string) (d : device) : device :=
  match carried frame with Some (event, args) => call_handler event args d | None => d end.

(** A mutation that a pinned key signed over its canonical bytes for this device. *)
Definition user_signed (raw : string) : Prop :=
  exists ks m k mj canon sig, keys = Some ks /\ k ∈ ks /\ signed_part raw = Some mj /\ decode_mutation mj = (m, false) /\ canonical_mutation mj = Ok canon /\
    ed25519 P (Pub k) canon sig = true /\ DeviceID m = own.

(** C3: Whatever text the backend sends over the channel: the instances, domains and routes stay as they are and nothing is reconciled or reloaded, unless the frame carries a mutation that a pinned key signed for this device; and the files stay as they are, unless the frame is a file request; when no link lies on the way to the webroot that the row of the named instance gives, or below it, such a request changes nothing outside that webroot.  (The row's volume may put the webroot anywhere: [FilesProps.source_escapes]; and links lead out of it: [FilesProps.link_escapes].) *)
Theorem frame_confined frame d :
  (same_state (y_db (d_sync d)) (y_db (d_sync (on_frame frame d))) /\ y_triggers (d_sync (on_frame frame d)) = y_triggers (d_sync d) /\ y_reloads (d_sync (on_frame frame d)) = y_reloads (d_sync d) \/
   exists raw rest, carried frame = Some ("agent:signed_mutation", raw :: rest) /\ user_signed raw) /\
  (d_fs (on_frame frame d) = d_fs d \/
   exists args root, carried frame = Some ("agent:files_request", args) /\ FilesProps.target args (y_db (d_sync d)) = Some root /\
     (FilesProps.unlinked (Fs.segs root) (d_fs d) -> FilesProps.kept (Fs.segs root) (d_fs d) (d_fs (on_frame frame d)))).
Proof.
  unfold on_frame. destruct (carried frame) as [[event args]|] eqn:Hc; [|by split; left]. unfold call_handler.
  destruct (decide (event = "agent:files_request")) as [->|Hfiles].
  { rewrite bool_decide_eq_true_2 by done. split; [left; by destruct (Files.handle args _ _)|]. destruct (FilesProps.target args (y_db (d_sync d))) as [root|] eqn:Ht.
    - right. exists args, root. split; [done|]. split; [done|]. intros Hu. destruct (FilesProps.handle_safe args _ root Ht (d_fs d) Hu) as (_ & Hk & _). by destruct (Files.handle args _ _).
    - left. pose proof (FilesProps.handle_no_target args _ (d_fs d) Ht) as Hn. by destruct (Files.handle args _ _). }
  rewrite bool_decide_eq_false_2 by done. destruct (decide (event = "agent:logs_request")) as [->|Hlogs]; [rewrite bool_decide_eq_true_2 by done; by split; left|].
  rewrite bool_decide_eq_false_2 by done. split; [|by left]. cbn [d_sync].
  destruct (inbound_only_signed P keys ing own event args now log_ok (d_sync d) _ eq_refl) as [H|(-> & raw & rest & ks & m & k & mj & canon & sig & -> & H)]; [by left|right].
  exists raw, rest. split; [done|]. by exists ks, m, k, mj, canon, sig.
Qed.

(** The client's dispatcher calls the handlers with what the frames carry. *)
Lemma carried_events l : WsClient.events_of registered l = omap (fun p : option nat * string => carried p.2) l.
Proof. reflexivity. Qed.
End channel.

(** ** A device *)
#[local] Existing Instance FilesProps.demo_disk.
#[local] Existing Instance IpcProps.demo.
Definition demo_device : device := MkDevice (with_db (FilesProps.site FilesProps.own_dir) demo_state) FilesProps.disk0 [].
Notation react := (on_frame demo_platform (Some [sample_key]) true "d1" 1010 Logged).
Definition upload_frame : string :=
  bq "42[`agent:files_request`, {`request_id`:`r1`,`instance_id`:`blog`,`op`:`upload`,`path`:`../../etc/passwd`,`content`:`aGk=`}]".
Definition domain_frame : string := bq "42[`agent:upsert_domain`,{`domain`:`evil.org`}]".
Example upload_stays_inside : d_fs (react upload_frame demo_device) !! ["etc"; "passwd"] = Some (Fs.Data "root") /\
  d_fs (react upload_frame demo_device) !! (Fs.segs FilesProps.own_dir ++ ["etc"; "passwd"]) = Some (Fs.Data "hi").
Proof. vm_compute. done. Qed.
Example domain_is_denied : carried domain_frame = Some ("agent:upsert_domain", [bq "{`domain`:`evil.org`}"]) /\
  domains (y_db (d_sync (react domain_frame demo_device))) = domains (y_db (d_sync demo_device)).
Proof. vm_compute. done. Qed.
(** Events nobody registered for do nothing. *)
Example unknown_event : react (bq "42[`agent:shell`,`rm -rf /`]") demo_device = demo_device.
Proof. vm_compute. reflexivity. Qed.
Lemma frame_confined_witness : FilesProps.unlinked (Fs.segs FilesProps.own_dir) FilesProps.disk0 /\ d_fs (react upload_frame demo_device) !! ["etc"; "passwd"] = Some (Fs.Data "root").
Proof.
  split; [apply FilesProps.disk0_unlinked|].
  destruct (frame_confined demo_platform (Some [sample_key]) true "d1" 1010 Logged upload_frame demo_device) as [_ [->|(args & root & Hc & Ht & Hk)]]; [vm_compute; reflexivity|].
  assert (root = FilesProps.own_dir) as ->.
  { assert (Hargs : carried upload_frame = Some ("agent:files_request", match carried upload_frame with Some p => p.2 | None => [] end)) by (vm_compute; reflexivity).
    rewrite Hargs in Hc. injection Hc as <-. vm_compute in Ht. by injection Ht as <-. }
  destruct (Hk (FilesProps.disk0_unlinked _)) as [Hout _]. destruct (Hout ["etc"; "passwd"]) as [Heq|(Hn & _)].
  - rewrite FilesProps.own_segs. intros [k Hk']. discriminate Hk'.
  - etransitivity; [exact Heq|]. vm_compute. reflexivity.
  - exfalso. revert Hn. by vm_compute.
Defined.
