(* ===== verification/Agent.v ===== *)
(** * The identity of a device: cmd/obacht-agent/main.go, internal/bootstrap,
    internal/config, internal/enckey and the token refresh of
    internal/sync/syncer.go

    Where the agent's files are, how it gets and keeps its token, its
    encryption key, the one import of the user's keys, and the check of a
    release before an update.  Writing to the store succeeds; the backend,
    the key agreement curve, the YAML decoder and the account database are
    parameters. *)

From S2P Require Import Prelude GoStrings GoUrl Codec Json JsonEnc JsonDec UserKeys Store AuditLog Trust Flags WsUrl.
From S2P Require Ipc.

(** ** Configuration *)
Record ServerConfig := MkServer { URL_ : string; DeviceID : string; AuthToken : string }.
Record PathsConfig := MkPaths { StateDB : string; Socket : string; CaddyData : string; CaddyConfig : string; P_AuditLog : string; ComposeRoot : string; UserKeysDir : string }.
Record IngressConfig := MkIngress { Disabled : bool; Image : string; Network : string; HTTPPort : Z; HTTPSPort : Z; Containerized : bool }.
Record DockerConfig := MkDocker { Bin : string; Host_ : string; ConfigDir : string }.
Record Config := MkConfig { Server : ServerConfig; Registry : string; Paths : PathsConfig; Ingress_ : IngressConfig; WireguardIP : string; Docker : DockerConfig }.
Definition zero_config : Config := MkConfig (MkServer "" "" "") "" (MkPaths "" "" "" "" "" "" "") (MkIngress false "" "" 0 0 false) "" (MkDocker "" "" "").

Section config.
(** The operating system, the home directory and the YAML decoder. *)
Context (goos : string) (home : option string) (yaml : string -> option Config).

Definition Join (l : list string) : string := match filter (fun s => s <> "") l with [] => "" | l => Clean (join "/" l) end.
Definition host_path (name other : string) : string :=
  match home with
  | Some h => if bool_decide (goos = "darwin") then Join [h; "Library"; "Application Support"; "obacht"; name] else other
  | None => other
  end.
Definition DefaultPath : string := host_path "agent.yml" "/etc/obacht/agent.yml".
Definition DefaultStateDB : string := host_path "agent.db" "/var/lib/obacht/agent.db".
Definition DefaultSocket : string := host_path "agent-v2.sock" "/run/obacht/agent-v2.sock".
Definition DefaultAuditLog : string := host_path "audit.log" "/var/log/obacht/audit.log".
Definition DefaultComposeRoot : string := host_path "compose" "/var/lib/obacht/compose".
Definition DefaultUserKeysDir : string := host_path "user-keys.d" "/var/lib/obacht/user-keys.d".

Definition or (s d : string) : string := if bool_decide (s = "") then d else s.
Definition or_port (n d : Z) : Z := if (n =? 0)%Z then d else n.
Definition applyDefaults (c : Config) : Config :=
  let p := Paths c in
  let i := Ingress_ c in
  MkConfig (Server c) (Registry c)
    (MkPaths (or (StateDB p) DefaultStateDB) (or (Socket p) DefaultSocket) (or (CaddyData p) "/var/lib/obacht/caddy/data") (or (CaddyConfig p) "/var/lib/obacht/caddy/config")
       (or (P_AuditLog p) DefaultAuditLog) (or (ComposeRoot p) DefaultComposeRoot) (or (UserKeysDir p) DefaultUserKeysDir))
    (MkIngress (Disabled i) (or (Image i) "caddy:2-alpine") (or (Network i) "obacht-edge") (or_port (HTTPPort i) 80) (or_port (HTTPSPort i) 443) (Containerized i))
    (WireguardIP c) (Docker c).

Inductive file := Absent | Unreadable (t : string) | Content (s : string).
Inductive config_error := ReadFailed (path t : string) | ParseFailed (path : string).
Definition Load (read : string -> file) (path : string) : res config_error Config :=
  let path := or path DefaultPath in
  match read path with
  | Absent => Ok (applyDefaults zero_config)
  | Unreadable t => Err (ReadFailed path t)
  | Content body => match yaml body with Some c => Ok (applyDefaults c) | None => Err (ParseFailed path) end
  end.
End config.

(** ** The token *)
Definition metaJWT : string := "device_jwt".
Definition metaState : string := "bootstrap_state".

(** A request the agent made: its address, its bearer token and its body. *)
Record call := MkCall { k_url : string; k_bearer : string; k_body : string }.
Definition addressable (u : string) : bool := match url_parse u with Some _ => true | None => false end.
Inductive reply := NoReply (t : string) | Reply (code : Z) (body : string).
Record identity := MkIdentity { i_db : DB; i_calls : list call (* newest first *) }.
Definition set_meta (k v : string) (s : identity) : identity := MkIdentity (SetMeta k v (i_db s)).2 (i_calls s).
Definition meta (k : string) (s : identity) : string := match GetMeta k (i_db s) with Ok v => v | Err _ => "" end.

Record Token := MkToken { JWT : string; Bootstrap : string }.
Definition Effective (t : Token) : string := or (JWT t) (Bootstrap t).
Inductive boot_error := Skipped | BadAddress | RequestFailed (t : string) | Status (code : Z) (t : string) | BadReply | EmptyToken.

Section backend.
Context (post : call -> reply) (rfc3339 : Z -> string).

Record exchange_reply := MkExchange { x_token : string; x_device : string }.
Definition dec_exchange : decoder exchange_reply := dec_struct
  [fld "device_token" dec_string x_token (fun v r => MkExchange v (x_device r)); fld "device_id" dec_string x_device (fun v r => MkExchange (x_token r) v)].
Definition exchange_body (c : ServerConfig) (version : string) : string :=
  marshal (JObj [("agent_version", JStr version); ("device_id", JStr (DeviceID c)); ("install_token", JStr (AuthToken c))]).

(** [bootstrap.Run]: the token, the error if there is one, the server
    configuration and the store after it. *)
Definition Run (c : ServerConfig) (version : string) (now : Z) (s : identity) : option Token * option boot_error * ServerConfig * identity :=
  let jwt := meta metaJWT s in
  if negb (bool_decide (jwt = "")) then (Some (MkToken jwt ""), None, c, s) else
  if bool_decide (URL_ c = "") || bool_decide (DeviceID c = "") || bool_decide (AuthToken c = "")
  then (Some (MkToken "" ""), Some Skipped, c, set_meta metaState "skipped" s) else
  if negb (addressable (trim_right "/" (URL_ c) +:+ "/auth/rpi-device")) then (None, Some BadAddress, c, s) else
  let k := MkCall (trim_right "/" (URL_ c) +:+ "/auth/rpi-device") "" (exchange_body c version) in
  let s := MkIdentity (i_db s) (k :: i_calls s) in
  let fail e := (Some (MkToken "" (AuthToken c)), Some e, c, s) in
  match post k with
  | NoReply t => fail (RequestFailed t)
  | Reply code body =>
      if negb (code ÷ 100 =? 2)%Z then fail (Status code (trim_space body)) else
      match unmarshal dec_exchange (MkExchange "" "") body with
      | None => fail BadReply
      | Some r =>
          if bool_decide (x_token r = "") then fail EmptyToken else
          (Some (MkToken (x_token r) ""), None, MkServer (URL_ c) (DeviceID c) "",
           set_meta "bootstrapped_at" (rfc3339 now) (set_meta metaState "ok" (set_meta metaJWT (x_token r) s)))
      end
  end.

(** The token main goes on with. *)
Definition token_in_use (t : option Token) : string := match t with Some t => Effective t | None => "" end.

(** [refreshDeviceToken]: the client's token after it. *)
Definition refreshDeviceToken (base cur : string) (s : identity) : string * identity :=
  if bool_decide (cur = "") || negb (addressable (trim_right "/" base +:+ "/auth/device/refresh")) then (cur, s) else
  let k := MkCall (trim_right "/" base +:+ "/auth/device/refresh") cur "" in
  let s := MkIdentity (i_db s) (k :: i_calls s) in
  match post k with
  | NoReply _ => (cur, s)
  | Reply code body =>
      if (code <? 200)%Z || (300 <=? code)%Z then (cur, s) else
      match j ← Ipc.first_value [] MValue body; let '(t, bad) := dec_struct [fld "device_token" dec_string (fun x => x) (fun v _ => v)] j "" in if (bad : bool) then None else Some t with
      | None | Some "" => (cur, s)
      | Some t => if bool_decide (t = cur) then (cur, s) else (t, set_meta metaJWT t s)
      end
  end.
End backend.

(** ** The encryption key *)
Definition metaPrivKey : string := "enc_x25519_priv_b64".
Definition enc_capability : string := "enc-key.v1".
Section enckey.
(** The public key of a private key, [None] when the curve refuses it, and
    the next key that is generated. *)
Context (public : string -> option string) (generate : option string).

Definition stored_key (db : DB) : option string :=
  b64 ← match GetMeta metaPrivKey db with Ok v => Some v | Err _ => None end;
  if bool_decide (b64 = "") then None else raw ← b64_decode b64; public raw.
Definition EnsurePublicKey (db : DB) : option string * DB :=
  match stored_key db with
  | Some pub => (Some (b64_encode true pub), db)
  | None =>
      match generate with
      | None => (None, db)
      | Some priv => (b64_encode true <$> public priv, (SetMeta metaPrivKey (b64_encode true priv) db).2)
      end
  end.
Definition Fingerprint (sha256 : string -> string) (pubB64 : string) : option string :=
  raw ← b64_decode pubB64; Some ("SHA256:" +:+ b64_encode false (sha256 raw)).
End enckey.

(** ** The one import of the user's keys *)
Definition userKeysImportedMetaKey : string := "user_keys_imported".
Record importer := MkImporter { m_db : DB; m_keys : keys_dir; m_audit : option Writer }.
Section import.
Context (goos : string) (sha : string -> string) (rfc3339 : Z -> string) (now : Z) (log_ok : log_io).
(** The home directories of the account obacht and of the agent's own account,
    and the environment's; what the file holds. *)
Context (obacht_home own_home env_home : option string) (read : string -> file).

Definition authorizedKeysPath : string :=
  match obacht_home, own_home, env_home with
  | Some (String _ _ as h), _, _ | _, Some (String _ _ as h), _ => Join [h; ".ssh"; "authorized_keys"]
  | _, _, Some h => Join [h; ".ssh"; "authorized_keys"]
  | _, _, None => ""
  end.
Definition imported_entry (path : string) (k : UserKey) : Entry :=
  let fp := UserKeys.Fingerprint sha k in
  MkEntry 0 0 "security.user_key.imported" "agent" fp ResultOK [("fingerprint", JStr fp); ("label", JStr (Label k)); ("source", JStr path)] "" "source=authorized_keys" "".
Definition audit_import (path : string) (k : UserKey) (s : importer) : importer :=
  let '(_, w, db) := Append sha (m_audit s) (imported_entry path k) now log_ok (m_db s) in MkImporter db (m_keys s) w.
Definition mark (v : string) (s : importer) : importer := MkImporter (SetMeta userKeysImportedMetaKey v (m_db s)).2 (m_keys s) (m_audit s).
Definition importUserKeysOnce (s : importer) : importer :=
  if negb (bool_decide (goos = "linux")) then s else
  if negb (match GetMeta userKeysImportedMetaKey (m_db s) with Ok v => bool_decide (v = "") | Err _ => true end) then s else
  match LoadUserKeys (m_keys s) with
  | _ :: _ => mark "preexisting" s
  | [] =>
      if bool_decide (authorizedKeysPath = "") then s else
      match read authorizedKeysPath with
      | Content data =>
          let '(pinned, _, dir) := ImportAuthorizedKeys sha (m_keys s) data in
          mark (rfc3339 now) (fold_left (fun s k => audit_import authorizedKeysPath k s) pinned (MkImporter (m_db s) dir (m_audit s)))
      | _ => s
      end
  end.
End import.

(** ** Checking a release *)
Definition verify_flags : flagset := [("file", FString); ("sig", FString)].
Section verify.
Context (read : string -> file) (verify : string -> string -> res trust_error unit).
(** [runVerifyRelease]: 0 verified, 1 rejected, 2 not checked. *)
Definition runVerifyRelease (args : list string) : Z :=
  match Parse verify_flags args with
  | Err _ => 2
  | Ok (vs, _) =>
      let file := str_of "" "file" vs in
      let sig := str_of "" "sig" vs in
      if bool_decide (file = "") || bool_decide (sig = "") then 2 else
      match read file with
      | Content content =>
          match read sig with
          | Content s => match verify content s with Ok _ => 0 | Err NoKeys => 2 | Err _ => 1 end
          | _ => 2
          end
      | _ => 2
      end
  end%Z.
End verify.
