(* ===== verification/AgentProps.v ===== *)
(** * What the agent guarantees about its identity

    A restart goes on with the token in use, the encryption key stays, keys
    that the user unpinned do not come back, and an update is let through
    exactly when a trusted release key signed it. *)

From S2P Require Import Prelude GoStrings GoUrl Codec Json JsonEnc JsonDec UserKeys Store AuditLog Trust Flags WsUrl Agent.

(** ** The token *)
Lemma meta_set k v k' s : meta k (set_meta k' v s) = if decide (k = k') then v else meta k s.
Proof.
  unfold meta, GetMeta, set_meta. cbn. destruct (decide (k = k')) as [->|Hne]; [by rewrite lookup_insert_eq|]. by rewrite lookup_insert_ne by done.
Qed.
Lemma run_stored post rfc c version now s : meta metaJWT s <> "" -> Run post rfc c version now s = (Some (MkToken (meta metaJWT s) ""), None, c, s).
Proof. intros H. unfold Run. cbv zeta. by rewrite bool_decide_eq_false_2 by done. Qed.
Lemma run_success post rfc c version now s t c1 s1 : Run post rfc c version now s = (t, None, c1, s1) -> exists t0, t = Some t0 /\ JWT t0 <> "" /\ meta metaJWT s1 = JWT t0 /\ Bootstrap t0 = "".
Proof.
  unfold Run. cbv zeta. destruct (decide (meta metaJWT s = "")) as [Hj|Hj]; [|rewrite bool_decide_eq_false_2 by done; intros [= <- <- <-]; by eexists].
  rewrite bool_decide_eq_true_2 by done. cbn [negb]. destruct (_ || _); [done|]. destruct (negb _); [done|]. destruct (post _) as [e|code body]; [done|]. destruct (negb _); [done|].
  destruct (unmarshal _ _ _) as [r|]; [|done]. destruct (decide (x_token r = "")) as [He|He]; [by rewrite bool_decide_eq_true_2|]. rewrite bool_decide_eq_false_2 by done. intros [= <- <- <-].
  eexists. split; [done|]. cbn [JWT Bootstrap]. rewrite !meta_set. done.
Qed.
Lemma refresh_keeps post base cur s : cur <> "" -> meta metaJWT s = cur ->
  let r := refreshDeviceToken post base cur s in r.1 <> "" /\ meta metaJWT r.2 = r.1.
Proof.
  intros Hne Hm. cbv zeta. unfold refreshDeviceToken. rewrite bool_decide_eq_false_2 by done. cbn [orb]. destruct (negb _); [done|]. destruct (post _) as [e|code body]; [done|]. destruct (_ || _); [done|].
  destruct (_ ≫= _) as [[|a t]|]; [done| |done]. destruct (bool_decide (String a t = cur)); [done|]. cbn [fst snd]. rewrite meta_set. done.
Qed.

(** The refreshes of a run of the agent, with what the backend answers each time. *)
Definition refreshes (base : string) (posts : list (call -> reply)) (start : string * identity) : string * identity :=
  fold_left (fun '(t, s) post => refreshDeviceToken post base t s) posts start.
Lemma refreshes_keep base posts t s : t <> "" -> meta metaJWT s = t -> let r := refreshes base posts (t, s) in r.1 <> "" /\ meta metaJWT r.2 = r.1.
Proof.
  revert t s. induction posts as [|post posts IH]; intros t s Hne Hm; [done|]. cbn [refreshes fold_left]. pose proof (refresh_keeps post base t s Hne Hm) as H. destruct (refreshDeviceToken post base t s) as [t' s'] eqn:E.
  destruct H as [H1 H2]. exact (IH t' s' H1 H2).
Qed.

(** C25: After a successful bootstrap and any refreshes, whatever the backend answered, the token in use is the stored one: the next start takes it from the store, whatever its configuration says, and asks nobody. *)
Theorem restart_keeps_token post rfc c version now s t c1 s1 base posts t2 s2 post' rfc' c' version' now' :
  Run post rfc c version now s = (t, None, c1, s1) -> refreshes base posts (token_in_use t, s1) = (t2, s2) ->
  t2 <> "" /\ Run post' rfc' c' version' now' s2 = (Some (MkToken t2 ""), None, c', s2).
Proof.
  intros Hr Hf. destruct (run_success _ _ _ _ _ _ _ _ _ Hr) as (t0 & -> & Hj & Hm & _). unfold token_in_use, Effective, or in Hf. rewrite bool_decide_eq_false_2 in Hf by done.
  pose proof (refreshes_keep base posts (JWT t0) s1 Hj Hm) as H. rewrite Hf in H. destruct H as [H1 H2]. cbn [fst snd] in H1, H2. split; [done|]. by rewrite run_stored, H2 by by rewrite H2.
Qed.

(** A bootstrap that fails stores no token, asks at most once and leaves the configuration as it is; when it could ask, the install token stays in use. *)
Theorem failed_bootstrap post rfc c version now s t e c1 s1 : Run post rfc c version now s = (t, Some e, c1, s1) ->
  c1 = c /\ meta metaJWT s1 = "" /\ length (i_calls s1) <= S (length (i_calls s)) /\ (e <> Skipped -> e <> BadAddress -> token_in_use t = AuthToken c).
Proof.
  unfold Run. cbv zeta. destruct (decide (meta metaJWT s = "")) as [Hj|Hj]; [|by rewrite bool_decide_eq_false_2].
  rewrite bool_decide_eq_true_2 by done. cbn [negb]. destruct (_ || _); [intros [= <- <- <- <-]; rewrite meta_set; cbn; repeat split; [done|lia|done]|].
  destruct (negb _); [intros [= <- <- <- <-]; cbn; repeat split; [done|lia|done]|]. set (k := MkCall _ _ _). set (s' := MkIdentity (i_db s) (k :: i_calls s)).
  assert (Hfail : forall e', (Some (MkToken "" (AuthToken c)), Some e', c, s') = (t, Some e, c1, s1) ->
    c1 = c /\ meta metaJWT s1 = "" /\ length (i_calls s1) <= S (length (i_calls s)) /\ (e <> Skipped -> e <> BadAddress -> token_in_use t = AuthToken c)) by (intros e' [= <- <- <- <-]; repeat split; auto).
  destruct (post _) as [x|code body]; [apply Hfail|]. destruct (negb _); [apply Hfail|]. destruct (unmarshal _ _ _) as [r|]; [|apply Hfail]. destruct (bool_decide _); [apply Hfail|done].
Qed.

(** ** The encryption key *)

(** Once the key is published it never changes, whatever would be generated later; the stored one was generated here. *)
Theorem enc_key_stable public generate generate' db k db' : public "" = None -> EnsurePublicKey public generate db = (Some k, db') ->
  EnsurePublicKey public generate' db' = (Some k, db') /\
  (db' = db \/ exists priv pub, generate = Some priv /\ public priv = Some pub /\ k = b64_encode true pub /\ db' = (SetMeta metaPrivKey (b64_encode true priv) db).2).
Proof.
  intros Hnone. unfold EnsurePublicKey at 1. destruct (stored_key public db) as [pub|] eqn:Hs; [intros [= <- <-]; unfold EnsurePublicKey; rewrite Hs; by auto|]. destruct generate as [priv|]; [|done].
  destruct (public priv) as [pub|] eqn:Hp; [|done]. intros H. assert (Hdb : (SetMeta metaPrivKey (b64_encode true priv) db).2 = db') by (cbn in H |- *; congruence).
  assert (Hk : b64_encode true pub = k) by (cbn in H; congruence). clear H. subst k. assert (Hne : b64_encode true priv <> "").
  { intros He. pose proof (b64_roundtrip priv) as Hrt. rewrite He in Hrt. injection Hrt as <-. congruence. }
  assert (Hst : stored_key public db' = Some pub).
  { rewrite <- Hdb. unfold stored_key, GetMeta, SetMeta. cbn. rewrite lookup_insert_eq. cbn. rewrite bool_decide_eq_false_2 by done. by rewrite b64_roundtrip. }
  split; [unfold EnsurePublicKey; by rewrite Hst|]. right. exists priv, pub. by rewrite Hdb.
Qed.

(** ** The user's keys *)
Lemma audit_import_keys sha now log_ok path ks s : m_keys (fold_left (fun s k => audit_import sha now log_ok path k s) ks s) = m_keys s.
Proof.
  revert s. induction ks as [|k ks IH]; intros s; [done|]. cbn [fold_left]. rewrite IH. unfold audit_import. by destruct (Append _ _ _ _ _ _) as [[??]?].
Qed.
Definition marked (db : DB) : bool := match GetMeta userKeysImportedMetaKey db with Ok v => negb (bool_decide (v = "")) | Err _ => false end.
Lemma marked_mark v s : v <> "" -> marked (m_db (mark v s)) = true.
Proof. intros Hv. unfold marked, mark, GetMeta, SetMeta. cbn. rewrite lookup_insert_eq. by rewrite bool_decide_eq_false_2. Qed.
Lemma import_marked goos sha rfc now log_ok h1 h2 h3 read s : marked (m_db s) = true -> importUserKeysOnce goos sha rfc now log_ok h1 h2 h3 read s = s.
Proof.
  unfold marked, importUserKeysOnce. intros Hm. destruct (bool_decide (goos = "linux")); [|done]. cbn [negb]. destruct (GetMeta _ _) as [v|]; [|done]. by destruct (bool_decide (v = "")).
Qed.

(** When a start of the agent left any key pinned, no later start pins one, whatever was unpinned in between and whatever authorized_keys says by then. *)
Theorem unpin_stays sha rfc now log_ok h1 h2 h3 read s sha' rfc' now' log_ok' h1' h2' h3' read' keys audit : rfc now <> "" ->
  let s1 := importUserKeysOnce "linux" sha rfc now log_ok h1 h2 h3 read s in
  LoadUserKeys (m_keys s1) <> [] ->
  importUserKeysOnce "linux" sha' rfc' now' log_ok' h1' h2' h3' read' (MkImporter (m_db s1) keys audit) = MkImporter (m_db s1) keys audit.
Proof.
  intros Hr. cbv zeta. intros Hk. apply import_marked. cbn [m_db]. revert Hk. unfold importUserKeysOnce. rewrite (bool_decide_eq_true_2 ("linux" = "linux")) by done. cbn [negb].
  destruct (match GetMeta _ (m_db s) with Ok v => bool_decide (v = "") | Err _ => true end) eqn:Hm; cbn [negb].
  - destruct (LoadUserKeys (m_keys s)) as [|k0 ks0] eqn:Hl; [|intros _; by apply marked_mark].
    destruct (bool_decide (_ = "")); [by rewrite Hl|]. destruct (read _) as [|t|data]; [by rewrite Hl|by rewrite Hl|].
    destruct (ImportAuthorizedKeys sha (m_keys s) data) as [[pinned skipped] dir]. intros _. by apply marked_mark.
  - intros _. unfold marked. destruct (GetMeta _ _) as [v|]; [|done]. by rewrite Hm.
Qed.

(** ** Updates *)

(** The check before an update succeeds exactly when the artifact and its signature can be read and a trusted release key signed the artifact; it says rejected only when they can be read and none did. *)
Theorem verify_release_exit (Key : Type) (unmarshal : string -> option Key) (check : Key -> string -> string -> bool) embedded dir read args vs rest : Parse verify_flags args = Ok (vs, rest) ->
  let file := str_of "" "file" vs in
  let sig := str_of "" "sig" vs in
  let signed content s := exists extra, LoadFromDir dir = Ok extra /\ accepted_by unmarshal check (embedded ++ extra) content s in
  (runVerifyRelease read (VerifyFile unmarshal check embedded dir) args = 0%Z <-> file <> "" /\ sig <> "" /\ exists content s, read file = Content content /\ read sig = Content s /\ signed content s) /\
  (runVerifyRelease read (VerifyFile unmarshal check embedded dir) args = 1%Z -> exists content s, read file = Content content /\ read sig = Content s /\ ~ signed content s).
Proof.
  intros Hp. cbv zeta. unfold runVerifyRelease. rewrite Hp. destruct (decide (str_of "" "file" vs = "")) as [Hf|Hf]; [rewrite (bool_decide_eq_true_2 _ Hf); cbn; split; [split; [done|by intros [? _]]|done]|].
  destruct (decide (str_of "" "sig" vs = "")) as [Hs|Hs]; [rewrite (bool_decide_eq_true_2 _ Hs), orb_true_r; cbn; split; [split; [done|by intros (_ & ? & _)]|done]|].
  rewrite !(bool_decide_eq_false_2 (_ = "")) by done. cbn [orb].
  destruct (read (str_of "" "file" vs)) as [|t|content] eqn:Hc; [split; [split; [done|by intros (_ & _ & ? & ? & ? & _)]|done]..|].
  destruct (read (str_of "" "sig" vs)) as [|t|s] eqn:Hg; [split; [split; [done|by intros (_ & _ & ? & ? & _ & ? & _)]|done]..|].
  destruct (VerifyFile_iff unmarshal check embedded dir content s) as [Hiff Hnone].
  destruct (VerifyFile unmarshal check embedded dir content s) as [[]|e] eqn:Hv.
  - split; [|done]. split; [|done]. intros _. do 2 (split; [done|]). exists content, s. do 2 (split; [done|]). by apply Hiff.
  - assert (Hbad : ~ exists extra, LoadFromDir dir = Ok extra /\ accepted_by unmarshal check (embedded ++ extra) content s) by (intros H; by apply Hiff in H).
    split; [split|].
    + by destruct e.
    + intros (_ & _ & content' & s' & [= <-] & [= <-] & H). done.
    + intros _. by exists content, s.
Qed.

(** ** On concrete inputs *)
Definition zero_server : ServerConfig := MkServer "" "" "".
Definition demo_server (base : string) : ServerConfig := MkServer base "pi-1" "install-me".
Definition answers (t : string) : call -> reply := fun _ => Reply 200 (bq "{`device_token`:`" +:+ t +:+ bq "`}").
Definition first_start : identity := MkIdentity (fresh_db 0) [].
Definition booted (base : string) : option Token * option boot_error * ServerConfig * identity :=
  Run (answers "jwt-1") (fun _ => "2026-01-01T00:00:00Z") (demo_server base) "1.0" 0 first_start.

Lemma restart_keeps_token_witness :
  let b := booted "https://api.x" in
  let r := refreshes "https://api.x" [answers "jwt-2"; fun _ => NoReply "down"] (token_in_use b.1.1.1, b.2) in
  b.1.1 = (Some (MkToken "jwt-1" ""), None) /\ AuthToken b.1.2 = "" /\ r.1 = "jwt-2" /\
  r.1 <> "" /\ Run (fun _ => NoReply "down") (fun _ => "") zero_server "1.1" 0 r.2 = (Some (MkToken r.1 ""), None, zero_server, r.2).
Proof.
  cbv zeta. split; [vm_compute; reflexivity|]. split; [vm_compute; reflexivity|]. split; [vm_compute; reflexivity|].
  eapply (restart_keeps_token (answers "jwt-1") (fun _ => "2026-01-01T00:00:00Z") (demo_server "https://api.x") "1.0" 0 first_start); [reflexivity|]. apply surjective_pairing.
Defined.

(** The device token goes to a backend without encryption, which the channel refuses to use. *)
Example refresh_plaintext : let b := booted "http://api.x" in
  i_calls (refreshDeviceToken (answers "jwt-1") "http://api.x" "jwt-1" b.2).2 =
    [MkCall "http://api.x/auth/device/refresh" "jwt-1" ""; MkCall "http://api.x/auth/rpi-device" "" (exchange_body (demo_server "http://api.x") "1.0")] /\
  (let! w := buildWSURL "http://api.x" "jwt-1" in assertSecureWSTarget w) = Err (Plaintext "api.x").
Proof. split; vm_compute; reflexivity. Qed.

Definition demo_public (priv : string) : option string := if bool_decide (slen priv = 32) then Some ("pub of " +:+ priv) else None.
Lemma enc_key_stable_witness :
  let r := EnsurePublicKey demo_public (Some (zeros 32)) (fresh_db 0) in
  exists k, r.1 = Some k /\ EnsurePublicKey demo_public (Some (zeros 31)) r.2 = (Some k, r.2) /\
  (r.2 = fresh_db 0 \/ exists priv pub, Some (zeros 32) = Some priv /\ demo_public priv = Some pub /\ k = b64_encode true pub /\ r.2 = (SetMeta metaPrivKey (b64_encode true priv) (fresh_db 0)).2).
Proof.
  cbv zeta. eexists. split; [vm_compute; reflexivity|].
  apply (enc_key_stable demo_public (Some (zeros 32)) (Some (zeros 31)) (fresh_db 0)); vm_compute; reflexivity.
Defined.

Definition demo_home : string -> file := fun p => if bool_decide (p = "/home/obacht/.ssh/authorized_keys") then Content sample_line else Absent.
Definition imported : importer := importUserKeysOnce "linux" (fun _ => zeros 32) (fun _ => "2026") 0 Logged (Some "/home/obacht") None None demo_home (MkImporter (fresh_db 0) None None).
Lemma unpin_stays_witness :
  LoadUserKeys (m_keys imported) <> [] /\ LoadUserKeys None = [] /\
  importUserKeysOnce "linux" (fun _ => zeros 32) (fun _ => "2027") 1 Logged (Some "/home/obacht") None None demo_home (MkImporter (m_db imported) None None) = MkImporter (m_db imported) None None.
Proof.
  split; [vm_compute; discriminate|]. split; [reflexivity|]. unfold imported.
  apply (unpin_stays (fun _ => zeros 32) (fun _ => "2026") 0 Logged (Some "/home/obacht") None None demo_home (MkImporter (fresh_db 0) None None)); vm_compute; discriminate.
Defined.

Definition demo_disk (p : string) : file := if bool_decide (p = "/a") then Content "release" else if bool_decide (p = "/a.minisig") then Content "key signs release" else Absent.
Lemma verify_release_exit_witness :
  let verify := VerifyFile Some (fun k content s => bool_decide (s = k +:+ " signs " +:+ content)) [MkKeyEntry "prod" "key"] Missing in
  runVerifyRelease demo_disk verify ["--file"; "/a"; "--sig=/a.minisig"] = 0%Z /\
  runVerifyRelease demo_disk verify ["--file"; "/a.minisig"; "--sig=/a"] = 1%Z /\
  (runVerifyRelease demo_disk verify ["--file"; "/a"; "--sig=/a.minisig"] = 0%Z ->
   exists content s extra, LoadFromDir Missing = Ok extra /\ accepted_by Some (fun k content s => bool_decide (s = k +:+ " signs " +:+ content)) ([MkKeyEntry "prod" "key"] ++ extra) content s).
Proof.
  cbv zeta. split; [vm_compute; reflexivity|]. split; [vm_compute; reflexivity|]. intros H.
  destruct (verify_release_exit string Some (fun k content s => bool_decide (s = k +:+ " signs " +:+ content)) [MkKeyEntry "prod" "key"] Missing demo_disk
    ["--file"; "/a"; "--sig=/a.minisig"] [("file", VString "/a"); ("sig", VString "/a.minisig")] []) as [[H0 _] _]; [vm_compute; reflexivity|].
  destruct (H0 H) as (_ & _ & content & s & _ & _ & extra & Hl & Ha). by exists content, s, extra.
Defined.
