(* ===== verification/Compat.v ===== *)
(** * What the device says about its hardware: internal/compat/compat.go

    A few files of fixed names, cleaned before they leave the device.  The
    machine is what those reads answer.  Text is handled rune by rune; which
    runes above Latin-1 are printable, and their lower case, are the tables of
    package unicode ([Tables]). *)

From S2P Require Import Prelude GoStrings Codec Utf8 Json JsonEnc JsonRound.

(** ** Package unicode *)
Class Tables := { print_high : N -> bool; lower_high : N -> N }.
Section runes.
Context {tables : Tables}.
Definition in_range (lo hi r : N) : bool := ((lo <=? r) && (r <=? hi))%N.
Definition is_space (r : N) : bool :=
  (in_range 9 13 r || (r =? 32) || (r =? 133) || (r =? 160) || (r =? 5760) || in_range 8192 8202 r || (r =? 8232) || (r =? 8233) || (r =? 8239) || (r =? 8287) || (r =? 12288))%N.
Definition is_print (r : N) : bool :=
  (if (r <=? 255)%N then in_range 32 126 r || in_range 161 172 r || in_range 174 255 r else print_high r)%N.
Definition lower (r : N) : N :=
  (if (r <=? 255)%N then if in_range 65 90 r || in_range 192 214 r || in_range 216 222 r then r + 32 else r else lower_high r)%N.
Definition ToLower (s : string) : string := encode_runes (map lower (runes s)).

Definition push_run (w : list N) (ws : list (list N)) : list (list N) := match w with [] => ws | _ => w :: ws end.
Fixpoint runs_of (l : list N) : list N * list (list N) :=
  match l with
  | [] => ([], [])
  | r :: l' => let '(w, ws) := runs_of l' in if is_space r then ([], push_run w ws) else (r :: w, ws)
  end.
Definition rune_fields (l : list N) : list (list N) := let '(w, ws) := runs_of l in push_run w ws.
Fixpoint join_runes (ws : list (list N)) : list N :=
  match ws with [] => [] | [w] => w | w :: ws' => w ++ 32%N :: join_runes ws' end.
Fixpoint trim_runes_r (l : list N) : list N :=
  match l with [] => [] | r :: l' => match trim_runes_r l' with [] => if is_space r then [] else [r] | t => r :: t end end.
Fixpoint trim_runes_l (l : list N) : list N :=
  match l with [] => [] | r :: l' => if is_space r then trim_runes_l l' else l end.

(** ** Cleaning *)
Definition maxHardwareRunes : nat := 64.
Definition biosPlaceholders : list string :=
  ["default string"; "to be filled by o.e.m."; "system manufacturer"; "system product name"; "system version"; "not applicable"; "none"; "n/a"; "0123456789";
   "type1productconfigid"; "oem"; "o.e.m."; "not specified"].
Definition keep_rune (r : N) : list N := if (r =? RuneError)%N then [] else if is_space r then [32%N] else if is_print r then [r] else [].
Definition clean_runes (l : list N) : list N :=
  let out := join_runes (rune_fields (concat (map keep_rune l))) in
  if bool_decide (encode_runes (map lower out) ∈ biosPlaceholders) then [] else
  if (maxHardwareRunes <? length out)%nat then trim_runes_l (trim_runes_r (take maxHardwareRunes out)) else out.
Definition cleanHardwareString (s : string) : string := encode_runes (clean_runes (runes s)).

Definition virtualMarkers : list string :=
  ["qemu"; "kvm"; "vmware"; "virtualbox"; "innotek"; "xen"; "bochs"; "parallels"; "apple virtualization"; "amazon ec2"; "google compute engine"; "digitalocean"; "droplet"; "openstack"].
Definition isVirtual (vendor product : string) : bool :=
  let v := ToLower vendor in
  let p := ToLower product in
  existsb (fun m => contains v m || contains p m) virtualMarkers ||
  (contains v "microsoft corporation" && contains p "virtual machine") || (contains v "hetzner" && contains p "vserver").

(** ** Reading *)

(** What a machine answers: the contents of a file it can read, and block size
    and available blocks of a file system. *)
Record machine := MkMachine { goos : string; goarch : string; content : string -> option string; statfs : string -> option (Z * Z) }.
Definition deviceTreeModel : string := "/proc/device-tree/model".
Definition dmiRoot : string := "/sys/class/dmi/id".
Definition dmiFiles : list string := ["sys_vendor"; "product_name"; "product_version"; "product_family"; "chassis_type"; "board_vendor"; "board_name"].

Record Hardware := MkHardware {
  Model : string; Vendor : string; Product : string; Version : string; Family : string; BoardVendor : string; BoardName : string; Chassis : Z; Virtual : bool
}.
Record Identity := MkIdentity { Device : string; Architecture : string; OSID : string; OSVersion : string; RamTotalMb : Z; DiskFreeMb : Z; Hardware_ : option Hardware }.

Definition arch (m : machine) : string :=
  if bool_decide (goarch m = "arm64") then "linux/arm64" else if bool_decide (goarch m = "amd64") then "linux/amd64" else
  if bool_decide (goarch m = "arm") then "linux/arm/v7" else goos m +:+ "/" +:+ goarch m.
Definition generic_device (m : machine) : string :=
  if bool_decide (goarch m = "arm64") then "generic-arm64" else if bool_decide (goarch m = "amd64") then "generic-x86_64" else "".
Definition detectDevice (m : machine) : string :=
  match content m deviceTreeModel with
  | Some b =>
      let model := trim_right NUL (trim_space b) in
      if contains model "Raspberry Pi 5" then "raspberry-pi-5" else if contains model "Raspberry Pi 4" then "raspberry-pi-4" else generic_device m
  | None => generic_device m
  end.

(** The lines a [bufio.Scanner] yields: it stops at a line of 64 KiB. *)
Fixpoint until_long (l : list string) : list string :=
  match l with [] => [] | s :: l' => if (Z.of_nat (slen s) <? 65536)%Z then s :: until_long l' else [] end.
Definition drop_last_empty (l : list string) : list string := match reverse l with "" :: l' => reverse l' | _ => l end.
Definition scan_lines (s : string) : list string := map (fun l => trim_suffix l (str1 CR)) (until_long (drop_last_empty (split_on LF s))).
Fixpoint trim_left (c : ascii) (s : string) : string := match s with String a t => if Ascii.eqb a c then trim_left c t else s | "" => "" end.
Definition trim_both (c : ascii) (s : string) : string := trim_right c (trim_left c s).

Definition os_line (acc : string * string) (line : string) : string * string :=
  match cut line "=" with
  | None => acc
  | Some (k, v) =>
      let v := trim_both "034" v in
      if bool_decide (k = "ID") then (v, acc.2) else if bool_decide (k = "VERSION_ID") then (acc.1, v) else acc
  end.
Definition readOSRelease (m : machine) : string * string :=
  match content m "/etc/os-release" with Some s => fold_left os_line (scan_lines s) ("", "") | None => ("", "") end.

(** [strconv.Atoi] with its error ignored. *)
Definition atoi_or_limit (s : string) : Z :=
  match Atoi s with
  | Some z => z
  | None => match s with
            | String "-" d => if bool_decide (is_Some (digits_value d)) && negb (bool_decide (d = "")) then - 2 ^ 63 else 0
            | String "+" d | d => if bool_decide (is_Some (digits_value d)) && negb (bool_decide (d = "")) then 2 ^ 63 - 1 else 0
            end
  end%Z.
Definition mem_total (line : string) : option Z :=
  match fields line with k :: v :: _ => if bool_decide (k = "MemTotal:") then Some (atoi_or_limit v ÷ 1024)%Z else None | _ => None end.
Definition readRamTotalMb (m : machine) : Z :=
  match content m "/proc/meminfo" with Some s => default 0%Z (head (omap mem_total (scan_lines s))) | None => 0 end.
(** Unsigned 64-bit arithmetic: the product of block size and blocks may wrap. *)
Definition readDiskFreeMb (m : machine) (path : string) : Z :=
  if bool_decide (path = "") then 0 else
  match statfs m path with Some (bsize, bavail) => ((bsize * bavail) mod 2 ^ 64) / (1024 * 1024) | None => 0 end%Z.

Definition readSmall (m : machine) (path : string) : string := match content m path with Some b => stake 4096 b | None => "" end.
Definition readDMI (m : machine) (name : string) : string :=
  if bool_decide (name ∈ dmiFiles) then cleanHardwareString (readSmall m (dmiRoot +:+ "/" +:+ name)) else "".
Definition chassis_of (s : string) : Z := match Atoi s with Some n => if ((0 <? n) && (n <=? 255))%Z then n else 0%Z | None => 0%Z end.
Definition detectHardware (m : machine) : option Hardware :=
  let dmi := readDMI m in
  let vendor := dmi "sys_vendor" in
  let product := dmi "product_name" in
  let hw := MkHardware (cleanHardwareString (readSmall m deviceTreeModel)) vendor product (dmi "product_version") (dmi "product_family") (dmi "board_vendor") (dmi "board_name")
              (chassis_of (dmi "chassis_type")) (isVirtual vendor product) in
  if forallb (fun s => bool_decide (s = "")) [Model hw; Vendor hw; Product hw; Version hw; Family hw; BoardVendor hw; BoardName hw] && (Chassis hw =? 0)%Z && negb (Virtual hw) then None else Some hw.
Definition Detect (m : machine) (dataRoot : string) : Identity :=
  let '(id, ver) := readOSRelease m in
  MkIdentity (detectDevice m) (arch m) id ver (readRamTotalMb m) (readDiskFreeMb m dataRoot) (detectHardware m).
End runes.
