(* ===== verification/CompatProps.v ===== *)
(** * What the device's description of its hardware can contain

    A cleaned string is short, printable, spaced by single blanks and no
    vendor's filler; cleaning it again changes nothing.  The description
    depends on the files of the fixed list alone. *)

From S2P Require Import Prelude GoStrings Codec Utf8 Json JsonEnc JsonRound Compat.

Section clean.
Context {tables : Tables}.

(** ** Neat texts *)
Definition solid (r : N) : bool := is_print r && negb (is_space r) && scalar r && negb (r =? RuneError)%N.
(** Every blank is between two solid runes; [p] says whether a blank (or the
    start) comes before. *)
Fixpoint spaced (p : bool) (l : list N) : bool :=
  match l with [] => negb p | r :: l' => if is_space r then negb p && (r =? 32)%N && spaced true l' else solid r && spaced false l' end.
Definition neat (l : list N) : Prop := l = [] \/ spaced true l = true.

Lemma space_32 : is_space 32 = true.
Proof. reflexivity. Qed.
Lemma solid_space r : solid r = true -> is_space r = false.
Proof. unfold solid. rewrite !andb_true_iff, !negb_true_iff. tauto. Qed.
Lemma keep_solid r : scalar r = true -> Forall (fun x => x = 32%N \/ solid x = true) (keep_rune r).
Proof.
  intros Hs. unfold keep_rune. destruct (r =? RuneError)%N eqn:He; [done|]. destruct (is_space r) eqn:Hsp; [by repeat constructor|].
  destruct (is_print r) eqn:Hp; [|done]. constructor; [|done]. right. unfold solid. by rewrite Hp, Hsp, Hs, He.
Qed.
Lemma kept_runes l : Forall (fun r => scalar r = true) l -> Forall (fun x => x = 32%N \/ solid x = true) (concat (map keep_rune l)).
Proof. induction 1 as [|r l Hr _ IH]; [constructor|]. cbn. apply Forall_app. split; [by apply keep_solid|done]. Qed.

Definition tail_runes (ws : list (list N)) : list N := match ws with [] => [] | _ => 32%N :: join_runes ws end.
Lemma join_cons w ws : join_runes (w :: ws) = w ++ tail_runes ws.
Proof. destruct ws; [by rewrite app_nil_r|done]. Qed.
Lemma push_nonempty w ws : w <> [] -> push_run w ws = w :: ws.
Proof. by destruct w. Qed.

(** Splitting and joining give words with single blanks between them ... *)
Definition word (w : list N) : Prop := w <> [] /\ Forall (fun r => solid r = true) w.
Lemma runs_words l : Forall (fun x => x = 32%N \/ solid x = true) l -> Forall (fun r => solid r = true) (runs_of l).1 /\ Forall word (runs_of l).2.
Proof.
  induction 1 as [|r l Hr _ [IH1 IH2]]; [done|]. cbn [runs_of]. destruct (runs_of l) as [w ws]. cbn [fst snd] in IH1, IH2. destruct (is_space r) eqn:Hs; cbn [fst snd].
  - split; [done|]. destruct w; [done|]. by constructor.
  - destruct Hr as [->|Hr]; [done|]. by split; [constructor|].
Qed.
Lemma fields_words l : Forall (fun x => x = 32%N \/ solid x = true) l -> Forall word (rune_fields l).
Proof. intros H. apply runs_words in H as [H1 H2]. unfold rune_fields. destruct (runs_of l) as [[|r w] ws]; [done|]. by constructor. Qed.
Lemma spaced_word w rest p : word w -> spaced p (w ++ rest) = spaced false rest.
Proof.
  intros [Hne Hw]. revert p Hne. induction Hw as [|r w Hr Hw IH]; intros p Hne; [done|]. cbn [app spaced]. rewrite (solid_space r Hr), Hr. cbn [andb].
  destruct w; [done|]. by apply IH.
Qed.
Lemma join_neat ws : Forall word ws -> neat (join_runes ws).
Proof.
  intros H. induction H as [|w ws Hw Hws IH]; [by left|]. right. rewrite join_cons, spaced_word by done. destruct ws as [|w' ws]; [done|]. cbn [tail_runes].
  change (spaced false (32%N :: join_runes (w' :: ws))) with (spaced true (join_runes (w' :: ws))). destruct IH as [He|]; [|done]. rewrite join_cons in He. inversion Hws as [|?? [Hne _]]; subst. by destruct w'.
Qed.
(** ... and undo nothing that is neat. *)
Lemma runs_spaced l : forall p, spaced p l = true -> (p = true -> (runs_of l).1 <> []) /\
  (runs_of l).1 ++ tail_runes (runs_of l).2 = l.
Proof.
  induction l as [|r l IH]; intros p H; [by destruct p|]. cbn [spaced runs_of] in *. destruct (is_space r) eqn:Hs.
  - rewrite !andb_true_iff in H. destruct H as [[Hp ->%N.eqb_eq] H]. destruct (IH true H) as [Hne Hl]. destruct (runs_of l) as [w ws]. cbn [fst snd] in *.
    split; [by destruct p|]. rewrite push_nonempty by by apply Hne. cbn [app tail_runes]. by rewrite join_cons, Hl.
  - rewrite andb_true_iff in H. destruct H as [Hr H]. destruct (IH false H) as [_ Hl]. destruct (runs_of l) as [w ws]. cbn [fst snd] in *. split; [done|]. cbn [app]. by rewrite Hl.
Qed.
Lemma join_fields l : neat l -> join_runes (rune_fields l) = l.
Proof.
  intros [->|H]; [done|]. destruct (runs_spaced l true H) as [Hne Hl]. unfold rune_fields. destruct (runs_of l) as [w ws]. cbn [fst snd] in *.
  rewrite push_nonempty by by apply Hne. by rewrite join_cons.
Qed.
Lemma spaced_kept l : forall p, spaced p l = true -> concat (map keep_rune l) = l /\ Forall (fun r => scalar r = true) l.
Proof.
  induction l as [|r l IH]; intros p H; [done|]. cbn [spaced] in H. destruct (is_space r) eqn:Hs.
  - rewrite !andb_true_iff in H. destruct H as [[_ ->%N.eqb_eq] H]. destruct (IH _ H) as [H1 H2]. split; [cbn; by rewrite H1|by constructor].
  - rewrite andb_true_iff in H. destruct H as [Hr H]. destruct (IH _ H) as [H1 H2]. unfold solid in Hr. rewrite !andb_true_iff, !negb_true_iff in Hr. destruct Hr as [[[Hp _] Hsc] Hn].
    split; [|by constructor]. cbn. unfold keep_rune at 1. rewrite Hn, Hs, Hp. cbn. by rewrite H1.
Qed.

(** ** Cutting *)
(** A prefix of a neat text, before the trim. *)
Fixpoint open_end (p : bool) (l : list N) : bool :=
  match l with [] => true | r :: l' => if is_space r then negb p && (r =? 32)%N && open_end true l' else solid r && open_end false l' end.
Lemma spaced_take n l : forall p, spaced p l = true -> open_end p (take n l) = true.
Proof.
  revert l. induction n as [|n IH]; intros [|r l] p H; [done..|]. cbn [take spaced open_end] in *. destruct (is_space r); rewrite !andb_true_iff in *; intuition.
Qed.
Lemma trim_open l : forall p, open_end p l = true ->
  (trim_runes_r l = [] /\ (l = [] \/ l = [32%N] /\ p = false)) \/ (spaced p (trim_runes_r l) = true /\ length l <= S (length (trim_runes_r l))).
Proof.
  induction l as [|r l IH]; intros p H; [by left; auto|]. cbn [open_end trim_runes_r] in *. destruct (is_space r) eqn:Hs.
  - rewrite !andb_true_iff, negb_true_iff in H. destruct H as [[-> ->%N.eqb_eq] H]. destruct (IH _ H) as [[-> [->|[_ ?]]]|[Ht Hl]]; [by left; auto|done|right].
    destruct (trim_runes_r l) as [|x t] eqn:E; [done|]. rewrite <- E in *. cbn [spaced length]. rewrite space_32. split; [by rewrite Ht|lia].
  - rewrite andb_true_iff in H. destruct H as [Hr H]. right. destruct (IH _ H) as [[-> Hl]|[Ht Hl]].
    + cbn [spaced length]. rewrite Hs, Hr. split; [done|]. destruct Hl as [->|[-> _]]; cbn; lia.
    + destruct (trim_runes_r l) as [|x t] eqn:E; cbn [spaced length] in *; rewrite Hs, Hr; split; [done|lia|done|lia].
Qed.
Lemma trim_l_spaced l : spaced true l = true -> trim_runes_l l = l.
Proof. destruct l as [|r l]; [done|]. cbn. by destruct (is_space r). Qed.
Lemma cut_neat n l : n <> 0 -> n < length l -> neat l -> let t := trim_runes_l (trim_runes_r (take n l)) in spaced true t = true /\ length t <= n /\ n <= S (length t).
Proof.
  intros Hn Hlen [->|H]; [cbn in Hlen; lia|]. cbv zeta. pose proof (spaced_take n l true H) as Ho. assert (Ht : length (take n l) = n) by (rewrite length_take; lia).
  destruct (trim_open _ _ Ho) as [[_ [He|[_ ?]]]|[Hs Hl]]; [rewrite He in Ht; cbn in Ht; lia|done|]. rewrite trim_l_spaced by done. rewrite Ht in Hl. split; [done|]. split; [|done].
  transitivity (length (take n l)); [|lia]. clear. induction (take n l) as [|r t IH]; [done|]. cbn. destruct (trim_runes_r t); [|cbn in *; lia]. destruct (is_space r); cbn; lia.
Qed.

(** ** Cleaning *)
Lemma runes_encode l : Forall (fun r => scalar r = true) l -> runes (encode_runes l) = l.
Proof.
  induction 1 as [|r l Hr _ IH]; [done|]. cbn [encode_runes]. rewrite (runes_decode _ r (slen (encode_rune r))) by by apply decode_encode.
  f_equal. by rewrite sdrop_app.
Qed.
Lemma runes_scalar s : Forall (fun r => scalar r = true) (runes s).
Proof.
  unfold runes. generalize 0. induction s as [|a s IH]; intros k; [done|]. destruct k as [|k]; cbn [runes_go]; [|apply IH].
  destruct (decode_rune (String a s)) as [[r w]|] eqn:Hd; constructor; [|apply IH|done|apply IH]. by apply decode_rune_spec in Hd as (? & ? & _).
Qed.
Lemma encode_long l : length l <= slen (encode_runes l).
Proof.
  induction l as [|r l IH]; [done|]. cbn [encode_runes length]. rewrite slen_app. assert (1 <= slen (encode_rune r)); [|lia].
  unfold encode_rune. repeat case_match; cbn; lia.
Qed.
Lemma placeholder_short s : s ∈ biosPlaceholders -> slen s <= 22.
Proof. intros H. unfold biosPlaceholders in H. repeat (apply elem_of_cons in H as [->|H]; [cbn; lia|]). by apply elem_of_nil in H. Qed.

Definition placeholder (l : list N) : Prop := encode_runes (map lower l) ∈ biosPlaceholders.
Lemma clean_runes_spec l : Forall (fun r => scalar r = true) l -> neat (clean_runes l) /\ length (clean_runes l) <= maxHardwareRunes /\ ~ placeholder (clean_runes l).
Proof.
  intros Hl. assert (Hempty : ~ placeholder []) by (unfold placeholder; by apply (bool_decide_unpack (~ _))).
  pose proof (join_neat _ (fields_words _ (kept_runes l Hl))) as Hn. unfold clean_runes. set (out := join_runes _) in *. cbv zeta.
  destruct (decide (placeholder out)) as [Hp|Hp]; [rewrite bool_decide_eq_true_2 by done; repeat split; [by left|cbn; lia|done]|]. rewrite bool_decide_eq_false_2 by done.
  destruct (Nat.ltb_spec maxHardwareRunes (length out)) as [Hlong|Hshort]; [|by repeat split].
  destruct (cut_neat maxHardwareRunes out) as (Hs & H1 & H2); [done..|]. split; [by right|]. split; [done|]. intros Hin%placeholder_short.
  pose proof (encode_long (map lower (trim_runes_l (trim_runes_r (take maxHardwareRunes out))))) as He. rewrite length_map in He. unfold maxHardwareRunes in *. lia.
Qed.
Lemma clean_runes_id l : neat l -> length l <= maxHardwareRunes -> ~ placeholder l -> clean_runes l = l.
Proof.
  intros Hn Hl Hp. assert (Hk : concat (map keep_rune l) = l) by (destruct Hn as [->|H]; [done|by apply spaced_kept in H as [? _]]).
  unfold clean_runes. rewrite Hk, join_fields by done. cbv zeta. rewrite bool_decide_eq_false_2 by done. destruct (Nat.ltb_spec maxHardwareRunes (length l)); [lia|done].
Qed.

(** Every string of the description is at most 64 printable runes in words with single blanks between them and no filler of a vendor, and cleaning it again changes nothing. *)
Lemma clean_string_spec s : exists l, cleanHardwareString s = encode_runes l /\ length l <= 64 /\ neat l /\ ~ placeholder l /\
  runes (cleanHardwareString s) = l /\ cleanHardwareString (cleanHardwareString s) = cleanHardwareString s.
Proof.
  destruct (clean_runes_spec (runes s) (runes_scalar s)) as (Hn & Hl & Hp). exists (clean_runes (runes s)). split; [done|]. do 3 (split; [done|]).
  assert (Hr : runes (cleanHardwareString s) = clean_runes (runes s)) by (apply runes_encode; destruct Hn as [->|H]; [done|by apply spaced_kept in H as [_ ?]]).
  split; [done|]. unfold cleanHardwareString at 1. by rewrite Hr, clean_runes_id.
Qed.

(** ** The description *)
Definition clean_text (s : string) : Prop := length (runes s) <= 64 /\ neat (runes s) /\ ~ placeholder (runes s) /\ s = encode_runes (runes s).
Lemma clean_is_clean s : clean_text (cleanHardwareString s).
Proof. destruct (clean_string_spec s) as (l & He & Hl & Hn & Hp & Hr & _). unfold clean_text. by rewrite Hr. Qed.
Lemma clean_empty : clean_text "".
Proof. apply (clean_is_clean ""). Qed.
Lemma dmi_clean m name : clean_text (readDMI m name).
Proof. unfold readDMI. case_match; [apply clean_is_clean|apply clean_empty]. Qed.

(** The files the description is made of. *)
Definition sources : list string := [deviceTreeModel; "/etc/os-release"; "/proc/meminfo"] ++ map (fun name => dmiRoot +:+ "/" +:+ name) dmiFiles.
Definition agree_on (paths : list string) (root : string) (m1 m2 : machine) : Prop :=
  goos m1 = goos m2 /\ goarch m1 = goarch m2 /\ statfs m1 root = statfs m2 root /\ forall p, p ∈ paths -> content m1 p = content m2 p.

Lemma dmi_agrees root m1 m2 name : agree_on sources root m1 m2 -> readDMI m1 name = readDMI m2 name.
Proof.
  intros (_ & _ & _ & Hc). unfold readDMI, readSmall. destruct (decide (name ∈ dmiFiles)) as [Hin|Hin]; [|by rewrite bool_decide_eq_false_2].
  rewrite bool_decide_eq_true_2 by done. rewrite Hc; [done|]. unfold sources. apply elem_of_app. right. by apply (list_elem_of_fmap_2 (fun name => dmiRoot +:+ "/" +:+ name)).
Qed.

Lemma detect_agrees m m' root : agree_on sources root m m' -> Detect m root = Detect m' root.
Proof.
  intros Ha. pose proof (fun name => dmi_agrees root m m' name Ha) as Hd. destruct Ha as (H1 & H2 & H3 & Hc).
  assert (Hin : deviceTreeModel ∈ sources /\ "/etc/os-release" ∈ sources /\ "/proc/meminfo" ∈ sources) by (unfold sources; set_solver). destruct Hin as (Hi1 & Hi2 & Hi3).
  unfold Detect, readOSRelease, readRamTotalMb, readDiskFreeMb, detectDevice, generic_device, arch, detectHardware, readSmall. rewrite !Hd, H1, H2, H3, !Hc by done. done.
Qed.

(** The description of the hardware holds clean strings and a chassis type of one byte, and it depends on the system's name, the free space and the files of the fixed list alone: no serial number, no UUID and no other file of the machine shows in it. *)
Theorem identity_disclosed m root :
  (forall hw, Hardware_ (Detect m root) = Some hw ->
    Forall clean_text [Model hw; Vendor hw; Product hw; Version hw; Family hw; BoardVendor hw; BoardName hw] /\ (0 <= Chassis hw <= 255)%Z) /\
  forall m', agree_on sources root m m' -> Detect m root = Detect m' root.
Proof.
  split.
  - intros hw Hh. unfold Detect in Hh. destruct (readOSRelease m). cbn [Hardware_] in Hh. unfold detectHardware in Hh. cbv zeta in Hh. destruct (_ && _); [done|]. injection Hh as <-.
    cbn [Model Vendor Product Version Family BoardVendor BoardName Chassis]. split; [repeat first [apply Forall_nil_2|apply Forall_cons_2]; first [apply dmi_clean|apply clean_is_clean]|].
    unfold chassis_of. destruct (Atoi _) as [n|]; [|done]. destruct ((0 <? n) && (n <=? 255))%Z eqn:E; lia.
  - intros m'. apply detect_agrees.
Qed.
End clean.

(** ** A machine *)
Fixpoint zeros_of (n : nat) : string := match n with 0 => "" | S k => String "A" (zeros_of k) end.
Definition latin : Tables := {| print_high _ := false; lower_high r := r |}.
#[local] Existing Instance latin.
Definition demo_files (p : string) : option string :=
  if bool_decide (p = deviceTreeModel) then Some ("Raspberry Pi 5 Model B" +:+ str1 NUL) else
  if bool_decide (p = "/sys/class/dmi/id/sys_vendor") then Some (" QEMU " +:+ String TAB ("" +:+ str1 LF)) else
  if bool_decide (p = "/sys/class/dmi/id/product_name") then Some "To Be Filled By O.E.M." else
  if bool_decide (p = "/sys/class/dmi/id/chassis_type") then Some ("3" +:+ str1 LF) else
  if bool_decide (p = "/proc/meminfo") then Some ("MemTotal:        8000000 kB" +:+ str1 LF) else
  if bool_decide (p = "/etc/os-release") then Some ("ID=debian" +:+ String LF (bq "VERSION_ID=`12`" +:+ str1 LF)) else None.
Definition demo_machine (serial : string) : machine :=
  MkMachine "linux" "arm64" (fun p => if bool_decide (p = "/sys/class/dmi/id/product_serial") then Some serial else demo_files p) (fun _ => Some (4096, 1000000)%Z).

Example demo_identity : Detect (demo_machine "S1") "/var/lib/obacht" =
  MkIdentity "raspberry-pi-5" "linux/arm64" "debian" "12" 7812 3906 (Some (MkHardware "Raspberry Pi 5 Model B" "QEMU" "" "" "" "" "" 3 true)).
Proof. vm_compute. reflexivity. Qed.
Example long_name : slen (cleanHardwareString (zeros_of 100)) = 64.
Proof. vm_compute. reflexivity. Qed.

Lemma identity_disclosed_witness : Detect (demo_machine "S1") "/var/lib/obacht" = Detect (demo_machine "S2") "/var/lib/obacht" /\
  (0 <= Chassis (default (MkHardware "" "" "" "" "" "" "" 0 false) (Hardware_ (Detect (demo_machine "S1") "/var/lib/obacht"))) <= 255)%Z.
Proof.
  destruct (identity_disclosed (demo_machine "S1") "/var/lib/obacht") as [Hhw Hsame]. split.
  - apply Hsame. refine (conj eq_refl (conj eq_refl (conj eq_refl _))). intros p Hp. cbn [content demo_machine].
    repeat (apply elem_of_cons in Hp as [->|Hp]; [reflexivity|]). by apply elem_of_nil in Hp.
  - destruct (Hhw (MkHardware "Raspberry Pi 5 Model B" "QEMU" "" "" "" "" "" 3 true)) as [_ H]; [vm_compute; reflexivity|]. rewrite demo_identity. exact H.
Defined.
