(* ===== verification/Pull.v ===== *)
(** * The progress of an image pull: internal/runtime/container/docker.go

    The daemon tells of a pull in a stream of JSON objects, one per layer
    event; [consumePullStream] folds them into one percentage.  Also the one
    retry of a request on a transient error, and the ping. *)

From S2P Require Import Prelude GoStrings Codec Utf8 Json JsonEnc JsonDec SignedMut Frames.

(** ** The stream *)
Record pull_event := MkEvent { status : string; ev_id : string; current : Z; total : Z }.
Definition dec_detail : decoder (Z * Z) := dec_struct [fld "current" dec_int fst (fun v d => (v, d.2)); fld "total" dec_int snd (fun v d => (d.1, v))].
Definition dec_event : decoder pull_event := dec_struct
  [fld "status" dec_string status (fun v e => MkEvent v (ev_id e) (current e) (total e)); fld "id" dec_string ev_id (fun v e => MkEvent (status e) v (current e) (total e));
   fld "progressDetail" dec_detail (fun e => (current e, total e)) (fun d e => MkEvent (status e) (ev_id e) d.1 d.2)].

(** The values a [json.Decoder] reads until the end or the first error; every
    value takes a byte, so the length of the text is fuel enough. *)
Fixpoint decode_stream (n : nat) (s : string) : list pull_event :=
  match n with
  | O => []
  | S n =>
      let '(raw, rest) := take_value [] MValue "" (skip_ws s) in
      match unmarshal dec_event (MkEvent "" "" 0 0) raw with Some ev => ev :: decode_stream n rest | None => [] end
  end.

(** ** The percentage *)
Notation layer_map := (gmap string (Z * Z)).
Record pull := MkPull { layers : layer_map (* current and total *); maxPct : Z; reports : list Z (* newest first *) }.
Definition start : pull := MkPull ∅ (-1) [].

(** The sums over the layers, in 64 bits; the order does not matter. *)
Definition sums (ls : layer_map) : Z * Z := map_fold (fun _ l acc => (wrap64 (acc.1 + l.1), wrap64 (acc.2 + l.2))) (0, 0)%Z ls.
Inductive effect := Downloading | Complete | Other.
Definition effect_of (ev : pull_event) : effect :=
  if bool_decide (status ev = "Downloading") then Downloading else
  if bool_decide (status ev = "Download complete") || bool_decide (status ev = "Already exists") then Complete else Other.
Definition layer_after (ev : pull_event) (l : Z * Z) : Z * Z :=
  match effect_of ev with
  | Downloading => if (0 <? total ev)%Z then (current ev, total ev) else l
  | Complete => if (0 <? l.2)%Z then (l.2, l.2) else l
  | Other => l
  end.
Definition percent (ls : layer_map) (high : Z) : Z :=
  let '(cur, tot) := sums ls in if (0 <? tot)%Z then Z.max high (wrap64 (cur * 100) ÷ tot)%Z else (-1)%Z.
Definition pull_step (ev : pull_event) (p : pull) : pull :=
  if bool_decide (ev_id ev = "") then p else
  let ls := <[ev_id ev := layer_after ev (default (0, 0)%Z (layers p !! ev_id ev))]> (layers p) in
  match effect_of ev with
  | Other => MkPull ls (maxPct p) (reports p)
  | _ => let pct := percent ls (maxPct p) in MkPull ls (if (0 <? (sums ls).2)%Z then pct else maxPct p) (pct :: reports p)
  end.
Definition consume (evs : list pull_event) : pull := fold_left (fun p ev => pull_step ev p) evs start.
(** The percentages reported, oldest first. *)
Definition consumePullStream (instanceID body : string) : list Z :=
  if bool_decide (instanceID = "") then [] else rev (reports (consume (decode_stream (S (slen body)) body))).

(** ** Requests *)
Definition isTransientNetErr (e : string) : bool := contains e "EOF" || contains e "connection refused" || contains e "connection reset" || contains e "broken pipe".
Section requests.
Context {E A : Type} (send : E -> res string A * E).
Definition doWithRetry (e : E) : res string A * E :=
  let '(r, e) := send e in
  match r with Ok a => (Ok a, e) | Err x => if isTransientNetErr x then send e else (Err x, e) end.
End requests.
Inductive ping_error := PingFailed (t : string) | UnexpectedStatus (code : Z).
Definition Ping {E} (send : E -> res string Z * E) (e : E) : res ping_error unit * E :=
  let '(r, e) := send e in
  (match r with Err x => Err (PingFailed x) | Ok code => if (code =? 200)%Z then Ok tt else Err (UnexpectedStatus code) end, e).

(** ** What the bar shows *)

(** The daemon's promises: a layer's progress lies within its size, and the
    sizes of [n] layers stay within [B]. *)
Section bar.
Context (B : Z) (ids : gset string).
Definition plausible (ev : pull_event) : Prop := ev_id ev ∈ ids /\ (effect_of ev = Downloading -> (0 < total ev)%Z -> (0 <= current ev <= total ev /\ total ev <= B)%Z).
Definition layer_ok (l : Z * Z) : Prop := (0 <= l.1 <= l.2 /\ l.2 <= B)%Z.
Definition fits : Prop := (0 <= B /\ Z.of_nat (size ids) * B * 100 < 2 ^ 63)%Z.

Definition sums_spec (acc : Z * Z) (ls : layer_map) : Prop :=
  map_Forall (fun _ l => layer_ok l) ls -> (Z.of_nat (size ls) * B < 2 ^ 63)%Z ->
  (0 <= acc.1 <= acc.2 /\ acc.2 <= Z.of_nat (size ls) * B)%Z /\ ((0 < acc.2)%Z <-> exists id l, ls !! id = Some l /\ (0 < l.2)%Z) /\
  (map_Forall (fun _ l => l.1 = l.2) ls -> acc.1 = acc.2).
Lemma sums_ok ls : (0 <= B)%Z -> sums_spec (sums ls) ls.
Proof.
  intros HB. apply (map_fold_weak_ind sums_spec).
  - intros _ _. cbn. repeat split; try lia. intros (? & ? & H & _). by rewrite lookup_empty in H.
  - intros id [c t] ls' acc Hid IH Hall Hsize. apply map_Forall_insert in Hall as [Hl Hall]; [|done]. rewrite map_size_insert_None in * by done.
    destruct IH as ((H1 & H2) & Hpos & Heq); [done|nia|]. unfold layer_ok in Hl. cbn [fst snd] in *. rewrite !wrap64_small by nia. split; [nia|]. split.
    + split.
      * intros H. destruct (decide (0 < t)%Z) as [Ht|Ht]; [exists id, (c, t); by rewrite lookup_insert_eq|]. destruct Hpos as [(i & l & Hi & Hlt) _]; [lia|].
        exists i, l. split; [|done]. rewrite lookup_insert_ne; [done|]. intros <-. congruence.
      * intros (i & l & Hi & Hlt). apply lookup_insert_Some in Hi as [[<- <-]|[_ Hi]]; [cbn in Hlt; lia|]. assert (0 < acc.2)%Z by (apply Hpos; eauto). lia.
    + intros H. apply map_Forall_insert in H as [Hc H]; [|done]. cbn in Hc. rewrite (Heq H). lia.
Qed.
Context (Hfits : fits).
Lemma sorted_snoc (l : list Z) a : StronglySorted Z.le l -> Forall (fun x => x <= a)%Z l -> StronglySorted Z.le (l ++ [a]).
Proof. induction 1 as [|x l Hl IH Hx]; intros Ha; [by repeat constructor|]. inversion Ha; subst. cbn. constructor; [by apply IH|]. apply Forall_app. by split; [|repeat constructor]. Qed.
Lemma sorted_rev l : StronglySorted Z.ge l -> StronglySorted Z.le (rev l).
Proof.
  induction 1 as [|x l _ IH Hx]; [constructor|]. cbn. apply sorted_snoc; [done|]. apply Forall_rev. eapply Forall_impl; [exact Hx|]. cbn. lia.
Qed.
Definition positive (ls : layer_map) : Prop := exists id l, ls !! id = Some l /\ (0 < l.2)%Z.
Definition steady (p : pull) : Prop :=
  map_Forall (fun _ l => layer_ok l) (layers p) /\ dom (layers p) ⊆ ids /\ (-1 <= maxPct p <= 100)%Z /\ (maxPct p = (-1)%Z \/ positive (layers p)) /\
  Forall (fun r => -1 <= r <= maxPct p)%Z (reports p) /\ StronglySorted Z.ge (reports p).

Lemma layer_after_ok ev l : plausible ev -> layer_ok l -> layer_ok (layer_after ev l) /\ ((0 < l.2)%Z -> (0 < (layer_after ev l).2)%Z).
Proof.
  intros [_ Hp] Hl. unfold layer_after, layer_ok in *. destruct (effect_of ev); [|case_match; cbn; lia|done].
  destruct (0 <? total ev)%Z eqn:Ht; cbn [fst snd]; [|done]. specialize (Hp eq_refl). lia.
Qed.
Lemma layers_after ev p : plausible ev -> steady p -> let ls := <[ev_id ev := layer_after ev (default (0, 0)%Z (layers p !! ev_id ev))]> (layers p) in
  map_Forall (fun _ l => layer_ok l) ls /\ dom ls ⊆ ids /\ (positive (layers p) -> positive ls).
Proof.
  intros Hev (Hok & Hdom & _) ls. assert (H0 : layer_ok (default (0, 0)%Z (layers p !! ev_id ev))).
  { destruct (layers p !! ev_id ev) as [l|] eqn:E; [by eapply Hok|]. unfold layer_ok, fits in *. cbn. lia. }
  destruct (layer_after_ok ev _ Hev H0) as [H1 H2]. split; [by apply map_Forall_insert_2|]. split; [subst ls; rewrite dom_insert; destruct Hev; set_solver|].
  intros (i & l & Hi & Hl). destruct (decide (i = ev_id ev)) as [->|Hne]; [|exists i, l; subst ls; by rewrite lookup_insert_ne].
  exists (ev_id ev). eexists. split; [apply lookup_insert_eq|]. apply H2. by rewrite Hi.
Qed.
Lemma sums_fit ls : map_Forall (fun _ l => layer_ok l) ls -> dom ls ⊆ ids ->
  (0 <= (sums ls).1 <= (sums ls).2 /\ (sums ls).2 * 100 < 2 ^ 63)%Z /\ ((0 < (sums ls).2)%Z <-> positive ls) /\ (map_Forall (fun _ l => l.1 = l.2) ls -> (sums ls).1 = (sums ls).2).
Proof.
  intros Hok Hdom. assert (Hsize : size ls <= size ids) by (rewrite <- size_dom; by apply subseteq_size). unfold fits in Hfits.
  destruct (sums_ok ls) as (Hb & Hp & He); [lia|done|nia|]. split; [nia|done].
Qed.
Lemma percent_fit ls high : map_Forall (fun _ l => layer_ok l) ls -> dom ls ⊆ ids -> (-1 <= high <= 100)%Z ->
  (0 < (sums ls).2)%Z -> (high <= percent ls high <= 100)%Z /\ (map_Forall (fun _ l => l.1 = l.2) ls -> percent ls high = 100%Z).
Proof.
  intros Hok Hdom Hh Hpos. destruct (sums_fit ls Hok Hdom) as (Hb & _ & He). unfold percent. destruct (sums ls) as [cur tot]. cbn [fst snd] in *.
  replace (0 <? tot)%Z with true by (symmetry; by apply Z.ltb_lt). rewrite wrap64_small by lia. assert (cur * 100 ÷ tot <= 100)%Z.
  { rewrite Z.quot_div_nonneg by lia. apply Z.div_le_upper_bound; lia. }
  split; [lia|]. intros H'. rewrite (He H'). replace (tot * 100 ÷ tot)%Z with 100%Z by (rewrite Z.mul_comm, Z.quot_mul; lia). lia.
Qed.

Lemma steady_step ev p : plausible ev -> steady p -> steady (pull_step ev p).
Proof.
  intros Hev Hp. unfold pull_step. destruct (bool_decide (ev_id ev = "")); [done|]. destruct (layers_after ev p Hev Hp) as (Hok & Hdom & Hpos). set (ls := <[_ := _]> (layers p)) in *.
  destruct Hp as (_ & _ & Hm & Hmp & Hr & Hs). assert (Hmp' : maxPct p = (-1)%Z \/ positive ls) by tauto.
  assert (Hstep : let pct := percent ls (maxPct p) in let high := if (0 <? (sums ls).2)%Z then pct else maxPct p in
    (maxPct p <= pct <= 100)%Z /\ high = pct /\ (pct = (-1)%Z \/ positive ls)).
  { cbv zeta. destruct (Z.ltb_spec 0 (sums ls).2) as [H|H].
    - destruct (percent_fit ls (maxPct p) Hok Hdom Hm H) as [? _]. split; [done|]. split; [done|]. right. by apply sums_fit.
    - assert (~ positive ls) by (intros H'; apply (sums_fit ls Hok Hdom) in H'; lia). destruct Hmp' as [Hmp'|]; [|done]. unfold percent. destruct (sums ls) as [cur tot]. cbn [snd] in H.
      replace (0 <? tot)%Z with false by (symmetry; by apply Z.ltb_ge). rewrite Hmp'. split; [lia|]. split; [done|by left]. }
  cbv zeta in Hstep. destruct Hstep as (H1 & H2 & H3). cbv zeta. assert (Hnext : steady (MkPull ls (if (0 <? (sums ls).2)%Z then percent ls (maxPct p) else maxPct p) (percent ls (maxPct p) :: reports p))).
  { rewrite H2. unfold steady. cbn [layers maxPct reports]. refine (conj Hok (conj Hdom (conj _ (conj H3 (conj _ _))))); [lia| |].
    - constructor; [lia|]. eapply Forall_impl; [exact Hr|]. cbn. lia.
    - constructor; [done|]. eapply Forall_impl; [exact Hr|]. cbn. lia. }
  destruct (effect_of ev); [exact Hnext|exact Hnext|]. unfold steady. cbn [layers maxPct reports]. tauto.
Qed.
Lemma steady_consume evs : Forall plausible evs -> steady (consume evs).
Proof.
  intros H. unfold consume. assert (Hs : steady start).
  { unfold steady, start. cbn [layers maxPct reports]. refine (conj _ (conj _ (conj _ (conj _ (conj _ _))))); [apply map_Forall_empty|rewrite dom_empty; set_solver|lia|by left|constructor|constructor]. }
  revert Hs. generalize start. induction H as [|ev evs Hev _ IH]; intros p Hp; [done|]. cbn. apply IH. by apply steady_step.
Qed.

(** C33: When the daemon's numbers are plausible, every reported percentage is minus one or between zero and a hundred, the bar never moves back, and it shows a hundred as soon as every layer that is known is complete. *)
Theorem pull_progress instanceID body : Forall plausible (decode_stream (S (slen body)) body) ->
  Forall (fun r => -1 <= r <= 100)%Z (consumePullStream instanceID body) /\ StronglySorted Z.le (consumePullStream instanceID body) /\
  forall evs ev, decode_stream (S (slen body)) body = evs ++ [ev] -> effect_of ev <> Other -> ev_id ev <> "" -> instanceID <> "" ->
    positive (layers (consume (evs ++ [ev]))) -> map_Forall (fun _ l => l.1 = l.2) (layers (consume (evs ++ [ev]))) -> last (consumePullStream instanceID body) = Some 100%Z.
Proof.
  intros Hp. pose proof (steady_consume _ Hp) as (Hok & Hdom & Hm & _ & Hr & Hs). unfold consumePullStream. split; [|split].
  - destruct (bool_decide _); [done|]. apply Forall_rev. eapply Forall_impl; [exact Hr|]. intros x [Hx1 Hx2]. split; [exact Hx1|]. etransitivity; [exact Hx2|apply Hm].
  - destruct (bool_decide _); [constructor|]. by apply sorted_rev.
  - intros evs ev He Heff Hid Hi Hpos Hc. rewrite bool_decide_eq_false_2 by done. rewrite He in Hp |- *. apply Forall_app in Hp as [Hp [Hev _]%Forall_cons].
    unfold consume in *. rewrite fold_left_app in *. cbn [fold_left] in *. fold (consume evs) in *. pose proof (steady_consume evs Hp) as Hst.
    destruct (layers_after ev (consume evs) Hev Hst) as (Hok' & Hdom' & _). destruct Hst as (_ & _ & Hm' & _). unfold pull_step in *. rewrite bool_decide_eq_false_2 in * by done. cbv zeta in *.
    set (ls := <[_ := _]> (layers (consume evs))) in *. assert (Hls : positive ls /\ map_Forall (fun _ l => l.1 = l.2) ls) by by destruct (effect_of ev). destruct Hls as [Hpos' Hc'].
    destruct (percent_fit ls (maxPct (consume evs)) Hok' Hdom' Hm') as [_ H100]; [by apply (sums_fit ls Hok' Hdom')|].
    destruct (effect_of ev); [| |done]; cbn [reports rev]; by rewrite last_snoc, (H100 Hc').
Qed.
End bar.

(** ** A pull of two layers *)
Definition demo_body : string :=
  bq "{`status`:`Pulling from library/x`,`id`:`latest`}{`status`:`Downloading`,`id`:`a`,`progressDetail`:{`current`:50,`total`:100}}" +:+
  bq "{`status`:`Downloading`,`id`:`b`,`progressDetail`:{`current`:0,`total`:300}} {`status`:`Extracting`,`id`:`a`,`progressDetail`:{`current`:1,`total`:900}}" +:+
  bq "{`status`:`Download complete`,`id`:`a`}{`status`:`Download complete`,`id`:`b`}".
Example demo_reports : consumePullStream "web" demo_body = [50; 50; 50; 100]%Z /\ consumePullStream "" demo_body = [].
Proof. vm_compute. done. Qed.
(** Numbers a daemon should not send are not cut. *)
Example over_full : consumePullStream "web" (bq "{`status`:`Downloading`,`id`:`a`,`progressDetail`:{`current`:30,`total`:10}}") = [300%Z].
Proof. vm_compute. done. Qed.

Lemma pull_progress_witness : StronglySorted Z.le (consumePullStream "web" demo_body) /\ last (consumePullStream "web" demo_body) = Some 100%Z.
Proof.
  assert (Hp : Forall (plausible 1000 {["latest"; "a"; "b"]}) (decode_stream (S (slen demo_body)) demo_body)).
  { assert (decode_stream (S (slen demo_body)) demo_body = [MkEvent "Pulling from library/x" "latest" 0 0; MkEvent "Downloading" "a" 50 100; MkEvent "Downloading" "b" 0 300;
      MkEvent "Extracting" "a" 1 900; MkEvent "Download complete" "a" 0 0; MkEvent "Download complete" "b" 0 0]) as -> by (vm_compute; reflexivity).
    repeat (apply Forall_cons_2; [split; [cbn; set_solver|cbn; lia]|]). constructor. }
  assert (Hf : fits 1000 {["latest"; "a"; "b"]}) by (split; [lia|vm_compute; done]).
  destruct (pull_progress 1000 {["latest"; "a"; "b"]} Hf "web" demo_body Hp) as (_ & Hs & Hlast). split; [exact Hs|].
  eapply (Hlast [_; _; _; _; _]); [vm_compute; reflexivity|vm_compute; discriminate|vm_compute; discriminate|discriminate| |].
  - exists "a", (100, 100)%Z. vm_compute. done.
  - intros i l. vm_compute. intros Hl. repeat (case_match; simplify_eq; try done).
Defined.
