(* ===== verification/Register.v ===== *)
(** * What a device registers with: sendRegister of internal/sync/syncer.go,
    internal/inventory/inventory.go

    On every connect the agent tells the backend what it is and can do: the
    capabilities, the description of the hardware, the cameras and features,
    the fingerprints of the pinned keys and the encryption key.  Members of a
    map are in the order of their names, as the encoder writes them. *)

From S2P Require Import Prelude GoStrings Codec Utf8 Json JsonEnc UserKeys Store SignedMut Dispatch Observed Frames Compat CompatProps Agent.

(** ** Inventory *)
Record Camera := MkCamera { C_ID : string; C_Label : string; C_Kind : string }.
Definition sysfsVideo4linux : string := "/sys/class/video4linux".

(** The longest prefix of bytes that pass, and the rest. *)
Fixpoint span (p : ascii -> bool) (s : string) : string * string :=
  match s with String c t => if p c then let '(a, b) := span p t in (String c a, b) else ("", s) | "" => ("", "") end.
Definition within (lo hi n : nat) : bool := (lo <=? n)%nat && (n <=? hi)%nat.
(** [csiSensorRe]: ^([a-z]{2,8}[0-9]{2,5})( |$), the first group. *)
Definition csiSensor (name : string) : option string :=
  let '(letters, r) := span is_lower name in
  let '(digits, r) := span is_digit r in
  if within 2 8 (slen letters) && within 2 5 (slen digits) && match r with "" | String " " _ => true | _ => false end then Some (letters +:+ digits) else None.

(** [itoa]: the digits of [n], the last one first. *)
Fixpoint itoa_go (fuel : nat) (n : N) (acc : string) : string :=
  match fuel with
  | O => acc
  | S fuel => if (n =? 0)%N then acc else itoa_go fuel (n / 10) (String (ascii_of_N (48 + n mod 10)) acc)
  end.
Definition inv_itoa (n : N) : string := if (n =? 0)%N then "0" else itoa_go (S (N.to_nat n)) n "".

(** A machine with its directories and regular files. *)
Record device := MkDevice { hw : machine; entries : string -> option (list string); regular : string -> bool; hostname : string }.
Definition add_camera (d : device) (cams : list Camera) (sd : string) : list Camera :=
  match content (hw d) (sysfsVideo4linux +:+ "/" +:+ sd +:+ "/name") with
  | None => cams
  | Some raw =>
      match csiSensor (trim_space raw) with
      | None => cams
      | Some sensor => let idx := inv_itoa (N.of_nat (length cams)) in cams ++ [MkCamera idx (sensor +:+ " (CSI " +:+ idx +:+ ")") "csi"]
      end
  end.
Definition detectCSICameras (d : device) : list Camera :=
  match entries d sysfsVideo4linux with
  | None => []
  | Some names => fold_left (add_camera d) (sort_strings (List.filter (fun n => has_prefix n "v4l-subdev") names)) []
  end.
(** [None] is the empty inventory of other systems. *)
Definition Collect (d : device) : list Camera := if bool_decide (goos (hw d) = "linux") then detectCSICameras d else [].
Definition statAny (d : device) (paths : list string) : bool := existsb (regular d) paths.
Definition Features (d : device) (cams : list Camera) : list string :=
  if negb (bool_decide (goos (hw d) = "linux")) then [] else
  (if statAny d ["/usr/bin/chromium"; "/usr/bin/chromium-browser"] then ["desktop-chromium"] else []) ++
  (if statAny d ["/usr/bin/labwc"; "/usr/bin/wayfire"; "/usr/bin/cage"] then ["wayland-compositor"] else []) ++
  (match cams with [] => [] | _ => ["csi-or-usb-camera"] end).

(** ** The registration *)
Definition SupportedSpecVersion : string := "v2.4".
Definition strs (l : list string) : json := JArr (map JStr l).
Definition int (z : Z) : json := JNum (itoa z).
Definition hardware_json (h : Hardware) : json :=
  JObj [("model", JStr (Model h)); ("vendor", JStr (Vendor h)); ("product", JStr (Product h)); ("version", JStr (Version h)); ("family", JStr (Family h));
        ("board_vendor", JStr (BoardVendor h)); ("board_name", JStr (BoardName h)); ("chassis", int (Chassis h)); ("virtual", JBool (Virtual h))].
Definition identity_json (i : Identity) : json :=
  JObj ([("device", JStr (Device i)); ("architecture", JStr (Architecture i)); ("os_id", JStr (OSID i)); ("os_version", JStr (OSVersion i));
         ("ram_total_mb", int (RamTotalMb i)); ("disk_free_mb", int (DiskFreeMb i))] ++ match Hardware_ i with Some h => [("hardware", hardware_json h)] | None => [] end).
Definition camera_json (c : Camera) : json := JObj [("id", JStr (C_ID c)); ("label", JStr (C_Label c)); ("kind", JStr (C_Kind c))].
(** A nil slice is written as null. *)
Definition inventory_json (cams : list Camera) : json := JObj [("cameras", match cams with [] => JNull | _ => JArr (map camera_json cams) end)].

Section register.
Context {tables : Tables} (sha : string -> string) (public : string -> option string).
Definition dataRoot : string := "/var/lib/obacht".
Definition fingerprints (verifier : option (list UserKey)) : json :=
  match verifier with Some (_ :: _ as ks) => strs (map (UserKeys.Fingerprint sha) ks) | _ => JNull end.
Definition readSchemaVersion (db : DB) : string := match GetMeta "schema_version" db with Ok v => v | Err _ => "" end.
Definition register_payload (d : device) (deviceID version : string) (verifier : option (list UserKey)) (enc : option string) (db : DB) : json :=
  let cams := Collect d in
  JObj ([("agentV2", JBool true); ("agentVersion", JStr version); ("arch", JStr (goarch (hw d)));
         ("capabilities", strs (capabilities (goos (hw d)) verifier db (bool_decide (is_Some enc)))); ("compat", identity_json (Detect (hw d) dataRoot)); ("deviceId", JStr deviceID)] ++
        (match enc with Some pub => if bool_decide (pub = "") then [] else [("encPublicKey", JStr pub)] | None => [] end) ++
        [("features", strs (Features d cams)); ("hostname", JStr (hostname d)); ("inventory", inventory_json cams); ("os", JStr (goos (hw d)));
         ("schemaVersion", JStr (readSchemaVersion db)); ("specVersion", JStr SupportedSpecVersion); ("userKeyFingerprints", fingerprints verifier)]).
(** The frame that is emitted, and the store with the key pair in it. *)
Definition sendRegister (d : device) (deviceID version : string) (verifier : option (list UserKey)) (generate : option string) (db : DB) : string * DB :=
  let '(enc, db) := EnsurePublicKey public generate db in
  (event_frame "agent:register" [register_payload d deviceID version verifier enc db], db).
End register.

(** ** The inventory *)
Lemma inv_itoa_go fuel : forall n acc, (N.to_nat n < fuel) -> itoa_go fuel n acc = pretty_N_go n acc.
Proof.
  induction fuel as [|fuel IH]; intros n acc Hf; [lia|]. cbn [itoa_go]. destruct (N.eqb_spec n 0) as [->|Hn]; [done|].
  rewrite pretty_N_go_step by lia. rewrite IH.
  - f_equal. f_equal. assert (n mod 10 < 10)%N by (apply N.mod_lt; lia). unfold pretty_N_char.
    destruct (n mod 10)%N as [|p]; [done|]. do 10 (destruct p as [p|p|]; try lia; try done).
  - assert (n / 10 < n)%N by (apply N.div_lt; lia). lia.
Qed.
(** The package's own decimal printer is the standard one. *)
Lemma inv_itoa_pretty n : inv_itoa n = pretty n.
Proof.
  unfold inv_itoa, pretty, pretty_N. destruct (N.eqb_spec n 0) as [->|Hn]; [done|]. rewrite inv_itoa_go by lia. by rewrite decide_False.
Qed.

Lemma span_splits p s : let '(a, b) := span p s in s = a +:+ b /\ str_all p a = true /\ match b with String c _ => p c = false | "" => True end.
Proof.
  induction s as [|c t IH]; [done|]. cbn [span]. destruct (p c) eqn:Hp; [|done]. destruct (span p t) as [a b]. destruct IH as (-> & Ha & Hb). cbn. by rewrite Hp.
Qed.
Lemma span_unique p a b : str_all p a = true -> match b with String c _ => p c = false | "" => True end -> span p (a +:+ b) = (a, b).
Proof.
  induction a as [|c a IH]; cbn; intros Ha Hb.
  - destruct b as [|c b]; [done|]. cbn. by rewrite Hb.
  - apply andb_true_iff in Ha as [-> Ha]. by rewrite IH.
Qed.
Lemma digit_not_lower c : is_digit c = true -> is_lower c = false.
Proof. unfold is_digit, is_lower, between. rewrite andb_true_iff, andb_false_iff, !N.leb_le, !N.leb_gt. cbn. lia. Qed.

(** A camera's name is accepted exactly when it is two to eight letters and two to five digits, alone or before a blank; the token is then those letters and digits. *)
Theorem csiSensor_iff name t : csiSensor name = Some t <->
  exists letters digits rest, name = letters +:+ digits +:+ rest /\ t = letters +:+ digits /\ str_all is_lower letters = true /\ str_all is_digit digits = true /\
    2 <= slen letters <= 8 /\ 2 <= slen digits <= 5 /\ (rest = "" \/ exists r, rest = String " " r).
Proof.
  unfold csiSensor, within. split.
  - pose proof (span_splits is_lower name) as H1. destruct (span is_lower name) as [letters r]. destruct H1 as (-> & Hl & _).
    pose proof (span_splits is_digit r) as H2. destruct (span is_digit r) as [digits rest]. destruct H2 as (-> & Hd & _). case_match eqn:E; [|done]. intros [= <-].
    rewrite !andb_true_iff, !Nat.leb_le in E. destruct E as [[E1 E2] E3]. exists letters, digits, rest. do 6 (split; [done|]).
    destruct rest as [|c r]; [by left|right]. exists r. f_equal. destruct c as [[] [] [] [] [] [] [] []]; try done.
  - intros (letters & digits & rest & -> & -> & Hl & Hd & Hl8 & Hd5 & Hr). destruct digits as [|c digits]; [cbn in Hd5; lia|].
    rewrite (span_unique is_lower letters) by (first [done|cbn in Hd |- *; apply andb_true_iff in Hd as [Hc _]; by apply digit_not_lower]).
    rewrite span_unique by (first [done|destruct Hr as [->|[r ->]]; done]).
    replace (2 <=? slen letters)%nat with true by (symmetry; apply Nat.leb_le; lia). replace (slen letters <=? 8)%nat with true by (symmetry; apply Nat.leb_le; lia).
    replace (2 <=? slen (String c digits))%nat with true by (symmetry; apply Nat.leb_le; lia). replace (slen (String c digits) <=? 5)%nat with true by (symmetry; apply Nat.leb_le; lia).
    by destruct Hr as [->|[r ->]].
Qed.

Definition camera_ok (n : nat) (c : Camera) : Prop :=
  C_ID c = pretty (N.of_nat n) /\ C_Kind c = "csi" /\ exists name sensor, csiSensor name = Some sensor /\ C_Label c = sensor +:+ " (CSI " +:+ pretty (N.of_nat n) +:+ ")".
Definition numbered (cams : list Camera) : Prop := forall n c, cams !! n = Some c -> camera_ok n c.
(** The identifiers of cameras, which templates take into commands as they are, are the decimal numbers from zero in the order of the kernel's names. *)
Lemma cameras_numbered d : numbered (Collect d).
Proof.
  assert (Hnil : numbered []) by done. unfold Collect. destruct (bool_decide _); [|done]. unfold detectCSICameras. destruct (entries d _) as [names|]; [|done].
  generalize (sort_strings (List.filter (fun n => has_prefix n "v4l-subdev") names)). intros l. revert Hnil. generalize (@nil Camera). induction l as [|sd l IH]; intros cams Hc; [done|]. cbn. apply IH.
  unfold add_camera. destruct (content _ _) as [raw|]; [|done]. destruct (csiSensor (trim_space raw)) as [sensor|] eqn:Hs; [|done].
  intros n c Hn. apply lookup_app_Some in Hn as [Hn|[Hge Hn]]; [by apply Hc|]. apply list_lookup_singleton_Some in Hn as [Hz <-].
  assert (n = length cams) as -> by lia. unfold camera_ok. cbn [C_ID C_Kind C_Label]. rewrite inv_itoa_pretty. eauto 6.
Qed.

(** ** What the backend learns *)
Section disclosure.
Context {tables : Tables} (sha : string -> string) (public : string -> option string).

(** The machines look alike to the registration. *)
Definition camera_files (d : device) : list string := match entries d sysfsVideo4linux with Some l => map (fun sd => sysfsVideo4linux +:+ "/" +:+ sd +:+ "/name") l | None => [] end.
Definition probed : list string := ["/usr/bin/chromium"; "/usr/bin/chromium-browser"; "/usr/bin/labwc"; "/usr/bin/wayfire"; "/usr/bin/cage"].
Definition alike (d1 d2 : device) : Prop :=
  agree_on (sources ++ camera_files d1) dataRoot (hw d1) (hw d2) /\ entries d1 sysfsVideo4linux = entries d2 sysfsVideo4linux /\ hostname d1 = hostname d2 /\
  forall p, p ∈ probed -> regular d1 p = regular d2 p.

Lemma agree_mono ps qs root m1 m2 : ps ⊆ qs -> agree_on qs root m1 m2 -> agree_on ps root m1 m2.
Proof. intros Hs (H1 & H2 & H3 & Hc). repeat split; [done..|]. intros p Hp. by apply Hc, Hs. Qed.
Lemma cameras_alike d1 d2 : alike d1 d2 -> Collect d1 = Collect d2.
Proof.
  intros ((Ho & _ & _ & Hc) & He & _ & _). unfold Collect, detectCSICameras. rewrite Ho, <- He. unfold camera_files in Hc. destruct (entries d1 sysfsVideo4linux) as [names|]; [|done].
  case_match; [|done]. assert (Hl : Forall (fun sd => sd ∈ names) (sort_strings (List.filter (fun n => has_prefix n "v4l-subdev") names))).
  { rewrite Forall_forall. intros sd Hsd. unfold sort_strings in Hsd. rewrite merge_sort_Permutation in Hsd. apply list_elem_of_In, filter_In in Hsd as [Hin _]. by apply list_elem_of_In. }
  revert Hl. generalize (sort_strings (List.filter (fun n => has_prefix n "v4l-subdev") names)) (@nil Camera). intros l. induction l as [|sd l IH]; intros cams Hl; [done|].
  apply Forall_cons in Hl as [Hsd Hl]. cbn. rewrite (IH _ Hl). f_equal. unfold add_camera. rewrite Hc; [done|]. apply elem_of_app. right.
  by apply (list_elem_of_fmap_2 (fun sd => sysfsVideo4linux +:+ "/" +:+ sd +:+ "/name")).
Qed.
Lemma features_alike d1 d2 cams : alike d1 d2 -> Features d1 cams = Features d2 cams.
Proof.
  intros ((Ho & _) & _ & _ & Hr). unfold Features, statAny. rewrite Ho. cbn [existsb]. unfold probed in Hr. by rewrite !Hr by set_solver.
Qed.

(** Registering tells the backend nothing of the store but the setting of power mode, the schema's version and the public key: two devices whose machines look alike send the same frame whatever instances, domains, secrets, tokens and keys of the store differ, as long as the stored keys have the same public key. *)
Theorem register_discloses d1 d2 deviceID version verifier g db1 db2 : alike d1 d2 ->
  powerModeEnabled db1 = powerModeEnabled db2 -> readSchemaVersion db1 = readSchemaVersion db2 -> stored_key public db1 = stored_key public db2 ->
  (sendRegister sha public d1 deviceID version verifier g db1).1 = (sendRegister sha public d2 deviceID version verifier g db2).1.
Proof.
  intros Hd Hp Hv Hk. pose proof Hd as ((Ho & Ha & _) & _ & Hh & _). assert (Hi : Detect (hw d1) dataRoot = Detect (hw d2) dataRoot).
  { apply detect_agrees. eapply agree_mono; [|apply Hd]. intros p Hp'. apply elem_of_app. by left. }
  assert (Henc : exists e db1' db2', EnsurePublicKey public g db1 = (e, db1') /\ EnsurePublicKey public g db2 = (e, db2') /\ powerModeEnabled db1' = powerModeEnabled db2' /\ readSchemaVersion db1' = readSchemaVersion db2').
  { unfold EnsurePublicKey. rewrite <- Hk. destruct (stored_key public db1); [by eexists _, _, _|]. destruct g as [priv|]; [|by eexists _, _, _]. eexists _, _, _. do 2 (split; [reflexivity|]).
    split; [exact Hp|]. unfold readSchemaVersion, GetMeta, SetMeta in *. cbn in *. rewrite !lookup_insert_ne by done. exact Hv. }
  destruct Henc as (e & db1' & db2' & E1 & E2 & Hp' & Hv'). unfold sendRegister. rewrite E1, E2. cbn [fst]. do 2 f_equal. unfold register_payload. cbv zeta.
  rewrite (cameras_alike d1 d2), (features_alike d1 d2), Hi, Ho, Ha, Hh, Hv' by done. unfold capabilities. by rewrite Hp'.
Qed.
End disclosure.

(** ** A device *)
#[local] Existing Instance latin.
Definition with_camera (p : string) : option string :=
  if bool_decide (p = "/sys/class/video4linux/v4l-subdev0/name") then Some ("imx477 10-001a" +:+ str1 LF) else
  if bool_decide (p = "/sys/class/video4linux/v4l-subdev1/name") then Some "pisp-fe" else if bool_decide (p = "/etc/passwd") then Some "root" else demo_files p.
Definition without_passwd (p : string) : option string := if bool_decide (p = "/etc/passwd") then None else with_camera p.
Definition demo_device (c : string -> option string) : device :=
  MkDevice (MkMachine "linux" "arm64" c (fun _ => Some (4096, 1000000)%Z)) (fun p => if bool_decide (p = sysfsVideo4linux) then Some ["video0"; "v4l-subdev1"; "v4l-subdev0"] else None)
    (fun p => bool_decide (p = "/usr/bin/chromium")) "pi".
Example demo_inventory : Collect (demo_device with_camera) = [MkCamera "0" "imx477 (CSI 0)" "csi"] /\
  Features (demo_device with_camera) (Collect (demo_device with_camera)) = ["desktop-chromium"; "csi-or-usb-camera"].
Proof. vm_compute. done. Qed.

Definition demo_pub (priv : string) : option string := if bool_decide (slen priv = 2) then Some "pub" else None.
Lemma register_discloses_witness :
  let other := (SetMeta metaJWT "token" (SetDomainBasicAuth "x.org" "alice" "hash" 1 (fresh_db 0)).2).2 in
  (sendRegister id demo_pub (demo_device with_camera) "d1" "1.0" None (Some "kk") (fresh_db 0)).1 = (sendRegister id demo_pub (demo_device without_passwd) "d1" "1.0" None (Some "kk") other).1.
Proof.
  cbv zeta. apply (register_discloses id demo_pub (demo_device with_camera) (demo_device without_passwd)); [|vm_compute; reflexivity..].
  refine (conj (conj eq_refl (conj eq_refl (conj eq_refl _))) (conj eq_refl (conj eq_refl _))); [|done].
  intros p Hp. cbn [content hw demo_device]. unfold without_passwd. rewrite bool_decide_eq_false_2; [done|]. intros ->. revert Hp. apply (bool_decide_unpack (~ _)). vm_compute. exact I.
Defined.
Example csi_samples : csiSensor "imx477 10-001a" = Some "imx477" /\ csiSensor "imx477x" = None /\ csiSensor "a1" = None.
Proof. vm_compute. done. Qed.
