(* ===== verification/Telemetry.v ===== *)
(** * Host metrics and addresses: internal/telemetry

    What the telemetry event carries: CPU, memory, disk and temperature of a
    Linux host, and its three addresses with the cached lookup of the public
    one.  The files, interfaces and echo services are what the host answers.
    Quotients of float64 and their texts are the class [Floats]. *)

From S2P Require Import Prelude GoStrings GoUrl Codec Utf8 Json JsonEnc Frames Compat.

(** ** Addresses *)

(** An IPv4 address; its text and net.ParseIP are inverse. *)
Definition quad : Type := Z * Z * Z * Z.
Definition quad_text (q : quad) : string := let '(a, b, c, d) := q in join "." [itoa a; itoa b; itoa c; itoa d].
Definition obachtWGNet (q : quad) : bool := let '(a, b, _, _) := q in ((a =? 10) && (b =? 137))%Z.
Definition isPrivateIP (q : quad) : bool :=
  let '(a, b, _, _) := q in ((a =? 10) || ((a =? 172) && (16 <=? b) && (b <=? 31)) || ((a =? 192) && (b =? 168)))%Z.

(** net.ParseIP accepts the text. *)
Definition octet (s : string) : bool :=
  negb (bool_decide (s = "")) && str_all is_digit s && (negb (has_prefix s "0") || bool_decide (s = "0")) && (slen s <=? 3)%nat &&
  match digits_value s with Some n => (n <=? 255)%Z | None => false end.
Definition ipv4_text (s : string) : bool := let parts := split_on "." s in (length parts =? 4)%nat && forallb octet parts.
Definition is_hex (c : ascii) : bool := hexByte c.
Fixpoint hex_run (s : string) : nat := match s with String c t => if is_hex c then S (hex_run t) else 0 | "" => 0 end.
(** The groups from byte [i] of the address on; [ell]: there was an ellipsis. *)
Fixpoint ipv6_groups (fuel i : nat) (ell : bool) (s : string) : bool :=
  match fuel with
  | O => bool_decide (s = "") && negb ell
  | S fuel =>
      let off := hex_run s in
      if (off =? 0)%nat || (4 <? off)%nat then false else
      let r := sdrop off s in
      if has_prefix r "." then (ell || (i =? 12)%nat) && (i + 4 <=? 16)%nat && ipv4_text s && (if (i + 4 <? 16)%nat then ell else negb ell) else
      match r with
      | "" => if (i + 2 <? 16)%nat then ell else negb ell
      | String ":" r' =>
          match r' with
          | "" => false
          | String ":" r'' => if ell then false else if bool_decide (r'' = "") then (i + 2 <? 16)%nat else ipv6_groups fuel (i + 2) true r''
          | _ => ipv6_groups fuel (i + 2) ell r'
          end
      | _ => false
      end
  end.
Definition ipv6_text (s : string) : bool :=
  if mem_byte "%" s then false else
  match strip_prefix s "::" with
  | Some "" => true
  | Some r => ipv6_groups 8 0 true r
  | None => ipv6_groups 8 0 false s
  end.
(** The first dot, colon or percent sign decides. *)
Fixpoint valid_ip_go (whole s : string) : bool :=
  match s with
  | "" => false
  | String c t => if Ascii.eqb c "." then ipv4_text whole else if Ascii.eqb c ":" then ipv6_text whole else if Ascii.eqb c "%" then false else valid_ip_go whole t
  end.
Definition valid_ip (s : string) : bool := valid_ip_go s s.
Example ip_samples : map valid_ip ["1.2.3.4"; "1.2.3.04"; "256.1.1.1"; "::"; "::1"; "2001:db8::1"; "1:2:3:4:5:6:7:8"; "1:2:3:4:5:6:7::"; "::1:2:3:4:5:6:7:8"; "1::2::3"; "::ffff:1.2.3.4"; "fe80::1%eth0"; "12345::"; "1:2:3:4:5:6:1.2.3.4"; "1:2:3:4:5:6:7:1.2.3.4"; "x"]
  = [true; false; false; true; true; true; true; true; false; false; true; false; false; true; false; false].
Proof. vm_compute. reflexivity. Qed.

(** ** The host's interfaces *)
Inductive addr := V4 (q : quad) | Other.
Record iface := MkIface { if_name : string; if_up : bool; if_loopback : bool; if_addrs : option (list addr) }.
Definition ipv4Of (a : addr) : option quad := match a with V4 q => Some q | Other => None end.

Class Host := {
  interfaces : option (list iface);
  outboundIP : option quad;                   (* the local address of the route to 8.8.8.8 *)
  echo : string -> option string;             (* what an endpoint answers *)
  now : Z                                     (* nanoseconds *)
}.
Section netinfo.
Context {host : Host}.
Definition wireguardIP : option quad :=
  ifs ← interfaces;
  head (omap (fun i => if if_up i then head (List.filter obachtWGNet (omap ipv4Of (default [] (if_addrs i)))) else None) ifs).
Definition isWireguardIP (q : quad) : bool := bool_decide (wireguardIP = Some q).
Definition container_iface (name : string) : bool :=
  bool_decide (name = "wg0") || has_prefix name "docker" || has_prefix name "br-" || has_prefix name "veth".
Definition lan_of (i : iface) : option quad :=
  if negb (if_up i) || if_loopback i then None else if container_iface (if_name i) then None else
  head (List.filter isPrivateIP (omap ipv4Of (default [] (if_addrs i)))).
Definition scan : option quad := match interfaces with None => None | Some ifs => match head (omap lan_of ifs) with Some q => Some q | None => outboundIP end end.
Definition localIP : option quad :=
  match outboundIP with Some q => if isWireguardIP q then scan else Some q | None => scan end.

Definition endpoints : list string := ["https://api.ipify.org"; "https://ipv4.icanhazip.com"; "https://ifconfig.me/ip"].
Definition answer (endpoint : string) : option string :=
  body ← echo endpoint; let v := trim_space (stake 64 body) in if valid_ip v then Some v else None.
Definition fetchPublicIP : option string := head (omap answer endpoints).

Definition publicIPTTL : Z := 10 * 60 * 1000000000.
(** [publicIP] and when it was fetched. *)
Definition netInfo : Type := option (string * Z).
(** The address, whether a lookup was made, and the cache. *)
Definition cachedPublicIP (n : netInfo) : option string * bool * netInfo :=
  let fresh := match n with Some (_, t) => (now - t <? publicIPTTL)%Z | None => false end in
  if fresh then (fst <$> n, false, n) else
  match fetchPublicIP with
  | Some v => (Some v, true, Some (v, now))
  | None => (fst <$> n, true, n)
  end.
Definition collect_net (n : netInfo) : option quad * option quad * option string * netInfo :=
  let '(public, _, n) := cachedPublicIP n in (wireguardIP, localIP, public, n).
End netinfo.

(** ** Counters *)
(** [strconv.ParseUint] with its error ignored. *)
Definition parse_uint (s : string) : Z := match (if bool_decide (s = "") then None else digits_value s) with Some n => Z.min n (2 ^ 64 - 1) | None => 0 end%Z.
Definition readCPUStat (stat : option string) : option (Z * Z) :=
  text ← stat; line ← head (scan_lines text);
  match fields line with
  | k :: cols =>
      if negb (bool_decide (k = "cpu")) || (length cols <? 4)%nat then None else
      let vs := map parse_uint cols in Some (fold_left (fun t v => ((t + v) mod 2 ^ 64)%Z) vs 0%Z, nth 3 vs 0%Z)
  | [] => None
  end.
Definition int64 (z : Z) : Z := ((z + 2 ^ 63) mod 2 ^ 64 - 2 ^ 63)%Z.
(** The percentage as a fraction: busy time over elapsed time. *)
Definition cpuPct (t1 i1 t2 i2 : Z) : Z * Z :=
  let dt := int64 (int64 t2 - int64 t1) in
  let di := int64 (int64 i2 - int64 i1) in
  if (dt <=? 0)%Z then (0, 1)%Z else (Z.max 0 (int64 (dt - di)), dt).
Definition cpu_prev : Type := option (Z * Z).
(** [stat1] is read first, [stat2] a moment later when there is no previous reading. *)
Definition readCPUUsage (stat1 stat2 : option string) (p : cpu_prev) : option (Z * Z) * cpu_prev :=
  match readCPUStat stat1 with
  | None => (None, p)
  | Some (t1, i1) =>
      match p with
      | None => match readCPUStat stat2 with None => (None, None) | Some (t2, i2) => (Some (cpuPct t1 i1 t2 i2), Some (t2, i2)) end
      | Some (t0, i0) => (Some (cpuPct t0 i0 t1 i1), Some (t1, i1))
      end
  end.

Definition parseMeminfoKB (line : string) : Z := match fields line with _ :: v :: _ => parse_uint v | _ => 0 end%Z.
Fixpoint mem_lines (l : list string) (total avail : Z) : Z * Z :=
  match l with
  | [] => (total, avail)
  | line :: l' =>
      let total := if has_prefix line "MemTotal:" then parseMeminfoKB line else total in
      let avail := if negb (has_prefix line "MemTotal:") && has_prefix line "MemAvailable:" then parseMeminfoKB line else avail in
      if ((0 <? total) && (0 <? avail))%Z then (total, avail) else mem_lines l' total avail
  end.
(** Used and total bytes. *)
Definition readMem (meminfo : option string) : option (Z * Z) :=
  text ← meminfo;
  let '(total, avail) := mem_lines (scan_lines text) 0 0 in
  if (total =? 0)%Z then None else Some (((total - Z.min avail total) * 1024) mod 2 ^ 64, (total * 1024) mod 2 ^ 64)%Z.
(** Block size, blocks and available blocks of the root file system. *)
Definition readDisk (st : option (Z * Z * Z)) : option (Z * Z) :=
  '(bsize, blocks, bavail) ← st;
  let total := ((blocks * bsize) mod 2 ^ 64)%Z in
  let free := Z.min ((bavail * bsize) mod 2 ^ 64) total in Some (total - free, total)%Z.

(** ** The event *)
Class Floats := { ratio_text : Z -> Z -> string (* 100 * a / b *); milli_text : string -> option string (* a number over 1000 *) }.
Record readings := MkReadings { stat1 : option string; stat2 : option string; meminfo : option string; root_fs : option (Z * Z * Z); thermal : option string }.
Record collector := MkCollector { prev : cpu_prev; net : netInfo }.
Record Sample := MkSample {
  CPUUsage : option (Z * Z); RAM : option (Z * Z); Disk : option (Z * Z); TempCPU : option string;
  WireguardIP : option string; LocalIP : option string; PublicIP : option string; AgentVersion : option string
}.
Section collect.
Context {host : Host} {floats : Floats}.
Definition Collect (r : readings) (c : collector) : Sample * collector :=
  let '(cpu, p) := readCPUUsage (stat1 r) (stat2 r) (prev c) in
  let '(wg, local, public, n) := collect_net (net c) in
  (MkSample cpu (readMem (meminfo r)) (readDisk (root_fs r)) (thermal r ≫= fun t => milli_text (trim_space t)) (quad_text <$> wg) (quad_text <$> local) public None, MkCollector p n).

Definition member {A} (name : string) (f : A -> json) (o : option A) : list (string * json) := match o with Some a => [(name, f a)] | None => [] end.
Definition uint (z : Z) : json := JNum (itoa z).
Definition sample_json (s : Sample) : json :=
  JObj (member "cpu_usage" (fun p => JNum (ratio_text p.1 p.2)) (CPUUsage s) ++ member "ram_used" (fun p => uint p.1) (RAM s) ++ member "ram_total" (fun p => uint p.2) (RAM s) ++
        member "disk_used" (fun p => uint p.1) (Disk s) ++ member "disk_total" (fun p => uint p.2) (Disk s) ++ member "temp_cpu" JNum (TempCPU s) ++
        member "wireguard_ip" JStr (WireguardIP s) ++ member "local_ip" JStr (LocalIP s) ++ member "public_ip" JStr (PublicIP s) ++
        member "system" (fun v => JObj (if bool_decide (v = "") then [] else [("agent_version", JStr v)])) (AgentVersion s)).
(** [pushTelemetry]: the frame, if the client is connected. *)
Definition pushTelemetry (connected : bool) (wgIPOverride agentVersion : string) (r : readings) (c : collector) : option string * collector :=
  if negb connected then (None, c) else
  let '(s, c) := Collect r c in
  let wg := if bool_decide (wgIPOverride = "") then WireguardIP s else Some wgIPOverride in
  (Some (event_frame "telemetry" [sample_json (MkSample (CPUUsage s) (RAM s) (Disk s) (TempCPU s) wg (LocalIP s) (PublicIP s) (Some agentVersion))]), c).
End collect.

(** ** The public address *)

(** Collections one after the other: the report, whether a lookup was made, and when. *)
Fixpoint lookups (hs : list Host) (n : netInfo) : list (option string * bool * Z) :=
  match hs with
  | [] => []
  | h :: hs => let '(v, asked, n) := cachedPublicIP n in (v, asked, now) :: lookups hs n
  end.
Definition times_ok (t : Z) (hs : list Host) : Prop := Forall (fun h => t <= now)%Z hs /\ StronglySorted Z.le (map (fun h => now) hs).
Definition ip_report (v : string) : Prop := valid_ip v = true /\ slen v <= 64.
Definition cache_ok (t : Z) (n : netInfo) : Prop := match n with Some (v, t0) => ip_report v /\ (t0 <= t)%Z | None => True end.

Lemma stake_short n s : slen (stake n s) <= n.
Proof. revert s. induction n as [|n IH]; intros [|c s]; cbn; try lia. specialize (IH s). lia. Qed.
Lemma of_marked_len l : slen (of_marked l) = length l.
Proof. induction l as [|[b c] l IH]; cbn; [done|by rewrite IH]. Qed.
Lemma trim_space_len s : slen (trim_space s) <= slen s.
Proof.
  unfold trim_space. rewrite of_marked_len. assert (Hm : forall k s, length (mark k s) = slen s) by (clear; intros k s; revert k; induction s as [|c s IH]; intros k; [done|]; cbn [mark slen]; destruct k; [destruct (space_len _)|]; cbn [length]; by rewrite IH).
  assert (Hl : forall l, length (strip_l l) <= length l) by (induction l as [|[[] c] l IH]; cbn; lia).
  assert (Hr : forall l, length (strip_r l) <= length l) by (induction l as [|[b c] l IH]; cbn in *; [lia|]; repeat case_match; cbn in *; lia).
  etransitivity; [apply Hr|]. etransitivity; [apply Hl|]. by rewrite Hm.
Qed.
Lemma fetched {h : Host} v : fetchPublicIP = Some v -> ip_report v.
Proof.
  unfold fetchPublicIP. assert (Ha : forall e v, answer e = Some v -> ip_report v).
  { intros e w. unfold answer. destruct (echo e) as [body|]; [|done]. cbn [mbind option_bind]. cbv zeta. destruct (valid_ip (trim_space (stake 64 body))) eqn:Hv; [|done]. intros H. assert (w = trim_space (stake 64 body)) as -> by congruence. exact (conj Hv (Nat.le_trans _ _ _ (trim_space_len (stake 64 body)) (stake_short 64 body))). }
  intros H. apply head_Some_elem_of in H. apply list_elem_of_omap in H as (e & _ & He). by eapply Ha.
Qed.
Lemma cached_step {h : Host} n : cache_ok now n -> let '(v, asked, n') := cachedPublicIP n in
  cache_ok now n' /\ v = fst <$> n' /\ (is_Some n -> is_Some n') /\
  (asked = true -> is_Some fetchPublicIP -> exists w, n' = Some (w, now)) /\ (asked = false -> n' = n) /\
  (asked = true -> forall w u, n = Some (w, u) -> publicIPTTL <= now - u)%Z.
Proof.
  intros Hc. unfold cachedPublicIP. destruct n as [[w t]|].
  - cbv zeta. destruct (now - t <? publicIPTTL)%Z eqn:Hfresh; [by eauto 9|]. assert (Hold : (true = true -> forall w' u, Some (w, t) = Some (w', u) -> publicIPTTL <= now - u)%Z) by (intros _ w' u [= <- <-]; lia).
    destruct fetchPublicIP as [v|] eqn:Hf; [apply fetched in Hf; cbn; by eauto 12 with lia|].
    split; [done|]. split; [done|]. split; [done|]. split; [by intros _ [? ?]|]. by split.
  - destruct fetchPublicIP as [v|] eqn:Hf; [apply fetched in Hf; refine (conj (conj Hf (Z.le_refl _)) (conj eq_refl (conj _ (conj _ (conj _ _))))); [done|by eexists|done|done]|]. split; [done|]. split; [done|]. split; [done|]. split; [by intros _ [? ?]|]. by split.
Qed.

Definition spread (n : netInfo) (log : list (option string * bool * Z)) : Prop :=
  (is_Some n -> Forall (fun r => is_Some r.1.1) log) /\ (forall w u, n = Some (w, u) -> Forall (fun r => r.2 - u < publicIPTTL -> r.1.2 = false)%Z log).
Lemma later_times {A} (f : A -> Z) u l : Forall (Z.le u) (map f l) -> Forall (fun x => u <= f x)%Z l.
Proof. induction l as [|x l IH]; cbn; intros H; [constructor|]. apply Forall_cons in H as [H1 H2]. constructor; [done|by apply IH]. Qed.
Lemma lookups_spread hs : forall n t, cache_ok t n -> times_ok t hs ->
  Forall (fun r => forall v, r.1.1 = Some v -> ip_report v) (lookups hs n) /\ Forall (fun r => t <= r.2)%Z (lookups hs n) /\ spread n (lookups hs n).
Proof.
  induction hs as [|h hs IH]; intros n t Hc [Ht Hs]; [by repeat constructor|]. apply Forall_cons in Ht as [Ht Hts]. cbn [map] in Hs. inversion Hs as [|?? Hs' Hle]; subst.
  assert (Hc' : cache_ok (@now h) n) by (destruct n as [[w u]|]; [destruct Hc; split; [done|lia]|done]). cbn [lookups]. pose proof (cached_step n Hc') as Hstep.
  destruct (@cachedPublicIP h n) as [[v asked] n']. destruct Hstep as (Hn' & Hv & Hsome & Hfound & Hkept & Hold).
  assert (Hle' : Forall (fun h' => @now h <= @now h')%Z hs) by (by apply later_times). destruct (IH n' _ Hn' (conj Hle' Hs')) as (Hr & Htime & Hsp1 & Hsp2).
  split; [|split; [|split]].
  - constructor; [|done]. cbn. intros w ->. destruct n' as [[w' u]|]; [|done]. injection Hv as ->. by destruct Hn'.
  - constructor; [done|]. eapply Forall_impl; [exact Htime|]. cbn. lia.
  - intros Hn. constructor; [|by apply Hsp1, Hsome]. cbn. rewrite Hv. by apply fmap_is_Some, Hsome.
  - intros w u ->. destruct asked.
    + specialize (Hold eq_refl w u eq_refl). constructor; [cbn; lia|]. eapply Forall_impl; [exact Htime|]. cbn. intros r Hr1 Hr2. lia.
    + specialize (Hkept eq_refl). subst n'. constructor; [done|]. by eapply Hsp2.
Qed.

(** Whatever the echo services answer, a reported public address is the text of an IP address; once one was reported every later event carries one; and for ten minutes after a lookup that found one no other lookup is made. *)
Theorem public_ip_cached hs t : times_ok t hs ->
  Forall (fun r => forall v, r.1.1 = Some v -> ip_report v) (lookups hs None) /\
  forall i j h ri rj, i < j -> hs !! i = Some h -> lookups hs None !! i = Some ri -> lookups hs None !! j = Some rj ->
    (is_Some ri.1.1 -> is_Some rj.1.1) /\ (ri.1.2 = true -> is_Some (@fetchPublicIP h) -> rj.2 - ri.2 < publicIPTTL -> rj.1.2 = false)%Z.
Proof.
  intros Ht. split; [by apply (lookups_spread hs None t)|]. assert (Hc : cache_ok t None) by done. revert Ht Hc. generalize (None : netInfo) as n. revert t.
  induction hs as [|h0 hs IH]; intros t n [Ht Hs] Hc i j h ri rj Hij Hh Hi Hj; [done|]. apply Forall_cons in Ht as [Ht Hts]. cbn [map] in Hs. inversion Hs as [|?? Hs' Hle]; subst.
  assert (Hc' : cache_ok (@now h0) n) by (destruct n as [[w u]|]; [destruct Hc; split; [done|lia]|done]). cbn [lookups] in Hi, Hj. pose proof (cached_step n Hc') as Hstep.
  destruct (@cachedPublicIP h0 n) as [[v asked] n']. destruct Hstep as (Hn' & Hv & _ & Hfound & _ & _).
  assert (Hle' : Forall (fun h' => @now h0 <= @now h')%Z hs) by (by apply later_times). destruct j as [|j]; [lia|]. cbn in Hj. destruct i as [|i].
  - cbn in Hh, Hi. injection Hh as <-. injection Hi as <-. cbn [fst snd]. destruct (lookups_spread hs n' _ Hn' (conj Hle' Hs')) as (_ & _ & Hsp1 & Hsp2).
    split.
    + intros Hsome. rewrite Hv in Hsome. apply fmap_is_Some in Hsome. specialize (Hsp1 Hsome). rewrite Forall_lookup in Hsp1. by apply (Hsp1 j).
    + intros Ha Hf. destruct (Hfound Ha Hf) as [w ->]. specialize (Hsp2 w _ eq_refl). rewrite Forall_lookup in Hsp2. by apply (Hsp2 j).
  - cbn in Hh, Hi. apply (IH _ n' (conj Hle' Hs') Hn' i j h ri rj); [lia|done..].
Qed.

(** ** The local address *)

(** The local address is the one of the outbound route, or a private IPv4 address of an interface that is up, is no loopback and is none of the agent's or docker's by name; an outbound address outside the mesh is always the one reported. *)
Theorem local_ip_sound {h : Host} q : localIP = Some q ->
  (outboundIP = Some q \/ exists ifs i, interfaces = Some ifs /\ i ∈ ifs /\ if_up i = true /\ if_loopback i = false /\ container_iface (if_name i) = false /\
     V4 q ∈ default [] (if_addrs i) /\ isPrivateIP q = true) /\
  forall o, outboundIP = Some o -> wireguardIP <> Some o -> q = o.
Proof.
  assert (Hscan : forall q, scan = Some q -> outboundIP = Some q \/ exists ifs i, interfaces = Some ifs /\ i ∈ ifs /\ if_up i = true /\ if_loopback i = false /\
    container_iface (if_name i) = false /\ V4 q ∈ default [] (if_addrs i) /\ isPrivateIP q = true).
  { intros r. unfold scan. destruct interfaces as [ifs|] eqn:Hi; [|done]. destruct (head (omap lan_of ifs)) as [x|] eqn:Hh; [|by left]. intros [= ->]. right.
    apply head_Some_elem_of, list_elem_of_omap in Hh as (i & Hin & Hl). exists ifs, i. unfold lan_of in Hl. destruct (if_up i) eqn:Hu; [|done]. destruct (if_loopback i) eqn:Hlo; [done|].
    cbn [negb orb] in Hl. destruct (container_iface (if_name i)) eqn:Hc; [done|]. apply head_Some_elem_of, list_elem_of_In, filter_In in Hl as [Hl Hp]. apply list_elem_of_In, list_elem_of_omap in Hl as ([x|] & Hx & Ha); [|done].
    by injection Ha as ->. }
  unfold localIP. destruct outboundIP as [o|] eqn:Ho.
  - unfold isWireguardIP. destruct (decide (wireguardIP = Some o)) as [Hw|Hw]; [rewrite bool_decide_eq_true_2 by done|rewrite bool_decide_eq_false_2 by done].
    + intros Hs. split; [apply Hscan in Hs as [Hs|Hs]; [left; congruence|by right]|]. by intros o' [= <-].
    + intros [= ->]. split; [by left|]. by intros o' [= <-].
  - intros Hs. split; [|done]. apply Hscan in Hs as [Hs|Hs]; [congruence|by right].
Qed.
(** The tunnel of another name is no tunnel to the scan: its address is reported as the one of the local network. *)
Definition mac_host : Host := {|
  interfaces := Some [MkIface "utun4" true false (Some [V4 (10, 137, 0, 5)%Z]); MkIface "en0" true false (Some [Other; V4 (192, 168, 1, 7)%Z])];
  outboundIP := Some (10, 137, 0, 5)%Z; echo _ := None; now := 0 |}.
Example tunnel_is_local : @localIP mac_host = Some (10, 137, 0, 5)%Z /\ @wireguardIP mac_host = Some (10, 137, 0, 5)%Z.
Proof. vm_compute. done. Qed.

(** ** The counters *)
Lemma digits_nonneg s n : digits_value s = Some n -> (0 <= n)%Z.
Proof.
  unfold digits_value. assert (H : forall s acc, (0 <= acc)%Z -> forall n,
    (fix go (s : string) (acc : Z) : option Z := match s with "" => Some acc | String a s' => if is_digit a then go s' (acc * 10 + Z.of_N (code a - 48))%Z else None end) s acc = Some n -> (0 <= n)%Z).
  { clear. induction s as [|c s IH]; intros acc Ha n; [by intros [= <-]|]. destruct (is_digit c); [|done]. apply IH. lia. }
  by apply H.
Qed.

(** What is reported as used is never more than the total: on the disk whatever the kernel answers, of the memory when its size fits, and of the processor's time when its counters did not go back. *)
Theorem usage_bounded :
  (forall st used total, readDisk st = Some (used, total) -> (0 <= used <= total /\ total < 2 ^ 64)%Z) /\
  (forall m text used total, m = Some text -> (mem_lines (scan_lines text) 0 0).1 * 1024 < 2 ^ 64 -> readMem m = Some (used, total) -> (0 <= used <= total)%Z)%Z /\
  (forall t1 i1 t2 i2, 0 <= i1 <= i2 -> i2 - i1 <= t2 - t1 -> 0 <= t1 -> i2 < 2 ^ 63 -> t2 < 2 ^ 63 -> let '(busy, dt) := cpuPct t1 i1 t2 i2 in 0 <= busy <= dt)%Z.
Proof.
  split; [|split].
  - intros [[[bs bl] ba]|] used total; [|done]. cbn. intros [= <- <-]. pose proof (Z.mod_pos_bound (bl * bs) (2 ^ 64)). pose proof (Z.mod_pos_bound (ba * bs) (2 ^ 64)). lia.
  - intros m text used total -> Hfit. unfold readMem. cbn [mbind option_bind]. assert (Hpos : forall l t a, (0 <= t -> 0 <= a -> 0 <= (mem_lines l t a).1 /\ 0 <= (mem_lines l t a).2)%Z).
    { assert (Hn : forall line, (0 <= parseMeminfoKB line)%Z).
      { intros line. unfold parseMeminfoKB, parse_uint. destruct (fields line) as [|? [|v ?]]; [done..|]. destruct (if bool_decide (v = "") then None else digits_value v) as [n|] eqn:E; [|done].
        destruct (bool_decide _); [done|]. apply digits_nonneg in E. lia. }
      induction l as [|line l IH]; intros t a Ht Ha; [done|]. cbn [mem_lines]. cbv zeta. pose proof (Hn line). case_match; [cbn; repeat case_match; lia|]. apply IH; repeat case_match; lia. }
    specialize (Hpos (scan_lines text) 0 0 (Z.le_refl 0) (Z.le_refl 0))%Z. destruct (mem_lines (scan_lines text) 0 0) as [t a]. cbn [fst snd] in *.
    destruct (t =? 0)%Z; [done|]. intros [= <- <-]. rewrite !Z.mod_small by lia. lia.
  - intros t1 i1 t2 i2 Hi Hd Ht1 Hi2 Ht2. unfold cpuPct. assert (Hs : forall z, (- 2 ^ 63 <= z < 2 ^ 63)%Z -> int64 z = z) by (intros z Hz; unfold int64; rewrite Z.mod_small by lia; lia).
    rewrite (Hs t1), (Hs t2), (Hs i1), (Hs i2), (Hs (t2 - t1)%Z), (Hs (i2 - i1)%Z), Hs by lia. destruct (t2 - t1 <=? 0)%Z eqn:E; lia.
Qed.
(** The idle counter may go back; then the share is above one. *)
Example cpu_over_hundred : cpuPct 100 50 200 40 = (110, 100)%Z.
Proof. reflexivity. Qed.
