(* ===== verification/Loops.v ===== *)
(** * The loops and their wake-ups: Run of internal/reconciler/loop.go and of
    internal/sync/syncer.go

    Three goroutines (the reconcile loop, the ingress loop and the push loop)
    each take one thing at a time from a channel of one slot; whoever has
    something to tell puts a token into the slot, or finds it full.  A write is
    a number, so that what a loop had read when it last got through can be
    compared with what was asked for; a list of events is one interleaving.  A
    turn that begins may read nothing (the database or the container engine
    cannot list, the channel to the backend is down): the token it took is gone
    all the same, and the turn is called dry. *)

From S2P Require Import Prelude.

(** ** One loop *)
Record lane := MkLane {
  token : bool;   (* the slot is full *)
  busy : bool;    (* the loop's goroutine is at work *)
  dry : bool;     (* the last turn read nothing *)
  asked : nat;    (* the writes when it was last asked *)
  tried : nat;    (* the writes when its last turn began *)
  seen : nat      (* the writes when the last turn began that read them *)
}.
(** The send of [Trigger], [TriggerIngress] and [PushNow]: a full slot is left. *)
Definition request (writes : nat) (l : lane) : lane := MkLane true (busy l) (dry l) writes (tried l) (seen l).
(** A turn that begins, and reads the tables or returns at once. *)
Definition turn (reads slot : bool) (writes : nat) (l : lane) : lane := MkLane slot true (negb reads) (asked l) writes (if reads then writes else seen l).
Definition take (reads : bool) (writes : nat) (l : lane) : lane := if busy l then l else if token l then turn reads false writes l else l.
Definition tick (reads : bool) (writes : nat) (l : lane) : lane := if busy l then l else turn reads (token l) writes l.
(** The loop does something else (telemetry, a token refresh). *)
Definition elsewhere (l : lane) : lane := if busy l then l else MkLane (token l) true (dry l) (asked l) (tried l) (seen l).
(** The snapshot that the connection's own goroutine sends when it comes up. *)
Definition beside (reads : bool) (writes : nat) (l : lane) : lane := MkLane (token l) (busy l) (dry l) (asked l) (tried l) (if reads then writes else seen l).
Definition finish (l : lane) : lane := MkLane (token l) false (dry l) (asked l) (tried l) (seen l).

(** ** The agent *)
Record loops := MkLoops { writes : nat; pass : lane; ingress : lane; push : lane; cancelled : bool }.
Definition idle : lane := MkLane false false false 0 0 0.
(** [Run] starts with a pass. *)
Definition start (reads : bool) : loops := MkLoops 0 (turn reads false 0 idle) idle idle false.
Definition Trigger (s : loops) : loops := MkLoops (writes s) (request (writes s) (pass s)) (ingress s) (push s) (cancelled s).
Definition TriggerIngress (s : loops) : loops := MkLoops (writes s) (pass s) (request (writes s) (ingress s)) (push s) (cancelled s).
Definition PushNow (s : loops) : loops := MkLoops (writes s) (pass s) (ingress s) (request (writes s) (push s)) (cancelled s).
Definition on_pass (f : lane -> lane) (s : loops) : loops := MkLoops (writes s) (f (pass s)) (ingress s) (push s) (cancelled s).
Definition on_ingress (f : lane -> lane) (s : loops) : loops := MkLoops (writes s) (pass s) (f (ingress s)) (push s) (cancelled s).
Definition on_push (f : lane -> lane) (s : loops) : loops := MkLoops (writes s) (pass s) (ingress s) (f (push s)) (cancelled s).
(** The end of [reconcile]: the ingress loop is asked, and the push loop when
    something changed; a pass that could not list returned before it. *)
Definition announce (changed : bool) (s : loops) : loops := if dry (pass s) then s else (if changed then PushNow else fun s => s) (TriggerIngress s).

Inductive event :=
| Write | Triggered | IngressTriggered | Pushed                                 (* by anyone *)
| PassTick (reads : bool) | PassTake (reads : bool) | PassEnds (changed : bool) (* the reconcile loop *)
| IngressTake (reads : bool) | IngressEnds                                      (* the ingress loop *)
| PushTick (reads : bool) | PushTake (reads : bool) | PushElse | PushEnds       (* the push loop *)
| Connected (reads : bool)                                                      (* the connection's goroutine *)
| WorkerEnds (flipped changed : bool)                                           (* the apply worker *)
| Cancel.
Definition exec (e : event) (s : loops) : loops :=
  let run f := if cancelled s then s else f s in
  match e with
  | Write => MkLoops (S (writes s)) (pass s) (ingress s) (push s) (cancelled s)
  | Triggered => Trigger s
  | IngressTriggered => TriggerIngress s
  | Pushed => PushNow s
  | PassTick reads => run (on_pass (tick reads (writes s)))
  | PassTake reads => run (on_pass (take reads (writes s)))
  | PassEnds changed => if busy (pass s) then announce changed (on_pass finish s) else s
  | IngressTake reads => run (on_ingress (take reads (writes s)))
  | IngressEnds => on_ingress finish s
  | PushTick reads => run (on_push (tick reads (writes s)))
  | PushTake reads => run (on_push (take reads (writes s)))
  | PushElse => run (on_push elsewhere)
  | PushEnds => on_push finish s
  | Connected reads => on_push (beside reads (writes s)) s
  | WorkerEnds flipped changed =>
      let s := if flipped then Trigger s else s in
      if changed then PushNow (TriggerIngress s) else s
  | Cancel => MkLoops (writes s) (pass s) (ingress s) (push s) true
  end.
(** The state after the events, newest first. *)
Definition after (first : bool) (l : list event) : loops := fold_right exec (start first) l.

(** ** No wake-up is lost *)
Definition awake (w : nat) (l : lane) : Prop :=
  seen l <= w /\ asked l <= w /\ (token l = true \/ asked l <= tried l) /\ (dry l = false -> tried l <= seen l).
Definition alert (s : loops) : Prop := awake (writes s) (pass s) /\ awake (writes s) (ingress s) /\ awake (writes s) (push s).

Section Lane.
Context (w : nat) (l : lane) (Hl : awake w l).
Ltac lane := revert Hl; unfold awake, request, take, tick, elsewhere, beside, finish, turn; destruct l as [t b d a tr sn]; cbn; intros (H1 & H2 & H3 & H4); repeat case_match; cbn; subst; intuition (try lia; try done).
Lemma awake_write : awake (S w) l. Proof. lane. Qed.
Lemma awake_request : awake w (request w l). Proof. lane. Qed.
Lemma awake_take reads : awake w (take reads w l). Proof. destruct reads; lane. Qed.
Lemma awake_tick reads : awake w (tick reads w l). Proof. destruct reads; lane. Qed.
Lemma awake_elsewhere : awake w (elsewhere l). Proof. lane. Qed.
Lemma awake_beside reads : awake w (beside reads w l). Proof. destruct reads; lane. Qed.
Lemma awake_finish : awake w (finish l). Proof. lane. Qed.
End Lane.
#[local] Hint Resolve awake_write awake_request awake_take awake_tick awake_elsewhere awake_beside awake_finish : awake.
Lemma alert_exec e s : alert s -> alert (exec e s).
Proof.
  intros (Hp & Hi & Hu). destruct e; unfold exec, announce, Trigger, TriggerIngress, PushNow, on_pass, on_ingress, on_push; repeat case_match;
    unfold alert; cbn [writes pass ingress push cancelled]; eauto 8 with awake.
Qed.
Lemma alert_after first l : alert (after first l).
Proof. induction l as [|e l IH]; [|by apply alert_exec]. unfold alert, awake. destruct first; cbn; intuition lia. Qed.

(** The asker's writes have been read. *)
Definition caught_up (a : nat) (l : lane) : Prop := a <= seen l.
(** The request can still be answered: it waits in the slot, or the turn that took it reads. *)
Definition pending (l : lane) : Prop := token l = true \/ dry l = false.
Lemma take_catches_up w l : awake w l -> pending l -> caught_up (asked l) (take true w (finish l)).
Proof. unfold awake, pending, caught_up, take, finish, turn. cbn. intros (H1 & H2 & H3 & H4) Hp. destruct (token l); cbn; [lia|]. destruct Hp as [?|Hd]; [done|]. specialize (H4 Hd). destruct H3; [done|lia]. Qed.
Lemma request_kept w l : awake w l -> token l = true \/ caught_up (asked l) l \/ (dry l = true /\ asked l <= tried l).
Proof. unfold awake, caught_up. intros (H1 & H2 & [H3|H3] & H4); [by left|right]. destruct (dry l); [by right|]. left. specialize (H4 eq_refl). lia. Qed.
Lemma ended_pass changed s : pass (exec (PassEnds changed) s) = finish (pass s) /\ writes (exec (PassEnds changed) s) = writes s /\ cancelled (exec (PassEnds changed) s) = cancelled s.
Proof. destruct s as [w [tp bp dp ap rp sp] i u c]. destruct bp, dp, changed; done. Qed.

Lemma turned_pass reads s : cancelled s = false -> pass (exec (PassTake reads) s) = take reads (writes s) (pass s).
Proof. intros H. cbn. by rewrite H. Qed.

(** C34: However the goroutines interleave, and whichever turns read nothing (the database or the engine cannot list, the channel is down), a request for a pass, an ingress apply or a push is in the slot, or the loop has read the asker's writes, or a turn that began after the request read nothing; a loop whose request is in the slot, or whose last turn read, has read the asker's writes as soon as it has ended what it does and its next turn reads; and after the next tick's pass that reads and the ingress loop's next turn that reads both have read every write, and so has the push loop when the pass changed something, when its own tick reads, or when the channel comes up and the snapshot reads. *)
Theorem no_lost_wakeup first l : let s := after first l in cancelled s = false ->
  (forall f, f ∈ [pass; ingress; push] -> token (f s) = true \/ caught_up (asked (f s)) (f s) \/ (dry (f s) = true /\ asked (f s) <= tried (f s))) /\
  (forall changed, pending (pass s) -> caught_up (asked (pass s)) (pass (exec (PassTake true) (exec (PassEnds changed) s)))) /\
  (pending (ingress s) -> caught_up (asked (ingress s)) (ingress (exec (IngressTake true) (exec IngressEnds s)))) /\
  (pending (push s) -> caught_up (asked (push s)) (push (exec (PushTake true) (exec PushEnds s)))) /\
  (forall changed changed', let s' := fold_left (fun s e => exec e s) [PassEnds changed; PassTick true; PassEnds changed'; IngressEnds; IngressTake true; PushEnds; PushTake true] s in
    seen (pass s') = writes s /\ seen (ingress s') = writes s /\ (changed' = true -> seen (push s') = writes s)) /\
  seen (push (exec (PushTick true) (exec PushEnds s))) = writes s /\ seen (push (exec (Connected true) s)) = writes s.
Proof.
  cbv zeta. destruct (alert_after first l) as (Hp & Hi & Hu). set (s := after first l) in *. intros Hc.
  split; [|split; [|split; [|split; [|split; [|split]]]]].
  - intros f Hf. repeat (apply elem_of_cons in Hf as [->|Hf]; [by eapply request_kept|]). by apply elem_of_nil in Hf.
  - intros changed Hw. destruct (ended_pass changed s) as (E1 & E2 & E3). rewrite turned_pass by congruence. rewrite E1, E2. by apply take_catches_up.
  - intros Hw. cbn. rewrite Hc. by apply take_catches_up.
  - intros Hw. cbn. rewrite Hc. by apply take_catches_up.
  - intros changed changed'. cbn [fold_left]. destruct s as [w [tp bp dp ap rp sp] [ti bi di ai ri si] [tu bu du au ru su] cc]. cbn in Hc. subst cc. by destruct bp, dp, changed, changed'.
  - cbn. by rewrite Hc.
  - done.
Qed.

(** A pass that cannot read the instances asks nobody, though the comment of the ingress loop says that every pass does. *)
Example failed_pass_silent : token (ingress (after false [PassEnds false])) = false.
Proof. reflexivity. Qed.
(** A push asked for while the channel is down: the request is gone, and the snapshot goes out when the channel comes up. *)
Example offline_push : let s := after true [PushEnds; PushTake false; Pushed; Write] in
  token (push s) = false /\ seen (push s) = 0 /\ seen (push (exec (Connected true) s)) = 1.
Proof. done. Qed.
(** A write that lands during a pass, with its trigger. *)
Example during_a_pass : let s := after true [PassTake true; PassEnds true; Triggered; Write] in seen (pass s) = 1 /\ token (ingress s) = true /\ token (push s) = true.
Proof. done. Qed.
(** Asked during the first pass, and answered by the next turn, after a pass that could not list. *)
Lemma no_lost_wakeup_witness : let s := after false [Triggered; Write] in cancelled s = false /\ pending (pass s) /\ seen (pass s) = 0 /\
  caught_up 1 (pass (exec (PassTake true) (exec (PassEnds true) s))).
Proof.
  split; [reflexivity|]. split; [left; reflexivity|]. split; [reflexivity|].
  destruct (no_lost_wakeup false [Triggered; Write] eq_refl) as (_ & H & _). apply (H true). left. reflexivity.
Defined.
