(* ===== verification/Start.v ===== *)
(** * How the agent starts: main of cmd/obacht-agent/main.go

    The steps of the process from its flags to the signal that ends it, with
    what each of them needs; [Agent] has the configuration and the token.  A
    goroutine runs from its [Starts] on, next to what follows.  Flags arrive
    parsed, the two addresses they may override with them; log lines are not
    steps. *)

From S2P Require Import Prelude GoStrings GoUrl Codec Json JsonEnc JsonDec UserKeys Store AuditLog Trust Agent.

(** ** Steps *)
Inductive object := Rec | Docker_ | ComposeDrv | IngMgr | IpcSrv | SyncerObj.
Inductive goroutine := IngressBootstrap | IpcServe | WsRun | SyncerRun | RecRun.
Inductive action :=
| MkdirAll (path : string) | OpenStore (path : string) | OpenAudit (path : string) | AppendStart (version : string)
| Bootstraps | Pings | Sets (o : object) (field : string) | Starts (g : goroutine) | RunsOnce | ImportsKeys | ReadsKeys | RegistersFiles | RegistersLogs.
#[export] Instance object_eq : EqDecision object.
Proof. solve_decision. Defined.
#[export] Instance goroutine_eq : EqDecision goroutine.
Proof. solve_decision. Defined.
#[export] Instance action_eq : EqDecision action.
Proof. solve_decision. Defined.
Inductive outcome := Exits (code : Z) | Waits.

Record flags := MkFlags { configPath : string; oneShot : bool }.
(** What the surroundings answer: the configuration, whether directories, the
    store, its schema version, the audit file and the socket can be had, the
    token, and whether the one pass succeeds. *)
Record surroundings := MkSurroundings {
  loaded : res config_error Config; state_dir : bool; store_opens : bool; schema_reads : bool; audit_opens : bool;
  token_got : option Token; pass_ok : bool; listens : bool
}.
Definition build_version (v : string) : string := trim_prefix v "v".
(** Steps, and how the process goes on. *)
Definition trace : Type := list action * outcome.
Definition step (a : action) (t : trace) : trace := (a :: t.1, t.2).
Definition need (ok : bool) (t : trace) : trace := if ok then t else ([], Exits 1).

Definition channel_on (c : Config) (authToken : string) : bool := negb (bool_decide (URL_ (Server c) = "")) && negb (bool_decide (authToken = "")).
Local Notation "a ;> t" := (step a t) (at level 65, right associativity).
Local Notation "b ?> t" := (need b t) (at level 65, right associativity).
(** The backend channel, when there is a server and a token. *)
Definition channel (t : trace) : trace :=
  Sets SyncerObj "compose" ;> Sets SyncerObj "wgIPOverride" ;> Sets Rec "notify" ;> Sets Rec "prog" ;> Sets Docker_ "prog" ;> Sets ComposeDrv "prog" ;>
  ReadsKeys ;> Sets SyncerObj "verifier" ;> Sets IpcSrv "onUserKeysChanged" ;> Sets IpcSrv "onSystemSettingChanged" ;>
  RegistersFiles ;> RegistersLogs ;> Starts WsRun ;> Starts SyncerRun ;> t.
Definition daemon (c : Config) (authToken : string) (s : surroundings) : trace :=
  ImportsKeys ;> Sets IpcSrv "ingress" ;> Sets IpcSrv "audit" ;> Sets IpcSrv "version" ;> Sets IpcSrv "userKeysDir" ;> listens s ?> Starts IpcServe ;>
  Sets ComposeDrv "pullImage" ;> (if channel_on c authToken then channel else id) (Starts RecRun ;> ([], Waits)).
Definition ingress_on (c : Config) (t : trace) : trace := if Disabled (Ingress_ c) then t else Sets Rec "ingress" ;> Starts IngressBootstrap ;> t.
Definition run (version : string) (f : flags) (s : surroundings) : trace :=
  match loaded s with
  | Err _ => ([], Exits 1)
  | Ok c =>
      MkdirAll (Dir (StateDB (Paths c))) ;> state_dir s ?> OpenStore (StateDB (Paths c)) ;> store_opens s ?> schema_reads s ?>
      OpenAudit (P_AuditLog (Paths c)) ;> audit_opens s ?> AppendStart (build_version version) ;> Bootstraps ;> Pings ;>
      Sets Rec "socketPath" ;> Sets Rec "hostGatewayIP" ;> Sets Rec "audit" ;> Sets Rec "ready" ;> MkdirAll (ComposeRoot (Paths c)) ;> Sets Rec "compose" ;>
      Sets IngMgr "hostGateway" ;> ingress_on c
      (if oneShot f then RunsOnce ;> ([], if pass_ok s then Exits 0 else Exits 1) else daemon c (token_in_use (token_got s)) s)
  end.
(** [main]: the subcommand that verifies a release comes before the flags. *)
Definition main (verify_release : list string -> Z) (args : list string) (version : string) (f : flags) (s : surroundings) : trace :=
  match args with
  | sub :: rest => if bool_decide (sub = "verify-release") then ([], Exits (verify_release rest)) else run version f s
  | [] => run version f s
  end.

(** ** The order *)

(** No [a] after a [b]. *)
Fixpoint never_after (a b : action) (l : list action) : Prop :=
  match l with [] => True | x :: l' => (x = b -> a ∉ l') /\ never_after a b l' end.
(** What the comments of the setters ask for: wired before the goroutine that
    reads the field runs, keys imported before they are read. *)
Definition contracts : list (action * action) :=
  map (fun field => (Sets Rec field, Starts RecRun)) ["socketPath"; "hostGatewayIP"; "audit"; "ready"; "compose"; "ingress"; "notify"; "prog"] ++
  map (fun field => (Sets Rec field, RunsOnce)) ["socketPath"; "hostGatewayIP"; "audit"; "ready"; "compose"; "ingress"] ++
  map (fun field => (Sets ComposeDrv field, Starts RecRun)) ["pullImage"; "prog"] ++
  map (fun field => (Sets IpcSrv field, Starts IpcServe)) ["ingress"; "audit"; "version"; "userKeysDir"] ++
  map (fun field => (Sets SyncerObj field, Starts SyncerRun)) ["compose"; "wgIPOverride"; "verifier"] ++
  [(Sets Docker_ "prog", Starts RecRun); (Sets IngMgr "hostGateway", Starts IngressBootstrap); (RegistersFiles, Starts WsRun); (RegistersLogs, Starts WsRun); (ImportsKeys, ReadsKeys); (ImportsKeys, Starts IpcServe)].
Definition never_afterb (a b : action) (l : list action) : bool :=
  (fix go l := match l with [] => true | x :: l' => (negb (bool_decide (x = b)) || negb (bool_decide (a ∈ l'))) && go l' end) l.
Lemma never_afterb_ok a b l : never_afterb a b l = true -> never_after a b l.
Proof.
  induction l as [|x l IH]; [done|]. cbn. rewrite andb_true_iff, orb_true_iff, !negb_true_iff, !bool_decide_eq_false. intros [H1 H2]. split; [|by apply IH].
  intros He. by destruct H1.
Qed.

Lemma never_all l : forallb (fun p => never_afterb p.1 p.2 l) contracts = true -> Forall (fun p => never_after p.1 p.2 l) contracts.
Proof. intros H. rewrite forallb_forall in H. rewrite Forall_forall. intros p Hp. apply never_afterb_ok, H. by apply list_elem_of_In. Qed.

(** Whatever the surroundings answer, every contract holds (the two callbacks of the local API that are set late have a lock of their own), the keys are imported before they are read or served; the channel and the local API are started at most in the daemon, the channel exactly when there is a server and a token and the socket is there; and the loop is the last thing to start. *)
Theorem start_order version f s : let t := (run version f s).1 in
  Forall (fun p => never_after p.1 p.2 t) contracts /\
  (Starts WsRun ∈ t -> exists c, loaded s = Ok c /\ channel_on c (token_in_use (token_got s)) = true /\ oneShot f = false) /\
  (Starts IpcServe ∈ t -> oneShot f = false /\ audit_opens s = true) /\
  ((run version f s).2 = Waits -> last t = Some (Starts RecRun)).
Proof.
  cbv zeta. unfold run. destruct f as [path one], s as [lo sd so sr ao tg po li]. cbn [loaded state_dir store_opens schema_reads audit_opens token_got pass_ok listens oneShot].
  destruct lo as [c|e]; [|split; [by apply (never_all [])|]; split; [by intros ?%elem_of_nil|]; split; [by intros ?%elem_of_nil|done]].
  destruct sd, so, sr, ao, (Disabled (Ingress_ c)) eqn:Hd, one, po, li, (channel_on c (token_in_use tg)) eqn:Hch; unfold daemon, ingress_on; rewrite ?Hd; cbn [loaded state_dir store_opens schema_reads audit_opens token_got pass_ok listens oneShot need]; rewrite ?Hch;
    (split; [apply never_all; reflexivity|]); (split; [|split]); cbn [step channel fst snd]; try (intros H; exfalso; revert H; apply (bool_decide_unpack (~ _)); reflexivity); try done; eauto.
Qed.

(** ** A device with a server *)
Definition demo_config : Config := MkConfig (MkServer "https://api.x" "d1" "") "" (MkPaths "/s/agent.db" "/r/a.sock" "" "" "/l/a.log" "/c" "/k") (MkIngress false "" "" 80 443 false) "" (MkDocker "" "" "").
Definition demo_surroundings (disk : bool) : surroundings := MkSurroundings (Ok demo_config) true disk true true (Some (MkToken "jwt" "")) true true.
Example demo_starts : omap (fun a => match a with Starts g => Some g | _ => None end) (main (fun _ => 2%Z) [] "v1.0" (MkFlags "" false) (demo_surroundings true)).1 = [IngressBootstrap; IpcServe; WsRun; SyncerRun; RecRun] /\
  (run "v1.0" (MkFlags "" false) (demo_surroundings false)).2 = Exits 1.
Proof. vm_compute. done. Qed.
(** The synchroniser registers its handlers and its connect callback in its own goroutine, which starts after the client's: a connection that is up before has no registration, and its events no handler, though [On] is to be called before [Run]. *)
Example handlers_may_be_late : never_afterb (Starts SyncerRun) (Starts WsRun) (run "v1.0" (MkFlags "" false) (demo_surroundings true)).1 = false.
Proof. vm_compute. done. Qed.
