(* ===== verification/Diskcheck.v ===== *)
(** * The free space guard: internal/diskcheck/diskcheck.go

    The floor with its override, the requirement of a template, and the text
    of a refusal.  Unsigned 64-bit integers; the conversion to float64 and its
    one decimal are written out. *)

From S2P Require Import Prelude GoStrings Codec Utf8 Json.
From S2P Require Container.

Section diskcheck.
(** The environment variable OBACHT_MIN_FREE_DISK_BYTES, and block size and
    available blocks of the file system, if it can be asked. *)
Context (env : string) (statfs : option (Z * Z)).
Definition DefaultMinFreeBytes : Z := 2 * 2 ^ 30.
Definition parse_uint64 (s : string) : option Z :=
  if bool_decide (s = "") then None else n ← digits_value s; if (n <? 2 ^ 64)%Z then Some n else None.
Definition MinFreeBytes : Z :=
  if bool_decide (env = "") then DefaultMinFreeBytes else
  match parse_uint64 env with Some n => if (0 <? n)%Z then n else DefaultMinFreeBytes | None => DefaultMinFreeBytes end.
Definition FreeBytes : option Z := '(bsize, bavail) ← statfs; Some ((bsize * bavail) mod 2 ^ 64)%Z.

(** [float64(b)]: 53 bits, ties to even; then [%.1f] of the quotient by a
    power of two, which is exact. *)
Definition round_div (a d : Z) : Z :=
  let q := (a / d)%Z in
  let r := (a mod d)%Z in
  if (2 * r <? d)%Z then q else if (d <? 2 * r)%Z then (q + 1)%Z else if Z.even q then q else (q + 1)%Z.
Definition float64 (b : Z) : Z := if (b <? 2 ^ 53)%Z then b else let u := (2 ^ (Z.log2 b - 52))%Z in (round_div b u * u)%Z.
(** The divisor and its exponent: the loop of [humanize]. *)
Fixpoint scale (fuel : nat) (n div : Z) (exp : nat) : option (Z * nat) :=
  match fuel with
  | O => None
  | S fuel => if (n <? 1024)%Z then Some (div, exp) else scale fuel (n / 1024) (div * 1024) (S exp)
  end.
Definition humanize (b : Z) : option string :=
  if (b <? 1024)%Z then Some (itoa b +:+ " B") else
  '(div, exp) ← scale 6 (b / 1024) 1024 0; c ← String.get exp "KMGTPE";
  let t := round_div (float64 b * 10) div in Some (itoa (t / 10) +:+ "." +:+ itoa (t mod 10) +:+ " " +:+ str1 c +:+ "iB").

Inductive space_error := TemplateNeeds (free need : Z) | FloorNeeds (free need : Z).
Definition EnsureFreeAtLeast (minBytes : Z) : res space_error unit :=
  match FreeBytes with
  | None => Ok tt
  | Some free =>
      let floor := MinFreeBytes in
      let need := if (floor <? minBytes)%Z then minBytes else floor in
      if (need <=? free)%Z then Ok tt else
      if (need =? minBytes)%Z && (floor <? minBytes)%Z then Err (TemplateNeeds free need) else Err (FloorNeeds free need)
  end.
Definition EnsureFree : res space_error unit := EnsureFreeAtLeast 0.
End diskcheck.
Definition space_text (e : space_error) : option string :=
  match e with
  | TemplateNeeds free need => f ← humanize free; n ← humanize need;
      Some ("insufficient disk space: " +:+ f +:+ " free, template requires " +:+ n +:+ " free. Free up space or choose a smaller option and retry")
  | FloorNeeds free need => f ← humanize free; n ← humanize need;
      Some ("insufficient disk space: " +:+ f +:+ " free, need at least " +:+ n +:+ " " +:+ encode_rune 8212 +:+ " free up space and retry")
  end.

(** ** The text is always there *)
Lemma scale_ends fuel : forall n div exp, (0 <= n < 1024 ^ Z.of_nat fuel)%Z -> 0 < fuel ->
  exists div' exp', scale fuel n div exp = Some (div', exp') /\ exp <= exp' <= exp + (fuel - 1) /\ div' = (div * 1024 ^ Z.of_nat (exp' - exp))%Z /\
    (exp' = exp \/ 1024 ^ Z.of_nat (exp' - exp) <= n)%Z /\ (n < 1024 * 1024 ^ Z.of_nat (exp' - exp))%Z.
Proof.
  induction fuel as [|fuel IH]; intros n div exp Hn Hf; [lia|]. cbn [scale]. destruct (Z.ltb_spec n 1024) as [Hs|Hs].
  - exists div, exp. rewrite Nat.sub_diag. cbn. repeat split; [lia|lia|lia|by left|lia].
  - destruct fuel as [|fuel]; [cbn in Hn; lia|]. assert (Hq : (0 <= n / 1024 < 1024 ^ Z.of_nat (S fuel))%Z).
    { split; [apply Z.div_pos; lia|]. apply Z.div_lt_upper_bound; [lia|]. assert (He : (1024 ^ Z.of_nat (S (S fuel)) = 1024 * 1024 ^ Z.of_nat (S fuel))%Z) by (rewrite (Nat2Z.inj_succ (S fuel)); apply Z.pow_succ_r; lia). lia. }
    destruct (IH (n / 1024)%Z (div * 1024)%Z (S exp) Hq) as (div' & exp' & -> & He & -> & Hlo & Hhi); [lia|]. exists (div * 1024 * 1024 ^ Z.of_nat (exp' - S exp))%Z, exp'.
    assert (Hp : (1024 ^ Z.of_nat (exp' - exp) = 1024 * 1024 ^ Z.of_nat (exp' - S exp))%Z).
    { replace (exp' - exp) with (S (exp' - S exp)) by lia. rewrite Nat2Z.inj_succ, Z.pow_succ_r by lia. done. }
    rewrite Hp. pose proof (Z.mul_div_le n 1024). pose proof (Z.mul_succ_div_gt n 1024). repeat split; [lia|lia|lia| |lia]. right. destruct Hlo as [->|Hlo]; [rewrite Nat.sub_diag; cbn; lia|lia].
Qed.
(** Whatever the number of bytes, the unit is one of the six and the number before it is at least one and below 1024: the index into the letters never leaves them. *)
Theorem humanize_total b : (0 <= b < 2 ^ 64)%Z -> exists t, humanize b = Some t.
Proof.
  intros Hb. unfold humanize. destruct (b <? 1024)%Z eqn:E; [by eexists|]. destruct (scale_ends 6 (b / 1024) 1024 0) as (div & exp & -> & He & _); [|lia|].
  { split; [apply Z.div_pos; lia|]. apply Z.div_lt_upper_bound; [lia|]. change (1024 ^ Z.of_nat 6)%Z with (2 ^ 60)%Z. lia. }
  cbn [mbind option_bind]. assert (Hc : is_Some (String.get exp "KMGTPE")) by (do 6 (destruct exp as [|exp]; [by eexists|]); lia). destruct Hc as [c ->]. cbn. by eexists.
Qed.
Example humanize_samples : map humanize [0; 1023; 1024; 1536; 2147483648; 2 ^ 64 - 1]%Z = [Some "0 B"; Some "1023 B"; Some "1.0 KiB"; Some "1.5 KiB"; Some "2.0 GiB"; Some "16.0 EiB"].
Proof. vm_compute. reflexivity. Qed.
(** Just below a unit the rounded number is 1024. *)
Example humanize_edge : humanize (2 ^ 20 - 1) = Some "1024.0 KiB".
Proof. vm_compute. reflexivity. Qed.

(** ** The decision *)
Lemma ensure_free_iff env statfs min : EnsureFreeAtLeast env statfs min = Ok tt <-> forall free, FreeBytes statfs = Some free -> (MinFreeBytes env <= free /\ min <= free)%Z.
Proof.
  unfold EnsureFreeAtLeast. destruct (FreeBytes statfs) as [free|]; [|by split]. cbv zeta. split.
  - intros H f [= <-]. destruct (Z.ltb_spec (MinFreeBytes env) min), (Z.leb_spec (if (MinFreeBytes env <? min)%Z then min else MinFreeBytes env) free); repeat case_match; simplify_eq; lia.
  - intros H. specialize (H free eq_refl). destruct (Z.ltb_spec (MinFreeBytes env) min); case_match; [done|lia|done|lia].
Qed.
(** The driver's check is this one. *)
Lemma driver_agrees {E : Type} `{Container.Engine E} env statfs min (e : E) : Container.free_bytes e = FreeBytes statfs ->
  (Container.EnsureFreeAtLeast (MinFreeBytes env) min e = Ok tt <-> EnsureFreeAtLeast env statfs min = Ok tt).
Proof.
  intros Hf. rewrite ensure_free_iff. unfold Container.EnsureFreeAtLeast. rewrite Hf. destruct (FreeBytes statfs) as [free|]; [|by split]. cbv zeta. unfold guard_err.
  destruct (Z.ltb_spec (MinFreeBytes env) min) as [Hm|Hm]; (case_match eqn:Hc; [apply Z.ltb_lt in Hc|apply Z.ltb_ge in Hc]); split; try done; try (intros _ ? [= <-]; lia); intros H'; specialize (H' _ eq_refl); lia.
Qed.
