(* ===== verification/Migrate.v ===== *)
(** * Opening the database: internal/store/store.go

    The migration files, the table that remembers them and the transactions
    they run in; [Store] models the tables this yields.  What a migration does
    to the tables is a parameter, the SQL being carried out by SQLite; so are
    the faults of the connection.  A transaction that is rolled back, or whose
    commit fails, leaves the database as it was. *)

From S2P Require Import Prelude GoStrings.

Inductive migrate_error :=
| CreateTracking | CheckMigration (name : string) | ReadMigration (name : string) | BeginTx (name : string)
| ApplyMigration (name : string) | RecordMigration (name : string) | CommitMigration (name : string).
Inductive open_error := OpenSqlite | PingSqlite | Migrating (e : migrate_error) | ReopenSqlite | PingAfterReopen.

Section migrate.
(** The tables, what the body of a file does to them, and the embedded files:
    name, whether it is a directory, body. *)
Context {T : Type} (exec : string -> T -> option T) (entries : list (string * bool)) (body : string -> option string).
(** The file on disk: the tables and, once there, schema_migrations. *)
Record database := MkDatabase { tables : T; schema_migrations : option (gset string) }.

(** Where the connection may fail: a point, at a migration. *)
Inductive point := Check | Begin | Record_ | Commit.
Context (faulty : point -> string -> bool) (cannot_create : bool).

Definition migration_names : list string := sort_strings (map fst (filter (fun e => e.2 = false /\ has_suffix e.1 ".sql" = true) entries)).
(** One round of the loop for a name; the applied names are [done]. *)
Definition migrate_one (name : string) (d : T * gset string) : res migrate_error (T * gset string) :=
  guard_err (faulty Check name) (CheckMigration name) ;;!
  if bool_decide (name ∈ d.2) then Ok d else
  match body name with
  | None => Err (ReadMigration name)
  | Some sql =>
      guard_err (faulty Begin name) (BeginTx name) ;;!
      match exec sql d.1 with
      | None => Err (ApplyMigration name)
      | Some t => guard_err (faulty Record_ name) (RecordMigration name) ;;! guard_err (faulty Commit name) (CommitMigration name) ;;! Ok (t, {[name]} ∪ d.2)
      end
  end.
(** The loop keeps what the rounds before an error committed. *)
Fixpoint migrate_loop (names : list string) (d : T * gset string) : res migrate_error unit * (T * gset string) :=
  match names with
  | [] => (Ok tt, d)
  | name :: names => match migrate_one name d with Ok d => migrate_loop names d | Err e => (Err e, d) end
  end.
Definition migrate (db : database) : res migrate_error unit * database :=
  if cannot_create then (Err CreateTracking, db) else
  let '(r, d) := migrate_loop migration_names (tables db, default ∅ (schema_migrations db)) in (r, MkDatabase d.1 (Some d.2)).

(** [Open]: the handles that are open with it, the database, and the error. *)
Definition Open (opens pings reopens repings : bool) (db : database) : res open_error unit * nat * database :=
  if negb opens then (Err OpenSqlite, 0, db) else
  if negb pings then (Err PingSqlite, 0, db) else
  match migrate db with
  | (Err e, db) => (Err (Migrating e), 0, db)
  | (Ok _, db) => if negb reopens then (Err ReopenSqlite, 0, db) else if negb repings then (Err PingAfterReopen, 0, db) else (Ok tt, 1, db)
  end.
End migrate.
Arguments database : clear implicits.
Arguments MkDatabase {T} _ _.
Arguments tables {T} _.
Arguments schema_migrations {T} _.

(** ** The specification: every file once, in order *)
Section spec.
Context {T : Type} (exec : string -> T -> option T) (body : string -> option string).
(** The tables after the files [names] on [t]. *)
Fixpoint run_all (names : list string) (t : T) : option T :=
  match names with [] => Some t | name :: names => sql ← body name; t' ← exec sql t; run_all names t' end.
(** The files [done] were applied to a database that began as [base]. *)
Definition reflects (base : T) (done : list string) (d : T * gset string) : Prop := run_all done base = Some d.1 /\ d.2 = list_to_set done.

Lemma run_all_app n1 n2 t : run_all (n1 ++ n2) t = t' ← run_all n1 t; run_all n2 t'.
Proof. revert t. induction n1 as [|n n1 IH]; intros t; [done|]. cbn. destruct (body n) as [sql|]; [|done]. cbn. destruct (exec sql t) as [t'|]; [|done]. cbn. apply IH. Qed.

Context (faulty : point -> string -> bool).
Lemma migrate_one_done name d : name ∈ d.2 -> faulty Check name = false -> migrate_one exec body faulty name d = Ok d.
Proof. intros Hd Hf. unfold migrate_one. rewrite Hf. cbn. by rewrite bool_decide_eq_true_2. Qed.
Lemma migrate_one_error name d d' : migrate_one exec body faulty name d = Ok d' -> d' = d /\ name ∈ d.2 \/
  name ∉ d.2 /\ d'.2 = {[name]} ∪ d.2 /\ exists sql, body name = Some sql /\ exec sql d.1 = Some d'.1.
Proof.
  unfold migrate_one. rewrite guard_seq_Ok. intros [_ H]. case_bool_decide as Hin; [left; by simplify_eq|right]. destruct (body name) as [sql|]; [|done].
  rewrite guard_seq_Ok in H. destruct H as [_ H]. destruct (exec sql d.1) as [t|] eqn:Ht; [|done]. rewrite !guard_seq_Ok in H. destruct H as (_ & _ & [= <-]). eauto.
Qed.
Lemma reflects_next base done d name sql t : reflects base done d -> body name = Some sql -> exec sql d.1 = Some t ->
  reflects base (done ++ [name]) (t, {[name]} ∪ d.2).
Proof.
  intros [Hr Hs] Hb He. split.
  - rewrite run_all_app, Hr. cbn. rewrite Hb. cbn. rewrite He. done.
  - cbn. rewrite Hs, list_to_set_app_L. set_solver.
Qed.
(** A run over files of which the first ones are applied applies the next ones, up to the end or to an error. *)
Lemma migrate_loop_reflects base : forall names done rest d, NoDup (done ++ names ++ rest) -> reflects base done d ->
  exists k, reflects base (done ++ take k names) (migrate_loop exec body faulty names d).2 /\ ((migrate_loop exec body faulty names d).1 = Ok tt -> k = length names).
Proof.
  induction names as [|name names IH]; intros done rest d Hnd Hr; [exists 0; by rewrite app_nil_r|]. cbn [migrate_loop].
  destruct (migrate_one exec body faulty name d) as [d'|e] eqn:E; [|exists 0; rewrite app_nil_r; by split].
  apply migrate_one_error in E as [[-> Hin]|(Hin & Hs & sql & Hb & He)].
  - destruct Hr as [_ Hs]. exfalso. rewrite Hs, elem_of_list_to_set in Hin. apply NoDup_app in Hnd as (_ & Hx & _). apply (Hx name Hin). by left.
  - assert (Hd : d' = (d'.1, {[name]} ∪ d.2)) by (destruct d'; cbn in *; congruence). rewrite Hd. pose proof (reflects_next _ _ _ _ _ _ Hr Hb He) as Hr'.
    destruct (IH (done ++ [name]) rest _ ltac:(by rewrite <- app_assoc) Hr') as (k & Hk & Hl). exists (S k). cbn. rewrite <- app_assoc in Hk. split; [done|]. intros H. by rewrite Hl.
Qed.
(** The same over a list whose beginning is the applied files. *)
Lemma migrate_loop_resumes base done names d : NoDup (done ++ names) -> reflects base done d ->
  exists k, reflects base (done ++ take k names) (migrate_loop exec body faulty (done ++ names) d).2 /\
    ((migrate_loop exec body faulty (done ++ names) d).1 = Ok tt -> k = length names).
Proof.
  intros Hnd Hr. assert (Hsplit : forall l, (forall n, n ∈ l -> n ∈ d.2) -> exists r, migrate_loop exec body faulty (l ++ names) d = match r with Some e => (Err e, d) | None => migrate_loop exec body faulty names d end).
  { induction l as [|n l IH]; intros Hl; [by exists None|]. cbn [app migrate_loop]. destruct (migrate_one exec body faulty n d) as [d'|e] eqn:E; [|by exists (Some e)].
    apply migrate_one_error in E as [[-> _]|(Hno & _)]; [apply IH; set_solver|]. destruct Hno. apply Hl. by left. }
  destruct (Hsplit done) as [[e|] ->].
  { intros n Hn. destruct Hr as [_ ->]. by apply elem_of_list_to_set. }
  - exists 0. rewrite app_nil_r. by split.
  - apply (migrate_loop_reflects base names done [] d); [by rewrite app_nil_r|done].
Qed.
Lemma migrate_loop_skips l names d : (forall p n, faulty p n = false) -> (forall n, n ∈ l -> n ∈ d.2) ->
  migrate_loop exec body faulty (l ++ names) d = migrate_loop exec body faulty names d.
Proof.
  intros Hf. induction l as [|n l IH]; intros Hl; [done|]. cbn [app migrate_loop]. rewrite migrate_one_done; [|apply Hl; by left|done]. apply IH. set_solver.
Qed.
Lemma migrate_loop_ends names d : (forall p n, faulty p n = false) -> forall t, NoDup names -> (forall n, n ∈ names -> n ∉ d.2) -> run_all names d.1 = Some t ->
  (migrate_loop exec body faulty names d).1 = Ok tt.
Proof.
  intros Hf. revert d. induction names as [|name names IH]; intros d t Hnd Hno Hr; [done|]. apply NoDup_cons in Hnd as [Hn Hnd]. cbn in Hr.
  destruct (body name) as [sql|] eqn:Hb; [|done]. cbn in Hr. destruct (exec sql d.1) as [t'|] eqn:He; [|done]. cbn in Hr.
  cbn [migrate_loop]. unfold migrate_one. rewrite !Hf. cbn [guard_err rbind]. rewrite bool_decide_eq_false_2 by (apply Hno; by left). rewrite Hb, He.
  eapply IH; [done| |exact Hr]. cbn. intros n Hin. specialize (Hno n ltac:(by right)). set_solver.
Qed.
End spec.

(** ** The life of a database file *)

(** It begins empty; an agent starts on it, with any faults, or a newer agent
    comes with further files, named after the ones so far. *)
Inductive history {T} (exec : string -> T -> option T) (body : string -> option string) (base : T) : list string -> database T -> Prop :=
| created names : NoDup names -> history exec body base names (MkDatabase base None)
| started entries faulty cannot db : history exec body base (migration_names entries) db ->
    history exec body base (migration_names entries) (migrate exec entries body faulty cannot db).2
| upgraded names newer db : history exec body base names db -> NoDup (names ++ newer) -> history exec body base (names ++ newer) db.

Definition in_step {T} (exec : string -> T -> option T) body (base : T) (names : list string) (db : database T) (k : nat) : Prop :=
  k <= length names /\ reflects exec body base (take k names) (tables db, default ∅ (schema_migrations db)).
Lemma migrate_in_step {T} (exec : string -> T -> option T) body base entries faulty cannot db k :
  NoDup (migration_names entries) -> in_step exec body base (migration_names entries) db k ->
  exists k', in_step exec body base (migration_names entries) (migrate exec entries body faulty cannot db).2 k' /\
    ((migrate exec entries body faulty cannot db).1 = Ok tt -> k' = length (migration_names entries)).
Proof.
  intros Hnd [Hk Hr]. unfold migrate. destruct cannot; [exists k; by split|]. set (names := migration_names entries) in *.
  rewrite <- (take_drop k names) in Hnd. destruct (migrate_loop_resumes exec body faulty _ _ _ _ Hnd Hr) as (j & Hj & Hl). rewrite take_drop in Hj, Hl.
  rewrite take_take_drop in Hj. destruct (migrate_loop exec body faulty names _) as [r d]. cbn [fst snd] in *. exists ((k + j) `min` length names). split.
  - split; [lia|]. replace (take ((k + j) `min` length names) names) with (take (k + j) names); [by destruct d|].
    destruct (decide (k + j <= length names)) as [?|?]; [by rewrite Nat.min_l by lia|]. by rewrite !take_ge by lia.
  - intros H. rewrite (Hl H), length_drop. lia.
Qed.
Lemma history_in_step {T} (exec : string -> T -> option T) body base names db : history exec body base names db -> NoDup names /\ exists k, in_step exec body base names db k.
Proof.
  induction 1 as [names Hnd|entries faulty cannot db Hh [Hnd [k Hk]]|names newer db Hh [_ [k [Hk Hr]]] Hnd].
  - split; [done|]. exists 0. split; [lia|]. by split.
  - split; [done|]. destruct (migrate_in_step exec body base entries faulty cannot db k Hnd Hk) as (k' & ? & _). by exists k'.
  - split; [done|]. exists k. split; [rewrite length_app; lia|]. by rewrite take_app_le.
Qed.

(** C19: However often the agent was started before, with whatever faults and whatever upgrades, the database holds a beginning of the migration files, each applied once and in the order of the names, and the table of migrations names exactly these; a start that succeeds leaves what one clean run of all files on the empty database leaves; and a start without faults succeeds whenever such a clean run does. *)
Theorem migrations_resume {T} (exec : string -> T -> option T) body base entries db :
  history exec body base (migration_names entries) db ->
  (exists done rest, migration_names entries = done ++ rest /\ run_all exec body done base = Some (tables db) /\ default ∅ (schema_migrations db) = list_to_set done) /\
  (forall faulty cannot db', migrate exec entries body faulty cannot db = (Ok tt, db') ->
     run_all exec body (migration_names entries) base = Some (tables db') /\ schema_migrations db' = Some (list_to_set (migration_names entries))) /\
  (forall t, run_all exec body (migration_names entries) base = Some t ->
     migrate exec entries body (fun _ _ => false) false db = (Ok tt, MkDatabase t (Some (list_to_set (migration_names entries))))).
Proof.
  intros Hh. apply history_in_step in Hh as [Hnd [k Hk]].
  assert (Hok : forall faulty cannot db', migrate exec entries body faulty cannot db = (Ok tt, db') ->
     run_all exec body (migration_names entries) base = Some (tables db') /\ schema_migrations db' = Some (list_to_set (migration_names entries))).
  { intros faulty cannot db' H. destruct (migrate_in_step exec body base entries faulty cannot db k Hnd Hk) as (k' & [_ [Hr Hs]] & Hl).
    rewrite H in Hr, Hs, Hl. rewrite (Hl eq_refl), take_ge in Hr, Hs by lia. cbn in *. split; [done|]. rewrite <- Hs.
    revert H. unfold migrate. destruct cannot; [done|]. destruct (migrate_loop _ _ _ _ _) as [r d]. by intros [= _ <-]. }
  destruct Hk as [Hk [Hr Hs]]. cbn [fst snd] in Hr, Hs. split; [|split; [done|]].
  - exists (take k (migration_names entries)), (drop k (migration_names entries)). by rewrite take_drop.
  - intros t Ht. assert (Hend : (migrate exec entries body (fun _ _ => false) false db).1 = Ok tt).
    { unfold migrate. set (names := migration_names entries) in *. rewrite <- (take_drop k names) in Ht, Hnd |- *. rewrite run_all_app, Hr in Ht.
      rewrite migrate_loop_skips; [|done|cbn; intros n Hn; rewrite Hs; by apply elem_of_list_to_set]. apply NoDup_app in Hnd as (_ & Hx & Hnd).
      assert (He := migrate_loop_ends exec body (fun _ _ => false) (drop k names) (tables db, default ∅ (schema_migrations db)) (fun _ _ => eq_refl) t Hnd).
      destruct (migrate_loop _ _ _ _ _) as [r d]. apply He; [|done]. cbn. intros n Hn. rewrite Hs, elem_of_list_to_set. intros Hn'. by apply (Hx n). }
    destruct (migrate exec entries body _ false db) as [r db'] eqn:E. cbn in Hend. subst r. destruct (Hok _ _ _ E) as [Hr' Hs']. rewrite Ht in Hr'. destruct db'; cbn in *. congruence.
Qed.

(** ** Two files, a fault at the second, and an upgrade *)
Definition demo_exec (sql : string) (t : list string) : option (list string) := if bool_decide (sql = "bad") then None else Some (t ++ [sql]).
Definition demo_body (name : string) : option string := if has_suffix name ".sql" then Some ("run " +:+ name) else None.
Definition demo_entries : list (string * bool) := [("0002_b.sql", false); ("old", true); ("0001_a.sql", false); ("notes.md", false)].
Definition demo_faulty (p : point) (name : string) : bool := match p with Commit => bool_decide (name = "0002_b.sql") | _ => false end.
Example demo_fault : migrate demo_exec demo_entries demo_body demo_faulty false (MkDatabase [] None) =
  (Err (CommitMigration "0002_b.sql"), MkDatabase ["run 0001_a.sql"] (Some {["0001_a.sql"]})).
Proof. vm_compute. reflexivity. Qed.
Lemma demo_history : history demo_exec demo_body [] (migration_names demo_entries) (migrate demo_exec demo_entries demo_body demo_faulty false (MkDatabase [] None)).2.
Proof. apply started, created. apply (bool_decide_unpack _). vm_compute. exact I. Qed.
Lemma migrations_resume_witness : (migrate demo_exec demo_entries demo_body (fun _ _ => false) false (migrate demo_exec demo_entries demo_body demo_faulty false (MkDatabase [] None)).2).1 = Ok tt.
Proof.
  destruct (migrations_resume demo_exec demo_body [] demo_entries _ demo_history) as (_ & _ & H). rewrite (H ["run 0001_a.sql"; "run 0002_b.sql"]); [reflexivity|]. vm_compute. reflexivity.
Defined.
