(* ===== verification/TelemetryMac.v ===== *)
(** * Host metrics of a Mac: internal/telemetry/collector_darwin*.go

    The processor's ticks and the memory in use, as Mach reports them, the
    size of the memory, the disk and the addresses.  The build without cgo
    has neither ticks nor pages.  Ticks are counters of 32 bits that wrap
    around; page counts are of 32 bits too. *)

From S2P Require Import Prelude GoStrings Telemetry.

Local Open Scope Z_scope.

(** User, system, idle and nice ticks; active, wired and compressor pages and the size of a page. *)
Definition ticks : Type := Z * Z * Z * Z.
Definition vm_pages : Type := Z * Z * Z * Z.
Definition obacht_mem_used (vm : option vm_pages) : option Z := '(active, wired, compressed, page) ← vm; Some (((active + wired + compressed) * page) mod 2 ^ 64).
Definition cpuTicks (t : option ticks) : option (Z * Z) := '(user, system, idle, nice) ← t; Some ((user + system + idle + nice) mod 2 ^ 64, idle).
(** The second reading is taken a moment later when there is no previous one. *)
Definition cpuUsage (ticks1 ticks2 : option ticks) (p : cpu_prev) : option (Z * Z) * cpu_prev :=
  match cpuTicks ticks1 with
  | None => (None, p)
  | Some (t1, i1) =>
      match p with
      | None => match cpuTicks ticks2 with None => (None, None) | Some (t2, i2) => (Some (cpuPct t1 i1 t2 i2), Some (t2, i2)) end
      | Some (t0, i0) => (Some (cpuPct t0 i0 t1 i1), Some (t1, i1))
      end
  end.

(** What the system answers; with [cgo] false Mach is not asked. *)
Record mac_readings := MkMacReadings { cgo : bool; mac_ticks1 : option ticks; mac_ticks2 : option ticks; memsize : option Z; vm : option vm_pages; mac_fs : option (Z * Z * Z) }.
Record MacSample := MkMacSample { mac_cpu : option (Z * Z); ram_used : option Z; ram_total : option Z; mac_disk : option (Z * Z); mac_wg : option quad; mac_local : option quad; mac_public : option string }.
Definition mac_Collect `{Host} (r : mac_readings) (c : collector) : MacSample * collector :=
  let '(cpu, p) := if cgo r then cpuUsage (mac_ticks1 r) (mac_ticks2 r) (prev c) else (None, prev c) in
  let total := t ← memsize r; if 0 <? t then Some t else None in
  let used := t ← total; u ← (if cgo r then obacht_mem_used (vm r) else None); Some (Z.min u t) in
  let '(wg, local, public, n) := collect_net (net c) in
  (MkMacSample cpu used total (readDisk (mac_fs r)) wg local public, MkCollector p n).

(** ** The counters wrap around *)
Definition wrap32 (z : Z) : Z := z mod 2 ^ 32.
Definition advance (t d : ticks) : ticks :=
  let '(u, s, i, n) := t in let '(du, ds, di, dn) := d in (wrap32 (u + du), wrap32 (s + ds), wrap32 (i + di), wrap32 (n + dn)).
Definition tick_range (t : ticks) : Prop := let '(u, s, i, n) := t in (0 <= u < 2 ^ 32 /\ 0 <= s < 2 ^ 32) /\ (0 <= i < 2 ^ 32 /\ 0 <= n < 2 ^ 32).
(** The time between two readings: fewer ticks than a counter holds. *)
Definition elapsed (d : ticks) : Prop := let '(u, s, i, n) := d in (0 <= u /\ 0 <= s) /\ (0 <= i /\ 0 <= n) /\ u + s + i + n < 2 ^ 32.

Lemma wrap32_cases x d : 0 <= x < 2 ^ 32 -> 0 <= d < 2 ^ 32 -> x + d < 2 ^ 32 /\ wrap32 (x + d) = x + d \/ 2 ^ 32 <= x + d /\ wrap32 (x + d) = x + d - 2 ^ 32.
Proof. intros Hx Hd. unfold wrap32. destruct (Z.lt_ge_cases (x + d) (2 ^ 32)); [left; split; [done|]; apply Z.mod_small; lia|right]. split; [done|]. symmetry. apply Z.mod_unique_pos with 1; lia. Qed.
Lemma int64_small z : - 2 ^ 63 <= z < 2 ^ 63 -> int64 z = z.
Proof. intros Hz. unfold int64. rewrite Z.mod_small by lia. lia. Qed.
(** What [cpuPct] makes of small counters. *)
Lemma cpuPct_small t1 i1 t2 i2 : 0 <= t1 < 2 ^ 62 -> 0 <= i1 < 2 ^ 62 -> 0 <= t2 < 2 ^ 62 -> 0 <= i2 < 2 ^ 62 ->
  cpuPct t1 i1 t2 i2 = if t2 - t1 <=? 0 then (0, 1) else (Z.max 0 (t2 - t1 - (i2 - i1)), t2 - t1).
Proof. intros. unfold cpuPct. rewrite (int64_small t1), (int64_small t2), (int64_small i1), (int64_small i2), (int64_small (t2 - t1)), (int64_small (i2 - i1)), int64_small by lia. done. Qed.

(** The processor's share on a Mac is exact, busy ticks over all ticks, unless a counter wrapped around since the last reading; then it is reported as zero. *)
Theorem mac_cpu_exact t d : tick_range t -> elapsed d ->
  forall t1 i1 t2 i2, cpuTicks (Some t) = Some (t1, i1) -> cpuTicks (Some (advance t d)) = Some (t2, i2) ->
  let '(du, ds, di, dn) := d in cpuPct t1 i1 t2 i2 = (0, 1) \/ cpuPct t1 i1 t2 i2 = (du + ds + dn, du + ds + di + dn).
Proof.
  destruct t as [[[u s] i] n], d as [[[du ds] di] dn]. intros [[Hu Hs] [Hi Hn]] [[Hdu Hds] [[Hdi Hdn] He]] t1 i1 t2 i2. unfold cpuTicks, advance. cbn [mbind option_bind].
  destruct (wrap32_cases u du Hu ltac:(lia)) as [[? ->]|[? ->]], (wrap32_cases s ds Hs ltac:(lia)) as [[? ->]|[? ->]], (wrap32_cases i di Hi ltac:(lia)) as [[? ->]|[? ->]], (wrap32_cases n dn Hn ltac:(lia)) as [[? ->]|[? ->]];
    intros [= <- <-] [= <- <-]; rewrite !Z.mod_small by lia; rewrite cpuPct_small by lia; case_match eqn:Hc; try (by left); apply Z.leb_gt in Hc; try lia; right; f_equal; lia.
Qed.
(** Nor does it report more memory in use than there is, or memory in use without its size. *)
Theorem mac_ram_bounded `{Host} r c : match ram_used (mac_Collect r c).1, ram_total (mac_Collect r c).1 with
  | Some used, Some total => 0 <= used <= total | Some _, None => False | None, _ => True end.
Proof.
  unfold mac_Collect. destruct (if cgo r then _ else _) as [cpu p]. destruct (collect_net _) as [[[wg local] public] n]. cbn.
  destruct (memsize r) as [t|]; [|done]. cbn. destruct (Z.ltb_spec 0 t); [|done]. cbn.
  destruct (cgo r), (vm r) as [[[[a w] z] pg]|]; try done. cbn. pose proof (Z.mod_pos_bound ((a + w + z) * pg) (2 ^ 64)). lia.
Qed.
(** A reading after the user's counter wrapped around. *)
Example mac_wrap : omap (fun t => cpuTicks (Some t)) [(2 ^ 32 - 10, 5, 100, 0); advance (2 ^ 32 - 10, 5, 100, 0) (20, 0, 30, 0)] = [(2 ^ 32 + 95, 100); (145, 130)] /\
  cpuPct (2 ^ 32 + 95) 100 145 130 = (0, 1).
Proof. vm_compute. done. Qed.
