(* ===== verification/Device.v ===== *)
(** * The whole device: where a row and what runs come from

    The parts share the database.  A step is a frame of the backend, a turn of
    the agent's own loops or a request of a caller that is no administrator,
    each with whatever the rest of the state is: the frames of [Channel], the
    loops of [ReconcilerProps] and the requests of [Ipc] interleave in any
    order.  What the device wants is traced back through them. *)

From S2P Require Import Prelude GoStrings Codec Utf8 Json JsonDec UserKeys Store StoreInv AuditLog Trust Materialize SignedMut Dispatch DispatchProps Observed Channel.
From S2P Require Import WorkQueue Prober Reconciler ReconcilerProps.
From S2P Require Fs Files FilesProps Logs Ipc IpcProps Container ComposeRun.
Import (hints) Container.

(** What a row asks for, apart from whether it is to run. *)
Definition wish (r : instance_row) : string * string * string * string := (r_template r, r_runtime r, r_version r, r_config r).
Definition wish_of (i : Instance) : string * string * string * string := (TemplateID i, Runtime i, Version i, ConfigJSON i).

Section device.
Context (P : platform) {disk : Fs.Disk} {wiring : Ipc.Wiring} (keys : option (list UserKey)) (own : string).
Context {loop : Loop} {E : Type} `{Container.EngineLaws E} `{ComposeRun.ComposeHost E} `{SystemDriver E} `{ManagedList E} `{IngressLaws E}.

Inductive device_step : DB -> DB -> Prop :=
| by_frame ing now log_ok frame d : device_step (y_db (d_sync d)) (y_db (d_sync (on_frame P keys ing own now log_ok frame d)))
| by_agent (w w' : World E) : agent_step w w' -> device_step (Reconciler.db w) (Reconciler.db w')
| by_outsider r s : IpcProps.outsider r -> device_step (Ipc.v_db s) (Ipc.v_db (Ipc.serve r s).2).

(** The user signed [m]: one of the pinned keys, over its canonical bytes, for this device. *)
Definition signed (m : Mutation) : Prop :=
  exists ks k raw mj canon sig, keys = Some ks /\ k ∈ ks /\ signed_part raw = Some mj /\ decode_mutation mj = (m, false) /\ canonical_mutation mj = Ok canon /\
    ed25519 P (Pub k) canon sig = true /\ DeviceID m = own.
(** [m] is about instance [i]. *)
Definition names (m : Mutation) (i : string) : Prop :=
  field (str_field "instance_id") (params_members m) = Some i \/
  exists p, params_members m ≫= decode_upsert P = Some p /\ P_InstanceID p = i.
(** What the user and the registry agreed to: a signed mutation with a manifest that a key of the registry signed, made into a row. *)
Definition vetted (i : string) (w : string * string * string * string) : Prop :=
  exists m db inst p manifest sig extra, signed m /\ build_instance P m db = Ok inst /\ ID inst = i /\ wish_of inst = w /\
    params_members m ≫= decode_upsert P = Some p /\ DecodeBase64 (P_ManifestB64 p) = Some manifest /\ DecodeBase64 (P_ManifestSigB64 p) = Some sig /\
    LoadFromDir (p_trustDir P) = Ok extra /\ accepted_by (p_unmarshal P) (p_minisign P) (EmbeddedKeys ++ extra) manifest sig.

(** ** One step *)

(** The row of [i] is kept, or a mutation [m] about [i] made it: from its old wish, or from a manifest. *)
Definition made_by (m : Mutation) (db : DB) (i : string) (o o' : option instance_row) : Prop :=
  names m i /\ exists r', o' = Some r' /\
    ((exists r, o = Some r /\ wish r' = wish r) \/ exists inst, build_instance P m db = Ok inst /\ ID inst = i /\ wish_of inst = wish r').
Definition row_step (m : Mutation) (db db' : DB) : Prop :=
  forall i, instances db' !! i = instances db !! i \/ made_by m db i (instances db !! i) (instances db' !! i).

Lemma same_rows m db db' : instances db' = instances db -> row_step m db db'.
Proof. intros He i. left. by rewrite He. Qed.

(** Rows that a store call leaves alone. *)
Lemma store_call_rows {A} (f : DB -> res store_error A * DB) y k :
  (forall db, instances (f db).2 = instances db) -> (forall y', instances (y_db (k y').2) = instances (y_db y')) ->
  instances (y_db (store_call f y k).2) = instances (y_db y).
Proof. intros Hf Hk. unfold store_call. specialize (Hf (y_db y)). destruct (f (y_db y)) as [[a|e] db]; cbn in *; [by rewrite Hk|done]. Qed.
Lemma UpsertDomain_rows d s now db : instances (UpsertDomain d s now db).2 = instances db.
Proof. unfold UpsertDomain. by repeat case_match. Qed.
Lemma SetDomainBasicAuth_rows d u h now db : instances (SetDomainBasicAuth d u h now db).2 = instances db.
Proof. unfold SetDomainBasicAuth. by repeat case_match. Qed.
Lemma UpsertBinding_rows b db : instances (UpsertBinding b db).2 = instances db.
Proof. unfold UpsertBinding. cbv zeta. by repeat case_match. Qed.

(** Writing an instance changes its row only, to what it says. *)
Lemma UpsertInstance_rows inst now db i :
  instances (UpsertInstance inst now db).2 !! i = instances db !! i \/
  i = ID inst /\ exists r', instances (UpsertInstance inst now db).2 !! i = Some r' /\ wish r' = wish_of inst.
Proof.
  unfold UpsertInstance. case_match; [by left|]. case_match; [by left|]. cbn [snd write set_instances instances].
  destruct (decide (i = ID inst)) as [->|Hne]; [|left; by rewrite lookup_insert_ne]. right. split; [done|]. rewrite lookup_insert_eq. eexists. split; [done|].
  by destruct (instances db !! ID inst).
Qed.
Lemma upsert_call_rows inst now y i :
  instances (y_db (store_call (UpsertInstance inst now) y finish_op).2) !! i = instances (y_db y) !! i \/
  i = ID inst /\ exists r', instances (y_db (store_call (UpsertInstance inst now) y finish_op).2) !! i = Some r' /\ wish r' = wish_of inst.
Proof. unfold store_call. pose proof (UpsertInstance_rows inst now (y_db y) i) as Hu. by destruct (UpsertInstance inst now (y_db y)) as [[[]|e] db]. Qed.

Lemma set_desired_rows m id st now y : field (str_field "instance_id") (params_members m) = Some id -> row_step m (y_db y) (y_db (set_desired id st now y).2).
Proof.
  intros Hn i. unfold set_desired, GetInstance. destruct (instances (y_db y) !! id) as [r|] eqn:Hr; [|by left].
  destruct (upsert_call_rows (MkInstance id (r_template r) (r_runtime r) (r_version r) st (r_config r) (default "" (r_observed_state r)) (default "" (r_observed_json r))
    (read_time (r_observed_at r)) (r_service_ready r) (read_time (r_ready_at r)) (Some (r_created r)) (Some (r_updated r))) now y i) as [Hs|(-> & r' & Hr' & Hw)]; [by left|right].
  split; [by left|]. exists r'. split; [exact Hr'|]. left. exists r. split; [done|]. by rewrite Hw.
Qed.

Lemma upsert_rows m now y : row_step m (y_db y) (y_db (dispatchInstanceUpsert P m now y).2).
Proof.
  intros i. unfold dispatchInstanceUpsert. destruct (build_instance P m (y_db y)) as [inst|] eqn:Hb; [|by left].
  destruct (upsert_call_rows inst now y i) as [Hs|(-> & r' & Hr' & Hw)]; [by left|right].
  apply build_instance_Ok in Hb as Hp. destruct Hp as (p & _ & _ & _ & Hp & Hid & _).
  split; [right; by exists p|]. exists r'. split; [exact Hr'|]. right. by exists inst.
Qed.
Lemma dispatch_rows ing m now y : row_step m (y_db y) (y_db (dispatchSignedMutation P ing m now y).2).
Proof.
  assert (Hg : forall y', instances (y_db (finish_op (if ing then reloaded y' else y')).2) = instances (y_db y')) by (intros; by destruct ing).
  unfold dispatchSignedMutation. cbv zeta. repeat case_match; try (by apply same_rows); try (by apply set_desired_rows); try (by apply upsert_rows);
    try (apply same_rows, store_call_rows; [|done]; intros db; auto using UpsertDomain_rows, SetDomainBasicAuth_rows, UpsertBinding_rows).
Qed.

(** A frame changes rows as one signed mutation says, or not at all. *)
Lemma frame_rows ing now log_ok frame d : let db := y_db (d_sync d) in let db' := y_db (d_sync (on_frame P keys ing own now log_ok frame d)) in
  instances db' = instances db \/ exists m db1, signed m /\ instances db1 = instances db /\ row_step m db1 db'.
Proof.
  cbv zeta. unfold on_frame. destruct (carried frame) as [[event args]|]; [|by left]. unfold call_handler.
  destruct (bool_decide _); [left; by destruct (Files.handle _ _ _)|]. destruct (bool_decide _); [by left|]. cbn [d_sync]. unfold on_event.
  destruct (bool_decide _); [left; destruct (y_audit (d_sync d)) as [w|]; [rewrite Append_Some by done; by destruct (row_ok log_ok)|done]|].
  destruct (bool_decide _); [|by left]. destruct args as [|raw rest]; [by left|].
  destruct (handle_runs P keys ing own raw rest now log_ok (d_sync d)) as (r & e & y1 & y2 & Ha & -> & _ & Hc).
  destruct (audited_same _ _ _ _ _ _ Ha) as [_ [Hi _]]. cbn [y_db emitSignedMutationResult].
  destruct Hc as [(db & _ & [Hs _] & _ & _ & -> & _)|(ks & m & k & db & Hk & Hv & -> & _)]; [left; rewrite Hi; exact Hs|right].
  exists m, db. apply Verify_same in Hv as Hs. destruct Hs as (_ & [Hs _] & _). apply Verify_signed in Hv as (mj & canon & sig & Hin & Hpart & Hdec & Hcan & Hsig & Hdev).
  split; [by exists ks, k, raw, mj, canon, sig|]. split; [done|]. intros i. rewrite Hi. apply (dispatch_rows ing m now (with_db db (d_sync d))).
Qed.

(** A template's report and the agent's loops keep every row. *)
Lemma outsider_rows r s : IpcProps.outsider r -> preserves (Ipc.v_db s) (Ipc.v_db (Ipc.serve r s).2).
Proof.
  intros Ho. destruct (IpcProps.serve_confined r Ho s) as [_ [->|(id & token & state & payload & _ & _ & ->)]]; [reflexivity|].
  apply (frame_alter (R := preserves)). by intros [].
Qed.

(** ** Any number of steps *)

(** The row of [i] stays unless a signed mutation is about [i], and it has its old wish or a vetted one. *)
Definition origin (db db' : DB) (i : string) : Prop :=
  ((forall m, signed m -> ~ names m i) -> row_kept (instances db !! i) (instances db' !! i)) /\
  forall r', instances db' !! i = Some r' -> (exists r, instances db !! i = Some r /\ wish r' = wish r) \/ vetted i (wish r').
Lemma preserves_origin db db' i : preserves db db' -> origin db db' i.
Proof.
  intros Hp. specialize (Hp i). split; [done|]. intros r' Hr'. rewrite Hr' in Hp. destruct (instances db !! i) as [r|]; [|done]. left. exists r. split; [done|].
  unfold row_kept, core in Hp. unfold wish. congruence.
Qed.
Lemma step_origin db db' i : device_step db db' -> origin db db' i.
Proof.
  intros [ing now log_ok frame d|w w' Hs|r s Ho]; [|by apply preserves_origin, agent_step_preserves|by apply preserves_origin, outsider_rows].
  destruct (frame_rows ing now log_ok frame d) as [He|(m & db1 & Hm & He & Hr)]; cbv zeta in *; [by apply preserves_origin, (frame_same (R := preserves))|].
  specialize (Hr i). unfold origin. rewrite <- He. split.
  - intros Hno. destruct Hr as [->|[Hn _]]; [by destruct (instances db1 !! i)|]. by destruct (Hno m).
  - intros r' Hr'. destruct Hr as [Hs|(_ & r'' & Hr'' & Hc)]; [left; exists r'; split; [congruence|done]|].
    assert (r'' = r') as -> by congruence. destruct Hc as [Hc|(inst & Hb & Hid & Hw)]; [by left|right].
    apply build_instance_Ok in Hb as Hp. destruct Hp as (p & manifest & sig & extra & Hpar & _ & _ & Hman & Hsig & Hext & Hacc & _).
    by exists m, db1, inst, p, manifest, sig, extra.
Qed.
Lemma origin_trans db1 db2 db3 i : origin db1 db2 i -> origin db2 db3 i -> origin db1 db3 i.
Proof.
  intros [Hk1 Hw1] [Hk2 Hw2]. split.
  - intros Hno. specialize (Hk1 Hno). specialize (Hk2 Hno). unfold row_kept, core in *. destruct (instances db1 !! i), (instances db2 !! i), (instances db3 !! i); try done; congruence.
  - intros r3 Hr3. destruct (Hw2 r3 Hr3) as [(r2 & Hr2 & He)|]; [|by right]. rewrite He. by apply Hw1.
Qed.
Lemma steps_origin db db' i : rtc device_step db db' -> origin db db' i.
Proof.
  induction 1 as [db|db1 db2 db3 H12 _ IH]; [by apply preserves_origin|]. eapply origin_trans; [by apply step_origin|done].
Qed.

(** C1: While no administrator uses the local API, the device wants what its user signed: however the frames of the backend, the turns of the agent's loops and the requests of templates interleave, an instance that no signed mutation is about keeps its row (it may only leave, when it was marked removed before), and the template, version, runtime and configuration of every row are those it had in the beginning, or were made from a manifest that the registry signed, for a mutation about it that a pinned key signed for this device. *)
Theorem wishes_are_signed db db' : rtc device_step db db' -> forall i,
  ((forall m, signed m -> ~ names m i) -> row_kept (instances db !! i) (instances db' !! i)) /\
  (forall r', instances db' !! i = Some r' -> (exists r, instances db !! i = Some r /\ wish r' = wish r) \/ vetted i (wish r')).
Proof. intros Hs i. by apply steps_origin. Qed.

(** C2: And what runs was vetted: when, after any such history, applying a
    container instance (its identifier of letters, digits, dashes and
    underscores) turns its observed state to installed, its container runs; it
    was created just now for a specification with the image of the row's
    configuration, with that image, command, network, environment, mounts and
    ports, or it was there before with the hash of that specification, and then,
    if the driver had made it, what it was created with serves a specification
    of the same hash (the same one, if SHA-256 has no collision).  And that
    configuration was there in the beginning, or was made from a manifest that
    the registry signed for a mutation that a pinned key signed for this
    device. *)
Theorem only_vetted_runs db0 (w w' : World E) now inst obs c : rtc device_step db0 (Reconciler.db w) -> inst ∈ ListInstances (Reconciler.db w) ->
  Container.plain_name (Container.container_name (ID inst)) -> observed_of (Reconciler.db w) (ID inst) <> Some "installed" ->
  applyContainer now inst obs w = (c, w') -> observed_of (Reconciler.db w') (ID inst) = Some "installed" ->
  ((exists r, instances db0 !! ID inst = Some r /\ wish r = wish_of inst) \/ vetted (ID inst) (wish_of inst)) /\
  exists parsed spec, Container.ParseSpec (ConfigJSON inst) = Ok parsed /\ Container.Image spec = Container.Image parsed /\
    runs_spec (Container.container_name (ID inst)) spec (machine w) (machine w').
Proof.
  intros Hs Hl Hp Hno Ha Ho. split; [|by apply (installed_is_running now inst obs w c w')].
  apply ListInstances_read in Hl as (r & Hr & Hinst). destruct (steps_origin _ _ (ID inst) Hs) as [_ Hw].
  assert (He : wish r = wish_of inst) by (rewrite Hinst; done). destruct (Hw r Hr) as [(r0 & Hr0 & He')|Hv]; [left; exists r0; split; [done|congruence]|right; by rewrite <- He].
Qed.
End device.

(** ** A small device *)
#[local] Existing Instance FilesProps.demo_disk.
#[local] Existing Instance IpcProps.demo.
Notation toy := Container.toy.
(** It has no compose command and no services. *)
#[local] Instance toy_compose : ComposeRun.ComposeHost toy := {|
  ComposeRun.make_dir _ e := (Ok tt, e); ComposeRun.read_content _ _ := None; ComposeRun.file_exists _ _ := false; ComposeRun.open_trunc _ e := (Ok tt, e);
  ComposeRun.f_write _ _ e := (Ok tt, e); ComposeRun.f_sync _ e := (Ok tt, e); ComposeRun.f_close _ e := (Ok tt, e); ComposeRun.rename _ _ e := (Ok tt, e);
  ComposeRun.unlink _ e := e; ComposeRun.remove_all _ e := (Ok tt, e); ComposeRun.read_dir _ _ := Ok []; ComposeRun.docker _ e := (Some "no docker", "", e);
  ComposeRun.ctx_err _ := None; ComposeRun.report_starting _ e := e |}.
#[local] Instance toy_system : SystemDriver toy := {| sys_apply _ _ e := (None, e); sys_remove _ _ e := (None, e); sys_gc _ e := e |}.
#[local] Instance toy_managed : ManagedList toy := {| get_managed _ := Ok (200%Z, Ok []) |}.
#[local] Instance toy_ingress : IngressApplier toy := {| ingress_Apply s := s |}.
#[local] Instance toy_ingress_laws : IngressLaws toy.
Proof. intros s. reflexivity. Defined.

(** The user signs an install; the backend delivers it. *)
Definition install_frame : string :=
  bq "42[`agent:signed_mutation`," +:+ envelope "instance.upsert" "{`instance_id`:`web2`,`template_id`:`t`,`user_config`:{`pass`:`pw`},`manifest_b64`:`bQ==`,`manifest_sig_b64`:`cw==`}" +:+ "]".
Definition before : device := MkDevice demo_state FilesProps.disk0 [].
Definition after : device := on_frame demo_platform (Some [sample_key]) true "d1" 1010 Logged install_frame before.
Definition installed_db : DB := y_db (d_sync after).
Definition pass_after : World toy := (reconcile (loop := demo_loop) (fun _ => quiet_world) 1020 true (world_of installed_db (∅ : toy))).2.
Example installed_now : map (fun i => (ID i, ObservedState i)) (ListInstances (Reconciler.db pass_after)) = [("web", ""); ("web2", "installed")].
Proof. vm_compute. reflexivity. Qed.
Notation demo_step := (device_step demo_platform (Some [sample_key]) "d1" (loop := demo_loop) (E := toy)).
Lemma install_history : rtc demo_step (y_db demo_state) installed_db.
Proof. apply rtc_once. apply (by_frame demo_platform (Some [sample_key]) "d1" (E := toy) true 1010 Logged install_frame before). Defined.
Definition web2_wish : string * string * string * string := match instances installed_db !! "web2" with Some r => wish r | None => ("", "", "", "") end.
Lemma wishes_are_signed_witness : vetted demo_platform (Some [sample_key]) "d1" "web2" web2_wish.
Proof.
  assert (Hs : rtc demo_step (y_db demo_state) (Reconciler.db pass_after)).
  { eapply rtc_r; [apply install_history|]. apply (by_agent demo_platform (Some [sample_key]) "d1" (world_of installed_db (∅ : toy)) pass_after). apply a_pass. }
  destruct (wishes_are_signed demo_platform (Some [sample_key]) "d1" _ _ Hs "web2") as [_ Hw].
  destruct (instances (Reconciler.db pass_after) !! "web2") as [r|] eqn:Hr; [|by vm_compute in Hr].
  assert (He : wish r = web2_wish) by (vm_compute in Hr; injection Hr as <-; vm_compute; reflexivity). rewrite <- He.
  destruct (Hw r eq_refl) as [(r0 & Hr0 & _)|Hv]; [by vm_compute in Hr0|exact Hv].
Defined.
Definition web2_up : bool * World toy := applyContainer (loop := demo_loop) 1030 (stored "web2" installed_db) ∅ (world_of installed_db (∅ : toy)).
Lemma only_vetted_runs_witness : vetted demo_platform (Some [sample_key]) "d1" "web2" (wish_of (stored "web2" installed_db)) /\
  exists parsed b, Container.ParseSpec (ConfigJSON (stored "web2" installed_db)) = Ok parsed /\
    Container.made (machine web2_up.2) "obacht-web2" = Some b /\ Container.cb_Image b = Container.Image parsed.
Proof.
  destruct (only_vetted_runs demo_platform (Some [sample_key]) "d1" (loop := demo_loop) _ (world_of installed_db (∅ : toy)) web2_up.2 1030 (stored "web2" installed_db) ∅ web2_up.1 install_history)
    as [Ho (parsed & spec & Hps & Hi & x & _ & _ & _ & Hmade)].
  - apply list_elem_of_In. vm_compute. right. by left.
  - vm_compute. reflexivity.
  - by vm_compute.
  - exact (surjective_pairing web2_up).
  - vm_compute. reflexivity.
  - assert (Hid : ID (stored "web2" installed_db) = "web2") by (vm_compute; reflexivity). rewrite Hid in Ho, Hmade. split.
    + destruct Ho as [(r0 & Hr0 & _)|Ho]; [vm_compute in Hr0; discriminate Hr0|exact Ho].
    + destruct Hmade as [(b & Hm & Hb & _)|[He _]].
      * exists parsed, b. split; [exact Hps|]. split; [exact Hm|congruence].
      * exfalso. apply (f_equal (fun e : toy => match e !! "obacht-web2" with Some _ => true | None => false end)) in He. vm_compute in He. discriminate He.
Defined.
