(* ===== verification/Stubs.v ===== *)
(** * Platforms without drivers: the files named _other.go

    On systems that are neither Linux nor macOS the system driver does nothing
    and gives no error, no service is listed and no telemetry is collected. *)

From S2P Require Import Prelude Host GoStrings Codec Json Store Trust Materialize Dispatch DispatchProps WorkQueue Prober Reconciler ReconcilerProps.
From S2P Require SystemSpec SystemParse Services Telemetry.

Section stubs.
Context {E : Type}.
Definition Apply (instanceID : string) (spec : SystemSpec.Spec) (e : E) : option string * E := (None, e).
Definition Remove (instanceID : string) (spec : SystemSpec.Spec) (e : E) : option string * E := (None, e).
Definition Status (unitName : string) (e : E) : string := "".
Definition GarbageCollect (keep : list string) (e : E) : E := e.
Definition listCustomServicesImpl : list Services.ServiceInfo := [].
Definition Collect (e : E) : res string Telemetry.Sample := Err "telemetry not supported on this platform".
Definition stub_driver : SystemDriver E := {| sys_apply := Apply; sys_remove := Remove; sys_gc := GarbageCollect |}.

(** A system instance in the database of such a device counts as installed after a pass though nothing was asked of the machine. *)
Lemma stub_pretends {loop : Loop} now inst (w : World E) spec : DesiredState inst = DesiredInstalled -> SystemParse.ParseSpec (ConfigJSON inst) = Ok spec ->
  SystemSpec.ExclusivityGroup spec = "" -> SystemSpec.Services spec = [] -> is_Some (instances (db w) !! ID inst) ->
  let '(converged, w') := reconcileSystem (H1 := stub_driver) now inst w in converged = true /\ machine w' = machine w /\ observed_of (db w') (ID inst) = Some "installed".
Proof.
  intros Hd Hp Hg Hsv [r Hr]. unfold reconcileSystem. rewrite bool_decide_eq_true_2 by done. rewrite Hp. cbv zeta. rewrite Hg, Hsv. change (emptyb "") with true. cbn -[set_observed observed_of].
  split; [done|]. split; [done|]. rewrite observed_set. change (instances (db (set_machine (machine w) w))) with (instances (db w)). by rewrite Hr.
Qed.
End stubs.

(** But none comes in over the backend channel: a signed install of one is refused there. *)
Lemma stub_refused P m db p manifest : p_goos P <> "linux" -> p_goos P <> "darwin" -> params_members m ≫= decode_upsert P = Some p ->
  DecodeBase64 (P_ManifestB64 p) = Some manifest -> RuntimeType (p_yaml_string P) manifest = "system" -> is_ok (build_instance P m db) = false.
Proof.
  intros Hl Hd Hp Hm Hr. destruct (build_instance P m db) as [inst|] eqn:Hb; [|done].
  apply build_instance_Ok in Hb as (p' & manifest' & sig & extra & Hp' & _ & _ & Hm' & _ & _ & _ & Hs & _).
  assert (p' = p) as -> by congruence. assert (manifest' = manifest) as -> by congruence. revert Hs. unfold check_system.
  rewrite bool_decide_eq_true_2 by done. cbn [negb]. rewrite bool_decide_eq_false_2 by done. cbn [negb andb]. by rewrite bool_decide_eq_false_2.
Qed.
